(* ===== verification/_CoqProject ===== *)
-Q . S2P
Prelude.v
RgzSort.v
RgzGeometry.v
RgzRegion.v
RgzState.v
RgzBlit.v
RgzScreen.v
DlWords.v
DlField.v
DlState.v
DlReloc.v
DlSymtab.v
DlLoad.v
DlCinit.v
DlModule.v
DlResources.v
DlSections.v
DlDebugList.v
HwcModel.v
HwcLayers.v
HwcGeometry.v
HwcPrepare.v
HwcOverlays.v
HwcChoice.v
HwcPlan.v
HwcFrames.v
HwcEvents.v
HwcSamples.v
HwcCorners.v
HwcUevents.v
HwcRun.v
HwcDisplay.v
HwcShown.v
PolicyManager.v
PolicyRun.v
PolicyTable.v
PolicySamples.v
ActivityMonitor.v
QosRegistry.v
ResourceManager.v
RmList.v
RmLoads.v
RmPolicy.v
RmSamples.v
OmxCore.v
OmxSamples.v
OmxInstances.v
TfErrors.v
TfStorage.v
TfSectors.v
TfStorageRuns.v
TfStorageSamples.v
TfManifest.v
TfItems.v
TfCheck.v
TfUtf8.v
TfDocuments.v
TfManifestSamples.v
TfObjects.v
TfRings.v
TfTables.v
G711Component.v
G711States.v
G711Data.v
G711Idle.v
G711Samples.v
