(* ===== verification/Prelude.v ===== *)
(** * Verification library of the OMAP3 hardware-support repository

    The repository holds the user-space hardware support of an Android device
    with a TI OMAP3.  These of its parts are the subject of this library: the
    hardware composer (src/hwc), with the 2D regionizer it calls (rgz_2d.c); of
    the DSP bridge (src/dspbridge) the dynamic loader and the registry of
    resources; of the OpenMAX system (src/omx/system) the core, the policy
    manager and the resource manager, which asks the policy manager and the
    registry; of the components that the core loads the G.711 decoder
    (src/omx/audio/src/openmax_il/g711_dec); and of the support of the secure
    world (src/security) the daemon (tf_daemon), which keeps its files, with the
    parser of its property files, and the tables of the PKCS#11 library.

    ** The 2D regionizer

    The composer hands the regionizer the layers of a frame.  [rgz_in] accepts
    or rejects them, finds what changed since the frames that are still in the
    other buffers, and cuts the screen into horizontal regions and these into
    subregions, so that a layer covers a subregion entirely or not at all.
    [rgz_out_region] then emits, for the subregions that are dirty, the entries
    a BltsVille engine executes.

    - RgzSort.v: the array helpers [rgz_bsort] and [rgz_bunique].
    - RgzGeometry.v: rectangles, layers, rotation ([rgz_get_rotated_view]),
      source rectangles ([rgz_get_src_rect]), the validation of a layer.
    - RgzRegion.v: [rgz_gen_blitregions] and [rgz_in_hwc].
    - RgzState.v: what is kept between frames, [rgz_handle_dirty_region],
      [rgz_in_hwccheck], [rgz_in], [rgz_release].
    - RgzBlit.v: the entries ([rgz_hwc_subregion_copy], [.._blend],
      [rgz_out_clrdst]), [rgz_hwc_subregion_blit], [rgz_out_region],
      [rgz_out_bvcmd_paint].
    - RgzScreen.v: where an entry draws, and both functions run on a frame.

    The state [rgz_t] of the code is the record [rgz_t]; a function that
    changes it returns the new one.  The arrays of fixed size are lists with
    checked accesses: a result [None] of a definition is an access the C program
    would make out of bounds, and the theorems show that it does not occur.
    Coordinates are integers without wrap-around: the int of the code holds those
    of screens and buffers.  The constants of the Android
    and BltsVille headers, which are not in the repository, are the fields of
    the classes [HwcApi] and [BvApi], with what the code needs of them (distinct
    values, disjoint bits) in [BvLaws]; the memory behind the buffer handles is
    an argument [hmem].

    The theorems: sorting and uniqueness are what their names say and
    terminate; each pixel of the screen lies in one subregion and the layers
    recorded for it are exactly those whose frames contain it, in z-order
    ([rgz_in_hwc_pixel_exact]); the entries of a subregion, executed by an
    engine, leave what painting the layers from back to front leaves
    ([subregion_blit_composites]), and those of a whole frame, each drawing
    inside its rectangles, give every damaged pixel of the screen what painting
    all layers gives ([pixel_composited]); the damaged area contains
    every pixel of the target buffer that changed ([dirty_region_sound]) and an
    idle screen ends up with nothing to draw ([idle_composition_settles]); the
    checks accept exactly the layers they should ([rgz_in_hwccheck_correct]).
    [dirty_region_stale] and the lemmas [rgz_in_eleven_layers] and
    [off_screen_layer_fails] state where the code falls short.

    ** The composer

    A frame is two calls of the compositor.  [hwc_prepare] counts what overlays
    of the display subsystem could show, decides whether all layers go to
    overlays or SGX composes the others in a framebuffer, gives out at most four
    overlays with their z-orders and pipes, and clones some for an external
    display; blits may stand in for SGX, through the regionizer.  [hwc_set]
    posts the composition.  Between frames a thread handles the messages of the
    kernel, plugs of the television and of the dock, and an idle timer.

    - HwcModel.v: the state (hwc_dev.h), the configurations of overlays, the
      external display; floats as the binary32 and binary64 numbers of the
      Standard Library's SpecFloat, computed exactly and rounded as C does.  The
      rectangles of the overlays ([dss2_rect]) are integers without wrap-around,
      where the C types have a fixed width.
    - HwcLayers.v: formats, [can_scale], [is_valid_layer],
      [gather_layer_statistics], [setup_layer].
    - HwcGeometry.v: the matrices, [crop_to_rect], [get_max_dimensions].
    - HwcPrepare.v: [set_best_hdmi_mode], cloning, blits, [hwc_prepare] and
      [hwc_set].
    - HwcOverlays.v, HwcChoice.v, HwcPlan.v, HwcFrames.v: the proofs about a frame, from the
      loop over the layers to what is posted.
    - HwcEvents.v, HwcUevents.v: [handle_hotplug], [handle_uevents], [hdmi_thread], the
      opening of the device, the strings of the C library they read.
    - HwcRun.v: frames and events in any order, as a step relation.
    - HwcDisplay.v, HwcShown.v: what a composition shows, pixel by pixel.
    - HwcSamples.v, HwcCorners.v: concrete devices and frames.

    The calls that leave the composer (ioctls, the post, the swap of buffers,
    log messages about overlays) are a list of events of the state.  What it asks outside is the
    record [hwc_env] and, for the thread, [event_env]; the constants of the
    headers are the classes [HwcApi] and [DssApi], with what the code needs of
    them in [DssLaws].  A result [None] is undefined behaviour.

    The theorems: whatever the order of frames, messages, timeouts and plugs,
    every composition posted has at most four overlays on distinct z-orders and
    pipes ([posts_distinct]); without blits the composition posted, with the
    framebuffer SGX renders, shows what painting the layers from the back to the
    front shows ([composition_paints]); without an external display a frame
    always completes ([frame_completes]); a message of the kernel does what its
    fields say, whatever bytes of older messages follow it
    ([handle_uevents_correct]).  [posts_distinct] supposes that no two scaled
    layers are mirrored without SGX, and [mirrored_videos_collide] shows the
    collision otherwise; [refused_layers_lost] shows layers that neither an overlay nor SGX
    displays.

    ** The dynamic loader

    [Dynamic_Load_Module] reads a DOFF file through a stream, takes memory on
    the target for its sections, resolves its symbols against a table, relocates
    the image packet by packet, writes it to the target and interprets its
    table of initialized variables.

    - DlWords.v: bytes and words, [dload_checksum], [dload_reorder].
    - DlField.v: [dload_unpack] and [dload_repack] (reloc.c).
    - DlState.v: the records of the file (doff.h), the state of a load
      (dload_internal.h), the four classes of functions the loader is given
      (dynamic_loader.h) as the class [DlEnv], and the state monad [M] the
      routines are written in.
    - DlReloc.v: the C6x tables and [dload_relocate] (reloc.c,
      reloc_table_c6000.c).
    - DlSymtab.v: the symbol table of DLsymtab.c and DLsymtab_support.c, a hash
      table of linked lists in a heap.
    - DlLoad.v: the phases of a load (cload.c) up to [dload_data].
    - DlCinit.v: the interpreter [cload_cinit] on a target with a memory.
    - DlModule.v: [init_module_handle] with the list of modules the debugger reads
      on the target, and the entry points [Dynamic_Load_Module],
      [Dynamic_Open_Module] and [Dynamic_Unload_Module].
    - DlResources.v: what a load holds of the host, the target and the symbol
      table, through the laws [DlLaws] of the interface [DlEnv].
    - DlDebugList.v: the debugger's list as doubly linked segments, and its image in
      the memory of the target.
    - DlSections.v: a module opened without being loaded (getsection.c): its
      sections by name or number, and their images read into memory.

    The loader is modelled as it is built here: TMS320C6x target, 8-bit
    addressable units, little-endian host.  A routine has the type [M W A]: the
    state of the load and the world [W] of the four classes are passed along,
    and [None] is undefined behaviour (an access out of bounds, a shift by too
    much).  Words keep their width through [u32], [s32] and the like.

    The theorems: a field written is the field read, no other bit changes, and
    what does not fit is reported, but for a range of values in unsigned fields
    that the statement names ([dload_field_correct]); the checksum is the sum of the words, and
    reordering restores the byte order; the lookup in the relocation tables
    finds exactly the types they list; a sequence of relocations computes the
    value of the expression it encodes ([relocate_expression_correct]); a branch
    reaches its target, for all kinds but [R_C60PCR10], for which [dload_relocate]
    is undefined ([relocate_branch_correct]); the
    symbol table behaves as a list of symbols ([symtab_refines]); the headers
    are accepted when they are well formed and only then; the initialisation
    records reach the target however the packets cut them
    ([cinit_table_loaded]); a load that fails gives back all it took
    ([failed_load_releases]) and an unload gives back all a load holds
    ([load_unload_restores]), both if the sections that are allocated come first in
    the file ([file_ordered]; cload.c:1762 otherwise) and execution can be started;
    linking and unlinking a module keep the debugger's list well formed, an
    unload of a little-endian module also the one in the target's memory
    ([link_after_root_correct], [unload_record_correct]). A
    module opened and closed leaves the memory as it was
    (lemma [module_open_close]), and a section is read as its image is stored, in
    either byte order ([get_section_reads]).
    The lemmas [relocate_undefined], [dload_repack_unsigned_limit] and
    [packet_size_overrun] are inputs on which the code is wrong;
    [module_open_leaks] is an opening that fails and keeps its memory.

    ** The OpenMAX core

    An application loads components, shared libraries, by their names.  The core
    (omx_core) has a table of the components it knows with their roles and the
    handles of their instances, at most four of each, and fifty slots for what
    is loaded.

    - OmxCore.v: the table and how it is built, [TIOMX_Init], [TIOMX_GetHandle],
      [TIOMX_FreeHandle], [TIOMX_Deinit], the queries and [TIOMX_SetupTunnel].
      What the dynamic linker, the allocator and the component answer is the
      record [loader]; blocks allocated and modules open are part of the state,
      so that a leak or a block freed twice can be stated.
    - OmxSamples.v: runs of it; the instance and the component it loses.
    - OmxInstances.v: the specification - for each component the list of its
      instances - and the refinement.

    The theorems: every call implements its specification ([omx_core_refines]), a
    call that gets no handle leaves everything as it was
    ([get_handle_fails_clean]), and the two queries on roles agree
    ([components_of_role]).  The refinement supposes that the instance freed is
    one of the two newest of its component, that the variable of a call is null and
    that the core is not initialized twice; [oldest_instance_lost] shows that
    otherwise an instance is lost.  The failing call, too, is one with a null variable
    and a mutex that works.  [unknown_component_frees] shows a name that cannot be
    loaded, and a block freed that is not the core's.

    ** The policy manager

    A server (omx_policy_manager) that the resource manager asks before a
    component runs.  It reads a table of combinations of components with
    priorities, keeps the clients it has granted and the active combination, and
    answers with grants, denials and preemptions.

    - PolicyManager.v: the server's state and commands.
    - PolicyRun.v: its decisions as a function ([decide_request]), a step
      relation on the clients registered and the cells in which components are
      recorded ([spec_step]; [gives_way] says whose turn it is to give way), the
      invariant and the refinement; what runs together.
    - PolicyTable.v: [PopulatePolicyTable] with the functions of the C library it
      uses, and a printer for its format.
    - PolicySamples.v: the repository's table, read by evaluation; small tables.

    The theorems: each turn implements the specification ([policy_refines]); the clients
    that may run always fit one combination ([running_coexist]); the file of any
    table is read back ([policy_table_reads_back]), and the repository's own file is
    read in full ([policytable_read]).  The first two suppose that there is a free cell
    for the component that asks (PolicyManager.c:173) and that a client is
    freed only if it is registered, or none of its component is;
    [policy_lists_out_of_step] shows what happens otherwise.

    ** The resource manager

    A server (resource_manager) that the components of all processes tell what
    they are about to do.  It keeps a list of them with their states, loads and
    pipes, adds up the loads of those that run, sets the operating point of the
    DSP for the sum, and answers requests: the policy manager is asked first and,
    when it grants, the DSP itself, through the registry of the bridge.

    - ActivityMonitor.v: Resource_Activity_Monitor.c, the operating points, the
      constraints it writes and the boosts.  The files of the kernel it reads and
      writes are the class [Sysfs], their agreement the class [SysfsLaws].
    - QosRegistry.v: src/dspbridge/qos, the registry of the DSP's resources and the
      node that answers about them.  The calls of the bridge are the class
      [Bridge]; what they hold and give back, the laws [BridgeLaws].
    - ResourceManager.v: the server, on both: the commands, the answers of the policy
      manager, the question to the DSP ([RM_GetQos]), the telling of a fatal
      error.  One turn of its loop is [turn].
    - RmList.v: the list of components as a map; the names of the pipes.
    - RmLoads.v: the totals, by induction on runs.
    - RmPolicy.v: the resource manager and the policy manager together.
    - RmSamples.v: runs of it, and where it goes wrong.

    The theorems: each message changes the map of components as the specification
    says ([command_refines]); the totals are the sums of the loads of the
    components that run, and the operating point is the one for the sum, as long
    as components keep to the protocol and none is of the kinds that the code does
    not count ([loads_exact]; [nature] gives each kind of component independently of
    the code); outside of stub mode and one at a time, a request is answered as
    the policy and the load of the DSP decide, after those that have to give way
    were told, also when there is no room at first and one client is asked to
    give way ([request_answered], on the refinement of PolicyRun.v); each process has
    a pipe of its own ([pipe_names_distinct]); the operating point for a load is
    the lowest one it fits in ([operating_point_least]) and a boost, whose point is given
    for every processor, holds it up until it is released ([boost_window]); a registry
    created, asked and deleted frees each of its blocks once, and gives back the handles
    of the driver if the calls that release them succeed ([registry_balanced]), and two
    lookups in it find all resources of a type ([registry_find_two_calls]).  The lemmas of RmSamples.v state where the
    server falls short: the wrong component removed while one waits
    ([waiting_freed]), loads that stay ([executing_freed_leaks]) or are not counted
    ([adpcm_not_counted]), two requests at a time ([request_overwritten]),
    an overloaded DSP that grants ([overload_grants]) and others.

    ** The G.711 decoder

    A component of OpenMAX.  The client calls it; commands and buffers go through
    pipes to its thread, which drives the codec on the DSP by the LCML library,
    and the library calls back when the codec answers.

    - G711Component.v: the state of the component with its ports, pipes and
      conditions; every call of the client, every turn of the thread
      ([ComponentThread]) and every callback ([G711DECLCML_Callback]) is an event
      of [step].  A thread that waits for a condition is a state of its own
      ([waits]); signalling, and the moment between the test of a flag and the
      wait, are steps, so that a lost signal can be stated.  The answers of the
      library are a list that is consumed.
    - G711States.v: the transitions and what the client is told of them.
    - G711Data.v: the frames and the time stamps.
    - G711Idle.v: from Loaded to Idle.
    - G711Samples.v: runs, instances of the theorems, and where it goes wrong.

    The theorems: in any run, the events the client receives lead along the
    transitions of OpenMAX to the state of the component ([states_reported], and
    the lemma [requests_refused] for the requests that are forbidden); the client that
    gives all buffers, in any order of the ports, gets the waiting component to
    Idle ([idle_reached]); the data are cut into frames, and what the codec is told of
    them is the frame in the cases that the statement names
    ([stream_framed]); the stamps of the input come out in order
    ([stamps_in_order]).  G711Samples.v has the runs in which a signal is lost
    ([lost_wakeup]), an error is undone ([fault_undone]), a frame has no length
    ([frame_of_halves]), the list of buffers has a hole ([hole_in_list]) and others;
    [end_never_noted] shows that the end of the stream never reaches the output.

    ** The storage of the secure world

    The partitions of the secure world are files of the normal world; the daemon
    executes batches of instructions on them (delegation_client.c).  It is
    configured by property files (lib_manifest2.c).

    - TfErrors.v: the numbers of errors.
    - TfStorage.v: the files of the C library, the instructions, the interpreter
      [run_batch] and a session.  Which calls of the system fail, and how many bytes
      a failing one transferred, is the input [faults].
    - TfSectors.v: partitions as lists of sectors; the specification of a batch
      and the refinement.
    - TfStorageRuns.v, TfStorageSamples.v: what holds of any batch; examples, and
      where the interpreter goes wrong.
    - TfManifest.v: the parser, its search for duplicates and its check.
    - TfItems.v, TfCheck.v: one pass over a file, and the proof that the code,
      which parses the file again for every item, gives the same.
    - TfUtf8.v: the encoding of Unicode, for the values.
    - TfDocuments.v: documents, how they are printed, and the round trip.
    - TfManifestSamples.v: examples.

    The theorems: a batch does to the partitions what its instructions say
    ([storage_refines]); an instruction changes the files and the stream of its own partition only, and its
    result is stored in the cell of that partition, whatever fails ([partition_isolated]); every batch ends
    ([batch_terminates]); the lemma [written_reads_back] puts two sessions together.  A
    property file that was written is read back ([document_read_back]), the items
    are those of one pass ([items_one_pass]) and a value is accepted when it is
    UTF-8 and only then ([values_are_utf8]).  The lemmas [parameters_executed],
    [sector_wraps], [stale_result], [workspace_overrun] and [endless_file] state where
    the code falls short: parameters executed as instructions, an index that
    wraps, a result that is another's, an access outside of the buffer, and a loop
    that does not end.

    ** The tables of the PKCS#11 library

    The library keeps its sessions and objects in circular doubly linked lists
    (lib_object.c) through nodes that the objects contain.

    - TfObjects.v: the nodes in memory, a map from addresses, and the functions
      on them.
    - TfRings.v: rings in memory, and what the writes of a field do to them.
    - TfTables.v: the table of handles as a finite map.

    The theorem [handle_table_refines]: adding, searching and removing implement the
    operations of the map, a new handle is free and between 1 and 65535, and adding
    fails only when all are taken; every call goes through and leaves other nodes
    as they are.

    ** Fuel

    Loops that are not structural take fuel, and running out of it is the value
    [None]; the theorems that such a loop returns a result therefore say that the
    fuel is enough.  It is bounded by the data: the cells left to scan
    ([rgz_bunique]), the layers of a region ([get_layer_ops_next]), the symbols
    of the heap for a hash list (a list without a cycle visits each symbol
    once), the bytes of a packet for .cinit (each round takes at least one), the
    records left for symbols and relocations (each buffer takes at least one),
    four collisions for the relocation tables (their chains are shorter), the
    bytes of a message for its fields (each takes at least one), the digits of a
    machine integer (ten) and the cells of a buffer of text for printing it, half
    the length of a text for reversing it; one more than the thousand words an
    exchange buffer has for the instructions of a batch (each takes at least one
    word, [batch_terminates]); one more than the bytes of a property file, or of the
    rest of it, for its lines and items (each item takes at least one byte); and one more
    than the nodes of the memory for a walk around a ring.

    ** Not modelled

    The direct-blit operations and the SVG output of the regionizer; of hwc.c the
    S3D code, which is not compiled, the dumps, fences and file descriptors, and
    libpng's part of dock_image.c; the thread of the software vsync, which sleeps and
    calls back; the loader's command line tool; the libraries around the bridge
    driver's ioctls; of OpenMAX the proxy of the resource manager in the
    clients, the registration of the resource manager's watch thread with the
    driver, the LCML library and the other codecs, which follow the pattern of the G.711
    decoder; of the secure world's support the marshalling of requests to the driver,
    the sessions and objects of PKCS#11, and the command lines; the camera, the
    vendored EXIF library and the other HALs, which are C++, device I/O or
    third-party code. *)

From Stdlib Require Import ZArith Lia Sorting.Sorted Sorting.Permutation.
From stdpp Require Import base list list_numbers option tactics.

#[global] Open Scope Z_scope.

(** * Notations of the development *)

Declare Scope c_scope.
Delimit Scope c_scope with C.

Notation "'let*' x ':=' c 'in' k" :=
  (match c with Some x => k | None => None end)
  (at level 10, x pattern, c at level 100, k at level 200) : c_scope.
Notation "'guard*' b 'in' k" :=
  (if b then k else None)
  (at level 10, b at level 100, k at level 200) : c_scope.
#[global] Open Scope c_scope.

(** * Machine integers: wrap-around at a width *)

Definition uwrap (w : Z) (x : Z) : Z := x mod 2 ^ w.
Definition swrap (w : Z) (x : Z) : Z :=
  (x + 2 ^ (w - 1)) mod 2 ^ w - 2 ^ (w - 1).

Abbreviation u8 := (uwrap 8).
Abbreviation u16 := (uwrap 16).
Abbreviation u32 := (uwrap 32).
Abbreviation s16 := (swrap 16).
Abbreviation s32 := (swrap 32).

Lemma uwrap_range w x : 0 <= w -> 0 <= uwrap w x < 2 ^ w.
Proof. intros Hw. apply Z.mod_pos_bound, Z.pow_pos_nonneg; lia. Qed.

Lemma uwrap_small w x : 0 <= x < 2 ^ w -> uwrap w x = x.
Proof. intros H. by apply Z.mod_small. Qed.

Lemma uwrap_uwrap w x : 0 <= w -> uwrap w (uwrap w x) = uwrap w x.
Proof. intros Hw. apply uwrap_small, uwrap_range, Hw. Qed.

Lemma swrap_range w x : 0 < w -> - 2 ^ (w - 1) <= swrap w x < 2 ^ (w - 1).
Proof.
  intros Hw. unfold swrap.
  assert (Hp : 2 ^ w = 2 * 2 ^ (w - 1)).
  { rewrite <- Z.pow_succ_r by lia. f_equal; lia. }
  pose proof (Z.mod_pos_bound (x + 2 ^ (w - 1)) (2 ^ w)) as Hb.
  assert (0 < 2 ^ w) by (apply Z.pow_pos_nonneg; lia). lia.
Qed.

Lemma swrap_small w x :
  0 < w -> - 2 ^ (w - 1) <= x < 2 ^ (w - 1) -> swrap w x = x.
Proof.
  intros Hw Hx. unfold swrap.
  assert (Hp : 2 ^ w = 2 * 2 ^ (w - 1)).
  { rewrite <- Z.pow_succ_r by lia. f_equal; lia. }
  rewrite Z.mod_small; lia.
Qed.

(** * Arrays: bounds-checked access; [None] is an access out of bounds *)

Definition arr_get {A} (a : list A) (i : Z) : option A :=
  if 0 <=? i then a !! Z.to_nat i else None.
Definition arr_set {A} (a : list A) (i : Z) (x : A) : option (list A) :=
  if (0 <=? i) && (i <? Z.of_nat (length a))
  then Some (<[Z.to_nat i := x]> a) else None.
(** Appending at the fill counter of an array of [cap] cells. *)
Definition arr_push {A} (cap : nat) (a : list A) (x : A) : option (list A) :=
  if (length a <? cap)%nat then Some (a ++ [x]) else None.

(** * Counted loops in the fault monad *)

Fixpoint for_list {I S} (l : list I) (body : I -> S -> option S) (s : S) : option S :=
  match l with
  | [] => Some s
  | i :: l' => let* s' := body i s in for_list l' body s'
  end.
Definition for_range {S} (lo n : nat) (body : nat -> S -> option S) (s : S) : option S :=
  for_list (seq lo n) body s.

Lemma for_list_app {I S} (l1 l2 : list I) body (s : S) :
  for_list (l1 ++ l2) body s =
  match for_list l1 body s with Some s' => for_list l2 body s' | None => None end.
Proof.
  revert s. induction l1 as [|i l1 IH]; intros s; simpl; [done|].
  destruct (body i s); [apply IH | done].
Qed.

(** The rule for counted loops: an invariant indexed by the loop counter. *)
Lemma for_range_inv {S} (P : nat -> S -> Prop) lo n body (s : S) :
  P lo s ->
  (forall i s, (lo <= i < lo + n)%nat -> P i s ->
     exists s', body i s = Some s' /\ P (Datatypes.S i) s') ->
  exists s', for_range lo n body s = Some s' /\ P (lo + n)%nat s'.
Proof.
  unfold for_range. revert lo s. induction n as [|n IH]; intros lo s H0 Hstep; simpl.
  - exists s. split; [done|]. by replace (lo + 0)%nat with lo by lia.
  - destruct (Hstep lo s) as (s' & Hb & HP); [lia|done|]. rewrite Hb.
    destruct (IH (Datatypes.S lo) s' HP) as (s'' & Hr & HP').
    + intros i t Hi. apply Hstep. lia.
    + exists s''. split; [done|]. by replace (lo + Datatypes.S n)%nat with (Datatypes.S lo + n)%nat by lia.
Qed.

(** What every round of a loop keeps, the loop keeps. *)
Lemma for_range_rel {S} (R : S -> S -> Prop) lo n body (s s' : S) :
  (forall s, R s s) -> (forall a b c, R a b -> R b c -> R a c) ->
  (forall i s s', body i s = Some s' -> R s s') -> for_range lo n body s = Some s' -> R s s'.
Proof.
  intros Hr Ht Hb. unfold for_range. generalize (seq lo n) as l. intros l. revert s.
  induction l as [|i l IH]; intros s; simpl; [by intros [= <-]|].
  destruct (body i s) as [s1|] eqn:Es; [|done]. intros Hl. eauto.
Qed.

(** A loop that reads two arrays side by side is a loop over their elements. *)
Lemma for_range_zip {A B S} (L : list A) (M : list B) (f : A -> B -> S -> option S) n s :
  (n <= length L)%nat -> (n <= length M)%nat ->
  for_range 0 n (fun i s => let* a := L !! i in let* b := M !! i in f a b s) s =
  for_list (zip (take n L) (take n M)) (fun ab s => f ab.1 ab.2 s) s.
Proof.
  unfold for_range. revert s. induction n as [|n IH]; intros s HL HM; [done|].
  destruct (lookup_lt_is_Some_2 L n) as [a Ha]; [lia|].
  destruct (lookup_lt_is_Some_2 M n) as [b Hb]; [lia|].
  rewrite seq_S, for_list_app, (take_S_r _ _ _ Ha), (take_S_r _ _ _ Hb).
  rewrite zip_with_app by (rewrite !length_take; lia).
  rewrite for_list_app, IH by lia. destruct (for_list _ _ _); [|done].
  simpl. by rewrite Ha, Hb.
Qed.

(** * Strictly increasing lists as partitions of an interval *)

Lemma sorted_lt_lookup (l : list Z) i j x y :
  StronglySorted Z.lt l -> l !! i = Some x -> l !! j = Some y -> (i < j)%nat -> x < y.
Proof.
  intros Hs. revert i j. induction Hs as [|z l Hs IH Hall]; intros i j Hx Hy Hij; [done|].
  destruct j as [|j]; [lia|]. destruct i as [|i]; simpl in *.
  - simplify_eq. by eapply Forall_lookup_1 in Hall.
  - eapply (IH i j); eauto; lia.
Qed.

(** Every point between two cut points lies between two consecutive ones. *)
Lemma cut_exists (l : list Z) lo hi v :
  StronglySorted Z.lt l -> lo ∈ l -> hi ∈ l -> lo <= v < hi ->
  exists r a b, l !! r = Some a /\ l !! S r = Some b /\ a <= v < b.
Proof.
  intros Hs. revert lo. induction Hs as [|z l Hs IH Hall]; intros lo Hlo Hhi Hv.
  { by apply not_elem_of_nil in Hlo. }
  assert (Hhl : hi ∈ l).
  { apply elem_of_cons in Hhi as [->|]; [|done].
    apply elem_of_cons in Hlo as [->|Hlo]; [lia|].
    apply list_elem_of_lookup in Hlo as [k Hk].
    pose proof (Forall_lookup_1 _ _ _ _ Hall Hk). simpl in *; lia. }
  destruct l as [|w l]; [by apply not_elem_of_nil in Hhl|].
  destruct (Z.lt_ge_cases v w) as [Hlt|Hge].
  - exists 0%nat, z, w. repeat split; [|done].
    apply elem_of_cons in Hlo as [->|Hlo]; [lia|].
    apply list_elem_of_lookup in Hlo as [k Hk].
    pose proof (Forall_lookup_1 _ _ _ _ Hall Hk). simpl in *; lia.
  - destruct (IH w) as (r & a & b & Ha & Hb & Hr); [by apply elem_of_cons; left|done|lia|].
    exists (Datatypes.S r), a, b. done.
Qed.

Lemma cut_unique (l : list Z) r r' a b a' b' v :
  StronglySorted Z.lt l ->
  l !! r = Some a -> l !! S r = Some b -> a <= v < b ->
  l !! r' = Some a' -> l !! S r' = Some b' -> a' <= v < b' -> r = r'.
Proof.
  intros Hs Ha Hb Hv Ha' Hb' Hv'.
  assert (Hle : forall p q u w, l !! p = Some u -> l !! q = Some w -> (p <= q)%nat -> u <= w).
  { intros p q u w Hu Hw Hpq. destruct (decide (p = q)) as [->|].
    - assert (u = w) by congruence. lia.
    - assert (u < w) by (eapply sorted_lt_lookup; eauto; lia). lia. }
  destruct (Nat.lt_trichotomy r r') as [H|[H|H]]; [|done|].
  - pose proof (Hle (Datatypes.S r) r' b a' Hb Ha' ltac:(lia)). lia.
  - pose proof (Hle (Datatypes.S r') r b' a Hb' Ha ltac:(lia)). lia.
Qed.

(** A cut point is never strictly inside a consecutive pair. *)
Lemma cut_separates (l : list Z) r a b p :
  StronglySorted Z.lt l -> l !! r = Some a -> l !! S r = Some b -> p ∈ l -> p <= a \/ b <= p.
Proof.
  intros Hs Ha Hb Hp. apply list_elem_of_lookup in Hp as [k Hk].
  destruct (Nat.lt_trichotomy k r) as [H|[->|H]].
  - left. assert (p < a) by (eapply sorted_lt_lookup; eauto). lia.
  - left. assert (p = a) by congruence. lia.
  - right. destruct (decide (k = Datatypes.S r)) as [->|].
    + assert (p = b) by congruence. lia.
    + assert (b < p) by (eapply (sorted_lt_lookup l (Datatypes.S r) k); eauto; lia). lia.
Qed.

Lemma arr_push_lt {A} cap (a : list A) x :
  (length a < cap)%nat -> arr_push cap a x = Some (a ++ [x]).
Proof. intros H. unfold arr_push. by rewrite (proj2 (Nat.ltb_lt _ _) H). Qed.

Lemma sorted_take (l : list Z) n : StronglySorted Z.lt l -> StronglySorted Z.lt (take n l).
Proof.
  intros Hs. revert n. induction Hs as [|x l Hs IH Hall]; intros n; destruct n; simpl;
    try constructor; [done|]. by apply Forall_take.
Qed.
