(* ===== verification/RgzSort.v ===== *)
(** The two array helpers of the regionizer (src/hwc/rgz_2d.c): the
    exchange sort [rgz_bsort] and the in-place duplicate removal
    [rgz_bunique], on bounds-checked arrays of C ints.  The main results are
    [rgz_bsort_correct] (sorted permutation, cells past [len] untouched) and
    [rgz_bunique_correct] (strictly increasing prefix, same elements). *)

From Stdlib Require Import ZArith Lia Sorting.Sorted Sorting.Permutation.
From stdpp Require Import base list list_numbers option tactics.
From S2P Require Import Prelude.

(** * Definitions *)

(** if (a[i] < a[j]) { swap } *)
Definition bsort_exchange (i j : nat) (a : list Z) : option (list Z) :=
  let* x := a !! i in
  let* y := a !! j in
  if x <? y then Some (<[j := x]> (<[i := y]> a)) else Some a.

Definition rgz_bsort (a : list Z) (len : nat) : option (list Z) :=
  for_range 0 len (fun i a => for_range 0 i (fun j a => bsort_exchange i j a) a) a.

(** while (base + skip < len && a[base] == a[base + skip]) skip++ *)
Fixpoint bunique_skip (fuel : nat) (a : list Z) (base len skip : nat) : option nat :=
  match fuel with
  | O => None
  | S fuel' =>
      if (base + skip <? len)%nat then
        let* x := a !! base in
        let* y := a !! (base + skip)%nat in
        if x =? y then bunique_skip fuel' a base len (S skip) else Some skip
      else Some skip
  end.

(** for (i = 0; i < skip - 1; i++) a[base + 1 + i] = a[base + skip] *)
Definition bunique_fill (a : list Z) (base skip : nat) : option (list Z) :=
  for_range 0 (skip - 1)
    (fun i a => let* v := a !! (base + skip)%nat in
                guard* (base + 1 + i <? length a)%nat in
                Some (<[(base + 1 + i)%nat := v]> a)) a.

Fixpoint bunique_loop (fuel : nat) (a : list Z) (base unique len : nat)
  : option (list Z * nat) :=
  match fuel with
  | O => None
  | S fuel' =>
      if (base + 1 <? len)%nat then
        let* x := a !! base in
        let* y := a !! (base + 1)%nat in
        if x =? y then
          let* skip := bunique_skip len a base len 1 in
          if (base + skip =? len)%nat then Some (a, unique)
          else
            let* a' := bunique_fill a base skip in
            bunique_loop fuel' a' (S base) (S unique) len
        else bunique_loop fuel' a (S base) (S unique) len
      else Some (a, unique)
  end.

Definition rgz_bunique (a : list Z) (len : nat) : option (list Z * nat) :=
  bunique_loop (S len) a 0 1 len.

(** * The exchange sort *)

(** One inner pass, as a function of the key and of the cells it is
    compared with: an insertion whose displaced element moves on. *)
Fixpoint exch (x : Z) (p : list Z) : list Z :=
  match p with
  | [] => [x]
  | y :: t => if x <? y then x :: exch y t else y :: exch x t
  end.

Lemma exch_permutation x p : Permutation (exch x p) (x :: p).
Proof.
  revert x. induction p as [|y t IH]; intros x; simpl; [done|].
  destruct (x <? y); rewrite IH; [done | apply perm_swap].
Qed.

Lemma exch_length x p : length (exch x p) = S (length p).
Proof. by rewrite exch_permutation. Qed.

Lemma exch_lower b x p :
  b <= x -> Forall (Z.le b) p -> Forall (Z.le b) (exch x p).
Proof.
  intros Hx Hp. rewrite exch_permutation. by constructor.
Qed.

Lemma exch_sorted x p : StronglySorted Z.le p -> StronglySorted Z.le (exch x p).
Proof.
  revert x. induction p as [|y t IH]; intros x Hs; simpl.
  - repeat constructor.
  - apply StronglySorted_inv in Hs as [Hs Hall].
    destruct (Z.ltb_spec x y).
    + constructor; [by apply IH|]. apply exch_lower; [lia|].
      eapply Forall_impl; [|exact Hall]. intros z ?; simpl in *; lia.
    + constructor; [by apply IH|]. apply exch_lower; [lia | done].
Qed.

Lemma bsort_exchange_at p1 y t x s :
  bsort_exchange (length p1 + S (length t)) (length p1) (p1 ++ (y :: t) ++ x :: s) =
  Some (if x <? y then p1 ++ x :: t ++ y :: s else p1 ++ y :: t ++ x :: s).
Proof.
  unfold bsort_exchange.
  assert (Hx : (p1 ++ (y :: t) ++ x :: s) !! (length p1 + S (length t))%nat = Some x).
  { rewrite app_assoc. apply list_lookup_middle. rewrite length_app. done. }
  assert (Hy : (p1 ++ (y :: t) ++ x :: s) !! length p1 = Some y).
  { by apply list_lookup_middle. }
  rewrite Hx, Hy. destruct (x <? y); [|done].
  rewrite insert_app_r. simpl.
  replace (length t) with (length t + 0)%nat at 1 by lia.
  rewrite insert_app_r. simpl.
  replace (length p1) with (length p1 + 0)%nat at 1 by lia.
  rewrite insert_app_r. done.
Qed.

Lemma bsort_pass p1 p2 x s :
  for_range (length p1) (length p2)
    (fun j a => bsort_exchange (length p1 + length p2) j a) (p1 ++ p2 ++ x :: s) =
  Some (p1 ++ exch x p2 ++ s).
Proof.
  revert p1 x. induction p2 as [|y t IH]; intros p1 x; [done|].
  unfold for_range in *. cbn [length seq for_list].
  rewrite bsort_exchange_at. cbn [exch].
  assert (Hl : forall z, S (length p1) = length (p1 ++ [z])) by (intros; rewrite length_app; simpl; lia).
  destruct (x <? y).
  - specialize (IH (p1 ++ [x]) y). rewrite <- Hl in IH.
    rewrite <- !app_assoc in IH. simpl in IH.
    rewrite <- plus_n_Sm. exact IH.
  - specialize (IH (p1 ++ [y]) x). rewrite <- Hl in IH.
    rewrite <- !app_assoc in IH. simpl in IH.
    rewrite <- plus_n_Sm. exact IH.
Qed.

(** [rgz_bsort a len] sorts the first [len] cells of the array and leaves
    the others alone. *)
Lemma rgz_bsort_spec a len :
  (len <= length a)%nat ->
  exists a', rgz_bsort a len = Some a' /\ length a' = length a /\
    StronglySorted Z.le (take len a') /\
    Permutation (take len a') (take len a) /\ drop len a' = drop len a.
Proof.
  intros Hlen.
  pose (P (i : nat) (b : list Z) :=
    length b = length a /\ StronglySorted Z.le (take i b) /\
    Permutation (take i b) (take i a) /\ drop i b = drop i a).
  destruct (for_range_inv P 0 len
    (fun i a => for_range 0 i (fun j a => bsort_exchange i j a) a) a)
    as (a' & Hr & HP).
  - repeat split; simpl; try done; constructor.
  - intros i b Hi (Hlb & Hs & Hp & Hd).
    destruct (lookup_lt_is_Some_2 b i) as [x Hx]; [lia|].
    pose proof (take_drop_middle b i x Hx) as Hb.
    pose proof (bsort_pass [] (take i b) x (drop (S i) b)) as Hpass.
    simpl in Hpass. rewrite length_take, Hb in Hpass.
    replace (i `min` length b)%nat with i in Hpass by lia.
    exists (exch x (take i b) ++ drop (S i) b). split; [exact Hpass|].
    assert (Hle : length (exch x (take i b)) = S i).
    { rewrite exch_length, length_take. lia. }
    assert (Hxa : a !! i = Some x).
    { rewrite <- (Nat.add_0_r i), <- lookup_drop, <- Hd, lookup_drop, Nat.add_0_r. done. }
    unfold P. rewrite (take_app_length' _ _ (S i)), (drop_app_length' _ _ (S i)) by done.
    repeat split.
    + rewrite length_app, Hle, length_drop. lia.
    + by apply exch_sorted.
    + rewrite exch_permutation, (take_S_r _ _ _ Hxa), Hp.
      apply Permutation_cons_append.
    + replace (S i) with (i + 1)%nat by lia.
      rewrite <- !drop_drop, Hd. done.
  - exists a'. split; [exact Hr|]. exact HP.
Qed.

(** * Duplicate removal *)

(** The first [n] cells are non-decreasing. *)
Definition mono (a : list Z) (n : nat) : Prop :=
  forall i j x y, (i <= j < n)%nat -> a !! i = Some x -> a !! j = Some y -> x <= y.
(** The first [n] cells are strictly increasing. *)
Definition smono (a : list Z) (n : nat) : Prop :=
  forall i j x y, (i < j < n)%nat -> a !! i = Some x -> a !! j = Some y -> x < y.
(** [x] is among the first [n] cells. *)
Definition among (x : Z) (a : list Z) (n : nat) : Prop :=
  exists i, (i < n)%nat /\ a !! i = Some x.

Lemma mono_of_sorted a n : StronglySorted Z.le (take n a) -> mono a n.
Proof.
  intros Hs i j x y Hij Hx Hy.
  assert (Hx' : take n a !! i = Some x) by (rewrite lookup_take_lt; [done|lia]).
  assert (Hy' : take n a !! j = Some y) by (rewrite lookup_take_lt; [done|lia]).
  destruct (decide (i = j)) as [->|Hne]; [simplify_eq; lia|].
  clear -Hs Hx' Hy' Hij Hne. revert i j Hij Hne Hx' Hy'.
  induction Hs as [|z l Hs IH Hall]; intros i j Hij Hne Hx Hy; [done|].
  destruct j as [|j]; [lia|]. destruct i as [|i]; simpl in *.
  - simplify_eq. by eapply Forall_lookup_1 in Hall.
  - eapply (IH i j); eauto; lia.
Qed.

Lemma sorted_of_smono a n : smono a n -> StronglySorted Z.lt (take n a).
Proof.
  revert n. induction a as [|x a IH]; intros n Hs; [rewrite take_nil; constructor|].
  destruct n as [|n]; simpl; [constructor|]. constructor.
  - apply IH. intros i j u v Hij Hu Hv. eapply (Hs (S i) (S j)); eauto. lia.
  - apply Forall_lookup_2. intros k y Hk.
    apply lookup_take_Some in Hk as [Hk Hkn].
    eapply (Hs 0%nat (S k)); eauto. lia.
Qed.

Lemma among_elem x a n : among x a n <-> x ∈ take n a.
Proof.
  rewrite list_elem_of_lookup. unfold among. split; intros [i H]; exists i.
  - rewrite lookup_take_lt; tauto.
  - rewrite lookup_take_Some in H. tauto.
Qed.

Lemma bunique_skip_spec fuel a base len skip x :
  (len <= length a)%nat -> a !! base = Some x ->
  (base + skip <= len)%nat -> (len < base + skip + fuel)%nat ->
  exists k, bunique_skip fuel a base len skip = Some k /\
    (skip <= k)%nat /\ (base + k <= len)%nat /\
    (forall i, (base + skip <= i < base + k)%nat -> a !! i = Some x) /\
    ((base + k < len)%nat -> exists y, a !! (base + k)%nat = Some y /\ x <> y).
Proof.
  intros Hlen Hx. revert skip. induction fuel as [|fuel IH]; intros skip Hs Hf; [lia|].
  simpl. destruct (Nat.ltb_spec (base + skip) len).
  - destruct (lookup_lt_is_Some_2 a (base + skip)) as [y Hy]; [lia|].
    rewrite Hx, Hy. destruct (Z.eqb_spec x y) as [<-|Hne].
    + destruct (IH (S skip)) as (k & Hk & H1 & H2 & H3 & H4); [lia..|].
      exists k. repeat split; [done|lia|lia| |done].
      intros i Hi. destruct (decide (i = base + skip)%nat) as [->|]; [done|].
      apply H3. lia.
    + exists skip. repeat split; [lia|lia| |eauto]. intros; lia.
  - exists skip. repeat split; [lia|lia| |lia]. intros; lia.
Qed.

Lemma bunique_fill_spec a base skip v :
  (1 <= skip)%nat -> a !! (base + skip)%nat = Some v ->
  exists a', bunique_fill a base skip = Some a' /\ length a' = length a /\
    (forall k, a' !! k =
       if decide (base + 1 <= k < base + skip)%nat then Some v else a !! k).
Proof.
  intros Hs Hv. pose proof (lookup_lt_Some _ _ _ Hv) as Hlt.
  pose (P (i : nat) (b : list Z) := length b = length a /\
    forall k, b !! k = if decide (base + 1 <= k < base + 1 + i)%nat then Some v else a !! k).
  edestruct (for_range_inv P 0 (skip - 1)) as (a' & Hr & Hl & HP);
    [| |exists a'; split; [exact Hr|]].
  - split; [done|]. intros k. rewrite decide_False by lia. done.
  - intros i b Hi [Hl HP]. simpl.
    rewrite (HP (base + skip)%nat), decide_False, Hv by lia.
    replace (base + 1 + i <? length b)%nat with true by (symmetry; apply Nat.ltb_lt; lia).
    eexists. split; [done|]. split; [by rewrite length_insert|].
    intros k. destruct (decide (k = base + 1 + i)%nat) as [->|Hne].
    + rewrite list_lookup_insert_eq by lia. by rewrite decide_True by lia.
    + rewrite list_lookup_insert_ne by lia. rewrite HP.
      repeat case_decide; first [done | lia].
  - split; [done|]. intros k. rewrite HP. repeat case_decide; first [done | lia].
Qed.

(** The loop invariant of [rgz_bunique]: the whole array is still sorted
    with the elements it had, and the cells up to [base] are distinct. *)
Record uniq_inv (a0 a : list Z) (base len : nat) : Prop := {
  ui_len : length a = length a0;
  ui_base : (base < len)%nat;
  ui_mono : mono a len;
  ui_smono : smono a (S base);
  ui_elems : forall x, among x a len <-> among x a0 len;
}.

Lemma uniq_step_distinct a0 a base len x y :
  uniq_inv a0 a base len -> (base + 1 < len)%nat ->
  a !! base = Some x -> a !! (base + 1)%nat = Some y -> x <> y ->
  uniq_inv a0 a (S base) len.
Proof.
  intros [Hl Hb Hm Hs He] Hlt Hx Hy Hne. constructor; [done|lia|done| |done].
  intros i j u v Hij Hu Hv.
  destruct (decide (j = S base)) as [->|Hj]; [|eapply (Hs i j); eauto; lia].
  replace (S base) with (base + 1)%nat in Hv by lia.
  assert (v = y) as -> by congruence.
  assert (u <= x) by (eapply (Hm i base); eauto; lia).
  assert (x <= y) by (eapply (Hm base (base + 1)%nat); eauto; lia). lia.
Qed.

Lemma uniq_step_fill a0 a a' base len skip x v :
  uniq_inv a0 a base len -> (1 <= skip)%nat -> (base + skip < len)%nat ->
  (forall i, (base + 1 <= i < base + skip)%nat -> a !! i = Some x) ->
  a !! base = Some x -> a !! (base + skip)%nat = Some v -> x <> v ->
  length a' = length a ->
  (forall k, a' !! k = if decide (base + 1 <= k < base + skip)%nat then Some v else a !! k) ->
  uniq_inv a0 a' (S base) len.
Proof.
  intros [Hl Hb Hm Hs He] H1 Hlt Heq Hx Hv Hne Hl' Ha'.
  assert (Hxv : x <= v) by (eapply (Hm base (base + skip)%nat); eauto; lia).
  constructor; [congruence|lia| | |].
  - intros i j u w Hij. rewrite !Ha'. do 2 case_decide; intros Hu Hw; simplify_eq; try lia.
    + eapply (Hm (base + skip)%nat j); eauto; lia.
    + assert (u <= x) by (eapply (Hm i base); eauto; lia). lia.
    + eapply (Hm i j); eauto; lia.
  - intros i j u w Hij Hu Hw.
    rewrite Ha', decide_False in Hu by lia.
    destruct (decide (j = S base)) as [->|].
    + assert (w = v) as ->.
      { rewrite Ha' in Hw. case_decide; [congruence|].
        replace (S base) with (base + skip)%nat in Hw by lia. congruence. }
      destruct (decide (i = base)) as [->|]; [simplify_eq; lia|].
      assert (u < x) by (eapply (Hs i base); eauto; lia). lia.
    + rewrite Ha', decide_False in Hw by lia. eapply (Hs i j); eauto; lia.
  - intros z. rewrite <- He. split; intros (i & Hi & Hz).
    + rewrite Ha' in Hz. case_decide; [|by exists i].
      simplify_eq. by exists (base + skip)%nat.
    + destruct (decide (base + 1 <= i < base + skip)%nat) as [Hin|Hout].
      * rewrite Heq in Hz by done. simplify_eq. exists base. split; [lia|].
        rewrite Ha', decide_False by lia. done.
      * exists i. split; [done|]. by rewrite Ha', decide_False.
Qed.

Lemma bunique_loop_spec fuel a0 a base len :
  (len <= length a0)%nat -> uniq_inv a0 a base len -> (len < base + 1 + fuel)%nat ->
  exists a' u, bunique_loop fuel a base (S base) len = Some (a', u) /\
    length a' = length a0 /\ (1 <= u <= len)%nat /\ smono a' u /\
    (forall x, among x a' u <-> among x a0 len).
Proof.
  intros Hlen. revert a base. induction fuel as [|fuel IH]; intros a base Hinv Hf.
  { destruct Hinv. lia. }
  pose proof Hinv as [Hl Hb Hm Hs He]. simpl.
  destruct (Nat.ltb_spec (base + 1) len) as [Hlt|Hge].
  - destruct (lookup_lt_is_Some_2 a base) as [x Hx]; [lia|].
    destruct (lookup_lt_is_Some_2 a (base + 1)) as [y Hy]; [lia|].
    rewrite Hx, Hy. destruct (Z.eqb_spec x y) as [<-|Hne].
    + destruct (bunique_skip_spec len a base len 1 x) as (k & Hk & Hk1 & Hkl & Hsame & Hnext);
        [lia|done|lia|lia|].
      rewrite Hk. destruct (Nat.eqb_spec (base + k) len) as [Heq|Hneq].
      * exists a, (S base). split; [done|]. split; [lia|]. split; [lia|]. split; [done|].
        intros z. rewrite <- He. split; intros (i & Hi & Hz).
        -- exists i. split; [lia|done].
        -- destruct (decide (i < S base)%nat); [by exists i|].
           rewrite Hsame in Hz by lia. simplify_eq. exists base. split; [lia|done].
      * destruct Hnext as (v & Hv & Hxv); [lia|].
        destruct (bunique_fill_spec a base k v) as (a' & Hfill & Hl' & Ha'); [done..|].
        rewrite Hfill. apply IH; [|lia].
        eapply uniq_step_fill; eauto. lia.
    + apply IH; [|lia]. eapply uniq_step_distinct; eauto.
  - exists a, (S base). replace (S base) with len by lia.
    split; [done|]. split; [done|]. split; [lia|]. split; [|done].
    intros i j u v Hij. apply Hs. lia.
Qed.

Lemma rgz_bunique_spec a len :
  (1 <= len <= length a)%nat -> StronglySorted Z.le (take len a) ->
  exists a' u, rgz_bunique a len = Some (a', u) /\ length a' = length a /\
    (1 <= u <= len)%nat /\ StronglySorted Z.lt (take u a') /\
    (forall x, x ∈ take u a' <-> x ∈ take len a).
Proof.
  intros Hlen Hs.
  destruct (bunique_loop_spec (S len) a a 0 len) as (a' & u & Hr & Hl & Hu & Hsm & He);
    [lia| |lia|].
  - constructor; [done|lia|by apply mono_of_sorted| |done].
    intros i j ? ? ?; lia.
  - exists a', u. split; [exact Hr|]. split; [done|]. split; [done|].
    split; [by apply sorted_of_smono|].
    intros x. rewrite <- !among_elem. apply He.
Qed.

(** Sorting then removing duplicates: the form in which the regionizer uses
    the two helpers on a full array. *)
Lemma bsort_bunique_spec (a : list Z) :
  a <> [] ->
  exists b c u, rgz_bsort a (length a) = Some b /\ rgz_bunique b (length a) = Some (c, u) /\
    length c = length a /\ (1 <= u <= length a)%nat /\
    StronglySorted Z.lt (take u c) /\ (forall x, x ∈ take u c <-> x ∈ a).
Proof.
  intros Hne. assert (1 <= length a)%nat by (destruct a; simpl; [done|lia]).
  destruct (rgz_bsort_spec a (length a)) as (b & Hb & Hlb & Hsb & Hpb & _); [lia|].
  destruct (rgz_bunique_spec b (length a)) as (c & u & Hc & Hlc & Hu & Hsc & Hec); [lia|done|].
  exists b, c, u. split; [done|]. split; [done|]. split; [lia|]. split; [lia|].
  split; [done|]. intros x. rewrite Hec, Hpb, firstn_all. done.
Qed.

(** * The properties *)

(** [rgz_bsort] sorts the first [len] cells in ascending order, keeps their
    elements (a permutation), touches no other cell and never leaves the
    array. *)
Theorem rgz_bsort_correct (a : list Z) (len : nat) :
  (len <= length a)%nat ->
  exists a', rgz_bsort a len = Some a' /\ length a' = length a /\
    StronglySorted Z.le (take len a') /\
    Permutation (take len a') (take len a) /\ drop len a' = drop len a.
Proof. apply rgz_bsort_spec. Qed.

Lemma rgz_bsort_correct_witness :
  exists a', rgz_bsort [3; 1; 2; 9] 3 = Some a' /\ drop 3 a' = [9].
Proof.
  destruct (rgz_bsort_correct [3; 1; 2; 9] 3) as (a' & Hr & _ & _ & _ & Hd); [vm_compute; lia|].
  exists a'. split; [exact Hr|]. exact Hd.
Defined.

(** on a sorted array [rgz_bunique] terminates without leaving the array,
    and the prefix of the length it returns is strictly increasing and has
    exactly the elements of the input. *)
Theorem rgz_bunique_correct (a : list Z) (len : nat) :
  (1 <= len <= length a)%nat -> StronglySorted Z.le (take len a) ->
  exists a' u, rgz_bunique a len = Some (a', u) /\ length a' = length a /\
    (1 <= u <= len)%nat /\ StronglySorted Z.lt (take u a') /\
    (forall x, x ∈ take u a' <-> x ∈ take len a).
Proof. apply rgz_bunique_spec. Qed.

Lemma rgz_bunique_correct_witness :
  exists a' u, rgz_bunique [1; 1; 2; 2; 2; 5] 6 = Some (a', u) /\ u = 3%nat /\
    StronglySorted Z.lt (take u a').
Proof.
  destruct (rgz_bunique_correct [1; 1; 2; 2; 2; 5] 6) as (a' & u & Hr & _ & _ & Hs & _).
  - vm_compute. lia.
  - repeat constructor; discriminate.
  - exists a', u. split; [exact Hr|]. split; [|exact Hs]. vm_compute in Hr. by injection Hr.
Defined.
