(* ===== verification/RgzGeometry.v ===== *)
(** Data model and geometry of the 2D regionizer (src/hwc/rgz_2d.c and
    rgz_2d.h): rectangles, layers, framebuffer states, and the pure functions
    on them (intersection, rotated views, source rectangles, layer
    validation).  The constants of the Android and BltsVille headers, which
    are not part of the repository, are the fields of the class [HwcApi]. *)

From Stdlib Require Import ZArith Lia Sorting.Sorted.
From stdpp Require Import base list list_numbers option tactics.
From S2P Require Import Prelude.

(** * The platform's constants *)

Class HwcApi := {
  HWC_FRAMEBUFFER : Z;
  HWC_OVERLAY : Z;
  HWC_SKIP_LAYER : Z;
  HWC_HINT_CLEAR_FB : Z;
  HWC_TRANSFORM_FLIP_H : Z;
  HWC_TRANSFORM_FLIP_V : Z;
  HWC_TRANSFORM_ROT_90 : Z;
  HWC_BLENDING_PREMULT : Z;
  HAL_PIXEL_FORMAT_RGBA_8888 : Z;
  HAL_PIXEL_FORMAT_RGBX_8888 : Z;
  HAL_PIXEL_FORMAT_RGB_565 : Z;
  HAL_PIXEL_FORMAT_BGRA_8888 : Z;
  HAL_PIXEL_FORMAT_YV12 : Z;
}.

(** The values of Android's hwcomposer.h, gralloc and graphics.h: the concrete
    platform on which the examples and witnesses evaluate. *)
#[export] Instance android_hwc : HwcApi := {|
  HWC_FRAMEBUFFER := 0; HWC_OVERLAY := 1; HWC_SKIP_LAYER := 1; HWC_HINT_CLEAR_FB := 2;
  HWC_TRANSFORM_FLIP_H := 1; HWC_TRANSFORM_FLIP_V := 2; HWC_TRANSFORM_ROT_90 := 4;
  HWC_BLENDING_PREMULT := 0x105;
  HAL_PIXEL_FORMAT_RGBA_8888 := 1; HAL_PIXEL_FORMAT_RGBX_8888 := 2;
  HAL_PIXEL_FORMAT_RGB_565 := 4; HAL_PIXEL_FORMAT_BGRA_8888 := 5;
  HAL_PIXEL_FORMAT_YV12 := 0x32315659
|}.

Definition HAL_PIXEL_FORMAT_BGRX_8888 : Z := 0x1FF.
Definition HAL_PIXEL_FORMAT_TI_NV12 : Z := 0x100.
Definition HAL_PIXEL_FORMAT_TI_NV12_PADDED : Z := 0x101.

Definition RGZ_MAXLAYERS : nat := 13.
Definition RGZ_INPUT_MAXLAYERS : nat := RGZ_MAXLAYERS - 2.
Definition RGZ_NUM_FB : nat := 2.
Definition RGZ_SUBREGIONMAX : nat := RGZ_MAXLAYERS * 2 - 1.
Definition RGZ_MAX_BLITS : nat := RGZ_SUBREGIONMAX * RGZ_SUBREGIONMAX.
Definition RGZ_BACKGROUND_BUFFIDX : Z := -2.
Definition RGZ_CLEARHINT_BUFFIDX : Z := -1.

(** * Data *)

Record blit_rect_t := mkRect { r_left : Z; r_top : Z; r_right : Z; r_bottom : Z }.
Definition zero_rect : blit_rect_t := mkRect 0 0 0 0.

#[export] Instance blit_rect_eq_dec : EqDecision blit_rect_t.
Proof. solve_decision. Defined.

(** What the composer reads of a gralloc buffer handle (hal_public.h). *)
Record IMG_native_handle_t := mkHandle { usage : Z; iWidth : Z; iHeight : Z; iFormat : Z }.

(** A layer of the composition: [handle] is the address of its buffer handle,
    0 when the layer has none. *)
Record hwc_layer_1_t := mkHwcLayer {
  compositionType : Z; hints : Z; flags : Z; handle : Z; transform : Z; blending : Z;
  sourceCrop : blit_rect_t; displayFrame : blit_rect_t }.

Record rgz_layer_t := mkLayer {
  hwc_layer : hwc_layer_1_t; identity : Z; buffidx : Z; dirty_count : Z }.

Record rgz_fb_state_t := mkFb { rgz_layerno : nat; rgz_layers : list rgz_layer_t }.

(** A horizontal region.  [h_layers] is the array of pointers into the layers
    of the current framebuffer state, each as its index there ([None] is the
    null pointer calloc leaves). *)
Record blit_hregion_t := mkHregion {
  h_rect : blit_rect_t; h_layers : list (option nat); nlayers : nat; nsubregions : nat;
  blitrects : list (list blit_rect_t) }.

Record rgz_t := mkRgz {
  hregions : option (list blit_hregion_t); nhregions : nat; state : Z;
  cur_fb_state : rgz_fb_state_t; fb_state_idx : nat; fb_states : list rgz_fb_state_t;
  damaged_area : blit_rect_t }.

Definition RGZ_STATE_INIT : Z := 1.
Definition RGZ_REGION_DATA : Z := 2.

(** A BltsVille surface geometry, as far as the regionizer uses it. *)
Record bvsurfgeom := mkGeom {
  g_structsize : Z; g_format : Z; g_width : Z; g_height : Z; g_orientation : Z;
  g_virtstride : Z }.

Definition zero_handle := mkHandle 0 0 0 0.
Definition zero_hwc_layer := mkHwcLayer 0 0 0 0 0 0 zero_rect zero_rect.
Definition zero_layer := mkLayer zero_hwc_layer 0 0 0.
Definition zero_fb := mkFb 0 (replicate RGZ_MAXLAYERS zero_layer).
Definition zero_hregion := mkHregion zero_rect (replicate RGZ_MAXLAYERS None) 0 0
  (replicate RGZ_MAXLAYERS (replicate RGZ_SUBREGIONMAX zero_rect)).
Definition zero_rgz := mkRgz None 0 0 zero_fb 0 (replicate RGZ_NUM_FB zero_fb) zero_rect.

(** * Rectangles *)

Definition WIDTH (r : blit_rect_t) : Z := r_right r - r_left r.
Definition HEIGHT (r : blit_rect_t) : Z := r_bottom r - r_top r.

Definition empty_rect (r : blit_rect_t) : bool :=
  (r_left r =? 0) && (r_top r =? 0) && (r_right r =? 0) && (r_bottom r =? 0).

Definition RECT_INTERSECTS (a b : blit_rect_t) : bool :=
  (r_bottom a >? r_top b) && (r_top a <? r_bottom b) &&
  (r_right a >? r_left b) && (r_left a <? r_right b).

(** The pixel (x, y) belongs to the half-open rectangle [r]. *)
Definition covers (r : blit_rect_t) (x y : Z) : bool :=
  (r_left r <=? x) && (x <? r_right r) && (r_top r <=? y) && (y <? r_bottom r).

Definition rect_within (inner outer : blit_rect_t) : Prop :=
  r_left outer <= r_left inner /\ r_top outer <= r_top inner /\
  r_right inner <= r_right outer /\ r_bottom inner <= r_bottom outer.

(** * Layers *)

Section Layers.
Context `{HwcApi}.

Definition is_NV12 (format : Z) : bool :=
  (format =? HAL_PIXEL_FORMAT_TI_NV12) || (format =? HAL_PIXEL_FORMAT_TI_NV12_PADDED).

Definition is_OPAQUE (format : Z) : bool :=
  (format =? HAL_PIXEL_FORMAT_RGB_565) || (format =? HAL_PIXEL_FORMAT_RGBX_8888) ||
  (format =? HAL_PIXEL_FORMAT_BGRX_8888).

Definition has_flag (x flag : Z) : bool := negb (Z.land x flag =? 0).

Definition rgz_hwc_scaled (layer : hwc_layer_1_t) : bool :=
  let w := WIDTH (sourceCrop layer) in
  let h := HEIGHT (sourceCrop layer) in
  let '(w, h) := if has_flag (transform layer) HWC_TRANSFORM_ROT_90 then (h, w) else (w, h) in
  negb (WIDTH (displayFrame layer) =? w) || negb (HEIGHT (displayFrame layer) =? h).

Definition rgz_get_orientation (transform : Z) : Z :=
  let orientation :=
    if has_flag transform HWC_TRANSFORM_FLIP_H && has_flag transform HWC_TRANSFORM_FLIP_V
    then 180 else 0 in
  if has_flag transform HWC_TRANSFORM_ROT_90 then orientation + 90 else orientation.

(** [rgz_in_valid_hwc_layer]: [hmem] is the memory of buffer handles; the
    result is [None] when a non-null handle points to none. *)
Definition rgz_in_valid_hwc_layer (hmem : Z -> option IMG_native_handle_t)
    (layer : hwc_layer_1_t) : option bool :=
  if has_flag (flags layer) HWC_SKIP_LAYER || (handle layer =? 0) then Some false
  else
    let* h := hmem (handle layer) in
    if is_NV12 (iFormat h) then Some (iFormat h =? HAL_PIXEL_FORMAT_TI_NV12)
    else if negb (transform layer =? 0) &&
            xorb (has_flag (transform layer) HWC_TRANSFORM_FLIP_H)
                 (has_flag (transform layer) HWC_TRANSFORM_FLIP_V)
    then Some false
    else Some ((iFormat h =? HAL_PIXEL_FORMAT_BGRX_8888) ||
               (iFormat h =? HAL_PIXEL_FORMAT_RGBX_8888) ||
               (iFormat h =? HAL_PIXEL_FORMAT_RGB_565) ||
               (iFormat h =? HAL_PIXEL_FORMAT_RGBA_8888) ||
               (iFormat h =? HAL_PIXEL_FORMAT_BGRA_8888)).

End Layers.

(** * Rotated views *)

(** [res] is the previous content of the result, which an angle that is not a
    multiple of 90 leaves partly in place. *)
Definition rgz_get_rotated_view (outer inner res : blit_rect_t) (orientation : Z)
    : blit_rect_t :=
  let outer_width := WIDTH outer in
  let outer_height := HEIGHT outer in
  let inner_width := WIDTH inner in
  let inner_height := HEIGHT inner in
  let delta_top := r_top inner - r_top outer in
  let delta_left := r_left inner - r_left outer in
  let orientation := Z.rem orientation 360 + 360 in
  let o := Z.rem orientation 360 in
  let '(l, t) :=
    if o =? 0 then (delta_left, delta_top)
    else if o =? 180 then
      (outer_width - inner_width - delta_left, outer_height - inner_height - delta_top)
    else if o =? 90 then (outer_height - inner_height - delta_top, delta_left)
    else if o =? 270 then (delta_top, outer_width - inner_width - delta_left)
    else (r_left res, r_top res) in
  let '(w, h) := if Z.rem orientation 180 =? 0 then (inner_width, inner_height)
                 else (inner_height, inner_width) in
  mkRect l t (l + w) (t + h).

Definition rgz_get_src_rect `{HwcApi} (layer : hwc_layer_1_t)
    (subregion_rect res : blit_rect_t) : blit_rect_t :=
  if rgz_hwc_scaled layer then sourceCrop layer
  else
    let src_orientation := 0 - rgz_get_orientation (transform layer) in
    let r := rgz_get_rotated_view (displayFrame layer) subregion_rect res src_orientation in
    let c := sourceCrop layer in
    mkRect (r_left r + r_left c) (r_top r + r_top c)
           (r_right r + r_left c) (r_bottom r + r_top c).

(** * Correctness of the rotated views *)

(** Where a pixel of a [w] x [h] area goes when the area is turned clockwise
    by [o] degrees. *)
Definition rot_pixel (w h o : Z) (p : Z * Z) : Z * Z :=
  let '(x, y) := p in
  match o mod 360 with
  | 90 => (h - 1 - y, x)
  | 180 => (w - 1 - x, h - 1 - y)
  | 270 => (y, w - 1 - x)
  | _ => (x, y)
  end.

(** The four quarter turns an angle can be, with the C remainders the code
    computes for it. *)
Lemma quarter_turns k :
  let o := Z.rem (90 * k) 360 + 360 in
  let q := Z.rem o 360 in let s := Z.rem o 180 in let m := (90 * k) mod 360 in
  (q = 0 /\ s = 0 /\ m = 0) \/ (q = 90 /\ s = 90 /\ m = 90) \/
  (q = 180 /\ s = 0 /\ m = 180) \/ (q = 270 /\ s = 90 /\ m = 270).
Proof.
  cbv zeta.
  assert (Hb : -360 < Z.rem (90 * k) 360 < 360).
  { pose proof (Z.rem_bound_abs (90 * k) 360). lia. }
  set (r := Z.rem (90 * k) 360) in *.
  assert (Hm : (90 * k) mod 360 = (r + 360) mod 360).
  { rewrite (Z.quot_rem' (90 * k) 360) at 1. fold r.
    replace (360 * (90 * k ÷ 360) + r) with (r + 360 + (90 * k ÷ 360 - 1) * 360) by lia.
    by rewrite Z.mod_add by lia. }
  assert (Hq : Z.rem (r + 360) 360 = (r + 360) mod 360) by (apply Z.rem_mod_nonneg; lia).
  assert (Hs : Z.rem (r + 360) 180 = (r + 360) mod 180) by (apply Z.rem_mod_nonneg; lia).
  rewrite Hm, Hq, Hs.
  assert (Hd : exists j, r = 90 * j).
  { exists (k - 4 * (90 * k ÷ 360)). unfold r.
    pose proof (Z.quot_rem' (90 * k) 360). lia. }
  destruct Hd as [j Hj].
  assert (j = -3 \/ j = -2 \/ j = -1 \/ j = 0 \/ j = 1 \/ j = 2 \/ j = 3) as Hcase by lia.
  destruct Hcase as [->| [->| [->| [->| [->| [->| ->]]]]]]; rewrite Hj; cbv; auto 10.
Qed.

(** Case analysis on an angle that is a quarter turn. *)
Ltac quarter_cases k :=
  destruct (quarter_turns k) as [(Hq & Hs & Hm) | [(Hq & Hs & Hm) | [(Hq & Hs & Hm)|(Hq & Hs & Hm)]]];
  rewrite ?Hq, ?Hs, ?Hm.

Lemma covers_spec r x y :
  covers r x y = true <-> r_left r <= x < r_right r /\ r_top r <= y < r_bottom r.
Proof. unfold covers. rewrite !andb_true_iff, !Z.leb_le, !Z.ltb_lt. tauto. Qed.

Lemma rotated_view_covers outer inner res k x y :
  covers (rgz_get_rotated_view outer inner res (90 * k))
    (fst (rot_pixel (WIDTH outer) (HEIGHT outer) (90 * k) (x - r_left outer, y - r_top outer)))
    (snd (rot_pixel (WIDTH outer) (HEIGHT outer) (90 * k) (x - r_left outer, y - r_top outer)))
  = covers inner x y.
Proof.
  unfold rgz_get_rotated_view, rot_pixel. apply eq_true_iff_eq. rewrite !covers_spec.
  quarter_cases k; simpl; unfold WIDTH, HEIGHT in *; lia.
Qed.

Lemma rotated_view_inverse outer inner res res' k :
  let v := rgz_get_rotated_view outer inner res (90 * k) in
  let turned := if Z.even k then mkRect 0 0 (WIDTH outer) (HEIGHT outer)
                else mkRect 0 0 (HEIGHT outer) (WIDTH outer) in
  rgz_get_rotated_view turned v res' (360 - 90 * k) =
  mkRect (r_left inner - r_left outer) (r_top inner - r_top outer)
         (r_right inner - r_left outer) (r_bottom inner - r_top outer).
Proof.
  cbv zeta. replace (360 - 90 * k) with (90 * (4 - k)) by lia.
  unfold rgz_get_rotated_view.
  destruct (quarter_turns (4 - k)) as [(Hq' & Hs' & Hm') | [(Hq' & Hs' & Hm') | [(Hq' & Hs' & Hm')|(Hq' & Hs' & Hm')]]];
  destruct (Z.even k) eqn:He; try apply Z.even_spec in He as [e He];
    try (rewrite <- Z.negb_odd, negb_false_iff in He; apply Z.odd_spec in He as [e He]);
  quarter_cases k; try (exfalso; Z.div_mod_to_equations; lia);
  rewrite Hq', Hs'; cbn; unfold WIDTH, HEIGHT; f_equal; cbn; lia.
Qed.

Section SourceRect.
Context `{HwcApi}.

(** The pixel of the source buffer that an unscaled layer shows at (x, y). *)
Definition src_pixel (layer : hwc_layer_1_t) (x y : Z) : Z * Z :=
  let f := displayFrame layer in
  let '(u, v) := rot_pixel (WIDTH f) (HEIGHT f) (0 - rgz_get_orientation (transform layer))
                           (x - r_left f, y - r_top f) in
  (u + r_left (sourceCrop layer), v + r_top (sourceCrop layer)).

Lemma orientation_quarter t :
  exists k, 0 - rgz_get_orientation t = 90 * k /\
    Z.odd k = has_flag t HWC_TRANSFORM_ROT_90.
Proof.
  unfold rgz_get_orientation.
  destruct (has_flag t HWC_TRANSFORM_FLIP_H && has_flag t HWC_TRANSFORM_FLIP_V),
    (has_flag t HWC_TRANSFORM_ROT_90);
    [exists (-3)|exists (-2)|exists (-1)|exists 0]; done.
Qed.

Lemma src_rect_covers layer sub res x y :
  rgz_hwc_scaled layer = false ->
  covers (rgz_get_src_rect layer sub res) (fst (src_pixel layer x y)) (snd (src_pixel layer x y))
  = covers sub x y.
Proof.
  intros Hs. unfold rgz_get_src_rect, src_pixel. rewrite Hs.
  destruct (orientation_quarter (transform layer)) as (k & -> & _).
  rewrite <- (rotated_view_covers (displayFrame layer) sub res k x y).
  destruct (rot_pixel _ _ _ _) as [u v]. simpl.
  apply eq_true_iff_eq. rewrite !covers_spec. simpl. lia.
Qed.

Lemma src_rect_within_crop layer sub res :
  rgz_hwc_scaled layer = false -> rect_within sub (displayFrame layer) ->
  rect_within (rgz_get_src_rect layer sub res) (sourceCrop layer).
Proof.
  intros Hs Hin. unfold rgz_get_src_rect. rewrite Hs.
  destruct (orientation_quarter (transform layer)) as (k & -> & Hk).
  unfold rgz_hwc_scaled in Hs. rewrite <- Hk in Hs.
  unfold rgz_get_rotated_view, rect_within in *.
  destruct (Z.odd k) eqn:Ho;
    [apply Z.odd_spec in Ho as [e Ho] | rewrite <- Z.negb_even, negb_false_iff in Ho;
                                        apply Z.even_spec in Ho as [e Ho]];
  apply orb_false_iff in Hs as [H1 H2];
  rewrite negb_false_iff, Z.eqb_eq in H1, H2;
  quarter_cases k; try (exfalso; Z.div_mod_to_equations; lia);
  unfold WIDTH, HEIGHT in *; simpl in *; lia.
Qed.

End SourceRect.

(** * The properties *)

(** for every quarter turn, [rgz_get_rotated_view] turns the inner rectangle
    with the outer one: a pixel is in the inner rectangle exactly when its
    image under the clockwise turn of the outer rectangle is in the view,
    and turning the view back by the complementary angle gives the inner
    rectangle again, relative to the outer one. *)
Lemma rotated_view_correct (outer inner res res' : blit_rect_t) (k : Z) :
  let v := rgz_get_rotated_view outer inner res (90 * k) in
  (forall x y,
     let p := rot_pixel (WIDTH outer) (HEIGHT outer) (90 * k) (x - r_left outer, y - r_top outer) in
     covers v p.1 p.2 = covers inner x y) /\
  rgz_get_rotated_view
    (if Z.even k then mkRect 0 0 (WIDTH outer) (HEIGHT outer)
     else mkRect 0 0 (HEIGHT outer) (WIDTH outer)) v res' (360 - 90 * k) =
  mkRect (r_left inner - r_left outer) (r_top inner - r_top outer)
         (r_right inner - r_left outer) (r_bottom inner - r_top outer).
Proof. split; [intros x y; apply rotated_view_covers|apply rotated_view_inverse]. Qed.

(** for an unscaled layer, [rgz_get_src_rect] selects in the source buffer
    exactly the pixels that the layer shows in the subregion, whatever the
    layer's orientation, and stays inside the source crop when the subregion is
    inside the display frame. *)
Lemma src_rect_correct `{HwcApi} (layer : hwc_layer_1_t) (sub res : blit_rect_t) :
  rgz_hwc_scaled layer = false ->
  (forall x y, covers (rgz_get_src_rect layer sub res) (src_pixel layer x y).1 (src_pixel layer x y).2 =
               covers sub x y) /\
  (rect_within sub (displayFrame layer) ->
   rect_within (rgz_get_src_rect layer sub res) (sourceCrop layer)).
Proof.
  intros Hs. split; [intros x y; by apply src_rect_covers|intros Hin; by apply src_rect_within_crop].
Qed.

Lemma src_rect_correct_witness :
  let layer := mkHwcLayer 0 0 0 2 HWC_TRANSFORM_ROT_90 0 (mkRect 0 0 4 2) (mkRect 10 10 12 14) in
  covers (rgz_get_src_rect layer (mkRect 10 10 11 12) zero_rect) 1 1 = true.
Proof.
  intros layer. destruct (src_rect_correct layer (mkRect 10 10 11 12) zero_rect) as [Hc _]; [reflexivity|].
  exact (Hc 10 11).
Defined.
