(* ===== verification/RgzRegion.v ===== *)
(** The regionizer proper (src/hwc/rgz_2d.c): [rgz_gen_blitregions] cuts a
    horizontal region into subregions, [rgz_in_hwc] cuts the screen into
    horizontal regions.  The main result, [rgz_in_hwc_spec], says that the
    layers recorded for a subregion are, in z-order, exactly the layers whose
    frames cover each of its pixels. *)

From Stdlib Require Import ZArith Lia Sorting.Sorted.
From stdpp Require Import base list list_numbers option tactics.
From S2P Require Import Prelude RgzSort RgzGeometry.

(** * Definitions *)

(** hregion->rgz_layers[l], dereferenced. *)
Definition layer_at (layers : list rgz_layer_t) (hregion : blit_hregion_t) (l : nat)
    : option rgz_layer_t :=
  let* p := h_layers hregion !! l in
  let* j := p in
  layers !! j.

(** hregion->blitrects[l][r] *)
Definition blitrect_at (hregion : blit_hregion_t) (l r : nat) : option blit_rect_t :=
  let* row := blitrects hregion !! l in row !! r.

Definition set_blitrect (l r : nat) (x : blit_rect_t) (m : list (list blit_rect_t))
    : option (list (list blit_rect_t)) :=
  let* row := m !! l in
  guard* (r <? length row)%nat in
  Some (<[l := <[r := x]> row]> m).

(** The array of left/right offsets, filled from the damaged area and then
    from each layer of the region. *)
Definition gen_offsets (damaged : blit_rect_t) (layers : list rgz_layer_t)
    (hregion : blit_hregion_t) (screen_width : Z) : option (list Z) :=
  let* o1 := arr_push RGZ_SUBREGIONMAX [] (r_left damaged) in
  let* o2 := arr_push RGZ_SUBREGIONMAX o1 (r_right damaged) in
  for_range 0 (nlayers hregion)
    (fun l offsets =>
       let* layer := layer_at layers hregion l in
       let f := displayFrame (hwc_layer layer) in
       let* o := arr_push RGZ_SUBREGIONMAX offsets (Z.max 0 (r_left f)) in
       arr_push RGZ_SUBREGIONMAX o (Z.min (r_right f) screen_width)) o2.

Definition rgz_gen_blitregions (damaged : blit_rect_t) (layers : list rgz_layer_t)
    (hregion : blit_hregion_t) (screen_width : Z) : option blit_hregion_t :=
  let* offsets := gen_offsets damaged layers hregion screen_width in
  let* sorted := rgz_bsort offsets (length offsets) in
  let* (offsets', noffsets) := rgz_bunique sorted (length offsets) in
  let zeroed := replicate RGZ_MAXLAYERS (replicate RGZ_SUBREGIONMAX zero_rect) in
  let* rects :=
    for_range 0 (noffsets - 1)
      (fun r rects =>
         let* a := offsets' !! r in
         let* b := offsets' !! S r in
         let subregion := mkRect a (r_top (h_rect hregion)) b (r_bottom (h_rect hregion)) in
         for_range 0 (nlayers hregion)
           (fun l rects =>
              let* layer := layer_at layers hregion l in
              if RECT_INTERSECTS subregion (displayFrame (hwc_layer layer))
              then set_blitrect l r subregion rects
              else Some rects) rects) zeroed in
  Some (mkHregion (h_rect hregion) (h_layers hregion) (nlayers hregion) (noffsets - 1) rects).

Definition rgz_delete_region_data (rgz : rgz_t) : rgz_t :=
  mkRgz None 0 (Z.land (state rgz) (Z.lnot RGZ_REGION_DATA)) (cur_fb_state rgz)
        (fb_state_idx rgz) (fb_states rgz) (damaged_area rgz).

(** The array of top/bottom coordinates of [rgz_in_hwc] with the running
    maximum [dispw] of the right edges. *)
Definition gen_yentries (damaged : blit_rect_t) (fb : rgz_fb_state_t) (screen_height : Z)
    : option (list Z * Z) :=
  let* y1 := arr_push RGZ_SUBREGIONMAX [] (r_top damaged) in
  let* y2 := arr_push RGZ_SUBREGIONMAX y1 (r_bottom damaged) in
  for_range 0 (rgz_layerno fb)
    (fun i '(ys, dispw) =>
       let* layer := rgz_layers fb !! i in
       let f := displayFrame (hwc_layer layer) in
       let* ya := arr_push RGZ_SUBREGIONMAX ys (Z.max 0 (r_top f)) in
       let* yb := arr_push RGZ_SUBREGIONMAX ya (Z.min (r_bottom f) screen_height) in
       Some (yb, if dispw >? r_right f then dispw else r_right f))
    (y2, r_right damaged).

(** The layers whose frame intersects the region, in z-order, written at
    index nlayers++. *)
Definition select_layers (fb : rgz_fb_state_t) (h : blit_hregion_t) : option blit_hregion_t :=
  for_range 0 (rgz_layerno fb)
    (fun j h =>
       let* layer := rgz_layers fb !! j in
       if RECT_INTERSECTS (h_rect h) (displayFrame (hwc_layer layer)) then
         guard* (nlayers h <? length (h_layers h))%nat in
         Some (mkHregion (h_rect h) (<[nlayers h := Some j]> (h_layers h)) (S (nlayers h))
                         (nsubregions h) (blitrects h))
       else Some h) h.

Definition mk_hregion (fb : rgz_fb_state_t) (ys : list Z) (dispw screen_width : Z)
    (i : nat) : option blit_hregion_t :=
  let* t := ys !! i in
  let* b := ys !! S i in
  select_layers fb
    (mkHregion (mkRect 0 t (if dispw >? screen_width then screen_width else dispw) b)
               (h_layers zero_hregion) 0 0 (blitrects zero_hregion)).

Definition push_region (mk : nat -> option blit_hregion_t) (i : nat)
    (hs : list blit_hregion_t) : option (list blit_hregion_t) :=
  let* h := mk i in Some (hs ++ [h]).

(** [calloc_ok] is whether calloc returns memory for the regions. *)
Definition rgz_in_hwc (screen_width screen_height : Z) (calloc_ok : bool) (rgz : rgz_t)
    : option (Z * rgz_t) :=
  let fb := cur_fb_state rgz in
  if Z.land (state rgz) RGZ_STATE_INIT =? 0 then Some (-1, rgz)
  else if (RGZ_SUBREGIONMAX <? (rgz_layerno fb + 1) * 2)%nat then Some (-1, rgz)
  else
    let rgz := rgz_delete_region_data rgz in
    let* (yentries, dispw) := gen_yentries (damaged_area rgz) fb screen_height in
    let* sorted := rgz_bsort yentries (length yentries) in
    let* (ys, ylen) := rgz_bunique sorted (length yentries) in
    let n := (ylen - 1)%nat in
    if negb calloc_ok then
      Some (-1, mkRgz None n (state rgz) fb (fb_state_idx rgz) (fb_states rgz) (damaged_area rgz))
    else
      let* hs := for_range 0 n (push_region (mk_hregion fb ys dispw screen_width)) [] in
      let* hs' := for_range 0 n
        (push_region (fun i => let* h := hs !! i in
           rgz_gen_blitregions (damaged_area rgz) (rgz_layers fb) h screen_width)) [] in
      Some (0, mkRgz (Some hs') n (Z.lor (state rgz) RGZ_REGION_DATA) fb
                     (fb_state_idx rgz) (fb_states rgz) (damaged_area rgz)).

(** * Horizontal cuts: [rgz_gen_blitregions] *)

(** Every layer of the region resolves, and their number fits the arrays. *)
Definition region_wf (layers : list rgz_layer_t) (h : blit_hregion_t) : Prop :=
  (2 + 2 * nlayers h <= RGZ_SUBREGIONMAX)%nat /\
  forall l, (l < nlayers h)%nat -> is_Some (layer_at layers h l).

(** The edges that the cuts of a region are made of: those of the damaged area, and of the first [n] layers. *)
Definition column_edges (P : Z -> Prop) (damaged : blit_rect_t) (layers : list rgz_layer_t) (h : blit_hregion_t) (W : Z)
    (n : nat) : Prop :=
  P (r_left damaged) /\ P (r_right damaged) /\
  forall l layer, (l < n)%nat -> layer_at layers h l = Some layer ->
    P (Z.max 0 (r_left (displayFrame (hwc_layer layer)))) /\ P (Z.min (r_right (displayFrame (hwc_layer layer))) W).

Lemma gen_offsets_spec damaged layers h W :
  region_wf layers h ->
  exists offs, gen_offsets damaged layers h W = Some offs /\
    length offs = (2 + 2 * nlayers h)%nat /\
    (forall P, column_edges P damaged layers h W (nlayers h) -> Forall P offs) /\
    (forall l layer, (l < nlayers h)%nat -> layer_at layers h l = Some layer ->
       Z.max 0 (r_left (displayFrame (hwc_layer layer))) ∈ offs /\
       Z.min (r_right (displayFrame (hwc_layer layer))) W ∈ offs).
Proof.
  intros [Hcap Hl]. unfold gen_offsets. rewrite !arr_push_lt by (simpl; unfold RGZ_SUBREGIONMAX, RGZ_MAXLAYERS; lia).
  edestruct (for_range_inv (fun i offs => length offs = (2 + 2 * i)%nat /\
    (forall P, column_edges P damaged layers h W i -> Forall P offs) /\
    forall l layer, (l < i)%nat -> layer_at layers h l = Some layer ->
       Z.max 0 (r_left (displayFrame (hwc_layer layer))) ∈ offs /\
       Z.min (r_right (displayFrame (hwc_layer layer))) W ∈ offs) 0 (nlayers h))
    as (offs & Hr & Hlen & Hed & Hin); [| |exists offs; split; [exact Hr|by split]].
  - split; [done|]. split; [|intros; lia]. intros P (Pl & Pr & _). by repeat constructor.
  - intros i offs Hi (Hlen & Hed & Hin). simpl in Hi.
    destruct (Hl i) as [layer Hlayer]; [lia|]. simpl. rewrite Hlayer.
    rewrite arr_push_lt by (rewrite Hlen; lia).
    rewrite arr_push_lt by (rewrite length_app, Hlen; simpl; lia).
    eexists. split; [done|]. split; [rewrite !length_app, Hlen; simpl; lia|]. split.
    { intros P (Pl & Pr & Pf). destruct (Pf i layer ltac:(lia) Hlayer). rewrite !Forall_app. split; [split|]; [|by constructor..].
      apply Hed. split; [done|]. split; [done|]. intros l layer' Hli. apply Pf. lia. }
    intros l layer' Hli Hlayer'. rewrite !elem_of_app, !list_elem_of_singleton.
    destruct (decide (l = i)) as [->|]; [simplify_eq; auto|].
    destruct (Hin l layer') as [? ?]; [lia|done|]. auto.
Qed.

(** The rectangle recorded for a layer in a subregion. *)
Definition blit_entry (sub frame : blit_rect_t) : blit_rect_t :=
  if RECT_INTERSECTS sub frame then sub else zero_rect.

Definition dims (m : list (list blit_rect_t)) : Prop :=
  length m = RGZ_MAXLAYERS /\ forall l row, m !! l = Some row -> length row = RGZ_SUBREGIONMAX.

Lemma zeroed_dims : dims (replicate RGZ_MAXLAYERS (replicate RGZ_SUBREGIONMAX zero_rect)).
Proof.
  split; [by rewrite length_replicate|]. intros l row Hr.
  apply lookup_replicate in Hr as [-> _]. by rewrite length_replicate.
Qed.

Definition cell (m : list (list blit_rect_t)) (l r : nat) : option blit_rect_t :=
  let* row := m !! l in row !! r.

Lemma set_blitrect_spec l r x m :
  dims m -> (l < RGZ_MAXLAYERS)%nat -> (r < RGZ_SUBREGIONMAX)%nat ->
  exists m', set_blitrect l r x m = Some m' /\ dims m' /\
    (forall l' r', cell m' l' r' =
       if decide (l' = l /\ r' = r) then Some x else cell m l' r').
Proof.
  intros [Hm Hrow] Hl Hr. unfold set_blitrect, cell.
  destruct (lookup_lt_is_Some_2 m l) as [row Hlr]; [lia|]. rewrite Hlr.
  pose proof (Hrow _ _ Hlr) as Hlen.
  rewrite (proj2 (Nat.ltb_lt _ _)) by lia.
  eexists. split; [done|]. split.
  - split; [by rewrite length_insert|]. intros k row' Hk.
    apply list_lookup_insert_Some in Hk as [(-> & <- & _)|[_ Hk]]; [|by eapply Hrow].
    by rewrite length_insert.
  - intros l' r'. destruct (decide (l' = l)) as [->|Hne].
    + rewrite list_lookup_insert_eq by lia. destruct (decide (r' = r)) as [->|Hner].
      * rewrite list_lookup_insert_eq by lia. by rewrite decide_True.
      * rewrite list_lookup_insert_ne by done.
        rewrite decide_False by tauto. by rewrite Hlr.
    + rewrite list_lookup_insert_ne by done. by rewrite decide_False by tauto.
Qed.

Section GenBlitregions.
Variables (layers : list rgz_layer_t) (h : blit_hregion_t) (W : Z).
Hypothesis Hwf : region_wf layers h.

Let inner (r : nat) (sub : blit_rect_t) :=
  fun (l : nat) (rects : list (list blit_rect_t)) =>
    let* layer := layer_at layers h l in
    if RECT_INTERSECTS sub (displayFrame (hwc_layer layer))
    then set_blitrect l r sub rects
    else Some rects.

(** One column of the table. *)
Lemma column_spec r sub rects :
  (r < RGZ_SUBREGIONMAX)%nat -> dims rects ->
  (forall l, (l < nlayers h)%nat -> cell rects l r = Some zero_rect) ->
  exists rects', for_range 0 (nlayers h) (inner r sub) rects = Some rects' /\ dims rects' /\
    (forall l r', cell rects' l r' =
       if decide (r' = r /\ l < nlayers h)%nat
       then (let* layer := layer_at layers h l in
             Some (blit_entry sub (displayFrame (hwc_layer layer))))
       else cell rects l r').
Proof.
  intros Hr Hd Hz. destruct Hwf as [Hcap Hl].
  assert (Hn : (nlayers h < RGZ_MAXLAYERS)%nat)
    by (unfold RGZ_SUBREGIONMAX, RGZ_MAXLAYERS in *; lia).
  edestruct (for_range_inv (fun i m => dims m /\
    forall l r', cell m l r' =
       if decide (r' = r /\ l < i)%nat
       then (let* layer := layer_at layers h l in
             Some (blit_entry sub (displayFrame (hwc_layer layer))))
       else cell rects l r') 0 (nlayers h) (inner r sub) rects)
    as (m & Hm & Hdm & Hc); [| |exists m; split; [exact Hm|by split]].
  - split; [done|]. intros l r'. by rewrite decide_False by lia.
  - intros i m Hi [Hdm Hc]. simpl in Hi. destruct (Hl i) as [layer Hlayer]; [lia|].
    unfold inner. rewrite Hlayer.
    destruct (RECT_INTERSECTS sub (displayFrame (hwc_layer layer))) eqn:Hint.
    + destruct (set_blitrect_spec i r sub m) as (m' & Hs & Hd' & Hc'); [done|lia|lia|].
      exists m'. split; [done|]. split; [done|]. intros l r'. rewrite Hc', Hc.
      destruct (decide (l = i /\ r' = r)) as [[-> ->]|Hne].
      * rewrite decide_True by lia. rewrite Hlayer. unfold blit_entry. by rewrite Hint.
      * repeat case_decide; first [done | lia].
    + exists m. split; [done|]. split; [done|]. intros l r'. rewrite Hc.
      destruct (decide (l = i /\ r' = r)) as [[-> ->]|Hne].
      * rewrite decide_False by lia. rewrite decide_True by lia.
        rewrite Hlayer, Hz by lia. unfold blit_entry. by rewrite Hint.
      * repeat case_decide; first [done | lia].
Qed.

Definition sub_of (a b : Z) : blit_rect_t :=
  mkRect a (r_top (h_rect h)) b (r_bottom (h_rect h)).

(** What [rgz_gen_blitregions] returns: a strictly increasing list of cuts
    that contains the clamped edges of every layer, and for each consecutive
    pair of cuts and each layer, the subregion or the empty rectangle. *)
Lemma gen_blitregions_spec damaged :
  exists h' cuts, rgz_gen_blitregions damaged layers h W = Some h' /\
    h_rect h' = h_rect h /\ h_layers h' = h_layers h /\ nlayers h' = nlayers h /\
    StronglySorted Z.lt cuts /\ length cuts = S (nsubregions h') /\
    (nsubregions h' < RGZ_SUBREGIONMAX)%nat /\
    (forall P, column_edges P damaged layers h W (nlayers h) -> Forall P cuts) /\
    (forall l layer, (l < nlayers h)%nat -> layer_at layers h l = Some layer ->
       Z.max 0 (r_left (displayFrame (hwc_layer layer))) ∈ cuts /\
       Z.min (r_right (displayFrame (hwc_layer layer))) W ∈ cuts) /\
    (forall l r a b layer, (l < nlayers h)%nat -> layer_at layers h l = Some layer ->
       cuts !! r = Some a -> cuts !! S r = Some b ->
       blitrect_at h' l r = Some (blit_entry (sub_of a b) (displayFrame (hwc_layer layer)))).
Proof.
  pose proof Hwf as [Hcap Hl]. unfold rgz_gen_blitregions.
  destruct (gen_offsets_spec damaged layers h W Hwf) as (offs & Ho & Hlen & Hed & Hin). rewrite Ho.
  destruct (bsort_bunique_spec offs) as (b & c & u & Hb & Hc & Hlc & Hu & Hsc & Hec).
  { intros ->. simpl in Hlen. lia. }
  rewrite Hb, Hc.
  edestruct (for_range_inv (fun i m => dims m /\
    forall l r, (l < RGZ_MAXLAYERS)%nat -> (r < RGZ_SUBREGIONMAX)%nat -> cell m l r =
       if decide (r < i /\ l < nlayers h)%nat
       then (let* a := c !! r in let* b := c !! S r in
             let* layer := layer_at layers h l in
             Some (blit_entry (sub_of a b) (displayFrame (hwc_layer layer))))
       else Some zero_rect) 0 (u - 1))
    as (m & Hm & Hdm & Hcm); [| |rewrite Hm].
  - split; [apply zeroed_dims|]. intros l r Hl' Hr. rewrite decide_False by lia.
    unfold cell. rewrite lookup_replicate_2 by done. by rewrite lookup_replicate_2.
  - intros i m Hi [Hdm Hcm]. simpl in Hi.
    destruct (lookup_lt_is_Some_2 c i) as [x Hx]; [lia|].
    destruct (lookup_lt_is_Some_2 c (S i)) as [y Hy]; [lia|].
    cbn beta. rewrite Hx, Hy.
    destruct (column_spec i (sub_of x y) m) as (m' & Hm' & Hd' & Hc'); [lia|done| |].
    { intros l Hl'. rewrite Hcm, decide_False;
        [done|lia|unfold RGZ_SUBREGIONMAX, RGZ_MAXLAYERS in *; lia|lia]. }
    exists m'. split; [exact Hm'|]. split; [done|].
    intros l r Hl' Hr. rewrite Hc'.
    destruct (decide (r = i /\ l < nlayers h)%nat) as [[-> Hln]|Hne].
    + rewrite decide_True by lia. by rewrite Hx, Hy.
    + rewrite Hcm by done. repeat case_decide; first [done | lia].
  - eexists _, (take u c). split; [done|]. cbn [h_rect h_layers nlayers nsubregions].
    do 3 (split; [done|]). split; [done|].
    split; [rewrite length_take; lia|]. split; [lia|]. split; [|split].
    + intros P HP. apply Hed in HP. rewrite list.Forall_forall in HP |- *. intros x Hx%Hec. by apply HP.
    + intros l layer Hln Hlay. rewrite !Hec. by eapply Hin.
    + intros l r x y layer Hln Hlay Hx Hy.
      apply lookup_take_Some in Hx as [Hx _]. apply lookup_take_Some in Hy as [Hy Hru].
      unfold blitrect_at. cbn [blitrects]. fold (cell m l r).
      rewrite Hcm by (unfold RGZ_SUBREGIONMAX, RGZ_MAXLAYERS in *; lia).
      rewrite decide_True by lia. by rewrite Hx, Hy, Hlay.
Qed.

End GenBlitregions.

(** * Vertical cuts: [rgz_in_hwc] *)

Definition frame_of (fb : rgz_fb_state_t) (j : nat) : blit_rect_t :=
  match rgz_layers fb !! j with
  | Some layer => displayFrame (hwc_layer layer)
  | None => zero_rect
  end.

(** The capacity test of [rgz_in_hwc] and the layers it will read. *)
Definition fb_wf (fb : rgz_fb_state_t) : Prop :=
  ((rgz_layerno fb + 1) * 2 <= RGZ_SUBREGIONMAX)%nat /\
  (rgz_layerno fb <= length (rgz_layers fb))%nat.

(** The edges that the rows are cut at. *)
Definition row_edges (P : Z -> Prop) (damaged : blit_rect_t) (fb : rgz_fb_state_t) (H : Z) (n : nat) : Prop :=
  P (r_top damaged) /\ P (r_bottom damaged) /\
  forall j, (j < n)%nat -> P (Z.max 0 (r_top (frame_of fb j))) /\ P (Z.min (r_bottom (frame_of fb j)) H).

Lemma gen_yentries_spec damaged fb H :
  fb_wf fb ->
  exists ys dispw, gen_yentries damaged fb H = Some (ys, dispw) /\
    length ys = (2 + 2 * rgz_layerno fb)%nat /\
    (forall P, row_edges P damaged fb H (rgz_layerno fb) -> Forall P ys) /\
    (forall j, (j < rgz_layerno fb)%nat ->
       Z.max 0 (r_top (frame_of fb j)) ∈ ys /\ Z.min (r_bottom (frame_of fb j)) H ∈ ys /\
       r_right (frame_of fb j) <= dispw).
Proof.
  intros [Hcap Hlen]. unfold gen_yentries.
  rewrite !arr_push_lt by (simpl; unfold RGZ_SUBREGIONMAX, RGZ_MAXLAYERS; lia).
  edestruct (for_range_inv (fun i '(ys, dispw) => length ys = (2 + 2 * i)%nat /\
    (forall P, row_edges P damaged fb H i -> Forall P ys) /\
    forall j, (j < i)%nat -> Z.max 0 (r_top (frame_of fb j)) ∈ ys /\
      Z.min (r_bottom (frame_of fb j)) H ∈ ys /\ r_right (frame_of fb j) <= dispw)
    0 (rgz_layerno fb)) as ([ys dispw] & Hr & Hl & Hed & Hin);
    [| |exists ys, dispw; split; [exact Hr|by split]].
  - split; [done|]. split; [|intros; lia]. intros P (Pt & Pb & _). by repeat constructor.
  - intros i [ys dispw] Hi (Hl & Hed & Hin). simpl in Hi.
    destruct (lookup_lt_is_Some_2 (rgz_layers fb) i) as [layer Hlay]; [lia|].
    cbn beta iota. rewrite Hlay.
    rewrite arr_push_lt by (rewrite Hl; lia).
    rewrite arr_push_lt by (rewrite length_app, Hl; simpl; lia).
    eexists. split; [done|]. split; [rewrite !length_app, Hl; simpl; lia|]. split.
    { intros P (Pt & Pb & Pf). pose proof (Pf i ltac:(lia)) as Pi. unfold frame_of in Pi. rewrite Hlay in Pi. destruct Pi.
      rewrite !Forall_app. split; [split|]; [|by constructor..]. apply Hed. split; [done|]. split; [done|]. intros j Hj. apply Pf. lia. }
    intros j Hj. rewrite !elem_of_app, !list_elem_of_singleton.
    destruct (decide (j = i)) as [->|].
    + unfold frame_of. rewrite Hlay. split; [by auto|]. split; [by auto|].
      destruct (Z.gtb_spec dispw (r_right (displayFrame (hwc_layer layer)))); lia.
    + destruct (Hin j) as (? & ? & ?); [lia|]. split; [by auto|]. split; [by auto|].
      destruct (Z.gtb_spec dispw (r_right (displayFrame (hwc_layer layer)))); lia.
Qed.

(** The layers whose frame intersects [rect], in z-order. *)
Definition selected (fb : rgz_fb_state_t) (rect : blit_rect_t) (n : nat) : list nat :=
  filter (fun j => RECT_INTERSECTS rect (frame_of fb j) = true) (seq 0 n).

Lemma selected_length fb rect n : (length (selected fb rect n) <= n)%nat.
Proof. unfold selected. transitivity (length (seq 0 n)); [apply list.length_filter|by rewrite length_seq]. Qed.

Lemma selected_S fb rect n :
  selected fb rect (S n) =
  selected fb rect n ++ (if RECT_INTERSECTS rect (frame_of fb n) then [n] else []).
Proof.
  unfold selected. rewrite seq_S, list.filter_app, list.filter_cons, list.filter_nil. simpl.
  by destruct (RECT_INTERSECTS rect (frame_of fb n)).
Qed.

Lemma select_layers_spec fb h :
  fb_wf fb -> nlayers h = 0%nat -> length (h_layers h) = RGZ_MAXLAYERS ->
  exists h', select_layers fb h = Some h' /\ h_rect h' = h_rect h /\
    nlayers h' = length (selected fb (h_rect h) (rgz_layerno fb)) /\
    (forall l j, selected fb (h_rect h) (rgz_layerno fb) !! l = Some j ->
       h_layers h' !! l = Some (Some j)).
Proof.
  intros [Hcap Hlen] Hn Hl. unfold select_layers.
  edestruct (for_range_inv (fun i h' => h_rect h' = h_rect h /\
    length (h_layers h') = RGZ_MAXLAYERS /\
    nlayers h' = length (selected fb (h_rect h) i) /\
    (forall l j, selected fb (h_rect h) i !! l = Some j -> h_layers h' !! l = Some (Some j)))
    0 (rgz_layerno fb)) as (h' & Hr & H1 & _ & H3); [| |exists h'; split; [exact Hr|by split]].
  - do 2 (split; [done|]). split; [done|]. by intros [].
  - intros i h' Hi (Hrect & Hll & Hnl & Hsel). simpl in Hi.
    destruct (lookup_lt_is_Some_2 (rgz_layers fb) i) as [layer Hlay]; [lia|].
    cbn beta. rewrite Hlay, selected_S. unfold frame_of at 1. rewrite Hlay, Hrect.
    pose proof (selected_length fb (h_rect h) i) as Hsl.
    assert (Hfr : frame_of fb i = displayFrame (hwc_layer layer)) by (unfold frame_of; by rewrite Hlay).
    rewrite Hfr.
    destruct (RECT_INTERSECTS (h_rect h) (displayFrame (hwc_layer layer))).
    + rewrite (proj2 (Nat.ltb_lt _ _)) by (unfold RGZ_SUBREGIONMAX, RGZ_MAXLAYERS in *; lia).
      eexists. split; [done|]. cbn [h_rect h_layers nlayers].
      split; [done|]. split; [by rewrite length_insert|].
      split; [rewrite length_app; simpl; lia|].
      intros l j Hlj. apply lookup_app_Some in Hlj as [Hlj|[Hge Hlj]].
      * rewrite list_lookup_insert_ne; [by apply Hsel|].
        apply lookup_lt_Some in Hlj. lia.
      * apply list_lookup_singleton_Some in Hlj as [? <-].
        replace l with (nlayers h') by lia.
        apply list_lookup_insert_eq. unfold RGZ_SUBREGIONMAX, RGZ_MAXLAYERS in *; lia.
    + exists h'. rewrite app_nil_r. done.
Qed.

Lemma push_region_spec mk n :
  (forall i, (i < n)%nat -> is_Some (mk i)) ->
  exists hs, for_range 0 n (push_region mk) [] = Some hs /\ length hs = n /\
    (forall i, (i < n)%nat -> hs !! i = mk i).
Proof.
  intros Hmk.
  edestruct (for_range_inv (fun k hs => length hs = k /\
    forall i, (i < k)%nat -> hs !! i = mk i) 0 n (push_region mk) [])
    as (hs & Hr & Hl & Hi); [| |exists hs; split; [exact Hr|by split]].
  - split; [done|]. intros; lia.
  - intros k hs Hk [Hl Hi]. unfold push_region.
    destruct (Hmk k) as [h Hh]; [lia|]. rewrite Hh. eexists. split; [done|].
    split; [rewrite length_app; simpl; lia|]. intros i Hik.
    destruct (decide (i = k)) as [->|].
    + rewrite lookup_app_r, Hl, Nat.sub_diag by lia. by rewrite Hh.
    + rewrite lookup_app_l by lia. apply Hi. lia.
Qed.

(** What [rgz_in_hwc] records: strictly increasing vertical cuts, and for each
    consecutive pair the region [rgz_gen_blitregions] makes of the layers
    selected for it. *)
Definition region_ok (damaged : blit_rect_t) (fb : rgz_fb_state_t) (dispw W : Z) (t b : Z) (h : blit_hregion_t) : Prop :=
  let rect := mkRect 0 t (Z.min dispw W) b in
  let sel := selected fb rect (rgz_layerno fb) in
  h_rect h = rect /\ nlayers h = length sel /\
  (forall l j, sel !! l = Some j -> h_layers h !! l = Some (Some j)) /\
  exists cuts,
    (forall P : Z -> Prop, P (r_left damaged) -> P (r_right damaged) ->
       (forall j, j ∈ sel -> P (Z.max 0 (r_left (frame_of fb j))) /\ P (Z.min (r_right (frame_of fb j)) W)) -> Forall P cuts) /\
    StronglySorted Z.lt cuts /\ length cuts = S (nsubregions h) /\
    (nsubregions h < RGZ_SUBREGIONMAX)%nat /\
    (forall j, j ∈ sel -> Z.max 0 (r_left (frame_of fb j)) ∈ cuts /\
                          Z.min (r_right (frame_of fb j)) W ∈ cuts) /\
    (forall l r j x y, sel !! l = Some j -> cuts !! r = Some x -> cuts !! S r = Some y ->
       blitrect_at h l r = Some (blit_entry (mkRect x t y b) (frame_of fb j))).

Lemma region_spec damaged fb dispw W ys i t b :
  fb_wf fb -> ys !! i = Some t -> ys !! S i = Some b ->
  exists h h', mk_hregion fb ys dispw W i = Some h /\
    rgz_gen_blitregions damaged (rgz_layers fb) h W = Some h' /\ region_ok damaged fb dispw W t b h'.
Proof.
  intros Hwf Ht Hb. unfold mk_hregion. rewrite Ht, Hb.
  replace (if dispw >? W then W else dispw) with (Z.min dispw W)
    by (destruct (Z.gtb_spec dispw W); lia).
  edestruct (select_layers_spec fb) as (h & Hs & Hrect & Hn & Hl);
    [done| | |rewrite Hs; exists h]; [done|done|].
  cbn [h_rect] in *. set (rect := mkRect 0 t (Z.min dispw W) b) in *.
  set (sel := selected fb rect (rgz_layerno fb)) in *.
  assert (Hat : forall l j, sel !! l = Some j -> exists layer,
    layer_at (rgz_layers fb) h l = Some layer /\ displayFrame (hwc_layer layer) = frame_of fb j).
  { intros l j Hlj. unfold layer_at, frame_of. rewrite (Hl _ _ Hlj).
    assert (j ∈ sel) as Hj by by eapply list_elem_of_lookup_2.
    apply list_elem_of_filter in Hj as [_ Hj]. apply elem_of_seq in Hj.
    destruct (lookup_lt_is_Some_2 (rgz_layers fb) j) as [layer Hlay]; [destruct Hwf; lia|].
    rewrite Hlay. by exists layer. }
  assert (Hrwf : region_wf (rgz_layers fb) h).
  { split.
    - destruct Hwf as [Hcap _]. rewrite Hn.
      pose proof (selected_length fb rect (rgz_layerno fb)). unfold sel. lia.
    - intros l Hlt. rewrite Hn in Hlt. destruct (lookup_lt_is_Some_2 sel l Hlt) as [j Hj].
      destruct (Hat _ _ Hj) as (layer & -> & _). done. }
  destruct (gen_blitregions_spec (rgz_layers fb) h W Hrwf damaged)
    as (h' & cuts & Hg & Hr' & Hl' & Hn' & Hsc & Hlc & Hns & Hed & Hin & Hbl).
  exists h'. split; [done|]. split; [done|]. unfold region_ok. fold rect sel.
  rewrite Hr', Hrect, Hn', Hn, Hl'. do 2 (split; [done|]). split; [done|].
  exists cuts. split.
  { intros P Pl Pr Pf. apply Hed. split; [done|]. split; [done|]. intros l layer Hln Hlay. rewrite Hn in Hln.
    destruct (lookup_lt_is_Some_2 sel l Hln) as [j Hj]. destruct (Hat _ _ Hj) as (layer' & Hlay' & Hf).
    rewrite Hlay in Hlay'. injection Hlay' as <-. rewrite Hf. apply Pf. by eapply list_elem_of_lookup_2. }
  do 3 (split; [done|]). split.
  - intros j Hj. apply list_elem_of_lookup in Hj as [l Hj].
    destruct (Hat _ _ Hj) as (layer & Hlay & <-). apply (Hin l); [|done].
    rewrite Hn. by eapply lookup_lt_Some.
  - intros l r j x y Hj Hx Hy. destruct (Hat _ _ Hj) as (layer & Hlay & <-).
    rewrite (Hbl l r x y layer); [|rewrite Hn; by eapply lookup_lt_Some|done|done|done].
    unfold sub_of. by rewrite Hrect.
Qed.

Lemma rgz_in_hwc_cuts W H rgz :
  Z.land (state rgz) RGZ_STATE_INIT <> 0 -> fb_wf (cur_fb_state rgz) ->
  let fb := cur_fb_state rgz in
  exists hs ys dispw rgz', rgz_in_hwc W H true rgz = Some (0, rgz') /\
    rgz' = mkRgz (Some hs) (length hs) (Z.lor (Z.land (state rgz) (Z.lnot RGZ_REGION_DATA)) RGZ_REGION_DATA)
                 fb (fb_state_idx rgz) (fb_states rgz) (damaged_area rgz) /\
    StronglySorted Z.lt ys /\ length ys = S (length hs) /\
    (forall j, (j < rgz_layerno fb)%nat ->
       Z.max 0 (r_top (frame_of fb j)) ∈ ys /\ Z.min (r_bottom (frame_of fb j)) H ∈ ys /\
       r_right (frame_of fb j) <= dispw) /\
    (forall i h t b, hs !! i = Some h -> ys !! i = Some t -> ys !! S i = Some b ->
       region_ok (damaged_area rgz) fb dispw W t b h) /\
    (forall P, row_edges P (damaged_area rgz) fb H (rgz_layerno fb) -> Forall P ys).
Proof.
  intros Hinit Hwf fb. unfold rgz_in_hwc.
  rewrite (proj2 (Z.eqb_neq _ _) Hinit). fold fb.
  rewrite (proj2 (Nat.ltb_ge _ _)) by (destruct Hwf; unfold fb; lia).
  unfold rgz_delete_region_data. cbn [cur_fb_state damaged_area state fb_state_idx fb_states].
  destruct (gen_yentries_spec (damaged_area rgz) fb H Hwf) as (ys & dispw & Hg & Hlen & Hed & Hin).
  rewrite Hg.
  destruct (bsort_bunique_spec ys) as (b & c & u & Hb & Hc & Hlc & Hu & Hsc & Hec).
  { intros ->. simpl in Hlen. lia. }
  rewrite Hb, Hc. cbn [negb].
  assert (Hnth : forall i, (i < u - 1)%nat -> exists t e, take u c !! i = Some t /\ take u c !! S i = Some e /\
     c !! i = Some t /\ c !! S i = Some e).
  { intros i Hi. destruct (lookup_lt_is_Some_2 c i) as [t Ht]; [lia|].
    destruct (lookup_lt_is_Some_2 c (S i)) as [e He]; [lia|].
    exists t, e. rewrite !lookup_take_lt by lia. done. }
  destruct (push_region_spec (mk_hregion fb c dispw W) (u - 1)) as (hs & Hhs & Hlhs & Hih).
  { intros i Hi. destruct (Hnth i Hi) as (t & e & _ & _ & Ht & He).
    destruct (region_spec (damaged_area rgz) fb dispw W c i t e Hwf Ht He) as (h & _ & -> & _). done. }
  rewrite Hhs.
  destruct (push_region_spec (fun i => let* h := hs !! i in
           rgz_gen_blitregions (damaged_area rgz) (rgz_layers fb) h W) (u - 1)) as (hs' & Hhs' & Hlhs' & Hih').
  { intros i Hi. destruct (Hnth i Hi) as (t & e & _ & _ & Ht & He). rewrite (Hih i Hi).
    destruct (region_spec (damaged_area rgz) fb dispw W c i t e Hwf Ht He) as (h & h' & -> & -> & _). done. }
  rewrite Hhs'. exists hs', (take u c), dispw. eexists. split; [done|].
  split; [by rewrite Hlhs'|]. split; [done|]. split; [rewrite length_take; lia|]. split.
  - intros j Hj. rewrite !Hec. by apply Hin.
  - split; [|intros P HP; apply Hed in HP; rewrite list.Forall_forall in HP |- *; intros x Hx%Hec; by apply HP].
    intros i h t e Hi Ht He.
    assert (Hlt : (i < u - 1)%nat) by (apply lookup_lt_Some in Hi; lia).
    destruct (Hnth i Hlt) as (t' & e' & Ht' & He' & Hct & Hce).
    rewrite Hih', Hih in Hi by done.
    destruct (region_spec (damaged_area rgz) fb dispw W c i t' e' Hwf Hct Hce) as (g & g' & Hg1 & Hg2 & Hok).
    rewrite Hg1, Hg2 in Hi. by simplify_eq.
Qed.

(** * Pixel-exactness *)

(** The layers [rgz_hwc_subregion_blit] finds in a subregion: those whose
    recorded rectangle is not empty, as indices into the framebuffer state. *)
Definition subregion_layers (h : blit_hregion_t) (s : nat) : list nat :=
  omap (fun l => let* r := blitrect_at h l s in
                 let* p := h_layers h !! l in
                 if empty_rect r then None else p) (seq 0 (nlayers h)).

(** The subregion draws on the pixel (x, y). *)
Definition subregion_covers (h : blit_hregion_t) (s : nat) (x y : Z) : bool :=
  (s <? nsubregions h)%nat &&
  existsb (fun l => match blitrect_at h l s with Some r => covers r x y | None => false end)
          (seq 0 (nlayers h)).

(** The layers that show at the pixel (x, y), in z-order. *)
Definition pixel_layers (fb : rgz_fb_state_t) (x y : Z) : list nat :=
  filter (fun j => covers (frame_of fb j) x y = true) (seq 0 (rgz_layerno fb)).

Lemma omap_seq_filter (L : list nat) (p : nat -> bool) (f : nat -> option nat) :
  (forall l j, L !! l = Some j -> f l = if p j then Some j else None) ->
  omap f (seq 0 (length L)) = filter (fun j => p j = true) L.
Proof.
  induction L as [|j L IH] using rev_ind; intros Hf; [done|].
  rewrite length_app, Nat.add_1_r, seq_S, omap_app, list.filter_app.
  f_equal.
  - apply IH. intros l k Hl. apply Hf. by apply lookup_app_l_Some.
  - simpl. rewrite (Hf _ j) by (by rewrite list_lookup_middle).
    rewrite list.filter_cons, list.filter_nil. by destruct (p j).
Qed.

Lemma filter_ext_in (p q : nat -> bool) (L : list nat) :
  (forall j, j ∈ L -> p j = q j) ->
  filter (fun j => p j = true) L = filter (fun j => q j = true) L.
Proof.
  induction L as [|j L IH]; intros Hpq; [done|].
  rewrite !list.filter_cons, IH by (intros k Hk; apply Hpq; by apply elem_of_cons; right).
  by rewrite (Hpq j) by (by apply elem_of_cons; left).
Qed.

Lemma filter_selected fb rect n x y :
  (forall j, (j < n)%nat -> covers (frame_of fb j) x y = true ->
             RECT_INTERSECTS rect (frame_of fb j) = true) ->
  filter (fun j => covers (frame_of fb j) x y = true) (selected fb rect n) =
  filter (fun j => covers (frame_of fb j) x y = true) (seq 0 n).
Proof.
  unfold selected. induction n as [|n IH]; intros Hc; [done|].
  rewrite seq_S, !list.filter_app, IH by (intros; apply Hc; [lia|done]).
  f_equal. simpl. rewrite (list.filter_cons _ n []), list.filter_nil.
  case_decide as Hi; [done|]. rewrite list.filter_nil, list.filter_cons, list.filter_nil.
  case_decide as Hj; [|done]. destruct Hi. apply Hc; [lia|done].
Qed.

Lemma intersects_spec a b :
  RECT_INTERSECTS a b = true <->
  r_top b < r_bottom a /\ r_top a < r_bottom b /\ r_left b < r_right a /\ r_left a < r_right b.
Proof. unfold RECT_INTERSECTS. rewrite !andb_true_iff, !Z.gtb_lt, !Z.ltb_lt. tauto. Qed.

(** A recorded rectangle is empty or the whole subregion. *)
Lemma blit_entry_covers sub f x y :
  covers (blit_entry sub f) x y = true <->
  RECT_INTERSECTS sub f = true /\ covers sub x y = true.
Proof.
  unfold blit_entry. destruct (RECT_INTERSECTS sub f) eqn:E; [tauto|].
  split; [|by intros []]. rewrite covers_spec. simpl. lia.
Qed.

(** The horizontal cuts of a region. *)
Definition cuts_of (fb : rgz_fb_state_t) (W : Z) (rect : blit_rect_t) (h : blit_hregion_t)
    (cuts : list Z) : Prop :=
  let sel := selected fb rect (rgz_layerno fb) in
  StronglySorted Z.lt cuts /\ (length cuts = S (nsubregions h))%nat /\
  (nsubregions h < RGZ_SUBREGIONMAX)%nat /\
  (forall j, j ∈ sel -> Z.max 0 (r_left (frame_of fb j)) ∈ cuts /\
                        Z.min (r_right (frame_of fb j)) W ∈ cuts) /\
  (forall l r j x y, sel !! l = Some j -> cuts !! r = Some x -> cuts !! S r = Some y ->
     blitrect_at h l r = Some (blit_entry (mkRect x (r_top rect) y (r_bottom rect)) (frame_of fb j))).

Lemma subregion_covers_cut fb W rect h cuts s x y :
  cuts_of fb W rect h cuts -> nlayers h = length (selected fb rect (rgz_layerno fb)) ->
  subregion_covers h s x y = true ->
  r_top rect <= y < r_bottom rect /\
  exists a e, cuts !! s = Some a /\ cuts !! S s = Some e /\ a <= x < e.
Proof.
  intros (Hs & Hlc & _ & _ & Hbl) Hnl Hc.
  unfold subregion_covers in Hc. apply andb_true_iff in Hc as [Hlt Hc].
  apply Nat.ltb_lt in Hlt. apply existsb_exists in Hc as (l & Hl' & Hc).
  apply in_seq in Hl'. rewrite Hnl in Hl'.
  destruct (lookup_lt_is_Some_2 (selected fb rect (rgz_layerno fb)) l) as [j Hj]; [lia|].
  destruct (lookup_lt_is_Some_2 cuts s) as [a Ha]; [lia|].
  destruct (lookup_lt_is_Some_2 cuts (S s)) as [e He]; [lia|].
  rewrite (Hbl l s j a e Hj Ha He) in Hc.
  apply blit_entry_covers in Hc as [_ Hc]. apply covers_spec in Hc. simpl in Hc.
  split; [lia|]. exists a, e. do 2 (split; [done|]). lia.
Qed.

Section Pixels.
Variables (damaged : blit_rect_t) (fb : rgz_fb_state_t) (W H dispw : Z) (ys : list Z).
Hypothesis Hbg : frame_of fb 0 = mkRect 0 0 W H.
Hypothesis Hn : (0 < rgz_layerno fb)%nat.
Hypothesis Hys : StronglySorted Z.lt ys.
Hypothesis Hyin : forall j, (j < rgz_layerno fb)%nat ->
  Z.max 0 (r_top (frame_of fb j)) ∈ ys /\ Z.min (r_bottom (frame_of fb j)) H ∈ ys /\
  r_right (frame_of fb j) <= dispw.

Variables (i : nat) (t b x y : Z).
Hypothesis Hx : 0 <= x < W.
Hypothesis Hy : 0 <= y < H.
Hypothesis Ht : ys !! i = Some t.
Hypothesis Hb : ys !! S i = Some b.
Hypothesis Hty : t <= y < b.

Lemma cut_rows j : (j < rgz_layerno fb)%nat ->
  (Z.max 0 (r_top (frame_of fb j)) <= t \/ b <= Z.max 0 (r_top (frame_of fb j))) /\
  (Z.min (r_bottom (frame_of fb j)) H <= t \/ b <= Z.min (r_bottom (frame_of fb j)) H).
Proof.
  intros Hj. destruct (Hyin j Hj) as (Hj0 & Hj1 & _).
  split; eapply cut_separates; eauto.
Qed.

Lemma cut_screen : 0 <= t /\ b <= H.
Proof.
  pose proof (cut_rows 0 Hn) as Hr. rewrite Hbg in Hr. simpl in Hr. lia.
Qed.

Lemma dispw_clamped : Z.min dispw W = W.
Proof. destruct (Hyin 0 Hn) as (_ & _ & Hd). rewrite Hbg in Hd. simpl in Hd. lia. Qed.

(** In the subregion of (x, y), intersecting and covering coincide. *)
Lemma covers_iff_blit h cuts s a e j :
  cuts_of fb W (mkRect 0 t W b) h cuts ->
  cuts !! s = Some a -> cuts !! S s = Some e -> a <= x < e -> (j < rgz_layerno fb)%nat ->
  covers (frame_of fb j) x y =
  RECT_INTERSECTS (mkRect 0 t W b) (frame_of fb j) &&
  negb (empty_rect (blit_entry (mkRect a t e b) (frame_of fb j))).
Proof.
  intros (Hs & _ & _ & Hin & _) Ha He Hae Hj.
  destruct (cut_rows j Hj) as [Hr0 Hr1]. destruct cut_screen as [Ht0 HbH].
  apply eq_true_iff_eq. rewrite andb_true_iff, covers_spec, intersects_spec, negb_true_iff.
  cbn [r_left r_top r_right r_bottom]. unfold blit_entry. split.
  - intros Hc. split; [lia|].
    replace (RECT_INTERSECTS (mkRect a t e b) (frame_of fb j)) with true
      by (symmetry; apply intersects_spec; cbn [r_left r_top r_right r_bottom]; lia).
    unfold empty_rect. cbn [r_left r_top r_right r_bottom].
    destruct (Z.eqb_spec a 0), (Z.eqb_spec e 0); [exfalso; lia|..]; by rewrite ?andb_false_r.
  - intros [Hi He'].
    destruct (RECT_INTERSECTS (mkRect a t e b) (frame_of fb j)) eqn:Hint; [|done].
    apply intersects_spec in Hint. cbn [r_left r_top r_right r_bottom] in Hint.
    destruct (Hin j) as [Hc0 Hc1].
    { apply list_elem_of_filter. split; [apply intersects_spec; cbn [r_left r_top r_right r_bottom]; lia|].
      apply elem_of_seq. lia. }
    pose proof (cut_separates cuts s a e _ Hs Ha He Hc0) as H0.
    pose proof (cut_separates cuts s a e _ Hs Ha He Hc1) as H1.
    clear -Hx Hy Hty Hae Hint H0 H1 Hr0 Hr1 Hi. lia.
Qed.

(** The background is the first layer of every region on the screen. *)
Lemma background_selected :
  selected fb (mkRect 0 t W b) (rgz_layerno fb) !! 0%nat = Some 0%nat.
Proof.
  destruct cut_screen. unfold selected. destruct (rgz_layerno fb) as [|n]; [lia|].
  rewrite <- cons_seq, list.filter_cons_True; [done|].
  rewrite Hbg. apply intersects_spec. cbn [r_left r_top r_right r_bottom]. lia.
Qed.

Lemma region_pixel h :
  region_ok damaged fb dispw W t b h ->
  exists s, subregion_covers h s x y = true /\
    (forall s', subregion_covers h s' x y = true -> s' = s) /\
    subregion_layers h s = pixel_layers fb x y.
Proof.
  unfold region_ok. rewrite dispw_clamped. intros (Hr & Hnl & Hl & cuts & _ & Hcuts).
  change (cuts_of fb W (mkRect 0 t W b) h cuts) in Hcuts.
  pose proof Hcuts as (Hs & Hlc & Hns & Hin & Hbl).
  pose proof background_selected as Hsel0.
  assert (exists s a e, cuts !! s = Some a /\ cuts !! S s = Some e /\ a <= x < e)
    as (s & a & e & Ha & He & Hae).
  { destruct (Hin 0%nat) as [Hc0 Hc1]; [by eapply list_elem_of_lookup_2|].
    rewrite Hbg in Hc0, Hc1. simpl in Hc0, Hc1.
    apply (cut_exists cuts (Z.max 0 0) (Z.min W W)); [done|done|done|lia]. }
  exists s. split; [|split].
  - unfold subregion_covers. apply andb_true_iff. split.
    { apply Nat.ltb_lt. apply lookup_lt_Some in He. lia. }
    apply existsb_exists. exists 0%nat. split.
    { apply in_seq. apply lookup_lt_Some in Hsel0. lia. }
    rewrite (Hbl 0%nat s 0%nat a e Hsel0 Ha He). apply blit_entry_covers.
    rewrite Hbg, intersects_spec, covers_spec. destruct cut_screen.
    cbn [r_left r_top r_right r_bottom]. lia.
  - intros s' Hc'. destruct (subregion_covers_cut _ _ _ _ _ _ _ _ Hcuts Hnl Hc')
      as (_ & a' & e' & Ha' & He' & Hae'). eapply (cut_unique cuts); eauto.
  - unfold subregion_layers, pixel_layers. rewrite Hnl.
    rewrite (omap_seq_filter _ (fun j => negb (empty_rect (blit_entry (mkRect a t e b) (frame_of fb j))))).
    2:{ intros l j Hj. rewrite (Hbl l s j a e Hj Ha He), (Hl l j Hj).
        cbn [r_top r_bottom]. by destruct (empty_rect _). }
    rewrite <- (filter_selected fb (mkRect 0 t W b)).
    2:{ intros j Hj. rewrite (covers_iff_blit h cuts s a e j) by done. by intros [? _]%andb_true_iff. }
    apply filter_ext_in. intros j [Hi Hj]%list_elem_of_filter. apply elem_of_seq in Hj.
    rewrite (covers_iff_blit h cuts s a e j), Hi by first [done|lia]. done.
Qed.

End Pixels.

(** The background layer that [rgz_add_background_layer] puts below the
    others covers the whole screen. *)
Definition has_background (fb : rgz_fb_state_t) (W H : Z) : Prop :=
  (0 < rgz_layerno fb)%nat /\ frame_of fb 0 = mkRect 0 0 W H.

Lemma has_region_data x : Z.land (Z.lor x RGZ_REGION_DATA) RGZ_REGION_DATA <> 0.
Proof.
  intros H. assert (Hb : Z.testbit (Z.land (Z.lor x RGZ_REGION_DATA) RGZ_REGION_DATA) 1 = false)
    by by rewrite H.
  rewrite Z.land_spec, Z.lor_spec in Hb. by rewrite orb_true_r in Hb.
Qed.

(** Every pixel of the screen is drawn by exactly one subregion of one region,
    and the layers recorded for it are those that cover the pixel. *)
Definition exact_regions (fb : rgz_fb_state_t) (W H : Z) (hs : list blit_hregion_t) : Prop :=
  forall x y, 0 <= x < W -> 0 <= y < H ->
    exists i h s, hs !! i = Some h /\ subregion_covers h s x y = true /\
      subregion_layers h s = pixel_layers fb x y /\
      forall i' h' s', hs !! i' = Some h' -> subregion_covers h' s' x y = true ->
        i' = i /\ s' = s.

(** The tables of a region are filled: each of its layers is one of the
    framebuffer state's, with a rectangle for each subregion. *)
Definition region_sound (fb : rgz_fb_state_t) (h : blit_hregion_t) : Prop :=
  forall l, (l < nlayers h)%nat ->
    (exists j, h_layers h !! l = Some (Some j) /\ (j < rgz_layerno fb)%nat) /\
    forall s, (s < nsubregions h)%nat -> is_Some (blitrect_at h l s).

Lemma region_ok_sound damaged fb dispw W t b h : region_ok damaged fb dispw W t b h -> region_sound fb h.
Proof.
  intros (Hr & Hnl & Hl & cuts & _ & _ & Hlc & _ & _ & Hbl) l Hlt. rewrite Hnl in Hlt.
  destruct (lookup_lt_is_Some_2 _ l Hlt) as [j Hj]. split.
  - exists j. split; [by apply Hl|]. apply list_elem_of_lookup_2, list_elem_of_filter in Hj as [_ Hj].
    apply elem_of_seq in Hj. lia.
  - intros s Hs. destruct (lookup_lt_is_Some_2 cuts s) as [x Hx]; [lia|].
    destruct (lookup_lt_is_Some_2 cuts (S s)) as [y Hy]; [lia|].
    rewrite (Hbl l s j x y Hj Hx Hy). by eexists.
Qed.

Lemma rgz_in_hwc_exact (W H : Z) (rgz : rgz_t) :
  Z.land (state rgz) RGZ_STATE_INIT <> 0 ->
  fb_wf (cur_fb_state rgz) -> has_background (cur_fb_state rgz) W H ->
  exists hs rgz', rgz_in_hwc W H true rgz = Some (0, rgz') /\
    hregions rgz' = Some hs /\ nhregions rgz' = length hs /\
    cur_fb_state rgz' = cur_fb_state rgz /\
    Z.land (state rgz') RGZ_REGION_DATA <> 0 /\
    Forall (region_sound (cur_fb_state rgz)) hs /\
    exact_regions (cur_fb_state rgz) W H hs.
Proof.
  intros Hinit Hwf [Hn Hbg].
  destruct (rgz_in_hwc_cuts W H rgz Hinit Hwf)
    as (hs & ys & dispw & rgz' & Hr & -> & Hsy & Hly & Hyin & Hok & _).
  exists hs. eexists. split; [exact Hr|]. do 3 (split; [done|]).
  split; [apply has_region_data|]. split.
  { apply Forall_lookup_2. intros i h Hh.
    destruct (lookup_lt_is_Some_2 ys i) as [t Ht]; [apply lookup_lt_Some in Hh; lia|].
    destruct (lookup_lt_is_Some_2 ys (S i)) as [b Hb]; [apply lookup_lt_Some in Hh; lia|].
    eapply region_ok_sound. by eapply Hok. }
  intros x y Hx Hy.
  destruct (Hyin 0%nat Hn) as (Hy0 & Hy1 & _). rewrite Hbg in Hy0, Hy1. simpl in Hy0, Hy1.
  destruct (cut_exists ys (Z.max 0 0) (Z.min H H) y) as (i & t & b & Ht & Hb & Hty);
    [done|done|done|lia|].
  destruct (lookup_lt_is_Some_2 hs i) as [h Hh]; [apply lookup_lt_Some in Hb; lia|].
  destruct (region_pixel (damaged_area rgz) _ W H dispw ys Hbg Hn Hsy Hyin i t b x y Hx Hy Ht Hb Hty h)
    as (s & Hc & Hu & Hl); [by eapply Hok|].
  exists i, h, s. do 3 (split; [done|]). intros i' h' s' Hh' Hc'.
  destruct (lookup_lt_is_Some_2 ys i') as [t' Ht']; [apply lookup_lt_Some in Hh'; lia|].
  destruct (lookup_lt_is_Some_2 ys (S i')) as [b' Hb']; [apply lookup_lt_Some in Hh'; lia|].
  pose proof (Hok _ _ _ _ Hh' Ht' Hb') as (Hrect & Hnl & Hlay & cuts & _ & Hcuts).
  pose proof (subregion_covers_cut _ W _ _ cuts _ _ _ Hcuts Hnl Hc') as [Hrow _].
  assert (i' = i) as -> by (eapply (cut_unique ys); eauto).
  split; [done|]. apply Hu. by simplify_eq.
Qed.

(** ** The rectangles of the subregions *)

(** A rectangle on the screen, perhaps empty. *)
Definition rect_on_screen (W H : Z) (r : blit_rect_t) : Prop :=
  0 <= r_left r <= W /\ 0 <= r_right r <= W /\ 0 <= r_top r <= H /\ 0 <= r_bottom r <= H.
Definition frames_within (W H : Z) (fb : rgz_fb_state_t) : Prop :=
  forall j, (j < rgz_layerno fb)%nat -> rect_on_screen W H (frame_of fb j).

(** The rectangle of a subregion: it is on the screen, what is recorded for a layer is it or empty, and it is recorded for the
    background. *)
Record subregion_at (W H : Z) (h : blit_hregion_t) (s : nat) (r : blit_rect_t) : Prop := {
  sa_x : 0 <= r_left r < r_right r /\ r_right r <= W;
  sa_y : 0 <= r_top r < r_bottom r /\ r_bottom r <= H;
  sa_layers : (0 < nlayers h)%nat;
  sa_background : h_layers h !! 0%nat = Some (Some 0%nat) /\ blitrect_at h 0 s = Some r;
  sa_rect : forall l r', (l < nlayers h)%nat -> blitrect_at h l s = Some r' -> r' = r \/ r' = zero_rect }.

Lemma subregion_at_covers W H h s r x y : subregion_at W H h s r -> (s < nsubregions h)%nat ->
  subregion_covers h s x y = covers r x y.
Proof.
  intros [_ _ Hn [_ H0] Hr] Hs. apply eq_true_iff_eq. unfold subregion_covers.
  rewrite andb_true_iff, existsb_exists. split.
  - intros [_ (l & Hl%in_seq & Hc)]. destruct (blitrect_at h l s) as [r'|] eqn:E; [|done].
    destruct (Hr l r' ltac:(lia) E) as [->| ->]; [done|]. apply covers_spec in Hc. cbn in Hc. lia.
  - intros Hc. split; [by apply Nat.ltb_lt|]. exists 0%nat. rewrite in_seq, H0. split; [lia|done].
Qed.

Lemma region_subregions damaged fb dispw W H t b h s :
  region_ok damaged fb dispw W t b h -> W <= dispw -> 0 <= t < b -> b <= H ->
  (0 < rgz_layerno fb)%nat -> frame_of fb 0 = mkRect 0 0 W H -> 0 < W ->
  rect_on_screen W H damaged -> frames_within W H fb ->
  (0 < nlayers h)%nat /\ ((s < nsubregions h)%nat -> exists r, subregion_at W H h s r).
Proof.
  unfold region_ok. intros (_ & Hnl & Hl & cuts & Hed & Hs & Hlc & _ & _ & Hbl) Hd Ht Hb Hn Hbg HW Hdam Hfr.
  replace (Z.min dispw W) with W in * by lia. set (sel := selected fb (mkRect 0 t W b) (rgz_layerno fb)) in *.
  assert (Hsel : sel !! 0%nat = Some 0%nat).
  { unfold sel, selected. destruct (rgz_layerno fb) as [|n]; [lia|]. rewrite <- cons_seq, list.filter_cons_True; [done|].
    rewrite Hbg. apply intersects_spec. cbn [r_left r_top r_right r_bottom]. lia. }
  assert (Hnz : (0 < nlayers h)%nat) by (rewrite Hnl; by eapply lookup_lt_Some). split; [done|]. intros Hlt.
  assert (Hcuts : Forall (fun c => 0 <= c <= W) cuts).
  { apply Hed; [apply Hdam..|]. intros j [_ Hj]%list_elem_of_filter. apply elem_of_seq in Hj.
    destruct (Hfr j ltac:(lia)) as (? & ? & _). lia. }
  destruct (lookup_lt_is_Some_2 cuts s) as [x Hx]; [lia|]. destruct (lookup_lt_is_Some_2 cuts (S s)) as [y Hy]; [lia|].
  assert (x < y) by (eapply sorted_lt_lookup; [exact Hs|exact Hx|exact Hy|lia]).
  pose proof (Forall_lookup_1 _ _ _ _ Hcuts Hx). pose proof (Forall_lookup_1 _ _ _ _ Hcuts Hy). cbn beta in *.
  exists (mkRect x t y b). split; cbn [r_left r_top r_right r_bottom]; [lia|lia|done| |].
  - split; [by apply Hl|]. rewrite (Hbl 0%nat s 0%nat x y) by done. unfold blit_entry. rewrite Hbg, (proj2 (intersects_spec _ _)); [done|].
    cbn [r_left r_top r_right r_bottom]. lia.
  - intros l r' Hln Hr'. rewrite Hnl in Hln. destruct (lookup_lt_is_Some_2 sel l Hln) as [j Hj].
    rewrite (Hbl l s j x y) in Hr' by done. injection Hr' as <-. unfold blit_entry. destruct (RECT_INTERSECTS _ _); auto.
Qed.

(** When the damaged area and the frames are on the screen, so is every subregion. *)
Lemma rgz_in_hwc_subregions (W H : Z) (rgz : rgz_t) :
  Z.land (state rgz) RGZ_STATE_INIT <> 0 -> fb_wf (cur_fb_state rgz) -> has_background (cur_fb_state rgz) W H -> 0 < W ->
  rect_on_screen W H (damaged_area rgz) -> frames_within W H (cur_fb_state rgz) ->
  exists hs rgz', rgz_in_hwc W H true rgz = Some (0, rgz') /\ hregions rgz' = Some hs /\ damaged_area rgz' = damaged_area rgz /\
    Forall (fun h => (0 < nlayers h)%nat /\ forall s, (s < nsubregions h)%nat -> exists r, subregion_at W H h s r) hs.
Proof.
  intros Hinit Hwf [Hn Hbg] HW Hd Hf.
  destruct (rgz_in_hwc_cuts W H rgz Hinit Hwf) as (hs & ys & dispw & rgz' & Hr & -> & Hsy & Hly & Hyin & Hok & Hed).
  exists hs. eexists. split; [exact Hr|]. split; [done|]. split; [done|]. apply Forall_lookup_2. intros i h Hh.
  destruct (lookup_lt_is_Some_2 ys i) as [t Ht]; [apply lookup_lt_Some in Hh; lia|].
  destruct (lookup_lt_is_Some_2 ys (S i)) as [b Hb]; [apply lookup_lt_Some in Hh; lia|].
  assert (Hys : Forall (fun c => 0 <= c <= H) ys).
  { apply Hed. split; [apply Hd|]. split; [apply Hd|]. intros j Hj. destruct (Hf j Hj) as (_ & _ & ? & ?). lia. }
  assert (t < b) by (eapply sorted_lt_lookup; [exact Hsy|exact Ht|exact Hb|lia]).
  pose proof (Forall_lookup_1 _ _ _ _ Hys Ht). pose proof (Forall_lookup_1 _ _ _ _ Hys Hb). cbn beta in *.
  assert (Hreg : forall s, (0 < nlayers h)%nat /\ ((s < nsubregions h)%nat -> exists r, subregion_at W H h s r)); [|split; [apply (Hreg 0%nat)|apply Hreg]].
  intros s. eapply region_subregions; [by eapply Hok|destruct (Hyin 0%nat Hn) as (_ & _ & Hd0); rewrite Hbg in Hd0; exact Hd0|lia|lia|done|done|done|done|done].
Qed.

(** C4: on a screen whose layers pass the capacity test, [rgz_in_hwc] returns
    0 without an access outside its arrays, and the regions it records are
    pixel-exact: every pixel of the screen is drawn by exactly one subregion
    of one region, and the layers recorded for that subregion are, in z-order,
    exactly the layers whose display frames cover the pixel. *)
Theorem rgz_in_hwc_pixel_exact (W H : Z) (rgz : rgz_t) :
  Z.land (state rgz) RGZ_STATE_INIT <> 0 ->
  fb_wf (cur_fb_state rgz) -> has_background (cur_fb_state rgz) W H ->
  exists hs rgz', rgz_in_hwc W H true rgz = Some (0, rgz') /\
    hregions rgz' = Some hs /\ nhregions rgz' = length hs /\
    cur_fb_state rgz' = cur_fb_state rgz /\
    Z.land (state rgz') RGZ_REGION_DATA <> 0 /\
    Forall (region_sound (cur_fb_state rgz)) hs /\
    exact_regions (cur_fb_state rgz) W H hs.
Proof. apply rgz_in_hwc_exact. Qed.

(** A 4 x 4 screen with the background and one 2 x 2 layer. *)
Definition sample_fb : rgz_fb_state_t :=
  mkFb 2 [ mkLayer (mkHwcLayer 0 0 0 1 0 0 (mkRect 0 0 4 4) (mkRect 0 0 4 4)) 0 (-2) 0;
           mkLayer (mkHwcLayer 0 0 0 2 0 0 (mkRect 0 0 2 2) (mkRect 1 1 3 3)) 1 0 0 ].
Definition sample_rgz : rgz_t :=
  mkRgz None 0 RGZ_STATE_INIT sample_fb 0 (replicate RGZ_NUM_FB zero_fb) (mkRect 0 0 4 4).

Lemma rgz_in_hwc_pixel_exact_witness :
  exists hs rgz', rgz_in_hwc 4 4 true sample_rgz = Some (0, rgz') /\
    hregions rgz' = Some hs /\ length hs = 3%nat /\
    exists i h s, hs !! i = Some h /\ subregion_covers h s 2 2 = true /\
      subregion_layers h s = [0%nat; 1%nat].
Proof.
  destruct (rgz_in_hwc_pixel_exact 4 4 sample_rgz) as (hs & rgz' & Hr & Hh & Hn & _ & _ & _ & Hp).
  - vm_compute. discriminate.
  - split; vm_compute; lia.
  - split; [vm_compute; lia | reflexivity].
  - exists hs, rgz'. split; [exact Hr|]. split; [exact Hh|].
    assert (He : rgz_in_hwc 4 4 true sample_rgz = Some (0, rgz')) by exact Hr.
    vm_compute in He. injection He as He. subst rgz'. simpl in Hh. injection Hh as Hh.
    split; [by rewrite <- Hn|].
    destruct (Hp 2 2) as (i & h & s & Hi & Hc & Hl & _); [lia|lia|].
    exists i, h, s. split; [exact Hi|]. split; [exact Hc|]. rewrite Hl. reflexivity.
Defined.

(** [rgz_in_hwc] refuses, leaving its state as it was, a regionizer that
    has not passed the layer check and a composition of twelve layers (eleven
    input layers and the background), although [RGZ_INPUT_MAXLAYERS] admits
    eleven input layers. *)
Theorem rgz_in_hwc_rejects (W H : Z) (calloc_ok : bool) (rgz : rgz_t) :
  Z.land (state rgz) RGZ_STATE_INIT = 0 \/
    (RGZ_INPUT_MAXLAYERS + 1 <= rgz_layerno (cur_fb_state rgz))%nat ->
  rgz_in_hwc W H calloc_ok rgz = Some (-1, rgz).
Proof.
  unfold rgz_in_hwc. intros [-> | Hn]; [done|].
  rewrite (proj2 (Nat.ltb_lt _ _)).
  - by destruct (Z.land (state rgz) RGZ_STATE_INIT =? 0).
  - unfold RGZ_SUBREGIONMAX, RGZ_INPUT_MAXLAYERS, RGZ_MAXLAYERS in *. lia.
Qed.

Lemma rgz_in_hwc_rejects_witness :
  let full := mkRgz None 0 RGZ_STATE_INIT (mkFb 12 (replicate RGZ_MAXLAYERS zero_layer)) 0
                    (replicate RGZ_NUM_FB zero_fb) (mkRect 0 0 4 4) in
  rgz_in_hwc 4 4 true full = Some (-1, full).
Proof. intros full. apply rgz_in_hwc_rejects. right. vm_compute. lia. Defined.
