(* ===== verification/RgzState.v ===== *)
(** The regionizer's state between frames (src/hwc/rgz_2d.c): the states kept
    per framebuffer, the damaged area and the dirty counters that decide what
    is redrawn ([rgz_handle_dirty_region]), the validation of the layers of a
    composition ([rgz_in_hwccheck]) and the entry points [rgz_in] and
    [rgz_release]. *)

From Stdlib Require Import ZArith Lia Sorting.Sorted.
From stdpp Require Import base list list_numbers option tactics.
From S2P Require Import Prelude RgzSort RgzGeometry RgzRegion.

(** * Definitions *)

Definition RGZ_ALL : Z := 1.
Definition RGZ_IN_HWCCHK : Z := 1.
Definition RGZ_IN_HWC : Z := 2.

Definition get_prev_fb_state (rgz : rgz_t) : option rgz_fb_state_t :=
  fb_states rgz !! fb_state_idx rgz.

(** The next target, with its index. *)
Definition get_next_fb_state (rgz : rgz_t) : option (nat * rgz_fb_state_t) :=
  let idx := ((fb_state_idx rgz + 1) mod RGZ_NUM_FB)%nat in
  let* fb := fb_states rgz !! idx in Some (idx, fb).

Definition rgz_get_displayframe_rect (layer : hwc_layer_1_t) : blit_rect_t :=
  mkRect (r_left (displayFrame layer)) (r_top (displayFrame layer))
         (r_right (displayFrame layer)) (r_bottom (displayFrame layer)).

Definition rgz_add_to_damaged_area (width height : Z) (layer : rgz_layer_t)
    (damaged : blit_rect_t) : blit_rect_t :=
  let screen := mkRect 0 0 width height in
  if negb (RECT_INTERSECTS screen (displayFrame (hwc_layer layer))) then damaged
  else
    let f := rgz_get_displayframe_rect (hwc_layer layer) in
    let r := mkRect (Z.max 0 (r_left f)) (Z.max 0 (r_top f))
                    (Z.min (r_right screen) (r_right f)) (Z.min (r_bottom screen) (r_bottom f)) in
    if empty_rect damaged then r
    else mkRect (Z.min (r_left damaged) (r_left r)) (Z.min (r_top damaged) (r_top r))
                (Z.max (r_right damaged) (r_right r)) (Z.max (r_bottom damaged) (r_bottom r)).

(** [rgz_find_layer] from index [i], with [n] layers left: the layer found, or
    [Some None] for the null pointer. *)
Fixpoint find_layer_from (layers : list rgz_layer_t) (identity0 : Z) (i n : nat)
    : option (option rgz_layer_t) :=
  match n with
  | O => Some None
  | S n' =>
    let* l := layers !! i in
    if buffidx l =? RGZ_BACKGROUND_BUFFIDX then find_layer_from layers identity0 (S i) n'
    else if identity l =? identity0 then Some (Some l)
    else find_layer_from layers identity0 (S i) n'
  end.
Definition rgz_find_layer (layers : list rgz_layer_t) (rgz_layerno : nat) (layer_identity : Z)
    : option (option rgz_layer_t) :=
  find_layer_from layers layer_identity 0 rgz_layerno.

Definition rgz_has_layer_content_changed (cur prev : rgz_layer_t) : bool :=
  if (buffidx cur =? RGZ_BACKGROUND_BUFFIDX) && (buffidx prev =? RGZ_BACKGROUND_BUFFIDX)
  then false
  else if negb (identity cur =? identity prev) then true
  else if (buffidx cur =? RGZ_CLEARHINT_BUFFIDX) && (buffidx prev =? RGZ_CLEARHINT_BUFFIDX)
  then false
  else
    let c := hwc_layer cur in let p := hwc_layer prev in
    negb (handle c =? handle p) || negb (transform c =? transform p) ||
    negb (r_top (sourceCrop c) =? r_top (sourceCrop p)) ||
    negb (r_left (sourceCrop c) =? r_left (sourceCrop p)) ||
    negb (r_bottom (sourceCrop c) =? r_bottom (sourceCrop p)) ||
    negb (r_right (sourceCrop c) =? r_right (sourceCrop p)).

Definition rgz_has_layer_frame_moved (cur target : rgz_layer_t) : bool :=
  if negb (identity cur =? identity target) then true
  else
    let c := displayFrame (hwc_layer cur) in let t := displayFrame (hwc_layer target) in
    negb (r_top c =? r_top t) || negb (r_left c =? r_left t) ||
    negb (r_bottom c =? r_bottom t) || negb (r_right c =? r_right t).

Definition set_dirty (l : rgz_layer_t) (n : Z) : rgz_layer_t :=
  mkLayer (hwc_layer l) (identity l) (buffidx l) n.

(** One iteration of the first loop of [rgz_handle_dirty_region]: the layer
    with its new dirty count, and the damaged area. *)
Definition handle_dirty_layer (width height : Z) (prev target : rgz_fb_state_t)
    (i : nat) (cur : rgz_layer_t) (damaged : blit_rect_t) : option (rgz_layer_t * blit_rect_t) :=
  let* prev_layer :=
    if (i =? 0)%nat then
      if (rgz_layerno prev =? 0)%nat then Some None
      else let* l := rgz_layers prev !! 0%nat in Some (Some l)
    else rgz_find_layer (rgz_layers prev) (rgz_layerno prev) (identity cur) in
  let cur1 :=
    match prev_layer with
    | Some p =>
      if negb (rgz_has_layer_content_changed cur p)
      then set_dirty cur (dirty_count p - (if dirty_count p =? 0 then 0 else 1))
      else set_dirty cur (Z.of_nat RGZ_NUM_FB)
    | None => set_dirty cur (Z.of_nat RGZ_NUM_FB)
    end in
  match prev_layer with
  | None => Some (cur1, rgz_add_to_damaged_area width height cur1 damaged)
  | Some _ =>
    if (i =? 0)%nat then Some (cur1, damaged)
    else
      let* t := rgz_find_layer (rgz_layers target) (rgz_layerno target) (identity cur1) in
      match t with
      | Some t =>
        if rgz_has_layer_frame_moved cur1 t
        then Some (set_dirty cur1 (Z.of_nat RGZ_NUM_FB),
                   rgz_add_to_damaged_area width height t
                     (rgz_add_to_damaged_area width height cur1 damaged))
        else Some (cur1, damaged)
      | None => Some (cur1, rgz_add_to_damaged_area width height cur1 damaged)
      end
  end.

(** The current state and the damaged area that result. *)
Definition rgz_handle_dirty_region (width height : Z) (cur prev target : rgz_fb_state_t)
    : option (rgz_fb_state_t * blit_rect_t) :=
  let* (layers, damaged) :=
    for_range 0 (rgz_layerno cur)
      (fun i '(layers, damaged) =>
         let* l := layers !! i in
         let* (l', damaged') := handle_dirty_layer width height prev target i l damaged in
         Some (<[i := l']> layers, damaged'))
      (rgz_layers cur, zero_rect) in
  let* damaged :=
    for_range 1 (rgz_layerno target - 1)
      (fun i damaged =>
         let* t := rgz_layers target !! i in
         let* c := rgz_find_layer layers (rgz_layerno cur) (identity t) in
         match c with
         | Some _ => Some damaged
         | None => Some (rgz_add_to_damaged_area width height t damaged)
         end) damaged in
  Some (mkFb (rgz_layerno cur) layers, damaged).

Definition set_layer (layers : list rgz_layer_t) (i : nat) (l : rgz_layer_t)
    : option (list rgz_layer_t) :=
  guard* (i <? length layers)%nat in Some (<[i := l]> layers).

(** The layer stored at position [i], keeping the fields that are not
    assigned. *)
Definition store_layer (layers : list rgz_layer_t) (i : nat) (hl : hwc_layer_1_t)
    (ident : option Z) (bi : Z) : option (list rgz_layer_t) :=
  let* old := layers !! i in
  set_layer layers i
    (mkLayer hl (default (identity old) ident) bi (dirty_count old)).

Definition set_handle (l : hwc_layer_1_t) (h : Z) : hwc_layer_1_t :=
  mkHwcLayer (compositionType l) (hints l) (flags l) h (transform l) (blending l)
             (sourceCrop l) (displayFrame l).

Definition rgz_add_background_layer (bg_layer : hwc_layer_1_t) (fb : rgz_fb_state_t)
    : option rgz_fb_state_t :=
  let* layers := store_layer (rgz_layers fb) 0 (set_handle bg_layer 1) None RGZ_BACKGROUND_BUFFIDX in
  Some (mkFb (rgz_layerno fb) layers).

Section HwcCheck.
Context `{HwcApi}.
Variable hmem : Z -> option IMG_native_handle_t.
Variable bg_layer : hwc_layer_1_t.

(** The counters of the layer loop: candidates, possible_blit, memidx. *)
Record check_st := mkCheck {
  ck_candidates : nat; ck_possible : nat; ck_memidx : Z; ck_layers : list rgz_layer_t }.

Definition check_layer (layer : hwc_layer_1_t) (ident : Z) (s : check_st) : option check_st :=
  let '(mkCheck candidates possible_blit memidx out) := s in
  if compositionType layer =? HWC_FRAMEBUFFER then
    let* valid := rgz_in_valid_hwc_layer hmem layer in
    if valid && (possible_blit <? RGZ_INPUT_MAXLAYERS)%nat then
      let* out' := store_layer out (possible_blit + 1) layer (Some ident) memidx in
      Some (mkCheck (candidates + 1) (possible_blit + 1) (memidx + 1) out')
    else Some (mkCheck (candidates + 1) possible_blit memidx out)
  else if has_flag (hints layer) HWC_HINT_CLEAR_FB then
    if (possible_blit <? RGZ_INPUT_MAXLAYERS)%nat then
      let* out' := store_layer out (possible_blit + 1) (set_handle layer 1) (Some ident)
                               RGZ_CLEARHINT_BUFFIDX in
      Some (mkCheck (candidates + 1) (possible_blit + 1) memidx out')
    else Some (mkCheck (candidates + 1) possible_blit memidx out)
  else Some s.

Record rgz_in_params := mkInParams {
  in_op : Z; in_layers : option (list hwc_layer_1_t); in_extlayers : list Z;
  in_layerno : nat; in_width : Z; in_height : Z }.

Definition count_overlays (layers : list hwc_layer_1_t) (layerno : nat) : option Z :=
  for_range 0 layerno
    (fun l n => let* layer := layers !! l in
                Some (if compositionType layer =? HWC_OVERLAY then n + 1 else n)) 0.

Definition rgz_in_hwccheck (p : rgz_in_params) (rgz : rgz_t) : option (Z * rgz_t) :=
  let st := Z.land (state rgz) (Z.lnot RGZ_STATE_INIT) in
  let upd st cur idx fbs dam := mkRgz (hregions rgz) (nhregions rgz) st cur idx fbs dam in
  match in_layers p with
  | None => Some (-1, upd st (cur_fb_state rgz) (fb_state_idx rgz) (fb_states rgz) (damaged_area rgz))
  | Some layers =>
    let* memidx := count_overlays layers (in_layerno p) in
    let* cur := rgz_add_background_layer bg_layer (cur_fb_state rgz) in
    let* (mkCheck candidates possible_blit _ out) :=
      for_range 0 (in_layerno p)
        (fun l s => let* layer := layers !! l in
                    let* ident := in_extlayers p !! l in
                    check_layer layer ident s)
        (mkCheck 0 0 memidx (rgz_layers cur)) in
    let cur := mkFb (rgz_layerno cur) out in
    if (possible_blit =? 0)%nat || negb (possible_blit =? candidates)%nat then
      Some (-1, upd st cur (fb_state_idx rgz) (fb_states rgz) (damaged_area rgz))
    else
      let cur := mkFb (possible_blit + 1) out in
      let* prev := get_prev_fb_state rgz in
      let* (idx, target) := get_next_fb_state rgz in
      let* (cur', damaged) := rgz_handle_dirty_region (in_width p) (in_height p) cur prev target in
      let n := rgz_layerno cur' in
      guard* (n <=? length (rgz_layers cur'))%nat && (n <=? length (rgz_layers target))%nat in
      let target' := mkFb n (take n (rgz_layers cur') ++ drop n (rgz_layers target)) in
      Some (RGZ_ALL, upd (Z.lor st RGZ_STATE_INIT) cur' idx (<[idx := target']> (fb_states rgz)) damaged)
  end.

Definition rgz_in (calloc_ok : bool) (p : rgz_in_params) (rgz : rgz_t) : option (Z * rgz_t) :=
  if in_op p =? RGZ_IN_HWC then
    let* (rv, rgz) := rgz_in_hwccheck p rgz in
    if rv =? RGZ_ALL then
      let* (rv, rgz) := rgz_in_hwc (in_width p) (in_height p) calloc_ok rgz in
      Some (if negb (rv =? 0) then 0 else RGZ_ALL, rgz)
    else Some (rv, rgz)
  else if in_op p =? RGZ_IN_HWCCHK then rgz_in_hwccheck p zero_rgz
  else Some (-1, rgz).

End HwcCheck.

Definition rgz_release (rgz : rgz_t) : rgz_t := zero_rgz.

(** * The damaged area *)

(** The damaged area is empty or has its edges on the screen. *)
Definition damage_ok (width height : Z) (d : blit_rect_t) : Prop :=
  d = zero_rect \/
  (0 <= r_left d < width /\ 0 < r_right d <= width /\
   0 <= r_top d < height /\ 0 < r_bottom d <= height).

Lemma empty_rect_spec r : empty_rect r = true <-> r = zero_rect.
Proof.
  unfold empty_rect, zero_rect. destruct r as [l t r b]. simpl.
  rewrite !andb_true_iff, !Z.eqb_eq. split; [intuition congruence|by intros [= -> -> -> ->]].
Qed.

Lemma add_to_damaged_area_spec w h l d :
  0 < w -> 0 < h -> damage_ok w h d ->
  let d' := rgz_add_to_damaged_area w h l d in
  damage_ok w h d' /\
  forall x y, 0 <= x < w -> 0 <= y < h ->
    covers d x y = true \/ covers (displayFrame (hwc_layer l)) x y = true -> covers d' x y = true.
Proof.
  intros Hw Hh Hd. cbv zeta. unfold rgz_add_to_damaged_area.
  destruct (RECT_INTERSECTS (mkRect 0 0 w h) (displayFrame (hwc_layer l))) eqn:Hi; cbn [negb].
  - apply intersects_spec in Hi. cbn [r_left r_top r_right r_bottom] in Hi.
    cbn [r_left r_top r_right r_bottom rgz_get_displayframe_rect].
    destruct (empty_rect d) eqn:He.
    + apply empty_rect_spec in He as ->. split.
      * right. cbn [r_left r_top r_right r_bottom]. lia.
      * intros x y Hx Hy. rewrite !covers_spec. unfold zero_rect. cbn [r_left r_top r_right r_bottom]. lia.
    + destruct Hd as [->|Hd]; [done|]. split.
      * right. cbn [r_left r_top r_right r_bottom]. lia.
      * intros x y Hx Hy. rewrite !covers_spec. cbn [r_left r_top r_right r_bottom]. lia.
  - split; [done|]. intros x y Hx Hy [Hc|Hc]; [done|].
    exfalso. apply covers_spec in Hc.
    assert (RECT_INTERSECTS (mkRect 0 0 w h) (displayFrame (hwc_layer l)) = true); [|congruence].
    apply intersects_spec. cbn [r_left r_top r_right r_bottom]. lia.
Qed.

(** The damaged area after adding a list of layers. *)
Definition damage_all (w h : Z) (ls : list rgz_layer_t) (d : blit_rect_t) : blit_rect_t :=
  foldl (fun d l => rgz_add_to_damaged_area w h l d) d ls.

Lemma damage_all_app w h ls ls' d :
  damage_all w h (ls ++ ls') d = damage_all w h ls' (damage_all w h ls d).
Proof. apply foldl_app. Qed.

Lemma damage_all_spec w h ls d :
  0 < w -> 0 < h -> damage_ok w h d ->
  damage_ok w h (damage_all w h ls d) /\
  forall x y, 0 <= x < w -> 0 <= y < h ->
    covers d x y = true \/
      (exists l, l ∈ ls /\ covers (displayFrame (hwc_layer l)) x y = true) ->
    covers (damage_all w h ls d) x y = true.
Proof.
  intros Hw Hh. revert d. induction ls as [|l ls IH]; intros d Hd; simpl.
  - split; [done|]. intros x y _ _ [Hc|(l & Hl & _)]; [done|by apply not_elem_of_nil in Hl].
  - destruct (add_to_damaged_area_spec w h l d Hw Hh Hd) as [Hok Hc].
    destruct (IH _ Hok) as [Hok' Hc']. split; [done|].
    intros x y Hx Hy Hor. apply Hc'; [done|done|].
    destruct Hor as [Hd'|(l' & [->|Hl']%elem_of_cons & Hl)].
    + left. apply Hc; auto.
    + left. apply Hc; auto.
    + right. by exists l'.
Qed.

(** * Looking layers up *)

Definition is_layer (ident : Z) (l : rgz_layer_t) : bool :=
  negb (buffidx l =? RGZ_BACKGROUND_BUFFIDX) && (identity l =? ident).

Definition find_in (ls : list rgz_layer_t) (ident : Z) : option rgz_layer_t :=
  head (filter (fun l => is_layer ident l = true) ls).

(** The layers of a framebuffer state. *)
Definition fb_layers (fb : rgz_fb_state_t) : list rgz_layer_t :=
  take (rgz_layerno fb) (rgz_layers fb).

Definition fb_ok (fb : rgz_fb_state_t) : Prop :=
  (rgz_layerno fb <= length (rgz_layers fb))%nat.

Lemma find_layer_from_spec layers ident i n :
  (i + n <= length layers)%nat ->
  find_layer_from layers ident i n = Some (find_in (take n (drop i layers)) ident).
Proof.
  revert i. induction n as [|n IH]; intros i Hi; [done|]. simpl.
  assert (Hlt : (i < length layers)%nat) by (revert Hi; clear; lia).
  destruct (lookup_lt_is_Some_2 layers i Hlt) as [l Hl]. rewrite Hl.
  rewrite (drop_S _ _ _ Hl), IH by (revert Hi; clear; lia). simpl. unfold find_in. rewrite list.filter_cons.
  destruct (is_layer ident l) eqn:E; unfold is_layer in E;
    destruct (buffidx l =? RGZ_BACKGROUND_BUFFIDX), (identity l =? ident); done.
Qed.

Lemma rgz_find_layer_spec fb ident :
  fb_ok fb -> rgz_find_layer (rgz_layers fb) (rgz_layerno fb) ident = Some (find_in (fb_layers fb) ident).
Proof.
  intros Hok. unfold rgz_find_layer, fb_layers. rewrite find_layer_from_spec; [done|].
  unfold fb_ok in Hok. lia.
Qed.

Lemma find_in_Some ls ident l :
  find_in ls ident = Some l -> l ∈ ls /\ identity l = ident.
Proof.
  unfold find_in. intros Hh.
  destruct (filter (fun l => is_layer ident l = true) ls) as [|l' k] eqn:E; [done|].
  simplify_eq/=. assert (Hl : l ∈ filter (fun l => is_layer ident l = true) ls)
    by (rewrite E; by apply elem_of_cons; left).
  apply list_elem_of_filter in Hl as [Hl ?]. split; [done|].
  unfold is_layer in Hl. apply andb_true_iff in Hl as [_ Hl]. by apply Z.eqb_eq.
Qed.

Lemma find_in_None ls ident :
  find_in ls ident = None -> forall l, l ∈ ls -> is_layer ident l = false.
Proof.
  unfold find_in. intros Hh l Hl.
  destruct (is_layer ident l) eqn:E; [|done].
  assert (Hf : l ∈ filter (fun l => is_layer ident l = true) ls) by by apply list_elem_of_filter.
  destruct (filter (fun l => is_layer ident l = true) ls); [by apply not_elem_of_nil in Hf|done].
Qed.

(** * [rgz_handle_dirty_region] *)

Lemma identity_set_dirty l n : identity (set_dirty l n) = identity l.
Proof. done. Qed.
Lemma moved_set_dirty l n t :
  rgz_has_layer_frame_moved (set_dirty l n) t = rgz_has_layer_frame_moved l t.
Proof. done. Qed.

Section Dirty.
Variables (w h : Z) (prev target : rgz_fb_state_t).

(** The layer of the previous frame that the code compares a layer with. *)
Definition prev_layer (i : nat) (l : rgz_layer_t) : option rgz_layer_t :=
  if (i =? 0)%nat then fb_layers prev !! 0%nat else find_in (fb_layers prev) (identity l).

Definition target_layer (l : rgz_layer_t) : option rgz_layer_t :=
  find_in (fb_layers target) (identity l).

(** A layer that is new, has new content, or is elsewhere in the target. *)
Definition layer_changed (i : nat) (l : rgz_layer_t) : bool :=
  match prev_layer i l with
  | None => true
  | Some p =>
    rgz_has_layer_content_changed l p ||
    negb (i =? 0)%nat &&
      match target_layer l with Some t => rgz_has_layer_frame_moved l t | None => false end
  end.

Definition dirty_of (i : nat) (l : rgz_layer_t) : Z :=
  if layer_changed i l then 2
  else match prev_layer i l with
       | Some p => dirty_count p - (if dirty_count p =? 0 then 0 else 1)
       | None => 2
       end.

(** The layers whose areas are redrawn on account of a layer. *)
Definition layer_adds (i : nat) (l : rgz_layer_t) : list rgz_layer_t :=
  match prev_layer i l with
  | None => [l]
  | Some _ =>
    if (i =? 0)%nat then []
    else match target_layer l with
         | Some t => if rgz_has_layer_frame_moved l t then [l; t] else []
         | None => [l]
         end
  end.

Hypothesis Hprev : fb_ok prev.
Hypothesis Htarget : fb_ok target.

Lemma handle_dirty_layer_spec i l d :
  handle_dirty_layer w h prev target i l d =
  Some (set_dirty l (dirty_of i l), damage_all w h (layer_adds i l) d).
Proof using Hprev Htarget.
  unfold handle_dirty_layer, dirty_of, layer_changed, layer_adds, prev_layer, target_layer.
  destruct (Nat.eqb_spec i 0) as [->|Hi].
  - unfold fb_ok in Hprev. destruct (Nat.eqb_spec (rgz_layerno prev) 0) as [E|Hn].
    { assert (fb_layers prev !! 0%nat = None) as -> by (unfold fb_layers; by rewrite E). done. }
    destruct (lookup_lt_is_Some_2 (rgz_layers prev) 0) as [p Hp]; [lia|].
    assert (fb_layers prev !! 0%nat = Some p) as ->
      by (unfold fb_layers; by rewrite lookup_take_lt by lia). rewrite Hp.
    simpl. rewrite orb_false_r. by destruct (rgz_has_layer_content_changed l p).
  - rewrite rgz_find_layer_spec by done.
    destruct (find_in (fb_layers prev) (identity l)) as [p|]; [|done].
    destruct (rgz_has_layer_content_changed l p); cbn -[set_dirty];
      rewrite identity_set_dirty, rgz_find_layer_spec by done;
      (destruct (find_in (fb_layers target) (identity l)) as [t|]; [|done]);
      rewrite moved_set_dirty; by destruct (rgz_has_layer_frame_moved l t).
Qed.

(** The layers of the current state with their new dirty counts. *)
Definition dirtied (ls : list rgz_layer_t) : list rgz_layer_t :=
  imap (fun i l => set_dirty l (dirty_of i l)) ls.

(** The layers added to the damaged area: those of the current frame that the
    loop selects, then those of the target that the current frame lacks. *)
Definition damage_layers (cur : rgz_fb_state_t) : list rgz_layer_t :=
  mjoin (imap layer_adds (fb_layers cur)) ++
  filter (fun t => find_in (fb_layers cur) (identity t) = None) (drop 1 (fb_layers target)).

Lemma find_in_imap_dirty f ls ident :
  find_in (imap (fun i l => set_dirty l (f i l)) ls) ident = None <-> find_in ls ident = None.
Proof using Type.
  unfold find_in. revert f. induction ls as [|l ls IH]; intros f; [done|].
  rewrite imap_cons, !list.filter_cons.
  change (is_layer ident (set_dirty l (f 0%nat l))) with (is_layer ident l).
  destruct (is_layer ident l); [done|]. apply (IH (fun i => f (S i))).
Qed.

Lemma dirty_loop_spec cur :
  fb_ok cur ->
  for_range 0 (rgz_layerno cur)
    (fun i '(layers, damaged) =>
       let* l := layers !! i in
       let* (l', damaged') := handle_dirty_layer w h prev target i l damaged in
       Some (<[i := l']> layers, damaged')) (rgz_layers cur, zero_rect) =
  Some (dirtied (fb_layers cur) ++ drop (rgz_layerno cur) (rgz_layers cur),
        damage_all w h (mjoin (imap layer_adds (fb_layers cur))) zero_rect).
Proof using Hprev Htarget.
  intros Hcur. unfold fb_ok in Hcur.
  edestruct (for_range_inv (fun k s => s =
     (dirtied (take k (rgz_layers cur)) ++ drop k (rgz_layers cur),
      damage_all w h (mjoin (imap layer_adds (take k (rgz_layers cur)))) zero_rect))
     0 (rgz_layerno cur)) as (s & Hr & ->); [| |exact Hr]; [done|].
  intros k s Hk ->. destruct (lookup_lt_is_Some_2 (rgz_layers cur) k) as [l Hl]; [lia|].
  assert (Hlen : length (dirtied (take k (rgz_layers cur))) = k)
    by (unfold dirtied; rewrite length_imap, length_take; lia).
  rewrite lookup_app_r, Hlen, lookup_drop by lia. replace (k + (k - k))%nat with k by lia.
  rewrite Hl, handle_dirty_layer_spec. eexists. split; [done|].
  rewrite (take_S_r _ _ _ Hl). unfold dirtied in *. rewrite !imap_app, length_take.
  replace (k `min` length (rgz_layers cur))%nat with k by lia. simpl.
  rewrite Nat.add_0_r. f_equal.
  - rewrite insert_app_r_alt, Hlen, Nat.sub_diag by lia.
    rewrite (drop_S _ _ _ Hl). simpl. by rewrite <- app_assoc.
  - rewrite join_app, damage_all_app. simpl. by rewrite app_nil_r.
Qed.

Lemma removed_loop_spec (cur : rgz_fb_state_t) layers d :
  (rgz_layerno cur <= length layers)%nat ->
  (forall ident, find_in (take (rgz_layerno cur) layers) ident = None <->
                 find_in (fb_layers cur) ident = None) ->
  for_range 1 (rgz_layerno target - 1)
    (fun i damaged =>
       let* t := rgz_layers target !! i in
       let* c := rgz_find_layer layers (rgz_layerno cur) (identity t) in
       match c with
       | Some _ => Some damaged
       | None => Some (rgz_add_to_damaged_area w h t damaged)
       end) d =
  Some (damage_all w h (filter (fun t => find_in (fb_layers cur) (identity t) = None)
                               (drop 1 (fb_layers target))) d).
Proof using Htarget.
  intros Hlen Hf. unfold fb_ok in Htarget.
  destruct (Nat.eq_dec (rgz_layerno target) 0%nat) as [E|Hn].
  { assert (fb_layers target = []) as -> by (unfold fb_layers; by rewrite E). by rewrite E. }
  edestruct (for_range_inv (fun k s => s =
     damage_all w h (filter (fun t => find_in (fb_layers cur) (identity t) = None)
                            (drop 1 (take k (rgz_layers target)))) d)
     1 (rgz_layerno target - 1)) as (s & Hr & Hs); [| |rewrite Hr, Hs; by replace (1 + (rgz_layerno target - 1))%nat with (rgz_layerno target) by lia].
  - destruct (rgz_layers target); done.
  - intros k s Hk ->. destruct (lookup_lt_is_Some_2 (rgz_layers target) k) as [t Ht]; [lia|].
    rewrite Ht. unfold rgz_find_layer. rewrite find_layer_from_spec, drop_0 by lia.
    rewrite (take_S_r _ _ _ Ht), drop_app_le by (rewrite length_take; lia).
    rewrite list.filter_app, list.filter_cons, list.filter_nil, damage_all_app.
    pose proof (Hf (identity t)) as Hft.
    destruct (find_in (take (rgz_layerno cur) layers) (identity t)) eqn:E.
    + rewrite decide_False by (intros Hc; by apply Hft in Hc). eexists. by split.
    + rewrite decide_True by by apply Hft. eexists. by split.
Qed.

Lemma rgz_handle_dirty_region_spec cur :
  fb_ok cur ->
  rgz_handle_dirty_region w h cur prev target =
  Some (mkFb (rgz_layerno cur) (dirtied (fb_layers cur) ++ drop (rgz_layerno cur) (rgz_layers cur)),
        damage_all w h (damage_layers cur) zero_rect).
Proof using Hprev Htarget.
  intros Hcur. unfold rgz_handle_dirty_region. rewrite dirty_loop_spec by done.
  unfold fb_ok in Hcur.
  assert (Hlen : length (dirtied (fb_layers cur)) = rgz_layerno cur)
    by (unfold dirtied, fb_layers; rewrite length_imap, length_take; lia).
  rewrite removed_loop_spec; [unfold damage_layers; by rewrite damage_all_app| |].
  - rewrite length_app, Hlen. lia.
  - intros ident. rewrite take_app_le by lia. rewrite <- Hlen at 1. rewrite firstn_all.
    apply find_in_imap_dirty.
Qed.

End Dirty.

(** The layers of a framebuffer state are told apart by their identities, and
    only the first one is the background. *)
Definition ids_unique (fb : rgz_fb_state_t) : Prop :=
  (forall l, fb_layers fb !! 0%nat = Some l -> buffidx l = RGZ_BACKGROUND_BUFFIDX) /\
  (forall l, l ∈ drop 1 (fb_layers fb) -> buffidx l <> RGZ_BACKGROUND_BUFFIDX) /\
  NoDup (identity <$> drop 1 (fb_layers fb)).

Lemma find_in_is_layer ls ident l : find_in ls ident = Some l -> is_layer ident l = true.
Proof.
  unfold find_in. intros Hh.
  destruct (filter (fun l => is_layer ident l = true) ls) as [|l' k] eqn:E; [done|].
  simplify_eq/=. assert (Hl : l ∈ filter (fun l => is_layer ident l = true) ls)
    by (rewrite E; by apply elem_of_cons; left).
  by apply list_elem_of_filter in Hl as [Hl ?].
Qed.

Lemma find_in_fb fb l l' :
  ids_unique fb -> l ∈ drop 1 (fb_layers fb) -> identity l = l' ->
  find_in (fb_layers fb) l' = Some l.
Proof.
  intros (Hb & Hnb & Hnd) Hl <-. unfold find_in.
  destruct (fb_layers fb) as [|b ls]; [by apply not_elem_of_nil in Hl|].
  change (drop 1 (b :: ls)) with ls in *.
  rewrite list.filter_cons_False.
  2:{ unfold is_layer. rewrite (Hb b eq_refl), Z.eqb_refl. done. }
  clear Hb. induction ls as [|c ls IH]; [by apply not_elem_of_nil in Hl|].
  assert (Hlay : is_layer (identity l) l = true).
  { unfold is_layer. rewrite (proj2 (Z.eqb_neq _ _)) by by apply Hnb. by rewrite Z.eqb_refl. }
  rewrite fmap_cons in Hnd. apply list.NoDup_cons in Hnd as [Hc Hnd].
  apply elem_of_cons in Hl as [->|Hl].
  - by rewrite list.filter_cons_True.
  - rewrite list.filter_cons_False; [apply IH; [|done|done]|].
    + intros k Hk. apply Hnb. by apply elem_of_cons; right.
    + unfold is_layer. intros [_ He]%andb_true_iff. apply Z.eqb_eq in He. apply Hc.
      rewrite He. by apply list_elem_of_fmap_2.
Qed.

Lemma find_in_drop fb ident l :
  ids_unique fb -> find_in (fb_layers fb) ident = Some l ->
  l ∈ drop 1 (fb_layers fb) /\ identity l = ident.
Proof.
  intros (Hb & _) Hf. pose proof (find_in_is_layer _ _ _ Hf) as Hl.
  apply find_in_Some in Hf as [Hin He]. split; [|done].
  destruct (fb_layers fb) as [|b ls]; [by apply not_elem_of_nil in Hin|].
  apply elem_of_cons in Hin as [->|Hin]; [|done].
  unfold is_layer in Hl. rewrite (Hb b eq_refl) in Hl. done.
Qed.

Lemma frame_not_moved l t :
  rgz_has_layer_frame_moved l t = false -> displayFrame (hwc_layer l) = displayFrame (hwc_layer t).
Proof.
  unfold rgz_has_layer_frame_moved. destruct (negb (identity l =? identity t)); [done|].
  rewrite !orb_false_iff, !negb_false_iff, !Z.eqb_eq.
  destruct (displayFrame (hwc_layer l)), (displayFrame (hwc_layer t)). simpl.
  intros (((-> & ->) & ->) & ->). done.
Qed.

(** A layer other than the background shows at the pixel (x, y). *)
Definition shows (fb : rgz_fb_state_t) (ident x y : Z) : Prop :=
  exists l, l ∈ drop 1 (fb_layers fb) /\ identity l = ident /\
            covers (displayFrame (hwc_layer l)) x y = true.

Lemma drop1_index {A} (ls : list A) l :
  l ∈ drop 1 ls -> exists i, ls !! S i = Some l.
Proof.
  intros Hl. apply list_elem_of_lookup in Hl as [i Hi].
  exists i. by rewrite lookup_drop in Hi.
Qed.

Lemma damage_layers_adds prev target cur i l a :
  fb_layers cur !! i = Some l -> a ∈ layer_adds prev target i l ->
  a ∈ damage_layers prev target cur.
Proof.
  intros Hl Ha. unfold damage_layers. apply elem_of_app. left.
  apply list_elem_of_join. exists (layer_adds prev target i l). split; [done|].
  apply list_elem_of_lookup. exists i. by rewrite list_lookup_imap, Hl.
Qed.

(** Looking a recorded layer of [fb'] up in [fb] when their frames agree. *)
Lemma unmoved_shows fb l t x y :
  l ∈ drop 1 (fb_layers fb) -> rgz_has_layer_frame_moved t l = false \/
    rgz_has_layer_frame_moved l t = false ->
  covers (displayFrame (hwc_layer t)) x y = true -> identity l = identity t ->
  shows fb (identity t) x y.
Proof.
  intros Hl Hm Hc Hid. exists l. do 2 (split; [done|]).
  destruct Hm as [Hm|Hm]; apply frame_not_moved in Hm; congruence.
Qed.

Section DirtySound.
Variables (w h : Z) (prev target cur : rgz_fb_state_t).
Hypothesis Hw : 0 < w.
Hypothesis Hh : 0 < h.
Hypothesis Hcu : ids_unique cur.
Hypothesis Htu : ids_unique target.
Hypothesis Hback : forall l, l ∈ drop 1 (fb_layers cur) ->
  target_layer target l <> None -> find_in (fb_layers prev) (identity l) <> None.
Variables x y : Z.
Hypothesis Hx : 0 <= x < w.
Hypothesis Hy : 0 <= y < h.
Let D := damage_all w h (damage_layers prev target cur) zero_rect.
Hypothesis Hout : covers D x y = false.

Lemma undamaged l : l ∈ damage_layers prev target cur ->
  covers (displayFrame (hwc_layer l)) x y = false.
Proof.
  intros Hl. destruct (covers (displayFrame (hwc_layer l)) x y) eqn:E; [|done].
  destruct (damage_all_spec w h (damage_layers prev target cur) zero_rect Hw Hh) as [_ Hc];
    [by left|].
  fold D in Hc. rewrite (Hc x y Hx Hy) in Hout by (right; by exists l). done.
Qed.

(** A current layer that shows at an undamaged pixel is unmoved in the target. *)
Lemma current_unmoved i l :
  fb_layers cur !! S i = Some l -> covers (displayFrame (hwc_layer l)) x y = true ->
  exists t, target_layer target l = Some t /\ rgz_has_layer_frame_moved l t = false.
Proof.
  intros Hl Hc.
  assert (Hn : l ∉ layer_adds prev target (S i) l).
  { intros Ha. pose proof (undamaged l (damage_layers_adds _ _ _ _ _ _ Hl Ha)). congruence. }
  unfold layer_adds in Hn. destruct (prev_layer prev (S i) l);
    [|by destruct Hn; apply list_elem_of_singleton].
  simpl in Hn. destruct (target_layer target l) as [t|];
    [|by destruct Hn; apply list_elem_of_singleton].
  exists t. split; [done|]. destruct (rgz_has_layer_frame_moved l t); [|done].
  by destruct Hn; apply elem_of_cons; left.
Qed.

Lemma shows_current_target ident : shows cur ident x y -> shows target ident x y.
Proof.
  intros (l & Hl & <- & Hc). apply drop1_index in Hl as [i Hl].
  destruct (current_unmoved i l Hl Hc) as (t & Ht & Hm).
  apply find_in_drop in Ht as [Ht He]; [|done]. apply (unmoved_shows _ t l); auto.
Qed.

Lemma shows_target_current ident : shows target ident x y -> shows cur ident x y.
Proof.
  intros (t & Ht & <- & Hc).
  destruct (find_in (fb_layers cur) (identity t)) as [l|] eqn:Hf.
  - apply find_in_drop in Hf as [Hl He]; [|done].
    assert (Htl : target_layer target l = Some t) by (apply find_in_fb; [done|done|congruence]).
    pose proof (Hback l Hl) as Hp. rewrite Htl in Hp.
    destruct (drop1_index _ _ Hl) as [i Hi].
    assert (Hn : t ∉ layer_adds prev target (S i) l).
    { intros Ha. pose proof (undamaged t (damage_layers_adds _ _ _ _ _ _ Hi Ha)). congruence. }
    unfold layer_adds, prev_layer in Hn. simpl in Hn.
    destruct (find_in (fb_layers prev) (identity l)) as [p|]; [|by destruct Hp].
    rewrite Htl in Hn. destruct (rgz_has_layer_frame_moved l t) eqn:Hm.
    + destruct Hn. apply elem_of_cons. right. by apply list_elem_of_singleton.
    + apply (unmoved_shows _ l t); auto.
  - exfalso. assert (Hd : t ∈ damage_layers prev target cur); [|apply undamaged in Hd; congruence].
    unfold damage_layers. apply elem_of_app. right. by apply list_elem_of_filter.
Qed.

End DirtySound.

(** C16: the damaged area that [rgz_handle_dirty_region] computes is empty or has
    its edges on the screen, and it is sound: at every pixel of the screen
    outside it, the layers of the current frame and the layers the target
    framebuffer was drawn with are the same.  The hypothesis is that every
    current layer that is in the target framebuffer was in the previous frame
    too: [dirty_region_stale] shows that it is needed. *)
Theorem dirty_region_sound (w h : Z) (cur prev target : rgz_fb_state_t) :
  0 < w -> 0 < h -> fb_ok cur -> fb_ok prev -> fb_ok target ->
  ids_unique cur -> ids_unique target ->
  (forall l, l ∈ drop 1 (fb_layers cur) -> target_layer target l <> None ->
             find_in (fb_layers prev) (identity l) <> None) ->
  exists cur' d, rgz_handle_dirty_region w h cur prev target = Some (cur', d) /\
    damage_ok w h d /\
    forall ident x y, 0 <= x < w -> 0 <= y < h -> covers d x y = false ->
      (shows cur ident x y <-> shows target ident x y).
Proof.
  intros Hw Hh Hc Hp Ht Hcu Htu Hb.
  eexists _, _. split; [by apply rgz_handle_dirty_region_spec|]. split.
  - apply damage_all_spec; [done|done|by left].
  - intros ident x y Hx Hy Hout. split.
    + by apply (shows_current_target w h prev target cur).
    + by apply (shows_target_current w h prev target cur).
Qed.

(** A layer of a frame: identity, buffer handle and display frame. *)
Definition mk_sample (ident hndl : Z) (f : blit_rect_t) : rgz_layer_t :=
  mkLayer (mkHwcLayer 0 0 0 hndl 0 0 f f) ident 0 0.
Definition sample_bg (w h : Z) : rgz_layer_t :=
  mkLayer (mkHwcLayer 0 0 0 1 0 0 zero_rect (mkRect 0 0 w h)) 0 RGZ_BACKGROUND_BUFFIDX 0.
Definition sample_state (ls : list rgz_layer_t) : rgz_fb_state_t :=
  mkFb (S (length ls)) (sample_bg 8 8 :: ls).

Lemma dirty_region_sound_witness :
  let prev := sample_state [mk_sample 7 2 (mkRect 0 0 2 2)] in
  let cur := sample_state [mk_sample 7 2 (mkRect 4 4 6 6)] in
  exists cur' d, rgz_handle_dirty_region 8 8 cur prev prev = Some (cur', d) /\
    d = mkRect 0 0 6 6 /\
    (shows cur 7 7 7 <-> shows prev 7 7 7).
Proof.
  intros prev cur.
  destruct (dirty_region_sound 8 8 cur prev prev) as (cur' & d & Hr & _ & Hs).
  1,2: lia. 1,2,3: vm_compute; lia.
  1,2: split; [intros l [= <-]; reflexivity|split; [intros l Hl; apply list_elem_of_singleton in Hl as ->; discriminate|
    apply list.NoDup_singleton]].
  - intros l Hl _. apply list_elem_of_singleton in Hl as ->. discriminate.
  - exists cur', d. split; [exact Hr|].
    vm_compute in Hr. injection Hr as <- <-. split; [reflexivity|].
    apply Hs; [lia|lia|reflexivity].
Defined.

(** the damaged area misses a layer that was in the target framebuffer, was
    absent from the previous frame and is back elsewhere: its old area in the
    target is not redrawn, although the code says that layers present in the
    target have been handled. *)
Lemma dirty_region_stale :
  let target := sample_state [mk_sample 7 2 (mkRect 0 0 2 2)] in
  let prev := sample_state [] in
  let cur := sample_state [mk_sample 7 2 (mkRect 4 4 6 6)] in
  exists cur' d, rgz_handle_dirty_region 8 8 cur prev target = Some (cur', d) /\
    covers d 0 0 = false /\ shows target 7 0 0 /\ ~ shows cur 7 0 0.
Proof.
  intros target prev cur.
  eexists _, _. split; [reflexivity|]. split; [reflexivity|]. split.
  - exists (mk_sample 7 2 (mkRect 0 0 2 2)). split; [|done]. by apply list_elem_of_singleton.
  - intros (l & Hl & _ & Hc). by apply list_elem_of_singleton in Hl as ->.
Qed.

(** after [rgz_handle_dirty_region] a layer that is new, whose content
    changed, or that is elsewhere in the target framebuffer is marked for
    redrawing in both framebuffers; any other layer counts down from its count
    in the previous frame, not below zero; everything else of the layers is
    kept. *)
Lemma dirty_counts (w h : Z) (cur prev target : rgz_fb_state_t) :
  fb_ok cur -> fb_ok prev -> fb_ok target ->
  exists cur' d, rgz_handle_dirty_region w h cur prev target = Some (cur', d) /\
    rgz_layerno cur' = rgz_layerno cur /\ length (rgz_layers cur') = length (rgz_layers cur) /\
    forall i l, (i < rgz_layerno cur)%nat -> rgz_layers cur !! i = Some l ->
      exists l', rgz_layers cur' !! i = Some l' /\
        hwc_layer l' = hwc_layer l /\ identity l' = identity l /\ buffidx l' = buffidx l /\
        (layer_changed prev target i l = true -> dirty_count l' = Z.of_nat RGZ_NUM_FB) /\
        (layer_changed prev target i l = false ->
           exists p, prev_layer prev i l = Some p /\
             (0 <= dirty_count p -> dirty_count l' = Z.max 0 (dirty_count p - 1))).
Proof.
  intros Hc Hp Ht. eexists _, _. split; [by apply rgz_handle_dirty_region_spec|].
  unfold fb_ok in Hc. cbn [rgz_layerno rgz_layers]. split; [done|].
  assert (Hlen : length (fb_layers cur) = rgz_layerno cur)
    by (unfold fb_layers; rewrite length_take; lia).
  split; [rewrite length_app, length_drop; unfold dirtied; rewrite length_imap; lia|].
  intros i l Hi Hl. exists (set_dirty l (dirty_of prev target i l)).
  split.
  - rewrite lookup_app_l by (unfold dirtied; rewrite length_imap; lia).
    unfold dirtied. rewrite list_lookup_imap. unfold fb_layers. by rewrite lookup_take_lt, Hl by lia.
  - do 3 (split; [done|]). unfold dirty_of, set_dirty. cbn [dirty_count].
    destruct (layer_changed prev target i l) eqn:E; split; [done|done|done|].
    intros _. unfold layer_changed in E.
    destruct (prev_layer prev i l) as [p|]; [|done]. exists p. split; [done|].
    intros Hd. destruct (Z.eqb_spec (dirty_count p) 0); lia.
Qed.

Lemma dirty_counts_witness :
  let prev := sample_state [set_dirty (mk_sample 7 2 (mkRect 0 0 2 2)) 2] in
  exists cur' d, rgz_handle_dirty_region 8 8 prev prev prev = Some (cur', d) /\
    exists l', rgz_layers cur' !! 1%nat = Some l' /\ dirty_count l' = 1.
Proof.
  intros prev.
  destruct (dirty_counts 8 8 prev prev prev) as (cur' & d & Hr & _ & _ & Hl).
  1,2,3: vm_compute; lia.
  exists cur', d. split; [exact Hr|].
  destruct (Hl 1%nat (set_dirty (mk_sample 7 2 (mkRect 0 0 2 2)) 2)) as (l' & Hl' & _ & _ & _ & _ & Hd);
    [vm_compute; lia|reflexivity|].
  exists l'. split; [exact Hl'|]. destruct Hd as (p & Hp & Hd); [reflexivity|].
  injection Hp as <-. apply Hd. vm_compute. discriminate.
Defined.

(** * [rgz_in_hwccheck] *)

(** What a layer of the state takes from the input: all but the dirty count. *)
Definition layer_key (l : rgz_layer_t) : hwc_layer_1_t * Z * Z :=
  (hwc_layer l, identity l, buffidx l).

Section HwcCheckSpec.
Context `{HwcApi}.
Variable hmem : Z -> option IMG_native_handle_t.
Variable bg_layer : hwc_layer_1_t.

Definition is_framebuffer (l : hwc_layer_1_t) : bool := compositionType l =? HWC_FRAMEBUFFER.
Definition is_clear (l : hwc_layer_1_t) : bool := has_flag (hints l) HWC_HINT_CLEAR_FB.
Definition is_valid (l : hwc_layer_1_t) : bool :=
  match rgz_in_valid_hwc_layer hmem l with Some b => b | None => false end.
Definition is_candidate (l : hwc_layer_1_t) : bool := is_framebuffer l || is_clear l.

(** The layers that are recorded, in order, for [p] already recorded and [m]
    the next buffer index. *)
Fixpoint accepted (p : nat) (m : Z) (ls : list (hwc_layer_1_t * Z)) : list (hwc_layer_1_t * Z * Z) :=
  match ls with
  | [] => []
  | (l, ident) :: r =>
    if is_framebuffer l then
      if is_valid l && (p <? RGZ_INPUT_MAXLAYERS)%nat
      then (l, ident, m) :: accepted (S p) (m + 1) r
      else accepted p m r
    else if is_clear l && (p <? RGZ_INPUT_MAXLAYERS)%nat
    then (set_handle l 1, ident, RGZ_CLEARHINT_BUFFIDX) :: accepted (S p) m r
    else accepted p m r
  end.

Definition n_candidates (ls : list (hwc_layer_1_t * Z)) : nat :=
  length (filter (fun x => is_candidate x.1 = true) ls).

(** The handles that the validation reads are in memory. *)
Definition handles_ok (ls : list (hwc_layer_1_t * Z)) : Prop :=
  Forall (fun x => is_framebuffer x.1 = true -> is_Some (rgz_in_valid_hwc_layer hmem x.1)) ls.

Lemma store_layer_spec layers p hl ident bi :
  (p < length layers)%nat ->
  exists layers', store_layer layers p hl (Some ident) bi = Some layers' /\
    length layers' = length layers /\
    layer_key <$> take (S p) layers' = (layer_key <$> take p layers) ++ [(hl, ident, bi)].
Proof.
  intros Hp. unfold store_layer, set_layer.
  destruct (lookup_lt_is_Some_2 layers p Hp) as [old Ho]. rewrite Ho.
  rewrite (proj2 (Nat.ltb_lt _ _) Hp). eexists. split; [done|].
  split; [by rewrite length_insert|].
  erewrite take_S_r by (by apply list_lookup_insert_eq).
  by rewrite take_insert_ge, fmap_app by lia.
Qed.

Lemma check_run_spec ls c p m out :
  handles_ok ls -> length out = RGZ_MAXLAYERS -> (p <= RGZ_INPUT_MAXLAYERS)%nat ->
  let A := accepted p m ls in
  exists m' out',
    for_list ls (fun x s => check_layer hmem x.1 x.2 s) (mkCheck c p m out) =
      Some (mkCheck (c + n_candidates ls) (p + length A) m' out') /\
    length out' = RGZ_MAXLAYERS /\ (p + length A <= RGZ_INPUT_MAXLAYERS)%nat /\
    layer_key <$> take (S (p + length A)) out' = (layer_key <$> take (S p) out) ++ A.
Proof.
  cbv zeta. revert c p m out. induction ls as [|[l ident] ls IH]; intros c p m out Hok Hout Hp.
  { exists m, out. cbn. rewrite app_nil_r, !Nat.add_0_r. done. }
  apply Forall_cons_1 in Hok as [Hl Hok]. simpl in Hl.
  unfold n_candidates. cbn [for_list fst snd]. rewrite list.filter_cons.
  change (is_candidate (l, ident).1) with (is_framebuffer l || is_clear l). cbn [accepted].
  unfold check_layer at 1. fold (is_framebuffer l). fold (is_clear l).
  assert (Hpo : (p + 1 < length out)%nat)
    by (rewrite Hout; unfold RGZ_INPUT_MAXLAYERS, RGZ_MAXLAYERS in *; lia).
  assert (Hstore : forall hl bi m1, (p < RGZ_INPUT_MAXLAYERS)%nat -> exists m' out',
    match store_layer out (p + 1) hl (Some ident) bi with
    | Some out' => for_list ls (fun x s => check_layer hmem x.1 x.2 s)
                     (mkCheck (c + 1) (p + 1) m1 out')
    | None => None
    end = Some (mkCheck (c + S (n_candidates ls)) (p + S (length (accepted (S p) m1 ls))) m' out') /\
    length out' = RGZ_MAXLAYERS /\
    (p + S (length (accepted (S p) m1 ls)) <= RGZ_INPUT_MAXLAYERS)%nat /\
    layer_key <$> take (S (p + S (length (accepted (S p) m1 ls)))) out' =
      (layer_key <$> take (S p) out) ++ (hl, ident, bi) :: accepted (S p) m1 ls).
  { intros hl bi m1 Hlt. destruct (store_layer_spec out (p + 1) hl ident bi Hpo) as (o1 & -> & Hl1 & Hk1).
    destruct (IH (c + 1)%nat (S p) m1 o1) as (m' & o2 & Hr & Hl2 & Hle & Hk); [done|congruence|lia|].
    replace (p + 1)%nat with (S p) in * by lia. rewrite Hr. exists m', o2.
    replace (p + S (length (accepted (S p) m1 ls)))%nat with (S p + length (accepted (S p) m1 ls))%nat by lia.
    replace (c + S (n_candidates ls))%nat with (c + 1 + n_candidates ls)%nat by lia.
    do 3 (split; [done|]). rewrite Hk, Hk1, <- app_assoc. done. }
  destruct (is_framebuffer l) eqn:Hf.
  - destruct (Hl eq_refl) as [v Hv]. unfold is_valid. rewrite Hv. cbn [orb].
    rewrite decide_True by done. cbn [length]. fold (n_candidates ls).
    destruct (v && (p <? RGZ_INPUT_MAXLAYERS)%nat) eqn:Hcond.
    + apply andb_true_iff in Hcond as [_ Hlt%Nat.ltb_lt]. cbn [length].
      destruct (Hstore l m (m + 1) Hlt) as (m' & o' & Hr & Hrest).
      exists m', o'. split; [|exact Hrest]. rewrite <- Hr. by destruct (store_layer _ _ _ _ _).
    + destruct (IH (c + 1)%nat p m out) as (m' & o2 & Hr & Hrest); [done|done|done|].
      exists m', o2. split; [|exact Hrest]. rewrite Hr. cbn [length]. do 2 f_equal. lia.
  - cbn [orb]. destruct (is_clear l) eqn:Hcl.
    + rewrite decide_True by done. cbn [andb length]. fold (n_candidates ls).
      destruct (Nat.ltb_spec p RGZ_INPUT_MAXLAYERS) as [Hlt|Hge].
      * cbn [length]. destruct (Hstore (set_handle l 1) RGZ_CLEARHINT_BUFFIDX m Hlt) as (m' & o' & Hr & Hrest).
        exists m', o'. split; [|exact Hrest]. rewrite <- Hr. by destruct (store_layer _ _ _ _ _).
      * destruct (IH (c + 1)%nat p m out) as (m' & o2 & Hr & Hrest); [done|done|done|].
        exists m', o2. split; [|exact Hrest]. rewrite Hr. cbn [length]. do 2 f_equal. lia.
    + rewrite decide_False by done. cbn [andb]. fold (n_candidates ls). by apply IH.
Qed.

(** The regionizer state between calls. *)
Definition dirty_ok (l : rgz_layer_t) : Prop := 0 <= dirty_count l <= Z.of_nat RGZ_NUM_FB.

Definition fb_sized (fb : rgz_fb_state_t) : Prop :=
  length (rgz_layers fb) = RGZ_MAXLAYERS /\ (rgz_layerno fb <= RGZ_MAXLAYERS)%nat /\
  Forall dirty_ok (rgz_layers fb).

Definition rgz_ok (rgz : rgz_t) : Prop :=
  length (rgz_layers (cur_fb_state rgz)) = RGZ_MAXLAYERS /\
  (fb_state_idx rgz < RGZ_NUM_FB)%nat /\ length (fb_states rgz) = RGZ_NUM_FB /\
  forall i fb, fb_states rgz !! i = Some fb -> fb_sized fb.

Definition other_fb (idx : nat) : nat := ((idx + 1) mod RGZ_NUM_FB)%nat.

(** The input layers with their identities. *)
Definition inputs (p : rgz_in_params) (layers : list hwc_layer_1_t) : list (hwc_layer_1_t * Z) :=
  zip (take (in_layerno p) layers) (take (in_layerno p) (in_extlayers p)).

Definition input_ok (p : rgz_in_params) (layers : list hwc_layer_1_t) : Prop :=
  in_layers p = Some layers /\ (in_layerno p <= length layers)%nat /\
  (in_layerno p <= length (in_extlayers p))%nat /\ handles_ok (inputs p layers).

Definition overlays (ls : list hwc_layer_1_t) : Z :=
  Z.of_nat (length (filter (fun l => compositionType l = HWC_OVERLAY) ls)).

Lemma count_overlays_spec ls n :
  (n <= length ls)%nat -> count_overlays ls n = Some (overlays (take n ls)).
Proof.
  intros Hn. unfold count_overlays.
  edestruct (for_range_inv (fun k m => m = overlays (take k ls)) 0 n) as (m & Hr & ->);
    [| |exact Hr]; [done|].
  intros k m Hk ->. destruct (lookup_lt_is_Some_2 ls k) as [l Hl]; [lia|].
  rewrite Hl. eexists. split; [done|]. rewrite (take_S_r _ _ _ Hl). unfold overlays.
  rewrite list.filter_app, list.filter_cons, list.filter_nil, length_app.
  destruct (Z.eqb_spec (compositionType l) HWC_OVERLAY);
    [rewrite decide_True by done|rewrite decide_False by done]; simpl; lia.
Qed.

(** The layers that [rgz_in_hwccheck] records for the input. *)
Definition accepted_layers (p : rgz_in_params) (layers : list hwc_layer_1_t) :
    list (hwc_layer_1_t * Z * Z) :=
  accepted 0 (overlays (take (in_layerno p) layers)) (inputs p layers).

(** Every candidate was accepted, and there is one. *)
Definition all_accepted (p : rgz_in_params) (layers : list hwc_layer_1_t) : bool :=
  let A := accepted_layers p layers in
  negb (length A =? 0)%nat && (length A =? n_candidates (inputs p layers))%nat.

(** The state holds the background and then the accepted layers. *)
Definition holds (A : list (hwc_layer_1_t * Z * Z)) (fb : rgz_fb_state_t) : Prop :=
  exists b rest, fb_layers fb = b :: rest /\ hwc_layer b = set_handle bg_layer 1 /\
    buffidx b = RGZ_BACKGROUND_BUFFIDX /\ layer_key <$> rest = A.

Lemma background_spec fb :
  length (rgz_layers fb) = RGZ_MAXLAYERS ->
  exists fb' b, rgz_add_background_layer bg_layer fb = Some fb' /\
    length (rgz_layers fb') = RGZ_MAXLAYERS /\ rgz_layerno fb' = rgz_layerno fb /\
    rgz_layers fb' !! 0%nat = Some b /\
    hwc_layer b = set_handle bg_layer 1 /\ buffidx b = RGZ_BACKGROUND_BUFFIDX.
Proof.
  intros Hl. unfold rgz_add_background_layer, store_layer, set_layer.
  destruct (rgz_layers fb) as [|b ls] eqn:E; [done|]. simpl.
  eexists _, _. split; [done|]. by rewrite <- Hl.
Qed.

(** The state and the counters after the layer loop of [rgz_in_hwccheck]. *)
Lemma layer_loop_spec p layers fb :
  input_ok p layers -> length (rgz_layers fb) = RGZ_MAXLAYERS ->
  let A := accepted_layers p layers in
  exists cur m' out,
    rgz_add_background_layer bg_layer fb = Some cur /\
    for_range 0 (in_layerno p)
      (fun l s => let* layer := layers !! l in let* ident := in_extlayers p !! l in
                  check_layer hmem layer ident s)
      (mkCheck 0 0 (overlays (take (in_layerno p) layers)) (rgz_layers cur)) =
    Some (mkCheck (n_candidates (inputs p layers)) (length A) m' out) /\
    length out = RGZ_MAXLAYERS /\ (length A <= RGZ_INPUT_MAXLAYERS)%nat /\
    holds A (mkFb (length A + 1) out).
Proof.
  intros (Hin & Hl1 & Hl2 & Hh) Hfb A.
  destruct (background_spec fb Hfb) as (cur & b & Hbg & Hlc & _ & Hb & Hbl & Hbb).
  destruct (check_run_spec (inputs p layers) 0 0 (overlays (take (in_layerno p) layers))
              (rgz_layers cur)) as (m' & out & Hr & Hlo & Hle & Hk); [done|done|lia|].
  exists cur, m', out. split; [done|]. rewrite for_range_zip by done. split; [exact Hr|].
  do 2 (split; [done|]). change (accepted 0 _ _) with A in Hk.
  destruct (rgz_layers cur) as [|b' ls] eqn:Ec; [done|]. injection Hb as ->.
  destruct out as [|b' out]; [done|]. simpl in Hk.
  injection Hk as E1 _ E2 Hk. unfold holds, fb_layers. cbn [rgz_layerno rgz_layers].
  rewrite Nat.add_1_r. simpl. exists b', (take (length A) out).
  split; [done|]. split; [by rewrite <- Hbl|]. split; [by rewrite <- Hbb|]. done.
Qed.

Lemma fb_states_sized rgz i :
  rgz_ok rgz -> (i < RGZ_NUM_FB)%nat ->
  exists fb, fb_states rgz !! i = Some fb /\ fb_sized fb.
Proof.
  intros (_ & _ & Hl & Hfb) Hi. destruct (lookup_lt_is_Some_2 (fb_states rgz) i) as [fb Hf]; [lia|].
  exists fb. split; [done|by eapply Hfb].
Qed.

Lemma other_fb_lt idx : (other_fb idx < RGZ_NUM_FB)%nat.
Proof. apply Nat.mod_upper_bound. done. Qed.

Lemma fb_sized_ok fb : fb_sized fb -> fb_ok fb.
Proof. intros (Hl & Hn & _). unfold fb_ok. lia. Qed.

Lemma prev_layer_in prev i l p : prev_layer prev i l = Some p -> p ∈ rgz_layers prev.
Proof.
  unfold prev_layer, fb_layers. intros Hp. destruct (i =? 0)%nat.
  - apply lookup_take_Some in Hp as [Hp _]. by eapply list_elem_of_lookup_2.
  - apply find_in_Some in Hp as [Hp _]. by apply elem_of_take in Hp as (k & Hk%list_elem_of_lookup_2 & _).
Qed.

Lemma dirty_of_ok prev target i l :
  Forall dirty_ok (rgz_layers prev) -> 0 <= dirty_of prev target i l <= Z.of_nat RGZ_NUM_FB.
Proof.
  intros Hf. unfold dirty_of, RGZ_NUM_FB.
  destruct (layer_changed prev target i l); [lia|].
  destruct (prev_layer prev i l) as [p|] eqn:Hp; [|lia].
  apply prev_layer_in, list_elem_of_lookup in Hp as [k Hk].
  pose proof (Forall_lookup_1 _ _ _ _ Hf Hk) as Hd. unfold dirty_ok, RGZ_NUM_FB in Hd.
  destruct (Z.eqb_spec (dirty_count p) 0); lia.
Qed.

Lemma fb_layers_dirty w h prev target cur :
  fb_ok prev -> fb_ok target -> fb_ok cur ->
  exists cur', rgz_handle_dirty_region w h cur prev target =
      Some (cur', damage_all w h (damage_layers prev target cur) zero_rect) /\
    fb_layers cur' = dirtied prev target (fb_layers cur) /\
    rgz_layerno cur' = rgz_layerno cur /\ length (rgz_layers cur') = length (rgz_layers cur).
Proof.
  intros Hp Ht Hc. eexists. split; [by apply rgz_handle_dirty_region_spec|].
  cbn [rgz_layerno rgz_layers]. unfold fb_ok in Hc.
  assert (Hlen : length (dirtied prev target (fb_layers cur)) = rgz_layerno cur)
    by (unfold dirtied, fb_layers; rewrite length_imap, length_take; lia).
  split; [|split; [done|rewrite length_app, Hlen, length_drop; lia]].
  unfold fb_layers at 1. cbn [rgz_layerno rgz_layers].
  rewrite take_app_le by lia. rewrite <- Hlen at 1. apply firstn_all.
Qed.

Lemma dirty_holds w h A prev target cur :
  fb_sized prev -> fb_ok target -> fb_ok cur -> holds A cur ->
  exists cur' d, rgz_handle_dirty_region w h cur prev target = Some (cur', d) /\
    holds A cur' /\ Forall dirty_ok (fb_layers cur') /\ rgz_layerno cur' = rgz_layerno cur /\
    length (rgz_layers cur') = length (rgz_layers cur).
Proof.
  intros Hp Ht Hc HA.
  destruct (fb_layers_dirty w h prev target cur) as (cur' & Hr & Hl & Hn & Hlen);
    [by apply fb_sized_ok|done|done|].
  exists cur', (damage_all w h (damage_layers prev target cur) zero_rect).
  split; [done|]. split; [|split; [|by split]].
  - destruct HA as (b & rest & Hfb & Hb & Hbb & Hk). unfold holds. rewrite Hl, Hfb.
    unfold dirtied. rewrite imap_cons. eexists _, _. do 3 (split; [done|]). rewrite <- Hk.
    apply list_eq. intros i. rewrite !list_lookup_fmap, list_lookup_imap. by destruct (rest !! i).
  - rewrite Hl. apply Forall_lookup_2. intros i l Hi. unfold dirtied in Hi.
    rewrite list_lookup_imap in Hi. destruct (fb_layers cur !! i); [|done].
    injection Hi as <-. apply dirty_of_ok. apply Hp.
Qed.

(** The state after an accepted composition. *)
Definition checked_state (p : rgz_in_params) (rgz : rgz_t) (A : list (hwc_layer_1_t * Z * Z))
    (rgz' : rgz_t) : Prop :=
  let idx := other_fb (fb_state_idx rgz) in
  exists prev target target' cur,
    fb_states rgz !! fb_state_idx rgz = Some prev /\ fb_states rgz !! idx = Some target /\
    holds A cur /\ fb_ok cur /\
    rgz_handle_dirty_region (in_width p) (in_height p) cur prev target =
      Some (cur_fb_state rgz', damaged_area rgz') /\
    holds A (cur_fb_state rgz') /\ rgz_layerno (cur_fb_state rgz') = S (length A) /\
    fb_layers target' = fb_layers (cur_fb_state rgz') /\
    fb_states rgz' = <[idx := target']> (fb_states rgz) /\ fb_state_idx rgz' = idx /\
    Z.land (state rgz') RGZ_STATE_INIT <> 0 /\ rgz_ok rgz'.

Lemma has_init x : Z.land (Z.lor x RGZ_STATE_INIT) RGZ_STATE_INIT <> 0.
Proof.
  intros E. assert (Hb : Z.testbit (Z.land (Z.lor x RGZ_STATE_INIT) RGZ_STATE_INIT) 0 = false)
    by by rewrite E.
  rewrite Z.land_spec, Z.lor_spec in Hb. by rewrite orb_true_r in Hb.
Qed.

Lemma no_init x : Z.land (Z.land x (Z.lnot RGZ_STATE_INIT)) RGZ_STATE_INIT = 0.
Proof.
  apply Z.bits_inj'. intros n Hn. rewrite !Z.land_spec, Z.lnot_spec, Z.bits_0 by done.
  destruct (Z.testbit RGZ_STATE_INIT n); [by rewrite andb_false_r|by rewrite andb_false_r].
Qed.

Lemma hwccheck_accepts p layers rgz :
  input_ok p layers -> rgz_ok rgz -> all_accepted p layers = true ->
  exists rgz', rgz_in_hwccheck hmem bg_layer p rgz = Some (RGZ_ALL, rgz') /\
    checked_state p rgz (accepted_layers p layers) rgz'.
Proof.
  intros Hin Hok Hall. pose proof Hin as (Hil & Hl1 & _). pose proof Hok as (Hcl & Hidx & Hfl & Hfs).
  destruct (layer_loop_spec p layers (cur_fb_state rgz) Hin Hcl)
    as (c0 & m' & out & Hbg & Hloop & Hlo & Hle & Hholds).
  unfold all_accepted in Hall. apply andb_true_iff in Hall as [Hne Heq].
  unfold rgz_in_hwccheck. rewrite Hil, count_overlays_spec, Hbg, Hloop by done.
  set (A := accepted_layers p layers) in *. set (cur := mkFb (length A + 1) out) in *.
  apply negb_true_iff in Hne. rewrite Hne, Heq. cbn [orb negb].
  destruct (fb_states_sized rgz _ Hok Hidx) as (prev & Hprev & Hps).
  destruct (fb_states_sized rgz _ Hok (other_fb_lt (fb_state_idx rgz))) as (target & Htarget & Hts).
  unfold get_prev_fb_state, get_next_fb_state. fold (other_fb (fb_state_idx rgz)).
  rewrite Hprev, Htarget.
  assert (Hcok : fb_ok cur).
  { unfold fb_ok, cur. cbn [rgz_layerno rgz_layers]. unfold RGZ_INPUT_MAXLAYERS, RGZ_MAXLAYERS in *. lia. }
  destruct (dirty_holds (in_width p) (in_height p) A prev target cur)
    as (cur' & d & Hdirty & Hholds' & Hdok & Hn1 & Hlen1); [done|by apply fb_sized_ok|done|done|].
  rewrite Hdirty.
  assert (Hnn : rgz_layerno cur = S (length A)) by (unfold cur; simpl; lia).
  assert (Hll : length (rgz_layers cur') = RGZ_MAXLAYERS) by by rewrite Hlen1.
  assert (HleM : (rgz_layerno cur' <= RGZ_MAXLAYERS)%nat)
    by (rewrite Hn1, Hnn; unfold RGZ_INPUT_MAXLAYERS, RGZ_MAXLAYERS in *; lia).
  destruct Hts as (Htl & Htn & Htd).
  rewrite Hll, Htl, (proj2 (Nat.leb_le _ _) HleM). cbn [andb].
  set (target' := mkFb (rgz_layerno cur') (take (rgz_layerno cur') (rgz_layers cur') ++ drop (rgz_layerno cur') (rgz_layers target))).
  eexists. split; [done|].
  unfold checked_state. exists prev, target, target', cur.
  cbn [cur_fb_state damaged_area fb_states fb_state_idx state].
  do 6 (split; [done|]). split; [lia|].
  assert (Htk : length (take (rgz_layerno cur') (rgz_layers cur')) = rgz_layerno cur')
    by (rewrite length_take; lia).
  split.
  { unfold target', fb_layers. cbn [rgz_layerno rgz_layers].
    rewrite take_app_le, take_take by lia. by rewrite Nat.min_id. }
  do 2 (split; [done|]). split; [apply has_init|].
  split; [done|]. split; [apply other_fb_lt|].
  split; [cbn [fb_states]; by rewrite length_insert|].
  intros i fb Hi. cbn [fb_states] in Hi.
  apply list_lookup_insert_Some in Hi as [(_ & <- & _)|[_ Hi]]; [|by eapply Hfs].
  unfold fb_sized, target'. cbn [rgz_layers rgz_layerno].
  split; [rewrite length_app, Htk, length_drop, Htl; lia|]. split; [done|].
  apply Forall_app. split; [exact Hdok|]. by apply Forall_drop.
Qed.

Lemma hwccheck_refuses p layers rgz :
  input_ok p layers -> rgz_ok rgz -> all_accepted p layers = false ->
  exists rgz', rgz_in_hwccheck hmem bg_layer p rgz = Some (-1, rgz') /\
    Z.land (state rgz') RGZ_STATE_INIT = 0 /\ rgz_ok rgz' /\
    fb_states rgz' = fb_states rgz /\ fb_state_idx rgz' = fb_state_idx rgz /\
    damaged_area rgz' = damaged_area rgz.
Proof.
  intros Hin Hok Hall. pose proof Hin as (Hil & Hl1 & _). pose proof Hok as (Hcl & Hidx & Hfl & Hfs).
  destruct (layer_loop_spec p layers (cur_fb_state rgz) Hin Hcl)
    as (c0 & m' & out & Hbg & Hloop & Hlo & Hle & Hholds).
  unfold rgz_in_hwccheck. rewrite Hil, count_overlays_spec, Hbg, Hloop by done.
  unfold all_accepted in Hall.
  replace ((length (accepted_layers p layers) =? 0)%nat || _) with true.
  - eexists. split; [done|]. cbn [state]. split; [apply no_init|].
    split; [|done]. split; [exact Hlo|]. by split.
  - symmetry. destruct (length (accepted_layers p layers) =? 0)%nat; [done|].
    simpl in Hall. simpl. by rewrite Hall.
Qed.

(** * Idle compositions *)

(** The recorded layers have different identities, none is the background. *)
Definition distinct (A : list (hwc_layer_1_t * Z * Z)) : Prop :=
  NoDup (A.*1.*2) /\ Forall (fun a => a.2 <> RGZ_BACKGROUND_BUFFIDX) A.

Lemma holds_ids A fb : distinct A -> holds A fb -> ids_unique fb.
Proof.
  intros [Hnd Hbi] (b & rest & Hfb & _ & Hbb & Hk). unfold ids_unique. rewrite Hfb.
  split; [by intros l [= <-]|]. cbn [drop]. rewrite drop_0. subst A. split.
  - intros l Hl. apply list_elem_of_lookup in Hl as [i Hi].
    refine (Forall_lookup_1 _ _ i (layer_key l) Hbi _). by rewrite list_lookup_fmap, Hi.
  - replace (identity <$> rest) with ((layer_key <$> rest).*1.*2); [done|].
    rewrite <- !list_fmap_compose. by apply list_fmap_ext.
Qed.

(** A state that holds the same layers has an equal layer at each position. *)
Lemma holds_lookup A fb fb' i l :
  holds A fb -> holds A fb' -> fb_layers fb !! i = Some l ->
  exists l', fb_layers fb' !! i = Some l' /\
    hwc_layer l' = hwc_layer l /\ buffidx l' = buffidx l /\
    (i <> 0%nat -> identity l' = identity l).
Proof.
  intros (b & r & Hf & Hb & Hbb & Hk) (b' & r' & Hf' & Hb' & Hbb' & Hk') Hi.
  rewrite Hf in Hi. rewrite Hf'. destruct i as [|i]; simpl in *.
  - injection Hi as <-. exists b'. by rewrite Hb', Hb, Hbb', Hbb.
  - assert (Hki : (layer_key <$> r') !! i = Some (layer_key l))
      by (rewrite Hk', <- Hk, list_lookup_fmap, Hi; done).
    rewrite list_lookup_fmap in Hki. destruct (r' !! i) as [l'|]; [|done].
    exists l'. injection Hki as -> -> ->. done.
Qed.

Lemma same_layer_unchanged l p :
  hwc_layer p = hwc_layer l -> buffidx p = buffidx l ->
  identity p = identity l \/ buffidx l = RGZ_BACKGROUND_BUFFIDX ->
  rgz_has_layer_content_changed l p = false.
Proof.
  intros Hh Hb Hid. unfold rgz_has_layer_content_changed. rewrite Hh, Hb, !Z.eqb_refl.
  destruct (Z.eqb_spec (buffidx l) RGZ_BACKGROUND_BUFFIDX); [done|].
  destruct Hid as [->|]; [|done]. rewrite Z.eqb_refl. simpl.
  by destruct (buffidx l =? RGZ_CLEARHINT_BUFFIDX).
Qed.

Lemma holds_prev A prev cur i l :
  distinct A -> holds A prev -> holds A cur -> fb_layers cur !! i = Some l ->
  exists p, prev_layer prev i l = Some p /\ fb_layers prev !! i = Some p /\
    rgz_has_layer_content_changed l p = false.
Proof.
  intros Hd Hp Hc Hl. destruct (holds_lookup A cur prev i l Hc Hp Hl) as (p & Hpi & Hh & Hb & Hid).
  exists p. destruct Hc as (b & r & Hf & Hb' & Hbb & _). unfold prev_layer.
  destruct (Nat.eqb_spec i 0) as [->|Hi].
  - split; [done|]. split; [done|]. apply same_layer_unchanged; [done|done|].
    right. rewrite Hf in Hl. by injection Hl as <-.
  - split; [|split; [done|apply same_layer_unchanged; auto]].
    apply find_in_fb; [by eapply holds_ids| |by apply Hid].
    destruct i as [|i]; [done|]. apply list_elem_of_lookup. exists i. by rewrite lookup_drop.
Qed.

Lemma holds_target A target cur i l :
  distinct A -> holds A target -> holds A cur -> fb_layers cur !! S i = Some l ->
  exists t, target_layer target l = Some t /\ rgz_has_layer_frame_moved l t = false.
Proof.
  intros Hd Ht Hc Hl. destruct (holds_lookup A cur target (S i) l Hc Ht Hl) as (t & Hti & Hh & _ & Hid).
  exists t. specialize (Hid ltac:(done)). split.
  - apply find_in_fb; [by eapply holds_ids| |done].
    apply list_elem_of_lookup. exists i. by rewrite lookup_drop.
  - unfold rgz_has_layer_frame_moved. by rewrite Hid, Hh, !Z.eqb_refl.
Qed.

(** One more frame with the same layers, drawn into a target that holds them:
    nothing is damaged and the dirty counts go down. *)
Lemma idle_frame w h A prev target cur k :
  distinct A -> holds A prev -> holds A target -> holds A cur ->
  fb_sized prev -> fb_ok target -> fb_ok cur ->
  Forall (fun l => dirty_count l <= k) (fb_layers prev) ->
  exists cur', rgz_handle_dirty_region w h cur prev target = Some (cur', zero_rect) /\
    Forall (fun l => dirty_count l <= Z.max 0 (k - 1)) (fb_layers cur').
Proof.
  intros Hd Hp Ht Hc Hps Hto Hco Hk.
  destruct (fb_layers_dirty w h prev target cur) as (cur' & Hr & Hl & _); [by apply fb_sized_ok|done|done|].
  assert (Hadds : forall i l, fb_layers cur !! i = Some l -> layer_adds prev target i l = []).
  { intros i l Hi. unfold layer_adds.
    destruct (holds_prev A prev cur i l Hd Hp Hc Hi) as (p & -> & _ & _).
    destruct i as [|i]; [done|]. simpl.
    destruct (holds_target A target cur i l Hd Ht Hc Hi) as (t & -> & ->). done. }
  exists cur'. split.
  - rewrite Hr. do 2 f_equal. replace (damage_layers prev target cur) with (@nil rgz_layer_t); [done|].
    symmetry. unfold damage_layers. apply list.app_nil. split.
    + apply join_nil_2, Forall_lookup_2. intros i x Hx. rewrite list_lookup_imap in Hx.
      destruct (fb_layers cur !! i) as [l|] eqn:Hi; [|done]. injection Hx as <-. by apply Hadds.
    + destruct (filter _ _) as [|t ts] eqn:E; [done|exfalso].
      assert (Hin : t ∈ t :: ts) by (by apply elem_of_cons; left). rewrite <- E in Hin.
      apply list_elem_of_filter in Hin as [Hn Hin]. apply list_elem_of_lookup in Hin as [i Hi].
      rewrite lookup_drop in Hi.
      destruct (holds_lookup A target cur (1 + i) t Ht Hc Hi) as (l & Hli & _ & _ & Hid).
      rewrite (find_in_fb cur l) in Hn; [done|by eapply holds_ids| |by apply Hid].
      apply list_elem_of_lookup. exists i. by rewrite lookup_drop.
  - rewrite Hl. apply Forall_lookup_2. intros i l' Hi. unfold dirtied in Hi.
    rewrite list_lookup_imap in Hi. destruct (fb_layers cur !! i) as [l|] eqn:Hli; [|done].
    injection Hi as <-. unfold set_dirty, dirty_of, layer_changed. cbn [dirty_count].
    destruct (holds_prev A prev cur i l Hd Hp Hc Hli) as (p & -> & Hpi & ->). cbn [orb].
    assert (Hm : negb (i =? 0)%nat && match target_layer target l with
                 | Some t => rgz_has_layer_frame_moved l t | None => false end = false).
    { destruct i as [|i]; [done|]. simpl.
      by destruct (holds_target A target cur i l Hd Ht Hc Hli) as (t & -> & ->). }
    rewrite Hm. pose proof (Forall_lookup_1 _ _ _ _ Hk Hpi) as Hkp. simpl in Hkp.
    destruct (Z.eqb_spec (dirty_count p) 0); lia.
Qed.

Lemma accepted_buffidx p m ls :
  0 <= m -> Forall (fun a => a.2 <> RGZ_BACKGROUND_BUFFIDX) (accepted p m ls).
Proof.
  revert p m. induction ls as [|[l ident] ls IH]; intros p m Hm; simpl; [done|].
  destruct (is_framebuffer l); [destruct (is_valid l && _)|destruct (is_clear l && _)];
    try (by apply IH); (constructor; [|apply IH; lia]); simpl;
    unfold RGZ_BACKGROUND_BUFFIDX, RGZ_CLEARHINT_BUFFIDX; lia.
Qed.

Lemma accepted_distinct p layers :
  NoDup ((accepted_layers p layers).*1.*2) -> distinct (accepted_layers p layers).
Proof. intros Hn. split; [done|]. apply accepted_buffidx. unfold overlays. lia. Qed.

(** [n] frames with the same input. *)
Fixpoint run_checks (n : nat) (p : rgz_in_params) (rgz : rgz_t) : option rgz_t :=
  match n with
  | O => Some rgz
  | S n' =>
    let* (rv, rgz') := rgz_in_hwccheck hmem bg_layer p rgz in
    guard* rv =? RGZ_ALL in run_checks n' p rgz'
  end.

(** The state after [n + 1] frames with the same input. *)
Definition settled (A : list (hwc_layer_1_t * Z * Z)) (n : nat) (rgz : rgz_t) : Prop :=
  rgz_ok rgz /\
  (exists fb, fb_states rgz !! fb_state_idx rgz = Some fb /\ holds A fb /\
    fb_layers fb = fb_layers (cur_fb_state rgz) /\
    Forall (fun l => dirty_count l <= Z.max 0 (2 - Z.of_nat (n - 1))) (fb_layers fb)) /\
  ((1 <= n)%nat -> exists fb, fb_states rgz !! other_fb (fb_state_idx rgz) = Some fb /\ holds A fb) /\
  ((2 <= n)%nat -> damaged_area rgz = zero_rect).

Lemma other_other idx : (idx < RGZ_NUM_FB)%nat -> other_fb (other_fb idx) = idx /\ other_fb idx <> idx.
Proof. unfold RGZ_NUM_FB. intros Hi. destruct idx as [|[|]]; [done|done|lia]. Qed.

Lemma dirty_ok_bound fb : Forall dirty_ok (rgz_layers fb) -> Forall (fun l => dirty_count l <= 2) (fb_layers fb).
Proof.
  intros Hd. apply Forall_take. eapply Forall_impl; [|exact Hd]. unfold dirty_ok, RGZ_NUM_FB. intros l. lia.
Qed.

Lemma settled_step p rgz rgz' A n :
  distinct A -> settled A n rgz -> checked_state p rgz A rgz' -> settled A (S n) rgz'.
Proof.
  intros Hd (Hok & (fb & Hfb & Hh & Heq & Hdc) & Hother & _)
    (prev & target & target' & cur & Hprev & Htarget & Hcur & Hcok & Hdirty & Hc' & Hn' & Ht' & Hfs & Hidx & _ & Hok').
  rewrite Hfb in Hprev. injection Hprev as <-.
  pose proof Hok as (_ & Hlt & Hl2 & Hsz). destruct (other_other _ Hlt) as [Hoo Hon].
  assert (Hnew : fb_states rgz' !! fb_state_idx rgz' = Some target')
    by (rewrite Hfs, Hidx; apply list_lookup_insert_eq; rewrite Hl2; apply other_fb_lt).
  assert (Hold : fb_states rgz' !! other_fb (fb_state_idx rgz') = Some fb)
    by (rewrite Hfs, Hidx, Hoo, list_lookup_insert_ne by done; exact Hfb).
  assert (Hht : holds A target')
    by (destruct Hc' as (b & r & Hb & Hr); exists b, r; rewrite Ht'; by split).
  assert (Hidle : (1 <= n)%nat -> damaged_area rgz' = zero_rect /\
    Forall (fun l => dirty_count l <= Z.max 0 (Z.max 0 (2 - Z.of_nat (n - 1)) - 1))
           (fb_layers (cur_fb_state rgz'))).
  { intros Hn. destruct (Hother Hn) as (fb2 & Hfb2 & Hh2). rewrite Htarget in Hfb2. injection Hfb2 as <-.
    destruct (idle_frame (in_width p) (in_height p) A fb target cur _ Hd Hh Hh2 Hcur (Hsz _ _ Hfb)
      (fb_sized_ok _ (Hsz _ _ Htarget)) Hcok Hdc) as (cur' & Hr & Hk).
    rewrite Hdirty in Hr. injection Hr as -> ->. by split. }
  split; [done|]. split; [|split; [intros _; by exists fb|intros Hn; apply Hidle; lia]].
  exists target'. do 3 (split; [done|]). destruct n as [|n].
  - apply dirty_ok_bound. destruct Hok' as (_ & _ & _ & Hsz'). by destruct (Hsz' _ _ Hnew) as (_ & _ & ?).
  - rewrite Ht'. destruct Hidle as [_ Hk]; [lia|]. eapply Forall_impl; [|exact Hk].
    cbn beta. intros l. lia.
Qed.

Lemma settled_first rgz rgz' p A :
  rgz_ok rgz -> checked_state p rgz A rgz' -> settled A 0 rgz'.
Proof.
  intros (_ & _ & Hl2 & _) (prev & target & target' & cur & _ & _ & _ & _ & _ & Hh & _ & Ht & Hfs & Hi & _ & Hok').
  assert (Hnew : fb_states rgz' !! fb_state_idx rgz' = Some target')
    by (rewrite Hfs, Hi; apply list_lookup_insert_eq; rewrite Hl2; apply other_fb_lt).
  split; [done|]. split; [|split; intros; lia]. exists target'. split; [done|].
  split; [destruct Hh as (b & r & Hb & Hr); exists b, r; rewrite Ht; by split|]. split; [done|].
  apply dirty_ok_bound. destruct Hok' as (_ & _ & _ & Hsz). by destruct (Hsz _ _ Hnew) as (_ & _ & ?).
Qed.

Lemma settled_run p layers k m rgz :
  input_ok p layers -> all_accepted p layers = true -> distinct (accepted_layers p layers) ->
  settled (accepted_layers p layers) m rgz ->
  exists rgz', run_checks k p rgz = Some rgz' /\ settled (accepted_layers p layers) (k + m) rgz'.
Proof.
  intros Hin Hall Hd. revert m rgz. induction k as [|k IH]; intros m r Hs; [by exists r|]. simpl.
  destruct (hwccheck_accepts p layers r Hin (proj1 Hs) Hall) as (r1 & Hr1 & Hc).
  rewrite Hr1. simpl. destruct (IH (S m) r1) as (r2 & Hr2 & Hs2); [by eapply settled_step|].
  exists r2. split; [done|]. by replace (S (k + m)) with (k + S m)%nat by lia.
Qed.

Lemma settled_clean A n rgz :
  settled A (3 + n) rgz -> Forall (fun l => dirty_count l = 0) (fb_layers (cur_fb_state rgz)).
Proof.
  intros ((_ & _ & _ & Hsz) & (fb & Hfb & _ & Heq & Hdc) & _). rewrite <- Heq.
  apply Forall_lookup_2. intros i l Hl.
  pose proof (Forall_lookup_1 _ _ _ _ Hdc Hl) as Hle. cbn beta in Hle.
  destruct (Hsz _ _ Hfb) as (_ & _ & Hdk). apply (Forall_take _ (rgz_layerno fb)) in Hdk.
  pose proof (Forall_lookup_1 _ _ _ _ Hdk Hl) as Hge. unfold dirty_ok in Hge. lia.
Qed.

End HwcCheckSpec.

Section Claims.
Context `{HwcApi}.

(** C27: [rgz_in_hwccheck] never faults on a well-formed state, and accepts
    exactly the compositions that have a layer to blit and all of whose
    candidate layers (framebuffer layers and layers with the clear hint) were
    recorded.  When it accepts, the current state holds the background followed
    by those layers, in order and with their buffer indices, and is saved in the
    target framebuffer's state; when it refuses, the saved states and the
    damaged area are kept. *)
Theorem rgz_in_hwccheck_correct hmem bg_layer p layers rgz :
  input_ok hmem p layers -> rgz_ok rgz ->
  exists rgz', rgz_in_hwccheck hmem bg_layer p rgz =
      Some (if all_accepted hmem p layers then RGZ_ALL else -1, rgz') /\ rgz_ok rgz' /\
    (Z.land (state rgz') RGZ_STATE_INIT <> 0 <-> all_accepted hmem p layers = true) /\
    (all_accepted hmem p layers = true ->
       holds bg_layer (accepted_layers hmem p layers) (cur_fb_state rgz') /\
       fb_state_idx rgz' = other_fb (fb_state_idx rgz) /\
       exists target', fb_states rgz' = <[fb_state_idx rgz' := target']> (fb_states rgz) /\
         fb_layers target' = fb_layers (cur_fb_state rgz')) /\
    (all_accepted hmem p layers = false ->
       fb_states rgz' = fb_states rgz /\ fb_state_idx rgz' = fb_state_idx rgz /\
       damaged_area rgz' = damaged_area rgz).
Proof.
  intros Hin Hok. destruct (all_accepted hmem p layers) eqn:Hall.
  - destruct (hwccheck_accepts hmem bg_layer p layers rgz Hin Hok Hall)
      as (rgz' & Hr & prev & target & target' & cur & _ & _ & _ & _ & _ & Hh & _ & Ht & Hfs & Hi & Hinit & Hok').
    exists rgz'. split; [done|]. split; [done|]. split; [done|]. split; [|done].
    intros _. split; [done|]. split; [done|]. exists target'. by rewrite Hi.
  - destruct (hwccheck_refuses hmem bg_layer p layers rgz Hin Hok Hall)
      as (rgz' & Hr & Hinit & Hok' & Hrest).
    exists rgz'. split; [done|]. split; [done|]. split; [|by split].
    split; [by intros []|done].
Qed.

(** C25: a composition that stays the same settles: whatever the regionizer
    held before, after four or more frames with the same accepted layers
    nothing is damaged and no layer is marked for redrawing. *)
Theorem idle_composition_settles hmem bg_layer p layers rgz n :
  input_ok hmem p layers -> rgz_ok rgz -> all_accepted hmem p layers = true ->
  NoDup ((accepted_layers hmem p layers).*1.*2) -> (4 <= n)%nat ->
  exists rgz', run_checks hmem bg_layer n p rgz = Some rgz' /\
    damaged_area rgz' = zero_rect /\
    Forall (fun l => dirty_count l = 0) (fb_layers (cur_fb_state rgz')).
Proof.
  intros Hin Hok Hall Hnd Hn. pose proof (accepted_distinct hmem p layers Hnd) as Hd.
  destruct n as [|n]; [lia|]. simpl.
  destruct (hwccheck_accepts hmem bg_layer p layers rgz Hin Hok Hall) as (r0 & Hr0 & Hc).
  rewrite Hr0. simpl.
  destruct (settled_run hmem bg_layer p layers n 0 r0) as (r1 & Hr1 & Hs);
    [done|done|done|by eapply settled_first|].
  exists r1. split; [done|]. replace (n + 0)%nat with (3 + (n - 3))%nat in Hs by lia.
  split; [destruct Hs as (_ & _ & _ & Hdam); apply Hdam; lia|by eapply settled_clean].
Qed.

(** [rgz_in] with the operation RGZ_IN_HWC, from a well-formed state and
    an accepted composition of at most ten layers over a background that is the
    size of the screen, returns RGZ_ALL and leaves region data that is
    pixel-exact for the background and the accepted layers. *)
Lemma rgz_in_regionizes hmem bg_layer p layers rgz :
  in_op p = RGZ_IN_HWC -> input_ok hmem p layers -> rgz_ok rgz ->
  all_accepted hmem p layers = true ->
  (length (accepted_layers hmem p layers) < RGZ_INPUT_MAXLAYERS)%nat ->
  displayFrame bg_layer = mkRect 0 0 (in_width p) (in_height p) ->
  exists hs rgz', rgz_in hmem bg_layer true p rgz = Some (RGZ_ALL, rgz') /\
    hregions rgz' = Some hs /\
    holds bg_layer (accepted_layers hmem p layers) (cur_fb_state rgz') /\
    exact_regions (cur_fb_state rgz') (in_width p) (in_height p) hs.
Proof.
  intros Hop Hin Hok Hall Hlt Hbg.
  destruct (hwccheck_accepts hmem bg_layer p layers rgz Hin Hok Hall)
    as (rgz1 & Hr1 & prev & target & target' & cur & _ & _ & _ & _ & _ & Hh & Hn & _ & _ & _ & Hinit & Hok1).
  unfold rgz_in. rewrite Hop, Hr1. cbn [Z.eqb RGZ_IN_HWC RGZ_ALL Pos.eqb].
  destruct (rgz_in_hwc_exact (in_width p) (in_height p) rgz1) as (hs & rgz2 & Hr2 & Hhs & _ & Hc & _ & _ & Hex).
  - done.
  - destruct Hok1 as (Hl & _). unfold fb_wf. rewrite Hn, Hl.
    unfold RGZ_SUBREGIONMAX, RGZ_INPUT_MAXLAYERS, RGZ_MAXLAYERS in *. lia.
  - split; [lia|]. destruct Hh as (b & r & Hb & Hbl & _). unfold frame_of.
    assert (Hb0 : fb_layers (cur_fb_state rgz1) !! 0%nat = Some b) by by rewrite Hb.
    unfold fb_layers in Hb0. apply lookup_take_Some in Hb0 as [-> _]. by rewrite Hbl.
  - rewrite Hr2. exists hs, rgz2. split; [done|]. split; [done|]. rewrite Hc. by split.
Qed.

(** with eleven accepted layers, the most that [RGZ_INPUT_MAXLAYERS]
    admits, the layer check returns RGZ_ALL, but [rgz_in] with RGZ_IN_HWC
    returns 0, which is neither of the documented results RGZ_ALL and -1. *)
Lemma rgz_in_eleven_layers hmem bg_layer calloc_ok p layers rgz :
  in_op p = RGZ_IN_HWC -> input_ok hmem p layers -> rgz_ok rgz ->
  all_accepted hmem p layers = true ->
  length (accepted_layers hmem p layers) = RGZ_INPUT_MAXLAYERS ->
  exists rgz', rgz_in_hwccheck hmem bg_layer p rgz = Some (RGZ_ALL, rgz') /\
    rgz_in hmem bg_layer calloc_ok p rgz = Some (0, rgz').
Proof.
  intros Hop Hin Hok Hall Hlen.
  destruct (hwccheck_accepts hmem bg_layer p layers rgz Hin Hok Hall)
    as (rgz1 & Hr1 & prev & target & target' & cur & _ & _ & _ & _ & _ & _ & Hn & _ & _ & _ & Hinit & _).
  exists rgz1. split; [done|]. unfold rgz_in. rewrite Hop, Hr1.
  cbn [Z.eqb RGZ_IN_HWC RGZ_ALL Pos.eqb]. unfold rgz_in_hwc.
  rewrite (proj2 (Z.eqb_neq _ _) Hinit), Hn, Hlen. done.
Qed.

End Claims.

(** A platform with one buffer, at address 2, and inputs of [n] layers. *)
Definition sample_hmem (a : Z) : option IMG_native_handle_t :=
  if a =? 2 then Some (mkHandle 0 4 4 HAL_PIXEL_FORMAT_RGBA_8888) else None.
Definition sample_input (op : Z) (n : nat) : rgz_in_params :=
  mkInParams op (Some (replicate n (mkHwcLayer 0 0 0 2 0 0 (mkRect 0 0 4 4) (mkRect 2 2 6 6))))
             (map Z.of_nat (seq 1 n)) n 8 8.
Definition sample_bg_layer : hwc_layer_1_t := mkHwcLayer 0 0 0 0 0 0 zero_rect (mkRect 0 0 8 8).

Lemma zero_rgz_ok : rgz_ok zero_rgz.
Proof.
  split; [reflexivity|]. split; [vm_compute; lia|]. split; [reflexivity|].
  intros i fb Hi. apply lookup_replicate in Hi as [-> _].
  split; [reflexivity|]. split; [vm_compute; lia|].
  apply Forall_replicate. vm_compute. split; discriminate.
Qed.

Lemma sample_input_ok op n :
  input_ok sample_hmem (sample_input op n)
    (replicate n (mkHwcLayer 0 0 0 2 0 0 (mkRect 0 0 4 4) (mkRect 2 2 6 6))).
Proof.
  split; [done|]. unfold sample_input. cbn [in_layerno in_extlayers].
  split; [by rewrite length_replicate|]. split; [by rewrite length_map, length_seq|].
  unfold handles_ok, inputs. cbn [in_layerno in_extlayers].
  apply Forall_lookup_2. intros i [l ident] Hi. apply lookup_zip_Some in Hi as [Hi _].
  apply lookup_take_Some in Hi as [Hi _]. apply lookup_replicate in Hi as [-> _]. by eexists.
Qed.

Lemma rgz_in_hwccheck_correct_witness :
  exists rgz', rgz_in_hwccheck sample_hmem sample_bg_layer (sample_input 2 2) zero_rgz = Some (RGZ_ALL, rgz').
Proof.
  destruct (rgz_in_hwccheck_correct sample_hmem sample_bg_layer (sample_input 2 2) _ zero_rgz
              (sample_input_ok 2 2) zero_rgz_ok) as (rgz' & Hr & _).
  exists rgz'. exact Hr.
Defined.

Lemma idle_composition_settles_witness :
  exists rgz', run_checks sample_hmem sample_bg_layer 5 (sample_input 2 2) zero_rgz = Some rgz' /\
    damaged_area rgz' = zero_rect.
Proof.
  destruct (idle_composition_settles sample_hmem sample_bg_layer (sample_input 2 2) _ zero_rgz 5
              (sample_input_ok 2 2) zero_rgz_ok) as (rgz' & Hr & Hd & _).
  - reflexivity.
  - apply (bool_decide_unpack _). reflexivity.
  - lia.
  - exists rgz'. split; [exact Hr|exact Hd].
Defined.

Lemma rgz_in_regionizes_witness :
  exists hs rgz', rgz_in sample_hmem sample_bg_layer true (sample_input 2 2) zero_rgz = Some (RGZ_ALL, rgz') /\
    hregions rgz' = Some hs.
Proof.
  destruct (rgz_in_regionizes sample_hmem sample_bg_layer (sample_input 2 2) _ zero_rgz eq_refl
              (sample_input_ok 2 2) zero_rgz_ok) as (hs & rgz' & Hr & Hh & _).
  - reflexivity.
  - vm_compute. lia.
  - reflexivity.
  - exists hs, rgz'. split; [exact Hr|exact Hh].
Defined.

Lemma rgz_in_eleven_layers_witness :
  exists rgz', rgz_in sample_hmem sample_bg_layer true (sample_input 2 11) zero_rgz = Some (0, rgz').
Proof.
  destruct (rgz_in_eleven_layers sample_hmem sample_bg_layer true (sample_input 2 11) _ zero_rgz eq_refl
              (sample_input_ok 2 11) zero_rgz_ok) as (rgz' & _ & Hr).
  - reflexivity.
  - reflexivity.
  - exists rgz'. exact Hr.
Defined.
