(* ===== verification/RgzBlit.v ===== *)
(** Blit generation of the 2D regionizer (src/hwc/rgz_2d.c): the BltsVille
    entries for a subregion ([rgz_hwc_subregion_blit]), for the whole screen by
    regions ([rgz_out_region]) and layer by layer ([rgz_out_bvcmd_paint]).

    The stateful functions write entries into the array of [RGZ_MAX_BLITS]
    slots; [subregion_plan] is the list of entries a subregion needs.  The
    theorems say that the former writes the latter, that executing it composites
    the layers as painting them from back to front does, and when the array is
    exhausted.  The direct-blit operations (which call the BltsVille library and
    read the parameters through another member of their union) are not
    modelled. *)

From Stdlib Require Import ZArith Lia Sorting.Sorted.
From stdpp Require Import base list list_numbers option tactics.
From S2P Require Import Prelude RgzSort RgzGeometry RgzRegion RgzState.

(** * BltsVille *)

(** The constants of the BltsVille and omap_hwc headers, and the laws of the
    flag bits that the code relies on. *)
Class BvApi := {
  OCDFMT_UNKNOWN : Z; OCDFMT_BGRA24 : Z; OCDFMT_BGR124 : Z; OCDFMT_RGB16 : Z;
  OCDFMT_RGBA24 : Z; OCDFMT_RGB124 : Z; OCDFMT_NV12 : Z; OCDFMT_YV12 : Z;
  BVFLAG_ROP : Z; BVFLAG_BLEND : Z; BVFLAG_CLIP : Z; BVFLAG_ASYNC : Z;
  BVFLAG_HORZ_FLIP_SRC1 : Z; BVFLAG_VERT_FLIP_SRC1 : Z;
  BVFLAG_HORZ_FLIP_SRC2 : Z; BVFLAG_VERT_FLIP_SRC2 : Z;
  BVFLAG_BATCH_MASK : Z; BVFLAG_BATCH_BEGIN : Z; BVFLAG_BATCH_CONTINUE : Z; BVFLAG_BATCH_END : Z;
  BVBATCH_OP : Z; BVBATCH_SRC1 : Z; BVBATCH_SRC1RECT_ORIGIN : Z; BVBATCH_SRC1RECT_SIZE : Z;
  BVBATCH_SRC2 : Z; BVBATCH_SRC2RECT_ORIGIN : Z; BVBATCH_SRC2RECT_SIZE : Z;
  BVBATCH_DST : Z; BVBATCH_DSTRECT_ORIGIN : Z; BVBATCH_DSTRECT_SIZE : Z;
  BVBATCH_SCALE : Z; BVBATCH_CLIPRECT : Z;
  BVBLEND_SRC1OVER : Z; BVSCALE_9x9_TAP : Z; BVSCALE_BILINEAR : Z;
  HWC_BLT_DESC_FB_FN0 : Z;
  SIZEOF_bvbuffdesc : Z; SIZEOF_bvsurfgeom : Z; SIZEOF_bvbltparams : Z;
}.

(** Data *)

Record bvbuffdesc := mkDesc { d_structsize : Z; d_length : Z; d_auxptr : Z }.
Record bvrect := mkBvRect { b_left : Z; b_top : Z; b_width : Z; b_height : Z }.
Inductive bv_op := op_rop (rop : Z) | op_blend (blend : Z).
Record bvbltparams := mkBp {
  p_structsize : Z; p_flags : Z; p_op : bv_op; p_dstrect : bvrect; p_src1rect : bvrect;
  p_src2rect : bvrect; p_cliprect : bvrect; p_scalemode : Z; p_batchflags : Z }.
Record rgz_blt_entry := mkEntry {
  e_bp : bvbltparams; e_dstgeom : bvsurfgeom; e_src1desc : bvbuffdesc; e_src1geom : bvsurfgeom;
  e_src2desc : bvbuffdesc; e_src2geom : bvsurfgeom }.

Definition zero_bvrect := mkBvRect 0 0 0 0.
Definition zero_geom := mkGeom 0 0 0 0 0 0.
Definition zero_desc := mkDesc 0 0 0.
Definition zero_entry :=
  mkEntry (mkBp 0 0 (op_rop 0) zero_bvrect zero_bvrect zero_bvrect zero_bvrect 0 0)
          zero_geom zero_desc zero_geom zero_desc zero_geom.

(** Assignments to the fields of an entry. *)
Definition with_bp (f : bvbltparams -> bvbltparams) (e : rgz_blt_entry) : rgz_blt_entry :=
  mkEntry (f (e_bp e)) (e_dstgeom e) (e_src1desc e) (e_src1geom e) (e_src2desc e) (e_src2geom e).
Definition set_head (size flags : Z) (op : bv_op) (b : bvbltparams) : bvbltparams :=
  mkBp size flags op (p_dstrect b) (p_src1rect b) (p_src2rect b) (p_cliprect b)
       (p_scalemode b) (p_batchflags b).
Definition set_flags (flags : Z) (b : bvbltparams) : bvbltparams :=
  mkBp (p_structsize b) flags (p_op b) (p_dstrect b) (p_src1rect b) (p_src2rect b) (p_cliprect b)
       (p_scalemode b) (p_batchflags b).
Definition set_batchflags (x : Z) (b : bvbltparams) : bvbltparams :=
  mkBp (p_structsize b) (p_flags b) (p_op b) (p_dstrect b) (p_src1rect b) (p_src2rect b) (p_cliprect b)
       (p_scalemode b) x.
Definition set_scalemode (x : Z) (b : bvbltparams) : bvbltparams :=
  mkBp (p_structsize b) (p_flags b) (p_op b) (p_dstrect b) (p_src1rect b) (p_src2rect b) (p_cliprect b)
       x (p_batchflags b).
Definition set_dstrect (r : bvrect) (b : bvbltparams) : bvbltparams :=
  mkBp (p_structsize b) (p_flags b) (p_op b) r (p_src1rect b) (p_src2rect b) (p_cliprect b)
       (p_scalemode b) (p_batchflags b).
Definition set_cliprect (r : bvrect) (b : bvbltparams) : bvbltparams :=
  mkBp (p_structsize b) (p_flags b) (p_op b) (p_dstrect b) (p_src1rect b) (p_src2rect b) r
       (p_scalemode b) (p_batchflags b).
Definition set_srcrect (is_src2 : bool) (r : bvrect) (b : bvbltparams) : bvbltparams :=
  mkBp (p_structsize b) (p_flags b) (p_op b) (p_dstrect b)
       (if is_src2 then p_src1rect b else r) (if is_src2 then r else p_src2rect b) (p_cliprect b)
       (p_scalemode b) (p_batchflags b).
Definition set_dstgeom (g : bvsurfgeom) (e : rgz_blt_entry) : rgz_blt_entry :=
  mkEntry (e_bp e) g (e_src1desc e) (e_src1geom e) (e_src2desc e) (e_src2geom e).
Definition set_srcdesc (is_src2 : bool) (d : bvbuffdesc) (e : rgz_blt_entry) : rgz_blt_entry :=
  mkEntry (e_bp e) (e_dstgeom e) (if is_src2 then e_src1desc e else d) (e_src1geom e)
          (if is_src2 then d else e_src2desc e) (e_src2geom e).
Definition set_srcgeom (is_src2 : bool) (g : bvsurfgeom) (e : rgz_blt_entry) : rgz_blt_entry :=
  mkEntry (e_bp e) (e_dstgeom e) (e_src1desc e) (if is_src2 then e_src1geom e else g)
          (e_src2desc e) (if is_src2 then g else e_src2geom e).
Definition srcgeom (is_src2 : bool) (e : rgz_blt_entry) : bvsurfgeom :=
  if is_src2 then e_src2geom e else e_src1geom e.
Definition srcrect (is_src2 : bool) (e : rgz_blt_entry) : bvrect :=
  if is_src2 then p_src2rect (e_bp e) else p_src1rect (e_bp e).

(** The bvrect of a rectangle and back. *)
Definition bvrect_of (r : blit_rect_t) : bvrect := mkBvRect (r_left r) (r_top r) (WIDTH r) (HEIGHT r).
Definition rect_of (b : bvrect) : blit_rect_t :=
  mkRect (b_left b) (b_top b) (b_left b + b_width b) (b_top b + b_height b).

(** * Output parameters and the entry array *)

Definition RGZ_OUT_SVG : Z := 0.
Definition RGZ_OUT_BVCMD_PAINT : Z := 1.
Definition RGZ_OUT_BVCMD_REGION : Z := 2.

Record rgz_out_params := mkOutParams { out_op : Z; dstgeom : bvsurfgeom; noblend : bool }.

Definition IS_BVCMD (params : rgz_out_params) : bool :=
  (out_op params =? RGZ_OUT_BVCMD_REGION) || (out_op params =? RGZ_OUT_BVCMD_PAINT).

(** The global [blts] and the output fields of the parameters. *)
Record out_state := mkOut {
  bvcmds : list rgz_blt_entry; blts_idx : nat; out_blits : nat;
  out_hndls : list Z; cmdlen : nat }.

Definition rgz_blts_init (st : out_state) : out_state :=
  mkOut (replicate RGZ_MAX_BLITS zero_entry) 0 (out_blits st) (out_hndls st) (cmdlen st).

(** The slot's index and the state with it taken. *)
Definition rgz_blts_get (params : rgz_out_params) (st : out_state) : nat * out_state :=
  if (blts_idx st <? RGZ_MAX_BLITS)%nat then
    (blts_idx st,
     mkOut (bvcmds st) (S (blts_idx st))
           (if IS_BVCMD params then S (out_blits st) else out_blits st) (out_hndls st) (cmdlen st))
  else ((blts_idx st - 1)%nat, st).

Definition upd_entry (i : nat) (f : rgz_blt_entry -> option rgz_blt_entry) (st : out_state)
    : option out_state :=
  let* e := bvcmds st !! i in
  let* e' := f e in
  Some (mkOut (<[i := e']> (bvcmds st)) (blts_idx st) (out_blits st) (out_hndls st) (cmdlen st)).

Section Blits.
Context `{HwcApi} `{BvApi}.
Variable hmem : Z -> option IMG_native_handle_t.

(** * Formats and flags *)

Definition hal_to_ocd (color : Z) : Z :=
  if color =? HAL_PIXEL_FORMAT_BGRA_8888 then OCDFMT_BGRA24
  else if color =? HAL_PIXEL_FORMAT_BGRX_8888 then OCDFMT_BGR124
  else if color =? HAL_PIXEL_FORMAT_RGB_565 then OCDFMT_RGB16
  else if color =? HAL_PIXEL_FORMAT_RGBA_8888 then OCDFMT_RGBA24
  else if color =? HAL_PIXEL_FORMAT_RGBX_8888 then OCDFMT_RGB124
  else if color =? HAL_PIXEL_FORMAT_TI_NV12 then OCDFMT_NV12
  else if color =? HAL_PIXEL_FORMAT_YV12 then OCDFMT_YV12
  else OCDFMT_UNKNOWN.

Definition HW_ALIGN : Z := 32.
Definition ALIGN (x a : Z) : Z := Z.land (x + a - 1) (Z.lnot (a - 1)).

Definition rgz_handle_to_stride (h : IMG_native_handle_t) : Z :=
  let bpp := if is_NV12 (iFormat h) then 0
             else if iFormat h =? HAL_PIXEL_FORMAT_RGB_565 then 2 else 4 in
  ALIGN (iWidth h) HW_ALIGN * bpp.

Definition rgz_get_flip_flags (transform : Z) (use_src2_flags : bool) : Z :=
  let flip_flags :=
    if has_flag transform HWC_TRANSFORM_FLIP_H
    then (if use_src2_flags then BVFLAG_HORZ_FLIP_SRC2 else BVFLAG_HORZ_FLIP_SRC1) else 0 in
  if has_flag transform HWC_TRANSFORM_FLIP_V
  then if negb (flip_flags =? 0) then 0
       else Z.lor flip_flags
              (if use_src2_flags then BVFLAG_VERT_FLIP_SRC2 else BVFLAG_VERT_FLIP_SRC1)
  else flip_flags.

Definition rgz_set_async (async : bool) (e : rgz_blt_entry) : rgz_blt_entry :=
  let f := p_flags (e_bp e) in
  with_bp (set_flags (if async then Z.lor f BVFLAG_ASYNC else Z.land f (Z.lnot BVFLAG_ASYNC))) e.

Definition rgz_is_layer_nv12 (layer : hwc_layer_1_t) : option bool :=
  let* h := hmem (handle layer) in Some (is_NV12 (iFormat h)).

Definition rgz_cfg_scale_mode (layer : hwc_layer_1_t) (e : rgz_blt_entry) : option rgz_blt_entry :=
  let* nv12 := rgz_is_layer_nv12 layer in
  Some (with_bp (set_scalemode (if nv12 then BVSCALE_9x9_TAP else BVSCALE_BILINEAR)) e).

(** * Geometry of an entry *)

Definition swap_geom (g : bvsurfgeom) : bvsurfgeom :=
  mkGeom (g_structsize g) (g_format g) (g_height g) (g_width g) (g_orientation g) (g_virtstride g).

Definition rgz_rotate_dst (dst_orientation : Z) (e : rgz_blt_entry) : rgz_blt_entry :=
  let g := e_dstgeom e in
  let dstgeom_r := mkRect 0 0 (g_width g) (g_height g) in
  let dstrect_r := rect_of (p_dstrect (e_bp e)) in
  let cliprect_r := rect_of (p_cliprect (e_bp e)) in
  let res := rgz_get_rotated_view dstgeom_r dstrect_r zero_rect dst_orientation in
  let res' := rgz_get_rotated_view dstgeom_r cliprect_r res dst_orientation in
  let e := with_bp (set_cliprect (bvrect_of res')) (with_bp (set_dstrect (bvrect_of res)) e) in
  if negb (Z.rem dst_orientation 180 =? 0) then set_dstgeom (swap_geom g) e else e.

Definition rgz_set_dst_data (params : rgz_out_params) (subregion_rect : blit_rect_t)
    (dst_orientation : Z) (e : rgz_blt_entry) : rgz_blt_entry :=
  let screen_geom := dstgeom params in
  let e := set_dstgeom (mkGeom SIZEOF_bvsurfgeom (g_format screen_geom) (g_width screen_geom)
                               (g_height screen_geom) dst_orientation (g_virtstride screen_geom)) e in
  let e := with_bp (set_dstrect (bvrect_of subregion_rect)) e in
  if negb (dst_orientation =? 0) then rgz_rotate_dst dst_orientation e else e.

Definition rgz_rotate_src (src_orientation : Z) (is_src2 : bool) (e : rgz_blt_entry) : rgz_blt_entry :=
  let g := srcgeom is_src2 e in
  let srcgeom_r := mkRect 0 0 (g_width g) (g_height g) in
  let srcrect_r := rect_of (srcrect is_src2 e) in
  let res := rgz_get_rotated_view srcgeom_r srcrect_r zero_rect src_orientation in
  let e := with_bp (set_srcrect is_src2 (bvrect_of res)) e in
  if negb (Z.rem src_orientation 180 =? 0) then set_srcgeom is_src2 (swap_geom g) e else e.

Definition rgz_set_src_data (rgz_layer : rgz_layer_t) (subregion_rect : blit_rect_t)
    (src_orientation : Z) (is_src2 : bool) (e : rgz_blt_entry) : option rgz_blt_entry :=
  let layer := hwc_layer rgz_layer in
  let* h := hmem (handle layer) in
  let e := set_srcdesc is_src2
             (mkDesc SIZEOF_bvbuffdesc (iHeight h * rgz_handle_to_stride h) (buffidx rgz_layer)) e in
  let g orient := mkGeom SIZEOF_bvsurfgeom (hal_to_ocd (iFormat h)) (iWidth h) (iHeight h) orient
                         (rgz_handle_to_stride h) in
  let e := with_bp (set_srcrect is_src2 (bvrect_of (rgz_get_src_rect layer subregion_rect zero_rect))) e in
  if negb (src_orientation =? 0)
  then Some (rgz_rotate_src src_orientation is_src2 (set_srcgeom is_src2 (g src_orientation) e))
  else Some (set_srcgeom is_src2 (g 0) e).

(** [min] of an unsigned and a signed operand compares them as unsigned. *)
Definition umin (a b : Z) : Z := if u32 a <? u32 b then a else b.

Definition rgz_set_clip_rect (params : rgz_out_params) (subregion_rect : blit_rect_t)
    (e : rgz_blt_entry) : rgz_blt_entry :=
  let g := dstgeom params in
  let clip := mkRect (Z.max 0 (r_left subregion_rect)) (Z.max 0 (r_top subregion_rect))
                     (umin (g_width g) (r_right subregion_rect))
                     (umin (g_height g) (r_bottom subregion_rect)) in
  with_bp (set_cliprect (bvrect_of clip)) e.

(** The length of src2desc is not assigned. *)
Definition rgz_set_src2_is_dst (e : rgz_blt_entry) : rgz_blt_entry :=
  let e := set_srcgeom true (e_dstgeom e) e in
  let e := set_srcdesc true (mkDesc SIZEOF_bvbuffdesc (d_length (e_src2desc e)) HWC_BLT_DESC_FB_FN0) e in
  with_bp (set_srcrect true (p_dstrect (e_bp e))) e.

(** * Entries *)

(** The part that copying and blending share: the rectangle that is drawn
    (the whole display frame of a scaled layer), the scaling mode, the
    orientations, and the source, clipping and destination data. *)
Definition draw_src1 (params : rgz_out_params) (subregion_rect : blit_rect_t)
    (rgz_src1 : rgz_layer_t) (e : rgz_blt_entry) : option rgz_blt_entry :=
  let hwc_src1 := hwc_layer rgz_src1 in
  let* (tmp_rect, e) :=
    if rgz_hwc_scaled hwc_src1 then
      let* e := rgz_cfg_scale_mode hwc_src1 e in
      Some (rgz_get_displayframe_rect hwc_src1, e)
    else Some (subregion_rect, e) in
  let* nv12 := rgz_is_layer_nv12 hwc_src1 in
  let o := rgz_get_orientation (transform hwc_src1) in
  let '(src1_orientation, dst_orientation) := if nv12 then (0, 360 - o) else (o, 0) in
  let* e := rgz_set_src_data rgz_src1 tmp_rect src1_orientation false e in
  Some (rgz_set_dst_data params tmp_rect dst_orientation
          (rgz_set_clip_rect params subregion_rect e)).

Definition copy_entry (params : rgz_out_params) (subregion_rect : blit_rect_t)
    (rgz_src1 : rgz_layer_t) (e : rgz_blt_entry) : option rgz_blt_entry :=
  let fl := Z.lor (Z.lor BVFLAG_CLIP BVFLAG_ROP)
                  (rgz_get_flip_flags (transform (hwc_layer rgz_src1)) false) in
  let e := rgz_set_async true (with_bp (set_head SIZEOF_bvbltparams fl (op_rop 0xCCCC)) e) in
  let* e := draw_src1 params subregion_rect rgz_src1 e in
  let f := g_format (e_src1geom e) in
  let g := e_dstgeom e in
  Some (if (f =? OCDFMT_BGR124) || (f =? OCDFMT_RGB124) || (f =? OCDFMT_RGB16)
        then set_dstgeom (mkGeom (g_structsize g) OCDFMT_BGR124 (g_width g) (g_height g)
                                 (g_orientation g) (g_virtstride g)) e
        else e).

Definition blend_entry (params : rgz_out_params) (subregion_rect : blit_rect_t)
    (rgz_src1 : rgz_layer_t) (rgz_src2 : option rgz_layer_t) (e : rgz_blt_entry)
    : option rgz_blt_entry :=
  let fl := Z.lor (Z.lor BVFLAG_CLIP BVFLAG_BLEND)
                  (rgz_get_flip_flags (transform (hwc_layer rgz_src1)) false) in
  let e := rgz_set_async true
             (with_bp (set_head SIZEOF_bvbltparams fl (op_blend BVBLEND_SRC1OVER)) e) in
  let* e := draw_src1 params subregion_rect rgz_src1 e in
  match rgz_src2 with
  | Some s2 =>
    let hwc_src2 := hwc_layer s2 in
    let* _ := rgz_is_layer_nv12 hwc_src2 in
    let e := with_bp (fun b => set_flags (Z.lor (p_flags b) (rgz_get_flip_flags (transform hwc_src2) true)) b) e in
    rgz_set_src_data s2 subregion_rect (rgz_get_orientation (transform hwc_src2)) true e
  | None => Some (rgz_set_src2_is_dst e)
  end.

Definition clrdst_entry (params : rgz_out_params) (rect : option blit_rect_t) (e : rgz_blt_entry)
    : rgz_blt_entry :=
  let e := rgz_set_async true
    (with_bp (set_head SIZEOF_bvbltparams (Z.lor BVFLAG_CLIP BVFLAG_ROP) (op_rop 0xCCCC)) e) in
  let e := set_srcdesc false (mkDesc SIZEOF_bvbuffdesc 4 (-1)) e in
  let e := set_srcgeom false (mkGeom SIZEOF_bvsurfgeom OCDFMT_RGBA24 1 1 0 (g_virtstride (e_src1geom e))) e in
  let e := with_bp (set_srcrect false (mkBvRect 0 0 1 1)) e in
  let clear_rect :=
    match rect with
    | Some r => mkRect (r_left r) (r_top r) (r_right r) (r_bottom r)
    | None => mkRect 0 0 (g_width (dstgeom params)) (g_height (dstgeom params))
    end in
  rgz_set_dst_data params clear_rect 0 (rgz_set_clip_rect params clear_rect e).

Definition rgz_batch_entry (flag set : Z) (e : rgz_blt_entry) : rgz_blt_entry :=
  with_bp (fun b => set_batchflags (Z.lor (p_batchflags b) set)
                      (set_flags (Z.lor (Z.land (p_flags b) (Z.lnot BVFLAG_BATCH_MASK)) flag) b)) e.

Definition emit (params : rgz_out_params) (f : rgz_blt_entry -> option rgz_blt_entry)
    (st : out_state) : option (nat * out_state) :=
  let '(i, st) := rgz_blts_get params st in
  let* st := upd_entry i f st in
  Some (i, st).

Definition rgz_hwc_subregion_copy params subregion_rect rgz_src1 :=
  emit params (copy_entry params subregion_rect rgz_src1).
Definition rgz_hwc_subregion_blend params subregion_rect rgz_src1 rgz_src2 :=
  emit params (blend_entry params subregion_rect rgz_src1 rgz_src2).
Definition rgz_out_clrdst params rect := emit params (fun e => Some (clrdst_entry params rect e)).

(** * Walking the layers of a subregion *)

(** The loop of [get_top_rect] from layer [l] down; [None] is the index -1. *)
Fixpoint get_top_from (h : blit_hregion_t) (subregion l : nat) : option (option nat * blit_rect_t) :=
  let* r := blitrect_at h l subregion in
  if negb (empty_rect r) then Some (Some l, r)
  else match l with O => Some (None, r) | S l' => get_top_from h subregion l' end.

Definition get_top_rect (h : blit_hregion_t) (subregion : nat) : option (option nat * blit_rect_t) :=
  match nlayers h with O => None | S l => get_top_from h subregion l end.

(** The layer hides what is behind it. *)
Definition layer_stops (layer : hwc_layer_1_t) : option bool :=
  if negb (blending layer =? HWC_BLENDING_PREMULT) then Some true
  else let* hd := hmem (handle layer) in Some (is_OPAQUE (iFormat hd)).

Fixpoint get_layer_ops_from (layers : list rgz_layer_t) (h : blit_hregion_t) (subregion l ops : nat)
    (bottom : option nat) : option (nat * option nat) :=
  let* r := blitrect_at h l subregion in
  let continue ops bottom :=
    match l with
    | O => Some (ops, bottom)
    | S l' => get_layer_ops_from layers h subregion l' ops bottom
    end in
  if negb (empty_rect r) then
    let* layer := layer_at layers h l in
    let* stop := layer_stops (hwc_layer layer) in
    if stop then Some (S ops, Some l) else continue (S ops) (Some l)
  else continue ops bottom.

Definition get_layer_ops (layers : list rgz_layer_t) (h : blit_hregion_t) (subregion : nat)
    : option (nat * option nat) :=
  match nlayers h with O => None | S l => get_layer_ops_from layers h subregion l 0 None end.

(** The loop of [get_layer_ops_next] at layer [l], with [n] layers left. *)
Fixpoint next_from (h : blit_hregion_t) (subregion l n : nat) : option (option nat) :=
  match n with
  | O => Some None
  | S n' =>
    let* r := blitrect_at h l subregion in
    if negb (empty_rect r) then Some (Some l) else next_from h subregion (S l) n'
  end.
Definition get_layer_ops_next (h : blit_hregion_t) (subregion l : nat) : option (option nat) :=
  next_from h subregion (S l) (nlayers h - S l).

Definition rgz_can_blend_together (src1 src2 : hwc_layer_1_t) : option bool :=
  if rgz_hwc_scaled src1 || rgz_hwc_scaled src2 then Some false
  else
    let* h1 := hmem (handle src1) in
    let* h2 := hmem (handle src2) in
    Some (negb (is_NV12 (iFormat h1) || is_NV12 (iFormat h2))).

(** The loop that looks for a dirty layer, from layer [lix] up. *)
Fixpoint find_dirty (layers : list rgz_layer_t) (h : blit_hregion_t) (sidx : nat) (lix : option nat)
    (fuel : nat) : option bool :=
  match lix with
  | None => Some false
  | Some l =>
    match fuel with
    | O => None
    | S fuel' =>
      let* layer := layer_at layers h l in
      if negb (dirty_count layer =? 0) then Some true
      else
        let* next := get_layer_ops_next h sidx l in
        find_dirty layers h sidx next fuel'
    end
  end.

(** * A subregion *)

Definition BATCH_FIRST : Z := Z.lor (Z.lor BVBATCH_SRC2 BVBATCH_SRC2RECT_ORIGIN) BVBATCH_SRC2RECT_SIZE.
Definition BATCH_SRC1 : Z := Z.lor (Z.lor BVBATCH_SRC1 BVBATCH_SRC1RECT_ORIGIN) BVBATCH_SRC1RECT_SIZE.
Definition BATCH_SCALED : Z :=
  Z.lor (Z.lor (Z.lor (Z.lor BVBATCH_DSTRECT_ORIGIN BVBATCH_DSTRECT_SIZE)
    BVBATCH_SRC2RECT_ORIGIN) BVBATCH_SRC2RECT_SIZE) BVBATCH_SCALE.
Definition BATCH_NV12 : Z :=
  Z.lor (Z.lor (Z.lor (Z.lor (Z.lor (Z.lor BVBATCH_DST BVBATCH_DSTRECT_ORIGIN) BVBATCH_DSTRECT_SIZE)
    BVBATCH_SRC2) BVBATCH_SRC2RECT_ORIGIN) BVBATCH_SRC2RECT_SIZE) BVBATCH_CLIPRECT.

Definition batch_of (first : Z) (cur_scaled prev_scaled cur_nv12 prev_nv12 : bool) : Z :=
  let b := Z.lor first BATCH_SRC1 in
  let b := if cur_scaled || prev_scaled then Z.lor b BATCH_SCALED else b in
  if cur_nv12 || prev_nv12 then Z.lor b BATCH_NV12 else b.

Section Subregion.
Variables (layers : list rgz_layer_t) (params : rgz_out_params) (hregion : blit_hregion_t) (sidx : nat).

(** The loop over the layers above the first blit, from layer [lix] on; the
    result is the slot of the last entry. *)
Fixpoint blend_rest (rect : blit_rect_t) (lix : option nat) (first : Z) (prev_scaled prev_nv12 : bool)
    (e : nat) (st : out_state) (fuel : nat) : option (nat * out_state) :=
  match lix with
  | None => Some (e, st)
  | Some l =>
    match fuel with
    | O => None
    | S fuel' =>
      let* src1 := layer_at layers hregion l in
      let* (e, st) := rgz_hwc_subregion_blend params rect src1 None st in
      let cur_scaled := rgz_hwc_scaled (hwc_layer src1) in
      let* cur_nv12 := rgz_is_layer_nv12 (hwc_layer src1) in
      let* st := upd_entry e (fun x => Some (rgz_batch_entry BVFLAG_BATCH_CONTINUE
                   (batch_of first cur_scaled prev_scaled cur_nv12 prev_nv12) x)) st in
      let* next := get_layer_ops_next hregion sidx l in
      blend_rest rect next 0 cur_scaled cur_nv12 e st fuel'
    end
  end.

(** The branch that blends: the first blit draws the two bottom layers or
    copies the bottom one; the others follow in a batch. *)
Definition blend_layers (lix : nat) (st : out_state) : option out_state :=
  let* rect := blitrect_at hregion lix sidx in
  let* next := get_layer_ops_next hregion sidx lix in
  let* l1 := next in
  let* src1 := layer_at layers hregion l1 in
  let* src2 := layer_at layers hregion lix in
  let* together := rgz_can_blend_together (hwc_layer src1) (hwc_layer src2) in
  let* (lix, e, st, first, scaled, nv12) :=
    if together then
      let* (e, st) := rgz_hwc_subregion_blend params rect src1 (Some src2) st in
      Some (l1, e, st, BATCH_FIRST, false, false)
    else
      let* (e, st) := rgz_hwc_subregion_copy params rect src2 st in
      let* nv12 := rgz_is_layer_nv12 (hwc_layer src2) in
      Some (lix, e, st, Z.lor BVBATCH_OP BATCH_FIRST, rgz_hwc_scaled (hwc_layer src2), nv12) in
  let* st := upd_entry e (fun x => Some (rgz_batch_entry BVFLAG_BATCH_BEGIN 0 x)) st in
  let* next := get_layer_ops_next hregion sidx lix in
  let* (e, st) := blend_rest rect next first scaled nv12 e st (nlayers hregion) in
  upd_entry e (fun x =>
    Some (if negb (Z.land (p_flags (e_bp x)) BVFLAG_BATCH_BEGIN =? 0)
          then rgz_batch_entry 0 0 x else rgz_batch_entry BVFLAG_BATCH_END 0 x)) st.

(** The branch that copies the only layer, or the top one when blending is
    disabled. *)
Definition copy_layer (lix : nat) (st : out_state) : option out_state :=
  let* rect := blitrect_at hregion lix sidx in
  let* (lix, rect) :=
    if noblend params then
      let* (l, r) := get_top_rect hregion sidx in let* l := l in Some (l, r)
    else Some (lix, rect) in
  let* src1 := layer_at layers hregion lix in
  let* (_, st) := rgz_hwc_subregion_copy params rect src1 st in
  Some st.

(** What happens from the bottom layer [lix] with [ldepth] layers to draw:
    the background and a layer with the clear hint are left out, or cleared when
    nothing is above them. *)
Definition draw_subregion (ldepth lix : nat) (st : out_state) : option out_state :=
  let clear lix st :=
    let* r := blitrect_at hregion lix sidx in
    let* (_, st) := rgz_out_clrdst params (Some r) st in Some st in
  let next lix := let* n := get_layer_ops_next hregion sidx lix in n in
  let* bottom := layer_at layers hregion lix in
  if (buffidx bottom =? RGZ_BACKGROUND_BUFFIDX) && (ldepth =? 1)%nat then clear lix st
  else
    let* (ldepth, lix) :=
      if buffidx bottom =? RGZ_BACKGROUND_BUFFIDX
      then let* l := next lix in Some ((ldepth - 1)%nat, l)
      else Some (ldepth, lix) in
    let* bottom := layer_at layers hregion lix in
    if (buffidx bottom =? RGZ_CLEARHINT_BUFFIDX) && (ldepth =? 1)%nat then clear lix st
    else
      let* (ldepth, lix) :=
        if buffidx bottom =? RGZ_CLEARHINT_BUFFIDX
        then let* l := next lix in Some ((ldepth - 1)%nat, l)
        else Some (ldepth, lix) in
      if negb (noblend params) && (1 <? ldepth)%nat then blend_layers lix st else copy_layer lix st.

(** [rgz_hwc_subregion_blit]: the result and the state. *)
Definition rgz_hwc_subregion_blit (damaged_area : blit_rect_t) (st : out_state)
    : option (Z * out_state) :=
  let* (ldepth, lix) := get_layer_ops layers hregion sidx in
  if (ldepth =? 0)%nat then Some (-1, st)
  else
    let* lix := lix in
    let* subregion_rect := blitrect_at hregion lix sidx in
    let* dirty :=
      if RECT_INTERSECTS damaged_area subregion_rect then Some true
      else find_dirty layers hregion sidx (Some lix) (nlayers hregion) in
    if negb dirty then Some (0, st)
    else let* st := draw_subregion ldepth lix st in Some (0, st).

End Subregion.

(** * The whole output *)

(** The handles of the layers above the background, in order, without those
    that have the clear hint. *)
Definition push_handles (cur : rgz_fb_state_t) : option (list Z) :=
  for_range 1 (rgz_layerno cur - 1)
    (fun j hs => let* l := rgz_layers cur !! j in
       if buffidx l =? -1 then Some hs
       else arr_push RGZ_INPUT_MAXLAYERS hs (handle (hwc_layer l))) [].

(** The subregions of a region: the first failure returns -1. *)
Fixpoint region_blits (layers : list rgz_layer_t) (params : rgz_out_params) (h : blit_hregion_t)
    (damaged : blit_rect_t) (s n : nat) (st : out_state) : option (Z * out_state) :=
  match n with
  | O => Some (0, st)
  | S n' =>
    let* (rv, st) := rgz_hwc_subregion_blit layers params h s damaged st in
    if negb (rv =? 0) then Some (-1, st)
    else region_blits layers params h damaged (S s) n' st
  end.

Fixpoint regions_blits (layers : list rgz_layer_t) (params : rgz_out_params) (damaged : blit_rect_t)
    (hs : list blit_hregion_t) (st : out_state) : option (Z * out_state) :=
  match hs with
  | [] => Some (0, st)
  | h :: hs' =>
    if (nlayers h =? 0)%nat then Some (-1, st)
    else
      let* (rv, st) := region_blits layers params h damaged 0 (nsubregions h) st in
      if negb (rv =? 0) then Some (-1, st)
      else regions_blits layers params damaged hs' st
  end.

(** The end of both output operations: the last blit is made synchronous. *)
Definition finish (st : out_state) : option out_state :=
  upd_entry (blts_idx st - 1) (fun e => Some (rgz_set_async false e)) st.

Definition set_handles (hs : list Z) (st : out_state) : out_state :=
  mkOut (bvcmds st) (blts_idx st) (out_blits st) hs (cmdlen st).
Definition set_out_blits (n : nat) (st : out_state) : out_state :=
  mkOut (bvcmds st) (blts_idx st) n (out_hndls st) (cmdlen st).
Definition set_cmdlen (st : out_state) : out_state :=
  mkOut (bvcmds st) (blts_idx st) (out_blits st) (out_hndls st) (blts_idx st).
Definition out_rv (st : out_state) : Z := if (RGZ_MAX_BLITS <=? out_blits st)%nat then -1 else 0.

(** [rgz_out_region] for the operation that writes commands. *)
Definition rgz_out_region (rgz : rgz_t) (params : rgz_out_params) (st : out_state)
    : option (Z * out_state) :=
  if Z.land (state rgz) RGZ_REGION_DATA =? 0 then Some (-1, st)
  else
    let st := set_out_blits 0 (rgz_blts_init st) in
    let* hs := hregions rgz in
    let cur := cur_fb_state rgz in
    let* (rv, st) := regions_blits (rgz_layers cur) params (damaged_area rgz)
                                   (take (nhregions rgz) hs) st in
    if negb (rv =? 0) then Some (-1, st)
    else
      let* hndls := push_handles cur in
      let st := set_handles hndls st in
      let* st := if (0 <? blts_idx st)%nat then finish st else Some st in
      let st := set_cmdlen st in
      Some (out_rv st, st).

Definition rgz_hwc_layer_blit (params : rgz_out_params) (rgz_layer : rgz_layer_t) (st : out_state)
    : option (Z * out_state) :=
  let layer := hwc_layer rgz_layer in
  let srcregion := rgz_get_displayframe_rect layer in
  let* (_, st) :=
    if negb (noblend params) && (blending layer =? HWC_BLENDING_PREMULT)
    then rgz_hwc_subregion_blend params srcregion rgz_layer None st
    else rgz_hwc_subregion_copy params srcregion rgz_layer st in
  Some (0, st).

Definition rgz_out_bvcmd_paint (rgz : rgz_t) (params : rgz_out_params) (st : out_state)
    : option (Z * out_state) :=
  let st := rgz_blts_init (set_out_blits 0 st) in
  let* (_, st) := rgz_out_clrdst params None st in
  let cur := cur_fb_state rgz in
  let* (st, hs) :=
    for_range 1 (rgz_layerno cur - 1)
      (fun i '(st, hs) =>
         let* rgz_layer := rgz_layers cur !! i in
         let l := hwc_layer rgz_layer in
         if buffidx rgz_layer =? -1 then
           let g := dstgeom params in
           let f := displayFrame l in
           let r := mkRect (Z.max 0 (r_left f)) (Z.max 0 (r_top f))
                           (umin (g_width g) (r_right f)) (umin (g_height g) (r_bottom f)) in
           let* (_, st) := rgz_out_clrdst params (Some r) st in
           Some (st, hs)
         else
           let* (_, st) := rgz_hwc_layer_blit params rgz_layer st in
           let* hs := arr_push RGZ_INPUT_MAXLAYERS hs (handle l) in
           Some (st, hs)) (st, []) in
  let* st := finish (set_handles hs st) in
  let st := set_cmdlen st in
  Some (out_rv st, st).

End Blits.

(** * Walking the layers: specification *)

Section Walk.
Context `{HwcApi} `{BvApi}.
Variable hmem : Z -> option IMG_native_handle_t.
Variables (layers : list rgz_layer_t) (h : blit_hregion_t) (s : nat).

(** The rectangle of layer [l] is not empty. *)
Definition drawn (l : nat) : bool :=
  match blitrect_at h l s with Some r => negb (empty_rect r) | None => false end.

(** The drawn layers from [lo] to [lo + n]. *)
Definition column (lo n : nat) : list nat := filter (fun l => drawn l = true) (seq lo n).

Definition stops (l : nat) : bool :=
  match layer_at layers h l with
  | Some x => default true (layer_stops hmem (hwc_layer x))
  | None => true
  end.

(** The layers that can be seen: those from the last one that hides what is
    behind it. *)
Fixpoint visible (P : list nat) : list nat :=
  match P with
  | [] => []
  | l :: r => if existsb stops r then visible r else l :: r
  end.

Hypothesis Hrect : forall l, (l < nlayers h)%nat -> is_Some (blitrect_at h l s).
Hypothesis Hlayer : forall l, (l < nlayers h)%nat -> drawn l = true ->
  exists x, layer_at layers h l = Some x /\ is_Some (layer_stops hmem (hwc_layer x)).

Lemma visible_snoc P l : visible (P ++ [l]) = if stops l then [l] else visible P ++ [l].
Proof using Type.
  induction P as [|p P IH]; simpl; [by destruct (stops l)|].
  rewrite existsb_app, IH. simpl. rewrite orb_false_r.
  destruct (stops l); [by rewrite orb_true_r|]. rewrite orb_false_r.
  by destruct (existsb stops P).
Qed.

Lemma column_cons lo n : column lo (S n) = (if drawn lo then [lo] else []) ++ column (S lo) n.
Proof using Type.
  unfold column. rewrite <- cons_seq, list.filter_cons. by destruct (drawn lo).
Qed.

Lemma column_snoc lo n : column lo (S n) = column lo n ++ (if drawn (lo + n) then [lo + n]%nat else []).
Proof using Type.
  unfold column. rewrite seq_S, list.filter_app, list.filter_cons, list.filter_nil.
  by destruct (drawn (lo + n)).
Qed.

Lemma next_from_spec l n :
  (l + n <= nlayers h)%nat -> next_from h s l n = Some (head (column l n)).
Proof using Hrect.
  revert l. induction n as [|n IH]; intros l Hl; [done|]. cbn [next_from].
  destruct (Hrect l) as [r Hr]; [lia|]. rewrite Hr, column_cons. unfold drawn. rewrite Hr.
  destruct (negb (empty_rect r)); [done|]. simpl. apply IH. lia.
Qed.

(** The drawn layers above [l]. *)
Definition above (l : nat) : list nat := column (S l) (nlayers h - S l).

Lemma get_layer_ops_next_spec l :
  (l < nlayers h)%nat -> get_layer_ops_next h s l = Some (head (above l)).
Proof using Hrect. intros Hl. unfold get_layer_ops_next. apply next_from_spec. lia. Qed.

Lemma column_from lo n l r : column lo n = l :: r ->
  (lo <= l < lo + n)%nat /\ drawn l = true /\ r = column (S l) (lo + n - S l).
Proof using Type.
  revert lo. induction n as [|n IH]; intros lo Hc; [done|]. rewrite column_cons in Hc.
  destruct (drawn lo) eqn:Hd.
  - injection Hc as <- <-. split; [lia|]. split; [done|]. by replace (lo + S n - S lo)%nat with n by lia.
  - destruct (IH (S lo) Hc) as (Hl & Hdl & ->). split; [lia|]. split; [done|].
    by replace (S lo + n - S l)%nat with (lo + S n - S l)%nat by lia.
Qed.

Lemma above_cons l l' r : above l = l' :: r -> (l < l' < nlayers h)%nat /\ drawn l' = true /\ above l' = r.
Proof using Type.
  intros Ha. apply column_from in Ha as (Hl & Hd & ->). split; [lia|]. split; [done|].
  unfold above. f_equal. lia.
Qed.

Lemma get_layer_ops_from_spec l ops bottom :
  (l < nlayers h)%nat ->
  let V := visible (column 0 (S l)) in
  get_layer_ops_from hmem layers h s l ops bottom =
  Some ((ops + length V)%nat, match head V with Some b => Some b | None => bottom end).
Proof using Hrect Hlayer.
  cbv zeta. revert ops bottom. induction l as [|l IH]; intros ops bottom Hl.
  - cbn [get_layer_ops_from]. destruct (Hrect 0%nat Hl) as [r Hr]. rewrite Hr.
    rewrite column_cons. change (column 1 0) with (@nil nat). rewrite app_nil_r.
    unfold drawn. rewrite Hr. destruct (negb (empty_rect r)) eqn:He.
    + destruct (Hlayer 0%nat Hl) as (x & Hx & [b Hb]); [unfold drawn; by rewrite Hr|].
      rewrite Hx, Hb. rewrite Nat.add_1_r. by destruct b.
    + by rewrite Nat.add_0_r.
  - cbn [get_layer_ops_from]. destruct (Hrect (S l) Hl) as [r Hr]. rewrite Hr, column_snoc.
    change (0 + S l)%nat with (S l).
    replace (drawn (S l)) with (negb (empty_rect r)) by (unfold drawn; by rewrite Hr).
    destruct (negb (empty_rect r)) eqn:He.
    + destruct (Hlayer (S l) Hl) as (x & Hx & [b Hb]); [unfold drawn; by rewrite Hr|].
      assert (Hst : stops (S l) = b) by (unfold stops; by rewrite Hx, Hb).
      rewrite Hx, Hb, visible_snoc, Hst.
      destruct b; [cbn [length head]; by rewrite Nat.add_1_r|]. rewrite IH by lia. rewrite length_app.
      simpl. f_equal. f_equal; [lia|]. by destruct (visible (column 0 (S l))).
    + rewrite app_nil_r. apply IH. lia.
Qed.

Lemma get_layer_ops_spec :
  (0 < nlayers h)%nat ->
  let V := visible (column 0 (nlayers h)) in
  get_layer_ops hmem layers h s = Some (length V, head V).
Proof using Hrect Hlayer.
  intros Hn. pose proof (get_layer_ops_from_spec (nlayers h - 1) 0 None) as Hs.
  unfold get_layer_ops. replace (nlayers h) with (S (nlayers h - 1)) by lia.
  rewrite Hs by lia. cbv zeta. by destruct (visible _).
Qed.

End Walk.

(** * What an entry draws *)

(** The documented layout of the flags: the operation, the batch position and
    the modifiers use disjoint bits, and the first entry of a batch can be told
    from the ones in the middle. *)
Class BvLaws `{BvApi} : Prop := {
  blend_bit : BVFLAG_BLEND <> 0;
  blend_disjoint : forall x, x ∈ [BVFLAG_CLIP; BVFLAG_ROP; BVFLAG_ASYNC; BVFLAG_BATCH_MASK;
    BVFLAG_HORZ_FLIP_SRC1; BVFLAG_VERT_FLIP_SRC1; BVFLAG_HORZ_FLIP_SRC2; BVFLAG_VERT_FLIP_SRC2] ->
    Z.land x BVFLAG_BLEND = 0;
  batch_disjoint : forall x, x ∈ [BVFLAG_CLIP; BVFLAG_ROP; BVFLAG_BLEND; BVFLAG_ASYNC;
    BVFLAG_HORZ_FLIP_SRC1; BVFLAG_VERT_FLIP_SRC1; BVFLAG_HORZ_FLIP_SRC2; BVFLAG_VERT_FLIP_SRC2] ->
    Z.land x BVFLAG_BATCH_MASK = 0;
  batch_values : forall x, x ∈ [BVFLAG_BATCH_BEGIN; BVFLAG_BATCH_CONTINUE; BVFLAG_BATCH_END] ->
    Z.land x BVFLAG_BATCH_MASK = x;
  begin_bit : BVFLAG_BATCH_BEGIN <> 0;
  continue_not_begin : Z.land BVFLAG_BATCH_CONTINUE BVFLAG_BATCH_BEGIN = 0;
}.

(** What executing an entry does: copy a source or blend two sources, each
    named by the auxiliary pointer of its descriptor. *)
Inductive draw := draw_copy (src : Z) | draw_blend (src1 src2 : Z).

Section Entries.
Context `{HwcApi} `{BvApi} {Hlaws : BvLaws}.
Variable hmem : Z -> option IMG_native_handle_t.

Definition draw_of (e : rgz_blt_entry) : draw :=
  if has_flag (p_flags (e_bp e)) BVFLAG_BLEND
  then draw_blend (d_auxptr (e_src1desc e)) (d_auxptr (e_src2desc e))
  else draw_copy (d_auxptr (e_src1desc e)).
Definition batch_bits (e : rgz_blt_entry) : Z := Z.land (p_flags (e_bp e)) BVFLAG_BATCH_MASK.

Lemma land_lor_0 a b m : Z.land a m = 0 -> Z.land b m = 0 -> Z.land (Z.lor a b) m = 0.
Proof. intros Ha Hb. by rewrite Z.land_lor_distr_l, Ha, Hb. Qed.

Lemma flip_flags_disjoint t s2 m :
  Z.land BVFLAG_HORZ_FLIP_SRC1 m = 0 -> Z.land BVFLAG_VERT_FLIP_SRC1 m = 0 ->
  Z.land BVFLAG_HORZ_FLIP_SRC2 m = 0 -> Z.land BVFLAG_VERT_FLIP_SRC2 m = 0 ->
  Z.land (rgz_get_flip_flags t s2) m = 0.
Proof using Type.
  intros Hh1 Hv1 Hh2 Hv2. unfold rgz_get_flip_flags.
  set (a := if has_flag t HWC_TRANSFORM_FLIP_H then _ else _).
  assert (Ha : Z.land a m = 0) by (unfold a; by destruct (has_flag t HWC_TRANSFORM_FLIP_H), s2).
  destruct (has_flag t HWC_TRANSFORM_FLIP_V); [|done].
  destruct (negb (a =? 0)); [done|]. apply land_lor_0; [done|]. by destruct s2.
Qed.

(** The parts of an entry that tell what it draws. *)
Definition entry_key (e : rgz_blt_entry) : Z * Z * Z :=
  (p_flags (e_bp e), d_auxptr (e_src1desc e), d_auxptr (e_src2desc e)).

Lemma rotate_src_key o s2 e : entry_key (rgz_rotate_src o s2 e) = entry_key e.
Proof using Type. unfold rgz_rotate_src. by destruct s2, (negb (Z.rem o 180 =? 0)). Qed.

Lemma rotate_dst_key o e : entry_key (rgz_rotate_dst o e) = entry_key e.
Proof using Type. unfold rgz_rotate_dst. by destruct (negb (Z.rem o 180 =? 0)). Qed.

Lemma set_dst_data_key p r o e : entry_key (rgz_set_dst_data p r o e) = entry_key e.
Proof using Type.
  unfold rgz_set_dst_data. destruct (negb (o =? 0)); [|done]. by rewrite rotate_dst_key.
Qed.

Lemma set_src_data_key l r o s2 e hd :
  hmem (handle (hwc_layer l)) = Some hd ->
  exists e', rgz_set_src_data hmem l r o s2 e = Some e' /\
    entry_key e' = (p_flags (e_bp e), if s2 then d_auxptr (e_src1desc e) else buffidx l,
                    if s2 then buffidx l else d_auxptr (e_src2desc e)).
Proof using Type.
  intros Hh. unfold rgz_set_src_data. rewrite Hh.
  destruct (negb (o =? 0)); eexists; (split; [done|]); rewrite ?rotate_src_key; by destruct s2.
Qed.

Lemma draw_src1_key params r l e hd :
  hmem (handle (hwc_layer l)) = Some hd ->
  exists e', draw_src1 hmem params r l e = Some e' /\
    entry_key e' = (p_flags (e_bp e), buffidx l, d_auxptr (e_src2desc e)).
Proof using Type.
  intros Hh. unfold draw_src1, rgz_cfg_scale_mode, rgz_is_layer_nv12. rewrite Hh.
  set (o := rgz_get_orientation _).
  assert (Hgo : forall tmp e1, p_flags (e_bp e1) = p_flags (e_bp e) ->
    d_auxptr (e_src2desc e1) = d_auxptr (e_src2desc e) ->
    exists e', (let '(so, dor) := if is_NV12 (iFormat hd) then (0, 360 - o) else (o, 0) in
      let* e2 := rgz_set_src_data hmem l tmp so false e1 in
      Some (rgz_set_dst_data params tmp dor (rgz_set_clip_rect params r e2))) = Some e' /\
      entry_key e' = (p_flags (e_bp e), buffidx l, d_auxptr (e_src2desc e))).
  { intros tmp e1 Hf Hd2. destruct (is_NV12 (iFormat hd));
      [destruct (set_src_data_key l tmp 0 false e1 hd Hh) as (e2 & -> & Hk)
      |destruct (set_src_data_key l tmp o false e1 hd Hh) as (e2 & -> & Hk)];
      eexists; (split; [done|]); rewrite set_dst_data_key;
      (change (entry_key (rgz_set_clip_rect params r e2)) with (entry_key e2)); by rewrite Hk, Hf, Hd2. }
  destruct (rgz_hwc_scaled (hwc_layer l)); by apply Hgo.
Qed.

Lemma no_blend_bits f : Z.land f BVFLAG_BLEND = 0 -> has_flag f BVFLAG_BLEND = false.
Proof using Type. intros E. unfold has_flag. by rewrite E. Qed.

Ltac bits_of lem := solve [apply lem; rewrite !elem_of_cons; auto 12].

Lemma flip_no_blend t s2 : Z.land (rgz_get_flip_flags t s2) BVFLAG_BLEND = 0.
Proof using Hlaws. apply flip_flags_disjoint; bits_of blend_disjoint. Qed.
Lemma flip_no_batch t s2 : Z.land (rgz_get_flip_flags t s2) BVFLAG_BATCH_MASK = 0.
Proof using Hlaws. apply flip_flags_disjoint; bits_of batch_disjoint. Qed.

Lemma copy_entry_spec params r l e hd :
  hmem (handle (hwc_layer l)) = Some hd ->
  exists e', copy_entry hmem params r l e = Some e' /\
    draw_of e' = draw_copy (buffidx l) /\ batch_bits e' = 0.
Proof using Hlaws.
  intros Hh. unfold copy_entry.
  set (e1 := rgz_set_async true _).
  destruct (draw_src1_key params r l e1 hd Hh) as (e2 & -> & Hk).
  set (fl := p_flags (e_bp e1)) in *.
  assert (Hb : Z.land fl BVFLAG_BLEND = 0).
  { unfold fl, e1. cbn [rgz_set_async with_bp e_bp set_flags p_flags set_head].
    repeat apply land_lor_0; try (bits_of blend_disjoint). apply flip_no_blend. }
  assert (Hm : Z.land fl BVFLAG_BATCH_MASK = 0).
  { unfold fl, e1. cbn [rgz_set_async with_bp e_bp set_flags p_flags set_head].
    repeat apply land_lor_0; try (bits_of batch_disjoint). apply flip_no_batch. }
  match goal with |- context [Some (if ?b then ?x else e2)] => set (e3 := if b then x else e2) end.
  assert (Hk3 : entry_key e3 = entry_key e2) by (unfold e3; by destruct (_ || _)).
  exists e3. split; [done|]. rewrite Hk in Hk3. injection Hk3 as Hf Hs1 _.
  unfold draw_of, batch_bits. rewrite Hf, Hs1, (no_blend_bits fl Hb). by split.
Qed.

Lemma blend_flags t : has_flag (Z.lor (Z.lor (Z.lor BVFLAG_CLIP BVFLAG_BLEND) t) BVFLAG_ASYNC) BVFLAG_BLEND = true.
Proof using Hlaws.
  unfold has_flag. apply negb_true_iff, Z.eqb_neq. intros E.
  apply blend_bit. rewrite <- (Z.land_diag BVFLAG_BLEND).
  rewrite !Z.land_lor_distr_l in E. apply Z.lor_eq_0_iff in E as [E _].
  apply Z.lor_eq_0_iff in E as [E _]. by apply Z.lor_eq_0_iff in E as [_ E].
Qed.

Lemma has_flag_lor_l a b m : has_flag a m = true -> has_flag (Z.lor a b) m = true.
Proof using Type.
  unfold has_flag. rewrite !negb_true_iff, !Z.eqb_neq, Z.land_lor_distr_l.
  intros Ha E. by apply Z.lor_eq_0_iff in E as [E _].
Qed.

Lemma blend_entry_spec params r l l2 e hd :
  hmem (handle (hwc_layer l)) = Some hd ->
  (forall x, l2 = Some x -> is_Some (hmem (handle (hwc_layer x)))) ->
  exists e', blend_entry hmem params r l l2 e = Some e' /\
    draw_of e' = draw_blend (buffidx l) (match l2 with Some x => buffidx x | None => HWC_BLT_DESC_FB_FN0 end) /\
    batch_bits e' = 0.
Proof using Hlaws.
  intros Hh Hsrc2. unfold blend_entry. set (e1 := rgz_set_async true _).
  destruct (draw_src1_key params r l e1 hd Hh) as (e2 & -> & Hk).
  assert (Hb : has_flag (p_flags (e_bp e1)) BVFLAG_BLEND = true) by apply blend_flags.
  assert (Hm : Z.land (p_flags (e_bp e1)) BVFLAG_BATCH_MASK = 0).
  { unfold e1. cbn [rgz_set_async with_bp e_bp set_flags p_flags set_head].
    repeat apply land_lor_0; try (bits_of batch_disjoint). apply flip_no_batch. }
  set (fl := p_flags (e_bp e1)) in *. clearbody fl.
  destruct l2 as [x|].
  - destruct (Hsrc2 x eq_refl) as [hd2 Hh2]. unfold rgz_is_layer_nv12. rewrite Hh2.
    set (e3 := with_bp _ e2).
    destruct (set_src_data_key x r (rgz_get_orientation (transform (hwc_layer x))) true e3 hd2 Hh2)
      as (e4 & -> & Hk4).
    exists e4. split; [done|]. injection Hk as Hf Hs1 _. injection Hk4 as Hf4 Hs14 Hs24.
    cbn in Hf4, Hs14. rewrite Hf in Hf4. rewrite Hs1 in Hs14.
    unfold draw_of, batch_bits. rewrite Hf4, Hs14, Hs24, has_flag_lor_l by done.
    split; [done|]. apply land_lor_0; [done|apply flip_no_batch].
  - eexists. split; [done|]. injection Hk as Hf Hs1 _.
    unfold draw_of, batch_bits. cbn. rewrite Hf, Hs1, Hb. by split.
Qed.

Lemma clrdst_entry_spec params r e :
  draw_of (clrdst_entry params r e) = draw_copy (-1) /\ batch_bits (clrdst_entry params r e) = 0.
Proof using Hlaws.
  unfold draw_of, batch_bits. cbn. split.
  - rewrite no_blend_bits; [done|]. repeat apply land_lor_0; bits_of blend_disjoint.
  - repeat apply land_lor_0; bits_of batch_disjoint.
Qed.

Lemma land_lnot_disjoint f m b : Z.land m b = 0 -> Z.land (Z.land f (Z.lnot m)) b = Z.land f b.
Proof using Type.
  intros E. apply Z.bits_inj'. intros n Hn. rewrite !Z.land_spec, Z.lnot_spec by done.
  assert (Hb : Z.testbit (Z.land m b) n = false) by (rewrite E; apply Z.bits_0).
  rewrite Z.land_spec in Hb.
  destruct (Z.testbit f n), (Z.testbit m n), (Z.testbit b n); done.
Qed.

(** Setting the batch position changes nothing else of what is drawn. *)
Lemma batch_entry_spec flag set e :
  flag = 0 \/ flag ∈ [BVFLAG_BATCH_BEGIN; BVFLAG_BATCH_CONTINUE; BVFLAG_BATCH_END] ->
  draw_of (rgz_batch_entry flag set e) = draw_of e /\ batch_bits (rgz_batch_entry flag set e) = flag.
Proof using Hlaws.
  intros Hflag. assert (Hfm : Z.land flag BVFLAG_BATCH_MASK = flag)
    by (destruct Hflag as [->|Hin]; [done|by apply batch_values]).
  assert (Hmb : Z.land BVFLAG_BATCH_MASK BVFLAG_BLEND = 0) by bits_of blend_disjoint.
  assert (Hfb : Z.land flag BVFLAG_BLEND = 0).
  { rewrite <- Hfm, <- Z.land_assoc, Hmb. apply Z.land_0_r. }
  unfold draw_of, batch_bits, rgz_batch_entry, has_flag. cbn. split.
  - rewrite Z.land_lor_distr_l, Hfb, Z.lor_0_r, land_lnot_disjoint by done. done.
  - rewrite Z.land_lor_distr_l, Hfm.
    replace (Z.land (Z.land (p_flags (e_bp e)) (Z.lnot BVFLAG_BATCH_MASK)) BVFLAG_BATCH_MASK) with 0; [done|].
    rewrite <- Z.land_assoc, (Z.land_comm (Z.lnot _)), Z.land_lnot_diag. symmetry. apply Z.land_0_r.
Qed.

Lemma async_spec b e : draw_of (rgz_set_async b e) = draw_of e /\ batch_bits (rgz_set_async b e) = batch_bits e.
Proof using Hlaws.
  assert (Hab : Z.land BVFLAG_ASYNC BVFLAG_BLEND = 0) by bits_of blend_disjoint.
  assert (Ham : Z.land BVFLAG_ASYNC BVFLAG_BATCH_MASK = 0) by bits_of batch_disjoint.
  unfold draw_of, batch_bits, has_flag, rgz_set_async. cbn. destruct b.
  - by rewrite !Z.land_lor_distr_l, Hab, Ham, !Z.lor_0_r.
  - by rewrite !land_lnot_disjoint.
Qed.

End Entries.

(** * Writing entries *)

Definition out_ok (st : out_state) : Prop :=
  length (bvcmds st) = RGZ_MAX_BLITS /\ (blts_idx st <= RGZ_MAX_BLITS)%nat.

(** [st'] is [st] with the entries [es] taken: as long as there are slots, they
    are the new entries of the array. *)
Definition appended (st st' : out_state) (es : list rgz_blt_entry) : Prop :=
  length (bvcmds st') = RGZ_MAX_BLITS /\
  blts_idx st' = Nat.min RGZ_MAX_BLITS (blts_idx st + length es) /\
  (out_blits st' - out_blits st = blts_idx st' - blts_idx st /\ out_blits st <= out_blits st')%nat /\
  out_hndls st' = out_hndls st /\ cmdlen st' = cmdlen st /\
  ((blts_idx st + length es <= RGZ_MAX_BLITS)%nat ->
     take (blts_idx st') (bvcmds st') = take (blts_idx st) (bvcmds st) ++ es).

Lemma appended_ok st st' es : appended st st' es -> out_ok st'.
Proof. intros (Hl & Hi & _). split; [done|lia]. Qed.

Lemma appended_nil st : out_ok st -> appended st st [].
Proof.
  intros [Hl Hi]. unfold appended. cbn [length]. rewrite app_nil_r. repeat split; try lia; done.
Qed.

Lemma appended_trans st st1 st2 es1 es2 :
  out_ok st -> appended st st1 es1 -> appended st1 st2 es2 -> appended st st2 (es1 ++ es2).
Proof.
  intros [Hl Hi] (Hl1 & Hi1 & [Ho1 Hm1] & Hh1 & Hc1 & Ht1) (Hl2 & Hi2 & [Ho2 Hm2] & Hh2 & Hc2 & Ht2).
  unfold appended. rewrite length_app.
  split; [done|]. split; [lia|]. split; [lia|]. split; [congruence|]. split; [congruence|].
  intros Hcap. rewrite Ht2, Ht1 by lia. by rewrite app_assoc.
Qed.

Lemma emit_spec params f (Q : rgz_blt_entry -> Prop) st :
  IS_BVCMD params = true -> out_ok st -> (forall e, exists e', f e = Some e' /\ Q e') ->
  exists e' st', emit params f st = Some ((blts_idx st' - 1)%nat, st') /\
    appended st st' [e'] /\ Q e' /\ (0 < blts_idx st')%nat.
Proof.
  intros Hb [Hl Hi] Hf. unfold emit, rgz_blts_get. rewrite Hb.
  destruct (Nat.ltb_spec (blts_idx st) RGZ_MAX_BLITS) as [Hlt|Hge].
  - unfold upd_entry. cbn [bvcmds blts_idx out_blits out_hndls cmdlen].
    destruct (lookup_lt_is_Some_2 (bvcmds st) (blts_idx st)) as [e He]; [lia|]. rewrite He.
    destruct (Hf e) as (e' & -> & HQ). exists e'.
    match goal with |- context [Some (blts_idx st, ?s)] => exists s end. cbn [blts_idx].
    replace (S (blts_idx st) - 1)%nat with (blts_idx st) by lia. split; [done|].
    split; [|split; [done|cbn; lia]]. unfold appended.
    cbn [bvcmds blts_idx out_blits out_hndls cmdlen length].
    split; [by rewrite length_insert|]. split; [lia|]. split; [lia|]. do 2 (split; [done|]).
    intros _. erewrite take_S_r by (apply list_lookup_insert_eq; lia).
    by rewrite take_insert_ge by lia.
  - unfold upd_entry.
    destruct (lookup_lt_is_Some_2 (bvcmds st) (blts_idx st - 1)) as [e He];
      [unfold RGZ_MAX_BLITS, RGZ_SUBREGIONMAX, RGZ_MAXLAYERS in *; lia|]. rewrite He.
    destruct (Hf e) as (e' & -> & HQ). exists e'.
    match goal with |- context [Some ((blts_idx st - 1)%nat, ?s)] => exists s end.
    cbn [blts_idx]. split; [done|].
    split; [|split; [done|cbn; unfold RGZ_MAX_BLITS, RGZ_SUBREGIONMAX, RGZ_MAXLAYERS in *; lia]].
    unfold appended. cbn [bvcmds blts_idx out_blits out_hndls cmdlen length].
    split; [by rewrite length_insert|]. split; [lia|]. split; [lia|]. do 2 (split; [done|]). lia.
Qed.

Lemma upd_last_spec st st' es e g :
  out_ok st -> appended st st' (es ++ [e]) -> (0 < blts_idx st')%nat ->
  exists st'', upd_entry (blts_idx st' - 1) (fun x => Some (g x)) st' = Some st'' /\
    appended st st'' (es ++ [g e]) /\ blts_idx st'' = blts_idx st'.
Proof.
  intros [Hl0 Hi0] (Hl & Hi & Ho & Hh & Hc & Ht) Hpos. unfold upd_entry.
  destruct (lookup_lt_is_Some_2 (bvcmds st') (blts_idx st' - 1)) as [x Hx]; [lia|].
  rewrite Hx. eexists. split; [done|]. split; [|done]. unfold appended.
  cbn [bvcmds blts_idx out_blits out_hndls cmdlen]. rewrite length_app in *. cbn [length] in *.
  split; [by rewrite length_insert|]. do 4 (split; [done|]). intros Hcap. specialize (Ht Hcap).
  assert (Hn : blts_idx st' = S (blts_idx st' - 1)) by lia.
  rewrite Hn in Ht at 1. rewrite (take_S_r _ _ _ Hx), app_assoc in Ht.
  apply app_inj_2 in Ht as [Ht Heq]; [|done]. injection Heq as ->.
  rewrite Hn at 1. erewrite take_S_r by (apply list_lookup_insert_eq; lia).
  by rewrite take_insert_ge, Ht, app_assoc by lia.
Qed.

(** * The entries of a subregion *)

Section Draws.
Context `{HwcApi} `{BvApi} {Hlaws : BvLaws}.
Variable hmem : Z -> option IMG_native_handle_t.
Variables (layers : list rgz_layer_t) (params : rgz_out_params) (h : blit_hregion_t) (s : nat).

Definition lay (l : nat) : rgz_layer_t := default zero_layer (layer_at layers h l).
Definition bufidx (l : nat) : Z := buffidx (lay l).

(** The background and the layers with the clear hint draw transparent pixels. *)
Definition clears (x : rgz_layer_t) : bool :=
  (buffidx x =? RGZ_BACKGROUND_BUFFIDX) || (buffidx x =? RGZ_CLEARHINT_BUFFIDX).

(** A layer the output can draw: one with a buffer, or a clearing layer that is
    not blended (its dummy handle must not be read). *)
Definition layer_ok (x : rgz_layer_t) : Prop :=
  if clears x then blending (hwc_layer x) <> HWC_BLENDING_PREMULT
  else is_Some (hmem (handle (hwc_layer x))).

Definition together (l1 l2 : nat) : bool :=
  default false (rgz_can_blend_together hmem (hwc_layer (lay l1)) (hwc_layer (lay l2))).

(** What is drawn for layers that have buffers, from the bottom up. *)
Definition over_fb (l : nat) : draw := draw_blend (bufidx l) HWC_BLT_DESC_FB_FN0.
Definition blend_draws (V : list nat) : list draw :=
  match V with
  | [] => []
  | [x] => [draw_copy (bufidx x)]
  | x :: y :: r =>
    if together y x then draw_blend (bufidx y) (bufidx x) :: (over_fb <$> r)
    else draw_copy (bufidx x) :: (over_fb <$> y :: r)
  end.

(** What is drawn for the visible layers [V]. *)
Definition draws_of (V : list nat) : list draw :=
  match V with
  | [] => []
  | b :: r => if clears (lay b) then (if (length r =? 0)%nat then [draw_copy (-1)] else blend_draws r)
              else blend_draws V
  end.

Definition batch_pattern (n : nat) : list Z :=
  match n with
  | O => []
  | S O => [0]
  | S (S k) => BVFLAG_BATCH_BEGIN :: replicate k BVFLAG_BATCH_CONTINUE ++ [BVFLAG_BATCH_END]
  end.

Hypothesis Hcmd : IS_BVCMD params = true.
Hypothesis Hblend : noblend params = false.
Hypothesis Hrect : forall l, (l < nlayers h)%nat -> is_Some (blitrect_at h l s).
Hypothesis Hlay : forall l, (l < nlayers h)%nat -> drawn h s l = true ->
  exists x, layer_at layers h l = Some x /\ layer_ok x.

Lemma lay_spec l x : layer_at layers h l = Some x -> lay l = x.
Proof. intros E. unfold lay. by rewrite E. Qed.

Lemma layer_stops_ok x : layer_ok x -> is_Some (layer_stops hmem (hwc_layer x)).
Proof.
  unfold layer_ok, layer_stops. destruct (Z.eqb_spec (blending (hwc_layer x)) HWC_BLENDING_PREMULT) as [E|E];
    simpl; [|by eexists]. destruct (clears x); [done|]. intros [hd ->]. by eexists.
Qed.

(** A clearing layer hides what is behind it. *)
Lemma clears_stops l x : layer_at layers h l = Some x -> layer_ok x -> clears x = true ->
  stops hmem layers h l = true.
Proof.
  intros Hx Hok Hc. unfold stops, layer_ok in *. rewrite Hx. rewrite Hc in Hok.
  unfold layer_stops. by rewrite (proj2 (Z.eqb_neq _ _) Hok).
Qed.

(** The layers from [l] up have buffers. *)
Definition has_buffer (l : nat) : Prop :=
  exists x hd, layer_at layers h l = Some x /\ hmem (handle (hwc_layer x)) = Some hd.

Lemma blend_rest_spec : forall R rect first ps pn st0 st es e fuel,
  out_ok st0 -> appended st0 st (es ++ [e]) -> (0 < blts_idx st)%nat ->
  Forall has_buffer R -> (length R <= fuel)%nat ->
  (forall l r, R = l :: r -> (l < nlayers h)%nat /\ above h s l = r) ->
  exists st' rs, blend_rest hmem layers params h s rect (head R) first ps pn (blts_idx st - 1) st fuel =
      Some ((blts_idx st' - 1)%nat, st') /\
    appended st0 st' (es ++ [e] ++ rs) /\ (0 < blts_idx st')%nat /\
    draw_of <$> rs = over_fb <$> R /\
    batch_bits <$> rs = replicate (length R) BVFLAG_BATCH_CONTINUE.
Proof using Hcmd Hrect Hlaws.
  induction R as [|l R IH]; intros rect first ps pn st0 st es e fuel Hok Hap Hpos Hbuf Hfuel Hab.
  { exists st, []. by destruct fuel. }
  apply Forall_cons_1 in Hbuf as [(x & hd & Hx & Hhd) Hbuf].
  destruct fuel as [|fuel]; [cbn in Hfuel; lia|]. cbn [blend_rest head].
  rewrite Hx. unfold rgz_hwc_subregion_blend, rgz_is_layer_nv12. rewrite Hhd.
  destruct (emit_spec params (blend_entry hmem params rect x None)
    (fun e' => draw_of e' = draw_blend (buffidx x) HWC_BLT_DESC_FB_FN0 /\ batch_bits e' = 0) st
    Hcmd (appended_ok _ _ _ Hap)) as (e1 & st1 & Hem & Hap1 & [Hd1 _] & Hpos1).
  { intros e0. by apply (blend_entry_spec hmem params rect x None e0 hd). }
  rewrite Hem. pose proof (appended_trans _ _ _ _ _ Hok Hap Hap1) as Hap2.
  set (b := batch_of _ _ _ _ _).
  destruct (upd_last_spec st0 st1 (es ++ [e]) e1 (rgz_batch_entry BVFLAG_BATCH_CONTINUE b) Hok Hap2 Hpos1)
    as (st2 & Hupd & Hap3 & Hidx). rewrite Hupd.
  destruct (Hab l R eq_refl) as [Hl HR].
  rewrite get_layer_ops_next_spec, HR by done. rewrite <- Hidx.
  destruct (IH rect 0 (rgz_hwc_scaled (hwc_layer x)) (is_NV12 (iFormat hd)) st0 st2 (es ++ [e])
              (rgz_batch_entry BVFLAG_BATCH_CONTINUE b e1) fuel Hok Hap3)
    as (st3 & rs & Hrest & Hap4 & Hpos4 & Hd & Hbb); [lia|done|cbn in Hfuel; lia| |].
  { intros l' r' ->. destruct (above_cons h s l l' r' HR) as (? & _ & ?). split; [lia|done]. }
  rewrite Hrest. exists st3, (rgz_batch_entry BVFLAG_BATCH_CONTINUE b e1 :: rs).
  assert (Hbe := batch_entry_spec BVFLAG_BATCH_CONTINUE b e1
    ltac:(right; rewrite !elem_of_cons; auto)). destruct Hbe as [Hbd Hbb1].
  split; [done|]. split; [by rewrite <- app_assoc in Hap4|]. split; [done|].
  rewrite !fmap_cons, Hd, Hbb, Hbd, Hbb1, Hd1. split; [|done].
  unfold over_fb, bufidx. by rewrite (lay_spec l x Hx).
Qed.

Lemma next_spec l R : (l < nlayers h)%nat -> above h s l = R -> get_layer_ops_next h s l = Some (head R).
Proof using Hrect. intros Hl <-. by apply get_layer_ops_next_spec. Qed.

(** The end of the batch: a single entry is not in a batch. *)
Definition end_batch (x : rgz_blt_entry) : rgz_blt_entry :=
  if negb (Z.land (p_flags (e_bp x)) BVFLAG_BATCH_BEGIN =? 0)
  then rgz_batch_entry 0 0 x else rgz_batch_entry BVFLAG_BATCH_END 0 x.

Lemma end_batch_spec x :
  draw_of (end_batch x) = draw_of x /\
  (batch_bits x = BVFLAG_BATCH_BEGIN -> batch_bits (end_batch x) = 0) /\
  (batch_bits x = BVFLAG_BATCH_CONTINUE -> batch_bits (end_batch x) = BVFLAG_BATCH_END).
Proof using Hlaws.
  assert (Hbv : forall b, b ∈ [BVFLAG_BATCH_BEGIN; BVFLAG_BATCH_CONTINUE; BVFLAG_BATCH_END] ->
    Z.land b BVFLAG_BATCH_MASK = b) by apply batch_values.
  assert (Hbeg : Z.land (p_flags (e_bp x)) BVFLAG_BATCH_BEGIN = Z.land (batch_bits x) BVFLAG_BATCH_BEGIN).
  { unfold batch_bits. rewrite <- Z.land_assoc, (Z.land_comm BVFLAG_BATCH_MASK).
    by rewrite Hbv by (rewrite !elem_of_cons; auto). }
  unfold end_batch. rewrite Hbeg.
  destruct (batch_entry_spec 0 0 x) as [Hd0 Hb0]; [by left|].
  destruct (batch_entry_spec BVFLAG_BATCH_END 0 x) as [Hd1 Hb1]; [right; rewrite !elem_of_cons; auto|].
  split; [by destruct (negb _)|]. split; intros E; rewrite E.
  - rewrite Z.land_diag, (proj2 (Z.eqb_neq _ _) begin_bit). done.
  - rewrite continue_not_begin. done.
Qed.

(** The last entry of the batch [e :: rs] is closed. *)
Lemma close_batch st st' e rs :
  out_ok st -> appended st st' (e :: rs) -> (0 < blts_idx st')%nat ->
  batch_bits e = BVFLAG_BATCH_BEGIN ->
  batch_bits <$> rs = replicate (length rs) BVFLAG_BATCH_CONTINUE ->
  exists st'' es, upd_entry (blts_idx st' - 1) (fun x => Some (end_batch x)) st' = Some st'' /\
    appended st st'' es /\ draw_of <$> es = draw_of e :: (draw_of <$> rs) /\
    batch_bits <$> es = batch_pattern (length es).
Proof using Hlaws.
  intros Hok Hap Hpos Hbe Hrs.
  destruct (rs) as [|el rs' _] eqn:E using rev_ind.
  - destruct (upd_last_spec st st' [] e end_batch Hok Hap Hpos) as (st2 & Hu & Hap2 & _).
    exists st2, [end_batch e]. split; [done|]. split; [done|].
    destruct (end_batch_spec e) as (Hd & Hb & _). cbn. by rewrite Hd, Hb.
  - destruct (upd_last_spec st st' (e :: rs') el end_batch Hok Hap Hpos) as (st2 & Hu & Hap2 & _).
    exists st2, ((e :: rs') ++ [end_batch el]). split; [done|]. split; [done|].
    rewrite fmap_app, length_app, replicate_add in Hrs. cbn in Hrs.
    apply app_inj_2 in Hrs as [Hrs Hel]; [|done]. injection Hel as Hel.
    destruct (end_batch_spec el) as (Hd & _ & Hb).
    rewrite !fmap_app, !fmap_cons, Hd, Hrs, Hbe. cbn [fmap list_fmap]. rewrite Hb by done.
    split; [done|]. rewrite length_app. cbn. by rewrite Nat.add_1_r.
Qed.

(** The batch after its first entry [e1]: layers [R], the ones above [p]. *)
Lemma blend_chain st st1 e1 p R rect first ps pn :
  out_ok st -> appended st st1 [e1] -> (0 < blts_idx st1)%nat ->
  (p < nlayers h)%nat -> above h s p = R -> Forall has_buffer R ->
  exists st' es,
    (let* st := upd_entry (blts_idx st1 - 1) (fun x => Some (rgz_batch_entry BVFLAG_BATCH_BEGIN 0 x)) st1 in
     let* next := get_layer_ops_next h s p in
     let* (e, st) := blend_rest hmem layers params h s rect next first ps pn (blts_idx st1 - 1) st (nlayers h) in
     upd_entry e (fun x => Some (end_batch x)) st) = Some st' /\
    appended st st' es /\ draw_of <$> es = draw_of e1 :: (over_fb <$> R) /\
    batch_bits <$> es = batch_pattern (length es).
Proof using Hcmd Hrect Hlaws.
  intros Hok Hap1 Hpos1 Hp Hab Hbuf.
  destruct (upd_last_spec st st1 [] e1 (rgz_batch_entry BVFLAG_BATCH_BEGIN 0) Hok Hap1 Hpos1)
    as (st2 & -> & Hap2 & Hidx).
  rewrite (next_spec p R), <- Hidx by done.
  destruct (blend_rest_spec R rect first ps pn st st2 [] _ (nlayers h) Hok Hap2)
    as (st3 & rs & -> & Hap3 & Hpos3 & Hdr & Hbr); [lia|done| | |].
  { rewrite <- Hab. unfold above, column. etransitivity; [apply list.length_filter|].
    rewrite length_seq. lia. }
  { intros l r' ->. destruct (above_cons h s p l r' Hab) as (? & _ & ?). split; [lia|done]. }
  destruct (batch_entry_spec BVFLAG_BATCH_BEGIN 0 e1) as [Hbd Hbb];
    [right; rewrite !elem_of_cons; auto|].
  destruct (close_batch st st3 _ rs Hok Hap3 Hpos3 Hbb) as (st4 & es & Hu & Hap4 & Hd4 & Hb4).
  { rewrite Hbr. f_equal. by rewrite <- (length_fmap over_fb R), <- Hdr, length_fmap. }
  exists st4, es. split; [exact Hu|]. split; [done|]. split; [|done]. by rewrite Hd4, Hbd, Hdr.
Qed.

Lemma can_blend_spec x y lx ly hx hy :
  layer_at layers h x = Some lx -> layer_at layers h y = Some ly ->
  hmem (handle (hwc_layer lx)) = Some hx -> hmem (handle (hwc_layer ly)) = Some hy ->
  rgz_can_blend_together hmem (hwc_layer ly) (hwc_layer lx) = Some (together y x).
Proof.
  intros Hlx Hly Hhx Hhy. unfold together. rewrite (lay_spec _ _ Hly), (lay_spec _ _ Hlx).
  unfold rgz_can_blend_together. rewrite Hhx, Hhy. by destruct (_ || _).
Qed.

Lemma blend_layers_spec x y r st :
  out_ok st -> (x < nlayers h)%nat -> above h s x = y :: r ->
  Forall has_buffer (x :: y :: r) ->
  exists st' es, blend_layers hmem layers params h s x st = Some st' /\
    appended st st' es /\ draw_of <$> es = blend_draws (x :: y :: r) /\
    batch_bits <$> es = batch_pattern (length es).
Proof using Hcmd Hrect Hlaws.
  intros Hok Hx Hab Hbuf. unfold blend_layers.
  destruct (Hrect x Hx) as [rect Hr]. rewrite Hr, (next_spec x (y :: r)) by done. cbn [head].
  destruct (above_cons h s x y r Hab) as (Hy & _ & Haby).
  pose proof Hbuf as [(lx & hx & Hlx & Hhx) Hbyr]%Forall_cons_1.
  pose proof Hbyr as [(ly & hy & Hly & Hhy) Hbr]%Forall_cons_1.
  rewrite Hly, Hlx, (can_blend_spec x y lx ly hx hy) by done. cbn [blend_draws].
  unfold rgz_is_layer_nv12. rewrite Hhx. destruct (together y x).
  - unfold rgz_hwc_subregion_blend.
    destruct (emit_spec params (blend_entry hmem params rect ly (Some lx))
      (fun e' => draw_of e' = draw_blend (buffidx ly) (buffidx lx) /\ batch_bits e' = 0) st Hcmd Hok)
      as (e1 & st1 & Hem & Hap1 & [Hd1 _] & Hpos1).
    { intros e0. apply (blend_entry_spec hmem params rect ly (Some lx) e0 hy); [done|].
      intros ? [= <-]. by eexists. }
    rewrite Hem. unfold bufidx. rewrite (lay_spec _ _ Hly), (lay_spec _ _ Hlx), <- Hd1.
    apply (blend_chain st st1 e1 y r); [done|done|done|lia|done|done].
  - unfold rgz_hwc_subregion_copy.
    destruct (emit_spec params (copy_entry hmem params rect lx)
      (fun e' => draw_of e' = draw_copy (buffidx lx) /\ batch_bits e' = 0) st Hcmd Hok)
      as (e1 & st1 & Hem & Hap1 & [Hd1 _] & Hpos1).
    { intros e0. by apply (copy_entry_spec hmem params rect lx e0 hx). }
    rewrite Hem. unfold bufidx at 1. rewrite (lay_spec _ _ Hlx), <- Hd1.
    by apply (blend_chain st st1 e1 x (y :: r)).
Qed.

(** ** The visible layers *)

Lemma visible_suffix P : exists pre, P = pre ++ visible hmem layers h P.
Proof.
  induction P as [|l P IH]; [by exists []|]. cbn [visible].
  destruct (existsb _ P); [|by exists []]. destruct IH as [pre E].
  exists (l :: pre). by rewrite E at 1.
Qed.

Lemma visible_tail P b r :
  visible hmem layers h P = b :: r -> Forall (fun l => stops hmem layers h l = false) r.
Proof.
  induction P as [|l P IH]; [done|]. cbn [visible].
  destruct (existsb (stops hmem layers h) P) eqn:E; [done|]. intros [= -> ->].
  apply Forall_lookup_2. intros i k Hk. destruct (stops hmem layers h k) eqn:Ek; [|done].
  rewrite <- E. symmetry. apply existsb_exists. exists k. split; [|done].
  apply list_elem_of_In. by eapply list_elem_of_lookup_2.
Qed.

Lemma column_suffix lo n pre b r :
  column h s lo n = pre ++ b :: r ->
  (lo <= b < lo + n)%nat /\ drawn h s b = true /\ r = column h s (S b) (lo + n - S b).
Proof.
  revert lo n. induction pre as [|a pre IH]; intros lo n E; [by apply column_from|].
  apply column_from in E as (Ha & _ & E). symmetry in E.
  destruct (IH _ _ E) as (Hb & Hd & ->). split; [lia|]. split; [done|]. f_equal. lia.
Qed.

Lemma visible_column b r :
  visible hmem layers h (column h s 0 (nlayers h)) = b :: r ->
  (b < nlayers h)%nat /\ drawn h s b = true /\ above h s b = r.
Proof.
  intros E. destruct (visible_suffix (column h s 0 (nlayers h))) as [pre Hp].
  rewrite E in Hp. apply column_suffix in Hp as (Hb & Hd & ->). split; [lia|]. split; [done|].
  unfold above. f_equal; lia.
Qed.

Lemma above_buffers p R :
  above h s p = R -> Forall (fun l => stops hmem layers h l = false) R -> Forall has_buffer R.
Proof using Hlay.
  intros <- Hst. apply Forall_lookup_2. intros i l Hl.
  pose proof (Forall_lookup_1 _ _ _ _ Hst Hl) as Hs. simpl in Hs.
  apply list_elem_of_lookup_2 in Hl. unfold above, column in Hl.
  apply list_elem_of_filter in Hl as [Hd Hl]. apply elem_of_seq in Hl.
  destruct (Hlay l) as (x & Hx & Hok); [lia|done|].
  destruct (clears x) eqn:Hc; [by rewrite (clears_stops l x) in Hs|].
  unfold layer_ok in Hok. rewrite Hc in Hok. destruct Hok as [hd Hhd]. by exists x, hd.
Qed.

Lemma clear_spec l st :
  out_ok st -> (l < nlayers h)%nat ->
  exists st' e, (let* r := blitrect_at h l s in
                 let* (_, st) := rgz_out_clrdst params (Some r) st in Some st) = Some st' /\
    appended st st' [e] /\ draw_of e = draw_copy (-1) /\ batch_bits e = 0.
Proof using Hcmd Hrect Hlaws.
  intros Hok Hl. destruct (Hrect l Hl) as [r Hr]. rewrite Hr. unfold rgz_out_clrdst.
  destruct (emit_spec params (fun e => Some (clrdst_entry params (Some r) e))
    (fun e' => draw_of e' = draw_copy (-1) /\ batch_bits e' = 0) st Hcmd Hok)
    as (e1 & st1 & -> & Hap1 & [Hd Hb] & _).
  { intros e. eexists. split; [done|]. apply clrdst_entry_spec. }
  by exists st1, e1.
Qed.

Lemma copy_layer_spec l st :
  out_ok st -> (l < nlayers h)%nat -> has_buffer l ->
  exists st' e, copy_layer hmem layers params h s l st = Some st' /\
    appended st st' [e] /\ draw_of e = draw_copy (bufidx l) /\ batch_bits e = 0.
Proof using Hcmd Hblend Hrect Hlaws.
  intros Hok Hl (x & hd & Hx & Hhd). unfold copy_layer.
  destruct (Hrect l Hl) as [r Hr]. rewrite Hr, Hblend, Hx. unfold rgz_hwc_subregion_copy.
  destruct (emit_spec params (copy_entry hmem params r x)
    (fun e' => draw_of e' = draw_copy (buffidx x) /\ batch_bits e' = 0) st Hcmd Hok)
    as (e1 & st1 & -> & Hap1 & [Hd Hb] & _).
  { intros e. by apply (copy_entry_spec hmem params r x e hd). }
  exists st1, e1. split; [done|]. split; [done|]. split; [|done].
  rewrite Hd. unfold bufidx. by rewrite (lay_spec _ _ Hx).
Qed.

(** Drawing a column of layers with buffers. *)
Lemma draw_buffers_spec l R st :
  out_ok st -> (l < nlayers h)%nat -> above h s l = R -> Forall has_buffer (l :: R) ->
  exists st' es,
    (if negb (noblend params) && (1 <? S (length R))%nat then blend_layers hmem layers params h s l st
     else copy_layer hmem layers params h s l st) = Some st' /\
    appended st st' es /\ draw_of <$> es = blend_draws (l :: R) /\
    batch_bits <$> es = batch_pattern (length es).
Proof using Hcmd Hblend Hrect Hlaws.
  intros Hok Hl Hab Hbuf. rewrite Hblend. destruct R as [|y r]; cbn [length].
  - apply Forall_cons_1 in Hbuf as [Hb _].
    destruct (copy_layer_spec l st Hok Hl Hb) as (st' & e & Hr & Hap & Hd & Hbb).
    exists st', [e]. cbn. by rewrite Hr, Hd, Hbb.
  - by apply blend_layers_spec.
Qed.

Lemma draw_subregion_spec b r st :
  out_ok st -> visible hmem layers h (column h s 0 (nlayers h)) = b :: r ->
  exists st' es, draw_subregion hmem layers params h s (S (length r)) b st = Some st' /\
    appended st st' es /\ draw_of <$> es = draws_of (b :: r) /\
    batch_bits <$> es = batch_pattern (length es).
Proof using Hcmd Hblend Hrect Hlay Hlaws.
  intros Hok HV. destruct (visible_column b r HV) as (Hb & Hd & Hab).
  pose proof (above_buffers b r Hab (visible_tail _ _ _ HV)) as Hr.
  destruct (Hlay b Hb Hd) as (x & Hx & Hxok). unfold draw_subregion. rewrite Hx.
  assert (Hdl : draws_of (b :: r) = if clears x then (if (length r =? 0)%nat then [draw_copy (-1)] else blend_draws r)
                                    else blend_draws (b :: r))
    by (cbn [draws_of]; by rewrite (lay_spec _ _ Hx)).
  rewrite Hdl. unfold clears, layer_ok in *. clear Hdl.
  assert (Hclr : forall l, (l < nlayers h)%nat -> exists st' es,
    (let* r := blitrect_at h l s in let* (_, st) := rgz_out_clrdst params (Some r) st in Some st) = Some st' /\
    appended st st' es /\ draw_of <$> es = [draw_copy (-1)] /\ batch_bits <$> es = batch_pattern (length es)).
  { intros l Hl. destruct (clear_spec l st Hok Hl) as (st' & e & He & Hap & Hde & Hbe).
    exists st', [e]. cbn. by rewrite He, Hde, Hbe. }
  destruct (buffidx x =? RGZ_BACKGROUND_BUFFIDX) eqn:Hbg; cbn [orb andb].
  - destruct r as [|y r]; [by apply Hclr|]. cbn [length Nat.eqb Nat.sub].
    rewrite (next_spec b (y :: r)) by done. cbn [head]. rewrite ?Nat.sub_0_r.
    destruct (above_cons h s b y r Hab) as (Hy & _ & Haby).
    pose proof Hr as [(ly & hy & Hly & Hhy) _]%Forall_cons_1. rewrite Hly.
    assert (Hyc : clears ly = false).
    { destruct (clears ly) eqn:E; [|done].
      pose proof (Forall_cons_1 _ _ _ (visible_tail _ _ _ HV)) as [Hs _].
      destruct (Hlay y) as (ly' & Hly' & Hok'); [lia|by destruct (above_cons h s b y r Hab) as (_ & ? & _)|].
      rewrite Hly in Hly'. injection Hly' as <-. by rewrite (clears_stops y ly) in Hs. }
    unfold clears in Hyc. apply orb_false_iff in Hyc as [_ ->]. cbn [andb].
    apply draw_buffers_spec; [done|lia|done|done].
  - rewrite Hx. destruct (buffidx x =? RGZ_CLEARHINT_BUFFIDX) eqn:Hhint; cbn [orb andb].
    + destruct r as [|y r]; [by apply Hclr|]. cbn [length Nat.eqb Nat.sub].
      rewrite (next_spec b (y :: r)) by done. cbn [head]. rewrite ?Nat.sub_0_r.
      destruct (above_cons h s b y r Hab) as (Hy & _ & Haby).
      apply draw_buffers_spec; [done|lia|done|done].
    + unfold clears in Hxok. rewrite Hbg, Hhint in Hxok. cbn [orb] in Hxok. destruct Hxok as [hx Hhx].
      apply draw_buffers_spec; [done|done|done|].
      constructor; [by exists x, hx|done].
Qed.

(** ** The whole subregion *)

Definition is_dirty (l : nat) : bool := negb (dirty_count (lay l) =? 0).

Lemma find_dirty_spec R l fuel :
  (l < nlayers h)%nat -> drawn h s l = true -> above h s l = R -> (length R < fuel)%nat ->
  find_dirty layers h s (Some l) fuel = Some (existsb is_dirty (l :: R)).
Proof using Hrect Hlay.
  revert l fuel. induction R as [|y R IH]; intros l fuel Hl Hd Hab Hf;
    (destruct fuel as [|fuel]; [lia|]); cbn [find_dirty existsb];
    destruct (Hlay l Hl Hd) as (x & Hx & _); rewrite Hx; unfold is_dirty at 1;
    rewrite (lay_spec _ _ Hx); (destruct (negb (dirty_count x =? 0)); [done|]);
    rewrite (next_spec l _ Hl Hab); cbn [head orb].
  - by destruct fuel.
  - destruct (above_cons h s l y R Hab) as (Hy & Hdy & Haby).
    apply IH; [lia|done|done|cbn in Hf; lia].
Qed.

(** The subregion has to be drawn. *)
Definition needs_drawing (damaged : blit_rect_t) (V : list nat) : bool :=
  match V with
  | [] => false
  | b :: _ => match blitrect_at h b s with Some r => RECT_INTERSECTS damaged r | None => false end
              || existsb is_dirty V
  end.

Lemma above_length l : (l < nlayers h)%nat -> (length (above h s l) < nlayers h)%nat.
Proof.
  intros Hl. unfold above, column. eapply Nat.le_lt_trans; [apply list.length_filter|].
  rewrite length_seq. lia.
Qed.

Lemma subregion_blit_spec damaged st :
  out_ok st -> (0 < nlayers h)%nat ->
  let V := visible hmem layers h (column h s 0 (nlayers h)) in
  exists st' es,
    rgz_hwc_subregion_blit hmem layers params h s damaged st =
      Some (if (length V =? 0)%nat then -1 else 0, st') /\
    appended st st' es /\
    draw_of <$> es = (if needs_drawing damaged V then draws_of V else []) /\
    batch_bits <$> es = batch_pattern (length es).
Proof using Hcmd Hblend Hrect Hlay Hlaws.
  intros Hok Hn V. unfold rgz_hwc_subregion_blit.
  rewrite get_layer_ops_spec by
    (done || (intros l Hl Hd; destruct (Hlay l Hl Hd) as (x & Hx & Hxo); exists x;
              split; [done|by apply layer_stops_ok])).
  fold V. destruct V as [|b r] eqn:HV; cbn [length Nat.eqb head].
  { exists st, []. by split; [|split; [apply appended_nil|]]. }
  destruct (visible_column b r HV) as (Hb & Hd & Hab).
  destruct (Hrect b Hb) as [rect Hr]. rewrite Hr. cbn [needs_drawing]. rewrite Hr.
  assert (Hdirty : (if RECT_INTERSECTS damaged rect then Some true
                    else find_dirty layers h s (Some b) (nlayers h)) =
                   Some (RECT_INTERSECTS damaged rect || existsb is_dirty (b :: r))).
  { destruct (RECT_INTERSECTS damaged rect); [done|].
    apply find_dirty_spec; [done|done|done|]. rewrite <- Hab. by apply above_length. }
  rewrite Hdirty. destruct (RECT_INTERSECTS damaged rect || existsb is_dirty (b :: r)); cbn [negb].
  - destruct (draw_subregion_spec b r st Hok HV) as (st' & es & -> & Hap & Hde & Hbe).
    by exists st', es.
  - exists st, []. by split; [|split; [apply appended_nil|]].
Qed.

End Draws.

(** * Executing the entries *)

Section Compositing.
Context `{HwcApi} `{BvApi} {Hlaws : BvLaws}.
Variable hmem : Z -> option IMG_native_handle_t.

(** A pixel, what it is to lay one over another, the transparent pixel, and
    the pixel of each layer's buffer at the place considered. *)
Variable Px : Type.
Variable over : Px -> Px -> Px.
Variable clear : Px.
Variable img : Z -> Px.

(** The source named by an auxiliary pointer: the kernel reads -1 as the clear
    pixel and HWC_BLT_DESC_FB_FN(0) as the framebuffer. *)
Definition source (fb : Px) (a : Z) : Px :=
  if a =? -1 then clear else if a =? HWC_BLT_DESC_FB_FN0 then fb else img a.

Definition run_draw (fb : Px) (d : draw) : Px :=
  match d with
  | draw_copy a => source fb a
  | draw_blend a b => over (source fb a) (source fb b)
  end.
Definition run_draws (ds : list draw) (fb : Px) : Px := foldl run_draw fb ds.

(** Painting the layers from back to front: the specification. *)
Definition paint (acc : Px) (x : rgz_layer_t) : Px :=
  if clears x then clear
  else if default true (layer_stops hmem (hwc_layer x)) then img (buffidx x)
  else over (img (buffidx x)) acc.
Definition composite (ls : list rgz_layer_t) : Px := foldl paint clear ls.

Hypothesis over_clear : forall p, over p clear = p.

Variables (layers : list rgz_layer_t) (h : blit_hregion_t) (s : nat).
Hypothesis Hlay : forall l, (l < nlayers h)%nat -> drawn h s l = true ->
  exists x, layer_at layers h l = Some x /\ layer_ok hmem x.
Hypothesis Hidx : forall l, (l < nlayers h)%nat -> drawn h s l = true ->
  clears (lay layers h l) = false -> 0 <= bufidx layers h l /\ bufidx layers h l <> HWC_BLT_DESC_FB_FN0.

Notation lay' := (lay layers h).

Lemma paint_stops l acc acc' : layer_at layers h l <> None ->
  stops hmem layers h l = true -> paint acc (lay' l) = paint acc' (lay' l).
Proof.
  intros Hl Hs. unfold stops in Hs. destruct (layer_at layers h l) as [x|] eqn:E; [|done].
  rewrite (lay_spec _ _ _ _ E). unfold paint. by rewrite Hs.
Qed.

Lemma visible_head P : existsb (stops hmem layers h) P = true ->
  exists b r, visible hmem layers h P = b :: r /\ b ∈ P /\ stops hmem layers h b = true.
Proof.
  induction P as [|l P IH]; [done|]. cbn [visible existsb]. intros Hs.
  destruct (existsb (stops hmem layers h) P) eqn:E.
  - destruct (IH eq_refl) as (b & r & Hv & Hin & Hb). exists b, r.
    split; [done|]. split; [by apply elem_of_cons; right|done].
  - exists l, P. split; [done|]. split; [by apply elem_of_cons; left|].
    by rewrite orb_false_r in Hs.
Qed.

(** Hidden layers do not matter. *)
Lemma paint_visible P acc :
  Forall (fun l => layer_at layers h l <> None) P ->
  foldl paint acc (lay' <$> P) = foldl paint acc (lay' <$> visible hmem layers h P).
Proof.
  revert acc. induction P as [|l P IH]; intros acc Hf; [done|].
  apply Forall_cons_1 in Hf as [Hl Hf]. cbn [visible].
  destruct (existsb (stops hmem layers h) P) eqn:E; [|done].
  rewrite fmap_cons. cbn [foldl]. rewrite IH by done.
  destruct (visible_head P E) as (b & r & -> & Hin & Hb). rewrite fmap_cons. cbn [foldl].
  f_equal. apply paint_stops; [|done].
  apply list_elem_of_lookup in Hin as [i Hi]. exact (Forall_lookup_1 _ _ _ _ Hf Hi).
Qed.

Lemma source_buffer fb l : 0 <= bufidx layers h l -> bufidx layers h l <> HWC_BLT_DESC_FB_FN0 ->
  source fb (bufidx layers h l) = img (bufidx layers h l).
Proof.
  intros Hge Hne. unfold source. rewrite (proj2 (Z.eqb_neq _ _) Hne).
  by rewrite (proj2 (Z.eqb_neq _ (-1))) by lia.
Qed.

Definition buffer_ok (l : nat) : Prop :=
  0 <= bufidx layers h l /\ bufidx layers h l <> HWC_BLT_DESC_FB_FN0 /\ clears (lay' l) = false.

Lemma run_over_fb R acc :
  0 <= HWC_BLT_DESC_FB_FN0 ->
  Forall buffer_ok R -> Forall (fun l => stops hmem layers h l = false) R ->
  Forall (fun l => layer_at layers h l <> None) R ->
  foldl run_draw acc (over_fb layers h <$> R) = foldl paint acc (lay' <$> R).
Proof.
  intros Hfb. revert acc. induction R as [|l R IH]; intros acc Hb Hs Hl; [done|].
  apply Forall_cons_1 in Hb as [(Hge & Hne & Hc) Hb]. apply Forall_cons_1 in Hs as [Hsl Hs].
  apply Forall_cons_1 in Hl as [Hll Hl]. rewrite !fmap_cons. cbn [foldl].
  rewrite IH by done. f_equal. unfold over_fb, run_draw. rewrite source_buffer by done.
  unfold source. rewrite Z.eqb_refl, (proj2 (Z.eqb_neq _ (-1))) by lia.
  unfold paint. rewrite Hc. unfold stops in Hsl. unfold bufidx.
  replace (default true (layer_stops hmem (hwc_layer (lay' l)))) with false; [done|].
  symmetry. destruct (layer_at layers h l) as [x|] eqn:E; [|done]. by rewrite (lay_spec _ _ _ _ E).
Qed.

Hypothesis Hfn0 : 0 <= HWC_BLT_DESC_FB_FN0.

Definition seen (l : nat) : Prop :=
  buffer_ok l /\ stops hmem layers h l = false /\ layer_at layers h l <> None.

Lemma run_over_seen R acc :
  Forall seen R -> foldl run_draw acc (over_fb layers h <$> R) = foldl paint acc (lay' <$> R).
Proof using Hfn0.
  intros Hs. apply run_over_fb; [done|..]; (eapply Forall_impl; [|exact Hs]); by intros l (? & ? & ?).
Qed.

Lemma paint_seen l acc : seen l -> paint acc (lay' l) = over (img (bufidx layers h l)) acc.
Proof.
  intros ((_ & _ & Hc) & Hs & Hl). unfold paint, bufidx. rewrite Hc. unfold stops in Hs.
  destruct (layer_at layers h l) as [x|] eqn:E; [|done].
  by rewrite (lay_spec _ _ _ _ E), Hs.
Qed.

Lemma run_blend_draws x R fb :
  buffer_ok x -> Forall seen R ->
  run_draws (blend_draws hmem layers h (x :: R)) fb = foldl paint (img (bufidx layers h x)) (lay' <$> R).
Proof using Hfn0.
  intros (Hge & Hne & Hc) HR. unfold run_draws. destruct R as [|y r]; cbn [blend_draws].
  - cbn. by apply source_buffer.
  - destruct (together hmem layers h y x); cbn [foldl run_draw].
    + apply Forall_cons_1 in HR as [Hy Hr]. rewrite run_over_seen, fmap_cons by done. cbn [foldl].
      rewrite paint_seen by done. destruct Hy as ((Hyg & Hyn & _) & _ & _). by rewrite !source_buffer.
    + rewrite source_buffer by done. by apply run_over_seen.
Qed.

Lemma run_draws_composite b r fb :
  visible hmem layers h (column h s 0 (nlayers h)) = b :: r ->
  run_draws (draws_of hmem layers h (b :: r)) fb =
  composite (lay' <$> column h s 0 (nlayers h)).
Proof using over_clear Hlay Hidx Hfn0.
  intros HV. destruct (visible_column hmem layers h s b r HV) as (Hb & Hdb & Hab).
  assert (Hcol : forall l, l ∈ column h s 0 (nlayers h) -> (l < nlayers h)%nat /\ drawn h s l = true).
  { intros l [Hd Hl]%list_elem_of_filter. apply elem_of_seq in Hl. split; [lia|done]. }
  assert (Hsome : forall l, (l < nlayers h)%nat -> drawn h s l = true -> layer_at layers h l <> None)
    by (intros l Hl Hd; by destruct (Hlay l Hl Hd) as (x & -> & _)).
  assert (Hr : Forall seen r).
  { apply Forall_lookup_2. intros i l Hl.
    pose proof (Forall_lookup_1 _ _ _ _ (visible_tail hmem layers h _ _ _ HV) Hl) as Hs. simpl in Hs.
    apply list_elem_of_lookup_2 in Hl. rewrite <- Hab in Hl. unfold above, column in Hl.
    apply list_elem_of_filter in Hl as [Hd Hl]. apply elem_of_seq in Hl.
    assert (Hln : (l < nlayers h)%nat) by lia.
    destruct (Hlay l Hln Hd) as (x & Hx & Hxo).
    assert (Hc : clears (lay' l) = false).
    { rewrite (lay_spec _ _ _ _ Hx). destruct (clears x) eqn:E; [|done].
      by rewrite (clears_stops hmem layers h l x) in Hs. }
    destruct (Hidx l Hln Hd Hc). repeat split; auto. }
  unfold composite. rewrite paint_visible.
  2:{ apply Forall_lookup_2. intros i l Hl%list_elem_of_lookup_2. apply Hcol in Hl as [? ?]. by apply Hsome. }
  rewrite HV, fmap_cons. cbn [foldl draws_of].
  destruct (clears (lay' b)) eqn:Hc.
  - unfold paint at 2. rewrite Hc. destruct r as [|x r]; [done|]. cbn [length Nat.eqb].
    apply Forall_cons_1 in Hr as [Hx Hr]. rewrite run_blend_draws by (done || apply Hx).
    rewrite fmap_cons. cbn [foldl]. by rewrite paint_seen, over_clear.
  - destruct (Hidx b Hb Hdb Hc) as [Hge Hne]. rewrite run_blend_draws by done.
    f_equal. unfold paint. rewrite Hc.
    destruct (default true (layer_stops hmem (hwc_layer (lay' b)))); [done|by rewrite over_clear].
Qed.

End Compositing.

(** * The whole screen *)

Section Output.
Context `{HwcApi} `{BvApi} {Hlaws : BvLaws}.
Variable hmem : Z -> option IMG_native_handle_t.

(** Every subregion of the region has its rectangles, and its drawn layers can
    be drawn. *)
Definition drawable (layers : list rgz_layer_t) (h : blit_hregion_t) : Prop :=
  (0 < nlayers h)%nat /\ forall s, (s < nsubregions h)%nat ->
    (forall l, (l < nlayers h)%nat -> is_Some (blitrect_at h l s)) /\
    (forall l, (l < nlayers h)%nat -> drawn h s l = true ->
       exists x, layer_at layers h l = Some x /\ layer_ok hmem x).

Definition visible_in (layers : list rgz_layer_t) (h : blit_hregion_t) (s : nat) : list nat :=
  visible hmem layers h (column h s 0 (nlayers h)).

(** What is drawn in a subregion, in a region and on the screen. *)
Definition subregion_draws (layers : list rgz_layer_t) (damaged : blit_rect_t) (h : blit_hregion_t)
    (s : nat) : list draw :=
  if needs_drawing layers h s damaged (visible_in layers h s)
  then draws_of hmem layers h (visible_in layers h s) else [].
Definition region_draws layers damaged h (s n : nat) : list draw :=
  mjoin (subregion_draws layers damaged h <$> seq s n).
Definition screen_draws layers damaged (hs : list blit_hregion_t) : list draw :=
  mjoin ((fun h => region_draws layers damaged h 0 (nsubregions h)) <$> hs).

Variables (layers : list rgz_layer_t) (params : rgz_out_params) (damaged : blit_rect_t).
Hypothesis Hcmd : IS_BVCMD params = true.
Hypothesis Hblend : noblend params = false.

Lemma region_blits_spec h n : forall s st,
  out_ok st -> drawable layers h -> (s + n <= nsubregions h)%nat ->
  (forall k, (k < nsubregions h)%nat -> visible_in layers h k <> []) ->
  exists st' es, region_blits hmem layers params h damaged s n st = Some (0, st') /\
    appended st st' es /\ draw_of <$> es = region_draws layers damaged h s n.
Proof using Hcmd Hblend Hlaws.
  induction n as [|n IH]; intros s st Hok Hdr Hsn Hne.
  { exists st, []. split; [done|]. split; [by apply appended_nil|done]. }
  cbn [region_blits]. destruct Hdr as [Hn Hdr]. destruct (Hdr s) as [Hr Hl]; [lia|].
  destruct (subregion_blit_spec hmem layers params h s Hcmd Hblend Hr Hl damaged st Hok Hn)
    as (st1 & es1 & -> & Hap1 & Hd1 & _).
  pose proof (Hne s ltac:(lia)) as HV. unfold visible_in in HV.
  destruct (visible hmem layers h (column h s 0 (nlayers h))) as [|b r] eqn:E; [done|].
  cbn [length Nat.eqb]. cbn [Z.eqb negb].
  destruct (IH (S s) st1) as (st2 & es2 & -> & Hap2 & Hd2);
    [by eapply appended_ok|by split|lia|done|].
  exists st2, (es1 ++ es2). split; [done|]. split; [by eapply appended_trans|].
  rewrite fmap_app, Hd1, Hd2. unfold region_draws. cbn [seq]. rewrite fmap_cons.
  cbn [mjoin list_join]. unfold subregion_draws at 2, visible_in. by rewrite E.
Qed.

Lemma regions_blits_spec hs : forall st,
  out_ok st -> Forall (drawable layers) hs ->
  Forall (fun h => forall k, (k < nsubregions h)%nat -> visible_in layers h k <> []) hs ->
  exists st' es, regions_blits hmem layers params damaged hs st = Some (0, st') /\
    appended st st' es /\ draw_of <$> es = screen_draws layers damaged hs.
Proof using Hcmd Hblend Hlaws.
  induction hs as [|h hs IH]; intros st Hok Hdr Hne.
  { exists st, []. split; [done|]. split; [by apply appended_nil|done]. }
  apply Forall_cons_1 in Hdr as [Hd Hdr]. apply Forall_cons_1 in Hne as [Hn Hne].
  cbn [regions_blits]. destruct (Nat.eqb_spec (nlayers h) 0) as [E|_]; [destruct Hd; lia|].
  destruct (region_blits_spec h (nsubregions h) 0 st Hok Hd) as (st1 & es1 & -> & Hap1 & Hd1); [lia|done|].
  cbn [Z.eqb negb]. destruct (IH st1) as (st2 & es2 & -> & Hap2 & Hd2);
    [by eapply appended_ok|done|done|].
  exists st2, (es1 ++ es2). split; [done|]. split; [by eapply appended_trans|].
  by rewrite fmap_app, Hd1, Hd2.
Qed.

(** The handles that are output. *)
Definition handles_of (fb : rgz_fb_state_t) : list Z :=
  (fun x => handle (hwc_layer x)) <$> filter (fun x => buffidx x <> -1) (drop 1 (fb_layers fb)).

Lemma push_handles_spec fb :
  fb_ok fb -> (rgz_layerno fb <= RGZ_INPUT_MAXLAYERS + 1)%nat ->
  push_handles fb = Some (handles_of fb).
Proof using Type.
  intros Hok Hmax. unfold push_handles, fb_ok in *.
  destruct (Nat.eq_dec (rgz_layerno fb) 0%nat) as [E|Hn].
  { unfold handles_of, fb_layers. by rewrite E. }
  edestruct (for_range_inv (fun k hs => (length hs < k)%nat /\ hs =
     (fun x => handle (hwc_layer x)) <$>
       filter (fun x => buffidx x <> -1) (drop 1 (take k (rgz_layers fb))))
     1 (rgz_layerno fb - 1)) as (hs & Hr & _ & Hs).
  3: { rewrite Hr, Hs. unfold handles_of, fb_layers.
       by replace (1 + (rgz_layerno fb - 1))%nat with (rgz_layerno fb) by lia. }
  - split; [cbn; lia|]. by destruct (rgz_layers fb).
  - intros k hs Hk [Hlen Hs]. destruct (lookup_lt_is_Some_2 (rgz_layers fb) k) as [x Hx]; [lia|].
    rewrite Hx, (take_S_r _ _ _ Hx), drop_app_le by (rewrite length_take; lia).
    rewrite list.filter_app, list.filter_cons, list.filter_nil, fmap_app, <- Hs.
    destruct (Z.eqb_spec (buffidx x) (-1)) as [E|E].
    + rewrite decide_False by auto. cbn. rewrite app_nil_r. eexists. split; [done|]. split; [lia|done].
    + rewrite decide_True by auto. rewrite arr_push_lt by lia. eexists. split; [done|].
      split; [rewrite length_app; cbn; lia|done].
Qed.

(** The last blit is a fence: it is not asynchronous. *)
Lemma finish_spec st st' es :
  out_ok st -> appended st st' es -> (0 < blts_idx st')%nat -> es <> [] ->
  exists st'' es', finish st' = Some st'' /\ appended st st'' es' /\
    blts_idx st'' = blts_idx st' /\ out_blits st'' = out_blits st' /\
    (forall A (f : rgz_blt_entry -> A), (forall e, f (rgz_set_async false e) = f e) -> f <$> es' = f <$> es) /\
    (forall e, list.last es' = Some e -> Z.land (p_flags (e_bp e)) BVFLAG_ASYNC = 0).
Proof using Hlaws.
  intros Hok Hap Hpos Hne. destruct es as [|e es _] using rev_ind; [done|].
  destruct (upd_last_spec st st' es e (rgz_set_async false) Hok Hap Hpos) as (st2 & Hu & Hap2 & Hi).
  exists st2, (es ++ [rgz_set_async false e]). split; [exact Hu|]. split; [done|]. split; [done|].
  split; [destruct Hap as (_ & _ & [Ho Hm] & _), Hap2 as (_ & _ & [Ho2 Hm2] & _); lia|].
  split; [intros A f Hf; by rewrite !fmap_app, !fmap_cons, Hf|].
  intros e'. rewrite last_snoc. intros [= <-]. cbn.
  by rewrite <- Z.land_assoc, (Z.land_comm (Z.lnot _)), Z.land_lnot_diag, Z.land_0_r.
Qed.

End Output.

Section OutRegion.
Context `{HwcApi} `{BvApi} {Hlaws : BvLaws}.
Variable hmem : Z -> option IMG_native_handle_t.

Lemma out_region_ok params rgz st hs :
  let layers := rgz_layers (cur_fb_state rgz) in
  IS_BVCMD params = true -> noblend params = false ->
  Z.land (state rgz) RGZ_REGION_DATA <> 0 -> hregions rgz = Some hs -> nhregions rgz = length hs ->
  fb_ok (cur_fb_state rgz) -> (rgz_layerno (cur_fb_state rgz) <= RGZ_INPUT_MAXLAYERS + 1)%nat ->
  Forall (drawable hmem layers) hs ->
  Forall (fun h => forall k, (k < nsubregions h)%nat -> visible_in hmem layers h k <> []) hs ->
  let N := length (screen_draws hmem layers (damaged_area rgz) hs) in
  exists st', rgz_out_region hmem rgz params st =
      Some (if (RGZ_MAX_BLITS <=? N)%nat then -1 else 0, st') /\
    out_hndls st' = handles_of (cur_fb_state rgz) /\
    cmdlen st' = blts_idx st' /\ blts_idx st' = Nat.min RGZ_MAX_BLITS N /\ out_blits st' = blts_idx st' /\
    ((N <= RGZ_MAX_BLITS)%nat -> draw_of <$> take (cmdlen st') (bvcmds st') = screen_draws hmem layers (damaged_area rgz) hs /\
       forall e, list.last (take (cmdlen st') (bvcmds st')) = Some e ->
         Z.land (p_flags (e_bp e)) BVFLAG_ASYNC = 0) /\
    exists st1 es, let st0 := set_out_blits 0 (rgz_blts_init st) in
      regions_blits hmem layers params (damaged_area rgz) hs st0 = Some (0, st1) /\ appended st0 st1 es /\
      ((N <= RGZ_MAX_BLITS)%nat -> forall A (f : rgz_blt_entry -> A), (forall e, f (rgz_set_async false e) = f e) ->
         f <$> take (cmdlen st') (bvcmds st') = f <$> es).
Proof using Hlaws.
  intros ls Hcmd Hblend Hst Hhs Hn Hfb Hmax Hdr Hne N.
  unfold rgz_out_region. rewrite (proj2 (Z.eqb_neq _ _) Hst), Hhs, Hn, firstn_all.
  set (st0 := set_out_blits 0 (rgz_blts_init st)).
  assert (Hok0 : out_ok st0) by (split; [apply length_replicate|cbn; lia]).
  destruct (regions_blits_spec hmem ls params (damaged_area rgz) Hcmd Hblend hs st0 Hok0 Hdr Hne) as (st1 & es1 & Hr1 & Hap1 & Hd1).
  fold ls. rewrite Hr1. cbn [Z.eqb negb]. rewrite push_handles_spec by done.
  assert (HN : length es1 = N) by (unfold N; by rewrite <- Hd1, length_fmap).
  pose proof Hap1 as (Hl1 & Hi1 & [Ho1 Hm1] & _ & _ & Ht1). rewrite HN in Hi1, Ht1.
  change (blts_idx st0) with 0%nat in Hi1, Ho1, Ht1. change (out_blits st0) with 0%nat in Ho1.
  rewrite Nat.add_0_l in Hi1, Ht1. rewrite take_0, app_nil_l in Ht1.
  set (st2 := set_handles _ st1).
  destruct (Nat.ltb_spec 0 (blts_idx st2)) as [Hpos|Hz].
  - assert (Hap2 : appended (set_handles (handles_of (cur_fb_state rgz)) st0) st2 es1)
      by (destruct Hap1 as (? & ? & ? & ? & ? & ?); by repeat split).
    destruct (finish_spec (set_handles (handles_of (cur_fb_state rgz)) st0) st2 es1 Hok0 Hap2 Hpos) as (st3 & es3 & -> & Hap3 & Hi3 & Ho3 & Hf3 & Hlast).
    { intros ->. change (blts_idx st2) with (blts_idx st1) in Hpos. cbn [length] in HN. lia. }
    assert (Hd3 : draw_of <$> es3 = draw_of <$> es1) by (apply Hf3; intros e; apply async_spec).
    exists (set_cmdlen st3). destruct Hap3 as (_ & _ & _ & Hh3 & _ & Ht3).
    cbn [blts_idx out_blits out_hndls set_handles st2] in Hh3, Hi3, Ho3.
    assert (Hlen : length es3 = N) by (by rewrite <- (length_fmap draw_of), Hd3, length_fmap).
    unfold out_rv. cbn [set_cmdlen out_blits out_hndls cmdlen blts_idx bvcmds].
    split; [|split; [done|split; [done|split; [lia|split; [lia|split; [|exists st1, es1; split; [done|split; [done|]]]]]]]].
    { rewrite Ho3. replace (out_blits st1) with (Nat.min RGZ_MAX_BLITS N) by lia.
      do 2 f_equal. destruct (Nat.leb_spec RGZ_MAX_BLITS N), (Nat.leb_spec RGZ_MAX_BLITS (Nat.min RGZ_MAX_BLITS N)); lia || done. }
    all: intros Hcap; rewrite Ht3 by (rewrite Hlen; exact Hcap);
      change (blts_idx (set_handles (handles_of (cur_fb_state rgz)) st0)) with 0%nat; rewrite take_0, app_nil_l.
    + rewrite Hd3, Hd1. by split.
    + exact Hf3.
  - exists (set_cmdlen st2). change (blts_idx st2) with (blts_idx st1) in Hz. unfold out_rv.
    assert (HN0 : N = 0%nat) by (unfold RGZ_MAX_BLITS, RGZ_SUBREGIONMAX, RGZ_MAXLAYERS in *; lia).
    cbn [set_cmdlen st2 set_handles out_blits out_hndls cmdlen blts_idx bvcmds].
    split; [|split; [done|split; [done|split; [lia|split; [lia|split; [|exists st1, es1; split; [done|split; [done|]]]]]]]].
    { replace (out_blits st1) with 0%nat by lia. by rewrite HN0. }
    all: intros _; replace (blts_idx st1) with 0%nat by lia; cbn [take].
    + split; [|done]. symmetry. apply nil_length_inv. exact HN0.
    + intros A f _. assert (es1 = []) as -> by (apply nil_length_inv; lia). done.
Qed.

End OutRegion.

(** * Subregions and pixels *)

(** The drawn layers of a subregion are the ones recorded for it. *)
Lemma column_subregion_layers fb h s :
  region_sound fb h -> (s < nsubregions h)%nat ->
  lay (rgz_layers fb) h <$> column h s 0 (nlayers h) =
  (fun j => default zero_layer (rgz_layers fb !! j)) <$> subregion_layers h s.
Proof.
  intros Hs Hlt. unfold column, subregion_layers.
  assert (Hall : Forall (fun l => (l < nlayers h)%nat) (seq 0 (nlayers h))).
  { apply Forall_lookup_2. intros i l Hl%list_elem_of_lookup_2. apply elem_of_seq in Hl. lia. }
  induction (seq 0 (nlayers h)) as [|l ls IH]; [done|].
  apply Forall_cons_1 in Hall as [Hl Hall]. rewrite list.filter_cons. cbn [omap list_omap].
  destruct (Hs l Hl) as [(j & Hj & _) Hrect]. destruct (Hrect s Hlt) as [r Hr].
  assert (Hd : drawn h s l = negb (empty_rect r)) by (unfold drawn; by rewrite Hr).
  rewrite Hr, Hj. destruct (empty_rect r); [rewrite decide_False by (by rewrite Hd); by apply IH|].
  rewrite decide_True by done. rewrite !fmap_cons. f_equal; [|by apply IH].
  unfold lay, layer_at. by rewrite Hj.
Qed.

Definition layers_at (fb : rgz_fb_state_t) (js : list nat) : list rgz_layer_t :=
  (fun j => default zero_layer (rgz_layers fb !! j)) <$> js.

(** The layers of the state can be drawn, and their buffer indices are not the
    reserved ones. *)
Definition fb_drawable `{HwcApi} `{BvApi} (hmem : Z -> option IMG_native_handle_t)
    (fb : rgz_fb_state_t) : Prop :=
  Forall (fun x => layer_ok hmem x /\
    (clears x = false -> 0 <= buffidx x /\ buffidx x <> HWC_BLT_DESC_FB_FN0)) (rgz_layers fb).

Lemma sound_drawable `{HwcApi} `{BvApi} hmem fb h :
  region_sound fb h -> fb_ok fb -> fb_drawable hmem fb -> (0 < nlayers h)%nat ->
  drawable hmem (rgz_layers fb) h.
Proof.
  intros Hs Hok Hf Hn. split; [done|]. intros s Hlt. split.
  - intros l Hl. destruct (Hs l Hl) as [_ Hr]. by apply Hr.
  - intros l Hl _. destruct (Hs l Hl) as [(j & Hj & Hjn) _]. unfold layer_at. rewrite Hj.
    destruct (lookup_lt_is_Some_2 (rgz_layers fb) j) as [x Hx]; [unfold fb_ok in Hok; lia|].
    exists x. split; [done|]. by destruct (Forall_lookup_1 _ _ _ _ Hf Hx).
Qed.

Section Claims.
Context `{HwcApi} `{BvApi} {Hlaws : BvLaws}.

(** C8: a subregion that has to be drawn is composited correctly: executing
    the entries that [rgz_hwc_subregion_blit] adds gives, at a pixel, what
    painting all the layers of the subregion from back to front over a clear
    screen gives, although hidden layers are left out, the background and the
    clear hints are not drawn and the two bottom layers may be blended in one
    blit.  A subregion that is neither damaged nor dirty gets no entry. *)
Theorem subregion_blit_composites hmem {Px : Type} (over : Px -> Px -> Px) (clear : Px) (img : Z -> Px)
    layers params h s damaged st b r :
  (forall p, over p clear = p) -> 0 <= HWC_BLT_DESC_FB_FN0 ->
  IS_BVCMD params = true -> noblend params = false -> out_ok st ->
  drawable hmem layers h -> (s < nsubregions h)%nat ->
  (forall l, (l < nlayers h)%nat -> drawn h s l = true -> clears (lay layers h l) = false ->
     0 <= bufidx layers h l /\ bufidx layers h l <> HWC_BLT_DESC_FB_FN0) ->
  visible_in hmem layers h s = b :: r ->
  exists st' es, rgz_hwc_subregion_blit hmem layers params h s damaged st = Some (0, st') /\
    appended st st' es /\
    (needs_drawing layers h s damaged (b :: r) = true ->
       forall fb, run_draws Px over clear img (draw_of <$> es) fb =
                  composite hmem Px over clear img (lay layers h <$> column h s 0 (nlayers h))) /\
    (needs_drawing layers h s damaged (b :: r) = false -> es = []).
Proof.
  intros Hover Hfn Hcmd Hbl Hok [Hn Hdr] Hs Hidx HV. destruct (Hdr s Hs) as [Hr Hl].
  destruct (subregion_blit_spec hmem layers params h s Hcmd Hbl Hr Hl damaged st Hok Hn)
    as (st' & es & Hblit & Hap & Hd & _).
  unfold visible_in in HV. rewrite HV in Hblit, Hd. exists st', es. split; [done|]. split; [done|].
  split; intros Hneed; rewrite Hneed in Hd.
  - intros fb. rewrite Hd. by apply (run_draws_composite hmem Px over clear img Hover layers h s).
  - by apply fmap_nil_inv in Hd.
Qed.

(** the entries added for a subregion form one well-formed batch: a single
    entry is not batched; otherwise the first entry begins the batch, the
    middle ones continue it and the last one ends it. *)
Lemma subregion_blit_batch hmem layers params h s damaged st :
  IS_BVCMD params = true -> noblend params = false -> out_ok st ->
  drawable hmem layers h -> (s < nsubregions h)%nat ->
  exists rv st' es, rgz_hwc_subregion_blit hmem layers params h s damaged st = Some (rv, st') /\
    appended st st' es /\ batch_bits <$> es = batch_pattern (length es).
Proof.
  intros Hcmd Hbl Hok [Hn Hdr] Hs. destruct (Hdr s Hs) as [Hr Hl].
  destruct (subregion_blit_spec hmem layers params h s Hcmd Hbl Hr Hl damaged st Hok Hn)
    as (st' & es & Hblit & Hap & _ & Hb).
  eexists _, st', es. by split.
Qed.

(** [rgz_out_region] writes the draws of all the subregions in order,
    outputs the handles of the layers that have one, makes the last blit
    synchronous, and reports failure exactly when the draws reach the capacity
    of the array; it never writes outside it. *)
Lemma rgz_out_region_correct hmem params rgz st hs :
  let layers := rgz_layers (cur_fb_state rgz) in
  IS_BVCMD params = true -> noblend params = false ->
  Z.land (state rgz) RGZ_REGION_DATA <> 0 -> hregions rgz = Some hs -> nhregions rgz = length hs ->
  fb_ok (cur_fb_state rgz) -> (rgz_layerno (cur_fb_state rgz) <= RGZ_INPUT_MAXLAYERS + 1)%nat ->
  Forall (drawable hmem layers) hs ->
  Forall (fun h => forall k, (k < nsubregions h)%nat -> visible_in hmem layers h k <> []) hs ->
  let N := length (screen_draws hmem layers (damaged_area rgz) hs) in
  exists st', rgz_out_region hmem rgz params st =
      Some (if (RGZ_MAX_BLITS <=? N)%nat then -1 else 0, st') /\
    out_hndls st' = handles_of (cur_fb_state rgz) /\
    cmdlen st' = blts_idx st' /\ blts_idx st' = Nat.min RGZ_MAX_BLITS N /\ out_blits st' = blts_idx st' /\
    ((N <= RGZ_MAX_BLITS)%nat ->
       draw_of <$> take (cmdlen st') (bvcmds st') = screen_draws hmem layers (damaged_area rgz) hs /\
       forall e, list.last (take (cmdlen st') (bvcmds st')) = Some e ->
         Z.land (p_flags (e_bp e)) BVFLAG_ASYNC = 0).
Proof.
  intros ls Hcmd Hbl Hst Hhs Hn Hfb Hmax Hdr Hne N.
  destruct (out_region_ok hmem params rgz st hs Hcmd Hbl Hst Hhs Hn Hfb Hmax Hdr Hne) as (st' & H1 & H2 & H3 & H4 & H5 & H6 & _).
  by exists st'.
Qed.

End Claims.

(** * A concrete platform *)

(** Values for the BltsVille constants that satisfy the laws. *)
#[export] Instance sample_bv : BvApi := {|
  OCDFMT_UNKNOWN := 0; OCDFMT_BGRA24 := 1; OCDFMT_BGR124 := 2; OCDFMT_RGB16 := 3;
  OCDFMT_RGBA24 := 4; OCDFMT_RGB124 := 5; OCDFMT_NV12 := 6; OCDFMT_YV12 := 7;
  BVFLAG_ROP := 0x1; BVFLAG_BLEND := 0x2; BVFLAG_CLIP := 0x40; BVFLAG_ASYNC := 0x100;
  BVFLAG_HORZ_FLIP_SRC1 := 0x10000; BVFLAG_VERT_FLIP_SRC1 := 0x20000;
  BVFLAG_HORZ_FLIP_SRC2 := 0x40000; BVFLAG_VERT_FLIP_SRC2 := 0x80000;
  BVFLAG_BATCH_MASK := 0x3000; BVFLAG_BATCH_BEGIN := 0x1000;
  BVFLAG_BATCH_CONTINUE := 0x2000; BVFLAG_BATCH_END := 0x3000;
  BVBATCH_OP := 0x1; BVBATCH_SRC1 := 0x2; BVBATCH_SRC1RECT_ORIGIN := 0x4; BVBATCH_SRC1RECT_SIZE := 0x8;
  BVBATCH_SRC2 := 0x10; BVBATCH_SRC2RECT_ORIGIN := 0x20; BVBATCH_SRC2RECT_SIZE := 0x40;
  BVBATCH_DST := 0x80; BVBATCH_DSTRECT_ORIGIN := 0x100; BVBATCH_DSTRECT_SIZE := 0x200;
  BVBATCH_SCALE := 0x400; BVBATCH_CLIPRECT := 0x800;
  BVBLEND_SRC1OVER := 1; BVSCALE_9x9_TAP := 1; BVSCALE_BILINEAR := 2;
  HWC_BLT_DESC_FB_FN0 := 0x80000000;
  SIZEOF_bvbuffdesc := 24; SIZEOF_bvsurfgeom := 32; SIZEOF_bvbltparams := 128
|}.

#[export] Instance sample_bv_laws : BvLaws.
Proof.
  split; try discriminate; try reflexivity;
    intros x Hx; rewrite !elem_of_cons in Hx;
    (repeat destruct Hx as [->|Hx]; [reflexivity..|]); by apply not_elem_of_nil in Hx.
Qed.

Definition sample_params : rgz_out_params :=
  mkOutParams RGZ_OUT_BVCMD_REGION (mkGeom 0 0 4 4 0 0) false.
Definition fresh_out : out_state := mkOut (replicate RGZ_MAX_BLITS zero_entry) 0 0 [] 0.

(** A background, an opaque layer and a blended one on top, in one region with
    one subregion. *)
Definition sample_layers : list rgz_layer_t :=
  [ mkLayer (mkHwcLayer 0 0 0 1 0 0 (mkRect 0 0 4 4) (mkRect 0 0 4 4)) 0 (-2) 2;
    mkLayer (mkHwcLayer 0 0 0 2 0 0 (mkRect 0 0 4 4) (mkRect 0 0 4 4)) 1 0 0;
    mkLayer (mkHwcLayer 0 0 0 2 0 0x105 (mkRect 0 0 4 4) (mkRect 0 0 4 4)) 2 1 2 ].
Definition sample_hregion : blit_hregion_t :=
  mkHregion (mkRect 0 0 4 4) [Some 0%nat; Some 1%nat; Some 2%nat] 3 1
            (replicate 3 [mkRect 0 0 4 4]).
Definition sample_region_rgz : rgz_t :=
  mkRgz (Some [sample_hregion]) 1 3 (mkFb 3 sample_layers) 0 [] zero_rect.

Lemma sample_drawable : drawable sample_hmem sample_layers sample_hregion.
Proof.
  split; [vm_compute; lia|]. intros s Hs. assert (s = 0%nat) as -> by (cbn in Hs; lia). split.
  - intros [|[|[|l]]] Hl; [by eexists..|cbn in Hl; lia].
  - intros [|[|[|l]]] Hl _; [| | |cbn in Hl; lia]; eexists; (split; [reflexivity|]);
      [discriminate|by eexists|by eexists].
Qed.

Lemma fresh_out_ok : out_ok fresh_out.
Proof. split; [apply length_replicate|cbn; lia]. Qed.

Lemma subregion_blit_composites_witness :
  exists st' es,
    rgz_hwc_subregion_blit sample_hmem sample_layers sample_params sample_hregion 0 zero_rect fresh_out
      = Some (0, st') /\ appended fresh_out st' es /\
    run_draws (list Z) app [] (fun i => [i]) (draw_of <$> es) [99] = [1; 0].
Proof.
  destruct (subregion_blit_composites sample_hmem app [] (fun i => [i]) sample_layers sample_params
              sample_hregion 0 zero_rect fresh_out 1%nat [2%nat])
    as (st' & es & Hr & Hap & Hd & _).
  - apply app_nil_r.
  - vm_compute. discriminate.
  - reflexivity.
  - reflexivity.
  - apply fresh_out_ok.
  - apply sample_drawable.
  - vm_compute. lia.
  - intros [|[|[|l]]] Hl _ Hc; [discriminate Hc|vm_compute; split; discriminate..|cbn in Hl; lia].
  - reflexivity.
  - exists st', es. split; [exact Hr|]. split; [exact Hap|]. rewrite Hd; reflexivity.
Defined.

Lemma subregion_blit_batch_witness :
  exists rv st' es,
    rgz_hwc_subregion_blit sample_hmem sample_layers sample_params sample_hregion 0 zero_rect fresh_out
      = Some (rv, st') /\ batch_bits <$> es = batch_pattern (length es).
Proof.
  destruct (subregion_blit_batch sample_hmem sample_layers sample_params sample_hregion 0 zero_rect fresh_out)
    as (rv & st' & es & Hr & _ & Hb); [reflexivity|reflexivity|apply fresh_out_ok|apply sample_drawable|vm_compute; lia|].
  exists rv, st', es. split; [exact Hr|exact Hb].
Defined.

Lemma rgz_out_region_correct_witness :
  exists st', rgz_out_region sample_hmem sample_region_rgz sample_params fresh_out = Some (0, st') /\
    cmdlen st' = 1%nat /\ out_hndls st' = [2; 2].
Proof.
  destruct (rgz_out_region_correct sample_hmem sample_params sample_region_rgz fresh_out [sample_hregion])
    as (st' & Hr & Hh & Hc & Hi & _).
  - reflexivity.
  - reflexivity.
  - discriminate.
  - reflexivity.
  - reflexivity.
  - vm_compute. lia.
  - vm_compute. lia.
  - constructor; [apply sample_drawable|constructor].
  - constructor; [|constructor]. intros k Hk. assert (k = 0%nat) as -> by (cbn in Hk; lia). discriminate.
  - exists st'. split; [exact Hr|]. split; [rewrite Hc, Hi; reflexivity|rewrite Hh; reflexivity].
Defined.

(** a layer that lies below the screen is accepted and regionized, but
    leaves a region without layers, for which [rgz_out_region] fails: the case
    that the code calls impossible, since the background covers the screen. *)
Lemma off_screen_layer_fails :
  let low := mkHwcLayer 0 0 0 2 0 0 (mkRect 0 0 4 4) (mkRect 0 10 4 14) in
  let p := mkInParams RGZ_IN_HWC (Some [low]) [1] 1 8 8 in
  exists rgz, rgz_in sample_hmem sample_bg_layer true p zero_rgz = Some (RGZ_ALL, rgz) /\
    exists st, rgz_out_region sample_hmem rgz sample_params fresh_out = Some (-1, st).
Proof. intros low p. eexists. split; [vm_compute; reflexivity|]. eexists. vm_compute. reflexivity. Qed.
