(* ===== verification/RgzScreen.v ===== *)
(** Regionizing and blit generation together (src/hwc/rgz_2d.c): the entries that [rgz_out_region] leaves, run by an engine that
    draws inside the rectangles of an entry, show at every pixel of the screen the layers that cover it. *)

From Stdlib Require Import ZArith Lia.
From stdpp Require Import base list list_numbers option tactics.
From S2P Require Import Prelude RgzSort RgzGeometry RgzRegion RgzState RgzBlit.
Local Open Scope Z_scope.

(** * Where an entry draws *)

(** The pixel (x, y) of the screen is in the destination and the clipping rectangle of an entry.  These are rectangles of the
    destination as it is turned: its orientation tells by how much, and its width and height are swapped for a quarter turn. *)
Definition entry_covers (e : rgz_blt_entry) (x y : Z) : bool :=
  let g := e_dstgeom e in
  let o := g_orientation g in
  let '(w, h) := if Z.rem o 180 =? 0 then (g_width g, g_height g) else (g_height g, g_width g) in
  let '(u, v) := rot_pixel w h o (x, y) in
  covers (rect_of (p_dstrect (e_bp e))) u v && covers (rect_of (p_cliprect (e_bp e))) u v.

(** The parts of an entry that tell where it draws. *)
Definition place (e : rgz_blt_entry) : Z * Z * Z * bvrect * bvrect :=
  (g_width (e_dstgeom e), g_height (e_dstgeom e), g_orientation (e_dstgeom e), p_dstrect (e_bp e), p_cliprect (e_bp e)).

Lemma covers_place e e' : place e' = place e -> forall x y, entry_covers e' x y = entry_covers e x y.
Proof. intros E x y. unfold entry_covers. injection E as E1 E2 E3 E4 E5. by rewrite E1, E2, E3, E4, E5. Qed.

Lemma rect_of_bvrect r : rect_of (bvrect_of r) = r.
Proof. destruct r. unfold rect_of, bvrect_of, WIDTH, HEIGHT. cbn. f_equal; lia. Qed.

Section Places.
Context `{HwcApi} `{BvApi}.
Variable hmem : Z -> option IMG_native_handle_t.
Variable params : rgz_out_params.

Lemma dst_data_covers r k e x y :
  entry_covers (rgz_set_dst_data params r (90 * k) e) x y = covers r x y && covers (rect_of (p_cliprect (e_bp e))) x y.
Proof.
  unfold rgz_set_dst_data. set (g := mkGeom _ _ _ _ _ _). set (e1 := with_bp (set_dstrect (bvrect_of r)) (set_dstgeom g e)).
  destruct (Z.eqb_spec (90 * k) 0) as [E|E]; cbn [negb].
  - unfold entry_covers, e1, g. cbn [with_bp set_dstgeom e_dstgeom e_bp set_dstrect p_dstrect p_cliprect g_orientation g_width g_height].
    rewrite E. cbn. by rewrite rect_of_bvrect.
  - unfold rgz_rotate_dst. change (e_dstgeom e1) with g.
    change (rect_of (p_dstrect (e_bp e1))) with (rect_of (bvrect_of r)).
    change (rect_of (p_cliprect (e_bp e1))) with (rect_of (p_cliprect (e_bp e))). rewrite rect_of_bvrect.
    set (o := mkRect 0 0 (g_width g) (g_height g)).
    set (d := rgz_get_rotated_view o r zero_rect (90 * k)). set (c := rgz_get_rotated_view o _ d (90 * k)).
    pose proof (rotated_view_covers o r zero_rect k x y) as Hd. pose proof (rotated_view_covers o (rect_of (p_cliprect (e_bp e))) d k x y) as Hc.
    fold d in Hd. fold c in Hc. cbn [o r_left r_top] in Hd, Hc. rewrite !Z.sub_0_r in Hd, Hc.
    replace (WIDTH o) with (g_width g) in Hd, Hc by (unfold o, WIDTH; cbn; lia).
    replace (HEIGHT o) with (g_height g) in Hd, Hc by (unfold o, HEIGHT; cbn; lia).
    rewrite <- Hd, <- Hc. unfold entry_covers.
    destruct (Z.eqb_spec (Z.rem (90 * k) 180) 0) as [Q|Q]; cbn [negb].
    + change (e_dstgeom (with_bp _ _)) with g. change (g_orientation g) with (90 * k). rewrite (proj2 (Z.eqb_eq _ _) Q).
      cbn [with_bp e_bp set_cliprect set_dstrect p_dstrect p_cliprect]. rewrite !rect_of_bvrect.
      by destruct (rot_pixel _ _ _ _).
    + change (e_dstgeom (set_dstgeom (swap_geom g) _)) with (swap_geom g). change (g_orientation (swap_geom g)) with (90 * k).
      rewrite (proj2 (Z.eqb_neq _ _) Q). cbn [swap_geom g_width g_height set_dstgeom with_bp e_bp set_cliprect set_dstrect p_dstrect p_cliprect].
      rewrite !rect_of_bvrect. by destruct (rot_pixel _ _ _ _).
Qed.

(** The entry draws at the pixels of [r]. *)
Definition lands (r : blit_rect_t) (e : rgz_blt_entry) : Prop := forall x y, entry_covers e x y = covers r x y.
(** The layer covers the pixels of [r]. *)
Definition shows (r : blit_rect_t) (l : rgz_layer_t) : Prop :=
  forall x y, covers r x y = true -> covers (displayFrame (hwc_layer l)) x y = true.
(** The rectangle is on the screen, whose sizes are unsigned words. *)
Definition on_screen (r : blit_rect_t) : Prop :=
  0 <= r_left r < r_right r /\ r_right r <= g_width (dstgeom params) /\
  0 <= r_top r < r_bottom r /\ r_bottom r <= g_height (dstgeom params) /\
  g_width (dstgeom params) < 2 ^ 32 /\ g_height (dstgeom params) < 2 ^ 32.

Lemma umin_small a b : 0 <= b <= a -> a < 2 ^ 32 -> umin a b = b.
Proof. intros Hb Ha. unfold umin. rewrite !(uwrap_small 32) by lia. destruct (Z.ltb_spec a b); lia. Qed.

Lemma clip_rect_spec r e : on_screen r -> p_cliprect (e_bp (rgz_set_clip_rect params r e)) = bvrect_of r.
Proof.
  intros (Hx & Hxw & Hy & Hyh & Hw & Hh). unfold rgz_set_clip_rect. cbn [with_bp e_bp set_cliprect p_cliprect].
  rewrite !umin_small, !Z.max_r by lia. by destruct r.
Qed.

Lemma dst_orientation t : (exists k, 360 - rgz_get_orientation t = 90 * k) /\ exists k, 0 = 90 * k.
Proof. destruct (orientation_quarter t) as (k & Hk & _). split; [exists (4 + k); lia|by exists 0]. Qed.

Lemma set_src_data_place l r o b e e' : rgz_set_src_data hmem l r o b e = Some e' -> place e' = place e.
Proof.
  unfold rgz_set_src_data. destruct (hmem _) as [hd|]; [|done].
  destruct (negb (o =? 0)); intros [= <-]; [|done]. unfold rgz_rotate_src. by destruct (negb (Z.rem o 180 =? 0)).
Qed.

Lemma draw_src1_lands r l e e' : on_screen r -> shows r l -> draw_src1 hmem params r l e = Some e' -> lands r e'.
Proof.
  intros Hr Hl HE x y. unfold draw_src1 in HE.
  assert (Hgo : forall tmp e1, (forall x y, covers r x y = true -> covers tmp x y = true) ->
    (let* nv12 := rgz_is_layer_nv12 hmem (hwc_layer l) in
     let o := rgz_get_orientation (transform (hwc_layer l)) in
     let '(so, dor) := if nv12 then (0, 360 - o) else (o, 0) in
     let* e := rgz_set_src_data hmem l tmp so false e1 in
     Some (rgz_set_dst_data params tmp dor (rgz_set_clip_rect params r e))) = Some e' -> entry_covers e' x y = covers r x y).
  { intros tmp e1 Ht E. destruct (rgz_is_layer_nv12 hmem (hwc_layer l)) as [nv12|]; [|done].
    destruct (dst_orientation (transform (hwc_layer l))) as [[k Hk] [k0 Hk0]]. cbv zeta in E. rewrite Hk, Hk0 in E.
    assert (Hc : forall k e2, entry_covers (rgz_set_dst_data params tmp (90 * k) (rgz_set_clip_rect params r e2)) x y = covers r x y).
    { intros k' e2. rewrite dst_data_covers, clip_rect_spec, rect_of_bvrect by done. destruct (covers r x y) eqn:C; [by rewrite Ht|by rewrite andb_false_r]. }
    destruct nv12; destruct (rgz_set_src_data _ _ _ _ _ _); try done; injection E as <-; apply Hc. }
  destruct (rgz_hwc_scaled (hwc_layer l)).
  - destruct (rgz_cfg_scale_mode hmem (hwc_layer l) e) as [e1|]; [|done]. refine (Hgo _ e1 _ HE). intros u v Huv%Hl.
    unfold rgz_get_displayframe_rect. by destruct (displayFrame (hwc_layer l)).
  - by refine (Hgo _ e _ HE).
Qed.

Lemma lands_place r e e' : place e' = place e -> lands r e -> lands r e'.
Proof. intros E L x y. by rewrite (covers_place _ _ E). Qed.

Lemma copy_entry_lands r l e e' : on_screen r -> shows r l -> copy_entry hmem params r l e = Some e' -> lands r e'.
Proof.
  intros Hr Hl HE. unfold copy_entry in HE. destruct (draw_src1 hmem params r l _) as [e1|] eqn:E; [|done]. injection HE as <-.
  eapply lands_place; [|by eapply draw_src1_lands]. by destruct (_ || _).
Qed.

Lemma blend_entry_lands r l l2 e e' : on_screen r -> shows r l -> blend_entry hmem params r l l2 e = Some e' -> lands r e'.
Proof.
  intros Hr Hl HE. unfold blend_entry in HE. destruct (draw_src1 hmem params r l _) as [e1|] eqn:E; [|done].
  apply (lands_place r e1); [|by eapply draw_src1_lands]. destruct l2 as [x|].
  - destruct (rgz_is_layer_nv12 hmem (hwc_layer x)); [|done]. by apply set_src_data_place in HE as ->.
  - by injection HE as <-.
Qed.

Lemma clrdst_entry_lands r e : on_screen r -> lands r (clrdst_entry params (Some r) e).
Proof.
  intros Hr x y. unfold clrdst_entry. etransitivity; [apply (dst_data_covers _ 0)|].
  replace (mkRect (r_left r) (r_top r) (r_right r) (r_bottom r)) with r by (by destruct r).
  rewrite clip_rect_spec, rect_of_bvrect by done. by rewrite andb_diag.
Qed.
End Places.

(** * Writing entries *)

Section Steps.
Context `{HwcApi} `{BvApi}.
Variable hmem : Z -> option IMG_native_handle_t.
Variable params : rgz_out_params.
Variable r : blit_rect_t.

(** What is written between two states draws at the pixels of [r]; the other entries draw where they did. *)
Definition steps (st st' : out_state) : Prop :=
  (blts_idx st <= blts_idx st')%nat /\
  forall i e', (i < blts_idx st')%nat -> bvcmds st' !! i = Some e' ->
    lands r e' \/ ((i < blts_idx st)%nat /\ exists e, bvcmds st !! i = Some e /\ forall x y, entry_covers e' x y = entry_covers e x y).

Lemma steps_refl st : steps st st.
Proof. split; [done|]. intros i e' Hi He. right. split; [done|]. by exists e'. Qed.

Lemma steps_trans st st1 st2 : steps st st1 -> steps st1 st2 -> steps st st2.
Proof.
  intros [I1 H1] [I2 H2]. split; [lia|]. intros i e' Hi He. destruct (H2 i e' Hi He) as [L|(Hi1 & e1 & He1 & E1)]; [by left|].
  destruct (H1 i e1 Hi1 He1) as [L|(Hi0 & e & He0 & E0)].
  - left. intros x y. by rewrite E1.
  - right. split; [done|]. exists e. split; [done|]. intros x y. by rewrite E1.
Qed.

Lemma steps_emit f st i st' : (forall e e', f e = Some e' -> lands r e') -> emit params f st = Some (i, st') -> steps st st'.
Proof.
  intros Hf He. unfold emit in He. destruct (rgz_blts_get params st) as [j st1] eqn:Eg.
  destruct (upd_entry j f st1) as [st2|] eqn:Eu; [|done]. injection He as <- <-.
  assert (bvcmds st1 = bvcmds st /\ ((j = blts_idx st /\ blts_idx st1 = S j) \/ blts_idx st1 = blts_idx st)) as [Hc Hi].
  { unfold rgz_blts_get in Eg. destruct (_ <? _)%nat; injection Eg as <- <-; cbn; auto. }
  unfold upd_entry in Eu. rewrite Hc in Eu. destruct (bvcmds st !! j) as [e0|] eqn:E0; [|done].
  destruct (f e0) as [e1|] eqn:E1; [|done]. injection Eu as <-. cbn. split; [cbn; lia|]. cbn. intros k e' Hk Hk'.
  destruct (decide (k = j)) as [->|Hne].
  - rewrite list_lookup_insert_eq in Hk' by (by eapply lookup_lt_Some). injection Hk' as <-. left. by eapply Hf.
  - rewrite list_lookup_insert_ne in Hk' by done. right. split; [lia|]. by exists e'.
Qed.

Lemma steps_upd i f st st' : (forall e e', f e = Some e' -> place e' = place e) -> upd_entry i f st = Some st' -> steps st st'.
Proof.
  intros Hf Hu. unfold upd_entry in Hu. destruct (bvcmds st !! i) as [e0|] eqn:E0; [|done].
  destruct (f e0) as [e1|] eqn:E1; [|done]. injection Hu as <-. split; [done|]. cbn. intros k e' Hk Hk'. right. split; [done|].
  destruct (decide (k = i)) as [->|Hne].
  - rewrite list_lookup_insert_eq in Hk' by (by eapply lookup_lt_Some). injection Hk' as <-. exists e0. split; [done|]. by apply covers_place, Hf.
  - rewrite list_lookup_insert_ne in Hk' by done. by exists e'.
Qed.

(** The new entries of a state. *)
Lemma steps_appended st st' es : out_ok st -> appended st st' es -> (blts_idx st + length es <= RGZ_MAX_BLITS)%nat -> steps st st' -> Forall (lands r) es.
Proof.
  intros [Hl Hi] (Hl' & Hi' & _ & _ & _ & Ht) Hcap [_ Hs]. specialize (Ht Hcap). apply Forall_lookup_2. intros k e Hk.
  pose proof (lookup_lt_Some _ _ _ Hk) as Hlt. assert (Hn : (blts_idx st + k < blts_idx st')%nat) by lia.
  assert (Hk' : bvcmds st' !! (blts_idx st + k)%nat = Some e).
  { rewrite <- (lookup_take_lt _ (blts_idx st')) by done. rewrite Ht, lookup_app_r by (rewrite length_take; lia).
    rewrite length_take, Nat.min_l by lia. by replace (blts_idx st + k - blts_idx st)%nat with k by lia. }
  destruct (Hs _ _ Hn Hk') as [L|[Hb _]]; [done|lia].
Qed.

Lemma batch_place flag set e e' : Some (rgz_batch_entry flag set e) = Some e' -> place e' = place e.
Proof. by intros [= <-]. Qed.
End Steps.

Ltac inv_let H :=
  repeat match type of H with
  | match ?c with Some _ => _ | None => None end = Some _ =>
      let E := fresh "E" in destruct c eqn:E; [|discriminate H]
  | (let '(_, _) := ?p in _) = Some _ => destruct p
  end.

Section SubregionSteps.
Context `{HwcApi} `{BvApi}.
Variable hmem : Z -> option IMG_native_handle_t.
Variables (layers : list rgz_layer_t) (params : rgz_out_params) (h : blit_hregion_t) (s : nat) (r : blit_rect_t).
(** A layer that is drawn in the subregion. *)
Definition here (l : nat) : Prop := (l < nlayers h)%nat /\ drawn h s l = true.
Hypothesis Hscreen : on_screen params r.
Hypothesis Hshows : forall l x, here l -> layer_at layers h l = Some x -> shows r x.
Hypothesis Hrect : forall l r', here l -> blitrect_at h l s = Some r' -> r' = r.
Hypothesis Hblend : noblend params = false.

Notation steps := (steps r).

Lemma next_from_here l n m : next_from h s l n = Some (Some m) -> (l + n <= nlayers h)%nat -> here m.
Proof.
  revert l. induction n as [|n IH]; intros l E Hn; [done|]. cbn [next_from] in E.
  destruct (blitrect_at h l s) as [r'|] eqn:Er; [|done]. destruct (negb (empty_rect r')) eqn:En; [|eapply IH; [done|lia]].
  injection E as <-. split; [lia|]. unfold drawn. by rewrite Er.
Qed.
Lemma next_here l m : (l < nlayers h)%nat -> get_layer_ops_next h s l = Some (Some m) -> here m.
Proof. intros Hl E. eapply next_from_here; [exact E|lia]. Qed.

Lemma ops_from_here l ops bottom n m : get_layer_ops_from hmem layers h s l ops bottom = Some (n, Some m) -> (l < nlayers h)%nat ->
  (forall b, bottom = Some b -> here b) -> here m.
Proof.
  revert ops bottom. induction l as [|l IH]; intros ops bottom E Hl Hb; cbn [get_layer_ops_from] in E;
    (destruct (blitrect_at h _ s) as [r'|] eqn:Er; [|done]);
    (assert (Hd : negb (empty_rect r') = true -> here _) by (intros Ek; split; [exact Hl|]; unfold drawn; rewrite Er; exact Ek));
    destruct (negb (empty_rect r')).
  - destruct (layer_at layers h 0); [|done]. destruct (layer_stops hmem _) as [b|]; [|done].
    destruct b; injection E as <- <-; by apply Hd.
  - injection E as <- ->. by apply Hb.
  - destruct (layer_at layers h (S l)); [|done]. destruct (layer_stops hmem _) as [b|]; [|done].
    destruct b; [injection E as <- <-; by apply Hd|]. eapply IH; [exact E|lia|]. intros ? [= <-]. by apply Hd.
  - eapply IH; [done|lia|done].
Qed.

Lemma copy_steps x st i st' : shows r x -> rgz_hwc_subregion_copy hmem params r x st = Some (i, st') -> steps st st'.
Proof. intros Hx. apply steps_emit. intros e e'. by apply copy_entry_lands. Qed.
Lemma blend_steps x x2 st i st' : shows r x -> rgz_hwc_subregion_blend hmem params r x x2 st = Some (i, st') -> steps st st'.
Proof. intros Hx. apply steps_emit. intros e e'. by apply blend_entry_lands. Qed.
Lemma clear_steps st i st' : rgz_out_clrdst params (Some r) st = Some (i, st') -> steps st st'.
Proof. apply steps_emit. intros e e' [= <-]. by apply clrdst_entry_lands. Qed.

Lemma blend_rest_steps fuel : forall lix first ps pn e st e' st',
  (forall l, lix = Some l -> here l) ->
  blend_rest hmem layers params h s r lix first ps pn e st fuel = Some (e', st') -> steps st st'.
Proof.
  induction fuel as [|fuel IH]; intros lix first ps pn e st e' st' Hd E; (destruct lix as [l|]; cbn [blend_rest] in E).
  - done.
  - injection E as <- <-. apply steps_refl.
  - inv_let E. eapply steps_trans; [eapply blend_steps; [|done]; eapply Hshows; [by apply Hd|done]|].
    eapply steps_trans; [eapply steps_upd; [|done]; intros ? ?; apply batch_place|]. eapply IH; [|exact E].
    intros l' ->. eapply next_here; [|done]. by apply Hd.
  - injection E as <- <-. apply steps_refl.
Qed.

Lemma blend_layers_steps lix st st' : here lix -> blend_layers hmem layers params h s lix st = Some st' -> steps st st'.
Proof.
  intros Hd E. unfold blend_layers in E. inv_let E. destruct o as [l1|]; [|done]. inv_let E.
  pose proof (Hrect _ _ Hd E0) as ->. pose proof (next_here _ _ (proj1 Hd) E1) as Hd1.
  assert (steps st o0 /\ here n0) as [S0 Hd0].
  { destruct b0; inv_let E6.
    - injection E6 as <- <- <- <- <- <-. split; [|done]. eapply blend_steps; [|done]. eapply Hshows; [exact Hd1|done].
    - injection E6 as <- <- <- <- <- <-. split; [|done]. eapply copy_steps; [|done]. eapply Hshows; [exact Hd|done]. }
  eapply steps_trans; [exact S0|]. eapply steps_trans; [eapply steps_upd; [|done]; intros ? ?; apply batch_place|].
  eapply steps_trans; [eapply blend_rest_steps; [|done]; intros l ->; eapply next_here; [apply Hd0|done]|].
  eapply steps_upd; [|done]. intros x x' [= <-]. by destruct (negb _).
Qed.

Lemma copy_layer_steps lix st st' : here lix -> copy_layer hmem layers params h s lix st = Some st' -> steps st st'.
Proof.
  intros Hd E. unfold copy_layer in E. rewrite Hblend in E. inv_let E. injection E as <-.
  pose proof (Hrect _ _ Hd E0) as ->. eapply copy_steps; [|done]. by eapply Hshows.
Qed.

Lemma draw_subregion_steps ldepth lix st st' : here lix ->
  draw_subregion hmem layers params h s ldepth lix st = Some st' -> steps st st'.
Proof.
  intros Hd E. unfold draw_subregion in E.
  assert (Hclear : forall l st st', here l ->
    (let* r := blitrect_at h l s in let* (_, st) := rgz_out_clrdst params (Some r) st in Some st) = Some st' -> steps st st').
  { intros l st0 st1 Hl E0. inv_let E0. injection E0 as <-. pose proof (Hrect _ _ Hl E1) as ->. by eapply clear_steps. }
  assert (Hend : forall d l st st', here l ->
    (if negb (noblend params) && (1 <? d)%nat then blend_layers hmem layers params h s l st else copy_layer hmem layers params h s l st) = Some st' ->
    steps st st').
  { intros d l st0 st1 Hl E0. destruct (_ && _); [by eapply blend_layers_steps|by eapply copy_layer_steps]. }
  assert (Hskip : forall (b : bool) d l d' l', here l ->
    (if b then let* m := (let* n := get_layer_ops_next h s l in n) in Some ((d - 1)%nat, m) else Some (d, l)) = Some (d', l') -> here l').
  { intros b d l d' l' Hl E0. destruct b; [|injection E0 as <- <-; exact Hl]. destruct (get_layer_ops_next h s l) as [[n|]|] eqn:En; [|done..].
    injection E0 as <- <-. eapply next_here; [apply Hl|done]. }
  destruct (layer_at layers h lix) as [x|]; [|done]. destruct (_ && _); [eapply Hclear; [exact Hd|exact E]|].
  match type of E with (let* _ := ?c in _) = _ => destruct c as [[d1 l1]|] eqn:E1; [|done] end. apply (Hskip _ _ _ _ _ Hd) in E1.
  destruct (layer_at layers h l1) as [x1|]; [|done]. destruct (_ && _); [eapply Hclear; [exact E1|exact E]|].
  match type of E with (let* _ := ?c in _) = _ => destruct c as [[d2 l2]|] eqn:E2; [|done] end. apply (Hskip _ _ _ _ _ E1) in E2.
  eapply Hend; [exact E2|exact E].
Qed.

Lemma subregion_blit_steps damaged st rv st' : rgz_hwc_subregion_blit hmem layers params h s damaged st = Some (rv, st') -> steps st st'.
Proof.
  intros E. unfold rgz_hwc_subregion_blit in E. destruct (get_layer_ops hmem layers h s) as [[n lix]|] eqn:Eo; [|done].
  destruct (n =? 0)%nat; [injection E as <- <-; apply steps_refl|]. destruct lix as [l|]; [|done].
  destruct (blitrect_at h l s) as [rect|]; [|done].
  match type of E with (let* _ := ?c in _) = _ => destruct c as [dirty|]; [|done] end.
  destruct dirty; cbn [negb] in E; [|injection E as <- <-; apply steps_refl].
  destruct (draw_subregion _ _ _ _ _ _ _ _) as [st1|] eqn:E1; [|done]. injection E as <- <-. eapply draw_subregion_steps; [|exact E1].
  unfold get_layer_ops in Eo. destruct (nlayers h) as [|k] eqn:Ek; [done|]. eapply ops_from_here; [done|lia|done].
Qed.
End SubregionSteps.

(** * An engine at a pixel *)

Section Screen.
Context `{HwcApi} `{BvApi} {Hlaws : BvLaws}.
Variable hmem : Z -> option IMG_native_handle_t.
Context {Px : Type} (over : Px -> Px -> Px) (clear : Px) (img : Z -> Px).
Variables (layers : list rgz_layer_t) (params : rgz_out_params) (damaged : blit_rect_t).

(** The entries in order, each where it draws. *)
Definition run_at (x y : Z) (es : list rgz_blt_entry) (p : Px) : Px :=
  foldl (fun p e => if entry_covers e x y then run_draw Px over clear img p (draw_of e) else p) p es.

Lemma run_at_app x y es1 es2 p : run_at x y (es1 ++ es2) p = run_at x y es2 (run_at x y es1 p).
Proof. apply foldl_app. Qed.

Lemma run_at_lands r x y es p : Forall (lands r) es ->
  run_at x y es p = if covers r x y then run_draws Px over clear img (draw_of <$> es) p else p.
Proof.
  revert p. induction es as [|e es IH]; intros p L; [by destruct (covers r x y)|].
  apply Forall_cons_1 in L as [Le L]. unfold run_at, run_draws in *. rewrite fmap_cons. cbn [foldl]. rewrite Le, IH by done.
  by destruct (covers r x y).
Qed.

(** Only where an entry draws and what it draws count. *)
Lemma run_at_same x y es es' p : (fun e => (place e, draw_of e)) <$> es = (fun e => (place e, draw_of e)) <$> es' -> run_at x y es p = run_at x y es' p.
Proof.
  revert es' p. induction es as [|e es IH]; intros [|e' es'] p E; [done..|]. rewrite !fmap_cons in E. apply (inj2 cons) in E as [Ee E].
  pose proof (f_equal fst Ee) as Ep. pose proof (f_equal snd Ee) as Ed. cbn [fst snd] in Ep, Ed.
  unfold run_at in *. cbn [foldl]. rewrite (covers_place _ _ Ep), Ed. by apply IH.
Qed.

(** What a subregion of the regions [hs] makes of the pixel (x, y), and all of them. *)
Definition draw_at (x y : Z) (h : blit_hregion_t) (p : Px) (s : nat) : Px :=
  if subregion_covers h s x y then run_draws Px over clear img (subregion_draws hmem layers damaged h s) p else p.
Definition draw_region (x y : Z) (p : Px) (h : blit_hregion_t) : Px := foldl (draw_at x y h) p (seq 0 (nsubregions h)).

(** The subregions have rectangles on the screen, where their layers show. *)
Definition placed (h : blit_hregion_t) : Prop :=
  forall s, (s < nsubregions h)%nat -> exists r, on_screen params r /\
    (forall x y, subregion_covers h s x y = covers r x y) /\
    (forall l x, here h s l -> layer_at layers h l = Some x -> shows r x) /\
    (forall l r', here h s l -> blitrect_at h l s = Some r' -> r' = r).

Hypothesis Hcmd : IS_BVCMD params = true.
Hypothesis Hblend : noblend params = false.

Lemma region_at h n : forall s st, out_ok st -> drawable hmem layers h -> placed h -> (s + n <= nsubregions h)%nat ->
  (forall k, (k < nsubregions h)%nat -> visible_in hmem layers h k <> []) ->
  exists st' es, region_blits hmem layers params h damaged s n st = Some (0, st') /\ appended st st' es /\
    draw_of <$> es = region_draws hmem layers damaged h s n /\
    ((blts_idx st + length es <= RGZ_MAX_BLITS)%nat -> forall x y p, run_at x y es p = foldl (draw_at x y h) p (seq s n)).
Proof using Hcmd Hblend Hlaws.
  induction n as [|n IH]; intros s st Hok Hdr Hpl Hsn Hne.
  { exists st, []. split; [done|]. split; [by apply appended_nil|]. by split. }
  cbn [region_blits]. pose proof Hdr as [Hn Hd]. destruct (Hd s) as [Hr Hl]; [lia|].
  destruct (subregion_blit_spec hmem layers params h s Hcmd Hblend Hr Hl damaged st Hok Hn) as (st1 & es1 & Hb1 & Hap1 & Hd1 & _).
  rewrite Hb1. pose proof (Hne s ltac:(lia)) as HV. unfold visible_in in HV.
  destruct (visible hmem layers h (column h s 0 (nlayers h))) as [|b V] eqn:E; [done|]. cbn [length Nat.eqb Z.eqb negb] in *.
  destruct (IH (S s) st1) as (st2 & es2 & -> & Hap2 & Hd2 & Hrun2); [by eapply appended_ok|done|done|lia|done|].
  assert (Hds : draw_of <$> es1 = subregion_draws hmem layers damaged h s) by (unfold subregion_draws, visible_in; by rewrite E).
  exists st2, (es1 ++ es2). split; [done|]. split; [by eapply appended_trans|]. split.
  { rewrite fmap_app, Hds, Hd2. done. }
  rewrite length_app. intros Hcap x y p. rewrite run_at_app. cbn [seq foldl].
  rewrite Hrun2 by (destruct Hap1 as (_ & Hi1 & _); lia). f_equal.
  destruct (Hpl s) as (r & Hscr & Hcov & Hshow & Hrect); [lia|].
  rewrite (run_at_lands r), <- Hcov, Hds; [done|]. apply (steps_appended r st st1); [done|done|lia|].
  by eapply subregion_blit_steps.
Qed.

Lemma regions_at hs : forall st, out_ok st -> Forall (drawable hmem layers) hs -> Forall placed hs ->
  Forall (fun h => forall k, (k < nsubregions h)%nat -> visible_in hmem layers h k <> []) hs ->
  exists st' es, regions_blits hmem layers params damaged hs st = Some (0, st') /\ appended st st' es /\
    draw_of <$> es = screen_draws hmem layers damaged hs /\
    ((blts_idx st + length es <= RGZ_MAX_BLITS)%nat -> forall x y p, run_at x y es p = foldl (draw_region x y) p hs).
Proof using Hcmd Hblend Hlaws.
  induction hs as [|h hs IH]; intros st Hok Hdr Hpl Hne.
  { exists st, []. split; [done|]. split; [by apply appended_nil|]. by split. }
  apply Forall_cons_1 in Hdr as [Hd Hdr]. apply Forall_cons_1 in Hne as [Hn Hne]. apply Forall_cons_1 in Hpl as [Hp Hpl].
  cbn [regions_blits]. destruct (Nat.eqb_spec (nlayers h) 0) as [E|_]; [destruct Hd; lia|].
  destruct (region_at h (nsubregions h) 0 st Hok Hd Hp) as (st1 & es1 & -> & Hap1 & Hd1 & Hrun1); [lia|done|].
  cbn [Z.eqb negb]. destruct (IH st1) as (st2 & es2 & -> & Hap2 & Hd2 & Hrun2); [by eapply appended_ok|done|done|done|].
  exists st2, (es1 ++ es2). split; [done|]. split; [by eapply appended_trans|]. split; [by rewrite fmap_app, Hd1, Hd2|].
  rewrite length_app. intros Hcap x y p. rewrite run_at_app. cbn [foldl].
  rewrite Hrun2 by (destruct Hap1 as (_ & Hi1 & _); lia). by rewrite Hrun1 by lia.
Qed.

(** Only the subregion of the pixel draws there. *)
Lemma draw_region_elsewhere x y h p : (forall s, subregion_covers h s x y = false) -> draw_region x y p h = p.
Proof.
  intros Hs. unfold draw_region. generalize (seq 0 (nsubregions h)) as l. intros l. revert p. induction l as [|s l IH]; intros p; [done|].
  cbn [foldl]. unfold draw_at at 2. by rewrite Hs, IH.
Qed.
Lemma draw_region_here x y h s p : subregion_covers h s x y = true -> (forall s', subregion_covers h s' x y = true -> s' = s) ->
  draw_region x y p h = run_draws Px over clear img (subregion_draws hmem layers damaged h s) p.
Proof.
  intros Hs Hu. assert (Hlt : (s < nsubregions h)%nat) by (unfold subregion_covers in Hs; apply andb_true_iff in Hs as [Hs _]; by apply Nat.ltb_lt).
  unfold draw_region. replace (nsubregions h) with (s + S (nsubregions h - S s))%nat by lia. rewrite seq_app, foldl_app. cbn [seq foldl Nat.add].
  assert (Hid : forall l q, s ∉ l -> foldl (draw_at x y h) q l = q).
  { induction l as [|k l IH]; intros q Hl; [done|]. apply not_elem_of_cons in Hl as [Hk Hl]. cbn [foldl]. unfold draw_at at 2.
    destruct (subregion_covers h k x y) eqn:E; [by apply Hu in E; congruence|]. by apply IH. }
  rewrite !Hid; [by unfold draw_at; rewrite Hs|rewrite elem_of_seq; lia..].
Qed.
Lemma draw_regions_here x y hs i h s p : hs !! i = Some h -> subregion_covers h s x y = true ->
  (forall i' h' s', hs !! i' = Some h' -> subregion_covers h' s' x y = true -> i' = i /\ s' = s) ->
  foldl (draw_region x y) p hs = run_draws Px over clear img (subregion_draws hmem layers damaged h s) p.
Proof.
  intros Hi Hs Hu. assert (Hid : forall l o q, (forall k h', l !! k = Some h' -> hs !! (o + k)%nat = Some h') -> (i < o \/ o + length l <= i)%nat ->
    foldl (draw_region x y) q l = q).
  { induction l as [|h' l IH]; intros o q Hl Ho; [done|]. cbn [foldl length] in *. rewrite draw_region_elsewhere.
    - apply (IH (S o)); [|lia]. intros k h'' Hk. replace (S o + k)%nat with (o + S k)%nat by lia. by apply Hl.
    - intros s'. destruct (subregion_covers h' s' x y) eqn:E; [|done]. destruct (Hu o h' s') as [-> _]; [|done|lia].
      rewrite <- (Nat.add_0_r o). by apply Hl. }
  rewrite <- (take_drop_middle _ _ _ Hi), foldl_app. cbn [foldl]. rewrite (Hid (take i hs) 0%nat); [|intros k h' Hk; by apply lookup_take_Some in Hk as [Hk _]|rewrite length_take; lia].
  rewrite (draw_region_here x y h s) by (try done; intros s' Hs'; by apply (Hu i h s')).
  apply (Hid _ (S i)); [|lia]. intros k h' Hk. rewrite lookup_drop in Hk. done.
Qed.
End Screen.

(** * The regions of [rgz_in_hwc] *)

Section Frame.
Context `{HwcApi} `{BvApi} {Hlaws : BvLaws}.
Variable hmem : Z -> option IMG_native_handle_t.
Variables (params : rgz_out_params) (rgz : rgz_t).
Let W := g_width (dstgeom params).
Let H' := g_height (dstgeom params).
Let fb := cur_fb_state rgz.

Lemma subregion_at_here h s r l r' : subregion_at W H' h s r -> here h s l -> blitrect_at h l s = Some r' -> r' = r.
Proof.
  intros [_ _ _ _ Hr] [Hl Hd] E. destruct (Hr l r' Hl E) as [->| ->]; [done|]. unfold drawn in Hd. by rewrite E in Hd.
Qed.

Lemma background_here h s r : subregion_at W H' h s r -> here h s 0.
Proof.
  intros [Hx _ Hn [_ Hb] _]. split; [done|]. unfold drawn. rewrite Hb. unfold empty_rect.
  destruct (Z.eqb_spec (r_right r) 0); [lia|]. by rewrite !andb_false_r.
Qed.

(** Every subregion shows something: at least the background. *)
Lemma visible_nonempty h s r : subregion_at W H' h s r -> visible_in hmem (rgz_layers fb) h s <> [].
Proof.
  intros Hr. destruct (background_here h s r Hr) as [Hn Hd]. unfold visible_in.
  assert (Hvn : forall P, P <> [] -> visible hmem (rgz_layers fb) h P <> []).
  { clear. induction P as [|q P IH]; [done|]. intros _. cbn [visible]. destruct (existsb _ P) eqn:E; [|done]. apply IH. by intros ->. }
  apply Hvn. intros E. assert (Hin : 0%nat ∈ column h s 0 (nlayers h)); [|rewrite E in Hin; by apply not_elem_of_nil in Hin].
  apply list_elem_of_filter. split; [done|]. apply elem_of_seq. lia.
Qed.

Lemma region_placed hs i h : W < 2 ^ 32 -> H' < 2 ^ 32 -> exact_regions fb W H' hs -> hs !! i = Some h -> region_sound fb h ->
  (forall s, (s < nsubregions h)%nat -> exists r, subregion_at W H' h s r) -> placed (rgz_layers fb) params h.
Proof.
  intros HW HH Hex Hi Hs Hr s Hlt. destruct (Hr s Hlt) as [r Hat]. exists r.
  pose proof (fun x y => subregion_at_covers W H' h s r x y Hat Hlt) as Hcov.
  split; [destruct Hat; unfold on_screen; fold W H'; lia|]. split; [done|]. split; [|intros l r'; by apply subregion_at_here].
  intros l x [Hl Hd] Hx u v Huv. destruct Hat as [Hux Hvy _ _ _]. pose proof Huv as Hb%covers_spec.
  destruct (Hex u v) as (i' & h' & s' & Hi' & Hc' & Hsl & Hu); [lia|lia|].
  destruct (Hu i h s Hi) as [<- <-]; [by rewrite Hcov|]. rewrite Hi in Hi'. injection Hi' as <-.
  unfold layer_at in Hx. destruct (h_layers h !! l) as [[j|]|] eqn:Ej; [|done|done].
  assert (Hin : j ∈ subregion_layers h s).
  { unfold subregion_layers. apply list_elem_of_omap. exists l. split; [apply elem_of_seq; lia|].
    unfold drawn in Hd. destruct (blitrect_at h l s) as [r'|]; [|done]. rewrite Ej. by destruct (empty_rect r'). }
  rewrite Hsl in Hin. apply list_elem_of_filter in Hin as [Hin _]. unfold frame_of in Hin. by rewrite Hx in Hin.
Qed.
End Frame.

Section Claim.
Context `{HwcApi} `{BvApi} {Hlaws : BvLaws}.
Variable hmem : Z -> option IMG_native_handle_t.
Context {Px : Type} (over : Px -> Px -> Px) (clear : Px) (img : Z -> Px).
Variable params : rgz_out_params.
Hypothesis over_clear : forall p, over p clear = p.
Hypothesis Hfn0 : 0 <= HWC_BLT_DESC_FB_FN0.

(** The draws of the subregion of a pixel composite the layers that cover it. *)
Lemma subregion_composites fb damaged h s r x y p :
  fb_ok fb -> fb_drawable hmem fb -> region_sound fb h -> (0 < nlayers h)%nat -> (s < nsubregions h)%nat ->
  visible_in hmem (rgz_layers fb) h s <> [] -> subregion_layers h s = pixel_layers fb x y ->
  subregion_covers h s x y = true -> (forall l r', here h s l -> blitrect_at h l s = Some r' -> r' = r) -> covers r x y = true ->
  let needs := needs_drawing (rgz_layers fb) h s damaged (visible_in hmem (rgz_layers fb) h s) in
  run_draws Px over clear img (subregion_draws hmem (rgz_layers fb) damaged h s) p =
    (if needs then composite hmem Px over clear img (layers_at fb (pixel_layers fb x y)) else p) /\
  (covers damaged x y = true -> needs = true).
Proof.
  intros Hok Hfd Hs Hn Hlt Hne Hsl Hc Hrect Hr needs. destruct (sound_drawable hmem fb h Hs Hok Hfd Hn) as [_ Hdr].
  destruct (Hdr s Hlt) as [Hrects Hlay]. unfold subregion_draws. fold needs. unfold visible_in in *.
  destruct (visible hmem (rgz_layers fb) h (column h s 0 (nlayers h))) as [|b V] eqn:HV; [done|]. split.
  - destruct needs; [|done]. unfold layers_at. rewrite <- Hsl, <- column_subregion_layers by done.
    apply (run_draws_composite hmem Px over clear img over_clear (rgz_layers fb) h s); [done| |done|done].
    intros l' Hl' Hd Hcl. destruct (Hlay l' Hl' Hd) as (z & Hz & _). unfold bufidx in *. rewrite (lay_spec _ _ _ _ Hz) in *.
    unfold layer_at in Hz. destruct (h_layers h !! l') as [[j|]|]; [|done|done].
    destruct (Forall_lookup_1 _ _ _ _ Hfd Hz) as [_ Hb]. by apply Hb.
  - intros Hd. destruct (visible_column hmem (rgz_layers fb) h s b V HV) as (Hb & Hdb & _). unfold needs. cbn [needs_drawing].
    destruct (Hrects b Hb) as [r' Er]. rewrite Er, (Hrect b r') by done.
    apply covers_spec in Hd. apply covers_spec in Hr. rewrite (proj2 (intersects_spec _ _)); [done|lia].
Qed.

(** C1: Regionizing a frame and generating its blits shows every pixel right.  When the frames and the damaged area are on the
    screen, [rgz_in_hwc] and [rgz_out_region] run into no access out of bounds, and the latter succeeds with fewer draws than the array of
    entries has room for.  When the array holds the draws, the entries left, executed in order and each inside its destination and
    clipping rectangle, give a pixel of the damaged area what painting all layers that cover it from back to front over a clear
    screen gives; any other pixel gets that or stays as it was, when nothing in its subregion needs drawing.  Blending is on and
    the coordinates do not wrap around. *)
Theorem pixel_composited rgz st :
  let W := g_width (dstgeom params) in let H' := g_height (dstgeom params) in let fb := cur_fb_state rgz in
  IS_BVCMD params = true -> noblend params = false -> 0 < W < 2 ^ 32 -> H' < 2 ^ 32 ->
  Z.land (state rgz) RGZ_STATE_INIT <> 0 -> fb_wf fb -> has_background fb W H' -> fb_drawable hmem fb ->
  rect_on_screen W H' (damaged_area rgz) -> frames_within W H' fb ->
  exists hs rgz' st', rgz_in_hwc W H' true rgz = Some (0, rgz') /\ hregions rgz' = Some hs /\
    let N := length (screen_draws hmem (rgz_layers fb) (damaged_area rgz) hs) in
    rgz_out_region hmem rgz' params st = Some (if (RGZ_MAX_BLITS <=? N)%nat then -1 else 0, st') /\
    ((N <= RGZ_MAX_BLITS)%nat -> forall x y p, 0 <= x < W -> 0 <= y < H' ->
       let shown := run_at over clear img x y (take (cmdlen st') (bvcmds st')) p in
       let painted := composite hmem Px over clear img (layers_at fb (pixel_layers fb x y)) in
       (covers (damaged_area rgz) x y = true -> shown = painted) /\
       exists i h s, hs !! i = Some h /\ subregion_covers h s x y = true /\
         shown = if needs_drawing (rgz_layers fb) h s (damaged_area rgz) (visible_in hmem (rgz_layers fb) h s) then painted else p).
Proof using over_clear Hfn0 Hlaws.
  intros W H' fb Hcmd Hbl HW HH Hinit Hwf Hbg Hfd Hdam Hfr. assert (Hok : fb_ok fb) by (destruct Hwf; unfold fb_ok; lia).
  destruct (rgz_in_hwc_exact W H' rgz Hinit Hwf Hbg) as (hs & rgz' & Hin & Hhs & Hnh & Hcur & Hst & Hsound & Hex). fold fb in Hcur, Hsound, Hex.
  destruct (rgz_in_hwc_subregions W H' rgz Hinit Hwf Hbg) as (hs' & rgz'' & Hin' & Hhs' & Hda & Hsub); [lia|done|done|].
  rewrite Hin in Hin'. injection Hin' as <-. rewrite Hhs in Hhs'. injection Hhs' as <-.
  assert (Hh : forall i h, hs !! i = Some h -> region_sound fb h /\ (0 < nlayers h)%nat /\
    forall s, (s < nsubregions h)%nat -> exists r, subregion_at W H' h s r).
  { intros i h Hi. pose proof (Forall_lookup_1 _ _ _ _ Hsound Hi). by pose proof (Forall_lookup_1 _ _ _ _ Hsub Hi) as [? ?]. }
  assert (Hdr : Forall (drawable hmem (rgz_layers fb)) hs).
  { apply Forall_lookup_2. intros i h Hi. destruct (Hh i h Hi) as (? & ? & _). by apply sound_drawable. }
  assert (Hne : Forall (fun h => forall k, (k < nsubregions h)%nat -> visible_in hmem (rgz_layers fb) h k <> []) hs).
  { apply Forall_lookup_2. intros i h Hi k Hk. destruct (Hh i h Hi) as (_ & _ & Hr). destruct (Hr k Hk) as [r Hat]. by eapply visible_nonempty. }
  assert (Hpl : Forall (placed (rgz_layers fb) params) hs).
  { apply Forall_lookup_2. intros i h Hi. destruct (Hh i h Hi) as (? & _ & ?). eapply region_placed; try done. fold W. lia. }
  destruct (out_region_ok hmem params rgz' st hs) as (st' & Hout & _ & _ & _ & _ & Hdraws & st1 & es & Hr1 & Hap1 & Hsame); rewrite ?Hcur; try done.
  { destruct Hwf as [Hc _]. fold fb in Hc. unfold RGZ_SUBREGIONMAX, RGZ_INPUT_MAXLAYERS, RGZ_MAXLAYERS in *. lia. }
  rewrite Hcur, Hda in *. exists hs, rgz', st'. split; [done|]. split; [done|]. intros N. split; [exact Hout|].
  intros Hcap x y p Hx Hy shown painted.
  destruct (regions_at hmem over clear img (rgz_layers fb) params (damaged_area rgz) Hcmd Hbl hs (set_out_blits 0 (rgz_blts_init st)))
    as (st2 & es2 & Hr2 & Hap2 & Hd2 & Hrun); [split; [apply length_replicate|cbn; lia]|done|done|done|].
  rewrite Hr1 in Hr2. injection Hr2 as ->. assert (Hn2 : length es2 = N) by (by rewrite <- (length_fmap draw_of), Hd2).
  assert (es2 = es) as ->.
  { destruct Hap2 as (Hl2 & Hi2 & _ & _ & _ & Ht2). destruct Hap1 as (_ & Hi1 & _ & _ & _ & Ht1).
    change (blts_idx (set_out_blits 0 (rgz_blts_init st))) with 0%nat in *. rewrite take_0, !app_nil_l in *.
    assert (Hn1 : length es = N).
    { rewrite <- (length_fmap draw_of), <- (Hsame Hcap _ draw_of) by (intros e; apply async_spec). by destruct (Hdraws Hcap) as [-> _]. }
    by rewrite <- Ht1, <- Ht2 by (rewrite ?Hn1, ?Hn2; exact Hcap). }
  assert (Hsh : shown = foldl (draw_region hmem over clear img (rgz_layers fb) (damaged_area rgz) x y) p hs).
  { unfold shown. rewrite <- Hrun by (rewrite Hn2; exact Hcap). apply run_at_same, (Hsame Hcap _ (fun e => (place e, draw_of e))).
    intros e. f_equal. apply async_spec. }
  destruct (Hex x y) as (i & h & s & Hi & Hc & Hsl & Hu); [done|done|]. destruct (Hh i h Hi) as (Hs & Hpos & Hr).
  assert (Hlt : (s < nsubregions h)%nat) by (unfold subregion_covers in Hc; apply andb_true_iff in Hc as [Hc _]; by apply Nat.ltb_lt).
  destruct (Hr s Hlt) as [r Hat]. rewrite (draw_regions_here _ _ _ _ _ _ x y hs i h s) in Hsh by done.
  destruct (subregion_composites fb (damaged_area rgz) h s r x y p) as [Hv Hd]; try done.
  { by eapply visible_nonempty. } { intros l r'. by eapply subregion_at_here. } { by rewrite <- (subregion_at_covers W H' h s r). }
  rewrite Hsh, Hv. split; [by intros ->%Hd|]. by exists i, h, s.
Qed.
End Claim.

(** A 4 x 4 screen that is damaged at its left half: the background, an opaque layer over all of it and a blended one in the middle. *)
Definition sample_screen : rgz_t :=
  mkRgz None 0 RGZ_STATE_INIT
    (mkFb 3 [ mkLayer (mkHwcLayer 0 0 0 1 0 0 (mkRect 0 0 4 4) (mkRect 0 0 4 4)) 0 (-2) 0;
              mkLayer (mkHwcLayer 0 0 0 2 0 0 (mkRect 0 0 4 4) (mkRect 0 0 4 4)) 1 0 0;
              mkLayer (mkHwcLayer 0 0 0 2 0 0x105 (mkRect 0 0 2 2) (mkRect 1 1 3 3)) 2 1 0 ])
    0 (replicate RGZ_NUM_FB zero_fb) (mkRect 0 0 2 4).

Lemma pixel_composited_witness :
  exists hs rgz' st', rgz_in_hwc 4 4 true sample_screen = Some (0, rgz') /\ hregions rgz' = Some hs /\
    rgz_out_region sample_hmem rgz' sample_params fresh_out = Some (0, st') /\
    let at_pixel x y := run_at app [] (fun i => [i]) x y (take (cmdlen st') (bvcmds st')) [99] in
    at_pixel 0 0 = [0] /\ at_pixel 1 1 = [1; 0].
Proof.
  assert (Hfn : 0 <= HWC_BLT_DESC_FB_FN0) by (vm_compute; discriminate).
  destruct (pixel_composited sample_hmem app [] (fun i => [i]) sample_params (fun p => app_nil_r p) Hfn sample_screen fresh_out)
    as (hs & rgz' & st' & Hin & Hhs & Hout & Hpix).
  - reflexivity.
  - reflexivity.
  - vm_compute. by split.
  - reflexivity.
  - vm_compute. discriminate.
  - split; vm_compute; lia.
  - split; [vm_compute; lia|reflexivity].
  - apply Forall_cons_iff; split; [split; [discriminate|intros Hc; discriminate Hc]|]. apply Forall_cons_iff; split; [split; [by eexists|vm_compute; by split]|].
    apply Forall_cons_iff; split; [split; [by eexists|vm_compute; by split]|constructor].
  - vm_compute. repeat split; discriminate.
  - intros [|[|[|j]]] Hj; [vm_compute; repeat split; discriminate..|cbn in Hj; lia].
  - exists hs, rgz', st'. split; [exact Hin|]. split; [exact Hhs|].
    assert (He : rgz_in_hwc 4 4 true sample_screen = Some (0, rgz')) by exact Hin.
    vm_compute in He. injection He as <-. injection Hhs as <-.
    split; [rewrite Hout; reflexivity|].
    split.
    + refine (proj1 (Hpix _ 0 0 [99] _ _) _); [apply Nat.leb_le; reflexivity|split; [discriminate|reflexivity]..|reflexivity].
    + refine (proj1 (Hpix _ 1 1 [99] _ _) _); [apply Nat.leb_le; reflexivity|split; [discriminate|reflexivity]..|reflexivity].
Defined.
