(* ===== verification/DlWords.v ===== *)
(** Words and bytes of the DSP dynamic loader (src/dspbridge/dynreg/cload.c):
    memory as a list of bytes, the checksum [dload_checksum], the byte
    reordering [dload_reorder], and the bit fields of target images as bits of
    memory.  The loader is built for the TMS320C6x on a little-endian host. *)

From Stdlib Require Import ZArith Lia.
From stdpp Require Import base list list_numbers option tactics.
From S2P Require Import Prelude.

(** * Bytes *)

Definition byte_ok (b : Z) : Prop := 0 <= b < 256.
Definition bytes_ok (m : list Z) : Prop := Forall byte_ok m.

(** The little-endian value of a list of bytes. *)
Fixpoint le_value (bs : list Z) : Z :=
  match bs with
  | [] => 0
  | b :: r => b + 256 * le_value r
  end.

(** Bit [n] of memory from address [p]. *)
Definition mem_bit (m : list Z) (p : nat) (n : Z) : bool :=
  match m !! (p + Z.to_nat (n / 8))%nat with
  | Some b => Z.testbit b (n mod 8)
  | None => false
  end.

Lemma byte_testbit b n : byte_ok b -> 8 <= n -> Z.testbit b n = false.
Proof.
  intros Hb Hn. unfold byte_ok in Hb. destruct (decide (b = 0)) as [->|]; [apply Z.bits_0|].
  apply Z.bits_above_log2; [lia|]. apply Z.log2_lt_pow2; [lia|].
  apply Z.lt_le_trans with (2 ^ 8); [lia|]. apply Z.pow_le_mono_r; lia.
Qed.

Lemma le_value_nonneg bs : bytes_ok bs -> 0 <= le_value bs.
Proof.
  induction bs as [|b bs IH]; intros H; simpl; [lia|].
  apply Forall_cons_1 in H as [Hb H]. unfold byte_ok in Hb. specialize (IH H). lia.
Qed.

Lemma le_value_testbit bs n :
  bytes_ok bs -> 0 <= n -> Z.testbit (le_value bs) n = mem_bit bs 0 n.
Proof.
  revert n. induction bs as [|b bs IH]; intros n H Hn; cbn [le_value]; [by rewrite Z.bits_0|].
  apply Forall_cons_1 in H as [Hb H].
  assert (Hs : b + 256 * le_value bs = Z.lor b (Z.shiftl (le_value bs) 8)).
  { rewrite Z.shiftl_mul_pow2 by lia. change (2 ^ 8) with 256.
    rewrite (Z.mul_comm 256). rewrite <- Z.lxor_lor, <- Z.add_nocarry_lxor; [done|..].
    all: change 256 with (2 ^ 8); rewrite <- Z.shiftl_mul_pow2 by lia;
      apply Z.bits_inj'; intros k Hk; rewrite Z.land_spec, Z.bits_0;
      destruct (Z.lt_ge_cases k 8);
      [rewrite Z.shiftl_spec_low by lia; apply andb_false_r
      |rewrite byte_testbit by done; done]. }
  rewrite Hs, Z.lor_spec. unfold mem_bit. simpl. destruct (Z.lt_ge_cases n 8).
  - rewrite Z.shiftl_spec_low, orb_false_r by lia.
    rewrite Z.div_small, Z.mod_small by lia. done.
  - rewrite byte_testbit, Z.shiftl_spec by (done || lia). simpl.
    rewrite IH by (done || lia). unfold mem_bit. simpl.
    replace (n mod 8) with ((n - 8) mod 8) by (Z.div_mod_to_equations; lia).
    replace (Z.to_nat (n / 8)) with (Datatypes.S (Z.to_nat ((n - 8) / 8)))
      by (Z.div_mod_to_equations; lia).
    done.
Qed.

Lemma mem_bit_drop m p n : mem_bit (drop p m) 0 n = mem_bit m p n.
Proof. unfold mem_bit. by rewrite lookup_drop. Qed.

(** Writing a byte changes its eight bits. *)
Lemma mem_bit_insert m p i x n :
  0 <= n -> (p + i < length m)%nat ->
  mem_bit (<[(p + i)%nat := x]> m) p n =
  if decide (n / 8 = Z.of_nat i) then Z.testbit x (n mod 8) else mem_bit m p n.
Proof.
  intros Hn Hi. unfold mem_bit. pose proof (Z.div_pos n 8 Hn ltac:(lia)).
  case_decide as E.
  - rewrite E, Nat2Z.id. rewrite list_lookup_insert_eq by done. done.
  - rewrite list_lookup_insert_ne by lia. done.
Qed.

(** The low [k] bytes of a value, lowest first. *)
Fixpoint le_bytes (k : nat) (v : Z) : list Z :=
  match k with
  | O => []
  | Datatypes.S k' => v mod 256 :: le_bytes k' (v / 256)
  end.

Lemma le_bytes_length k v : length (le_bytes k v) = k.
Proof. revert v. induction k as [|k IH]; intros v; simpl; [done|]. by rewrite IH. Qed.

Lemma le_bytes_ok k v : bytes_ok (le_bytes k v).
Proof.
  revert v. induction k as [|k IH]; intros v; simpl; constructor; [|apply IH].
  apply Z.mod_pos_bound. lia.
Qed.

Lemma le_value_bound bs : bytes_ok bs -> 0 <= le_value bs < 256 ^ Z.of_nat (length bs).
Proof.
  induction bs as [|b bs IH]; intros H; [simpl; lia|].
  apply Forall_cons_1 in H as [Hb H]. specialize (IH H). unfold byte_ok in Hb.
  rewrite length_cons, Nat2Z.inj_succ, Z.pow_succ_r by lia. cbn [le_value]. lia.
Qed.

Lemma le_value_bytes k v : 0 <= v < 256 ^ Z.of_nat k -> le_value (le_bytes k v) = v.
Proof.
  revert v. induction k as [|k IH]; intros v Hv; cbn [le_bytes le_value]; [simpl in Hv; lia|].
  rewrite Nat2Z.inj_succ, Z.pow_succ_r in Hv by lia.
  rewrite IH by (split; [apply Z.div_pos; lia | apply Z.div_lt_upper_bound; lia]).
  pose proof (Z.div_mod v 256 ltac:(lia)). lia.
Qed.

Lemma le_bytes_value bs : bytes_ok bs -> le_bytes (length bs) (le_value bs) = bs.
Proof.
  induction bs as [|b bs IH]; intros H; [done|].
  apply Forall_cons_1 in H as [Hb H]. unfold byte_ok in Hb.
  cbn [length le_bytes le_value].
  replace ((b + 256 * le_value bs) mod 256) with b by (Z.div_mod_to_equations; lia).
  replace ((b + 256 * le_value bs) / 256) with (le_value bs) by (Z.div_mod_to_equations; lia).
  by rewrite IH.
Qed.

(** * Access to the fields of a structure in memory *)

(** Reading [k] bytes at [p] as an unsigned integer. *)
Definition get_le (k : nat) (m : list Z) (p : nat) : option Z :=
  if (p + k <=? length m)%nat then Some (le_value (take k (drop p m))) else None.
Definition get32 := get_le 4.
Definition get16 := get_le 2.
(** Writing [k] bytes at [p]. *)
Definition put_le (k : nat) (m : list Z) (p : nat) (v : Z) : option (list Z) :=
  if (p + k <=? length m)%nat
  then Some (take p m ++ le_bytes k v ++ drop (p + k) m) else None.

(** * [dload_checksum] *)

(** [for (left = siz; left > 0; left -= sizeof(uint32_t)) sum += *dp++;]
    The loop makes one pass for each word started. *)
Fixpoint dload_checksum_from (fuel : nat) (data : list Z) (dp : nat) (left sum : Z) : option Z :=
  if left >? 0 then
    match fuel with
    | O => None
    | Datatypes.S f =>
        let* w := get32 data dp in
        dload_checksum_from f data (dp + 4) (left - 4) (u32 (sum + w))
    end
  else Some sum.
Definition dload_checksum (data : list Z) (siz : Z) : option Z :=
  dload_checksum_from (Z.to_nat siz) data 0 siz 0.

(** * [dload_reorder] *)

Definition SHIFT_COUNT_MASK : Z := 24.
Definition BYTE_MASK : Z := 255.

(** The inner loop: each byte of the word, lowest first, until the rest of the
    word is zero. *)
Fixpoint reorder_word (fuel : nat) (datv tmap tmp : Z) : option Z :=
  match fuel with
  | O => None
  | Datatypes.S f =>
      let tmp := Z.lor tmp (Z.shiftl (Z.land datv BYTE_MASK) (Z.land tmap SHIFT_COUNT_MASK)) in
      let tmap := Z.shiftr tmap 8 in
      let datv := Z.shiftr datv 8 in
      if negb (datv =? 0) then reorder_word f datv tmap tmp else Some tmp
  end.

Fixpoint dload_reorder_from (fuel : nat) (data : list Z) (dp : nat) (dsiz map : Z)
    : option (list Z) :=
  match fuel with
  | O => None
  | Datatypes.S f =>
      let* datv := get32 data dp in
      let* tmp := reorder_word 4 datv map 0 in
      let* data := put_le 4 data dp tmp in
      let dsiz := dsiz - 4 in
      if dsiz >? 0 then dload_reorder_from f data (dp + 4) dsiz map else Some data
  end.
Definition dload_reorder (data : list Z) (dsiz map : Z) : option (list Z) :=
  let map := u32 (Z.shiftl map 3) in
  dload_reorder_from (Datatypes.S (Z.to_nat dsiz)) data 0 dsiz map.

Definition BYTE_RESHUFFLE_VALUE : Z := 66051. (* 0x00010203 *)
Definition REORDER_MAP (rawmap : Z) : Z := Z.lxor rawmap 50529027. (* 0x3030303 *)

(** * Properties of the checksum *)

(** The first [n] words of a block. *)
Fixpoint words_of (n : nat) (data : list Z) : list Z :=
  match n with
  | O => []
  | Datatypes.S n' => le_value (take 4 data) :: words_of n' (drop 4 data)
  end.
Definition sum_words (ws : list Z) : Z := foldr Z.add 0 ws.

Lemma get_le_Some k m p :
  (p + k <= length m)%nat -> get_le k m p = Some (le_value (take k (drop p m))).
Proof. intros Hk. unfold get_le. by rewrite (proj2 (Nat.leb_le _ _) Hk). Qed.

Lemma uwrap_add_l w x y : 0 <= w -> uwrap w (uwrap w x + y) = uwrap w (x + y).
Proof. intros Hw. unfold uwrap. apply Zplus_mod_idemp_l. Qed.
Lemma uwrap_add_r w x y : 0 <= w -> uwrap w (x + uwrap w y) = uwrap w (x + y).
Proof. intros Hw. unfold uwrap. apply Zplus_mod_idemp_r. Qed.

Lemma dload_checksum_from_spec n fuel data dp sum :
  (dp + 4 * n <= length data)%nat -> (n <= fuel)%nat ->
  dload_checksum_from fuel data dp (4 * Z.of_nat n) (u32 sum) =
  Some (u32 (sum + sum_words (words_of n (drop dp data)))).
Proof.
  revert fuel dp sum. induction n as [|n IH]; intros fuel dp sum Hlen Hf.
  { destruct fuel; simpl; by rewrite Z.add_0_r. }
  destruct fuel as [|fuel]; [lia|]. cbn [dload_checksum_from].
  rewrite (proj2 (Z.gtb_lt _ _)) by lia. unfold get32. rewrite get_le_Some by lia.
  rewrite uwrap_add_l by lia.
  replace (4 * Z.of_nat (Datatypes.S n) - 4) with (4 * Z.of_nat n) by lia.
  rewrite IH by lia. cbn [words_of]. rewrite drop_drop. unfold sum_words. cbn [foldr].
  do 2 f_equal. lia.
Qed.

Lemma dload_checksum_spec n data :
  (4 * n <= length data)%nat ->
  dload_checksum data (4 * Z.of_nat n) = Some (u32 (sum_words (words_of n data))).
Proof.
  intros Hlen. unfold dload_checksum.
  pose proof (dload_checksum_from_spec n (Z.to_nat (4 * Z.of_nat n)) data 0 0) as E.
  change (u32 0) with 0 in E. rewrite E by lia. done.
Qed.

Lemma words_of_length n data : length (words_of n data) = n.
Proof. revert data. induction n as [|n IH]; intros data; simpl; [done|]. by rewrite IH. Qed.

Lemma words_of_lookup n data k :
  (k < n)%nat -> words_of n data !! k = Some (le_value (take 4 (drop (4 * k) data))).
Proof.
  revert data k. induction n as [|n IH]; intros data k Hk; [lia|].
  destruct k as [|k]; [done|]. cbn [words_of lookup list_lookup].
  rewrite IH, drop_drop by lia. do 4 f_equal. lia.
Qed.

Lemma sum_words_insert ws k x y :
  ws !! k = Some x -> sum_words (<[k := y]> ws) = sum_words ws - x + y.
Proof.
  revert k. induction ws as [|w ws IH]; intros k Hk; [done|].
  destruct k as [|k]; simplify_eq/=; [unfold sum_words; simpl; lia|].
  change (w + sum_words (<[k := y]> ws) = w + sum_words ws - x + y). rewrite (IH k) by done. lia.
Qed.

(** [dload_checksum] of [n] words stays inside the block and is their sum
    modulo 2^32, and any corruption confined to one word changes it. *)
Lemma dload_checksum_correct (n : nat) (data : list Z) :
  (4 * n <= length data)%nat ->
  dload_checksum data (4 * Z.of_nat n) = Some (u32 (sum_words (words_of n data))) /\
  (forall data' k, bytes_ok data -> bytes_ok data' -> (4 * n <= length data')%nat -> (k < n)%nat ->
     (forall j, j <> k -> words_of n data' !! j = words_of n data !! j) ->
     words_of n data' !! k <> words_of n data !! k ->
     dload_checksum data' (4 * Z.of_nat n) <> dload_checksum data (4 * Z.of_nat n)).
Proof.
  intros Hlen. split; [by apply dload_checksum_spec|].
  intros data' k Hb Hb' Hlen' Hk Hsame Hdiff E.
  rewrite !dload_checksum_spec in E by done. apply (inj Some) in E.
  rewrite !words_of_lookup in Hdiff by done.
  set (x := le_value (take 4 (drop (4 * k) data))) in *.
  set (y := le_value (take 4 (drop (4 * k) data'))) in *.
  assert (Hx : 0 <= x < 2 ^ 32).
  { pose proof (le_value_bound (take 4 (drop (4 * k) data))) as B.
    rewrite length_take, length_drop, Nat.min_l in B by lia. apply B. by apply Forall_take, Forall_drop. }
  assert (Hy : 0 <= y < 2 ^ 32).
  { pose proof (le_value_bound (take 4 (drop (4 * k) data'))) as B.
    rewrite length_take, length_drop, Nat.min_l in B by lia. apply B. by apply Forall_take, Forall_drop. }
  assert (Hw : words_of n data' = <[k := y]> (words_of n data)).
  { apply list_eq. intros j. destruct (decide (j = k)) as [->|Hj].
    - rewrite list_lookup_insert_eq by (by rewrite words_of_length). by apply words_of_lookup.
    - rewrite list_lookup_insert_ne by done. by apply Hsame. }
  rewrite Hw, (sum_words_insert _ _ x) in E by (by apply words_of_lookup).
  apply Hdiff. f_equal. unfold uwrap in E. set (s := sum_words _) in E.
  assert (M : (y - x) mod 2 ^ 32 = 0).
  { replace (y - x) with ((s - x + y) - s) by lia. rewrite Zminus_mod, E, Z.sub_diag. done. }
  apply Z.mod_divide in M as [q Hq]; [|done]. nia.
Qed.

Lemma dload_checksum_correct_witness :
  (4 * 2 <= length [1; 2; 3; 4; 255; 255; 255; 255])%nat /\
  dload_checksum [1; 2; 3; 4; 255; 255; 255; 255] (4 * Z.of_nat 2) = Some 67305984.
Proof.
  split; [simpl; lia|].
  destruct (dload_checksum_correct 2 [1; 2; 3; 4; 255; 255; 255; 255]) as [E _]; [simpl; lia|].
  rewrite E. reflexivity.
Defined.

(** * Properties of the byte reordering *)

Lemma le_value_land x v mask :
  0 <= mask < 256 -> byte_ok x -> Z.land (x + 256 * v) mask = Z.land x mask.
Proof.
  intros Hm Hx. apply Z.bits_inj'. intros k Hk. rewrite !Z.land_spec.
  destruct (Z.lt_ge_cases k 8) as [H|H].
  - f_equal. change 256 with (2 ^ 8). rewrite (Z.mul_comm (2 ^ 8)).
    rewrite <- (Z.mod_pow2_bits_low (x + v * 2 ^ 8) 8 k), Z.mod_add by lia.
    by rewrite Z.mod_pow2_bits_low by lia.
  - rewrite (byte_testbit mask) by done. by rewrite !andb_false_r.
Qed.

Lemma le_value_shiftr x v : byte_ok x -> Z.shiftr (x + 256 * v) 8 = v.
Proof.
  intros Hx. unfold byte_ok in Hx. rewrite Z.shiftr_div_pow2 by lia. change (2 ^ 8) with 256.
  Z.div_mod_to_equations. lia.
Qed.

Lemma le_value_zero bs : bytes_ok bs -> le_value bs = 0 -> Forall (.= 0) bs.
Proof.
  induction bs as [|b bs IH]; intros H E; constructor; apply Forall_cons_1 in H as [Hb H];
    pose proof (le_value_nonneg bs H); cbn [le_value] in E; unfold byte_ok in Hb; [lia|].
  apply IH; [done|lia].
Qed.

(** Byte [b] of a word goes to byte position [m]. *)
Definition place (t : Z) (bm : Z * nat) : Z := Z.lor t (Z.shiftl bm.1 (8 * Z.of_nat bm.2)).

Lemma place_zero bs ms t : Forall (.= 0) bs -> foldl place t (zip bs ms) = t.
Proof.
  revert ms t. induction bs as [|b bs IH]; intros ms t H; [done|].
  apply Forall_cons_1 in H as [-> H]. destruct ms as [|m ms]; [done|]. cbn [zip zip_with foldl].
  rewrite IH by done. unfold place. simpl. by rewrite Z.shiftl_0_l, Z.lor_0_r.
Qed.

Lemma reorder_word_spec fuel bs ms t :
  (0 < length bs <= fuel)%nat -> length ms = length bs ->
  bytes_ok bs -> Forall (fun m => (m < 4)%nat) ms ->
  reorder_word fuel (le_value bs) (le_value ((fun m => 8 * Z.of_nat m) <$> ms)) t =
  Some (foldl place t (zip bs ms)).
Proof.
  revert bs ms t. induction fuel as [|fuel IH]; intros bs ms t Hl Hlm Hb Hm; [lia|].
  destruct bs as [|b bs]; [simpl in Hl; lia|]. destruct ms as [|m ms]; [done|].
  apply Forall_cons_1 in Hb as [Hb Hbs]. apply Forall_cons_1 in Hm as [Hm Hms].
  rewrite fmap_cons. cbn [reorder_word zip zip_with foldl le_value].
  assert (Hm8 : byte_ok (8 * Z.of_nat m)) by (unfold byte_ok; lia).
  rewrite !le_value_shiftr, !le_value_land by (done || (unfold BYTE_MASK, SHIFT_COUNT_MASK; lia)).
  replace (Z.land b BYTE_MASK) with b.
  2: { change BYTE_MASK with (Z.ones 8). rewrite Z.land_ones by lia. rewrite Z.mod_small; done. }
  replace (Z.land (8 * Z.of_nat m) SHIFT_COUNT_MASK) with (8 * Z.of_nat m)
    by (destruct m as [|[|[|[|m]]]]; [reflexivity..|lia]).
  change (Z.lor t (Z.shiftl b (8 * Z.of_nat m))) with (place t (b, m)).
  destruct (Z.eqb_spec (le_value bs) 0) as [E|E]; simpl.
  - by rewrite place_zero by (by apply le_value_zero).
  - apply IH; [|by simpl in Hlm; lia|done|done].
    destruct bs; [done|]. simpl in *. lia.
Qed.

(** A permutation of the four byte positions of a word. *)
Definition byte_perm (ms : list nat) : Prop := Permutation ms [0; 1; 2; 3]%nat.

Lemma byte_perm_cases ms :
  byte_perm ms ->
  exists m0 m1 m2 m3, ms = [m0; m1; m2; m3] /\ (m0 < 4 /\ m1 < 4 /\ m2 < 4 /\ m3 < 4)%nat /\
    m0 <> m1 /\ m0 <> m2 /\ m0 <> m3 /\ m1 <> m2 /\ m1 <> m3 /\ m2 <> m3.
Proof.
  unfold byte_perm. intros H. pose proof (Permutation_length H) as Hl.
  destruct ms as [|m0 [|m1 [|m2 [|m3 [|? ?]]]]]; try done.
  exists m0, m1, m2, m3. split; [done|].
  assert (Hb : Forall (fun m => (m < 4)%nat) [m0; m1; m2; m3]).
  { rewrite H. repeat constructor. }
  assert (Hn : NoDup [m0; m1; m2; m3]).
  { rewrite H. by apply (bool_decide_unpack _). }
  rewrite !list.Forall_cons in Hb. rewrite !list.NoDup_cons, !not_elem_of_cons in Hn. naive_solver.
Qed.

Lemma byte_perm_lt ms : byte_perm ms -> Forall (fun m => (m < 4)%nat) ms.
Proof. intros (m0 & m1 & m2 & m3 & -> & (? & ? & ? & ?) & _)%byte_perm_cases. rewrite !list.Forall_cons. auto. Qed.

Lemma le_value_lor b bs : byte_ok b -> bytes_ok bs -> le_value (b :: bs) = Z.lor b (Z.shiftl (le_value bs) 8).
Proof.
  intros Hb Hbs. apply Z.bits_inj'. intros n Hn.
  rewrite le_value_testbit by (done || by constructor).
  rewrite Z.lor_spec. unfold mem_bit. destruct (Z.lt_ge_cases n 8) as [H|H].
  - rewrite Z.shiftl_spec_low, orb_false_r by lia.
    rewrite Z.div_small, Z.mod_small by lia. done.
  - rewrite byte_testbit, Z.shiftl_spec by (done || lia). simpl.
    rewrite le_value_testbit by (done || lia). unfold mem_bit. simpl.
    replace (n mod 8) with ((n - 8) mod 8) by (Z.div_mod_to_equations; lia).
    replace (Z.to_nat (n / 8)) with (Datatypes.S (Z.to_nat ((n - 8) / 8)))
      by (Z.div_mod_to_equations; lia).
    done.
Qed.

Lemma le_value_4 x0 x1 x2 x3 :
  bytes_ok [x0; x1; x2; x3] ->
  le_value [x0; x1; x2; x3] =
  Z.lor x0 (Z.lor (Z.shiftl x1 8) (Z.lor (Z.shiftl x2 16) (Z.shiftl x3 24))).
Proof.
  unfold bytes_ok. rewrite !list.Forall_cons. intros (H0 & H1 & H2 & H3 & _).
  rewrite !le_value_lor by (unfold bytes_ok; rewrite ?list.Forall_cons; auto). cbn [le_value].
  rewrite !Z.shiftl_lor, !Z.shiftl_shiftl, Z.shiftl_0_l, Z.lor_0_r by lia. done.
Qed.

(** The word the inner loop computes, as bytes. *)
Lemma place_4 bs ms x :
  length bs = 4%nat -> bytes_ok bs -> byte_perm ms ->
  (forall j m, ms !! j = Some m -> x !! m = bs !! j) -> length x = 4%nat ->
  foldl place 0 (zip bs ms) = le_value x /\ bytes_ok x.
Proof.
  intros Hl Hb Hp Hx Hlx. destruct bs as [|b0 [|b1 [|b2 [|b3 [|? ?]]]]]; try done.
  destruct x as [|x0 [|x1 [|x2 [|x3 [|? ?]]]]]; try done.
  apply byte_perm_cases in Hp as (m0 & m1 & m2 & m3 & -> & Hlt & Hne).
  pose proof (Hx 0%nat m0 eq_refl) as E0. pose proof (Hx 1%nat m1 eq_refl) as E1.
  pose proof (Hx 2%nat m2 eq_refl) as E2. pose proof (Hx 3%nat m3 eq_refl) as E3.
  clear Hx Hl Hlx. simpl in E0, E1, E2, E3.
  assert (Hbx : bytes_ok [x0; x1; x2; x3]).
  { unfold bytes_ok in *. rewrite !list.Forall_cons in Hb |- *. destruct Hlt as (? & ? & ? & ?).
    destruct m0 as [|[|[|[|]]]]; try lia; destruct m1 as [|[|[|[|]]]]; try lia;
      destruct m2 as [|[|[|[|]]]]; try lia; destruct m3 as [|[|[|[|]]]]; try lia;
      simplify_eq/=; naive_solver. }
  split; [|done]. rewrite le_value_4 by done. unfold place. cbn [zip zip_with foldl fst snd].
  rewrite Z.lor_0_l. destruct Hlt as (? & ? & ? & ?).
  destruct m0 as [|[|[|[|]]]]; try lia; destruct m1 as [|[|[|[|]]]]; try lia;
    destruct m2 as [|[|[|[|]]]]; try lia; destruct m3 as [|[|[|[|]]]]; try lia;
    simplify_eq/=; change (8 * Z.of_nat 0) with 0; change (8 * Z.of_nat 1) with 8;
    change (8 * Z.of_nat 2) with 16; change (8 * Z.of_nat 3) with 24;
    rewrite ?Z.shiftl_0_r; apply Z.bits_inj; intros n; rewrite !Z.lor_spec;
    repeat match goal with |- context [Z.testbit ?a n] => generalize (Z.testbit a n); intros [] end;
    reflexivity.
Qed.

Lemma put_le_Some k m p v :
  (p + k <= length m)%nat -> put_le k m p v = Some (take p m ++ le_bytes k v ++ drop (p + k) m).
Proof. intros Hk. unfold put_le. by rewrite (proj2 (Nat.leb_le _ _) Hk). Qed.

Lemma splice_length (m bs : list Z) p :
  (p + length bs <= length m)%nat ->
  length (take p m ++ bs ++ drop (p + length bs) m) = length m.
Proof. intros H. rewrite !length_app, length_take, length_drop. lia. Qed.

(** A write changes exactly its bytes. *)
Lemma splice_lookup (m bs : list Z) p i :
  (p + length bs <= length m)%nat ->
  (take p m ++ bs ++ drop (p + length bs) m) !! i =
  if decide (p <= i < p + length bs)%nat then bs !! (i - p)%nat else m !! i.
Proof.
  intros H. assert (Ht : length (take p m) = p) by (rewrite length_take; lia). case_decide as E.
  - rewrite lookup_app_r by lia. rewrite Ht, lookup_app_l by lia. done.
  - destruct (decide (i < p)%nat) as [Hi|Hi].
    + rewrite lookup_app_l by lia. rewrite lookup_take.
      destruct (decide (i < p)%nat); [done|lia].
    + rewrite lookup_app_r by lia. rewrite Ht, lookup_app_r by lia. rewrite lookup_drop.
      f_equal. lia.
Qed.

Lemma splice_ok m bs p k : bytes_ok m -> bytes_ok bs -> bytes_ok (take p m ++ bs ++ drop k m).
Proof. intros Hm Hb. apply Forall_app; split; [by apply Forall_take|]. apply Forall_app; split; [done|by apply Forall_drop]. Qed.

Definition move (ms : list nat) (m m' : list Z) (p : nat) : Prop :=
  forall j k, ms !! j = Some k -> m' !! (p + k)%nat = m !! (p + j)%nat.

Lemma take_drop_lookup (m : list Z) p k j :
  take k (drop p m) !! j = if decide (j < k)%nat then m !! (p + j)%nat else None.
Proof. rewrite lookup_take, lookup_drop. done. Qed.

Lemma byte_perm_inv ms k : byte_perm ms -> (k < 4)%nat -> exists j, ms !! j = Some k /\ (j < 4)%nat.
Proof.
  intros Hp Hk. assert (Hin : k ∈ ms).
  { unfold byte_perm in Hp. rewrite Hp.
    destruct k as [|[|[|[|k]]]]; [repeat constructor..|lia]. }
  apply list_elem_of_lookup in Hin as [j Hj]. exists j. split; [done|].
  apply lookup_lt_Some in Hj. by rewrite (Permutation_length Hp) in Hj.
Qed.

Lemma byte_perm_lookup_lt ms j k : byte_perm ms -> ms !! j = Some k -> (j < 4 /\ k < 4)%nat.
Proof.
  intros Hp Hj. split.
  - apply lookup_lt_Some in Hj. by rewrite (Permutation_length Hp) in Hj.
  - eapply (Forall_lookup_1 (fun m => (m < 4)%nat)); [|exact Hj]. by apply byte_perm_lt.
Qed.

(** The word at the other end of a permutation. *)
Lemma perm_word_exists ms (bs : list Z) :
  byte_perm ms -> length bs = 4%nat ->
  exists x : list Z, length x = 4%nat /\ forall j m, ms !! j = Some m -> x !! m = bs !! j.
Proof.
  intros (m0 & m1 & m2 & m3 & -> & (? & ? & ? & ?) & Hne)%byte_perm_cases Hl.
  destruct bs as [|b0 [|b1 [|b2 [|b3 [|? ?]]]]]; try done.
  exists (<[m0 := b0]> (<[m1 := b1]> (<[m2 := b2]> (<[m3 := b3]> [0; 0; 0; 0])))).
  split; [by rewrite !length_insert|]. destruct Hne as (? & ? & ? & ? & ? & ?).
  intros [|[|[|[|j]]]] m E; simplify_eq/=;
    rewrite ?list_lookup_insert_ne by done;
    (rewrite list_lookup_insert_eq by (rewrite ?length_insert; simpl; lia)); done.
Qed.

Lemma dload_reorder_from_spec n fuel data dp ms :
  byte_perm ms -> bytes_ok data -> (0 < n <= fuel)%nat ->
  (dp + 4 * n <= length data)%nat ->
  exists data',
    dload_reorder_from fuel data dp (4 * Z.of_nat n) (le_value ((fun m => 8 * Z.of_nat m) <$> ms))
      = Some data' /\
    length data' = length data /\ bytes_ok data' /\
    (forall i, (i < dp \/ dp + 4 * n <= i)%nat -> data' !! i = data !! i) /\
    (forall w, (w < n)%nat -> move ms data data' (dp + 4 * w)).
Proof.
  intros Hp. revert fuel data dp. induction n as [|n IH]; intros fuel data dp Hb Hf Hl; [lia|].
  destruct fuel as [|fuel]; [lia|]. cbn [dload_reorder_from]. unfold get32.
  rewrite get_le_Some by lia.
  set (bs := take 4 (drop dp data)).
  assert (Hbl : length bs = 4%nat) by (unfold bs; rewrite length_take, length_drop; lia).
  assert (Hbo : bytes_ok bs) by (by apply Forall_take, Forall_drop).
  destruct (perm_word_exists ms bs Hp Hbl) as (x & Hxl & Hx).
  destruct (place_4 bs ms x Hbl Hbo Hp Hx Hxl) as [Hpl Hxo].
  rewrite reorder_word_spec by first [done | lia | by apply byte_perm_lt | rewrite (Permutation_length Hp); simpl; lia].
  assert (Hle : le_bytes 4 (le_value x) = x) by (rewrite <- Hxl; by apply le_bytes_value).
  rewrite Hpl, put_le_Some, Hle by lia.
  replace (drop (dp + 4) data) with (drop (dp + length x) data) by (by rewrite Hxl).
  set (m1 := take dp data ++ x ++ drop (dp + length x) data).
  assert (Hm1l : length m1 = length data) by (apply splice_length; lia).
  assert (Hm1 : forall i, m1 !! i = if decide (dp <= i < dp + 4)%nat then x !! (i - dp)%nat else data !! i).
  { intros i. unfold m1. rewrite splice_lookup by lia. by rewrite Hxl. }
  assert (Hmv : move ms data m1 dp).
  { intros j k Hj. destruct (byte_perm_lookup_lt _ _ _ Hp Hj). rewrite Hm1.
    rewrite decide_True by lia. replace (dp + k - dp)%nat with k by lia. rewrite (Hx j k Hj).
    unfold bs. rewrite take_drop_lookup, decide_True by lia. done. }
  replace (4 * Z.of_nat (Datatypes.S n) - 4) with (4 * Z.of_nat n) by lia.
  destruct (Z.gtb_spec (4 * Z.of_nat n) 0) as [Hn|Hn].
  - destruct (IH fuel m1 (dp + 4)%nat) as (m2 & E & Hl2 & Ho2 & Hout & Hin);
      [by apply splice_ok|lia|lia|].
    exists m2. split; [exact E|]. split; [lia|]. split; [done|]. split.
    + intros i Hi. rewrite Hout by lia. rewrite Hm1, decide_False by lia. done.
    + intros [|w] Hw j k Hj; destruct (byte_perm_lookup_lt _ _ _ Hp Hj).
      * rewrite Nat.mul_0_r, Nat.add_0_r. rewrite Hout by lia. by apply Hmv.
      * replace (dp + 4 * Datatypes.S w)%nat with (dp + 4 + 4 * w)%nat by lia.
        rewrite (Hin w ltac:(lia) j k Hj), Hm1, decide_False by lia. done.
  - assert (n = 0)%nat as -> by lia. exists m1. split; [done|]. split; [done|].
    split; [by apply splice_ok|]. split.
    + intros i Hi. rewrite Hm1, decide_False by lia. done.
    + intros w Hw. assert (w = 0)%nat as -> by lia. by rewrite Nat.mul_0_r, Nat.add_0_r.
Qed.

(** * Reading a file of any byte order *)

(** [data] with the bytes of each word stored in the order [ms]: byte [j] of a
    stored word is byte [ms_j] of the word. *)
Definition stored_in (ms : list nat) (data stored : list Z) (n : nat) : Prop :=
  length stored = length data /\
  (forall w j k, (w < n)%nat -> ms !! j = Some k ->
     stored !! (4 * w + j)%nat = data !! (4 * w + k)%nat) /\
  (forall i, (4 * n <= i)%nat -> stored !! i = data !! i).

(** The value of the field [df_byte_reshuffle] in a file stored in the order
    [ms]: the bytes 3, 2, 1, 0 of [BYTE_RESHUFFLE_VALUE] in that order. *)
Definition reshuffle_field (ms : list nat) : Z := le_value ((fun m => 3 - Z.of_nat m) <$> ms).

Lemma reshuffle_field_map ms :
  byte_perm ms ->
  u32 (Z.shiftl (REORDER_MAP (reshuffle_field ms)) 3) = le_value ((fun m => 8 * Z.of_nat m) <$> ms).
Proof.
  intros (m0 & m1 & m2 & m3 & -> & (? & ? & ? & ?) & _)%byte_perm_cases.
  destruct m0 as [|[|[|[|]]]]; try lia; destruct m1 as [|[|[|[|]]]]; try lia;
    destruct m2 as [|[|[|[|]]]]; try lia; destruct m3 as [|[|[|[|]]]]; try lia; reflexivity.
Qed.

Lemma dload_reorder_restores_spec ms data stored n :
  byte_perm ms -> bytes_ok data -> stored_in ms data stored n ->
  (0 < n)%nat -> (4 * n <= length data)%nat ->
  dload_reorder stored (4 * Z.of_nat n) (REORDER_MAP (reshuffle_field ms)) = Some data.
Proof.
  intros Hp Hb (Hl & Hw & Hrest) Hn Hlen. unfold dload_reorder.
  rewrite reshuffle_field_map by done.
  assert (Hso : bytes_ok stored).
  { apply Forall_lookup_2. intros i x Hi. destruct (decide (i < 4 * n)%nat) as [Hi4|Hi4].
    - assert (Hj : (i mod 4 < 4)%nat) by (apply Nat.mod_upper_bound; lia).
      destruct (lookup_lt_is_Some_2 ms (i mod 4)%nat) as [k Hk];
        [by rewrite (Permutation_length Hp)|].
      rewrite (Nat.div_mod_eq i 4), (Hw (i / 4)%nat _ k) in Hi; [|apply Nat.Div0.div_lt_upper_bound; lia|done].
      by apply (Forall_lookup_1 _ _ _ _ Hb Hi).
    - rewrite Hrest in Hi by lia. by apply (Forall_lookup_1 _ _ _ _ Hb Hi). }
  destruct (dload_reorder_from_spec n (Datatypes.S (Z.to_nat (4 * Z.of_nat n))) stored 0 ms)
    as (d & E & Hdl & Hdo & Hout & Hmv); [done|done|lia|lia|].
  rewrite E. f_equal. apply list_eq. intros i. destruct (decide (i < 4 * n)%nat) as [Hi4|Hi4].
  - assert (Hj : (i mod 4 < 4)%nat) by (apply Nat.mod_upper_bound; lia).
    assert (Hq : (i / 4 < n)%nat) by (apply Nat.Div0.div_lt_upper_bound; lia).
    destruct (byte_perm_inv ms (i mod 4) Hp Hj) as (j & Hjk & Hj4).
    rewrite (Nat.div_mod_eq i 4) at 1 2. rewrite <- (Hw _ _ _ Hq Hjk).
    exact (Hmv _ Hq _ _ Hjk).
  - rewrite Hout by lia. apply Hrest. lia.
Qed.

(** whatever order the words of a file are stored in, the map that
    [dload_headers] derives from the stored [df_byte_reshuffle] makes
    [dload_reorder] restore the words, without leaving the block. *)
Lemma dload_reorder_restores (ms : list nat) (data stored : list Z) (n : nat) :
  byte_perm ms -> bytes_ok data -> stored_in ms data stored n ->
  (0 < n)%nat -> (4 * n <= length data)%nat ->
  dload_reorder stored (4 * Z.of_nat n) (REORDER_MAP (reshuffle_field ms)) = Some data /\
  (reshuffle_field ms = BYTE_RESHUFFLE_VALUE <-> ms = [0; 1; 2; 3]%nat).
Proof.
  intros Hp Hb Hs Hn Hl. split; [by apply dload_reorder_restores_spec|].
  apply byte_perm_cases in Hp as (m0 & m1 & m2 & m3 & -> & Hlt & _).
  unfold reshuffle_field, BYTE_RESHUFFLE_VALUE. cbn [fmap list_fmap le_value].
  split; [|by intros [= -> -> -> ->]].
  intros E. destruct m0 as [|[|[|[|]]]]; try lia; destruct m1 as [|[|[|[|]]]]; try lia;
    destruct m2 as [|[|[|[|]]]]; try lia; destruct m3 as [|[|[|[|]]]]; try lia; reflexivity.
Qed.

Lemma dload_reorder_restores_witness :
  dload_reorder [4; 3; 2; 1; 8; 7; 6; 5] (4 * Z.of_nat 2)
    (REORDER_MAP (reshuffle_field [3; 2; 1; 0]%nat)) = Some [1; 2; 3; 4; 5; 6; 7; 8].
Proof.
  apply (dload_reorder_restores [3; 2; 1; 0]%nat [1; 2; 3; 4; 5; 6; 7; 8]).
  - apply Permutation_rev.
  - repeat constructor; discriminate.
  - split; [done|]. split.
    + intros [|[|w]] [|[|[|[|j]]]] k Hw Hk; try lia; simplify_eq/=; reflexivity.
    + intros i Hi. rewrite !lookup_ge_None_2 by (simpl in *; lia). reflexivity.
  - lia.
  - simpl. lia.
Defined.
