(* ===== verification/DlField.v ===== *)
(** Bit fields of a target image (src/dspbridge/dynreg/reloc.c): [dload_unpack]
    and [dload_repack] on a little-endian image of bytes, and what they do to
    the bits of the image.  [None] is an access outside the image or a shift
    the C language does not define. *)

From Stdlib Require Import ZArith Lia.
From stdpp Require Import base list list_numbers option tactics.
From S2P Require Import Prelude DlWords.

(** * Definitions *)

(** Overflow rules of a field (reloc_table.h). *)
Definition ROP_ANY : Z := 0.
Definition ROP_SGN : Z := 1.
Definition ROP_UNS : Z := 2.
Definition ROP_MAX : Z := 3.

(** The parameters for which every shift of the two routines is defined. *)
Definition field_ok (fieldsz offset : Z) : bool :=
  (0 <? fieldsz) && (fieldsz <=? 32) && (0 <=? offset) && (offset <=? 8).

(** [while (shift <= fieldsz) { dp += 1; objval += *dp << shift; shift += 8; }] *)
Fixpoint unpack_more (fuel : nat) (m : list Z) (dp : nat) (shift fieldsz objval : Z) : option Z :=
  if shift <=? fieldsz then
    match fuel with
    | O => None
    | Datatypes.S f =>
        let* b := m !! (dp + 1)%nat in
        unpack_more f m (dp + 1) (shift + 8) fieldsz (s32 (objval + s32 (Z.shiftl b shift)))
    end
  else Some objval.

Definition dload_unpack (m : list Z) (data : nat) (fieldsz offset sgn : Z) : option Z :=
  guard* (field_ok fieldsz offset) in
  let fieldsz := fieldsz - 1 in
  let* b := m !! data in
  let* objval := unpack_more 4 m data (8 - offset) fieldsz (Z.shiftr b offset) in
  if sgn =? ROP_UNS then
    Some (Z.land objval (s32 (s32 (Z.shiftl 2 fieldsz) - 1)))
  else
    let shift := 31 - fieldsz in
    Some (Z.shiftr (s32 (Z.shiftl objval shift)) shift).

(** [*dp = ( *dp & ~mask) + objval], stored in a byte. *)
Definition merge_byte (b mask objval : Z) : Z := u8 (u32 (Z.land b (u32 (Z.lnot mask)) + objval)).

(** [while (mask) { dp += 1; ...; objval >>= 8; mask >>= 8; }] *)
Fixpoint repack_more (fuel : nat) (m : list Z) (dp : nat) (objval mask : Z) : option (list Z) :=
  if mask =? 0 then Some m
  else
    match fuel with
    | O => None
    | Datatypes.S f =>
        let dp := (dp + 1)%nat in
        let* b := m !! dp in
        repack_more f (<[dp := merge_byte b mask objval]> m) dp
          (Z.shiftr objval 8) (Z.shiftr mask 8)
    end.

Definition ovf_limit : list Z := [1; 2; 2].
(** Whether [val] does not fit: [fieldsz] is already decremented. *)
Definition repack_overflow (val fieldsz sgn : Z) : bool :=
  if negb (sgn =? 0)
  then let tmp := u32 (Z.shiftr val fieldsz + Z.land sgn 1) in
       match arr_get ovf_limit (sgn - 1) with Some lim => tmp >? lim | None => false end
  else false.

Definition dload_repack (val : Z) (m : list Z) (data : nat) (fieldsz offset sgn : Z)
    : option (list Z * bool) :=
  guard* (field_ok fieldsz offset) in
  let fieldsz := fieldsz - 1 in
  let mask := u32 (u32 (Z.shiftl 2 fieldsz) - 1) in
  let objval := Z.land (u32 val) mask in
  let* b := m !! data in
  let m := <[data := merge_byte b (u32 (Z.shiftl mask offset)) (u32 (Z.shiftl objval offset))]> m in
  let shift := 8 - offset in
  let* m := repack_more 5 m data (Z.shiftr objval shift) (Z.shiftr mask shift) in
  Some (m, repack_overflow val fieldsz sgn).

(** * Bits of wrapped integers *)

Lemma uwrap_testbit w x n : 0 <= w -> Z.testbit (uwrap w x) n = (n <? w) && Z.testbit x n.
Proof.
  intros Hw. unfold uwrap. destruct (Z.ltb_spec n w) as [H|H]; simpl.
  - destruct (Z.lt_ge_cases n 0) as [Hn|Hn]; [by rewrite !Z.testbit_neg_r|].
    by rewrite Z.mod_pow2_bits_low.
  - by rewrite Z.mod_pow2_bits_high by lia.
Qed.

Lemma swrap_cong w x : 0 <= w -> uwrap w (swrap w x) = uwrap w x.
Proof.
  intros Hw. unfold uwrap, swrap. rewrite Zminus_mod, Zmod_mod, <- Zminus_mod.
  f_equal. lia.
Qed.

Lemma testbit_high x w n m :
  0 < w -> - 2 ^ (w - 1) <= x < 2 ^ (w - 1) -> w - 1 <= n -> w - 1 <= m ->
  Z.testbit x n = Z.testbit x m.
Proof.
  intros Hw Hx Hn Hm. assert (H : forall k, w - 1 <= k -> Z.testbit x k = (x <? 0)).
  { intros k Hk. destruct (Z.ltb_spec x 0) as [H|H].
    - assert (Z.testbit (-1 - x) k = false) as E.
      { destruct (decide (-1 - x = 0)) as [->|]; [apply Z.bits_0|].
        apply Z.bits_above_log2; [lia|]. apply Z.log2_lt_pow2; [lia|].
        apply Z.lt_le_trans with (2 ^ (w - 1)); [lia|]. apply Z.pow_le_mono_r; lia. }
      replace (-1 - x) with (Z.lnot x) in E by (unfold Z.lnot; lia).
      rewrite Z.lnot_spec in E by lia. by destruct (Z.testbit x k).
    - destruct (decide (x = 0)) as [->|]; [apply Z.bits_0|].
      apply Z.bits_above_log2; [lia|]. apply Z.log2_lt_pow2; [lia|].
      apply Z.lt_le_trans with (2 ^ (w - 1)); [lia|]. apply Z.pow_le_mono_r; lia. }
  by rewrite !H.
Qed.

Lemma swrap_testbit w x n :
  0 < w -> 0 <= n -> Z.testbit (swrap w x) n = Z.testbit x (Z.min n (w - 1)).
Proof.
  intros Hw Hn. assert (E : forall k, 0 <= k < w -> Z.testbit (swrap w x) k = Z.testbit x k).
  { intros k Hk. pose proof (f_equal (fun y => Z.testbit y k) (swrap_cong w x ltac:(lia))) as E.
    cbv beta in E. rewrite !uwrap_testbit in E by lia.
    rewrite (proj2 (Z.ltb_lt _ _)) in E by lia. exact E. }
  destruct (Z.lt_ge_cases n w) as [H|H].
  - destruct (decide (n = w - 1)) as [->|]; [rewrite Z.min_id|rewrite Z.min_l by lia]; apply E; lia.
  - rewrite Z.min_r by lia. rewrite <- E by lia.
    apply testbit_high with w; [lia|by apply swrap_range|lia|lia].
Qed.

Lemma swrap_uwrap w x : 0 <= w -> swrap w (uwrap w x) = swrap w x.
Proof. intros Hw. unfold swrap, uwrap. by rewrite Zplus_mod_idemp_l. Qed.

Lemma swrap_eq w x y : 0 <= w -> uwrap w x = uwrap w y -> swrap w x = swrap w y.
Proof. intros Hw E. rewrite <- (swrap_uwrap w x), <- (swrap_uwrap w y) by done. by rewrite E. Qed.

(** * Reading a field *)

Lemma field_ok_spec f off : field_ok f off = true <-> 0 < f <= 32 /\ 0 <= off <= 8.
Proof. unfold field_ok. rewrite !andb_true_iff, !Z.ltb_lt, !Z.leb_le. lia. Qed.

Lemma mem_bit_byte (m : list Z) p i b k :
  m !! (p + i)%nat = Some b -> 0 <= k < 8 -> mem_bit m p (8 * Z.of_nat i + k) = Z.testbit b k.
Proof.
  intros Hb Hk. unfold mem_bit.
  replace ((8 * Z.of_nat i + k) / 8) with (Z.of_nat i) by (Z.div_mod_to_equations; lia).
  rewrite Nat2Z.id, Hb. f_equal. Z.div_mod_to_equations. lia.
Qed.

(** Adding a value above the bits of another is joining their bits. *)
Lemma add_above x y s n :
  0 <= s -> 0 <= x < 2 ^ s -> 0 <= n ->
  Z.testbit (x + Z.shiftl y s) n = if n <? s then Z.testbit x n else Z.testbit y (n - s).
Proof.
  intros Hs Hx Hn. rewrite Z.shiftl_mul_pow2 by lia. destruct (Z.ltb_spec n s) as [H|H].
  - rewrite <- (Z.mod_pow2_bits_low (x + y * 2 ^ s) s n) by lia.
    rewrite Z.mod_add by lia. by rewrite Z.mod_pow2_bits_low by lia.
  - replace n with ((n - s) + s) at 1 by lia.
    rewrite <- Z.shiftr_spec, Z.shiftr_div_pow2 by lia.
    rewrite Z.div_add by lia. rewrite Z.div_small by lia. done.
Qed.

(** After the bytes up to [shift], [objval] holds the bits of the field read so far. *)
Definition unpacked (m : list Z) (p : nat) (off shift objval : Z) : Prop :=
  (shift <= 31 -> 0 <= objval < 2 ^ shift) /\ - 2 ^ 31 <= objval < 2 ^ 31 /\
  forall k, 0 <= k < shift -> k < 32 -> Z.testbit objval k = mem_bit m p (off + k).

Lemma unpacked_step m p off shift objval i b :
  8 * Z.of_nat i = shift + off -> 0 <= shift <= 31 -> 0 <= off ->
  m !! (p + i)%nat = Some b -> byte_ok b ->
  unpacked m p off shift objval ->
  unpacked m p off (shift + 8) (s32 (objval + s32 (Z.shiftl b shift))).
Proof.
  intros Hi Hs Ho Hb Hbo (Hr & Hr' & Hbits). specialize (Hr ltac:(lia)).
  assert (E : s32 (objval + s32 (Z.shiftl b shift)) = s32 (objval + Z.shiftl b shift)).
  { apply swrap_eq; [lia|]. rewrite <- (uwrap_add_r 32 objval (s32 _)) by lia.
    rewrite swrap_cong by lia. by rewrite uwrap_add_r by lia. }
  rewrite E. split; [|split].
  - intros H8. assert (2 ^ shift <= 2 ^ 23) by (apply Z.pow_le_mono_r; lia).
    assert (0 <= objval + Z.shiftl b shift < 2 ^ (shift + 8)).
    { rewrite Z.shiftl_mul_pow2, Z.pow_add_r by lia. change (2 ^ 8) with 256.
      unfold byte_ok in Hbo. nia. }
    assert (2 ^ (shift + 8) <= 2 ^ 31) by (apply Z.pow_le_mono_r; lia).
    rewrite swrap_small by (simpl; lia). done.
  - apply (swrap_range 32). lia.
  - intros k Hk Hk32. rewrite swrap_testbit, Z.min_l, add_above by lia.
    destruct (Z.ltb_spec k shift); [apply Hbits; lia|].
    rewrite <- (mem_bit_byte m p i b (k - shift)) by (done || lia). f_equal. lia.
Qed.

Lemma unpack_more_spec fuel m p i off shift F objval :
  bytes_ok m -> 8 * Z.of_nat i = shift + off -> 0 <= shift -> 0 <= off -> F <= 31 ->
  F - shift < 8 * Z.of_nat fuel -> (1 <= i)%nat ->
  off + F + 1 <= 8 * (Z.of_nat (length m) - Z.of_nat p) ->
  unpacked m p off shift objval ->
  exists v s', unpack_more fuel m (p + i - 1) shift F objval = Some v /\ F < s' /\ unpacked m p off s' v.
Proof.
  intros Hm. revert i shift objval. induction fuel as [|fuel IH]; intros i shift objval Hi Hs Ho HF Hf H1 Hl Hu.
  { exists objval, shift. simpl. destruct (Z.leb_spec shift F); [lia|]. split; [done|]. split; [lia|done]. }
  cbn [unpack_more]. destruct (Z.leb_spec shift F) as [H|H].
  2: { exists objval, shift. split; [done|]. split; [lia|done]. }
  replace (p + i - 1 + 1)%nat with (p + i)%nat by lia.
  destruct (lookup_lt_is_Some_2 m (p + i)) as [b Hb]; [lia|]. rewrite Hb.
  assert (Hb8 : byte_ok b) by (by apply (Forall_lookup_1 _ _ _ _ Hm Hb)).
  pose proof (unpacked_step m p off shift objval i b Hi ltac:(lia) Ho Hb Hb8 Hu) as Hu'.
  destruct (IH (i + 1)%nat (shift + 8) (s32 (objval + s32 (Z.shiftl b shift))) ltac:(lia) ltac:(lia) Ho HF ltac:(lia) ltac:(lia) Hl Hu')
    as (v & s' & E & Hv).
  exists v, s'. split; [|done]. rewrite <- E. f_equal. lia.
Qed.

(** The bits of the value that [dload_unpack] returns. *)
Definition field_bit (m : list Z) (p : nat) (f off sgn k : Z) : bool :=
  if k <? f then mem_bit m p (off + k)
  else if sgn =? ROP_UNS then (f =? 32) && mem_bit m p (off + 31)
  else mem_bit m p (off + f - 1).

Lemma uns_mask_bit f k :
  0 < f <= 32 -> 0 <= k ->
  Z.testbit (s32 (s32 (Z.shiftl 2 (f - 1)) - 1)) k = (k <? f) || (f =? 32).
Proof.
  intros Hf Hk. replace (s32 (s32 (Z.shiftl 2 (f - 1)) - 1)) with (if f =? 32 then -1 else Z.ones f).
  - destruct (Z.eqb_spec f 32) as [->|Hne]; [by rewrite Z.bits_m1, orb_true_r by lia|].
    rewrite orb_false_r, Z.testbit_ones by lia. rewrite (proj2 (Z.leb_le 0 k)) by lia. done.
  - destruct (Z.eqb_spec f 32) as [->|Hne]; [done|].
    destruct (decide (f = 31)) as [->|]; [done|].
    rewrite Z.shiftl_mul_pow2, <- Z.pow_succ_r by lia. replace (Z.succ (f - 1)) with f by lia.
    assert (2 ^ f <= 2 ^ 30) by (apply Z.pow_le_mono_r; lia).
    pose proof (Z.pow_pos_nonneg 2 f ltac:(lia) ltac:(lia)).
    rewrite (swrap_small 32 (2 ^ f)) by lia. rewrite Z.ones_equiv, <- Z.sub_1_r.
    rewrite swrap_small by lia. done.
Qed.

Lemma dload_unpack_spec m p f off sgn :
  bytes_ok m -> 0 < f <= 32 -> 0 <= off <= 8 ->
  off + f <= 8 * (Z.of_nat (length m) - Z.of_nat p) ->
  exists v, dload_unpack m p f off sgn = Some v /\ - 2 ^ 31 <= v < 2 ^ 31 /\
    forall k, 0 <= k -> Z.testbit v k = field_bit m p f off sgn k.
Proof.
  intros Hm Hf Ho Hl. unfold dload_unpack. rewrite (proj2 (field_ok_spec f off)) by done.
  destruct (lookup_lt_is_Some_2 m p) as [b Hb]; [lia|]. rewrite Hb.
  pose proof (Forall_lookup_1 _ _ _ _ Hm Hb) as Hbo. unfold byte_ok in Hbo. simpl in Hbo.
  assert (Hsr : 0 <= Z.shiftr b off < 2 ^ (8 - off)).
  { rewrite Z.shiftr_div_pow2 by lia. split; [apply Z.div_pos; [lia|apply Z.pow_pos_nonneg; lia]|].
    apply Z.div_lt_upper_bound; [apply Z.pow_pos_nonneg; lia|]. rewrite <- Z.pow_add_r by lia.
    replace (off + (8 - off)) with 8 by lia. lia. }
  assert (2 ^ (8 - off) <= 2 ^ 8) by (apply Z.pow_le_mono_r; lia).
  destruct (unpack_more_spec 4 m p 1 off (8 - off) (f - 1) (Z.shiftr b off))
    as (v & s' & E & Hs' & Hr & Hv & Hbits); try done; try lia.
  { split; [lia|]. split; [lia|]. intros k Hk _. rewrite Z.shiftr_spec by lia.
    pose proof (mem_bit_byte m p 0 b (k + off)) as E. rewrite Nat.add_0_r in E.
    rewrite <- E by (done || lia). f_equal. lia. }
  replace (p + 1 - 1)%nat with p in E by lia. rewrite E.
  assert (Hbits' : forall k, 0 <= k < f -> Z.testbit v k = mem_bit m p (off + k))
    by (intros k Hk; apply Hbits; lia).
  unfold field_bit. destruct (sgn =? ROP_UNS).
  - eexists. split; [done|].
    assert (Hbit : forall k, 0 <= k -> Z.testbit (Z.land v (s32 (s32 (Z.shiftl 2 (f - 1)) - 1))) k =
      (if k <? f then mem_bit m p (off + k) else (f =? 32) && mem_bit m p (off + 31))).
    { intros k Hk. rewrite Z.land_spec, uns_mask_bit by lia. destruct (Z.ltb_spec k f).
      - by rewrite andb_true_r, Hbits' by lia.
      - simpl. destruct (Z.eqb_spec f 32) as [->|]; [|apply andb_false_r].
        rewrite andb_true_r, <- Hbits' by lia.
        apply testbit_high with 32; try lia. }
    split; [|exact Hbit].
    destruct (Z.eqb_spec f 32) as [Hf32|Hne].
    + rewrite Hf32. change (s32 (s32 (Z.shiftl 2 (32 - 1)) - 1)) with (-1). rewrite Z.land_m1_r. exact Hv.
    + assert (0 <= Z.land v (s32 (s32 (Z.shiftl 2 (f - 1)) - 1)) < 2 ^ f).
      { assert (E0 : Z.land v (s32 (s32 (Z.shiftl 2 (f - 1)) - 1)) = uwrap f v).
        { apply Z.bits_inj'. intros k Hk. rewrite Hbit, uwrap_testbit by lia.
          destruct (Z.ltb_spec k f); [by rewrite Hbits' by lia|done]. }
        rewrite E0. apply uwrap_range. lia. }
      assert (2 ^ f <= 2 ^ 31) by (apply Z.pow_le_mono_r; lia). lia.
  - eexists. split; [done|]. split.
    + pose proof (swrap_range 32 (Z.shiftl v (31 - (f - 1))) ltac:(lia)) as R.
      rewrite Z.shiftr_div_pow2 by lia.
      pose proof (Z.pow_pos_nonneg 2 (31 - (f - 1)) ltac:(lia) ltac:(lia)). change (32 - 1) with 31 in R.
      set (q := 2 ^ (31 - (f - 1))) in *. split.
      * apply Z.div_le_lower_bound; nia.
      * apply Z.div_lt_upper_bound; nia.
    + intros k Hk. rewrite Z.shiftr_spec, swrap_testbit, Z.shiftl_spec by lia.
      destruct (Z.ltb_spec k f).
      * rewrite Z.min_l by lia. rewrite <- Hbits' by lia. f_equal. lia.
      * rewrite Z.min_r by lia. replace (off + f - 1) with (off + (f - 1)) by lia.
        rewrite <- Hbits' by lia. f_equal. lia.
Qed.

(** * Writing a field *)

Definition bits_in (objval mask : Z) : Prop :=
  forall k, 0 <= k -> Z.testbit objval k = true -> Z.testbit mask k = true.

Lemma disjoint_add x y : Z.land x y = 0 -> x + y = Z.lor x y.
Proof. intros E. rewrite <- Z.lxor_lor by done. by rewrite Z.add_nocarry_lxor. Qed.

Lemma merge_byte_testbit b mask objval k :
  bits_in objval mask -> (forall j, 32 <= j -> Z.testbit objval j = false) -> 0 <= k ->
  Z.testbit (merge_byte b mask objval) k =
  (k <? 8) && (if Z.testbit mask k then Z.testbit objval k else Z.testbit b k).
Proof.
  intros Hin H32 Hk. unfold merge_byte. rewrite disjoint_add.
  - rewrite !uwrap_testbit, Z.lor_spec, Z.land_spec, uwrap_testbit, Z.lnot_spec by lia.
    destruct (Z.ltb_spec k 8) as [H|H]; [|done]. rewrite (proj2 (Z.ltb_lt k 32)) by lia. simpl.
    pose proof (Hin k Hk) as Hi. destruct (Z.testbit mask k), (Z.testbit objval k); simpl;
      rewrite ?andb_false_r, ?andb_true_r, ?orb_false_r, ?orb_true_r; try done.
    by specialize (Hi eq_refl).
  - apply Z.bits_inj'. intros j Hj. rewrite !Z.land_spec, uwrap_testbit, Z.lnot_spec, Z.bits_0 by lia.
    pose proof (Hin j Hj) as Hi. destruct (Z.testbit objval j) eqn:E; [|apply andb_false_r].
    rewrite Hi by done. simpl. by rewrite !andb_false_r.
Qed.

Lemma merge_byte_ok b mask objval : byte_ok (merge_byte b mask objval).
Proof. apply (uwrap_range 8). lia. Qed.

Lemma bits_in_shiftr o mask s : 0 <= s -> bits_in o mask -> bits_in (Z.shiftr o s) (Z.shiftr mask s).
Proof. intros Hs Hin k Hk. rewrite !Z.shiftr_spec by lia. apply Hin. lia. Qed.

Lemma mem_bit_insert_high m p x n : 8 <= n -> mem_bit (<[p := x]> m) p n = mem_bit m p n.
Proof.
  intros Hn. unfold mem_bit. rewrite list_lookup_insert_ne; [done|]. Z.div_mod_to_equations; lia.
Qed.

(** The loop writes the masked bits after the byte [dp]. *)
Lemma repack_more_spec fuel m dp objval mask :
  bytes_ok m -> bits_in objval mask -> (forall j, 32 <= j -> Z.testbit objval j = false) ->
  0 <= mask < 2 ^ (8 * Z.of_nat fuel) ->
  (mask = 0 \/ mask < 2 ^ (8 * (Z.of_nat (length m) - Z.of_nat dp - 1))) ->
  exists m', repack_more fuel m dp objval mask = Some m' /\ bytes_ok m' /\
    length m' = length m /\ (forall i, (i <= dp)%nat -> m' !! i = m !! i) /\
    forall n, 0 <= n -> mem_bit m' (dp + 1) n =
      if Z.testbit mask n then Z.testbit objval n else mem_bit m (dp + 1) n.
Proof.
  revert m dp objval mask. induction fuel as [|fuel IH]; intros m dp objval mask Hm Hin H32 Hf Hl.
  { exists m. assert (mask = 0) as -> by (simpl in Hf; lia). simpl.
    split; [done|]. split; [done|]. split; [done|]. split; [done|]. intros n _. by rewrite Z.bits_0. }
  cbn [repack_more]. destruct (Z.eqb_spec mask 0) as [->|Hne].
  { exists m. split; [done|]. split; [done|]. split; [done|]. split; [done|].
    intros n _. by rewrite Z.bits_0. }
  assert (Hdp : (dp + 1 < length m)%nat).
  { destruct (decide (dp + 1 < length m)%nat); [done|]. destruct Hl as [|Hl]; [done|].
    destruct (decide (8 * (Z.of_nat (length m) - Z.of_nat dp - 1) = 0)) as [E|E].
    - rewrite E in Hl. simpl in Hl. lia.
    - rewrite Z.pow_neg_r in Hl by lia. lia. }
  destruct (lookup_lt_is_Some_2 m (dp + 1)) as [b Hb]; [done|]. rewrite Hb.
  set (b' := merge_byte b mask objval).
  set (m1 := <[(dp + 1)%nat := b']> m).
  assert (Hm1l : length m1 = length m) by apply length_insert.
  destruct (IH m1 (dp + 1)%nat (Z.shiftr objval 8) (Z.shiftr mask 8)) as (m' & E & Hm' & Hl' & Hlow & Hbits).
  - apply Forall_insert; [done|apply merge_byte_ok].
  - by apply bits_in_shiftr.
  - intros j Hj. rewrite Z.shiftr_spec by lia. apply H32. lia.
  - rewrite Z.shiftr_div_pow2 by lia. split; [apply Z.div_pos; lia|].
    apply Z.div_lt_upper_bound; [lia|]. rewrite <- Z.pow_add_r by lia.
    eapply Z.lt_le_trans; [apply Hf|]. apply Z.pow_le_mono_r; lia.
  - destruct Hl as [|Hl]; [done|].
    destruct (decide (length m1 = dp + 2)%nat) as [E|E]; [left|right].
    + rewrite Z.shiftr_div_pow2 by lia. apply Z.div_small. split; [lia|].
      eapply Z.lt_le_trans; [exact Hl|]. apply Z.pow_le_mono_r; lia.
    + rewrite Z.shiftr_div_pow2 by lia. apply Z.div_lt_upper_bound; [lia|].
      rewrite <- Z.pow_add_r by lia. eapply Z.lt_le_trans; [exact Hl|]. apply Z.pow_le_mono_r; lia.
  - exists m'. split; [exact E|]. split; [done|]. split; [lia|]. split.
    { intros i Hi. rewrite Hlow by lia. unfold m1. by rewrite list_lookup_insert_ne by lia. }
    intros n Hn. destruct (Z.lt_ge_cases n 8) as [H|H].
    + pose proof (mem_bit_byte m (dp + 1) 0 b n) as B. rewrite Nat.add_0_r in B.
      specialize (B Hb ltac:(lia)). rewrite Z.mul_0_r, Z.add_0_l in B. rewrite B.
      pose proof (mem_bit_byte m' (dp + 1) 0 b' n) as B'. rewrite Nat.add_0_r in B'.
      rewrite Z.mul_0_r, Z.add_0_l in B'. rewrite B'.
      * unfold b'. rewrite merge_byte_testbit by done. by rewrite (proj2 (Z.ltb_lt n 8)).
      * rewrite Hlow by lia. unfold m1. by rewrite list_lookup_insert_eq.
      * lia.
    + assert (Hsh : forall mm, mem_bit mm (dp + 1 + 1) (n - 8) = mem_bit mm (dp + 1) n).
      { intros mm. unfold mem_bit.
        replace ((n - 8) mod 8) with (n mod 8) by (Z.div_mod_to_equations; lia).
        replace (dp + 1 + 1 + Z.to_nat ((n - 8) / 8))%nat with (dp + 1 + Z.to_nat (n / 8))%nat
          by (Z.div_mod_to_equations; lia). done. }
      rewrite <- Hsh, Hbits, !Z.shiftr_spec, Hsh by lia. replace (n - 8 + 8) with n by lia.
      destruct (Z.testbit mask n); [done|]. by apply mem_bit_insert_high.
Qed.

Lemma repack_mask f : 0 < f <= 32 -> u32 (u32 (Z.shiftl 2 (f - 1)) - 1) = Z.ones f.
Proof.
  intros Hf. destruct (decide (f = 32)) as [->|]; [done|].
  rewrite Z.shiftl_mul_pow2, <- Z.pow_succ_r by lia. replace (Z.succ (f - 1)) with f by lia.
  assert (2 ^ f <= 2 ^ 31) by (apply Z.pow_le_mono_r; lia).
  pose proof (Z.pow_pos_nonneg 2 f ltac:(lia) ltac:(lia)).
  rewrite (uwrap_small 32 (2 ^ f)) by lia. rewrite uwrap_small by lia.
  rewrite Z.ones_equiv. lia.
Qed.

Lemma shiftr_ones_bound f s : 0 <= f -> 0 <= s -> 0 <= Z.shiftr (Z.ones f) s < 2 ^ Z.max 0 (f - s).
Proof.
  intros Hf Hs. rewrite Z.shiftr_div_pow2, Z.ones_equiv by lia.
  pose proof (Z.pow_pos_nonneg 2 f ltac:(lia) ltac:(lia)).
  pose proof (Z.pow_pos_nonneg 2 s ltac:(lia) ltac:(lia)).
  split; [apply Z.div_pos; lia|]. destruct (Z.le_gt_cases s f) as [H1|H1].
  - rewrite Z.max_r by lia. apply Z.div_lt_upper_bound; [lia|]. rewrite <- Z.pow_add_r by lia.
    replace (s + (f - s)) with f by lia. lia.
  - rewrite Z.max_l by lia. rewrite Z.div_small; [done|].
    assert (2 ^ f <= 2 ^ s) by (apply Z.pow_le_mono_r; lia). lia.
Qed.

Lemma ones_testbit f k : 0 <= f -> 0 <= k -> Z.testbit (Z.ones f) k = (k <? f).
Proof. intros Hf Hk. rewrite Z.testbit_ones by lia. by rewrite (proj2 (Z.leb_le 0 k)). Qed.

Lemma mem_bit_next m p n : 8 <= n -> mem_bit m (p + 1) (n - 8) = mem_bit m p n.
Proof.
  intros Hn. unfold mem_bit.
  replace ((n - 8) mod 8) with (n mod 8) by (Z.div_mod_to_equations; lia).
  replace (p + 1 + Z.to_nat ((n - 8) / 8))%nat with (p + Z.to_nat (n / 8))%nat
    by (Z.div_mod_to_equations; lia). done.
Qed.

Lemma mem_bit_low m p b n : m !! p = Some b -> 0 <= n < 8 -> mem_bit m p n = Z.testbit b n.
Proof.
  intros Hb Hn. pose proof (mem_bit_byte m p 0 b n) as B. rewrite Nat.add_0_r in B.
  rewrite <- B by (done || lia). f_equal.
Qed.

Lemma dload_repack_spec val m p f off sgn :
  bytes_ok m -> 0 < f <= 32 -> 0 <= off <= 8 ->
  off + f <= 8 * (Z.of_nat (length m) - Z.of_nat p) ->
  exists m', dload_repack val m p f off sgn = Some (m', repack_overflow val (f - 1) sgn) /\
    bytes_ok m' /\ length m' = length m /\ (forall i, (i < p)%nat -> m' !! i = m !! i) /\
    forall n, 0 <= n -> mem_bit m' p n =
      if (off <=? n) && (n <? off + f) then Z.testbit val (n - off) else mem_bit m p n.
Proof.
  intros Hm Hf Ho Hl. unfold dload_repack. rewrite (proj2 (field_ok_spec f off)), repack_mask by done.
  destruct (lookup_lt_is_Some_2 m p) as [b Hb]; [lia|]. rewrite Hb.
  set (mask := Z.ones f). set (o := Z.land (u32 val) mask).
  assert (Hmk : forall k, 0 <= k -> Z.testbit mask k = (k <? f)) by (intros; by apply ones_testbit; lia).
  assert (Hok : forall k, 0 <= k -> Z.testbit o k = (k <? f) && Z.testbit val k).
  { intros k Hk. unfold o. rewrite Z.land_spec, uwrap_testbit, Hmk by lia.
    destruct (Z.ltb_spec k f); [|by rewrite andb_false_r].
    rewrite (proj2 (Z.ltb_lt k 32)) by lia. by rewrite andb_true_r. }
  assert (Hin : bits_in o mask).
  { intros k Hk. rewrite Hok, Hmk by done. by destruct (k <? f). }
  set (b' := merge_byte b (u32 (Z.shiftl mask off)) (u32 (Z.shiftl o off))).
  set (m1 := <[p := b']> m).
  assert (Hm1 : bytes_ok m1) by (apply Forall_insert; [done|apply merge_byte_ok]).
  assert (Hm1l : length m1 = length m) by apply length_insert.
  assert (Hb' : forall n, 0 <= n < 8 -> Z.testbit b' n =
    if (off <=? n) && (n <? off + f) then Z.testbit val (n - off) else Z.testbit b n).
  { intros n Hn. unfold b'. rewrite merge_byte_testbit.
    - rewrite !uwrap_testbit, !Z.shiftl_spec by lia. rewrite (proj2 (Z.ltb_lt n 8)) by lia.
      rewrite (proj2 (Z.ltb_lt n 32)) by lia. simpl. destruct (Z.leb_spec off n); simpl.
      + rewrite Hmk, Hok by lia. replace (n - off <? f) with (n <? off + f) by (apply eq_true_iff_eq; rewrite !Z.ltb_lt; lia).
        by destruct (n <? off + f).
      + rewrite !Z.testbit_neg_r by lia. done.
    - intros k Hk. rewrite !uwrap_testbit, !Z.shiftl_spec by lia. destruct (k <? 32); [|done]. simpl.
      destruct (Z.le_gt_cases off k); [apply Hin; lia|by rewrite !Z.testbit_neg_r by lia].
    - intros j Hj. rewrite uwrap_testbit by lia. by rewrite (proj2 (Z.ltb_ge j 32)).
    - lia. }
  pose proof (shiftr_ones_bound f (8 - off) ltac:(lia) ltac:(lia)) as Hmb. fold mask in Hmb.
  destruct (repack_more_spec 5 m1 p (Z.shiftr o (8 - off)) (Z.shiftr mask (8 - off)))
    as (m' & E & Hm' & Hl' & Hlow & Hbits).
  - done.
  - apply bits_in_shiftr; [lia|done].
  - intros j Hj. rewrite Z.shiftr_spec, Hok by lia. by rewrite (proj2 (Z.ltb_ge _ _)) by lia.
  - split; [lia|]. eapply Z.lt_le_trans; [apply Hmb|]. apply Z.pow_le_mono_r; lia.
  - destruct (Z.le_gt_cases f (8 - off)); [left|right].
    + rewrite Z.max_l in Hmb by lia. lia.
    + rewrite Hm1l. eapply Z.lt_le_trans; [apply Hmb|]. apply Z.pow_le_mono_r; lia.
  - rewrite E. exists m'. split; [done|]. split; [done|]. split; [lia|]. split.
    { intros i Hi. rewrite Hlow by lia. unfold m1. by rewrite list_lookup_insert_ne by lia. }
    intros n Hn. destruct (Z.lt_ge_cases n 8) as [H|H].
    + rewrite (mem_bit_low m p b), (mem_bit_low m' p b'); try done; try lia.
      { by apply Hb'. }
      rewrite Hlow by lia. unfold m1. apply list_lookup_insert_eq. lia.
    + rewrite <- mem_bit_next, Hbits, !Z.shiftr_spec, Hmk, Hok, mem_bit_next by lia.
      unfold m1. rewrite mem_bit_insert_high by done.
      replace (n - 8 + (8 - off)) with (n - off) by lia.
      replace (off <=? n) with true by (symmetry; apply Z.leb_le; lia). simpl.
      replace (n - off <? f) with (n <? off + f) by (apply eq_true_iff_eq; rewrite !Z.ltb_lt; lia).
      by destruct (n <? off + f).
Qed.

(** The values a field of [f] bits takes under an overflow rule (reloc_table.h): a signed field, an unsigned
    field, either. *)
Definition field_fits (sgn f val : Z) : bool :=
  if sgn =? ROP_ANY then true
  else if sgn =? ROP_SGN then (- 2 ^ (f - 1) <=? val) && (val <? 2 ^ (f - 1))
  else if sgn =? ROP_UNS then (0 <=? val) && (val <? 2 ^ f)
  else (- 2 ^ (f - 1) <=? val) && (val <? 2 ^ f).

(** The values too large for an unsigned field that [ovf_limit] lets through (reloc.c:108). *)
Definition field_missed (sgn f val : Z) : bool :=
  (sgn =? ROP_UNS) && (2 ^ f <=? val) && (val <? 3 * 2 ^ (f - 1)).
(** The values stored without a report. *)
Definition field_accepted (sgn f val : Z) : bool := field_fits sgn f val || field_missed sgn f val.

Lemma pow2_pred f : 0 < f -> 2 ^ f = 2 * 2 ^ (f - 1).
Proof. intros Hf. rewrite <- Z.pow_succ_r by lia. f_equal. lia. Qed.

Lemma field_accepted_eq sgn f val :
  0 < f ->
  field_accepted sgn f val =
    if sgn =? ROP_ANY then true
    else if sgn =? ROP_SGN then (- 2 ^ (f - 1) <=? val) && (val <? 2 ^ (f - 1))
    else if sgn =? ROP_UNS then (0 <=? val) && (val <? 3 * 2 ^ (f - 1))
    else (- 2 ^ (f - 1) <=? val) && (val <? 2 ^ f).
Proof.
  intros Hf. unfold field_accepted, field_fits, field_missed. rewrite (pow2_pred f) by done.
  pose proof (Z.pow_pos_nonneg 2 (f - 1) ltac:(lia) ltac:(lia)).
  destruct (Z.eqb_spec sgn ROP_ANY) as [->|]; [done|]. destruct (Z.eqb_spec sgn ROP_SGN) as [->|]; [by rewrite orb_false_r|].
  destruct (sgn =? ROP_UNS); [|by rewrite orb_false_r].
  apply eq_true_iff_eq. rewrite !orb_true_iff, !andb_true_iff, !Z.leb_le, !Z.ltb_lt. lia.
Qed.

Lemma u32_neg x : - 2 ^ 31 <= x < 0 -> u32 x = x + 2 ^ 32.
Proof.
  intros Hx. unfold uwrap. rewrite <- (Z.mod_add x 1) by done. apply Z.mod_small. lia.
Qed.

Lemma u32_gt q lim : - 2 ^ 31 <= q < 2 ^ 32 -> 0 <= lim < 2 ^ 30 ->
  (u32 q >? lim) = negb ((0 <=? q) && (q <=? lim)).
Proof.
  intros Hq Hlim. rewrite Z.gtb_ltb. apply eq_true_iff_eq.
  rewrite negb_true_iff, andb_false_iff, Z.ltb_lt, !Z.leb_gt.
  destruct (Z.lt_ge_cases q 0); [rewrite u32_neg by lia|rewrite uwrap_small by lia]; lia.
Qed.

Lemma repack_overflow_spec val f sgn :
  0 < f <= 32 -> - 2 ^ 31 <= val < 2 ^ 31 -> 0 <= sgn <= 3 ->
  repack_overflow val (f - 1) sgn = negb (field_accepted sgn f val).
Proof.
  intros Hf Hv Hs. rewrite field_accepted_eq by lia. unfold repack_overflow.
  pose proof (Z.pow_pos_nonneg 2 (f - 1) ltac:(lia) ltac:(lia)) as Hp.
  pose proof (pow2_pred f ltac:(lia)) as E2.
  rewrite Z.shiftr_div_pow2 by lia. rewrite E2. set (P := 2 ^ (f - 1)) in *.
  assert (Hq : - 2 ^ 31 <= val / P < 2 ^ 31).
  { split; [apply Z.div_le_lower_bound; nia|apply Z.div_lt_upper_bound; nia]. }
  assert (Hd : val = P * (val / P) + val mod P) by (apply Z.div_mod; lia).
  pose proof (Z.mod_pos_bound val P Hp) as Hm. set (q := val / P) in *.
  assert (Hcmp : forall a, (a * P <=? val) = (a <=? q)) by (intros a; apply eq_true_iff_eq; rewrite !Z.leb_le; nia).
  assert (Hcmp' : forall a, (val <? a * P) = (q <? a)) by (intros a; apply eq_true_iff_eq; rewrite !Z.ltb_lt; nia).
  assert (sgn = 0 \/ sgn = 1 \/ sgn = 2 \/ sgn = 3) as [->|[->|[->| ->]]] by lia; [done|..];
    cbn [Z.eqb negb Z.land Pos.land Pos.eqb ROP_ANY ROP_SGN ROP_UNS Z.sub Z.add Z.opp Pos.pred_double
         arr_get Z.leb Z.compare ovf_limit Z.to_nat Pos.to_nat Pos.iter_op lookup list_lookup].
  - change (arr_get ovf_limit (1 - 1)) with (Some 1). cbn beta iota.
    change (Z.land 1 1) with 1. rewrite u32_gt by lia. f_equal.
    replace (- P) with (-1 * P) by lia. replace (val <? P) with (val <? 1 * P) by (f_equal; lia).
    rewrite Hcmp, Hcmp'. apply eq_true_iff_eq. rewrite !andb_true_iff, !Z.leb_le, Z.ltb_lt. lia.
  - change (arr_get ovf_limit (2 - 1)) with (Some 2). cbn beta iota.
    change (Z.land 2 1) with 0. rewrite u32_gt by lia. f_equal.
    rewrite Hcmp'. replace (0 <=? val) with (0 * P <=? val) by (f_equal; lia). rewrite Hcmp.
    apply eq_true_iff_eq. rewrite !andb_true_iff, !Z.leb_le, Z.ltb_lt. lia.
  - change (arr_get ovf_limit (3 - 1)) with (Some 2). cbn beta iota.
    change (Z.land 3 1) with 1. rewrite u32_gt by lia. f_equal.
    replace (- P) with (-1 * P) by lia. rewrite Hcmp, Hcmp'.
    apply eq_true_iff_eq. rewrite !andb_true_iff, !Z.leb_le, Z.ltb_lt. lia.
Qed.

(** The value of a field of [f] bits that holds the low bits of [val]. *)
Definition field_value (sgn f val : Z) : Z :=
  if (sgn =? ROP_UNS) && (f <? 32) then uwrap f val else swrap f val.

Lemma dload_roundtrip_spec val m m' p f off sgn :
  bytes_ok m' -> 0 < f <= 32 -> 0 <= off <= 8 ->
  off + f <= 8 * (Z.of_nat (length m') - Z.of_nat p) ->
  (forall n, 0 <= n -> mem_bit m' p n =
      if (off <=? n) && (n <? off + f) then Z.testbit val (n - off) else mem_bit m p n) ->
  dload_unpack m' p f off sgn = Some (field_value sgn f val).
Proof.
  intros Hm Hf Ho Hl Hbits.
  destruct (dload_unpack_spec m' p f off sgn Hm Hf Ho Hl) as (v & E & _ & Hv). rewrite E. f_equal.
  assert (Hfield : forall k, 0 <= k < f -> mem_bit m' p (off + k) = Z.testbit val k).
  { intros k Hk. rewrite Hbits by lia. rewrite (proj2 (Z.leb_le _ _)), (proj2 (Z.ltb_lt _ _)) by lia.
    simpl. f_equal. lia. }
  apply Z.bits_inj'. intros k Hk. rewrite Hv by done. unfold field_bit, field_value.
  destruct (sgn =? ROP_UNS); simpl; [destruct (Z.ltb_spec f 32)|].
  - rewrite uwrap_testbit by lia. destruct (Z.ltb_spec k f); [apply Hfield; lia|].
    by rewrite (proj2 (Z.eqb_neq f 32)) by lia.
  - assert (f = 32) as -> by lia. rewrite swrap_testbit by lia. destruct (Z.ltb_spec k 32).
    + rewrite Z.min_l by lia. apply Hfield; lia.
    + rewrite Z.min_r by lia. simpl. by rewrite Hfield by lia.
  - rewrite swrap_testbit by lia. destruct (Z.ltb_spec k f).
    + rewrite Z.min_l by lia. apply Hfield; lia.
    + rewrite Z.min_r by lia. replace (off + f - 1) with (off + (f - 1)) by lia. apply Hfield; lia.
Qed.

(** C33: for every field the two routines can address, [dload_repack] stays in
    the image and changes exactly the bits of the field, to the low bits of
    [val]; it reports an overflow exactly when [val] is not in the range of
    the rule - but for the values from 2^f up to 3 * 2^(f-1) in an unsigned field,
    which are too large and stored without a report (reloc.c:108,
    [dload_repack_unsigned_limit]); and [dload_unpack] reads back the field,
    sign- or zero-extended, which is [val] itself when a field read that way holds it. *)
Theorem dload_field_correct (val : Z) (m : list Z) (p : nat) (f off sgn : Z) :
  bytes_ok m -> 0 < f <= 32 -> 0 <= off <= 8 -> 0 <= sgn <= 3 -> - 2 ^ 31 <= val < 2 ^ 31 ->
  off + f <= 8 * (Z.of_nat (length m) - Z.of_nat p) ->
  exists m' overflow, dload_repack val m p f off sgn = Some (m', overflow) /\
    (~ (sgn = ROP_UNS /\ 2 ^ f <= val < 3 * 2 ^ (f - 1)) -> overflow = negb (field_fits sgn f val)) /\
    (sgn = ROP_UNS /\ 2 ^ f <= val < 3 * 2 ^ (f - 1) -> overflow = false) /\
    length m' = length m /\
    (forall i, (i < p)%nat -> m' !! i = m !! i) /\
    (forall n, 0 <= n -> mem_bit m' p n =
       if (off <=? n) && (n <? off + f) then Z.testbit val (n - off) else mem_bit m p n) /\
    dload_unpack m' p f off sgn = Some (field_value sgn f val) /\
    (field_fits (if sgn =? ROP_UNS then ROP_UNS else ROP_SGN) f val = true -> field_value sgn f val = val).
Proof.
  intros Hm Hf Ho Hs Hv Hl.
  destruct (dload_repack_spec val m p f off sgn Hm Hf Ho Hl) as (m' & E & Hm' & Hl' & Hlow & Hbits).
  rewrite repack_overflow_spec in E by done.
  assert (Hmi : field_missed sgn f val = true <-> sgn = ROP_UNS /\ 2 ^ f <= val < 3 * 2 ^ (f - 1)).
  { unfold field_missed. rewrite !andb_true_iff, Z.eqb_eq, Z.leb_le, Z.ltb_lt. tauto. }
  exists m', (negb (field_accepted sgn f val)). split; [done|]. unfold field_accepted. split.
  { intros Hn. destruct (field_missed sgn f val); [by destruct Hn; apply Hmi|by rewrite orb_false_r]. }
  split; [intros Hu; rewrite (proj2 Hmi Hu); by rewrite orb_true_r|].
  split; [done|]. split; [done|]. split; [done|]. split.
  - apply dload_roundtrip_spec with m; try done. by rewrite Hl'.
  - unfold field_fits, field_value. destruct (sgn =? ROP_UNS); cbn [Z.eqb Pos.eqb ROP_UNS ROP_ANY ROP_SGN andb];
      rewrite andb_true_iff, Z.leb_le, Z.ltb_lt; intros Hr; [|apply swrap_small; lia].
    destruct (f <? 32) eqn:Ef; [by apply uwrap_small|]. apply Z.ltb_ge in Ef. assert (f = 32) as -> by lia.
    apply swrap_small; lia.
Qed.

Lemma dload_field_correct_witness :
  exists m', dload_repack (-3) [255; 0; 129; 7] 1 11 5 ROP_SGN = Some (m', false) /\
    dload_unpack m' 1 11 5 ROP_SGN = Some (-3).
Proof.
  destruct (dload_field_correct (-3) [255; 0; 129; 7] 1 11 5 ROP_SGN) as (m' & o & E & Ho & _ & _ & _ & _ & U & _).
  - repeat constructor; discriminate.
  - lia.
  - lia.
  - unfold ROP_SGN; lia.
  - lia.
  - simpl; lia.
  - exists m'. rewrite Ho in E by (intros [? ?]; discriminate). split; [exact E|]. rewrite U. reflexivity.
Defined.

(** the range that [dload_repack] accepts for an unsigned field is not the
    range of the field: for every width below 31 it stores 2^f, which the
    field cannot hold, without an error, and at 32 bits it reports an overflow
    for every value with the top bit set although the field holds it. *)
Theorem dload_repack_unsigned_limit (m : list Z) (p : nat) (f off : Z) :
  bytes_ok m -> 0 < f <= 32 -> 0 <= off <= 8 ->
  off + f <= 8 * (Z.of_nat (length m) - Z.of_nat p) ->
  (f < 31 -> exists m', dload_repack (2 ^ f) m p f off ROP_UNS = Some (m', false) /\
                        dload_unpack m' p f off ROP_UNS = Some 0) /\
  (f = 32 -> forall val, - 2 ^ 31 <= val < 0 ->
     exists m', dload_repack val m p f off ROP_UNS = Some (m', true) /\
                dload_unpack m' p f off ROP_UNS = Some val).
Proof.
  intros Hm Hf Ho Hl. split.
  - intros Hf'. destruct (dload_repack_spec (2 ^ f) m p f off ROP_UNS Hm Hf Ho Hl)
      as (m' & E & Hm' & Hl' & _ & Hbits).
    assert (2 ^ f <= 2 ^ 30) by (apply Z.pow_le_mono_r; lia).
    pose proof (Z.pow_pos_nonneg 2 f ltac:(lia) ltac:(lia)).
    rewrite repack_overflow_spec in E by (unfold ROP_UNS; lia). exists m'. split.
    + rewrite E. do 2 f_equal. rewrite field_accepted_eq by lia. simpl.
      pose proof (pow2_pred f ltac:(lia)) as E2.
      rewrite (proj2 (Z.leb_le _ _)), (proj2 (Z.ltb_lt _ _)) by lia. done.
    + rewrite (dload_roundtrip_spec (2 ^ f) m m' p f off ROP_UNS) by first [done | by rewrite Hl'].
      unfold field_value. rewrite (proj2 (Z.ltb_lt f 32)) by lia. simpl. unfold uwrap.
      by rewrite Z.mod_same by lia.
  - intros -> val Hv. destruct (dload_repack_spec val m p 32 off ROP_UNS Hm Hf Ho Hl)
      as (m' & E & Hm' & Hl' & _ & Hbits).
    rewrite repack_overflow_spec in E by (unfold ROP_UNS; lia). exists m'. split.
    + rewrite E. do 2 f_equal. rewrite field_accepted_eq by lia. simpl. by rewrite (proj2 (Z.leb_gt 0 val)) by lia.
    + rewrite (dload_roundtrip_spec val m m' p 32 off ROP_UNS) by first [done | by rewrite Hl'].
      unfold field_value. simpl. by rewrite swrap_small by lia.
Qed.

Lemma dload_repack_unsigned_limit_witness :
  exists m', dload_repack 256 [7; 9; 11; 13; 15] 0 8 0 ROP_UNS = Some (m', false) /\
    dload_unpack m' 0 8 0 ROP_UNS = Some 0.
Proof.
  destruct (dload_repack_unsigned_limit [7; 9; 11; 13; 15] 0 8 0) as [A _].
  - repeat constructor; discriminate.
  - lia.
  - lia.
  - simpl; lia.
  - apply A. lia.
Defined.
