(* ===== verification/DlState.v ===== *)
(** The data of the DSP dynamic loader (src/dspbridge/dynreg/doff.h,
    dload_internal.h and src/dspbridge/inc/dynamic_loader.h): the records of
    the file, the state of one load, the four classes of functions through
    which the loader reaches its host and its target, and the state monad its
    routines are written in. *)

From Stdlib Require Import ZArith Lia String.
From stdpp Require Import base list list_numbers option gmap gmultiset tactics.
From S2P Require Import Prelude DlWords.

(** * Records of the DOFF file *)

Record doff_filehdr_t := mkFilehdr {
  df_strtab_size : Z;
  df_entrypt : Z;
  df_byte_reshuffle : Z;
  df_scn_name_size : Z;
  df_no_syms : Z;
  df_max_str_len : Z;
  df_no_scns : Z;
  df_target_scns : Z;
  df_doff_version : Z;
  df_target_id : Z;
  df_flags : Z;
  df_entry_secn : Z;
  df_checksum : Z
}.

Record doff_verify_rec_t := mkVerify {
  dv_timdat : Z;
  dv_scn_rec_checksum : Z;
  dv_str_tab_checksum : Z;
  dv_sym_tab_checksum : Z;
  dv_verify_rec_checksum : Z
}.

(** [struct doff_scnhdr_t] and [struct LDR_SECTION_INFO] are two views of the
    same words ([DOFFSEC_IS_LDRSEC]): [ds_offset] is [name], [ds_paddr] is
    [run_addr], [ds_vaddr] is [load_addr], [ds_flags] is [type] and
    [ds_first_pkt_offset] is [context]. *)
Record LDR_SECTION_INFO := mkSection {
  name : Z;
  run_addr : Z;
  load_addr : Z;
  size : Z;
  page : Z;
  type : Z;
  context : Z
}.
Record doff_scnhdr_t := mkScnhdr {
  as_ldrsec : LDR_SECTION_INFO;
  ds_nipacks : Z
}.
Definition ds_offset (s : doff_scnhdr_t) : Z := name (as_ldrsec s).
Definition ds_paddr (s : doff_scnhdr_t) : Z := run_addr (as_ldrsec s).
Definition ds_vaddr (s : doff_scnhdr_t) : Z := load_addr (as_ldrsec s).
Definition ds_flags (s : doff_scnhdr_t) : Z := type (as_ldrsec s).

Definition DLOAD_SECT_TYPE (s : doff_scnhdr_t) : Z := Z.land (ds_flags s) 15.
Definition DS_NEEDS_ALLOCATION (s : doff_scnhdr_t) : bool := negb (Z.land (ds_flags s) 16 =? 0).
Definition DS_NEEDS_DOWNLOAD (s : doff_scnhdr_t) : bool := negb (Z.land (ds_flags s) 32 =? 0).
Definition DS_ALIGNMENT (flags : Z) : Z := Z.shiftl 1 (Z.land (Z.shiftr flags 8) 15).
Definition DLOAD_BSS : Z := 2.
Definition DLOAD_CINIT : Z := 3.

Record doff_syment_t := mkSyment {
  dn_offset : Z;
  dn_value : Z;
  dn_scnum : Z;
  dn_sclass : Z
}.
Definition DN_UNDEF : Z := 0.
Definition DN_ABS : Z := -1.
Definition DN_EXT : Z := 2.
Definition DN_STATLAB : Z := 20.
Definition DN_EXTLAB : Z := 21.

(** The second word of a relocation record, a union: [r_uval], [r_symndx] or
    the three bytes [r_offset], [r_fieldsz] and [r_wordsz]. *)
Record reloc_record_t := mkReloc {
  r_vaddr : Z;
  r_word : Z;
  r_disp : Z;
  r_type : Z
}.
Definition r_uval (r : reloc_record_t) : Z := r_word r.
Definition r_symndx (r : reloc_record_t) : Z := s32 (r_word r).
Definition r_offset (r : reloc_record_t) : Z := Z.land (r_word r) 255.
Definition r_fieldsz (r : reloc_record_t) : Z := Z.land (Z.shiftr (r_word r) 8) 255.

Record Local_Symbol := mkLocal {
  value : Z;
  delta : Z;
  secnn : Z;
  sclass : Z
}.

(** * The state of a load *)

Inductive cinit_mode := CI_count | CI_address | CI_copy | CI_done.

Definition STATIC_EXPR_STK_SIZE : Z := 10.

(** Pointers to host memory are paired with the content of the block;
    [None] is a null pointer; [myalloc] and [myio] tell whether the allocator and
    the target were given.  [myhandle] is the address of the module handle;
    its sections are [ldr_sections]. *)
Record dload_state := mkState {
  myalloc : bool;
  myio : bool;
  myoptions : Z;
  str_head : option (Z * list Z);
  debug_string_size : Z;
  sect_hdrs : option (Z * list doff_scnhdr_t);
  ldr_sections : list LDR_SECTION_INFO;
  bss_run_base : Z;
  local_symtab : option (Z * list Local_Symbol);
  image_secn : LDR_SECTION_INFO;
  delta_runaddr : Z;
  image_offset : Z;
  cinit_state : cinit_mode;
  cinit_count : Z;
  cinit_addr : Z;
  cinit_page : Z;
  myhandle : Z;
  dload_errcount : Z;
  allocated_secn_count : Z;
  big_e_target : bool;
  reorder_map : Z;
  dfile_hdr : doff_filehdr_t;
  verify : doff_verify_rec_t;
  relstkidx : Z;
  relstk : list Z
}.

(** The messages of [dload_error]; their arguments are left out. *)
Inductive dl_message :=
| M_bad_operator | M_array_index | M_stack_overflow | M_no_bss | M_unaligned | M_overflow
| M_read | M_alloc | M_tgtalloc | M_byte_swap_map | M_checksum | M_target_id | M_doff_version
| M_strtab_size | M_section_count | M_endianness | M_need_alloc | M_section_name
| M_symbol_name | M_undefined | M_abs_redefined | M_init_write | M_cinit_left
| M_packet_size | M_write | M_bss_after_cinit | M_connect | M_execute | M_null_init
| M_null_argument | M_dlv_write
| M_module_info | M_seek | M_reloc_section.

(** * Host memory that outlives a load

    [struct my_handle], the handle of a loaded module, with its [dm], the links of
    the list of modules with debug information, and [struct dbg_mirror_root], the
    root of that list.  The two structures begin with the same members, and a
    [hprev] points to either. *)
Record my_handle := mkHandle {
  h_dbthis : Z;
  h_hnext : Z;
  h_hprev : Z;
  h_hroot : Z;
  h_dbsiz : Z;
  h_context : Z;
  h_secn_count : Z;
  h_secns : list LDR_SECTION_INFO
}.
Record dbg_mirror_root := mkRoot {
  rt_dbthis : Z;
  rt_hnext : Z;
  rt_changes : Z;
  rt_refcount : Z
}.
Inductive host_node := Handle (h : my_handle) | Root (r : dbg_mirror_root).

(** * The classes the loader is parameterized by

    [W] is the state of the stream, the symbols, the allocator and the target
    together. *)
Class DlEnv (W : Type) := {
  (** [strm->read_buffer]: the bytes delivered, at most the number asked for. *)
  read_buffer : Z -> W -> list Z * W;
  (** [mysym->...]; a symbol is found with its value, and added with it unless
      the table refuses it; a block of host memory comes with the bytes it
      happens to hold. *)
  Find_Matching_Symbol : list Z -> W -> option Z * W;
  Add_To_Symbol_Table : list Z -> Z -> Z -> W -> bool * W;
  Purge_Symbol_Table : Z -> W -> W;
  Allocate : Z -> W -> option (Z * list Z) * W;
  Deallocate : Z -> W -> W;
  Error_Report : dl_message -> W -> W;
  (** reading and writing the handles and roots that lie in host memory *)
  host_node_at : Z -> W -> option host_node;
  host_store : Z -> host_node -> W -> W;
  (** the addresses of the string constants ".cinit" and ".dllview" *)
  CINITNAME : Z;
  DLLVIEWNAME : Z;
  (** [myalloc->...] *)
  alloc_Allocate : LDR_SECTION_INFO -> Z -> W -> option LDR_SECTION_INFO * W;
  alloc_Deallocate : LDR_SECTION_INFO -> W -> W;
  (** [myio->...] *)
  connect : W -> bool * W;
  writemem : list Z -> Z -> LDR_SECTION_INFO -> W -> bool * W;
  fillmem : Z -> LDR_SECTION_INFO -> Z -> Z -> W -> bool * W;
  execute : Z -> W -> bool * W;
  release : W -> W
}.

(** * The state monad of the loader *)

Section Monad.
Context {W : Type}.

(** A routine: [None] is an access out of bounds or an undefined operation. *)
Definition M (A : Type) : Type := dload_state -> W -> option (A * dload_state * W).

Definition ret {A} (x : A) : M A := fun st w => Some (x, st, w).
Definition bind {A B} (c : M A) (k : A -> M B) : M B :=
  fun st w => match c st w with Some (x, st', w') => k x st' w' | None => None end.
Definition fault {A} : M A := fun _ _ => None.
Definition lift {A} (o : option A) : M A := fun st w => let* x := o in Some (x, st, w).
Definition get : M dload_state := fun st w => Some (st, st, w).
Definition modify (f : dload_state -> dload_state) : M unit := fun st w => Some (tt, f st, w).
(** A call through one of the classes. *)
Definition call {A} (f : W -> A * W) : M A := fun st w => let '(x, w') := f w in Some (x, st, w').
Definition call_ (f : W -> W) : M unit := fun st w => Some (tt, st, f w).
End Monad.
Arguments M : clear implicits.

Declare Scope dl_scope.
Delimit Scope dl_scope with dl.
Notation "x <- c ;; k" := (bind c (fun x => k))
  (at level 100, c at next level, right associativity) : dl_scope.
Notation "c ;;; k" := (bind c (fun _ => k))
  (at level 100, right associativity) : dl_scope.

(** Assignments to the fields of the state. *)
Definition set_str_head (x : option (Z * list Z)) (st : dload_state) : dload_state :=
  mkState (myalloc st) (myio st) (myoptions st) x (debug_string_size st) (sect_hdrs st) (ldr_sections st)
    (bss_run_base st) (local_symtab st) (image_secn st) (delta_runaddr st)
    (image_offset st) (cinit_state st) (cinit_count st) (cinit_addr st) (cinit_page st)
    (myhandle st) (dload_errcount st) (allocated_secn_count st) (big_e_target st)
    (reorder_map st) (dfile_hdr st) (verify st) (relstkidx st) (relstk st).
Definition set_debug_string_size (x : Z) (st : dload_state) : dload_state :=
  mkState (myalloc st) (myio st) (myoptions st) (str_head st) x (sect_hdrs st) (ldr_sections st)
    (bss_run_base st) (local_symtab st) (image_secn st) (delta_runaddr st)
    (image_offset st) (cinit_state st) (cinit_count st) (cinit_addr st) (cinit_page st)
    (myhandle st) (dload_errcount st) (allocated_secn_count st) (big_e_target st)
    (reorder_map st) (dfile_hdr st) (verify st) (relstkidx st) (relstk st).
Definition set_sect_hdrs (x : option (Z * list doff_scnhdr_t)) (st : dload_state) : dload_state :=
  mkState (myalloc st) (myio st) (myoptions st) (str_head st) (debug_string_size st) x (ldr_sections st)
    (bss_run_base st) (local_symtab st) (image_secn st) (delta_runaddr st)
    (image_offset st) (cinit_state st) (cinit_count st) (cinit_addr st) (cinit_page st)
    (myhandle st) (dload_errcount st) (allocated_secn_count st) (big_e_target st)
    (reorder_map st) (dfile_hdr st) (verify st) (relstkidx st) (relstk st).
Definition set_ldr_sections (x : list LDR_SECTION_INFO) (st : dload_state) : dload_state :=
  mkState (myalloc st) (myio st) (myoptions st) (str_head st) (debug_string_size st) (sect_hdrs st) x
    (bss_run_base st) (local_symtab st) (image_secn st) (delta_runaddr st)
    (image_offset st) (cinit_state st) (cinit_count st) (cinit_addr st) (cinit_page st)
    (myhandle st) (dload_errcount st) (allocated_secn_count st) (big_e_target st)
    (reorder_map st) (dfile_hdr st) (verify st) (relstkidx st) (relstk st).
Definition set_bss_run_base (x : Z) (st : dload_state) : dload_state :=
  mkState (myalloc st) (myio st) (myoptions st) (str_head st) (debug_string_size st) (sect_hdrs st)
    (ldr_sections st) x (local_symtab st) (image_secn st) (delta_runaddr st)
    (image_offset st) (cinit_state st) (cinit_count st) (cinit_addr st) (cinit_page st)
    (myhandle st) (dload_errcount st) (allocated_secn_count st) (big_e_target st)
    (reorder_map st) (dfile_hdr st) (verify st) (relstkidx st) (relstk st).
Definition set_local_symtab (x : option (Z * list Local_Symbol)) (st : dload_state) : dload_state :=
  mkState (myalloc st) (myio st) (myoptions st) (str_head st) (debug_string_size st) (sect_hdrs st)
    (ldr_sections st) (bss_run_base st) x (image_secn st) (delta_runaddr st)
    (image_offset st) (cinit_state st) (cinit_count st) (cinit_addr st) (cinit_page st)
    (myhandle st) (dload_errcount st) (allocated_secn_count st) (big_e_target st)
    (reorder_map st) (dfile_hdr st) (verify st) (relstkidx st) (relstk st).
Definition set_image_secn (x : LDR_SECTION_INFO) (st : dload_state) : dload_state :=
  mkState (myalloc st) (myio st) (myoptions st) (str_head st) (debug_string_size st) (sect_hdrs st)
    (ldr_sections st) (bss_run_base st) (local_symtab st) x (delta_runaddr st)
    (image_offset st) (cinit_state st) (cinit_count st) (cinit_addr st) (cinit_page st)
    (myhandle st) (dload_errcount st) (allocated_secn_count st) (big_e_target st)
    (reorder_map st) (dfile_hdr st) (verify st) (relstkidx st) (relstk st).
Definition set_delta_runaddr (x : Z) (st : dload_state) : dload_state :=
  mkState (myalloc st) (myio st) (myoptions st) (str_head st) (debug_string_size st) (sect_hdrs st)
    (ldr_sections st) (bss_run_base st) (local_symtab st) (image_secn st) x
    (image_offset st) (cinit_state st) (cinit_count st) (cinit_addr st) (cinit_page st)
    (myhandle st) (dload_errcount st) (allocated_secn_count st) (big_e_target st)
    (reorder_map st) (dfile_hdr st) (verify st) (relstkidx st) (relstk st).
Definition set_image_offset (x : Z) (st : dload_state) : dload_state :=
  mkState (myalloc st) (myio st) (myoptions st) (str_head st) (debug_string_size st) (sect_hdrs st)
    (ldr_sections st) (bss_run_base st) (local_symtab st) (image_secn st)
    (delta_runaddr st) x (cinit_state st) (cinit_count st) (cinit_addr st)
    (cinit_page st) (myhandle st) (dload_errcount st) (allocated_secn_count st)
    (big_e_target st) (reorder_map st) (dfile_hdr st) (verify st) (relstkidx st)
    (relstk st).
Definition set_cinit_state (x : cinit_mode) (st : dload_state) : dload_state :=
  mkState (myalloc st) (myio st) (myoptions st) (str_head st) (debug_string_size st) (sect_hdrs st)
    (ldr_sections st) (bss_run_base st) (local_symtab st) (image_secn st)
    (delta_runaddr st) (image_offset st) x (cinit_count st) (cinit_addr st)
    (cinit_page st) (myhandle st) (dload_errcount st) (allocated_secn_count st)
    (big_e_target st) (reorder_map st) (dfile_hdr st) (verify st) (relstkidx st)
    (relstk st).
Definition set_cinit_count (x : Z) (st : dload_state) : dload_state :=
  mkState (myalloc st) (myio st) (myoptions st) (str_head st) (debug_string_size st) (sect_hdrs st)
    (ldr_sections st) (bss_run_base st) (local_symtab st) (image_secn st)
    (delta_runaddr st) (image_offset st) (cinit_state st) x (cinit_addr st)
    (cinit_page st) (myhandle st) (dload_errcount st) (allocated_secn_count st)
    (big_e_target st) (reorder_map st) (dfile_hdr st) (verify st) (relstkidx st)
    (relstk st).
Definition set_cinit_addr (x : Z) (st : dload_state) : dload_state :=
  mkState (myalloc st) (myio st) (myoptions st) (str_head st) (debug_string_size st) (sect_hdrs st)
    (ldr_sections st) (bss_run_base st) (local_symtab st) (image_secn st)
    (delta_runaddr st) (image_offset st) (cinit_state st) (cinit_count st) x
    (cinit_page st) (myhandle st) (dload_errcount st) (allocated_secn_count st)
    (big_e_target st) (reorder_map st) (dfile_hdr st) (verify st) (relstkidx st)
    (relstk st).
Definition set_cinit_page (x : Z) (st : dload_state) : dload_state :=
  mkState (myalloc st) (myio st) (myoptions st) (str_head st) (debug_string_size st) (sect_hdrs st)
    (ldr_sections st) (bss_run_base st) (local_symtab st) (image_secn st)
    (delta_runaddr st) (image_offset st) (cinit_state st) (cinit_count st)
    (cinit_addr st) x (myhandle st) (dload_errcount st) (allocated_secn_count st)
    (big_e_target st) (reorder_map st) (dfile_hdr st) (verify st) (relstkidx st)
    (relstk st).
Definition set_myhandle (x : Z) (st : dload_state) : dload_state :=
  mkState (myalloc st) (myio st) (myoptions st) (str_head st) (debug_string_size st) (sect_hdrs st)
    (ldr_sections st) (bss_run_base st) (local_symtab st) (image_secn st)
    (delta_runaddr st) (image_offset st) (cinit_state st) (cinit_count st)
    (cinit_addr st) (cinit_page st) x (dload_errcount st) (allocated_secn_count st)
    (big_e_target st) (reorder_map st) (dfile_hdr st) (verify st) (relstkidx st)
    (relstk st).
Definition set_dload_errcount (x : Z) (st : dload_state) : dload_state :=
  mkState (myalloc st) (myio st) (myoptions st) (str_head st) (debug_string_size st) (sect_hdrs st)
    (ldr_sections st) (bss_run_base st) (local_symtab st) (image_secn st)
    (delta_runaddr st) (image_offset st) (cinit_state st) (cinit_count st)
    (cinit_addr st) (cinit_page st) (myhandle st) x (allocated_secn_count st)
    (big_e_target st) (reorder_map st) (dfile_hdr st) (verify st) (relstkidx st)
    (relstk st).
Definition set_allocated_secn_count (x : Z) (st : dload_state) : dload_state :=
  mkState (myalloc st) (myio st) (myoptions st) (str_head st) (debug_string_size st) (sect_hdrs st)
    (ldr_sections st) (bss_run_base st) (local_symtab st) (image_secn st)
    (delta_runaddr st) (image_offset st) (cinit_state st) (cinit_count st)
    (cinit_addr st) (cinit_page st) (myhandle st) (dload_errcount st) x
    (big_e_target st) (reorder_map st) (dfile_hdr st) (verify st) (relstkidx st)
    (relstk st).
Definition set_big_e_target (x : bool) (st : dload_state) : dload_state :=
  mkState (myalloc st) (myio st) (myoptions st) (str_head st) (debug_string_size st) (sect_hdrs st)
    (ldr_sections st) (bss_run_base st) (local_symtab st) (image_secn st)
    (delta_runaddr st) (image_offset st) (cinit_state st) (cinit_count st)
    (cinit_addr st) (cinit_page st) (myhandle st) (dload_errcount st)
    (allocated_secn_count st) x (reorder_map st) (dfile_hdr st) (verify st)
    (relstkidx st) (relstk st).
Definition set_reorder_map (x : Z) (st : dload_state) : dload_state :=
  mkState (myalloc st) (myio st) (myoptions st) (str_head st) (debug_string_size st) (sect_hdrs st)
    (ldr_sections st) (bss_run_base st) (local_symtab st) (image_secn st)
    (delta_runaddr st) (image_offset st) (cinit_state st) (cinit_count st)
    (cinit_addr st) (cinit_page st) (myhandle st) (dload_errcount st)
    (allocated_secn_count st) (big_e_target st) x (dfile_hdr st) (verify st)
    (relstkidx st) (relstk st).
Definition set_dfile_hdr (x : doff_filehdr_t) (st : dload_state) : dload_state :=
  mkState (myalloc st) (myio st) (myoptions st) (str_head st) (debug_string_size st) (sect_hdrs st)
    (ldr_sections st) (bss_run_base st) (local_symtab st) (image_secn st)
    (delta_runaddr st) (image_offset st) (cinit_state st) (cinit_count st)
    (cinit_addr st) (cinit_page st) (myhandle st) (dload_errcount st)
    (allocated_secn_count st) (big_e_target st) (reorder_map st) x (verify st)
    (relstkidx st) (relstk st).
Definition set_verify (x : doff_verify_rec_t) (st : dload_state) : dload_state :=
  mkState (myalloc st) (myio st) (myoptions st) (str_head st) (debug_string_size st) (sect_hdrs st)
    (ldr_sections st) (bss_run_base st) (local_symtab st) (image_secn st)
    (delta_runaddr st) (image_offset st) (cinit_state st) (cinit_count st)
    (cinit_addr st) (cinit_page st) (myhandle st) (dload_errcount st)
    (allocated_secn_count st) (big_e_target st) (reorder_map st) (dfile_hdr st) x
    (relstkidx st) (relstk st).
Definition set_relstkidx (x : Z) (st : dload_state) : dload_state :=
  mkState (myalloc st) (myio st) (myoptions st) (str_head st) (debug_string_size st) (sect_hdrs st)
    (ldr_sections st) (bss_run_base st) (local_symtab st) (image_secn st)
    (delta_runaddr st) (image_offset st) (cinit_state st) (cinit_count st)
    (cinit_addr st) (cinit_page st) (myhandle st) (dload_errcount st)
    (allocated_secn_count st) (big_e_target st) (reorder_map st) (dfile_hdr st)
    (verify st) x (relstk st).
Definition set_relstk (x : list Z) (st : dload_state) : dload_state :=
  mkState (myalloc st) (myio st) (myoptions st) (str_head st) (debug_string_size st) (sect_hdrs st)
    (ldr_sections st) (bss_run_base st) (local_symtab st) (image_secn st)
    (delta_runaddr st) (image_offset st) (cinit_state st) (cinit_count st)
    (cinit_addr st) (cinit_page st) (myhandle st) (dload_errcount st)
    (allocated_secn_count st) (big_e_target st) (reorder_map st) (dfile_hdr st)
    (verify st) (relstkidx st) x.

Open Scope dl_scope.

(** [dload_error]: reports the message and counts it. *)
Definition dload_error `{DlEnv W} (msg : dl_message) : M W unit :=
  call_ (Error_Report msg) ;;;
  modify (fun st => set_dload_errcount (u32 (dload_errcount st + 1)) st).

Lemma bind_lift {W A B} (o : option A) (k : A -> M W B) st w :
  bind (lift o) k st w = match o with Some x => k x st w | None => None end.
Proof. unfold bind, lift. by destruct o. Qed.

(** * A simple host and target

    A stream that is a list of bytes, a symbol table that is a list, host
    memory that never runs out, and a target of a flat memory written through
    a log; used to evaluate the loader on concrete files. *)

Inductive target_op :=
| T_connect | T_release | T_execute (start : Z)
| T_write (locn : Z) (bytes : list Z) | T_fill (locn bytsiz val : Z)
| T_alloc (locn sz : Z) | T_free (locn : Z).

Record sample_world := mkWorld {
  w_file : list Z;
  w_syms : list (list Z * Z * Z);   (** name, module, value *)
  w_live : gmultiset Z;             (** host blocks allocated and not yet released *)
  w_nodes : gmap Z host_node;       (** handles and roots in those blocks *)
  w_target : gmultiset Z;           (** target memory allocated and not yet released *)
  w_free : Z;                       (** next target address *)
  w_msgs : list dl_message;
  w_ops : list target_op
}.

Definition w_op (o : target_op) (w : sample_world) : sample_world :=
  mkWorld (w_file w) (w_syms w) (w_live w) (w_nodes w) (w_target w) (w_free w) (w_msgs w) (w_ops w ++ [o]).
(** An address above every block that is allocated. *)
Definition w_fresh (w : sample_world) : Z := foldr Z.max 0 (elements (w_live w)) + 4096.

#[export] Instance sample_env : DlEnv sample_world := {|
  read_buffer n w :=
    (take (Z.to_nat n) (w_file w),
     mkWorld (drop (Z.to_nat n) (w_file w)) (w_syms w) (w_live w) (w_nodes w) (w_target w) (w_free w)
             (w_msgs w) (w_ops w));
  Find_Matching_Symbol nm w := (snd <$> head (filter (fun s => s.1.1 = nm) (w_syms w)), w);
  Add_To_Symbol_Table nm md v w :=
    (true, mkWorld (w_file w) ((nm, md, v) :: w_syms w) (w_live w) (w_nodes w) (w_target w) (w_free w)
                   (w_msgs w) (w_ops w));
  Purge_Symbol_Table md w :=
    mkWorld (w_file w) (filter (fun s => s.1.2 <> md) (w_syms w)) (w_live w) (w_nodes w) (w_target w)
            (w_free w) (w_msgs w) (w_ops w);
  Allocate n w :=
    (Some (w_fresh w, replicate (Z.to_nat n) 0),
     mkWorld (w_file w) (w_syms w) (w_live w ⊎ {[+ w_fresh w +]}) (w_nodes w) (w_target w) (w_free w)
             (w_msgs w) (w_ops w));
  Deallocate p w :=
    mkWorld (w_file w) (w_syms w) (w_live w ∖ {[+ p +]}) (delete p (w_nodes w)) (w_target w) (w_free w)
            (w_msgs w) (w_ops w);
  Error_Report m w :=
    mkWorld (w_file w) (w_syms w) (w_live w) (w_nodes w) (w_target w) (w_free w) (w_msgs w ++ [m]) (w_ops w);
  host_node_at p w := w_nodes w !! p;
  host_store p n w :=
    mkWorld (w_file w) (w_syms w) (w_live w) (<[p := n]> (w_nodes w)) (w_target w) (w_free w)
            (w_msgs w) (w_ops w);
  CINITNAME := 16;
  DLLVIEWNAME := 24;
  alloc_Allocate s align w :=
    (Some (mkSection (name s) (w_free w) (w_free w) (size s) (page s) (type s) (context s)),
     mkWorld (w_file w) (w_syms w) (w_live w) (w_nodes w) (w_target w ⊎ {[+ w_free w +]})
             (w_free w + size s + align) (w_msgs w) (w_ops w ++ [T_alloc (w_free w) (size s)]));
  alloc_Deallocate s w :=
    mkWorld (w_file w) (w_syms w) (w_live w) (w_nodes w) (w_target w ∖ {[+ load_addr s +]}) (w_free w)
            (w_msgs w) (w_ops w ++ [T_free (load_addr s)]);
  connect w := (true, w_op T_connect w);
  writemem bs l s w := (true, w_op (T_write l bs) w);
  fillmem l s n v w := (true, w_op (T_fill l n v) w);
  execute a w := (true, w_op (T_execute a) w);
  release w := w_op T_release w
|}.

Definition zero_filehdr := mkFilehdr 0 0 0 0 0 0 0 0 0 0 0 0 0.
Definition zero_section := mkSection 0 0 0 0 0 0 0.
(** The state that [Dynamic_Load_Module] clears before it starts. *)
Definition zero_state : dload_state :=
  mkState false false 0 None 0 None [] 0 None zero_section 0 0 CI_count 0 0 0 0 0 0 false 0
    zero_filehdr (mkVerify 0 0 0 0 0) 0 (replicate 10 0).
Definition empty_world (file : list Z) : sample_world := mkWorld file [] ∅ ∅ ∅ 65536 [] [].
