(* ===== verification/DlReloc.v ===== *)
(** The relocation engine of the DSP dynamic loader
    (src/dspbridge/dynreg/reloc.c and reloc_table_c6000.c): the operator tables,
    their lookup, [dload_relocate], and the expressions that a sequence of
    relocations evaluates on the relocation stack. *)

From Stdlib Require Import ZArith Lia String.
From stdpp Require Import base list list_numbers option tactics.
From S2P Require Import Prelude DlWords DlField DlState.

(** * The tables of the C6x operators *)

Definition HASH_FUNC (zz : Z) : Z := Z.land (Z.shiftr (u32 ((zz + 1) * 1845)) 11) 63.
Definition HASH_L (zz : Z) : Z := Z.shiftr zz 8.
Definition HASH_I (zz : Z) : Z := Z.land zz 255.

Definition rop_map1 : list Z :=
  [0; 1; 2; 20; 4; 5; 6; 15; 80; 81; 82; 83; 84; 85; 86; 87; 17; 18; 19; 21; 16;
   16394; 16404; 65535; 65535; 65535; 65535; 65535; 65535; 32; 65535; 65535; 65535;
   65535; 65535; 65535; 40; 112; 113; 65535; 16384; 16385; 16386; 16387; 16388;
   16389; 16390; 16391; 16392; 16393; 16395; 16396; 16397; 16398; 16399; 16400;
   16401; 16402; 16403; 16405; 16406; 65535; 65535; 65535].

Definition rop_map2 : list Z :=
  [-256; -255; -254; -245; -253; -252; -251; -250; -241; -240; -239; -238; -237;
   -236; 1813; 5142; -248; -247; 778; -244; -249; -221; -211; -1; -1; -1; -1; -1; -1;
   -243; -1; -1; -1; -1; -1; -1; -242; -233; -232; -1; -231; -230; -229; -228; -227;
   -226; -225; -224; -223; 5410; -220; -219; -218; -217; -216; -215; -214; -213;
   5676; -210; -209; -1; -1; -1].

Definition rop_action : list Z :=
  [2560; 2304; 2304; 2432; 2432; 2560; 2176; 2304; 2560; 3200; 3328; 3584; 3456;
   2304; 4208; 20788; 21812; 3415; 3245; 2311; 4359; 19764; 2311; 3191; 3280; 6656;
   7680; 8704; 9728; 10752; 11776; 12800; 13824; 14848; 15872; 16896; 17920; 18944;
   0; 0; 0; 0; 1536; 1536; 1536; 5632; 512; 0].

Definition rop_info : list Z :=
  [0; 35; 35; 35; 35; 35; 35; 35; 35; 39; 39; 39; 39; 35; 34; 283; 299; 4135; 4391;
   291; 33059; 283; 295; 4647; 4135; 64; 64; 128; 64; 64; 64; 64; 64; 64; 64; 64; 64;
   128; 201; 197; 74; 70; 208; 196; 200; 192; 192; 66].

(** Fields of a table entry (reloc_table.h). *)
Definition RFV_POSN (a : Z) : Z := Z.land a 15.
Definition RFV_WIDTH (a : Z) : Z := Z.land (Z.shiftr a 4) 63.
Definition RFV_ACTION (a : Z) : Z := Z.shiftr a 10.
Definition RFV_SIGN (i : Z) : Z := Z.land (Z.shiftr i 2) 3.
Definition RFV_SYM (i : Z) : Z := Z.land (Z.shiftr i 4) 3.
Definition RFV_STK (i : Z) : Z := Z.land (Z.shiftr i 6) 3.
Definition RFV_SCALE (i : Z) : Z := Z.shiftr i 11.
Definition ROP_R : Z := 1.
Definition ROP_W : Z := 2.
Definition ROP_RW : Z := 3.
Definition ROP_SYMD : Z := 2.
Definition RSTK_UOP : Z := 2.

Inductive Dload_Actions :=
| RACT_VAL | RACT_ASGN | RACT_ADD | RACT_PCR | RACT_ADDISP | RACT_ASGPC
| RACT_PLUS | RACT_SUB | RACT_NEG | RACT_MPY | RACT_DIV | RACT_MOD
| RACT_SR | RACT_ASR | RACT_SL | RACT_AND | RACT_OR | RACT_XOR | RACT_NOT
| RACT_C6SECT | RACT_C6BASE | RACT_C6DSPL | RACT_PCR23T.

(** The enumeration numbers its constructors from zero. *)
Definition Dload_Actions_values : list Dload_Actions :=
  [RACT_VAL; RACT_ASGN; RACT_ADD; RACT_PCR; RACT_ADDISP; RACT_ASGPC;
   RACT_PLUS; RACT_SUB; RACT_NEG; RACT_MPY; RACT_DIV; RACT_MOD;
   RACT_SR; RACT_ASR; RACT_SL; RACT_AND; RACT_OR; RACT_XOR; RACT_NOT;
   RACT_C6SECT; RACT_C6BASE; RACT_C6DSPL; RACT_PCR23T].

(** The hash chain: [while (rop_map1[rx] != r_type) rx = HASH_L(rop_map2[rx])],
    given up when the link is negative. *)
Inductive lookup_result := Found (rx : Z) | Unknown.
Fixpoint rop_lookup_from (fuel : nat) (rx r_type : Z) : option lookup_result :=
  let* t := arr_get rop_map1 rx in
  if t =? r_type then let* l := arr_get rop_map2 rx in Some (Found (HASH_I l))
  else
    match fuel with
    | O => None
    | Datatypes.S f =>
        let* l := arr_get rop_map2 rx in
        let rx := HASH_L l in
        if rx <? 0 then Some Unknown else rop_lookup_from f rx r_type
    end.
Definition rop_lookup (r_type : Z) : option lookup_result :=
  rop_lookup_from 4 (HASH_FUNC r_type) r_type.

(** Relocation types that are ignored. *)
Definition R_C60ALIGN : Z := 118.  (* 0x76 *)
Definition R_C60FPHEAD : Z := 119. (* 0x77 *)
Definition R_C60NOCMP : Z := 256.  (* 0x100 *)
Definition ignored_type (t : Z) : bool :=
  (t =? R_C60ALIGN) || (t =? R_C60NOCMP) || (t =? R_C60FPHEAD).

Definition SCALE_BITS : Z := 4.
Definition SCALE_MASK : Z := 7.
Definition C60_Scale : list Z := [1; 0; 0; 0; 1; 1; 2; 2].

(** * [dload_relocate] *)

Section Relocate.
Context {W : Type} `{Env : DlEnv W}.

(** The relocation amount of the referenced symbol, if any, and the symbol. *)
Definition reloc_amount (info : Z) (rp : reloc_record_t) : M W (Z * option Local_Symbol) :=
  st <- get ;;
  if RFV_SYM info =? 0 then ret (s32 (r_uval rp), None)
  else if u32 (r_symndx rp) <? df_no_syms (dfile_hdr st) then
    syms <- lift (local_symtab st) ;;
    svp <- lift (arr_get syms.2 (r_symndx rp)) ;;
    ret (if RFV_SYM info =? ROP_SYMD then delta svp else value svp, Some svp)
  else if r_symndx rp =? -1 then
    ret (s32 (if RFV_SYM info =? ROP_SYMD then delta_runaddr st else run_addr (image_secn st)), None)
  else ret (s32 (r_uval rp), None).

(** The stack adjustment: the value popped and the index of the new top, which
    is [stackp]; [None] is the overflow of the stack. *)
Definition stack_adjust (info : Z) : M W (option (Z * option Z)) :=
  let top := RFV_STK info in
  if top =? 0 then ret (Some (0, None))
  else
    st <- get ;;
    let top := s32 (top + relstkidx st - RSTK_UOP) in
    if top >=? STATIC_EXPR_STK_SIZE then
      dload_error M_stack_overflow ;;; ret None
    else
      val <- lift (arr_get (relstk st) (relstkidx st)) ;;
      modify (set_relstkidx top) ;;;
      ret (Some (val, Some top)).

(** An operation on the new top of the stack, [if (stackp != NULL)]. *)
Definition on_stack (stackp : option Z) (val : Z) (f : Z -> option Z) : M W Z :=
  match stackp with
  | None => ret val
  | Some top => st <- get ;; tos <- lift (arr_get (relstk st) top) ;; lift (f tos)
  end.

(** Division by zero and of the least integer by -1 are undefined. *)
Definition div_ok (x y : Z) : bool := negb (y =? 0) && negb ((x =? - 2 ^ 31) && (y =? -1)).

(** [val >= sizeof(RVALUE)*BITS_PER_AU]: the comparison is unsigned. *)
Definition shift_too_big (val : Z) : bool := u32 val >=? 32.

(** The state of the arithmetic: the value and the field. *)
Record field := mkField { f_val : Z; f_offset : Z; f_fieldsz : Z; f_scale : option Z }.
Definition set_val (v : Z) (f : field) : field := mkField v (f_offset f) (f_fieldsz f) (f_scale f).

(** [case RACT_C6DSPL] *)
Definition act_C6DSPL (reloc_amt : Z) (f : field) : M W field :=
  scale <- lift (arr_get C60_Scale (Z.land (f_val f) SCALE_MASK)) ;;
  let val := s32 (s32 (Z.shiftl (Z.shiftr (f_val f) SCALE_BITS) scale) + reloc_amt) in
  (if negb (Z.land (Z.shiftl 1 scale - 1) val =? 0) then dload_error M_unaligned else ret tt) ;;;
  ret (mkField val (f_offset f + SCALE_BITS) (f_fieldsz f - SCALE_BITS) (Some scale)).

(** [.bss], the magic symbol for the start of BSS. *)
Definition BSSSYMBOL : list Z := [46; 98; 115; 115].

(** [case RACT_C6BASE], which falls through *)
Definition act_C6BASE (reloc_amt : Z) (f : field) : M W field :=
  st <- get ;;
  (if bss_run_base st =? 0 then
     symp <- call (Find_Matching_Symbol BSSSYMBOL) ;;
     match symp with
     | Some v => modify (set_bss_run_base v)
     | None => dload_error M_no_bss
     end
   else ret tt) ;;;
  st <- get ;;
  act_C6DSPL (s32 (reloc_amt - bss_run_base st)) f.

(** [case RACT_C6SECT], which falls through *)
Definition act_C6SECT (rp : reloc_record_t) (svp : option Local_Symbol) (reloc_amt : Z) (f : field)
    : M W field :=
  st <- get ;;
  amt <- match svp with
         | Some s =>
             if (0 <=? r_symndx rp) && (0 <? secnn s)
             then sec <- lift (arr_get (ldr_sections st) (secnn s - 1)) ;; ret (s32 (run_addr sec))
             else ret reloc_amt
         | None => ret reloc_amt
         end ;;
  act_C6BASE amt f.

(** The switch on the relocation action. *)
Definition reloc_arith (act : Dload_Actions) (rp : reloc_record_t) (svp : option Local_Symbol)
    (reloc_amt : Z) (stackp : option Z) (f : field) : M W field :=
  let val := f_val f in
  let set c := v <- c ;; ret (set_val v f) in
  st <- get ;;
  match act with
  | RACT_VAL => ret f
  | RACT_ASGN => set (ret reloc_amt)
  | RACT_ADD => set (ret (s32 (val + reloc_amt)))
  | RACT_PCR =>
      let reloc_amt := if r_symndx rp =? -1 then 0 else reloc_amt in
      set (ret (s32 (val + (reloc_amt - delta_runaddr st))))
  | RACT_ADDISP => set (ret (s32 (val + (r_disp rp + reloc_amt))))
  | RACT_ASGPC => set (ret (s32 (run_addr (image_secn st) + reloc_amt)))
  | RACT_PLUS => set (on_stack stackp val (fun tos => Some (s32 (val + tos))))
  | RACT_SUB => set (on_stack stackp val (fun tos => Some (s32 (tos - val))))
  | RACT_NEG => set (ret (match stackp with Some _ => s32 (- val) | None => val end))
  | RACT_MPY => set (on_stack stackp val (fun tos => Some (s32 (val * tos))))
  | RACT_DIV => set (on_stack stackp val (fun tos => guard* (div_ok tos val) in Some (Z.quot tos val)))
  | RACT_MOD => set (on_stack stackp val (fun tos => guard* (div_ok tos val) in Some (Z.rem tos val)))
  | RACT_SR =>
      set (if shift_too_big val then ret 0
           else on_stack stackp val (fun tos => Some (s32 (Z.shiftr (u32 tos) val))))
  | RACT_ASR =>
      set (if shift_too_big val then ret 31
           else on_stack stackp val (fun tos => Some (Z.shiftr tos val)))
  | RACT_SL =>
      set (if shift_too_big val then ret 0
           else on_stack stackp val (fun tos => Some (s32 (Z.shiftl tos val))))
  | RACT_AND => set (on_stack stackp val (fun tos => Some (Z.land val tos)))
  | RACT_OR => set (on_stack stackp val (fun tos => Some (Z.lor val tos)))
  | RACT_XOR => set (on_stack stackp val (fun tos => Some (Z.lxor val tos)))
  | RACT_NOT => set (ret (Z.lnot val))
  | RACT_C6SECT => act_C6SECT rp svp reloc_amt f
  | RACT_C6BASE => act_C6BASE reloc_amt f
  | RACT_C6DSPL => act_C6DSPL reloc_amt f
  | RACT_PCR23T => ret f
  end.

(** The position, the size and the scale of the field, and its value when the
    operation reads the image. *)
Definition reloc_field (action info : Z) (rp : reloc_record_t) (data : list Z) (val : Z) : M W field :=
  let rw := negb (Z.land info ROP_RW =? 0) in
  let fieldsz := if rw then (if RFV_WIDTH action =? 0 then r_fieldsz rp else RFV_WIDTH action) else 0 in
  let offset := if rw then (if RFV_WIDTH action =? 0 then r_offset rp else RFV_POSN action) else 0 in
  let scale := if rw then Some (RFV_SCALE info) else None in
  if negb (Z.land info ROP_R =? 0) then
    guard_ <- lift (guard* (0 <=? r_vaddr rp) in Some tt) ;;
    v <- lift (dload_unpack data (Z.to_nat (r_vaddr rp)) fieldsz offset (RFV_SIGN info)) ;;
    sc <- lift scale ;;
    ret (mkField (s32 (Z.shiftl v sc)) offset fieldsz scale)
  else ret (mkField val offset fieldsz scale).

(** Putting back the result: in the image, or on the stack unless its new top
    is the cell 0. *)
Definition reloc_put (info : Z) (rp : reloc_record_t) (data : list Z) (stackp : option Z) (f : field)
    : M W (list Z) :=
  if negb (Z.land info ROP_W =? 0) then
    sc <- lift (f_scale f) ;;
    guard_ <- lift (guard* (0 <=? r_vaddr rp) in Some tt) ;;
    res <- lift (dload_repack (Z.shiftr (f_val f) sc) data (Z.to_nat (r_vaddr rp))
                   (f_fieldsz f) (f_offset f) (RFV_SIGN info)) ;;
    (if res.2 : bool then dload_error M_overflow else ret tt) ;;;
    ret res.1
  else
    match stackp with
    | Some top =>
        if top =? 0 then ret data
        else st <- get ;;
             stk <- lift (arr_set (relstk st) top (f_val f)) ;;
             modify (set_relstk stk) ;;; ret data
    | None => ret data
    end.

(** The operation found in the tables. *)
Definition reloc_perform (action info : Z) (rp : reloc_record_t) (data : list Z) : M W (list Z) :=
  amt <- reloc_amount info rp ;;
  stk <- stack_adjust info ;;
  match stk with
  | None => ret data
  | Some (val, stackp) =>
      f <- reloc_field action info rp data val ;;
      act <- lift (arr_get Dload_Actions_values (RFV_ACTION action)) ;;
      f <- reloc_arith act rp amt.2 amt.1 stackp f ;;
      reloc_put info rp data stackp f
  end.

(** The image after the relocation. An index outside the tables is reported
    and the operation goes on with [reloc_action] and [reloc_info] that nothing
    has assigned: a fault. *)
Definition dload_relocate (rp : reloc_record_t) (data : list Z) : M W (list Z) :=
  r <- lift (rop_lookup (r_type rp)) ;;
  match r with
  | Unknown =>
      (if ignored_type (r_type rp) then ret tt else dload_error M_bad_operator) ;;; ret data
  | Found rx =>
      if (rx <? Z.of_nat (length rop_action)) && (rx <? Z.of_nat (length rop_info)) then
        action <- lift (arr_get rop_action rx) ;;
        info <- lift (arr_get rop_info rx) ;;
        reloc_perform action info rp data
      else dload_error M_array_index ;;; fault
  end.

End Relocate.

(** * The tables *)

Definition lookup_ok (t : Z) : bool :=
  match rop_lookup t with
  | Some Unknown => negb (existsb (Z.eqb t) rop_map1)
  | Some (Found rx) =>
      existsb (Z.eqb t) rop_map1 &&
      if t =? 65535 then rx =? 255
      else
        match arr_get rop_action rx, arr_get rop_info rx with
        | Some a, Some i =>
            match arr_get Dload_Actions_values (RFV_ACTION a) with
            | Some RACT_PCR23T | None => false
            | Some _ =>
                (t =? 83) || (Z.land i ROP_RW =? 0) || (RFV_WIDTH a =? 0)
                || field_ok (RFV_WIDTH a) (RFV_POSN a)
            end
        | _, _ => false
        end
  | None => false
  end.

(** A check of all 16-bit values, by splitting on their bits. *)
Fixpoint all_below (k : nat) (base : Z) (P : Z -> bool) : bool :=
  match k with
  | O => P base
  | Datatypes.S k' => all_below k' (2 * base) P && all_below k' (2 * base + 1) P
  end.

Lemma all_below_spec k base P t :
  all_below k base P = true -> base * 2 ^ Z.of_nat k <= t < (base + 1) * 2 ^ Z.of_nat k -> P t = true.
Proof.
  revert base. induction k as [|k IH]; intros base H Ht.
  - simpl in *. by assert (t = base) as -> by lia.
  - cbn [all_below] in H. apply andb_true_iff in H as [H0 H1].
    rewrite Nat2Z.inj_succ, Z.pow_succ_r in Ht by lia.
    destruct (Z.lt_ge_cases t ((2 * base + 1) * 2 ^ Z.of_nat k)).
    + apply (IH (2 * base)); [done|nia].
    + apply (IH (2 * base + 1)); [done|nia].
Qed.

Lemma lookup_ok_all t : 0 <= t < 65536 -> lookup_ok t = true.
Proof.
  intros Ht. apply (all_below_spec 16 0); [vm_compute; reflexivity|].
  change (2 ^ Z.of_nat 16) with 65536. lia.
Qed.

Lemma existsb_eqb t l : existsb (Z.eqb t) l = true <-> t ∈ l.
Proof.
  rewrite existsb_exists. setoid_rewrite Z.eqb_eq. setoid_rewrite list_elem_of_In. split.
  - by intros (x & Hx & ->).
  - intros Hx. by exists t.
Qed.

(** the lookup of an operator ends within four links of its hash chain for
    every 16-bit type, never leaves the tables, and finds exactly the types of
    [rop_map1]; the entries found, apart from the filler type 65535, are in the
    tables and name an action of the loader, and, apart from type 83, those
    with a field of their own name one that [dload_unpack] and [dload_repack]
    can address. *)
Lemma rop_lookup_correct (t : Z) :
  0 <= t < 65536 ->
  (t ∉ rop_map1 -> rop_lookup t = Some Unknown) /\
  (t ∈ rop_map1 -> t <> 65535 ->
   exists rx a i act, rop_lookup t = Some (Found rx) /\
     arr_get rop_action rx = Some a /\ arr_get rop_info rx = Some i /\
     arr_get Dload_Actions_values (RFV_ACTION a) = Some act /\ act <> RACT_PCR23T /\
     (t <> 83 -> Z.land i ROP_RW <> 0 -> RFV_WIDTH a <> 0 ->
      field_ok (RFV_WIDTH a) (RFV_POSN a) = true)).
Proof.
  intros Ht. pose proof (lookup_ok_all t Ht) as H. unfold lookup_ok in H.
  destruct (rop_lookup t) as [[rx|]|] eqn:E; [|split|done].
  - apply andb_true_iff in H as [Hin H]. apply existsb_eqb in Hin. split; [done|].
    intros _ Hne. rewrite (proj2 (Z.eqb_neq t 65535)) in H by done.
    destruct (arr_get rop_action rx) as [a|] eqn:Ea; [|done].
    destruct (arr_get rop_info rx) as [i|] eqn:Ei; [|done].
    destruct (arr_get Dload_Actions_values (RFV_ACTION a)) as [act|] eqn:Eact; [|done].
    exists rx, a, i, act. do 4 (split; [done|]). split; [by intros ->|].
    intros H83 Hrw Hw. destruct act; try done;
      rewrite !orb_true_iff, !Z.eqb_eq in H; naive_solver.
  - done.
  - intros Hin. apply existsb_eqb in Hin. by rewrite Hin in H.
Qed.

Lemma rop_lookup_correct_witness :
  rop_lookup 82 = Some (Found 17) /\ rop_lookup 3 = Some Unknown.
Proof.
  split.
  - destruct (rop_lookup_correct 82) as [_ H]; [lia|].
    destruct H as (rx & a & i & act & E & _); [apply existsb_eqb; reflexivity|lia|].
    vm_compute in E. injection E as <-. reflexivity.
  - apply (rop_lookup_correct 3); [lia|]. rewrite <- existsb_eqb. discriminate.
Defined.

Section Faults.
Context {W : Type} `{Env : DlEnv W}.

Lemma bind_None {A B} (c : M W A) (k : A -> M W B) st w :
  (forall x st' w', c st w = Some (x, st', w') -> k x st' w' = None) -> bind c k st w = None.
Proof. intros H. unfold bind. destruct (c st w) as [[[x st'] w']|]; [by apply H|done]. Qed.

(** two relocation types of the tables have no defined effect: the filler
    type 65535 is found at index 255, outside the tables, and the relocation
    goes on with an operation that nothing has assigned; and [R_C60PCR10] (83)
    names a field at bit 13, which the two routines, given offsets within a
    byte, would reach by a negative shift. *)
Lemma relocate_undefined (rp : reloc_record_t) (data : list Z) (st : dload_state) (w : W) :
  r_type rp = 65535 \/ r_type rp = 83 -> dload_relocate rp data st w = None.
Proof.
  unfold dload_relocate. intros [-> | ->].
  - rewrite bind_lift. change (rop_lookup 65535) with (Some (Found 255)). cbn beta iota.
    change (_ && _) with false. cbn beta iota. apply bind_None. done.
  - rewrite bind_lift. change (rop_lookup 83) with (Some (Found 18)). cbn beta iota.
    change (_ && _) with true. cbn beta iota.
    rewrite !bind_lift. change (arr_get rop_action 18) with (Some 3245). cbn beta iota.
    rewrite bind_lift. change (arr_get rop_info 18) with (Some 4391). cbn beta iota.
    unfold reloc_perform. apply bind_None. intros amt st1 w1 _. apply bind_None.
    intros stk st2 w2 E. vm_compute in E. injection E as <- <- <-.
    apply bind_None. intros f st3 w3 E. exfalso. unfold reloc_field in E.
    change (negb (Z.land 4391 ROP_R =? 0)) with true in E. cbn beta iota in E.
    rewrite bind_lift in E. destruct (0 <=? r_vaddr rp); [|done].
    rewrite bind_lift in E. done.
Qed.

End Faults.

Lemma relocate_undefined_witness :
  dload_relocate (mkReloc 0 4294967295 0 83) (replicate 8 0) zero_state (empty_world []) = None.
Proof. apply relocate_undefined. right. reflexivity. Defined.

(** * Expressions on the relocation stack *)

Inductive unop := Neg | Not.
Inductive binop := Plus | Sub | Mpy | Div | Mod | Sr | Asr | Sl | And | Or | Xor.

(** The expressions that relocations compute: literals, values of symbols, and
    addresses relative to the section. *)
Inductive rexpr :=
| ELit (n : Z)
| ESym (i : Z)
| EPc (n : Z)
| EUn (op : unop) (e : rexpr)
| EBin (op : binop) (e1 e2 : rexpr).

(** Their relocation types (R_RE_* of the DOFF file). *)
Definition unop_type (op : unop) : Z := match op with Neg => 16386 | Not => 16396 end.
Definition binop_type (op : binop) : Z :=
  match op with
  | Plus => 16384 | Sub => 16385 | Mpy => 16387 | Div => 16388 | Mod => 16389
  | Sr => 16390 | Asr => 16391 | Sl => 16392 | And => 16393 | Or => 16394 | Xor => 16395
  end.

(** The relocations for an expression, in postfix order. *)
Fixpoint postfix (e : rexpr) : list reloc_record_t :=
  match e with
  | ELit n => [mkReloc 0 (u32 n) 0 16402]
  | ESym i => [mkReloc 0 i 0 16401]
  | EPc n => [mkReloc 0 (u32 n) 0 16404]
  | EUn op e => postfix e ++ [mkReloc 0 0 0 (unop_type op)]
  | EBin op e1 e2 => postfix e1 ++ postfix e2 ++ [mkReloc 0 0 0 (binop_type op)]
  end.

(** The cells of the stack an expression needs. *)
Fixpoint depth (e : rexpr) : Z :=
  match e with
  | ELit _ | ESym _ | EPc _ => 1
  | EUn _ e => depth e
  | EBin _ e1 e2 => Z.max (depth e1) (1 + depth e2)
  end.

(** Arithmetic on 32-bit words; shifts by 32 or more clear the word, an
    arithmetic shift by 32 or more is left undefined here. *)
Definition eval_unop (op : unop) (x : Z) : Z :=
  match op with Neg => s32 (- x) | Not => Z.lnot x end.
Definition eval_binop (op : binop) (x y : Z) : option Z :=
  match op with
  | Plus => Some (s32 (x + y))
  | Sub => Some (s32 (x - y))
  | Mpy => Some (s32 (x * y))
  | Div => guard* (div_ok x y) in Some (Z.quot x y)
  | Mod => guard* (div_ok x y) in Some (Z.rem x y)
  | Sr => Some (if (0 <=? y) && (y <? 32) then s32 (Z.shiftr (u32 x) y) else 0)
  | Asr => guard* ((0 <=? y) && (y <? 32)) in Some (Z.shiftr x y)
  | Sl => Some (if (0 <=? y) && (y <? 32) then s32 (Z.shiftl x y) else 0)
  | And => Some (Z.land x y)
  | Or => Some (Z.lor x y)
  | Xor => Some (Z.lxor x y)
  end.
Fixpoint eval (st : dload_state) (e : rexpr) : option Z :=
  match e with
  | ELit n => Some (s32 n)
  | ESym i =>
      let* syms := local_symtab st in
      guard* (i <? df_no_syms (dfile_hdr st)) in
      let* s := arr_get syms.2 i in Some (value s)
  | EPc n => Some (s32 (run_addr (image_secn st) + n))
  | EUn op e => let* x := eval st e in Some (eval_unop op x)
  | EBin op e1 e2 => let* x := eval st e1 in let* y := eval st e2 in eval_binop op x y
  end.

(** Relocations in sequence: the inner loop of [relocate_packet]. *)
Section Sequence.
Context {W : Type} `{Env : DlEnv W}.

Fixpoint relocate_records (rps : list reloc_record_t) (data : list Z) : M W (list Z) :=
  match rps with
  | [] => ret data
  | rp :: rps' => data <- dload_relocate rp data ;; relocate_records rps' data
  end.

Lemma relocate_records_app l1 l2 data st w :
  relocate_records (l1 ++ l2) data st w =
  match relocate_records l1 data st w with
  | Some (data', st', w') => relocate_records l2 data' st' w'
  | None => None
  end.
Proof.
  revert data st w. induction l1 as [|rp l1 IH]; intros data st w; [done|].
  simpl. unfold bind. destruct (dload_relocate rp data st w) as [[[d' s'] w']|]; [apply IH|done].
Qed.
End Sequence.

Section Expressions.
Context {W : Type} `{Env : DlEnv W}.

Definition stack_at (st : dload_state) (stk : list Z) (k : Z) : dload_state :=
  set_relstk stk (set_relstkidx k st).

Lemma relocate_found rp data st w rx a i :
  rop_lookup (r_type rp) = Some (Found rx) -> rx <? 48 = true ->
  arr_get rop_action rx = Some a -> arr_get rop_info rx = Some i ->
  dload_relocate rp data st w = reloc_perform a i rp data st w.
Proof.
  intros E Hrx Ea Ei. unfold dload_relocate. rewrite bind_lift, E. cbn beta iota.
  change (Z.of_nat (length rop_action)) with 48. change (Z.of_nat (length rop_info)) with 48.
  rewrite Hrx. cbn [andb]. rewrite bind_lift, Ea. cbn beta iota. rewrite bind_lift, Ei. done.
Qed.

Lemma arr_set_Some {A} (l : list A) k x :
  0 <= k < Z.of_nat (length l) -> arr_set l k x = Some (<[Z.to_nat k := x]> l).
Proof.
  intros Hk. unfold arr_set. by rewrite (proj2 (Z.leb_le _ _)), (proj2 (Z.ltb_lt _ _)) by lia.
Qed.

(** An operation that only works on the stack. *)
Lemma perform_stack a i rp data st stk k w act amt svp val v :
  Z.land i ROP_RW = 0 -> Z.land i ROP_R = 0 -> Z.land i ROP_W = 0 -> RFV_STK i <> 0 ->
  arr_get Dload_Actions_values (RFV_ACTION a) = Some act ->
  reloc_amount i rp (stack_at st stk k) w = Some ((amt, svp), stack_at st stk k, w) ->
  length stk = 10%nat -> arr_get stk k = Some val ->
  0 < RFV_STK i + k - 2 < 10 ->
  reloc_arith act rp svp amt (Some (RFV_STK i + k - 2)) (mkField val 0 0 None)
    (stack_at st stk (RFV_STK i + k - 2)) w =
    Some (mkField v 0 0 None, stack_at st stk (RFV_STK i + k - 2), w) ->
  reloc_perform a i rp data (stack_at st stk k) w =
    Some (data, stack_at st (<[Z.to_nat (RFV_STK i + k - 2) := v]> stk) (RFV_STK i + k - 2), w).
Proof.
  intros Hrw Hr Hw Hs Hact Hamt Hlen Hval Htop Harith.
  unfold reloc_perform. unfold bind at 1. rewrite Hamt. cbn [fst snd].
  unfold stack_adjust. rewrite (proj2 (Z.eqb_neq _ _) Hs). unfold bind at 1.
  unfold bind at 1. cbn [get relstkidx relstk stack_at set_relstk set_relstkidx].
  unfold RSTK_UOP. rewrite swrap_small by lia. rewrite Z.geb_leb.
  rewrite (proj2 (Z.leb_gt _ _)) by (unfold STATIC_EXPR_STK_SIZE; lia).
  rewrite bind_lift. cbn [relstk]. rewrite Hval.
  unfold bind at 1. cbn [modify]. unfold ret at 1.
  change (set_relstkidx (RFV_STK i + k - 2) _) with (stack_at st stk (RFV_STK i + k - 2)).
  unfold reloc_field. rewrite Hrw, Hr. cbn [negb Z.eqb]. unfold bind at 1, ret at 1.
  rewrite bind_lift, Hact. unfold bind at 1. rewrite Harith.
  unfold reloc_put. rewrite Hw. cbn [negb Z.eqb].
  rewrite (proj2 (Z.eqb_neq (RFV_STK i + k - 2) 0)) by lia.
  unfold bind at 1. cbn [get]. rewrite bind_lift. cbn [relstk stack_at set_relstk f_val].
  rewrite arr_set_Some by lia. done.
Qed.

(** The values that relocation works on. *)
Definition is_word (x : Z) : Prop := - 2 ^ 31 <= x < 2 ^ 31.

Definition reloc_state_ok (st : dload_state) : Prop :=
  0 <= df_no_syms (dfile_hdr st) < 2 ^ 16 /\
  (forall p l, local_symtab st = Some (p, l) -> Forall (fun s => is_word (value s) /\ is_word (delta s)) l).

Lemma amount_lit i rp st (w : W) :
  RFV_SYM i = 0 -> reloc_amount i rp st w = Some ((s32 (r_uval rp), None), st, w).
Proof. intros E. unfold reloc_amount. unfold bind, get. rewrite E. done. Qed.

Lemma s32_u32 n : s32 (u32 n) = s32 n.
Proof. by apply swrap_uwrap. Qed.

Lemma push_lit data st stk k (w : W) n :
  length stk = 10%nat -> 0 <= k <= 8 ->
  dload_relocate (mkReloc 0 (u32 n) 0 16402) data (stack_at st stk k) w =
  Some (data, stack_at st (<[Z.to_nat (k + 1) := s32 n]> stk) (k + 1), w).
Proof.
  intros Hl Hk. rewrite (relocate_found _ _ _ _ 43 1536 196) by reflexivity.
  destruct (lookup_lt_is_Some_2 stk (Z.to_nat k)) as [x Hx]; [lia|].
  rewrite (perform_stack 1536 196 _ data st stk k w RACT_ASGN (s32 n) None x (s32 n));
    change (RFV_STK 196) with 3; try reflexivity; try lia.
  - replace (3 + k - 2) with (k + 1) by lia. done.
  - rewrite amount_lit by reflexivity. unfold r_uval. cbn [r_word]. by rewrite s32_u32.
  - unfold arr_get. by rewrite (proj2 (Z.leb_le 0 k)) by lia.
Qed.

Lemma push_pc data st stk k (w : W) n :
  length stk = 10%nat -> 0 <= k <= 8 ->
  dload_relocate (mkReloc 0 (u32 n) 0 16404) data (stack_at st stk k) w =
  Some (data, stack_at st (<[Z.to_nat (k + 1) := s32 (run_addr (image_secn st) + n)]> stk) (k + 1), w).
Proof.
  intros Hl Hk. rewrite (relocate_found _ _ _ _ 45 5632 192) by reflexivity.
  destruct (lookup_lt_is_Some_2 stk (Z.to_nat k)) as [x Hx]; [lia|].
  rewrite (perform_stack 5632 192 _ data st stk k w RACT_ASGPC (s32 n) None x
             (s32 (run_addr (image_secn st) + n)));
    change (RFV_STK 192) with 3; try reflexivity; try lia.
  - replace (3 + k - 2) with (k + 1) by lia. done.
  - rewrite amount_lit by reflexivity. unfold r_uval. cbn [r_word]. by rewrite s32_u32.
  - unfold arr_get. by rewrite (proj2 (Z.leb_le 0 k)) by lia.
  - assert (E : s32 (run_addr (image_secn st) + s32 n) = s32 (run_addr (image_secn st) + n)).
    { apply swrap_eq; [lia|].
      rewrite <- (uwrap_add_r 32 _ (s32 n)), swrap_cong, uwrap_add_r by lia. done. }
    rewrite <- E. done.
Qed.

Lemma push_sym data st stk k (w : W) i p l s :
  length stk = 10%nat -> 0 <= k <= 8 -> reloc_state_ok st ->
  local_symtab st = Some (p, l) -> i <? df_no_syms (dfile_hdr st) = true -> arr_get l i = Some s ->
  dload_relocate (mkReloc 0 i 0 16401) data (stack_at st stk k) w =
  Some (data, stack_at st (<[Z.to_nat (k + 1) := value s]> stk) (k + 1), w).
Proof.
  intros Hl Hk [Hn _] Hsym Hi Hs. rewrite (relocate_found _ _ _ _ 42 1536 208) by reflexivity.
  destruct (lookup_lt_is_Some_2 stk (Z.to_nat k)) as [x Hx]; [lia|].
  assert (0 <= i) by (unfold arr_get in Hs; destruct (Z.leb_spec 0 i); done).
  apply Z.ltb_lt in Hi as Hi'.
  rewrite (perform_stack 1536 208 _ data st stk k w RACT_ASGN (value s) (Some s) x (value s));
    change (RFV_STK 208) with 3; try reflexivity; try lia.
  - replace (3 + k - 2) with (k + 1) by lia. done.
  - unfold reloc_amount, r_symndx. change (RFV_SYM 208) with 1. cbn [Z.eqb r_word].
    unfold bind at 1. cbn [get dfile_hdr stack_at set_relstk set_relstkidx].
    rewrite (swrap_small 32 i), (uwrap_small 32 i), Hi by lia.
    rewrite bind_lift. change (local_symtab (stack_at st stk k)) with (local_symtab st).
    rewrite Hsym. cbn beta iota. rewrite bind_lift. cbn [snd]. rewrite Hs. done.
  - unfold arr_get. by rewrite (proj2 (Z.leb_le 0 k)) by lia.
Qed.

Lemma unop_step op data st stk k (w : W) x :
  length stk = 10%nat -> 1 <= k <= 9 -> arr_get stk k = Some x ->
  dload_relocate (mkReloc 0 0 0 (unop_type op)) data (stack_at st stk k) w =
  Some (data, stack_at st (<[Z.to_nat k := eval_unop op x]> stk) k, w).
Proof.
  intros Hl Hk Hx. destruct op; cbn [unop_type eval_unop].
  - rewrite (relocate_found _ _ _ _ 27 8704 128) by reflexivity.
    rewrite (perform_stack 8704 128 _ data st stk k w RACT_NEG 0 None x (s32 (- x)));
      change (RFV_STK 128) with 2; try reflexivity; try lia; try done.
    by replace (2 + k - 2) with k by lia.
  - rewrite (relocate_found _ _ _ _ 37 18944 128) by reflexivity.
    rewrite (perform_stack 18944 128 _ data st stk k w RACT_NOT 0 None x (Z.lnot x));
      change (RFV_STK 128) with 2; try reflexivity; try lia; try done.
    by replace (2 + k - 2) with k by lia.
Qed.

Definition binop_action (op : binop) : Dload_Actions :=
  match op with
  | Plus => RACT_PLUS | Sub => RACT_SUB | Mpy => RACT_MPY | Div => RACT_DIV | Mod => RACT_MOD
  | Sr => RACT_SR | Asr => RACT_ASR | Sl => RACT_SL | And => RACT_AND | Or => RACT_OR | Xor => RACT_XOR
  end.

Lemma shift_small y : is_word y -> shift_too_big y = negb ((0 <=? y) && (y <? 32)).
Proof.
  unfold is_word, shift_too_big. intros Hy. rewrite Z.geb_leb. apply eq_true_iff_eq.
  rewrite negb_true_iff, andb_false_iff, Z.leb_le, Z.leb_gt, Z.ltb_ge.
  destruct (Z.lt_ge_cases y 0); [rewrite u32_neg by lia|rewrite uwrap_small by lia]; lia.
Qed.

Lemma binop_arith op rp st stk top (w : W) x y v :
  arr_get stk top = Some x -> is_word y -> eval_binop op x y = Some v ->
  reloc_arith (binop_action op) rp None 0 (Some top) (mkField y 0 0 None) (stack_at st stk top) w =
  Some (mkField v 0 0 None, stack_at st stk top, w).
Proof.
  intros Hx Hy Hv. unfold reloc_arith, on_stack. unfold bind at 1. cbn [get].
  destruct op; cbn [binop_action eval_binop f_val] in *;
    rewrite ?shift_small by done;
    repeat match type of Hv with context [if ?b then _ else _] => destruct b eqn:? end;
    simplify_eq; cbn [negb];
    unfold bind, get, lift, ret; cbn [relstk stack_at set_relstk]; rewrite ?Hx;
    repeat match goal with E : _ = true |- _ => rewrite E end;
    unfold set_val; cbn; rewrite ?(Z.add_comm y x), ?(Z.mul_comm y x), ?(Z.land_comm y x),
      ?(Z.lor_comm y x), ?(Z.lxor_comm y x); reflexivity.
Qed.

Lemma binop_step op data st stk k (w : W) x y v :
  length stk = 10%nat -> 2 <= k <= 9 ->
  arr_get stk (k - 1) = Some x -> arr_get stk k = Some y -> is_word y ->
  eval_binop op x y = Some v ->
  dload_relocate (mkReloc 0 0 0 (binop_type op)) data (stack_at st stk k) w =
  Some (data, stack_at st (<[Z.to_nat (k - 1) := v]> stk) (k - 1), w).
Proof.
  intros Hl Hk Hx Hy Hyw Hv.
  assert (Hop : exists rx a, rop_lookup (binop_type op) = Some (Found rx) /\ rx <? 48 = true /\
    arr_get rop_action rx = Some a /\ arr_get rop_info rx = Some 64 /\
    arr_get Dload_Actions_values (RFV_ACTION a) = Some (binop_action op)).
  { destruct op; do 2 eexists; (split; [reflexivity|]); (split; [reflexivity|]);
      (split; [reflexivity|]); split; reflexivity. }
  destruct Hop as (rx & a & E & Hrx & Ea & Ei & Eact).
  rewrite (relocate_found _ _ _ _ rx a 64) by done.
  assert (Htop : RFV_STK 64 + k - 2 = k - 1) by (change (RFV_STK 64) with 1; lia).
  rewrite (perform_stack a 64 _ data st stk k w (binop_action op) 0 None y v);
    rewrite ?Htop; try reflexivity; try lia; try done.
  by apply (binop_arith op _ _ _ _ _ x y).
Qed.

(** An arithmetic shift by 32 or more leaves 31, the clipped shift count, on the
    stack, and not the sign of the operand. *)
Lemma relocate_asr_large data st stk k (w : W) x y :
  length stk = 10%nat -> 2 <= k <= 9 ->
  arr_get stk (k - 1) = Some x -> arr_get stk k = Some y -> 32 <= y < 2 ^ 31 ->
  dload_relocate (mkReloc 0 0 0 (binop_type Asr)) data (stack_at st stk k) w =
  Some (data, stack_at st (<[Z.to_nat (k - 1) := 31]> stk) (k - 1), w).
Proof.
  intros Hl Hk Hx Hy Hr.
  rewrite (relocate_found _ _ _ _ 32 13824 64) by reflexivity.
  assert (Htop : RFV_STK 64 + k - 2 = k - 1) by (change (RFV_STK 64) with 1; lia).
  rewrite (perform_stack 13824 64 _ data st stk k w RACT_ASR 0 None y 31);
    rewrite ?Htop; try reflexivity; try lia; try done.
  unfold reloc_arith. unfold bind at 1, get. cbn [f_val].
  rewrite shift_small by (unfold is_word; lia).
  rewrite (proj2 (Z.ltb_ge y 32)), andb_false_r by lia. done.
Qed.

Lemma word_of_bits x :
  (forall k, 31 <= k -> Z.testbit x k = Z.testbit x 31) -> is_word x.
Proof.
  intros Hx. assert (E : s32 x = x).
  { apply Z.bits_inj'. intros k Hk. rewrite swrap_testbit by lia.
    destruct (Z.le_gt_cases k 31); [by rewrite Z.min_l by lia|].
    rewrite Z.min_r, (Hx k) by lia. done. }
  rewrite <- E. apply (swrap_range 32). lia.
Qed.

Lemma word_bits x k : is_word x -> 31 <= k -> Z.testbit x k = Z.testbit x 31.
Proof. intros Hx Hk. apply testbit_high with 32; try lia. exact Hx. Qed.

Lemma s32_word x : is_word (s32 x).
Proof. apply (swrap_range 32). lia. Qed.

Lemma eval_unop_word op x : is_word x -> is_word (eval_unop op x).
Proof. intros Hx. destruct op; simpl; [apply s32_word|]. unfold is_word, Z.lnot in *. lia. Qed.

Lemma eval_binop_word op x y v : is_word x -> is_word y -> eval_binop op x y = Some v -> is_word v.
Proof.
  intros Hx Hy Hv. destruct op; simpl in Hv;
    repeat match type of Hv with context [if ?b then _ else _] => destruct b eqn:? end;
    simplify_eq; try apply s32_word; try (unfold is_word; lia).
  all: try (apply word_of_bits; intros k Hk;
            rewrite ?Z.land_spec, ?Z.lor_spec, ?Z.lxor_spec, ?Z.shiftr_spec by lia;
            rewrite ?(word_bits x), ?(word_bits y) by (done || lia); reflexivity).
  - apply andb_true_iff in Heqb as [H0 Hm]. apply negb_true_iff, Z.eqb_neq in H0.
    apply negb_true_iff, andb_false_iff in Hm. rewrite !Z.eqb_neq in Hm.
    assert (E : Z.abs (Z.quot x y) = Z.quot (Z.abs x) (Z.abs y)) by (symmetry; by apply Z.quot_abs).
    destruct (decide (y = -1)) as [->|].
    + replace (Z.quot x (-1)) with (- x) by
        (pose proof (Z.quot_opp_r x 1 ltac:(lia)) as Q; rewrite Z.quot_1_r in Q; symmetry; exact Q).
      unfold is_word in *. lia.
    + destruct (decide (y = 1)) as [->|]; [by rewrite Z.quot_1_r|].
      rewrite (Z.quot_div_nonneg (Z.abs x) (Z.abs y)) in E by lia.
      assert (Z.abs x / Z.abs y <= 2 ^ 30).
      { apply Z.div_le_upper_bound; [lia|]. unfold is_word in *. nia. }
      unfold is_word in *. lia.
  - apply andb_true_iff in Heqb as [H0 _]. apply negb_true_iff, Z.eqb_neq in H0.
    pose proof (Z.rem_bound_abs x y H0). unfold is_word in *. lia.
  - apply andb_true_iff in Heqb as [H0 _]. apply Z.leb_le in H0.
    apply word_of_bits. intros k Hk. rewrite !Z.shiftr_spec by lia.
    rewrite (word_bits x (k + y)), (word_bits x (31 + y)) by (done || lia). done.
Qed.

Lemma arr_get_insert (l : list Z) k x :
  0 <= k < Z.of_nat (length l) -> arr_get (<[Z.to_nat k := x]> l) k = Some x.
Proof.
  intros Hk. unfold arr_get. rewrite (proj2 (Z.leb_le 0 k)) by lia.
  apply list_lookup_insert_eq. lia.
Qed.
Lemma arr_get_insert_ne (l : list Z) k j x :
  0 <= k -> j <> k -> arr_get (<[Z.to_nat k := x]> l) j = arr_get l j.
Proof.
  intros Hk Hj. unfold arr_get. destruct (Z.leb_spec 0 j); [|done].
  apply list_lookup_insert_ne. lia.
Qed.

Lemma depth_pos e : 1 <= depth e.
Proof. induction e; simpl; lia. Qed.

Lemma relocate_postfix e data st stk k (w : W) v :
  reloc_state_ok st -> length stk = 10%nat -> 0 <= k -> k + depth e <= 9 -> eval st e = Some v ->
  exists stk', relocate_records (postfix e) data (stack_at st stk k) w =
      Some (data, stack_at st stk' (k + 1), w) /\
    length stk' = 10%nat /\ arr_get stk' (k + 1) = Some v /\ is_word v /\
    (forall i, i <= k -> arr_get stk' i = arr_get stk i).
Proof.
  intros Hst. revert stk k v. induction e as [n|i|n|op e IH|op e1 IH1 e2 IH2];
    intros stk k v Hl Hk Hd Hv; cbn [postfix depth eval] in *.
  - exists (<[Z.to_nat (k + 1) := s32 n]> stk). cbn [relocate_records].
    unfold bind, ret. rewrite push_lit by lia. simplify_eq.
    split; [done|]. rewrite length_insert, arr_get_insert by lia.
    split; [done|]. split; [done|]. split; [apply s32_word|].
    intros i Hi. apply arr_get_insert_ne; lia.
  - destruct (local_symtab st) as [[p l]|] eqn:Es; [|done]. cbn [snd] in Hv.
    destruct (i <? _) eqn:Ei; [|done]. destruct (arr_get l i) as [s|] eqn:Eg; [|done]. simplify_eq.
    exists (<[Z.to_nat (k + 1) := value s]> stk). cbn [relocate_records].
    unfold bind, ret. rewrite (push_sym _ _ _ _ _ i p l s) by (done || lia).
    split; [done|]. rewrite length_insert, arr_get_insert by lia.
    split; [done|]. split; [done|]. split.
    + destruct Hst as [_ Hw]. specialize (Hw p l Es). unfold arr_get in Eg.
      destruct (0 <=? i); [|done]. by apply (Forall_lookup_1 _ _ _ _ Hw Eg).
    + intros j Hj. apply arr_get_insert_ne; lia.
  - exists (<[Z.to_nat (k + 1) := s32 (run_addr (image_secn st) + n)]> stk). cbn [relocate_records].
    unfold bind, ret. rewrite push_pc by lia. simplify_eq.
    split; [done|]. rewrite length_insert, arr_get_insert by lia.
    split; [done|]. split; [done|]. split; [apply s32_word|].
    intros i Hi. apply arr_get_insert_ne; lia.
  - destruct (eval st e) as [x|] eqn:Ex; [|done]. simplify_eq.
    destruct (IH stk k x Hl Hk Hd eq_refl) as (stk1 & E & Hl1 & Hx & Hxw & Hlow).
    exists (<[Z.to_nat (k + 1) := eval_unop op x]> stk1).
    rewrite relocate_records_app, E. cbn [relocate_records]. unfold bind, ret.
    pose proof (depth_pos e).
    rewrite (unop_step op _ _ _ _ _ x) by (done || lia).
    split; [done|]. rewrite length_insert, arr_get_insert by lia.
    split; [done|]. split; [done|]. split; [by apply eval_unop_word|].
    intros i Hi. rewrite arr_get_insert_ne by lia. by apply Hlow.
  - destruct (eval st e1) as [x|] eqn:Ex; [|done]. destruct (eval st e2) as [y|] eqn:Ey; [|done].
    destruct (IH1 stk k x Hl Hk ltac:(lia) eq_refl) as (stk1 & E1 & Hl1 & Hx & Hxw & Hlow1).
    destruct (IH2 stk1 (k + 1) y Hl1 ltac:(lia) ltac:(lia) eq_refl) as (stk2 & E2 & Hl2 & Hy & Hyw & Hlow2).
    exists (<[Z.to_nat (k + 1) := v]> stk2).
    rewrite !relocate_records_app, E1. rewrite relocate_records_app, E2.
    cbn [relocate_records]. unfold bind, ret. pose proof (depth_pos e2).
    rewrite (binop_step op _ _ _ _ _ x y v) by
      first [done | lia | by replace (k + 1 + 1 - 1) with (k + 1) by lia; rewrite Hlow2 by lia].
    replace (k + 1 + 1 - 1) with (k + 1) by lia.
    split; [done|]. rewrite length_insert, arr_get_insert by lia.
    split; [done|]. split; [done|]. split; [by apply (eval_binop_word op x y)|].
    intros i Hi. rewrite arr_get_insert_ne, Hlow2, Hlow1 by lia. done.
Qed.

(** The relocation that stores the value of an expression, without a check, in
    a signed or in an unsigned field of [f] bits at bit [off]. *)
Definition store_type (sgn : Z) : Z :=
  if sgn =? ROP_SGN then 16400 else if sgn =? ROP_UNS then 16399 else 16406.
Definition store_record (a f off sgn : Z) : reloc_record_t :=
  mkReloc a (off + 256 * f) 0 (store_type sgn).

(** What [dload_error] leaves. *)
Definition reported (msg : dl_message) (st : dload_state) (w : W) : dload_state * W :=
  (set_dload_errcount (u32 (dload_errcount st + 1)) st, Error_Report msg w).

Lemma store_field_bytes f off :
  0 < f <= 32 -> 0 <= off <= 8 ->
  Z.land (off + 256 * f) 255 = off /\ Z.land (Z.shiftr (off + 256 * f) 8) 255 = f.
Proof.
  intros Hf Ho. rewrite Z.shiftr_div_pow2 by lia. change 255 with (Z.ones 8).
  rewrite !Z.land_ones by lia. change (2 ^ 8) with 256. split; Z.div_mod_to_equations; lia.
Qed.

Lemma store_step a f off sgn data st stk k (w : W) v :
  length stk = 10%nat -> 1 <= k <= 9 -> arr_get stk k = Some v -> is_word v ->
  bytes_ok data -> 0 <= a -> 0 < f <= 32 -> 0 <= off <= 8 -> 0 <= sgn <= 2 ->
  8 * a + off + f <= 8 * Z.of_nat (length data) ->
  exists m', dload_relocate (store_record a f off sgn) data (stack_at st stk k) w =
    (let '(st', w') := if field_accepted sgn f v then (stack_at st stk (k - 1), w)
                       else reported M_overflow (stack_at st stk (k - 1)) w in
     Some (m', st', w')) /\
    length m' = length data /\
    (forall i, (i < Z.to_nat a)%nat -> m' !! i = data !! i) /\
    forall n, 0 <= n -> mem_bit m' (Z.to_nat a) n =
      if (off <=? n) && (n <? off + f) then Z.testbit v (n - off) else mem_bit data (Z.to_nat a) n.
Proof.
  intros Hl Hk Hv Hvw Hb Ha Hf Ho Hs Hfit.
  destruct (store_field_bytes f off Hf Ho) as [Eo Ef].
  assert (Hop : exists rx i, rop_lookup (store_type sgn) = Some (Found rx) /\ rx <? 48 = true /\
    arr_get rop_action rx = Some 0 /\ arr_get rop_info rx = Some i /\ RFV_SYM i = 0 /\
    RFV_STK i = 1 /\ RFV_SIGN i = sgn /\ RFV_SCALE i = 0 /\
    Z.land i ROP_RW <> 0 /\ Z.land i ROP_R = 0 /\ Z.land i ROP_W <> 0).
  { assert (sgn = 0 \/ sgn = 1 \/ sgn = 2) as [->|[->| ->]] by lia;
      [exists 47, 66|exists 41, 70|exists 40, 74]; repeat split; discriminate. }
  destruct Hop as (rx & i & Er & Hrx & Ea & Ei & Hsym & Hstk & Hsgn & Hscale & Hrw & HR & HW).
  rewrite (relocate_found _ _ _ _ rx 0 i) by done.
  unfold reloc_perform. unfold bind at 1. rewrite amount_lit by done. cbn [fst snd].
  unfold stack_adjust. rewrite Hstk. cbn [Z.eqb]. unfold bind at 1. unfold bind at 1.
  cbn [get relstkidx relstk stack_at set_relstk set_relstkidx].
  unfold RSTK_UOP. replace (1 + k - 2) with (k - 1) by lia.
  rewrite swrap_small by lia. rewrite Z.geb_leb.
  rewrite (proj2 (Z.leb_gt _ _)) by (unfold STATIC_EXPR_STK_SIZE; lia).
  rewrite bind_lift. cbn [relstk]. rewrite Hv. unfold bind at 1. cbn [modify]. unfold ret at 1.
  change (set_relstkidx (k - 1) _) with (stack_at st stk (k - 1)).
  unfold reloc_field. rewrite (proj2 (Z.eqb_neq _ _) Hrw), HR. change (RFV_WIDTH 0) with 0.
  cbn [negb Z.eqb]. unfold r_fieldsz, r_offset, store_record. cbn [r_word r_vaddr].
  rewrite Eo, Ef, Hscale. unfold bind at 1, ret at 1.
  rewrite bind_lift. change (arr_get Dload_Actions_values (RFV_ACTION 0)) with (Some RACT_VAL).
  cbn beta iota. unfold bind at 1. unfold reloc_arith. unfold bind at 1. cbn [get]. unfold ret at 1.
  unfold reloc_put. rewrite (proj2 (Z.eqb_neq _ _) HW). cbn [negb f_scale f_val f_fieldsz f_offset].
  rewrite bind_lift. rewrite bind_lift. cbn [r_vaddr]. rewrite (proj2 (Z.leb_le 0 a)) by done.
  rewrite bind_lift, Z.shiftr_0_r, Hsgn.
  destruct (dload_repack_spec v data (Z.to_nat a) f off sgn Hb Hf Ho ltac:(lia))
    as (m' & E & _ & Hl' & Hlow & Hbits).
  rewrite E, repack_overflow_spec by (done || lia). cbn [fst snd].
  exists m'. split; [|done]. destruct (field_accepted sgn f v); done.
Qed.

Lemma stack_at_same st : relstkidx st = 0 -> stack_at st (relstk st) 0 = st.
Proof. intros E. destruct st. cbn in E. subst. reflexivity. Qed.

(** C12: the relocations of an expression in postfix order followed by a store
    write, in the field they name and nowhere else, the value of the
    expression in 32-bit arithmetic, for every expression that fits the stack;
    the stack is empty again, and an error is reported exactly when the value
    is outside the range of the field. *)
Theorem relocate_expression_correct (e : rexpr) (a f off sgn : Z) (data : list Z)
    (st : dload_state) (w : W) (v : Z) :
  reloc_state_ok st -> relstkidx st = 0 -> length (relstk st) = 10%nat ->
  depth e <= 9 -> eval st e = Some v ->
  bytes_ok data -> 0 <= a -> 0 < f <= 32 -> 0 <= off <= 8 -> 0 <= sgn <= 2 ->
  8 * a + off + f <= 8 * Z.of_nat (length data) ->
  exists m' stk',
    relocate_records (postfix e ++ [store_record a f off sgn]) data st w =
      (let '(st', w') := if field_accepted sgn f v then (stack_at st stk' 0, w)
                         else reported M_overflow (stack_at st stk' 0) w in
       Some (m', st', w')) /\
    length m' = length data /\
    (forall i, (i < Z.to_nat a)%nat -> m' !! i = data !! i) /\
    (forall n, 0 <= n -> mem_bit m' (Z.to_nat a) n =
      if (off <=? n) && (n <? off + f) then Z.testbit v (n - off) else mem_bit data (Z.to_nat a) n).
Proof.
  intros Hst Hidx Hl Hd Hv Hb Ha Hf Ho Hs Hfit.
  destruct (relocate_postfix e data st (relstk st) 0 w v Hst Hl ltac:(lia) ltac:(lia) Hv)
    as (stk1 & E & Hl1 & Hv1 & Hvw & _).
  rewrite stack_at_same in E by done.
  destruct (store_step a f off sgn data st stk1 (0 + 1) w v) as (m' & E' & Hm'); try done; try lia.
  exists m', stk1. split; [|exact Hm'].
  rewrite relocate_records_app, E. cbn [relocate_records]. unfold bind, ret. rewrite E'.
  replace (0 + 1 - 1) with 0 by lia. by destruct (field_accepted sgn f v).
Qed.

End Expressions.

Lemma relocate_expression_correct_witness :
  exists m' stk', relocate_records
      (postfix (EBin Sub (EPc 3) (EBin Mpy (ELit 5) (EUn Neg (ELit (-7))))) ++ [store_record 1 12 4 ROP_SGN])
      [0; 0; 0; 0] zero_state (empty_world []) =
    Some (m', stack_at zero_state stk' 0, empty_world []) /\ m' !! 0%nat = Some 0.
Proof.
  destruct (relocate_expression_correct
              (EBin Sub (EPc 3) (EBin Mpy (ELit 5) (EUn Neg (ELit (-7))))) 1 12 4 ROP_SGN
              [0; 0; 0; 0] zero_state (empty_world []) (-32)) as (m' & stk' & E & _ & Hlow & _).
  - split; [vm_compute; split; discriminate + reflexivity|]. intros p l Hl. discriminate.
  - reflexivity.
  - reflexivity.
  - vm_compute. discriminate.
  - reflexivity.
  - repeat constructor; discriminate.
  - lia.
  - lia.
  - lia.
  - unfold ROP_SGN. lia.
  - simpl. lia.
  - exists m', stk'. split; [exact E|]. rewrite (Hlow 0%nat); [reflexivity|vm_compute; lia].
Defined.

(** * Relocations of a field by an address *)

Section Fields.
Context {W : Type} `{Env : DlEnv W}.

(** The amount by which the code expects the reference to have moved: the
    displacement of the symbol, or of the section itself. *)
Definition moved_by (st : dload_state) (rp : reloc_record_t) : option Z :=
  if u32 (r_symndx rp) <? df_no_syms (dfile_hdr st) then
    let* syms := local_symtab st in
    let* s := arr_get syms.2 (r_symndx rp) in Some (delta s)
  else if r_symndx rp =? -1 then Some (s32 (delta_runaddr st))
  else Some (s32 (r_uval rp)).

Lemma amount_delta i rp st (w : W) amt :
  RFV_SYM i = ROP_SYMD -> moved_by st rp = Some amt ->
  exists svp, reloc_amount i rp st w = Some ((amt, svp), st, w).
Proof.
  intros Ei Hm. unfold reloc_amount, moved_by in *. rewrite Ei. cbn [Z.eqb ROP_SYMD Pos.eqb].
  unfold bind at 1. cbn [get]. destruct (u32 (r_symndx rp) <? _).
  - rewrite bind_lift. destruct (local_symtab st) as [syms|]; [|done].
    rewrite bind_lift. destruct (arr_get syms.2 (r_symndx rp)); [|done]. simplify_eq. by eexists.
  - destruct (r_symndx rp =? -1); simplify_eq; by eexists.
Qed.

(** An operation that reads a field of the table, changes it and writes it. *)
Lemma perform_field a i rp data st (w : W) act amt svp F off sgn sc x v :
  Z.land i ROP_RW <> 0 -> Z.land i ROP_R <> 0 -> Z.land i ROP_W <> 0 -> RFV_STK i = 0 ->
  RFV_WIDTH a = F -> RFV_POSN a = off -> RFV_SIGN i = sgn -> RFV_SCALE i = sc ->
  0 < F <= 32 -> 0 <= off <= 8 -> 0 <= sgn <= 3 -> 0 <= sc < 32 ->
  arr_get Dload_Actions_values (RFV_ACTION a) = Some act ->
  reloc_amount i rp st w = Some ((amt, svp), st, w) ->
  bytes_ok data -> 0 <= r_vaddr rp -> 8 * r_vaddr rp + off + F <= 8 * Z.of_nat (length data) ->
  dload_unpack data (Z.to_nat (r_vaddr rp)) F off sgn = Some x ->
  reloc_arith act rp svp amt None (mkField (s32 (Z.shiftl x sc)) off F (Some sc)) st w =
    Some (mkField v off F (Some sc), st, w) ->
  is_word v ->
  exists m', reloc_perform a i rp data st w =
    (let '(st', w') := if field_accepted sgn F (Z.shiftr v sc) then (st, w)
                       else reported M_overflow st w in Some (m', st', w')) /\
    length m' = length data /\
    (forall j, (j < Z.to_nat (r_vaddr rp))%nat -> m' !! j = data !! j) /\
    (forall n, 0 <= n -> mem_bit m' (Z.to_nat (r_vaddr rp)) n =
      if (off <=? n) && (n <? off + F) then Z.testbit (Z.shiftr v sc) (n - off)
      else mem_bit data (Z.to_nat (r_vaddr rp)) n) /\
    dload_unpack m' (Z.to_nat (r_vaddr rp)) F off sgn = Some (field_value sgn F (Z.shiftr v sc)) /\
    bytes_ok m'.
Proof.
  intros Hrw Hr Hw Hs HF Hoff Hsgn Hsc HF' Hoff' Hsgn' Hsc' Hact Hamt Hb Ha Hfit Hun Harith Hv.
  unfold reloc_perform. unfold bind at 1. rewrite Hamt. cbn [fst snd].
  unfold stack_adjust. rewrite Hs. cbn [Z.eqb]. unfold bind at 1, ret at 1.
  unfold reloc_field. rewrite (proj2 (Z.eqb_neq _ _) Hrw), (proj2 (Z.eqb_neq _ _) Hr). cbn [negb].
  rewrite HF, Hoff, Hsgn, Hsc, (proj2 (Z.eqb_neq F 0)) by lia.
  unfold bind at 1. rewrite bind_lift, (proj2 (Z.leb_le 0 _)) by done.
  rewrite bind_lift, Hun. rewrite bind_lift. unfold ret at 1.
  rewrite bind_lift, Hact. unfold bind at 1. rewrite Harith.
  unfold reloc_put. rewrite (proj2 (Z.eqb_neq _ _) Hw). cbn [negb f_scale f_val f_fieldsz f_offset].
  rewrite bind_lift. rewrite bind_lift, (proj2 (Z.leb_le 0 _)) by done.
  rewrite bind_lift, Hsgn.
  destruct (dload_repack_spec (Z.shiftr v sc) data (Z.to_nat (r_vaddr rp)) F off sgn Hb HF' Hoff' ltac:(lia))
    as (m' & E & Hm' & Hl' & Hlow & Hbits).
  assert (- 2 ^ 31 <= Z.shiftr v sc < 2 ^ 31).
  { rewrite Z.shiftr_div_pow2 by lia. pose proof (Z.pow_pos_nonneg 2 sc ltac:(lia) ltac:(lia)).
    unfold is_word in Hv. split; [apply Z.div_le_lower_bound; nia|apply Z.div_lt_upper_bound; nia]. }
  rewrite E, repack_overflow_spec by done. cbn [fst snd]. exists m'. split.
  { destruct (field_accepted sgn F (Z.shiftr v sc)); done. }
  split; [done|]. split; [done|]. split; [done|]. split; [|done].
  apply dload_roundtrip_spec with data; try done. rewrite Hl'. lia.
Qed.

(** The operators that add the displacement to a field of the image: type and
    width. *)
Definition add_types : list (Z * Z) :=
  [(1, 16); (2, 16); (4, 24); (5, 24); (6, 32); (15, 8); (16, 16); (17, 32); (32, 16)].
(** The branches: type, width, position and scale of the field.  [R_C60PCR10] (type 83) is not one of them: its
    field is at bit 13, for which [dload_relocate] is undefined ([relocate_undefined]). *)
Definition branch_types : list (Z * Z * Z * Z) :=
  [(18, 8, 0, 0); (19, 16, 0, 0); (20, 32, 0, 0); (21, 24, 0, 0); (82, 21, 7, 2); (112, 7, 7, 2);
   (113, 13, 0, 2)].

(** the relocations [R_RELBYTE], [R_RELWORD], [R_RELLONG] and their kin add
    the displacement of the symbol to the field they name, modulo its width,
    change nothing else of the image, and never report an error. *)
Lemma relocate_add_correct (t F : Z) (rp : reloc_record_t) (data : list Z) (st : dload_state)
    (w : W) (amt : Z) :
  (t, F) ∈ add_types -> r_type rp = t -> moved_by st rp = Some amt -> bytes_ok data ->
  0 <= r_vaddr rp -> 8 * r_vaddr rp + F <= 8 * Z.of_nat (length data) ->
  exists m' x, dload_relocate rp data st w = Some (m', st, w) /\
    dload_unpack data (Z.to_nat (r_vaddr rp)) F 0 ROP_UNS = Some x /\
    dload_unpack m' (Z.to_nat (r_vaddr rp)) F 0 ROP_UNS = Some (field_value ROP_UNS F (x + amt)) /\
    length m' = length data /\
    (forall j, (j < Z.to_nat (r_vaddr rp))%nat -> m' !! j = data !! j) /\
    (forall n, F <= n -> mem_bit m' (Z.to_nat (r_vaddr rp)) n = mem_bit data (Z.to_nat (r_vaddr rp)) n).
Proof.
  intros Hin Ht Hamt Hb Ha Hfit.
  assert (Hop : exists rx a i, rop_lookup t = Some (Found rx) /\ rx <? 48 = true /\
    arr_get rop_action rx = Some a /\ arr_get rop_info rx = Some i /\ RFV_SYM i = ROP_SYMD /\
    RFV_STK i = 0 /\ RFV_SIGN i = 0 /\ RFV_SCALE i = 0 /\ RFV_WIDTH a = F /\ RFV_POSN a = 0 /\
    Z.land i ROP_RW <> 0 /\ Z.land i ROP_R <> 0 /\ Z.land i ROP_W <> 0 /\
    arr_get Dload_Actions_values (RFV_ACTION a) = Some RACT_ADD /\ 0 < F <= 32).
  { repeat (apply elem_of_cons in Hin as [[= -> ->]|Hin];
      [do 3 eexists; split; [vm_compute; reflexivity|]; split; [reflexivity|];
       split; [reflexivity|]; split; [reflexivity|]; repeat split; discriminate|]).
    by apply not_elem_of_nil in Hin. }
  destruct Hop as (rx & a & i & Er & Hrx & Ea & Ei & Hsym & Hstk & Hsgn & Hsc & HF & Hpos & Hrw & HR & HW & Hact & HF').
  rewrite (relocate_found _ _ _ _ rx a i) by (done || by rewrite Ht).
  destruct (amount_delta i rp st w amt Hsym Hamt) as [svp Hamt'].
  destruct (dload_unpack_spec data (Z.to_nat (r_vaddr rp)) F 0 0 Hb HF' ltac:(lia) ltac:(lia))
    as (x0 & Ex0 & Hx0 & Hx0b).
  destruct (dload_unpack_spec data (Z.to_nat (r_vaddr rp)) F 0 ROP_UNS Hb HF' ltac:(lia) ltac:(lia))
    as (x & Ex & Hx & Hxb).
  destruct (perform_field a i rp data st w RACT_ADD amt svp F 0 0 0 x0 (s32 (x0 + amt)))
    as (m' & E & Hl & Hlow & Hbits & Hun & Hm'); try done; try lia.
  { unfold reloc_arith. unfold bind at 1. cbn [get f_val]. rewrite Z.shiftl_0_r.
    rewrite (swrap_small 32 x0) by lia. done. }
  { apply s32_word. }
  exists m', x. split; [exact E|]. split; [done|]. rewrite Z.shiftr_0_r in Hbits. split.
  - rewrite (dload_roundtrip_spec (s32 (x0 + amt)) data m') ; try done.
    + f_equal. unfold field_value. cbn [Z.eqb ROP_UNS Pos.eqb andb].
      assert (Ec : uwrap F (s32 (x0 + amt)) = uwrap F (x + amt)).
      { assert (E1 : forall y, uwrap F (uwrap 32 y) = uwrap F y).
        { intros y. apply Z.bits_inj'. intros k Hk. rewrite !uwrap_testbit by lia.
          destruct (Z.ltb_spec k F); [|done]. by rewrite (proj2 (Z.ltb_lt k 32)) by lia. }
        rewrite <- E1, swrap_cong, E1 by lia.
        rewrite <- (uwrap_add_l F x0), <- (uwrap_add_l F x) by lia. do 2 f_equal.
        apply Z.bits_inj'. intros k Hk. rewrite !uwrap_testbit by lia.
        destruct (Z.ltb_spec k F) as [Hk'|]; [|done]. cbn [andb]. rewrite Hx0b, Hxb by lia. unfold field_bit.
        by rewrite (proj2 (Z.ltb_lt k F)). }
      destruct (F <? 32); [exact Ec|]. by apply swrap_eq; [lia|].
    + rewrite Hl. lia.
  - split; [done|]. split; [done|]. intros n Hn. rewrite Hbits by lia.
    by rewrite (proj2 (Z.ltb_ge n (0 + F))), andb_false_r by lia.
Qed.

(** C35: a branch of the [branch_types] (all but [R_C60PCR10]) is relocated so that it reaches the same target: if the
    displacement [x] of its field led from the old place to the old target,
    and the new distance, 2^sc * x + (moved_by - delta_runaddr), is a multiple
    of the scale, then the field holds the new distance when it is in its
    range, and otherwise the overflow is reported; a branch to an absolute
    address is taken not to have a moving target. *)
Theorem relocate_branch_correct (t F off sc : Z) (rp : reloc_record_t) (data : list Z)
    (st : dload_state) (w : W) (amt y : Z) :
  (t, F, off, sc) ∈ branch_types -> r_type rp = t -> moved_by st rp = Some amt -> bytes_ok data ->
  0 <= r_vaddr rp -> 8 * r_vaddr rp + off + F <= 8 * Z.of_nat (length data) ->
  exists x, dload_unpack data (Z.to_nat (r_vaddr rp)) F off ROP_SGN = Some x /\
  (2 ^ sc * x + ((if r_symndx rp =? -1 then 0 else amt) - delta_runaddr st) = 2 ^ sc * y ->
   is_word (2 ^ sc * y) ->
   exists m', dload_relocate rp data st w =
      (let '(st', w') := if (- 2 ^ (F - 1) <=? y) && (y <? 2 ^ (F - 1)) then (st, w)
                         else reported M_overflow st w in Some (m', st', w')) /\
    length m' = length data /\
    (forall j, (j < Z.to_nat (r_vaddr rp))%nat -> m' !! j = data !! j) /\
    (forall n, 0 <= n -> n < off \/ off + F <= n ->
       mem_bit m' (Z.to_nat (r_vaddr rp)) n = mem_bit data (Z.to_nat (r_vaddr rp)) n) /\
    (- 2 ^ (F - 1) <= y < 2 ^ (F - 1) ->
     dload_unpack m' (Z.to_nat (r_vaddr rp)) F off ROP_SGN = Some y)).
Proof.
  intros Hin Ht Hamt Hb Ha Hfit.
  assert (Hop : exists rx a i, rop_lookup t = Some (Found rx) /\ rx <? 48 = true /\
    arr_get rop_action rx = Some a /\ arr_get rop_info rx = Some i /\ RFV_SYM i = ROP_SYMD /\
    RFV_STK i = 0 /\ RFV_SIGN i = 1 /\ RFV_SCALE i = sc /\ RFV_WIDTH a = F /\ RFV_POSN a = off /\
    Z.land i ROP_RW <> 0 /\ Z.land i ROP_R <> 0 /\ Z.land i ROP_W <> 0 /\
    arr_get Dload_Actions_values (RFV_ACTION a) = Some RACT_PCR /\ 0 < F <= 32 /\ 0 <= off <= 8 /\
    0 <= sc < 32).
  { repeat (apply elem_of_cons in Hin as [[= -> -> -> ->]|Hin];
      [do 3 eexists; split; [vm_compute; reflexivity|]; split; [reflexivity|];
       split; [reflexivity|]; split; [reflexivity|]; repeat split; discriminate|]).
    by apply not_elem_of_nil in Hin. }
  destruct Hop as (rx & a & i & Er & Hrx & Ea & Ei & Hsym & Hstk & Hsgn & Hsc & HF & Hpos & Hrw & HR & HW & Hact & HF' & Ho & Hsc').
  rewrite (relocate_found _ _ _ _ rx a i) by (done || by rewrite Ht).
  destruct (amount_delta i rp st w amt Hsym Hamt) as [svp Hamt'].
  destruct (dload_unpack_spec data (Z.to_nat (r_vaddr rp)) F off ROP_SGN Hb HF' Ho ltac:(lia))
    as (x & Ex & Hx & _).
  exists x. split; [done|]. intros Hy Hyw.
  assert (Hyw' : Z.shiftr (2 ^ sc * y) sc = y).
  { pose proof (Z.pow_pos_nonneg 2 sc ltac:(lia) ltac:(lia)).
    rewrite Z.shiftr_div_pow2, Z.mul_comm, Z.div_mul by lia. done. }
  destruct (perform_field a i rp data st w RACT_PCR amt svp F off 1 sc x (2 ^ sc * y))
    as (m' & E & Hl & Hlow & Hbits & Hun & Hm'); try done; try lia.
  { unfold reloc_arith. unfold bind at 1. cbn [get f_val]. unfold bind at 1, ret.
    unfold set_val. cbn [f_offset f_fieldsz f_scale]. do 4 f_equal.
    rewrite <- (swrap_small 32 (2 ^ sc * y)), <- Hy by (done || lia).
    apply swrap_eq; [lia|]. rewrite <- uwrap_add_l, swrap_cong, uwrap_add_l by lia. f_equal.
    rewrite Z.shiftl_mul_pow2 by lia. lia. }
  rewrite Hyw' in E, Hbits, Hun. exists m'. split.
  { rewrite E. rewrite field_accepted_eq by lia. reflexivity. }
  split; [done|]. split; [done|]. split.
  - intros n Hn Hout. rewrite Hbits by done. destruct (Z.leb_spec off n), (Z.ltb_spec n (off + F)); try done; lia.
  - intros Hr. change ROP_SGN with 1. rewrite Hun. f_equal. unfold field_value. cbn [Z.eqb ROP_UNS andb Pos.eqb].
    apply swrap_small; lia.
Qed.
End Fields.

Lemma relocate_add_correct_witness :
  exists m', dload_relocate (mkReloc 1 4294967295 0 17) [9; 254; 255; 0; 0; 9]
      (set_delta_runaddr 258 zero_state) (empty_world []) =
    Some (m', set_delta_runaddr 258 zero_state, empty_world []) /\
    dload_unpack m' 1 32 0 ROP_UNS = Some 65792.
Proof.
  destruct (relocate_add_correct 17 32 (mkReloc 1 4294967295 0 17) [9; 254; 255; 0; 0; 9]
              (set_delta_runaddr 258 zero_state) (empty_world []) 258)
    as (m' & x & E & Ex & Em & _).
  - unfold add_types. do 7 right. left.
  - reflexivity.
  - reflexivity.
  - repeat constructor; discriminate.
  - simpl. lia.
  - simpl. lia.
  - exists m'. split; [exact E|]. refine (eq_trans Em _).
    assert (X : dload_unpack [9; 254; 255; 0; 0; 9] 1 32 0 ROP_UNS = Some 65534) by reflexivity.
    assert (Some x = Some 65534) as [= ->] by (rewrite <- Ex; exact X). reflexivity.
Defined.

Lemma relocate_branch_correct_witness :
  exists m', dload_relocate (mkReloc 0 4294967295 0 82) [16; 0; 0; 16]
      (set_delta_runaddr 64 zero_state) (empty_world []) =
    Some (m', set_delta_runaddr 64 zero_state, empty_world []) /\
    dload_unpack m' 0 21 7 ROP_SGN = Some (-16).
Proof.
  destruct (relocate_branch_correct 82 21 7 2 (mkReloc 0 4294967295 0 82) [16; 0; 0; 16]
              (set_delta_runaddr 64 zero_state) (empty_world []) 64 (-16)) as (x & Ex & H).
  - unfold branch_types. do 4 right. left.
  - reflexivity.
  - reflexivity.
  - repeat constructor; discriminate.
  - simpl. lia.
  - simpl. lia.
  - assert (X : dload_unpack [16; 0; 0; 16] 0 21 7 ROP_SGN = Some 0) by reflexivity.
    assert (Some x = Some 0) as [= ->] by (rewrite <- Ex; exact X).
    destruct H as (m' & E & _ & _ & _ & U).
    + reflexivity.
    + unfold is_word. lia.
    + exists m'. split; [exact E|]. apply U. lia.
Defined.
