(* ===== verification/DlSymtab.v ===== *)
(** The symbol table of the dynamic loader (src/dspbridge/dynreg/DLsymtab.c and
    DLsymtab_support.c): a hash table of linked lists in a heap, and its
    refinement of a list of symbols. *)

From Stdlib Require Import ZArith Lia.
From stdpp Require Import base list list_numbers option gmap tactics.
From S2P Require Import Prelude DlWords.

(** * The data *)

(** [struct my_symbol]: the link of the hash list, the name (without its
    terminator), the module, the length of the name, and the value. *)
Record symbol := mkSymbol {
  link : Z;
  sym_name : list Z;
  versn : Z;
  sym_length : Z;
  lvalue : Z
}.

Definition LSYM_LOGTBLLEN : Z := 5.
Definition TBLLEN : nat := 32.
Definition AVALUE : Z := 1315424652.
Definition KEYSHIFT : Z := 4.

(** [mytable.(0)] is the shift count, and the lists follow. *)
Record symtab := mkSymtab {
  mytable : list Z;
  hash_key : Z;
  last_length : Z
}.
(** The table and the heap its symbols live in. *)
Record sym_state := mkSym {
  tab : symtab;
  heap : gmap Z symbol
}.

(** * The operations *)

(** [Init_Symbol_Table] *)
Definition Init_Symbol_Table (llen : Z) : symtab :=
  mkSymtab ((4 * 8 - llen) :: replicate (Z.to_nat (Z.max 1 (Z.shiftl 1 llen))) 0) 0 0.

(** [while ((c = *nam1++)) key = (key << KEYSHIFT) + c;] *)
Definition name_key (nm : list Z) : Z :=
  foldl (fun key c => u32 (Z.shiftl key KEYSHIFT + c)) 0 nm.

(** The comparison of two names of the same length: at least one character,
    that of the terminators when the names are empty. *)
Fixpoint same_name (n : nat) (n1 n2 : list Z) : bool :=
  let c1 := hd 0 n1 in let c2 := hd 0 n2 in
  if negb (c1 =? c2) then false
  else match n with
       | O => true
       | Datatypes.S n' => same_name n' (tl n1) (tl n2)
       end.

(** The walk along a hash list. *)
Fixpoint find_in_chain (fuel : nat) (h : gmap Z symbol) (sptr : Z) (nm : list Z) (length : Z)
    : option (option Z) :=
  if sptr =? 0 then Some None
  else
    match fuel with
    | O => None
    | Datatypes.S f =>
        let* s := h !! sptr in
        if (sym_length s =? length) && same_name (Nat.pred (Z.to_nat length)) nm (sym_name s)
        then Some (Some sptr)
        else find_in_chain f h (link s) nm length
    end.

(** [Find_Matching_Symbol] leaves the index of the list and the length of the
    name in the table. *)
Definition Find_Matching_Symbol (nm : list Z) (s : sym_state) : option (option Z * sym_state) :=
  let len := Z.of_nat (length nm) in
  let* shift := arr_get (mytable (tab s)) 0 in
  let key := Z.shiftr (u32 (name_key nm * AVALUE)) shift in
  let t := mkSymtab (mytable (tab s)) key len in
  let* sptr := arr_get (mytable t) (key + 1) in
  let* r := find_in_chain (Datatypes.S (size (heap s))) (heap s) sptr nm len in
  Some (r, mkSym t (heap s)).

(** [Add_To_Symbol_Table]: [newsym] goes to the head of its list. *)
Definition Add_To_Symbol_Table (newsym : Z) (nname : list Z) (vers : Z) (s : sym_state)
    : option sym_state :=
  let* (_, s) := Find_Matching_Symbol nname s in
  let i := hash_key (tab s) + 1 in
  let* head := arr_get (mytable (tab s)) i in
  let* old := heap s !! newsym in
  let* table := arr_set (mytable (tab s)) i newsym in
  Some (mkSym (mkSymtab table (hash_key (tab s)) (last_length (tab s)))
              (<[newsym := mkSymbol head nname vers (last_length (tab s)) (lvalue old)]> (heap s))).

(** Where the link to the current symbol is stored: a list of the table, or a symbol. *)
Inductive prev_ptr := PBucket (i : Z) | PSymbol (p : Z).
(** [prev->link = nxt] *)
Definition set_prev (prev : prev_ptr) (nxt : Z) (s : sym_state) : option sym_state :=
  match prev with
  | PBucket i =>
      let* table := arr_set (mytable (tab s)) i nxt in
      Some (mkSym (mkSymtab table (hash_key (tab s)) (last_length (tab s))) (heap s))
  | PSymbol p =>
      let* y := heap s !! p in
      Some (mkSym (tab s)
              (<[p := mkSymbol nxt (sym_name y) (versn y) (sym_length y) (lvalue y)]> (heap s)))
  end.

Definition SYMI_continue : Z := 0.
Definition SYMI_delete : Z := 1.
Definition SYMI_terminate : Z := 2.

(** An action on a symbol: its result and the heap it leaves. *)
Definition Symbol_Action := Z -> gmap Z symbol -> option (Z * gmap Z symbol).

(** One list; the boolean tells whether the action ended the iteration. *)
Fixpoint iterate_chain (fuel : nat) (action : Symbol_Action) (prev : prev_ptr) (sym : Z)
    (s : sym_state) : option (bool * sym_state) :=
  if sym =? 0 then Some (false, s)
  else
    match fuel with
    | O => None
    | Datatypes.S f =>
        let* y := heap s !! sym in
        let nxt := link y in
        let* (rslt, h) := action sym (heap s) in
        let s := mkSym (tab s) h in
        if negb (rslt =? 0) then
          let* s := if negb (Z.land rslt SYMI_delete =? 0) then set_prev prev nxt s else Some s in
          if negb (Z.land rslt SYMI_terminate =? 0) then Some (true, s)
          else iterate_chain f action prev nxt s
        else iterate_chain f action (PSymbol sym) nxt s
    end.

(** The [cnt] lists from the index [i]. *)
Fixpoint iterate_buckets (cnt : nat) (action : Symbol_Action) (i : Z) (s : sym_state)
    : option sym_state :=
  match cnt with
  | O => Some s
  | Datatypes.S c =>
      let* sym := arr_get (mytable (tab s)) i in
      let* (stop, s) := iterate_chain (Datatypes.S (size (heap s))) action (PBucket i) sym s in
      if stop : bool then Some s else iterate_buckets c action (i + 1) s
  end.

Definition Iterate_Symbols (action : Symbol_Action) (s : sym_state) : option sym_state :=
  let* shift := arr_get (mytable (tab s)) 0 in
  let cnt := u32 (Z.shiftr (2 ^ 32 - 1) shift + 1) in
  iterate_buckets (Z.to_nat (Z.max 1 cnt)) action 1 s.

(** [Purge_Symbol]: frees the symbols of a module. *)
Definition Purge_Symbol (arg : Z) : Symbol_Action := fun thissym h =>
  let* y := h !! thissym in
  if versn y =? u32 arg then Some (SYMI_delete, delete thissym h) else Some (SYMI_continue, h).

(** * The methods of the loader's symbol class *)

(** The symbol found, by the address of its value. *)
Definition DLsym_Find_Matching_Symbol (nm : list Z) (s : sym_state) : option (option Z * sym_state) :=
  Find_Matching_Symbol nm s.

(** [newsym] is what [malloc] returned, null when the heap is exhausted, and
    [junk] the content of the new block. *)
Definition DLsym_Add_To_Symbol_Table (newsym : option Z) (junk : symbol) (nname : list Z)
    (moduleid : Z) (s : sym_state) : option (option Z * sym_state) :=
  match newsym with
  | None => Some (None, s)
  | Some p =>
      let* s := Add_To_Symbol_Table p nname moduleid (mkSym (tab s) (<[p := junk]> (heap s))) in
      Some (Some p, s)
  end.

Definition DLsym_Purge_Symbol_Table (moduleid : Z) (s : sym_state) : option sym_state :=
  Iterate_Symbols (Purge_Symbol moduleid) s.

Definition DLsym_init (h : gmap Z symbol) : sym_state := mkSym (Init_Symbol_Table LSYM_LOGTBLLEN) h.

(** The loader's [newsym->value = val]. *)
Definition set_lvalue (p v : Z) (s : sym_state) : option sym_state :=
  let* y := heap s !! p in
  Some (mkSym (tab s) (<[p := mkSymbol (link y) (sym_name y) (versn y) (sym_length y) v]> (heap s))).

(** * The abstract table: a list of symbols, the newest first *)

Record entry := mkEntry { e_ptr : Z; e_name : list Z; e_module : Z; e_value : Z }.

Definition named (nm : list Z) (e : entry) : Prop := e_name e = nm.
Definition of_module (m : Z) (e : entry) : Prop := e_module e = m.
#[export] Instance named_dec nm e : Decision (named nm e) := decide (e_name e = nm).
#[export] Instance of_module_dec m e : Decision (of_module m e) := decide (e_module e = m).

Definition spec_find (nm : list Z) (L : list entry) : option entry := head (filter (named nm) L).
Definition spec_purge (m : Z) (L : list entry) : list entry := filter (fun e => ~ of_module m e) L.

(** * The representation of the list by the table *)

Definition bucket (nm : list Z) : Z := Z.shiftr (u32 (name_key nm * AVALUE)) 27.
Definition in_bucket (b : nat) (e : entry) : Prop := bucket (e_name e) = Z.of_nat b.
#[export] Instance in_bucket_dec b e : Decision (in_bucket b e) :=
  decide (bucket (e_name e) = Z.of_nat b).

Definition cell (q : Z) (e : entry) : symbol :=
  mkSymbol q (e_name e) (e_module e) (Z.of_nat (length (e_name e))) (e_value e).

(** A linked list of the symbols [l] starts at [p]. *)
Fixpoint chain (h : gmap Z symbol) (p : Z) (l : list entry) : Prop :=
  match l with
  | [] => p = 0
  | e :: l' => p = e_ptr e /\ p <> 0 /\ exists q, h !! p = Some (cell q e) /\ chain h q l'
  end.

Definition buckets_are (s : sym_state) (F : nat -> list entry) : Prop :=
  exists bs, mytable (tab s) = 27 :: bs /\ length bs = TBLLEN /\
    forall b p, bs !! b = Some p -> chain (heap s) p (F b).

Definition repr (s : sym_state) (L : list entry) : Prop :=
  NoDup (e_ptr <$> L) /\ buckets_are s (fun b => filter (in_bucket b) L).

(** * Lists in the heap *)

Lemma chain_frame h h' p l :
  chain h p l -> (forall e, e ∈ l -> h' !! e_ptr e = h !! e_ptr e) -> chain h' p l.
Proof.
  revert p. induction l as [|e l IH]; intros p Hc Hh; [done|].
  destruct Hc as (-> & Hn & q & Hq & Hc). split; [done|]. split; [done|]. exists q.
  rewrite Hh by apply list_elem_of_here. split; [done|]. apply IH; [done|].
  intros e' He'. apply Hh. by apply list_elem_of_further.
Qed.

Lemma chain_lookup h p l e : chain h p l -> e ∈ l -> exists q, h !! e_ptr e = Some (cell q e).
Proof.
  revert p. induction l as [|e' l IH]; intros p Hc He; [by apply not_elem_of_nil in He|].
  destruct Hc as (-> & _ & q & Hq & Hc). apply elem_of_cons in He as [->|He]; [by exists q|].
  by apply (IH q).
Qed.

Lemma chain_length h p l : chain h p l -> NoDup (e_ptr <$> l) -> (length l <= base.size h)%nat.
Proof.
  intros Hc Hn. rewrite <- (length_fmap e_ptr l), <- size_dom.
  rewrite <- (size_list_to_set (C := gset Z)) by done.
  apply subseteq_size. intros x Hx. apply elem_of_list_to_set, list_elem_of_fmap in Hx as (e & -> & He).
  destruct (chain_lookup h p l e Hc He) as [q Hq]. by apply elem_of_dom.
Qed.

Lemma same_name_spec k n1 n2 :
  length n1 = length n2 -> k = Nat.pred (length n1) -> same_name k n1 n2 = bool_decide (n1 = n2).
Proof.
  revert n1 n2. induction k as [|k IH]; intros n1 n2 Hl Hk; cbn [same_name].
  - destruct n1 as [|a [|? ?]], n2 as [|b [|? ?]]; try done; simpl.
    destruct (Z.eqb_spec a b) as [->|]; simpl; symmetry;
      [by apply bool_decide_true|apply bool_decide_false; congruence].
  - destruct n1 as [|a n1], n2 as [|b n2]; try done. simpl in Hl, Hk. cbn [hd tl].
    destruct (Z.eqb_spec a b) as [->|]; simpl.
    + rewrite IH by lia. apply bool_decide_ext. naive_solver.
    + symmetry. apply bool_decide_false. congruence.
Qed.

Lemma find_in_chain_spec fuel h p l nm :
  chain h p l -> (length l < fuel)%nat ->
  find_in_chain fuel h p nm (Z.of_nat (length nm)) = Some (e_ptr <$> spec_find nm l).
Proof.
  unfold spec_find. revert fuel p. induction l as [|e l IH]; intros fuel p Hc Hf.
  { simpl in Hc. subst. by destruct fuel. }
  destruct fuel as [|fuel]; [simpl in Hf; lia|].
  destruct Hc as (-> & Hn & q & Hq & Hc). cbn [find_in_chain].
  rewrite (proj2 (Z.eqb_neq _ 0)), Hq by done. cbn [cell sym_length sym_name link].
  rewrite list.filter_cons.
  destruct (Z.eqb_spec (Z.of_nat (length (e_name e))) (Z.of_nat (length nm))) as [El|El]; cbn [andb].
  - rewrite same_name_spec by lia. unfold named at 1.
    destruct (decide (nm = e_name e)) as [E|E].
    + rewrite bool_decide_true by done. rewrite decide_True by (unfold named; done). done.
    + rewrite bool_decide_false by done. rewrite decide_False by (unfold named; congruence).
      apply IH; [done|simpl in Hf; lia].
  - rewrite decide_False by (unfold named; intros <-; done). apply IH; [done|simpl in Hf; lia].
Qed.

(** * The operations refine those of the list *)

Lemma bucket_range nm : 0 <= bucket nm < 32.
Proof.
  unfold bucket. pose proof (uwrap_range 32 (name_key nm * AVALUE) ltac:(lia)).
  rewrite Z.shiftr_div_pow2 by lia. split; [apply Z.div_pos; lia|].
  apply Z.div_lt_upper_bound; lia.
Qed.

Lemma spec_find_bucket nm b L :
  bucket nm = Z.of_nat b -> spec_find nm (filter (in_bucket b) L) = spec_find nm L.
Proof.
  intros Hb. unfold spec_find. induction L as [|e L IH]; [done|].
  rewrite (list.filter_cons (named nm) e L), (list.filter_cons (in_bucket b) e L).
  destruct (decide (named nm e)) as [E|E].
  - rewrite decide_True by (unfold in_bucket; by rewrite E).
    rewrite list.filter_cons, decide_True by done. done.
  - destruct (decide (in_bucket b e)); [|exact IH].
    rewrite list.filter_cons, decide_False by done. exact IH.
Qed.

Lemma filter_ptr_NoDup (P : entry -> Prop) `{forall e, Decision (P e)} L :
  NoDup (e_ptr <$> L) -> NoDup (e_ptr <$> filter P L).
Proof.
  induction L as [|e L IH]; intros Hn; [done|].
  rewrite fmap_cons in Hn. apply list.NoDup_cons in Hn as [Hni Hn].
  rewrite list.filter_cons. case_decide; [|by apply IH].
  rewrite fmap_cons. apply list.NoDup_cons. split; [|by apply IH].
  intros Hin. apply Hni. apply list_elem_of_fmap in Hin as (e' & -> & He').
  apply list_elem_of_fmap. exists e'. split; [done|]. apply list_elem_of_filter in He' as [_ He']. exact He'.
Qed.

Lemma arr_get_table (x : Z) bs i : 0 <= i -> arr_get (x :: bs) (i + 1) = bs !! Z.to_nat i.
Proof.
  intros Hi. unfold arr_get. rewrite (proj2 (Z.leb_le _ _)) by lia.
  replace (Z.to_nat (i + 1)) with (Datatypes.S (Z.to_nat i)) by lia. done.
Qed.

Lemma find_refines s L nm :
  repr s L ->
  exists s', Find_Matching_Symbol nm s = Some (e_ptr <$> spec_find nm L, s') /\ repr s' L /\
    heap s' = heap s /\ mytable (tab s') = mytable (tab s) /\
    hash_key (tab s') = bucket nm /\ last_length (tab s') = Z.of_nat (length nm).
Proof.
  intros [Hn (bs & Ht & Hl & Hc)]. pose proof (bucket_range nm) as Hb.
  unfold Find_Matching_Symbol. rewrite Ht. change (arr_get (27 :: bs) 0) with (Some 27).
  cbn beta iota. cbn [mytable]. fold (bucket nm). rewrite arr_get_table by lia.
  destruct (lookup_lt_is_Some_2 bs (Z.to_nat (bucket nm))) as [p Hp]; [unfold TBLLEN in Hl; lia|].
  rewrite Hp. pose proof (Hc _ _ Hp) as Hch.
  rewrite (find_in_chain_spec _ (heap s) p _ nm Hch).
  - rewrite spec_find_bucket by lia. eexists. split; [done|]. cbn [heap tab mytable hash_key last_length].
    split; [|done]. split; [done|]. exists bs. done.
  - apply chain_length in Hch; [lia|]. by apply filter_ptr_NoDup.
Qed.

Lemma add_refines s L p junk nm md :
  repr s L -> p <> 0 -> p ∉ e_ptr <$> L ->
  exists s', DLsym_Add_To_Symbol_Table (Some p) junk nm md s = Some (Some p, s') /\
    repr s' (mkEntry p nm md (lvalue junk) :: L) /\
    (forall q, q <> p -> heap s' !! q = heap s !! q).
Proof.
  intros Hr Hp Hfresh. set (s0 := mkSym (tab s) (<[p := junk]> (heap s))).
  assert (Hin : forall e, e ∈ L -> e_ptr e <> p).
  { intros e He Heq. apply Hfresh. apply list_elem_of_fmap. exists e. done. }
  assert (Hr0 : repr s0 L).
  { destruct Hr as [Hn (bs & Ht & Hl & Hc)]. split; [done|]. exists bs. split; [done|]. split; [done|].
    intros b q Hq. eapply chain_frame; [by apply Hc|]. intros e He. cbn [heap s0].
    apply lookup_insert_ne. apply list_elem_of_filter in He as [_ He]. intros E. by apply (Hin e He). }
  destruct (find_refines s0 L nm Hr0) as (s1 & E & Hr1 & Hh1 & Ht1 & Hk1 & Hl1).
  unfold DLsym_Add_To_Symbol_Table, Add_To_Symbol_Table. fold s0. rewrite E, Hk1, Hl1.
  destruct Hr1 as [Hn (bs & Ht & Hl & Hc)]. pose proof (bucket_range nm) as Hb.
  rewrite Ht, arr_get_table by lia.
  destruct (lookup_lt_is_Some_2 bs (Z.to_nat (bucket nm))) as [q Hq]; [unfold TBLLEN in Hl; lia|].
  rewrite Hq, Hh1. cbn [heap s0]. rewrite lookup_insert_eq.
  unfold arr_set. rewrite (proj2 (Z.leb_le 0 _)), (proj2 (Z.ltb_lt _ _)) by (simpl; unfold TBLLEN in Hl; lia).
  cbn [andb]. eexists. split; [done|]. cbn [heap]. split.
  - split.
    { rewrite fmap_cons. by apply list.NoDup_cons. }
    exists (<[Z.to_nat (bucket nm) := p]> bs). split.
    { cbn [tab mytable]. replace (Z.to_nat (bucket nm + 1)) with (Datatypes.S (Z.to_nat (bucket nm))) by lia. done. }
    split; [by rewrite length_insert|]. intros b r Hbr. cbn [heap].
    rewrite Hh1 in Hc. cbn [heap s0] in Hc.
    rewrite list.filter_cons. unfold in_bucket at 1. cbn [e_name].
    assert (Hframe : forall r' l, (forall e, e ∈ l -> e ∈ L) -> chain (<[p:=junk]> (heap s)) r' l ->
      chain (<[p := mkSymbol q nm md (Z.of_nat (length nm)) (lvalue junk)]> (<[p := junk]> (heap s))) r' l).
    { intros r' l Hsub Hch. eapply chain_frame; [exact Hch|]. intros e He.
      apply lookup_insert_ne. intros Heq. by apply (Hin e (Hsub e He)). }
    destruct (decide (bucket nm = Z.of_nat b)) as [Eb|Eb].
    + replace (Z.to_nat (bucket nm)) with b in * by lia.
      rewrite list_lookup_insert_eq in Hbr by (unfold TBLLEN in Hl; lia). simplify_eq.
      split; [done|]. split; [done|]. exists q. rewrite lookup_insert_eq. split; [done|].
      apply Hframe; [|by apply Hc]. intros e He. by apply list_elem_of_filter in He as [_ He].
    + rewrite list_lookup_insert_ne in Hbr by lia. apply Hframe; [|by apply Hc].
      intros e He. by apply list_elem_of_filter in He as [_ He].
  - intros r Hne. by rewrite !lookup_insert_ne by done.
Qed.

(** * Purging a module *)

Definition link_of (prev : prev_ptr) (s : sym_state) : option Z :=
  match prev with
  | PBucket i => arr_get (mytable (tab s)) i
  | PSymbol q => link <$> heap s !! q
  end.
Definition prev_not_in (prev : prev_ptr) (l : list entry) : Prop :=
  match prev with PBucket i => 0 <= i | PSymbol q => q ∉ e_ptr <$> l end.
Definition with_link (q : Z) (y : symbol) : symbol :=
  mkSymbol q (sym_name y) (versn y) (sym_length y) (lvalue y).

(** What an iteration over the list [l] after [prev] leaves: [p'] is where the
    list starts now. *)
Definition purged_list (m : Z) (prev : prev_ptr) (l : list entry) (s s' : sym_state) (p' : Z) : Prop :=
  chain (heap s') p' (spec_purge m l) /\
  (forall e, e ∈ l -> of_module m e -> heap s' !! e_ptr e = None) /\
  match prev with
  | PBucket i =>
      mytable (tab s') = <[Z.to_nat i := p']> (mytable (tab s)) /\
      (forall q, q ∉ e_ptr <$> l -> heap s' !! q = heap s !! q)
  | PSymbol r =>
      mytable (tab s') = mytable (tab s) /\
      (forall q, q ∉ e_ptr <$> l -> q <> r -> heap s' !! q = heap s !! q) /\
      heap s' !! r = with_link p' <$> heap s !! r
  end.

Lemma spec_purge_cons_keep m e l : ~ of_module m e -> spec_purge m (e :: l) = e :: spec_purge m l.
Proof. intros H. unfold spec_purge. rewrite list.filter_cons, decide_True by done. done. Qed.
Lemma spec_purge_cons_drop m e l : of_module m e -> spec_purge m (e :: l) = spec_purge m l.
Proof. intros H. unfold spec_purge. rewrite list.filter_cons, decide_False by tauto. done. Qed.

Lemma with_link_same y : with_link (link y) y = y.
Proof. by destruct y. Qed.

(** Storing a link at [prev]. *)
Lemma set_prev_spec prev nxt s l :
  prev_not_in prev l -> is_Some (link_of prev s) ->
  exists s', set_prev prev nxt s = Some s' /\ link_of prev s' = Some nxt /\
    match prev with
    | PBucket i => mytable (tab s') = <[Z.to_nat i := nxt]> (mytable (tab s)) /\ heap s' = heap s
    | PSymbol r => tab s' = tab s /\ heap s' !! r = with_link nxt <$> heap s !! r /\
        forall q, q <> r -> heap s' !! q = heap s !! q
    end.
Proof.
  intros Hp [k Hk]. destruct prev as [i|r]; simpl in *.
  - unfold arr_get in Hk. rewrite (proj2 (Z.leb_le 0 i)) in Hk by done.
    pose proof (lookup_lt_Some _ _ _ Hk) as Hlt. unfold arr_set.
    rewrite (proj2 (Z.leb_le 0 i)), (proj2 (Z.ltb_lt _ _)) by lia. cbn [andb].
    eexists. split; [done|]. cbn [tab mytable heap]. split; [|done].
    unfold arr_get. rewrite (proj2 (Z.leb_le 0 i)) by done. by apply list_lookup_insert_eq.
  - destruct (heap s !! r) as [y|] eqn:E; [|done]. eexists. split; [done|]. cbn [heap tab].
    rewrite lookup_insert_eq. split; [done|]. split; [done|]. split; [done|].
    intros q Hq. by apply lookup_insert_ne.
Qed.

Lemma chain_delete h p q l :
  chain h p l -> q ∉ e_ptr <$> l -> chain (delete q h) p l.
Proof.
  intros Hc Hq. eapply chain_frame; [exact Hc|]. intros e He. apply lookup_delete_ne.
  intros ->. apply Hq. apply list_elem_of_fmap. by exists e.
Qed.

Lemma iterate_purge fuel m prev sym l s :
  0 <= m < 2 ^ 32 -> (length l < fuel)%nat -> chain (heap s) sym l -> NoDup (e_ptr <$> l) ->
  prev_not_in prev l -> link_of prev s = Some sym ->
  exists s' p', iterate_chain fuel (Purge_Symbol m) prev sym s = Some (false, s') /\
    purged_list m prev l s s' p'.
Proof.
  intros Hm. revert fuel prev sym s. induction l as [|e l IH]; intros fuel prev sym s Hf Hc Hn Hp Hlk.
  - simpl in Hc. subst sym. exists s, 0. split; [by destruct fuel|]. split; [done|].
    split; [intros e He; by apply not_elem_of_nil in He|]. destruct prev as [i|r]; simpl in *.
    + split; [|done]. unfold arr_get in Hlk. destruct (0 <=? i); [|done].
      symmetry. by apply list_insert_id.
    + split; [done|]. split; [done|]. destruct (heap s !! r) as [y|]; [|done]. simpl in *. simplify_eq.
      by rewrite <- Hlk, with_link_same.
  - destruct fuel as [|fuel]; [simpl in Hf; lia|]. destruct Hc as (-> & Hnz & q & Hq & Hc).
    rewrite fmap_cons in Hn. apply list.NoDup_cons in Hn as [Hne Hn].
    cbn [iterate_chain]. rewrite (proj2 (Z.eqb_neq _ 0)), Hq by done. unfold Purge_Symbol at 1.
    rewrite Hq. cbn [versn cell link]. rewrite (uwrap_small 32 m) by lia.
    destruct (Z.eqb_spec (e_module e) m) as [Em|Em].
    + cbn [negb Z.eqb SYMI_delete]. change (Z.land 1 1 =? 0) with false. change (Z.land 1 SYMI_terminate =? 0) with true.
      cbn [negb]. set (s1 := mkSym (tab s) (delete (e_ptr e) (heap s))).
      assert (Hlk1 : is_Some (link_of prev s1)).
      { destruct prev as [i|r]; simpl in *; [by eexists|].
        rewrite lookup_delete_ne by (apply not_elem_of_cons in Hp as [Hp _]; done). by rewrite Hlk. }
      assert (Hp' : prev_not_in prev l).
      { destruct prev as [i|r]; simpl in *; [done|]. by apply not_elem_of_cons in Hp as [_ Hp]. }
      destruct (set_prev_spec prev q s1 l Hp' Hlk1) as (s2 & E2 & Hl2 & Hs2). rewrite E2.
      assert (Hc2 : chain (heap s2) q l).
      { apply (chain_frame (heap s1)); [by apply chain_delete|]. intros e' He'.
        destruct prev as [i|r]; [by destruct Hs2 as [_ ->]|]. destruct Hs2 as (_ & _ & Hs2).
        apply Hs2. intros <-. apply Hp'. apply list_elem_of_fmap. by exists e'. }
      destruct (IH fuel prev q s2) as (s' & p' & E & Hpc & Hgone & Hrest); try done; [simpl in Hf; lia|].
      exists s', p'. split; [exact E|]. split; [by rewrite spec_purge_cons_drop|].
      destruct prev as [i|r].
      * destruct Hrest as [Ht Hh]. destruct Hs2 as [Ht2 Hh2]. split.
        { intros e' He' Hm'. apply elem_of_cons in He' as [->|He']; [|by apply Hgone].
          rewrite Hh, Hh2 by done. cbn [heap s1]. apply lookup_delete_eq. }
        split; [by rewrite Ht, Ht2, list_insert_insert_eq|].
        intros r Hr. rewrite fmap_cons in Hr. apply not_elem_of_cons in Hr as [Hr1 Hr2].
        rewrite Hh, Hh2 by done. cbn [heap s1]. by apply lookup_delete_ne.
      * simpl in Hp. apply not_elem_of_cons in Hp as [Hpe Hpl].
        destruct Hrest as (Ht & Hh & Hr). destruct Hs2 as (Ht2 & Hr2 & Hh2). split.
        { intros e' He' Hm'. apply elem_of_cons in He' as [->|He']; [|by apply Hgone].
          rewrite Hh, Hh2 by done. cbn [heap s1]. apply lookup_delete_eq. }
        split; [by rewrite Ht, Ht2|]. split.
        { intros r' Hr' Hne'. rewrite fmap_cons in Hr'. apply not_elem_of_cons in Hr' as [Hr1 Hr3].
          rewrite Hh, Hh2 by done. cbn [heap s1]. by apply lookup_delete_ne. }
        rewrite Hr, Hr2. cbn [heap s1]. rewrite lookup_delete_ne by done.
        destruct (heap s !! r); done.
    + cbn [negb Z.eqb SYMI_continue].
      replace (mkSym (tab s) (heap s)) with s by (by destruct s).
      destruct (IH fuel (PSymbol (e_ptr e)) q s) as (s' & p' & E & Hpc & Hgone & Ht & Hh & Hr);
        try done; [simpl in Hf; lia|simpl; by rewrite Hq|].
      exists s', (e_ptr e). split; [exact E|]. split.
      { rewrite spec_purge_cons_keep by done. split; [done|]. split; [done|]. exists p'.
        rewrite Hr, Hq. done. }
      split.
      { intros e' He' Hm'. apply elem_of_cons in He' as [->|He']; [done|]. by apply Hgone. }
      destruct prev as [i|r].
      * split.
        { rewrite Ht. symmetry. simpl in Hlk, Hp. unfold arr_get in Hlk.
          rewrite (proj2 (Z.leb_le 0 i)) in Hlk by done. by apply list_insert_id. }
        intros r Hr'. rewrite fmap_cons in Hr'. apply not_elem_of_cons in Hr' as [Hr1 Hr2]. by apply Hh.
      * simpl in Hp. apply not_elem_of_cons in Hp as [Hpe Hpl]. split; [done|]. split.
        { intros r' Hr' _. rewrite fmap_cons in Hr'. apply not_elem_of_cons in Hr' as [Hr1 Hr2]. by apply Hh. }
        rewrite Hh by done. simpl in Hlk. destruct (heap s !! r) as [y|] eqn:Ey; [|done].
        simpl in *. injection Hlk as Hlk. by rewrite <- Hlk, with_link_same.
Qed.

Lemma spec_purge_bucket m b L :
  spec_purge m (filter (in_bucket b) L) = filter (in_bucket b) (spec_purge m L).
Proof. unfold spec_purge. rewrite !list_filter_filter. apply list_filter_iff. tauto. Qed.

(** After [k] of the lists. *)
Definition purged_upto (m : Z) (L : list entry) (h0 : gmap Z symbol) (k : nat) (s : sym_state) : Prop :=
  buckets_are s (fun b => if (b <? k)%nat then spec_purge m (filter (in_bucket b) L)
                          else filter (in_bucket b) L) /\
  (forall e b, e ∈ L -> in_bucket b e -> (b < k)%nat -> of_module m e -> heap s !! e_ptr e = None) /\
  (forall q, q ∉ e_ptr <$> L -> heap s !! q = h0 !! q).

Lemma ptr_bucket_unique L e e' :
  NoDup (e_ptr <$> L) -> e ∈ L -> e' ∈ L -> e_ptr e = e_ptr e' -> e = e'.
Proof.
  intros Hn He He' E. apply list_elem_of_lookup in He as [i Hi]. apply list_elem_of_lookup in He' as [j Hj].
  assert (i = j) as ->; [|congruence].
  eapply (NoDup_lookup (e_ptr <$> L)); [done|rewrite list_lookup_fmap, Hi; done|].
  rewrite list_lookup_fmap, Hj, E. done.
Qed.

Lemma purge_bucket m L h0 k s :
  0 <= m < 2 ^ 32 -> NoDup (e_ptr <$> L) -> (k < TBLLEN)%nat -> purged_upto m L h0 k s ->
  exists sym s', arr_get (mytable (tab s)) (Z.of_nat k + 1) = Some sym /\
    iterate_chain (Datatypes.S (base.size (heap s))) (Purge_Symbol m) (PBucket (Z.of_nat k + 1)) sym s
      = Some (false, s') /\
    purged_upto m L h0 (Datatypes.S k) s'.
Proof.
  intros Hm Hn Hk ((bs & Ht & Hl & Hc) & Hgone & Hout).
  destruct (lookup_lt_is_Some_2 bs k) as [p Hp]; [lia|].
  assert (Hget : arr_get (mytable (tab s)) (Z.of_nat k + 1) = Some p).
  { rewrite Ht, arr_get_table, Nat2Z.id by lia. done. }
  pose proof (Hc k p Hp) as Hch. cbv beta in Hch. rewrite Nat.ltb_irrefl in Hch.
  set (l := filter (in_bucket k) L) in *.
  assert (Hnl : NoDup (e_ptr <$> l)) by (by apply filter_ptr_NoDup).
  destruct (iterate_purge (Datatypes.S (base.size (heap s))) m (PBucket (Z.of_nat k + 1)) p l s)
    as (s' & p' & E & Hpc & Hg & Ht' & Hh); try done.
  { pose proof (chain_length _ _ _ Hch Hnl). lia. }
  { simpl. lia. }
  exists p, s'. split; [done|]. split; [done|].
  assert (Hin : forall e b, e ∈ L -> in_bucket b e -> b <> k -> e_ptr e ∉ e_ptr <$> l).
  { intros e b He Hb Hne Hx. apply list_elem_of_fmap in Hx as (e' & Ee & He').
    apply list_elem_of_filter in He' as [Hb' He']. apply Hne.
    assert (e = e') as -> by (by apply (ptr_bucket_unique L)). unfold in_bucket in *. lia. }
  split; [|split].
  - exists (<[k := p']> bs). split.
    { rewrite Ht', Ht. replace (Z.to_nat (Z.of_nat k + 1)) with (Datatypes.S k) by lia. done. }
    split; [by rewrite length_insert|]. intros b q Hq. destruct (decide (b = k)) as [->|Hb].
    + rewrite list_lookup_insert_eq in Hq by lia. simplify_eq.
      rewrite (proj2 (Nat.ltb_lt k (Datatypes.S k))) by lia. done.
    + rewrite list_lookup_insert_ne in Hq by done. specialize (Hc b q Hq). cbv beta in Hc.
      replace (b <? Datatypes.S k)%nat with (b <? k)%nat
        by (apply eq_true_iff_eq; rewrite !Nat.ltb_lt; lia).
      eapply chain_frame; [exact Hc|]. intros e He. apply Hh.
      assert (He' : e ∈ filter (in_bucket b) L).
      { destruct (b <? k)%nat; [|done]. unfold spec_purge in He. by apply list_elem_of_filter in He as [_ He]. }
      apply list_elem_of_filter in He' as [Hbe He']. by apply (Hin e b).
  - intros e b He Hb Hlt Hmod. destruct (decide (b = k)) as [->|Hne].
    + apply Hg; [|done]. by apply list_elem_of_filter.
    + rewrite Hh by (by apply (Hin e b)). apply (Hgone e b); try done. lia.
  - intros q Hq. rewrite Hh; [by apply Hout|]. intros Hx. apply Hq.
    apply list_elem_of_fmap in Hx as (e & -> & He). apply list_elem_of_filter in He as [_ He].
    apply list_elem_of_fmap. by exists e.
Qed.

Lemma iterate_buckets_purge cnt m L h0 k s :
  0 <= m < 2 ^ 32 -> NoDup (e_ptr <$> L) -> (k + cnt = TBLLEN)%nat -> purged_upto m L h0 k s ->
  exists s', iterate_buckets cnt (Purge_Symbol m) (Z.of_nat k + 1) s = Some s' /\
    purged_upto m L h0 TBLLEN s'.
Proof.
  intros Hm Hn. revert k s. induction cnt as [|cnt IH]; intros k s Hk Hs.
  - exists s. split; [done|]. by replace TBLLEN with k by lia.
  - destruct (purge_bucket m L h0 k s Hm Hn ltac:(lia) Hs) as (sym & s1 & Hget & Hit & Hs1).
    cbn [iterate_buckets]. rewrite Hget, Hit.
    destruct (IH (Datatypes.S k) s1 ltac:(lia) Hs1) as (s' & E & Hs'). exists s'. split; [|done].
    rewrite <- E. f_equal. lia.
Qed.

Lemma bucket_exists e : exists b, in_bucket b e /\ (b < TBLLEN)%nat.
Proof.
  pose proof (bucket_range (e_name e)). exists (Z.to_nat (bucket (e_name e))).
  unfold in_bucket, TBLLEN. lia.
Qed.

Lemma purge_refines s L m :
  repr s L -> 0 <= m < 2 ^ 32 ->
  exists s', DLsym_Purge_Symbol_Table m s = Some s' /\ repr s' (spec_purge m L) /\
    (forall e, e ∈ L -> of_module m e -> heap s' !! e_ptr e = None) /\
    (forall q, q ∉ e_ptr <$> L -> heap s' !! q = heap s !! q).
Proof.
  intros [Hn Hb] Hm. destruct (iterate_buckets_purge TBLLEN m L (heap s) 0 s Hm Hn eq_refl)
    as (s' & E & (bs & Ht & Hl & Hc) & Hgone & Hout).
  { split; [exact Hb|]. split; [|done]. intros e b _ _ Hlt. lia. }
  exists s'. split.
  { unfold DLsym_Purge_Symbol_Table, Iterate_Symbols. destruct Hb as (bs0 & Ht0 & _). rewrite Ht0.
    change (arr_get (27 :: bs0) 0) with (Some 27). cbn beta iota. exact E. }
  split; [|split].
  - split; [by apply filter_ptr_NoDup|]. exists bs. split; [done|]. split; [done|].
    intros b p Hp. rewrite <- spec_purge_bucket. specialize (Hc b p Hp). cbv beta in Hc.
    apply lookup_lt_Some in Hp. by rewrite (proj2 (Nat.ltb_lt b TBLLEN)) in Hc by lia.
  - intros e He Hmod. destruct (bucket_exists e) as (b & Hbe & Hlt). by apply (Hgone e b).
  - exact Hout.
Qed.

Lemma init_refines h : repr (DLsym_init h) [].
Proof.
  split; [constructor|]. exists (replicate 32 0). split; [done|]. split; [done|].
  intros b p Hp. by apply lookup_replicate in Hp as [-> _].
Qed.

(** Storing the value of a symbol of the list. *)
Definition set_value (p v : Z) (e : entry) : entry :=
  if e_ptr e =? p then mkEntry (e_ptr e) (e_name e) (e_module e) v else e.

Lemma set_value_ptr p v (L : list entry) : e_ptr <$> (set_value p v <$> L) = e_ptr <$> L.
Proof.
  rewrite <- list_fmap_compose. apply list_fmap_ext. intros i e _. unfold compose, set_value.
  by destruct (e_ptr e =? p).
Qed.

Lemma chain_set_value h p v y q (l : list entry) :
  h !! p = Some y -> chain h q l ->
  chain (<[p := mkSymbol (link y) (sym_name y) (versn y) (sym_length y) v]> h) q (set_value p v <$> l).
Proof.
  intros Hy. revert q. induction l as [|e l IH]; intros q Hc; [done|].
  destruct Hc as (-> & Hn & r & Hr & Hc). cbn [fmap list_fmap].
  assert (E : e_ptr (set_value p v e) = e_ptr e) by (unfold set_value; by destruct (_ =? _)).
  split; [done|]. split; [done|]. exists r. split; [|by apply IH].
  unfold set_value. destruct (Z.eqb_spec (e_ptr e) p) as [<-|Hne].
  - rewrite lookup_insert_eq. rewrite Hr in Hy. simplify_eq. done.
  - by rewrite lookup_insert_ne.
Qed.

Lemma set_value_bucket p v b (L : list entry) :
  filter (in_bucket b) (set_value p v <$> L) = set_value p v <$> filter (in_bucket b) L.
Proof.
  induction L as [|e L IH]; [done|]. rewrite fmap_cons, !list.filter_cons.
  assert (E : in_bucket b (set_value p v e) <-> in_bucket b e).
  { unfold in_bucket, set_value. by destruct (_ =? _). }
  destruct (decide (in_bucket b e)) as [H|H].
  - rewrite decide_True by (by apply E). by rewrite fmap_cons, IH.
  - rewrite decide_False by (by rewrite E). exact IH.
Qed.

Lemma set_lvalue_refines s (L : list entry) p v :
  repr s L -> p ∈ e_ptr <$> L ->
  exists s', set_lvalue p v s = Some s' /\ repr s' (set_value p v <$> L).
Proof.
  intros [Hn (bs & Ht & Hl & Hc)] Hp. apply list_elem_of_fmap in Hp as (e & -> & He).
  destruct (bucket_exists e) as (b & Hbe & Hlt).
  destruct (lookup_lt_is_Some_2 bs b) as [q Hq]; [lia|].
  destruct (chain_lookup (heap s) q _ e (Hc b q Hq)) as [r Hr]; [by apply list_elem_of_filter|].
  unfold set_lvalue. rewrite Hr. eexists. split; [done|].
  split; [by rewrite set_value_ptr|]. exists bs. split; [done|]. split; [done|].
  intros b' p' Hp'. cbn [heap]. rewrite set_value_bucket. apply chain_set_value; [done|]. by apply Hc.
Qed.

(** * Sequences of operations *)

(** What the loader asks of the table: a lookup, the definition of a symbol
    with the block that [malloc] gives it, and the purge of a module. *)
Inductive sym_op :=
| Op_find (nm : list Z)
| Op_add (newsym : Z) (junk : symbol) (nm : list Z) (md v : Z)
| Op_purge (md : Z).

Definition run_op (o : sym_op) (s : sym_state) : option (option Z * sym_state) :=
  match o with
  | Op_find nm =>
      let* (r, s) := DLsym_Find_Matching_Symbol nm s in
      match r with
      | Some p => let* y := heap s !! p in Some (Some (lvalue y), s)
      | None => Some (None, s)
      end
  | Op_add p junk nm md v =>
      let* (_, s) := DLsym_Add_To_Symbol_Table (Some p) junk nm md s in
      let* s := set_lvalue p v s in Some (None, s)
  | Op_purge md => let* s := DLsym_Purge_Symbol_Table md s in Some (None, s)
  end.
Fixpoint run_ops (os : list sym_op) (s : sym_state) : option (list (option Z) * sym_state) :=
  match os with
  | [] => Some ([], s)
  | o :: os => let* (r, s) := run_op o s in let* (rs, s) := run_ops os s in Some (r :: rs, s)
  end.

(** The same on the list; [malloc] gives no block twice. *)
Definition spec_op (o : sym_op) (L : list entry) : option (option Z * list entry) :=
  match o with
  | Op_find nm => Some (e_value <$> spec_find nm L, L)
  | Op_add p junk nm md v =>
      guard* (negb (p =? 0) && bool_decide (p ∉ e_ptr <$> L)) in
      Some (None, mkEntry p nm md v :: L)
  | Op_purge md => guard* ((0 <=? md) && (md <? 2 ^ 32)) in Some (None, spec_purge md L)
  end.
Fixpoint spec_ops (os : list sym_op) (L : list entry) : option (list (option Z) * list entry) :=
  match os with
  | [] => Some ([], L)
  | o :: os => let* (r, L) := spec_op o L in let* (rs, L) := spec_ops os L in Some (r :: rs, L)
  end.

Lemma spec_find_in nm L e : spec_find nm L = Some e -> e ∈ L.
Proof.
  unfold spec_find. intros He.
  assert (Hin : e ∈ filter (named nm) L).
  { destruct (filter (named nm) L); [done|]. simpl in He. simplify_eq. apply list_elem_of_here. }
  by apply list_elem_of_filter in Hin as [_ Hin].
Qed.

Lemma repr_lookup s L e : repr s L -> e ∈ L -> exists q, heap s !! e_ptr e = Some (cell q e).
Proof.
  intros [Hn (bs & Ht & Hl & Hc)] He. destruct (bucket_exists e) as (b & Hb & Hlt).
  destruct (lookup_lt_is_Some_2 bs b) as [q Hq]; [lia|].
  eapply chain_lookup; [by apply (Hc b q Hq)|]. by apply list_elem_of_filter.
Qed.

Lemma set_value_fresh p v (L : list entry) : p ∉ e_ptr <$> L -> set_value p v <$> L = L.
Proof.
  induction L as [|e L IH]; intros Hp; [done|]. rewrite fmap_cons in Hp.
  apply not_elem_of_cons in Hp as [Hne Hp]. rewrite fmap_cons, IH by done. f_equal.
  unfold set_value. by rewrite (proj2 (Z.eqb_neq _ _)) by done.
Qed.

Lemma run_op_refines o s L r L' :
  repr s L -> spec_op o L = Some (r, L') -> exists s', run_op o s = Some (r, s') /\ repr s' L'.
Proof.
  intros Hr Hs. destruct o as [nm|p junk nm md v|md]; simpl in Hs.
  - simplify_eq. destruct (find_refines s L' nm Hr) as (s1 & E & Hr1 & Hh & _).
    unfold run_op, DLsym_Find_Matching_Symbol. rewrite E.
    destruct (spec_find nm L') as [e|] eqn:Ee; simpl; [|by exists s1].
    destruct (repr_lookup s1 L' e Hr1) as [q Hq]; [by apply spec_find_in in Ee|].
    rewrite Hq. by exists s1.
  - destruct (Z.eqb_spec p 0) as [|Hp]; simpl in Hs; [done|].
    case_bool_decide as Hf; simplify_eq.
    destruct (add_refines s L p junk nm md Hr Hp Hf) as (s1 & E & Hr1 & _).
    unfold run_op. rewrite E.
    destruct (set_lvalue_refines s1 _ p v Hr1) as (s2 & E2 & Hr2); [apply list_elem_of_here|].
    rewrite E2. exists s2. split; [done|]. rewrite fmap_cons, set_value_fresh in Hr2 by done.
    unfold set_value in Hr2. cbn [e_ptr e_name e_module] in Hr2. by rewrite Z.eqb_refl in Hr2.
  - destruct (Z.leb_spec 0 md), (Z.ltb_spec md (2 ^ 32)); simpl in Hs; simplify_eq.
    destruct (purge_refines s L md Hr ltac:(lia)) as (s1 & E & Hr1 & _).
    unfold run_op. rewrite E. by exists s1.
Qed.

Lemma run_ops_refines os s L rs L' :
  repr s L -> spec_ops os L = Some (rs, L') -> exists s', run_ops os s = Some (rs, s') /\ repr s' L'.
Proof.
  revert s L rs. induction os as [|o os IH]; intros s L rs Hr Hs; simpl in Hs; [simplify_eq; by exists s|].
  destruct (spec_op o L) as [[r L1]|] eqn:Eo; [|done].
  destruct (spec_ops os L1) as [[rs1 L2]|] eqn:Eos; [|done]. simplify_eq.
  destruct (run_op_refines o s L r L1 Hr Eo) as (s1 & E1 & Hr1).
  destruct (IH s1 L1 rs1 Hr1 Eos) as (s2 & E2 & Hr2).
  exists s2. simpl. rewrite E1, E2. done.
Qed.

(** C18: any sequence of lookups, definitions and purges on a fresh symbol
    table behaves as on a list of symbols, the newest first: it never follows
    a dangling or a null link, every lookup gives the value of the newest
    symbol of that name whose module is not purged, and the hash lists stay
    well formed and acyclic. *)
Theorem symtab_refines (os : list sym_op) (h : gmap Z symbol) (rs : list (option Z)) (L : list entry) :
  spec_ops os [] = Some (rs, L) ->
  exists s, run_ops os (DLsym_init h) = Some (rs, s) /\ repr s L.
Proof. apply run_ops_refines, init_refines. Qed.

Lemma symtab_refines_witness :
  let junk := mkSymbol 0 [] 0 0 0 in
  let os := [Op_add 16 junk [109; 97] 1 7; Op_add 32 junk [109; 97] 2 8; Op_find [109; 97];
             Op_purge 2; Op_find [109; 97]; Op_find []] in
  exists s, run_ops os (DLsym_init ∅) = Some ([None; None; Some 8; None; Some 7; None], s) /\
            repr s [mkEntry 16 [109; 97] 1 7].
Proof. intros junk os. apply symtab_refines. reflexivity. Defined.

(** purging a module frees the blocks of its symbols and of no other
    symbol, touches no block outside the table, and leaves exactly the symbols
    of the other modules, in their order. *)
Lemma symtab_purge_frees (s : sym_state) (L : list entry) (m : Z) :
  repr s L -> 0 <= m < 2 ^ 32 ->
  exists s', DLsym_Purge_Symbol_Table m s = Some s' /\ repr s' (spec_purge m L) /\
    (forall e, e ∈ L -> (heap s' !! e_ptr e = None <-> e_module e = m)) /\
    (forall q, q ∉ e_ptr <$> L -> heap s' !! q = heap s !! q).
Proof.
  intros Hr Hm. destruct (purge_refines s L m Hr Hm) as (s' & E & Hr' & Hgone & Hout).
  exists s'. split; [done|]. split; [done|]. split; [|done]. intros e He. split; [|by apply Hgone].
  intros Hnone. destruct (decide (e_module e = m)) as [|Hne]; [done|].
  destruct (repr_lookup s' _ e Hr') as [q Hq]; [|by rewrite Hnone in Hq].
  unfold spec_purge. by apply list_elem_of_filter.
Qed.

Lemma symtab_purge_frees_witness :
  exists s', DLsym_Purge_Symbol_Table 5 (DLsym_init ∅) = Some s' /\ repr s' [].
Proof.
  destruct (symtab_purge_frees (DLsym_init ∅) [] 5 (init_refines ∅)) as (s' & E & Hr & _); [lia|].
  by exists s'.
Defined.
