(* ===== verification/DlLoad.v ===== *)
(** The phases of loading a module (src/dspbridge/dynreg/cload.c): the headers,
    the section records, the allocation of the sections, the strings, the
    symbols, the relocation and the download of the image packets, and the
    interpretation of .cinit. *)

From Stdlib Require Import ZArith Lia String.
From stdpp Require Import base list list_numbers option tactics.
From S2P Require Import Prelude DlWords DlField DlState DlReloc.

(** * Structures as bytes *)

(** The field of [k] bytes at [p], zero outside the block. *)
Definition le_at (k : nat) (bs : list Z) (p : nat) : Z := le_value (take k (drop p bs)).
Definition i32_at (bs : list Z) (p : nat) : Z := s32 (le_at 4 bs p).
Definition i16_at (bs : list Z) (p : nat) : Z := s16 (le_at 2 bs p).

Definition FILEHDR_SIZE : Z := 36.
Definition VERIFY_SIZE : Z := 20.
Definition COMBINED_HEADER_SIZE : Z := FILEHDR_SIZE + VERIFY_SIZE.
Definition SCNHDR_SIZE : Z := 28.
Definition LDR_SECTION_SIZE : Z := 24.
Definition SYMENT_SIZE : Z := 12.
Definition RELOC_SIZE : Z := 12.
Definition LOCAL_SYMBOL_SIZE : Z := 12.

Definition decode_filehdr (bs : list Z) : doff_filehdr_t :=
  mkFilehdr (le_at 4 bs 0) (le_at 4 bs 4) (le_at 4 bs 8) (le_at 4 bs 12)
    (le_at 2 bs 16) (le_at 2 bs 18) (le_at 2 bs 20) (le_at 2 bs 22)
    (le_at 2 bs 24) (le_at 2 bs 26) (le_at 2 bs 28) (i16_at bs 30) (le_at 4 bs 32).
Definition decode_verify (bs : list Z) : doff_verify_rec_t :=
  mkVerify (le_at 4 bs 0) (le_at 4 bs 4) (le_at 4 bs 8) (le_at 4 bs 12) (le_at 4 bs 16).
Definition decode_section (bs : list Z) : LDR_SECTION_INFO :=
  mkSection (le_at 4 bs 0) (le_at 4 bs 4) (le_at 4 bs 8) (le_at 4 bs 12)
    (le_at 2 bs 16) (le_at 2 bs 18) (le_at 4 bs 20).
Definition decode_scnhdr (bs : list Z) : doff_scnhdr_t :=
  mkScnhdr (decode_section bs) (i32_at bs 24).
Definition decode_syment (bs : list Z) : doff_syment_t :=
  mkSyment (i32_at bs 0) (i32_at bs 4) (i16_at bs 8) (i16_at bs 10).
Definition decode_reloc (bs : list Z) : reloc_record_t :=
  mkReloc (i32_at bs 0) (le_at 4 bs 4) (le_at 2 bs 8) (le_at 2 bs 10).
Definition decode_local (bs : list Z) : Local_Symbol :=
  mkLocal (i32_at bs 0) (i32_at bs 4) (i16_at bs 8) (i16_at bs 10).

(** [n] consecutive structures of [k] bytes. *)
Fixpoint decode_array {A} (decode : list Z -> A) (k n : nat) (bs : list Z) : list A :=
  match n with
  | O => []
  | Datatypes.S n' => decode (take k bs) :: decode_array decode k n' (drop k bs)
  end.

(** The C string at an offset of a block; [None] when it has no terminator there. *)
Fixpoint c_string (bs : list Z) : option (list Z) :=
  match bs with
  | [] => None
  | b :: bs => if b =? 0 then Some [] else let* s := c_string bs in Some (b :: s)
  end.

Section Load.
Context {W : Type} `{Env : DlEnv W}.

(** [if (~x)] for an unsigned [x]: some bit is clear. *)
Definition not_all_ones (x : Z) : bool := negb (x =? 2 ^ 32 - 1).
Definition u32_not (x : Z) : Z := u32 (Z.lnot x).

(** A read that must fill its buffer: [None] when the stream is short. The error
    path that follows does not look at the bytes that did arrive. *)
Definition read_exactly (n : Z) : M W (option (list Z)) :=
  bs <- call (read_buffer n) ;;
  ret (if Z.of_nat (length bs) =? n then Some bs else None).
(** [if (dlthis->reorder_map) dload_reorder(...)] *)
Definition reorder_if (siz : Z) (bs : list Z) : M W (list Z) :=
  st <- get ;;
  if negb (reorder_map st =? 0) then lift (dload_reorder bs siz (reorder_map st)) else ret bs.

(** * [dload_headers] *)

Definition MAX_REASONABLE_STRINGTAB : Z := 1048576. (* 0x100000 *)
Definition MAX_REASONABLE_SECTIONS : Z := 200.
Definition TARGET_ID : Z := 153. (* TMS32060_ID, 0x99 *)
Definition TMS470_ID : Z := 151. (* 0x97 *)
Definition DOFF0 : Z := 0.
Definition DF_BIG : Z := 512.
Definition ALIGN_COFF_ENDIANNESS : Z := 7.
Definition ENDIANNESS_MASK : Z := 6. (* DF_BYTE_ORDER >> ALIGN_COFF_ENDIANNESS *)

(** The checks on the header, in the order of the code: the first message. *)
Definition header_error (h : doff_filehdr_t) (options : Z) : option dl_message :=
  if negb (df_target_id h =? TARGET_ID) && negb (df_target_id h =? TMS470_ID) then Some M_target_id
  else if negb (df_doff_version h =? DOFF0) then Some M_doff_version
  else if df_strtab_size h >? MAX_REASONABLE_STRINGTAB then Some M_strtab_size
  else if df_no_scns h >? MAX_REASONABLE_SECTIONS then Some M_section_count
  else if negb (Z.land (Z.land (Z.shiftr (df_flags h) ALIGN_COFF_ENDIANNESS) options) ENDIANNESS_MASK =? 0)
       then Some M_endianness
  else None.

Definition dload_headers : M W unit :=
  r <- read_exactly COMBINED_HEADER_SIZE ;;
  match r with
  | None => dload_error M_read
  | Some bs =>
      raw <- lift (get32 bs 8) ;;
      let map := REORDER_MAP raw in
      let shuffled := negb (map =? REORDER_MAP BYTE_RESHUFFLE_VALUE) in
      (** no obviously bogus bits in the map *)
      bs <- (if shuffled && (Z.land map 4244438268 =? 0) (* 0xFCFCFCFC *)
             then lift (dload_reorder bs COMBINED_HEADER_SIZE map) else ret bs) ;;
      modify (set_dfile_hdr (decode_filehdr bs)) ;;;
      modify (set_verify (decode_verify (drop 36 bs))) ;;;
      if shuffled && negb (le_at 4 bs 8 =? BYTE_RESHUFFLE_VALUE) then dload_error M_byte_swap_map
      else
        (if shuffled then modify (set_reorder_map map) else ret tt) ;;;
        c1 <- lift (dload_checksum bs FILEHDR_SIZE) ;;
        c2 <- lift (dload_checksum (drop 36 bs) VERIFY_SIZE) ;;
        if not_all_ones c1 || not_all_ones c2 then dload_error M_checksum
        else
          st <- get ;;
          match header_error (dfile_hdr st) (myoptions st) with
          | Some msg => dload_error msg
          | None => modify (set_big_e_target (negb (Z.land (df_flags (dfile_hdr st)) DF_BIG =? 0)))
          end
  end.

(** * [dload_sections] *)

Definition dload_sections : M W unit :=
  st <- get ;;
  let nsecs := df_no_scns (dfile_hdr st) in
  let siz := s16 (nsecs * SCNHDR_SIZE) in
  shp <- call (Allocate siz) ;;
  match shp with
  | None => dload_error M_alloc
  | Some (p, junk) =>
      modify (set_sect_hdrs (Some (p, decode_array decode_scnhdr 28 (Z.to_nat nsecs) junk))) ;;;
      r <- read_exactly siz ;;
      match r with
      | None => dload_error M_read
      | Some bs =>
          bs <- reorder_if siz bs ;;
          modify (set_sect_hdrs (Some (p, decode_array decode_scnhdr 28 (Z.to_nat nsecs) bs))) ;;;
          c <- lift (dload_checksum bs siz) ;;
          if negb (u32_not c =? dv_scn_rec_checksum (verify st)) then dload_error M_checksum else ret tt
      end
  end.

Definition section_table_free : M W unit :=
  st <- get ;;
  match sect_hdrs st with Some (p, _) => call_ (Deallocate p) | None => ret tt end.

(** * [dload_strings] *)

Definition DOFF_ALIGN (addr : Z) : Z := Z.land (u32 (addr + 3)) 4294967292. (* ~3 *)

(** A short read is reported, and the block keeps the bytes it held. *)
Definition dload_strings (sec_names_only : bool) : M W unit :=
  st <- get ;;
  let ssiz := DOFF_ALIGN (if sec_names_only then df_scn_name_size (dfile_hdr st)
                          else df_strtab_size (dfile_hdr st)) in
  if ssiz =? 0 then ret tt
  else
    r <- call (Allocate ssiz) ;;
    match r with
    | None => dload_error M_alloc
    | Some (p, junk) =>
        bs <- call (read_buffer ssiz) ;;
        (if negb (Z.of_nat (length bs) =? ssiz) then dload_error M_read else ret tt) ;;;
        bs <- reorder_if ssiz (bs ++ drop (length bs) junk) ;;
        modify (set_str_head (Some (p, bs))) ;;;
        c <- lift (dload_checksum bs ssiz) ;;
        if negb sec_names_only && negb (u32_not c =? dv_str_tab_checksum (verify st))
        then dload_error M_checksum else ret tt
    end.

Definition string_table_free : M W unit :=
  st <- get ;;
  match str_head st with Some (p, _) => call_ (Deallocate p) | None => ret tt end.

(** * [allocate_sections] *)

Definition MY_HANDLE_SIZE : Z := 28. (* sizeof(struct my_handle) - sizeof(struct LDR_SECTION_INFO) *)

Definition set_sec_name (x : Z) (s : LDR_SECTION_INFO) : LDR_SECTION_INFO :=
  mkSection x (run_addr s) (load_addr s) (size s) (page s) (type s) (context s).
Definition set_sec_addrs (run load : Z) (s : LDR_SECTION_INFO) : LDR_SECTION_INFO :=
  mkSection (name s) run load (size s) (page s) (type s) (context s).
Definition set_sec_context (x : Z) (s : LDR_SECTION_INFO) : LDR_SECTION_INFO :=
  mkSection (name s) (run_addr s) (load_addr s) (size s) (page s) (type s) x.
Definition map_ldrsec (f : LDR_SECTION_INFO -> LDR_SECTION_INFO) (s : doff_scnhdr_t) : doff_scnhdr_t :=
  mkScnhdr (f (as_ldrsec s)) (ds_nipacks s).

(** Storing a section record, or a section of the handle. *)
Definition put_scnhdr (i : nat) (s : doff_scnhdr_t) : M W unit :=
  st <- get ;;
  tbl <- lift (sect_hdrs st) ;;
  l <- lift (arr_set tbl.2 (Z.of_nat i) s) ;;
  modify (set_sect_hdrs (Some (tbl.1, l))).
Definition put_ldrsec (i : nat) (s : LDR_SECTION_INFO) : M W unit :=
  st <- get ;;
  l <- lift (arr_set (ldr_sections st) (Z.of_nat i) s) ;;
  modify (set_ldr_sections l).

(** The body of the loop for the section [i]; false is the early return. *)
Definition allocate_section (i : nat) : M W bool :=
  st <- get ;;
  tbl <- lift (sect_hdrs st) ;;
  shp <- lift (tbl.2 !! i) ;;
  let soffset := ds_offset shp in
  (** the name of the section *)
  shp <- (if soffset <? df_strtab_size (dfile_hdr st)
          then strs <- lift (str_head st) ;; ret (map_ldrsec (set_sec_name (strs.1 + soffset)) shp)
          else dload_error M_section_name ;;; ret (map_ldrsec (set_sec_name 0) shp)) ;;
  put_scnhdr i shp ;;;
  if DS_NEEDS_ALLOCATION shp then
    let asec := set_sec_context 0 (as_ldrsec shp) in
    put_ldrsec i asec ;;;
    modify (set_debug_string_size soffset) ;;;
    st <- get ;;
    guard_ <- lift (guard* (myalloc st) in Some tt) ;; (* not a null pointer *)
    r <- call (alloc_Allocate asec (DS_ALIGNMENT (type asec))) ;;
    match r with
    | None => dload_error M_tgtalloc ;;; ret false
    | Some asec =>
        put_ldrsec i asec ;;;
        (** keep address deltas in original section table *)
        put_scnhdr i (map_ldrsec (set_sec_addrs (u32 (run_addr asec - ds_paddr shp))
                                    (u32 (load_addr asec - ds_vaddr shp))) shp) ;;;
        modify (fun st => set_allocated_secn_count (u32 (allocated_secn_count st + 1)) st) ;;;
        ret true
    end
  else ret true.

Fixpoint allocate_loop (idx : list nat) : M W bool :=
  match idx with
  | [] => ret true
  | i :: idx => more <- allocate_section i ;; if more : bool then allocate_loop idx else ret false
  end.

(** The members of the handle that [allocate_sections] leaves as the block
    holds them are zero here; they are written before they are read. *)
Definition new_handle (p : Z) : my_handle := mkHandle 0 p p 0 0 0 0 [].

(** The sections of the handle are as many as its block, whose size is a
    16-bit number, has room for; during the load they are [ldr_sections]. *)
Definition allocate_sections : M W unit :=
  st <- get ;;
  let nsecs := df_no_scns (dfile_hdr st) in
  if nsecs =? 0 then ret tt
  else if negb (myalloc st) && (df_target_scns (dfile_hdr st) >? 0) then dload_error M_need_alloc
  else
    let siz := u16 (df_target_scns (dfile_hdr st) * LDR_SECTION_SIZE + MY_HANDLE_SIZE) in
    r <- call (Allocate siz) ;;
    match r with
    | None => dload_error M_alloc
    | Some (p, junk) =>
        call_ (host_store p (Handle (new_handle p))) ;;;
        modify (set_myhandle p) ;;;
        modify (set_ldr_sections
                  (decode_array decode_section 24 (Z.to_nat ((siz - MY_HANDLE_SIZE) / LDR_SECTION_SIZE))
                     (drop 28 junk))) ;;;
        done_ <- allocate_loop (seq 0 (Z.to_nat nsecs)) ;;
        if done_ : bool then
          st <- get ;;
          strs <- lift (str_head st) ;;
          s <- lift (c_string (drop (Z.to_nat (debug_string_size st)) strs.2)) ;;
          modify (set_debug_string_size (u32 (debug_string_size st + Z.of_nat (length s) + 1)))
        else ret tt
    end.

(** * [dload_symbols] *)

Definition DBG_HDR_SIZE : Z := 16.
Definition IMAGE_PACKET_SIZE : Z := 1024.
Definition MY_SYM_BUF_SIZ : Z := IMAGE_PACKET_SIZE / SYMENT_SIZE.

(** The name of a symbol, a null pointer when it has none. *)
Definition symbol_name (s : doff_syment_t) : M W (option (list Z)) :=
  st <- get ;;
  if dn_offset s >? 0 then
    if dn_offset s <? df_strtab_size (dfile_hdr st) then
      strs <- lift (str_head st) ;;
      nm <- lift (c_string (drop (Z.to_nat (dn_offset s)) strs.2)) ;;
      ret (Some nm)
    else dload_error M_symbol_name ;;; ret None
  else ret None.

(** The section that a symbol refers to moved by this amount. *)
Definition section_delta (s : doff_syment_t) : M W (option Z) :=
  st <- get ;;
  if u32 (dn_scnum s) <=? allocated_secn_count st then
    tbl <- lift (sect_hdrs st) ;;
    srefp <- lift (arr_get tbl.2 (dn_scnum s - 1)) ;;
    ret (Some (if (dn_sclass s =? DN_STATLAB) || (dn_sclass s =? DN_EXTLAB)
               then s32 (ds_vaddr srefp) else s32 (ds_paddr srefp)))
  else ret None.

(** What becomes of a symbol: its value and its displacement, and whether it
    is posted to the global table. *)
Inductive sym_result := Sym_stop | Sym_local (val delta : Z) | Sym_posted (val delta : Z).

Definition is_global (s : doff_syment_t) : bool :=
  (dn_sclass s =? DN_EXT) || (dn_sclass s =? DN_EXTLAB).

Definition resolve_symbol (s : doff_syment_t) (sname : option (list Z)) : M W sym_result :=
  let val := u32 (dn_value s) in
  let post v d := if is_global s then Sym_posted v d else Sym_local v d in
  if dn_scnum s =? DN_UNDEF then
    if dn_sclass s =? DN_EXT then
      nm <- lift sname ;;
      symp <- call (Find_Matching_Symbol nm) ;;
      match symp with
      | Some v => ret (Sym_local v (s32 v))
      | None => dload_error M_undefined ;;; ret (Sym_local val 0)
      end
    else ret (Sym_local val 0)
  else if dn_scnum s >? 0 then
    d <- section_delta s ;;
    match d with
    | Some d => ret (post (u32 (val + d)) d)
    | None => ret (post val 0)
    end
  else if (dn_scnum s =? DN_ABS) && is_global s then
    nm <- lift sname ;;
    symp <- call (Find_Matching_Symbol nm) ;;
    match symp with
    | Some v =>
        if v =? val then ret (Sym_local val 0)
        else dload_error M_abs_redefined ;;; ret Sym_stop
    | None => ret (post val 0)
    end
  else ret (post val 0).

(** Storing the entry [i] of the local table. *)
Definition put_local (i : Z) (s : Local_Symbol) : M W unit :=
  st <- get ;;
  tbl <- lift (local_symtab st) ;;
  l <- lift (arr_set tbl.2 i s) ;;
  modify (set_local_symtab (Some (tbl.1, l))).

(** [sp->sclass = ...; sp->secnn = ...] *)
Definition put_class (i : Z) (s : doff_syment_t) : M W unit :=
  st <- get ;;
  tbl <- lift (local_symtab st) ;;
  sp <- lift (arr_get tbl.2 i) ;;
  put_local i (mkLocal (value sp) (delta sp) (dn_scnum s) (dn_sclass s)).

(** The symbol [i]; false is the early return. *)
Definition process_symbol (i : Z) (s : doff_syment_t) : M W bool :=
  sname <- symbol_name s ;;
  put_class i s ;;;
  r <- resolve_symbol s sname ;;
  match r with
  | Sym_stop => ret false
  | Sym_local v d => put_local i (mkLocal (s32 v) d (dn_scnum s) (dn_sclass s)) ;;; ret true
  | Sym_posted v d =>
      st <- get ;;
      match sname with
      | Some nm => added <- call (Add_To_Symbol_Table nm (myhandle st) v) ;; ret tt
      | None => ret tt
      end ;;;
      put_local i (mkLocal (s32 v) d (dn_scnum s) (dn_sclass s)) ;;; ret true
  end.

Fixpoint process_symbols (i : Z) (ss : list doff_syment_t) : M W bool :=
  match ss with
  | [] => ret true
  | s :: ss => more <- process_symbol i s ;;
               if more : bool then process_symbols (i + 1) ss else ret false
  end.

(** The buffers of the outer loop, from the symbol [i]. *)
Fixpoint read_symbols (fuel : nat) (i symbols_left checks : Z) : M W unit :=
  match fuel with
  | O => fault
  | Datatypes.S f =>
      let syms_in_buf := Z.min symbols_left MY_SYM_BUF_SIZ in
      let siz := syms_in_buf * SYMENT_SIZE in
      r <- read_exactly siz ;;
      match r with
      | None => dload_error M_read
      | Some bs =>
          bs <- reorder_if siz bs ;;
          c <- lift (dload_checksum bs siz) ;;
          let checks := u32 (checks + c) in
          more <- process_symbols i (decode_array decode_syment 12 (Z.to_nat syms_in_buf) bs) ;;
          if more : bool then
            let symbols_left := symbols_left - syms_in_buf in
            if symbols_left >? 0 then read_symbols f (i + syms_in_buf) symbols_left checks
            else if not_all_ones checks then dload_error M_checksum else ret tt
          else ret tt
      end
  end.

Definition dload_symbols : M W unit :=
  st <- get ;;
  let s_count := df_no_syms (dfile_hdr st) in
  if s_count =? 0 then ret tt
  else
    let dsiz := u32 (DBG_HDR_SIZE + 8 * allocated_secn_count st + (debug_string_size st + 1)) in
    let siz := Z.max (s_count * LOCAL_SYMBOL_SIZE) dsiz in
    r <- call (Allocate siz) ;;
    match r with
    | None => dload_error M_alloc
    | Some (p, junk) =>
        modify (set_local_symtab (Some (p, decode_array decode_local 12 (Z.to_nat s_count) junk))) ;;;
        read_symbols (Z.to_nat s_count) 0 s_count (dv_sym_tab_checksum (verify st))
    end.

Definition symbol_table_free : M W unit :=
  st <- get ;;
  match local_symtab st with
  | Some (p, _) =>
      (if negb (dload_errcount st =? 0) then call_ (Purge_Symbol_Table (myhandle st)) else ret tt) ;;;
      call_ (Deallocate p)
  | None => ret tt
  end.

(** * [cload_cinit] *)

Definition CINIT_ALIGN : Z := 8.
Definition CINIT_COUNT : Z := 4.
Definition CINIT_ADDRESS : Z := 4.
Definition CINIT_DEFAULT_PAGE : Z := 0.

(** [loopexit]: left over bytes are bad. *)
Definition cinit_exit (left : Z) : M W unit :=
  if left >? 0 then dload_error M_cinit_left ;;; modify (set_cinit_state CI_done) else ret tt.

(** [case CI_count]: the number of bytes consumed, or the end of the loop. *)
Definition cinit_do_count (bits : list Z) (pktp left : Z) : M W (option Z) :=
  if left <? CINIT_COUNT then cinit_exit left ;;; ret None
  else
    temp <- lift (dload_unpack bits (Z.to_nat pktp) (CINIT_COUNT * 8) 0 ROP_SGN) ;;
    (if temp <=? 0 then modify (set_cinit_state CI_done)
     else modify (set_cinit_count temp) ;;; modify (set_cinit_state CI_address)) ;;;
    ret (Some CINIT_COUNT).

(** [case CI_address] *)
Definition cinit_do_address (bits : list Z) (pktp left : Z) : M W (option Z) :=
  if left <? CINIT_ADDRESS then cinit_exit left ;;; ret None
  else
    atmp <- lift (dload_unpack bits (Z.to_nat pktp) (CINIT_ADDRESS * 8) 0 ROP_UNS) ;;
    modify (set_cinit_page CINIT_DEFAULT_PAGE) ;;;
    modify (set_cinit_addr (u32 atmp)) ;;;
    modify (set_cinit_state CI_copy) ;;;
    ret (Some CINIT_ADDRESS).

(** [case CI_copy] *)
Definition cinit_do_copy (bits : list Z) (pktp left : Z) : M W (option Z) :=
  st <- get ;;
  let init_count := if left >? cinit_count st then cinit_count st else left in
  if init_count =? 0 then cinit_exit left ;;; ret None
  else if init_count <? 0 then fault (* writemem of a huge unsigned size *)
  else
    let cinit_info := mkSection CINITNAME 0 0 (2 ^ 32 - 1) (cinit_page st) DLOAD_BSS 0 in
    ok <- call (writemem (take (Z.to_nat init_count) (drop (Z.to_nat pktp) bits))
                  (cinit_addr st) cinit_info) ;;
    (if ok : bool then ret tt else dload_error M_init_write) ;;;
    let count := s32 (cinit_count st - init_count) in
    modify (set_cinit_count count) ;;;
    let init_count := if count <=? 0 then Z.land (init_count + CINIT_ALIGN - 1) (- CINIT_ALIGN)
                      else init_count in
    (if count <=? 0 then modify (set_cinit_state CI_count) else ret tt) ;;;
    modify (set_cinit_addr (u32 (cinit_addr st + init_count))) ;;;
    ret (Some init_count).

(** The loop over the records of the packet. *)
Fixpoint cinit_loop (fuel : nat) (bits : list Z) (pktend pktp : Z) : M W unit :=
  match fuel with
  | O => fault
  | Datatypes.S f =>
      st <- get ;;
      let left := pktend - pktp in
      let next c := n <- c ;; match n with Some n => cinit_loop f bits pktend (pktp + n) | None => ret tt end in
      match cinit_state st with
      | CI_count => next (cinit_do_count bits pktp left)
      | CI_address => next (cinit_do_address bits pktp left)
      | CI_copy => next (cinit_do_copy bits pktp left)
      | CI_done => ret tt
      end
  end.
Definition cload_cinit (bits : list Z) (i_packet_size : Z) : M W unit :=
  cinit_loop (length bits + 2) bits i_packet_size 0.

(** * [relocate_packet] *)

Definition MY_RELOC_BUF_SIZ : Z := 8.

(** The image and the checksum, or [None] when the stream is short. *)
Fixpoint relocate_buffers (fuel : nat) (rnum checks : Z) (data : list Z)
    : M W (option (list Z * Z)) :=
  match fuel with
  | O => fault
  | Datatypes.S f =>
      let rinbuf := Z.min rnum MY_RELOC_BUF_SIZ in
      let siz := rinbuf * RELOC_SIZE in
      r <- read_exactly siz ;;
      match r with
      | None => dload_error M_read ;;; ret None
      | Some bs =>
          bs <- reorder_if siz bs ;;
          c <- lift (dload_checksum bs siz) ;;
          let checks := u32 (checks + c) in
          data <- relocate_records (decode_array decode_reloc 12 (Z.to_nat rinbuf) bs) data ;;
          let rnum := rnum - rinbuf in
          if rnum >? 0 then relocate_buffers f rnum checks data else ret (Some (data, checks))
      end
  end.
Definition relocate_packet (i_num_relocs : Z) (data : list Z) (checks : Z) : M W (option (list Z * Z)) :=
  let rnum := u32 i_num_relocs in
  relocate_buffers (Z.to_nat rnum) rnum checks data.

(** * [dload_data] *)

Definition IPH_SIZE : Z := 12.
Definition DLOAD_INITBSS : Z := 1.
Definition dload_fill_bss : Z := 0.

(** Where the loop stands: the image offset, and whether .cinit was processed;
    [None] is the early return. *)
Definition data_step : Type := option (Z * bool).

(** Reading the bits of a packet into the buffer of [IMAGE_PACKET_SIZE] bytes;
    more bytes than it holds is a fault. *)
Definition read_packet_bits (ipsize : Z) : M W (option (list Z)) :=
  bs <- call (read_buffer (u32 ipsize)) ;;
  if Z.of_nat (length bs) >? IMAGE_PACKET_SIZE then fault
  else ret (if Z.of_nat (length bs) =? ipsize then Some bs else None).

(** Downloading the relocated packet. *)
Definition download_packet (sptr : doff_scnhdr_t) (lptr : LDR_SECTION_INFO) (image_offset : Z)
    (cinit_processed : bool) (bits : list Z) (packet_size : Z) : M W data_step :=
  (if DLOAD_SECT_TYPE sptr =? DLOAD_CINIT then cload_cinit bits packet_size
   else
     if u32 packet_size >? IMAGE_PACKET_SIZE then fault
     else
       ok <- call (writemem (take (Z.to_nat packet_size) bits) (u32 (load_addr lptr + image_offset)) lptr) ;;
       if ok : bool then ret tt else dload_error M_write) ;;;
  ret (Some (u32 (image_offset + packet_size),
             cinit_processed || (DLOAD_SECT_TYPE sptr =? DLOAD_CINIT))).

(** One image packet. Of an empty packet, the reordering touches only the
    unused buffer. *)
Definition load_packet (sptr : doff_scnhdr_t) (lptr : LDR_SECTION_INFO) (image_offset : Z)
    (cinit_processed : bool) : M W data_step :=
  r <- read_exactly IPH_SIZE ;;
  match r with
  | None => dload_error M_read ;;; ret None
  | Some hdr =>
      hdr <- reorder_if IPH_SIZE hdr ;;
      let i_num_relocs := i32_at hdr 0 in
      let i_packet_size := i32_at hdr 4 in
      let ipsize := s32 (DOFF_ALIGN (u32 i_packet_size)) in
      if ipsize >? IMAGE_PACKET_SIZE then dload_error M_packet_size ;;; ret None
      else
        b <- read_packet_bits ipsize ;;
        match b with
        | None => dload_error M_read ;;; ret None
        | Some bits =>
            bits <- (if ipsize =? 0 then ret bits else reorder_if ipsize bits) ;;
            c1 <- lift (dload_checksum bits ipsize) ;;
            c2 <- lift (dload_checksum hdr IPH_SIZE) ;;
            let checks := u32 (c1 + c2) in
            rel <- (if negb (i_num_relocs =? 0)
                    then modify (set_image_offset image_offset) ;;;
                         relocate_packet i_num_relocs bits checks
                    else ret (Some (bits, checks))) ;;
            match rel with
            | None => ret None (* serious error *)
            | Some (bits, checks) =>
                (if not_all_ones checks then dload_error M_checksum else ret tt) ;;;
                download_packet sptr lptr image_offset cinit_processed bits i_packet_size
            end
        end
  end.

(** [while ((nip -= 1) >= 0)] *)
Fixpoint load_packets (nip : nat) (sptr : doff_scnhdr_t) (lptr : LDR_SECTION_INFO)
    (image_offset : Z) (cinit_processed : bool) : M W data_step :=
  match nip with
  | O => ret (Some (image_offset, cinit_processed))
  | Datatypes.S n =>
      r <- load_packet sptr lptr image_offset cinit_processed ;;
      match r with
      | Some (image_offset, cinit_processed) => load_packets n sptr lptr image_offset cinit_processed
      | None => ret None
      end
  end.

(** Filling a BSS section with zeros. *)
Definition fill_bss (sptr : doff_scnhdr_t) (lptr : LDR_SECTION_INFO) (cinit_processed : bool) : M W unit :=
  st <- get ;;
  if (DLOAD_SECT_TYPE sptr =? DLOAD_BSS) && negb (Z.land (myoptions st) DLOAD_INITBSS =? 0) then
    if negb cinit_processed then
      ok <- call (fillmem (load_addr lptr) lptr (size lptr) dload_fill_bss) ;; ret tt
    else dload_error M_bss_after_cinit
  else ret tt.

(** The section [i]: its record in the handle when it was allocated, and
    otherwise the record of the file. *)
Definition load_section (i : nat) (cinit_processed : bool) : M W (option bool) :=
  st <- get ;;
  tbl <- lift (sect_hdrs st) ;;
  sptr <- lift (tbl.2 !! i) ;;
  let allocated := Z.of_nat i <? allocated_secn_count st in
  lptr <- (if allocated then lift (ldr_sections st !! i) else ret (as_ldrsec sptr)) ;;
  if DS_NEEDS_DOWNLOAD sptr then
    modify (set_delta_runaddr (if allocated then ds_paddr sptr else 0)) ;;;
    modify (set_image_secn lptr) ;;;
    r <- load_packets (Z.to_nat (ds_nipacks sptr)) sptr lptr 0 cinit_processed ;;
    match r with
    | None => ret None
    | Some (_, cinit_processed) => fill_bss sptr lptr cinit_processed ;;; ret (Some cinit_processed)
    end
  else fill_bss sptr lptr cinit_processed ;;; ret (Some cinit_processed).

Fixpoint load_sections (idx : list nat) (cinit_processed : bool) : M W unit :=
  match idx with
  | [] => ret tt
  | i :: idx =>
      r <- load_section i cinit_processed ;;
      match r with Some c => load_sections idx c | None => ret tt end
  end.
Definition dload_data : M W unit :=
  st <- get ;;
  load_sections (seq 0 (Z.to_nat (df_no_scns (dfile_hdr st)))) false.

End Load.

(** * The headers *)

Section Headers.
Context {W : Type} `{Env : DlEnv W}.

(** A file header that the loader accepts under the given options. *)
Definition header_valid (bs : list Z) (options : Z) : Prop :=
  length bs = 56%nat /\ bytes_ok bs /\
  le_at 4 bs 8 = BYTE_RESHUFFLE_VALUE /\
  dload_checksum bs FILEHDR_SIZE = Some (2 ^ 32 - 1) /\
  dload_checksum (drop 36 bs) VERIFY_SIZE = Some (2 ^ 32 - 1) /\
  header_error (decode_filehdr bs) options = None.

(** The state after an accepted header. *)
Definition after_headers (bs : list Z) (map : option Z) (st : dload_state) : dload_state :=
  let st := set_verify (decode_verify (drop 36 bs)) (set_dfile_hdr (decode_filehdr bs) st) in
  let st := match map with Some m => set_reorder_map m st | None => st end in
  set_big_e_target (negb (Z.land (df_flags (decode_filehdr bs)) DF_BIG =? 0)) st.

(** The four bytes at the word [p] of a stored file. *)
Lemma stored_word ms data stored n w :
  byte_perm ms -> stored_in ms data stored n -> (w < n)%nat -> (4 * n <= length data)%nat ->
  take 4 (drop (4 * w) stored) = (fun m => default 0 (data !! (4 * w + m)%nat)) <$> ms.
Proof.
  intros Hp (Hl & Hs & _) Hw Hn. apply list_eq. intros j. rewrite take_drop_lookup, list_lookup_fmap.
  destruct (ms !! j) as [k|] eqn:Ek; cbn [fmap option_fmap option_map].
  - destruct (byte_perm_lookup_lt ms j k Hp Ek). rewrite decide_True by lia.
    rewrite (Hs w j k Hw Ek). destruct (lookup_lt_is_Some_2 data (4 * w + k)) as [x Hx]; [lia|].
    by rewrite Hx.
  - apply lookup_ge_None in Ek. rewrite (Permutation_length Hp) in Ek. simpl in Ek.
    by rewrite decide_False by lia.
Qed.

Lemma le_value_4_inv bs :
  length bs = 4%nat -> bytes_ok bs -> le_value bs = BYTE_RESHUFFLE_VALUE -> bs = [3; 2; 1; 0].
Proof.
  intros Hl Hb E. rewrite <- (le_bytes_value bs), Hl, E by done. reflexivity.
Qed.

(** A file stored in the order [ms] has [reshuffle_field ms] in its header. *)
Lemma stored_reshuffle ms data stored :
  byte_perm ms -> stored_in ms data stored 14 -> length data = 56%nat -> bytes_ok data ->
  le_at 4 data 8 = BYTE_RESHUFFLE_VALUE ->
  get32 stored 8 = Some (reshuffle_field ms).
Proof.
  intros Hp Hs Hl Hb Hr. unfold get32. pose proof (proj1 Hs) as Hls. rewrite get_le_Some by lia. f_equal.
  unfold reshuffle_field. f_equal.
  change (drop 8 stored) with (drop (4 * 2) stored).
  rewrite (stored_word ms data stored 14 2) by (done || lia).
  assert (Hw : take 4 (drop 8 data) = [3; 2; 1; 0]).
  { apply le_value_4_inv; [rewrite length_take, length_drop; lia|by apply Forall_take, Forall_drop|done]. }
  apply list_fmap_ext. intros j k Hk. destruct (byte_perm_lookup_lt ms j k Hp Hk) as [_ Hk4].
  pose proof (take_drop_lookup data 8 4 k) as T. rewrite Hw, decide_True in T by done.
  change (4 * 2 + k)%nat with (8 + k)%nat. rewrite <- T.
  destruct k as [|[|[|[|k]]]]; [reflexivity..|lia].
Qed.

Lemma reorder_map_clean ms : byte_perm ms -> Z.land (REORDER_MAP (reshuffle_field ms)) 4244438268 = 0.
Proof.
  intros (m0 & m1 & m2 & m3 & -> & (? & ? & ? & ?) & _)%byte_perm_cases.
  destruct m0 as [|[|[|[|]]]]; try lia; destruct m1 as [|[|[|[|]]]]; try lia;
    destruct m2 as [|[|[|[|]]]]; try lia; destruct m3 as [|[|[|[|]]]]; try lia; reflexivity.
Qed.

Lemma reorder_map_id ms :
  byte_perm ms ->
  (REORDER_MAP (reshuffle_field ms) =? REORDER_MAP BYTE_RESHUFFLE_VALUE) = bool_decide (ms = [0; 1; 2; 3]%nat).
Proof.
  intros (m0 & m1 & m2 & m3 & -> & (? & ? & ? & ?) & _)%byte_perm_cases.
  destruct m0 as [|[|[|[|]]]]; try lia; destruct m1 as [|[|[|[|]]]]; try lia;
    destruct m2 as [|[|[|[|]]]]; try lia; destruct m3 as [|[|[|[|]]]]; try lia; reflexivity.
Qed.

Lemma stored_id data stored n :
  stored_in [0; 1; 2; 3]%nat data stored n -> (length data = 4 * n)%nat -> stored = data.
Proof.
  intros (Hl & Hs & _) Hn. apply list_eq. intros i. destruct (decide (i < 4 * n)%nat) as [Hi|Hi].
  - assert (Hj : (i mod 4 < 4)%nat) by (apply Nat.mod_upper_bound; lia).
    rewrite (Nat.div_mod_eq i 4). apply Hs; [apply Nat.Div0.div_lt_upper_bound; lia|].
    destruct (i mod 4)%nat as [|[|[|[|r]]]]; [reflexivity..|lia].
  - rewrite !lookup_ge_None_2 by lia. done.
Qed.

(** a module is accepted whatever the byte order it is stored in: if its
    header is valid, [dload_headers] reads it without an error, recovers the
    header and the verify record, and keeps in [reorder_map] the map that
    restores the rest of the file, or leaves it alone when nothing is shuffled. *)
Lemma dload_headers_accepts (ms : list nat) (data stored : list Z) (st : dload_state) (w w' : W) :
  byte_perm ms -> stored_in ms data stored 14 -> header_valid data (myoptions st) ->
  read_buffer COMBINED_HEADER_SIZE w = (stored, w') ->
  dload_headers st w =
  Some (tt, after_headers data
              (if bool_decide (ms = [0; 1; 2; 3]%nat) then None
               else Some (REORDER_MAP (reshuffle_field ms))) st, w').
Proof.
  intros Hp Hs (Hl & Hb & Hr & Hc1 & Hc2 & Herr) Hread.
  unfold dload_headers, read_exactly. unfold bind at 1. unfold bind at 1. unfold call at 1. rewrite Hread.
  rewrite (proj1 Hs), Hl. change (Z.of_nat 56 =? COMBINED_HEADER_SIZE) with true. unfold ret at 1.
  rewrite bind_lift, (stored_reshuffle ms data stored) by done.
  rewrite reorder_map_id, reorder_map_clean by done. change (0 =? 0) with true. rewrite andb_true_r.
  assert (Hdata : (if negb (bool_decide (ms = [0; 1; 2; 3]%nat))
    then lift (W := W) (dload_reorder stored COMBINED_HEADER_SIZE (REORDER_MAP (reshuffle_field ms)))
    else ret stored) st w' = Some (data, st, w')).
  { case_bool_decide as E; cbn [negb].
    - subst ms. rewrite (stored_id data stored 14) by done. done.
    - unfold lift. change COMBINED_HEADER_SIZE with (4 * Z.of_nat 14).
      rewrite (dload_reorder_restores_spec ms data stored 14) by (done || lia). done. }
  unfold bind at 1. rewrite Hdata. unfold bind at 1. unfold modify at 1. unfold bind at 1. unfold modify at 1.
  rewrite Hr, Z.eqb_refl. cbn [negb]. rewrite andb_false_r.
  assert (Hrest : forall st1, myoptions st1 = myoptions st -> dfile_hdr st1 = decode_filehdr data ->
    (c1 <- lift (dload_checksum data FILEHDR_SIZE);;
     c2 <- lift (dload_checksum (drop 36 data) VERIFY_SIZE);;
     (if not_all_ones c1 || not_all_ones c2 then dload_error M_checksum
      else st <- get;;
           match header_error (dfile_hdr st) (myoptions st) with
           | Some msg => dload_error msg
           | None => modify (set_big_e_target (negb (Z.land (df_flags (dfile_hdr st)) DF_BIG =? 0)))
           end)) st1 w' =
    Some (tt, set_big_e_target (negb (Z.land (df_flags (decode_filehdr data)) DF_BIG =? 0)) st1, w')).
  { intros st1 Ho Hh. rewrite bind_lift, Hc1. rewrite bind_lift, Hc2.
    change (not_all_ones (2 ^ 32 - 1)) with false. cbn [orb]. unfold bind at 1, get.
    rewrite Hh, Ho, Herr. done. }
  unfold bind at 1. case_bool_decide; cbn [negb]; [unfold ret at 1|unfold modify at 1];
    rewrite Hrest; done.
Qed.

Lemma u32_succ_ne e : u32 (e + 1) <> e.
Proof.
  unfold uwrap. intros E. pose proof (Z.mod_pos_bound (e + 1) (2 ^ 32) ltac:(lia)).
  pose proof (Z.div_mod (e + 1) (2 ^ 32) ltac:(lia)). rewrite E in *. lia.
Qed.

Lemma error_counted msg st (w : W) x st' w' :
  dload_error msg st w = Some (x, st', w') -> dload_errcount st' <> dload_errcount st.
Proof.
  unfold dload_error. unfold bind, call_, modify. intros [= _ <- _]. simpl. apply u32_succ_ne.
Qed.
Lemma put_le_length k m p v m' : put_le k m p v = Some m' -> length m' = length m.
Proof.
  unfold put_le. destruct (Nat.leb_spec (p + k) (length m)) as [Hle|]; [|done]. intros [= <-].
  rewrite !length_app, length_take, le_bytes_length, length_drop. lia.
Qed.

Lemma dload_reorder_length data siz map data' :
  dload_reorder data siz map = Some data' -> length data' = length data.
Proof.
  unfold dload_reorder.
  generalize (Datatypes.S (Z.to_nat siz)) as fuel, 0%nat as dp, (u32 (Z.shiftl map 3)) as mp.
  intros fuel. revert data siz. induction fuel as [|fuel IH]; intros data siz dp mp E; [done|].
  cbn [dload_reorder_from] in E. destruct (get32 data dp) as [v|]; [|done].
  destruct (reorder_word 4 v mp 0) as [t|]; [|done].
  destruct (put_le 4 data dp t) as [d1|] eqn:Ed; [|done]. apply put_le_length in Ed.
  destruct (siz - 4 >? 0); [|by simplify_eq]. apply IH in E. lia.
Qed.

(** The tail of [dload_headers]: without an error the checks hold. *)
Lemma header_checks_sound (bs : list Z) (st st' : dload_state) (w w' : W) x :
  (c1 <- lift (dload_checksum bs FILEHDR_SIZE);;
   c2 <- lift (dload_checksum (drop 36 bs) VERIFY_SIZE);;
   (if not_all_ones c1 || not_all_ones c2 then dload_error M_checksum
    else st <- get;;
         match header_error (dfile_hdr st) (myoptions st) with
         | Some msg => dload_error msg
         | None => modify (set_big_e_target (negb (Z.land (df_flags (dfile_hdr st)) DF_BIG =? 0)))
         end)) st w = Some (x, st', w') ->
  dload_errcount st' = dload_errcount st ->
  dfile_hdr st' = dfile_hdr st /\ verify st' = verify st /\
  dload_checksum bs FILEHDR_SIZE = Some (2 ^ 32 - 1) /\
  dload_checksum (drop 36 bs) VERIFY_SIZE = Some (2 ^ 32 - 1) /\
  header_error (dfile_hdr st) (myoptions st) = None.
Proof.
  rewrite bind_lift. destruct (dload_checksum bs FILEHDR_SIZE) as [c1|]; [|done].
  rewrite bind_lift. destruct (dload_checksum (drop 36 bs) VERIFY_SIZE) as [c2|]; [|done].
  destruct (not_all_ones c1 || not_all_ones c2) eqn:Ec.
  { intros E He. by apply error_counted in E. }
  apply orb_false_iff in Ec as [E1 E2]. unfold not_all_ones in E1, E2.
  apply negb_false_iff, Z.eqb_eq in E1, E2. subst c1 c2. unfold bind at 1, get.
  destruct (header_error (dfile_hdr st) (myoptions st)) as [msg|] eqn:Eh.
  { intros E He. by apply error_counted in E. }
  intros [= _ <- _] _. done.
Qed.

(** what an accepted header guarantees to the rest of the loader: if
    [dload_headers] reports no error, its header and verify record were read
    in full, have the right checksums and byte order, name a C6x or ARM module
    of version 0, and bound the string table and the number of sections. *)
Lemma dload_headers_sound (st st' : dload_state) (w w' : W) (x : unit) :
  dload_headers st w = Some (x, st', w') -> dload_errcount st' = dload_errcount st ->
  exists bs, length bs = 56%nat /\ dfile_hdr st' = decode_filehdr bs /\
    verify st' = decode_verify (drop 36 bs) /\ le_at 4 bs 8 = BYTE_RESHUFFLE_VALUE /\
    dload_checksum bs FILEHDR_SIZE = Some (2 ^ 32 - 1) /\
    dload_checksum (drop 36 bs) VERIFY_SIZE = Some (2 ^ 32 - 1) /\
    (df_target_id (dfile_hdr st') = TARGET_ID \/ df_target_id (dfile_hdr st') = TMS470_ID) /\
    df_doff_version (dfile_hdr st') = DOFF0 /\
    df_strtab_size (dfile_hdr st') <= MAX_REASONABLE_STRINGTAB /\
    df_no_scns (dfile_hdr st') <= MAX_REASONABLE_SECTIONS.
Proof.
  intros E He. unfold dload_headers, read_exactly in E. unfold bind at 1 2 in E. unfold call at 1 in E.
  destruct (read_buffer COMBINED_HEADER_SIZE w) as [bs0 w1]. unfold ret at 1 in E.
  destruct (Z.eqb_spec (Z.of_nat (length bs0)) COMBINED_HEADER_SIZE) as [Hl|Hl].
  2: { by apply error_counted in E. }
  assert (Hl0 : length bs0 = 56%nat) by (change COMBINED_HEADER_SIZE with 56 in Hl; lia).
  rewrite bind_lift in E. destruct (get32 bs0 8) as [raw|] eqn:Eraw; [|done].
  unfold get32 in Eraw. rewrite get_le_Some in Eraw by lia. injection Eraw as Eraw.
  set (map := REORDER_MAP raw) in *.
  set (sh := negb (map =? REORDER_MAP BYTE_RESHUFFLE_VALUE)) in *.
  unfold bind at 1 in E.
  destruct ((if sh && (Z.land map 4244438268 =? 0) then lift (dload_reorder bs0 COMBINED_HEADER_SIZE map)
             else ret bs0) st w1) as [[[bs st1] w2]|] eqn:Eb; [|done].
  assert (Hb : length bs = 56%nat /\ st1 = st /\ (sh = false -> bs = bs0)).
  { destruct (sh && _) eqn:Es.
    - unfold lift in Eb. destruct (dload_reorder bs0 _ map) as [d|] eqn:Ed; [|done].
      apply dload_reorder_length in Ed. simplify_eq. rewrite Ed. split; [done|]. split; [done|].
      intros ->. done.
    - unfold ret in Eb. simplify_eq. done. }
  destruct Hb as (Hlb & -> & Hsame). unfold bind at 1 in E. unfold modify at 1 in E.
  unfold bind at 1 in E. unfold modify at 1 in E.
  assert (Hbrv : sh = false -> le_at 4 bs 8 = BYTE_RESHUFFLE_VALUE).
  { intros Hs. rewrite (Hsame Hs). unfold le_at. rewrite Eraw.
    unfold sh in Hs. apply negb_false_iff, Z.eqb_eq in Hs. unfold map, REORDER_MAP in Hs.
    apply (f_equal (fun x => Z.lxor x 50529027)) in Hs.
    by rewrite !Z.lxor_assoc, Z.lxor_nilpotent, !Z.lxor_0_r in Hs. }
  destruct (sh && negb (le_at 4 bs 8 =? BYTE_RESHUFFLE_VALUE)) eqn:Esw.
  { by apply error_counted in E. }
  assert (Hr : le_at 4 bs 8 = BYTE_RESHUFFLE_VALUE).
  { destruct sh; [|by apply Hbrv]. by apply negb_false_iff, Z.eqb_eq in Esw. }
  unfold bind at 1 in E.
  assert (Hmod : exists st2, (if sh then modify (set_reorder_map map) else ret tt)
      (set_verify (decode_verify (drop 36 bs)) (set_dfile_hdr (decode_filehdr bs) st)) w2
      = Some (tt, st2, w2) /\ dfile_hdr st2 = decode_filehdr bs /\
      verify st2 = decode_verify (drop 36 bs) /\ dload_errcount st2 = dload_errcount st).
  { destruct sh; eexists; done. }
  destruct Hmod as (st2 & Em & Hh & Hv & Hc). rewrite Em in E.
  apply header_checks_sound in E as (Hh' & Hv' & Hc1 & Hc2 & Herr); [|lia].
  rewrite Hh in Hh', Herr. rewrite Hv in Hv'. exists bs. rewrite Hh'.
  do 6 (split; [done|]). unfold header_error in Herr.
  destruct (Z.eqb_spec (df_target_id (decode_filehdr bs)) TARGET_ID),
    (Z.eqb_spec (df_target_id (decode_filehdr bs)) TMS470_ID); cbn [negb andb] in Herr; try done;
    (destruct (Z.eqb_spec (df_doff_version (decode_filehdr bs)) DOFF0); [|done]);
    cbn [negb] in Herr;
    (destruct (Z.gtb_spec (df_strtab_size (decode_filehdr bs)) MAX_REASONABLE_STRINGTAB); [done|]);
    (destruct (Z.gtb_spec (df_no_scns (decode_filehdr bs)) MAX_REASONABLE_SECTIONS); [done|]);
    naive_solver.
Qed.
End Headers.

(** A valid header of an empty module, and the same in big-endian words. *)
Definition sample_header : list Z :=
  [0;0;0;0; 0;0;0;0; 3;2;1;0; 0;0;0;0; 0;0;0;0; 0;0;0;0; 0;0;153;0; 0;1;0;0; 252;252;101;255]
  ++ replicate 16 0 ++ [255; 255; 255; 255].
Fixpoint swap_words_of (n : nat) (bs : list Z) : list Z :=
  match n with O => [] | Datatypes.S n' => rev (take 4 bs) ++ swap_words_of n' (drop 4 bs) end.

Lemma dload_headers_accepts_witness :
  exists st', dload_headers zero_state (empty_world (swap_words_of 14 sample_header ++ [1; 2; 3; 4])) =
    Some (tt, st', empty_world [1; 2; 3; 4]) /\
    reorder_map st' = 66051 /\ df_target_id (dfile_hdr st') = 153 /\ dload_errcount st' = 0.
Proof.
  eexists. split.
  - apply (dload_headers_accepts [3; 2; 1; 0]%nat sample_header (swap_words_of 14 sample_header)).
    + apply Permutation_rev.
    + split; [reflexivity|]. split.
      * intros w j k Hw Hk. do 14 (destruct w as [|w];
          [destruct j as [|[|[|[|j]]]]; simplify_eq/=; reflexivity|]). lia.
      * intros i Hi. rewrite !lookup_ge_None_2; [reflexivity|exact Hi|exact Hi].
    + split; [reflexivity|]. split; [repeat constructor; discriminate|].
      split; [reflexivity|]. split; [reflexivity|]. split; reflexivity.
    + reflexivity.
  - split; [vm_compute; reflexivity|]. split; reflexivity.
Defined.

Lemma dload_headers_sound_witness :
  exists st', dload_headers zero_state (empty_world sample_header) = Some (tt, st', empty_world []) /\
    df_no_scns (dfile_hdr st') <= MAX_REASONABLE_SECTIONS.
Proof.
  assert (E : exists st', dload_headers zero_state (empty_world sample_header) =
                Some (tt, st', empty_world []) /\ dload_errcount st' = 0).
  { eexists. split; [vm_compute; reflexivity|reflexivity]. }
  destruct E as (st' & E & He). exists st'. split; [exact E|].
  destruct (dload_headers_sound zero_state st' _ _ tt E He) as (bs & _ & _ & _ & _ & _ & _ & _ & _ & _ & H).
  exact H.
Defined.

(** * The size of an image packet *)

Lemma DOFF_ALIGN_testbit x k :
  0 <= k -> Z.testbit (DOFF_ALIGN x) k = (2 <=? k) && (k <? 32) && Z.testbit (x + 3) k.
Proof.
  intros Hk. unfold DOFF_ALIGN. rewrite Z.land_spec, uwrap_testbit by lia.
  change 4294967292 with (Z.shiftl (Z.ones 30) 2). rewrite Z.shiftl_spec by lia.
  destruct (Z.leb_spec 2 k).
  - rewrite ones_testbit by lia. destruct (Z.ltb_spec (k - 2) 30), (Z.ltb_spec k 32); try lia;
      by rewrite ?andb_true_r, ?andb_false_r.
  - rewrite (Z.testbit_neg_r (Z.ones 30)) by lia. by rewrite andb_false_r.
Qed.

(** The size of a packet that passes the check of the code may be negative. *)
Lemma DOFF_ALIGN_negative s :
  - 2 ^ 31 <= s <= -4 -> s32 (DOFF_ALIGN (u32 s)) < 0.
Proof.
  intros Hs. assert (Ht : Z.testbit (DOFF_ALIGN (u32 s)) 31 = true).
  { rewrite DOFF_ALIGN_testbit by lia. cbn [Z.leb Z.ltb Z.compare Pos.compare Pos.compare_cont andb].
    rewrite u32_neg by lia. rewrite Z.testbit_true by lia.
    replace ((s + 2 ^ 32 + 3) / 2 ^ 31) with 1; [done|].
    apply Z.div_unique with (s + 3 + 2 ^ 31); lia. }
  pose proof (swrap_testbit 32 (DOFF_ALIGN (u32 s)) 31 ltac:(lia) ltac:(lia)) as Hb.
  change (Z.min 31 (32 - 1)) with 31 in Hb. rewrite Ht in Hb.
  pose proof (swrap_range 32 (DOFF_ALIGN (u32 s)) ltac:(lia)) as R.
  destruct (Z.lt_ge_cases (s32 (DOFF_ALIGN (u32 s))) 0) as [|Hge]; [done|exfalso].
  destruct (decide (s32 (DOFF_ALIGN (u32 s)) = 0)) as [E|E]; [by rewrite E in Hb|].
  rewrite Z.bits_above_log2 in Hb; [done|lia|]. apply Z.log2_lt_pow2; [lia|].
  exact (proj2 R).
Qed.

Section Packets.
Context {W : Type} `{Env : DlEnv W}.

(** the check of the packet size compares it as a signed number: a
    negative size passes it, and the loader then asks the stream for nearly
    4 GB; if the file goes on for more than 1024 bytes, they overrun the
    buffer of the packet. *)
Theorem packet_size_overrun (sptr : doff_scnhdr_t) (lptr : LDR_SECTION_INFO) (off : Z) (c : bool)
    (st : dload_state) (w w1 w2 : W) (hdr bits : list Z) :
  reorder_map st = 0 -> read_buffer IPH_SIZE w = (hdr, w1) -> length hdr = 12%nat ->
  - 2 ^ 31 <= i32_at hdr 4 <= -4 ->
  read_buffer (u32 (s32 (DOFF_ALIGN (u32 (i32_at hdr 4))))) w1 = (bits, w2) ->
  (1024 < length bits)%nat ->
  2 ^ 31 <= u32 (s32 (DOFF_ALIGN (u32 (i32_at hdr 4)))) /\
  load_packet sptr lptr off c st w = None.
Proof.
  intros Hm Hr1 Hl Hs Hr2 Hbits. pose proof (DOFF_ALIGN_negative _ Hs) as Hneg.
  pose proof (swrap_range 32 (DOFF_ALIGN (u32 (i32_at hdr 4))) ltac:(lia)) as R. split.
  { rewrite u32_neg by (change (32 - 1) with 31 in R; lia). change (32 - 1) with 31 in R. lia. }
  unfold load_packet, read_exactly. unfold bind at 1 2. unfold call at 1. rewrite Hr1, Hl.
  change (Z.of_nat 12 =? IPH_SIZE) with true. unfold ret at 1.
  unfold reorder_if at 1. unfold bind at 1 2. unfold get at 1. rewrite Hm. cbn [negb Z.eqb].
  unfold ret at 1. rewrite Z.gtb_ltb, (proj2 (Z.ltb_ge IMAGE_PACKET_SIZE _)) by (unfold IMAGE_PACKET_SIZE; lia).
  unfold read_packet_bits. unfold bind at 1 2. unfold call at 1. rewrite Hr2.
  rewrite Z.gtb_ltb, (proj2 (Z.ltb_lt IMAGE_PACKET_SIZE _)) by (unfold IMAGE_PACKET_SIZE; lia). done.
Qed.
End Packets.

Lemma packet_size_overrun_witness :
  load_packet (mkScnhdr zero_section 1) zero_section 0 false zero_state
    (empty_world ([0;0;0;0; 248;255;255;255; 0;0;0;0] ++ replicate 1025 7)) = None.
Proof.
  eapply (packet_size_overrun (mkScnhdr zero_section 1) zero_section 0 false zero_state).
  - reflexivity.
  - reflexivity.
  - reflexivity.
  - vm_compute. split; discriminate.
  - reflexivity.
  - rewrite length_take.
    change (u32 (s32 (DOFF_ALIGN (u32 (i32_at (take (Z.to_nat IPH_SIZE)
      (w_file (empty_world ([0;0;0;0; 248;255;255;255; 0;0;0;0] ++ replicate 1025 7)))) 4)))))
      with 4294967288.
    change (length _) with 1025%nat. lia.
Defined.
