(* ===== verification/DlCinit.v ===== *)
(** The .cinit interpreter of the dynamic loader ([cload_cinit] of
    src/dspbridge/dynreg/cload.c): a table of initialization records that
    reaches it in packets is written to the target, record by record, wherever
    the packets are cut at multiples of eight bytes. *)

From Stdlib Require Import ZArith Lia ZifyNat String.
From stdpp Require Import base list list_numbers option tactics.
From S2P Require Import Prelude DlWords DlField DlState DlReloc DlLoad.

(** * Targets with a memory *)

(** A target whose memory holds what was written to it. *)
Class TargetMem (W : Type) `{Env : DlEnv W} := {
  mem : W -> Z -> option Z;
  writemem_ok bs l s w : exists w', writemem bs l s w = (true, w') /\
    forall a, mem w' a =
      if (l <=? a) && (a <? l + Z.of_nat (length bs)) then bs !! Z.to_nat (a - l) else mem w a
}.

(** The memory of the simple target: the last write to an address. *)
Definition op_mem (m : Z -> option Z) (o : target_op) : Z -> option Z :=
  match o with
  | T_write l bs => fun a =>
      if (l <=? a) && (a <? l + Z.of_nat (length bs)) then bs !! Z.to_nat (a - l) else m a
  | _ => m
  end.
#[export, refine] Instance sample_mem : TargetMem sample_world := {|
  mem w := foldl op_mem (fun _ => None) (w_ops w)
|}.
Proof.
  intros bs l s w. eexists. split; [reflexivity|]. intros a. cbn [w_ops w_op].
  by rewrite foldl_app.
Defined.

(** * The table *)

(** A record: the address and the bytes to write there. *)
Definition init_rec : Type := Z * list Z.
Definition rec_ok (r : init_rec) : Prop :=
  0 <= r.1 /\ r.1 + Z.of_nat (length r.2) <= 2 ^ 32 /\ (0 < length r.2)%nat /\
  Z.of_nat (length r.2) < 2 ^ 31 /\ bytes_ok r.2.

(** Padding to a multiple of eight bytes. *)
Definition pad8 (n : nat) : list Z := replicate (Z.to_nat (- Z.of_nat n mod 8)) 0.
Definition encode_rec (r : init_rec) : list Z :=
  le_bytes 4 (Z.of_nat (length r.2)) ++ le_bytes 4 r.1 ++ r.2 ++ pad8 (length r.2).
(** The records, the zero count that ends them, and what follows it. *)
Definition encode_table (rs : list init_rec) (tail : list Z) : list Z :=
  concat (encode_rec <$> rs) ++ le_bytes 4 0 ++ tail.

(** Memory after a record is written. *)
Definition write_rec (m : Z -> option Z) (r : init_rec) : Z -> option Z := fun a =>
  if (r.1 <=? a) && (a <? r.1 + Z.of_nat (length r.2)) then r.2 !! Z.to_nat (a - r.1) else m a.
Definition write_recs (rs : list init_rec) (m : Z -> option Z) : Z -> option Z := foldl write_rec m rs.

Lemma write_recs_ext rs m m' :
  (forall a, m a = m' a) -> forall a, write_recs rs m a = write_recs rs m' a.
Proof.
  revert m m'. induction rs as [|r rs IH]; intros m m' H a; [apply H|].
  apply IH. intros b. unfold write_rec. by rewrite H.
Qed.

(** A record written in two pieces. *)
Lemma write_rec_split m a d n x :
  (n <= length d)%nat ->
  write_rec (write_rec m (a, take n d)) (a + Z.of_nat n, drop n d) x = write_rec m (a, d) x.
Proof.
  intros Hn. unfold write_rec. cbn [fst snd]. rewrite length_take, length_drop, Nat.min_l by done.
  destruct (Z.leb_spec (a + Z.of_nat n) x), (Z.ltb_spec x (a + Z.of_nat n + Z.of_nat (length d - n))),
    (Z.leb_spec a x), (Z.ltb_spec x (a + Z.of_nat n)), (Z.ltb_spec x (a + Z.of_nat (length d)));
    cbn [andb]; try lia; try done.
  - rewrite lookup_drop. f_equal. lia.
  - apply lookup_take_lt. lia.
Qed.

(** * Reading a word of the packet *)

Lemma mem_bit_take m p k n :
  0 <= n < 8 * Z.of_nat k -> mem_bit (take k (drop p m)) 0 n = mem_bit m p n.
Proof.
  intros Hn. unfold mem_bit. rewrite take_drop_lookup, decide_True; [done|].
  apply Nat2Z.inj_lt. rewrite Nat.add_0_l, Z2Nat.id by (apply Z.div_pos; lia).
  apply Z.div_lt_upper_bound; lia.
Qed.

Lemma unpack_word m p sgn :
  bytes_ok m -> (p + 4 <= length m)%nat ->
  dload_unpack m p 32 0 sgn = Some (s32 (le_value (take 4 (drop p m)))).
Proof.
  intros Hm Hp. destruct (dload_unpack_spec m p 32 0 sgn Hm ltac:(lia) ltac:(lia) ltac:(lia))
    as (v & E & Hv & Hb). rewrite E. f_equal. apply Z.bits_inj'. intros k Hk.
  assert (Hbo : bytes_ok (take 4 (drop p m))) by (by apply Forall_take, Forall_drop).
  rewrite swrap_testbit, le_value_testbit, mem_bit_take, Hb by (done || lia).
  unfold field_bit. destruct (Z.ltb_spec k 32).
  - rewrite Z.min_l by lia. f_equal; lia.
  - rewrite Z.min_r by lia. by destruct (sgn =? ROP_UNS).
Qed.

(** * The interpreter *)

Section Cinit.
Context {W : Type} `{Env : DlEnv W} `{Mem : !TargetMem W}.

(** What is left to do: the rest of the record being copied, and the records
    that follow. *)
Record pending := mkPending { p_rec : option init_rec; p_recs : list init_rec }.
Definition pending_recs (p : pending) : list init_rec :=
  match p_rec p with Some r => r :: p_recs p | None => p_recs p end.
Definition pending_ok (p : pending) : Prop := Forall rec_ok (pending_recs p).
(** The bytes that are still to come. *)
Definition pending_bytes (p : pending) (tail : list Z) : list Z :=
  match p_rec p with Some r => r.2 ++ pad8 (length r.2) | None => [] end
  ++ encode_table (p_recs p) tail.
Definition pending_state (p : pending) (st : dload_state) : Prop :=
  match p_rec p with
  | Some r => cinit_state st = CI_copy /\ cinit_count st = Z.of_nat (length r.2) /\ cinit_addr st = r.1
  | None => cinit_state st = CI_count
  end.

(** The outcome of a packet: the table goes on, or it is done. *)
Definition cinit_outcome (p : pending) (tail rest : list Z) (st : dload_state) (w : W)
    (st' : dload_state) (w' : W) : Prop :=
  dload_errcount st' = dload_errcount st /\
  ((cinit_state st' = CI_done /\
    forall a, mem w' a = write_recs (pending_recs p) (mem w) a) \/
   exists p', rest = pending_bytes p' tail /\ pending_state p' st' /\ pending_ok p' /\
     forall a, write_recs (pending_recs p') (mem w') a = write_recs (pending_recs p) (mem w) a).

Lemma pad8_length n : Z.of_nat n + Z.of_nat (length (pad8 n)) = 8 * ((Z.of_nat n + 7) / 8).
Proof.
  unfold pad8. rewrite length_replicate, Z2Nat.id by (apply Z.mod_pos_bound; lia).
  Z.div_mod_to_equations. lia.
Qed.

Lemma round8 n : Z.land (n + CINIT_ALIGN - 1) (- CINIT_ALIGN) = 8 * ((n + 7) / 8).
Proof.
  unfold CINIT_ALIGN. replace (n + 8 - 1) with (n + 7) by lia.
  change (Z.land (n + 7) (Z.opp 8)) with (Z.land (n + 7) (Z.lnot (Z.ones 3))). rewrite <- Z.ldiff_land, Z.ldiff_ones_r by lia.
  rewrite Z.shiftl_mul_pow2, Z.shiftr_div_pow2 by lia. change (2 ^ 3) with 8. lia.
Qed.

(** A word at the position [k] of the packet. *)
Lemma word_at bits k v rest' (rest : list Z) sgn :
  bytes_ok bits -> drop k bits ++ rest = le_bytes 4 v ++ rest' -> (k + 4 <= length bits)%nat ->
  0 <= v < 2 ^ 32 ->
  dload_unpack bits k 32 0 sgn = Some (s32 v) /\ drop (k + 4) bits ++ rest = rest'.
Proof.
  intros Hb E Hk Hv.
  assert (Ht : take 4 (drop k bits) = le_bytes 4 v).
  { apply (f_equal (take 4)) in E. rewrite !take_app, le_bytes_length, length_drop in E.
    replace (4 - (length bits - k))%nat with 0%nat in E by lia.
    change (4 - 4)%nat with 0%nat in E. rewrite !take_0, !List.app_nil_r in E.
    rewrite (take_ge (le_bytes 4 v)) in E by (rewrite le_bytes_length; lia). exact E. }
  split.
  - rewrite unpack_word, Ht, le_value_bytes by (done || lia). done.
  - apply (f_equal (drop 4)) in E. rewrite !drop_app, le_bytes_length, length_drop, drop_drop in E.
    replace (4 - (length bits - k))%nat with 0%nat in E by lia.
    change (4 - 4)%nat with 0%nat in E. rewrite !drop_0 in E.
    rewrite (drop_ge (le_bytes 4 v)) in E by (rewrite le_bytes_length; lia). exact E.
Qed.

Lemma cinit_loop_step fuel bits pktend pktp st (w : W) c n st' w' :
  (match cinit_state st with
   | CI_count => cinit_do_count bits pktp (pktend - pktp)
   | CI_address => cinit_do_address bits pktp (pktend - pktp)
   | CI_copy => cinit_do_copy bits pktp (pktend - pktp)
   | CI_done => fault
   end) = c -> c st w = Some (Some n, st', w') ->
  cinit_loop (Datatypes.S fuel) bits pktend pktp st w = cinit_loop fuel bits pktend (pktp + n) st' w'.
Proof.
  intros <- E. cbn [cinit_loop]. unfold bind at 1, get.
  destruct (cinit_state st); [unfold bind; rewrite E; done..|done].
Qed.

(** The count and the address of a record. *)
Lemma cinit_header fuel bits k st (w : W) a d rest rest' :
  bytes_ok bits -> cinit_state st = CI_count -> (k + 8 <= length bits)%nat ->
  rec_ok (a, d) ->
  drop k bits ++ rest = le_bytes 4 (Z.of_nat (length d)) ++ le_bytes 4 a ++ rest' ->
  exists st', cinit_loop (Datatypes.S (Datatypes.S fuel)) bits (Z.of_nat (length bits)) (Z.of_nat k) st w =
      cinit_loop fuel bits (Z.of_nat (length bits)) (Z.of_nat (k + 8)) st' w /\
    drop (k + 8) bits ++ rest = rest' /\ dload_errcount st' = dload_errcount st /\
    cinit_state st' = CI_copy /\ cinit_count st' = Z.of_nat (length d) /\ cinit_addr st' = a.
Proof.
  intros Hb Hst Hk (Ha & Hal & Hd & Hdl & _) E. cbn [fst snd] in *.
  destruct (word_at bits k (Z.of_nat (length d)) _ rest ROP_SGN Hb E ltac:(lia) ltac:(lia)) as [E1 E'].
  destruct (word_at bits (k + 4) a _ rest ROP_UNS Hb E' ltac:(lia) ltac:(lia)) as [E2 E''].
  replace (k + 4 + 4)%nat with (k + 8)%nat in E'' by lia.
  set (st1 := set_cinit_state CI_address (set_cinit_count (Z.of_nat (length d)) st)).
  set (st2 := set_cinit_state CI_copy (set_cinit_addr a (set_cinit_page 0 st1))).
  exists st2. split; [|done].
  rewrite (cinit_loop_step _ bits _ _ st w (cinit_do_count bits (Z.of_nat k)
             (Z.of_nat (length bits) - Z.of_nat k)) CINIT_COUNT st1 w).
  - rewrite (cinit_loop_step _ bits _ _ st1 w (cinit_do_address bits (Z.of_nat k + CINIT_COUNT)
             (Z.of_nat (length bits) - (Z.of_nat k + CINIT_COUNT))) CINIT_ADDRESS st2 w).
    + f_equal. unfold CINIT_COUNT, CINIT_ADDRESS. lia.
    + done.
    + unfold cinit_do_address. rewrite (proj2 (Z.ltb_ge _ _)) by (unfold CINIT_ADDRESS, CINIT_COUNT; lia).
      rewrite bind_lift. change (CINIT_ADDRESS * 8) with 32.
      replace (Z.to_nat (Z.of_nat k + CINIT_COUNT)) with (k + 4)%nat by (unfold CINIT_COUNT; lia).
      rewrite E2. unfold bind, modify, ret. unfold st2. do 4 f_equal.
      assert (Eu : u32 (s32 a) = a) by (rewrite swrap_cong, uwrap_small by lia; done).
      by rewrite Eu.
  - by rewrite Hst.
  - unfold cinit_do_count. rewrite (proj2 (Z.ltb_ge _ _)) by (unfold CINIT_COUNT; lia).
    rewrite bind_lift. change (CINIT_COUNT * 8) with 32. rewrite Nat2Z.id, E1.
    rewrite (swrap_small 32) by lia. rewrite (proj2 (Z.leb_gt _ _)) by lia. done.
Qed.

(** The end of the table. *)
Lemma cinit_end fuel bits k st (w : W) rest rest' :
  bytes_ok bits -> cinit_state st = CI_count -> (k + 4 <= length bits)%nat ->
  drop k bits ++ rest = le_bytes 4 0 ++ rest' ->
  exists st', cinit_loop (Datatypes.S (Datatypes.S fuel)) bits (Z.of_nat (length bits)) (Z.of_nat k) st w =
      Some (tt, st', w) /\ cinit_state st' = CI_done /\ dload_errcount st' = dload_errcount st.
Proof.
  intros Hb Hst Hk E.
  destruct (word_at bits k 0 _ rest ROP_SGN Hb E ltac:(lia) ltac:(lia)) as [E1 _].
  exists (set_cinit_state CI_done st). split; [|done].
  rewrite (cinit_loop_step _ bits _ _ st w (cinit_do_count bits (Z.of_nat k)
             (Z.of_nat (length bits) - Z.of_nat k)) CINIT_COUNT (set_cinit_state CI_done st) w).
  - reflexivity.
  - by rewrite Hst.
  - unfold cinit_do_count. rewrite (proj2 (Z.ltb_ge _ _)) by (unfold CINIT_COUNT; lia).
    rewrite bind_lift. change (CINIT_COUNT * 8) with 32. rewrite Nat2Z.id, E1. done.
Qed.

(** Copying: as much of the record as the packet holds. *)
Lemma cinit_copy fuel bits k st (w : W) a d rest rest' :
  cinit_state st = CI_copy -> cinit_count st = Z.of_nat (length d) -> cinit_addr st = a ->
  rec_ok (a, d) -> (k < length bits)%nat ->
  drop k bits ++ rest = d ++ rest' ->
  let n := Nat.min (length d) (length bits - k) in
  exists st' w', 
    (let done_ := (length d <=? length bits - k)%nat in
     cinit_loop (Datatypes.S fuel) bits (Z.of_nat (length bits)) (Z.of_nat k) st w =
       cinit_loop fuel bits (Z.of_nat (length bits))
         (Z.of_nat k + (if done_ then 8 * ((Z.of_nat n + 7) / 8) else Z.of_nat n)) st' w' /\
     (if done_ then cinit_state st' = CI_count
      else cinit_state st' = CI_copy /\ cinit_count st' = Z.of_nat (length d - n) /\
           cinit_addr st' = a + Z.of_nat n)) /\
    dload_errcount st' = dload_errcount st /\
    (forall x, mem w' x = write_rec (mem w) (a, take n d) x).
Proof.
  intros Hst Hc Ha (Ha0 & Hal & Hd & Hdl & _) Hk E n. cbn [fst snd] in *.
  assert (Hn : (0 < n <= length d)%nat) by lia.
  assert (Hbits : take n (drop k bits) = take n d).
  { apply (f_equal (take n)) in E. rewrite !take_app, length_drop in E.
    replace (n - (length bits - k))%nat with 0%nat in E by lia.
    replace (n - length d)%nat with 0%nat in E by lia. by rewrite !take_0, !List.app_nil_r in E. }
  set (info := mkSection CINITNAME 0 0 (2 ^ 32 - 1) (cinit_page st) DLOAD_BSS 0).
  destruct (writemem_ok (take n d) a info w) as (w' & Ew & Hmem).
  set (left := Z.of_nat (length bits) - Z.of_nat k).
  assert (Hic : (if left >? cinit_count st then cinit_count st else left) = Z.of_nat n).
  { rewrite Hc, Z.gtb_ltb. destruct (Z.ltb_spec (Z.of_nat (length d)) left); lia. }
  assert (Hmem' : forall x, mem w' x = write_rec (mem w) (a, take n d) x) by (intros x; apply Hmem).
  destruct (Nat.leb_spec (length d) (length bits - k)) as [Hle|Hgt]; cbn zeta.
  - assert (Hnd : n = length d) by lia.
    eexists _, w'. split; [split|split; [|exact Hmem']].
    + rewrite (cinit_loop_step fuel bits _ _ st w (cinit_do_copy bits (Z.of_nat k) left)
                 (8 * ((Z.of_nat n + 7) / 8))
                 (set_cinit_addr (u32 (a + 8 * ((Z.of_nat n + 7) / 8)))
                    (set_cinit_state CI_count (set_cinit_count 0 st))) w'); [done|by rewrite Hst|].
      unfold cinit_do_copy. unfold bind at 1, get. rewrite Hic.
      rewrite (proj2 (Z.eqb_neq _ _)), (proj2 (Z.ltb_ge _ _)) by lia.
      unfold bind at 1, call. rewrite !Nat2Z.id, Hbits, Ha. fold info. rewrite Ew.
      unfold bind at 1, ret at 1. rewrite Hc, Hnd, Z.sub_diag.
      change (s32 0) with 0. cbn [Z.leb Z.compare]. rewrite round8.
      unfold bind, modify, ret. done.
    + done.
    + done.
  - assert (Hnl : n = (length bits - k)%nat) by lia.
    eexists _, w'. split; [split|split; [|exact Hmem']].
    + rewrite (cinit_loop_step fuel bits _ _ st w (cinit_do_copy bits (Z.of_nat k) left)
                 (Z.of_nat n)
                 (set_cinit_addr (a + Z.of_nat n)
                    (set_cinit_count (Z.of_nat (length d - n)) st)) w'); [done|by rewrite Hst|].
      unfold cinit_do_copy. unfold bind at 1, get. rewrite Hic.
      rewrite (proj2 (Z.eqb_neq _ _)), (proj2 (Z.ltb_ge _ _)) by lia.
      unfold bind at 1, call. rewrite !Nat2Z.id, Hbits, Ha. fold info. rewrite Ew.
      unfold bind at 1, ret at 1. rewrite Hc.
      replace (Z.of_nat (length d) - Z.of_nat n) with (Z.of_nat (length d - n)) by lia.
      rewrite (swrap_small 32) by lia. rewrite (proj2 (Z.leb_gt _ _)) by lia.
      unfold bind, modify, ret. rewrite (uwrap_small 32 (a + Z.of_nat n)) by lia. done.
    + done.
    + done.
Qed.
Lemma outcome_trans p p1 tail rest st (w : W) st1 w1 st' w' :
  cinit_outcome p1 tail rest st1 w1 st' w' -> dload_errcount st1 = dload_errcount st ->
  (forall a, write_recs (pending_recs p1) (mem w1) a = write_recs (pending_recs p) (mem w) a) ->
  cinit_outcome p tail rest st w st' w'.
Proof.
  intros [He Ho] He1 Hm. split; [lia|]. destruct Ho as [[Hd Ho]|(p' & Hr & Hs & Hok & Ho)].
  - left. split; [done|]. intros a. by rewrite Ho, Hm.
  - right. exists p'. split; [done|]. split; [done|]. split; [done|]. intros a. by rewrite Ho, Hm.
Qed.

(** The end of a packet. *)
Lemma cinit_packet_end fuel bits st (w : W) p :
  pending_state p st -> pending_ok p ->
  cinit_loop (Datatypes.S fuel) bits (Z.of_nat (length bits)) (Z.of_nat (length bits)) st w = Some (tt, st, w).
Proof.
  intros Hs Hok. cbn [cinit_loop]. unfold bind at 1, get. unfold pending_state in Hs.
  unfold pending_ok, pending_recs in Hok. destruct (p_rec p) as [r|].
  - destruct Hs as (Hst & Hc & _). rewrite Hst. unfold cinit_do_copy. unfold bind, get.
    rewrite Z.sub_diag, Hc. apply Forall_cons_1 in Hok as [(_ & _ & Hl & _) _].
    rewrite Z.gtb_ltb, (proj2 (Z.ltb_ge _ _)) by lia. done.
  - rewrite Hs. unfold cinit_do_count, bind. rewrite Z.sub_diag. done.
Qed.

Lemma pad8_shift (d : list Z) n : (n mod 8 = 0)%nat -> (n <= length d)%nat -> pad8 (length d - n) = pad8 (length d).
Proof.
  intros Hn Hl. unfold pad8.
  replace (- Z.of_nat (length d - n) mod 8) with (- Z.of_nat (length d) mod 8); [done|].
  zify. Z.div_mod_to_equations. lia.
Qed.

Lemma cinit_loop_spec fuel bits k st (w : W) p tail rest :
  bytes_ok bits -> (length bits mod 8 = 0)%nat -> (k mod 8 = 0)%nat -> (k <= length bits)%nat ->
  (length bits - k + 2 <= fuel)%nat -> pending_state p st -> pending_ok p ->
  drop k bits ++ rest = pending_bytes p tail ->
  exists st' w', cinit_loop fuel bits (Z.of_nat (length bits)) (Z.of_nat k) st w = Some (tt, st', w') /\
    cinit_outcome p tail rest st w st' w'.
Proof.
  intros Hb Hlen. revert k st w p. induction fuel as [fuel IH] using lt_wf_ind.
  intros k st w p Hk8 Hk Hf Hs Hok E.
  destruct fuel as [|[|fuel]]; [lia|lia|].
  destruct (decide (k = length bits)) as [->|Hne].
  { exists st, w. split; [by eapply cinit_packet_end|]. split; [done|]. right. exists p.
    rewrite drop_all in E. done. }
  assert (Hk8' : (k + 8 <= length bits)%nat) by (zify; Z.div_mod_to_equations; lia).
  destruct p as [[[a d]|] rs]; unfold pending_bytes in E; cbn [p_rec p_recs fst snd] in E.
  - destruct Hs as (Hst & Hc & Ha). unfold pending_ok, pending_recs in Hok. cbn [p_rec p_recs] in Hok.
    apply Forall_cons_1 in Hok as [Hr Hrs]. cbn [snd fst] in Hc, Ha. rewrite <- app_assoc in E.
    destruct (cinit_copy (Datatypes.S fuel) bits k st w a d rest _ Hst Hc Ha Hr ltac:(lia) E)
      as (st1 & w1 & Hstep & He1 & Hm1).
    set (n := Nat.min (length d) (length bits - k)) in *.
    pose proof Hr as (Ha0 & Hal & Hd0 & Hdl & Hdb). cbn [fst snd] in Ha0, Hal, Hd0, Hdl, Hdb.
    destruct (Nat.leb_spec (length d) (length bits - k)) as [Hle|Hgt]; cbn zeta in Hstep;
      destruct Hstep as [Hstep Hst1].
    + assert (Hn : n = length d) by lia. rewrite Hn in *. pose proof (pad8_length (length d)) as Hp.
      set (pl := (length d + length (pad8 (length d)))%nat).
      assert (Hpl : 8 * ((Z.of_nat (length d) + 7) / 8) = Z.of_nat pl) by (unfold pl; lia).
      assert (Hpl8 : (pl mod 8 = 0)%nat) by (zify; Z.div_mod_to_equations; lia).
      assert (Hplk : (k + pl <= length bits)%nat).
      { zify. Z.div_mod_to_equations. lia. }
      rewrite Hstep, Hpl, <- Nat2Z.inj_add.
      destruct (IH (Datatypes.S fuel) ltac:(lia) (k + pl)%nat st1 w1 (mkPending None rs))
        as (st' & w' & Er & Ho).
      * zify. Z.div_mod_to_equations. lia.
      * lia.
      * unfold pl. lia.
      * exact Hst1.
      * exact Hrs.
      * apply (f_equal (drop pl)) in E. rewrite drop_app_le in E by (rewrite length_drop; lia).
        rewrite drop_drop in E. rewrite app_assoc, drop_app_ge in E by (rewrite length_app; unfold pl; lia).
        rewrite E. unfold pending_bytes. cbn [p_rec p_recs app]. rewrite length_app.
        replace (pl - _)%nat with 0%nat by (unfold pl; lia). apply drop_0.
      * exists st', w'. split; [exact Er|]. eapply outcome_trans; [exact Ho|done|].
        intros x. unfold pending_recs. cbn [p_rec p_recs].
        change (write_recs ((a, d) :: rs) (mem w)) with (write_recs rs (write_rec (mem w) (a, d))).
        apply write_recs_ext. intros y. rewrite Hm1, take_ge by lia. done.
    + assert (Hn : n = (length bits - k)%nat) by lia. rewrite Hn in *.
      destruct Hst1 as (Hst1 & Hc1 & Ha1).
      rewrite Hstep. replace (Z.of_nat k + Z.of_nat (length bits - k)) with (Z.of_nat (length bits)) by lia.
      set (m := (length bits - k)%nat) in *.
      assert (Hm8 : (m mod 8 = 0)%nat) by (unfold m; zify; Z.div_mod_to_equations; lia).
      destruct (IH (Datatypes.S fuel) ltac:(lia) (length bits) st1 w1
                  (mkPending (Some (a + Z.of_nat m, drop m d)) rs)) as (st' & w' & Er & Ho).
      * done.
      * lia.
      * lia.
      * split; [done|]. cbn [fst snd]. rewrite length_drop. done.
      * constructor; [|exact Hrs]. split; [cbn [fst]; lia|]. cbn [fst snd]. rewrite length_drop.
        split; [lia|]. split; [lia|]. split; [lia|]. by apply Forall_drop.
      * apply (f_equal (drop m)) in E. rewrite drop_app_le in E by (rewrite length_drop; unfold m; lia).
        rewrite drop_drop in E. replace (k + m)%nat with (length bits) in E by (unfold m; lia).
        rewrite drop_app_le in E by lia. rewrite E. unfold pending_bytes. cbn [p_rec p_recs snd].
        rewrite length_drop, pad8_shift, <- app_assoc by lia. done.
      * exists st', w'. split; [exact Er|]. eapply outcome_trans; [exact Ho|done|].
        intros x. unfold pending_recs. cbn [p_rec p_recs].
        change (write_recs rs (write_rec (mem w1) (a + Z.of_nat m, drop m d)) x =
                write_recs rs (write_rec (mem w) (a, d)) x).
        apply write_recs_ext. intros y.
        rewrite <- (write_rec_split (mem w) a d m y) by lia. unfold write_rec at 1 3. by rewrite Hm1.
  - destruct rs as [|[a d] rs].
    + destruct (cinit_end fuel bits k st w rest tail Hb Hs ltac:(lia) E) as (st' & Er & Hd & He).
      exists st', w. split; [exact Er|]. split; [done|]. left. done.
    + unfold pending_ok, pending_recs in Hok. cbn [p_rec p_recs] in Hok.
      apply Forall_cons_1 in Hok as [Hr Hrs]. unfold encode_table in E.
      cbn [fmap list_fmap concat app] in E. unfold encode_rec at 1 in E. cbn [fst snd] in E.
      rewrite <- !app_assoc in E.
      destruct (cinit_header fuel bits k st w a d rest _ Hb Hs Hk8' Hr E)
        as (st1 & Hstep & E1 & He1 & Hst1 & Hc1 & Ha1).
      rewrite Hstep.
      destruct (IH fuel ltac:(lia) (k + 8)%nat st1 w (mkPending (Some (a, d)) rs)) as (st' & w' & Er & Ho).
      * zify. Z.div_mod_to_equations. lia.
      * lia.
      * lia.
      * done.
      * by constructor.
      * rewrite E1. unfold pending_bytes. cbn [p_rec p_recs snd]. unfold encode_table.
        by rewrite <- !app_assoc.
      * exists st', w'. split; [exact Er|]. eapply outcome_trans; [exact Ho|done|]. done.
Qed.
(** The packets of a .cinit section, one after the other. *)
Fixpoint feed (ps : list (list Z)) : M W unit :=
  match ps with
  | [] => ret tt
  | p :: ps => cload_cinit p (Z.of_nat (length p)) ;;; feed ps
  end.

Lemma feed_done ps st (w : W) : cinit_state st = CI_done -> feed ps st w = Some (tt, st, w).
Proof.
  intros Hd. induction ps as [|p ps IH]; [done|]. cbn [feed]. unfold bind, cload_cinit.
  rewrite Nat.add_comm. cbn [Nat.add cinit_loop]. unfold bind, get. by rewrite Hd.
Qed.

Lemma feed_pending ps p tail st (w : W) :
  Forall (fun q => bytes_ok q /\ (length q mod 8 = 0)%nat) ps ->
  pending_state p st -> pending_ok p -> concat ps = pending_bytes p tail ->
  exists st' w', feed ps st w = Some (tt, st', w') /\ cinit_state st' = CI_done /\
    dload_errcount st' = dload_errcount st /\
    forall a, mem w' a = write_recs (pending_recs p) (mem w) a.
Proof.
  revert p st w. induction ps as [|q ps IH]; intros p st w Hq Hs Hok E.
  { exfalso. apply (f_equal length) in E. unfold pending_bytes, encode_table in E.
    rewrite !length_app, le_bytes_length in E. simpl in E. lia. }
  apply Forall_cons_1 in Hq as [[Hqb Hql] Hps].
  destruct (cinit_loop_spec (length q + 2) q 0 st w p tail (concat ps) Hqb Hql)
    as (st1 & w1 & E1 & He1 & Ho); try done; try lia.
  cbn [feed]. unfold bind, cload_cinit. change (Z.of_nat 0) with 0 in E1. rewrite E1.
  destruct Ho as [[Hd Hm]|(p' & Hr & Hs' & Hok' & Hm)].
  - rewrite feed_done by done. by exists st1, w1.
  - destruct (IH p' st1 w1 Hps Hs' Hok' Hr) as (st' & w' & E' & Hd & He & Hm').
    exists st', w'. split; [exact E'|]. split; [done|]. split; [lia|]. intros a. by rewrite Hm', Hm.
Qed.

(** C20: a .cinit table that arrives in packets, cut anywhere at multiples of
    eight bytes (also inside a record), is written to the target exactly: every
    record goes to its address, in order, nothing else is written, no error is
    reported, and the interpreter stops at the zero count whatever follows. *)
Theorem cinit_table_loaded (rs : list init_rec) (tail : list Z) (ps : list (list Z))
    (st : dload_state) (w : W) :
  Forall rec_ok rs -> concat ps = encode_table rs tail ->
  Forall (fun q => bytes_ok q /\ (length q mod 8 = 0)%nat) ps ->
  cinit_state st = CI_count ->
  exists st' w', feed ps st w = Some (tt, st', w') /\ cinit_state st' = CI_done /\
    dload_errcount st' = dload_errcount st /\
    forall a, mem w' a = write_recs rs (mem w) a.
Proof.
  intros Hrs E Hps Hst. exact (feed_pending ps (mkPending None rs) tail st w Hps Hst Hrs E).
Qed.
End Cinit.

Lemma cinit_table_loaded_witness :
  exists st' w', feed [[11; 0; 0; 0; 0; 16; 0; 0]; [1; 2; 3; 4; 5; 6; 7; 8; 9; 10; 11; 0; 0; 0; 0; 0; 0; 0; 0; 0; 7; 7; 7; 7]]
      zero_state (empty_world []) = Some (tt, st', w') /\
    cinit_state st' = CI_done /\ mem w' 4106 = Some 11 /\ mem w' 4107 = None.
Proof.
  destruct (cinit_table_loaded [(4096, [1; 2; 3; 4; 5; 6; 7; 8; 9; 10; 11])] [7; 7; 7; 7]
              [[11; 0; 0; 0; 0; 16; 0; 0]; [1; 2; 3; 4; 5; 6; 7; 8; 9; 10; 11; 0; 0; 0; 0; 0; 0; 0; 0; 0; 7; 7; 7; 7]]
              zero_state (empty_world [])) as (st' & w' & E & Hd & _ & Hm).
  - constructor; [|constructor]. split; [simpl; lia|]. split; [simpl; lia|]. split; [simpl; lia|].
    split; [simpl; lia|]. repeat constructor; discriminate.
  - reflexivity.
  - repeat constructor; discriminate.
  - reflexivity.
  - exists st', w'. split; [exact E|]. split; [exact Hd|]. rewrite !Hm. split; reflexivity.
Defined.
