(* ===== verification/DlModule.v ===== *)
(** The entry points of the dynamic loader (src/dspbridge/dynreg/cload.c):
    [Dynamic_Load_Module], [Dynamic_Open_Module] and [Dynamic_Unload_Module],
    with the module handle and the list of modules that the debugger reads
    ([init_module_handle]).  The theorems say what a load takes from the host,
    the target and the symbol table, and that a failed load and an unload give
    it back. *)

From Stdlib Require Import ZArith Lia String.
From stdpp Require Import base list list_numbers option gmap gmultiset tactics.
From S2P Require Import Prelude DlWords DlField DlState DlReloc DlLoad.

(** * Constants *)

Definition ascii_codes (s : string) : list Z :=
  (fun c => Z.of_nat (Ascii.nat_of_ascii c)) <$> list_ascii_of_string s.
Definition LOADER_DLLVIEW_ROOT : list Z := ascii_codes "?DLModules?".
Definition LINKER_MODULES_HEADER : list Z := ascii_codes "__DLModules".

Definition MIRROR_ROOT_SIZE : Z := 12. (* sizeof(struct dbg_mirror_root) *)
Definition INIT_VERSION : Z := 1.
Definition VERIFICATION : Z := 121. (* 0x79 *)
Definition DBG_LIST_PAGE : Z := 0.
Definition DLOAD_DATA : Z := 1.
Definition MODULES_HEADER_BITMAP : Z := 2.

(** * [swap_words] *)

(** Pass 1: the bytes of each of the [n] half-words. *)
Fixpoint swap_halves (n : nat) (bs : list Z) : option (list Z) :=
  match n with
  | O => Some bs
  | Datatypes.S n' =>
      match bs with
      | a :: b :: bs => let* r := swap_halves n' bs in Some (b :: a :: r)
      | _ => None
      end
  end.
(** Pass 2: the half-words of those of the [n] words whose bit in the map is clear. *)
Fixpoint swap_longs (n : nat) (bitmap : Z) (bs : list Z) : option (list Z) :=
  match n with
  | O => Some bs
  | Datatypes.S n' =>
      match bs with
      | a :: b :: c :: d :: bs =>
          let* r := swap_longs n' (Z.shiftr bitmap 1) bs in
          Some (if Z.land bitmap 1 =? 0 then c :: d :: a :: b :: r else a :: b :: c :: d :: r)
      | _ => None
      end
  end.
(** Each pass runs at least once. *)
Definition swap_words (data : list Z) (siz bitmap : Z) : option (list Z) :=
  let n := Z.to_nat (siz / 2) in
  let* bs := swap_halves (Nat.max 1 n) data in
  swap_longs (Nat.max 1 (n / 2)) bitmap bs.

(** * [copy_tgt_strings] *)

(** Copies at least one character, and puts a terminator over the last one. *)
Definition copy_tgt_strings (src : list Z) (charcount : Z) : option (list Z) :=
  let n := Nat.max 1 (Z.to_nat (s32 charcount)) in
  guard* (n <=? length src)%nat in
  Some (take (Nat.pred n) src ++ [0]).

(** * Links of the list of modules *)

Definition node_dbthis (n : host_node) : Z :=
  match n with Handle h => h_dbthis h | Root r => rt_dbthis r end.
Definition node_hnext (n : host_node) : Z :=
  match n with Handle h => h_hnext h | Root r => rt_hnext r end.
Definition with_hnext (x : Z) (n : host_node) : host_node :=
  match n with
  | Handle h => Handle (mkHandle (h_dbthis h) x (h_hprev h) (h_hroot h) (h_dbsiz h) (h_context h)
                          (h_secn_count h) (h_secns h))
  | Root r => Root (mkRoot (rt_dbthis r) x (rt_changes r) (rt_refcount r))
  end.

Definition set_h_dbthis (x : Z) (h : my_handle) : my_handle :=
  mkHandle x (h_hnext h) (h_hprev h) (h_hroot h) (h_dbsiz h) (h_context h) (h_secn_count h) (h_secns h).
Definition set_h_hnext (x : Z) (h : my_handle) : my_handle :=
  mkHandle (h_dbthis h) x (h_hprev h) (h_hroot h) (h_dbsiz h) (h_context h) (h_secn_count h) (h_secns h).
Definition set_h_hprev (x : Z) (h : my_handle) : my_handle :=
  mkHandle (h_dbthis h) (h_hnext h) x (h_hroot h) (h_dbsiz h) (h_context h) (h_secn_count h) (h_secns h).
Definition set_h_hroot (x : Z) (h : my_handle) : my_handle :=
  mkHandle (h_dbthis h) (h_hnext h) (h_hprev h) x (h_dbsiz h) (h_context h) (h_secn_count h) (h_secns h).
Definition set_h_dbsiz (x : Z) (h : my_handle) : my_handle :=
  mkHandle (h_dbthis h) (h_hnext h) (h_hprev h) (h_hroot h) x (h_context h) (h_secn_count h) (h_secns h).
Definition set_h_context (x : Z) (h : my_handle) : my_handle :=
  mkHandle (h_dbthis h) (h_hnext h) (h_hprev h) (h_hroot h) (h_dbsiz h) x (h_secn_count h) (h_secns h).
Definition set_h_sections (count : Z) (ss : list LDR_SECTION_INFO) (h : my_handle) : my_handle :=
  mkHandle (h_dbthis h) (h_hnext h) (h_hprev h) (h_hroot h) (h_dbsiz h) (h_context h) count ss.
Definition set_rt_hnext (x : Z) (r : dbg_mirror_root) : dbg_mirror_root :=
  mkRoot (rt_dbthis r) x (rt_changes r) (rt_refcount r).
Definition set_rt_changes (x : Z) (r : dbg_mirror_root) : dbg_mirror_root :=
  mkRoot (rt_dbthis r) (rt_hnext r) x (rt_refcount r).
Definition set_rt_refcount (x : Z) (r : dbg_mirror_root) : dbg_mirror_root :=
  mkRoot (rt_dbthis r) (rt_hnext r) (rt_changes r) x.

(** [struct modules_header] without its [update_flag]. *)
Definition modules_header (first_module first_module_size : Z) : list Z :=
  le_bytes 4 first_module ++ le_bytes 2 first_module_size.

Section Module_handles.
Context {W : Type} `{Env : DlEnv W}.

Definition DLLVIEW_INFO_INIT : LDR_SECTION_INFO :=
  mkSection DLLVIEWNAME 0 0 (2 ^ 32 - 1) DBG_LIST_PAGE DLOAD_DATA 0.

Definition get_node (p : Z) : M W host_node :=
  fun st w => let* n := host_node_at p w in Some (n, st, w).
Definition get_handle (p : Z) : M W my_handle :=
  n <- get_node p ;; match n with Handle h => ret h | Root _ => fault end.
Definition get_root (p : Z) : M W dbg_mirror_root :=
  n <- get_node p ;; match n with Root r => ret r | Handle _ => fault end.
Definition upd_handle (p : Z) (f : my_handle -> my_handle) : M W unit :=
  h <- get_handle p ;; call_ (host_store p (Handle (f h))).
Definition upd_root (p : Z) (f : dbg_mirror_root -> dbg_mirror_root) : M W unit :=
  r <- get_root p ;; call_ (host_store p (Root (f r))).

(** * [init_module_handle] *)

(** The root of the debug list, made when the program has such a list and its
    root is not there yet; [None] is one of the early returns. *)
Definition find_mirror_root : M W (option Z) :=
  st <- get ;;
  debug_mirror_sym <- call (Find_Matching_Symbol LOADER_DLLVIEW_ROOT) ;;
  match debug_mirror_sym with
  | Some v => ret (if v =? 0 then None else Some v)
  | None =>
      dlmodsym <- call (Find_Matching_Symbol LINKER_MODULES_HEADER) ;;
      match dlmodsym with
      | None => ret None
      | Some modules =>
          mlst <- call (Allocate MIRROR_ROOT_SIZE) ;;
          match mlst with
          | None => dload_error M_alloc ;;; ret None
          | Some (mlst, _) =>
              call_ (host_store mlst (Root (mkRoot modules 0 0 0))) ;;;
              added <- call (Add_To_Symbol_Table LOADER_DLLVIEW_ROOT (myhandle st) mlst) ;;
              if negb added then call_ (Deallocate mlst) ;;; ret None
              else ret (Some mlst)
          end
      end
  end.

(** The record of the module for the debugger: [struct dll_module] with the
    addresses of the [n] sections, and the names. *)
Definition dll_sects (ss : list LDR_SECTION_INFO) : list Z :=
  concat ((fun s => le_bytes 4 (load_addr s) ++ le_bytes 4 (run_addr s)) <$> ss).
Definition dll_module (next_module next_module_size num_sects timestamp : Z)
    (ss : list LDR_SECTION_INFO) (names : list Z) : list Z :=
  le_bytes 4 next_module ++ le_bytes 2 next_module_size ++ le_bytes 2 INIT_VERSION ++
  le_bytes 2 VERIFICATION ++ le_bytes 2 num_sects ++ le_bytes 4 timestamp ++
  dll_sects ss ++ names.

(** Linking the handle [hndl] in after the root. *)
Definition link_after_root (hndl mlist : Z) : M W unit :=
  root <- get_root mlist ;;
  upd_handle hndl (set_h_hnext (rt_hnext root)) ;;;
  (if negb (rt_hnext root =? 0) then upd_handle (rt_hnext root) (set_h_hprev hndl) else ret tt) ;;;
  upd_handle hndl (set_h_hprev mlist) ;;;
  upd_root mlist (set_rt_hnext hndl).

(** Writing the record and the new head of the list to the target; the swapping
    of bytes is compiled out ([TARGET_BIG_ENDIAN] is 0). *)
Definition publish_record (hndl mlist : Z) (record : list Z) (info : LDR_SECTION_INFO) : M W unit :=
  upd_handle hndl (set_h_dbthis (load_addr info)) ;;;
  upd_handle hndl (set_h_context (context info)) ;;;
  upd_root mlist (fun r => set_rt_refcount (u16 (rt_refcount r + 1)) r) ;;;
  ok <- call (writemem (take (Z.to_nat (size info)) record) (load_addr info) info) ;;
  if negb ok then ret tt
  else
    root <- get_root mlist ;;
    h <- get_handle hndl ;;
    ok <- call (writemem (modules_header (load_addr info) (h_dbsiz h)) (rt_dbthis root)
                  DLLVIEW_INFO_INIT) ;;
    if negb ok then ret tt else link_after_root hndl mlist.

(** The record built in the storage of the local symbols, which is null when
    the module has none. *)
Definition make_record (hndl mlist : Z) : M W unit :=
  st <- get ;;
  _dbmod <- lift (local_symtab st) ;;
  strs <- lift (str_head st) ;;
  names <- lift (copy_tgt_strings strs.2 (debug_string_size st)) ;;
  let n := Z.to_nat (allocated_secn_count st) in
  guard_ <- lift (guard* (n <=? length (ldr_sections st))%nat in Some tt) ;;
  let ss := take n (ldr_sections st) in
  let dbsiz := u16 (DBG_HDR_SIZE + 8 * Z.of_nat n + Z.of_nat (length names)) in
  upd_handle hndl (set_h_dbsiz dbsiz) ;;;
  upd_handle hndl (set_h_context 0) ;;;
  root <- get_root mlist ;;
  next <- (if negb (rt_hnext root =? 0)
           then h <- get_handle (rt_hnext root) ;; ret (h_dbthis h, h_dbsiz h)
           else ret (0, 0)) ;;
  let record := dll_module next.1 next.2 (u16 (allocated_secn_count st)) (dv_timdat (verify st)) ss names in
  if negb (myalloc st) then ret tt
  else
    let info := mkSection DLLVIEWNAME 0 0 dbsiz DBG_LIST_PAGE DLOAD_DATA 0 in
    r <- call (alloc_Allocate info 4) ;;
    match r with
    | None => ret tt
    | Some info => publish_record hndl mlist record info
    end.

Definition init_module_handle : M W unit :=
  st <- get ;;
  let hndl := myhandle st in
  if hndl =? 0 then ret tt (* must be errors detected, so forget it *)
  else
    upd_handle hndl (set_h_sections
      (u16 (u16 (Z.shiftl (allocated_secn_count st) 1) + if big_e_target st then 1 else 0))
      (ldr_sections st)) ;;;
    if negb (dload_errcount st =? 0) then ret tt (* abandon if errors detected *)
    else
      mlist <- find_mirror_root ;;
      match mlist with
      | None => ret tt
      | Some mlist =>
          upd_handle hndl (set_h_hroot mlist) ;;;
          if allocated_secn_count st =? 0 then ret tt (* no load addresses to be recorded *)
          else make_record hndl mlist
      end.

(** * [Dynamic_Unload_Module] *)

(** The arguments that may be null pointers. *)
Record dl_args := mkArgs { a_module : bool; a_syms : bool; a_alloc : bool; a_init : bool }.

(** The deallocation of the first [n] sections of the handle. *)
Fixpoint free_sections (n : nat) (asecs : list LDR_SECTION_INFO) : M W unit :=
  match n with
  | O => ret tt
  | Datatypes.S n' =>
      match asecs with
      | [] => fault
      | s :: asecs => call_ (alloc_Deallocate (set_sec_name 0 s)) ;;; free_sections n' asecs
      end
  end.

(** Writing to the target that the entry after [hprev] is the one after the
    module unloaded, and that the list changed; the result counts the errors. *)
Definition unlink_target (hndl : my_handle) (info : LDR_SECTION_INFO) : M W Z :=
  next <- (if negb (h_hnext hndl =? 0)
           then h <- get_handle (h_hnext hndl) ;; ret (h_dbthis h, h_dbsiz h)
           else ret (0, 0)) ;;
  ok <- call connect ;;
  if negb ok then call_ (Error_Report M_connect) ;;; ret 1
  else
    let mhdr := modules_header next.1 next.2 in
    mhdr <- (if negb (Z.land (h_secn_count hndl) 1 =? 0)
             then lift (swap_words mhdr 6 MODULES_HEADER_BITMAP) else ret mhdr) ;;
    prev <- get_node (h_hprev hndl) ;;
    ok1 <- call (writemem mhdr (node_dbthis prev) info) ;;
    (if negb ok1 then call_ (Error_Report M_dlv_write) else ret tt) ;;;
    upd_root (h_hroot hndl) (fun r => set_rt_changes (u16 (rt_changes r + 1)) r) ;;;
    root <- get_root (h_hroot hndl) ;;
    ok2 <- call (writemem (le_bytes 2 (rt_changes root)) (u32 (rt_dbthis root + 6)) info) ;;
    (if negb ok2 then call_ (Error_Report M_dlv_write) else ret tt) ;;;
    call_ release ;;;
    ret ((if ok1 then 0 else 1) + (if ok2 then 0 else 1)).

(** The record on the target of the module [mhandle], out of the list and
    released. *)
Definition unload_record (mhandle : Z) (hndl : my_handle) (a : dl_args) : M W Z :=
  let info := set_sec_context (h_context hndl) DLLVIEW_INFO_INIT in
  errcount <-
    (if negb (h_hprev hndl =? mhandle) then
       prev <- get_node (h_hprev hndl) ;;
       call_ (host_store (h_hprev hndl) (with_hnext (h_hnext hndl) prev)) ;;;
       (if negb (h_hnext hndl =? 0) then upd_handle (h_hnext hndl) (set_h_hprev (h_hprev hndl))
        else ret tt) ;;;
       if a_init a then unlink_target hndl info else ret 0
     else ret 0) ;;
  (if a_alloc a
   then call_ (alloc_Deallocate
                 (mkSection DLLVIEWNAME 0 (h_dbthis hndl) (h_dbsiz hndl) DBG_LIST_PAGE DLOAD_DATA
                    (h_context hndl)))
   else ret tt) ;;;
  upd_root (h_hroot hndl) (fun r => set_rt_refcount (u16 (rt_refcount r - 1)) r) ;;;
  ret errcount.

Definition Dynamic_Unload_Module (mhandle : Z) (a : dl_args) : M W Z :=
  if mhandle =? 0 then ret 0
  else if negb (a_syms a) then ret 1
  else
    call_ (Purge_Symbol_Table mhandle) ;;;
    hndl <- get_handle mhandle ;;
    (if a_alloc a then free_sections (Z.to_nat (Z.shiftr (h_secn_count hndl) 1)) (h_secns hndl)
     else ret tt) ;;;
    errcount <-
      (if negb (h_hroot hndl =? 0) then
         errcount <- (if negb (h_dbthis hndl =? 0) then unload_record mhandle hndl a else ret 0) ;;
         root <- get_root (h_hroot hndl) ;;
         (if rt_refcount root <=? 0 then
            s <- call (Find_Matching_Symbol LOADER_DLLVIEW_ROOT) ;;
            match s with None => call_ (Deallocate (h_hroot hndl)) | Some _ => ret tt end
          else ret tt) ;;;
         ret errcount
       else ret 0) ;;
    call_ (Deallocate mhandle) ;;;
    ret errcount.

(** * [Dynamic_Load_Module] and [Dynamic_Open_Module] *)

Definition no_errors : M W bool := st <- get ;; ret (dload_errcount st =? 0).
(** [if (!dl_state.dload_errcount) c] *)
Definition unless_errors (c : M W unit) : M W unit := ok <- no_errors ;; if ok : bool then c else ret tt.

Definition set_entrypt (x : Z) (h : doff_filehdr_t) : doff_filehdr_t :=
  mkFilehdr (df_strtab_size h) x (df_byte_reshuffle h) (df_scn_name_size h) (df_no_syms h)
    (df_max_str_len h) (df_no_scns h) (df_target_scns h) (df_doff_version h) (df_target_id h)
    (df_flags h) (df_entry_secn h) (df_checksum h).

(** The parts of the file before any memory is taken on the target. *)
Definition read_front : M W unit :=
  dload_headers ;;; unless_errors (dload_strings false) ;;; unless_errors dload_sections.

Definition connect_and_allocate (a : dl_args) : M W unit :=
  ok <- call connect ;;
  if ok : bool then
    modify (fun st => mkState (a_alloc a) true (myoptions st) (str_head st) (debug_string_size st)
      (sect_hdrs st) (ldr_sections st) (bss_run_base st) (local_symtab st) (image_secn st)
      (delta_runaddr st) (image_offset st) (cinit_state st) (cinit_count st) (cinit_addr st)
      (cinit_page st) (myhandle st) (dload_errcount st) (allocated_secn_count st) (big_e_target st)
      (reorder_map st) (dfile_hdr st) (verify st) (relstkidx st) (relstk st)) ;;;
    allocate_sections
  else dload_error M_connect.

(** Fixing up the entry point, before the symbols. *)
Definition fix_entry : M W unit :=
  st <- get ;;
  let sref := u32 (df_entry_secn (dfile_hdr st) - 1) in
  if sref <? allocated_secn_count st then
    s <- lift (ldr_sections st !! Z.to_nat sref) ;;
    modify (set_dfile_hdr (set_entrypt (u32 (df_entrypt (dfile_hdr st) + run_addr s)) (dfile_hdr st)))
  else ret tt.

(** Running the module from its entry point; [twice] is the release in the
    branch of [Dynamic_Load_Module].  [myio] is given only with [init], so the
    message for a null [init] of that branch is never reported. *)
Definition run_entry (twice : bool) : M W unit :=
  st <- get ;;
  if myio st then
    (if (dload_errcount st =? 0) && negb (df_entry_secn (dfile_hdr st) =? DN_UNDEF) then
       ok <- call (execute (df_entrypt (dfile_hdr st))) ;;
       (if ok : bool then ret tt else dload_error M_execute) ;;;
       if twice then call_ release else ret tt
     else ret tt) ;;;
    call_ release
  else ret tt.

(** Giving back the temporary storage, and everything when there were errors;
    the result is the handle. *)
Definition finish_load (a : dl_args) : M W Z :=
  symbol_table_free ;;; section_table_free ;;; string_table_free ;;;
  st <- get ;;
  if negb (dload_errcount st =? 0) then
    errs <- Dynamic_Unload_Module (myhandle st) a ;;
    modify (set_myhandle 0) ;;; ret 0
  else ret (myhandle st).

Definition load_body (a : dl_args) (with_data : bool) : M W Z :=
  read_front ;;;
  (if a_init a then unless_errors (connect_and_allocate a) else ret tt) ;;;
  unless_errors (fix_entry ;;; dload_symbols) ;;;
  (if with_data && a_init a then unless_errors dload_data else ret tt) ;;;
  init_module_handle ;;;
  run_entry with_data ;;;
  finish_load a.

(** The state that a load starts from. *)
Definition start_state (options : Z) : dload_state :=
  mkState false false (if Z.land options DLOAD_INITBSS =? DLOAD_INITBSS then DLOAD_INITBSS else 0)
    None 0 None [] 0 None zero_section 0 0 CI_count 0 0 0 0 0 0 false 0
    zero_filehdr (mkVerify 0 0 0 0 0) 0 (replicate 10 0).

(** The number of errors and the handle; without the stream or the symbols, the
    report of the error goes through the null pointer [mysym]. *)
Definition load_or_open (with_data : bool) (a : dl_args) (options : Z) (w : W) : option (Z * Z * W) :=
  if negb (a_module a) || negb (a_syms a) then None
  else
    match load_body a with_data (start_state options) w with
    | Some (h, st, w) => Some (dload_errcount st, h, w)
    | None => None
    end.
Definition Dynamic_Load_Module (a : dl_args) (options : Z) : W -> option (Z * Z * W) :=
  load_or_open true a options.
Definition Dynamic_Open_Module (a : dl_args) (options : Z) : W -> option (Z * Z * W) :=
  load_or_open false a options.

End Module_handles.

(** * A module

    One section of two words, the symbol [main] at its second word, and a
    relocation of that word by the symbol. *)

Definition sample_file : list Z := concat (le_bytes 4 <$>
  [12; 4100; 66051; 0; 1048577; 65537; 10027008; 65536; 4283690474; 24301; 4291813365;
   756872230; 4294832115; 3541359876; 1702112768; 1828746360; 7235937; 1; 4096; 4096; 8;
   3145728; 0; 1; 7; 4100; 131073; 1; 8; 4006395054; 287454020; 4096; 4; 0; 1114112]).
Definition all_args : dl_args := mkArgs true true true true.

Definition summary (r : option (Z * Z * sample_world)) :=
  match r with
  | Some (errs, h, w) => Some (errs, h, w_msgs w, w_ops w, w_syms w, elements (w_live w))
  | None => None
  end.
(** The word at 4 becomes the address of [main], and the module is run. *)
Example load_sample :
  summary (Dynamic_Load_Module all_args 0 (empty_world sample_file)) =
  Some (0, 12288, [],
    [T_connect; T_alloc 65536 8; T_write 65536 [68; 51; 34; 17; 0; 0; 1; 0];
     T_execute 69636; T_release; T_release],
    [([109; 97; 105; 110], 12288, 65540)], [12288]).
Proof. vm_compute. reflexivity. Qed.
