(* ===== verification/DlResources.v ===== *)
(** What a load takes and gives back: the host memory, the target memory and
    the symbols that each phase of src/dspbridge/dynreg/cload.c takes through the
    classes of the loader, and the theorems that a failed load and an unload
    release all of it. *)

From Stdlib Require Import ZArith Lia String.
From stdpp Require Import base list list_numbers option gmap gmultiset tactics.
From S2P Require Import Prelude DlWords DlField DlState DlReloc DlLoad DlModule.

(** * What the classes promise *)

(** The symbols, newest first, as name, module and value. *)
Abbreviation symbols := (list (list Z * Z * Z)).

(** The symbols, the host blocks and the target memory that are allocated, and
    how the methods change them; target memory is known by its load address.
    The other methods leave them alone, and no method but [Deallocate] changes
    the content of a block. *)
Class DlLaws (W : Type) `{Env : DlEnv W} := {
  v_syms : W -> symbols;
  v_blocks : W -> gmultiset Z;
  v_target : W -> gmultiset Z;
  same_world (w w' : W) : Prop :=
    v_syms w' = v_syms w /\ v_blocks w' = v_blocks w /\ v_target w' = v_target w /\
    forall q, host_node_at q w' = host_node_at q w;
  read_same n w : same_world w (read_buffer n w).2;
  find_same nm w : same_world w (Find_Matching_Symbol nm w).2;
  report_same m w : same_world w (Error_Report m w);
  connect_same w : same_world w (connect w).2;
  writemem_same bs l s w : same_world w (writemem bs l s w).2;
  fillmem_same l s n v w : same_world w (fillmem l s n v w).2;
  execute_same a w : same_world w (execute a w).2;
  release_same w : same_world w (release w);
  find_law nm w :
    (Find_Matching_Symbol nm w).1 = snd <$> head (filter (fun s => s.1.1 = nm) (v_syms w));
  add_law nm md v w :
    let r := Add_To_Symbol_Table nm md v w in
    v_syms r.2 = (if r.1 : bool then (nm, md, v) :: v_syms w else v_syms w) /\
    v_blocks r.2 = v_blocks w /\ v_target r.2 = v_target w /\
    forall q, host_node_at q r.2 = host_node_at q w;
  purge_law md w :
    let w' := Purge_Symbol_Table md w in
    v_syms w' = filter (fun s => s.1.2 <> md) (v_syms w) /\
    v_blocks w' = v_blocks w /\ v_target w' = v_target w /\
    forall q, host_node_at q w' = host_node_at q w;
  allocate_law n w :
    let r := Allocate n w in
    match r.1 with
    | None => same_world w r.2
    | Some (p, _) =>
        p <> 0 /\ p ∉ v_blocks w /\
        v_syms r.2 = v_syms w /\ v_blocks r.2 = v_blocks w ⊎ {[+ p +]} /\ v_target r.2 = v_target w /\
        forall q, q ∈ v_blocks w -> host_node_at q r.2 = host_node_at q w
    end;
  deallocate_law p w :
    let w' := Deallocate p w in
    v_syms w' = v_syms w /\ v_blocks w' = v_blocks w ∖ {[+ p +]} /\ v_target w' = v_target w /\
    forall q, q <> p -> host_node_at q w' = host_node_at q w;
  store_law p n w :
    let w' := host_store p n w in
    v_syms w' = v_syms w /\ v_blocks w' = v_blocks w /\ v_target w' = v_target w /\
    host_node_at p w' = Some n /\ forall q, q <> p -> host_node_at q w' = host_node_at q w;
  talloc_law s align w :
    let r := alloc_Allocate s align w in
    v_syms r.2 = v_syms w /\ v_blocks r.2 = v_blocks w /\
    v_target r.2 = v_target w ⊎ (match r.1 with Some s' => {[+ load_addr s' +]} | None => ∅ end) /\
    forall q, host_node_at q r.2 = host_node_at q w;
  tfree_law s w :
    let w' := alloc_Deallocate s w in
    v_syms w' = v_syms w /\ v_blocks w' = v_blocks w /\ v_target w' = v_target w ∖ {[+ load_addr s +]} /\
    forall q, host_node_at q w' = host_node_at q w
}.

Lemma fold_max_ge (l : list Z) x : x ∈ l -> x <= foldr Z.max 0 l.
Proof.
  induction l as [|y l IH]; intros H; [by apply not_elem_of_nil in H|].
  apply elem_of_cons in H as [->|H]; simpl; [lia|]. apply IH in H. lia.
Qed.
Lemma fold_max_pos (l : list Z) : 0 <= foldr Z.max 0 l.
Proof. induction l; simpl; lia. Qed.

#[export, refine] Instance sample_laws : DlLaws sample_world := {|
  v_syms := w_syms; v_blocks := w_live; v_target := w_target
|}.
Proof.
  all: try (intros; simpl; repeat split; done).
  - intros n w. simpl. unfold w_fresh.
    pose proof (fold_max_pos (elements (w_live w))). split; [lia|]. split; [|done].
    intros Hin. apply gmultiset_elem_of_elements, fold_max_ge in Hin. lia.
  - intros p w. simpl. do 3 (split; [done|]). intros q Hq. by rewrite lookup_delete_ne.
  - intros p n w. simpl. do 3 (split; [done|]). split; [by rewrite lookup_insert_eq|].
    intros q Hq. by rewrite lookup_insert_ne.
Defined.

(** * Relations that every run of a routine keeps *)

Section Keeps.
Context {W : Type} (R : dload_state -> W -> dload_state -> W -> Prop).
Context (Rrefl : forall st w, R st w st w).
Context (Rtrans : forall st w st1 w1 st2 w2, R st w st1 w1 -> R st1 w1 st2 w2 -> R st w st2 w2).

Definition keeps {A} (c : M W A) : Prop :=
  forall st w x st' w', c st w = Some (x, st', w') -> R st w st' w'.

Lemma keeps_ret {A} (x : A) : keeps (ret x).
Proof. intros st w y st' w' [= <- <- <-]. apply Rrefl. Qed.
Lemma keeps_fault {A} : keeps (@fault W A).
Proof. by intros st w y st' w'. Qed.
Lemma keeps_lift {A} (o : option A) : keeps (lift o).
Proof. intros st w y st' w' H. unfold lift in H. destruct o; [|done]. injection H as <- <- <-. apply Rrefl. Qed.
Lemma keeps_get : keeps get.
Proof. intros st w y st' w' [= <- <- <-]. apply Rrefl. Qed.
Lemma keeps_bind {A B} (c : M W A) (k : A -> M W B) :
  keeps c -> (forall x, keeps (k x)) -> keeps (bind c k).
Proof.
  intros Hc Hk st w y st' w' H. unfold bind in H.
  destruct (c st w) as [[[x st1] w1]|] eqn:E; [|done]. eapply Rtrans; [by eapply Hc|by eapply Hk].
Qed.
Lemma keeps_call {A} (f : W -> A * W) : (forall st w, R st w st (f w).2) -> keeps (call f).
Proof. intros Hf st w y st' w' H. unfold call in H. specialize (Hf st w). destruct (f w). by simplify_eq. Qed.
Lemma keeps_call_ (f : W -> W) : (forall st w, R st w st (f w)) -> keeps (call_ f).
Proof. intros Hf st w y st' w' [= <- <- <-]. apply Hf. Qed.
Lemma keeps_modify (f : dload_state -> dload_state) : (forall st w, R st w (f st) w) -> keeps (modify f).
Proof. intros Hf st w y st' w' [= <- <- <-]. apply Hf. Qed.
End Keeps.

Lemma keeps_weaken {W A} (R R' : dload_state -> W -> dload_state -> W -> Prop) (c : M W A) :
  (forall st w st' w', R st w st' w' -> R' st w st' w') -> keeps R c -> keeps R' c.
Proof. intros HR Hc st w x st' w' H. by eapply HR, Hc. Qed.

(** The calls and assignments of a routine, one by one; [prim] closes the
    primitive steps. *)
Create HintDb keeps discriminated.
Ltac keeps_with prim :=
  repeat first
    [ solve [prim]
    | solve [eauto with keeps nocore]
    | apply keeps_ret; solve [prim] | apply keeps_fault | apply keeps_lift; solve [prim]
    | apply keeps_get; solve [prim]
    | apply keeps_bind; [solve [prim] | | intros]
    | apply keeps_call; intros; solve [prim] | apply keeps_call_; intros; solve [prim]
    | apply keeps_modify; intros; solve [prim]
    | match goal with |- keeps _ (match ?x with _ => _ end) => destruct x end
    | progress cbv zeta beta ].

(** * Routines that take nothing *)

Section Quiet.
Context {W : Type} `{Env : DlEnv W} `{Laws : !DlLaws W}.

Lemma same_refl (w : W) : same_world w w.
Proof. done. Qed.
Lemma same_trans (w w1 w2 : W) : same_world w w1 -> same_world w1 w2 -> same_world w w2.
Proof.
  intros (Hs & Hb & Ht & Hn) (Hs1 & Hb1 & Ht1 & Hn1).
  unfold same_world. rewrite Hs1, Hb1, Ht1. repeat split; try done. intros q. by rewrite Hn1.
Qed.

(** The part of the state that says what is taken. *)
Definition resources (st : dload_state) :=
  (myalloc st, fst <$> str_head st, fst <$> sect_hdrs st, fst <$> local_symtab st, myhandle st,
   ldr_sections st, allocated_secn_count st).

Definition quiet (st : dload_state) (w : W) (st' : dload_state) (w' : W) : Prop :=
  resources st' = resources st /\ same_world w w'.

Lemma quiet_refl st w : quiet st w st w.
Proof. done. Qed.
Lemma quiet_trans st w st1 w1 st2 w2 : quiet st w st1 w1 -> quiet st1 w1 st2 w2 -> quiet st w st2 w2.
Proof. intros [Hr Hw] [Hr1 Hw1]. split; [congruence|by eapply same_trans]. Qed.
Lemma quiet_world st (w w' : W) : same_world w w' -> quiet st w st w'.
Proof. by split. Qed.
Lemma quiet_state st st' (w : W) : resources st' = resources st -> quiet st w st' w.
Proof. by split. Qed.

Ltac quiet_prim :=
  first [ exact quiet_refl | exact quiet_trans
        | apply quiet_world;
          first [ apply read_same | apply find_same | apply report_same | apply connect_same
                | apply writemem_same | apply fillmem_same | apply execute_same | apply release_same ]
        | apply quiet_state; reflexivity ].
Ltac quiet := keeps_with quiet_prim.

Lemma dload_error_quiet msg : keeps quiet (dload_error msg).
Proof. unfold dload_error. quiet. Qed.
#[local] Hint Resolve dload_error_quiet : keeps.
Lemma read_exactly_quiet n : keeps quiet (read_exactly n).
Proof. unfold read_exactly. quiet. Qed.
Lemma reorder_if_quiet siz bs : keeps quiet (reorder_if siz bs).
Proof. unfold reorder_if. quiet. Qed.
#[local] Hint Resolve read_exactly_quiet reorder_if_quiet : keeps.

Lemma dload_headers_quiet : keeps quiet dload_headers.
Proof. unfold dload_headers. quiet. Qed.

Lemma cinit_loop_quiet fuel bits pktend pktp : keeps quiet (cinit_loop fuel bits pktend pktp).
Proof.
  revert pktp. induction fuel as [|fuel IH]; intros pktp; simpl; [quiet|].
  unfold cinit_do_count, cinit_do_address, cinit_do_copy, cinit_exit. quiet.
Qed.
#[local] Hint Resolve cinit_loop_quiet : keeps.

Lemma reloc_arith_quiet act rp svp amt stackp f : keeps quiet (reloc_arith act rp svp amt stackp f).
Proof. unfold reloc_arith, act_C6SECT, act_C6BASE, act_C6DSPL, on_stack. destruct act; quiet. Qed.
#[local] Hint Resolve reloc_arith_quiet : keeps.
Lemma dload_relocate_quiet data rp : keeps quiet (dload_relocate data rp).
Proof.
  unfold dload_relocate, reloc_perform, reloc_amount, stack_adjust, reloc_field, reloc_put. quiet.
Qed.
#[local] Hint Resolve dload_relocate_quiet : keeps.
Lemma relocate_records_quiet rps data : keeps quiet (relocate_records rps data).
Proof. revert data. induction rps as [|rp rps IH]; intros data; simpl; quiet. Qed.
#[local] Hint Resolve relocate_records_quiet : keeps.
Lemma relocate_buffers_quiet fuel rnum checks data : keeps quiet (relocate_buffers fuel rnum checks data).
Proof. revert rnum checks data. induction fuel as [|fuel IH]; intros; simpl; quiet. Qed.
#[local] Hint Resolve relocate_buffers_quiet : keeps.
Lemma load_packet_quiet sptr lptr off done_ : keeps quiet (load_packet sptr lptr off done_).
Proof. unfold load_packet, read_packet_bits, relocate_packet, download_packet, cload_cinit. quiet. Qed.
#[local] Hint Resolve load_packet_quiet : keeps.
Lemma load_packets_quiet nip sptr lptr off done_ : keeps quiet (load_packets nip sptr lptr off done_).
Proof. revert off done_. induction nip as [|nip IH]; intros; simpl; quiet. Qed.
#[local] Hint Resolve load_packets_quiet : keeps.
Lemma load_sections_quiet idx done_ : keeps quiet (load_sections idx done_).
Proof.
  revert done_. induction idx as [|i idx IH]; intros; simpl; [quiet|].
  unfold load_section, fill_bss. quiet.
Qed.
#[local] Hint Resolve load_sections_quiet : keeps.
(** The download of the images takes nothing. *)
Lemma dload_data_quiet : keeps quiet dload_data.
Proof. unfold dload_data. quiet. Qed.

End Quiet.

(** * Runs, step by step *)

Section Runs.
Context {W : Type}.

Lemma bind_Some {A B} (c : M W A) (k : A -> M W B) st w r :
  bind c k st w = Some r -> exists x st1 w1, c st w = Some (x, st1, w1) /\ k x st1 w1 = Some r.
Proof. unfold bind. intros H. destruct (c st w) as [[[x st1] w1]|]; [|done]. eauto. Qed.
Lemma bind_step {A B} (c : M W A) (k : A -> M W B) st w x st1 w1 :
  c st w = Some (x, st1, w1) -> bind c k st w = k x st1 w1.
Proof. unfold bind. by intros ->. Qed.
Lemma ret_Some {A} (x y : A) (st st' : dload_state) (w w' : W) :
  ret x st w = Some (y, st', w') -> y = x /\ st' = st /\ w' = w.
Proof. by intros [= <- <- <-]. Qed.
Lemma lift_Some {A} (o : option A) y st st' (w w' : W) :
  lift o st w = Some (y, st', w') -> o = Some y /\ st' = st /\ w' = w.
Proof. unfold lift. destruct o; [|done]. by intros [= <- <- <-]. Qed.
Lemma get_Some y st st' (w w' : W) : get st w = Some (y, st', w') -> y = st /\ st' = st /\ w' = w.
Proof. by intros [= <- <- <-]. Qed.
Lemma modify_Some f y st st' (w w' : W) :
  modify f st w = Some (y, st', w') -> st' = f st /\ w' = w.
Proof. by intros [= <- <- <-]. Qed.
Lemma call_Some {A} (f : W -> A * W) y st st' (w w' : W) :
  call f st w = Some (y, st', w') -> y = (f w).1 /\ st' = st /\ w' = (f w).2.
Proof. unfold call. destruct (f w). by intros [= <- <- <-]. Qed.
Lemma call__Some (f : W -> W) y st st' (w w' : W) :
  call_ f st w = Some (y, st', w') -> st' = st /\ w' = f w.
Proof. by intros [= <- <- <-]. Qed.
End Runs.

(** Takes a run apart into its steps. *)
Ltac run H :=
  repeat first
    [ apply bind_Some in H as (? & ? & ? & ?H & H)
    | apply ret_Some in H as (? & ? & ?); subst
    | match goal with
      | E : bind _ _ _ _ = Some _ |- _ => apply bind_Some in E as (? & ? & ? & ?H & E)
      | E : ret _ _ _ = Some _ |- _ => apply ret_Some in E as (? & ? & ?); subst
      | E : lift _ _ _ = Some _ |- _ => apply lift_Some in E as (? & ? & ?); subst
      | E : get _ _ = Some _ |- _ => apply get_Some in E as (? & ? & ?); subst
      | E : modify _ _ _ = Some _ |- _ => apply modify_Some in E as (? & ?); subst
      | E : call _ _ _ = Some _ |- _ => apply call_Some in E as (? & ? & ?); subst
      | E : call_ _ _ _ = Some _ |- _ => apply call__Some in E as (? & ?); subst
      end
    | progress cbv zeta beta in H ].

(** * What a load holds *)

Definition ptr {A} (o : option (Z * A)) : list Z := match o with Some (p, _) => [p] | None => [] end.
Definition handle_ptr (st : dload_state) : list Z := if myhandle st =? 0 then [] else [myhandle st].
(** The blocks of host memory, in the order in which they are allocated. *)
Definition held (st : dload_state) : list Z :=
  ptr (str_head st) ++ ptr (sect_hdrs st) ++ handle_ptr st ++ ptr (local_symtab st).
(** The memory of the allocated sections. *)
Definition loads (n : Z) (ss : list LDR_SECTION_INFO) : gmultiset Z :=
  list_to_set_disj (load_addr <$> take (Z.to_nat n) ss).
Definition taken (st : dload_state) : gmultiset Z := loads (allocated_secn_count st) (ldr_sections st).
Definition MAX_SECTIONS : Z := 2730.

Section Held.
Context {W : Type} `{Env : DlEnv W} `{Laws : !DlLaws W}.
(** The arguments of the load. *)
Variable a : dl_args.

(** A block [p] was allocated between the worlds. *)
Definition allocated (w : W) (p : Z) (w' : W) : Prop :=
  p <> 0 /\ p ∉ v_blocks w /\
  v_syms w' = v_syms w /\ v_blocks w' = v_blocks w ⊎ {[+ p +]} /\ v_target w' = v_target w /\
  forall q, q ∈ v_blocks w -> host_node_at q w' = host_node_at q w.

Lemma allocated_same w p (w1 w2 : W) : allocated w p w1 -> same_world w1 w2 -> allocated w p w2.
Proof.
  intros (H0 & Hp & Hs & Hb & Ht & Hn) (Hs2 & Hb2 & Ht2 & Hn2).
  unfold allocated. rewrite Hs2, Hb2, Ht2. repeat split; try done.
  intros q Hq. rewrite Hn2. by apply Hn.
Qed.

(** What holds while a load that started in [w0] goes on. *)
Record inv (w0 : W) (st : dload_state) (w : W) : Prop := {
  i_blocks : v_blocks w = v_blocks w0 ⊎ list_to_set_disj (held st);
  i_target : v_target w = v_target w0 ⊎ taken st;
  i_nodup : NoDup (held st);
  i_fresh : forall p, p ∈ held st -> p ∉ v_blocks w0;
  i_syms : exists added, v_syms w = added ++ v_syms w0 /\
             Forall (fun s => s.1.2 = myhandle st) added /\ (local_symtab st = None -> added = []);
  i_node : myhandle st <> 0 ->
             host_node_at (myhandle st) w = Some (Handle (new_handle (myhandle st)));
  i_alloc : myalloc st = false -> allocated_secn_count st = 0;
  i_myalloc : myalloc st = true -> a_alloc a = true;
  i_nohandle : myhandle st = 0 -> ldr_sections st = [];
  i_count : 0 <= allocated_secn_count st <= Z.of_nat (length (ldr_sections st));
  i_length : Z.of_nat (length (ldr_sections st)) <= MAX_SECTIONS
}.

Lemma held_resources st st' : resources st' = resources st -> held st' = held st.
Proof.
  unfold resources, held, handle_ptr. intros [= _ Hs Hc Hl Hh _ _]. rewrite Hh. unfold ptr.
  destruct (str_head st) as [[]|], (str_head st') as [[]|], (sect_hdrs st) as [[]|],
    (sect_hdrs st') as [[]|], (local_symtab st) as [[]|], (local_symtab st') as [[]|];
    simpl in *; by simplify_eq.
Qed.

Lemma inv_quiet w0 st w st' w' : quiet st w st' w' -> inv w0 st w -> inv w0 st' w'.
Proof.
  intros [Hr (Hs & Hb & Ht & Hn)] I.
  pose proof (held_resources _ _ Hr) as Hh. unfold resources in Hr.
  injection Hr as Hma Hst Hsc Hlo Hmh Hld Hct.
  destruct I as [I1 I2 I3 I4 (added & I5 & I5a & I5b) I6 I7 I7a I7b I8 I9].
  split; unfold taken in *; rewrite ?Hh, ?Hs, ?Hb, ?Ht, ?Hma, ?Hmh, ?Hld, ?Hct; try done.
  - exists added. do 2 (split; [done|]). intros E. apply I5b. rewrite E in Hlo.
    by destruct (local_symtab st).
  - intros Hne. rewrite Hn. by apply I6.
Qed.

Lemma held_blocks w0 st w p : inv w0 st w -> p ∈ held st -> p ∈ v_blocks w.
Proof.
  intros I Hp. rewrite (i_blocks _ _ _ I). apply gmultiset_elem_of_disj_union. right.
  by apply elem_of_list_to_set_disj.
Qed.
Lemma handle_held st : myhandle st <> 0 -> myhandle st ∈ held st.
Proof.
  intros H. unfold held, handle_ptr. rewrite (proj2 (Z.eqb_neq _ _) H). set_solver.
Qed.

(** Taking a block other than the handle. *)
Lemma inv_take w0 st w st' w' p :
  inv w0 st w -> allocated w p w' -> held st' = held st ++ [p] ->
  taken st' = taken st -> myhandle st' = myhandle st -> myalloc st' = myalloc st ->
  allocated_secn_count st' = allocated_secn_count st -> ldr_sections st' = ldr_sections st ->
  (local_symtab st' = None -> local_symtab st = None) -> inv w0 st' w'.
Proof.
  intros I (H0 & Hp & Hs & Hb & Ht & Hn) Hh Hta Hmh Hma Hct Hld Hlo.
  assert (Hnp : p ∉ held st) by (intros Hin; by eapply Hp, held_blocks).
  pose proof (handle_held st) as Hhd.
  destruct I as [I1 I2 I3 I4 (added & I5 & I5a & I5b) I6 I7 I7a I7b I8 I9].
  split; rewrite ?Hh, ?Hs, ?Hta, ?Ht, ?Hmh, ?Hma, ?Hct, ?Hld; try done.
  - rewrite Hb, I1. rewrite list_to_set_disj_app. simpl. multiset_solver.
  - apply list.NoDup_app. repeat split; [done| |apply NoDup_singleton].
    intros q Hq Hq2. apply list_elem_of_singleton in Hq2 as ->. done.
  - intros q Hq. apply elem_of_app in Hq as [Hq|Hq]; [by apply I4|].
    apply list_elem_of_singleton in Hq as ->. intros Hin. apply Hp. rewrite I1. multiset_solver.
  - exists added. do 2 (split; [done|]). auto.
  - intros Hne. rewrite Hn; [by apply I6|]. rewrite I1. apply gmultiset_elem_of_disj_union. right.
    apply elem_of_list_to_set_disj. by apply Hhd.
Qed.

(** * The phases that take something *)

Lemma allocate_Some n st st' (w w' : W) r :
  call (Allocate n) st w = Some (r, st', w') ->
  st' = st /\ match r with None => same_world w w' | Some (p, _) => allocated w p w' end.
Proof.
  intros H. apply call_Some in H as (-> & -> & ->). split; [done|]. exact (allocate_law n w).
Qed.

Lemma dload_error_run msg st st' (w w' : W) x : dload_error msg st w = Some (x, st', w') -> quiet st w st' w'.
Proof. apply dload_error_quiet. Qed.

Lemma quiet_sect st st' (w w' : W) : quiet st w st' w' ->
  fst <$> sect_hdrs st' = fst <$> sect_hdrs st /\ fst <$> local_symtab st' = fst <$> local_symtab st /\
  fst <$> str_head st' = fst <$> str_head st /\ myhandle st' = myhandle st.
Proof. by intros [[= _ H1 H2 H3 H4 _ _] _]. Qed.

(** Nothing but strings and section records has been taken. *)
Definition no_handle (st : dload_state) : Prop :=
  (myhandle st = 0 /\ local_symtab st = None) /\ allocated_secn_count st = 0 /\ ldr_sections st = [].

Lemma no_handle_quiet st st' (w w' : W) : quiet st w st' w' -> no_handle st -> no_handle st'.
Proof.
  intros [[= _ _ _ Hlo Hm Hld Hct] _] [[H0 Hl] [Hc Hs]]. rewrite Hl in Hlo.
  repeat split; try congruence. by destruct (local_symtab st').
Qed.
Lemma sect_none_quiet st st' (w w' : W) : quiet st w st' w' -> sect_hdrs st = None -> sect_hdrs st' = None.
Proof. intros Hq H. apply quiet_sect in Hq as (E & _). rewrite H in E. by destruct (sect_hdrs st'). Qed.
Lemma str_none_quiet st st' (w w' : W) : quiet st w st' w' -> str_head st = None -> str_head st' = None.
Proof. intros Hq H. apply quiet_sect in Hq as (_ & _ & E & _). rewrite H in E. by destruct (str_head st'). Qed.

Lemma dload_strings_inv w0 b st w x st' w' :
  inv w0 st w -> str_head st = None -> sect_hdrs st = None -> no_handle st ->
  dload_strings b st w = Some (x, st', w') ->
  inv w0 st' w' /\ sect_hdrs st' = None /\ no_handle st'.
Proof.
  intros I Hstr Hsec Hnh H. unfold dload_strings in H.
  apply bind_Some in H as (? & ? & ? & E & H). apply get_Some in E as (-> & -> & ->).
  set (ssiz := DOFF_ALIGN _) in H. destruct (ssiz =? 0).
  { apply ret_Some in H as (_ & -> & ->). done. }
  apply bind_Some in H as (r & st1 & w1 & E & H). apply allocate_Some in E as (-> & Hr).
  destruct r as [[p junk]|].
  - apply bind_Some in H as (bs & st2 & w2 & E & H). apply call_Some in E as (Hbs & -> & ->).
    pose proof (read_same ssiz w1) as Hrd.
    apply bind_Some in H as (u & st3 & w3 & E & H).
    assert (Hq3 : quiet st (read_buffer ssiz w1).2 st3 w3).
    { destruct (negb _); [by apply dload_error_run in E|].
      apply ret_Some in E as (_ & -> & ->). done. }
    clear E. apply bind_Some in H as (bs' & st4 & w4 & E & H). apply reorder_if_quiet in E.
    pose proof (quiet_trans _ _ _ _ _ _ Hq3 E) as Hq4. clear Hq3 E.
    apply bind_Some in H as (u' & st5 & w5 & E & H). apply modify_Some in E as (-> & ->).
    pose proof (allocated_same _ _ _ _ Hr (same_trans _ _ _ Hrd (proj2 Hq4))) as Ha.
    apply bind_Some in H as (c & st6 & w6 & E & H). apply lift_Some in E as (_ & -> & ->).
    set (st5 := set_str_head (Some (p, bs')) st4) in H.
    assert (Hq5 : quiet st5 w4 st' w').
    { destruct (_ && _); [by apply dload_error_run in H|].
      apply ret_Some in H as (_ & -> & ->). done. }
    assert (Hnh4 : no_handle st4) by (by eapply no_handle_quiet).
    assert (Hsec4 : sect_hdrs st4 = None) by (by eapply sect_none_quiet).
    split; [|split; [by eapply sect_none_quiet | by eapply no_handle_quiet]].
    eapply inv_quiet; [exact Hq5|].
    pose proof (quiet_sect _ _ _ _ Hq4) as (_ & Hlo & _ & Hmh).
    destruct Hq4 as [Hr4 _]. unfold resources in Hr4. injection Hr4 as Hma _ _ _ _ Hld Hct.
    apply (inv_take w0 st w st5 w4 p); try done.
    + unfold held, handle_ptr. simpl. destruct Hnh as [[Hn0 Hn1] _], Hnh4 as [[Hn2 Hn3] _].
      by rewrite Hstr, Hsec, Hsec4, Hn0, Hn1, Hn2, Hn3.
    + unfold taken. simpl. by rewrite Hct, Hld.
    + by destruct Hnh as [[]].
  - pose proof (dload_error_run _ _ _ _ _ _ H) as Hq.
    assert (Hq' : quiet st w st' w') by (eapply quiet_trans; [by apply quiet_world|done]).
    split; [by eapply inv_quiet|]. split; [by eapply sect_none_quiet|by eapply no_handle_quiet].
Qed.

Lemma dload_sections_inv w0 st w x st' w' :
  inv w0 st w -> sect_hdrs st = None -> no_handle st ->
  dload_sections st w = Some (x, st', w') -> inv w0 st' w' /\ no_handle st'.
Proof.
  intros I Hsec Hnh H. unfold dload_sections in H.
  apply bind_Some in H as (? & ? & ? & E & H). apply get_Some in E as (-> & -> & ->).
  apply bind_Some in H as (r & st1 & w1 & E & H). apply allocate_Some in E as (-> & Hr).
  destruct r as [[p junk]|].
  - apply bind_Some in H as (u & st2 & w2 & E & H). apply modify_Some in E as (-> & ->).
    set (st2 := set_sect_hdrs _ st) in H.
    assert (I2 : inv w0 st2 w1).
    { apply (inv_take w0 st w st2 w1 p); try done.
      unfold held, handle_ptr. simpl. destruct Hnh as [[Hn0 Hn1] _]. rewrite Hsec, Hn0, Hn1. simpl.
      by rewrite !List.app_nil_r. }
    assert (Hnh2 : no_handle st2) by done.
    enough (Hq : quiet st2 w1 st' w') by (split; [by eapply inv_quiet|by eapply no_handle_quiet]).
    apply bind_Some in H as (r & st3 & w3 & E & H). apply read_exactly_quiet in E.
    destruct r as [bs|]; [|eapply quiet_trans; [exact E|by eapply dload_error_run]].
    apply bind_Some in H as (bs' & st4 & w4 & E4 & H). apply reorder_if_quiet in E4.
    pose proof (quiet_trans _ _ _ _ _ _ E E4) as Hq4.
    apply bind_Some in H as (u' & st5 & w5 & E5 & H). apply modify_Some in E5 as (-> & ->).
    eapply quiet_trans; [exact Hq4|]. set (st5 := set_sect_hdrs _ st4) in H.
    apply (quiet_trans _ _ st5 w4).
    { apply quiet_state. pose proof (quiet_sect _ _ _ _ Hq4) as (Hs & _). unfold resources. simpl.
      rewrite Hs. reflexivity. }
    apply bind_Some in H as (c & st6 & w6 & E6 & H). apply lift_Some in E6 as (_ & -> & ->).
    destruct (negb _); [by eapply dload_error_run|]. by apply ret_Some in H as (_ & -> & ->).
  - assert (Hq : quiet st w st' w')
      by (eapply quiet_trans; [by apply quiet_world|by eapply dload_error_run]).
    split; [by eapply inv_quiet|by eapply no_handle_quiet].
Qed.

(** ** Sections *)

Definition needs (l : list doff_scnhdr_t) (i : nat) : bool :=
  match l !! i with Some s => DS_NEEDS_ALLOCATION s | None => false end.
(** The sections that need memory come first in the file. *)
Definition sections_first (l : list doff_scnhdr_t) : Prop :=
  forall i j, (i < j)%nat -> needs l j = true -> needs l i = true.

Lemma put_scnhdr_run i s st st' (w w' : W) x :
  put_scnhdr i s st w = Some (x, st', w') ->
  w' = w /\ exists p l, sect_hdrs st = Some (p, l) /\
    st' = set_sect_hdrs (Some (p, <[i := s]> l)) st.
Proof.
  unfold put_scnhdr. intros H. run H. destruct (sect_hdrs _) as [[p l]|] eqn:E; [|done].
  simplify_eq. unfold arr_set in *. rewrite Nat2Z.id in *. case_match; [|done].
  simplify_eq. eauto.
Qed.
Lemma put_ldrsec_run i s st st' (w w' : W) x :
  put_ldrsec i s st w = Some (x, st', w') ->
  w' = w /\ (i < length (ldr_sections st))%nat /\
  st' = set_ldr_sections (<[i := s]> (ldr_sections st)) st.
Proof.
  unfold put_ldrsec. intros H. run H. unfold arr_set in *. rewrite Nat2Z.id in *.
  case_match eqn:E; [|done]. simplify_eq. apply andb_true_iff in E as [_ E]. split; [done|].
  split; [lia|done].
Qed.
Lemma put_scnhdr_resources p l l' st :
  sect_hdrs st = Some (p, l) -> resources (set_sect_hdrs (Some (p, l')) st) = resources st.
Proof. intros H. unfold resources. simpl. by rewrite H. Qed.

Lemma needs_insert l i s s0 j :
  l !! i = Some s0 -> ds_flags s = ds_flags s0 -> needs (<[i := s]> l) j = needs l j.
Proof.
  intros Hi Hf. unfold needs. destruct (decide (i = j)) as [->|Hne].
  - rewrite list_lookup_insert_eq by (by eapply lookup_lt_Some). rewrite Hi.
    unfold DS_NEEDS_ALLOCATION. by rewrite Hf.
  - by rewrite list_lookup_insert_ne.
Qed.

(** Writing a section of the handle that is not in use yet. *)
Lemma inv_put_ldr w0 st w i s :
  inv w0 st w -> allocated_secn_count st <= Z.of_nat i ->
  inv w0 (set_ldr_sections (<[i := s]> (ldr_sections st)) st) w.
Proof.
  intros [I1 I2 I3 I4 I5 I6 I7 I7a I7b I8 I9] Hi.
  split; try done; simpl; rewrite ?length_insert; try done; [|intros H0; by rewrite I7b].
  rewrite I2. f_equal. unfold taken, loads. simpl. by rewrite take_insert_ge by lia.
Qed.

(** Counting a section whose memory was allocated. *)
Lemma inv_grow w0 st w w' s :
  inv w0 st w -> myalloc st = true ->
  ldr_sections st !! Z.to_nat (allocated_secn_count st) = Some s ->
  v_syms w' = v_syms w -> v_blocks w' = v_blocks w -> v_target w' = v_target w ⊎ {[+ load_addr s +]} ->
  (forall q, host_node_at q w' = host_node_at q w) ->
  allocated_secn_count (set_allocated_secn_count (u32 (allocated_secn_count st + 1)) st)
    = allocated_secn_count st + 1 /\
  inv w0 (set_allocated_secn_count (u32 (allocated_secn_count st + 1)) st) w'.
Proof.
  intros [I1 I2 I3 I4 I5 I6 I7 I7a I7b I8 I9] Hal Hs Hv1 Hv2 Hv3 Hn.
  pose proof (lookup_lt_Some _ _ _ Hs) as Hlt. unfold MAX_SECTIONS in *.
  assert (Hu : u32 (allocated_secn_count st + 1) = allocated_secn_count st + 1)
    by (apply uwrap_small; lia).
  rewrite Hu. split; [done|].
  split; simpl; rewrite ?Hv1, ?Hv2, ?Hv3; try done.
  - rewrite I2. unfold taken, loads. simpl.
    replace (Z.to_nat (allocated_secn_count st + 1)) with (Datatypes.S (Z.to_nat (allocated_secn_count st))) by lia.
    rewrite (take_S_r _ _ _ Hs), fmap_app, list_to_set_disj_app. simpl. multiset_solver.
  - intros H. rewrite Hn. by apply I6.
  - intros H. congruence.
  - unfold MAX_SECTIONS in *. lia.
Qed.

(** Where the loop over the sections stands before the section [i]. *)
Definition at_section (w0 : W) (l0 : list doff_scnhdr_t) (i : nat) (st : dload_state) (w : W) : Prop :=
  inv w0 st w /\ local_symtab st = None /\
  (exists p l, sect_hdrs st = Some (p, l) /\ forall j, needs l j = needs l0 j) /\
  allocated_secn_count st <= Z.of_nat i /\
  (allocated_secn_count st = Z.of_nat i \/ forall j, (i <= j)%nat -> needs l0 j = false).

Lemma local_none_quiet st st' (w w' : W) :
  quiet st w st' w' -> local_symtab st = None -> local_symtab st' = None.
Proof. intros Hq H. apply quiet_sect in Hq as (_ & E & _). rewrite H in E. by destruct (local_symtab st'). Qed.

Lemma at_section_quiet w0 l0 i st w st' w' :
  quiet st w st' w' -> sect_hdrs st' = sect_hdrs st -> at_section w0 l0 i st w -> at_section w0 l0 i st' w'.
Proof.
  intros Hq Hs (I & Hl & Hse & Hle & Hc). pose proof Hq as [[= _ _ _ _ _ _ Hct] _].
  unfold at_section. rewrite Hs, Hct. split; [by eapply inv_quiet|]. split; [by eapply local_none_quiet|done].
Qed.
Lemma at_section_put w0 l0 i k st w p l s s0 :
  at_section w0 l0 k st w -> sect_hdrs st = Some (p, l) -> l !! i = Some s0 ->
  ds_flags s = ds_flags s0 -> at_section w0 l0 k (set_sect_hdrs (Some (p, <[i := s]> l)) st) w.
Proof.
  intros (I & Hl & (p' & l' & Hse & Hne) & Hle & Hc) Hsec Hi Hf. rewrite Hsec in Hse. simplify_eq.
  split; [eapply inv_quiet; [apply quiet_state; by eapply put_scnhdr_resources|done]|].
  split; [done|]. split; [|done]. exists p', (<[i := s]> l'). split; [done|].
  intros j. rewrite <- Hne. by eapply needs_insert.
Qed.

(** A section that needs memory, once its record is in place. *)
Lemma allocate_needed w0 l0 i st w w1 asec asec' l p :
  at_section w0 l0 i st w -> allocated_secn_count st = Z.of_nat i -> myalloc st = true ->
  (i < length (ldr_sections st))%nat -> sect_hdrs st = Some (p, l) ->
  v_syms w1 = v_syms w /\ v_blocks w1 = v_blocks w /\ v_target w1 = v_target w ⊎ {[+ load_addr asec' +]} /\
    (forall q, host_node_at q w1 = host_node_at q w) ->
  forall s' s0 x st' w',
  l !! i = Some s0 -> ds_flags s' = ds_flags s0 ->
  (put_ldrsec i asec' ;;; put_scnhdr i s' ;;;
   modify (fun st => set_allocated_secn_count (u32 (allocated_secn_count st + 1)) st) ;;; ret true)
    (set_ldr_sections (<[i := asec]> (ldr_sections st)) st) w1 = Some (x, st', w') ->
  at_section w0 l0 (S i) st' w'.
Proof.
  intros Hat Hcnt Hal Hlt Hsec (Hv1 & Hv2 & Hv3 & Hv4) s' s0 x st' w' Hi Hf H.
  apply bind_Some in H as (u & st1 & w2 & E & H). apply put_ldrsec_run in E as (-> & _ & ->).
  apply bind_Some in H as (u' & st2 & w3 & E & H).
  apply put_scnhdr_run in E as (-> & p' & l' & Hsec' & ->). simpl in Hsec'. simplify_eq.
  run H. simpl. rewrite list_insert_insert_eq.
  set (st1 := set_ldr_sections (<[i := asec']> (ldr_sections st)) st).
  assert (Hat1 : at_section w0 l0 i st1 w).
  { destruct Hat as (I & Hl & Hse & Hle & Hc). split; [apply inv_put_ldr; [done|lia]|]. done. }
  pose proof (at_section_put _ _ i _ _ _ _ _ s' _ Hat1 Hsec Hi Hf) as (I & Hl & Hse & Hle & Hc).
  match type of I with inv _ ?s _ => set (st2 := s) in I, Hl, Hse, Hle, Hc end.
  destruct (inv_grow w0 st2 w w1 asec' I Hal) as [Hu I']; try done.
  { unfold st2. simpl. rewrite Hcnt, Nat2Z.id. by apply list_lookup_insert_eq. }
  split; [exact I'|]. split; [done|]. split; [exact Hse|].
  match goal with |- context [allocated_secn_count ?s <= _] =>
    change (allocated_secn_count s) with
      (allocated_secn_count (set_allocated_secn_count (u32 (allocated_secn_count st2 + 1)) st2)) end.
  rewrite Hu. unfold st2. simpl. rewrite Hcnt. split; [lia|left; lia].
Qed.

Lemma allocate_section_inv w0 l0 i st w x st' w' :
  sections_first l0 -> at_section w0 l0 i st w -> allocate_section i st w = Some (x, st', w') ->
  inv w0 st' w' /\ local_symtab st' = None /\ (x = true -> at_section w0 l0 (S i) st' w').
Proof.
  intros Hfirst Hat H. unfold allocate_section in H.
  apply bind_Some in H as (? & ? & ? & E & H). apply get_Some in E as (-> & -> & ->).
  apply bind_Some in H as (tbl & ? & ? & E & H). apply lift_Some in E as (Htbl & -> & ->).
  apply bind_Some in H as (shp0 & ? & ? & E & H). apply lift_Some in E as (Hshp & -> & ->).
  cbv zeta in H. destruct tbl as [p l]. simpl in Hshp.
  apply bind_Some in H as (shp & st1 & w1 & E & H).
  assert (Hnm : quiet st w st1 w1 /\ sect_hdrs st1 = sect_hdrs st /\ ds_flags shp = ds_flags shp0).
  { destruct (_ <? _); run E; [done|].
    match goal with D : dload_error _ _ _ = _ |- _ =>
      pose proof (dload_error_run _ _ _ _ _ _ D); unfold dload_error in D; run D end. done. }
  destruct Hnm as (Hq & Hs1 & Hf). clear E.
  pose proof (at_section_quiet _ _ _ _ _ _ _ Hq Hs1 Hat) as Hat1. clear Hat Hq.
  rewrite Htbl in Hs1. clear Htbl.
  apply bind_Some in H as (u & st2 & w2 & E & H).
  apply put_scnhdr_run in E as (-> & p' & l' & Hsec' & ->). rewrite Hs1 in Hsec'. simplify_eq.
  pose proof (at_section_put _ _ i _ _ _ _ _ shp _ Hat1 Hs1 Hshp Hf) as Hat2. clear Hat1.
  set (st2 := set_sect_hdrs (Some (p', <[i := shp]> l')) st1) in *.
  assert (Hsec2 : sect_hdrs st2 = Some (p', <[i := shp]> l')) by done.
  assert (Hi : <[i := shp]> l' !! i = Some shp)
    by (apply list_lookup_insert_eq; by eapply lookup_lt_Some).
  assert (Hneed : needs l0 i = DS_NEEDS_ALLOCATION shp).
  { destruct Hat2 as (_ & _ & (p2 & l2 & Hse & Hne) & _). rewrite Hsec2 in Hse. injection Hse as <- <-.
    rewrite <- Hne. unfold needs. by rewrite Hi. }
  destruct (DS_NEEDS_ALLOCATION shp) eqn:Hn.
  - assert (Hcnt : allocated_secn_count st2 = Z.of_nat i).
    { destruct Hat2 as (_ & _ & _ & _ & [Hc|Hc]); [done|]. rewrite Hc in Hneed; [done|lia]. }
    apply bind_Some in H as (u' & st3 & w3 & E & H). apply put_ldrsec_run in E as (-> & Hlt & ->).
    set (asec := set_sec_context 0 (as_ldrsec shp)) in H.
    apply bind_Some in H as (u'' & st4 & w4 & E & H). apply modify_Some in E as (-> & ->).
    apply bind_Some in H as (? & ? & ? & E & H). apply get_Some in E as (-> & -> & ->).
    apply bind_Some in H as (g & ? & ? & E & H). apply lift_Some in E as (Hg & -> & ->).
    apply bind_Some in H as (r & st5 & w5 & E & H). apply call_Some in E as (Hr & -> & ->).
    set (st2d := set_debug_string_size (ds_offset shp0) st2).
    assert (Hat3 : at_section w0 l0 i st2d w1) by (by apply (at_section_quiet _ _ _ st2 w1)).

    pose proof (talloc_law asec (DS_ALIGNMENT (type asec)) w1) as (T1 & T2 & T3 & T4).
    rewrite <- Hr in T3. destruct r as [asec'|].
    + assert (Hat4 : at_section w0 l0 (S i) st' w').
      { refine (allocate_needed w0 l0 i st2d w1 _ asec asec' _ p' Hat3 Hcnt _ Hlt Hsec2 _ _ shp x st' w' Hi _ H);
          [|done|done]. simpl in Hg. unfold st2d. simpl. simpl in *. by destruct (myalloc st1). }
      split; [by apply Hat4|]. split; [by apply Hat4|]. done.
    + apply bind_Some in H as (u3 & st6 & w6 & E & H). apply ret_Some in H as (-> & -> & ->).
      apply dload_error_run in E.
      assert (Hq : quiet (set_ldr_sections (<[i := asec]> (ldr_sections st2d)) st2d) w1 st6 w6).
      { eapply quiet_trans; [|exact E]. split; [done|]. unfold same_world.
        rewrite T1, T2, T3. repeat split; try done. multiset_solver. }
      destruct Hat3 as (I & Hl & _ & Hle & _).
      split; [|split; [by eapply local_none_quiet|done]].
      eapply inv_quiet; [exact Hq|]. by apply inv_put_ldr.
  - apply ret_Some in H as (-> & -> & ->). destruct Hat2 as (I & Hl & Hse & Hle & Hc).
    split; [done|]. split; [done|]. intros _. do 3 (split; [done|]). split; [lia|].
    right. intros j Hj. destruct (needs l0 j) eqn:Ej; [|done].
    destruct (decide (j = i)) as [->|Hne]; [congruence|].
    by rewrite (Hfirst i j ltac:(lia) Ej) in Hneed.
Qed.

Lemma allocate_loop_inv w0 l0 n i st w x st' w' :
  sections_first l0 -> at_section w0 l0 i st w -> allocate_loop (seq i n) st w = Some (x, st', w') ->
  inv w0 st' w' /\ local_symtab st' = None.
Proof.
  intros Hf. revert i st w. induction n as [|n IH]; intros i st w Hat H; simpl in H.
  { apply ret_Some in H as (-> & -> & ->). by destruct Hat as (? & ? & _). }
  apply bind_Some in H as (more & st1 & w1 & E & H).
  apply (allocate_section_inv w0 l0) in E as (I & Hl & Hm); [|done|done].
  destruct more; [by eapply IH; [apply Hm|exact H]|].
  by apply ret_Some in H as (-> & -> & ->).
Qed.

Lemma decode_array_length {A} (decode : list Z -> A) k n bs : length (decode_array decode k n bs) = n.
Proof. revert bs. induction n; intros bs; simpl; [done|]. by f_equal. Qed.

(** Taking the handle. *)
Lemma inv_take_handle w0 st w w1 p ss :
  inv w0 st w -> no_handle st -> allocated w p w1 -> Z.of_nat (length ss) <= MAX_SECTIONS ->
  inv w0 (set_ldr_sections ss (set_myhandle p st)) (host_store p (Handle (new_handle p)) w1).
Proof.
  intros I [[Hm Hl] [Hc Hs]] (H0 & Hp & Hv1 & Hv2 & Hv3 & Hn) Hss.
  assert (Hnp : p ∉ held st) by (intros Hin; by eapply Hp, held_blocks).
  pose proof (store_law p (Handle (new_handle p)) w1) as (S1 & S2 & S3 & S4 & S5).
  assert (Hh : held (set_ldr_sections ss (set_myhandle p st)) = held st ++ [p]).
  { unfold held, handle_ptr. simpl. rewrite Hl, Hm, (proj2 (Z.eqb_neq _ _) H0). simpl.
    by rewrite List.app_nil_r, <- List.app_assoc. }
  destruct I as [I1 I2 I3 I4 (added & I5 & I5a & I5b) I6 I7 I7a I7b I8 I9].
  assert (Ht : taken (set_ldr_sections ss (set_myhandle p st)) = taken st).
  { unfold taken, loads. simpl. by rewrite Hc, Hs. }
  split; rewrite ?Hh, ?Ht, ?S1, ?S2, ?S3, ?Hv1, ?Hv2, ?Hv3; try done.
  - rewrite I1, list_to_set_disj_app. simpl. multiset_solver.
  - apply list.NoDup_app. repeat split; [done| |apply NoDup_singleton].
    intros q Hq Hq2. apply list_elem_of_singleton in Hq2 as ->. done.
  - intros q Hq. apply elem_of_app in Hq as [Hq|Hq]; [by apply I4|].
    apply list_elem_of_singleton in Hq as ->. intros Hin. apply Hp. rewrite I1. multiset_solver.
  - exists []. rewrite I5, (I5b Hl). done.
  - simpl. rewrite Hc. lia.
Qed.

Lemma allocate_sections_inv w0 st w x st' w' :
  inv w0 st w -> no_handle st ->
  (forall p l, sect_hdrs st = Some (p, l) -> sections_first l) ->
  allocate_sections st w = Some (x, st', w') -> inv w0 st' w' /\ local_symtab st' = None.
Proof.
  intros I Hnh Hf H. pose proof Hnh as [[Hm Hl] [Hc _]]. unfold allocate_sections in H.
  apply bind_Some in H as (? & ? & ? & E & H). apply get_Some in E as (-> & -> & ->).
  destruct (df_no_scns _ =? 0) eqn:Hnz; [by apply ret_Some in H as (_ & -> & ->)|].
  destruct (_ && _).
  { apply dload_error_run in H. split; [by eapply inv_quiet|by eapply local_none_quiet]. }
  apply bind_Some in H as (r & st1 & w1 & E & H). apply allocate_Some in E as (-> & Hr).
  destruct r as [[p junk]|].
  - apply bind_Some in H as (? & ? & ? & E & H). apply call__Some in E as (-> & ->).
    apply bind_Some in H as (? & ? & ? & E & H). apply modify_Some in E as (-> & ->).
    apply bind_Some in H as (? & ? & ? & E & H). apply modify_Some in E as (-> & ->).
    match type of H with context [set_ldr_sections ?s] => set (ss := s) in H end.
    assert (Hss : Z.of_nat (length ss) <= MAX_SECTIONS).
    { unfold ss. rewrite decode_array_length. unfold MAX_SECTIONS, MY_HANDLE_SIZE, LDR_SECTION_SIZE.
      match goal with |- context [u16 ?v] => pose proof (uwrap_range 16 v ltac:(lia)) end.
      change (2 ^ 16) with 65536 in *.
      match goal with |- context [(?a - 28) / 24] =>
        assert ((a - 28) / 24 <= 2730) by (apply Z.div_le_upper_bound; lia) end. lia. }
    pose proof (inv_take_handle w0 st w w1 p ss I Hnh Hr Hss) as I2.
    apply bind_Some in H as (done_ & st3 & w3 & E & H).
    set (st2 := set_ldr_sections ss (set_myhandle p st)) in *.
    assert (I3 : inv w0 st3 w3 /\ local_symtab st3 = None).
    { destruct (sect_hdrs st) as [[ps l]|] eqn:Hsec.
      - apply (allocate_loop_inv w0 l) in E; [done|by eapply Hf|].
        split; [done|]. split; [done|]. split; [by exists ps, l|].
        simpl. rewrite Hc. split; [lia|by left].
      - destruct (Z.to_nat (df_no_scns (dfile_hdr st))) as [|n] eqn:En.
        + simpl in E. by apply ret_Some in E as (-> & -> & ->).
        + simpl in E. unfold allocate_section in E. exfalso.
          apply bind_Some in E as (? & ? & ? & E & _).
          apply bind_Some in E as (? & ? & ? & E1 & E). apply get_Some in E1 as (-> & -> & ->).
          apply bind_Some in E as (? & ? & ? & E & _). apply lift_Some in E as (E & _).
          unfold st2 in E. simpl in E. congruence. }
    destruct done_; [|by apply ret_Some in H as (_ & -> & ->)].
    assert (Hq : quiet st3 w3 st' w').
    { run H. split; [reflexivity|done]. }
    destruct I3 as [I3 Hl3]. split; [by eapply inv_quiet|by eapply local_none_quiet].
  - assert (Hq : quiet st w st' w')
      by (eapply quiet_trans; [by apply quiet_world|by eapply dload_error_run]).
    split; [by eapply inv_quiet|by eapply local_none_quiet].
Qed.

(** ** Symbols *)

(** Symbols of the module were added, and nothing else was taken. *)
Definition posts (st : dload_state) (w : W) (st' : dload_state) (w' : W) : Prop :=
  resources st' = resources st /\ v_blocks w' = v_blocks w /\ v_target w' = v_target w /\
  (forall q, host_node_at q w' = host_node_at q w) /\
  exists added, v_syms w' = added ++ v_syms w /\ Forall (fun s => s.1.2 = myhandle st) added.

Lemma posts_trans st w st1 w1 st2 w2 : posts st w st1 w1 -> posts st1 w1 st2 w2 -> posts st w st2 w2.
Proof.
  intros (Hr & Hb & Ht & Hn & l & Hs & Hl) (Hr1 & Hb1 & Ht1 & Hn1 & l1 & Hs1 & Hl1).
  assert (Hm : myhandle st1 = myhandle st) by (unfold resources in Hr; by injection Hr).
  unfold posts. rewrite Hr1, Hb1, Ht1. do 3 (split; [done|]). split; [intros q; by rewrite Hn1|].
  exists (l1 ++ l). split; [by rewrite Hs1, Hs, List.app_assoc|]. rewrite Hm in Hl1.
  by apply Forall_app.
Qed.
Lemma quiet_posts st w st' w' : quiet st w st' w' -> posts st w st' w'.
Proof. intros [Hr (Hs & Hb & Ht & Hn)]. do 4 (split; [done|]). by exists []. Qed.
Lemma posts_refl st w : posts st w st w.
Proof. by apply quiet_posts. Qed.

Lemma put_local_quiet i s : keeps quiet (put_local i s).
Proof.
  intros st w x st' w' H. unfold put_local in H. run H.
  destruct (local_symtab _) as [[p l]|] eqn:E; [|done]. simplify_eq. split; [|done].
  unfold resources. simpl. by rewrite E.
Qed.
#[local] Hint Resolve put_local_quiet dload_error_quiet read_exactly_quiet reorder_if_quiet : keeps.

Ltac quiet_prim :=
  first [ exact quiet_refl | exact quiet_trans
        | apply quiet_world;
          first [ apply read_same | apply find_same | apply report_same ]
        | apply quiet_state; reflexivity ].

Lemma symbol_name_quiet s : keeps quiet (symbol_name s).
Proof. unfold symbol_name. keeps_with quiet_prim. Qed.
Lemma put_class_quiet i s : keeps quiet (put_class i s).
Proof. unfold put_class. keeps_with quiet_prim. Qed.
Lemma resolve_symbol_quiet s nm : keeps quiet (resolve_symbol s nm).
Proof. unfold resolve_symbol, section_delta. keeps_with quiet_prim. Qed.
#[local] Hint Resolve symbol_name_quiet put_class_quiet resolve_symbol_quiet : keeps.

Lemma post_symbol nm v (c : M W bool) :
  keeps quiet c ->
  keeps posts (st <- get ;;
               match nm with
               | Some nm => added <- call (Add_To_Symbol_Table nm (myhandle st) v) ;; ret tt
               | None => ret tt
               end ;;; c).
Proof.
  intros Hc st w x st' w' H.
  apply bind_Some in H as (? & ? & ? & E & H). apply get_Some in E as (-> & -> & ->).
  apply bind_Some in H as (u & st1 & w1 & E & H). apply Hc, quiet_posts in H.
  eapply posts_trans; [|exact H]. clear H. destruct nm as [nm|]; run E; [|apply posts_refl].
  pose proof (add_law nm (myhandle st) v w) as (Hs & Hb & Ht & Hn).
  do 4 (split; [done|]). rewrite Hs. destruct (_.1); [|by exists []].
  exists [(nm, myhandle st, v)]. split; [done|]. by apply Forall_singleton.
Qed.

Lemma process_symbol_posts i s : keeps posts (process_symbol i s).
Proof.
  unfold process_symbol.
  apply keeps_bind; [exact posts_trans|eapply keeps_weaken; [exact quiet_posts|apply symbol_name_quiet]|].
  intros nm. apply keeps_bind; [exact posts_trans|eapply keeps_weaken; [exact quiet_posts|apply put_class_quiet]|].
  intros u. apply keeps_bind; [exact posts_trans|eapply keeps_weaken; [exact quiet_posts|apply resolve_symbol_quiet]|].
  intros r. destruct r as [|v d|v d].
  - apply keeps_ret, posts_refl.
  - eapply keeps_weaken; [exact quiet_posts|]. keeps_with quiet_prim.
  - apply post_symbol. keeps_with quiet_prim.
Qed.

Ltac posts_prim :=
  first [ exact posts_refl | exact posts_trans | apply process_symbol_posts
        | eapply keeps_weaken; [exact quiet_posts | solve [eauto with keeps nocore]] ].

Lemma process_symbols_posts i ss : keeps posts (process_symbols i ss).
Proof. revert i. induction ss as [|s ss IH]; intros i; simpl; keeps_with posts_prim. Qed.
#[local] Hint Resolve process_symbols_posts : keeps.
Lemma read_symbols_posts fuel i left checks : keeps posts (read_symbols fuel i left checks).
Proof. revert i left checks. induction fuel as [|fuel IH]; intros; simpl; keeps_with posts_prim. Qed.

Lemma dload_symbols_inv w0 st w x st' w' :
  inv w0 st w -> local_symtab st = None -> dload_symbols st w = Some (x, st', w') -> inv w0 st' w'.
Proof.
  intros I Hl H. unfold dload_symbols in H.
  apply bind_Some in H as (? & ? & ? & E & H). apply get_Some in E as (-> & -> & ->).
  destruct (_ =? 0); [by apply ret_Some in H as (_ & -> & ->)|].
  apply bind_Some in H as (r & st1 & w1 & E & H). apply allocate_Some in E as (-> & Hr).
  destruct r as [[p junk]|].
  - apply bind_Some in H as (u & st2 & w2 & E & H). apply modify_Some in E as (-> & ->).
    set (st2 := set_local_symtab _ st) in H.
    assert (I2 : inv w0 st2 w1).
    { apply (inv_take w0 st w st2 w1 p); try done.
      unfold held, handle_ptr. simpl. rewrite Hl. simpl. by rewrite !List.app_nil_r, <- !List.app_assoc. }
    apply read_symbols_posts in H as (Hrs & Hb & Ht & Hn & added & Hs & Ha).
    assert (Hq : inv w0 st' w1) by (eapply inv_quiet; [by apply quiet_state|exact I2]).
    destruct Hq as [I1 J2 I3 I4 (a0 & I5 & I5a & I5b) I6 I7 I7a I7b I8 I9].
    split; rewrite ?Hb, ?Ht; try done.
    + exists (added ++ a0). split; [by rewrite Hs, I5, List.app_assoc|]. split.
      * apply Forall_app. split; [|done].
        assert (Hm : myhandle st' = myhandle st2) by (unfold resources in Hrs; by injection Hrs).
        by rewrite Hm.
      * intros Hln. exfalso. unfold resources in Hrs. injection Hrs as _ _ _ Hlo _ _ _.
        by rewrite Hln in Hlo.
    + intros Hne. rewrite Hn. by apply I6.
  - eapply inv_quiet; [|exact I].
    eapply quiet_trans; [by apply quiet_world|by eapply dload_error_run].
Qed.

(** ** The phases in order *)

Lemma unless_errors_run (c : M W unit) st w x st' w' :
  unless_errors c st w = Some (x, st', w') ->
  (dload_errcount st = 0 /\ c st w = Some (x, st', w')) \/ (dload_errcount st <> 0 /\ st' = st /\ w' = w).
Proof.
  unfold unless_errors, no_errors. intros H. run H. destruct (dload_errcount _ =? 0) eqn:E.
  - left. split; [lia|done].
  - right. run H. split; [lia|done].
Qed.

Lemma start_inv options w : inv w (start_state options) w /\ no_handle (start_state options).
Proof.
  split; [|done]. split; try done.
  - unfold held, handle_ptr. simpl. multiset_solver.
  - unfold taken, loads. simpl. multiset_solver.
  - apply NoDup_nil_2.
  - intros p Hp. by apply not_elem_of_nil in Hp.
  - by exists [].
Qed.

Lemma read_front_inv w0 options x st w :
  read_front (start_state options) w0 = Some (x, st, w) -> inv w0 st w /\ no_handle st.
Proof.
  intros H. unfold read_front in H. destruct (start_inv options w0) as [I Hn].
  apply bind_Some in H as (u & st1 & w1 & E & H). apply dload_headers_quiet in E.
  pose proof (inv_quiet _ _ _ _ _ E I) as I1. pose proof (no_handle_quiet _ _ _ _ E Hn) as Hn1.
  pose proof (sect_none_quiet _ _ _ _ E eq_refl) as Hs1. pose proof (str_none_quiet _ _ _ _ E eq_refl) as Hr1.
  apply bind_Some in H as (u2 & st2 & w2 & E2 & H).
  assert (H2 : inv w0 st2 w2 /\ sect_hdrs st2 = None /\ no_handle st2).
  { apply unless_errors_run in E2 as [[_ E2]|(_ & -> & ->)]; [by eapply dload_strings_inv|done]. }
  destruct H2 as (I2 & Hs2 & Hn2).
  apply unless_errors_run in H as [[_ H]|(_ & -> & ->)]; [by eapply dload_sections_inv|done].
Qed.

(** The section records of the file put those that need memory first. *)
Definition file_ordered (options : Z) (w : W) : Prop :=
  forall x st w' p l, read_front (start_state options) w = Some (x, st, w') ->
    sect_hdrs st = Some (p, l) -> sections_first l.

Lemma connect_and_allocate_inv w0 st w x st' w' :
  inv w0 st w -> no_handle st -> (forall p l, sect_hdrs st = Some (p, l) -> sections_first l) ->
  connect_and_allocate a st w = Some (x, st', w') -> inv w0 st' w' /\ local_symtab st' = None.
Proof.
  intros I Hn Hf H. pose proof Hn as [[Hm Hl] [Hc Hs]]. unfold connect_and_allocate in H.
  apply bind_Some in H as (ok & st1 & w1 & E & H). apply call_Some in E as (-> & -> & ->).
  pose proof (connect_same w) as Hw.
  assert (I1 : inv w0 st (connect w).2) by (eapply inv_quiet; [by apply quiet_world|done]).
  destruct (connect w).1.
  - apply bind_Some in H as (u & st2 & w2 & E & H). apply modify_Some in E as (-> & ->).
    eapply allocate_sections_inv; [| | |exact H]; [|done|done].
    destruct I1 as [I1 I2 I3 I4 I5 I6 I7 I7a I7b I8 I9]. by split.
  - apply dload_error_run in H. split; [by eapply inv_quiet|by eapply local_none_quiet].
Qed.

Lemma fix_entry_quiet : keeps quiet fix_entry.
Proof. unfold fix_entry. keeps_with quiet_prim. Qed.

(** Everything up to the handle. *)
Definition load_phases (with_data : bool) : M W unit :=
  read_front ;;;
  (if a_init a then unless_errors (connect_and_allocate a) else ret tt) ;;;
  unless_errors (fix_entry ;;; dload_symbols) ;;;
  (if with_data && a_init a then unless_errors dload_data else ret tt).

Lemma load_phases_inv options with_data w0 x st w :
  file_ordered options w0 -> load_phases with_data (start_state options) w0 = Some (x, st, w) ->
  inv w0 st w.
Proof.
  intros Hf H. unfold load_phases in H.
  apply bind_Some in H as (u & st1 & w1 & E & H). pose proof (fun p l => Hf _ _ _ p l E) as Hf1.
  apply read_front_inv in E as [I1 Hn1].
  apply bind_Some in H as (u2 & st2 & w2 & E & H).
  assert (H2 : inv w0 st2 w2 /\ local_symtab st2 = None).
  { pose proof Hn1 as [[_ Hl1] _]. destruct (a_init a); [|by apply ret_Some in E as (_ & -> & ->)].
    apply unless_errors_run in E as [[_ E]|(_ & -> & ->)]; [|done].
    by eapply connect_and_allocate_inv. }
  destruct H2 as [I2 Hl2].
  apply bind_Some in H as (u3 & st3 & w3 & E3 & H).
  assert (I3 : inv w0 st3 w3).
  { apply unless_errors_run in E3 as [[_ E3]|(_ & -> & ->)]; [|done].
    apply bind_Some in E3 as (u4 & st4 & w4 & E4 & E3). apply fix_entry_quiet in E4.
    eapply dload_symbols_inv; [by eapply inv_quiet|by eapply local_none_quiet|exact E3]. }
  destruct (with_data && a_init a); [|by apply ret_Some in H as (_ & -> & ->)].
  apply unless_errors_run in H as [[_ H]|(_ & -> & ->)]; [|done].
  apply dload_data_quiet in H. by eapply inv_quiet.
Qed.

(** ** The handle *)

(** The handle of a module that is not in a debug list. *)
Definition plain_handle (st : dload_state) : my_handle :=
  set_h_sections
    (u16 (u16 (Z.shiftl (allocated_secn_count st) 1) + if big_e_target st then 1 else 0))
    (ldr_sections st) (new_handle (myhandle st)).

(** The handle was completed and nothing was taken. *)
Definition completed (st : dload_state) (w : W) (st' : dload_state) (w' : W) : Prop :=
  resources st' = resources st /\ v_syms w' = v_syms w /\ v_blocks w' = v_blocks w /\
  v_target w' = v_target w /\
  (myhandle st <> 0 -> host_node_at (myhandle st) w' = Some (Handle (plain_handle st))).

Lemma completed_quiet st w st1 w1 st2 w2 :
  completed st w st1 w1 -> quiet st1 w1 st2 w2 -> completed st w st2 w2.
Proof.
  intros (Hr & Hs & Hb & Ht & Hn) [Hr1 (Hs1 & Hb1 & Ht1 & Hn1)]. unfold completed.
  rewrite Hr1, Hs1, Hb1, Ht1. do 4 (split; [done|]). intros Hne. rewrite Hn1. by apply Hn.
Qed.

Lemma upd_handle_run p f st st' (w w' : W) x hd :
  host_node_at p w = Some (Handle hd) -> upd_handle p f st w = Some (x, st', w') ->
  st' = st /\ w' = host_store p (Handle (f hd)) w.
Proof.
  intros Hp H. unfold upd_handle, get_handle, get_node, bind, ret, call_ in H. rewrite Hp in H.
  by simplify_eq.
Qed.

Definition same_errors (st : dload_state) (w : W) (st' : dload_state) (w' : W) : Prop :=
  dload_errcount st' = dload_errcount st.
Lemma same_errors_refl st w : same_errors st w st w.
Proof. done. Qed.
Lemma same_errors_trans st w st1 w1 st2 w2 :
  same_errors st w st1 w1 -> same_errors st1 w1 st2 w2 -> same_errors st w st2 w2.
Proof. unfold same_errors. congruence. Qed.
Lemma get_node_errors p : keeps same_errors (get_node (W := W) p).
Proof. intros st w x st' w' H. unfold get_node in H. destruct (host_node_at p w); [|done]. by simplify_eq. Qed.

Ltac errors_prim :=
  first [ exact same_errors_refl | exact same_errors_trans | apply get_node_errors | reflexivity ].

Lemma make_record_errors hndl mlist : keeps same_errors (make_record hndl mlist).
Proof.
  unfold make_record, publish_record, link_after_root, upd_handle, upd_root, get_handle, get_root.
  keeps_with errors_prim.
Qed.
Lemma upd_handle_errors p f : keeps same_errors (upd_handle (W := W) p f).
Proof. unfold upd_handle, get_handle. keeps_with errors_prim. Qed.

(** Storing the completed handle. *)
Lemma complete_store w0 st w :
  inv w0 st w -> myhandle st <> 0 ->
  completed st w st (host_store (myhandle st) (Handle (plain_handle st)) w).
Proof.
  intros I Hne.
  pose proof (store_law (myhandle st) (Handle (plain_handle st)) w) as (S1 & S2 & S3 & S4 & S5).
  done.
Qed.

(** A search for the root that reports an error took nothing; one that goes
    on reports none. *)
Lemma find_mirror_root_run st w r st' w' :
  find_mirror_root st w = Some (r, st', w') ->
  match r with
  | Some _ => dload_errcount st' = dload_errcount st
  | None => quiet st w st' w' \/ dload_errcount st' = dload_errcount st
  end.
Proof.
  unfold find_mirror_root. intros H. run H.
  destruct (Find_Matching_Symbol LOADER_DLLVIEW_ROOT _).1 as [v|].
  { run H. destruct (v =? 0); [by right|done]. }
  run H. destruct (Find_Matching_Symbol LINKER_MODULES_HEADER _).1 as [v|]; run H; [|by right].
  destruct (Allocate MIRROR_ROOT_SIZE _) as [[[p junk]|] w3] eqn:Ea; simpl in H; run H.
  - destruct (negb _); run H; [by right|done].
  - left. match goal with E : dload_error _ _ _ = _ |- _ => apply dload_error_run in E; rename E into Hq end.
    pose proof (find_same LOADER_DLLVIEW_ROOT w) as F1.
    pose proof (find_same LINKER_MODULES_HEADER (Find_Matching_Symbol LOADER_DLLVIEW_ROOT w).2) as F2.
    pose proof (allocate_law MIRROR_ROOT_SIZE
      (Find_Matching_Symbol LINKER_MODULES_HEADER (Find_Matching_Symbol LOADER_DLLVIEW_ROOT w).2).2) as A.
    rewrite Ea in A. simpl in A, Hq.
    eapply quiet_trans; [|exact Hq]. apply quiet_world.
    eapply same_trans; [exact F1|]. by eapply same_trans; [exact F2|].
Qed.

Lemma init_module_handle_failed w0 st w x st' w' :
  inv w0 st w -> init_module_handle st w = Some (x, st', w') -> dload_errcount st' <> 0 ->
  completed st w st' w'.
Proof.
  intros I H Herr. unfold init_module_handle in H.
  apply bind_Some in H as (? & ? & ? & E & H). apply get_Some in E as (-> & -> & ->).
  destruct (myhandle st =? 0) eqn:Hz.
  { apply ret_Some in H as (_ & -> & ->). repeat split; try done. intros Hne. lia. }
  assert (Hne : myhandle st <> 0) by lia.
  apply bind_Some in H as (u & st1 & w1 & E & H).
  apply (upd_handle_run _ _ _ _ _ _ _ _ (i_node _ _ _ I Hne)) in E as (-> & ->).
  pose proof (complete_store w0 st w I Hne) as Hc.
  match type of H with context [host_store _ ?n w] => change n with (Handle (plain_handle st)) in H end.
  destruct (negb _) eqn:Hn; [by apply ret_Some in H as (_ & -> & ->)|].
  assert (He0 : dload_errcount st = 0).
  { destruct (dload_errcount st =? 0) eqn:E; [lia|done]. }
  apply bind_Some in H as (r & st2 & w2 & E & H). apply find_mirror_root_run in E.
  destruct r as [mlist|].
  - exfalso. apply bind_Some in H as (u2 & st3 & w3 & E3 & H). apply upd_handle_errors in E3.
    unfold same_errors in E3. destruct (allocated_secn_count st =? 0).
    + apply ret_Some in H as (_ & -> & ->). congruence.
    + apply make_record_errors in H. unfold same_errors in H. congruence.
  - apply ret_Some in H as (_ & -> & ->). destruct E as [E|E]; [by eapply completed_quiet|congruence].
Qed.

(** No symbol of the table has this name. *)
Definition undefined (nm : list Z) (ss : symbols) : Prop := Forall (fun s => s.1.1 <> nm) ss.
Definition no_debug_list (ss : symbols) : Prop :=
  undefined LOADER_DLLVIEW_ROOT ss /\ undefined LINKER_MODULES_HEADER ss.

Lemma find_undefined nm w : undefined nm (v_syms w) -> (Find_Matching_Symbol nm w).1 = None.
Proof.
  intros Hu. rewrite find_law. replace (filter _ (v_syms w)) with ([] : symbols); [done|].
  symmetry. unfold undefined in Hu. induction Hu as [|s ss Hs Hu IH]; [done|].
  by rewrite list.filter_cons, decide_False.
Qed.

Lemma init_module_handle_plain w0 st w x st' w' :
  inv w0 st w -> no_debug_list (v_syms w) -> init_module_handle st w = Some (x, st', w') ->
  completed st w st' w' /\ st' = st.
Proof.
  intros I [Hd1 Hd2] H. unfold init_module_handle in H.
  apply bind_Some in H as (? & ? & ? & E & H). apply get_Some in E as (-> & -> & ->).
  destruct (myhandle st =? 0) eqn:Hz.
  { apply ret_Some in H as (_ & -> & ->). repeat split; try done. intros Hne. lia. }
  assert (Hne : myhandle st <> 0) by lia.
  apply bind_Some in H as (u & st1 & w1 & E & H).
  apply (upd_handle_run _ _ _ _ _ _ _ _ (i_node _ _ _ I Hne)) in E as (-> & ->).
  pose proof (complete_store w0 st w I Hne) as Hc.
  match type of H with context [host_store _ ?n w] => change n with (Handle (plain_handle st)) in H end.
  destruct (negb _) eqn:Hn; [by apply ret_Some in H as (_ & -> & ->)|].
  set (w1 := host_store _ _ w) in *.
  assert (Hs1 : v_syms w1 = v_syms w) by apply Hc.
  pose proof (find_same LOADER_DLLVIEW_ROOT w1) as F1.
  pose proof (find_same LINKER_MODULES_HEADER (Find_Matching_Symbol LOADER_DLLVIEW_ROOT w1).2) as F2.
  unfold find_mirror_root in H. run H.
  rewrite find_undefined in * by (by rewrite Hs1).
  match goal with E : bind (call _) _ _ _ = _ |- _ => run E end.
  rewrite find_undefined in * by (rewrite (proj1 F1), Hs1; done).
  run H. split; [|done]. eapply completed_quiet; [exact Hc|]. apply quiet_world.
  by eapply same_trans.
Qed.

(** ** Running the entry point *)

Definition execute_succeeds : Prop := forall addr (w : W), (execute addr w).1 = true.

Definition calm (st : dload_state) (w : W) (st' : dload_state) (w' : W) : Prop :=
  st' = st /\ same_world w w'.

Lemma calm_trans st w st1 w1 st2 w2 : calm st w st1 w1 -> calm st1 w1 st2 w2 -> calm st w st2 w2.
Proof. intros [-> H] [-> H1]. split; [done|by eapply same_trans]. Qed.
Lemma calm_world st (w w' : W) : same_world w w' -> calm st w st w'.
Proof. by split. Qed.

Ltac calm_prim :=
  first [ exact calm_trans | by split | apply calm_world, release_same ].

Lemma run_entry_calm twice st w x st' w' :
  execute_succeeds -> run_entry twice st w = Some (x, st', w') -> calm st w st' w'.
Proof.
  intros He. revert st w x st' w'. change (keeps calm (run_entry twice)). unfold run_entry.
  apply keeps_bind; [exact calm_trans|apply keeps_get; by split|]. intros st0.
  destruct (myio st0); [|apply keeps_ret; by split].
  apply keeps_bind; [exact calm_trans| |intros; keeps_with calm_prim].
  destruct (_ && _); [|apply keeps_ret; by split].
  intros st w x st' w' H. apply bind_Some in H as (ok & st1 & w1 & E & H).
  apply call_Some in E as (-> & -> & ->). rewrite He in H.
  eapply calm_trans; [apply calm_world, execute_same|].
  refine (keeps_bind _ calm_trans _ _ _ _ _ _ _ _ _ H); [apply keeps_ret; by split|].
  intros u. destruct twice; keeps_with calm_prim.
Qed.

(** ** Giving back *)

Lemma free_ptr {A} (o : option (Z * A)) X st w x st' w' :
  match o with Some (p, _) => call_ (Deallocate p) | None => ret tt end st w = Some (x, st', w') ->
  v_blocks w = X ⊎ list_to_set_disj (ptr o) ->
  st' = st /\ v_blocks w' = X /\ v_syms w' = v_syms w /\ v_target w' = v_target w /\
  forall q, q ∉ ptr o -> host_node_at q w' = host_node_at q w.
Proof.
  intros H Hb. destruct o as [[p y]|]; run H; simpl in *.
  - pose proof (deallocate_law p w) as (D1 & D2 & D3 & D4). split; [done|].
    split; [rewrite D2, Hb; multiset_solver|]. do 2 (split; [done|]).
    intros q Hq. apply D4. intros ->. apply Hq. by apply list_elem_of_singleton.
  - split; [done|]. split; [rewrite Hb; multiset_solver|]. done.
Qed.

(** The symbols of the module [m] are gone. *)
Definition without (m : Z) (ss : symbols) : symbols := filter (fun s => s.1.2 <> m) ss.

Lemma symbol_table_free_run X st w x st' w' :
  symbol_table_free st w = Some (x, st', w') ->
  v_blocks w = X ⊎ list_to_set_disj (ptr (local_symtab st)) ->
  st' = st /\ v_blocks w' = X /\ v_target w' = v_target w /\
  v_syms w' = (if decide (dload_errcount st <> 0 /\ local_symtab st <> None)
               then without (myhandle st) (v_syms w) else v_syms w) /\
  forall q, q ∉ ptr (local_symtab st) -> host_node_at q w' = host_node_at q w.
Proof.
  intros H Hb. unfold symbol_table_free in H.
  apply bind_Some in H as (? & ? & ? & E & H). apply get_Some in E as (-> & -> & ->).
  destruct (local_symtab st) as [[p l]|] eqn:El.
  - apply bind_Some in H as (u & st1 & w1 & E & H).
    apply (free_ptr (Some (p, l)) X) in H.
    + destruct H as (-> & Hb1 & Hs1 & Ht1 & Hn1).
      destruct (dload_errcount st =? 0) eqn:Ee; simpl in E; run E.
      * rewrite decide_False by (intros [? _]; lia). done.
      * rewrite decide_True by (split; [lia|done]).
        pose proof (purge_law (myhandle st) w) as (P1 & P2 & P3 & P4).
        rewrite Ht1, P3, Hs1, P1. do 4 (split; [done|]). intros q Hq. by rewrite Hn1, P4.
    + destruct (negb _); run E; [|done]. pose proof (purge_law (myhandle st) w) as (_ & -> & _). done.
  - run H. rewrite decide_False by (by intros [_ []]). split; [done|]. split; [|done].
    rewrite Hb. simpl. multiset_solver.
Qed.

(** [Dynamic_Unload_Module] of a handle that is in no debug list releases the
    sections in the handle, the symbols of the module and the handle. *)
Lemma free_sections_run n ss st (w : W) :
  (n <= length ss)%nat ->
  exists w', free_sections n ss st w = Some (tt, st, w') /\ v_syms w' = v_syms w /\
    v_blocks w' = v_blocks w /\
    v_target w' = v_target w ∖ list_to_set_disj (load_addr <$> take n ss) /\
    forall q, host_node_at q w' = host_node_at q w.
Proof.
  revert ss w. induction n as [|n IH]; intros ss w Hn.
  { exists w. repeat split; try done. simpl. multiset_solver. }
  destruct ss as [|s ss]; [simpl in Hn; lia|]. simpl.
  pose proof (tfree_law (set_sec_name 0 s) w) as (T1 & T2 & T3 & T4).
  destruct (IH ss (alloc_Deallocate (set_sec_name 0 s) w)) as (w' & Hr & H1 & H2 & H3 & H4);
    [simpl in Hn; lia|].
  exists w'. unfold bind, call_. split; [exact Hr|]. rewrite H1, H2, H3, T1, T2, T3.
  do 2 (split; [done|]). split; [|intros q; by rewrite H4]. simpl. multiset_solver.
Qed.

Lemma unload_plain_spec h (b : dl_args) st w hd :
  h <> 0 -> a_syms b = true ->
  host_node_at h w = Some (Handle hd) -> h_hroot hd = 0 ->
  Z.shiftr (h_secn_count hd) 1 <= Z.of_nat (length (h_secns hd)) ->
  exists w', Dynamic_Unload_Module h b st w = Some (0, st, w') /\
    v_syms w' = without h (v_syms w) /\ v_blocks w' = v_blocks w ∖ {[+ h +]} /\
    v_target w' = (if a_alloc b then v_target w ∖ loads (Z.shiftr (h_secn_count hd) 1) (h_secns hd)
                   else v_target w).
Proof.
  intros Hh Hs Hn Hr Hlen. unfold Dynamic_Unload_Module.
  rewrite (proj2 (Z.eqb_neq _ _) Hh), Hs.
  pose proof (purge_law h w) as (P1 & P2 & P3 & P4).
  set (w1 := Purge_Symbol_Table h w) in *.
  destruct (free_sections_run (Z.to_nat (Z.shiftr (h_secn_count hd) 1)) (h_secns hd) st w1)
    as (w2 & Hf & F1 & F2 & F3 & F4); [lia|].
  destruct (a_alloc b).
  - pose proof (deallocate_law h w2) as (D1 & D2 & D3 & D4). exists (Deallocate h w2). split.
    + cbv beta iota zeta delta [bind call_ get_handle get_node ret negb]. fold w1. rewrite P4, Hn.
      cbv iota. rewrite Hf, Hr. reflexivity.
    + by rewrite D1, D2, D3, F1, F2, F3, P1, P2, P3.
  - pose proof (deallocate_law h w1) as (D1 & D2 & D3 & D4). exists (Deallocate h w1). split.
    + cbv beta iota zeta delta [bind call_ get_handle get_node ret negb]. fold w1. rewrite P4, Hn.
      cbv iota. rewrite Hr. reflexivity.
    + by rewrite D1, D2, D3, P1, P2, P3.
Qed.

(** ** The symbols only grow until the storage is given back *)

Definition grows (st : dload_state) (w : W) (st' : dload_state) (w' : W) : Prop :=
  exists added, v_syms w' = added ++ v_syms w.
Lemma grows_refl st w : grows st w st w.
Proof. by exists []. Qed.
Lemma grows_trans st w st1 w1 st2 w2 : grows st w st1 w1 -> grows st1 w1 st2 w2 -> grows st w st2 w2.
Proof. intros [l Hl] [l1 Hl1]. exists (l1 ++ l). by rewrite Hl1, Hl, List.app_assoc. Qed.
Lemma grows_syms st st' (w w' : W) : v_syms w' = v_syms w -> grows st w st' w'.
Proof. intros H. by exists []. Qed.
Lemma get_node_grows p : keeps grows (get_node (W := W) p).
Proof.
  intros st w x st' w' H. unfold get_node in H. destruct (host_node_at p w); [|done].
  simplify_eq. apply grows_refl.
Qed.

Lemma add_grows nm md v st (w : W) : grows st w st (Add_To_Symbol_Table nm md v w).2.
Proof.
  pose proof (add_law nm md v w) as (H & _). unfold grows. rewrite H. destruct (_.1).
  - by exists [(nm, md, v)].
  - by exists [].
Qed.
Lemma allocate_grows n st (w : W) : grows st w st (Allocate n w).2.
Proof.
  apply grows_syms. pose proof (allocate_law n w) as A. destruct (Allocate n w) as [[[p j]|] w1]; simpl in *.
  - by destruct A as (_ & _ & ? & _).
  - by destruct A.
Qed.

Ltac grows_prim :=
  first [ exact grows_refl | exact grows_trans | apply get_node_grows | apply add_grows
        | apply allocate_grows
        | apply grows_syms;
          first [ apply find_same | apply report_same | apply writemem_same | apply store_law
                | apply talloc_law | apply deallocate_law | reflexivity ] ].

Lemma init_module_handle_grows : keeps grows init_module_handle.
Proof.
  unfold init_module_handle, find_mirror_root, make_record, publish_record, link_after_root,
    upd_handle, upd_root, get_handle, get_root, dload_error.
  keeps_with grows_prim.
Qed.

Lemma undefined_app nm (l l' : symbols) : undefined nm (l ++ l') -> undefined nm l'.
Proof. unfold undefined. intros H. by apply Forall_app in H as [_ H]. Qed.

(** ** The end of a load *)

(** Symbols belong to modules whose handles are allocated. *)
Definition modules_live (w : W) : Prop :=
  0 ∉ v_blocks w /\ Forall (fun s => s.1.2 ∈ v_blocks w) (v_syms w).

Lemma without_added (m : Z) (added ss : symbols) :
  Forall (fun s => s.1.2 = m) added -> Forall (fun s => s.1.2 <> m) ss -> without m (added ++ ss) = ss.
Proof.
  intros Ha Hs. unfold without. induction Ha as [|s added Hx Ha IH]; simpl.
  - induction Hs as [|s ss Hx Hs IH]; [done|]. by rewrite list.filter_cons, decide_True, IH.
  - rewrite list.filter_cons, decide_False; [done|]. intros H. by apply H.
Qed.

Lemma handle_fresh w0 st w : inv w0 st w -> 0 ∉ v_blocks w0 -> myhandle st ∉ v_blocks w0.
Proof.
  intros I H0. destruct (decide (myhandle st = 0)) as [->|Hne]; [done|].
  by apply (i_fresh _ _ _ I), handle_held.
Qed.

Lemma module_symbols w0 st w :
  inv w0 st w -> modules_live w0 -> without (myhandle st) (v_syms w) = v_syms w0.
Proof.
  intros I [H0 Hl]. destruct (i_syms _ _ _ I) as (added & -> & Ha & _).
  apply without_added; [done|]. pose proof (handle_fresh _ _ _ I H0) as Hf.
  apply list.Forall_forall. intros s Hs He. rewrite list.Forall_forall in Hl. specialize (Hl s Hs).
  by rewrite He in Hl.
Qed.

(** The temporary storage is given back. *)
Lemma free_temporaries w0 st1 w1 st w x st' w' :
  inv w0 st1 w1 -> completed st1 w1 st w ->
  (symbol_table_free ;;; section_table_free ;;; string_table_free) st w = Some (x, st', w') ->
  st' = st /\ v_blocks w' = v_blocks w0 ⊎ list_to_set_disj (handle_ptr st1) /\
  v_target w' = v_target w0 ⊎ taken st1 /\
  v_syms w' = (if decide (dload_errcount st <> 0 /\ local_symtab st <> None)
               then without (myhandle st) (v_syms w) else v_syms w) /\
  (myhandle st1 <> 0 -> host_node_at (myhandle st1) w' = Some (Handle (plain_handle st1))).
Proof.
  intros I (Hr & Hs & Hb & Ht & Hn) H.
  pose proof (held_resources _ _ Hr) as Hheld.
  assert (Hhp : handle_ptr st = handle_ptr st1).
  { unfold handle_ptr. unfold resources in Hr. by injection Hr as _ _ _ _ -> _ _. }
  assert (Hmh : myhandle st = myhandle st1) by (unfold resources in Hr; by injection Hr).
  pose proof (i_nodup _ _ _ I) as Hnd. rewrite <- Hheld in Hnd. unfold held in Hnd.
  assert (Hblk : v_blocks w = v_blocks w0 ⊎ list_to_set_disj (held st))
    by (by rewrite Hb, Hheld, (i_blocks _ _ _ I)).
  unfold held in Hblk. rewrite !list_to_set_disj_app in Hblk.
  apply bind_Some in H as (u & st2 & w2 & E & H).
  apply (symbol_table_free_run (v_blocks w0 ⊎ list_to_set_disj (ptr (str_head st))
    ⊎ list_to_set_disj (ptr (sect_hdrs st)) ⊎ list_to_set_disj (handle_ptr st))) in E;
    [|rewrite Hblk; multiset_solver].
  destruct E as (-> & Hb2 & Ht2 & Hs2 & Hn2).
  apply bind_Some in H as (u2 & st3 & w3 & E & H). unfold section_table_free in E.
  apply bind_Some in E as (? & ? & ? & E3 & E). apply get_Some in E3 as (-> & -> & ->).
  apply (free_ptr _ (v_blocks w0 ⊎ list_to_set_disj (ptr (str_head st))
    ⊎ list_to_set_disj (handle_ptr st))) in E; [|rewrite Hb2; multiset_solver].
  destruct E as (-> & Hb3 & Hs3 & Ht3 & Hn3). unfold string_table_free in H.
  apply bind_Some in H as (? & ? & ? & E3 & E). apply get_Some in E3 as (-> & -> & ->).
  apply (free_ptr _ (v_blocks w0 ⊎ list_to_set_disj (handle_ptr st))) in E;
    [|rewrite Hb3; multiset_solver].
  destruct E as (-> & Hb4 & Hs4 & Ht4 & Hn4). split; [done|].
  rewrite Hb4, Ht4, Hs4, Ht3, Hs3, Ht2, Hs2, Hhp, Ht, (i_target _ _ _ I). do 3 (split; [done|]).
  intros Hne.
  assert (Hin : myhandle st1 ∈ handle_ptr st).
  { rewrite Hhp. unfold handle_ptr. rewrite (proj2 (Z.eqb_neq _ _) Hne). set_solver. }
  apply list.NoDup_app in Hnd as (_ & Hd1 & Hnd). apply list.NoDup_app in Hnd as (_ & Hd2 & Hnd).
  apply list.NoDup_app in Hnd as (_ & Hd3 & _).
  rewrite Hn4 by (intros Hq; apply (Hd1 _ Hq); set_solver).
  rewrite Hn3 by (intros Hq; apply (Hd2 _ Hq); set_solver).
  rewrite Hn2 by (intros Hq; by apply (Hd3 _ Hin)). by apply Hn.
Qed.

(** The count of sections in the handle. *)
Lemma plain_handle_count w0 st w :
  inv w0 st w -> Z.shiftr (h_secn_count (plain_handle st)) 1 = allocated_secn_count st.
Proof.
  intros I. pose proof (i_count _ _ _ I) as Hc. pose proof (i_length _ _ _ I) as Hl.
  unfold MAX_SECTIONS in *. unfold plain_handle. cbn [h_secn_count set_h_sections].
  rewrite Z.shiftl_mul_pow2, Z.shiftr_div_pow2 by lia. change (2 ^ 1) with 2.
  rewrite (uwrap_small 16 (_ * 2)) by (change (2 ^ 16) with 65536; lia).
  rewrite uwrap_small by (change (2 ^ 16) with 65536; destruct (big_e_target st); lia).
  destruct (big_e_target st); Z.div_mod_to_equations; lia.
Qed.

(** A load up to the handle and past it. *)
Lemma load_body_run options with_data w0 h st w :
  file_ordered options w0 -> execute_succeeds ->
  load_body a with_data (start_state options) w0 = Some (h, st, w) ->
  exists st1 w1 st2 w2 x,
    inv w0 st1 w1 /\ init_module_handle st1 w1 = Some (x, st2, w2) /\
    exists w3, same_world w2 w3 /\ finish_load a st2 w3 = Some (h, st, w).
Proof.
  intros Hf He H. unfold load_body in H.
  apply bind_Some in H as (u1 & s1 & v1 & E1 & H).
  apply bind_Some in H as (u2 & s2 & v2 & E2 & H).
  apply bind_Some in H as (u3 & s3 & v3 & E3 & H).
  apply bind_Some in H as (u4 & s4 & v4 & E4 & H).
  apply bind_Some in H as (u5 & s5 & v5 & E5 & H).
  apply bind_Some in H as (u6 & s6 & v6 & E6 & H).
  apply run_entry_calm in E6 as [-> Hw]; [|done].
  exists s4, v4, s5, v5, u5. split; [|split; [done|by exists v6]].
  apply (load_phases_inv options with_data _ u4); [done|]. unfold load_phases.
  by rewrite (bind_step _ _ _ _ _ _ _ E1), (bind_step _ _ _ _ _ _ _ E2), (bind_step _ _ _ _ _ _ _ E3).
Qed.

Lemma taken_returned w0 st w :
  inv w0 st w ->
  (if a_alloc a then (v_target w0 ⊎ taken st) ∖ loads (allocated_secn_count st) (ldr_sections st)
   else v_target w0 ⊎ taken st) = v_target w0.
Proof.
  intros I. unfold taken. destruct (a_alloc a) eqn:Hal; [multiset_solver|].
  rewrite (i_alloc _ _ _ I); [unfold loads; simpl; multiset_solver|].
  destruct (myalloc st) eqn:Hm; [|done]. by rewrite (i_myalloc _ _ _ I Hm) in Hal.
Qed.

(** The temporary storage first, and everything when there were errors. *)
Lemma finish_load_run w0 st1 w1 st w h st' w' :
  inv w0 st1 w1 -> completed st1 w1 st w -> modules_live w0 -> a_syms a = true ->
  finish_load a st w = Some (h, st', w') ->
  dload_errcount st' = dload_errcount st /\
  if decide (dload_errcount st <> 0)
  then h = 0 /\ v_syms w' = v_syms w0 /\ v_blocks w' = v_blocks w0 /\ v_target w' = v_target w0
  else h = myhandle st1 /\ v_syms w' = v_syms w /\
       v_blocks w' = v_blocks w0 ⊎ list_to_set_disj (handle_ptr st1) /\
       v_target w' = v_target w0 ⊎ taken st1 /\
       (h <> 0 -> host_node_at h w' = Some (Handle (plain_handle st1))).
Proof.
  intros I C Hml Hsy H. pose proof C as (Hr & Hs & _ & _ & _).
  assert (Hmh : myhandle st = myhandle st1) by (unfold resources in Hr; by injection Hr).
  assert (Hft : exists u st2 w2, (symbol_table_free ;;; section_table_free ;;; string_table_free) st w
                  = Some (u, st2, w2) /\
                (st <- get ;; if negb (dload_errcount st =? 0)
                 then errs <- Dynamic_Unload_Module (myhandle st) a ;; modify (set_myhandle 0) ;;; ret 0
                 else ret (myhandle st)) st2 w2 = Some (h, st', w')).
  { unfold finish_load in H. unfold bind at 1 in H. unfold bind at 1 in H. unfold bind at 1 in H.
    unfold bind at 1. unfold bind at 1.
    destruct (symbol_table_free st w) as [[[y1 t1] x1]|]; [|done].
    destruct (section_table_free t1 x1) as [[[y2 t2] x2]|]; [|done].
    destruct (string_table_free t2 x2) as [[[y3 t3] x3]|]; [|done]. by exists y3, t3, x3. }
  destruct Hft as (u & st2 & w2 & E & H2). clear H.
  apply (free_temporaries w0 st1 w1) in E as (-> & Hb2 & Ht2 & Hs2 & Hn2); [|done|done].
  apply bind_Some in H2 as (? & ? & ? & E & H). apply get_Some in E as (-> & -> & ->).
  destruct (decide (dload_errcount st <> 0)) as [He|He].
  - rewrite (proj2 (Z.eqb_neq _ _) He) in H. simpl in H. rewrite Hmh in *.
    assert (Hsy0 : v_syms w2 = v_syms w0 \/
                   (without (myhandle st1) (v_syms w2) = v_syms w0 /\ local_symtab st = None)).
    { rewrite Hs2, Hs. destruct (decide _) as [Hd|Hd]; [left; by eapply module_symbols|].
      right. split; [by eapply module_symbols|]. destruct (local_symtab st); [|done].
      exfalso. by apply Hd. }
    assert (Hsy1 : without (myhandle st1) (v_syms w0) = v_syms w0).
    { apply (without_added _ []); [done|]. destruct Hml as [H0 Hl].
      apply list.Forall_forall. intros s Hin Heq. rewrite list.Forall_forall in Hl.
      specialize (Hl s Hin). rewrite Heq in Hl. by apply (handle_fresh w0 st1 w1 I H0). }
    apply bind_Some in H as (e & st3 & w3 & E & H).
    destruct (decide (myhandle st1 = 0)) as [Hz|Hne].
    + unfold Dynamic_Unload_Module in E. rewrite Hz in E. simpl in E.
      assert (Hnl : v_syms w2 = v_syms w0).
      { destruct Hsy0 as [?|[_ Hln]]; [done|].
        rewrite decide_False in Hs2 by (by intros [_ []]). rewrite Hs2, Hs.
        destruct (i_syms _ _ _ I) as (added & Ha & _ & Hnone). rewrite Ha, Hnone; [done|].
        unfold resources in Hr. injection Hr as _ _ _ Hl _ _ _. rewrite Hln in Hl.
        by destruct (local_symtab st1). }
      run H. split; [done|]. split; [done|]. split; [done|].
      assert (Hcz : taken st1 = ∅).
      { unfold taken, loads. rewrite (i_nohandle _ _ _ I Hz). by rewrite take_nil. }
      rewrite Hb2, Ht2, Hcz. unfold handle_ptr. rewrite Hz. simpl. split; multiset_solver.
    + assert (Hcnt : Z.shiftr (h_secn_count (plain_handle st1)) 1 = allocated_secn_count st1)
        by (by eapply plain_handle_count).
      pose proof (i_count _ _ _ I) as Hc.
      destruct (unload_plain_spec (myhandle st1) a st w2 (plain_handle st1)) as (w3' & Hu & U1 & U2 & U3);
        [done|done|by apply Hn2|done|by rewrite Hcnt; apply Hc|].
      rewrite Hu in E. simplify_eq. run H. split; [done|]. split; [done|]. split.
      { rewrite U1. destruct Hsy0 as [->|[? _]]; [done|done]. }
      rewrite U2, U3, Hb2, Ht2, Hcnt. unfold handle_ptr. rewrite (proj2 (Z.eqb_neq _ _) Hne). simpl.
      split; [multiset_solver|]. change (h_secns (plain_handle st1)) with (ldr_sections st1).
      by eapply taken_returned.
  - rewrite (proj2 (Z.eqb_eq _ _)) in H by lia. simpl in H. run H.
    rewrite decide_False in Hs2 by (by intros [? _]). by rewrite Hmh.
Qed.

Lemma load_or_open_run with_data options w errs h w' :
  load_or_open with_data a options w = Some (errs, h, w') ->
  a_syms a = true /\
  exists st, load_body a with_data (start_state options) w = Some (h, st, w') /\ dload_errcount st = errs.
Proof.
  unfold load_or_open. intros H. destruct (a_syms a); [|by destruct (a_module a)].
  split; [done|]. destruct (negb _ || _); [done|].
  destruct (load_body _ _ _ _) as [[[h1 st] w1]|]; [|done]. simplify_eq. by exists st.
Qed.

Lemma completed_same st w st1 w1 w2 : completed st w st1 w1 -> same_world w1 w2 -> completed st w st1 w2.
Proof. intros C Hw. eapply completed_quiet; [exact C|by apply quiet_world]. Qed.

Lemma finish_load_errors : keeps same_errors (finish_load a).
Proof.
  unfold finish_load, symbol_table_free, section_table_free, string_table_free, Dynamic_Unload_Module,
    unload_record, unlink_target, upd_handle, upd_root, get_handle, get_root.
  assert (Hfree : forall n ss, keeps same_errors (free_sections (W := W) n ss)).
  { intros n. induction n as [|n IH]; intros ss; simpl; keeps_with errors_prim. }
  keeps_with ltac:(first [errors_prim | apply Hfree]).
Qed.

Lemma finish_load_syms st w h st' w' :
  dload_errcount st = 0 -> finish_load a st w = Some (h, st', w') -> v_syms w' = v_syms w.
Proof.
  intros He H. unfold finish_load in H.
  assert (Hf : forall A (o : option (Z * A)) s v x s' v',
    match o with Some (p, _) => call_ (Deallocate p) | None => ret tt end s v = Some (x, s', v') ->
    s' = s /\ v_syms v' = v_syms v).
  { intros A o s v y s' v' Ho. destruct o as [[p z]|]; run Ho; [|done].
    pose proof (deallocate_law p v) as (D & _). done. }
  apply bind_Some in H as (u1 & s1 & v1 & E1 & H).
  assert (H1 : s1 = st /\ v_syms v1 = v_syms w).
  { unfold symbol_table_free in E1.
    apply bind_Some in E1 as (? & ? & ? & E & E1). apply get_Some in E as (-> & -> & ->).
    rewrite He in E1. simpl in E1. apply (Hf _ (local_symtab st) _ _ u1).
    destruct (local_symtab st) as [[p l]|]; [|exact E1].
    apply bind_Some in E1 as (? & ? & ? & E & E1). by apply ret_Some in E as (-> & -> & ->). }
  destruct H1 as [-> <-].
  apply bind_Some in H as (u2 & s2 & v2 & E2 & H). unfold section_table_free in E2.
  apply bind_Some in E2 as (? & ? & ? & E & E2). apply get_Some in E as (-> & -> & ->).
  apply Hf in E2 as [-> <-].
  apply bind_Some in H as (u3 & s3 & v3 & E3 & H). unfold string_table_free in E3.
  apply bind_Some in E3 as (? & ? & ? & E & E3). apply get_Some in E as (-> & -> & ->).
  apply Hf in E3 as [-> <-].
  apply bind_Some in H as (? & ? & ? & E & H). apply get_Some in E as (-> & -> & ->).
  rewrite He in H. simpl in H. by run H.
Qed.

(** C5: A load that reports errors gives back all it took: it returns a null
    handle, and the host memory that is allocated, the target memory that is
    allocated and the symbols are what they were before it, in
    [Dynamic_Load_Module] and in [Dynamic_Open_Module].  Two things are assumed:
    the sections to allocate come first in the file ([file_ordered]; in another
    file [Dynamic_Unload_Module] frees the first sections instead of the
    allocated ones, cload.c:1762), and running the entry point, where the loader
    is given [init], succeeds ([execute_succeeds]).  What the file holds is
    otherwise free, and so is which calls of the host or of the target fail. *)
Theorem failed_load_releases with_data options w errs h w' :
  execute_succeeds -> modules_live w -> file_ordered options w ->
  load_or_open with_data a options w = Some (errs, h, w') -> errs <> 0 ->
  h = 0 /\ v_syms w' = v_syms w /\ v_blocks w' = v_blocks w /\ v_target w' = v_target w.
Proof.
  intros He Hm Hf H Herr. apply load_or_open_run in H as (Hsy & st & H & Hst).
  apply load_body_run in H as (st1 & w1 & st2 & w2 & x & I & Hi & w3 & Hw & H); [|done|done].
  assert (Herr2 : dload_errcount st2 <> 0).
  { intros H0. apply finish_load_errors in H. unfold same_errors in H. congruence. }
  pose proof (init_module_handle_failed _ _ _ _ _ _ I Hi Herr2) as C.
  apply (finish_load_run w st1 w1) in H as [_ H]; [|done|by eapply completed_same|done|done].
  by rewrite decide_True in H.
Qed.

(** C17: A successful load of a module holds one block, the handle, the memory of
    its sections on the target and symbols of its own, and unloading the handle
    gives back all of it without an error.  This is for a program without the
    debugger's list of modules ([no_debug_list]), a file whose sections to
    allocate come first ([file_ordered]; otherwise [Dynamic_Unload_Module] frees
    the first sections instead of the allocated ones, cload.c:1762), and an entry
    point that runs without failing ([execute_succeeds]). *)
Theorem load_unload_restores with_data options w h w1 :
  execute_succeeds -> modules_live w -> file_ordered options w ->
  load_or_open with_data a options w = Some (0, h, w1) -> h <> 0 -> no_debug_list (v_syms w1) ->
  (v_blocks w1 = v_blocks w ⊎ {[+ h +]} /\
   (exists added, v_syms w1 = added ++ v_syms w /\ Forall (fun s => s.1.2 = h) added) /\
   exists n ss, v_target w1 = v_target w ⊎ loads n ss) /\
  forall st, exists w2, Dynamic_Unload_Module h a st w1 = Some (0, st, w2) /\
    v_syms w2 = v_syms w /\ v_blocks w2 = v_blocks w /\ v_target w2 = v_target w.
Proof.
  intros He Hm Hf H Hne [Hd1 Hd2]. apply load_or_open_run in H as (Hsy & st & H & Hst).
  apply load_body_run in H as (st1 & w' & st2 & w2 & x & I & Hi & w3 & Hw & H); [|done|done].
  pose proof (finish_load_errors _ _ _ _ _ H) as Herr. unfold same_errors in Herr. rewrite Hst in Herr.
  pose proof (finish_load_syms _ _ _ _ _ (eq_sym Herr) H) as Hsyms.
  pose proof (init_module_handle_grows _ _ _ _ _ Hi) as [added Hg].
  assert (Hnd : no_debug_list (v_syms w')).
  { rewrite Hsyms, (proj1 Hw), Hg in Hd1, Hd2. split; by eapply undefined_app. }
  destruct (init_module_handle_plain _ _ _ _ _ _ I Hnd Hi) as [C ->].
  pose proof (completed_same _ _ _ _ _ C Hw) as C3.
  apply (finish_load_run w st1 w') in H as [_ H]; [|done|done|done|done].
  rewrite decide_False in H by (rewrite <- Herr; by intros []).
  destruct H as (-> & Hs & Hb & Ht & Hn).
  assert (Hhp : handle_ptr st1 = [myhandle st1])
    by (unfold handle_ptr; by rewrite (proj2 (Z.eqb_neq _ _) Hne)).
  assert (Hs1 : v_syms w1 = v_syms w') by (rewrite Hsyms; apply C3).
  split.
  { split; [rewrite Hb, Hhp; simpl; multiset_solver|]. split; [|eauto].
    destruct (i_syms _ _ _ I) as (l & Hl & Hf2 & _). exists l. by rewrite Hs1. }
  intros s0. pose proof (plain_handle_count _ _ _ I) as Hcnt. pose proof (i_count _ _ _ I) as Hc.
  destruct (unload_plain_spec (myhandle st1) a s0 w1 (plain_handle st1)) as (w4 & Hu & U1 & U2 & U3);
    [done|done|by apply Hn|done|by rewrite Hcnt; apply Hc|].
  exists w4. split; [exact Hu|]. split; [by rewrite U1, Hs1; eapply module_symbols|].
  split; [rewrite U2, Hb, Hhp; simpl; multiset_solver|].
  rewrite U3, Hcnt, Ht. change (h_secns (plain_handle st1)) with (ldr_sections st1).
  by eapply taken_returned.
Qed.

End Held.

(** * On a sample file *)

Lemma sections_first_one s : sections_first [s].
Proof. intros i j Hij. destruct j as [|j]; [lia|]. unfold needs. by destruct j. Qed.

Lemma sample_ordered (file : list Z) :
  match read_front (start_state 0) (empty_world file) with
  | Some (_, st, _) => match sect_hdrs st with Some (_, [_]) => true | _ => false end
  | None => false
  end = true -> file_ordered 0 (empty_world file).
Proof.
  intros H x st w' p l Hr Hs. rewrite Hr, Hs in H. destruct l as [|s [|]]; try done.
  apply sections_first_one.
Qed.

Lemma sample_runs : execute_succeeds (W := sample_world).
Proof. by intros addr w. Qed.
Lemma sample_live file : modules_live (empty_world file).
Proof. split; [multiset_solver|constructor]. Qed.

Lemma no_debug_check (ss : symbols) :
  forallb (fun s => negb (bool_decide (s.1.1 = LOADER_DLLVIEW_ROOT)) &&
                    negb (bool_decide (s.1.1 = LINKER_MODULES_HEADER))) ss = true -> no_debug_list ss.
Proof.
  unfold no_debug_list, undefined. rewrite forallb_forall. intros H.
  rewrite !list.Forall_forall. split; intros s Hs He; apply list_elem_of_In in Hs; apply H in Hs;
    apply andb_true_iff in Hs as [H1 H2]; rewrite negb_true_iff in H1, H2;
    [by apply bool_decide_eq_false in H1|by apply bool_decide_eq_false in H2].
Qed.

(** A file that ends before its relocation record: one error. *)
Definition short_file : list Z := take 132 sample_file.

(** One error after target memory was taken. *)
Lemma short_fails :
  match load_or_open true all_args 0 (empty_world short_file) with
  | Some (errs, _, w) => (errs =? 1) && existsb (fun o => match o with T_alloc _ _ => true | _ => false end) (w_ops w)
  | None => false
  end = true.
Proof. vm_compute. reflexivity. Qed.
Lemma sample_loads :
  match load_or_open true all_args 0 (empty_world sample_file) with
  | Some (errs, h, w) =>
      (errs =? 0) && negb (h =? 0) &&
      forallb (fun s => negb (bool_decide (s.1.1 = LOADER_DLLVIEW_ROOT)) &&
                        negb (bool_decide (s.1.1 = LINKER_MODULES_HEADER))) (w_syms w)
  | None => false
  end = true.
Proof. vm_compute. reflexivity. Qed.
Lemma short_ordered : file_ordered 0 (empty_world short_file).
Proof. apply sample_ordered. vm_compute. reflexivity. Qed.
Lemma sample_file_ordered : file_ordered 0 (empty_world sample_file).
Proof. apply sample_ordered. vm_compute. reflexivity. Qed.

Lemma failed_load_releases_witness :
  exists h w', load_or_open true all_args 0 (empty_world short_file) = Some (1, h, w') /\
    h = 0 /\ w_syms w' = [] /\ w_live w' = ∅ /\ w_target w' = ∅.
Proof.
  pose proof short_fails as C.
  destruct (load_or_open true all_args 0 (empty_world short_file)) as [[[errs h] w']|] eqn:E; [|discriminate C].
  apply andb_true_iff in C as [He _]. apply Z.eqb_eq in He. subst errs. exists h, w'. split; [reflexivity|].
  exact (failed_load_releases all_args true 0 (empty_world short_file) 1 h w' sample_runs
    (sample_live short_file) short_ordered E ltac:(lia)).
Defined.

Lemma load_unload_restores_witness :
  exists h w1, load_or_open true all_args 0 (empty_world sample_file) = Some (0, h, w1) /\ h <> 0 /\
    exists w2, Dynamic_Unload_Module h all_args (start_state 0) w1 = Some (0, start_state 0, w2) /\
      w_syms w2 = [] /\ w_live w2 = ∅ /\ w_target w2 = ∅.
Proof.
  pose proof sample_loads as C.
  destruct (load_or_open true all_args 0 (empty_world sample_file)) as [[[errs h] w1]|] eqn:E; [|discriminate C].
  apply andb_true_iff in C as [C Hd]. apply andb_true_iff in C as [He Hh].
  apply Z.eqb_eq in He. subst errs. apply negb_true_iff, Z.eqb_neq in Hh.
  exists h, w1. split; [reflexivity|]. split; [exact Hh|].
  exact (proj2 (load_unload_restores all_args true 0 (empty_world sample_file) h w1 sample_runs
    (sample_live sample_file) sample_file_ordered E Hh (no_debug_check _ Hd)) (start_state 0)).
Defined.
