(* ===== verification/DlSections.v ===== *)
(** Sections by name (src/dspbridge/dynreg/getsection.c): a module file is opened without loading it, its
    sections are looked up by name or number, and the image of one is read into a buffer of the
    caller. *)

From Stdlib Require Import ZArith Lia.
From stdpp Require Import base list list_numbers option gmap gmultiset tactics.
From S2P Require Import Prelude DlWords DlField DlState DlReloc DlLoad DlModule DlResources.

(** The stream's [set_file_posn]: whether the position could be set. *)
Class DlSeek (W : Type) := { set_file_posn : Z -> W -> bool * W }.

Section Sections.
Context {W : Type} `{Env : DlEnv W} `{Seek : DlSeek W}.
(** The size of [struct dload_state] on the host. *)
Context (STATE_SIZE : Z).

(** * Opening and closing *)

(** A handle: the block of the state, and the state. *)
Definition DLOAD_module_info : Type := option (Z * dload_state).

Definition deallocate {A} (o : option (Z * A)) (w : W) : W :=
  match o with Some (p, _) => Deallocate p w | None => w end.
Definition DLOAD_module_close (minfo : DLOAD_module_info) (w : W) : W :=
  match minfo with
  | None => w
  | Some (p, st) => Deallocate p (deallocate (sect_hdrs st) (deallocate (str_head st) w))
  end.

(** Reading the headers, the names of the sections and the section records; [false] when the position
    of the records cannot be set. *)
Definition open_body : M W bool :=
  dload_headers ;;;
  unless_errors (dload_strings true) ;;;
  st <- get ;;
  ok <- call (set_file_posn (u32 (FILEHDR_SIZE + VERIFY_SIZE + DOFF_ALIGN (df_strtab_size (dfile_hdr st))))) ;;
  if negb ok then dload_error M_seek ;;; ret false
  else unless_errors dload_sections ;;; ret true.

(** The offsets of the names become pointers into the block of strings. *)
Definition str_base (st : dload_state) : Z := match str_head st with Some (p, _) => p | None => 0 end.
Definition name_section (st : dload_state) (s : doff_scnhdr_t) : doff_scnhdr_t :=
  map_ldrsec (fun l => set_sec_name (str_base st + name l) l) s.
Definition name_sections (st : dload_state) : dload_state :=
  match sect_hdrs st with
  | Some (p, l) => set_sect_hdrs (Some (p, map (name_section st) l)) st
  | None => st
  end.

Definition DLOAD_module_open (module syms : bool) (w : W) : option (DLOAD_module_info * W) :=
  if negb syms then None
  else if negb module then Some (None, Error_Report M_null_argument w)
  else
    let '(r, w) := Allocate STATE_SIZE w in
    match r with
    | None => Some (None, Error_Report M_module_info w)
    | Some (p, _) =>
        let* (ok, st, w) := open_body (start_state 0) w in
        if negb ok then Some (None, w)
        else if negb (dload_errcount st =? 0) then Some (None, DLOAD_module_close (Some (p, st)) w)
        else Some (Some (p, name_sections st), w)
    end.

(** * Looking up *)

(** The string at a pointer into the block of strings. *)
Definition string_at (st : dload_state) (ptr : Z) : option (list Z) :=
  let* (p, bs) := str_head st in
  guard* p <=? ptr in c_string (drop (Z.to_nat (ptr - p)) bs).

Fixpoint find_section (st : dload_state) (sectionName : list Z) (ss : list doff_scnhdr_t) (n i : nat) {struct n}
    : option (option nat) :=
  match n, ss with
  | O, _ => Some None
  | Datatypes.S n, s :: ss =>
      let* nm := string_at st (name (as_ldrsec s)) in
      if bool_decide (nm = sectionName) then Some (Some i) else find_section st sectionName ss n (Datatypes.S i)
  | Datatypes.S _, [] => None
  end.
Definition section_records (st : dload_state) : option (list doff_scnhdr_t) :=
  let* (_, l) := sect_hdrs st in Some l.
(** The number of the section, when there is one of the name. *)
Definition DLOAD_GetSectionInfo (minfo : DLOAD_module_info) (sectionName : list Z) : option (option nat) :=
  match minfo with
  | None => Some None
  | Some (_, st) =>
      let* ss := match Z.to_nat (df_no_scns (dfile_hdr st)) with O => Some [] | _ => section_records st end in
      find_section st sectionName ss (Z.to_nat (df_no_scns (dfile_hdr st))) 0
  end.
Definition DLOAD_GetSectionNum (minfo : DLOAD_module_info) (secn : Z) : option nat :=
  match minfo with
  | None => None
  | Some (_, st) => if df_no_scns (dfile_hdr st) <=? secn then None else Some (Z.to_nat secn)
  end.

Definition DLOAD_RoundUpSectionSize (sectSize : Z) : Z := Z.land (u32 (sectSize + 3)) (u32 (-4)).

(** * The image *)

(** Bytes written into the buffer of the caller. *)
Definition put_bytes (dest : nat) (bs buf : list Z) : option (list Z) :=
  if (dest + length bs <=? length buf)%nat
  then Some (take dest buf ++ bs ++ drop (dest + length bs) buf) else None.

(** One packet: whether to go on, where the next one goes, and the buffer. *)
Definition get_packet (dest : nat) (buf : list Z) : M W (bool * nat * list Z) :=
  r <- read_exactly IPH_SIZE ;;
  match r with
  | None => dload_error M_read ;;; ret (false, dest, buf)
  | Some ipacket =>
      ipacket <- reorder_if IPH_SIZE ipacket ;;
      let ipsize := s32 (DOFF_ALIGN (u32 (i32_at ipacket 4))) in
      if ipsize >? IMAGE_PACKET_SIZE then dload_error M_packet_size ;;; ret (false, dest, buf)
      else
        bs <- call (read_buffer (u32 ipsize)) ;;
        buf <- lift (put_bytes dest bs buf) ;;
        if negb (Z.of_nat (length bs) =? ipsize) then dload_error M_read ;;; ret (false, dest, buf)
        else
          bits <- reorder_if ipsize (drop dest buf) ;;
          let buf := take dest buf ++ bits in
          c1 <- lift (dload_checksum bits ipsize) ;;
          c2 <- lift (dload_checksum ipacket IPH_SIZE) ;;
          if negb (i32_at ipacket 0 =? 0) then dload_error M_reloc_section ;;; ret (false, dest, buf)
          else if not_all_ones (u32 (c1 + c2)) then dload_error M_checksum ;;; ret (false, dest, buf)
          else ret (true, (dest + Z.to_nat ipsize)%nat, buf)
  end.

Fixpoint get_packets (nip : nat) (dest : nat) (buf : list Z) : M W (bool * list Z) :=
  match nip with
  | O => ret (true, buf)
  | Datatypes.S nip =>
      r <- get_packet dest buf ;;
      let '(ok, dest, buf) := r in
      if ok : bool then get_packets nip dest buf else ret (false, buf)
  end.

(** The section is given by its record; the result is whether it could be read, and the buffer. *)
Definition DLOAD_GetSection (minfo : bool) (sectionInfo : option doff_scnhdr_t) (sectionData : list Z) : M W (bool * list Z) :=
  if negb minfo then ret (false, sectionData)
  else
    match sectionInfo with
    | None => ret (false, sectionData)
    | Some sptr =>
        ok <- call (set_file_posn (DOFF_ALIGN (u32 (context (as_ldrsec sptr))))) ;;
        if negb ok then dload_error M_seek ;;; ret (false, sectionData)
        else get_packets (Z.to_nat (ds_nipacks sptr)) 0 sectionData
    end.

End Sections.

(** * What is taken and given back *)

Class DlSeekLaws (W : Type) `{Laws : DlLaws W} `{Seek : DlSeek W} := {
  seek_same p w : same_world w (set_file_posn p w).2
}.

Section Handles.
Context {W : Type} `{Env : DlEnv W} `{Laws : !DlLaws W} `{Seek : DlSeek W} `{SLaws : !DlSeekLaws W}.
Context (STATE_SIZE : Z).

Lemma open_body_inv w0 x st w :
  open_body (start_state 0) w0 = Some (x, st, w) ->
  inv (mkArgs true true true true) w0 st w /\ no_handle st /\ ((forall p w, (set_file_posn p w).1 = true) -> x = true).
Proof.
  intros H. unfold open_body in H. destruct (start_inv (mkArgs true true true true) 0 w0) as [I Hn].
  apply bind_Some in H as (u & st1 & w1 & E & H). apply dload_headers_quiet in E.
  pose proof (inv_quiet _ _ _ _ _ _ E I) as I1. pose proof (no_handle_quiet _ _ _ _ E Hn) as Hn1.
  pose proof (sect_none_quiet _ _ _ _ E eq_refl) as Hs1. pose proof (str_none_quiet _ _ _ _ E eq_refl) as Hr1.
  apply bind_Some in H as (u2 & st2 & w2 & E2 & H).
  assert (H2 : inv (mkArgs true true true true) w0 st2 w2 /\ sect_hdrs st2 = None /\ no_handle st2).
  { apply unless_errors_run in E2 as [[_ E2]|(_ & -> & ->)]; [by eapply dload_strings_inv|done]. }
  destruct H2 as (I2 & Hs2 & Hn2). apply bind_Some in H as (? & ? & ? & E5 & H). apply get_Some in E5 as (-> & -> & ->).
  apply bind_Some in H as (ok & st3 & w3 & E4 & H). apply call_Some in E4 as (-> & -> & ->).
  set (q := u32 _) in H. pose proof (seek_same q w2) as Hq.
  assert (I3 : inv (mkArgs true true true true) w0 st2 (set_file_posn q w2).2) by (eapply inv_quiet; [by apply quiet_world|done]).
  destruct (negb _) eqn:Eok; apply bind_Some in H as (u3 & st4 & w4 & E3 & H); apply ret_Some in H as (-> & -> & ->).
  - apply dload_error_run in E3. split; [by eapply inv_quiet|]. split; [by eapply no_handle_quiet|].
    intros Hall. by rewrite Hall in Eok.
  - apply unless_errors_run in E3 as [[_ E3]|(_ & -> & ->)]; [|done].
    destruct (dload_sections_inv _ _ _ _ _ _ _ I3 Hs2 Hn2 E3). done.
Qed.

Lemma close_blocks p st w w0 w1 :
  allocated w0 p w1 -> inv (mkArgs true true true true) w1 st w -> no_handle st ->
  v_blocks (DLOAD_module_close (Some (p, st)) w) = v_blocks w0 /\
  v_syms (DLOAD_module_close (Some (p, st)) w) = v_syms w0 /\ v_target (DLOAD_module_close (Some (p, st)) w) = v_target w0.
Proof.
  intros (_ & _ & Hs0 & Hb0 & Ht0 & _) I [[Hm Hl] [Hc Hld]].
  assert (Hb : v_blocks w = v_blocks w1 ⊎ list_to_set_disj (held st)) by apply I.
  assert (Ht : v_target w = v_target w1).
  { rewrite (i_target _ _ _ _ I). unfold taken, loads. rewrite Hld, take_nil. simpl. multiset_solver. }
  destruct (i_syms _ _ _ _ I) as (added & Hsy & _ & Ha). rewrite (Ha Hl) in Hsy. simpl in Hsy.
  assert (Hd : forall A (o : option (Z * A)) w, let w' := deallocate o w in
    v_syms w' = v_syms w /\ v_target w' = v_target w /\ v_blocks w' = v_blocks w ∖ list_to_set_disj (ptr o)).
  { intros A [[q x]|] w2; simpl; [|split_and!; [done..|multiset_solver]].
    destruct (deallocate_law q w2) as (H1 & H2 & H3 & _). split_and!; [done..|]. rewrite H2. multiset_solver. }
  unfold DLOAD_module_close. set (w2 := deallocate (str_head st) w). set (w3 := deallocate (sect_hdrs st) w2).
  destruct (Hd _ (str_head st) w) as (H1 & H2 & H3). destruct (Hd _ (sect_hdrs st) w2) as (H4 & H5 & H6).
  destruct (deallocate_law p w3) as (H7 & H8 & H9 & _). fold w2 in H1, H2, H3. fold w3 in H4, H5, H6.
  split; [|split; congruence]. rewrite H8, H6, H3, Hb, Hb0. unfold held, handle_ptr. rewrite Hm, Hl. simpl.
  rewrite List.app_nil_r, list_to_set_disj_app. multiset_solver.
Qed.

End Handles.

(** Opening a module file and closing it again leaves the host's memory, the symbols and the target
    as they were; so does an opening that fails - for want of memory, because of the headers, the
    names or the records of the sections -, whatever it had read by then, as long as the position in
    the file can be set. *)
Lemma module_open_close {W : Type} `{SLaws : DlSeekLaws W} (STATE_SIZE : Z) (module : bool) (w w1 : W) (h : DLOAD_module_info) :
  (forall p w, (set_file_posn p w).1 = true) ->
  DLOAD_module_open STATE_SIZE module true w = Some (h, w1) ->
  v_blocks (DLOAD_module_close h w1) = v_blocks w /\ v_syms (DLOAD_module_close h w1) = v_syms w /\
  v_target (DLOAD_module_close h w1) = v_target w.
Proof.
  intros Hseek H. unfold DLOAD_module_open in H. cbn [negb] in H. destruct module; cbn [negb] in H.
  2:{ injection H as <- <-. simpl. destruct (report_same M_null_argument w) as (? & ? & ? & _). done. }
  pose proof (allocate_law STATE_SIZE w) as Ha. destruct (Allocate STATE_SIZE w) as [r w2]. simpl in Ha.
  destruct r as [[p junk]|].
  2:{ injection H as <- <-. simpl. pose proof (same_trans _ _ _ Ha (report_same M_module_info w2)) as (? & ? & ? & _). done. }
  destruct (open_body (start_state 0) w2) as [[[ok st] w3]|] eqn:E; [|done].
  pose proof (open_body_inv _ _ _ _ E) as (I & Hn & Hok). rewrite Hok in H by done. cbn [negb] in H.
  pose proof (close_blocks p st w3 w w2 Ha I Hn) as Hc.
  destruct (negb (dload_errcount st =? 0)); injection H as <- <-; [exact Hc|].
  unfold name_sections. destruct (sect_hdrs st) as [[q l]|] eqn:El; [|exact Hc].
  unfold DLOAD_module_close, deallocate in *. cbn [str_head sect_hdrs set_sect_hdrs]. rewrite El in Hc. exact Hc.
Qed.

(** * Looking up *)

(** The first section of the name, when all have names. *)
Lemma find_section_first st nm ss names i :
  Forall2 (fun s m => string_at st (name (as_ldrsec s)) = Some m) ss names ->
  find_section st nm ss (length ss) i = Some ((fun x => (i + x.1)%nat) <$> list_find (fun m => m = nm) names).
Proof.
  intros Hs. revert i. induction Hs as [|s m ss names Hm _ IH]; intros i; [done|]. cbn [length find_section]. rewrite Hm.
  cbn [list_find]. case_decide as E; simpl.
  - by rewrite bool_decide_eq_true_2, Nat.add_0_r by done.
  - rewrite bool_decide_eq_false_2, IH by done. destruct (list_find _ names) as [[k x]|]; simpl; [|done]. do 2 f_equal. lia.
Qed.

(** The size of the buffer for a section: the next multiple of four. *)
Lemma RoundUpSectionSize_spec n :
  0 <= n <= 2 ^ 32 - 4 -> n <= DLOAD_RoundUpSectionSize n < n + 4 /\ DLOAD_RoundUpSectionSize n mod 4 = 0.
Proof.
  intros Hn. unfold DLOAD_RoundUpSectionSize. rewrite uwrap_small by lia. change (u32 (-4)) with (Z.shiftl (Z.ones 30) 2).
  assert (E : Z.land (n + 3) (Z.shiftl (Z.ones 30) 2) = 4 * ((n + 3) / 4)).
  { rewrite Z.mul_comm. change 4 with (2 ^ 2). rewrite <- Z.shiftl_mul_pow2, <- Z.shiftr_div_pow2 by lia.
    apply Z.bits_inj'. intros k Hk. rewrite Z.land_spec, !Z.shiftl_spec by lia. destruct (Z.lt_ge_cases k 2) as [H2|H2].
    - rewrite (Z.testbit_neg_r (Z.ones 30)), (Z.testbit_neg_r (Z.shiftr _ _)) by lia. apply andb_false_r.
    - rewrite Z.shiftr_spec, Z.sub_add by lia. destruct (Z.lt_ge_cases k 32) as [H3|H3].
      + rewrite Z.ones_spec_low by lia. apply andb_true_r.
      + rewrite Z.ones_spec_high by lia. rewrite andb_false_r. symmetry. destruct (decide (n + 3 = 0)); [lia|].
        apply Z.bits_above_log2; [lia|]. apply Z.log2_lt_pow2; [lia|]. apply Z.lt_le_trans with (2 ^ 32); [lia|]. apply Z.pow_le_mono_r; lia. }
  rewrite E. split; [Z.div_mod_to_equations; lia|]. rewrite Z.mul_comm. apply Z.mod_mul. lia.
Qed.

(** * Reading an image *)

(** A stream over the bytes of a file. *)
Class DlFile (W : Type) `{Env : DlEnv W} `{Seek : DlSeek W} := {
  contents : W -> list Z;
  position : W -> nat;
  seek_file p w : let r := set_file_posn p w in
    0 <= p -> r.1 = true -> contents r.2 = contents w /\ position r.2 = Z.to_nat p;
  read_file n w : let r := read_buffer n w in
    0 <= n -> r.1 = take (Z.to_nat n) (drop (position w) (contents w)) /\
      contents r.2 = contents w /\ position r.2 = (position w + length r.1)%nat
}.

(** ** Blocks inside larger ones *)

Lemma get_le_app k m rest p v : get_le k m p = Some v -> get_le k (m ++ rest) p = Some v.
Proof.
  unfold get_le. destruct (Nat.leb_spec (p + k) (length m)) as [Hl|Hl]; [|done]. intros [= <-].
  rewrite length_app, (proj2 (Nat.leb_le _ _)) by lia. rewrite drop_app_le, take_app_le; [done|rewrite length_drop|]; lia.
Qed.

Lemma put_le_app k m rest p v m' : put_le k m p v = Some m' -> put_le k (m ++ rest) p v = Some (m' ++ rest).
Proof.
  unfold put_le. destruct (Nat.leb_spec (p + k) (length m)) as [Hl|Hl]; [|done]. intros [= <-].
  rewrite length_app, (proj2 (Nat.leb_le _ _)) by lia. rewrite take_app_le, drop_app_le by lia. by rewrite <- !app_assoc.
Qed.

Lemma dload_reorder_app data rest dsiz map data' :
  dload_reorder data dsiz map = Some data' -> dload_reorder (data ++ rest) dsiz map = Some (data' ++ rest).
Proof.
  unfold dload_reorder. generalize (Datatypes.S (Z.to_nat dsiz)) as fuel, (u32 (Z.shiftl map 3)) as m, 0%nat as dp.
  intros fuel. revert data dsiz. induction fuel as [|fuel IH]; intros data dsiz m dp H; [done|]. cbn [dload_reorder_from] in *.
  destruct (get32 data dp) as [v|] eqn:E1; [|done]. unfold get32 in *. rewrite (get_le_app _ _ _ _ _ E1).
  destruct (reorder_word 4 v m 0) as [t|]; [|done]. destruct (put_le 4 data dp t) as [d|] eqn:E2; [|done].
  rewrite (put_le_app _ _ _ _ _ _ E2). destruct (dsiz - 4 >? 0); [by apply IH|]. by injection H as <-.
Qed.

Lemma dload_checksum_app data rest siz s :
  dload_checksum data siz = Some s -> dload_checksum (data ++ rest) siz = Some s.
Proof.
  unfold dload_checksum. generalize (Z.to_nat siz) as fuel, 0%nat as dp, 0 as sum. intros fuel. revert siz.
  induction fuel as [|fuel IH]; intros siz dp sum H; cbn [dload_checksum_from] in *; destruct (siz >? 0); try done.
  destruct (get32 data dp) as [v|] eqn:E1; [|done]. unfold get32 in *. rewrite (get_le_app _ _ _ _ _ E1). by apply IH.
Qed.

Lemma splice_next (dest : nat) (bs1 bs2 buf : list Z) :
  (dest + length bs1 <= length buf)%nat ->
  take (dest + length bs1) (take dest buf ++ bs1 ++ drop (dest + length bs1) buf) ++ bs2 ++
    drop (dest + length bs1 + length bs2) (take dest buf ++ bs1 ++ drop (dest + length bs1) buf) =
  take dest buf ++ (bs1 ++ bs2) ++ drop (dest + length (bs1 ++ bs2)) buf.
Proof.
  intros Hl. assert (Ht : length (take dest buf) = dest) by (rewrite length_take; lia). rewrite (app_assoc (take dest buf) bs1).
  rewrite take_app_length' by (rewrite length_app; lia).
  rewrite drop_app_ge by (rewrite length_app; lia). rewrite drop_drop, length_app, Ht, <- !app_assoc. do 4 f_equal.
  rewrite length_app. lia.
Qed.

Section Images.
Context {W : Type} `{Env : DlEnv W} `{Seek : DlSeek W} `{File : !DlFile W}.

(** Bytes as they are in the file, of a host of the order that [map] tells. *)
Definition stored_as (map : Z) (bs raw : list Z) : Prop :=
  length raw = length bs /\ (0 < length bs)%nat /\
  if map =? 0 then raw = bs else dload_reorder raw (Z.of_nat (length bs)) map = Some bs.

(** A packet of the image [chunk], without relocations, in the file. *)
Definition packet_stored (map : Z) (chunk raw : list Z) : Prop :=
  exists hdr rhdr rchunk c1 c2,
    raw = rhdr ++ rchunk /\ stored_as map hdr rhdr /\ stored_as map chunk rchunk /\ length hdr = 12%nat /\
    i32_at hdr 0 = 0 /\ DOFF_ALIGN (u32 (i32_at hdr 4)) = Z.of_nat (length chunk) /\ Z.of_nat (length chunk) <= IMAGE_PACKET_SIZE /\
    dload_checksum chunk (Z.of_nat (length chunk)) = Some c1 /\ dload_checksum hdr IPH_SIZE = Some c2 /\ u32 (c1 + c2) = 2 ^ 32 - 1.

(** The file goes on with these bytes. *)
Definition at_bytes (w : W) (bs : list Z) : Prop := exists post, drop (position w) (contents w) = bs ++ post.

Lemma read_at n w bs rest :
  at_bytes w (bs ++ rest) -> n = Z.of_nat (length bs) ->
  exists w', read_buffer n w = (bs, w') /\ at_bytes w' rest /\ contents w' = contents w.
Proof.
  intros [post Hp] ->. destruct (read_file (Z.of_nat (length bs)) w) as (Hb & Hc & Hpos); [lia|].
  destruct (read_buffer (Z.of_nat (length bs)) w) as [bs' w']. simpl in *. rewrite Nat2Z.id, Hp, <- app_assoc, take_app_length in Hb.
  subst bs'. exists w'. split_and!; [done| |done]. exists post. rewrite Hc, Hpos, <- drop_drop, Hp, <- app_assoc. by rewrite drop_app_length.
Qed.

Lemma reorder_if_stored bs raw rest st (w : W) :
  stored_as (reorder_map st) bs raw ->
  reorder_if (Z.of_nat (length bs)) (raw ++ rest) st w = Some (bs ++ rest, st, w).
Proof.
  intros (_ & _ & Hs). unfold reorder_if. rewrite (bind_step get _ st w st st w) by done.
  destruct (reorder_map st =? 0); cbn [negb]; [by rewrite Hs|].
  unfold lift. by rewrite (dload_reorder_app _ rest _ _ _ Hs).
Qed.

Lemma get_packet_spec dest buf st w chunk raw rest :
  packet_stored (reorder_map st) chunk raw -> at_bytes w (raw ++ rest) -> (dest + length chunk <= length buf)%nat ->
  exists w', get_packet dest buf st w =
      Some ((true, (dest + length chunk)%nat, take dest buf ++ chunk ++ drop (dest + length chunk) buf), st, w') /\
    at_bytes w' rest /\ contents w' = contents w.
Proof.
  intros (hdr & rhdr & rchunk & c1 & c2 & -> & Hh & Hc & Hlh & Hrel & Hsz & Hmax & Hc1 & Hc2 & Hsum) Hat Hbuf.
  unfold get_packet. rewrite <- app_assoc in Hat.
  destruct (read_at IPH_SIZE w rhdr (rchunk ++ rest)) as (w1 & Hr1 & Hat1 & Hcon1); [done|destruct Hh as [-> _]; by rewrite Hlh|].
  unfold read_exactly. erewrite (bind_step (bind _ _)); [|unfold bind, call; rewrite Hr1; reflexivity].
  destruct Hh as (Hlr & Hpos & Hh). rewrite Hlr, Hlh. change (Z.of_nat 12 =? IPH_SIZE) with true. cbv iota.
  assert (Hh' : stored_as (reorder_map st) hdr rhdr) by (split_and!; done).
  rewrite (bind_step _ _ _ _ hdr st w1) by (rewrite <- (app_nil_r rhdr), <- (app_nil_r hdr); rewrite <- (reorder_if_stored hdr rhdr [] st w1 Hh'), Hlh; done).
  rewrite Hsz. assert (Hs : s32 (Z.of_nat (length chunk)) = Z.of_nat (length chunk)).
  { apply swrap_small; [lia|]. unfold IMAGE_PACKET_SIZE in Hmax. lia. }
  rewrite Hs, Z.gtb_ltb, (proj2 (Z.ltb_ge _ _)) by lia.
  destruct Hc as (Hlc & Hpos' & Hc). 
  destruct (read_at (u32 (Z.of_nat (length chunk))) w1 rchunk rest) as (w2 & Hr2 & Hat2 & Hcon2);
    [done|rewrite Hlc; apply uwrap_small; unfold IMAGE_PACKET_SIZE in Hmax; lia|].
  rewrite (bind_step _ _ _ _ rchunk st w2) by (unfold call; by rewrite Hr2).
  set (buf1 := take dest buf ++ rchunk ++ drop (dest + length chunk) buf).
  rewrite (bind_step _ _ _ _ buf1 st w2) by (unfold lift, put_bytes; by rewrite Hlc, (proj2 (Nat.leb_le _ _) Hbuf)).
  rewrite Hlc, Z.eqb_refl. cbn [negb].
  assert (Ht : length (take dest buf) = dest) by (rewrite length_take; lia).
  assert (Hd : drop dest buf1 = rchunk ++ drop (dest + length chunk) buf) by (unfold buf1; by rewrite drop_app_length').
  assert (Htk : take dest buf1 = take dest buf) by (unfold buf1; by rewrite take_app_length').
  rewrite Hd, Htk.
  rewrite (bind_step _ _ _ _ (chunk ++ drop (dest + length chunk) buf) st w2) by (apply reorder_if_stored; split_and!; done).
  rewrite (bind_step _ _ _ _ c1 st w2) by (unfold lift; by rewrite (dload_checksum_app _ _ _ _ Hc1)).
  rewrite (bind_step _ _ _ _ c2 st w2) by (unfold lift; by rewrite Hc2).
  rewrite Hrel. cbn [Z.eqb negb]. unfold not_all_ones. rewrite Hsum, Z.eqb_refl. cbn [negb]. unfold ret.
  exists w2. rewrite Nat2Z.id. split_and!; [done|done|congruence].
Qed.

Lemma get_packets_spec chunks raws : forall dest buf st w rest,
  Forall2 (packet_stored (reorder_map st)) chunks raws -> at_bytes w (concat raws ++ rest) ->
  (dest + length (concat chunks) <= length buf)%nat ->
  exists w', get_packets (length chunks) dest buf st w =
      Some ((true, take dest buf ++ concat chunks ++ drop (dest + length (concat chunks)) buf), st, w').
Proof.
  revert raws. induction chunks as [|chunk chunks IH]; intros raws dest buf st w rest Hs Hat Hl; inversion Hs; subst.
  { exists w. cbn. by rewrite Nat.add_0_r, take_drop. }
  cbn [concat] in *. rewrite length_app in Hl. rewrite <- app_assoc in Hat. cbn [length get_packets].
  destruct (get_packet_spec dest buf st w chunk y (concat l' ++ rest)) as (w1 & Hp & Hat1 & _); [done|done|lia|].
  rewrite (bind_step _ _ _ _ _ _ _ Hp). cbv beta iota.
  assert (Hlen : length (take dest buf ++ chunk ++ drop (dest + length chunk) buf) = length buf) by (apply splice_length; lia).
  match goal with |- exists w', get_packets _ ?d ?b _ _ = _ => destruct (IH l' d b st w1 rest) as (w2 & Hr) end; [done|done|rewrite Hlen; lia|].
  exists w2. rewrite Hr. do 3 f_equal. f_equal. apply splice_next. lia.
Qed.

(** C29: The image of a section is read back as it was stored: when the file has, from the offset that the
    section's record gives, the packets of the image - each with its header, whose checksum completes
    those of header and data, in the byte order of this host or of another one -, the call succeeds and
    the buffer has the packets one after the other, and beyond them what it had before. *)
Theorem get_section_reads (sptr : doff_scnhdr_t) (chunks raws : list (list Z)) (buf : list Z) (st : dload_state) (w : W) (pre post : list Z) :
  contents w = pre ++ concat raws ++ post -> Z.of_nat (length pre) = DOFF_ALIGN (u32 (context (as_ldrsec sptr))) ->
  Forall2 (packet_stored (reorder_map st)) chunks raws -> ds_nipacks sptr = Z.of_nat (length chunks) ->
  (length (concat chunks) <= length buf)%nat -> (set_file_posn (Z.of_nat (length pre)) w).1 = true ->
  exists w', DLOAD_GetSection true (Some sptr) buf st w =
    Some ((true, concat chunks ++ drop (length (concat chunks)) buf), st, w').
Proof.
  intros Hcon Hpre Hs Hn Hl Hseek. unfold DLOAD_GetSection. cbn [negb]. rewrite <- Hpre.
  destruct (seek_file (Z.of_nat (length pre)) w) as [Hc Hp]; [lia|done|].
  rewrite (bind_step _ _ _ _ true st (set_file_posn (Z.of_nat (length pre)) w).2).
  2:{ unfold call. destruct (set_file_posn _ w). simpl in *. by subst. }
  cbn [negb]. rewrite Hn, Nat2Z.id.
  destruct (get_packets_spec chunks raws 0 buf st (set_file_posn (Z.of_nat (length pre)) w).2 post) as (w' & Hr); [done| |done|by exists w'].
  exists []. by rewrite app_nil_r, Hc, Hp, Nat2Z.id, Hcon, drop_app_length.
Qed.

End Images.

(** * A host with files *)

Record file_world := mkFile { fw_bytes : list Z; fw_pos : nat; fw_host : sample_world }.
Definition set_host (w : file_world) (h : sample_world) : file_world := mkFile (fw_bytes w) (fw_pos w) h.
Definition on_host {A} (f : sample_world -> A * sample_world) (w : file_world) : A * file_world :=
  ((f (fw_host w)).1, set_host w (f (fw_host w)).2).
Definition on_host_ (f : sample_world -> sample_world) (w : file_world) : file_world := set_host w (f (fw_host w)).

#[export] Instance file_env : DlEnv file_world := {|
  read_buffer n w :=
    let bs := take (Z.to_nat n) (drop (fw_pos w) (fw_bytes w)) in
    (bs, mkFile (fw_bytes w) (fw_pos w + length bs) (fw_host w));
  Find_Matching_Symbol nm := on_host (Find_Matching_Symbol nm);
  Add_To_Symbol_Table nm md v := on_host (Add_To_Symbol_Table nm md v);
  Purge_Symbol_Table md := on_host_ (Purge_Symbol_Table md);
  Allocate n := on_host (Allocate n);
  Deallocate p := on_host_ (Deallocate p);
  Error_Report m := on_host_ (Error_Report m);
  host_node_at p w := host_node_at p (fw_host w);
  host_store p n := on_host_ (host_store p n);
  CINITNAME := 16; DLLVIEWNAME := 24;
  alloc_Allocate s align := on_host (alloc_Allocate s align);
  alloc_Deallocate s := on_host_ (alloc_Deallocate s);
  connect := on_host connect;
  writemem bs l s := on_host (writemem bs l s);
  fillmem l s n v := on_host (fillmem l s n v);
  execute a := on_host (execute a);
  release := on_host_ release
|}.
#[export] Instance file_seek : DlSeek file_world := {|
  set_file_posn p w := (true, mkFile (fw_bytes w) (Z.to_nat p) (fw_host w))
|}.
#[export, refine] Instance file_laws : DlLaws file_world := {|
  v_syms w := v_syms (fw_host w); v_blocks w := v_blocks (fw_host w); v_target w := v_target (fw_host w)
|}.
Proof.
  - done.
  - intros nm w. exact (find_same nm (fw_host w)).
  - intros m w. exact (report_same m (fw_host w)).
  - intros w. exact (connect_same (fw_host w)).
  - intros bs l s w. exact (writemem_same bs l s (fw_host w)).
  - intros l s n v w. exact (fillmem_same l s n v (fw_host w)).
  - intros a w. exact (execute_same a (fw_host w)).
  - intros w. exact (release_same (fw_host w)).
  - intros nm w. exact (find_law nm (fw_host w)).
  - intros nm md v w. exact (add_law nm md v (fw_host w)).
  - intros md w. exact (purge_law md (fw_host w)).
  - intros n w. exact (allocate_law n (fw_host w)).
  - intros p w. exact (deallocate_law p (fw_host w)).
  - intros p n w. exact (store_law p n (fw_host w)).
  - intros s align w. exact (talloc_law s align (fw_host w)).
  - intros s w. exact (tfree_law s (fw_host w)).
Defined.
#[export] Instance file_seek_laws : DlSeekLaws file_world.
Proof. by split. Qed.
#[export, refine] Instance file_file : DlFile file_world := {| contents := fw_bytes; position := fw_pos |}.
Proof. all: by intros. Defined.

Definition disk (bs : list Z) : file_world := mkFile bs 0 (empty_world []).
(** A stream whose position cannot be set. *)
Definition no_seek : DlSeek file_world := {| set_file_posn p w := (false, w) |}.

(** A module with the section ".text" of two words, and the same in the other byte order. *)
Definition native_file : list Z := concat (le_bytes 4 <$>
  [12; 4100; 66051; 8; 1048577; 65537; 10027008; 65536; 4283690466; 24301; 4291813258; 0; 0;
   3129736; 2019914798; 116; 6513249; 0; 4096; 4096; 8; 3145728; 108; 1; 8; 1048576; 4096; 0; 8;
   4007509171; 287454020; 4096]).
Definition swapped_file : list Z := swap_words_of 32 native_file.
Definition text_name : list Z := [46; 116; 101; 120; 116].

Definition open_file (f : list Z) : option (DLOAD_module_info * file_world) := DLOAD_module_open 200 true true (disk f).
Definition first_record (st : dload_state) : option doff_scnhdr_t :=
  let* (_, l) := sect_hdrs st in l !! 0%nat.
(** Looking up the section by its name, and reading it into a buffer of twelve bytes. *)
Definition read_text (f : list Z) : option (option nat * (bool * list Z)) :=
  let* (h, w) := open_file f in
  let* (_, st) := h in
  let* i := DLOAD_GetSectionInfo h text_name in
  let* (r, _, _) := DLOAD_GetSection true (first_record st) (replicate 12 1) st w in Some (i, r).

(** Both files read the same: the words of the section, and beyond them the buffer as it was. *)
Example read_text_samples :
  read_text native_file = Some (Some 0%nat, (true, [68; 51; 34; 17; 0; 16; 0; 0; 1; 1; 1; 1])) /\
  read_text swapped_file = read_text native_file.
Proof. by vm_compute. Qed.

(** When the position cannot be set, the opening fails and the blocks of the state and of the names
    stay allocated. *)
Lemma module_open_leaks :
  exists w, DLOAD_module_open (Seek := no_seek) 200 true true (disk native_file) = Some (None, w) /\
    elements (v_blocks w) ≡ₚ [4096; 8192] /\ elements (v_blocks (disk native_file)) = [].
Proof.
  eexists. split; [vm_compute; reflexivity|]. split; [|by vm_compute]. apply (bool_decide_unpack _). by vm_compute.
Qed.

Definition swapped_state : dload_state :=
  Eval vm_compute in match open_file swapped_file with Some (Some (_, st), _) => st | _ => zero_state end.
Definition swapped_world : file_world :=
  Eval vm_compute in match open_file swapped_file with Some (_, w) => w | _ => disk [] end.
Definition text_record : doff_scnhdr_t :=
  Eval vm_compute in default (mkScnhdr zero_section 0) (first_record swapped_state).

Lemma module_open_close_witness :
  exists h w1, DLOAD_module_open 200 true true (disk swapped_file) = Some (h, w1) /\ h <> None /\
    elements (v_blocks w1) <> [] /\ v_blocks (DLOAD_module_close h w1) = v_blocks (disk swapped_file).
Proof.
  assert (E : exists h w1, DLOAD_module_open 200 true true (disk swapped_file) = Some (h, w1) /\ h <> None /\ elements (v_blocks w1) <> []).
  { eexists _, _. split; [vm_compute; reflexivity|]. split; [discriminate|]. vm_compute. discriminate. }
  destruct E as (h & w1 & E & Hh & Hb). exists h, w1. split; [exact E|]. split; [exact Hh|]. split; [exact Hb|]. apply (module_open_close 200 true (disk swapped_file) w1 h); [by intros|exact E].
Defined.

Lemma get_section_reads_witness :
  exists w', DLOAD_GetSection true (Some text_record) (replicate 12 1) swapped_state swapped_world =
    Some ((true, [68; 51; 34; 17; 0; 16; 0; 0] ++ [1; 1; 1; 1]), swapped_state, w').
Proof.
  apply (get_section_reads text_record [[68; 51; 34; 17; 0; 16; 0; 0]] [drop 108 swapped_file] (replicate 12 1)
    swapped_state swapped_world (take 108 swapped_file) []).
  - vm_compute. reflexivity.
  - vm_compute. reflexivity.
  - constructor; [|constructor].
    exists (drop 108 (take 120 native_file)), (drop 108 (take 120 swapped_file)), (drop 120 swapped_file).
    eexists _, _. split; [vm_compute; reflexivity|]. split; [repeat split; vm_compute; try reflexivity; repeat constructor|].
    split; [repeat split; vm_compute; try reflexivity; repeat constructor|]. split; [vm_compute; reflexivity|].
    split; [vm_compute; reflexivity|]. split; [vm_compute; reflexivity|]. split; [vm_compute; discriminate|].
    split; [vm_compute; reflexivity|]. split; [vm_compute; reflexivity|]. vm_compute. reflexivity.
  - vm_compute. reflexivity.
  - apply Nat.leb_le. vm_compute. reflexivity.
  - vm_compute. reflexivity.
Defined.
