(* ===== verification/DlDebugList.v ===== *)
(** The debugger's list of modules (src/dspbridge/dynreg/cload.c): the doubly
    linked list of module handles that mirrors the list on the target.  A load
    links its handle in after the root ([link_after_root]), an unload takes a
    handle out wherever it is ([unload_record]). *)

From Stdlib Require Import ZArith Lia.
From stdpp Require Import base list list_numbers option gmap gmultiset tactics.
From S2P Require Import Prelude DlWords DlField DlState DlLoad DlCinit DlModule DlResources.

(** * Doubly linked segments *)

Section Segments.
Variable root : Z.

(** From the pointer [p], whose predecessor is [prev], through the handles [l],
    to the pointer [q], whose predecessor is [last]. *)
Fixpoint seg (node : Z -> option host_node) (prev p : Z) (l : list Z) (last q : Z) : Prop :=
  match l with
  | [] => prev = last /\ p = q
  | h :: l =>
      p = h /\ h <> 0 /\
      exists hd, node h = Some (Handle hd) /\ h_hprev hd = prev /\ h_hroot hd = root /\
        seg node h (h_hnext hd) l last q
  end.

Lemma seg_app node prev p l1 l2 last q :
  seg node prev p (l1 ++ l2) last q <->
  exists last1 q1, seg node prev p l1 last1 q1 /\ seg node last1 q1 l2 last q.
Proof.
  revert prev p. induction l1 as [|h l1 IH]; intros prev p; simpl.
  - split; [intros H; by exists prev, p|]. by intros (? & ? & [-> ->] & H).
  - split.
    + intros (-> & Hh & hd & Hn & Hp & Hr & Hs). apply IH in Hs as (l & q1 & H1 & H2).
      exists l, q1. split; [|done]. by repeat (split || eexists).
    + intros (l & q1 & (-> & Hh & hd & Hn & Hp & Hr & Hs) & H2). do 2 (split; [done|]).
      exists hd. do 3 (split; [done|]). apply IH. by exists l, q1.
Qed.

Lemma seg_frame node node' prev p l last q :
  (forall h, h ∈ l -> node' h = node h) -> seg node prev p l last q -> seg node' prev p l last q.
Proof.
  revert prev p. induction l as [|h l IH]; intros prev p Hf; simpl; [done|].
  intros (-> & Hh & hd & Hn & Hp & Hr & Hs). do 2 (split; [done|]). exists hd.
  rewrite Hf by set_solver. do 3 (split; [done|]). apply IH; [|done]. set_solver.
Qed.

(** The last handle of a segment, or its predecessor. *)
Lemma seg_last node prev p l last q :
  seg node prev p l last q -> l = [] /\ last = prev /\ p = q \/
  exists l', l = l' ++ [last].
Proof.
  revert prev p. induction l as [|h l IH]; intros prev p; simpl; [by intros [-> ->]; left|].
  intros (-> & Hh & hd & Hn & Hp & Hr & Hs). right.
  apply IH in Hs as [(-> & -> & _)|[l' ->]]; [by exists []|]. by exists (h :: l').
Qed.

(** Changing the pointer after the last handle. *)
Lemma seg_set_next node node' prev p l last q q' :
  NoDup l -> l <> [] ->
  (forall h, h ∈ l -> h <> last -> node' h = node h) ->
  (forall hd, node last = Some (Handle hd) -> node' last = Some (Handle (set_h_hnext q' hd))) ->
  seg node prev p l last q -> seg node' prev p l last q'.
Proof.
  revert prev p. induction l as [|h l IH]; intros prev p Hnd Hne Hf Hl; [done|]. simpl.
  intros (-> & Hh & hd & Hn & Hp & Hr & Hs). do 2 (split; [done|]).
  apply list.NoDup_cons in Hnd as [Hnin Hnd]. destruct l as [|h2 l].
  - destruct Hs as [-> <-]. exists (set_h_hnext q' hd). split; [by apply Hl|]. done.
  - assert (Hlh : h <> last).
    { apply seg_last in Hs as [[? _]|[l' E]]; [done|]. intros ->. apply Hnin. rewrite E. set_solver. }
    exists hd. rewrite Hf by set_solver. do 3 (split; [done|]).
    apply IH; [done|done| |done|done]. intros x Hx. apply Hf. set_solver.
Qed.

(** Changing the predecessor of the first handle. *)
Lemma seg_set_prev node node' prev prev' p l last q :
  NoDup l -> l <> [] ->
  (forall h, h ∈ l -> h <> p -> node' h = node h) ->
  (forall hd, node p = Some (Handle hd) -> node' p = Some (Handle (set_h_hprev prev' hd))) ->
  seg node prev p l last q -> seg node' prev' p l last q.
Proof.
  destruct l as [|h l]; [done|]. intros Hnd _ Hf Hp. simpl.
  intros (-> & Hh & hd & Hn & Hpr & Hr & Hs). do 2 (split; [done|]).
  exists (set_h_hprev prev' hd). split; [by apply Hp|]. do 2 (split; [done|]).
  apply list.NoDup_cons in Hnd as [Hnin _]. eapply seg_frame; [|exact Hs].
  intros x Hx. apply Hf; [set_solver|]. by intros ->.
Qed.

(** The list from the root. *)
Definition debug_list (node : Z -> option host_node) (hs : list Z) : Prop :=
  NoDup (root :: hs) /\
  exists r last, node root = Some (Root r) /\ seg node root (rt_hnext r) hs last 0.

(** A new first handle. *)
Lemma debug_list_cons node node' hs h hd r :
  debug_list node hs -> node root = Some (Root r) -> h <> 0 -> h ∉ root :: hs ->
  node' h = Some (Handle hd) -> h_hprev hd = root -> h_hroot hd = root -> h_hnext hd = rt_hnext r ->
  (exists r', node' root = Some (Root r') /\ rt_hnext r' = h) ->
  (forall x, x ∈ hs -> x <> rt_hnext r -> node' x = node x) ->
  (rt_hnext r <> 0 -> forall nd, node (rt_hnext r) = Some (Handle nd) ->
     node' (rt_hnext r) = Some (Handle (set_h_hprev h nd))) ->
  debug_list node' (h :: hs).
Proof.
  intros (Hnd & r0 & last & Hr & Hs) Hr2 Hh Hin Hn Hp Hro Hnx (r' & Hr' & Hnr) Hf Hp'.
  rewrite Hr in Hr2. injection Hr2 as ->. apply list.NoDup_cons in Hnd as [Hri Hnd].
  split; [repeat constructor; set_solver|].
  destruct hs as [|h2 hs].
  - simpl in Hs. destruct Hs as [_ H0]. exists r', h. split; [done|]. rewrite Hnr. simpl.
    do 2 (split; [done|]). exists hd. repeat split; try done. congruence.
  - exists r', last. split; [done|]. rewrite Hnr. simpl. do 2 (split; [done|]).
    exists hd. do 3 (split; [done|]). rewrite Hnx.
    assert (H0 : rt_hnext r <> 0) by (simpl in Hs; destruct Hs as (-> & ? & _); done).
    apply (seg_set_prev node node' root h (rt_hnext r) (h2 :: hs)); [done|done|done| |done].
    by apply Hp'.
Qed.

(** A handle out of the list: the pointer before it and the one after it. *)
Lemma debug_list_remove node node' l1 l2 h hd :
  debug_list node (l1 ++ h :: l2) -> node h = Some (Handle hd) ->
  h_hroot hd = root /\
  (h_hprev hd = root /\ l1 = [] \/ exists l1', l1 = l1' ++ [h_hprev hd]) /\
  (h_hnext hd = 0 /\ l2 = [] \/ exists l2', l2 = h_hnext hd :: l2') /\
  ((forall n, node (h_hprev hd) = Some n ->
      node' (h_hprev hd) = Some (with_hnext (h_hnext hd) n)) ->
   (h_hnext hd <> 0 -> forall nd, node (h_hnext hd) = Some (Handle nd) ->
      node' (h_hnext hd) = Some (Handle (set_h_hprev (h_hprev hd) nd))) ->
   (forall x, x ∈ root :: l1 ++ l2 -> x <> h_hprev hd -> (h_hnext hd <> 0 -> x <> h_hnext hd) ->
      node' x = node x) ->
   debug_list node' (l1 ++ l2)).
Proof.
  intros (Hnd & r & last & Hr & Hs) Hn.
  apply seg_app in Hs as (last1 & q1 & H1 & Hs). simpl in Hs.
  destruct Hs as (-> & Hh & hd' & Hn' & Hp & Hro & H2). rewrite Hn in Hn'. injection Hn' as <-. subst last1.
  apply list.NoDup_cons in Hnd as [Hri Hnd]. apply list.NoDup_app in Hnd as (Hnd1 & Hd12 & Hnd2).
  apply list.NoDup_cons in Hnd2 as [Hhi Hnd2].
  pose proof (seg_last _ _ _ _ _ _ H1) as L1. split; [done|].
  split; [destruct L1 as [(-> & E & _)|[l' ->]]; [by left|right; by eexists]|].
  assert (L2 : h_hnext hd = 0 /\ l2 = [] \/ exists l2', l2 = h_hnext hd :: l2').
  { destruct l2 as [|h2 l2]; simpl in H2; [left; by destruct H2|]. right. destruct H2 as (-> & _). by exists l2. }
  split; [done|]. intros Hprev Hnext Hf.
  assert (Hnd' : NoDup (root :: l1 ++ l2)).
  { apply list.NoDup_cons. split; [set_solver|]. apply list.NoDup_app. split; [done|]. split; [set_solver|done]. }
  split; [done|].
  (* the second part hangs from the last handle of the first *)
  assert (H2' : seg node' (h_hprev hd) (h_hnext hd) l2 (match l2 with [] => h_hprev hd | _ => last end) 0).
  { destruct l2 as [|h2 l2]; simpl in H2; [simpl; split; [done|by destruct H2]|].
    destruct L2 as [[_ ?]|[l2' [= -> ->]]]; [done|].
    apply (seg_set_prev node node' h); [done|done| | |].
    - intros x Hx Hne. apply Hf; [set_solver| |done]. intros ->.
      destruct L1 as [(-> & E & _)|[l' ->]]; [rewrite E in Hx; set_solver|set_solver].
    - apply Hnext. by destruct H2 as (_ & ? & _).
    - done. }
  destruct L1 as [(-> & E & Eq)|[l' El]].
  - (* the first handle *)
    exists (set_rt_hnext (h_hnext hd) r). eexists. split.
    + rewrite <- E at 1. rewrite (Hprev (Root r)); [done|]. by rewrite E.
    + simpl. rewrite <- E. exact H2'.
  - assert (Hne : h_hprev hd <> root) by (intros E; apply Hri; rewrite El, E; set_solver).
    assert (Hrn : h_hnext hd <> 0 -> forall x, x ∈ root :: l1 -> x <> h_hnext hd).
    { intros H0 x Hx ->. destruct L2 as [[E0 _]|[l2' ->]]; [done|].
      apply elem_of_cons in Hx as [Hx|Hx]; [apply Hri; rewrite <- Hx; set_solver|].
      apply (Hd12 _ Hx). set_solver. }
    exists r. eexists. split.
    { rewrite Hf; [done|set_solver|done|]. intros H0. apply (Hrn H0). set_solver. }
    apply seg_app. exists (h_hprev hd), (h_hnext hd). split; [|exact H2'].
    apply (seg_set_next node node' _ _ _ _ h); [done|by rewrite El; destruct l'| | |done].
    + intros x Hx Hxp. apply Hf; [set_solver|done|].
      intros H0. apply (Hrn H0). set_solver.
    + intros nd Hnd3. by rewrite (Hprev _ Hnd3).
Qed.

(** The other members of the root do not matter. *)
Lemma debug_list_root node node' hs r r' :
  debug_list node hs -> node root = Some (Root r) -> node' root = Some (Root r') ->
  rt_hnext r' = rt_hnext r -> (forall q, q <> root -> node' q = node q) -> debug_list node' hs.
Proof.
  intros (Hnd & r0 & last & Hr & Hs) Hr1 Hr2 Hnx Hf. split; [done|]. exists r', last. split; [done|].
  rewrite Hr in Hr1. injection Hr1 as ->. rewrite Hnx. eapply seg_frame; [|exact Hs].
  intros x Hx. apply Hf. intros ->. by apply list.NoDup_cons in Hnd as [? _].
Qed.

End Segments.

(** * The list on the target *)

(** What the list on the target tells of a module, or of the root: where its record is, and its size. *)
Definition record_of (node : Z -> option host_node) (p : Z) : Z * Z :=
  match node p with Some (Handle h) => (h_dbthis h, h_dbsiz h) | Some (Root r) => (rt_dbthis r, 0) | None => (0, 0) end.
Definition record_at (node : Z -> option host_node) (p : Z) : Z := (record_of node p).1.

(** The first bytes of a record lead to the next one. *)
Definition next_header (node : Z -> option host_node) (l : list Z) : list Z :=
  match l with [] => modules_header 0 0 | q :: _ => modules_header (record_of node q).1 (record_of node q).2 end.
Definition holds_at (m : Z -> option Z) (a : Z) (bs : list Z) : Prop :=
  forall i b, bs !! i = Some b -> m (a + Z.of_nat i) = Some b.
(** In the memory [m] the record of [p] leads to those of [l], one after the other, and the last one to none. *)
Fixpoint target_list (node : Z -> option host_node) (m : Z -> option Z) (p : Z) (l : list Z) : Prop :=
  holds_at m (record_at node p) (next_header node l) /\
  match l with [] => True | q :: l => target_list node m q l end.

(** The records, of eight bytes and more, do not overlap. *)
Definition records_apart (node : Z -> option host_node) (ps : list Z) : Prop :=
  forall x y, x ∈ ps -> y ∈ ps -> x <> y -> 8 <= Z.abs (record_at node x - record_at node y).

Lemma next_header_length node l : length (next_header node l) = 6%nat.
Proof. by destruct l. Qed.

Lemma held_frame m m' a bs :
  length bs = 6%nat -> (forall i, 0 <= i < 6 -> m' (a + i) = m (a + i)) -> holds_at m a bs -> holds_at m' a bs.
Proof. intros Hl Hm Hh i b Hb. pose proof (lookup_lt_Some _ _ _ Hb). rewrite Hm by lia. by apply Hh. Qed.

Lemma next_header_ext node node' l : (forall q, record_of node' q = record_of node q) -> next_header node' l = next_header node l.
Proof. intros Hn. destruct l; [done|]. cbn [next_header]. by rewrite Hn. Qed.

Lemma target_list_frame node node' m m' p l :
  (forall x, x ∈ p :: l -> record_of node' x = record_of node x) ->
  (forall x i, x ∈ p :: l -> 0 <= i < 6 -> m' (record_at node x + i) = m (record_at node x + i)) ->
  target_list node m p l -> target_list node' m' p l.
Proof.
  revert p. induction l as [|q l IH]; intros p Hn Hm; cbn [target_list]; intros [Hh Hl];
    (assert (Hp : record_at node' p = record_at node p) by (unfold record_at; by rewrite Hn by set_solver));
    rewrite Hp; (split; [|try done]).
  - by apply (held_frame m); [|intros i; apply Hm; set_solver|].
  - cbn [next_header]. rewrite Hn by set_solver. by apply (held_frame m); [|intros i; apply Hm; set_solver|].
  - apply IH; [|intros x i Hx; apply Hm|exact Hl]; set_solver.
Qed.

Lemma write_rec_in m a bs i b : bs !! i = Some b -> write_rec m (a, bs) (a + Z.of_nat i) = Some b.
Proof.
  intros Hb. pose proof (lookup_lt_Some _ _ _ Hb). unfold write_rec. cbn [fst snd].
  replace (a <=? a + Z.of_nat i) with true by (symmetry; apply Z.leb_le; lia).
  replace (a + Z.of_nat i <? a + Z.of_nat (length bs)) with true by (symmetry; apply Z.ltb_lt; lia). cbn [andb].
  by replace (Z.to_nat (a + Z.of_nat i - a)) with i by lia.
Qed.
Lemma write_rec_out m a bs x : ~ a <= x < a + Z.of_nat (length bs) -> write_rec m (a, bs) x = m x.
Proof.
  intros Hx. unfold write_rec. cbn [fst snd].
  destruct (Z.leb_spec a x), (Z.ltb_spec x (a + Z.of_nat (length bs))); try done. lia.
Qed.

(** The last of a list that begins with [p]. *)
Fixpoint last_of (p : Z) (l : list Z) : Z := match l with [] => p | x :: l => last_of x l end.
Lemma last_of_in p l : last_of p l ∈ p :: l.
Proof. revert p. induction l as [|x l IH]; intros p; cbn; [set_solver|]. specialize (IH x). set_solver. Qed.
Lemma last_of_app p l x : last_of p (l ++ [x]) = x.
Proof. revert p. induction l as [|y l IH]; intros p; [done|]. apply IH. Qed.

(** Writing the header of what follows [h] to the record before it takes [h] out. *)
Lemma target_list_remove node m p l1 h l2 :
  NoDup (p :: l1 ++ h :: l2) -> records_apart node (p :: l1 ++ h :: l2) -> target_list node m p (l1 ++ h :: l2) ->
  target_list node (write_rec m (record_at node (last_of p l1), next_header node l2)) p (l1 ++ l2).
Proof.
  revert p. induction l1 as [|x l1 IH]; intros p Hnd Ha Ht.
  - cbn [app last_of] in *. destruct Ht as [_ Ht].
    assert (Hp : forall m, holds_at (write_rec m (record_at node p, next_header node l2)) (record_at node p) (next_header node l2))
      by (intros m' i b; apply write_rec_in).
    destruct l2 as [|q l2]; (split; [apply Hp|]); [done|]. destruct Ht as [_ Ht].
    apply (target_list_frame node node m); [done| |exact Ht]. intros y i Hy Hi. apply write_rec_out. rewrite next_header_length.
    apply list.NoDup_cons in Hnd as [Hnp _]. specialize (Ha p y ltac:(set_solver) ltac:(set_solver)).
    assert (p <> y) by (intros ->; apply Hnp; set_solver). specialize (Ha ltac:(done)). lia.
  - destruct Ht as [Hh Ht]. pose proof Hnd as Hnd0. apply list.NoDup_cons in Hnd as [Hnp Hnd].
    cbn [app target_list last_of]. split.
    + apply (held_frame m); [apply next_header_length| |]. 2:{ cbn [next_header app] in Hh |- *. exact Hh. }
      intros i Hi. apply write_rec_out. rewrite next_header_length.
      pose proof (last_of_in x l1) as Hin.
      specialize (Ha p (last_of x l1) ltac:(set_solver) ltac:(set_solver)).
      assert (p <> last_of x l1) by (intros E; apply Hnp; rewrite E; set_solver). specialize (Ha ltac:(done)). lia.
    + apply IH; [exact Hnd| |exact Ht]. intros y z Hy Hz. apply Ha; set_solver.
Qed.

(** Of the calls that an unload makes, only [writemem] changes the memory of the target. *)
Class MemFrame (W : Type) `{Mem : TargetMem W} := {
  connect_mem w a : mem (connect w).2 a = mem w a;
  release_mem w a : mem (release w) a = mem w a;
  store_mem p n w a : mem (host_store p n w) a = mem w a;
  tfree_mem s w a : mem (alloc_Deallocate s w) a = mem w a }.
#[export] Instance sample_frame : MemFrame sample_world.
Proof. split; intros; cbn; rewrite ?foldl_app; reflexivity. Defined.

(** * The operations *)

Section Operations.
Context {W : Type} `{Env : DlEnv W} `{Laws : !DlLaws W}.

Definition nodes (w : W) (p : Z) : option host_node := host_node_at p w.

(** Nothing but the content of blocks changed. *)
Definition same_views (w w' : W) : Prop :=
  v_syms w' = v_syms w /\ v_blocks w' = v_blocks w /\ v_target w' = v_target w.
Lemma same_views_trans (w w1 w2 : W) : same_views w w1 -> same_views w1 w2 -> same_views w w2.
Proof. intros (H1 & H2 & H3) (H4 & H5 & H6). unfold same_views. by rewrite H4, H5, H6. Qed.
Lemma same_world_views (w w' : W) : same_world w w' -> same_views w w'.
Proof. intros (H1 & H2 & H3 & _). done. Qed.

Lemma store_views p n (w : W) :
  same_views w (host_store p n w) /\
  forall q, nodes (host_store p n w) q = if decide (q = p) then Some n else nodes w q.
Proof.
  pose proof (store_law p n w) as (H1 & H2 & H3 & H4 & H5). split; [done|]. intros q. unfold nodes.
  destruct (decide (q = p)) as [->|Hne]; [done|by apply H5].
Qed.

Lemma get_handle_step p hd st (w : W) :
  nodes w p = Some (Handle hd) -> get_handle p st w = Some (hd, st, w).
Proof. intros H. unfold get_handle, bind, get_node. unfold nodes in H. by rewrite H. Qed.
Lemma get_root_step p r st (w : W) :
  nodes w p = Some (Root r) -> get_root p st w = Some (r, st, w).
Proof. intros H. unfold get_root, bind, get_node. unfold nodes in H. by rewrite H. Qed.
Lemma get_node_step p n st (w : W) : nodes w p = Some n -> get_node p st w = Some (n, st, w).
Proof. intros H. unfold get_node. unfold nodes in H. by rewrite H. Qed.
Lemma upd_handle_step p f hd st (w : W) :
  nodes w p = Some (Handle hd) ->
  upd_handle p f st w = Some (tt, st, host_store p (Handle (f hd)) w).
Proof. intros H. unfold upd_handle, bind. by rewrite (get_handle_step _ _ _ _ H). Qed.
Lemma upd_root_step p f r st (w : W) :
  nodes w p = Some (Root r) ->
  upd_root p f st w = Some (tt, st, host_store p (Root (f r)) w).
Proof. intros H. unfold upd_root, bind. by rewrite (get_root_step _ _ _ _ H). Qed.

(** The first handle of a list. *)
Lemma debug_list_first root node hs r :
  debug_list root node hs -> node root = Some (Root r) -> rt_hnext r <> 0 ->
  rt_hnext r ∈ hs /\ exists nd, node (rt_hnext r) = Some (Handle nd).
Proof.
  intros (_ & r' & last & Hr & Hs) Hr2 H0. rewrite Hr in Hr2. injection Hr2 as ->.
  destruct hs as [|h hs]; simpl in Hs; [by destruct Hs|]. destruct Hs as (-> & _ & nd & Hn & _).
  split; [set_solver|by exists nd].
Qed.

(** Linking a handle in after the root makes it the first of the debugger's
    list, with the rest of the list after it, and takes nothing. *)
Lemma link_after_root_correct root hs h hd st (w : W) :
  debug_list root (nodes w) hs -> h <> 0 -> h ∉ root :: hs ->
  nodes w h = Some (Handle hd) -> h_hroot hd = root ->
  exists w', link_after_root h root st w = Some (tt, st, w') /\
    debug_list root (nodes w') (h :: hs) /\ same_views w w'.
Proof.
  intros HL Hh Hin Hn Hro. pose proof HL as (_ & r & last & Hr & _).
  pose proof (debug_list_first _ _ _ _ HL Hr) as Hfst.
  assert (Hhr : h <> root) by set_solver.
  unfold link_after_root. rewrite (bind_step _ _ _ _ _ _ _ (get_root_step _ _ st w Hr)).
  rewrite (bind_step _ _ _ _ _ _ _ (upd_handle_step _ (set_h_hnext (rt_hnext r)) _ st w Hn)).
  set (hd1 := set_h_hnext (rt_hnext r) hd).
  destruct (store_views h (Handle hd1) w) as [V1 N1]. set (w1 := host_store h (Handle hd1) w) in *.
  (* the old first handle *)
  set (c := if negb (rt_hnext r =? 0) then upd_handle (rt_hnext r) (set_h_hprev h) else ret tt).
  assert (Hc : exists w2, c st w1 = Some (tt, st, w2) /\ same_views w1 w2 /\
    (forall q, q <> rt_hnext r -> nodes w2 q = nodes w1 q) /\
    (rt_hnext r = 0 -> w2 = w1) /\
    (rt_hnext r <> 0 -> forall nd, nodes w (rt_hnext r) = Some (Handle nd) ->
       nodes w2 (rt_hnext r) = Some (Handle (set_h_hprev h nd)))).
  { unfold c. destruct (rt_hnext r =? 0) eqn:E; simpl.
    { exists w1. split; [done|]. split; [done|]. split; [done|]. split; [done|]. intros H0. lia. }
    assert (H0 : rt_hnext r <> 0) by lia. destruct (Hfst H0) as [Hi [nd Hnd]].
    assert (Hne : rt_hnext r <> h) by (intros Heq; apply Hin; set_solver).
    assert (Hnd1 : nodes w1 (rt_hnext r) = Some (Handle nd)) by (by rewrite N1, decide_False).
    rewrite (upd_handle_step _ _ _ _ _ Hnd1).
    destruct (store_views (rt_hnext r) (Handle (set_h_hprev h nd)) w1) as [V2 N2].
    eexists. split; [reflexivity|]. split; [done|]. split; [intros q Hq; by rewrite N2, decide_False|].
    split; [lia|]. intros _ nd' Hnd'. rewrite Hnd in Hnd'. simplify_eq. by rewrite N2, decide_True. }
  destruct Hc as (w2 & Hc & V2 & N2 & Hw2 & Hnx). rewrite (bind_step _ _ _ _ _ _ _ Hc).
  assert (Hrh : rt_hnext r <> h).
  { intros Heq. destruct (decide (rt_hnext r = 0)) as [H0|H0]; [congruence|].
    destruct (Hfst H0) as [Hi _]. apply Hin. set_solver. }
  assert (Hrr : rt_hnext r <> root \/ rt_hnext r = 0).
  { destruct (decide (rt_hnext r = 0)) as [H0|H0]; [by right|left]. destruct (Hfst H0) as [Hi _].
    intros Heq. destruct HL as [Hnd _]. apply list.NoDup_cons in Hnd as [Hri _]. by rewrite Heq in Hi. }
  assert (Hn2 : nodes w2 h = Some (Handle hd1)) by (rewrite N2 by done; by rewrite N1, decide_True).
  rewrite (bind_step _ _ _ _ _ _ _ (upd_handle_step _ (set_h_hprev root) _ st w2 Hn2)).
  destruct (store_views h (Handle (set_h_hprev root hd1)) w2) as [V3 N3].
  set (w3 := host_store h (Handle (set_h_hprev root hd1)) w2) in *.
  assert (Hr3 : nodes w3 root = Some (Root r)).
  { rewrite N3, decide_False by done. destruct Hrr as [Hrr|H0].
    - by rewrite N2, N1, decide_False.
    - rewrite (Hw2 H0). by rewrite N1, decide_False. }
  rewrite (upd_root_step _ (set_rt_hnext h) _ st w3 Hr3).
  destruct (store_views root (Root (set_rt_hnext h r)) w3) as [V4 N4].
  eexists. split; [reflexivity|]. split.
  - apply (debug_list_cons root (nodes w) _ hs h (set_h_hprev root hd1) r HL Hr Hh Hin).
    + by rewrite N4, decide_False, N3, decide_True.
    + done.
    + done.
    + done.
    + exists (set_rt_hnext h r). by rewrite N4, decide_True.
    + intros x Hx Hne.
      assert (x <> h) by (intros ->; apply Hin; set_solver).
      assert (x <> root).
      { intros ->. destruct HL as [Hnd _]. by apply list.NoDup_cons in Hnd as [? _]. }
      by rewrite N4, decide_False, N3, decide_False, N2, N1, decide_False.
    + intros H0 nd Hnd. destruct Hrr as [Hrr|?]; [|done].
      rewrite N4, decide_False, N3, decide_False by done. by apply Hnx.
  - eapply same_views_trans; [exact V1|]. eapply same_views_trans; [exact V2|].
    by eapply same_views_trans.
Qed.

(** The target can be reached and takes what is written to it. *)
Definition io_succeeds : Prop :=
  forall w : W, (connect w).1 = true /\ forall bs l s, (writemem bs l s w).1 = true.

Lemma same_world_nodes (w w' : W) : same_world w w' -> forall q, nodes w' q = nodes w q.
Proof. intros (_ & _ & _ & H). exact H. Qed.

(** The header of the list on the target is always 6 bytes long. *)
Lemma swap_header a b : is_Some (swap_words (modules_header a b) 6 MODULES_HEADER_BITMAP).
Proof. by eexists. Qed.

Lemma call_step {A} (f : W -> A * W) st w : call f st w = Some ((f w).1, st, (f w).2).
Proof. unfold call. by destruct (f w). Qed.

Context `{Mem : !TargetMem W} `{Frame : !MemFrame W}.

Lemma writemem_rec bs l s (w : W) a : mem (writemem bs l s w).2 a = write_rec (mem w) (l, bs) a.
Proof. destruct (writemem_ok bs l s w) as (w' & -> & Hm). apply Hm. Qed.

Definition next_of (hd : my_handle) : list Z := if h_hnext hd =? 0 then [] else [h_hnext hd].
(** What an unload writes: the header of the next record to the record before, and the count of changes to the root. *)
Definition unlink_writes (node : Z -> option host_node) (hd : my_handle) (r : dbg_mirror_root) (m : Z -> option Z) : Z -> option Z :=
  write_rec (write_rec m (record_at node (h_hprev hd), next_header node (next_of hd)))
    (u32 (rt_dbthis r + 6), le_bytes 2 (u16 (rt_changes r + 1))).

Lemma node_record p n (w : W) : nodes w p = Some n -> record_at (nodes w) p = node_dbthis n.
Proof. intros Hn. unfold record_at, record_of. rewrite Hn. by destruct n. Qed.

(** Telling the target: the root counts the change, and a little-endian module's record is taken out. *)
Lemma unlink_target_step hd info r n st (w : W) :
  io_succeeds -> nodes w (h_hroot hd) = Some (Root r) -> nodes w (h_hprev hd) = Some n ->
  (h_hnext hd <> 0 -> exists nd, nodes w (h_hnext hd) = Some (Handle nd)) ->
  exists w', unlink_target hd info st w = Some (0, st, w') /\ same_views w w' /\
    (forall q, nodes w' q = if decide (q = h_hroot hd)
                           then Some (Root (set_rt_changes (u16 (rt_changes r + 1)) r)) else nodes w q) /\
    (Z.land (h_secn_count hd) 1 = 0 -> forall a, mem w' a = unlink_writes (nodes w) hd r (mem w) a).
Proof.
  intros Hio Hr Hp Hnx. unfold unlink_target.
  set (c := if negb (h_hnext hd =? 0) then _ else _).
  assert (Hc : exists nx, c st w = Some (nx, st, w) /\ modules_header nx.1 nx.2 = next_header (nodes w) (next_of hd)).
  { unfold c, next_of. destruct (h_hnext hd =? 0) eqn:E; simpl; [by eexists|].
    destruct Hnx as [nd Hnd]; [lia|]. exists (h_dbthis nd, h_dbsiz nd).
    rewrite (bind_step _ _ _ _ _ _ _ (get_handle_step _ _ st w Hnd)). split; [done|]. unfold record_of. by rewrite Hnd. }
  destruct Hc as (nx & Hc & Hhd). rewrite (bind_step _ _ _ _ _ _ _ Hc). clear Hc c.
  rewrite (bind_step _ _ _ _ _ _ _ (call_step connect st w)), (proj1 (Hio w)). change (negb true) with false. cbv iota zeta.
  pose proof (connect_same w) as C1. set (w1 := (connect w).2) in *.
  set (m := if negb (Z.land (h_secn_count hd) 1 =? 0) then _ else _).
  assert (Hm : exists hdr, m st w1 = Some (hdr, st, w1) /\
    (Z.land (h_secn_count hd) 1 = 0 -> hdr = next_header (nodes w) (next_of hd))).
  { unfold m. destruct (Z.eqb_spec (Z.land (h_secn_count hd) 1) 0); cbn [negb]; [by eexists|].
    destruct (swap_header nx.1 nx.2) as [hdr Hh]. exists hdr. unfold lift. by rewrite Hh. }
  destruct Hm as (hdr & Hm & Hhdr). rewrite (bind_step _ _ _ _ _ _ _ Hm). clear Hm m.
  assert (Hp1 : nodes w1 (h_hprev hd) = Some n) by (by rewrite (same_world_nodes _ _ C1)).
  rewrite (bind_step _ _ _ _ _ _ _ (get_node_step _ _ st w1 Hp1)).
  rewrite (bind_step _ _ _ _ _ _ _ (call_step (writemem hdr (node_dbthis n) info) st w1)).
  rewrite (proj2 (Hio w1)). change (negb true) with false. cbv iota.
  pose proof (writemem_same hdr (node_dbthis n) info w1) as C2.
  pose proof (writemem_rec hdr (node_dbthis n) info w1) as M2.
  set (w2 := (writemem hdr (node_dbthis n) info w1).2) in *.
  rewrite (bind_step (ret tt) _ st w2 tt st w2 eq_refl).
  assert (Hr2 : nodes w2 (h_hroot hd) = Some (Root r))
    by (by rewrite (same_world_nodes _ _ C2), (same_world_nodes _ _ C1)).
  rewrite (bind_step _ _ _ _ _ _ _
    (upd_root_step _ (fun r => set_rt_changes (u16 (rt_changes r + 1)) r) _ st w2 Hr2)).
  set (r' := set_rt_changes (u16 (rt_changes r + 1)) r).
  destruct (store_views (h_hroot hd) (Root r') w2) as [V3 N3].
  pose proof (store_mem (h_hroot hd) (Root r') w2) as M3.
  set (w3 := host_store (h_hroot hd) (Root r') w2) in *.
  assert (Hr3 : nodes w3 (h_hroot hd) = Some (Root r')) by (by rewrite N3, decide_True).
  rewrite (bind_step _ _ _ _ _ _ _ (get_root_step _ _ st w3 Hr3)).
  match goal with |- context [writemem ?b ?l info] =>
    rewrite (bind_step _ _ _ _ _ _ _ (call_step (writemem b l info) st w3)), (proj2 (Hio w3));
    pose proof (writemem_same b l info w3) as C4; pose proof (writemem_rec b l info w3) as M4;
    set (w4 := (writemem b l info w3).2) in * end.
  change (negb true) with false. cbv iota. rewrite (bind_step (ret tt) _ st w4 tt st w4 eq_refl).
  pose proof (release_same w4) as C5.
  exists (release w4). split; [reflexivity|]. split; [|split].
  - eapply same_views_trans; [by apply same_world_views|].
    eapply same_views_trans; [by apply same_world_views|].
    eapply same_views_trans; [exact V3|].
    eapply same_views_trans; by apply same_world_views.
  - intros q. rewrite (same_world_nodes _ _ C5), (same_world_nodes _ _ C4), N3.
    case_decide; [done|]. by rewrite (same_world_nodes _ _ C2), (same_world_nodes _ _ C1).
  - intros He a. rewrite release_mem, M4. unfold unlink_writes. rewrite (node_record _ n) by done.
    apply (write_recs_ext [_]). intros x. rewrite M3, M2, (Hhdr He). apply (write_recs_ext [_]). intros y. apply connect_mem.
Qed.

(** The two stores that take the handle out of the list on the host. *)
Lemma unlink_host root l1 h l2 hd r st (w : W) :
  debug_list root (nodes w) (l1 ++ h :: l2) -> nodes w h = Some (Handle hd) ->
  nodes w root = Some (Root r) ->
  exists w2 r2 prev2,
    (exists prev, nodes w (h_hprev hd) = Some prev /\
      (if negb (h_hnext hd =? 0) then upd_handle (h_hnext hd) (set_h_hprev (h_hprev hd)) else ret tt)
        st (host_store (h_hprev hd) (with_hnext (h_hnext hd) prev) w) = Some (tt, st, w2)) /\
    same_views w w2 /\ debug_list root (nodes w2) (l1 ++ l2) /\
    nodes w2 root = Some (Root r2) /\ rt_changes r2 = rt_changes r /\ rt_refcount r2 = rt_refcount r /\
    nodes w2 (h_hprev hd) = Some prev2 /\
    (h_hnext hd <> 0 -> exists nd, nodes w2 (h_hnext hd) = Some (Handle nd)) /\
    (forall q, record_of (nodes w2) q = record_of (nodes w) q) /\ (forall a, mem w2 a = mem w a).
Proof.
  intros HL Hn Hr.
  pose proof HL as (Hnd & r0 & last & Hr0 & Hs). rewrite Hr in Hr0. injection Hr0 as <-.
  apply seg_app in Hs as (last1 & q1 & H1 & Hs). simpl in Hs.
  destruct Hs as (-> & Hh & hd' & Hn' & Hp & Hro & H2). rewrite Hn in Hn'. injection Hn' as <-. subst last1.
  apply list.NoDup_cons in Hnd as [Hri Hnd]. apply list.NoDup_app in Hnd as (Hnd1 & Hd12 & Hnd2).
  apply list.NoDup_cons in Hnd2 as [Hhi Hnd2].
  assert (Hprev : exists prev, nodes w (h_hprev hd) = Some prev /\ h_hprev hd ∈ root :: l1 /\
            (h_hprev hd = root -> prev = Root r)).
  { pose proof (seg_last _ _ _ _ _ _ _ H1) as [(-> & -> & _)|[l' ->]].
    - exists (Root r). split; [done|]. split; [set_solver|done].
    - apply seg_app in H1 as (la & q & _ & H1). simpl in H1. destruct H1 as (-> & _ & nd & Hnd' & _).
      exists (Handle nd). split; [done|]. split; [set_solver|]. intros E. exfalso. apply Hri. rewrite <- E. set_solver. }
  destruct Hprev as (prev & Hprev & Hpin & Hpr).
  assert (Hnext : h_hnext hd <> 0 -> h_hnext hd ∈ l2 /\ exists nd, nodes w (h_hnext hd) = Some (Handle nd)).
  { intros H0. destruct l2 as [|h2 l2]; simpl in H2; [by destruct H2|].
    destruct H2 as (-> & _ & nd & Hnd' & _). split; [set_solver|by exists nd]. }
  assert (Hpn : h_hnext hd <> 0 -> h_hnext hd <> h_hprev hd).
  { intros H0 E. destruct (Hnext H0) as [Hi _]. rewrite E in Hi.
    apply elem_of_cons in Hpin as [Hx|Hx]; [apply Hri; rewrite <- Hx; set_solver|].
    apply (Hd12 _ Hx). set_solver. }
  assert (Hrn : h_hnext hd <> 0 -> h_hnext hd <> root).
  { intros H0 E. destruct (Hnext H0) as [Hi _]. rewrite E in Hi. apply Hri. set_solver. }
  destruct (store_views (h_hprev hd) (with_hnext (h_hnext hd) prev) w) as [V1 N1].
  set (w1 := host_store (h_hprev hd) (with_hnext (h_hnext hd) prev) w) in *.
  set (c := if negb _ then _ else _).
  assert (Hc : exists w2, c st w1 = Some (tt, st, w2) /\ same_views w1 w2 /\
    (forall q, (h_hnext hd <> 0 -> q <> h_hnext hd) -> nodes w2 q = nodes w1 q) /\
    (h_hnext hd <> 0 -> forall nd, nodes w (h_hnext hd) = Some (Handle nd) ->
       nodes w2 (h_hnext hd) = Some (Handle (set_h_hprev (h_hprev hd) nd))) /\
    (forall q, record_of (nodes w2) q = record_of (nodes w1) q) /\ (forall a, mem w2 a = mem w1 a)).
  { unfold c. destruct (h_hnext hd =? 0) eqn:E; simpl.
    { exists w1. split_and!; try done. intros H0. lia. }
    assert (H0 : h_hnext hd <> 0) by lia. destruct (Hnext H0) as [_ [nd Hnd']].
    assert (Hnd1' : nodes w1 (h_hnext hd) = Some (Handle nd)) by (rewrite N1, decide_False by auto; done).
    rewrite (upd_handle_step _ _ _ _ _ Hnd1').
    destruct (store_views (h_hnext hd) (Handle (set_h_hprev (h_hprev hd) nd)) w1) as [V2 N2].
    eexists. split; [reflexivity|]. split; [done|]. split; [|split; [|split]].
    - intros q Hq. by rewrite N2, decide_False by auto.
    - intros _ nd' Hnd''. rewrite Hnd' in Hnd''. injection Hnd'' as <-. by rewrite N2, decide_True.
    - intros q. unfold record_of. rewrite N2. case_decide; [subst; by rewrite Hnd1'|done].
    - apply store_mem. }
  destruct Hc as (w2 & Hc & V2 & N2 & Hnx & R2 & M2).
  assert (Hp2 : nodes w2 (h_hprev hd) = Some (with_hnext (h_hnext hd) prev)).
  { rewrite N2 by (intros H0 E; by apply (Hpn H0)). by rewrite N1, decide_True. }
  exists w2, (if decide (h_hprev hd = root) then set_rt_hnext (h_hnext hd) r else r), (with_hnext (h_hnext hd) prev).
  split; [by exists prev|]. split; [by eapply same_views_trans|]. split.
  { apply (debug_list_remove root (nodes w) (nodes w2) l1 l2 h hd HL Hn).
    - intros n Hn'. rewrite Hprev in Hn'. by injection Hn' as <-.
    - done.
    - intros x Hx Hx1 Hx2. rewrite N2 by done. by rewrite N1, decide_False. }
  split.
  { rewrite N2 by (intros H0 E; by apply (Hrn H0)). rewrite N1.
    destruct (decide (h_hprev hd = root)) as [E|E].
    - rewrite decide_True by done. by rewrite (Hpr E).
    - by rewrite decide_False. }
  split; [by case_decide|]. split; [by case_decide|]. split; [done|]. split; [|split].
  - intros H0. destruct (Hnext H0) as [_ [nd Hnd']]. eexists. by apply Hnx.
  - intros q. rewrite R2. unfold record_of. rewrite N1. case_decide; [subst; rewrite Hprev; by destruct prev|done].
  - intros a. rewrite M2. apply store_mem.
Qed.

(** The three parts of an unload: the handle is not the only one, the target is told, the record on the target goes. *)
Lemma prev_not_self root nm l1 h l2 hd : debug_list root nm (l1 ++ h :: l2) -> nm h = Some (Handle hd) -> (h_hprev hd =? h) = false.
Proof.
  intros HL Hn. destruct (debug_list_remove root nm nm l1 l2 h hd HL Hn) as (_ & Hprev & _).
  apply Z.eqb_neq. intros E. destruct HL as [Hnd _]. apply list.NoDup_cons in Hnd as [Hri Hnd].
  apply list.NoDup_app in Hnd as (_ & Hd & _). rewrite E in Hprev.
  destruct Hprev as [[-> ->]|[l' ->]]; [apply Hri; set_solver|].
  apply (Hd h); set_solver.
Qed.
Lemma target_told (init : bool) hd info r n st (w : W) :
  io_succeeds -> nodes w (h_hroot hd) = Some (Root r) -> nodes w (h_hprev hd) = Some n ->
  (h_hnext hd <> 0 -> exists nd, nodes w (h_hnext hd) = Some (Handle nd)) ->
  exists w' r', (if init then unlink_target hd info else ret 0) st w = Some (0, st, w') /\
    same_views w w' /\ (forall q, q <> h_hroot hd -> nodes w' q = nodes w q) /\
    nodes w' (h_hroot hd) = Some (Root r') /\ rt_hnext r' = rt_hnext r /\ rt_refcount r' = rt_refcount r /\
    rt_dbthis r' = rt_dbthis r /\
    rt_changes r' = (if init then u16 (rt_changes r + 1) else rt_changes r) /\
    (Z.land (h_secn_count hd) 1 = 0 -> forall a, mem w' a = if init then unlink_writes (nodes w) hd r (mem w) a else mem w a).
Proof.
  intros Hio Hr Hp Hnx. destruct init; [|by exists w, r].
  destruct (unlink_target_step hd info r n st w Hio Hr Hp Hnx) as (w3 & Ht & V3 & N3 & M3).
  exists w3, (set_rt_changes (u16 (rt_changes r + 1)) r). split; [exact Ht|].
  split; [done|]. split; [intros q Hq; by rewrite N3, decide_False|]. rewrite N3, decide_True by done. by split_and!.
Qed.
Lemma record_released (alloc : bool) s st (w : W) :
  exists w', (if alloc then call_ (alloc_Deallocate s) else ret tt) st w = Some (tt, st, w') /\ v_syms w' = v_syms w /\ v_blocks w' = v_blocks w /\
    v_target w' = (if alloc then v_target w ∖ {[+ load_addr s +]} else v_target w) /\ (forall q, nodes w' q = nodes w q) /\
    forall a, mem w' a = mem w a.
Proof.
  destruct alloc; [|by exists w]. eexists. split; [reflexivity|]. pose proof (tfree_law s w) as (T1 & T2 & T3 & T4).
  split_and!; try done. apply tfree_mem.
Qed.

(** The writes of an unload, on the list of the target. *)
Lemma unlink_list node m root l1 h l2 hd r :
  debug_list root node (l1 ++ h :: l2) -> node h = Some (Handle hd) -> node root = Some (Root r) ->
  0 <= rt_dbthis r -> rt_dbthis r + 8 <= 2 ^ 32 -> records_apart node (root :: l1 ++ h :: l2) ->
  target_list node m root (l1 ++ h :: l2) ->
  let m' := unlink_writes node hd r m in
  target_list node m' root (l1 ++ l2) /\ holds_at m' (rt_dbthis r + 6) (le_bytes 2 (u16 (rt_changes r + 1))) /\
  forall a, ~ (0 <= a - record_at node (last_of root l1) < 6) -> ~ (6 <= a - rt_dbthis r < 8) -> m' a = m a.
Proof.
  intros HL Hn Hr H0 H1 Ha Ht. destruct (debug_list_remove root node node l1 l2 h hd HL Hn) as (_ & Hprev & Hnext & _).
  assert (Ep : h_hprev hd = last_of root l1).
  { destruct Hprev as [[E ->]|[l1' El]]; [exact E|]. rewrite El. symmetry. apply last_of_app. }
  assert (En : next_header node (next_of hd) = next_header node l2).
  { unfold next_of. destruct Hnext as [[-> ->]|[l2' E]]; [done|]. rewrite E. destruct (Z.eqb_spec (h_hnext hd) 0) as [Ez|]; [|done].
    exfalso. destruct HL as (_ & ? & ? & _ & Hs). apply seg_app in Hs as (? & ? & _ & Hs). simpl in Hs.
    destruct Hs as (_ & _ & hd' & Hn' & _ & _ & Hs). rewrite Hn in Hn'. injection Hn' as <-. rewrite E in Hs. simpl in Hs.
    by destruct Hs as (_ & ? & _). }
  assert (Er : record_at node root = rt_dbthis r) by (unfold record_at, record_of; by rewrite Hr).
  cbv zeta. unfold unlink_writes. rewrite Ep, En, (uwrap_small 32) by lia. split; [|split].
  - destruct HL as [Hnd _]. apply (target_list_frame node node (write_rec m (record_at node (last_of root l1), next_header node l2))).
    + done.
    + intros x i Hx Hi. apply write_rec_out. rewrite le_bytes_length.
      destruct (decide (x = root)) as [->|Hne]; [lia|]. specialize (Ha x root ltac:(set_solver) ltac:(set_solver) Hne). lia.
    + by eapply target_list_remove.
  - intros i b. apply write_rec_in.
  - intros a Ho1 Ho2. rewrite !write_rec_out; [done|rewrite next_header_length; lia|rewrite le_bytes_length; lia].
Qed.

(** The same, from the states around the call. *)
Lemma unlinked_on_target root l1 h l2 hd r r2 r' (w w2 w' : W) :
  debug_list root (nodes w) (l1 ++ h :: l2) -> nodes w h = Some (Handle hd) ->
  nodes w root = Some (Root r) -> nodes w2 root = Some (Root r2) -> rt_changes r2 = rt_changes r ->
  (forall q, record_of (nodes w2) q = record_of (nodes w) q) -> (forall x, mem w2 x = mem w x) ->
  (forall q, record_of (nodes w') q = record_of (nodes w2) q) ->
  (forall x, mem w' x = unlink_writes (nodes w2) hd r2 (mem w2) x) -> rt_changes r' = u16 (rt_changes r + 1) ->
  0 <= rt_dbthis r -> rt_dbthis r + 8 <= 2 ^ 32 -> records_apart (nodes w) (root :: l1 ++ h :: l2) ->
  target_list (nodes w) (mem w) root (l1 ++ h :: l2) ->
  target_list (nodes w') (mem w') root (l1 ++ l2) /\
  holds_at (mem w') (rt_dbthis r + 6) (le_bytes 2 (rt_changes r')) /\
  forall x, ~ (0 <= x - record_at (nodes w) (last_of root l1) < 6) -> ~ (6 <= x - rt_dbthis r < 8) -> mem w' x = mem w x.
Proof.
  intros HL Hn Hr Hr2 Hc2 R2 M2 R' M' Hc H0 H1 Ha Htl.
  assert (Hth : rt_dbthis r2 = rt_dbthis r).
  { pose proof (R2 root) as E. unfold record_of in E. rewrite Hr2, Hr in E. by injection E. }
  assert (Hm : forall x, mem w' x = unlink_writes (nodes w) hd r (mem w) x).
  { intros x. rewrite M'. unfold unlink_writes, record_at. rewrite R2, Hth, Hc2, (next_header_ext (nodes w) (nodes w2)) by exact R2.
    do 2 apply (write_recs_ext [_]). exact M2. }
  destruct (unlink_list (nodes w) (mem w) root l1 h l2 hd r HL Hn Hr H0 H1 Ha Htl) as (U1 & U2 & U3). split; [|split].
  - eapply target_list_frame; [|by intros; apply Hm|exact U1]. intros x _. by rewrite R', R2.
  - intros i b Hb. rewrite Hm. apply U2. by rewrite <- Hc.
  - intros x Hx1 Hx2. rewrite Hm. by apply U3.
Qed.

(** C38: Unloading a module takes its handle out of the debugger's list wherever
    it is, when the target can be reached and takes what is written to it ([io_succeeds]):
    the list of the others keeps its order and its links, one reference to the
    root is gone, the change is counted when the target is told, and the memory
    of the record on the target is released.  If the module is little-endian (for a big-endian one the header is written
    swapped, cload.c:1797) and its record was in the list of the target, whose records do not overlap, then the list of the target
    is that of the others too, its root holds the count, and no other byte of the target has changed. *)
Theorem unload_record_correct root l1 h l2 hd r a st (w : W) :
  io_succeeds -> debug_list root (nodes w) (l1 ++ h :: l2) ->
  nodes w h = Some (Handle hd) -> nodes w root = Some (Root r) ->
  exists w' r', unload_record h hd a st w = Some (0, st, w') /\
    debug_list root (nodes w') (l1 ++ l2) /\
    nodes w' root = Some (Root r') /\ rt_refcount r' = u16 (rt_refcount r - 1) /\
    rt_changes r' = (if a_init a then u16 (rt_changes r + 1) else rt_changes r) /\
    v_syms w' = v_syms w /\ v_blocks w' = v_blocks w /\
    v_target w' = (if a_alloc a then v_target w ∖ {[+ h_dbthis hd +]} else v_target w) /\
    (a_init a = true -> Z.land (h_secn_count hd) 1 = 0 -> 0 <= rt_dbthis r -> rt_dbthis r + 8 <= 2 ^ 32 ->
     records_apart (nodes w) (root :: l1 ++ h :: l2) -> target_list (nodes w) (mem w) root (l1 ++ h :: l2) ->
     target_list (nodes w') (mem w') root (l1 ++ l2) /\
     holds_at (mem w') (rt_dbthis r + 6) (le_bytes 2 (rt_changes r')) /\
     forall x, ~ (0 <= x - record_at (nodes w) (last_of root l1) < 6) -> ~ (6 <= x - rt_dbthis r < 8) -> mem w' x = mem w x).
Proof.
  intros Hio HL Hn Hr.
  destruct (debug_list_remove root (nodes w) (nodes w) l1 l2 h hd HL Hn) as (Hro & _).
  destruct (unlink_host root l1 h l2 hd r st w HL Hn Hr)
    as (w2 & r2 & prev2 & (prev & Hp & Hu) & V2 & HL2 & Hr2 & Hc2 & Hrf2 & Hp2 & Hn2 & R2 & M2).
  unfold unload_record. rewrite (prev_not_self root (nodes w) l1 h l2 hd HL Hn). change (negb false) with true. cbv iota.
  set (info := set_sec_context _ _).
  destruct (target_told (a_init a) hd info r2 prev2 st w2) as (w3 & r3 & Ht & V3 & N3 & Hr3 & Hnx3 & Hrf3 & Hth3 & Hc3 & M3);
    [done|by rewrite Hro|done|done|].
  rewrite Hro in N3, Hr3. rewrite Hc2 in Hc3. rewrite Hrf2 in Hrf3.
  set (c := bind (get_node _) _).
  assert (Hcc : c st w = Some (0, st, w3)).
  { unfold c. rewrite (bind_step _ _ _ _ _ _ _ (get_node_step _ _ st w Hp)).
    rewrite (bind_step _ _ _ _ _ _ _ (eq_refl : call_ _ st w = Some (tt, st, _))).
    rewrite (bind_step _ _ _ _ _ _ _ Hu). exact Ht. }
  rewrite (bind_step _ _ _ _ _ _ _ Hcc). clear Hcc c.
  match goal with |- context [alloc_Deallocate ?s] => destruct (record_released (a_alloc a) s st w3) as (w4 & Hd & D1 & D2 & D3 & D4 & M4) end.
  rewrite (bind_step _ _ _ _ _ _ _ Hd), Hro. clear Hd. assert (Hr4 : nodes w4 root = Some (Root r3)) by (by rewrite D4).
  rewrite (bind_step _ _ _ _ _ _ _
    (upd_root_step _ (fun r => set_rt_refcount (u16 (rt_refcount r - 1)) r) _ st w4 Hr4)).
  set (r' := set_rt_refcount _ r3). destruct (store_views root (Root r') w4) as [(V5 & V6 & V7) N5].
  eexists _, r'. split; [reflexivity|]. split.
  { apply (debug_list_root root (nodes w2) _ _ r2 r'); [done|done|by rewrite N5, decide_True|done|].
    intros q Hq. by rewrite N5, decide_False, D4, N3. }
  split; [by rewrite N5, decide_True|]. split; [simpl; by rewrite Hrf3|]. split; [done|].
  destruct V2 as (A1 & A2 & A3), V3 as (B1 & B2 & B3).
  rewrite V5, V6, V7, D1, D2, D3, B1, B2, B3, A1, A2, A3. do 3 (split; [done|]).
  intros Hi He H0 H1 Ha Htl. rewrite Hi in M3, Hc3.
  apply (unlinked_on_target root l1 h l2 hd r r2 r' w w2); try done.
  - intros q. unfold record_of. rewrite N5. case_decide; [subst q; rewrite Hr2|by rewrite D4, N3].
    change (rt_dbthis r') with (rt_dbthis r3). by rewrite Hth3.
  - intros x. rewrite store_mem, M4. apply (M3 He).
Qed.

End Operations.

(** * A list of three modules *)

Definition list_handle (this hnext hprev : Z) : my_handle := mkHandle this hnext hprev 100 16 0 2 [zero_section].
Definition list_nodes : gmap Z host_node :=
  list_to_map [(100, Root (mkRoot 32768 200 5 3)); (200, Handle (list_handle 4096 300 100));
               (300, Handle (list_handle 8192 400 200)); (400, Handle (list_handle 12288 0 300));
               (500, Handle (list_handle 16384 500 500))].
Definition list_writes : list target_op :=
  [T_write 32768 (modules_header 4096 16); T_write 4096 (modules_header 8192 16);
   T_write 8192 (modules_header 12288 16); T_write 12288 (modules_header 0 0)].
Definition list_world : sample_world := mkWorld [] [] ∅ list_nodes {[+ 8192 +]} 65536 [] list_writes.

Lemma list_world_list : debug_list 100 (nodes list_world) [200; 300; 400].
Proof.
  split; [by apply (bool_decide_unpack _)|].
  exists (mkRoot 32768 200 5 3), 400. split; [reflexivity|]. simpl.
  do 2 (split; [done|]). exists (list_handle 4096 300 100). do 3 (split; [reflexivity|]). simpl.
  do 2 (split; [done|]). exists (list_handle 8192 400 200). do 3 (split; [reflexivity|]). simpl.
  do 2 (split; [done|]). exists (list_handle 12288 0 300). by do 3 (split; [reflexivity|]).
Qed.

Lemma link_after_root_correct_witness :
  exists w', link_after_root 500 100 zero_state list_world = Some (tt, zero_state, w') /\
    debug_list 100 (nodes w') [500; 200; 300; 400].
Proof.
  destruct (link_after_root_correct 100 [200; 300; 400] 500 (list_handle 16384 500 500) zero_state list_world)
    as (w' & Hr & HL & _); [exact list_world_list|lia|set_solver|reflexivity|reflexivity|].
  exists w'. split; [exact Hr|exact HL].
Defined.

Lemma list_world_apart : records_apart (nodes list_world) [100; 200; 300; 400].
Proof.
  assert (Ha : Forall (fun x => Forall (fun y => x <> y ->
    8 <= Z.abs (record_at (nodes list_world) x - record_at (nodes list_world) y)) [100; 200; 300; 400]) [100; 200; 300; 400])
    by (repeat constructor; first [by intros []|by vm_compute]).
  intros x y Hx Hy. rewrite list.Forall_forall in Ha. specialize (Ha x Hx). rewrite list.Forall_forall in Ha. by apply Ha.
Qed.
Lemma list_world_target : target_list (nodes list_world) (mem list_world) 100 [200; 300; 400].
Proof.
  cbn [target_list]. split_and!; [..|done].
  all: intros i b Hb; do 6 (destruct i as [|i]; [injection Hb as <-; vm_compute; reflexivity|]); discriminate.
Qed.

Lemma unload_record_correct_witness :
  exists w' r', unload_record 300 (list_handle 8192 400 200) all_args zero_state list_world
      = Some (0, zero_state, w') /\
    debug_list 100 (nodes w') [200; 400] /\ nodes w' 100 = Some (Root r') /\
    rt_refcount r' = 2 /\ rt_changes r' = 6 /\
    target_list (nodes w') (mem w') 100 [200; 400].
Proof.
  destruct (unload_record_correct 100 [200] 300 [400] (list_handle 8192 400 200) (mkRoot 32768 200 5 3)
              all_args zero_state list_world) as (w' & r' & Hr & HL & Hn & H1 & H2 & _ & _ & _ & Ht);
    [by intros w|exact list_world_list|reflexivity|reflexivity|].
  exists w', r'. split; [exact Hr|]. split; [exact HL|]. split; [exact Hn|]. split; [exact H1|]. split; [exact H2|].
  exact (proj1 (Ht eq_refl eq_refl ltac:(done) ltac:(done) list_world_apart list_world_target)).
Defined.
