(* ===== verification/HwcModel.v ===== *)
(** The data of the hardware composer (src/hwc/hwc.c, hwc_dev.h): the layers'
    buffers and formats, the overlays given to the display subsystem (DSS), the
    external display, and the composer's state.  The constants of the Android and
    kernel headers are the fields of the class [DssApi]; floats are the binary32
    and binary64 numbers of the Standard Library's specification. *)

From Stdlib Require Import ZArith Lia Floats.SpecFloat.
From stdpp Require Import base list list_numbers option tactics.
From S2P Require Import Prelude RgzGeometry RgzState RgzBlit.

(** * Constants *)

Class DssApi := {
  HWC_BLENDING_NONE : Z; HWC_HINT_TRIPLE_BUFFER : Z; HWC_EXTENDED_API : Z; HWC_EGL_ERROR : Z;
  GRALLOC_USAGE_PROTECTED : Z; GRALLOC_USAGE_EXTERNAL_DISP : Z;
  OMAP_DSS_COLOR_ARGB32 : Z; OMAP_DSS_COLOR_RGB24U : Z; OMAP_DSS_COLOR_RGB16 : Z;
  OMAP_DSS_COLOR_NV12 : Z; OMAP_DSS_ILACE_NONE : Z; OMAP_DSS_CHANNEL_DIGIT : Z;
  OMAP_DSS_BUFADDR_LAYER_IX : Z; OMAP_DSS_BUFADDR_OVL_IX : Z; OMAP_DSS_BUFADDR_ION : Z;
  OMAP_DSS_BUFADDR_FB : Z; DSSCOMP_SETUP_DISPLAY : Z; FB_VMODE_INTERLACED : Z;
  HWC_BLT_FLAG_USE_FB : Z; EINVAL : Z; ENODEV : Z; EBUSY : Z; ENOENT : Z;
  DSS_OVLS : nat; (* the length of the array of overlays of struct dsscomp_setup_dispc_data *)
}.

(** The values of the kernel's and Android's headers, on which the examples and
    witnesses evaluate. *)
#[export] Instance omap_dss : DssApi := {|
  HWC_BLENDING_NONE := 0x100; HWC_HINT_TRIPLE_BUFFER := 1; HWC_EXTENDED_API := 2;
  HWC_EGL_ERROR := -1; GRALLOC_USAGE_PROTECTED := 0x4000; GRALLOC_USAGE_EXTERNAL_DISP := 0x2000;
  OMAP_DSS_COLOR_ARGB32 := 0x800; OMAP_DSS_COLOR_RGB24U := 0x80; OMAP_DSS_COLOR_RGB16 := 0x40;
  OMAP_DSS_COLOR_NV12 := 0x4000; OMAP_DSS_ILACE_NONE := 0; OMAP_DSS_CHANNEL_DIGIT := 1;
  OMAP_DSS_BUFADDR_LAYER_IX := 2; OMAP_DSS_BUFADDR_OVL_IX := 3; OMAP_DSS_BUFADDR_ION := 6;
  OMAP_DSS_BUFADDR_FB := 5; DSSCOMP_SETUP_DISPLAY := 3; FB_VMODE_INTERLACED := 1;
  HWC_BLT_FLAG_USE_FB := 1; EINVAL := 22; ENODEV := 19; EBUSY := 16; ENOENT := 2;
  DSS_OVLS := 5 |}.

Definition HAL_PIXEL_FORMAT_TI_NV12_1D : Z := 0x102.
Definition MAX_HWC_LAYERS : nat := 32.
Definition MAX_HW_OVERLAYS : Z := 4.
Definition NUM_NONSCALING_OVERLAYS : Z := 1.
Definition HW_ALIGN : Z := 32.
Definition FB_FLAG_RATIO_4_3 : Z := 64.
Definition FB_FLAG_RATIO_16_9 : Z := 128.

Definition ALIGN (x a : Z) : Z := Z.land (x + a - 1) (Z.lnot (a - 1)).
(** [None] is a division by zero. *)
Definition c_div (a b : Z) : option Z := guard* negb (b =? 0) in Some (Z.quot a b).
Definition DIV_ROUND_UP (a b : Z) : option Z := c_div (u32 (a + b - 1)) b.

(** * Floating-point numbers *)

Abbreviation float := spec_float.
Definition f_add : float -> float -> float := SFadd 24 128.
Definition f_sub : float -> float -> float := SFsub 24 128.
Definition f_mul : float -> float -> float := SFmul 24 128.
Definition f_div : float -> float -> float := SFdiv 24 128.
Definition d_add : float -> float -> float := SFadd 53 1024.
Definition d_sub : float -> float -> float := SFsub 53 1024.
Definition d_div : float -> float -> float := SFdiv 53 1024.
(** Conversions: of an integer, between the two formats, and to an integer,
    truncated towards zero; [None] for the values no integer holds. *)
Definition f_of (n : Z) : float := binary_normalize 24 128 n 0 false.
Definition convert (prec emax : Z) (x : float) : float :=
  match x with
  | S754_finite s m e => binary_normalize prec emax (cond_Zopp s (Zpos m)) e s
  | _ => x
  end.
Definition d_of_f (x : float) : float := convert 53 1024 x.
Definition f_of_d (x : float) : float := convert 24 128 x.
Definition trunc (x : float) : option Z :=
  match x with
  | S754_zero _ => Some 0
  | S754_finite s m e => Some (cond_Zopp s (Z.shiftl (Zpos m) e))
  | _ => None
  end.
Definition trunc_s32 (x : float) : option Z :=
  let* n := trunc x in guard* (- 2 ^ 31 <=? n) && (n <? 2 ^ 31) in Some n.
Definition trunc_u32 (x : float) : option Z :=
  let* n := trunc x in guard* (0 <=? n) && (n <? 2 ^ 32) in Some n.
Definition f_zero : float := S754_zero false.
(** The constants 1, 2, 0.02f and the double 0.5. *)
Definition f_one : float := f_of 1.
Definition f_two : float := f_of 2.
Definition ASPECT_RATIO_TOLERANCE : float := f_div (f_of 2) (f_of 100).
Definition d_one : float := binary_normalize 53 1024 1 0 false.
Definition d_half : float := binary_normalize 53 1024 1 (-1) false.

(** * Data *)

(** A rectangle of an overlay; its members have a fixed width in the code, and are integers without wrap-around here. *)
Record dss2_rect := mkDssRect {
  dr_x : Z; dr_y : Z; dr_w : Z; dr_h : Z }.

(** An overlay of the display subsystem. *)
Record dss2_ovl_cfg := mkCfg {
  c_width : Z; c_height : Z; c_stride : Z; color_mode : Z; pre_mult_alpha : bool;
  global_alpha : Z; rotation : Z; mirror : bool; win : dss2_rect; crop : dss2_rect;
  cconv : list Z; ilace : Z; vc1_enable : Z; c_ix : Z; zorder : Z; enabled : bool; mgr_ix : Z }.
Definition set_pre_mult_alpha (x : bool) (r : dss2_ovl_cfg) : dss2_ovl_cfg :=
  mkCfg (c_width r) (c_height r) (c_stride r) (color_mode r) x (global_alpha r) (rotation r)
    (mirror r) (win r) (crop r) (cconv r) (ilace r) (vc1_enable r) (c_ix r) (zorder r) (enabled r)
    (mgr_ix r).
Definition set_orientation (x_rotation : Z) (x_mirror : bool) (r : dss2_ovl_cfg) : dss2_ovl_cfg :=
  mkCfg (c_width r) (c_height r) (c_stride r) (color_mode r) (pre_mult_alpha r) (global_alpha r)
    x_rotation x_mirror (win r) (crop r) (cconv r) (ilace r) (vc1_enable r) (c_ix r) (zorder r)
    (enabled r) (mgr_ix r).
Definition set_rects (x_win : dss2_rect) (x_crop : dss2_rect) (r : dss2_ovl_cfg) : dss2_ovl_cfg :=
  mkCfg (c_width r) (c_height r) (c_stride r) (color_mode r) (pre_mult_alpha r) (global_alpha r)
    (rotation r) (mirror r) x_win x_crop (cconv r) (ilace r) (vc1_enable r) (c_ix r) (zorder r)
    (enabled r) (mgr_ix r).
Definition set_stride (x : Z) (r : dss2_ovl_cfg) : dss2_ovl_cfg :=
  mkCfg (c_width r) (c_height r) x (color_mode r) (pre_mult_alpha r) (global_alpha r) (rotation r)
    (mirror r) (win r) (crop r) (cconv r) (ilace r) (vc1_enable r) (c_ix r) (zorder r) (enabled r)
    (mgr_ix r).
Definition set_ix (x : Z) (r : dss2_ovl_cfg) : dss2_ovl_cfg :=
  mkCfg (c_width r) (c_height r) (c_stride r) (color_mode r) (pre_mult_alpha r) (global_alpha r)
    (rotation r) (mirror r) (win r) (crop r) (cconv r) (ilace r) (vc1_enable r) x (zorder r)
    (enabled r) (mgr_ix r).
Definition set_zorder (x : Z) (r : dss2_ovl_cfg) : dss2_ovl_cfg :=
  mkCfg (c_width r) (c_height r) (c_stride r) (color_mode r) (pre_mult_alpha r) (global_alpha r)
    (rotation r) (mirror r) (win r) (crop r) (cconv r) (ilace r) (vc1_enable r) (c_ix r) x
    (enabled r) (mgr_ix r).
Definition set_enabled (x : bool) (r : dss2_ovl_cfg) : dss2_ovl_cfg :=
  mkCfg (c_width r) (c_height r) (c_stride r) (color_mode r) (pre_mult_alpha r) (global_alpha r)
    (rotation r) (mirror r) (win r) (crop r) (cconv r) (ilace r) (vc1_enable r) (c_ix r)
    (zorder r) x (mgr_ix r).
Definition set_mgr_ix (x : Z) (r : dss2_ovl_cfg) : dss2_ovl_cfg :=
  mkCfg (c_width r) (c_height r) (c_stride r) (color_mode r) (pre_mult_alpha r) (global_alpha r)
    (rotation r) (mirror r) (win r) (crop r) (cconv r) (ilace r) (vc1_enable r) (c_ix r)
    (zorder r) (enabled r) x.

Definition zero_dss_rect := mkDssRect 0 0 0 0.
Definition zero_cfg :=
  mkCfg 0 0 0 0 false 0 0 false zero_dss_rect zero_dss_rect [] 0 0 0 0 false 0.
(** [addressing] says what [ba] is: the index of a buffer, of another overlay, or
    a handle. *)
Record dss2_ovl_info := mkOvl { cfg : dss2_ovl_cfg; addressing : Z; ba : Z }.
Definition zero_ovl := mkOvl zero_cfg 0 0.
Definition upd_cfg (f : dss2_ovl_cfg -> dss2_ovl_cfg) (o : dss2_ovl_info) : dss2_ovl_info :=
  mkOvl (f (cfg o)) (addressing o) (ba o).

Record dss2_mgr_info := mkMgr { g_ix : Z; alpha_blending : bool; mgr_swap_rb : bool }.

Record dsscomp_setup_dispc_data := mkDsscomp {
  d_sync_id : Z; d_mode : Z; num_ovls : nat; num_mgrs : nat; ovls : list dss2_ovl_info;
  mgrs : list dss2_mgr_info }.
Definition set_num_ovls (x : nat) (r : dsscomp_setup_dispc_data) : dsscomp_setup_dispc_data :=
  mkDsscomp (d_sync_id r) (d_mode r) x (num_mgrs r) (ovls r) (mgrs r).
Definition set_ovls (x : list dss2_ovl_info)
    (r : dsscomp_setup_dispc_data) : dsscomp_setup_dispc_data :=
  mkDsscomp (d_sync_id r) (d_mode r) (num_ovls r) (num_mgrs r) x (mgrs r).
Definition set_mode_mgrs (x_d_mode : Z) (x_mgrs : list dss2_mgr_info)
    (r : dsscomp_setup_dispc_data) : dsscomp_setup_dispc_data :=
  mkDsscomp (d_sync_id r) x_d_mode (num_ovls r) (length x_mgrs) (ovls r) x_mgrs.

Definition zero_dsscomp `{DssApi} (sync : Z) :=
  mkDsscomp sync 0 0 0 (replicate DSS_OVLS zero_ovl) [].
Definition upd_ovl (i : nat) (f : dss2_ovl_info -> dss2_ovl_info) (d : dsscomp_setup_dispc_data)
    : option dsscomp_setup_dispc_data :=
  let* o := ovls d !! i in Some (set_ovls (<[i := f o]> (ovls d)) d).

(** What the kernel says of a display and of the platform. *)
Record dsscomp_videomode := mkMode {
  v_xres : Z; v_yres : Z; v_pixclock : Z; v_vmode : Z; v_flag : Z; v_refresh : Z }.
Record dsscomp_display_info := mkDisplay {
  channel : Z; x_res : Z; y_res : Z; pixel_clock : Z; width_in_mm : Z; height_in_mm : Z;
  modedb : list dsscomp_videomode }.
Record dsscomp_platform_info := mkLimits {
  max_xdecim_1d : Z; max_ydecim_1d : Z; max_xdecim_2d : Z; max_ydecim_2d : Z; fclk : Z;
  min_width : Z; max_downscale : Z; integer_scale_ratio_limit : Z; tiler1d_slot_size : Z }.

Record ext_transform_t := mkTform {
  t_rotation : Z; t_hflip : bool; t_enabled : bool; t_docking : bool }.
Definition set_t_enabled (x : bool) (r : ext_transform_t) : ext_transform_t :=
  mkTform (t_rotation r) (t_hflip r) x (t_docking r).
Definition set_t_docking (x : bool) (r : ext_transform_t) : ext_transform_t :=
  mkTform (t_rotation r) (t_hflip r) (t_enabled r) x.

(** The rows of a transformation. *)
Record row := mkRow { m0 : float; m1 : float; m2 : float }.
Definition matrix : Type := row * row.
Definition m_unit : matrix := (mkRow f_one f_zero f_zero, mkRow f_zero f_one f_zero).

Record omap_hwc_ext_t := mkExt {
  e_mirror : ext_transform_t; e_dock : ext_transform_t; lcd_xpy : float;
  avoid_mode_change : bool; force_dock : bool; hdmi_state : bool; e_on_tv : bool;
  e_current : ext_transform_t; e_last : ext_transform_t; last_xres_used : Z; last_yres_used : Z;
  last_mode : Z; mirror_mode : Z; last_xpy : float; e_width : Z; e_height : Z; xres : Z;
  yres : Z; e_m : matrix; mirror_region : blit_rect_t }.
Definition set_tforms (x_e_mirror : ext_transform_t) (x_e_dock : ext_transform_t)
    (r : omap_hwc_ext_t) : omap_hwc_ext_t :=
  mkExt x_e_mirror x_e_dock (lcd_xpy r) (avoid_mode_change r) (force_dock r) (hdmi_state r)
    (e_on_tv r) (e_current r) (e_last r) (last_xres_used r) (last_yres_used r) (last_mode r)
    (mirror_mode r) (last_xpy r) (e_width r) (e_height r) (xres r) (yres r) (e_m r)
    (mirror_region r).
Definition set_force_dock (x : bool) (r : omap_hwc_ext_t) : omap_hwc_ext_t :=
  mkExt (e_mirror r) (e_dock r) (lcd_xpy r) (avoid_mode_change r) x (hdmi_state r) (e_on_tv r)
    (e_current r) (e_last r) (last_xres_used r) (last_yres_used r) (last_mode r) (mirror_mode r)
    (last_xpy r) (e_width r) (e_height r) (xres r) (yres r) (e_m r) (mirror_region r).
Definition set_hdmi_state (x : bool) (r : omap_hwc_ext_t) : omap_hwc_ext_t :=
  mkExt (e_mirror r) (e_dock r) (lcd_xpy r) (avoid_mode_change r) (force_dock r) x (e_on_tv r)
    (e_current r) (e_last r) (last_xres_used r) (last_yres_used r) (last_mode r) (mirror_mode r)
    (last_xpy r) (e_width r) (e_height r) (xres r) (yres r) (e_m r) (mirror_region r).
Definition set_avoid_mode_change (x : bool) (r : omap_hwc_ext_t) : omap_hwc_ext_t :=
  mkExt (e_mirror r) (e_dock r) (lcd_xpy r) x (force_dock r) (hdmi_state r) (e_on_tv r)
    (e_current r) (e_last r) (last_xres_used r) (last_yres_used r) (last_mode r) (mirror_mode r)
    (last_xpy r) (e_width r) (e_height r) (xres r) (yres r) (e_m r) (mirror_region r).
Definition set_e_on_tv (x : bool) (r : omap_hwc_ext_t) : omap_hwc_ext_t :=
  mkExt (e_mirror r) (e_dock r) (lcd_xpy r) (avoid_mode_change r) (force_dock r) (hdmi_state r) x
    (e_current r) (e_last r) (last_xres_used r) (last_yres_used r) (last_mode r) (mirror_mode r)
    (last_xpy r) (e_width r) (e_height r) (xres r) (yres r) (e_m r) (mirror_region r).
Definition set_current (x : ext_transform_t) (r : omap_hwc_ext_t) : omap_hwc_ext_t :=
  mkExt (e_mirror r) (e_dock r) (lcd_xpy r) (avoid_mode_change r) (force_dock r) (hdmi_state r)
    (e_on_tv r) x (e_last r) (last_xres_used r) (last_yres_used r) (last_mode r) (mirror_mode r)
    (last_xpy r) (e_width r) (e_height r) (xres r) (yres r) (e_m r) (mirror_region r).
Definition set_last (x : ext_transform_t) (r : omap_hwc_ext_t) : omap_hwc_ext_t :=
  mkExt (e_mirror r) (e_dock r) (lcd_xpy r) (avoid_mode_change r) (force_dock r) (hdmi_state r)
    (e_on_tv r) (e_current r) x (last_xres_used r) (last_yres_used r) (last_mode r)
    (mirror_mode r) (last_xpy r) (e_width r) (e_height r) (xres r) (yres r) (e_m r)
    (mirror_region r).
Definition set_used (x_last_xres_used : Z) (x_last_yres_used : Z) (x_last_xpy : float)
    (r : omap_hwc_ext_t) : omap_hwc_ext_t :=
  mkExt (e_mirror r) (e_dock r) (lcd_xpy r) (avoid_mode_change r) (force_dock r) (hdmi_state r)
    (e_on_tv r) (e_current r) (e_last r) x_last_xres_used x_last_yres_used (last_mode r)
    (mirror_mode r) x_last_xpy (e_width r) (e_height r) (xres r) (yres r) (e_m r)
    (mirror_region r).
Definition set_last_mode (x : Z) (r : omap_hwc_ext_t) : omap_hwc_ext_t :=
  mkExt (e_mirror r) (e_dock r) (lcd_xpy r) (avoid_mode_change r) (force_dock r) (hdmi_state r)
    (e_on_tv r) (e_current r) (e_last r) (last_xres_used r) (last_yres_used r) x (mirror_mode r)
    (last_xpy r) (e_width r) (e_height r) (xres r) (yres r) (e_m r) (mirror_region r).
Definition set_mirror_mode (x : Z) (r : omap_hwc_ext_t) : omap_hwc_ext_t :=
  mkExt (e_mirror r) (e_dock r) (lcd_xpy r) (avoid_mode_change r) (force_dock r) (hdmi_state r)
    (e_on_tv r) (e_current r) (e_last r) (last_xres_used r) (last_yres_used r) (last_mode r) x
    (last_xpy r) (e_width r) (e_height r) (xres r) (yres r) (e_m r) (mirror_region r).
Definition set_screen (x_e_width : Z) (x_e_height : Z) (x_xres : Z) (x_yres : Z)
    (r : omap_hwc_ext_t) : omap_hwc_ext_t :=
  mkExt (e_mirror r) (e_dock r) (lcd_xpy r) (avoid_mode_change r) (force_dock r) (hdmi_state r)
    (e_on_tv r) (e_current r) (e_last r) (last_xres_used r) (last_yres_used r) (last_mode r)
    (mirror_mode r) (last_xpy r) x_e_width x_e_height x_xres x_yres (e_m r) (mirror_region r).
Definition set_matrix (x : matrix) (r : omap_hwc_ext_t) : omap_hwc_ext_t :=
  mkExt (e_mirror r) (e_dock r) (lcd_xpy r) (avoid_mode_change r) (force_dock r) (hdmi_state r)
    (e_on_tv r) (e_current r) (e_last r) (last_xres_used r) (last_yres_used r) (last_mode r)
    (mirror_mode r) (last_xpy r) (e_width r) (e_height r) (xres r) (yres r) x (mirror_region r).
Definition set_lcd_xpy (x : float) (r : omap_hwc_ext_t) : omap_hwc_ext_t :=
  mkExt (e_mirror r) (e_dock r) x (avoid_mode_change r) (force_dock r) (hdmi_state r) (e_on_tv r)
    (e_current r) (e_last r) (last_xres_used r) (last_yres_used r) (last_mode r) (mirror_mode r)
    (last_xpy r) (e_width r) (e_height r) (xres r) (yres r) (e_m r) (mirror_region r).
Definition set_region (x : blit_rect_t) (r : omap_hwc_ext_t) : omap_hwc_ext_t :=
  mkExt (e_mirror r) (e_dock r) (lcd_xpy r) (avoid_mode_change r) (force_dock r) (hdmi_state r)
    (e_on_tv r) (e_current r) (e_last r) (last_xres_used r) (last_yres_used r) (last_mode r)
    (mirror_mode r) (last_xpy r) (e_width r) (e_height r) (xres r) (yres r) (e_m r) x.

(** The fields of struct counts. *)
Record counts_t := mkCounts {
  possible_overlay_layers : Z; composited_layers : Z; scaled_layers : Z; n_RGB : Z; n_BGR : Z;
  n_NV12 : Z; n_dockable : Z; n_protected : Z; max_hw_overlays : Z; max_scaling_overlays : Z;
  n_mem : Z }.
Definition set_max_overlays (x_max_hw_overlays : Z) (x_max_scaling_overlays : Z)
    (r : counts_t) : counts_t :=
  mkCounts (possible_overlay_layers r) (composited_layers r) (scaled_layers r) (n_RGB r) (n_BGR r)
    (n_NV12 r) (n_dockable r) (n_protected r) x_max_hw_overlays x_max_scaling_overlays (n_mem r).

Definition zero_counts := mkCounts 0 0 0 0 0 0 0 0 0 0 0.

(** The calls that leave the composer: the mode of a display, the swap of the
    rendered framebuffer, the post of a composition with its buffers, the request
    for a new frame, the blanking of the bootloader's image, the write to the event pipe,
    the errors logged, the freeing of a buffer, the unblanking of a display, the loading of
    the dock's image and the notice of a vsync. *)
Inductive hwc_msg :=
| L_clone_all | L_no_fb_z | L_z_count (z n : Z) | L_z_twice (z : Z) | L_ix_twice (ix : Z) | L_no_hdmi
| L_no_mode.
Inductive hwc_event :=
| E_setup_display (ix : Z) (mode : dsscomp_videomode)
| E_swap | E_post (buffers : list Z) (data : dsscomp_setup_dispc_data) (items : Z)
| E_invalidate | E_pipe | E_reset_screen | E_log (m : hwc_msg)
| E_ion_free (handle : Z) | E_unblank (external : bool) | E_load_dock_image | E_vsync (timestamp : Z).

(** What [hwc_prepare] and [hwc_set] only read: fields of struct omap_hwc_device
    that the thread of the external display may change between two frames, the
    framebuffer device, the global limits, the image of the dock and the geometry of
    the screen.  [procs] is false before the procedures are registered. *)
Record hwc_config := mkConfig {
  procs : bool; fb_width : Z; fb_height : Z; fb_format : Z; fb_dis : dsscomp_display_info;
  flags_rgb_order : bool; flags_nv12_only : bool; upscaled_nv12_limit : float; on_tv : bool;
  primary_m : matrix; primary_transform : Z; primary_rotation : Z; primary_region : blit_rect_t;
  blt_mode : Z; blt_policy : Z; ion_handles : list Z; limits : dsscomp_platform_info;
  gscrngeom : bvsurfgeom; dock_width : Z; dock_height : Z; dock_rowbytes : Z; idle : Z }.
Definition set_primary (x_fb_dis : dsscomp_display_info) (x_primary_m : matrix) (x_primary_transform : Z) (x_primary_rotation : Z) (x_primary_region : blit_rect_t)
    (r : hwc_config) : hwc_config :=
  mkConfig (procs r) (fb_width r) (fb_height r) (fb_format r) x_fb_dis (flags_rgb_order r)
    (flags_nv12_only r) (upscaled_nv12_limit r) (on_tv r) x_primary_m x_primary_transform
    x_primary_rotation x_primary_region (blt_mode r) (blt_policy r) (ion_handles r) (limits r)
    (gscrngeom r) (dock_width r) (dock_height r) (dock_rowbytes r) (idle r).
Definition set_ion_handles (x : list Z) (r : hwc_config) : hwc_config :=
  mkConfig (procs r) (fb_width r) (fb_height r) (fb_format r) (fb_dis r) (flags_rgb_order r)
    (flags_nv12_only r) (upscaled_nv12_limit r) (on_tv r) (primary_m r) (primary_transform r)
    (primary_rotation r) (primary_region r) (blt_mode r) (blt_policy r) x (limits r) (gscrngeom r)
    (dock_width r) (dock_height r) (dock_rowbytes r) (idle r).
Definition set_dock (x_dock_width : Z) (x_dock_height : Z) (x_dock_rowbytes : Z)
    (r : hwc_config) : hwc_config :=
  mkConfig (procs r) (fb_width r) (fb_height r) (fb_format r) (fb_dis r) (flags_rgb_order r)
    (flags_nv12_only r) (upscaled_nv12_limit r) (on_tv r) (primary_m r) (primary_transform r)
    (primary_rotation r) (primary_region r) (blt_mode r) (blt_policy r) (ion_handles r) (limits r)
    (gscrngeom r) x_dock_width x_dock_height x_dock_rowbytes (idle r).
Definition set_fb_dis (x_fb_dis : dsscomp_display_info) (x_on_tv : bool)
    (r : hwc_config) : hwc_config :=
  mkConfig (procs r) (fb_width r) (fb_height r) (fb_format r) x_fb_dis (flags_rgb_order r)
    (flags_nv12_only r) (upscaled_nv12_limit r) x_on_tv (primary_m r) (primary_transform r)
    (primary_rotation r) (primary_region r) (blt_mode r) (blt_policy r) (ion_handles r) (limits r)
    (gscrngeom r) (dock_width r) (dock_height r) (dock_rowbytes r) (idle r).

Definition BLTPOLICY_DISABLED : Z := 0.
Definition BLTPOLICY_DEFAULT : Z := 1.
Definition BLTPOLICY_ALL : Z := 2.
Definition BLTMODE_PAINT : Z := 0.

(** What they change, with the globals [grgz], [sync_id] and [first_set] and the calls
    made. *)
Record omap_hwc_device_t := mkDevice {
  force_sgx : Z; ext : omap_hwc_ext_t; buffers : list Z; use_sgx : bool; swap_rb : bool;
  post2_layers : nat; post2_blit_buffers : nat; ext_ovls : Z; ext_ovls_wanted : Z;
  last_ext_ovls : Z; last_int_ovls : Z; blit_flags : Z; blit_num : Z;
  dsscomp_data : dsscomp_setup_dispc_data; rgz_items : Z; rgz_blts : list rgz_blt_entry;
  counts : counts_t; grgz : rgz_t; sync_id : Z; first_set : bool; events : list hwc_event }.
Definition set_force_sgx (x : Z) (r : omap_hwc_device_t) : omap_hwc_device_t :=
  mkDevice x (ext r) (buffers r) (use_sgx r) (swap_rb r) (post2_layers r) (post2_blit_buffers r)
    (ext_ovls r) (ext_ovls_wanted r) (last_ext_ovls r) (last_int_ovls r) (blit_flags r)
    (blit_num r) (dsscomp_data r) (rgz_items r) (rgz_blts r) (counts r) (grgz r) (sync_id r)
    (first_set r) (events r).
Definition set_ext (x : omap_hwc_ext_t) (r : omap_hwc_device_t) : omap_hwc_device_t :=
  mkDevice (force_sgx r) x (buffers r) (use_sgx r) (swap_rb r) (post2_layers r)
    (post2_blit_buffers r) (ext_ovls r) (ext_ovls_wanted r) (last_ext_ovls r) (last_int_ovls r)
    (blit_flags r) (blit_num r) (dsscomp_data r) (rgz_items r) (rgz_blts r) (counts r) (grgz r)
    (sync_id r) (first_set r) (events r).
Definition set_buffers (x : list Z) (r : omap_hwc_device_t) : omap_hwc_device_t :=
  mkDevice (force_sgx r) (ext r) x (use_sgx r) (swap_rb r) (post2_layers r) (post2_blit_buffers r)
    (ext_ovls r) (ext_ovls_wanted r) (last_ext_ovls r) (last_int_ovls r) (blit_flags r)
    (blit_num r) (dsscomp_data r) (rgz_items r) (rgz_blts r) (counts r) (grgz r) (sync_id r)
    (first_set r) (events r).
Definition set_sgx (x_use_sgx : bool) (x_swap_rb : bool)
    (r : omap_hwc_device_t) : omap_hwc_device_t :=
  mkDevice (force_sgx r) (ext r) (buffers r) x_use_sgx x_swap_rb (post2_layers r)
    (post2_blit_buffers r) (ext_ovls r) (ext_ovls_wanted r) (last_ext_ovls r) (last_int_ovls r)
    (blit_flags r) (blit_num r) (dsscomp_data r) (rgz_items r) (rgz_blts r) (counts r) (grgz r)
    (sync_id r) (first_set r) (events r).
Definition set_use_sgx (x : bool) (r : omap_hwc_device_t) : omap_hwc_device_t :=
  mkDevice (force_sgx r) (ext r) (buffers r) x (swap_rb r) (post2_layers r) (post2_blit_buffers r)
    (ext_ovls r) (ext_ovls_wanted r) (last_ext_ovls r) (last_int_ovls r) (blit_flags r)
    (blit_num r) (dsscomp_data r) (rgz_items r) (rgz_blts r) (counts r) (grgz r) (sync_id r)
    (first_set r) (events r).
Definition set_post2_layers (x : nat) (r : omap_hwc_device_t) : omap_hwc_device_t :=
  mkDevice (force_sgx r) (ext r) (buffers r) (use_sgx r) (swap_rb r) x (post2_blit_buffers r)
    (ext_ovls r) (ext_ovls_wanted r) (last_ext_ovls r) (last_int_ovls r) (blit_flags r)
    (blit_num r) (dsscomp_data r) (rgz_items r) (rgz_blts r) (counts r) (grgz r) (sync_id r)
    (first_set r) (events r).
Definition set_ext_ovls (x : Z) (r : omap_hwc_device_t) : omap_hwc_device_t :=
  mkDevice (force_sgx r) (ext r) (buffers r) (use_sgx r) (swap_rb r) (post2_layers r)
    (post2_blit_buffers r) x (ext_ovls_wanted r) (last_ext_ovls r) (last_int_ovls r)
    (blit_flags r) (blit_num r) (dsscomp_data r) (rgz_items r) (rgz_blts r) (counts r) (grgz r)
    (sync_id r) (first_set r) (events r).
Definition set_ext_ovls_wanted (x : Z) (r : omap_hwc_device_t) : omap_hwc_device_t :=
  mkDevice (force_sgx r) (ext r) (buffers r) (use_sgx r) (swap_rb r) (post2_layers r)
    (post2_blit_buffers r) (ext_ovls r) x (last_ext_ovls r) (last_int_ovls r) (blit_flags r)
    (blit_num r) (dsscomp_data r) (rgz_items r) (rgz_blts r) (counts r) (grgz r) (sync_id r)
    (first_set r) (events r).
Definition set_last_ovls (x_last_ext_ovls : Z) (x_last_int_ovls : Z)
    (r : omap_hwc_device_t) : omap_hwc_device_t :=
  mkDevice (force_sgx r) (ext r) (buffers r) (use_sgx r) (swap_rb r) (post2_layers r)
    (post2_blit_buffers r) (ext_ovls r) (ext_ovls_wanted r) x_last_ext_ovls x_last_int_ovls
    (blit_flags r) (blit_num r) (dsscomp_data r) (rgz_items r) (rgz_blts r) (counts r) (grgz r)
    (sync_id r) (first_set r) (events r).
Definition set_blit (x_post2_blit_buffers : nat) (x_blit_flags : Z) (x_blit_num : Z) (x_rgz_items : Z) (x_rgz_blts : list rgz_blt_entry)
    (r : omap_hwc_device_t) : omap_hwc_device_t :=
  mkDevice (force_sgx r) (ext r) (buffers r) (use_sgx r) (swap_rb r) (post2_layers r)
    x_post2_blit_buffers (ext_ovls r) (ext_ovls_wanted r) (last_ext_ovls r) (last_int_ovls r)
    x_blit_flags x_blit_num (dsscomp_data r) x_rgz_items x_rgz_blts (counts r) (grgz r)
    (sync_id r) (first_set r) (events r).
Definition set_dsscomp (x : dsscomp_setup_dispc_data)
    (r : omap_hwc_device_t) : omap_hwc_device_t :=
  mkDevice (force_sgx r) (ext r) (buffers r) (use_sgx r) (swap_rb r) (post2_layers r)
    (post2_blit_buffers r) (ext_ovls r) (ext_ovls_wanted r) (last_ext_ovls r) (last_int_ovls r)
    (blit_flags r) (blit_num r) x (rgz_items r) (rgz_blts r) (counts r) (grgz r) (sync_id r)
    (first_set r) (events r).
Definition set_counts (x : counts_t) (r : omap_hwc_device_t) : omap_hwc_device_t :=
  mkDevice (force_sgx r) (ext r) (buffers r) (use_sgx r) (swap_rb r) (post2_layers r)
    (post2_blit_buffers r) (ext_ovls r) (ext_ovls_wanted r) (last_ext_ovls r) (last_int_ovls r)
    (blit_flags r) (blit_num r) (dsscomp_data r) (rgz_items r) (rgz_blts r) x (grgz r) (sync_id r)
    (first_set r) (events r).
Definition set_grgz (x : rgz_t) (r : omap_hwc_device_t) : omap_hwc_device_t :=
  mkDevice (force_sgx r) (ext r) (buffers r) (use_sgx r) (swap_rb r) (post2_layers r)
    (post2_blit_buffers r) (ext_ovls r) (ext_ovls_wanted r) (last_ext_ovls r) (last_int_ovls r)
    (blit_flags r) (blit_num r) (dsscomp_data r) (rgz_items r) (rgz_blts r) (counts r) x
    (sync_id r) (first_set r) (events r).
Definition set_sync_id (x : Z) (r : omap_hwc_device_t) : omap_hwc_device_t :=
  mkDevice (force_sgx r) (ext r) (buffers r) (use_sgx r) (swap_rb r) (post2_layers r)
    (post2_blit_buffers r) (ext_ovls r) (ext_ovls_wanted r) (last_ext_ovls r) (last_int_ovls r)
    (blit_flags r) (blit_num r) (dsscomp_data r) (rgz_items r) (rgz_blts r) (counts r) (grgz r) x
    (first_set r) (events r).
Definition set_first_set (x : bool) (r : omap_hwc_device_t) : omap_hwc_device_t :=
  mkDevice (force_sgx r) (ext r) (buffers r) (use_sgx r) (swap_rb r) (post2_layers r)
    (post2_blit_buffers r) (ext_ovls r) (ext_ovls_wanted r) (last_ext_ovls r) (last_int_ovls r)
    (blit_flags r) (blit_num r) (dsscomp_data r) (rgz_items r) (rgz_blts r) (counts r) (grgz r)
    (sync_id r) x (events r).
Definition set_events (x : list hwc_event) (r : omap_hwc_device_t) : omap_hwc_device_t :=
  mkDevice (force_sgx r) (ext r) (buffers r) (use_sgx r) (swap_rb r) (post2_layers r)
    (post2_blit_buffers r) (ext_ovls r) (ext_ovls_wanted r) (last_ext_ovls r) (last_int_ovls r)
    (blit_flags r) (blit_num r) (dsscomp_data r) (rgz_items r) (rgz_blts r) (counts r) (grgz r)
    (sync_id r) (first_set r) x.

Definition zero_tform := mkTform 0 false false false.
Definition zero_device `{DssApi} : omap_hwc_device_t :=
  mkDevice 0
    (mkExt zero_tform zero_tform f_zero false false false false zero_tform zero_tform 0 0 0 0 f_zero 0 0 0 0
       (mkRow f_zero f_zero f_zero, mkRow f_zero f_zero f_zero) (mkRect 0 0 0 0))
    [] false false 0 0 0 0 0 0 0 0 (zero_dsscomp 0) 0 [] zero_counts zero_rgz 0 true [].

Definition emit_event (e : hwc_event) (d : omap_hwc_device_t) : omap_hwc_device_t :=
  set_events (events d ++ [e]) d.

(** The list of layers of a display; [dpy_and_sur] says that neither pointer is
    null. *)
Record hwc_display_contents_1_t := mkContents {
  contents_flags : Z; hwLayers : list hwc_layer_1_t; dpy_and_sur : bool }.

(** What the composer asks outside: the description of a display, the extended
    data of the layers, whether memory is available for the regions, the swap of
    the rendered buffers and the post. *)
Record hwc_env := mkEnv {
  query_display : Z -> option dsscomp_display_info;
  extension_ok : bool; layer_identity : nat -> option Z; calloc_ok : bool;
  swap_ok : bool; post_result : Z }.
