(* ===== verification/HwcLayers.v ===== *)
(** What the hardware composer asks of a layer before it gives it an overlay
    (src/hwc/hwc.c): formats, scaling limits of the display subsystem, TILER
    memory, and the statistics of a frame; the configuration of the overlay that
    shows a layer. *)

From Stdlib Require Import ZArith Lia Floats.SpecFloat.
From stdpp Require Import base list list_numbers option tactics.
From S2P Require Import Prelude RgzGeometry RgzState RgzBlit HwcModel.

Section Layers.
Context `{HwcApi} `{DssApi} (hmem : Z -> option IMG_native_handle_t) (C : hwc_config).

(** * Formats *)

Definition is_valid_format (format : Z) : bool :=
  (format =? HAL_PIXEL_FORMAT_RGB_565) || (format =? HAL_PIXEL_FORMAT_RGBX_8888) ||
  (format =? HAL_PIXEL_FORMAT_RGBA_8888) || (format =? HAL_PIXEL_FORMAT_BGRA_8888) ||
  (format =? HAL_PIXEL_FORMAT_BGRX_8888) || (format =? HAL_PIXEL_FORMAT_TI_NV12) ||
  (format =? HAL_PIXEL_FORMAT_TI_NV12_1D).

Definition is_RGB (h : IMG_native_handle_t) : bool :=
  (iFormat h =? HAL_PIXEL_FORMAT_BGRA_8888) || (iFormat h =? HAL_PIXEL_FORMAT_BGRX_8888) ||
  (iFormat h =? HAL_PIXEL_FORMAT_RGB_565).
Definition is_BGR_format (format : Z) : bool :=
  (format =? HAL_PIXEL_FORMAT_RGBX_8888) || (format =? HAL_PIXEL_FORMAT_RGBA_8888).
Definition is_BGR (h : IMG_native_handle_t) : bool := is_BGR_format (iFormat h).
Definition is_NV12 (h : IMG_native_handle_t) : bool :=
  (iFormat h =? HAL_PIXEL_FORMAT_TI_NV12) || (iFormat h =? HAL_PIXEL_FORMAT_TI_NV12_1D).

Definition get_format_bpp (format : Z) : Z :=
  if (format =? HAL_PIXEL_FORMAT_BGRA_8888) || (format =? HAL_PIXEL_FORMAT_BGRX_8888) ||
     (format =? HAL_PIXEL_FORMAT_RGBX_8888) || (format =? HAL_PIXEL_FORMAT_RGBA_8888) then 32
  else if format =? HAL_PIXEL_FORMAT_RGB_565 then 16
  else if (format =? HAL_PIXEL_FORMAT_TI_NV12) || (format =? HAL_PIXEL_FORMAT_TI_NV12_1D) then 8
  else 0.

(** * Layers *)

(** The size of the source, turned as the layer is. *)
Definition src_size (layer : hwc_layer_1_t) : Z * Z :=
  let w := WIDTH (sourceCrop layer) in
  let h := HEIGHT (sourceCrop layer) in
  if has_flag (transform layer) HWC_TRANSFORM_ROT_90 then (h, w) else (w, h).

Definition scaled (layer : hwc_layer_1_t) : bool :=
  let '(w, h) := src_size layer in
  negb (WIDTH (displayFrame layer) =? w) || negb (HEIGHT (displayFrame layer) =? h).

Definition is_protected (h : IMG_native_handle_t) : bool := has_flag (usage h) GRALLOC_USAGE_PROTECTED.
Definition dockable (h : IMG_native_handle_t) : bool := has_flag (usage h) GRALLOC_USAGE_EXTERNAL_DISP.
Definition is_BLENDED (layer : hwc_layer_1_t) : bool := negb (blending layer =? HWC_BLENDING_NONE).

Definition is_upscaled_NV12 (layer : hwc_layer_1_t) (h : IMG_native_handle_t) : bool :=
  if negb (is_NV12 h) then false
  else
    let '(sw, sh) := src_size layer in
    SFleb (f_mul (f_of sw) (upscaled_nv12_limit C)) (f_of (WIDTH (displayFrame layer))) ||
    SFleb (f_mul (f_of sh) (upscaled_nv12_limit C)) (f_of (HEIGHT (displayFrame layer))).

(** The TILER memory of a one-dimensional buffer, in bytes. *)
Definition mem1d (h : IMG_native_handle_t) : Z :=
  if is_NV12 h then 0
  else
    let bpp := if iFormat h =? HAL_PIXEL_FORMAT_RGB_565 then 2 else 4 in
    u32 (ALIGN (iWidth h) HW_ALIGN * bpp * iHeight h).

(** * Scaling *)

(** [can_scale]: whether the subsystem can scale a source to a destination on a
    display with the pixel clock [pclk]; [format] is that of the handle, if one
    is given. *)
Definition can_scale (src_w src_h dst_w dst_h : Z) (is_2d : bool) (dis : dsscomp_display_info)
    (L : dsscomp_platform_info) (pclk : Z) (format : option Z) : option bool :=
  let xdecim := if is_2d then max_xdecim_2d L else max_xdecim_1d L in
  let ydecim := if is_2d then max_ydecim_2d L else max_ydecim_1d L in
  let* min_src_w := DIV_ROUND_UP src_w xdecim in
  let* min_src_h := DIV_ROUND_UP src_h ydecim in
  if negb (channel dis =? OMAP_DSS_CHANNEL_DIGIT) && (dst_w <? min_width L) then Some false
  else if dst_h <? src_h / 4 then Some false
  else if u32 (dst_h * max_downscale L) <? min_src_h then Some false
  else if pclk =? 0 then
    let* q := c_div src_w (max_downscale L) in
    let* q := c_div q xdecim in
    Some (negb (dst_w <? q))
  else if u32 (dst_w * 4) <? src_w then Some false
  else if match format with
          | Some f => (get_format_bpp f =? 32) && (src_w >? 1280) && (u32 (dst_w * 3) <? src_w)
          | None => false
          end then Some false
  else
    let clk := fclk L / 1000 in
    let clk := if clk >? u32 (pclk * max_downscale L) then u32 (pclk * max_downscale L) else clk in
    let clk := if src_w <? integer_scale_ratio_limit L then u32 (clk / pclk * pclk) else clk in
    Some (negb (u32 (dst_w * clk) <? u32 (min_src_w * pclk))).

Definition can_scale_layer (layer : hwc_layer_1_t) (h : IMG_native_handle_t) : option bool :=
  let '(src_w, src_h) := src_size layer in
  can_scale (u32 src_w) (u32 src_h) (u32 (WIDTH (displayFrame layer)))
    (u32 (HEIGHT (displayFrame layer))) (is_NV12 h) (fb_dis C) (limits C)
    (pixel_clock (fb_dis C)) (Some (iFormat h)).

(** The handle is read only when the layer is not to be skipped. *)
Definition is_valid_layer (layer : hwc_layer_1_t) : option bool :=
  if has_flag (flags layer) HWC_SKIP_LAYER || (handle layer =? 0) then Some false
  else
    let* h := hmem (handle layer) in
    if negb (is_valid_format (iFormat h)) then Some false
    (* 1D buffers: no transform, must fit in TILER slot *)
    else if negb (is_NV12 h) &&
            (negb (transform layer =? 0) || (mem1d h >? tiler1d_slot_size (limits C)))
    then Some false
    else can_scale_layer layer h.

(** * Statistics *)

Definition set_composition (t : Z) (l : hwc_layer_1_t) : hwc_layer_1_t :=
  mkHwcLayer t (hints l) (flags l) (handle l) (transform l) (blending l) (sourceCrop l) (displayFrame l).
Definition set_hints (x : Z) (l : hwc_layer_1_t) : hwc_layer_1_t :=
  mkHwcLayer (compositionType l) x (flags l) (handle l) (transform l) (blending l) (sourceCrop l)
    (displayFrame l).

Definition b2z (b : bool) : Z := if b then 1 else 0.

(** A layer that can be on an overlay, counted. *)
Definition count_layer (layer : hwc_layer_1_t) (h : IMG_native_handle_t) (n : counts_t) : counts_t :=
  mkCounts (possible_overlay_layers n + 1) (composited_layers n)
    (scaled_layers n + b2z (scaled layer || is_NV12 h || negb (primary_transform C =? 0)))
    (n_RGB n + b2z (negb (is_BGR h) && is_RGB h))
    (n_BGR n + b2z (is_BGR h))
    (n_NV12 n + b2z (negb (is_BGR h) && negb (is_RGB h) && is_NV12 h))
    (n_dockable n + b2z (dockable h)) (n_protected n + b2z (is_protected h))
    (max_hw_overlays n) (max_scaling_overlays n) (u32 (n_mem n + mem1d h)).

Fixpoint gather_layers (ls : list hwc_layer_1_t) (n : counts_t) : option (list hwc_layer_1_t * counts_t) :=
  match ls with
  | [] => Some ([], n)
  | layer :: ls =>
      let layer := set_composition HWC_FRAMEBUFFER layer in
      let* valid := is_valid_layer layer in
      let* n := (if valid : bool then let* h := hmem (handle layer) in Some (count_layer layer h n)
                 else Some n) in
      let* (ls, n) := gather_layers ls n in
      Some (layer :: ls, n)
  end.

(** The layers are those of the list, none when it is a null pointer. *)
Definition gather_layer_statistics (ls : list hwc_layer_1_t) : option (list hwc_layer_1_t * counts_t) :=
  gather_layers ls (mkCounts 0 (Z.of_nat (length ls)) 0 0 0 0 0 0 0 0 0).

(** * The configuration of an overlay *)

Definition ctbl_bt601_5 : list Z := [298; 409; 0; 298; -208; -100; 298; 0; 517; 0].

(** The color mode and the conversion table of a format, if it has one. *)
Definition color_of (format : Z) (blended : bool) : option (Z * option (list Z)) :=
  if (format =? HAL_PIXEL_FORMAT_RGBA_8888) || (format =? HAL_PIXEL_FORMAT_BGRA_8888) then
    Some (if blended then OMAP_DSS_COLOR_ARGB32 else OMAP_DSS_COLOR_RGB24U, None)
  else if (format =? HAL_PIXEL_FORMAT_RGBX_8888) || (format =? HAL_PIXEL_FORMAT_BGRX_8888) then
    Some (OMAP_DSS_COLOR_RGB24U, None)
  else if format =? HAL_PIXEL_FORMAT_RGB_565 then Some (OMAP_DSS_COLOR_RGB16, None)
  else if (format =? HAL_PIXEL_FORMAT_TI_NV12) || (format =? HAL_PIXEL_FORMAT_TI_NV12_1D) then
    Some (OMAP_DSS_COLOR_NV12, Some ctbl_bt601_5)
  else None.

Definition setup_layer_base (oc : dss2_ovl_cfg) (index format : Z) (blended : bool) (width height : Z)
    : dss2_ovl_cfg :=
  match color_of format blended with
  | None => oc (* Unsupported pixel format *)
  | Some (color, conv) =>
      mkCfg width height (ALIGN width HW_ALIGN * get_format_bpp format / 8) color
        (pre_mult_alpha oc) 255 (rotation oc) (mirror oc)
        (mkDssRect (dr_x (win oc)) (dr_y (win oc)) width height)
        (mkDssRect (dr_x (crop oc)) (dr_y (crop oc)) width height)
        (default (cconv oc) conv) OMAP_DSS_ILACE_NONE 0 0 index true (mgr_ix oc)
  end.

(** The quarter turns and the mirroring of a transform, on top of those that are
    there. *)
Definition setup_transform (t : Z) (rot : Z) (mir : bool) : Z * bool :=
  let mir := if has_flag t HWC_TRANSFORM_FLIP_H then true else mir in
  let '(rot, mir) := if has_flag t HWC_TRANSFORM_FLIP_V then (2, negb mir) else (rot, mir) in
  if has_flag t HWC_TRANSFORM_ROT_90 then (Z.land (rot + (if mir then -1 else 1)) 3, mir)
  else (rot, mir).

Definition dss_rect_of (r : blit_rect_t) : dss2_rect :=
  mkDssRect (r_left r) (r_top r) (WIDTH r) (HEIGHT r).

Definition setup_layer (oc : dss2_ovl_cfg) (layer : hwc_layer_1_t) (index format width height : Z)
    : dss2_ovl_cfg :=
  let oc := setup_layer_base oc index format (is_BLENDED layer) width height in
  let '(rot, mir) := setup_transform (transform layer) (rotation oc) (mirror oc) in
  set_rects (dss_rect_of (displayFrame layer)) (dss_rect_of (sourceCrop layer))
    (set_pre_mult_alpha (blending layer =? HWC_BLENDING_PREMULT) (set_orientation rot mir oc)).

Definition display_area (o : dss2_ovl_info) : Z := dr_w (win (cfg o)) * dr_h (win (cfg o)).

End Layers.
