(* ===== verification/HwcGeometry.v ===== *)
(** The geometry of the overlays (src/hwc/hwc.c): cropping an overlay to a
    region of the screen, the transformation to the external or the primary
    display, and the choice of the largest size that keeps the aspect ratio. *)

From Stdlib Require Import ZArith Lia Floats.SpecFloat.
From stdpp Require Import base list list_numbers option tactics.
From S2P Require Import Prelude RgzGeometry RgzState RgzBlit HwcModel.

(** * Transformations *)

Definition m_translate (dx dy : float) (m : matrix) : matrix :=
  (mkRow (m0 m.1) (m1 m.1) (f_add (m2 m.1) dx), mkRow (m0 m.2) (m1 m.2) (f_add (m2 m.2) dy)).

Definition m_scale1 (from to : Z) (r : row) : row :=
  let f x := f_div (f_mul x (f_of to)) (f_of from) in mkRow (f (m0 r)) (f (m1 r)) (f (m2 r)).

Definition m_scale (x_from x_to y_from y_to : Z) (m : matrix) : matrix :=
  (m_scale1 x_from x_to m.1, m_scale1 y_from y_to m.2).

Definition m_rotate (quarter_turns : Z) (m : matrix) : matrix :=
  let m := if negb (Z.land quarter_turns 2 =? 0) then m_scale 1 (-1) 1 (-1) m else m in
  if negb (Z.land quarter_turns 1 =? 0) then
    (mkRow (SFopp (m0 m.2)) (SFopp (m1 m.2)) (SFopp (m2 m.2)), m.1)
  else m.

Definition m_round (x : float) : option Z :=
  trunc_s32 (if SFltb x f_zero then d_sub (d_of_f x) d_half else d_add (d_of_f x) d_half).

(** 1.f - ASPECT_RATIO_TOLERANCE *)
Definition within_tolerance : float := f_sub f_one ASPECT_RATIO_TOLERANCE.

(** The largest size, for a screen of [scr_xres] by [scr_yres] pixels and the
    physical size given, of pixels whose ratio was [xpy]. *)
Definition get_max_dimensions (orig_xres orig_yres : Z) (xpy : float)
    (scr_xres scr_yres scr_width scr_height : Z) : option (Z * Z) :=
  let '(scr_width, scr_height) :=
    if (scr_width =? 0) || (scr_height =? 0) then (scr_xres, scr_yres) else (scr_width, scr_height) in
  let x_factor := f_mul (f_mul (f_of orig_xres) xpy) (f_of scr_height) in
  let y_factor := f_of (u32 (orig_yres * scr_width)) in
  if SFltb x_factor (f_mul y_factor within_tolerance) then
    let* x := trunc_u32 (d_add (d_of_f (f_div (f_mul x_factor (f_of scr_xres)) y_factor)) d_half) in
    Some (x, scr_yres)
  else if SFltb y_factor (f_mul x_factor within_tolerance) then
    let* y := trunc_u32 (d_add (d_of_f (f_div (f_mul y_factor (f_of scr_yres)) x_factor)) d_half) in
    Some (scr_xres, y)
  else Some (scr_xres, scr_yres).

(** 1. / x, rounded to a float. *)
Definition f_inverse (x : float) : float := f_of_d (d_div d_one (d_of_f x)).

Definition set_ext_matrix (region : blit_rect_t) (e : omap_hwc_ext_t) : option omap_hwc_ext_t :=
  let orig_w := WIDTH region in
  let orig_h := HEIGHT region in
  let rot := t_rotation (e_current e) in
  let m := m_translate (f_sub (SFopp (f_div (f_of orig_w) f_two)) (f_of (r_left region)))
             (f_sub (SFopp (f_div (f_of orig_h) f_two)) (f_of (r_top region))) m_unit in
  let m := m_rotate rot m in
  let m := if t_hflip (e_current e) then m_scale 1 (-1) 1 1 m else m in
  let '(orig_w, orig_h, xpy) :=
    if negb (Z.land rot 1 =? 0) then (orig_h, orig_w, f_inverse (lcd_xpy e))
    else (orig_w, orig_h, lcd_xpy e) in
  let* (adj_xres, adj_yres) :=
    get_max_dimensions (u32 orig_w) (u32 orig_h) xpy (xres e) (yres e) (e_width e) (e_height e) in
  let m := m_scale orig_w adj_xres orig_h adj_yres m in
  Some (set_matrix (m_translate (f_of (Z.shiftr (xres e) 1)) (f_of (Z.shiftr (yres e) 1)) m) e).

(** * Cropping *)

(** An interval of the window with the interval of the source it shows: [w] from
    the window's edge, the source from [c], whose extent is negative when it is
    shown backwards. *)
Record span := mkSpan { win_xy : Z; win_wh : Z; crop_xy : Z; crop_wh : Z }.

(** [x -= (w = -w)] *)
Definition reverse (s : span) : span :=
  mkSpan (win_xy s) (win_wh s) (crop_xy s + crop_wh s) (- crop_wh s).

(** One round of the loop of [crop_to_rect] for the interval [lt, rb) of the
    region; [None] inside is -ENOENT. *)
Definition crop_span (lt rb : Z) (s : span) : option span :=
  if (win_wh s <=? 0) || (rb <=? lt) || (win_xy s + win_wh s <=? lt) || (win_xy s >=? rb) ||
     (crop_wh s =? 0) then None
  else
    (* crop left/top *)
    let s :=
      if win_xy s <? lt then
        let a := Z.quot ((lt - win_xy s) * crop_wh s) (win_wh s) in
        mkSpan lt (win_wh s - (lt - win_xy s)) (crop_xy s + a) (crop_wh s - a)
      else s in
    (* crop right/bottom *)
    let s :=
      if win_xy s + win_wh s >? rb then
        mkSpan (win_xy s) (rb - win_xy s) (crop_xy s)
          (Z.quot (crop_wh s * (rb - win_xy s)) (win_wh s))
      else s in
    if (crop_wh s =? 0) || (win_wh s =? 0) then None else Some s.

(** The reversals that align the source with the display: of the source's
    second coordinate when the layer is turned, then of the two coordinates
    [!swap] and [swap]. *)
Definition swapped (c : dss2_ovl_cfg) : bool := negb (Z.land (rotation c) 1 =? 0).
Definition upside (c : dss2_ovl_cfg) : bool := negb (Z.land (rotation c) 2 =? 0).
(** [(!mirror) ^ !(rotation & 2)] *)
Definition backwards (c : dss2_ovl_cfg) : bool := xorb (negb (mirror c)) (negb (upside c)).

(** The window's two intervals, each with the source's: of x with the source's x
    or, when [swap], with its y. *)
Definition spans_of (c : dss2_ovl_cfg) : span * span :=
  let w := win c in
  let s := crop c in
  if swapped c then (mkSpan (dr_x w) (dr_w w) (dr_y s) (dr_h s), mkSpan (dr_y w) (dr_h w) (dr_x s) (dr_w s))
  else (mkSpan (dr_x w) (dr_w w) (dr_x s) (dr_w s), mkSpan (dr_y w) (dr_h w) (dr_y s) (dr_h s)).
Definition set_spans (a b : span) (c : dss2_ovl_cfg) : dss2_ovl_cfg :=
  set_rects (mkDssRect (win_xy a) (win_xy b) (win_wh a) (win_wh b))
    (if swapped c then mkDssRect (crop_xy b) (crop_xy a) (crop_wh b) (crop_wh a)
     else mkDssRect (crop_xy a) (crop_xy b) (crop_wh a) (crop_wh b)) c.

(** Each coordinate of the source is reversed as often as the code reverses it:
    index 1 is that of the window's x when [swap], index [!swap] that of its y
    and index [swap] that of its x. *)
Definition align_spans (c : dss2_ovl_cfg) (a b : span) : span * span :=
  let a := if swapped c then reverse a else a in
  let b := if upside c then reverse b else b in
  let a := if backwards c then reverse a else a in
  (a, b).
Definition realign_spans (c : dss2_ovl_cfg) (a b : span) : span * span :=
  let b := if upside c then reverse b else b in
  let a := if backwards c then reverse a else a in
  let a := if swapped c then reverse a else a in
  (a, b).

(** [crop_to_rect]; [None] is -ENOENT, which leaves the overlay as it was. *)
Definition crop_to_rect (vis : blit_rect_t) (c : dss2_ovl_cfg) : option dss2_ovl_cfg :=
  let '(a, b) := spans_of c in
  let '(a, b) := align_spans c a b in
  let* a := crop_span (r_left vis) (r_right vis) a in
  let* b := crop_span (r_top vis) (r_bottom vis) b in
  let '(a, b) := realign_spans c a b in
  Some (set_spans a b c).

(** * Moving an overlay to a display *)

Definition apply_transform (t : matrix) (c : dss2_ovl_cfg) : option dss2_ovl_cfg :=
  let w := win c in
  let lin (r : row) a b := f_add (f_mul (m0 r) (f_of a)) (f_mul (m1 r) (f_of b)) in
  let x := f_add (lin t.1 (dr_x w) (dr_y w)) (m2 t.1) in
  let y := f_add (lin t.2 (dr_x w) (dr_y w)) (m2 t.2) in
  let fw := lin t.1 (dr_w w) (dr_h w) in
  let fh := lin t.2 (dr_w w) (dr_h w) in
  let* x' := m_round (if SFltb f_zero fw then x else f_add x fw) in
  let* y' := m_round (if SFltb f_zero fh then y else f_add y fh) in
  let* w' := m_round (if SFltb f_zero fw then fw else SFopp fw) in
  let* h' := m_round (if SFltb f_zero fh then fh else SFopp fh) in
  Some (set_rects (mkDssRect x' y' w' h') (crop c) c).

(** F^a*R^b*F^i*R^j = F^(a+b)*R^(j+b*(-1)^i), because F*R = R^(-1)*F *)
Definition turn (quarters : Z) (c : dss2_ovl_cfg) : dss2_ovl_cfg :=
  set_orientation (Z.land (rotation c + (if mirror c then -1 else 1) * quarters) 3) (mirror c) c.

Definition adjust_ext_layer (e : omap_hwc_ext_t) (o : dss2_ovl_info) : option dss2_ovl_info :=
  match (if t_docking (e_current e) then Some (cfg o) else crop_to_rect (mirror_region e) (cfg o)) with
  | None => Some (upd_cfg (set_enabled false) o)
  | Some c =>
      let* c := apply_transform (e_m e) c in
      let c := turn (t_rotation (e_current e)) c in
      Some (upd_cfg (fun _ => if t_hflip (e_current e)
                              then set_orientation (rotation c) (negb (mirror c)) c else c) o)
  end.

Definition adjust_primary_display_layer (C : hwc_config) (o : dss2_ovl_info) : option dss2_ovl_info :=
  match crop_to_rect (primary_region C) (cfg o) with
  | None => Some (upd_cfg (set_enabled false) o)
  | Some c =>
      let* c := apply_transform (primary_m C) c in
      Some (upd_cfg (fun _ => turn (primary_rotation C) c) o)
  end.
