(* ===== verification/HwcPrepare.v ===== *)
(** Planning a composition (src/hwc/hwc.c): the mode of the external display, how
    many overlays each display has, whether the display subsystem (DSS) can show
    all the layers, and [hwc_prepare], which gives overlays to layers, puts the
    framebuffer among them and clones overlays for the external display; then
    [hwc_set], which posts the composition.  A result [None] is undefined behaviour
    of the program: an access out of bounds, a division by zero, a number that its
    integer type does not hold. *)

From Stdlib Require Import ZArith Lia Floats.SpecFloat.
From stdpp Require Import base list list_numbers option tactics.
From S2P Require Import Prelude RgzGeometry RgzState RgzBlit HwcModel HwcLayers HwcGeometry.

(** * The mode of the external display *)

(** The score of a mode, 22 bits from the most to the least important. *)
Definition add_scaling_score (score xres yres refresh ext_xres ext_yres mode_xres mode_yres
    mode_refresh : Z) : option Z :=
  let area := u32 (xres * yres) in
  let ext_area := u32 (ext_xres * ext_yres) in
  let mode_area := u32 (mode_xres * mode_yres) in
  (* prefer to upscale (1% tolerance), inserted after the first bit *)
  let upscale := (u32 (xres * 99) / 100 <=? ext_xres) && (u32 (yres * 99) / 100 <=? ext_yres) in
  let score :=
    Z.lor (u32 (Z.shiftl (Z.lor (Z.land score (Z.lnot 1)) (b2z upscale)) 1)) (Z.land score 1) in
  (* minimum scaling *)
  let* q := (if ext_area >? area then c_div (u32 (16 * area)) ext_area
             else c_div (u32 (16 * ext_area)) area) in
  let score := Z.lor (u32 (Z.shiftl score 5)) q in
  (* smallest leftover area *)
  let* q := c_div (u32 (u32 (16 * ext_area) + Z.shiftr mode_area 1)) mode_area in
  let score := Z.lor (u32 (Z.shiftl score 5)) q in
  (* same or higher frame rate, then the closest *)
  let mode_refresh := u32 (mode_refresh + b2z (mode_refresh mod 6 =? 5)) in
  let score := Z.lor (u32 (Z.shiftl score 1)) (b2z (refresh <=? mode_refresh)) in
  let* q := (if mode_refresh >? refresh then c_div (u32 (240 * refresh)) mode_refresh
             else c_div (u32 (240 * mode_refresh)) refresh) in
  Some (Z.lor (u32 (Z.shiftl score 8)) q).

Section Composer.
Context `{HwcApi} `{DssApi} `{BvApi}.
Context (hmem : Z -> option IMG_native_handle_t) (bg_layer : hwc_layer_1_t).
Context (C : hwc_config) (E : hwc_env).

(** The best mode so far: its index, its score and the size of the screen. *)
Record best_mode := mkBest {
  best : option nat; best_score : Z; b_width : Z; b_height : Z; b_xres : Z; b_yres : Z }.

(** The size and the physical ratio of a mode. *)
Definition mode_yres (m : dsscomp_videomode) : Z :=
  if has_flag (v_vmode m) FB_VMODE_INTERLACED then v_yres m / 2 else v_yres m.
Definition mode_ratio (dis : dsscomp_display_info) (m : dsscomp_videomode) : Z * Z :=
  if has_flag (v_flag m) FB_FLAG_RATIO_4_3 then (4, 3)
  else if has_flag (v_flag m) FB_FLAG_RATIO_16_9 then (16, 9)
  else (width_in_mm dis, height_in_mm dis).

Definition try_mode (e : omap_hwc_ext_t) (dis : dsscomp_display_info) (xr yr : Z) (xpy : float)
    (i : nat) (m : dsscomp_videomode) (b : best_mode) : option best_mode :=
  let '(ext_width, ext_height) := mode_ratio dis m in
  if (v_xres m =? 0) || (mode_yres m =? 0) then Some b
  else
    let* (fbx, fby) := get_max_dimensions xr yr xpy (v_xres m) (mode_yres m) ext_width ext_height in
    (* we need to ensure that even TILER2D buffers can be scaled *)
    let* usable :=
      (if (v_pixclock m =? 0) || negb (Z.land (v_vmode m) (Z.lnot FB_VMODE_INTERLACED) =? 0)
       then Some false
       else can_scale xr yr fbx fby true dis (limits C) (1000000000 / v_pixclock m) None) in
    if negb usable then Some b
    else
      let cea := has_flag (v_flag m) (Z.lor FB_FLAG_RATIO_4_3 FB_FLAG_RATIO_16_9) in
      let same := (Z.of_nat i =? u32 (Z.lnot (mirror_mode e))) && avoid_mode_change e in
      let* score := add_scaling_score (Z.lor (Z.shiftl (b2z cea) 1) (b2z same)) xr yr 60 fbx fby
                      (v_xres m) (mode_yres m) (if v_refresh m =? 0 then 1 else v_refresh m) in
      if best_score b <? score
      then Some (mkBest (Some i) score ext_width ext_height (v_xres m) (mode_yres m))
      else Some b.

Fixpoint try_modes (e : omap_hwc_ext_t) (dis : dsscomp_display_info) (xr yr : Z) (xpy : float)
    (i : nat) (ms : list dsscomp_videomode) (b : best_mode) : option best_mode :=
  match ms with
  | [] => Some b
  | m :: ms => let* b := try_mode e dis xr yr xpy i m b in try_modes e dis xr yr xpy (S i) ms b
  end.

(** [set_best_hdmi_mode]: the number is zero for success. *)
Definition set_best_hdmi_mode (xr yr : Z) (xpy : float) (d : omap_hwc_device_t)
    : option (Z * omap_hwc_device_t) :=
  let dis_ix := if on_tv C then 0 else 1 in
  match query_display E dis_ix with
  | None => Some (-1, d)
  | Some dis =>
      if (u32 (x_res dis * y_res dis) =? 0) || (u32 (xr * yr) =? 0) then Some (- EINVAL, d)
      else
        let e := ext d in
        let '(scr_x, scr_y) :=
          if (x_res dis =? 0) || (y_res dis =? 0) then (640, 480) else (x_res dis, y_res dis) in
        let* b := try_modes e dis xr yr xpy 0 (modedb dis)
                    (mkBest None 0 (u16 (width_in_mm dis)) (u16 (height_in_mm dis)) scr_x scr_y) in
        let e := set_screen (u16 (b_width b)) (u16 (b_height b)) (b_xres b) (b_yres b) e in
        let* (rv, d) :=
          match best b with
          | Some i =>
              let* m := modedb dis !! i in
              let code := u32 (Z.lnot (Z.of_nat i)) in
              (* only reconfigure on change *)
              let d := if last_mode e =? code then d else emit_event (E_setup_display dis_ix m) d in
              Some (0, set_ext (set_last_mode code e) d)
          | None =>
              let* (fbx, fby) := get_max_dimensions xr yr xpy (x_res dis) (y_res dis)
                                   (width_in_mm dis) (height_in_mm dis) in
              let* usable :=
                (if pixel_clock dis =? 0 then Some false
                 else can_scale xr yr fbx fby true dis (limits C) (pixel_clock dis) None) in
              Some (if usable : bool then 0 else -1,
                    (if usable : bool then set_ext e d else emit_event (E_log L_no_hdmi) (set_ext e d)))
          end in
        if negb (rv =? 0) then Some (rv, d)
        else
          let e := set_used xr yr xpy (ext d) in
          Some (0, set_ext (if channel dis =? OMAP_DSS_CHANNEL_DIGIT then set_e_on_tv true e else e) d)
  end.

Definition setup_mirroring (d : omap_hwc_device_t) : option (Z * omap_hwc_device_t) :=
  let e := ext d in
  let xr := u32 (WIDTH (mirror_region e)) in
  let yr := u32 (HEIGHT (mirror_region e)) in
  let '(xr, yr) :=
    if negb (Z.land (t_rotation (e_current e)) 1 =? 0) then (yr, xr) else (xr, yr) in
  let* (rv, d) := set_best_hdmi_mode xr yr (lcd_xpy e) d in
  if negb (rv =? 0) then Some (- ENODEV, d)
  else let* e := set_ext_matrix (mirror_region (ext d)) (ext d) in Some (0, set_ext e d).

(** * The overlays of each display *)

(** Docking (a dockable layer, or forced) or mirroring, with the overlays that
    each display may use now and those wanted on the external one. *)
Definition decide_supported_cloning (d : omap_hwc_device_t) : omap_hwc_device_t :=
  let e := ext d in
  let num := counts d in
  let docks := negb (n_dockable num =? 0) || force_dock e in
  let '(max_ovls, nonscaling, wanted, current) :=
    if t_enabled (e_dock e) && negb (t_enabled (e_mirror e) && negb docks) then
      let wanted := if docks then 1 else 0 in
      (u32 (MAX_HW_OVERLAYS - Z.max wanted (last_ext_ovls d)), NUM_NONSCALING_OVERLAYS, wanted,
       if t_enabled (e_mirror e) then set_t_docking true (e_mirror e) else e_dock e)
    else if t_enabled (e_mirror e) then
      let m := Z.shiftr MAX_HW_OVERLAYS 1 in
      (m, Z.shiftr NUM_NONSCALING_OVERLAYS 1, MAX_HW_OVERLAYS - m, e_mirror e)
    else
      (u32 (MAX_HW_OVERLAYS - last_ext_ovls d), NUM_NONSCALING_OVERLAYS, 0,
       set_t_enabled false (e_current e)) in
  let have := Z.min (MAX_HW_OVERLAYS - last_int_ovls d) wanted in
  let max_ovls :=
    if (n_protected num =? 0) && negb (have =? 0) && t_enabled current && negb (t_docking current)
    then u32 have else max_ovls in
  (* If FB is not same resolution as LCD don't use GFX pipe line *)
  let '(max_ovls, max_scaling) :=
    if negb (primary_transform C =? 0)
    then (u32 (max_ovls - NUM_NONSCALING_OVERLAYS), u32 (max_ovls - NUM_NONSCALING_OVERLAYS))
    else (max_ovls, u32 (max_ovls - nonscaling)) in
  set_counts (set_max_overlays max_ovls max_scaling num)
    (set_ext_ovls have (set_ext_ovls_wanted wanted (set_ext (set_current current e) d))).

Definition transformed (t : ext_transform_t) : bool := negb (t_rotation t =? 0) || t_hflip t.

Definition can_dss_render_all (d : omap_hwc_device_t) : bool :=
  let e := ext d in
  let num := counts d in
  let tv := on_tv C || (e_on_tv e && t_enabled (e_current e)) in
  let tform := t_enabled (e_current e) && transformed (e_current e) in
  (force_sgx d =? 0) &&
  (* must have at least one layer if using composition bypass to get sync object *)
  negb (possible_overlay_layers num =? 0) &&
  (possible_overlay_layers num <=? max_hw_overlays num) &&
  (possible_overlay_layers num =? composited_layers num) &&
  (scaled_layers num <=? max_scaling_overlays num) &&
  (n_NV12 num <=? max_scaling_overlays num) &&
  (* fits into TILER slot *)
  (n_mem num <=? tiler1d_slot_size (limits C)) &&
  (* we cannot clone non-NV12 transformed layers *)
  (negb tform || (n_NV12 num =? possible_overlay_layers num) ||
   (negb (n_NV12 num =? 0) && t_docking (e_current e))) &&
  (* HDMI cannot display BGR *)
  ((n_BGR num =? 0) || ((n_RGB num =? 0) && negb tv) || negb (flags_rgb_order C)) &&
  (* If nv12_only flag is set DSS should only render NV12 *)
  (negb (flags_nv12_only C) || ((n_BGR num =? 0) && (n_RGB num =? 0))).

Definition can_dss_render_layer (d : omap_hwc_device_t) (layer : hwc_layer_1_t) : option bool :=
  let e := ext d in
  let current := e_current e in
  let* cloning :=
    (if negb (t_enabled current) then Some false
     else if negb (t_docking current) then Some true
     else if handle layer =? 0 then Some false
     else let* h := hmem (handle layer) in Some (dockable h)) in
  let tv := on_tv C || (e_on_tv e && cloning) in
  let tform := cloning && transformed current in
  let* valid := is_valid_layer hmem C layer in
  if negb valid then Some false
  else
    let* h := hmem (handle layer) in
    Some
      ( (* cannot rotate non-NV12 layers on external display *)
       (negb tform || is_NV12 h) &&
       (* skip non-NV12 layers if also using SGX (if nv12_only flag is set) *)
       (negb (flags_nv12_only C) || negb (use_sgx d) || is_NV12 h) &&
       (* make sure RGB ordering is consistent (if rgb_order flag is set) *)
       (negb (if swap_rb d then is_RGB h else is_BGR h) || negb (flags_rgb_order C)) &&
       (* TV can only render RGB *)
       negb (tv && is_BGR h)).

(** * Cloning *)

(** A copy of the overlay [ix] for the external display; the number is zero for
    success. *)
Definition clone_layer (ix : nat) (d : omap_hwc_device_t) : option (Z * omap_hwc_device_t) :=
  let dc := dsscomp_data d in
  let n := num_ovls dc in
  let ext_ovl_ix := Z.of_nat n - Z.of_nat (post2_layers d) in
  if MAX_HW_OVERLAYS <=? Z.of_nat n then Some (- EBUSY, emit_event (E_log L_clone_all) d)
  else
    let* o := ovls dc !! ix in
    let c := set_mgr_ix 1 (set_ix (MAX_HW_OVERLAYS - 1 - ext_ovl_ix) (cfg o)) in
    let* ion := (if (ix =? 0)%nat then arr_get (ion_handles C) (Z.rem (sync_id d) 2) else Some 0) in
    let o :=
      if negb (ion =? 0) && use_sgx d then mkOvl c OMAP_DSS_BUFADDR_ION ion
      else mkOvl c OMAP_DSS_BUFADDR_OVL_IX (Z.of_nat ix) in
    (* use distinct z values (to simplify z-order checking) *)
    let o := upd_cfg (fun c => set_zorder (zorder c + Z.of_nat (post2_layers d)) c) o in
    let* o := adjust_ext_layer (ext d) o in
    let* dc := upd_ovl n (fun _ => o) dc in
    Some (0, set_dsscomp (set_num_ovls (S n) dc) d).

Definition clone_external_layer (ix : nat) (d : omap_hwc_device_t) : option (Z * omap_hwc_device_t) :=
  let e := ext d in
  let* o := ovls (dsscomp_data d) !! ix in
  let c := cfg o in
  (* full screen video after transformation *)
  let '(xr, yr) :=
    if negb (Z.land (t_rotation (e_current e) + rotation c) 1 =? 0)
    then (u32 (dr_h (crop c)), u32 (dr_w (crop c))) else (u32 (dr_w (crop c)), u32 (dr_h (crop c))) in
  let xpy := f_div (f_mul (lcd_xpy e) (f_of (dr_w (win c)))) (f_of (dr_h (win c))) in
  let xpy :=
    if negb (Z.land (rotation c) 1 =? 0)
    then f_div (f_div (f_of (dr_h (crop c))) xpy) (f_of (dr_w (crop c)))
    else f_div (f_mul (f_of (dr_h (crop c))) xpy) (f_of (dr_w (crop c))) in
  let xpy := if negb (Z.land (t_rotation (e_current e)) 1 =? 0) then f_inverse xpy else xpy in
  (* adjust hdmi mode based on resolution *)
  let* (rv, d) :=
    (if negb (xr =? last_xres_used e) || negb (yr =? last_yres_used e) ||
        SFltb xpy (f_mul (last_xpy e) within_tolerance) ||
        SFltb (last_xpy e) (f_mul xpy within_tolerance)
     then set_best_hdmi_mode xr yr xpy d else Some (0, d)) in
  if negb (rv =? 0) then
    Some (- ENODEV, set_ext (set_current (set_t_enabled false (e_current (ext d))) (ext d)) d)
  else
    let w := win c in
    let* e := set_ext_matrix (mkRect (dr_x w) (dr_y w) (dr_x w + dr_w w) (dr_y w + dr_h w)) (ext d) in
    clone_layer ix (set_ext e d).

(** * Blitting *)

Definition blit_reset (d : omap_hwc_device_t) : omap_hwc_device_t :=
  set_blit 0 0 0 0 (rgz_blts d) d.

(** The two operations that [blit_layers] asks of [rgz_out]. *)
Definition rgz_out (rgz : rgz_t) (params : rgz_out_params) : option (Z * out_state) :=
  let st := mkOut [] 0 0 [] 0 in
  if out_op params =? RGZ_OUT_BVCMD_PAINT then rgz_out_bvcmd_paint hmem rgz params st
  else rgz_out_region hmem rgz params st.

(** [hwc_dev->buffers[bufoff++] = ...] *)
Fixpoint put_buffers (hs : list Z) (bufoff : nat) (bufs : list Z) : option (list Z) :=
  match hs with
  | [] => Some bufs
  | x :: hs =>
      guard* (bufoff <? length bufs)%nat in put_buffers hs (S bufoff) (<[bufoff := x]> bufs)
  end.

Definition blitted (l : hwc_layer_1_t) : hwc_layer_1_t :=
  let l := if compositionType l =? HWC_OVERLAY then l
           else set_hints (Z.land (hints l) (Z.lnot HWC_HINT_TRIPLE_BUFFER)) (set_composition HWC_OVERLAY l) in
  set_hints (Z.land (hints l) (Z.lnot HWC_HINT_CLEAR_FB)) l.

(** The part of [blit_layers] that can fail, up to the commands and the buffers;
    [None] inside is [err_out]. *)
Definition generate_blits (list_ : option hwc_display_contents_1_t) (d : omap_hwc_device_t)
    : option (option out_state * omap_hwc_device_t) :=
  match list_ with
  | None => Some (None, d)
  | Some l =>
      if t_enabled (e_mirror (ext d)) then Some (None, d)
      else
        let '(in_op, out_op) :=
          if blt_mode C =? BLTMODE_PAINT then (RGZ_IN_HWCCHK, RGZ_OUT_BVCMD_PAINT)
          else (RGZ_IN_HWC, RGZ_OUT_BVCMD_REGION) in
        if negb (has_flag (contents_flags l) HWC_EXTENDED_API) || negb (procs C) || negb (extension_ok E)
        then Some (None, d)
        (* Check if we have enough space in the extended layer list *)
        else if (RGZ_INPUT_MAXLAYERS <? length (hwLayers l))%nat then Some (None, d)
        else
          match mapM (layer_identity E) (seq 0 (length (hwLayers l))) with
          | None => Some (None, d)
          | Some ids =>
              let* (rv, rgz) :=
                rgz_in hmem bg_layer (calloc_ok E)
                  (mkInParams in_op (Some (hwLayers l)) ids (length (hwLayers l))
                     (g_width (gscrngeom C)) (g_height (gscrngeom C))) (grgz d) in
              let d := set_grgz rgz d in
              if negb (rv =? RGZ_ALL) then Some (None, d)
              else
                let* (rv, out) := rgz_out rgz (mkOutParams out_op (gscrngeom C) false) in
                if negb (rv =? 0) then Some (None, d)
                else if negb (out_op =? RGZ_OUT_BVCMD_REGION) && (out_blits out =? 0)%nat &&
                        (0 <? length (out_hndls out))%nat then Some (None, d)
                else Some (Some out, d)
          end
  end.

Definition blit_layers (list_ : option hwc_display_contents_1_t) (bufoff : nat) (d : omap_hwc_device_t)
    : option (bool * option hwc_display_contents_1_t * omap_hwc_device_t) :=
  let* (r, d) := generate_blits list_ d in
  match r, list_ with
  | Some out, Some l =>
      let* bufs := put_buffers (out_hndls out) bufoff (buffers d) in
      let d := set_blit (length (out_hndls out)) (Z.lor (blit_flags d) HWC_BLT_FLAG_USE_FB)
                 (Z.of_nat (out_blits out)) (rgz_items d) (take (cmdlen out) (bvcmds out))
                 (set_buffers bufs d) in
      (* all layers will be rendered without SGX help either via DSS or blitter *)
      Some (true, Some (mkContents (contents_flags l) (map blitted (hwLayers l)) (dpy_and_sur l)), d)
  | _, _ => Some (false, list_, set_grgz (rgz_release (grgz d)) d)
  end.

(** * [hwc_prepare] *)

(** The variables of the loop over the layers. *)
Record frame := mkFrame {
  f_dev : omap_hwc_device_t; f_z : Z; f_fb_z : Z; f_docking : option nat; f_scaled_gfx : bool;
  f_mem : Z }.

(** Whether the layer gets the next overlay. *)
Definition takes_overlay (layer : hwc_layer_1_t) (f : frame) : option bool :=
  let d := f_dev f in
  let current := e_current (ext d) in
  if negb (Z.of_nat (num_ovls (dsscomp_data d)) <? max_hw_overlays (counts d)) then Some false
  else
    let* ok := can_dss_render_layer d layer in
    if negb ok then Some false
    else
      let* h := hmem (handle layer) in
      Some
        (((force_sgx d =? 0) ||
          (* render protected and dockable layers via DSS *)
          is_protected h || is_upscaled_NV12 C layer h ||
          (t_docking current && t_enabled current && dockable h)) &&
         (u32 (f_mem f + mem1d h) <=? tiler1d_slot_size (limits C)) &&
         (* can't have a transparent overlay in the middle of the framebuffer stack *)
         negb (is_BLENDED layer && (0 <=? f_fb_z f))).

(** The layer marked as on an overlay: the framebuffer is cleared above opaque
    ones if rendering via SGX. *)
Definition overlay_layer (sgx : bool) (layer : hwc_layer_1_t) : hwc_layer_1_t :=
  let x := Z.lor (hints layer) HWC_HINT_TRIPLE_BUFFER in
  set_hints (if sgx && negb (is_BLENDED layer) then Z.lor x HWC_HINT_CLEAR_FB else x)
    (set_composition HWC_OVERLAY layer).

(** Keeping the GFX pipe, overlay 0, for a layer that is not scaled: the overlay
    just set up takes it when the one there is scaled. *)
Definition assign_gfx (unscaled : bool) (gfx : bool) (dc : dsscomp_setup_dispc_data)
    : option (bool * dsscomp_setup_dispc_data) :=
  let n := num_ovls dc in
  if (n =? 0)%nat && (primary_transform C =? 0) then Some (negb unscaled, dc)
  else if gfx && unscaled then
    (* swap GFX layer with this one *)
    let* dc := upd_ovl n (upd_cfg (set_ix 0)) dc in
    let* dc := upd_ovl 0 (upd_cfg (set_ix (Z.of_nat n))) dc in
    Some (false, dc)
  else Some (gfx, dc).

(** Remembering the largest dockable layer. *)
Definition pick_docking (dock : bool) (dc : dsscomp_setup_dispc_data) (docking : option nat)
    : option (option nat) :=
  let n := num_ovls dc in
  if negb dock then Some docking
  else
    match docking with
    | None => Some (Some n)
    | Some i =>
        let* o := ovls dc !! n in
        let* o' := ovls dc !! i in
        Some (if display_area o >? display_area o' then Some n else docking)
    end.

(** The layer on the next overlay. *)
Definition add_overlay (layer : hwc_layer_1_t) (f : frame) : option frame :=
  let d := f_dev f in
  let dc := dsscomp_data d in
  let n := num_ovls dc in
  let* h := hmem (handle layer) in
  let* bufs := put_buffers [handle layer] n (buffers d) in
  let* dc :=
    upd_ovl n (fun o =>
      mkOvl (set_ix (Z.of_nat n + primary_transform C)
               (setup_layer (cfg o) layer (f_z f) (iFormat h) (iWidth h) (iHeight h)))
        OMAP_DSS_BUFADDR_LAYER_IX (Z.of_nat n)) dc in
  let* (gfx, dc) := assign_gfx (negb (scaled layer || is_NV12 h)) (f_scaled_gfx f) dc in
  let* docking := pick_docking (dockable h) dc (f_docking f) in
  Some (mkFrame (set_dsscomp (set_num_ovls (S n) dc) (set_buffers bufs d))
          (f_z f + 1) (f_fb_z f) docking gfx (u32 (f_mem f + mem1d h))).

(** Moving the framebuffer's z-order up, by lowering the overlays above it:
    [while (fb_z < z - 1) dsscomp->ovls[1 + fb_z++].cfg.zorder--]. *)
Definition lower_overlays (fb_z z : Z) (dc : dsscomp_setup_dispc_data)
    : option dsscomp_setup_dispc_data :=
  for_range (Z.to_nat (1 + fb_z)) (Z.to_nat (z - 1 - fb_z))
    (fun i dc => upd_ovl i (upd_cfg (fun c => set_zorder (zorder c - 1) c)) dc) dc.

(** The layer in the framebuffer. *)
Definition add_fb_layer (f : frame) : option frame :=
  let d := f_dev f in
  if negb (use_sgx d) then Some f
  else if f_fb_z f <? 0 then
    Some (mkFrame d (f_z f + 1) (f_z f) (f_docking f) (f_scaled_gfx f) (f_mem f))
  else
    let* dc := lower_overlays (f_fb_z f) (f_z f) (dsscomp_data d) in
    Some (mkFrame (set_dsscomp dc d) (f_z f) (Z.max (f_fb_z f) (f_z f - 1)) (f_docking f)
            (f_scaled_gfx f) (f_mem f)).

Fixpoint prepare_layers (ls : list hwc_layer_1_t) (f : frame) : option (list hwc_layer_1_t * frame) :=
  match ls with
  | [] => Some ([], f)
  | layer :: ls =>
      let* yes := takes_overlay layer f in
      let* f' := (if yes : bool then add_overlay layer f else add_fb_layer f) in
      let* (ls, f'') := prepare_layers ls f' in
      Some ((if yes then overlay_layer (use_sgx (f_dev f)) layer else layer) :: ls, f'')
  end.

Definition set_layers (ls : list hwc_layer_1_t) (l : hwc_display_contents_1_t) : hwc_display_contents_1_t :=
  mkContents (contents_flags l) ls (dpy_and_sur l).
Definition layers_of (l : option hwc_display_contents_1_t) : list hwc_layer_1_t :=
  match l with Some l => hwLayers l | None => [] end.

(** A cleared composition and the statistics of the layers. *)
Definition start_frame (l : option hwc_display_contents_1_t) (d : omap_hwc_device_t)
    : option (option hwc_display_contents_1_t * omap_hwc_device_t) :=
  let d := set_sync_id (sync_id d + 1) (set_dsscomp (zero_dsscomp (sync_id d)) d) in
  let* (ls, n) := gather_layer_statistics hmem C (layers_of l) in
  Some (option_map (set_layers ls) l, set_counts n d).

(** All the layers on overlays, or SGX for the others. *)
Definition decide_composition (d : omap_hwc_device_t) : omap_hwc_device_t :=
  let d := decide_supported_cloning d in
  blit_reset
    (if can_dss_render_all d then set_sgx false (negb (n_BGR (counts d) =? 0)) d
     else set_sgx true (is_BGR_format (fb_format C)) d).

(** The framebuffer on overlay 0. *)
Definition place_fb (f : frame) : option frame :=
  let d := f_dev f in
  let '(fb_z, z) := if f_fb_z f <? 0 then (f_z f, f_z f + 1) else (f_fb_z f, f_z f) in
  (* [!blt_policy != BLTPOLICY_DISABLED] *)
  let d := if (f_fb_z f <? 0) && negb (b2z (blt_policy C =? 0) =? BLTPOLICY_DISABLED) &&
              negb (composited_layers (counts d) =? 0)
           then emit_event (E_log L_no_fb_z) d else d in
  let* bufs := (if use_sgx d then put_buffers [0] 0 (buffers d) else Some (buffers d)) in
  let* dc :=
    upd_ovl 0 (fun o =>
      mkOvl (set_ix (primary_transform C)
               (set_pre_mult_alpha true
                  (setup_layer_base (cfg o) fb_z (fb_format C) true (fb_width C) (fb_height C))))
        OMAP_DSS_BUFADDR_LAYER_IX 0) (dsscomp_data d) in
  Some (mkFrame (set_dsscomp dc (set_buffers bufs d)) z fb_z (f_docking f) (f_scaled_gfx f) (f_mem f)).

(** The layers on overlays and, when something is rendered or blitted, the
    framebuffer among them. *)
Definition setup_overlays (l : option hwc_display_contents_1_t) (d : omap_hwc_device_t)
    : option (option hwc_display_contents_1_t * frame) :=
  let needs_fb := use_sgx d in
  let* (blit_all, l, d) :=
    (if blt_policy C =? BLTPOLICY_ALL then blit_layers l 0 d else Some (false, l, d)) in
  let '(needs_fb, d) := if blit_all : bool then (true, set_sgx false false d) else (needs_fb, d) in
  let d := set_dsscomp (set_num_ovls (if needs_fb then 1%nat else 0%nat) (dsscomp_data d)) d in
  let f := mkFrame d 0 (-1) None false 0 in
  let* (ls, f) := (if blit_all then Some (layers_of l, f) else prepare_layers (layers_of l) f) in
  let l := option_map (set_layers ls) l in
  (* if scaling GFX (e.g. only 1 scaled surface) use a VID pipe *)
  let d := f_dev f in
  let dc := dsscomp_data d in
  let* dc := (if f_scaled_gfx f then upd_ovl 0 (upd_cfg (set_ix (Z.of_nat (num_ovls dc)))) dc
              else Some dc) in
  let d := set_dsscomp dc d in
  let* (l, d) :=
    (if blt_policy C =? BLTPOLICY_DEFAULT then
       if use_sgx d then
         let* (ok, l, d) := blit_layers l (if (num_ovls dc =? 1)%nat then 0%nat else num_ovls dc) d in
         Some (l, if ok : bool then set_use_sgx false d else d)
       else Some (l, set_grgz (rgz_release (grgz d)) d)
     else Some (l, d)) in
  let f := mkFrame d (f_z f) (f_fb_z f) (f_docking f) (f_scaled_gfx f) (f_mem f) in
  let* f := (if needs_fb then place_fb f else Some f) in
  Some (l, f).

(** Cloning overlays until one fails; the number of those cloned is added to [z]. *)
Fixpoint clone_layers (n ix : nat) (z : Z) (d : omap_hwc_device_t) : option (Z * omap_hwc_device_t) :=
  match n with
  | O => Some (z, d)
  | S n =>
      let* (rv, d) := clone_layer ix d in
      if negb (rv =? 0) then Some (z, d) else clone_layers n (S ix) (z + 1) d
  end.

(** The overlays of the external display. *)
Definition mirror_layers (f : frame) : option (Z * omap_hwc_device_t) :=
  let d := set_post2_layers (num_ovls (dsscomp_data (f_dev f))) (f_dev f) in
  let e := ext d in
  let z := f_z f in
  if t_enabled (e_current e) &&
     (((n_protected (counts d) =? 0) && negb (ext_ovls d =? 0)) ||
      (negb (ext_ovls_wanted d =? 0) && (ext_ovls_wanted d <=? ext_ovls d))) then
    if t_docking (e_current e) then
      match f_docking f with
      | Some ix =>
          let* (rv, d) := clone_external_layer ix d in
          if rv =? 0 then
            let dc := dsscomp_data d in
            let* dc := upd_ovl (num_ovls dc - 1) (upd_cfg (set_zorder z)) dc in
            Some (z + 1, set_dsscomp dc d)
          else Some (z, d)
      | None =>
          if force_dock e then
            let ix := num_ovls (dsscomp_data d) in
            let* dc := upd_ovl ix (upd_cfg (fun c =>
                         set_stride (dock_rowbytes C)
                           (setup_layer_base c 0 HAL_PIXEL_FORMAT_BGRA_8888 true (dock_width C) (dock_height C))))
                         (dsscomp_data d) in
            let* (rv, d) := clone_external_layer ix (set_dsscomp dc d) in
            if rv =? 0 then
              let* dc := upd_ovl ix (fun o => mkOvl (cfg o) OMAP_DSS_BUFADDR_FB 0) (dsscomp_data d) in
              Some (z + 1, set_dsscomp dc d)
            else Some (z, d)
          else Some (z, d)
      end
    else
      (* reset mode if we are coming from docking *)
      let* (rv, d) := (if t_docking (e_last e) then setup_mirroring d else Some (0, d)) in
      if negb (rv =? 0) then Some (z, d) else clone_layers (post2_layers d) 0 z d
  else Some (z, d).

(** Apply transform for primary display *)
Definition adjust_primary (d : omap_hwc_device_t) : option omap_hwc_device_t :=
  if primary_transform C =? 0 then Some d
  else
    let* dc :=
      for_range 0 (num_ovls (dsscomp_data d))
        (fun i dc =>
           let* o := ovls dc !! i in
           if mgr_ix (cfg o) =? 0 then
             let* o := adjust_primary_display_layer C o in upd_ovl i (fun _ => o) dc
           else Some dc) (dsscomp_data d) in
    Some (set_dsscomp dc d).

(** The errors of the check that z-orders and overlay indices are distinct: the
    bits of the values seen. *)
Fixpoint check_distinct (os : list dss2_ovl_info) (zs ixs : Z) : list hwc_msg :=
  match os with
  | [] => []
  | o :: os =>
      let c := cfg o in
      (if negb (Z.land zs (Z.shiftl 1 (zorder c)) =? 0) then [L_z_twice (zorder c)] else []) ++
      (if negb (Z.land ixs (Z.shiftl 1 (c_ix c)) =? 0) then [L_ix_twice (c_ix c)] else []) ++
      check_distinct os (Z.lor zs (Z.shiftl 1 (zorder c))) (Z.lor ixs (Z.shiftl 1 (c_ix c)))
  end.

Definition check_overlays (z : Z) (dc : dsscomp_setup_dispc_data) : list hwc_msg :=
  let n := Z.of_nat (num_ovls dc) in
  (if negb (z =? n) || (n >? MAX_HW_OVERLAYS) then [L_z_count z n] else []) ++
  check_distinct (take (num_ovls dc) (ovls dc)) 0 0.

Definition finish_frame (d : omap_hwc_device_t) : omap_hwc_device_t :=
  let mgr ix := mkMgr ix true (swap_rb d) in
  let dc := dsscomp_data d in
  let both := t_enabled (e_current (ext d)) || negb (last_ext_ovls d =? 0) in
  let d := set_dsscomp (set_mode_mgrs DSSCOMP_SETUP_DISPLAY (if both then [mgr 0; mgr 1] else [mgr 0]) dc) d in
  let d := if both then set_ext_ovls (Z.of_nat (num_ovls dc) - Z.of_nat (post2_layers d)) d else d in
  (* Whilst the mode of the display is being changed drop compositions to the display *)
  if (last_mode (ext d) =? 0) && on_tv C then set_dsscomp (set_num_ovls 0 (dsscomp_data d)) d else d.

Definition hwc_prepare (l : option hwc_display_contents_1_t) (d : omap_hwc_device_t)
    : option (option hwc_display_contents_1_t * omap_hwc_device_t) :=
  let* (l, d) := start_frame l d in
  let d := decide_composition d in
  let* (l, f) := setup_overlays l d in
  let* (z, d) := mirror_layers f in
  let* d := adjust_primary d in
  let d := set_ext (set_last (e_current (ext d)) (ext d)) d in
  let d := fold_left (fun d m => emit_event (E_log m) d) (check_overlays z (dsscomp_data d)) d in
  Some (l, finish_frame d).

(** * [hwc_set] *)

(** The buffers without the null one of the framebuffer, when blits follow the
    overlays, and the overlays' indices of buffers. *)
Fixpoint shift_buffers (n i : nat) (bufs : list Z) : option (list Z) :=
  match n with
  | O => Some bufs
  | S n => let* b := bufs !! S i in guard* (i <? length bufs)%nat in shift_buffers n (S i) (<[i := b]> bufs)
  end.

Definition pack_buffers (d : omap_hwc_device_t) : option (nat * omap_hwc_device_t) :=
  let n := post2_layers d in
  if (post2_blit_buffers d =? 0)%nat then Some (n, d)
  else
    let nbufs := (n + post2_blit_buffers d - 1)%nat in
    if (1 <? n)%nat then
      let* bufs := shift_buffers nbufs 0 (buffers d) in
      let* dc :=
        for_range 1 (n - 1) (fun j => upd_ovl j (fun o => mkOvl (cfg o) (addressing o) (Z.of_nat j)))
          (dsscomp_data d) in
      Some (nbufs, set_dsscomp dc (set_buffers bufs d))
    else Some (nbufs, d).

(** The post of a composition; the result is an error number. *)
Definition post (l : option hwc_display_contents_1_t) (d : omap_hwc_device_t)
    : option (Z * omap_hwc_device_t) :=
  if negb (match l with Some l => dpy_and_sur l | None => false end) then Some (0, d)
  else
    let d := emit_event E_pipe d in
    let d := if force_sgx d >? 0 then set_force_sgx (force_sgx d - 1) d else d in
    let d := set_blit (post2_blit_buffers d) (blit_flags d) (blit_num d) (blit_num d) (rgz_blts d) d in
    let* (nbufs, d) := pack_buffers d in
    Some (post_result E,
          emit_event (E_post (take nbufs (buffers d)) (dsscomp_data d) (rgz_items d)) d).

Definition hwc_set (l : option hwc_display_contents_1_t) (d : omap_hwc_device_t)
    : option (Z * omap_hwc_device_t) :=
  let d := if first_set d then set_first_set false (emit_event E_reset_screen d) else d in
  let invalidate :=
    negb (ext_ovls_wanted d =? 0) && (ext_ovls d <? ext_ovls_wanted d) &&
    (negb (n_protected (counts d) =? 0) || (ext_ovls d =? 0)) in
  let shown := match l with Some l => dpy_and_sur l | None => false end in
  let d := if shown && use_sgx d then emit_event E_swap d else d in
  let* (err, d) :=
    (if shown && use_sgx d && negb (swap_ok E) then Some (HWC_EGL_ERROR, d)
     else
       let* (err, d) := post l d in
       Some (err, set_last_ovls (ext_ovls d) (Z.of_nat (post2_layers d)) d)) in
  if invalidate then guard* procs C in Some (err, emit_event E_invalidate d)
  else Some (err, d).

End Composer.
