(* ===== verification/HwcOverlays.v ===== *)
(** The loop of [hwc_prepare] over the layers (HwcPrepare.v): which overlay each
    layer gets, its z-order and its pipe, for any sequence of decisions; and the
    overlays after the framebuffer is put among them. *)

From Stdlib Require Import ZArith Lia Floats.SpecFloat.
From stdpp Require Import base list list_numbers option tactics.
From S2P Require Import Prelude RgzGeometry RgzState RgzBlit HwcModel HwcLayers HwcGeometry HwcPrepare.

(** * Decisions *)

(** A layer with whether it is on an overlay. *)
Abbreviation decision := (hwc_layer_1_t * bool)%type.
Definition chosen (ds : list decision) : list hwc_layer_1_t := (filter (fun d => d.2 = true) ds).*1.

(** The number of overlays so far, and the number below the framebuffer once a
    layer is in it. *)
Definition fb_step (s : nat * option nat) (d : decision) : nat * option nat :=
  if d.2 then (S s.1, s.2) else (s.1, Some s.1).
Definition levels (ds : list decision) : nat * option nat := fold_left fb_step ds (0%nat, None).

Lemma levels_snoc ds d : levels (ds ++ [d]) = fb_step (levels ds) d.
Proof. unfold levels. by rewrite fold_left_app. Qed.

Lemma chosen_snoc ds d : chosen (ds ++ [d]) = chosen ds ++ (if d.2 then [d.1] else []).
Proof.
  unfold chosen. rewrite list.filter_app, fmap_app. f_equal. destruct d as [l []]; simpl; done.
Qed.

Lemma levels_length ds : (levels ds).1 = length (chosen ds).
Proof.
  induction ds as [|d ds IH] using rev_ind; [done|].
  rewrite levels_snoc, chosen_snoc, length_app. unfold fb_step.
  destruct (d.2); simpl; lia.
Qed.

Lemma levels_below ds b : (levels ds).2 = Some b -> (b <= length (chosen ds))%nat.
Proof.
  revert b. induction ds as [|d ds IH] using rev_ind; intros b; [done|].
  rewrite levels_snoc, chosen_snoc, length_app. unfold fb_step.
  destruct (d.2); simpl; intros Hb; [specialize (IH _ Hb); lia|].
  injection Hb as <-. rewrite levels_length. lia.
Qed.

(** The z-order of the overlay [k], with [fb] overlays below the framebuffer. *)
Definition z_of (fb : option nat) (k : nat) : Z :=
  match fb with Some b => if (b <=? k)%nat then Z.of_nat k + 1 else Z.of_nat k | None => Z.of_nat k end.

(** * Updates of the array of overlays *)

Lemma set_ovls_ovls dc : set_ovls (ovls dc) dc = dc.
Proof. by destruct dc. Qed.

Section Updates.
Context `{DssApi}.

Lemma upd_ovl_Some i g dc o :
  ovls dc !! i = Some o -> upd_ovl i g dc = Some (set_ovls (<[i := g o]> (ovls dc)) dc).
Proof. intros Ho. unfold upd_ovl. by rewrite Ho. Qed.

Lemma upd_range lo n g dc :
  (lo + n <= length (ovls dc))%nat ->
  exists os, for_range lo n (fun i => upd_ovl i g) dc = Some (set_ovls os dc) /\
    length os = length (ovls dc) /\
    forall i, os !! i = if decide (lo <= i < lo + n)%nat then g <$> ovls dc !! i else ovls dc !! i.
Proof.
  unfold for_range. revert lo dc. induction n as [|n IH]; intros lo dc Hl; simpl.
  { exists (ovls dc). split; [by rewrite set_ovls_ovls|]. split; [done|]. intros i. by rewrite decide_False by lia. }
  destruct (lookup_lt_is_Some_2 (ovls dc) lo) as [o Ho]; [lia|].
  rewrite (upd_ovl_Some _ _ _ _ Ho).
  destruct (IH (S lo) (set_ovls (<[lo := g o]> (ovls dc)) dc)) as (os & Hr & Hlen & Hos).
  { simpl. rewrite length_insert. lia. }
  exists os. split; [exact Hr|]. simpl in Hlen, Hos. rewrite length_insert in Hlen. split; [done|].
  intros i. rewrite Hos. destruct (decide (i = lo)) as [->|Hne].
  - rewrite decide_False by lia. rewrite decide_True by lia.
    rewrite list_lookup_insert_eq by lia. by rewrite Ho.
  - rewrite list_lookup_insert_ne by done. repeat case_decide; try lia; done.
Qed.

End Updates.

(** * The loop *)

Section Loop.
Context `{HwcApi} `{DssApi}.
Context (hmem : Z -> option IMG_native_handle_t) (C : hwc_config).

(** The configuration of the overlay of a layer, but for its place: its pipe and
    its z-order are 0. *)
Definition layer_cfg (l : hwc_layer_1_t) (h : IMG_native_handle_t) : dss2_ovl_cfg :=
  setup_layer zero_cfg l 0 (iFormat h) (iWidth h) (iHeight h).
Definition bare (c : dss2_ovl_cfg) : dss2_ovl_cfg := set_ix 0 (set_zorder 0 c).

Lemma valid_format_color f b : is_valid_format f = true -> is_Some (color_of f b).
Proof.
  unfold is_valid_format, color_of. intros Hf. repeat case_match; try done.
  rewrite !orb_false_iff in *. rewrite !orb_true_iff in Hf. destruct_and?. destruct_or!; congruence.
Qed.

Lemma setup_layer_z l z f w h :
  is_valid_format f = true -> setup_layer zero_cfg l z f w h = set_zorder z (setup_layer zero_cfg l 0 f w h).
Proof.
  intros Hf. destruct (valid_format_color f (is_BLENDED l) Hf) as [[col cv] Hc].
  unfold setup_layer, setup_layer_base. rewrite Hc. simpl. by destruct (setup_transform _ _ _).
Qed.

Lemma setup_layer_fields l f w h :
  let c := setup_layer zero_cfg l 0 f w h in
  is_valid_format f = true -> mgr_ix c = 0 /\ enabled c = true.
Proof.
  intros c Hf. subst c. destruct (valid_format_color f (is_BLENDED l) Hf) as [[col cv] Hc].
  unfold setup_layer, setup_layer_base. rewrite Hc. simpl. by destruct (setup_transform _ _ _).
Qed.

Definition unscaled (l : hwc_layer_1_t) (h : IMG_native_handle_t) : bool := negb (scaled l || is_NV12 h).

(** Pipe 0 and the pipe [j] exchanged. *)
Definition exchanged (j k : nat) : nat := if (k =? 0)%nat then j else if (k =? j)%nat then 0%nat else k.

Variable d0 : omap_hwc_device_t.
Definition first_ovl : nat := if use_sgx d0 then 1 else 0.
Definition fb_level (ds : list decision) : option nat := if use_sgx d0 then (levels ds).2 else None.

(** The overlay [k] of those of layers shows the layer [l]. *)
Definition holds_layer (bufs : list Z) (os : list dss2_ovl_info) (fb : option nat) (k : nat)
    (l : hwc_layer_1_t) : Prop :=
  exists h o, hmem (handle l) = Some h /\ is_valid_format (iFormat h) = true /\
    os !! (first_ovl + k)%nat = Some o /\ bufs !! (first_ovl + k)%nat = Some (handle l) /\
    addressing o = OMAP_DSS_BUFADDR_LAYER_IX /\ ba o = Z.of_nat (first_ovl + k) /\
    zorder (cfg o) = z_of fb k /\ bare (cfg o) = layer_cfg l h.

(** The pipes of the overlays of [n] layers, [j] being the layer that took the
    GFX pipe from the first one. *)
Definition pipes_ok (os : list dss2_ovl_info) (n j : nat) : Prop :=
  forall k o, (k < n)%nat -> os !! (first_ovl + k)%nat = Some o ->
    c_ix (cfg o) = primary_transform C + Z.of_nat (first_ovl + exchanged j k).

Record loop (ds : list decision) (f : frame) : Prop := {
  lp_dev : f_dev f = set_dsscomp (dsscomp_data (f_dev f)) (set_buffers (buffers (f_dev f)) d0);
  lp_num : num_ovls (dsscomp_data (f_dev f)) = (first_ovl + length (chosen ds))%nat;
  lp_fb : f_fb_z f = match fb_level ds with Some b => Z.of_nat b | None => -1 end;
  lp_z : f_z f = Z.of_nat (length (chosen ds)) + (if fb_level ds then 1 else 0);
  lp_ovls : length (ovls (dsscomp_data (f_dev f))) = DSS_OVLS;
  lp_bufs : length (buffers (f_dev f)) = length (buffers d0);
  lp_layers : forall k l, chosen ds !! k = Some l ->
    holds_layer (buffers (f_dev f)) (ovls (dsscomp_data (f_dev f))) (fb_level ds) k l;
  lp_free : forall i, (i < first_ovl)%nat \/ (first_ovl + length (chosen ds) <= i < DSS_OVLS)%nat ->
    ovls (dsscomp_data (f_dev f)) !! i = Some zero_ovl;
  lp_pipes : exists j, pipes_ok (ovls (dsscomp_data (f_dev f))) (length (chosen ds)) j /\
    (j <> 0%nat -> first_ovl = 0%nat /\ primary_transform C = 0 /\ (j < length (chosen ds))%nat /\
                   f_scaled_gfx f = false);
  lp_gfx : f_scaled_gfx f = true -> first_ovl = 0%nat /\ primary_transform C = 0 /\ chosen ds <> [] /\
    Forall (fun l => exists h, hmem (handle l) = Some h /\ unscaled l h = false) (chosen ds);
  lp_docking : forall i, f_docking f = Some i -> (first_ovl <= i < first_ovl + length (chosen ds))%nat;
  lp_mgrs : num_mgrs (dsscomp_data (f_dev f)) = 0%nat;
}.

(** At most one framebuffer level, below as many overlays as there are. *)
Lemma fb_level_below ds b : fb_level ds = Some b -> (b <= length (chosen ds))%nat.
Proof. unfold fb_level. destruct (use_sgx d0); [apply levels_below|done]. Qed.

Lemma fb_level_overlay ds l : fb_level (ds ++ [(l, true)]) = fb_level ds.
Proof. unfold fb_level. by rewrite levels_snoc. Qed.

Lemma fb_level_fb ds l : fb_level (ds ++ [(l, false)]) = if use_sgx d0 then Some (length (chosen ds)) else None.
Proof. unfold fb_level. rewrite levels_snoc. simpl. by rewrite levels_length. Qed.

Lemma z_of_new ds :
  Z.of_nat (length (chosen ds)) + (if fb_level ds then 1 else 0) = z_of (fb_level ds) (length (chosen ds)).
Proof.
  unfold z_of. destruct (fb_level ds) as [b|] eqn:Eb; [|lia].
  apply fb_level_below in Eb. by rewrite (proj2 (Nat.leb_le _ _) Eb).
Qed.

(** Changing the pipe of an overlay, or another overlay or buffer, is not seen. *)
Lemma holds_layer_pipe bufs bufs' os os' fb k l :
  holds_layer bufs os fb k l ->
  bufs' !! (first_ovl + k)%nat = bufs !! (first_ovl + k)%nat ->
  (os' !! (first_ovl + k)%nat = os !! (first_ovl + k)%nat \/
   exists x, os' !! (first_ovl + k)%nat = upd_cfg (set_ix x) <$> os !! (first_ovl + k)%nat) ->
  holds_layer bufs' os' fb k l.
Proof.
  intros (h & o & Hh & Hv & Ho & Hb & Ha & Hba & Hz & Hc) Hb' [Ho'|[x Ho']].
  - exists h, o. rewrite Hb', Ho'. done.
  - exists h, (upd_cfg (set_ix x) o). rewrite Hb', Ho', Ho. done.
Qed.

Lemma assign_gfx_spec u gfx dc :
  let n := num_ovls dc in
  let sw := gfx && u in
  (n < length (ovls dc))%nat -> (gfx = true -> n <> 0%nat) ->
  exists os', assign_gfx C u gfx dc =
      Some (if (n =? 0)%nat && (primary_transform C =? 0) then negb u else gfx && negb u, set_ovls os' dc) /\
    length os' = length (ovls dc) /\
    forall i, os' !! i = if sw && (i =? 0)%nat then upd_cfg (set_ix (Z.of_nat n)) <$> ovls dc !! i
                         else if sw && (i =? n)%nat then upd_cfg (set_ix 0) <$> ovls dc !! i
                         else ovls dc !! i.
Proof.
  intros n sw Hn Hg. unfold assign_gfx. fold n.
  destruct (lookup_lt_is_Some_2 (ovls dc) n Hn) as [o Ho].
  destruct (lookup_lt_is_Some_2 (ovls dc) 0 ltac:(lia)) as [o0 Ho0].
  destruct gfx; simpl in sw.
  - assert (Hn0 : n <> 0%nat) by auto.
    rewrite (proj2 (Nat.eqb_neq _ _) Hn0). simpl. destruct u; simpl; subst sw.
    2:{ exists (ovls dc). by rewrite set_ovls_ovls. }
    rewrite (upd_ovl_Some _ _ _ _ Ho).
    rewrite (upd_ovl_Some 0 _ _ o0) by (simpl; by rewrite list_lookup_insert_ne).
    eexists. split; [simpl; reflexivity|]. simpl. split; [by rewrite !length_insert|].
    intros i. destruct (i =? 0)%nat eqn:E0; simpl.
    + apply Nat.eqb_eq in E0 as ->. rewrite list_lookup_insert_eq by (rewrite length_insert; lia).
      by rewrite Ho0.
    + apply Nat.eqb_neq in E0. rewrite list_lookup_insert_ne by done.
      destruct (i =? n)%nat eqn:En.
      * apply Nat.eqb_eq in En as ->. rewrite list_lookup_insert_eq by done. by rewrite Ho.
      * apply Nat.eqb_neq in En. by rewrite list_lookup_insert_ne.
  - exists (ovls dc). split; [|done]. subst sw. simpl. rewrite set_ovls_ovls. by case_match.
Qed.

Lemma pick_docking_spec dock dc docking :
  (num_ovls dc < length (ovls dc))%nat -> (forall i, docking = Some i -> (i < length (ovls dc))%nat) ->
  exists r, pick_docking dock dc docking = Some r /\ (r = docking \/ r = Some (num_ovls dc)).
Proof.
  intros Hn Hi. unfold pick_docking. destruct dock; simpl; [|eauto].
  destruct docking as [i|]; [|eauto].
  destruct (lookup_lt_is_Some_2 _ _ Hn) as [o ->].
  destruct (lookup_lt_is_Some_2 _ _ (Hi i eq_refl)) as [o' ->].
  eexists. split; [reflexivity|]. case_match; eauto.
Qed.

Lemma chosen_overlay ds l : chosen (ds ++ [(l, true)]) = chosen ds ++ [l].
Proof. by rewrite chosen_snoc. Qed.
Lemma chosen_fb ds l : chosen (ds ++ [(l, false)]) = chosen ds.
Proof. rewrite chosen_snoc. by rewrite List.app_nil_r. Qed.

Lemma add_overlay_step ds f l h :
  loop ds f -> hmem (handle l) = Some h -> is_valid_format (iFormat h) = true ->
  (first_ovl + length (chosen ds) < DSS_OVLS)%nat ->
  (first_ovl + length (chosen ds) < length (buffers d0))%nat ->
  exists f', add_overlay hmem C l f = Some f' /\ loop (ds ++ [(l, true)]) f' /\
    f_mem f' = u32 (f_mem f + mem1d h) /\ f_scaled_gfx f' =
      if (num_ovls (dsscomp_data (f_dev f)) =? 0)%nat && (primary_transform C =? 0)
      then negb (unscaled l h) else f_scaled_gfx f && negb (unscaled l h).
Proof.
  intros L Hh Hv Hn Hb. destruct L as [Ldev Lnum Lfb Lz Lovls Lbufs Llayers Lfree Lpipes Lgfx Ldock Lm].
  unfold add_overlay. rewrite Hh. set (dc := dsscomp_data (f_dev f)) in *.
  set (n := num_ovls dc) in *. set (m := length (chosen ds)) in *.
  simpl put_buffers. rewrite (proj2 (Nat.ltb_lt n _)) by lia.
  assert (Hz : ovls dc !! n = Some zero_ovl) by (apply Lfree; lia).
  rewrite (upd_ovl_Some _ _ _ _ Hz). set (new := mkOvl _ _ _). set (dc1 := set_ovls _ dc).
  destruct (assign_gfx_spec (unscaled l h) (f_scaled_gfx f) dc1) as (os & Ha & Hlen & Hos).
  { simpl. rewrite length_insert. unfold n in *. lia. }
  { intros Hg. destruct (Lgfx Hg) as (_ & _ & Hne & _). simpl. fold n. rewrite Lnum.
    destruct (chosen ds); [done|]. unfold m. simpl. lia. }
  change (num_ovls dc1) with n in Ha, Hos. simpl ovls in Hlen, Hos. rewrite length_insert, Lovls in Hlen.
  unfold unscaled in Ha at 1. rewrite Ha. clear Ha.
  destruct (pick_docking_spec (dockable h) (set_ovls os dc1) (f_docking f)) as (r & Hr & Hrd).
  { simpl. fold n. lia. }
  { intros i Hi. simpl. apply Ldock in Hi. fold m in Hi. lia. }
  rewrite Hr. eexists. split; [reflexivity|]. cbn [f_mem f_scaled_gfx].
  split; [|done].
  assert (Hnew : bare (cfg new) = layer_cfg l h).
  { unfold new, bare. simpl. rewrite setup_layer_z by done. unfold layer_cfg.
    destruct (valid_format_color (iFormat h) (is_BLENDED l) Hv) as [[col cv] Hc].
    unfold setup_layer, setup_layer_base. rewrite Hc. simpl. by destruct (setup_transform _ _ _). }
  assert (Hnz : zorder (cfg new) = z_of (fb_level ds) m).
  { unfold new. simpl. rewrite setup_layer_z by done. simpl. rewrite Lz. apply z_of_new. }
  assert (Hlook : forall i, i <> n -> <[n:=new]> (ovls dc) !! i = ovls dc !! i)
    by (intros i Hi; by rewrite list_lookup_insert_ne).
  assert (Hlookn : <[n:=new]> (ovls dc) !! n = Some new) by (apply list_lookup_insert_eq; lia).
  assert (Hsw : forall i, (f_scaled_gfx f && unscaled l h) && (i =? 0)%nat = true -> i <> n).
  { intros i Hi. rewrite !andb_true_iff in Hi. destruct Hi as [[Hg _] Hi]. apply Nat.eqb_eq in Hi as ->.
    destruct (Lgfx Hg) as (_ & _ & Hne & _). rewrite Lnum. destruct (chosen ds); [done|]. unfold m. simpl. lia. }
  split; cbn [f_dev f_z f_fb_z f_docking f_scaled_gfx dsscomp_data buffers set_dsscomp set_buffers
              set_num_ovls ovls num_ovls set_ovls];
    rewrite ?chosen_overlay, ?fb_level_overlay, ?length_app; simpl length; fold m.
  - rewrite Ldev. reflexivity.
  - lia.
  - done.
  - rewrite Lz. destruct (fb_level ds); lia.
  - done.
  - rewrite length_insert. done.
  - intros k l' Hk. apply lookup_app_Some in Hk as [Hk|[Hk Hk']].
    + pose proof (lookup_lt_Some _ _ _ Hk) as Hlt. fold m in Hlt.
      apply (holds_layer_pipe (buffers (f_dev f)) _ (ovls dc)); [by apply Llayers| |].
      * apply list_lookup_insert_ne. lia.
      * rewrite Hos. rewrite Hlook by lia. repeat case_match; eauto.
    + apply list_lookup_singleton_Some in Hk' as [Hk' <-]. assert (k = m) as -> by (unfold m in *; lia).
      apply (holds_layer_pipe (<[n:=handle l]> (buffers (f_dev f))) _ (<[n:=new]> (ovls dc))).
      * exists h, new. rewrite <- Lnum. split_and!; try done.
        apply list_lookup_insert_eq. lia.
      * done.
      * rewrite <- Lnum. rewrite Hos. repeat case_match; eauto.
  - intros i Hi. rewrite Hos.
    assert (Hni : i <> n) by lia.
    assert (Hne : (f_scaled_gfx f && unscaled l h) && (i =? 0)%nat = false).
    { destruct Hi as [Hi|Hi]; [|by apply andb_false_intro2, Nat.eqb_neq; lia].
      apply andb_false_intro1. destruct (f_scaled_gfx f) eqn:Eg; [|done].
      destruct (Lgfx eq_refl) as (Hf0 & _). lia. }
    rewrite Hne, (proj2 (Nat.eqb_neq _ _) Hni), andb_false_r, Hlook by done. apply Lfree. fold m. lia.
  - destruct Lpipes as (j & Hp & Hj).
    destruct (f_scaled_gfx f && unscaled l h) eqn:Esw.
    + apply andb_true_iff in Esw as [Eg Eu]. destruct (Lgfx Eg) as (Hf0 & Hp0 & Hne & _).
      assert (j = 0%nat) as ->.
      { destruct (decide (j = 0%nat)); [done|]. destruct (Hj n0) as (_ & _ & _ & ?). congruence. }
      exists n. split.
      * intros k o Hk. rewrite Hos. rewrite Hf0 in *. simpl "+"%nat in *.
        unfold exchanged. destruct (k =? 0)%nat eqn:E0; simpl.
        -- intros Ho. apply fmap_Some in Ho as (o' & _ & ->). simpl. lia.
        -- apply Nat.eqb_neq in E0. destruct (k =? n)%nat eqn:En.
           ++ intros Ho. apply fmap_Some in Ho as (o' & _ & ->). simpl. lia.
           ++ apply Nat.eqb_neq in En. rewrite Hlook by done. intros Ho.
              pose proof (Hp k o ltac:(lia)) as Hpk. rewrite Hf0 in Hpk. rewrite (Hpk Ho). unfold exchanged.
              by rewrite (proj2 (Nat.eqb_neq _ _) E0).
      * intros _. split_and!; [done|done|lia|]. rewrite Hp0, Eu. simpl.
        destruct (n =? 0)%nat; simpl; by rewrite ?andb_false_r.
    + exists j. split.
      * intros k o Hk. rewrite Hos. cbn [andb].
        destruct (decide (k = m)) as [->|Hkm].
        -- rewrite <- Lnum, Hlookn. intros [= <-]. unfold new. simpl. rewrite Lnum.
           unfold exchanged. destruct (decide (j = 0%nat)) as [->|Hj0].
           ++ destruct (m =? 0)%nat eqn:Em; [apply Nat.eqb_eq in Em; rewrite Em; lia|lia].
           ++ destruct (Hj Hj0) as (_ & _ & Hjm & _). fold m in Hjm.
              rewrite (proj2 (Nat.eqb_neq m 0)) by lia. rewrite (proj2 (Nat.eqb_neq m j)) by lia. lia.
        -- rewrite Hlook by lia. intros Ho. apply Hp; [fold m; lia|done].
      * intros Hj0. destruct (Hj Hj0) as (Hf0 & Hp0 & Hjm & Hg). fold m in Hjm.
        split_and!; [done|done|lia|]. rewrite Hg. simpl.
        assert ((n =? 0)%nat = false) as -> by (apply Nat.eqb_neq; lia). done.
  - intros Hg. destruct ((n =? 0)%nat && (primary_transform C =? 0)) eqn:E.
    + apply andb_true_iff in E as [E1 E2]. apply Nat.eqb_eq in E1. apply Z.eqb_eq in E2.
      assert (chosen ds = []) as Hnil by (destruct (chosen ds); [done|unfold m in *; simpl in *; lia]).
      rewrite Hnil. split_and!; [lia|done|done|]. constructor; [|constructor]. exists h. split; [done|].
      by apply negb_true_iff.
    + apply andb_true_iff in Hg as [Hg Hu]. destruct (Lgfx Hg) as (H1 & H2 & H3 & H4).
      split_and!; [done|done|by destruct (chosen ds)|]. apply Forall_app. split; [done|].
      constructor; [|constructor]. exists h. split; [done|]. by apply negb_true_iff.
  - intros i Hi. destruct Hrd as [->| ->]; [apply Ldock in Hi; fold m in Hi; lia|].
    injection Hi as <-. simpl. fold n. lia.
  - done.
Qed.

Lemma loop_sgx ds f : loop ds f -> use_sgx (f_dev f) = use_sgx d0.
Proof. intros L. by rewrite (lp_dev _ _ L). Qed.

(** The overlays above the framebuffer go down one level. *)
Lemma lower_overlays_spec b n dc :
  (S b + n <= length (ovls dc))%nat ->
  exists os, lower_overlays (Z.of_nat b) (Z.of_nat (b + n) + 1) dc = Some (set_ovls os dc) /\
    length os = length (ovls dc) /\
    forall i, os !! i = if decide (S b <= i < S b + n)%nat
                        then upd_cfg (fun c => set_zorder (zorder c - 1) c) <$> ovls dc !! i
                        else ovls dc !! i.
Proof.
  intros Hl. unfold lower_overlays.
  replace (Z.to_nat (1 + Z.of_nat b)) with (S b) by lia.
  replace (Z.to_nat (Z.of_nat (b + n) + 1 - 1 - Z.of_nat b)) with n by lia.
  by apply upd_range.
Qed.

Lemma add_fb_layer_step ds f l :
  loop ds f -> (first_ovl + length (chosen ds) <= DSS_OVLS)%nat ->
  exists f', add_fb_layer f = Some f' /\ loop (ds ++ [(l, false)]) f' /\
    f_mem f' = f_mem f /\ f_scaled_gfx f' = f_scaled_gfx f.
Proof.
  intros L Hn. pose proof (loop_sgx _ _ L) as Hsgx.
  destruct L as [Ldev Lnum Lfb Lz Lovls Lbufs Llayers Lfree Lpipes Lgfx Ldock Lm].
  unfold add_fb_layer. rewrite Hsgx.
  destruct (use_sgx d0) eqn:Es; simpl negb; cbv iota.
  2:{ exists f. split; [done|]. split; [|done].
      assert (Hfb : fb_level (ds ++ [(l, false)]) = fb_level ds) by (unfold fb_level; by rewrite Es).
      split; rewrite ?chosen_fb, ?Hfb; done. }
  assert (Hf1 : first_ovl = 1%nat) by (unfold first_ovl; by rewrite Es).
  assert (Hfb : fb_level (ds ++ [(l, false)]) = Some (length (chosen ds)))
    by (rewrite fb_level_fb; by rewrite Es).
  set (m := length (chosen ds)) in *. set (dc := dsscomp_data (f_dev f)) in *.
  destruct (fb_level ds) as [b|] eqn:Eb; rewrite Lfb.
  - pose proof (fb_level_below _ _ Eb) as Hbm. fold m in Hbm.
    rewrite (proj2 (Z.ltb_ge _ _)) by lia.
    destruct (lower_overlays_spec b (m - b) dc) as (os & Hlow & Hlen & Hos); [lia|].
    replace (Z.of_nat (b + (m - b)) + 1) with (f_z f) in Hlow by lia. rewrite Hlow.
    eexists. split; [reflexivity|]. split; [|done].
    split; cbn [f_dev f_z f_fb_z f_docking f_scaled_gfx dsscomp_data buffers set_dsscomp set_buffers
              num_ovls ovls set_ovls num_mgrs]; rewrite ?chosen_fb, ?Hfb; fold m; try done.
    + rewrite Ldev. reflexivity.
    + lia.
    + lia.
    + intros k l' Hk. pose proof (lookup_lt_Some _ _ _ Hk) as Hlt. fold m in Hlt.
      destruct (Llayers k l' Hk) as (h & o & Hh & Hv & Ho & Hb & Ha & Hba & Hz & Hc).
      exists h. rewrite Hf1, Hos in *. unfold z_of in *. rewrite (proj2 (Nat.leb_gt _ _)) by lia.
      destruct (decide (S b <= 1 + k < S b + (m - b))%nat) as [Hin|Hout].
      * rewrite Ho. eexists. split_and!; try done. simpl. rewrite Hz, (proj2 (Nat.leb_le _ _)) by lia. lia.
      * exists o. split_and!; try done. by rewrite Hz, (proj2 (Nat.leb_gt _ _)) by lia.
    + intros i Hi. rewrite Hos. rewrite decide_False by lia. by apply Lfree.
    + destruct Lpipes as (j & Hp & Hj). exists j. split; [|done].
      intros k o Hk. rewrite Hos. case_decide; [|by apply Hp].
      intros Ho. apply fmap_Some in Ho as (o' & Ho & ->). simpl. by apply Hp.
  - simpl. eexists. split; [reflexivity|]. split; [|done].
    split; cbn [f_dev f_z f_fb_z f_docking f_scaled_gfx]; rewrite ?chosen_fb, ?Hfb; fold m; try done.
    + lia.
    + lia.
    + intros k l' Hk. pose proof (lookup_lt_Some _ _ _ Hk) as Hlt. fold m in Hlt.
      destruct (Llayers k l' Hk) as (h & o & Hh & Hv & Ho & Hb & Ha & Hba & Hz & Hc).
      exists h, o. split_and!; try done. rewrite Hz. unfold z_of. by rewrite (proj2 (Nat.leb_gt _ _)) by lia.
Qed.

(** The loop ends, with a decision for each layer, and the layers are marked
    accordingly. *)
Definition marked (d : decision) : hwc_layer_1_t := if d.2 then overlay_layer (use_sgx d0) d.1 else d.1.

(** [decided ds ls f ds' f']: from the state [f] with the decisions [ds], the
    layers [ls] get the decisions [ds'] of the code. *)
Inductive decided : list hwc_layer_1_t -> frame -> list decision -> frame -> Prop :=
| decided_nil f : decided [] f [] f
| decided_overlay l ls f f1 ds f' :
    takes_overlay hmem C l f = Some true -> add_overlay hmem C l f = Some f1 ->
    decided ls f1 ds f' -> decided (l :: ls) f ((l, true) :: ds) f'
| decided_fb l ls f f1 ds f' :
    takes_overlay hmem C l f = Some false -> add_fb_layer f = Some f1 ->
    decided ls f1 ds f' -> decided (l :: ls) f ((l, false) :: ds) f'.

Lemma decided_layers ls f ds f' : decided ls f ds f' -> ds.*1 = ls.
Proof. induction 1; [done| |]; csimpl; by f_equal. Qed.

Lemma takes_overlay_valid l f :
  takes_overlay hmem C l f = Some true ->
  exists h, hmem (handle l) = Some h /\ is_valid_format (iFormat h) = true /\
    Z.of_nat (num_ovls (dsscomp_data (f_dev f))) < max_hw_overlays (counts (f_dev f)) /\
    (is_BLENDED l = true -> f_fb_z f < 0).
Proof.
  unfold takes_overlay. destruct (Z.of_nat _ <? _) eqn:E; simpl; [|done].
  destruct (can_dss_render_layer _ _ _ _) as [[]|] eqn:Ec; simpl; try done.
  destruct (hmem (handle l)) as [h|] eqn:Eh; [|done]. intros [= Ht].
  exists h. split; [done|]. apply andb_true_iff in Ht.
  destruct Ht as [_ Hb]. split; [|split; [lia|]].
  - unfold can_dss_render_layer in Ec. match type of Ec with (match ?X with _ => _ end) = _ => destruct X as [cl|]; [|done] end.
    destruct (is_valid_layer _ _ _) as [[]|] eqn:Ev; simpl in Ec; try done.
    unfold is_valid_layer in Ev. destruct (has_flag _ _ || _); [done|]. rewrite Eh in Ev.
    by destruct (is_valid_format (iFormat h)).
  - intros Hbl. rewrite Hbl in Hb. simpl in Hb. apply negb_true_iff in Hb. lia.
Qed.

Hypothesis room : (4 <= DSS_OVLS)%nat /\ (4 <= length (buffers d0))%nat.
Hypothesis max_ovls : max_hw_overlays (counts d0) <= MAX_HW_OVERLAYS.

(** Opaque layers only above the framebuffer. *)
Definition opaque_above (ds : list decision) : Prop :=
  forall ds1 l ds2, ds = ds1 ++ (l, true) :: ds2 -> is_BLENDED l = true -> fb_level ds1 = None.

Lemma opaque_above_snoc ds d :
  opaque_above ds -> (d.2 = true -> is_BLENDED d.1 = true -> fb_level ds = None) -> opaque_above (ds ++ [d]).
Proof.
  intros Ho Hd ds1 l ds2 E Hb. destruct ds2 as [|d2 ds2 _] using rev_ind.
  - apply app_inj_tail in E as [-> ->]. by apply Hd.
  - rewrite app_comm_cons, app_assoc in E. apply app_inj_tail in E as [-> _]. by eapply Ho.
Qed.

(** What holds between two layers. *)
Definition between (ds : list decision) (f : frame) : Prop :=
  loop ds f /\
  Z.of_nat (first_ovl + length (chosen ds)) <= Z.max (Z.of_nat first_ovl) (max_hw_overlays (counts d0)) /\
  opaque_above ds.

Lemma between_room ds f : between ds f -> (first_ovl + length (chosen ds) <= 4)%nat.
Proof.
  intros (_ & Hn & _). unfold first_ovl, MAX_HW_OVERLAYS in *. destruct (use_sgx d0); lia.
Qed.

Lemma loop_counts ds f : loop ds f -> counts (f_dev f) = counts d0.
Proof. intros L. by rewrite (lp_dev _ _ L). Qed.

Lemma overlay_room l ds f :
  between ds f -> takes_overlay hmem C l f = Some true ->
  exists h, hmem (handle l) = Some h /\ is_valid_format (iFormat h) = true /\
    (first_ovl + length (chosen ds) < 4)%nat /\ Z.of_nat (first_ovl + length (chosen ds)) < max_hw_overlays (counts d0) /\
    (is_BLENDED l = true -> fb_level ds = None).
Proof.
  intros (L & _ & _) Ht. apply takes_overlay_valid in Ht as (h & Hh & Hv & Hn & Hb).
  rewrite (loop_counts _ _ L), (lp_num _ _ L) in Hn. rewrite (lp_fb _ _ L) in Hb.
  exists h. split_and!; [done|done|unfold MAX_HW_OVERLAYS in *; lia|done|].
  intros Hbl. specialize (Hb Hbl). destruct (fb_level ds); [lia|done].
Qed.

Lemma between_overlay l ds f :
  between ds f -> takes_overlay hmem C l f = Some true ->
  exists h f', hmem (handle l) = Some h /\ add_overlay hmem C l f = Some f' /\ between (ds ++ [(l, true)]) f' /\
    f_mem f' = u32 (f_mem f + mem1d h).
Proof.
  intros B Ht. destruct (overlay_room _ _ _ B Ht) as (h & Hh & Hv & Hn & Hmx & Hb).
  destruct B as (L & Hl & Ho).
  destruct (add_overlay_step ds f l h L Hh Hv) as (f' & Hf & L' & Hm & _); [lia|lia|].
  exists h, f'. split_and!; [done|done| |done]. split; [done|].
  rewrite chosen_overlay, length_app. simpl. split; [lia|]. apply opaque_above_snoc; [done|]. by intros _.
Qed.

Lemma between_fb l ds f :
  between ds f -> exists f', add_fb_layer f = Some f' /\ between (ds ++ [(l, false)]) f' /\ f_mem f' = f_mem f.
Proof.
  intros B. pose proof (between_room _ _ B). destruct B as (L & Hl & Ho).
  destruct (add_fb_layer_step ds f l L) as (f' & Hf & L' & Hm & _); [lia|].
  exists f'. split_and!; [done| |done]. split; [done|]. rewrite chosen_fb. split; [done|].
  by apply opaque_above_snoc.
Qed.

Lemma marked_step (yes : bool) l ds f : loop ds f ->
  (if yes then overlay_layer (use_sgx (f_dev f)) l else l) = marked (l, yes).
Proof. intros L. by rewrite (loop_sgx _ _ L). Qed.

(** A run of the loop decides for each layer. *)
Lemma prepare_layers_run ls ds f ls' f' :
  between ds f -> prepare_layers hmem C ls f = Some (ls', f') ->
  exists ds', ls' = map marked ds' /\ decided ls f ds' f' /\ between (ds ++ ds') f'.
Proof.
  revert ds f ls' f'. induction ls as [|l ls IH]; intros ds f ls' f' B Hr; simpl in Hr.
  { simplify_eq. exists []. rewrite List.app_nil_r. split_and!; [done|constructor|done]. }
  destruct (takes_overlay hmem C l f) as [yes|] eqn:Et; [|done].
  assert (Hs : exists f1, (if yes then add_overlay hmem C l f else add_fb_layer f) = Some f1 /\
                 between (ds ++ [(l, yes)]) f1).
  { destruct yes.
    - destruct (between_overlay _ _ _ B Et) as (h & f1 & _ & Hf & Hb & _). by exists f1.
    - destruct (between_fb l _ _ B) as (f1 & Hf & Hb & _). by exists f1. }
  destruct Hs as (f1 & Hf1 & B1). rewrite Hf1 in Hr.
  destruct (prepare_layers hmem C ls f1) as [[ls1 f2]|] eqn:Er; [|done]. injection Hr as <- <-.
  destruct (IH _ _ _ _ B1 Er) as (ds' & -> & Hd & B2). exists ((l, yes) :: ds').
  rewrite <- app_assoc in B2. split_and!; [|by destruct yes; econstructor|done].
  simpl. by rewrite (marked_step yes l ds f (proj1 B)).
Qed.

(** It ends when the decisions can be made. *)
Lemma prepare_layers_total ls ds f :
  between ds f -> Forall (fun l => forall f, is_Some (takes_overlay hmem C l f)) ls ->
  is_Some (prepare_layers hmem C ls f).
Proof.
  intros B Hls. revert ds f B. induction Hls as [|l ls Hl _ IH]; intros ds f B; simpl; [done|].
  destruct (Hl f) as [yes Et]. rewrite Et. destruct yes.
  - destruct (between_overlay _ _ _ B Et) as (h & f1 & _ & -> & B1 & _).
    destruct (IH _ _ B1) as [[ls1 f2] ->]. done.
  - destruct (between_fb l _ _ B) as (f1 & -> & B1 & _). destruct (IH _ _ B1) as [[ls1 f2] ->]. done.
Qed.

(** * The overlays of the primary display *)

(** The overlays below the framebuffer once it has its place. *)
Definition fb_below (ds : list decision) : nat := default (length (chosen ds)) (fb_level ds).
Definition fb_place (ds : list decision) : option nat := if use_sgx d0 then Some (fb_below ds) else None.
Definition fb_cfg : dss2_ovl_cfg :=
  set_pre_mult_alpha true
    (setup_layer_base zero_cfg 0 (fb_format C) true (fb_width C) (fb_height C)).

Record plan (ds : list decision) (dc : dsscomp_setup_dispc_data) (bufs : list Z) : Prop := {
  pl_num : num_ovls dc = (first_ovl + length (chosen ds))%nat;
  pl_ovls : length (ovls dc) = DSS_OVLS;
  pl_layers : forall k l, chosen ds !! k = Some l -> holds_layer bufs (ovls dc) (fb_place ds) k l;
  pl_fb : use_sgx d0 = true -> exists o, ovls dc !! 0%nat = Some o /\
    addressing o = OMAP_DSS_BUFADDR_LAYER_IX /\ ba o = 0 /\ bufs !! 0%nat = Some 0 /\
    zorder (cfg o) = Z.of_nat (fb_below ds) /\ bare (cfg o) = fb_cfg;
  pl_free : forall i, (first_ovl + length (chosen ds) <= i < DSS_OVLS)%nat -> ovls dc !! i = Some zero_ovl;
  pl_pipes : exists pipe : nat -> nat,
    (forall i o, (i < num_ovls dc)%nat -> ovls dc !! i = Some o ->
       c_ix (cfg o) = primary_transform C + Z.of_nat (pipe i)) /\
    (forall i j, (i < num_ovls dc)%nat -> (j < num_ovls dc)%nat -> pipe i = pipe j -> i = j) /\
    forall i, (i < num_ovls dc)%nat -> (pipe i < num_ovls dc)%nat \/
      (pipe i = num_ovls dc /\ first_ovl = 0%nat /\ primary_transform C = 0 /\ chosen ds <> [] /\
       Forall (fun l => exists h, hmem (handle l) = Some h /\ unscaled l h = false) (chosen ds));
}.

Lemma z_of_place ds k : (k < length (chosen ds))%nat -> z_of (fb_level ds) k = z_of (fb_place ds) k.
Proof.
  intros Hk. unfold fb_place, fb_below, fb_level. destruct (use_sgx d0); [|done].
  unfold z_of. destruct (levels ds).2; simpl; [done|]. by rewrite (proj2 (Nat.leb_gt _ _)) by lia.
Qed.

Lemma exchanged_inj j m i k : (i < m)%nat -> (k < m)%nat -> exchanged j i = exchanged j k -> i = k.
Proof.
  unfold exchanged. intros Hi Hk.
  destruct (i =? 0)%nat eqn:E1, (k =? 0)%nat eqn:E2, (i =? j)%nat eqn:E3, (k =? j)%nat eqn:E4;
    rewrite ?Nat.eqb_eq, ?Nat.eqb_neq in *; lia.
Qed.

Lemma exchanged_lt j m k : (j < m \/ j = 0)%nat -> (k < m)%nat -> (exchanged j k < m)%nat.
Proof. unfold exchanged. intros Hj Hk. repeat case_match; lia. Qed.

(** The composition without a framebuffer: a scaled layer leaves the GFX pipe. *)
Lemma plan_no_fb ds f dc :
  loop ds f -> use_sgx d0 = false ->
  (if f_scaled_gfx f
   then upd_ovl 0 (upd_cfg (set_ix (Z.of_nat (num_ovls (dsscomp_data (f_dev f)))))) (dsscomp_data (f_dev f))
   else Some (dsscomp_data (f_dev f))) = Some dc ->
  plan ds dc (buffers (f_dev f)) /\ f_z f = Z.of_nat (num_ovls dc).
Proof.
  intros [Ldev Lnum Lfb Lz Lovls Lbufs Llayers Lfree Lpipes Lgfx Ldock Lm] Es Hdc.
  assert (Hf0 : first_ovl = 0%nat) by (unfold first_ovl; by rewrite Es).
  assert (Hfl : fb_level ds = None) by (unfold fb_level; by rewrite Es).
  rewrite Hfl in Lz.
  set (dc0 := dsscomp_data (f_dev f)) in *. set (m := length (chosen ds)) in *.
  assert (Hpl : forall k l, chosen ds !! k = Some l -> holds_layer (buffers (f_dev f)) (ovls dc0) (fb_place ds) k l).
  { intros k l Hk. pose proof (Llayers k l Hk) as HL. rewrite Hfl in HL.
    unfold fb_place. by rewrite Es. }
  destruct Lpipes as (j & Hp & Hj).
  destruct (f_scaled_gfx f) eqn:Eg.
  - destruct (Lgfx eq_refl) as (_ & Hp0 & Hne & Hall).
    assert (Hm : (0 < m)%nat) by (unfold m; destruct (chosen ds); [done|simpl; lia]).
    assert (j = 0%nat) as ->. { destruct (decide (j = 0%nat)) as [|n]; [done|]. by destruct (Hj n) as (_ & _ & _ & ?). }
    destruct (lookup_lt_is_Some_2 (ovls dc0) 0 ltac:(lia)) as [o Ho].
    rewrite (upd_ovl_Some _ _ _ _ Ho) in Hdc. injection Hdc as <-.
    split; [|simpl; lia]. split; simpl.
    + done.
    + by rewrite length_insert.
    + intros k l Hk. apply (holds_layer_pipe (buffers (f_dev f)) _ (ovls dc0)); [by apply Hpl|done|].
      rewrite Hf0. destruct (decide (k = 0%nat)) as [->|Hk0].
      * right. eexists. rewrite list_lookup_insert_eq by lia. simpl. by rewrite Ho.
      * left. by rewrite list_lookup_insert_ne by lia.
    + congruence.
    + intros i Hi. rewrite list_lookup_insert_ne by lia. apply Lfree. fold m. lia.
    + exists (fun i => if (i =? 0)%nat then num_ovls dc0 else i). split; [|split].
      * intros i oi Hi. destruct (i =? 0)%nat eqn:Ei.
        -- apply Nat.eqb_eq in Ei as ->. rewrite list_lookup_insert_eq by lia. intros [= <-]. simpl. lia.
        -- apply Nat.eqb_neq in Ei. rewrite list_lookup_insert_ne by done. intros Hoi.
           pose proof (Hp i oi ltac:(fold m; lia)) as Hpi. rewrite Hf0 in Hpi. rewrite (Hpi Hoi).
           unfold exchanged. rewrite (proj2 (Nat.eqb_neq _ _) Ei). done.
      * intros i k Hi Hk. repeat case_match; rewrite ?Nat.eqb_eq, ?Nat.eqb_neq in *; lia.
      * intros i Hi. destruct (i =? 0)%nat; [|by left]. right. done.
  - injection Hdc as <-. split; [|fold dc0; lia].
    split; [done|done|done|congruence|intros i Hi; apply Lfree; fold m; lia|].
    exists (exchanged j). split; [|split].
    + intros i oi Hi Hoi. pose proof (Hp i oi ltac:(fold m; lia)) as Hpi. rewrite Hf0 in Hpi.
      by rewrite (Hpi Hoi).
    + intros i k Hi Hk. apply (exchanged_inj j (num_ovls dc0)); lia.
    + intros i Hi. left. apply exchanged_lt; [|done].
      destruct (decide (j = 0%nat)) as [|n]; [by right|]. destruct (Hj n) as (_ & _ & Hjm & _). fold m in Hjm. lia.
Qed.

(** The composition with the framebuffer, which SGX renders. *)
Lemma plan_fb ds f :
  loop ds f -> use_sgx d0 = true -> is_valid_format (fb_format C) = true -> (0 < length (buffers d0))%nat ->
  (0 < DSS_OVLS)%nat -> f_scaled_gfx f = false /\
  exists f' evs, place_fb C f = Some f' /\ plan ds (dsscomp_data (f_dev f')) (buffers (f_dev f')) /\
    f_z f' = Z.of_nat (num_ovls (dsscomp_data (f_dev f'))) /\ f_docking f' = f_docking f /\
    f_dev f' = set_events evs (set_dsscomp (dsscomp_data (f_dev f')) (set_buffers (buffers (f_dev f')) d0)) /\
    (evs = events d0 \/ evs = events d0 ++ [E_log L_no_fb_z]).
Proof.
  intros L Es Hfmt Hb Hd. pose proof (loop_sgx _ _ L) as Hsgx.
  destruct L as [Ldev Lnum Lfb Lz Lovls Lbufs Llayers Lfree Lpipes Lgfx Ldock Lm].
  assert (Hf1 : first_ovl = 1%nat) by (unfold first_ovl; by rewrite Es).
  assert (Hg : f_scaled_gfx f = false).
  { destruct (f_scaled_gfx f); [|done]. destruct (Lgfx eq_refl) as (? & _). lia. }
  split; [done|].
  set (dc := dsscomp_data (f_dev f)) in *. set (m := length (chosen ds)) in *.
  assert (Hnum : num_ovls dc = S m) by lia.
  unfold place_fb.
  set (fbz := if f_fb_z f <? 0 then (f_z f, f_z f + 1) else (f_fb_z f, f_z f)).
  assert (Hfbz : fbz = (Z.of_nat (fb_below ds), Z.of_nat (num_ovls dc))).
  { unfold fbz. rewrite Lfb, Lz, Hnum. unfold fb_below. destruct (fb_level ds) as [b|]; simpl; fold m.
    - rewrite (proj2 (Z.ltb_ge _ _)) by lia. f_equal; lia.
    - f_equal; lia. }
  rewrite Hfbz.
  set (log := (f_fb_z f <? 0) && _ && _).
  assert (Hdev : (if log then emit_event (E_log L_no_fb_z) (f_dev f) else f_dev f) =
    set_events (events d0 ++ (if log then [E_log L_no_fb_z] else [])) (f_dev f)).
  { rewrite Ldev. destruct log; [done|]. rewrite List.app_nil_r. by destruct d0. }
  rewrite Hdev. cbn [use_sgx set_events buffers dsscomp_data]. rewrite Hsgx, Es.
  simpl put_buffers. rewrite (proj2 (Nat.ltb_lt 0 _)) by lia. fold dc.
  rewrite (upd_ovl_Some 0 _ _ zero_ovl) by (apply Lfree; lia).
  eexists _, _. split; [reflexivity|].
  cbn [f_dev f_z f_docking dsscomp_data buffers set_dsscomp set_buffers].
  split; [|split; [|split; [done|split; [rewrite Ldev; reflexivity|]]]].
  2: done.
  2: { destruct log; [by right|]. left. by rewrite List.app_nil_r. }
  split; simpl.
  - lia.
  - by rewrite length_insert.
  - intros k l Hk. pose proof (lookup_lt_Some _ _ _ Hk) as Hlt. fold m in Hlt.
    apply (holds_layer_pipe (buffers (f_dev f)) _ (ovls dc)).
    + destruct (Llayers k l Hk) as (h & o & Hh & Hv & Ho & Hbk & Ha & Hba & Hz & Hc).
      exists h, o. split_and!; try done. by rewrite Hz, z_of_place.
    + rewrite Hf1. by rewrite list_lookup_insert_ne by lia.
    + left. rewrite Hf1. by rewrite list_lookup_insert_ne by lia.
  - intros _. eexists. rewrite list_lookup_insert_eq by lia. split; [reflexivity|]. simpl.
    destruct (valid_format_color (fb_format C) true Hfmt) as [[col cv] Hc].
    split_and!; [done|done|by apply list_lookup_insert_eq; lia| |];
      unfold fb_cfg, setup_layer_base; rewrite Hc; reflexivity.
  - intros i Hi. rewrite list_lookup_insert_ne by lia. apply Lfree. fold m. lia.
  - destruct Lpipes as (j & Hp & Hj).
    assert (j = 0%nat) as ->. { destruct (decide (j = 0%nat)) as [|n]; [done|]. destruct (Hj n) as (? & _). lia. }
    exists (fun i => i). split; [|split; [done|by left]].
    intros i o Hi. destruct (decide (i = 0%nat)) as [->|Hi0].
    + rewrite list_lookup_insert_eq by lia. intros [= <-]. simpl. lia.
    + rewrite list_lookup_insert_ne by lia. intros Ho.
      pose proof (Hp (i - 1)%nat o ltac:(fold m; lia)) as Hpi. rewrite Hf1 in Hpi.
      replace (1 + (i - 1))%nat with i in Hpi by lia. rewrite (Hpi Ho).
      unfold exchanged. repeat case_match; rewrite ?Nat.eqb_eq, ?Nat.eqb_neq in *; lia.
Qed.

End Loop.
