(* ===== verification/HwcChoice.v ===== *)
(** The statistics of a frame and what they decide (src/hwc/hwc.c): when
    [can_dss_render_all] holds every layer gets an overlay, and the overlays that
    [decide_supported_cloning] leaves to each display. *)

From Stdlib Require Import ZArith Lia Floats.SpecFloat.
From stdpp Require Import base list list_numbers option tactics.
From S2P Require Import Prelude RgzGeometry RgzState RgzBlit HwcModel HwcLayers HwcGeometry HwcPrepare.
From S2P Require Import HwcOverlays.

(** The limits of the platform are positive, a one-dimensional TILER slot is
    smaller than a quarter of the address space, and the primary display is either
    transformed or not. *)
Record limits_ok (C : hwc_config) : Prop := {
  ok_xdecim_1d : 0 < max_xdecim_1d (limits C); ok_ydecim_1d : 0 < max_ydecim_1d (limits C);
  ok_xdecim_2d : 0 < max_xdecim_2d (limits C); ok_ydecim_2d : 0 < max_ydecim_2d (limits C);
  ok_downscale : 0 < max_downscale (limits C);
  ok_slot : 4 * tiler1d_slot_size (limits C) < 2 ^ 32;
  ok_primary : primary_transform C = 0 \/ primary_transform C = 1 }.

(** What is needed of the constants of the headers. *)
Class DssLaws `{HwcApi} `{DssApi} := {
  law_formats : NoDup [HAL_PIXEL_FORMAT_RGBA_8888; HAL_PIXEL_FORMAT_RGBX_8888; HAL_PIXEL_FORMAT_RGB_565;
                       HAL_PIXEL_FORMAT_BGRA_8888; HAL_PIXEL_FORMAT_BGRX_8888; HAL_PIXEL_FORMAT_TI_NV12;
                       HAL_PIXEL_FORMAT_TI_NV12_1D];
  law_overlay : HWC_OVERLAY <> HWC_FRAMEBUFFER;
  law_clear : HWC_HINT_CLEAR_FB <> 0;
  law_colors : NoDup [OMAP_DSS_COLOR_ARGB32; OMAP_DSS_COLOR_RGB24U; OMAP_DSS_COLOR_RGB16; OMAP_DSS_COLOR_NV12];
  law_hints : Z.land HWC_HINT_TRIPLE_BUFFER HWC_HINT_CLEAR_FB = 0;
  law_ovls : (4 <= DSS_OVLS)%nat;
  law_errnos : ENODEV <> 0 /\ EBUSY <> 0 /\ EINVAL <> 0;
}.

#[export] Instance omap_laws : DssLaws.
Proof.
  split; [by apply (bool_decide_unpack _)|done|done|by apply (bool_decide_unpack _)|done|by apply Nat.leb_le|done].
Qed.

Section Choice.
Context `{HwcApi} `{DssApi}.
Context (hmem : Z -> option IMG_native_handle_t) (C : hwc_config).

(** The handles of the layers that have one can be read. *)
Definition layer_ok (l : hwc_layer_1_t) : Prop := handle l <> 0 -> is_Some (hmem (handle l)).

(** * Every question about a layer has an answer *)

Hypothesis lims : limits_ok C.

Lemma c_div_pos a b : 0 < b -> c_div a b = Some (Z.quot a b).
Proof. intros Hb. unfold c_div. by rewrite (proj2 (Z.eqb_neq b 0)) by lia. Qed.

Lemma can_scale_total sw sh dw dh is_2d dis pclk fmt :
  is_Some (can_scale sw sh dw dh is_2d dis (limits C) pclk fmt).
Proof.
  destruct lims. unfold can_scale, DIV_ROUND_UP. destruct is_2d; rewrite !c_div_pos by done;
    repeat (case_match; try done).
Qed.

Lemma is_valid_layer_total l : layer_ok l -> is_Some (is_valid_layer hmem C l).
Proof.
  intros Hl. unfold is_valid_layer. destruct (has_flag _ _); simpl; [done|].
  destruct (handle l =? 0) eqn:E; [done|]. apply Z.eqb_neq in E. destruct (Hl E) as [h ->].
  repeat (case_match; try done). unfold can_scale_layer. destruct (src_size l). apply can_scale_total.
Qed.

Lemma valid_handle l : is_valid_layer hmem C l = Some true ->
  exists h, hmem (handle l) = Some h /\ is_valid_format (iFormat h) = true /\
    (is_NV12 h = true \/ mem1d h <= tiler1d_slot_size (limits C)).
Proof.
  unfold is_valid_layer. destruct (has_flag _ _ || _); [done|]. destruct (hmem (handle l)) as [h|]; [|done].
  destruct (is_valid_format (iFormat h)) eqn:Ef; simpl; [|done].
  destruct (is_NV12 h) eqn:En; simpl; [intros _; exists h; auto|].
  destruct (transform l =? 0); simpl; [|done].
  destruct (_ >? _) eqn:Eg; [done|]. intros _. exists h. split_and!; [done|done|right; lia].
Qed.

Lemma can_dss_render_layer_total d l : layer_ok l -> is_Some (can_dss_render_layer hmem C d l).
Proof.
  intros Hl. unfold can_dss_render_layer.
  assert (Hc : is_Some (if negb (t_enabled (e_current (ext d))) then Some false
     else if negb (t_docking (e_current (ext d))) then Some true
     else if handle l =? 0 then Some false
     else let* h := hmem (handle l) in Some (dockable h))).
  { destruct (negb _); [done|]. destruct (negb _); [done|]. destruct (handle l =? 0) eqn:E; [done|].
    apply Z.eqb_neq in E. by destruct (Hl E) as [h ->]. }
  destruct Hc as [cl ->]. destruct (is_valid_layer_total l Hl) as [v Hv]. rewrite Hv.
  destruct v; simpl; [|done]. destruct (valid_handle l Hv) as (h & -> & _). done.
Qed.

Lemma takes_overlay_total l f : layer_ok l -> is_Some (takes_overlay hmem C l f).
Proof.
  intros Hl. unfold takes_overlay. destruct (_ <? _); simpl; [|done].
  destruct (can_dss_render_layer_total (f_dev f) l Hl) as [r Hr]. rewrite Hr. destruct r; simpl; [|done].
  unfold can_dss_render_layer in Hr.
  match type of Hr with (match ?X with _ => _ end) = _ => destruct X as [cl|]; [|done] end.
  destruct (is_valid_layer _ _ _) as [[]|] eqn:Ev; simpl in Hr; try done.
  destruct (valid_handle l Ev) as (h & -> & _). done.
Qed.

(** * Statistics *)

(** The valid layers of a list with their handles. *)
Definition valid_of (l : hwc_layer_1_t) : option (hwc_layer_1_t * IMG_native_handle_t) :=
  match is_valid_layer hmem C l with
  | Some true => let* h := hmem (handle l) in Some (l, h)
  | _ => None
  end.
Definition valids (ls : list hwc_layer_1_t) : list (hwc_layer_1_t * IMG_native_handle_t) := omap valid_of ls.

Definition count_all (V : list (hwc_layer_1_t * IMG_native_handle_t)) (n : counts_t) : counts_t :=
  fold_left (fun n v => count_layer C v.1 v.2 n) V n.

Lemma gather_layers_spec ls n :
  Forall layer_ok ls ->
  let ls' := map (set_composition HWC_FRAMEBUFFER) ls in
  gather_layers hmem C ls n = Some (ls', count_all (valids ls') n).
Proof.
  intros Hls. revert n. induction Hls as [|l ls Hl _ IH]; intros n; simpl; [done|].
  set (l' := set_composition HWC_FRAMEBUFFER l).
  assert (Hl' : layer_ok l') by done.
  destruct (is_valid_layer_total l' Hl') as [v Hv]. rewrite Hv.
  assert (Hval : valid_of l' = if v then (let* h := hmem (handle l') in Some (l', h)) else None)
    by (unfold valid_of; rewrite Hv; by destruct v).
  unfold valids in *. csimpl. rewrite Hval. destruct v.
  - destruct (valid_handle l' Hv) as (h & Hh & _). change (handle l) with (handle l'). rewrite Hh. by rewrite IH.
  - by rewrite IH.
Qed.

(** A count is the number of the valid layers counted. *)
Definition counted (q : hwc_layer_1_t -> IMG_native_handle_t -> bool)
    (V : list (hwc_layer_1_t * IMG_native_handle_t)) : Z :=
  Z.of_nat (length (filter (fun v => q v.1 v.2 = true) V)).

Lemma count_all_field (g : counts_t -> Z) q V n :
  (forall l h n, g (count_layer C l h n) = g n + b2z (q l h)) ->
  g (count_all V n) = g n + counted q V.
Proof.
  intros Hg. revert n. unfold count_all, counted. induction V as [|[l h] V IH]; intros n; simpl; [lia|].
  rewrite IH, Hg. simpl. rewrite list.filter_cons. simpl. case_decide as Hq; simpl.
  - rewrite Hq. simpl b2z. lia.
  - destruct (q l h); [done|]. simpl b2z. lia.
Qed.

Lemma counted_none q V : counted q V = 0 -> Forall (fun v => q v.1 v.2 = false) V.
Proof.
  unfold counted. intros Hc. apply list.Forall_forall. intros v Hv.
  destruct (q v.1 v.2) eqn:E; [|done].
  assert (Hin : v ∈ filter (fun v => q v.1 v.2 = true) V) by (apply list_elem_of_filter; done).
  destruct (filter _ V); [by apply not_elem_of_nil in Hin|]. simpl in Hc. lia.
Qed.

Lemma counted_all q V : counted q V = Z.of_nat (length V) -> Forall (fun v => q v.1 v.2 = true) V.
Proof.
  unfold counted. induction V as [|v V IH]; intros Hc; [constructor|].
  rewrite list.filter_cons in Hc. case_decide as Hq.
  - constructor; [done|]. apply IH. simpl in Hc. lia.
  - pose proof (length_filter (fun v => q v.1 v.2 = true) V). simpl in Hc. lia.
Qed.

(** The statistics of the frame, before the overlays are counted. *)
Definition stats (ls : list hwc_layer_1_t) : counts_t :=
  count_all (valids (map (set_composition HWC_FRAMEBUFFER) ls))
    (mkCounts 0 (Z.of_nat (length ls)) 0 0 0 0 0 0 0 0 0).

Lemma gather_layer_statistics_spec ls :
  Forall layer_ok ls ->
  gather_layer_statistics hmem C ls = Some (map (set_composition HWC_FRAMEBUFFER) ls, stats ls).
Proof. apply gather_layers_spec. Qed.

Definition counts_as (num : counts_t) (V : list (hwc_layer_1_t * IMG_native_handle_t)) : Prop :=
  possible_overlay_layers num = Z.of_nat (length V) /\
  scaled_layers num = counted (fun l h => scaled l || is_NV12 h || negb (primary_transform C =? 0)) V /\
  n_RGB num = counted (fun _ h => negb (is_BGR h) && is_RGB h) V /\
  n_BGR num = counted (fun _ h => is_BGR h) V /\
  n_NV12 num = counted (fun _ h => negb (is_BGR h) && negb (is_RGB h) && is_NV12 h) V /\
  n_mem num = fold_left (fun m v => u32 (m + mem1d v.2)) V 0.

Lemma counted_true V : counted (fun _ _ => true) V = Z.of_nat (length V).
Proof.
  unfold counted. induction V as [|v V IH]; [done|]. rewrite list.filter_cons_True by done. simpl. lia.
Qed.

Lemma count_all_mem V n : n_mem (count_all V n) = fold_left (fun m v => u32 (m + mem1d v.2)) V (n_mem n).
Proof. unfold count_all. revert n. induction V as [|v V IH]; intros n; simpl; [done|]. by rewrite IH. Qed.

Lemma count_all_as V k : counts_as (count_all V (mkCounts 0 k 0 0 0 0 0 0 0 0 0)) V.
Proof.
  unfold counts_as. rewrite <- counted_true.
  rewrite (count_all_field possible_overlay_layers (fun _ _ => true)) by done.
  rewrite (count_all_field scaled_layers (fun l h => scaled l || is_NV12 h || negb (primary_transform C =? 0))) by done.
  rewrite (count_all_field n_RGB (fun _ h => negb (is_BGR h) && is_RGB h)) by done.
  rewrite (count_all_field n_BGR (fun _ h => is_BGR h)) by done.
  rewrite (count_all_field n_NV12 (fun _ h => negb (is_BGR h) && negb (is_RGB h) && is_NV12 h)) by done.
  split_and!; try done.
  apply count_all_mem.
Qed.

Lemma count_all_composited V n : composited_layers (count_all V n) = composited_layers n.
Proof. unfold count_all. revert n. induction V as [|v V IH]; intros n; simpl; [done|]. by rewrite IH. Qed.

Lemma stats_as ls : counts_as (stats ls) (valids (map (set_composition HWC_FRAMEBUFFER) ls)).
Proof. apply count_all_as. Qed.
Lemma stats_composited ls : composited_layers (stats ls) = Z.of_nat (length ls).
Proof. apply count_all_composited. Qed.

(** * When the subsystem shows all the layers *)

Context {laws : DssLaws}.

Lemma not_BGR_and_RGB h : is_BGR h = true -> is_RGB h = false.
Proof.
  pose proof law_formats as Hd. rewrite !list.NoDup_cons, !not_elem_of_cons in Hd. destruct_and!.
  unfold is_BGR, is_BGR_format, is_RGB. rewrite orb_true_iff, !Z.eqb_eq, !orb_false_iff, !Z.eqb_neq.
  intros [E|E]; rewrite E; split_and!; congruence.
Qed.

Lemma render_layer d d2 V l h :
  can_dss_render_all C d = true -> counts_as (counts d) V -> (l, h) ∈ V ->
  ext d2 = ext d -> use_sgx d2 = false -> swap_rb d2 = negb (n_BGR (counts d) =? 0) ->
  is_valid_layer hmem C l = Some true -> hmem (handle l) = Some h -> handle l <> 0 ->
  flags_rgb_order C = true ->
  (t_enabled (e_current (ext d)) = true -> transformed (e_current (ext d)) = true ->
   t_docking (e_current (ext d)) = true -> dockable h = true -> is_NV12 h = true) ->
  can_dss_render_layer hmem C d2 l = Some true.
Proof.
  intros Hall (Hp & Hs & Hrgb & Hbgr & Hnv & _) Hin He Hsgx Hsw Hv Hh Hn Hro Hup.
  unfold can_dss_render_all in Hall. rewrite !andb_true_iff in Hall.
  destruct Hall as [[[_ Ht] Hc] Hnv12].
  unfold can_dss_render_layer. rewrite He, Hsgx, Hsw, Hv, Hh, Hro. rewrite Hro in Hc.
  set (cur := e_current (ext d)) in *.
  set (cl := if negb (t_enabled cur) then Some false else _).
  assert (Hcl : exists b, cl = Some b /\ (b = true -> t_enabled cur = true /\ (t_docking cur = true -> dockable h = true))).
  { unfold cl. destruct (t_enabled cur); simpl; [|by exists false].
    destruct (t_docking cur); simpl; [|by exists true].
    rewrite (proj2 (Z.eqb_neq _ _) Hn). by exists (dockable h). }
  destruct Hcl as (b & -> & Hb). simpl. f_equal.
  assert (HB : n_BGR (counts d) = 0 -> is_BGR h = false).
  { intros E. rewrite Hbgr in E. apply counted_none in E. rewrite list.Forall_forall in E. by apply (E (l, h)). }
  assert (HR : n_RGB (counts d) = 0 -> is_BGR h = true \/ is_RGB h = false).
  { intros E. rewrite Hrgb in E. apply counted_none in E. rewrite list.Forall_forall in E.
    specialize (E (l, h) Hin). simpl in E. destruct (is_BGR h); auto. }
  assert (HN : n_NV12 (counts d) = possible_overlay_layers (counts d) -> is_NV12 h = true).
  { intros E. rewrite Hnv, Hp in E. apply counted_all in E. rewrite list.Forall_forall in E.
    specialize (E (l, h) Hin). simpl in E. by apply andb_true_iff in E as [_ E]. }
  rewrite !andb_true_iff. split; [split; [split|]|].
  - (* turned layers are NV12 *)
    destruct b; simpl; [|done]. destruct (Hb eq_refl) as [Hen Hdk]. rewrite Hen in Ht. simpl in Ht.
    destruct (transformed cur); simpl in *; [|done].
    destruct (n_NV12 (counts d) =? possible_overlay_layers (counts d)) eqn:E; [apply HN; lia|].
    simpl in Ht. apply andb_true_iff in Ht as [_ Ht]. apply Hup; auto.
  - by rewrite orb_true_r.
  - destruct (n_BGR (counts d) =? 0) eqn:E; simpl.
    + by rewrite HB by lia.
    + simpl in Hc. rewrite orb_false_r, andb_true_iff in Hc. destruct Hc as [Hc _].
      destruct (HR ltac:(lia)) as [E2|E2]; [by rewrite (not_BGR_and_RGB _ E2)|by rewrite E2].
  - destruct (n_BGR (counts d) =? 0) eqn:E; simpl.
    + by rewrite HB, andb_false_r by lia.
    + simpl in Hc. rewrite orb_false_r, andb_true_iff in Hc. destruct Hc as [_ Hc].
      apply negb_true_iff, orb_false_iff in Hc as [Hc1 Hc2]. rewrite Hc1. simpl.
      destruct b; simpl; [|by rewrite andb_false_r]. destruct (Hb eq_refl) as [Hen _]. rewrite Hen in Hc2.
      rewrite andb_true_r in *. by rewrite Hc2.
Qed.

End Choice.
