(* ===== verification/HwcPlan.v ===== *)
(** The overlays that [hwc_prepare] hands to the display subsystem
    (src/hwc/hwc.c): there are at most four, on distinct z-orders and pipes, for
    the primary and the external display together, and the numbers the next frame
    starts from are in range. *)

From Stdlib Require Import ZArith Lia Floats.SpecFloat.
From stdpp Require Import base list list_numbers option tactics.
From S2P Require Import Prelude RgzGeometry RgzState RgzBlit HwcModel HwcLayers HwcGeometry HwcPrepare.
From S2P Require Import HwcOverlays HwcChoice.

(** * The state between two frames *)

Record dev_ok (d : omap_hwc_device_t) : Prop := {
  ok_last_ext : 0 <= last_ext_ovls d <= 2;
  ok_last_int : 0 <= last_int_ovls d <= 4;
  ok_buffers : length (buffers d) = MAX_HWC_LAYERS;
  ok_dock : t_enabled (e_dock (ext d)) = true -> t_docking (e_dock (ext d)) = true;
  ok_mirror : t_docking (e_mirror (ext d)) = false }.

Section Plan.
Context `{HwcApi} `{DssApi} `{BvApi} {laws : DssLaws}.
Context (hmem : Z -> option IMG_native_handle_t) (bg_layer : hwc_layer_1_t).
Context (C : hwc_config) (E : hwc_env).
Hypothesis lims : limits_ok C.

(** Overlays are cloned this frame. *)
Definition clones (d : omap_hwc_device_t) : bool :=
  t_enabled (e_current (ext d)) &&
  (((n_protected (counts d) =? 0) && negb (ext_ovls d =? 0)) ||
   (negb (ext_ovls_wanted d =? 0) && (ext_ovls_wanted d <=? ext_ovls d))).
Definition mirrors (d : omap_hwc_device_t) : bool := clones d && negb (t_docking (e_current (ext d))).

(** The overlays left to the primary display. *)
Lemma decide_bounds d :
  dev_ok d ->
  let d' := decide_supported_cloning C d in
  let n := max_hw_overlays (counts d') in
  let p := primary_transform C in
  0 <= n <= 4 - p /\ 0 <= ext_ovls d' <= 2 /\
  (p = 0 -> max_scaling_overlays (counts d') <= 3) /\
  (clones d' = true -> t_docking (e_current (ext d')) = true ->
   n <= 3 - p /\ (p = 0 -> max_scaling_overlays (counts d') <= 2)) /\
  (mirrors d' = true -> n <= 2 - p).
Proof.
  intros [He Hi _ Hdk Hmi] d' n p. destruct (ok_primary C lims) as [Hp|Hp]; fold p in Hp.
  all: subst d' n p; unfold mirrors, clones, decide_supported_cloning in *; rewrite Hp.
  all: unfold MAX_HW_OVERLAYS, NUM_NONSCALING_OVERLAYS.
  all: change (Z.shiftr 4 1) with 2; change (Z.shiftr 1 1) with 0.
  all: destruct (t_enabled (e_dock (ext d))) eqn:Ed, (t_enabled (e_mirror (ext d))) eqn:Em; simpl.
  all: try specialize (Hdk eq_refl).
  all: destruct (negb (n_dockable (counts d) =? 0) || force_dock (ext d)) eqn:Edk; simpl.
  all: rewrite ?Ed, ?Em, ?Hdk, ?Hmi; simpl.
  all: match goal with |- context [Z.min ?a ?b] =>
         set (hv := Z.min a b); assert (Hhv : hv = Z.min a b) by reflexivity; clearbody hv end.
  all: destruct (n_protected (counts d) =? 0), (hv =? 0) eqn:Eh; simpl.
  all: unfold uwrap;
         repeat match goal with |- context [?a mod 2 ^ 32] => rewrite (Z.mod_small a (2 ^ 32)) by lia end.
  all: rewrite ?andb_false_r, ?andb_true_r; split_and!; lia.
Qed.

(** * What the other steps leave alone *)

(** The events about overlays: the errors that [hwc_prepare] logs of them, and the
    compositions posted. *)
Definition overlay_event (e : hwc_event) : bool :=
  match e with
  | E_post _ _ _
  | E_log (L_z_count _ _) | E_log (L_z_twice _) | E_log (L_ix_twice _) | E_log L_clone_all => true
  | _ => false
  end.
Definition overlay_events (d : omap_hwc_device_t) : list hwc_event :=
  filter (fun e => overlay_event e = true) (events d).

Record same_plan (d d' : omap_hwc_device_t) : Prop := {
  sp_dc : dsscomp_data d' = dsscomp_data d;
  sp_post2 : post2_layers d' = post2_layers d;
  sp_bufs : length (buffers d') = length (buffers d);
  sp_counts : counts d' = counts d;
  sp_ext_ovls : ext_ovls d' = ext_ovls d;
  sp_wanted : ext_ovls_wanted d' = ext_ovls_wanted d;
  sp_last_ext : last_ext_ovls d' = last_ext_ovls d;
  sp_last_int : last_int_ovls d' = last_int_ovls d;
  sp_dock : e_dock (ext d') = e_dock (ext d);
  sp_mirror : e_mirror (ext d') = e_mirror (ext d);
  sp_events : overlay_events d' = overlay_events d }.

Lemma same_plan_refl d : same_plan d d.
Proof. done. Qed.
Lemma same_plan_trans d d1 d2 : same_plan d d1 -> same_plan d1 d2 -> same_plan d d2.
Proof. intros [] []. split; congruence. Qed.

Lemma same_plan_ext d e :
  e_dock e = e_dock (ext d) -> e_mirror e = e_mirror (ext d) -> same_plan d (set_ext e d).
Proof. done. Qed.

Lemma same_plan_event d e : overlay_event e = false -> same_plan d (emit_event e d).
Proof.
  intros He. split; try done. unfold overlay_events. simpl. rewrite list.filter_app, list.filter_cons, He.
  simpl. by rewrite List.app_nil_r.
Qed.

Lemma set_best_hdmi_mode_plan xr yr xpy d rv d' :
  set_best_hdmi_mode C E xr yr xpy d = Some (rv, d') -> same_plan d d'.
Proof.
  unfold set_best_hdmi_mode. destruct (query_display _ _) as [dis|]; [|by intros [= <- <-]].
  destruct (_ || _); [by intros [= <- <-]|].
  destruct (if (x_res dis =? 0) || (y_res dis =? 0) then _ else _) as [sx sy].
  destruct (try_modes _ _ _ _ _ _ _ _ _) as [b|]; [|done].
  set (e := set_screen _ _ _ _ _).
  assert (Hdone : forall rv0 d0, same_plan d d0 -> 
    (if negb (rv0 =? 0) then Some (rv0, d0)
     else Some (0, set_ext (if channel dis =? OMAP_DSS_CHANNEL_DIGIT
                            then set_e_on_tv true (set_used xr yr xpy (ext d0)) else set_used xr yr xpy (ext d0)) d0))
    = Some (rv, d') -> same_plan d d').
  { intros rv0 d1 Hs. destruct (rv0 =? 0); simpl; intros [= <- <-]; [|done].
    eapply same_plan_trans; [exact Hs|]. by case_match. }
  destruct (best b) as [i|].
  - destruct (modedb dis !! i) as [m|]; [|done]. apply Hdone.
    destruct (last_mode e =? _); [done|]. apply (same_plan_trans _ (emit_event (E_setup_display (if on_tv C then 0 else 1) m) d)); [|done].
    by apply same_plan_event.
  - destruct (get_max_dimensions _ _ _ _ _ _ _) as [[fx fy]|]; [|done].
    destruct (if pixel_clock dis =? 0 then _ else _) as [usable|]; [|done]. apply Hdone.
    destruct usable; [done|]. by apply (same_plan_trans _ (set_ext e d)); [|apply same_plan_event].
Qed.

Lemma set_ext_matrix_plan r e e' : set_ext_matrix r e = Some e' ->
  e_dock e' = e_dock e /\ e_mirror e' = e_mirror e /\ e_current e' = e_current e.
Proof.
  unfold set_ext_matrix. destruct (if negb _ then _ else _) as [[w h] xpy].
  destruct (get_max_dimensions _ _ _ _ _ _ _) as [[x y]|]; [|done]. by intros [= <-].
Qed.

Lemma setup_mirroring_plan d rv d' : setup_mirroring C E d = Some (rv, d') -> same_plan d d'.
Proof.
  unfold setup_mirroring. destruct (if negb _ then _ else _) as [xr yr].
  destruct (set_best_hdmi_mode _ _ _ _ _ _) as [[rv0 d0]|] eqn:Eb; [|done].
  apply set_best_hdmi_mode_plan in Eb. destruct (rv0 =? 0); simpl; [|by intros [= <- <-]].
  destruct (set_ext_matrix _ _) as [e|] eqn:Ee; [|done]. intros [= <- <-].
  apply set_ext_matrix_plan in Ee as (Hd & Hm & _).
  eapply same_plan_trans; [exact Eb|]. by apply same_plan_ext.
Qed.

Lemma put_buffers_length hs off bufs bufs' :
  put_buffers hs off bufs = Some bufs' -> length bufs' = length bufs.
Proof.
  revert off bufs. induction hs as [|x hs IH]; intros off bufs; simpl; [by intros [= ->]|].
  destruct (_ <? _)%nat; [|done]. intros Hb. apply IH in Hb. by rewrite length_insert in Hb.
Qed.

(** The blits change only the regions, the commands and the buffers. *)
Lemma generate_blits_only l d r d' :
  generate_blits hmem bg_layer C E l d = Some (r, d') -> exists g, d' = set_grgz g d.
Proof.
  assert (Hd : exists g, d = set_grgz g d) by (exists (grgz d); by destruct d).
  unfold generate_blits. destruct l as [l|]; [|by intros [= <- <-]].
  destruct (t_enabled _); [by intros [= <- <-]|].
  destruct (if blt_mode C =? BLTMODE_PAINT then _ else _) as [i o].
  destruct (_ || _); [by intros [= <- <-]|]. destruct (_ <? _)%nat; [by intros [= <- <-]|].
  destruct (mapM _ _) as [ids|]; [|by intros [= <- <-]].
  destruct (rgz_in _ _ _ _ _) as [[rv rgz]|]; [|done].
  destruct (negb (rv =? RGZ_ALL)); [intros [= <- <-]; eauto|].
  destruct (rgz_out _ _ _) as [[rv2 out]|]; [|done].
  destruct (negb (rv2 =? 0)); [intros [= <- <-]; eauto|]. destruct (_ && _); intros [= <- <-]; eauto.
Qed.

Lemma blit_layers_plan l off d ok l' d' :
  blit_layers hmem bg_layer C E l off d = Some (ok, l', d') ->
  same_plan d d' /\ ext d' = ext d /\ use_sgx d' = use_sgx d /\ (ok = false -> l' = l).
Proof.
  unfold blit_layers. destruct (generate_blits _ _ _ _ _ _) as [[r d1]|] eqn:Eg; [|done].
  apply generate_blits_only in Eg as [g ->].
  destruct r as [out|]; [|by intros [= <- <- <-]]. destruct l as [l|]; [|by intros [= <- <- <-]].
  destruct (put_buffers _ _ _) as [bufs|] eqn:Ep; [|done]. intros [= <- <- <-].
  apply put_buffers_length in Ep. split; [|done]. by split.
Qed.

(** * Stacks of overlays *)

Definition shown (dc : dsscomp_setup_dispc_data) : list dss2_ovl_info := take (num_ovls dc) (ovls dc).
Definition zs (dc : dsscomp_setup_dispc_data) : list Z := (fun o => zorder (cfg o)) <$> shown dc.
Definition ixs (dc : dsscomp_setup_dispc_data) : list Z := (fun o => c_ix (cfg o)) <$> shown dc.

(** [n] overlays on the z-orders from 0 and on distinct pipes below [top]. *)
Record stack (n : nat) (top : Z) (dc : dsscomp_setup_dispc_data) : Prop := {
  st_num : num_ovls dc = n;
  st_max : (n <= 4)%nat;
  st_len : length (ovls dc) = DSS_OVLS;
  st_zs : NoDup (zs dc) /\ Forall (fun z => 0 <= z < Z.of_nat n) (zs dc);
  st_ixs : NoDup (ixs dc) /\ Forall (fun i => 0 <= i < top) (ixs dc) }.

Lemma shown_push n o dc :
  (n < length (ovls dc))%nat -> num_ovls dc = n ->
  shown (set_num_ovls (S n) (set_ovls (<[n := o]> (ovls dc)) dc)) = shown dc ++ [o].
Proof.
  intros Hn Hd. unfold shown. simpl. rewrite Hd.
  rewrite (take_S_r _ _ o) by (by apply list_lookup_insert_eq). by rewrite take_insert_ge.
Qed.

Lemma adjust_ext_layer_keeps e o o' : adjust_ext_layer e o = Some o' ->
  zorder (cfg o') = zorder (cfg o) /\ c_ix (cfg o') = c_ix (cfg o) /\ mgr_ix (cfg o') = mgr_ix (cfg o).
Proof.
  unfold adjust_ext_layer.
  assert (Hc : forall c, (if t_docking (e_current e) then Some (cfg o) else crop_to_rect (mirror_region e) (cfg o)) = Some c ->
    zorder c = zorder (cfg o) /\ c_ix c = c_ix (cfg o) /\ mgr_ix c = mgr_ix (cfg o)).
  { intros c. destruct (t_docking _); [by intros [= <-]|]. unfold crop_to_rect.
    destruct (spans_of _) as [a b]. destruct (align_spans _ _ _) as [a' b'].
    destruct (crop_span _ _ a'); [|done]. destruct (crop_span _ _ b'); [|done].
    destruct (realign_spans _ _ _). by intros [= <-]. }
  destruct (if t_docking (e_current e) then _ else _) as [c|]; [|by intros [= <-]].
  destruct (Hc c eq_refl) as (Hz & Hi & Hm).
  destruct (apply_transform _ _) as [c'|] eqn:Ea; [|done].
  assert (Hc' : zorder c' = zorder c /\ c_ix c' = c_ix c /\ mgr_ix c' = mgr_ix c).
  { unfold apply_transform in Ea.
    repeat match type of Ea with (match ?X with _ => _ end) = _ => destruct X; [|done] end. by injection Ea as <-. }
  destruct Hc' as (Hz' & Hi' & Hm'). intros [= <-]. simpl.
  destruct (t_hflip _); simpl; rewrite ?Hz', ?Hi', ?Hm'; done.
Qed.

(** A clone goes on the next overlay, on the next pipe from the last. *)
Lemma clone_layer_spec ix d rv d' :
  clone_layer C ix d = Some (rv, d') -> length (ovls (dsscomp_data d)) = DSS_OVLS ->
  (num_ovls (dsscomp_data d) < 4)%nat ->
  rv = 0 /\ exists o o', ovls (dsscomp_data d) !! ix = Some o /\
    d' = set_dsscomp (set_num_ovls (S (num_ovls (dsscomp_data d)))
           (set_ovls (<[num_ovls (dsscomp_data d) := o']> (ovls (dsscomp_data d))) (dsscomp_data d))) d /\
    zorder (cfg o') = zorder (cfg o) + Z.of_nat (post2_layers d) /\
    c_ix (cfg o') = 3 - (Z.of_nat (num_ovls (dsscomp_data d)) - Z.of_nat (post2_layers d)) /\
    mgr_ix (cfg o') = 1.
Proof.
  intros Hr Hlen Hn. unfold clone_layer in Hr. unfold MAX_HW_OVERLAYS in *.
  rewrite (proj2 (Z.leb_gt _ _)) in Hr by lia.
  destruct (ovls (dsscomp_data d) !! ix) as [o|] eqn:Ho; [|done].
  destruct (if (ix =? 0)%nat then _ else _) as [ion|]; [|done].
  set (o1 := if negb (ion =? 0) && use_sgx d then _ else _) in Hr.
  set (o2 := upd_cfg _ o1) in Hr.
  destruct (adjust_ext_layer _ _) as [o'|] eqn:Ea; [|done].
  apply adjust_ext_layer_keeps in Ea as (Hz & Hi & Hm).
  pose proof law_ovls.
  destruct (lookup_lt_is_Some_2 (ovls (dsscomp_data d)) (num_ovls (dsscomp_data d)) ltac:(lia)) as [x Hx].
  rewrite (upd_ovl_Some _ _ _ _ Hx) in Hr. injection Hr as <- <-.
  split; [done|]. exists o, o'. split; [done|]. split; [done|].
  rewrite Hz, Hi, Hm. unfold o2, o1. by case_match.
Qed.

(** Cloning all the overlays of the primary display: after [e] clones of the [n]
    overlays of [dc0]. *)
Record cloned (dc0 : dsscomp_setup_dispc_data) (n e : nat) (dc : dsscomp_setup_dispc_data) : Prop := {
  cl_num : num_ovls dc = (n + e)%nat;
  cl_len : length (ovls dc) = DSS_OVLS;
  cl_first : take n (ovls dc) = take n (ovls dc0);
  cl_zs : zs dc = zs dc0 ++ (Z.add (Z.of_nat n) <$> take e (zs dc0));
  cl_ixs : ixs dc = ixs dc0 ++ ((fun i => 3 - Z.of_nat i) <$> seq 0 e) }.

Lemma clone_step dc0 n e d rv d' :
  num_ovls dc0 = n -> (2 * n <= 4)%nat -> (e < n)%nat -> post2_layers d = n ->
  cloned dc0 n e (dsscomp_data d) -> clone_layer C e d = Some (rv, d') ->
  rv = 0 /\ cloned dc0 n (S e) (dsscomp_data d') /\ d' = set_dsscomp (dsscomp_data d') d.
Proof.
  intros Hn0 Hn He Hp [Hnum Hlen Hfst Hzs Hixs] Hc.
  apply clone_layer_spec in Hc as (-> & o & o' & Ho & -> & Hz & Hi & Hm); [|done|lia].
  pose proof law_ovls. set (dc := dsscomp_data d) in *.
  split; [done|]. split; [|done]. cbn [dsscomp_data set_dsscomp].
  assert (Hsh : shown (set_num_ovls (S (num_ovls dc)) (set_ovls (<[num_ovls dc:=o']> (ovls dc)) dc)) = shown dc ++ [o'])
    by (apply shown_push; [lia|done]).
  split.
  - simpl. lia.
  - simpl. by rewrite length_insert.
  - simpl. by rewrite take_insert_ge by lia.
  - unfold zs at 1. rewrite Hsh, fmap_app. fold (zs dc). rewrite Hzs, <- app_assoc. f_equal.
    assert (Hze : zs dc0 !! e = Some (zorder (cfg o))).
    { unfold zs, shown. rewrite list_lookup_fmap, Hn0, <- Hfst.
      rewrite lookup_take_lt by done. by rewrite Ho. }
    rewrite (take_S_r _ _ _ Hze), fmap_app. simpl. f_equal. f_equal. rewrite Hz, Hp. lia.
  - unfold ixs at 1. rewrite Hsh, fmap_app. fold (ixs dc). rewrite Hixs, seq_S, fmap_app, <- app_assoc.
    f_equal. simpl. f_equal. f_equal. rewrite Hi, Hp, Hnum. lia.
Qed.

Lemma clone_layers_spec dc0 n j e z d z' d' :
  num_ovls dc0 = n -> (2 * n <= 4)%nat -> (e + j = n)%nat -> post2_layers d = n ->
  cloned dc0 n e (dsscomp_data d) -> clone_layers C j e z d = Some (z', d') ->
  z' = z + Z.of_nat j /\ cloned dc0 n n (dsscomp_data d') /\ d' = set_dsscomp (dsscomp_data d') d.
Proof.
  intros Hn0 Hn. revert e z d. induction j as [|j IH]; intros e z d Hj Hp Hc Hr; simpl in Hr.
  { injection Hr as <- <-. replace e with n in Hc by lia. split; [lia|]. split; [done|]. by destruct d. }
  destruct (clone_layer C e d) as [[rv d1]|] eqn:E1; [|done].
  destruct (clone_step dc0 n e d rv d1 Hn0 Hn ltac:(lia) Hp Hc E1) as (-> & Hc1 & Hd1). simpl in Hr.
  destruct (IH (S e) (z + 1) d1) as (-> & Hc2 & Hd2); [lia|by rewrite Hd1|done|done|].
  split; [lia|]. split; [done|]. rewrite Hd2, Hd1. by destruct d.
Qed.

(** The stack of both displays. *)
Lemma cloned_stack dc0 n dc :
  stack n (4 - Z.of_nat n) dc0 -> (2 * n <= 4)%nat -> cloned dc0 n n dc -> stack (2 * n) 4 dc.
Proof.
  intros [Hnum Hmax Hlen [Hz1 Hz2] [Hi1 Hi2]] Hn [Cn Cl _ Cz Ci].
  assert (Hlz : length (zs dc0) = n).
  { unfold zs, shown. rewrite length_fmap, length_take, Hnum, Hlen. pose proof law_ovls. lia. }
  rewrite take_ge in Cz by lia. rewrite list.Forall_forall in Hz2, Hi2.
  split; [lia|lia|done| |].
  - rewrite Cz. split.
    + apply list.NoDup_app. split; [done|]. split.
      * intros x Hx Hx'. apply Hz2 in Hx. apply list_elem_of_fmap in Hx' as (y & -> & Hy).
        apply Hz2 in Hy. lia.
      * apply (NoDup_fmap_2_strong (Z.add (Z.of_nat n))); [intros; lia|done].
    + apply Forall_app. split; apply list.Forall_forall; intros x Hx.
      * apply Hz2 in Hx. lia.
      * apply list_elem_of_fmap in Hx as (y & -> & Hy). apply Hz2 in Hy. lia.
  - rewrite Ci. split.
    + apply list.NoDup_app. split; [done|]. split.
      * intros x Hx Hx'. apply Hi2 in Hx. apply list_elem_of_fmap in Hx' as (y & -> & Hy).
        apply list_elem_of_In, in_seq in Hy. lia.
      * apply (NoDup_fmap_2_strong (fun i => 3 - Z.of_nat i)); [intros; lia|]. apply NoDup_ListNoDup, List.seq_NoDup.
    + apply Forall_app. split; apply list.Forall_forall; intros x Hx.
      * apply Hi2 in Hx. lia.
      * apply list_elem_of_fmap in Hx as (y & -> & Hy). apply list_elem_of_In, in_seq in Hy. lia.
Qed.

Lemma stack_push n dc dc' o :
  stack n 3 dc -> (n <= 3)%nat -> shown dc' = shown dc ++ [o] -> num_ovls dc' = S n ->
  length (ovls dc') = DSS_OVLS -> zorder (cfg o) = Z.of_nat n -> c_ix (cfg o) = 3 -> stack (S n) 4 dc'.
Proof.
  intros [Hnum Hmax Hlen [Hz1 Hz2] [Hi1 Hi2]] Hn Hs Hn' Hl Hz Hi.
  split; [done|lia|done| |]; unfold zs, ixs in *; rewrite Hs, fmap_app; simpl; rewrite ?Hz, ?Hi.
  all: rewrite list.Forall_forall in Hz2, Hi2; split.
  1,3: apply list.NoDup_app; split; [done|]; split; [|apply NoDup_singleton];
    intros x Hx Hx'; apply list_elem_of_singleton in Hx' as ->.
  1: apply Hz2 in Hx; lia. 1: apply Hi2 in Hx; lia.
  all: apply Forall_app; split; [|by constructor; [lia|]]; apply list.Forall_forall; intros x Hx.
  - apply Hz2 in Hx. lia.
  - apply Hi2 in Hx. lia.
Qed.

Lemma stack_weaken n top dc : stack n top dc -> top <= 4 -> stack n 4 dc.
Proof.
  intros [Hnum Hmax Hlen Hz [Hi1 Hi2]] Ht. split; [done|done|done|done|]. split; [done|].
  eapply list.Forall_impl; [exact Hi2|]. intros x Hx. simpl in Hx. lia.
Qed.

Lemma clone_external_layer_spec ix d rv d' :
  clone_external_layer C E ix d = Some (rv, d') ->
  (rv <> 0 /\ same_plan d d') \/ exists d1, same_plan d d1 /\ clone_layer C ix d1 = Some (rv, d').
Proof.
  unfold clone_external_layer. destruct (ovls (dsscomp_data d) !! ix) as [o|]; [|done].
  destruct (if negb _ then (u32 (dr_h _), _) else _) as [xr yr].
  set (xpy := if negb (Z.land (t_rotation _) 1 =? 0) then _ else _).
  destruct (if _ || _ then set_best_hdmi_mode _ _ _ _ _ _ else Some (0, d)) as [[rv0 d1]|] eqn:Eb; [|done].
  assert (Hs : same_plan d d1).
  { destruct (_ || _); [by eapply set_best_hdmi_mode_plan|]. by injection Eb as <- <-. }
  destruct (negb (rv0 =? 0)).
  - intros [= <- <-]. left. split; [pose proof law_errnos; lia|]. eapply same_plan_trans; [exact Hs|]. done.
  - destruct (set_ext_matrix _ _) as [e|] eqn:Ee; [|done]. intros Hc. right. exists (set_ext e d1).
    split; [|done]. apply set_ext_matrix_plan in Ee as (He1 & He2 & _).
    eapply same_plan_trans; [exact Hs|]. by apply same_plan_ext.
Qed.

(** The same between frames, but for the overlays themselves. *)
Record same_rest (d d' : omap_hwc_device_t) : Prop := {
  sr_bufs : length (buffers d') = length (buffers d);
  sr_counts : counts d' = counts d;
  sr_ext_ovls : ext_ovls d' = ext_ovls d;
  sr_last_ext : last_ext_ovls d' = last_ext_ovls d;
  sr_last_int : last_int_ovls d' = last_int_ovls d;
  sr_dock : e_dock (ext d') = e_dock (ext d);
  sr_mirror : e_mirror (ext d') = e_mirror (ext d);
  sr_events : overlay_events d' = overlay_events d }.

Lemma same_rest_trans d d1 d2 : same_rest d d1 -> same_rest d1 d2 -> same_rest d d2.
Proof. intros [] []. split; congruence. Qed.
Lemma plan_rest d d' : same_plan d d' -> same_rest d d'.
Proof. by intros []. Qed.

Lemma mirror_layers_spec f n z d' :
  let d := f_dev f in
  let dc := dsscomp_data d in
  stack n 4 dc -> f_z f = Z.of_nat n ->
  (clones d = true -> t_docking (e_current (ext d)) = true -> (n <= 3)%nat /\ stack n 3 dc) ->
  (mirrors d = true -> (2 * n <= 4)%nat /\ stack n (4 - Z.of_nat n) dc) ->
  ((n < 4)%nat -> ovls dc !! n = Some zero_ovl) ->
  mirror_layers C E f = Some (z, d') ->
  exists m, stack m 4 (dsscomp_data d') /\ z = Z.of_nat m /\ (n <= m <= n + 2)%nat /\
    post2_layers d' = n /\ same_rest d d'.
Proof.
  intros d dc Hst Hz Hdk Hmi Hfree Hr. unfold mirror_layers in Hr.
  set (d1 := set_post2_layers _ _) in Hr.
  assert (Hd1 : same_rest d d1) by done.
  assert (Hnum : num_ovls dc = n) by apply Hst.
  assert (Hp1 : post2_layers d1 = n) by done.
  change (t_enabled (e_current (ext d1)) && _) with (clones d) in Hr.
  pose proof law_ovls as Hov.
  assert (Hsame : forall z0 d0, Some (z0, d0) = Some (z, d') -> same_plan d1 d0 -> z0 = f_z f ->
    exists m, stack m 4 (dsscomp_data d') /\ z = Z.of_nat m /\ (n <= m <= n + 2)%nat /\
      post2_layers d' = n /\ same_rest d d').
  { intros z0 d0 [= <- <-] Hs ->. exists n. rewrite (sp_dc _ _ Hs), (sp_post2 _ _ Hs).
    split_and!; [done|done|lia|lia|done|]. eapply same_rest_trans; [exact Hd1|by apply plan_rest]. }
  destruct (clones d) eqn:Ecl; [|by apply (Hsame _ _ Hr)].
  change (e_current (ext d1)) with (e_current (ext d)) in Hr.
  destruct (t_docking (e_current (ext d))) eqn:Edk.
  - destruct (Hdk eq_refl eq_refl) as [Hn3 Hst3].
    destruct (f_docking f) as [ix|].
    + destruct (clone_external_layer _ _ _ _) as [[rv d2]|] eqn:Ee; [|done].
      apply clone_external_layer_spec in Ee as [[Hrv Hs]|(d3 & Hs & Hc)].
      { rewrite (proj2 (Z.eqb_neq _ _) Hrv) in Hr. by apply (Hsame _ _ Hr). }
      pose proof (sp_dc _ _ Hs) as Hdc3. change (dsscomp_data d1) with dc in Hdc3.
      apply clone_layer_spec in Hc as (-> & o & o' & Ho & -> & Hzo & Hio & Hmo);
        [|rewrite Hdc3; apply Hst|rewrite Hdc3; lia].
      rewrite Hdc3, Hnum, (sp_post2 _ _ Hs), Hp1 in *. cbn [dsscomp_data set_dsscomp] in Hr. simpl num_ovls in Hr.
      change (S n - 1)%nat with (n - 0)%nat in Hr. rewrite Nat.sub_0_r in Hr.
      rewrite (upd_ovl_Some _ _ _ o') in Hr by (apply list_lookup_insert_eq; rewrite (st_len _ _ _ Hst); lia).
      simpl in Hr. rewrite list_insert_insert_eq in Hr. injection Hr as <- <-.
      exists (S n). split_and!; [|lia|lia|lia|by rewrite <- Hp1, <- (sp_post2 _ _ Hs)|].
      * eapply (stack_push n dc _ (upd_cfg (set_zorder (f_z f)) o')); [done|done| |done| | |].
        -- rewrite <- (shown_push n _ dc); [done|rewrite (st_len _ _ _ Hst); lia|done].
        -- simpl. rewrite length_insert. apply Hst.
        -- done.
        -- simpl. lia.
      * eapply same_rest_trans; [exact Hd1|]. eapply same_rest_trans; [by apply plan_rest|]. done.
    + destruct (force_dock _); [|by apply (Hsame _ _ Hr)].
      change (num_ovls (dsscomp_data d1)) with (num_ovls dc) in Hr. rewrite Hnum in Hr.
      change (dsscomp_data d1) with dc in Hr.
      rewrite (upd_ovl_Some _ _ _ _ (Hfree ltac:(lia))) in Hr.
      set (img := upd_cfg _ zero_ovl) in Hr. set (dc1 := set_ovls _ dc) in Hr.
      destruct (clone_external_layer _ _ _ _) as [[rv d2]|] eqn:Ee; [|done].
      assert (Hst1 : stack n 3 dc1).
      { destruct Hst3 as [A1 A2 A3 A4 A5]. split; [done|done|by simpl; rewrite length_insert| |];
          unfold zs, ixs, shown in *; simpl; by rewrite take_insert_ge by lia. }
      apply clone_external_layer_spec in Ee as [[Hrv Hs]|(d3 & Hs & Hc)].
      { rewrite (proj2 (Z.eqb_neq _ _) Hrv) in Hr. injection Hr as <- <-. exists n.
        rewrite (sp_dc _ _ Hs), (sp_post2 _ _ Hs). split_and!; [by eapply stack_weaken|done|lia|lia|done|].
        eapply same_rest_trans; [|by apply plan_rest]. done. }
      pose proof (sp_dc _ _ Hs) as Hdc3. cbn [dsscomp_data set_dsscomp] in Hdc3.
      apply clone_layer_spec in Hc as (-> & o & o' & Ho & -> & Hzo & Hio & Hmo);
        [|rewrite Hdc3; apply Hst1|rewrite Hdc3; simpl; lia].
      assert (Hn1 : num_ovls dc1 = n) by done.
      rewrite Hdc3, Hn1, (sp_post2 _ _ Hs) in *. cbn [post2_layers set_dsscomp] in Hzo, Hio. rewrite Hp1 in *.
      assert (Hl1 : length (ovls dc1) = DSS_OVLS) by apply Hst1.
      assert (Hoi : o = img).
      { unfold dc1 in Ho. simpl in Ho. rewrite list_lookup_insert_eq in Ho by (rewrite (st_len _ _ _ Hst); lia). congruence. }
      rewrite Hoi in Hzo.
      cbn [dsscomp_data set_dsscomp] in Hr. simpl (0 =? 0) in Hr. cbv iota in Hr.
      rewrite (upd_ovl_Some n _ _ o') in Hr by (simpl; apply list_lookup_insert_eq; simpl in Hl1; lia).
      injection Hr as <- <-.
      exists (S n). split_and!; [|lia|lia|lia|by rewrite <- Hp1; apply (sp_post2 _ _ Hs)|].
      * eapply (stack_push n dc1 _ (mkOvl (cfg o') OMAP_DSS_BUFADDR_FB 0)); [done|done| |done| | |].
        -- rewrite <- (shown_push n _ dc1); [|lia|done]. simpl. by rewrite list_insert_insert_eq.
        -- simpl. rewrite !length_insert. simpl in Hl1. by rewrite length_insert in Hl1.
        -- simpl. rewrite Hzo. unfold img. simpl.
           destruct (valid_format_color HAL_PIXEL_FORMAT_BGRA_8888 true) as [[col cv] Hcv].
           { unfold is_valid_format. by rewrite Z.eqb_refl, !orb_true_r. }
           unfold setup_layer_base. rewrite Hcv. done.
        -- simpl. rewrite Hio. lia.
      * eapply same_rest_trans; [|eapply same_rest_trans; [by apply plan_rest|]]; done.
  - destruct (Hmi) as [Hn2 Hst2]; [unfold mirrors; by rewrite Ecl, Edk|].
    destruct (if t_docking (e_last _) then _ else _) as [[rv d2]|] eqn:Es; [|done].
    assert (Hs : same_plan d1 d2).
    { destruct (t_docking (e_last _)); [by eapply setup_mirroring_plan|]. by injection Es as <- <-. }
    destruct (negb (rv =? 0)); [by apply (Hsame _ _ Hr)|].
    pose proof (sp_dc _ _ Hs) as Hdc2. change (dsscomp_data d1) with dc in Hdc2.
    pose proof (sp_post2 _ _ Hs) as Hp2. rewrite Hp1 in Hp2. rewrite Hp2 in Hr.
    destruct (clone_layers_spec dc n n 0 (f_z f) d2 z d') as (-> & Hc & Hd'); try done; try lia.
    { rewrite Hdc2. split; [lia|apply Hst|done| |]; by rewrite List.app_nil_r. }
    exists (2 * n)%nat. split_and!; [by eapply cloned_stack|lia|lia|lia|by rewrite Hd'|].
    eapply same_rest_trans; [exact Hd1|]. eapply same_rest_trans; [by apply plan_rest|]. by rewrite Hd'.
Qed.

End Plan.
