(* ===== verification/HwcFrames.v ===== *)
(** Frame after frame (src/hwc/hwc.c): every composition that [hwc_set] posts has
    at most four overlays, on distinct z-orders and on distinct pipes of the display
    subsystem, whatever the layers, the blits and the external display do between
    two frames. *)

From Stdlib Require Import ZArith Lia Floats.SpecFloat.
From stdpp Require Import base list list_numbers option tactics.
From S2P Require Import Prelude RgzGeometry RgzState RgzBlit HwcModel HwcLayers HwcGeometry HwcPrepare.
From S2P Require Import HwcOverlays HwcChoice HwcPlan.

(** * The places of the overlays *)

(** The z-order and the pipe of each overlay, used or not. *)
Definition places (dc : dsscomp_setup_dispc_data) : list (Z * Z) :=
  (fun o => (zorder (cfg o), c_ix (cfg o))) <$> ovls dc.

Record same_places (dc dc' : dsscomp_setup_dispc_data) : Prop := {
  pc_num : num_ovls dc' = num_ovls dc;
  pc_places : places dc' = places dc }.

Lemma same_places_trans a b c : same_places a b -> same_places b c -> same_places a c.
Proof. intros [] []. split; congruence. Qed.

Section Places.
Context `{DssApi}.

Lemma same_places_upd i g dc dc' :
  (forall o, zorder (cfg (g o)) = zorder (cfg o) /\ c_ix (cfg (g o)) = c_ix (cfg o)) ->
  upd_ovl i g dc = Some dc' -> same_places dc dc'.
Proof.
  intros Hg. unfold upd_ovl. destruct (ovls dc !! i) as [o|] eqn:Ho; [|done]. intros [= <-].
  split; [done|]. unfold places. simpl. rewrite list_fmap_insert. destruct (Hg o) as [-> ->].
  apply list_insert_id. by rewrite list_lookup_fmap, Ho.
Qed.

Lemma shown_places dc dc' : same_places dc dc' -> zs dc' = zs dc /\ ixs dc' = ixs dc.
Proof.
  intros [Hn Hp].
  assert (Hz : forall d, zs d = take (num_ovls d) (places d).*1)
    by (intros d; unfold zs, shown, places; by rewrite <- list_fmap_compose, fmap_take).
  assert (Hi : forall d, ixs d = take (num_ovls d) (places d).*2)
    by (intros d; unfold ixs, shown, places; by rewrite <- list_fmap_compose, fmap_take).
  by rewrite !Hz, !Hi, Hn, Hp.
Qed.

Lemma stack_places n top dc dc' : stack n top dc -> same_places dc dc' -> stack n top dc'.
Proof.
  intros [Hnum Hmax Hlen Hz Hi] Hs. destruct (shown_places _ _ Hs) as [Ez Ei].
  split; [by rewrite (pc_num _ _ Hs)|done| |by rewrite Ez|by rewrite Ei].
  rewrite <- Hlen. pose proof (pc_places _ _ Hs) as Hp. apply (f_equal length) in Hp.
  unfold places in Hp. by rewrite !length_fmap in Hp.
Qed.

End Places.

(** * The check of [hwc_prepare] *)

Lemma bit_free a i : 0 <= i -> negb (Z.land a (Z.shiftl 1 i) =? 0) = Z.testbit a i.
Proof.
  intros Hi. rewrite Z.shiftl_1_l. destruct (Z.testbit a i) eqn:Eb.
  - apply negb_true_iff, Z.eqb_neq. intros Hz. apply (f_equal (fun x => Z.testbit x i)) in Hz.
    rewrite Z.land_spec, Eb, Z.pow2_bits_true, Z.bits_0 in Hz by done. done.
  - apply negb_false_iff, Z.eqb_eq, Z.bits_inj'. intros k Hk.
    rewrite Z.land_spec, Z.bits_0, Z.pow2_bits_eqb by done.
    destruct (i =? k) eqn:Ek; [apply Z.eqb_eq in Ek as <-; by rewrite Eb|by rewrite andb_false_r].
Qed.

Lemma bit_taken a i j : 0 <= i -> 0 <= j -> i <> j -> Z.testbit (Z.lor a (Z.shiftl 1 i)) j = Z.testbit a j.
Proof.
  intros Hi Hj Hne. rewrite Z.lor_spec, Z.shiftl_1_l, Z.pow2_bits_eqb by done.
  by rewrite (proj2 (Z.eqb_neq i j)), orb_false_r.
Qed.

Lemma check_distinct_nil os za ia :
  let zl := (fun o => zorder (cfg o)) <$> os in
  let il := (fun o => c_ix (cfg o)) <$> os in
  NoDup zl -> Forall (fun z => 0 <= z /\ Z.testbit za z = false) zl ->
  NoDup il -> Forall (fun i => 0 <= i /\ Z.testbit ia i = false) il ->
  check_distinct os za ia = [].
Proof.
  revert za ia. induction os as [|o os IH]; intros za ia; [done|]. csimpl.
  rewrite !list.NoDup_cons, !list.Forall_cons. intros [Hz Hz'] [[Hz0 Hz1] Hz2] [Hi Hi'] [[Hi0 Hi1] Hi2].
  simpl. rewrite !bit_free, Hz1, Hi1 by done. simpl. apply IH; [done| |done|].
  all: rewrite list.Forall_forall in *; intros x Hx.
  - destruct (Hz2 x Hx). split; [done|]. rewrite bit_taken; [done..|]. intros <-. by first [apply Hz|apply Hi].
  - destruct (Hi2 x Hx). split; [done|]. rewrite bit_taken; [done..|]. intros <-. by first [apply Hz|apply Hi].
Qed.

(** A stack raises no complaint. *)
Lemma check_overlays_nil `{DssApi} n dc : stack n 4 dc -> check_overlays (Z.of_nat n) dc = [].
Proof.
  intros [Hnum Hmax _ [Hz1 Hz2] [Hi1 Hi2]]. unfold check_overlays, MAX_HW_OVERLAYS.
  rewrite Hnum, Z.eqb_refl, Z.gtb_ltb, (proj2 (Z.ltb_ge _ _)) by lia. simpl.
  rewrite <- Hnum. apply check_distinct_nil; [done| |done|].
  - eapply list.Forall_impl; [exact Hz2|]. intros z Hz. simpl in Hz. rewrite Z.bits_0. by split; [lia|].
  - eapply list.Forall_impl; [exact Hi2|]. intros z Hz. simpl in Hz. rewrite Z.bits_0. by split; [lia|].
Qed.

(** * The overlays of a plan *)

Section Frames.
Context `{HwcApi} `{DssApi} `{BvApi} {laws : DssLaws}.
Context (hmem : Z -> option IMG_native_handle_t) (bg_layer : hwc_layer_1_t).
Context (C : hwc_config) (E : hwc_env).
Hypothesis lims : limits_ok C.
Hypothesis fmt : is_valid_format (fb_format C) = true.

(** The z-order of the overlay [i]. *)
Definition z_at (d0 : omap_hwc_device_t) (ds : list decision) (i : nat) : Z :=
  if (i <? first_ovl d0)%nat then Z.of_nat (fb_below d0 ds) else z_of (fb_place d0 ds) (i - first_ovl d0).

Lemma z_at_inj d0 ds i j :
  (i < first_ovl d0 + length (chosen ds))%nat -> (j < first_ovl d0 + length (chosen ds))%nat ->
  z_at d0 ds i = z_at d0 ds j -> i = j.
Proof.
  unfold z_at, z_of, fb_place, first_ovl. destruct (use_sgx d0); intros Hi Hj;
    repeat case_match; rewrite ?Nat.ltb_lt, ?Nat.ltb_ge, ?Nat.leb_le, ?Nat.leb_gt in *; simplify_eq; lia.
Qed.

Lemma z_at_bounds d0 ds i :
  (i < first_ovl d0 + length (chosen ds))%nat ->
  0 <= z_at d0 ds i < Z.of_nat (first_ovl d0 + length (chosen ds)).
Proof.
  assert (Hb : (fb_below d0 ds <= length (chosen ds))%nat).
  { unfold fb_below. destruct (fb_level d0 ds) eqn:E1; simpl; [by eapply fb_level_below|done]. }
  unfold z_at, z_of, fb_place, first_ovl. destruct (use_sgx d0); intros Hi;
    repeat case_match; rewrite ?Nat.ltb_lt, ?Nat.ltb_ge, ?Nat.leb_le, ?Nat.leb_gt in *; simplify_eq; lia.
Qed.

(** The bound of the pipes of a plan: a scaled layer that left the GFX pipe is one above the others. *)
Definition tops (d0 : omap_hwc_device_t) (ds : list decision) (top : Z) : Prop :=
  let n := Z.of_nat (first_ovl d0 + length (chosen ds)) in
  top = primary_transform C + n \/
  (use_sgx d0 = false /\ primary_transform C = 0 /\ top = n + 1 /\
   Forall (fun l => exists h, hmem (handle l) = Some h /\ unscaled l h = false) (chosen ds)).

Lemma plan_stack d0 ds dc bufs :
  plan hmem C d0 ds dc bufs -> (num_ovls dc <= 4)%nat ->
  exists top, stack (num_ovls dc) top dc /\ tops d0 ds top.
Proof.
  intros [Hnum Hlen Hlay Hfb _ (pipe & Hp & Hinj & Hlt)] Hn. pose proof law_ovls as Hov.
  assert (Hat : forall i, (i < num_ovls dc)%nat -> exists o, ovls dc !! i = Some o /\
            zorder (cfg o) = z_at d0 ds i /\ c_ix (cfg o) = primary_transform C + Z.of_nat (pipe i)).
  { intros i Hi. destruct (lookup_lt_is_Some_2 (ovls dc) i) as [o Ho]; [lia|].
    exists o. split_and!; [done| |by apply Hp]. unfold z_at. destruct (i <? first_ovl d0)%nat eqn:Ei.
    - apply Nat.ltb_lt in Ei. unfold first_ovl in Ei. destruct (use_sgx d0) eqn:Es; [|lia].
      destruct (Hfb eq_refl) as (o' & Ho' & _ & _ & _ & Hz & _). assert (i = 0%nat) as -> by lia. congruence.
    - apply Nat.ltb_ge in Ei. destruct (lookup_lt_is_Some_2 (chosen ds) (i - first_ovl d0)) as [l Hl]; [lia|].
      destruct (Hlay _ _ Hl) as (h & o' & _ & _ & Ho' & _ & _ & _ & Hz & _).
      replace (first_ovl d0 + (i - first_ovl d0))%nat with i in Ho' by lia. congruence. }
  assert (Hzi : forall {A} (g : dss2_ovl_info -> A) i, ((g <$> shown dc) !! i) =
            if (i <? num_ovls dc)%nat then g <$> ovls dc !! i else None).
  { intros A g i. unfold shown. rewrite list_lookup_fmap. destruct (i <? num_ovls dc)%nat eqn:Ei.
    - apply Nat.ltb_lt in Ei. by rewrite lookup_take_lt.
    - apply Nat.ltb_ge in Ei. by rewrite lookup_take_ge. }
  assert (Hdup : forall (g : dss2_ovl_info -> Z) (v : nat -> Z),
    (forall i o, (i < num_ovls dc)%nat -> ovls dc !! i = Some o -> g o = v i) ->
    (forall i j, (i < num_ovls dc)%nat -> (j < num_ovls dc)%nat -> v i = v j -> i = j) ->
    NoDup (g <$> shown dc)).
  { intros g v Hg Hv. apply NoDup_alt. intros i j x. rewrite !Hzi.
    destruct (i <? num_ovls dc)%nat eqn:Ei; [|done]. destruct (j <? num_ovls dc)%nat eqn:Ej; [|done].
    apply Nat.ltb_lt in Ei, Ej. rewrite !fmap_Some. intros (a & Ha & ->) (b & Hb & Hab).
    apply Hv; [done..|]. rewrite <- (Hg i a), <- (Hg j b); done. }
  assert (Hall : forall (g : dss2_ovl_info -> Z) (P : Z -> Prop),
    (forall i o, (i < num_ovls dc)%nat -> ovls dc !! i = Some o -> P (g o)) -> Forall P (g <$> shown dc)).
  { intros g P Hg. apply Forall_lookup. intros i x. rewrite Hzi.
    destruct (i <? num_ovls dc)%nat eqn:Ei; [|done]. apply Nat.ltb_lt in Ei.
    rewrite fmap_Some. intros (a & Ha & ->). by eapply Hg. }
  set (top := if bool_decide (Exists (fun i => pipe i = num_ovls dc) (seq 0 (num_ovls dc)))
              then Z.of_nat (num_ovls dc) + 1 else primary_transform C + Z.of_nat (num_ovls dc)).
  assert (Hpt : 0 <= primary_transform C) by (destruct (ok_primary C lims); lia).
  assert (Htop : tops d0 ds top /\ forall i, (i < num_ovls dc)%nat -> primary_transform C + Z.of_nat (pipe i) < top).
  { unfold top, tops. case_bool_decide as Hex; rewrite <- Hnum.
    - apply Exists_exists in Hex as (i & Hi & Hpi). apply in_seq in Hi.
      destruct (Hlt i ltac:(lia)) as [?|(_ & Hf & Hp0 & _ & Hc)]; [lia|]. split.
      + right. split_and!; [|done|done|done]. unfold first_ovl in Hf. by destruct (use_sgx d0).
      + intros k Hk. destruct (Hlt k Hk) as [?|(? & _)]; lia.
    - split; [by left|]. intros k Hk. destruct (Hlt k Hk) as [?|(Hpk & _)]; [lia|].
      exfalso. apply Hex, Exists_exists. exists k. split; [apply in_seq; lia|done]. }
  exists top. split; [|apply Htop].
  split; [done|done|done| |].
  - split.
    + apply (Hdup _ (z_at d0 ds)); [|rewrite Hnum; apply z_at_inj].
      intros i o Hi Ho. destruct (Hat i Hi) as (o' & Ho' & ? & _). congruence.
    + apply Hall. intros i o Hi Ho. destruct (Hat i Hi) as (o' & Ho' & Hz & _).
      rewrite Ho in Ho'. injection Ho' as <-. rewrite Hz, Hnum. apply z_at_bounds. lia.
  - split.
    + apply (Hdup _ (fun i => primary_transform C + Z.of_nat (pipe i))).
      * intros i o Hi Ho. by apply Hp.
      * intros i j Hi Hj Hij. apply Hinj; [done..|lia].
    + apply Hall. intros i o Hi Ho. rewrite (Hp i o Hi Ho). destruct Htop as [_ Ht]. specialize (Ht i Hi). lia.
Qed.


(** * The overlays of the primary display *)

(** A composition just cleared. *)
Definition blank (d : omap_hwc_device_t) : Prop :=
  ovls (dsscomp_data d) = replicate DSS_OVLS zero_ovl /\ num_mgrs (dsscomp_data d) = 0%nat.

Lemma loop_init d0 :
  blank d0 -> num_ovls (dsscomp_data d0) = first_ovl d0 ->
  loop hmem C d0 [] (mkFrame d0 0 (-1) None false 0).
Proof.
  intros [Ho Hm] Hn. assert (Hf : fb_level d0 [] = None) by (unfold fb_level; by destruct (use_sgx d0)).
  split; cbn [f_dev f_z f_fb_z f_docking f_scaled_gfx chosen]; rewrite ?Hf; try done.
  - by destruct d0.
  - change (length (chosen [])) with 0%nat. lia.
  - rewrite Ho. by rewrite length_replicate.
  - intros i Hi. rewrite Ho. apply lookup_replicate_2.
    unfold first_ovl, chosen in Hi. pose proof law_ovls. simpl in Hi. case_match; lia.
  - exists 0%nat. split; [|done]. intros k o Hk. simpl in Hk. lia.
Qed.

(** The layers counted as scaled. *)
Definition is_scaled (l : hwc_layer_1_t) (h : IMG_native_handle_t) : bool :=
  scaled l || is_NV12 h || negb (primary_transform C =? 0).
Definition scaled_count (ls : list hwc_layer_1_t) : Z := counted is_scaled (valids hmem C ls).

Lemma takes_overlay_valid_of l f :
  takes_overlay hmem C l f = Some true -> exists h, hmem (handle l) = Some h /\ valid_of hmem C l = Some (l, h).
Proof.
  intros Ht. pose proof Ht as Ht'. unfold takes_overlay in Ht.
  destruct (negb _); [done|]. destruct (can_dss_render_layer _ _ _ _) as [[]|] eqn:Ec; try done.
  apply takes_overlay_valid in Ht' as (h & Hh & _). exists h. split; [done|].
  unfold can_dss_render_layer in Ec.
  match type of Ec with (match ?X with _ => _ end) = _ => destruct X as [cl|]; [|done] end.
  unfold valid_of. destruct (is_valid_layer _ _ _) as [[]|]; try done. by rewrite Hh.
Qed.

(** When every layer on an overlay is scaled there are no more than the scaled
    layers counted. *)
Lemma decided_scaled ls f ds f' :
  decided hmem C ls f ds f' ->
  Forall (fun l => exists h, hmem (handle l) = Some h /\ unscaled l h = false) (chosen ds) ->
  Z.of_nat (length (chosen ds)) <= scaled_count ls.
Proof.
  unfold scaled_count, valids, counted.
  induction 1 as [|l ls f f1 ds f' Ht _ _ IH|l ls f f1 ds f' Ht _ _ IH]; intros Hc.
  - done.
  - change (chosen ((l, true) :: ds)) with (l :: chosen ds) in *.
    apply list.Forall_cons in Hc as [(h & Hh & Hu) Hc]. specialize (IH Hc).
    apply takes_overlay_valid_of in Ht as (h' & Hh' & Hv). assert (h' = h) as -> by congruence.
    csimpl. rewrite Hv. rewrite list.filter_cons_True; [simpl; lia|].
    simpl. unfold is_scaled. unfold unscaled in Hu. apply negb_false_iff in Hu. by rewrite Hu.
  - change (chosen ((l, false) :: ds)) with (chosen ds) in *. specialize (IH Hc).
    csimpl. destruct (valid_of hmem C l); [|lia]. rewrite list.filter_cons. case_decide; simpl; lia.
Qed.

(** What the rest of the composition needs of the overlays of the primary display. *)
Record primary_stack (d : omap_hwc_device_t) (ls : list hwc_layer_1_t) (f : frame) : Prop := {
  ps_stack : exists top,
    stack (num_ovls (dsscomp_data (f_dev f))) top (dsscomp_data (f_dev f)) /\
    let n := Z.of_nat (num_ovls (dsscomp_data (f_dev f))) in
    let p := primary_transform C in
    (top <= p + n \/ (use_sgx d = false /\ p = 0 /\ top <= n + 1 /\ n <= scaled_count ls));
  ps_z : f_z f = Z.of_nat (num_ovls (dsscomp_data (f_dev f)));
  ps_max : Z.of_nat (num_ovls (dsscomp_data (f_dev f))) <= Z.max 1 (max_hw_overlays (counts d));
  ps_free : forall i, (num_ovls (dsscomp_data (f_dev f)) <= i < DSS_OVLS)%nat ->
    ovls (dsscomp_data (f_dev f)) !! i = Some zero_ovl;
  ps_rest : same_rest d (f_dev f);
  ps_ext : ext (f_dev f) = ext d;
  ps_wanted : ext_ovls_wanted (f_dev f) = ext_ovls_wanted d }.

(** [place_fb] reads only the composition, the z-orders and the limits. *)
Lemma place_fb_spec f f' :
  place_fb C f = Some f' ->
  (forall g, dsscomp_data (f_dev g) = dsscomp_data (f_dev f) -> f_z g = f_z f -> f_fb_z g = f_fb_z f ->
     forall g', place_fb C g = Some g' -> dsscomp_data (f_dev g') = dsscomp_data (f_dev f') /\ f_z g' = f_z f') /\
  ext (f_dev f') = ext (f_dev f) /\ ext_ovls_wanted (f_dev f') = ext_ovls_wanted (f_dev f) /\
  same_rest (f_dev f) (f_dev f').
Proof.
  intros Hf. split.
  - intros g Hd Hz Hb g'. revert Hf. unfold place_fb. rewrite Hz, Hb.
    destruct (if f_fb_z f <? 0 then _ else _) as [fb z].
    destruct (if use_sgx _ then _ else _) as [b|]; [|done].
    set (d1 := dsscomp_data (if _ : bool then _ else f_dev f)).
    assert (Hd1 : d1 = dsscomp_data (f_dev f)) by (unfold d1; by case_match).
    destruct (upd_ovl 0 _ d1) as [dc|] eqn:Eu; [|done]. intros [= <-].
    destruct (if use_sgx _ then _ else _) as [b'|]; [|done].
    set (d2 := dsscomp_data (if _ : bool then _ else f_dev g)).
    assert (Hd2 : d2 = d1) by (rewrite Hd1, <- Hd; unfold d2; by case_match).
    rewrite Hd2, Eu. by intros [= <-].
  - revert Hf. unfold place_fb. destruct (if f_fb_z f <? 0 then _ else _) as [fb z].
    set (d1 := if _ : bool then _ else f_dev f).
    assert (Hd1 : ext d1 = ext (f_dev f) /\ ext_ovls_wanted d1 = ext_ovls_wanted (f_dev f) /\ same_plan (f_dev f) d1).
    { unfold d1. case_match; [|done]. split_and!; [done|done|by apply same_plan_event]. }
    destruct (if use_sgx d1 then _ else _) as [b|] eqn:Eb; [|done].
    assert (Hlen : length b = length (buffers d1)).
    { destruct (use_sgx d1); [by eapply put_buffers_length|by injection Eb as <-]. }
    destruct (upd_ovl _ _ _) as [dc|]; [|done]. intros [= <-]. simpl.
    destruct Hd1 as (He & Hw & Hs). split_and!; [done|done|].
    apply (same_rest_trans _ d1); [by apply plan_rest|]. by split.
Qed.

Lemma plan_primary d d0 ls ds dc bufs f :
  plan hmem C d0 ds dc bufs -> dsscomp_data (f_dev f) = dc -> f_z f = Z.of_nat (num_ovls dc) ->
  (num_ovls dc <= 4)%nat -> Z.of_nat (num_ovls dc) <= Z.max 1 (max_hw_overlays (counts d)) ->
  (use_sgx d0 = false -> use_sgx d = false /\
   (Forall (fun l => exists h, hmem (handle l) = Some h /\ unscaled l h = false) (chosen ds) ->
    Z.of_nat (length (chosen ds)) <= scaled_count ls)) ->
  same_rest d (f_dev f) -> ext (f_dev f) = ext d -> ext_ovls_wanted (f_dev f) = ext_ovls_wanted d ->
  primary_stack d ls f.
Proof.
  intros Hp Hdc Hz Hn Hm Hs Hr He Hw.
  destruct (plan_stack _ _ _ _ Hp Hn) as (top & Hst & Ht).
  split; rewrite ?Hdc; try done.
  - exists top. split; [done|]. unfold tops in Ht. rewrite <- (pl_num _ _ _ _ _ _ Hp) in Ht.
    destruct Ht as [->|(Hs0 & Hp0 & -> & Hf)]; [left; lia|right].
    destruct (Hs Hs0) as [Hs1 Hl]. specialize (Hl Hf). rewrite (pl_num _ _ _ _ _ _ Hp).
    unfold first_ovl in *. rewrite Hs0 in *. split_and!; [done|done|lia|simpl; lia].
  - intros i Hi. apply (pl_free _ _ _ _ _ _ Hp). rewrite <- (pl_num _ _ _ _ _ _ Hp). lia.
Qed.

(** The overlays of the layers, and the framebuffer among them. *)
Lemma setup_overlays_spec l d l' f :
  blank d -> (4 <= length (buffers d))%nat -> max_hw_overlays (counts d) <= MAX_HW_OVERLAYS ->
  setup_overlays hmem bg_layer C E l d = Some (l', f) -> primary_stack d (layers_of l) f.
Proof.
  intros [Hbo Hbm] Hbuf Hmax. unfold setup_overlays. pose proof law_ovls as Hov.
  destruct (if blt_policy C =? BLTPOLICY_ALL then _ else _) as [[[ok l1] d1]|] eqn:Eb; [|done].
  assert (Hb : same_plan d d1 /\ ext d1 = ext d /\ use_sgx d1 = use_sgx d /\
               (if ok then blt_policy C = BLTPOLICY_ALL else l1 = l)).
  { destruct (blt_policy C =? BLTPOLICY_ALL) eqn:Ep; [|by injection Eb as <- <- <-].
    apply Z.eqb_eq in Ep. apply blit_layers_plan in Eb as (? & ? & ? & Hl).
    split_and!; [done..|]. destruct ok; [done|by apply Hl]. }
  destruct Hb as (Hs & He & Hu & Hok).
  assert (Hbl : forall n sgx, let d0 := set_sgx sgx (swap_rb d1) (set_dsscomp (set_num_ovls n (dsscomp_data d1)) d1) in
            blank d0 /\ num_ovls (dsscomp_data d0) = n).
  { intros n sgx. unfold blank. simpl. by rewrite (sp_dc _ _ Hs). }
  destruct ok.
  - simpl. rewrite Hok. simpl.
    set (f1 := mkFrame _ 0 (-1) None false 0).
    destruct (place_fb C f1) as [f2|] eqn:Ef; [|done]. intros [= <- <-].
    set (d0 := set_sgx true (swap_rb d1) (set_dsscomp (set_num_ovls 1 (dsscomp_data d1)) d1)).
    destruct (Hbl 1%nat true) as [Hb1 Hb2].
    pose proof (loop_init d0 Hb1 Hb2) as L.
    assert (Hlen : (4 <= length (buffers d0))%nat) by (simpl; by rewrite (sp_bufs _ _ Hs)).
    assert (Hmx : max_hw_overlays (counts d0) <= MAX_HW_OVERLAYS) by (simpl; by rewrite (sp_counts _ _ Hs)).
    destruct (plan_fb hmem C d0 (conj Hov Hlen) Hmx [] _ L) as (_ & f3 & evs & Hf3 & Hp & Hz & _);
      [done|done|lia|lia|].
    destruct (place_fb_spec _ _ Ef) as (Hsame & He2 & Hw2 & Hr2).
    destruct (Hsame (mkFrame d0 0 (-1) None false 0) ltac:(done) ltac:(done) ltac:(done) _ Hf3) as [Hd3 Hz3].
    rewrite Hd3 in *. rewrite Hz3 in Hz.
    assert (Hn : num_ovls (dsscomp_data (f_dev f2)) = 1%nat) by apply (pl_num _ _ _ _ _ _ Hp).
    apply (plan_primary _ d0 _ [] (dsscomp_data (f_dev f2)) (buffers (f_dev f3))); try done; try lia.
    + eapply same_rest_trans; [by apply plan_rest|]. eapply same_rest_trans; [|exact Hr2]. done.
    + by rewrite He2.
    + rewrite Hw2. apply (sp_wanted _ _ Hs).
  - subst l1. simpl. set (d0 := set_dsscomp _ d1).
    assert (Hs0 : same_rest d d0) by (eapply same_rest_trans; [by apply plan_rest|done]).
    assert (Hd0 : loop hmem C d0 [] (mkFrame d0 0 (-1) None false 0)).
    { destruct (Hbl (if use_sgx d then 1%nat else 0%nat) (use_sgx d1)) as [Hb1 Hb2].
      apply loop_init; [by destruct Hb1|]. unfold first_ovl, d0. simpl. by rewrite Hu. }
    assert (Hu0 : use_sgx d0 = use_sgx d) by done.
    assert (Hc0 : counts d0 = counts d) by (apply (sp_counts _ _ Hs)).
    assert (Hmx : max_hw_overlays (counts d0) <= MAX_HW_OVERLAYS) by by rewrite Hc0.
    assert (Hroom : (4 <= DSS_OVLS)%nat /\ (4 <= length (buffers d0))%nat)
      by (split; [done|]; by rewrite (sr_bufs _ _ Hs0)).
    assert (B0 : between hmem C d0 [] (mkFrame d0 0 (-1) None false 0)).
    { split; [done|]. split; [simpl; unfold chosen; simpl; lia|]. intros [|] ? ?; done. }
    destruct (prepare_layers _ _ _ _) as [[ls1 f1]|] eqn:El; [|done].
    destruct (prepare_layers_run hmem C d0 Hroom Hmx _ [] _ _ _ B0 El) as (ds & _ & Hdec & B).
    simpl in B. pose proof (between_room hmem C d0 Hroom Hmx _ _ B) as Hrm. destruct B as (L & Hl & _).
    set (l2 := option_map _ l).
    assert (Hbounds : forall dc, num_ovls dc = (first_ovl d0 + length (chosen ds))%nat ->
      (num_ovls dc <= 4)%nat /\ Z.of_nat (num_ovls dc) <= Z.max 1 (max_hw_overlays (counts d))).
    { intros dc Hn. rewrite Hn. split; [done|]. rewrite Hc0 in Hl. unfold first_ovl in *. case_match; lia. }
    assert (Hsc : use_sgx d0 = false -> use_sgx d = false /\
      (Forall (fun l => exists h, hmem (handle l) = Some h /\ unscaled l h = false) (chosen ds) ->
       Z.of_nat (length (chosen ds)) <= scaled_count (layers_of l))).
    { intros Hf. split; [congruence|]. by eapply decided_scaled. }
    pose proof (lp_dev _ _ _ _ _ L) as Hdev.
    assert (Hs1 : same_rest d (f_dev f1)).
    { eapply same_rest_trans; [exact Hs0|]. rewrite Hdev. split; try done. apply (lp_bufs _ _ _ _ _ L). }
    assert (He1 : ext (f_dev f1) = ext d) by by rewrite Hdev.
    assert (Hw1 : ext_ovls_wanted (f_dev f1) = ext_ovls_wanted d) by (rewrite Hdev; apply (sp_wanted _ _ Hs)).
    destruct (if f_scaled_gfx f1 then _ else _) as [dc|] eqn:Edc; [|done].
    set (d2 := set_dsscomp dc (f_dev f1)).
    destruct (if blt_policy C =? BLTPOLICY_DEFAULT then _ else _) as [[l3 d3]|] eqn:Ebl; [|done].
    assert (Hd3 : dsscomp_data d3 = dc /\ same_rest d2 d3 /\ ext d3 = ext d2 /\ ext_ovls_wanted d3 = ext_ovls_wanted d2).
    { revert Ebl. clear -laws. clearbody l2. destruct (blt_policy C =? BLTPOLICY_DEFAULT); [|by intros [= <- <-]].
      change (use_sgx (f_dev f1)) with (use_sgx d2). destruct (use_sgx d2); [|by intros [= <- <-]].
      destruct (blit_layers _ _ _ _ _ _ _) as [[[ok l4] d4]|] eqn:Eb2; [|done].
      apply blit_layers_plan in Eb2 as (Hs4 & He4 & _). pose proof (plan_rest _ _ Hs4) as Hr4.
      intros [= <- <-]. destruct Hs4. destruct ok; by split_and!. }
    destruct Hd3 as (Hdc3 & Hr3 & He3 & Hw3).
    assert (Hr : same_rest d d3) by (eapply same_rest_trans; [exact Hs1|]; eapply same_rest_trans; [|exact Hr3]; done).
    destruct (use_sgx d) eqn:Eu.
    + destruct (plan_fb hmem C d0 Hroom Hmx ds f1 L) as (Hg & f2 & evs & Hf2 & Hp & Hz & _); [congruence|done|lia|lia|].
      rewrite Hg in Edc. injection Edc as <-.
      destruct (place_fb C (mkFrame d3 _ _ _ _ _)) as [f3|] eqn:Ef; [|done]. intros [= <- <-].
      destruct (place_fb_spec _ _ Ef) as (Hsame & He2 & Hw2 & Hr2).
      destruct (Hsame f1 ltac:(done) ltac:(done) ltac:(done) _ Hf2) as [Hd4 Hz4].
      rewrite Hd4 in *. rewrite Hz4 in Hz. destruct (Hbounds _ (pl_num _ _ _ _ _ _ Hp)).
      apply (plan_primary _ d0 _ ds (dsscomp_data (f_dev f3)) (buffers (f_dev f2))); try done.
      * intros Hf. congruence.
      * by eapply same_rest_trans.
      * rewrite He2. simpl. by rewrite He3.
      * rewrite Hw2. simpl. by rewrite Hw3.
    + intros [= <- <-].
      destruct (plan_no_fb hmem C d0 Hroom ds f1 dc L) as [Hp Hz]; [congruence|done|].
      destruct (Hbounds _ (pl_num _ _ _ _ _ _ Hp)).
      apply (plan_primary _ d0 _ ds dc (buffers (f_dev f1))); try done.
      * rewrite Eu. exact Hsc.
      * simpl. by rewrite He3.
      * simpl. by rewrite Hw3.
Qed.

(** * A frame *)

Lemma adjust_primary_display_layer_keeps o o' :
  adjust_primary_display_layer C o = Some o' -> zorder (cfg o') = zorder (cfg o) /\ c_ix (cfg o') = c_ix (cfg o).
Proof.
  unfold adjust_primary_display_layer.
  destruct (crop_to_rect _ _) as [c|] eqn:Ec; [|by intros [= <-]].
  assert (Hc : zorder c = zorder (cfg o) /\ c_ix c = c_ix (cfg o)).
  { unfold crop_to_rect in Ec. destruct (spans_of _) as [a b]. destruct (align_spans _ _ _) as [a' b'].
    destruct (crop_span _ _ a'); [|done]. destruct (crop_span _ _ b'); [|done].
    destruct (realign_spans _ _ _). by injection Ec as <-. }
  destruct (apply_transform _ _) as [c'|] eqn:Ea; [|done]. intros [= <-]. simpl.
  destruct Hc as [<- <-]. unfold apply_transform in Ea.
  repeat match type of Ea with (match ?X with _ => _ end) = _ => destruct X; [|done] end. by injection Ea as <-.
Qed.

Lemma adjust_primary_spec d d' :
  adjust_primary C d = Some d' -> same_places (dsscomp_data d) (dsscomp_data d') /\ d' = set_dsscomp (dsscomp_data d') d.
Proof.
  unfold adjust_primary. destruct (primary_transform C =? 0); [intros [= <-]; split; [done|by destruct d]|].
  destruct (for_range _ _ _ _) as [dc|] eqn:Er; [|done]. intros [= <-]. split; [|done]. simpl.
  revert Er. apply (for_range_rel same_places); [done|apply same_places_trans|].
  intros i dc1 dc2. destruct (ovls dc1 !! i) as [o|] eqn:Ho; [|done].
  destruct (mgr_ix (cfg o) =? 0); [|by intros [= <-]].
  destruct (adjust_primary_display_layer C o) as [o'|] eqn:Ea; [|done].
  apply adjust_primary_display_layer_keeps in Ea as [Hz Hi]. rewrite (upd_ovl_Some _ _ _ _ Ho). intros [= <-].
  split; [done|]. unfold places. simpl. rewrite list_fmap_insert, Hz, Hi.
  apply list_insert_id. by rewrite list_lookup_fmap, Ho.
Qed.

(** The state with the frame's statistics, and the one with its composition decided. *)
Definition counted_for (l : option hwc_display_contents_1_t) (d : omap_hwc_device_t) : omap_hwc_device_t :=
  set_counts (stats hmem C (layers_of l))
    (set_sync_id (sync_id d + 1) (set_dsscomp (zero_dsscomp (sync_id d)) d)).
Definition decided_for (l : option hwc_display_contents_1_t) (d : omap_hwc_device_t) : omap_hwc_device_t :=
  decide_composition C (counted_for l d).

Lemma start_frame_spec l d :
  Forall (layer_ok hmem) (layers_of l) ->
  start_frame hmem C l d =
    Some (option_map (set_layers (map (set_composition HWC_FRAMEBUFFER) (layers_of l))) l,
          counted_for l d).
Proof. intros Hl. unfold start_frame, counted_for. by rewrite gather_layer_statistics_spec. Qed.

(** Two scaled layers are not mirrored without SGX. *)
Definition one_scaled (l : option hwc_display_contents_1_t) (d : omap_hwc_device_t) : bool :=
  let d1 := decided_for l d in
  negb (mirrors d1) || use_sgx d1 || (scaled_layers (counts d1) <=? 1).

Lemma decide_composition_spec d :
  let d0 := decide_supported_cloning C d in
  let d1 := decide_composition C d in
  ext d1 = ext d0 /\ counts d1 = counts d0 /\ ext_ovls d1 = ext_ovls d0 /\ clones d1 = clones d0 /\
  scaled_layers (counts d1) = scaled_layers (counts d) /\
  dsscomp_data d1 = dsscomp_data d /\ same_rest (set_ext_ovls (ext_ovls d0) (set_counts (counts d0) d)) d1 /\
  (use_sgx d1 = false -> scaled_layers (counts d1) <= max_scaling_overlays (counts d1)).
Proof.
  intros d0. assert (Hd : scaled_layers (counts d0) = scaled_layers (counts d) /\ dsscomp_data d0 = dsscomp_data d /\
    same_rest (set_ext_ovls (ext_ovls d0) (set_counts (counts d0) d)) d0).
  { unfold d0, decide_supported_cloning. by repeat case_match. }
  destruct Hd as (Hn & Hd & Hr). unfold decide_composition. fold d0.
  destruct (can_dss_render_all C d0) eqn:Ea; split_and!; try done.
  - destruct Hr. by split.
  - intros _. unfold can_dss_render_all in Ea. rewrite !andb_true_iff in Ea. destruct_and!. simpl. lia.
  - destruct Hr. by split.
Qed.

Definition planned (d : omap_hwc_device_t) : Prop :=
  (exists n, stack n 4 (dsscomp_data d)) /\ 0 <= ext_ovls d <= 2 /\ (post2_layers d <= 4)%nat.

(** Below the least of two bounds that the pipes have. *)
Lemma stack_below n top t dc : stack n top dc -> top <= t -> stack n t dc.
Proof.
  intros [A1 A2 A3 A4 [A5 A6]] Ht. split; [done..|]. split; [done|].
  eapply list.Forall_impl; [exact A6|]. intros x Hx. simpl in Hx. lia.
Qed.

(** The stack has room for what is cloned. *)
Lemma primary_room d d1 ls f :
  dev_ok d -> d1 = decide_composition C d ->
  (mirrors d1 = true -> use_sgx d1 = false -> scaled_layers (counts d1) <= 1) ->
  scaled_layers (counts d1) = scaled_count ls -> primary_stack d1 ls f ->
  let n := num_ovls (dsscomp_data (f_dev f)) in
  (n <= 4)%nat /\ stack n 4 (dsscomp_data (f_dev f)) /\
  (clones (f_dev f) = true -> t_docking (e_current (ext (f_dev f))) = true ->
     (n <= 3)%nat /\ stack n 3 (dsscomp_data (f_dev f))) /\
  (mirrors (f_dev f) = true -> (2 * n <= 4)%nat /\ stack n (4 - Z.of_nat n) (dsscomp_data (f_dev f))).
Proof.
  intros Hd Ed Hone Hcnt [(top & Hst & Htop) Hz Hmax Hfree Hr He Hw] n. fold n in Hst, Hmax, Hfree.
  pose proof (decide_bounds C lims d Hd) as (Hm & Ho & Hsc & Hdk & Hmi).
  destruct (decide_composition_spec d) as (E1 & E2 & E3 & E4 & _ & _ & _ & Hs). rewrite <- Ed in *.
  assert (Ecl : clones (f_dev f) = clones d1).
  { unfold clones. by rewrite He, Hw, (sr_counts _ _ Hr), (sr_ext_ovls _ _ Hr). }
  assert (Emi : mirrors (f_dev f) = mirrors d1) by (unfold mirrors; by rewrite Ecl, He).
  assert (Emi' : mirrors d1 = mirrors (decide_supported_cloning C d)) by (unfold mirrors; by rewrite E4, E1).
  rewrite <- E2 in *. rewrite <- E4, <- E1 in Hdk. rewrite <- Emi' in Hmi. rewrite Emi, Ecl, He.
  clear Ed E1 E2 E3 E4 Emi Emi' Ecl He Hw Hr Hd.
  assert (H4 : (n <= 4)%nat) by apply Hst. split; [done|].
  destruct Htop as [Ht|(Hs1 & Hp & Ht & Hn)].
  - split; [|split].
    + eapply stack_below; [exact Hst|]. destruct (ok_primary C lims); lia.
    + intros Hc1 Hc2. destruct (Hdk Hc1 Hc2) as [Hd1 _].
      assert (top <= 3 /\ (n <= 3)%nat) as [? ?] by (destruct (ok_primary C lims); lia).
      split; [done|]. by eapply stack_below.
    + intros Hm1. specialize (Hmi Hm1).
      assert (top <= 4 - Z.of_nat n /\ (2 * n <= 4)%nat) as [? ?] by (destruct (ok_primary C lims); lia).
      split; [done|]. by eapply stack_below.
  - specialize (Hs Hs1). specialize (Hsc Hp). split; [|split].
    + eapply stack_below; [exact Hst|]. lia.
    + intros Hc1 Hc2. destruct (Hdk Hc1 Hc2) as [_ Hd2]. specialize (Hd2 Hp).
      split; [lia|]. eapply stack_below; [exact Hst|]. lia.
    + intros Hm1. specialize (Hone Hm1 Hs1). split; [lia|]. eapply stack_below; [exact Hst|]. lia.
Qed.

Lemma mirrored_once l d :
  one_scaled l d = true -> let d1 := decided_for l d in
  mirrors d1 = true -> use_sgx d1 = false -> scaled_layers (counts d1) <= 1.
Proof.
  unfold one_scaled. generalize (decided_for l d) as d1. intros d1 Ho Hm Hs. rewrite Hm, Hs in Ho.
  by apply Z.leb_le.
Qed.

Lemma dev_ok_counted l d : dev_ok d -> dev_ok (counted_for l d).
Proof. intros []. by split. Qed.

Lemma dev_ok_rest d d' : same_rest d d' -> dev_ok d -> dev_ok d'.
Proof. intros [Hb _ _ He Hi Hdk Hm _] []. split; by rewrite ?Hb, ?He, ?Hi, ?Hdk, ?Hm. Qed.

Lemma scaled_for l d :
  scaled_layers (counts (decided_for l d)) = scaled_count (map (set_composition HWC_FRAMEBUFFER) (layers_of l)).
Proof.
  unfold decided_for. destruct (decide_composition_spec (counted_for l d)) as (_ & _ & _ & _ & -> & _).
  apply (stats_as hmem C (layers_of l)).
Qed.

Lemma finish_frame_spec d n m :
  stack m 4 (dsscomp_data d) -> post2_layers d = n -> (n <= m <= n + 2)%nat -> 0 <= ext_ovls d <= 2 ->
  (exists k, stack k 4 (dsscomp_data (finish_frame C d))) /\ 0 <= ext_ovls (finish_frame C d) <= 2 /\
  post2_layers (finish_frame C d) = n /\
  same_rest (set_ext_ovls (ext_ovls (finish_frame C d)) d) (finish_frame C d).
Proof.
  intros Hst Hp Hn He. unfold finish_frame.
  assert (Hmg : forall mode mg, stack m 4 (set_mode_mgrs mode mg (dsscomp_data d))).
  { intros mode mg. by apply (stack_places _ _ (dsscomp_data d)). }
  assert (Hno : forall mode mg, stack 0 4 (set_num_ovls 0 (set_mode_mgrs mode mg (dsscomp_data d)))).
  { intros mode mg. destruct Hst. split; [done|lia|done| |]; unfold zs, ixs, shown; simpl; by split; constructor. }
  assert (Hm : num_ovls (dsscomp_data d) = m) by apply Hst.
  destruct (t_enabled _ || _), ((last_mode _ =? 0) && _); split_and!;
    try (eexists; first [apply Hmg|apply Hno]); simpl; rewrite ?Hm, ?Hp; try done; lia.
Qed.

Lemma no_complaints ms d : ms = [] -> fold_left (fun d m => emit_event (E_log m) d) ms d = d.
Proof. by intros ->. Qed.

(** [hwc_prepare] makes a composition of at most four overlays on distinct z-orders
    and pipes, and logs no error. *)
Lemma hwc_prepare_planned l d l' d' :
  dev_ok d -> Forall (layer_ok hmem) (layers_of l) -> one_scaled l d = true ->
  hwc_prepare hmem bg_layer C E l d = Some (l', d') ->
  dev_ok d' /\ planned d' /\ overlay_events d' = overlay_events d.
Proof.
  intros Hd Hl Hone. unfold hwc_prepare. rewrite start_frame_spec by done. fold (decided_for l d).
  change (decide_composition C (counted_for l d)) with (decided_for l d).
  set (l1 := option_map _ l).
  assert (Hls : layers_of l1 = map (set_composition HWC_FRAMEBUFFER) (layers_of l)) by (unfold l1; by destruct l).
  pose proof (dev_ok_counted l d Hd) as Hd0.
  destruct (decide_composition_spec (counted_for l d)) as (E1 & E2 & E3 & E4 & _ & E5 & E6 & _).
  pose proof (decide_bounds C lims _ Hd0) as (Hm & Ho & _).
  assert (Hbl : blank (decided_for l d)) by (unfold decided_for, blank; by rewrite E5).
  fold (decided_for l d) in *.
  assert (Hr1 : same_rest (set_ext_ovls (ext_ovls (decided_for l d)) (set_counts (counts (decided_for l d)) d)) (decided_for l d)).
  { rewrite <- E3, <- E2 in E6. destruct E6. by split. }
  assert (Hbuf : length (buffers (decided_for l d)) = MAX_HWC_LAYERS).
  { rewrite (sr_bufs _ _ Hr1). apply Hd. }
  rewrite <- E2, <- E3 in *.
  pose proof (mirrored_once l d Hone) as Hmi. pose proof (scaled_for l d) as Hsc.
  assert (Hdc : decided_for l d = decide_composition C (counted_for l d)) by done.
  revert Hbl Hr1 Hbuf Hmi Hsc Hm Ho Hdc. clear E1 E2 E3 E4 E5 E6 Hone. generalize (decided_for l d) as d1.
  intros d1 Hbl Hr1 Hbuf Hmi Hsc Hm Ho Hdc.
  destruct (setup_overlays _ _ _ _ _ _) as [[l2 f]|] eqn:Es; [|done].
  apply setup_overlays_spec in Es; [|done|rewrite Hbuf; unfold MAX_HWC_LAYERS; lia|
    unfold MAX_HW_OVERLAYS; destruct (ok_primary C lims); lia].
  rewrite Hls in Es. destruct (primary_room _ d1 _ f Hd0 Hdc Hmi Hsc Es) as (H4 & Hst4 & Hdk & Hmr).
  destruct Es as [_ Hz _ Hfree Hr _ _].
  destruct (mirror_layers C E f) as [[z d2]|] eqn:Em; [|done].
  apply (mirror_layers_spec C E f (num_ovls (dsscomp_data (f_dev f)))) in Em
    as (m & Hst & -> & Hbd & Hp & Hr2); [|done..|intros Hn; apply Hfree; pose proof law_ovls; lia].
  destruct (adjust_primary C d2) as [d3|] eqn:Ea; [|done]. apply adjust_primary_spec in Ea as [Hpl Hd3].
  set (d4 := set_ext _ d3).
  assert (Hst4' : stack m 4 (dsscomp_data d4)) by (by eapply stack_places).
  rewrite no_complaints by (by apply check_overlays_nil). intros [= <- <-].
  assert (Hr4 : same_rest d1 d4).
  { eapply same_rest_trans; [exact Hr|]. eapply same_rest_trans; [exact Hr2|]. unfold d4. rewrite Hd3. by split. }
  destruct (finish_frame_spec d4 (num_ovls (dsscomp_data (f_dev f))) m Hst4') as (Hk & He & Hp' & Hr5).
  { unfold d4. rewrite Hd3. exact Hp. } { exact Hbd. } { rewrite (sr_ext_ovls _ _ Hr4). exact Ho. }
  assert (Hd5 : dev_ok (finish_frame C d4)).
  { apply (dev_ok_rest _ _ Hr5). assert (Hd4 : dev_ok d4); [|destruct Hd4; by split].
    apply (dev_ok_rest _ _ Hr4). apply (dev_ok_rest _ _ Hr1). destruct Hd. by split. }
  split; [done|]. split; [split; [done|]; split; [done|lia]|].
  rewrite (sr_events _ _ Hr5). change (overlay_events (set_ext_ovls (ext_ovls (finish_frame C d4)) d4)) with (overlay_events d4).
  rewrite (sr_events _ _ Hr4), (sr_events _ _ Hr1). done.
Qed.

Lemma shift_buffers_length n i bufs bufs' : shift_buffers n i bufs = Some bufs' -> length bufs' = length bufs.
Proof.
  revert i bufs. induction n as [|n IH]; intros i bufs; simpl; [by intros [= ->]|].
  destruct (bufs !! S i); [|done]. destruct (_ <? _)%nat; [|done]. intros Hb. apply IH in Hb.
  by rewrite length_insert in Hb.
Qed.

Lemma pack_buffers_spec d n d' :
  pack_buffers d = Some (n, d') ->
  exists dc bufs, d' = set_dsscomp dc (set_buffers bufs d) /\ length bufs = length (buffers d) /\
    same_places (dsscomp_data d) dc.
Proof.
  assert (Hsame : exists dc bufs, d = set_dsscomp dc (set_buffers bufs d) /\ length bufs = length (buffers d) /\
    same_places (dsscomp_data d) dc).
  { exists (dsscomp_data d), (buffers d). split; [by destruct d|done]. }
  unfold pack_buffers. destruct (post2_blit_buffers d =? 0)%nat; [by intros [= <- <-]|].
  destruct (1 <? post2_layers d)%nat; [|by intros [= <- <-]].
  destruct (shift_buffers _ _ _) as [bufs|] eqn:Es; [|done].
  destruct (for_range _ _ _ _) as [dc|] eqn:Er; [|done]. intros [= <- <-].
  exists dc, bufs. split; [done|]. split; [by eapply shift_buffers_length|].
  revert Er. apply (for_range_rel same_places); [done|apply same_places_trans|].
  intros i dc1 dc2. by apply same_places_upd.
Qed.

(** What is posted: a stack, the first post of the call. *)
Definition post_of (e : hwc_event) : Prop :=
  match e with E_post _ dc _ => exists n, stack n 4 dc | _ => False end.

Lemma post_spec l d err d' :
  dev_ok d -> planned d -> post E l d = Some (err, d') ->
  dev_ok d' /\ planned d' /\
  exists es, overlay_events d' = overlay_events d ++ es /\ Forall post_of es.
Proof.
  intros Hd Hpl. pose proof Hpl as [[n Hst] [Ho Hl]]. unfold post. destruct (negb _).
  { intros [= <- <-]. split_and!; [done..|]. exists []. by rewrite List.app_nil_r. }
  set (d1 := set_blit _ _ _ _ _ _).
  assert (Hs1 : dev_ok d1 /\ dsscomp_data d1 = dsscomp_data d /\ ext_ovls d1 = ext_ovls d /\
    post2_layers d1 = post2_layers d /\ overlay_events d1 = overlay_events d).
  { assert (Hp : overlay_events (emit_event E_pipe d) = overlay_events d)
      by (unfold overlay_events; simpl; by rewrite list.filter_app, List.app_nil_r).
    unfold d1. case_match; (split_and!; [destruct Hd; by split|done..]). }
  destruct Hs1 as (Hd1 & Hdc & He & Hp & Hev). clearbody d1.
  destruct (pack_buffers d1) as [[k d2]|] eqn:Ep; [|done]. intros [= <- <-].
  apply pack_buffers_spec in Ep as (dc & bufs & -> & Hlen & Hpc). rewrite Hdc in Hpc.
  split_and!.
  - destruct Hd1. split; [done|done| |done|done]. simpl. by rewrite Hlen.
  - split; [exists n; by eapply stack_places|]. simpl. by rewrite He, Hp.
  - exists [E_post (take k bufs) dc (rgz_items d1)]. rewrite <- Hev. split; [unfold overlay_events; simpl; by rewrite list.filter_app|].
    repeat constructor. exists n. by eapply stack_places.
Qed.

Lemma emit_same e d : overlay_event e = false ->
  overlay_events (emit_event e d) = overlay_events d /\ (dev_ok d -> dev_ok (emit_event e d)) /\
  (planned d -> planned (emit_event e d)).
Proof.
  intros He. split_and!; [|by intros []; split|done].
  unfold overlay_events. simpl. by rewrite list.filter_app, list.filter_cons, He, List.app_nil_r.
Qed.

Lemma hwc_set_spec l d err d' :
  dev_ok d -> planned d -> hwc_set C E l d = Some (err, d') ->
  dev_ok d' /\ planned d' /\ exists es, overlay_events d' = overlay_events d ++ es /\ Forall post_of es.
Proof.
  intros Hd Hpl. unfold hwc_set.
  set (d1 := if first_set d then _ else _).
  assert (Hs1 : dev_ok d1 /\ planned d1 /\ overlay_events d1 = overlay_events d).
  { unfold d1. destruct (first_set d); [|done]. destruct (emit_same E_reset_screen d) as (Ha & Hb & Hc); [done|].
    split_and!; [|apply Hc, Hpl|done]. destruct (Hb Hd). by split. }
  destruct Hs1 as (Hd1 & Hpl1 & Hev1). rewrite <- Hev1. clear Hd Hpl Hev1. clearbody d1.
  set (d2 := if _ && use_sgx d1 then _ else _).
  assert (Hs2 : dev_ok d2 /\ planned d2 /\ overlay_events d2 = overlay_events d1).
  { unfold d2. destruct (_ && _); [|done]. destruct (emit_same E_swap d1) as (Ha & Hb & Hc); [done|].
    split_and!; auto. }
  destruct Hs2 as (Hd2 & Hpl2 & Hev2). rewrite <- Hev2. clear Hd1 Hpl1 Hev2. clearbody d2.
  destruct (if _ && negb _ then _ else _) as [[err1 d3]|] eqn:Ee; [|done].
  assert (Hs3 : dev_ok d3 /\ planned d3 /\ exists es, overlay_events d3 = overlay_events d2 ++ es /\ Forall post_of es).
  { destruct (_ && negb _).
    - injection Ee as <- <-. split; [done|]. split; [done|]. exists []. by rewrite List.app_nil_r.
    - destruct (post E l d2) as [[err2 d4]|] eqn:Ep; [|done]. injection Ee as <- <-.
      apply post_spec in Ep as (Hd4 & Hp4 & Hes); [|done..]. split; [|by split].
      destruct Hp4 as (_ & Ho & Hl). destruct Hd4. split; simpl; try done; lia. }
  destruct Hs3 as (Hd3 & Hp3 & es & Hes & Hf).
  destruct (_ && (_ || _)).
  - destruct (procs C); [|done]. intros [= <- <-].
    destruct (emit_same E_invalidate d3) as (Ha & Hb & Hc); [done|].
    split; [by apply Hb|]. split; [by apply Hc|]. exists es. by rewrite Ha.
  - intros [= <- <-]. eauto.
Qed.

End Frames.
