(* ===== verification/HwcEvents.v ===== *)
(** What happens between two frames (src/hwc/hwc.c, dock_image.c): the transformation
    of the primary display, the hot plug of the external one, the messages of the
    kernel's event socket with the strings they hold, and the idle timer of the thread
    that reads them.  A result [None] is undefined behaviour of the program. *)

From Stdlib Require Import ZArith Lia Floats.SpecFloat Ascii String.
From stdpp Require Import base list list_numbers option tactics.
From S2P Require Import Prelude RgzGeometry RgzState RgzBlit HwcModel HwcLayers HwcGeometry HwcPrepare.
Local Open Scope string_scope.
Local Open Scope Z_scope.

(** * Strings of the C library *)

(** The characters up to the terminator; none is reading out of bounds. *)
Fixpoint cstr (b : list ascii) : option string :=
  match b with
  | [] => None
  | c :: b => if Ascii.eqb c zero then Some EmptyString else let* s := cstr b in Some (String c s)
  end.

Fixpoint s_drop (n : nat) (s : string) : string :=
  match n, s with S n, String _ s => s_drop n s | _, _ => s end.

Definition code (c : ascii) : Z := Z.of_N (N_of_ascii c).
Definition is_space (c : ascii) : bool := (code c =? 32) || ((9 <=? code c) && (code c <=? 13)).
Definition digit (c : ascii) : Z :=
  let n := code c in
  if (48 <=? n) && (n <=? 57) then n - 48
  else if (97 <=? n) && (n <=? 122) then n - 87
  else if (65 <=? n) && (n <=? 90) then n - 55 else 36.

Fixpoint skip_spaces (s : string) : string :=
  match s with String c s' => if is_space c then skip_spaces s' else s | EmptyString => s end.
(** The number that the digits of the base begin the string with, from [acc]. *)
Fixpoint digits (base : Z) (s : string) (acc : Z) : Z :=
  match s with
  | String c s' => if digit c <? base then digits base s' (acc * base + digit c) else acc
  | EmptyString => acc
  end.
Definition signed (s : string) : bool * string :=
  match s with
  | String c s' => if Ascii.eqb c "-" then (true, s') else if Ascii.eqb c "+" then (false, s') else (false, s)
  | EmptyString => (false, s)
  end.

(** [atoi]; undefined when no int holds the number. *)
Definition atoi (s : string) : option Z :=
  let '(neg, s) := signed (skip_spaces s) in
  let n := digits 10 s 0 in
  let n := if neg : bool then - n else n in
  guard* (- 2 ^ 31 <=? n) && (n <? 2 ^ 31) in Some n.

(** [strtoull(s, NULL, 0)]: the base is that of the prefix, the number saturates. *)
Definition strtoull (s : string) : Z :=
  let '(neg, s) := signed (skip_spaces s) in
  let n :=
    match s with
    | String c s' =>
        if Ascii.eqb c "0" then
          match s' with
          | String x (String d _ as s'') =>
              if (Ascii.eqb x "x" || Ascii.eqb x "X") && (digit d <? 16) then digits 16 s'' 0 else digits 8 s' 0
          | _ => digits 8 s' 0
          end
        else digits 10 s 0
    | EmptyString => 0
    end in
  if n <? 2 ^ 64 then (if neg : bool then - n mod 2 ^ 64 else n) else 2 ^ 64 - 1.

(** [%d] of sscanf: the number and what follows, nothing when there are no digits; undefined
    when no int holds the number. *)
Definition scan_d (s : string) : option (option (Z * string)) :=
  let '(neg, s) := signed (skip_spaces s) in
  let n := digits 10 s 0 in
  let rest := (fix rest s := match s with String c s' => if digit c <? 10 then rest s' else s | _ => s end) s in
  if String.eqb rest s then Some None
  else
    let n := if neg : bool then - n else n in
    guard* (- 2 ^ 31 <=? n) && (n <? 2 ^ 31) in Some (Some (n, rest)).

(** [sscanf(s, "%d:%d:%d:%d", ...)]: the four numbers, if it reads them all. *)
Definition scan_colon (s : string) : option string :=
  match s with String c s' => if Ascii.eqb c ":" then Some s' else None | EmptyString => None end.
Definition scan_next (r : option (option (list Z * string))) : option (option (list Z * string)) :=
  let* x := r in
  match x with
  | None => Some None
  | Some (ns, s) =>
      match (if (length ns =? 0)%nat then Some s else scan_colon s) with
      | None => Some None
      | Some s => let* y := scan_d s in Some (option_map (fun y => ((ns ++ [y.1])%list, y.2)) y)
      end
  end.
Definition scan_region (s : string) : option (option blit_rect_t) :=
  let* r := scan_next (scan_next (scan_next (scan_next (Some (Some ([], s)))))) in
  Some match r with Some ([l; t; r; b], _) => Some (mkRect l t r b) | _ => None end.

(** * The environment of the thread *)

(** What the thread of the external display asks outside: the system's properties, the
    kind of the framebuffer's memory, the buffers of the ION driver, when it is open, and the
    image of the dock with the memory for it. *)
Record event_env := mkEventEnv {
  property : string -> option string; fbmem_tiler2d : bool; ion_fd : bool;
  ion_alloc : nat -> option Z; read_png : option (Z * Z * Z); dock_buffer_size : Z }.

Definition EXT_ROTATION : Z := 3.
Definition EXT_HFLIP : Z := 4.

Section Events.
Context `{HwcApi} `{DssApi} (E : hwc_env) (V : event_env).

(** [property_get] of a property with a default value, which an empty one has too. *)
Definition property_get (key default : string) : string :=
  match property V key with Some (String c s) => String c s | _ => default end.

(** * The primary display *)

Definition set_primary_display_transform_matrix (C : hwc_config) : hwc_config :=
  let dis := match query_display E 0 with Some dis => dis | None => fb_dis C end in
  let lcd_w := s32 (x_res dis) in
  let lcd_h := s32 (y_res dis) in
  let orig_w := fb_width C in
  let orig_h := fb_height C in
  let rot := b2z (xorb (lcd_w >? lcd_h) (orig_w >? orig_h)) in
  let tform := b2z (negb (lcd_w =? orig_w) || negb (lcd_h =? orig_h)) in
  let m := m_translate (f_of (- Z.shiftr orig_w 1)) (f_of (- Z.shiftr orig_h 1)) m_unit in
  let m := m_rotate rot m in
  let '(w, h) := if negb (Z.land rot 1 =? 0) then (orig_h, orig_w) else (orig_w, orig_h) in
  let m := m_scale w lcd_w h lcd_h m in
  let m := m_translate (f_of (Z.shiftr lcd_w 1)) (f_of (Z.shiftr lcd_h 1)) m in
  set_primary dis m tform rot (mkRect 0 0 orig_w orig_h) C.

(** * Backup buffers *)

Definition NUM_EXT_DISPLAY_BACK_BUFFERS : nat := 2.

Definition free_tiler2d_buffers (C : hwc_config) (d : omap_hwc_device_t) : hwc_config * omap_hwc_device_t :=
  (set_ion_handles (replicate NUM_EXT_DISPLAY_BACK_BUFFERS 0) C,
   fold_left (fun d h => emit_event (E_ion_free h) d) (ion_handles C) d).

(** The handles of the first allocations, up to one that fails. *)
Fixpoint alloc_handles (n i : nat) (hs : list Z) : bool * list Z :=
  match n with
  | O => (true, hs)
  | S n => match ion_alloc V i with
           | Some h => alloc_handles n (S i) (<[i := h]> hs)
           | None => (false, hs)
           end
  end.

Definition allocate_tiler2d_buffers (C : hwc_config) (d : omap_hwc_device_t) : hwc_config * omap_hwc_device_t :=
  if negb (ion_fd V) then (C, d)
  else if existsb (fun h => negb (h =? 0)) (ion_handles C) then (C, d)
  else
    let '(ok, hs) := alloc_handles NUM_EXT_DISPLAY_BACK_BUFFERS 0 (ion_handles C) in
    let C := set_ion_handles hs C in
    if ok : bool then (C, d) else free_tiler2d_buffers C d.

(** * The image of the dock *)

(** [load_dock_image]: the width, the height and the size of a row of the image, unless it has
    been loaded; zeros when the file cannot be read or does not fit. *)
Definition load_dock_image (C : hwc_config) : hwc_config :=
  if negb (dock_rowbytes C =? 0) then C
  else
    match read_png V with
    | Some (w, h, rowbytes) =>
        if u32 (ALIGN (u32 (w * h * 4)) 4096) >? dock_buffer_size V then set_dock 0 0 0 C
        else set_dock w h rowbytes C
    | None => set_dock 0 0 0 C
    end.

(** * The hot plug *)

Context `{BvApi}.

Definition invalidate (C : hwc_config) (d : omap_hwc_device_t) : omap_hwc_device_t :=
  if procs C then emit_event E_invalidate d else d.

(** When the primary display is the TV. *)
Definition hotplug_tv (C : hwc_config) (d : omap_hwc_device_t) : option (hwc_config * omap_hwc_device_t) :=
  if hdmi_state (ext d) then
    let* (rv, d) := set_best_hdmi_mode C E (u32 (fb_width C)) (u32 (fb_height C)) (lcd_xpy (ext d)) d in
    let d := if negb (rv =? 0) then emit_event (E_log L_no_mode) d else d in
    let C := set_primary_display_transform_matrix C in
    Some (C, invalidate C (emit_event (E_unblank false) d))
  else Some (C, set_ext (set_last_mode 0 (ext d)) d).

(** The properties of docking and mirroring: what is enabled, and the transformations. *)
Definition tform_of (n : Z) (enabled docking : bool) : ext_transform_t :=
  mkTform (Z.land n EXT_ROTATION) (Z.land n EXT_HFLIP >? 0) enabled docking.

Definition read_tforms (C : hwc_config) (e : omap_hwc_ext_t) : option omap_hwc_ext_t :=
  let* docking := atoi (property_get "persist.hwc.docking.enabled" "1") in
  let* mirroring := atoi (property_get "persist.hwc.mirroring.enabled" "1") in
  let* avoid := atoi (property_get "persist.hwc.avoid_mode_change" "1") in
  let* dt := atoi (property_get "persist.hwc.docking.transform" "0") in
  let* mt := atoi (property_get "persist.hwc.mirroring.transform"
                     (if y_res (fb_dis C) >? x_res (fb_dis C) then "3" else "0")) in
  Some (set_tforms (tform_of mt (mirroring >? 0) false) (tform_of dt (docking >? 0) true)
          (set_avoid_mode_change (avoid >? 0) e)).

(** Restricted to docking with no transform. *)
Definition dock_only (e : omap_hwc_ext_t) : omap_hwc_ext_t :=
  set_tforms (set_t_enabled false (e_mirror e))
    (mkTform 0 false (t_enabled (e_dock e)) (t_docking (e_dock e))) e.

Definition set_e_mirror (t : ext_transform_t) (e : omap_hwc_ext_t) : omap_hwc_ext_t := set_tforms t (e_dock e) e.

(** The best mode for mirroring. *)
Definition try_mirroring (C : hwc_config) (d : omap_hwc_device_t) : option omap_hwc_device_t :=
  if negb (t_enabled (e_mirror (ext d))) then Some d
  else
    let d := set_ext (set_mirror_mode 0 (set_current (e_mirror (ext d)) (ext d))) d in
    let* (rv, d) := setup_mirroring C E d in
    if rv =? 0
    then Some (emit_event (E_unblank true) (set_ext (set_mirror_mode (last_mode (ext d)) (ext d)) d))
    else Some (set_ext (set_e_mirror (set_t_enabled false (e_mirror (ext d))) (ext d)) d).

Definition needs_backup (d : omap_hwc_device_t) : bool :=
  negb (t_rotation (e_mirror (ext d)) =? 0) && negb (fbmem_tiler2d V).

Definition handle_hotplug (C : hwc_config) (d : omap_hwc_device_t) : option (hwc_config * omap_hwc_device_t) :=
  if on_tv C then hotplug_tv C d
  else
    let e := ext d in
    let d := set_ext (set_tforms (set_t_enabled false (e_mirror e)) (set_t_enabled false (e_dock e)) e) d in
    if hdmi_state (ext d) then
      let* e := read_tforms C (ext d) in
      let '(C, d) :=
        if force_dock e then (load_dock_image C, emit_event E_load_dock_image (set_ext (dock_only e) d))
        else (C, set_ext e d) in
      let* d := try_mirroring C d in
      let '(C, d) := if needs_backup d then allocate_tiler2d_buffers C d else (C, d) in
      Some (C, invalidate C d)
    else
      let d := set_ext (set_last_mode 0 (ext d)) d in
      let '(C, d) := if needs_backup d then free_tiler2d_buffers C d else (C, d) in
      Some (C, invalidate C d).

(** * The opening of the device *)

(** The part of [hwc_device_open] that sets the state of the composer, once the description
    [dis] of the primary display is read: the ratio of its pixels, the regions and what is plugged in.  [bufs] is
    the array of buffers as it is allocated. *)
Definition lcd_ratio (dis : dsscomp_display_info) : float :=
  if negb (x_res dis =? 0) && negb (height_in_mm dis =? 0)
  then f_mul (f_div (f_div (f_of (width_in_mm dis)) (f_of (x_res dis))) (f_of (height_in_mm dis))) (f_of (y_res dis))
  else f_one.

Definition clone_region (C : hwc_config) : option blit_rect_t :=
  let fb_region := mkRect 0 0 (fb_width C) (fb_height C) in
  let value := property_get "persist.hwc.mirroring.region" "" in
  let* r := (match value with EmptyString => Some None | _ => scan_region value end) in
  Some match r with
       | Some r => if (r_left r >=? r_right r) || (r_top r >=? r_bottom r) then fb_region else r
       | None => fb_region
       end.

Definition hwc_device_open (dis : dsscomp_display_info) (hdmi dock : bool) (bufs : list Z) (C : hwc_config)
    : option (hwc_config * omap_hwc_device_t) :=
  let C := set_fb_dis dis (channel dis =? OMAP_DSS_CHANNEL_DIGIT)
             (set_ion_handles (replicate NUM_EXT_DISPLAY_BACK_BUFFERS 0) C) in
  let C := set_primary_display_transform_matrix C in
  let* region := clone_region C in
  let e := set_force_dock dock (set_hdmi_state hdmi (set_region region (set_lcd_xpy (lcd_ratio dis) (ext zero_device)))) in
  handle_hotplug C (set_ext e (set_buffers bufs zero_device)).

(** * The messages *)

(** One field of a message: the new state of the switch and the time. *)
Definition uevent_field (s : string) (st : option (Z * Z)) : option (Z * Z) :=
  let* (state, timestamp) := st in
  if String.prefix "SWITCH_STATE=" s then let* n := atoi (s_drop 13 s) in Some (n, timestamp)
  else if String.prefix "SWITCH_TIME=" s then Some (state, strtoull (s_drop 12 s))
  else if String.prefix "VSYNC=" s then Some (state, strtoull (s_drop 6 s))
  else Some (state, timestamp).

(** The fields from an offset, up to an empty one or to the length of the message; [fuel]
    bounds their number. *)
Fixpoint uevent_fields (fuel : nat) (buff : list ascii) (off : nat) (len : Z) (st : Z * Z) : option (Z * Z) :=
  match fuel with
  | O => None
  | S fuel =>
      let* s := cstr (drop off buff) in
      match s with
      | EmptyString => Some st
      | String _ _ =>
          let* st := uevent_field s (Some st) in
          let off := (off + String.length s + 1)%nat in
          if len <=? Z.of_nat off then Some st else uevent_fields fuel buff off len st
      end
  end.

Definition handle_uevents (buff : list ascii) (len : Z) (C : hwc_config) (d : omap_hwc_device_t)
    : option (hwc_config * omap_hwc_device_t) :=
  let* s := cstr buff in
  let dock := String.eqb s "change@/devices/virtual/switch/dock" in
  let hdmi := String.eqb s "change@/devices/virtual/switch/hdmi" in
  let vsync := String.eqb s "change@/devices/platform/omapfb" ||
               String.eqb s "change@/devices/virtual/switch/omapfb-vsync" in
  if negb dock && negb vsync && negb hdmi then Some (C, d)
  else
    let* (state, timestamp) := uevent_fields (S (length buff)) buff (String.length s + 1) len (0, 0) in
    if vsync then Some (C, if procs C then emit_event (E_vsync timestamp) d else d)
    else
      let e := if dock then set_force_dock (state =? 1) (ext d) else set_hdmi_state (state =? 1) (ext d) in
      handle_hotplug C (set_ext e d).

(** * The thread *)

(** What [poll] reports: nothing for as long as the timeout, an error, or what is ready, the
    message with its length. *)
Inductive poll_result :=
| P_timeout | P_error | P_ready (pipe : bool) (message : option (list ascii * Z)).

(** One round of [hdmi_thread], with the timeout of the next [poll]. *)
Definition hdmi_thread (r : poll_result) (C : hwc_config) (d : omap_hwc_device_t) (timeout : Z)
    : option (hwc_config * omap_hwc_device_t * Z) :=
  match r with
  | P_timeout =>
      if negb (idle C =? 0) && procs C && (1 <? last_int_ovls d) && (force_sgx d =? 0)
      then Some (C, emit_event E_invalidate (set_force_sgx 2 d), -1)
      else Some (C, d, timeout)
  | P_error => Some (C, d, timeout)
  | P_ready pipe message =>
      let timeout := if negb (idle C =? 0) && pipe && (force_sgx d =? 0) then idle C else timeout in
      match message with
      | Some (buff, len) => let* (C, d) := handle_uevents buff len C d in Some (C, d, timeout)
      | None => Some (C, d, timeout)
      end
  end.

End Events.
