(* ===== verification/HwcSamples.v ===== *)
(** Concrete devices on which the examples of the composer evaluate: a panel of 864 by 480
    pixels, a television of 1280 by 720, and a few layers. *)

From Stdlib Require Import ZArith Lia Floats.SpecFloat Ascii String.
From stdpp Require Import base list list_numbers option tactics.
From S2P Require Import Prelude RgzGeometry RgzState RgzBlit HwcModel HwcLayers HwcGeometry HwcPrepare.
From S2P Require Import HwcOverlays HwcChoice HwcPlan HwcEvents.
Local Open Scope string_scope.
Local Open Scope Z_scope.

(** * Displays *)

Definition sample_lcd : dsscomp_display_info := mkDisplay 0 864 480 29000 95 53 [].
Definition sample_hdmi : dsscomp_display_info :=
  mkDisplay 1 1280 720 74250 160 90 [mkMode 1280 720 13468 0 FB_FLAG_RATIO_16_9 60].
Definition sample_limits : dsscomp_platform_info := mkLimits 16 16 16 16 170666666 2 4 2048 (16 * 2 ^ 20).
Definition sample_config (rgb_order : bool) (primary : dsscomp_display_info) : hwc_config :=
  mkConfig true (x_res primary) (y_res primary) HAL_PIXEL_FORMAT_BGRA_8888 primary rgb_order false (f_of 2)
    false m_unit 0 0 (mkRect 0 0 0 0) 0 BLTPOLICY_DISABLED [0; 0] sample_limits
    (mkGeom 0 0 864 480 0 0) 0 0 0 250.
Definition sample_hwc_env (primary : dsscomp_display_info) : hwc_env :=
  mkEnv (fun ix => if ix =? 0 then Some primary else Some sample_hdmi) false (fun _ => None) true true 0.
Definition sample_events (properties : string -> option string) : event_env :=
  mkEventEnv properties true true (fun _ => None) None 0.
Definition no_properties (key : string) : option string := None.
(** Docking with a quarter turn, and no mirroring. *)
Definition turned_properties (key : string) : option string :=
  if String.eqb key "persist.hwc.docking.transform" then Some "1"
  else if String.eqb key "persist.hwc.mirroring.enabled" then Some "0" else None.

(** * Layers *)

(** The desktop, a window, two videos, the last two buffers to be docked. *)
Definition sample_buffers (a : Z) : option IMG_native_handle_t :=
  if a =? 1 then Some (mkHandle 0 864 480 HAL_PIXEL_FORMAT_BGRX_8888)
  else if a =? 2 then Some (mkHandle 0 400 300 HAL_PIXEL_FORMAT_BGRA_8888)
  else if a =? 3 then Some (mkHandle 0 1280 720 HAL_PIXEL_FORMAT_TI_NV12)
  else if a =? 4 then Some (mkHandle 0 640 480 HAL_PIXEL_FORMAT_TI_NV12)
  else if a =? 5 then Some (mkHandle GRALLOC_USAGE_EXTERNAL_DISP 1280 720 HAL_PIXEL_FORMAT_TI_NV12)
  else if a =? 6 then Some (mkHandle GRALLOC_USAGE_EXTERNAL_DISP 400 300 HAL_PIXEL_FORMAT_BGRA_8888)
  else if a =? 7 then Some (mkHandle 0 400 300 HAL_PIXEL_FORMAT_RGBA_8888)
  else None.
Definition sample_layer (h w ht blend : Z) (dst : blit_rect_t) : hwc_layer_1_t :=
  mkHwcLayer 0 0 0 h 0 blend (mkRect 0 0 w ht) dst.
Definition desktop := sample_layer 1 864 480 HWC_BLENDING_NONE (mkRect 0 0 864 480).
Definition window := sample_layer 2 400 300 HWC_BLENDING_PREMULT (mkRect 100 50 500 350).
Definition video := sample_layer 3 1280 720 HWC_BLENDING_NONE (mkRect 0 0 864 480).
Definition video2 := sample_layer 4 640 480 HWC_BLENDING_NONE (mkRect 0 0 320 240).
Definition docked_video := sample_layer 5 1280 720 HWC_BLENDING_NONE (mkRect 0 0 864 480).
Definition docked_window := sample_layer 6 400 300 HWC_BLENDING_PREMULT (mkRect 100 50 500 350).
Definition bgr_window := sample_layer 7 400 300 HWC_BLENDING_PREMULT (mkRect 100 50 500 350).
(** A layer without a buffer that overlays can show. *)
Definition effect := sample_layer 0 864 480 HWC_BLENDING_PREMULT (mkRect 0 0 864 480).
Definition frame_of (ls : list hwc_layer_1_t) : option hwc_display_contents_1_t := Some (mkContents 0 ls true).

(** * Runs *)

(** A device just opened, with the television plugged in or not. *)
Definition opened (rgb_order hdmi : bool) (primary : dsscomp_display_info) (properties : string -> option string)
    : option (hwc_config * omap_hwc_device_t) :=
  hwc_device_open (sample_hwc_env primary) (sample_events properties) primary hdmi false (replicate MAX_HWC_LAYERS 0)
    (sample_config rgb_order primary).

Definition prepare_with (s : hwc_config * omap_hwc_device_t) (ls : list hwc_layer_1_t)
    : option (option hwc_display_contents_1_t * omap_hwc_device_t) :=
  hwc_prepare sample_buffers effect s.1 (sample_hwc_env (fb_dis s.1)) (frame_of ls) s.2.
Definition set_with (s : hwc_config * omap_hwc_device_t) : option (Z * omap_hwc_device_t) :=
  hwc_set s.1 (sample_hwc_env (fb_dis s.1)) (frame_of []) s.2.
Definition frame_with (s : hwc_config * omap_hwc_device_t) (ls : list hwc_layer_1_t)
    : option (hwc_config * omap_hwc_device_t) :=
  let* (l, d) := prepare_with s ls in
  let* (err, d) := set_with (s.1, d) in
  Some (s.1, d).

Definition nowhere : hwc_config * omap_hwc_device_t := (sample_config true sample_lcd, zero_device).
(** A panel, a panel mirrored on the television, and a panel docked with a turn. *)
Definition panel := Eval vm_compute in default nowhere (opened true false sample_lcd no_properties).
Definition mirrored := Eval vm_compute in default nowhere (opened true true sample_lcd no_properties).
Definition turned := Eval vm_compute in default nowhere (opened true true sample_lcd turned_properties).
Definition television := Eval vm_compute in default nowhere (opened false true sample_hdmi no_properties).

Lemma panel_opened : opened true false sample_lcd no_properties = Some panel.
Proof. by vm_compute. Qed.
Lemma mirrored_opened : opened true true sample_lcd no_properties = Some mirrored.
Proof. by vm_compute. Qed.
Lemma turned_opened : opened true true sample_lcd turned_properties = Some turned.
Proof. by vm_compute. Qed.
Lemma television_opened : opened false true sample_hdmi no_properties = Some television.
Proof. by vm_compute. Qed.

Lemma sample_limits_ok r p : limits_ok (sample_config r p).
Proof. split; try done. by left. Qed.

(** The overlays of the last composition posted: the z-order, the pipe and the display of each. *)
Definition posted (d : omap_hwc_device_t) : list (Z * Z * Z) :=
  match list.last (filter (fun e => match e with E_post _ _ _ => true | _ => false end = true) (events d)) with
  | Some (E_post _ dc _) => map (fun o => (zorder (cfg o), c_ix (cfg o), mgr_ix (cfg o))) (shown dc)
  | _ => []
  end.
Definition logged (d : omap_hwc_device_t) : list hwc_msg :=
  omap (fun e => match e with E_log m => Some m | _ => None end) (events d).

(** After a frame of the desktop and a window on the mirrored panel, and one of the desktop, an
    effect left to SGX and a video on the panel. *)
Definition mirrored_shown :=
  Eval vm_compute in default nowhere (frame_with mirrored [desktop; window]).
Definition panel_shown :=
  Eval vm_compute in default nowhere (frame_with panel [desktop; effect; video]).

(** The frame of the panel, before and after it is posted. *)
Definition panel_prepared :=
  Eval vm_compute in default (None, zero_device) (prepare_with panel [desktop; effect; video]).
Definition panel_set := Eval vm_compute in default (0, zero_device) (set_with (panel.1, panel_prepared.2)).

Lemma mirrored_frame : frame_with mirrored [desktop; window] = Some mirrored_shown.
Proof. by vm_compute. Qed.
Lemma panel_frame : frame_with panel [desktop; effect; video] = Some panel_shown.
Proof. by vm_compute. Qed.
