(* ===== verification/HwcCorners.v ===== *)
(** Corners of the composer (src/hwc/hwc.c): frames of the sample devices in which it does not do
    what it means to. *)

From Stdlib Require Import ZArith Lia Floats.SpecFloat Ascii String.
From stdpp Require Import base list list_numbers option tactics.
From S2P Require Import Prelude RgzGeometry RgzState RgzBlit HwcModel HwcLayers HwcGeometry HwcPrepare.
From S2P Require Import HwcOverlays HwcChoice HwcPlan HwcFrames HwcEvents HwcSamples.
Local Open Scope Z_scope.

(** The results of a frame prepared, as witnesses. *)
Ltac prepared s ls :=
  let r := eval vm_compute in (prepare_with s ls) in
  match r with Some (?l, ?d) => exists s, l, d end.

(** The pipes of cloned overlays can collide.  On a panel that the television mirrors, a frame
    of two scaled videos leaves no unscaled pipe below the scaled ones: [clone_overlay] takes the
    pipe of the second video again for the copy of the first, [check_overlays] logs it, and the
    composition is posted all the same with two overlays on one pipe. *)
Lemma mirrored_videos_collide :
  exists s s', opened true true sample_lcd no_properties = Some s /\
    frame_with s [video; video2] = Some s' /\
    logged s'.2 = [L_ix_twice 2] /\ ~ NoDup (map (fun o => o.1.2) (posted s'.2)).
Proof.
  exists mirrored, (default nowhere (frame_with mirrored [video; video2])).
  split_and!; [by vm_compute..|]. intros Hn. apply (bool_decide_pack _) in Hn. by vm_compute in Hn.
Qed.

(** Layers can be lost.  [can_dss_render_all] gives SGX nothing to compose on counts of the
    layers: with a rotated dock one layer in NV12 is enough for it, and BGR layers are fine on a
    television when the order of red and blue is not checked.  [can_dss_render_layer] then refuses
    every docked layer that is not in NV12, and BGR layers on a television in any case.  A window
    docked beside a video, and an RGBA window on a television, are left to a framebuffer that is
    not shown. *)
Lemma refused_layers_lost :
  (exists s l d, opened true true sample_lcd turned_properties = Some s /\
     prepare_with s [docked_video; docked_window] = Some (l, d) /\
     use_sgx d = false /\ map compositionType (layers_of l) = [HWC_OVERLAY; HWC_FRAMEBUFFER] /\
     num_ovls (dsscomp_data d) = 2%nat) /\
  (exists s l d, opened false true sample_hdmi no_properties = Some s /\
     prepare_with s [bgr_window] = Some (l, d) /\
     use_sgx d = false /\ map compositionType (layers_of l) = [HWC_FRAMEBUFFER] /\
     num_ovls (dsscomp_data d) = 0%nat).
Proof.
  split; [prepared turned [docked_video; docked_window]|prepared television [bgr_window]]; by vm_compute.
Qed.
