(* ===== verification/HwcUevents.v ===== *)
(** The messages of the kernel as the composer reads them (src/hwc/hwc.c): a header and fields, each
    ended by a zero byte, in a buffer that may hold older bytes behind the message. *)

From Stdlib Require Import ZArith Lia Floats.SpecFloat Ascii String.
From stdpp Require Import base strings list list_numbers option tactics.
From S2P Require Import Prelude RgzGeometry RgzState RgzBlit HwcModel HwcLayers HwcGeometry HwcPrepare.
From S2P Require Import HwcEvents HwcSamples.
Local Open Scope string_scope.
Local Open Scope Z_scope.

(** * Strings with terminators *)

Definition text (s : string) : Prop := zero ∉ list_ascii_of_string s.
#[export] Instance text_dec s : Decision (text s) := decide (zero ∉ list_ascii_of_string s).

(** The bytes of a message. *)
Definition encode (fs : list string) : list ascii :=
  concat (map (fun f => (list_ascii_of_string f ++ [zero])%list) fs).

Lemma encode_cons f fs : encode (f :: fs) = (list_ascii_of_string f ++ zero :: encode fs)%list.
Proof. unfold encode. simpl. by rewrite <- app_assoc. Qed.

Lemma length_ascii s : length (list_ascii_of_string s) = String.length s.
Proof. induction s as [|c s IH]; simpl; congruence. Qed.

Lemma encode_length f fs : length (encode (f :: fs)) = (String.length f + 1 + length (encode fs))%nat.
Proof. rewrite encode_cons, length_app, length_ascii. simpl. lia. Qed.

Lemma cstr_text s rest : text s -> cstr (list_ascii_of_string s ++ zero :: rest) = Some s.
Proof.
  unfold text. induction s as [|c s IH]; simpl; [done|]. rewrite not_elem_of_cons. intros [Hc Hs].
  destruct (Ascii.eqb_spec c zero); [congruence|]. by rewrite IH.
Qed.

(** * The fields *)

Definition field_ok (f : string) : Prop :=
  text f /\ f <> "" /\ (String.prefix "SWITCH_STATE=" f = true -> is_Some (atoi (s_drop 13 f))).

(** The last value of a field that gives one. *)
Definition last_value {A} (dflt : A) (value : string -> option A) (fs : list string) : A :=
  default dflt (list.last (omap value fs)).
Definition state_value (f : string) : option Z :=
  if String.prefix "SWITCH_STATE=" f then atoi (s_drop 13 f) else None.
Definition time_value (f : string) : option Z :=
  if String.prefix "SWITCH_TIME=" f then Some (strtoull (s_drop 12 f))
  else if String.prefix "VSYNC=" f then Some (strtoull (s_drop 6 f)) else None.

Lemma last_value_cons {A} (dflt : A) value f fs :
  last_value dflt value (f :: fs) = last_value (default dflt (value f)) value fs.
Proof. unfold last_value. simpl. destruct (value f); [|done]. rewrite list.last_cons. by destruct (list.last _). Qed.

Lemma state_not_time f :
  String.prefix "SWITCH_STATE=" f = true ->
  String.prefix "SWITCH_TIME=" f = false /\ String.prefix "VSYNC=" f = false.
Proof. intros E. do 9 (destruct f as [|? f]; [done|]; simpl in E; case_match; [subst|done]). done. Qed.

Lemma uevent_field_spec f state time :
  field_ok f ->
  uevent_field f (Some (state, time)) = Some (default state (state_value f), default time (time_value f)).
Proof.
  intros (_ & _ & Hs). unfold uevent_field, state_value, time_value. cbn [mbind option_bind].
  destruct (String.prefix "SWITCH_STATE=" f) eqn:E.
  - destruct (Hs eq_refl) as [n Hn]. rewrite Hn. destruct (state_not_time f E) as [-> ->]. done.
  - by repeat case_match.
Qed.

Lemma uevent_fields_spec fs pre junk fuel state time :
  Forall field_ok fs -> fs <> [] -> (length fs <= fuel)%nat ->
  uevent_fields fuel (pre ++ encode fs ++ junk) (length pre) (Z.of_nat (length pre + length (encode fs))) (state, time) =
  Some (last_value state state_value fs, last_value time time_value fs).
Proof.
  revert pre fuel state time. induction fs as [|f fs IH]; intros pre fuel state time Hok Hne Hfuel; [done|].
  apply list.Forall_cons in Hok as [Hf Hok]. destruct fuel as [|fuel]; [simpl in Hfuel; lia|].
  cbn [uevent_fields]. rewrite drop_app_length, encode_cons.
  rewrite <- app_assoc, <- app_comm_cons, cstr_text by apply Hf. cbn [mbind option_bind].
  destruct f as [|c f'] eqn:Ef; [by destruct Hf as (_ & Hn & _)|]. rewrite <- Ef in *. clear c f' Ef.
  rewrite uevent_field_spec by done. cbn [mbind option_bind]. rewrite !last_value_cons.
  set (pre' := (pre ++ list_ascii_of_string f ++ [zero])%list).
  assert (Hp : length pre' = (length pre + String.length f + 1)%nat)
    by (unfold pre'; rewrite !length_app, length_ascii; simpl; lia).
  assert (Hb : (pre ++ list_ascii_of_string f ++ zero :: (encode fs ++ junk) = pre' ++ encode fs ++ junk)%list)
    by (unfold pre'; by rewrite <- !app_assoc).
  rewrite Hb, length_app, length_ascii. simpl length. rewrite <- Hp.
  destruct fs as [|g fs].
  - simpl. rewrite (proj2 (Z.leb_le _ _)); [done|]. rewrite Hp. lia.
  - rewrite (proj2 (Z.leb_gt _ _)) by (rewrite encode_length; lia).
    replace (length pre + (String.length f + S (length (encode (g :: fs)))))%nat
      with (length pre' + length (encode (g :: fs)))%nat by lia.
    apply IH; [done|done|simpl in *; lia].
Qed.

Lemma encode_fuel fs junk : (length fs <= length (encode fs ++ junk))%nat.
Proof.
  induction fs as [|f fs IH]; simpl; [lia|].
  rewrite !length_app, encode_length in *. lia.
Qed.

Section Uevents.
Context `{HwcApi} `{DssApi} `{BvApi} (E : hwc_env) (V : event_env).

(** A message of the kernel, whatever older bytes follow it in the buffer, does what its header
    and its fields say: on the header of the framebuffer the compositor is told of a vsync, at
    the last time a field gives; on those of the two switches the dock or the HDMI plug
    is in when the last state a field gives is one, and the hot plug is handled; other messages
    do nothing. *)
Lemma handle_uevents_correct hdr fs junk C d :
  text hdr -> Forall field_ok fs -> fs <> [] ->
  let state := last_value 0 state_value fs in
  let e := ext d in
  handle_uevents E V (encode (hdr :: fs) ++ junk) (Z.of_nat (length (encode (hdr :: fs)))) C d =
  if decide (hdr ∈ ["change@/devices/platform/omapfb"; "change@/devices/virtual/switch/omapfb-vsync"])
  then Some (C, if procs C then emit_event (E_vsync (last_value 0 time_value fs)) d else d)
  else if decide (hdr = "change@/devices/virtual/switch/dock")
  then handle_hotplug E V C (set_ext (set_force_dock (state =? 1) e) d)
  else if decide (hdr = "change@/devices/virtual/switch/hdmi")
  then handle_hotplug E V C (set_ext (set_hdmi_state (state =? 1) e) d)
  else Some (C, d).
Proof.
  intros Hh Hok Hne state e. unfold handle_uevents.
  rewrite encode_cons, <- app_assoc, <- app_comm_cons, cstr_text by done. cbn [mbind option_bind].
  set (pre := (list_ascii_of_string hdr ++ [zero])%list).
  assert (Hp : length pre = (String.length hdr + 1)%nat) by (unfold pre; rewrite length_app, length_ascii; simpl; lia).
  replace (list_ascii_of_string hdr ++ zero :: encode fs ++ junk)%list with (pre ++ encode fs ++ junk)%list
    by (unfold pre; by rewrite <- app_assoc).
  assert (Hl : length (list_ascii_of_string hdr ++ zero :: encode fs) = (length pre + length (encode fs))%nat)
    by (rewrite Hp, length_app, length_ascii; simpl; lia).
  rewrite Hl, <- Hp, uevent_fields_spec; [|done|done|rewrite length_app; pose proof (encode_fuel fs junk); lia].
  cbn [mbind option_bind]. fold state e.
  destruct (String.eqb_spec hdr "change@/devices/virtual/switch/dock") as [->|Hd]; [done|].
  destruct (String.eqb_spec hdr "change@/devices/virtual/switch/hdmi") as [->|Hm]; [done|].
  destruct (String.eqb_spec hdr "change@/devices/platform/omapfb") as [->|Hv]; [done|].
  destruct (String.eqb_spec hdr "change@/devices/virtual/switch/omapfb-vsync") as [->|Hw]; [done|].
  cbn [negb andb orb]. rewrite !decide_False; [done|done|done|].
  rewrite !elem_of_cons, elem_of_nil. tauto.
Qed.

End Uevents.

(** A message of the switch, whose last state is out, and older bytes behind it. *)
Definition sample_message : list string :=
  ["change@/devices/virtual/switch/hdmi"; "ACTION=change"; "SWITCH_STATE=1"; "SWITCH_STATE=0"].

Lemma handle_uevents_correct_witness :
  (fun s => (hdmi_state (ext s.2), last_mode (ext s.2))) <$>
    handle_uevents (sample_hwc_env sample_lcd) (sample_events no_properties)
      (encode sample_message ++ [zero; "1"%char; zero]) (Z.of_nat (length (encode sample_message)))
      mirrored.1 mirrored.2 = Some (false, 0).
Proof.
  unfold sample_message.
  rewrite (handle_uevents_correct (sample_hwc_env sample_lcd) (sample_events no_properties)
    "change@/devices/virtual/switch/hdmi" ["ACTION=change"; "SWITCH_STATE=1"; "SWITCH_STATE=0"]).
  - by vm_compute.
  - by apply (bool_decide_unpack _).
  - repeat (constructor; [split; [by apply (bool_decide_unpack _)|split; [done|intros; by eexists]]|]). done.
  - done.
Defined.
