(* ===== verification/HwcRun.v ===== *)
(** The composer as it runs: frames of the compositor interleaved with the thread of the
    external display (src/hwc/hwc.c).  Whatever their order, every composition posted has at
    most four overlays on distinct z-orders and pipes, and no error of the overlays is
    logged. *)

From Stdlib Require Import ZArith Lia Floats.SpecFloat Ascii String.
From stdpp Require Import base list list_numbers option tactics relations.
From S2P Require Import Prelude RgzGeometry RgzState RgzBlit HwcModel HwcLayers HwcGeometry HwcPrepare.
From S2P Require Import HwcOverlays HwcChoice HwcPlan HwcFrames HwcEvents HwcSamples.
Local Open Scope string_scope.
Local Open Scope Z_scope.

Section Run.
Context `{HwcApi} `{DssApi} `{BvApi} {laws : DssLaws}.

(** * What the thread keeps *)

(** The limits of the platform and the format of the framebuffer. *)
Definition config_ok (C : hwc_config) : Prop := limits_ok C /\ is_valid_format (fb_format C) = true.

(** The composition is as it was, and so are the events about overlays; the external
    display's transformations stay well formed. *)
Record thread_ok (d d' : omap_hwc_device_t) : Prop := {
  th_dev : dev_ok d -> dev_ok d';
  th_planned : planned d -> planned d';
  th_events : overlay_events d' = overlay_events d }.

Lemma thread_ok_refl d : thread_ok d d.
Proof. done. Qed.
Lemma thread_ok_trans d d1 d2 : thread_ok d d1 -> thread_ok d1 d2 -> thread_ok d d2.
Proof. intros [] []. split; [by auto..|congruence]. Qed.

Lemma thread_ok_event e d : overlay_event e = false -> thread_ok d (emit_event e d).
Proof. intros He. by destruct (emit_same e d He) as (? & ? & ?). Qed.

Lemma thread_ok_plan d d' : same_plan d d' -> ext_ovls d' = ext_ovls d -> thread_ok d d'.
Proof.
  intros [Hdc Hp Hb Hc He Hw Hle Hli Hdk Hm Hev] Hext. split; [|intros (Hst & Ho & Hl)|done].
  - intros []. split; by rewrite ?Hb, ?Hle, ?Hli, ?Hdk, ?Hm.
  - split; [by rewrite Hdc|by rewrite Hext, Hp].
Qed.

Definition tforms_ok (e : omap_hwc_ext_t) : Prop :=
  (t_enabled (e_dock e) = true -> t_docking (e_dock e) = true) /\ t_docking (e_mirror e) = false.

Lemma thread_ok_ext d e : tforms_ok e -> thread_ok d (set_ext e d).
Proof. intros [Hd Hm]. split; [|done..]. intros []. by split. Qed.

Lemma thread_ok_ext_keep d e :
  e_dock e = e_dock (ext d) -> e_mirror e = e_mirror (ext d) -> thread_ok d (set_ext e d).
Proof. intros Hd Hm. split; [|done..]. intros []. split; try done; simpl; by rewrite ?Hd, ?Hm. Qed.

Lemma invalidate_ok C d : thread_ok d (invalidate C d).
Proof. unfold invalidate. destruct (procs C); [by apply thread_ok_event|done]. Qed.

Lemma set_primary_ok E C : config_ok C -> config_ok (set_primary_display_transform_matrix E C).
Proof.
  intros [[] Hf]. unfold set_primary_display_transform_matrix. split; [|by case_match].
  set (t := b2z (negb _ || _)). assert (Ht : t = 0 \/ t = 1) by (unfold t; destruct (_ || _); auto).
  case_match; by split.
Qed.

Lemma free_tiler2d_ok C d C' d' :
  config_ok C -> free_tiler2d_buffers C d = (C', d') -> config_ok C' /\ thread_ok d d'.
Proof.
  intros HC. unfold free_tiler2d_buffers. intros [= <- <-]. split; [destruct HC as [[] ?]; by split|].
  generalize (ion_handles C) as hs. intros hs. revert d. induction hs as [|x hs IH]; intros d; simpl; [done|].
  eapply thread_ok_trans; [|apply IH]. by apply thread_ok_event.
Qed.

Lemma allocate_tiler2d_ok V C d C' d' :
  config_ok C -> allocate_tiler2d_buffers V C d = (C', d') -> config_ok C' /\ thread_ok d d'.
Proof.
  intros HC. unfold allocate_tiler2d_buffers. destruct (negb _); [by intros [= <- <-]|].
  destruct (existsb _ _); [by intros [= <- <-]|]. destruct (alloc_handles _ _ _ _) as [ok hs].
  assert (HC' : config_ok (set_ion_handles hs C)) by (destruct HC as [[] ?]; by split).
  destruct ok; [by intros [= <- <-]|]. by apply free_tiler2d_ok.
Qed.

Lemma set_best_hdmi_mode_ok C E xr yr xpy d rv d' :
  set_best_hdmi_mode C E xr yr xpy d = Some (rv, d') -> thread_ok d d'.
Proof. intros Hr. pose proof (set_best_hdmi_mode_plan _ _ _ _ _ _ _ _ Hr) as Hs. apply thread_ok_plan; [done|apply Hs]. Qed.

Lemma hotplug_tv_ok E C d C' d' :
  config_ok C -> hotplug_tv E C d = Some (C', d') -> config_ok C' /\ thread_ok d d'.
Proof.
  intros HC. unfold hotplug_tv. destruct (hdmi_state (ext d)).
  - destruct (set_best_hdmi_mode _ _ _ _ _ _) as [[rv d1]|] eqn:Eb; [|done]. intros [= <- <-].
    split; [by apply set_primary_ok|]. apply set_best_hdmi_mode_ok in Eb.
    eapply thread_ok_trans; [exact Eb|]. set (d2 := if negb _ then _ else _).
    assert (Ht : thread_ok d1 d2) by (unfold d2; destruct (negb _); [by apply thread_ok_event|done]).
    eapply thread_ok_trans; [exact Ht|]. eapply thread_ok_trans; [|apply invalidate_ok]. by apply thread_ok_event.
  - intros [= <- <-]. split; [done|]. by apply thread_ok_ext_keep.
Qed.

Lemma try_mirroring_ok E C d d' : dev_ok d -> try_mirroring E C d = Some d' -> thread_ok d d'.
Proof.
  unfold try_mirroring. intros Hd. destruct (negb _); [by intros [= <-]|].
  destruct (setup_mirroring _ _ _) as [[rv d2]|] eqn:Em; [|done]. set (d1 := set_ext _ d) in Em.
  pose proof (setup_mirroring_plan _ _ _ _ _ Em) as Hs.
  assert (Ht : thread_ok d d2).
  { apply (thread_ok_trans _ d1); [by apply thread_ok_ext_keep|]. apply thread_ok_plan; [done|apply Hs]. }
  assert (Hd2 : dev_ok d2) by (by apply Ht).
  destruct (rv =? 0); intros [= <-]; (apply (thread_ok_trans _ d2); [exact Ht|]).
  - eapply thread_ok_trans; [|by apply thread_ok_event]. by apply thread_ok_ext_keep.
  - apply thread_ok_ext. split; [apply (ok_dock _ Hd2)|apply (ok_mirror _ Hd2)].
Qed.

Lemma load_dock_image_ok V C : config_ok C -> config_ok (load_dock_image V C).
Proof. unfold load_dock_image. intros [[] ?]. repeat case_match; by split. Qed.

(** Switching both off. *)
Definition off (d : omap_hwc_device_t) : omap_hwc_device_t :=
  set_ext (set_tforms (set_t_enabled false (e_mirror (ext d))) (set_t_enabled false (e_dock (ext d))) (ext d)) d.
Lemma off_ok d : dev_ok d -> thread_ok d (off d).
Proof. intros Hd. apply thread_ok_ext. split; [done|]. apply (ok_mirror _ Hd). Qed.

(** The hot plug, the messages and the thread keep what the frames rely on. *)
Lemma handle_hotplug_ok E V C d C' d' :
  config_ok C -> dev_ok d -> handle_hotplug E V C d = Some (C', d') -> config_ok C' /\ thread_ok d d'.
Proof.
  intros HC Hd. unfold handle_hotplug. destruct (on_tv C); [by apply hotplug_tv_ok|].
  fold (off d). pose proof (off_ok d Hd) as Ht1. pose proof (th_dev _ _ Ht1 Hd) as Hd1.
  destruct (hdmi_state (ext (off d))).
  - destruct (read_tforms V C (ext (off d))) as [e|] eqn:Er; [|done].
    assert (He : tforms_ok e).
    { unfold read_tforms in Er. repeat (destruct (atoi _); [|done]). injection Er as <-. by split. }
    destruct (if force_dock e then _ else _) as [C2 d2] eqn:E2.
    assert (Hs2 : config_ok C2 /\ thread_ok (off d) d2).
    { destruct (force_dock e); injection E2 as <- <-; (split; [by try apply load_dock_image_ok|]).
      - eapply thread_ok_trans; [|by apply thread_ok_event]. apply thread_ok_ext. destruct He. by split.
      - by apply thread_ok_ext. }
    destruct Hs2 as [HC2 Ht2]. destruct (try_mirroring E C2 d2) as [d3|] eqn:E3; [|done].
    apply try_mirroring_ok in E3 as Ht3; [|by apply Ht2].
    destruct (if needs_backup V d3 then _ else _) as [C4 d4] eqn:E4. intros [= <- <-].
    assert (Hs4 : config_ok C4 /\ thread_ok d3 d4).
    { destruct (needs_backup V d3); [by eapply allocate_tiler2d_ok|by injection E4 as <- <-]. }
    destruct Hs4 as [HC4 Ht4]. split; [done|].
    eapply thread_ok_trans; [exact Ht1|]. eapply thread_ok_trans; [exact Ht2|].
    eapply thread_ok_trans; [exact Ht3|]. eapply thread_ok_trans; [exact Ht4|]. apply invalidate_ok.
  - set (d2 := set_ext _ (off d)). destruct (if needs_backup V d2 then _ else _) as [C3 d3] eqn:E3. intros [= <- <-].
    assert (Hs3 : config_ok C3 /\ thread_ok d2 d3).
    { destruct (needs_backup V d2); [by eapply free_tiler2d_ok|by injection E3 as <- <-]. }
    destruct Hs3 as [HC3 Ht3]. split; [done|].
    eapply thread_ok_trans; [exact Ht1|]. apply (thread_ok_trans _ d2); [by apply thread_ok_ext_keep|].
    eapply thread_ok_trans; [exact Ht3|]. apply invalidate_ok.
Qed.

Lemma handle_uevents_ok E V buff len C d C' d' :
  config_ok C -> dev_ok d -> handle_uevents E V buff len C d = Some (C', d') -> config_ok C' /\ thread_ok d d'.
Proof.
  intros HC Hd. unfold handle_uevents. destruct (cstr buff) as [s|]; [|done].
  destruct (_ && _ && _); [by intros [= <- <-]|].
  destruct (uevent_fields _ _ _ _ _) as [[state ts]|]; [|done]. destruct (_ || _).
  - intros [= <- <-]. split; [done|]. destruct (procs C); [by apply thread_ok_event|done].
  - set (d1 := set_ext _ d). assert (Ht : thread_ok d d1) by (apply thread_ok_ext_keep; by case_match).
    intros Hh. apply handle_hotplug_ok in Hh as [HC' Ht']; [|done|by apply Ht].
    split; [done|]. by eapply thread_ok_trans.
Qed.

Lemma hdmi_thread_ok E V r C d timeout C' d' timeout' :
  config_ok C -> dev_ok d -> hdmi_thread E V r C d timeout = Some (C', d', timeout') ->
  config_ok C' /\ thread_ok d d'.
Proof.
  intros HC Hd. unfold hdmi_thread. destruct r as [| |pipe [[buff len]|]].
  - destruct (_ && _ && _ && _); [|by intros [= <- <- <-]]. intros [= <- <- <-]. split; [done|].
    eapply thread_ok_trans; [|by apply thread_ok_event]. split; [by intros []; split|done..].
  - by intros [= <- <- <-].
  - destruct (handle_uevents _ _ _ _ _ _) as [[C1 d1]|] eqn:Eh; [|done]. intros [= <- <- <-].
    by eapply handle_uevents_ok.
  - by intros [= <- <- <-].
Qed.

(** * The run *)

(** A call of the compositor, or one round of the thread.  The layers' handles can be read, and
    two scaled layers are not mirrored without SGX. *)
Inductive hwc_step : hwc_config * omap_hwc_device_t -> hwc_config * omap_hwc_device_t -> Prop :=
| step_prepare hmem bg_layer E C d l l' d' :
    Forall (layer_ok hmem) (layers_of l) -> one_scaled hmem C l d = true ->
    hwc_prepare hmem bg_layer C E l d = Some (l', d') -> hwc_step (C, d) (C, d')
| step_set E C d l err d' :
    hwc_set C E l d = Some (err, d') -> hwc_step (C, d) (C, d')
| step_thread E V r C d timeout C' d' timeout' :
    hdmi_thread E V r C d timeout = Some (C', d', timeout') -> hwc_step (C, d) (C', d').

(** The invariant of a run. *)
Record run_ok (s : hwc_config * omap_hwc_device_t) : Prop := {
  run_config : config_ok s.1;
  run_dev : dev_ok s.2;
  run_planned : planned s.2;
  run_posts : Forall post_of (overlay_events s.2) }.

Lemma hwc_step_ok s s' : hwc_step s s' -> run_ok s -> run_ok s'.
Proof.
  intros [hmem bg E C d l l' d' Hl Hone Hp|E C d l err d' Hs|E V r C d t C' d' t' Ht] [[HC Hf] Hd Hpl Hev];
    simpl in *.
  - destruct (hwc_prepare_planned hmem bg C E HC Hf l d l' d') as (Hd' & Hp' & He); [done..|].
    split; simpl; [done..|]. by rewrite He.
  - destruct (hwc_set_spec C E l d err d' Hd Hpl Hs) as (Hd' & Hp' & es & He & Hes).
    split; simpl; [done..|]. rewrite He. by apply Forall_app.
  - destruct (hdmi_thread_ok _ _ _ _ _ _ _ _ _ (conj HC Hf) Hd Ht) as [HC' [Hd' Hp' He']].
    split; simpl; [done|by apply Hd'|by apply Hp'|by rewrite He'].
Qed.

Lemma run_keeps s s' : rtc hwc_step s s' -> run_ok s -> run_ok s'.
Proof. induction 1; eauto using hwc_step_ok. Qed.

Lemma planned_zero e bufs : planned (set_ext e (set_buffers bufs zero_device)).
Proof.
  split; [|split; simpl; lia]. exists 0%nat.
  split; [done|lia|simpl; by rewrite length_replicate| |]; unfold zs, ixs, shown; simpl; by split; constructor.
Qed.

(** A device just opened. *)
Lemma hwc_device_open_ok E V dis hdmi dock bufs C C' d' :
  config_ok C -> length bufs = MAX_HWC_LAYERS ->
  hwc_device_open E V dis hdmi dock bufs C = Some (C', d') -> run_ok (C', d').
Proof.
  intros HC Hb. unfold hwc_device_open. set (C1 := set_primary_display_transform_matrix _ _).
  assert (HC1 : config_ok C1) by (apply set_primary_ok; destruct HC as [[] ?]; by split).
  destruct (clone_region _ _) as [region|]; [|done].
  set (e := set_force_dock _ _). set (d0 := set_ext _ _).
  assert (Hd0 : dev_ok d0) by (split; simpl; try done; lia).
  intros Hh. apply handle_hotplug_ok in Hh as [HC' [Hd Hp He]]; [|done..].
  split; simpl; [done|by apply Hd|apply Hp, planned_zero|]. by rewrite He.
Qed.

(** C2: From the opening of the device on, whatever calls of the compositor, messages of the
    kernel, timeouts and hot plugs come in whatever order - as long as the handles of the layers of
    a frame can be read and no frame mirrors two scaled layers without SGX ([one_scaled]; with two
    the pipes of the clones collide, [mirrored_videos_collide]) - every composition posted to the display
    subsystem has at most four overlays, on z-orders that are distinct and count from zero
    to their number, and on distinct pipes among the four there are; and the error messages of
    [hwc_prepare] about overlays are never logged. *)
Theorem posts_distinct E V dis hdmi dock bufs C s s' :
  config_ok C -> length bufs = MAX_HWC_LAYERS ->
  hwc_device_open E V dis hdmi dock bufs C = Some s -> rtc hwc_step s s' ->
  (forall bs dc items, E_post bs dc items ∈ events s'.2 ->
     (num_ovls dc <= 4)%nat /\
     NoDup (zs dc) /\ Forall (fun z => 0 <= z < Z.of_nat (num_ovls dc)) (zs dc) /\
     NoDup (ixs dc) /\ Forall (fun i => 0 <= i < 4) (ixs dc)) /\
  (forall m, E_log m ∈ events s'.2 -> m = L_no_fb_z \/ m = L_no_hdmi \/ m = L_no_mode).
Proof.
  intros HC Hb Ho Hr.
  assert (Hok : run_ok s') by (apply (run_keeps _ _ Hr); destruct s; by eapply hwc_device_open_ok).
  destruct Hok as [_ _ _ Hp]. unfold overlay_events in Hp. rewrite list.Forall_forall in Hp.
  assert (Hin : forall e, e ∈ events s'.2 -> overlay_event e = true -> post_of e).
  { intros e He Ht. apply Hp, list_elem_of_filter. done. }
  split.
  - intros bs dc items He. destruct (Hin _ He eq_refl) as [n [Hnum Hmax _ [Hz1 Hz2] [Hi1 Hi2]]].
    rewrite Hnum. done.
  - intros m He. destruct m; auto; by destruct (Hin _ He eq_refl).
Qed.

End Run.

(** * A run *)

(** A frame is two steps of a run. *)
Lemma frame_steps s ls s' :
  Forall (layer_ok sample_buffers) ls -> one_scaled sample_buffers s.1 (frame_of ls) s.2 = true ->
  frame_with s ls = Some s' -> rtc hwc_step s s'.
Proof.
  destruct s as [C d]. intros Hl Hone. unfold frame_with.
  destruct (prepare_with (C, d) ls) as [[l1 d1]|] eqn:Ep; [|done].
  destruct (set_with ((C, d).1, d1)) as [[err d2]|] eqn:Es; [|done]. intros [= <-].
  apply (rtc_l _ _ (C, d1)); [apply (step_prepare _ _ _ _ _ (frame_of ls) _ _ Hl Hone Ep)|].
  apply rtc_once. eapply step_set. exact Es.
Qed.

Lemma posts_distinct_witness :
  (forall bs dc items, E_post bs dc items ∈ events mirrored_shown.2 ->
     (num_ovls dc <= 4)%nat /\
     NoDup (zs dc) /\ Forall (fun z => 0 <= z < Z.of_nat (num_ovls dc)) (zs dc) /\
     NoDup (ixs dc) /\ Forall (fun i => 0 <= i < 4) (ixs dc)) /\
  (forall m, E_log m ∈ events mirrored_shown.2 -> m = L_no_fb_z \/ m = L_no_hdmi \/ m = L_no_mode).
Proof.
  apply (posts_distinct (sample_hwc_env sample_lcd) (sample_events no_properties) sample_lcd true false
           (replicate MAX_HWC_LAYERS 0) (sample_config true sample_lcd) mirrored).
  - split; [apply sample_limits_ok|done].
  - done.
  - by vm_compute.
  - apply (frame_steps _ [desktop; window]); [|by vm_compute|exact mirrored_frame].
    by do 2 (constructor; [by eexists|]).
Defined.
