(* ===== verification/HwcDisplay.v ===== *)
(** What a composition of the hardware composer (src/hwc/hwc.c) shows: the overlays of the
    display in the order of their z-orders, the framebuffer among them with what SGX renders,
    against the specification, the layers painted from the back to the front.  Pixels are any
    monoid of translucent colors. *)

From Stdlib Require Import ZArith Lia Floats.SpecFloat.
From stdpp Require Import base list list_numbers option tactics.
From S2P Require Import Prelude RgzGeometry RgzState RgzBlit HwcModel HwcLayers HwcGeometry HwcPrepare.
From S2P Require Import HwcOverlays HwcChoice HwcPlan.

(** * Pixels *)

(** Colors with their transparency: [over] puts one on another, [clear] is transparent. *)
Class Pixels (P : Type) := {
  over : P -> P -> P; clear : P;
  over_assoc : forall a b c, over a (over b c) = over (over a b) c;
  over_clear_l : forall a, over clear a = a;
  over_clear_r : forall a, over a clear = a }.

(** Opaque pixels or none: the simplest instance. *)
#[export] Instance opaque_pixels : Pixels (option Z).
Proof.
  refine {| over a b := match a with Some _ => a | None => b end; clear := None |}; by intros [].
Defined.

(** What is seen through: translucent colors from the front to the back, and whether the last one
    hides what is below. *)
#[export] Instance layered_pixels : Pixels (list Z * bool).
Proof.
  refine {| over (a b : list Z * bool) := if a.2 then a else (a.1 ++ b.1, b.2); clear := ([], false) |}.
  - intros [a []] [b []] [c oc]; simpl; by rewrite ?app_assoc.
  - by intros [].
  - intros [a []]; simpl; by rewrite ?List.app_nil_r.
Defined.

Section Paint.
Context {P : Type} `{Pixels P}.

(** Pixels one on another, the first at the back. *)
Definition pile (ps : list P) (back : P) : P := fold_left (fun below p => over p below) ps back.

Lemma pile_app ps qs back : pile (ps ++ qs) back = pile qs (pile ps back).
Proof. apply fold_left_app. Qed.

Lemma pile_cons p ps back : pile (p :: ps) back = pile ps (over p back).
Proof. done. Qed.

Lemma pile_over ps back : pile ps back = over (pile ps clear) back.
Proof.
  induction ps as [|p ps IH] using rev_ind; [simpl; by rewrite over_clear_l|].
  rewrite !pile_app. simpl. by rewrite IH, over_assoc.
Qed.

(** The levels of a display that has the pixels [ps] on its first ones. *)
Lemma pile_levels (g : Z -> option P) ps k z back :
  (length ps <= k)%nat -> (forall i, (i < k)%nat -> g (z + Z.of_nat i) = ps !! i) ->
  fold_left (fun below z => match g z with Some p => over p below | None => below end) (seqZ z (Z.of_nat k)) back =
  pile ps back.
Proof.
  revert ps z back. induction k as [|k IH]; intros ps z back Hk Hg.
  { destruct ps; [done|simpl in Hk; lia]. }
  rewrite seqZ_cons by lia. replace (Z.pred (Z.of_nat (S k))) with (Z.of_nat k) by lia.
  cbn [fold_left]. pose proof (Hg 0%nat ltac:(lia)) as Hz. rewrite Z.add_0_r in Hz. rewrite Hz.
  assert (Hg' : forall i, (i < k)%nat -> g (Z.succ z + Z.of_nat i) = tail ps !! i).
  { intros i Hi. replace (Z.succ z + Z.of_nat i) with (z + Z.of_nat (S i)) by lia. rewrite Hg by lia.
    by destruct ps. }
  destruct ps as [|p ps]; [apply (IH [] (Z.succ z) back)|apply (IH ps (Z.succ z) (over p back))]; simpl in *; (lia || done).
Qed.

End Paint.

(** * Orientations *)

(** The symmetries of the square: the images of the two axes, x to the right and y down. *)
Definition orientation : Type := (Z * Z) * (Z * Z).
Definition compose (a b : orientation) : orientation :=
  let '((a1, a2), (a3, a4)) := a in
  let '((b1, b2), (b3, b4)) := b in
  ((a1 * b1 + a2 * b3, a1 * b2 + a2 * b4), (a3 * b1 + a4 * b3, a3 * b2 + a4 * b4)).
Definition upright : orientation := ((1, 0), (0, 1)).
Definition flip_h : orientation := ((-1, 0), (0, 1)).
Definition flip_v : orientation := ((1, 0), (0, -1)).
(** A quarter turn clockwise. *)
Definition rot_90 : orientation := ((0, -1), (1, 0)).
Fixpoint turns (n : nat) : orientation := match n with O => upright | S n => compose rot_90 (turns n) end.

(** F^mirror * R^rotation, the turns before the flip. *)
Definition dss_orientation (rot : Z) (mir : bool) : orientation :=
  compose (if mir then flip_h else upright) (turns (Z.to_nat (Z.land rot 3))).
Definition when (b : bool) (o : orientation) : orientation := if b then o else upright.
(** The flips of a layer before its turn. *)
Definition layer_orientation `{HwcApi} (t : Z) : orientation :=
  compose (when (has_flag t HWC_TRANSFORM_ROT_90) rot_90)
    (compose (when (has_flag t HWC_TRANSFORM_FLIP_V) flip_v) (when (has_flag t HWC_TRANSFORM_FLIP_H) flip_h)).

Lemma setup_transform_orientation `{HwcApi} t :
  let '(rot, mir) := setup_transform t 0 false in dss_orientation rot mir = layer_orientation t.
Proof.
  unfold setup_transform, layer_orientation.
  by destruct (has_flag t HWC_TRANSFORM_FLIP_H), (has_flag t HWC_TRANSFORM_FLIP_V), (has_flag t HWC_TRANSFORM_ROT_90).
Qed.

(** * Looks *)

#[export] Instance dss2_rect_eq_dec : EqDecision dss2_rect.
Proof. solve_decision. Defined.

(** What a rectangle of a display is given: a buffer, how it is read and where it is put. *)
Record look := mkLook {
  lk_buffer : Z; lk_width : Z; lk_height : Z; lk_color : Z; lk_swap : bool; lk_conv : list Z;
  lk_premult : bool; lk_alpha : Z; lk_orient : orientation; lk_win : dss2_rect; lk_crop : dss2_rect }.
#[export] Instance look_eq_dec : EqDecision look.
Proof. solve_decision. Defined.

(** Comparing constants that are the same or known to differ. *)
Ltac decide_eqb :=
  repeat match goal with
    | |- context [?a =? ?a] => rewrite (Z.eqb_refl a)
    | Hx : context [?a =? ?a] |- _ => rewrite (Z.eqb_refl a) in Hx
    | |- context [?a =? ?b] => rewrite (proj2 (Z.eqb_neq a b)) by first [assumption | apply not_eq_sym; assumption]
    | Hx : context [?a =? ?b] |- _ => rewrite (proj2 (Z.eqb_neq a b)) in Hx by first [assumption | apply not_eq_sym; assumption]
    end.

Section Look.
Context `{HwcApi} `{DssApi}.

(** Of an overlay: the red and the blue are swapped for the whole display, but in YUV buffers. *)
Definition overlay_look (buffer : Z) (swap : bool) (c : dss2_ovl_cfg) : look :=
  mkLook buffer (c_width c) (c_height c) (color_mode c) (swap && negb (color_mode c =? OMAP_DSS_COLOR_NV12))
    (cconv c) (pre_mult_alpha c) (global_alpha c) (dss_orientation (rotation c) (mirror c)) (win c) (crop c).

(** Of a layer with its buffer: the alpha of the buffer is used when the layer is blended. *)
Definition layer_color (format : Z) (blended : bool) : Z :=
  if (format =? HAL_PIXEL_FORMAT_TI_NV12) || (format =? HAL_PIXEL_FORMAT_TI_NV12_1D) then OMAP_DSS_COLOR_NV12
  else if format =? HAL_PIXEL_FORMAT_RGB_565 then OMAP_DSS_COLOR_RGB16
  else if blended && ((format =? HAL_PIXEL_FORMAT_RGBA_8888) || (format =? HAL_PIXEL_FORMAT_BGRA_8888))
  then OMAP_DSS_COLOR_ARGB32 else OMAP_DSS_COLOR_RGB24U.
Definition layer_look (l : hwc_layer_1_t) (h : IMG_native_handle_t) : look :=
  mkLook (handle l) (iWidth h) (iHeight h) (layer_color (iFormat h) (is_BLENDED l)) (is_BGR h)
    (if is_NV12 h then ctbl_bt601_5 else []) (blending l =? HWC_BLENDING_PREMULT) 255
    (layer_orientation (transform l)) (dss_rect_of (displayFrame l)) (dss_rect_of (sourceCrop l)).

(** The red and blue of a buffer are as the display swaps them. *)
Definition order_ok (swap : bool) (h : IMG_native_handle_t) : bool :=
  negb (if swap then is_RGB h else is_BGR h).

Context {laws : DssLaws}.

Lemma valid_formats f : is_valid_format f = true ->
  f ∈ [HAL_PIXEL_FORMAT_RGBA_8888; HAL_PIXEL_FORMAT_RGBX_8888; HAL_PIXEL_FORMAT_RGB_565;
       HAL_PIXEL_FORMAT_BGRA_8888; HAL_PIXEL_FORMAT_BGRX_8888; HAL_PIXEL_FORMAT_TI_NV12;
       HAL_PIXEL_FORMAT_TI_NV12_1D].
Proof.
  unfold is_valid_format. rewrite !orb_true_iff, !Z.eqb_eq, !elem_of_cons. tauto.
Qed.

(** The color mode and the table of a format are its own, and the swap of the display gives the
    order of its red and blue. *)
Lemma color_of_format h blended swap col cv :
  is_valid_format (iFormat h) = true -> order_ok swap h = true -> color_of (iFormat h) blended = Some (col, cv) ->
  col = layer_color (iFormat h) blended /\ default [] cv = (if is_NV12 h then ctbl_bt601_5 else []) /\
  swap && negb (col =? OMAP_DSS_COLOR_NV12) = is_BGR h.
Proof.
  intros Hf Ho Hc. pose proof law_formats as Hd. pose proof law_colors as Ha. apply valid_formats in Hf.
  rewrite !list.NoDup_cons, !not_elem_of_cons in Hd. rewrite !list.NoDup_cons, !not_elem_of_cons in Ha. destruct_and!.
  unfold layer_color, is_BGR, is_BGR_format, is_NV12, color_of, order_ok, is_RGB, is_BGR, is_BGR_format in *.
  rewrite !elem_of_cons in Hf.
  destruct Hf as [E|[E|[E|[E|[E|[E|[E|E]]]]]]]; [..|by apply not_elem_of_nil in E]; rewrite E in *; clear E.
  all: decide_eqb; cbn [negb andb orb] in *.
  all: destruct blended, swap; cbn [negb andb orb] in Ho, Hc |- *; try discriminate Ho;
    injection Hc as <- <-; cbn [default]; decide_eqb; done.
Qed.

Lemma setup_layer_look l h swap :
  is_valid_format (iFormat h) = true -> order_ok swap h = true ->
  overlay_look (handle l) swap (layer_cfg l h) = layer_look l h.
Proof.
  intros Hf Ho. destruct (valid_format_color (iFormat h) (is_BLENDED l) Hf) as [[col cv] Hc].
  pose proof (setup_transform_orientation (transform l)) as Hor.
  assert (Hcol : col = layer_color (iFormat h) (is_BLENDED l) /\ default [] cv = (if is_NV12 h then ctbl_bt601_5 else []) /\
    swap && negb (col =? OMAP_DSS_COLOR_NV12) = is_BGR h) by (by apply (color_of_format h (is_BLENDED l) swap)).
  destruct Hcol as (-> & Hcv & Hsw).
  unfold layer_cfg, setup_layer, setup_layer_base. rewrite Hc. simpl.
  destruct (setup_transform (transform l) 0 false) as [rot mir].
  unfold overlay_look, layer_look. simpl. by rewrite Hor, Hcv, Hsw.
Qed.

End Look.

(** * What is shown *)

Definition in_rect (r : dss2_rect) (pos : Z * Z) : bool :=
  (dr_x r <=? pos.1) && (pos.1 <? dr_x r + dr_w r) && (dr_y r <=? pos.2) && (pos.2 <? dr_y r + dr_h r).

Section Display.
Context `{HwcApi} `{DssApi} {laws : DssLaws}.
Context {P : Type} `{Pixels P}.
Context (hmem : Z -> option IMG_native_handle_t) (C : hwc_config).
(** What the hardware reads for a look, how a layer without a buffer that overlays can show is
    rendered, and what an overlay shows that no buffer is behind. *)
Context (scan : look -> Z * Z -> P) (soft : hwc_layer_1_t -> Z * Z -> P) (stray : look -> Z * Z -> P).

Definition plain (l : hwc_layer_1_t) : hwc_layer_1_t := set_hints 0 (set_composition HWC_FRAMEBUFFER l).
Definition layer_pixel (pos : Z * Z) (l : hwc_layer_1_t) : P :=
  match (if handle l =? 0 then None else hmem (handle l)) with
  | Some h => if is_valid_format (iFormat h) then scan (layer_look l h) pos else soft (plain l) pos
  | None => soft (plain l) pos
  end.

(** The specification: the layers painted from the back to the front. *)
Definition paint (ls : list hwc_layer_1_t) (pos : Z * Z) : P := pile (map (layer_pixel pos) ls) clear.

(** What SGX renders: the layers left to it, and nothing where a layer asks for it. *)
Definition sgx_step (pos : Z * Z) (fb : P) (l : hwc_layer_1_t) : P :=
  if compositionType l =? HWC_FRAMEBUFFER then over (layer_pixel pos l) fb
  else if has_flag (hints l) HWC_HINT_CLEAR_FB && in_rect (dss_rect_of (displayFrame l)) pos then clear
  else fb.
Definition framebuffer (ls : list hwc_layer_1_t) (pos : Z * Z) : P := fold_left (sgx_step pos) ls clear.

(** The framebuffer is shown whole, with its alpha. *)
Definition fb_look : look :=
  mkLook 0 (fb_width C) (fb_height C) OMAP_DSS_COLOR_ARGB32 (is_BGR_format (fb_format C)) [] true 255 upright
    (mkDssRect 0 0 (fb_width C) (fb_height C)) (mkDssRect 0 0 (fb_width C) (fb_height C)).

Definition overlay_pixel (bufs : list Z) (swap : bool) (fb : Z * Z -> P) (pos : Z * Z) (o : dss2_ovl_info) : P :=
  let lk b := overlay_look b swap (cfg o) in
  match (if addressing o =? OMAP_DSS_BUFADDR_LAYER_IX then bufs !! Z.to_nat (ba o) else None) with
  | None => stray (lk 0) pos
  | Some b => if negb (b =? 0) then scan (lk b) pos else if decide (lk 0 = fb_look) then fb pos else stray (lk 0) pos
  end.

(** The display of the manager [ix]: on each of its levels the overlay enabled there. *)
Definition on_level (ix z : Z) (o : dss2_ovl_info) : bool :=
  (mgr_ix (cfg o) =? ix) && enabled (cfg o) && (zorder (cfg o) =? z).
Definition swap_of (dc : dsscomp_setup_dispc_data) : bool :=
  match mgrs dc with m :: _ => mgr_swap_rb m | [] => false end.
Definition display (bufs : list Z) (dc : dsscomp_setup_dispc_data) (fb : Z * Z -> P) (pos : Z * Z) : P :=
  fold_left (fun below z =>
      match overlay_pixel bufs (swap_of dc) fb pos <$> List.find (on_level 0 z) (shown dc) with
      | Some p => over p below
      | None => below
      end) (seqZ 0 (Z.of_nat 4)) clear.

(** * One pixel *)

Hypothesis scan_outside : forall lk pos, in_rect (lk_win lk) pos = false -> scan lk pos = clear.
Hypothesis scan_opaque : forall lk pos p,
  lk_color lk <> OMAP_DSS_COLOR_ARGB32 -> in_rect (lk_win lk) pos = true -> over (scan lk pos) p = scan lk pos.

Lemma paint_app ls ls' pos : paint (ls ++ ls') pos = over (paint ls' pos) (paint ls pos).
Proof. unfold paint. by rewrite map_app, pile_app, pile_over. Qed.
Lemma paint_snoc ls l pos : paint (ls ++ [l]) pos = over (layer_pixel pos l) (paint ls pos).
Proof. rewrite paint_app. unfold paint. simpl. by rewrite over_clear_r. Qed.

Lemma paint_decision ds (d : decision) pos : paint (ds ++ [d]).*1 pos = over (layer_pixel pos d.1) (paint ds.*1 pos).
Proof. rewrite fmap_app. apply paint_snoc. Qed.

Lemma layer_pixel_plain pos l l' : plain l' = plain l -> layer_pixel pos l' = layer_pixel pos l.
Proof.
  intros Hp. pose proof (f_equal handle Hp) as E1. pose proof (f_equal transform Hp) as E2.
  pose proof (f_equal blending Hp) as E3. pose proof (f_equal sourceCrop Hp) as E4.
  pose proof (f_equal displayFrame Hp) as E5. simpl in *.
  unfold layer_pixel, layer_look, is_BLENDED. rewrite Hp, E1, E2, E3, E4, E5. reflexivity.
Qed.

Lemma paint_plain pos ls ls' : map plain ls' = map plain ls -> paint ls' pos = paint ls pos.
Proof.
  intros Hp. unfold paint. f_equal. revert ls' Hp. induction ls as [|l ls IH]; intros [|l' ls'] Hp; try done.
  pose proof (f_equal (hd (plain l)) Hp) as Hl. pose proof (f_equal (@List.tl _) Hp) as Hm.
  cbn [map]. f_equal; [by apply layer_pixel_plain|by apply IH].
Qed.

(** A layer fit for an overlay: a buffer is there, and blended layers do not clear the framebuffer. *)
Definition showable (l : hwc_layer_1_t) : Prop :=
  handle l <> 0 /\ (exists h, hmem (handle l) = Some h /\ is_valid_format (iFormat h) = true) /\
  (is_BLENDED l = true -> has_flag (hints l) HWC_HINT_CLEAR_FB = false).

Lemma layer_color_opaque f : layer_color f false <> OMAP_DSS_COLOR_ARGB32.
Proof.
  pose proof law_colors as Ha. rewrite !list.NoDup_cons, !not_elem_of_cons in Ha. destruct_and!.
  unfold layer_color. simpl. repeat case_match; congruence.
Qed.

Lemma showable_pixel l pos :
  showable l -> 
  (in_rect (dss_rect_of (displayFrame l)) pos = false -> layer_pixel pos l = clear) /\
  (is_BLENDED l = false -> in_rect (dss_rect_of (displayFrame l)) pos = true ->
   forall p, over (layer_pixel pos l) p = layer_pixel pos l).
Proof.
  intros (Hn & (h & Hh & Hf) & _). unfold layer_pixel. rewrite (proj2 (Z.eqb_neq _ _) Hn), Hh, Hf. split.
  - intros Hr. by apply scan_outside.
  - intros Hb Hr p. apply scan_opaque; [|done]. simpl. rewrite Hb. apply layer_color_opaque.
Qed.

(** The layers as SGX sees them. *)
Definition mark_sgx (d : decision) : hwc_layer_1_t := if d.2 then overlay_layer true d.1 else d.1.

Lemma sgx_overlay l fb pos :
  showable l -> sgx_step pos fb (overlay_layer true l) =
    if negb (is_BLENDED l) && in_rect (dss_rect_of (displayFrame l)) pos then clear else fb.
Proof.
  intros (_ & _ & Hc). unfold sgx_step, overlay_layer. simpl.
  rewrite (proj2 (Z.eqb_neq _ _) law_overlay). pose proof law_clear as Hcl. pose proof law_hints as Hh.
  destruct (is_BLENDED l); simpl; unfold has_flag in *.
  - assert (Hx : Z.land (Z.lor (hints l) HWC_HINT_TRIPLE_BUFFER) HWC_HINT_CLEAR_FB = Z.land (hints l) HWC_HINT_CLEAR_FB).
    { by rewrite Z.land_lor_distr_l, Hh, Z.lor_0_r. }
    rewrite Hx, Hc by done. done.
  - assert (Hx : Z.land (Z.lor (Z.lor (hints l) HWC_HINT_TRIPLE_BUFFER) HWC_HINT_CLEAR_FB) HWC_HINT_CLEAR_FB = HWC_HINT_CLEAR_FB).
    { apply Z.bits_inj'. intros n _. rewrite Z.land_spec, !Z.lor_spec. by destruct (Z.testbit HWC_HINT_CLEAR_FB n), (Z.testbit (hints l) n), (Z.testbit HWC_HINT_TRIPLE_BUFFER n). }
    rewrite Hx, (proj2 (Z.eqb_neq _ _) Hcl). done.
Qed.

Lemma sgx_fb l fb pos : compositionType l = HWC_FRAMEBUFFER -> sgx_step pos fb l = over (layer_pixel pos l) fb.
Proof. intros Hl. unfold sgx_step. by rewrite Hl, Z.eqb_refl. Qed.

(** The overlays above the framebuffer and below it. *)
Definition below_fb (ds : list decision) : nat := default (length (chosen ds)) (levels ds).2.

Lemma below_fb_le ds : (below_fb ds <= length (chosen ds))%nat.
Proof. unfold below_fb. destruct (levels ds).2 eqn:E; simpl; [by eapply levels_below|done]. Qed.

(** Between two layers: the overlays above the framebuffer, the framebuffer and the overlays below
    it show what has been painted, and one of the first two is transparent. *)
Record pixel_ok (ds : list decision) (pos : Z * Z) : Prop := {
  px_paint : over (paint (drop (below_fb ds) (chosen ds)) pos)
               (over (framebuffer (map mark_sgx ds) pos) (paint (take (below_fb ds) (chosen ds)) pos)) =
             paint ds.*1 pos;
  px_none : (levels ds).2 = None -> framebuffer (map mark_sgx ds) pos = clear;
  px_clear : paint (drop (below_fb ds) (chosen ds)) pos = clear \/ framebuffer (map mark_sgx ds) pos = clear }.

Lemma framebuffer_snoc ds d pos :
  framebuffer (map mark_sgx (ds ++ [d])) pos = sgx_step pos (framebuffer (map mark_sgx ds) pos) (mark_sgx d).
Proof. unfold framebuffer. by rewrite map_app, fold_left_app. Qed.

Lemma pixel_fb ds l pos :
  compositionType l = HWC_FRAMEBUFFER -> pixel_ok ds pos -> pixel_ok (ds ++ [(l, false)]) pos.
Proof.
  intros Hl [Hp Hn Hc]. unfold below_fb in *.
  assert (Hlev : (levels (ds ++ [(l, false)])).2 = Some (length (chosen ds)))
    by (rewrite levels_snoc; simpl; by rewrite levels_length).
  split; unfold below_fb; rewrite ?framebuffer_snoc, ?Hlev, ?chosen_fb; [|done|]; simpl default.
  - rewrite drop_all, take_ge by done. rewrite paint_decision, <- Hp.
    change (mark_sgx (l, false)) with l. rewrite sgx_fb by done. cbn [fst]. change (paint [] pos) with clear. rewrite over_clear_l, <- over_assoc. f_equal.
    rewrite <- (take_drop (default (length (chosen ds)) (levels ds).2) (chosen ds)) at 1. rewrite paint_app.
    destruct Hc as [-> | ->]; by rewrite ?over_clear_l.
  - left. by rewrite drop_all.
Qed.

Lemma pixel_overlay ds l pos :
  showable l -> (is_BLENDED l = true -> (levels ds).2 = None) -> pixel_ok ds pos ->
  pixel_ok (ds ++ [(l, true)]) pos.
Proof.
  intros Hl Hb [Hp Hn Hc]. destruct (showable_pixel l pos Hl) as [Hout Hin].
  assert (Hlev : (levels (ds ++ [(l, true)])).2 = (levels ds).2) by (by rewrite levels_snoc).
  pose proof (below_fb_le ds) as Hle. unfold below_fb in *.
  split; unfold below_fb; rewrite ?framebuffer_snoc, ?Hlev, ?chosen_overlay, ?length_app;
    try change (mark_sgx (l, true)) with (overlay_layer true l);
    rewrite ?sgx_overlay by done; destruct (levels ds).2 as [b|] eqn:Eb; cbn [default length] in *.
  - (* an opaque layer above the framebuffer *)
    assert (Hnb : is_BLENDED l = false) by (destruct (is_BLENDED l); [by specialize (Hb eq_refl)|done]).
    rewrite Hnb. simpl. rewrite drop_app_le, take_app_le by done. rewrite paint_decision, paint_snoc, <- Hp. simpl.
    destruct (in_rect _ pos) eqn:Er; [by rewrite !(Hin Hnb eq_refl)|]. by rewrite (Hout eq_refl), !over_clear_l.
  - (* no framebuffer yet *)
    rewrite drop_ge by (rewrite length_app; simpl; lia). rewrite take_ge by (rewrite length_app; simpl; lia).
    rewrite paint_decision, paint_snoc, <- Hp. simpl. rewrite drop_all, take_ge, (Hn eq_refl) by done.
    change (paint [] pos) with clear. rewrite !over_clear_l. case_match; by rewrite over_clear_l.
  - done.
  - rewrite (Hn eq_refl). by case_match.
  - assert (Hnb : is_BLENDED l = false) by (destruct (is_BLENDED l); [by specialize (Hb eq_refl)|done]).
    rewrite Hnb. simpl. destruct (in_rect _ pos) eqn:Er; [by right|].
    rewrite drop_app_le, paint_snoc by done. rewrite (Hout eq_refl), over_clear_l. done.
  - right. rewrite (Hn eq_refl). by case_match.
Qed.

(** Whatever the decisions, as long as blended layers are not above the framebuffer. *)
Lemma pixels ds pos :
  Forall (fun l => compositionType l = HWC_FRAMEBUFFER) ds.*1 -> Forall showable (chosen ds) ->
  (forall ds1 l ds2, ds = ds1 ++ (l, true) :: ds2 -> is_BLENDED l = true -> (levels ds1).2 = None) ->
  pixel_ok ds pos.
Proof.
  intros Hc Hs Ho. induction ds as [|[l yes] ds IH] using rev_ind.
  - split; [|done|by left]. unfold paint, framebuffer. simpl. by rewrite !over_clear_l.
  - rewrite fmap_app in Hc. apply Forall_app in Hc as [Hc Hl]. apply list.Forall_cons in Hl as [Hl _].
    rewrite chosen_snoc in Hs. apply Forall_app in Hs as [Hs Hs']. 
    assert (IH' : pixel_ok ds pos).
    { apply IH; [exact Hc|exact Hs|]. intros ds1 l1 ds2 ->. apply (Ho ds1 l1 (ds2 ++ [(l, yes)])). by rewrite <- app_assoc. }
    destruct yes; [|apply pixel_fb; [exact Hl|exact IH']]. apply pixel_overlay; [by apply list.Forall_cons in Hs' as [? _]| |done].
    by apply (Ho ds l []).
Qed.

End Display.
