(* ===== verification/HwcShown.v ===== *)
(** What is shown (src/hwc/hwc.c): without blits, the overlays that [hwc_prepare] sets up for the
    primary display, with what SGX renders of the layers left to it, show the layers painted from
    the back to the front. *)

From Stdlib Require Import ZArith Lia Floats.SpecFloat.
From stdpp Require Import base list list_numbers option tactics.
From S2P Require Import Prelude RgzGeometry RgzState RgzBlit HwcModel HwcLayers HwcGeometry HwcPrepare.
From S2P Require Import HwcOverlays HwcChoice HwcPlan HwcFrames HwcEvents HwcSamples HwcDisplay.

(** * The first overlays are the primary display's *)

(** The first [n] overlays are those of [dc0], and the others shown are the external display's. *)
Record extends (n : nat) (dc0 dc : dsscomp_setup_dispc_data) : Prop := {
  xt_num : (n <= num_ovls dc)%nat;
  xt_first : take n (ovls dc) = take n (ovls dc0);
  xt_mgrs : forall i o, (n <= i < num_ovls dc)%nat -> ovls dc !! i = Some o -> mgr_ix (cfg o) = 1 }.

Lemma extends_upd `{DssApi} n dc0 dc i g dc' :
  extends n dc0 dc -> (n <= i)%nat -> (forall o, mgr_ix (cfg (g o)) = mgr_ix (cfg o)) \/ (num_ovls dc <= i)%nat ->
  upd_ovl i g dc = Some dc' -> extends n dc0 dc'.
Proof.
  intros [Hn Hf Hm] Hi Hg. unfold upd_ovl. destruct (ovls dc !! i) as [o|] eqn:Ho; [|done]. intros [= <-].
  split; simpl; [done|by rewrite take_insert_ge|].
  intros j x Hj. destruct (decide (j = i)) as [->|Hne]; [|rewrite list_lookup_insert_ne by done; by apply Hm].
  rewrite list_lookup_insert_eq by (by eapply lookup_lt_Some). intros [= <-].
  destruct Hg as [Hg|Hg]; [|lia]. rewrite Hg. by apply (Hm i).
Qed.

(** The devices that differ only in the external display, the composition and the events. *)
Definition same_image (d d' : omap_hwc_device_t) : Prop :=
  swap_rb d' = swap_rb d /\ buffers d' = buffers d /\ use_sgx d' = use_sgx d /\
  post2_blit_buffers d' = post2_blit_buffers d /\ post2_layers d' = post2_layers d.

Section Shown.
Context `{HwcApi} `{DssApi} `{BvApi} {laws : DssLaws}.
Context (hmem : Z -> option IMG_native_handle_t) (bg_layer : hwc_layer_1_t).
Context (C : hwc_config) (E : hwc_env).

Lemma set_best_hdmi_mode_only xr yr xpy d rv d' :
  set_best_hdmi_mode C E xr yr xpy d = Some (rv, d') -> exists e evs, d' = set_ext e (set_events evs d).
Proof.
  assert (Hd : exists e evs, d = set_ext e (set_events evs d)) by (exists (ext d), (events d); by destruct d).
  unfold set_best_hdmi_mode. destruct (query_display _ _) as [dis|]; [|by intros [= <- <-]].
  destruct (_ || _); [by intros [= <- <-]|].
  destruct (if (x_res dis =? 0) || (y_res dis =? 0) then _ else _) as [sx sy].
  destruct (try_modes _ _ _ _ _ _ _ _ _) as [b|]; [|done].
  set (e := set_screen _ _ _ _ _).
  destruct (best b) as [i|].
  - destruct (modedb dis !! i) as [m|]; [|done]. destruct (last_mode e =? _); simpl; intros [= <- <-]; eauto.
  - destruct (get_max_dimensions _ _ _ _ _ _ _) as [[fx fy]|]; [|done].
    destruct (if pixel_clock dis =? 0 then _ else _) as [usable|]; [|done].
    destruct usable; simpl; intros [= <- <-]; eauto.
Qed.

Lemma setup_mirroring_only d rv d' :
  setup_mirroring C E d = Some (rv, d') -> exists e evs, d' = set_ext e (set_events evs d).
Proof.
  unfold setup_mirroring. destruct (if negb _ then _ else _) as [xr yr].
  destruct (set_best_hdmi_mode _ _ _ _ _ _) as [[rv0 d0]|] eqn:Eb; [|done].
  apply set_best_hdmi_mode_only in Eb as (e & evs & ->). destruct (rv0 =? 0); simpl; [|intros [= <- <-]; eauto].
  destruct (set_ext_matrix _ _) as [e'|]; [|done]. intros [= <- <-]. by exists e', evs.
Qed.

(** What is cloned goes after the first overlays. *)
Lemma clone_layer_extends n dc0 ix d rv d' :
  clone_layer C ix d = Some (rv, d') -> extends n dc0 (dsscomp_data d) ->
  same_image d d' /\ extends n dc0 (dsscomp_data d') /\ (rv = 0 -> (n < num_ovls (dsscomp_data d'))%nat).
Proof.
  intros Hc [Hn Hf Hm]. unfold clone_layer in Hc. destruct (_ <=? _).
  { injection Hc as <- <-. split; [done|]. split; [done|]. pose proof law_errnos. lia. }
  destruct (ovls (dsscomp_data d) !! ix) as [o|]; [|done].
  destruct (if (ix =? 0)%nat then _ else _) as [ion|]; [|done].
  set (o1 := upd_cfg _ _) in Hc. destruct (adjust_ext_layer _ _) as [o'|] eqn:Ea; [|done].
  apply adjust_ext_layer_keeps in Ea as (_ & _ & Hmg).
  unfold upd_ovl in Hc. destruct (ovls _ !! num_ovls _) as [x|] eqn:Hx; [|done]. injection Hc as <- <-.
  split; [done|]. split; [|simpl; lia]. split; simpl; [lia|by rewrite take_insert_ge by lia|].
  intros i y Hi. destruct (decide (i = num_ovls (dsscomp_data d))) as [->|Hne].
  - rewrite list_lookup_insert_eq by (by eapply lookup_lt_Some). intros [= <-]. rewrite Hmg. unfold o1. simpl.
    by case_match.
  - rewrite list_lookup_insert_ne by done. apply Hm. lia.
Qed.

Lemma clone_layers_extends n dc0 j ix z d z' d' :
  clone_layers C j ix z d = Some (z', d') -> extends n dc0 (dsscomp_data d) ->
  same_image d d' /\ extends n dc0 (dsscomp_data d').
Proof.
  revert ix z d. induction j as [|j IH]; intros ix z d; simpl; [by intros [= <- <-]|].
  destruct (clone_layer C ix d) as [[rv d1]|] eqn:Ec; [|done]. intros Hr Hx.
  destruct (clone_layer_extends _ _ _ _ _ _ Ec Hx) as (Hs1 & Hx1 & _).
  destruct (negb _); [by injection Hr as <- <-|]. destruct (IH _ _ _ Hr Hx1) as [Hs2 Hx2]. split; [|done].
  unfold same_image in *. destruct_and!. split_and!; congruence.
Qed.

Lemma clone_external_layer_extends n dc0 ix d rv d' :
  clone_external_layer C E ix d = Some (rv, d') -> extends n dc0 (dsscomp_data d) ->
  same_image d d' /\ extends n dc0 (dsscomp_data d') /\ (rv = 0 -> (n < num_ovls (dsscomp_data d'))%nat).
Proof.
  unfold clone_external_layer. destruct (ovls (dsscomp_data d) !! ix) as [o|]; [|done].
  destruct (if negb _ then (u32 (dr_h _), _) else _) as [xr yr].
  set (xpy := if negb (Z.land (t_rotation _) 1 =? 0) then _ else _).
  destruct (if _ || _ then set_best_hdmi_mode _ _ _ _ _ _ else Some (0, d)) as [[rv0 d1]|] eqn:Eb; [|done].
  assert (Hs : exists e evs, d1 = set_ext e (set_events evs d)).
  { destruct (_ || _); [by eapply set_best_hdmi_mode_only|]. injection Eb as <- <-. exists (ext d), (events d). by destruct d. }
  destruct Hs as (e & evs & ->). destruct (negb (rv0 =? 0)).
  - intros [= <- <-] Hx. split; [done|]. split; [done|]. pose proof law_errnos. lia.
  - destruct (set_ext_matrix _ _) as [e'|]; [|done]. intros Hc Hx.
    by apply (clone_layer_extends n dc0) in Hc.
Qed.

Lemma mirror_layers_extends f z d' :
  let dc := dsscomp_data (f_dev f) in
  mirror_layers C E f = Some (z, d') ->
  same_image (set_post2_layers (num_ovls dc) (f_dev f)) d' /\ extends (num_ovls dc) dc (dsscomp_data d').
Proof.
  intros dc Hr. unfold mirror_layers in Hr. set (d1 := set_post2_layers _ _) in Hr.
  assert (Hx0 : extends (num_ovls dc) dc dc) by (split; [done|done|lia]).
  assert (Hsame : forall z0 e evs, Some (z0, set_ext e (set_events evs d1)) = Some (z, d') ->
    same_image d1 d' /\ extends (num_ovls dc) dc (dsscomp_data d')) by (by intros z0 e evs [= _ <-]).
  assert (Hd1 : d1 = set_ext (ext d1) (set_events (events d1) d1)) by done.
  destruct (_ && _); [|rewrite Hd1 in Hr; by eapply Hsame].
  destruct (t_docking _).
  - destruct (f_docking f) as [ix|].
    + destruct (clone_external_layer _ _ _ _) as [[rv d2]|] eqn:Ee; [|done].
      apply (clone_external_layer_extends (num_ovls dc) dc) in Ee as (Hs & Hx & Hn); [|done].
      destruct (rv =? 0) eqn:E0; [|by injection Hr as <- <-]. apply Z.eqb_eq in E0.
      destruct (upd_ovl _ _ _) as [dc2|] eqn:Eu; [|done]. injection Hr as <- <-. split; [done|].
      refine (extends_upd _ _ _ _ _ _ Hx _ _ Eu); [specialize (Hn E0); lia|by left].
    + destruct (force_dock _); [|rewrite Hd1 in Hr; by eapply Hsame].
      destruct (upd_ovl _ _ _) as [dc1|] eqn:Eu; [|done].
      change (num_ovls (dsscomp_data d1)) with (num_ovls dc) in *.
      assert (Hx1 : extends (num_ovls dc) dc dc1) by (refine (extends_upd _ _ _ _ _ _ Hx0 _ _ Eu); [done|by right]).
      destruct (clone_external_layer _ _ _ _) as [[rv d2]|] eqn:Ee; [|done].
      apply (clone_external_layer_extends (num_ovls dc) dc) in Ee as (Hs & Hx & Hn); [|done].
      destruct (rv =? 0) eqn:E0; [|by injection Hr as <- <-].
      destruct (upd_ovl (num_ovls dc) _ (dsscomp_data d2)) as [dc2|] eqn:Eu2; [|done]. injection Hr as <- <-. split; [done|].
      refine (extends_upd _ _ _ _ _ _ Hx _ _ Eu2); [done|by left].
  - destruct (if t_docking _ then _ else _) as [[rv d2]|] eqn:Es; [|done].
    assert (Hs : exists e evs, d2 = set_ext e (set_events evs d1)).
    { destruct (t_docking (e_last _)); [by eapply setup_mirroring_only|]. injection Es as <- <-.
      by exists (ext d1), (events d1). }
    destruct Hs as (e & evs & ->). destruct (negb (rv =? 0)); [by eapply Hsame|].
    by apply (clone_layers_extends (num_ovls dc) dc) in Hr.
Qed.


(** * The overlays without blits *)

Hypothesis lims : limits_ok C.
Hypothesis no_blits : blt_policy C = BLTPOLICY_DISABLED.
(** The framebuffer has an alpha channel, and stays as it is. *)
Hypothesis fb_alpha : fb_format C = HAL_PIXEL_FORMAT_RGBA_8888 \/ fb_format C = HAL_PIXEL_FORMAT_BGRA_8888.
Hypothesis untransformed : primary_transform C = 0.

Lemma fb_valid : is_valid_format (fb_format C) = true.
Proof. unfold is_valid_format. destruct fb_alpha as [-> | ->]; by rewrite Z.eqb_refl, ?orb_true_r. Qed.

(** The state in which the layers are given overlays. *)
Definition pipes_from (d : omap_hwc_device_t) : omap_hwc_device_t :=
  set_dsscomp (set_num_ovls (if use_sgx d then 1%nat else 0%nat) (dsscomp_data d)) d.

Record unblitted (l : option hwc_display_contents_1_t) (d : omap_hwc_device_t)
    (l' : option hwc_display_contents_1_t) (f : frame) (ds : list decision) : Prop := {
  ub_layers : ds.*1 = layers_of l;
  ub_list : l' = option_map (set_layers (map (marked d) ds)) l;
  ub_plan : plan hmem C (pipes_from d) ds (dsscomp_data (f_dev f)) (buffers (f_dev f));
  ub_opaque : opaque_above (pipes_from d) ds;
  ub_decided : exists f1, decided hmem C (layers_of l) (mkFrame (pipes_from d) 0 (-1) None false 0) ds f1;
  ub_image : swap_rb (f_dev f) = swap_rb d /\ use_sgx (f_dev f) = use_sgx d /\
             post2_blit_buffers (f_dev f) = post2_blit_buffers d;
  ub_room : (num_ovls (dsscomp_data (f_dev f)) <= 4)%nat }.

Lemma setup_overlays_unblitted l d :
  blank d -> (4 <= length (buffers d))%nat -> max_hw_overlays (counts d) <= MAX_HW_OVERLAYS ->
  forall l' f, setup_overlays hmem bg_layer C E l d = Some (l', f) -> exists ds, unblitted l d l' f ds.
Proof.
  intros Hbl Hbuf Hmax l' f. unfold setup_overlays. rewrite no_blits. simpl. fold (pipes_from d).
  pose proof law_ovls as Hov. set (d0 := pipes_from d).
  assert (L0 : loop hmem C d0 [] (mkFrame d0 0 (-1) None false 0)) by (by apply loop_init).
  assert (B0 : between hmem C d0 [] (mkFrame d0 0 (-1) None false 0)).
  { split; [done|]. split; [simpl; unfold chosen; simpl; lia|]. intros [|] ? ?; done. }
  assert (Hroom : (4 <= DSS_OVLS)%nat /\ (4 <= length (buffers d0))%nat) by done.
  destruct (prepare_layers _ _ _ _) as [[ls1 f1]|] eqn:El; [|done].
  destruct (prepare_layers_run hmem C d0 Hroom Hmax _ [] _ _ _ B0 El) as (ds & -> & Hdec & B).
  simpl in B. pose proof (between_room hmem C d0 Hroom Hmax _ _ B) as Hrm. destruct B as (L & _ & Hop).
  pose proof (lp_dev _ _ _ _ _ L) as Hdev.
  assert (Hl : ds.*1 = layers_of l) by (by eapply decided_layers).
  assert (Hd : exists f1, decided hmem C (layers_of l) (mkFrame d0 0 (-1) None false 0) ds f1) by eauto.
  destruct (if f_scaled_gfx f1 then _ else _) as [dc|] eqn:Edc; [|done].
  destruct (use_sgx d) eqn:Eu.
  - destruct (plan_fb hmem C d0 Hroom Hmax ds f1 L) as (Hg & f2 & evs & Hf2 & Hp & _ & _ & Hd2 & _); [done|apply fb_valid|simpl; lia|lia|].
    rewrite Hg in Edc. injection Edc as <-.
    replace (mkFrame _ _ _ _ _ _) with f1 by (destruct f1 as [[] ? ? ? ? ?]; done).
    rewrite Hf2. intros [= <- <-]. exists ds. split; [done|done|done|done|done| |].
    + by rewrite Hd2.
    + rewrite (pl_num _ _ _ _ _ _ Hp). done.
  - intros [= <- <-]. destruct (plan_no_fb hmem C d0 Hroom ds f1 dc L) as [Hp _]; [done|done|].
    exists ds. split; [done|done|done|done|done| |]; simpl.
    + by rewrite Hdev.
    + rewrite (pl_num _ _ _ _ _ _ Hp). done.
Qed.

(** * The levels of the primary display *)

Lemma find_unique {A} (f : A -> bool) os k o :
  os !! k = Some o -> f o = true -> (forall j x, os !! j = Some x -> f x = true -> j = k) ->
  List.find f os = Some o.
Proof.
  revert k. induction os as [|x os IH]; intros k Hk Hf Hu; [done|]. simpl. destruct (f x) eqn:Ex.
  - assert (k = 0%nat) as -> by (symmetry; by apply (Hu 0%nat x)). simpl in Hk. congruence.
  - destruct k as [|k]; [simpl in Hk; congruence|]. apply (IH k); [done..|].
    intros j y Hj Hy. specialize (Hu (S j) y Hj Hy). lia.
Qed.

Lemma find_no {A} (f : A -> bool) os :
  (forall j x, os !! j = Some x -> f x = false) -> List.find f os = None.
Proof.
  intros Hn. destruct (List.find f os) as [x|] eqn:Ef; [|done]. apply List.find_some in Ef as [Hin Hx].
  apply list_elem_of_In, list_elem_of_lookup in Hin as [j Hj]. by rewrite (Hn j x Hj) in Hx.
Qed.

(** Every level below the number of overlays has one. *)
Lemma z_at_onto d0 ds i :
  (i < first_ovl d0 + length (chosen ds))%nat ->
  exists k, (k < first_ovl d0 + length (chosen ds))%nat /\ z_at d0 ds k = Z.of_nat i.
Proof.
  intros Hi.
  assert (Hb : (fb_below d0 ds <= length (chosen ds))%nat).
  { unfold fb_below. destruct (fb_level d0 ds) eqn:E1; simpl; [by eapply fb_level_below|done]. }
  unfold first_ovl in Hi. destruct (use_sgx d0) eqn:Es.
  - exists (if (i <? fb_below d0 ds)%nat then S i else if (i =? fb_below d0 ds)%nat then 0%nat else i).
    unfold z_at, z_of, fb_place, first_ovl. rewrite Es.
    repeat case_match; rewrite ?Nat.ltb_lt, ?Nat.ltb_ge, ?Nat.leb_le, ?Nat.leb_gt, ?Nat.eqb_eq, ?Nat.eqb_neq in *;
      simplify_eq; lia.
  - exists i. unfold z_at, z_of, fb_place, first_ovl. rewrite Es. simpl. rewrite Nat.sub_0_r. split; [lia|done].
Qed.

(** What an overlay of the plan shows: the framebuffer or a layer. *)
Definition shows {A} (d0 : omap_hwc_device_t) (ds : list decision) (fb : A) (px : hwc_layer_1_t -> A) (k : nat) : option A :=
  if (k <? first_ovl d0)%nat then Some fb else px <$> chosen ds !! (k - first_ovl d0)%nat.

(** The levels with the framebuffer in its place. *)
Definition level_list {A} (d0 : omap_hwc_device_t) (ds : list decision) (fb : A) (px : hwc_layer_1_t -> A) : list A :=
  if use_sgx d0
  then map px (take (fb_below d0 ds) (chosen ds)) ++ fb :: map px (drop (fb_below d0 ds) (chosen ds))
  else map px (chosen ds).

Lemma level_list_length {A} d0 ds (fb : A) px :
  length (level_list d0 ds fb px) = (first_ovl d0 + length (chosen ds))%nat.
Proof.
  unfold level_list, first_ovl. destruct (use_sgx d0); [|by rewrite length_map].
  rewrite length_app. simpl. rewrite !length_map, length_take, length_drop. lia.
Qed.

Lemma level_list_lookup {A} d0 ds (fb : A) px k :
  (k < first_ovl d0 + length (chosen ds))%nat ->
  level_list d0 ds fb px !! Z.to_nat (z_at d0 ds k) = shows d0 ds fb px k.
Proof.
  intros Hk.
  assert (Hb : (fb_below d0 ds <= length (chosen ds))%nat).
  { unfold fb_below. destruct (fb_level d0 ds) eqn:E1; simpl; [by eapply fb_level_below|done]. }
  unfold level_list, shows, z_at, z_of, fb_place, first_ovl in *. destruct (use_sgx d0).
  2:{ simpl. rewrite Nat.sub_0_r, Nat2Z.id. apply list_lookup_fmap. }
  assert (Hlen : length (map px (take (fb_below d0 ds) (chosen ds))) = fb_below d0 ds)
    by (rewrite length_map, length_take; lia).
  destruct k as [|k]; simpl.
  - rewrite Nat2Z.id, lookup_app_r, Hlen, Nat.sub_diag by lia. done.
  - rewrite Nat.sub_0_r. destruct (fb_below d0 ds <=? k)%nat eqn:Ek.
    + apply Nat.leb_le in Ek. replace (Z.to_nat (Z.of_nat k + 1)) with (S k) by lia.
      rewrite lookup_app_r, Hlen by lia. replace (S k - fb_below d0 ds)%nat with (S (k - fb_below d0 ds)) by lia.
      simpl. change (map px (drop (fb_below d0 ds) (chosen ds))) with (px <$> drop (fb_below d0 ds) (chosen ds)).
      rewrite list_lookup_fmap, lookup_drop. do 2 f_equal. lia.
    + apply Nat.leb_gt in Ek. rewrite Nat2Z.id, lookup_app_l by (rewrite Hlen; lia).
      change (map px (take (fb_below d0 ds) (chosen ds))) with (px <$> take (fb_below d0 ds) (chosen ds)).
      by rewrite list_lookup_fmap, lookup_take_lt.
Qed.

(** * The pixels of the overlays *)

Context {P : Type} `{Pixels P}.
Context (scan : look -> Z * Z -> P) (soft : hwc_layer_1_t -> Z * Z -> P) (stray : look -> Z * Z -> P).

(** The display is given layers of one order of red and blue. *)
Hypothesis rgb_order : flags_rgb_order C = true.

Notation layer_px := (layer_pixel hmem scan soft).

Lemma fb_cfg_spec :
  bare (fb_cfg C) = fb_cfg C /\ enabled (fb_cfg C) = true /\ mgr_ix (fb_cfg C) = 0 /\
  overlay_look 0 (is_BGR_format (fb_format C)) (fb_cfg C) = fb_look C.
Proof.
  pose proof law_colors as Ha. rewrite !list.NoDup_cons, !not_elem_of_cons in Ha.
  assert (Hc : color_of (fb_format C) true = Some (OMAP_DSS_COLOR_ARGB32, None)).
  { unfold color_of. destruct fb_alpha as [-> | ->]; by rewrite Z.eqb_refl, ?orb_true_r. }
  unfold fb_cfg, setup_layer_base. rewrite Hc. split_and!; [done..|]. unfold overlay_look, fb_look. simpl.
  rewrite (proj2 (Z.eqb_neq OMAP_DSS_COLOR_ARGB32 OMAP_DSS_COLOR_NV12)) by tauto. by rewrite andb_true_r.
Qed.

Lemma layer_cfg_spec l h : is_valid_format (iFormat h) = true -> enabled (layer_cfg l h) = true /\ mgr_ix (layer_cfg l h) = 0.
Proof. intros Hf. destruct (setup_layer_fields l (iFormat h) (iWidth h) (iHeight h) Hf) as [Hm He]. done. Qed.

Lemma bare_fields c c' : bare c = c' -> enabled c = enabled c' /\ mgr_ix c = mgr_ix c' /\
  forall b s, overlay_look b s c = overlay_look b s c'.
Proof. by intros <-. Qed.

(** Layers with a buffer of the order of the display. *)
Definition in_order (swap : bool) (l : hwc_layer_1_t) : Prop :=
  handle l <> 0 /\ exists h, hmem (handle l) = Some h /\ is_valid_format (iFormat h) = true /\ order_ok swap h = true.

Lemma plan_pixel d0 ds dc bufs swap fb pos k o :
  plan hmem C d0 ds dc bufs -> (k < first_ovl d0 + length (chosen ds))%nat -> ovls dc !! k = Some o ->
  Forall (in_order swap) (chosen ds) -> (use_sgx d0 = true -> swap = is_BGR_format (fb_format C)) ->
  enabled (cfg o) = true /\ mgr_ix (cfg o) = 0 /\ zorder (cfg o) = z_at d0 ds k /\
  Some (overlay_pixel C scan stray bufs swap fb pos o) = shows d0 ds (fb pos) (layer_px pos) k.
Proof.
  intros [Hnum Hlen Hlay Hfb _ _] Hk Ho Hord Hsw. unfold shows, z_at.
  destruct (k <? first_ovl d0)%nat eqn:Ef.
  - apply Nat.ltb_lt in Ef. unfold first_ovl in Ef. destruct (use_sgx d0) eqn:Es; [|lia].
    assert (k = 0%nat) as -> by lia. destruct (Hfb eq_refl) as (o' & Ho' & Ha & Hba & Hb & Hz & Hc).
    rewrite Ho in Ho'. injection Ho' as <-. destruct fb_cfg_spec as (_ & He & Hm & Hl).
    destruct (bare_fields _ _ Hc) as (He' & Hm' & Hl'). rewrite He', Hm', Hz. split_and!; [done..|].
    unfold overlay_pixel. rewrite Ha, Z.eqb_refl, Hba. change (Z.to_nat 0) with 0%nat. rewrite Hb, Z.eqb_refl.
    cbn [negb]. rewrite Hl', (Hsw eq_refl), Hl. by rewrite decide_True.
  - apply Nat.ltb_ge in Ef. destruct (lookup_lt_is_Some_2 (chosen ds) (k - first_ovl d0)) as [l Hl]; [lia|].
    destruct (Hlay _ _ Hl) as (h & o' & Hh & Hf & Ho' & Hb & Ha & Hba & Hz & Hc).
    replace (first_ovl d0 + (k - first_ovl d0))%nat with k in * by lia. rewrite Ho in Ho'. injection Ho' as <-.
    destruct (layer_cfg_spec l h Hf) as [He Hm]. destruct (bare_fields _ _ Hc) as (He' & Hm' & Hl').
    rewrite He', Hm', Hz, Hl. split_and!; [done..|]. simpl. f_equal.
    rewrite Forall_lookup in Hord. destruct (Hord _ _ Hl) as (Hn & h' & Hh' & _ & Hor).
    rewrite Hh in Hh'. injection Hh' as <-.
    unfold overlay_pixel, layer_pixel. rewrite Ha, Z.eqb_refl, Hba, Nat2Z.id, Hb, (proj2 (Z.eqb_neq _ _) Hn). simpl.
    rewrite Hh, Hf, Hl'. by rewrite setup_layer_look.
Qed.

(** The primary display shows the levels of the plan. *)
Lemma display_plan d0 ds dc bufs swap fb pos dc' :
  plan hmem C d0 ds dc bufs -> (num_ovls dc <= 4)%nat ->
  Forall (in_order swap) (chosen ds) -> (use_sgx d0 = true -> swap = is_BGR_format (fb_format C)) ->
  extends (num_ovls dc) dc dc' -> swap_of dc' = swap ->
  display C scan stray bufs dc' fb pos = pile (level_list d0 ds (fb pos) (layer_px pos)) clear.
Proof.
  intros Hp H4 Hord Hsw [Hn Hf Hm] Hs. unfold display. rewrite Hs.
  pose proof (pl_num _ _ _ _ _ _ Hp) as Hnum. pose proof (pl_ovls _ _ _ _ _ _ Hp) as Hlen. pose proof law_ovls as Hov.
  apply (pile_levels (fun z => overlay_pixel C scan stray bufs swap fb pos <$> List.find (on_level 0 z) (shown dc'))).
  { rewrite level_list_length. lia. }
  intros i Hi. rewrite Z.add_0_l.
  assert (Hlow : forall k, (k < num_ovls dc)%nat -> shown dc' !! k = ovls dc !! k).
  { intros k Hk. unfold shown. rewrite lookup_take_lt by lia.
    rewrite <- (lookup_take_lt (ovls dc') (num_ovls dc)), Hf by lia. by rewrite lookup_take_lt. }
  assert (Hhigh : forall k o, shown dc' !! k = Some o -> (num_ovls dc <= k)%nat -> on_level 0 (Z.of_nat i) o = false).
  { intros k o Ho Hk. unfold shown in Ho. apply lookup_take_Some in Ho as [Ho Hk'].
    unfold on_level. rewrite (Hm k o) by (done || lia). done. }
  assert (Hat : forall k o, (k < num_ovls dc)%nat -> shown dc' !! k = Some o ->
            on_level 0 (Z.of_nat i) o = (z_at d0 ds k =? Z.of_nat i)).
  { intros k o Hk Ho. rewrite Hlow in Ho by done.
    destruct (plan_pixel d0 ds dc bufs swap fb pos k o Hp) as (He & Hg & Hz & _); [lia|done..|].
    unfold on_level. rewrite He, Hg, Hz. done. }
  destruct (decide (i < num_ovls dc)%nat) as [Hin|Hin].
  - destruct (z_at_onto d0 ds i) as (k & Hk & Hz); [lia|].
    destruct (lookup_lt_is_Some_2 (ovls dc) k) as [o Ho]; [lia|].
    assert (Hso : shown dc' !! k = Some o) by (rewrite Hlow; [done|lia]).
    rewrite (find_unique (on_level 0 (Z.of_nat i)) _ k o).
    + simpl. destruct (plan_pixel d0 ds dc bufs swap fb pos k o Hp) as (_ & _ & _ & ->); [lia|done..|].
      rewrite <- (level_list_lookup d0 ds (fb pos) (layer_px pos) k), Hz by done. by rewrite Nat2Z.id.
    + done.
    + rewrite (Hat k) by (done || lia). by apply Z.eqb_eq.
    + intros j x Hj Hx. destruct (decide (j < num_ovls dc)%nat) as [Hjn|Hjn].
      * rewrite (Hat j x) in Hx by done. apply Z.eqb_eq in Hx. apply (z_at_inj d0 ds); [lia|lia|congruence].
      * rewrite (Hhigh j x Hj) in Hx by lia. done.
  - rewrite (find_no (on_level 0 (Z.of_nat i))).
    + simpl. symmetry. apply lookup_ge_None_2. rewrite level_list_length. lia.
    + intros j x Hj. destruct (decide (j < num_ovls dc)%nat) as [Hjn|Hjn]; [|apply (Hhigh j x Hj); lia].
      rewrite (Hat j x) by done. apply Z.eqb_neq. intros Hz. pose proof (z_at_bounds d0 ds j). lia.
Qed.

(** * The layers on overlays *)

Lemma add_overlay_fields l f f' :
  add_overlay hmem C l f = Some f' -> exists h dc b, hmem (handle l) = Some h /\
    f_dev f' = set_dsscomp dc (set_buffers b (f_dev f)) /\
    num_ovls dc = S (num_ovls (dsscomp_data (f_dev f))) /\ f_fb_z f' = f_fb_z f /\
    f_mem f' = u32 (f_mem f + mem1d h).
Proof.
  unfold add_overlay. destruct (hmem (handle l)) as [h|]; [|done].
  destruct (put_buffers _ _ _) as [b|]; [|done]. destruct (upd_ovl _ _ _) as [dc1|]; [|done].
  destruct (assign_gfx _ _ _ _) as [[g dc2]|]; [|done]. destruct (pick_docking _ _ _) as [k|]; [|done].
  intros [= <-]. by eexists h, _, b.
Qed.

Lemma add_fb_layer_fields f f' :
  add_fb_layer f = Some f' -> exists dc b, f_dev f' = set_dsscomp dc (set_buffers b (f_dev f)).
Proof.
  assert (Hd : exists dc b, f_dev f = set_dsscomp dc (set_buffers b (f_dev f)))
    by (exists (dsscomp_data (f_dev f)), (buffers (f_dev f)); by destruct (f_dev f)).
  unfold add_fb_layer. destruct (negb _); [by intros [= <-]|]. destruct (_ <? _); [by intros [= <-]|].
  destruct (lower_overlays _ _ _) as [dc|]; [|done]. intros [= <-]. exists dc, (buffers (f_dev f)). simpl.
  by destruct (f_dev f).
Qed.

Lemma takes_overlay_order l f : takes_overlay hmem C l f = Some true -> in_order (swap_rb (f_dev f)) l.
Proof.
  intros Ht. pose proof Ht as Ht'. unfold takes_overlay in Ht.
  destruct (negb _); [done|]. destruct (can_dss_render_layer _ _ _ _) as [[]|] eqn:Ec; try done.
  apply takes_overlay_valid in Ht' as (h & Hh & Hf & _). unfold can_dss_render_layer in Ec.
  match type of Ec with (match ?X with _ => _ end) = _ => destruct X as [cl|]; [|done] end.
  destruct (is_valid_layer _ _ _) as [[]|] eqn:Ev; simpl in Ec; try done. rewrite Hh in Ec. injection Ec as Ec.
  rewrite !andb_true_iff in Ec. destruct Ec as [[_ Ho] _]. rewrite rgb_order, orb_false_r in Ho.
  split; [|exists h; done]. unfold is_valid_layer in Ev. destruct (has_flag _ _); [done|].
  simpl in Ev. by destruct (Z.eqb_spec (handle l) 0).
Qed.

(** The layers on overlays have buffers of the order of the display. *)
Lemma decided_order ls f ds f' : decided hmem C ls f ds f' -> Forall (in_order (swap_rb (f_dev f))) (chosen ds).
Proof.
  induction 1 as [|l ls f f1 ds f' Ht Ha _ IH|l ls f f1 ds f' Ht Ha _ IH]; [constructor| |].
  - change (chosen ((l, true) :: ds)) with (l :: chosen ds). constructor; [by apply takes_overlay_order|].
    apply add_overlay_fields in Ha as (h & dc & b & _ & Hd & _). by rewrite Hd in IH.
  - change (chosen ((l, false) :: ds)) with (chosen ds).
    apply add_fb_layer_fields in Ha as (dc & b & Hd). by rewrite Hd in IH.
Qed.

Lemma chosen_sub ds : Forall (fun l => l ∈ ds.*1) (chosen ds).
Proof.
  apply list.Forall_forall. intros l Hl. unfold chosen in Hl. apply list_elem_of_fmap in Hl as (d & -> & Hd).
  apply list_elem_of_filter in Hd as [_ Hd]. apply list_elem_of_fmap. by exists d.
Qed.

(** * Without SGX every layer has an overlay *)

Notation valids := (valids hmem C).

Lemma valids_all ls : length (valids ls) = length ls -> (valids ls).*1 = ls.
Proof.
  unfold HwcChoice.valids. induction ls as [|l ls IH]; [done|]. csimpl.
  destruct (valid_of hmem C l) as [[l' h]|] eqn:Ev.
  - intros [= Hn]. csimpl. rewrite IH by done. f_equal. unfold valid_of in Ev.
    destruct (is_valid_layer _ _ _) as [[]|]; try done. destruct (hmem _); [|done]. by injection Ev as <- _.
  - intros Hn. assert (Hle : (length (omap (valid_of hmem C) ls) <= length ls)%nat).
    { clear. induction ls as [|l ls IH]; [done|]. csimpl. destruct (valid_of hmem C l); simpl; lia. }
    simpl in Hn. lia.
Qed.

Lemma valids_in ls l h : (l, h) ∈ valids ls ->
  is_valid_layer hmem C l = Some true /\ hmem (handle l) = Some h /\ handle l <> 0.
Proof.
  intros Hin. apply list_elem_of_omap in Hin as (l' & _ & Hv). unfold valid_of in Hv.
  destruct (is_valid_layer _ _ _) as [[]|] eqn:Ev; try done. destruct (hmem (handle l')) as [h'|] eqn:Eh; [|done].
  injection Hv as <- <-. split_and!; [done|done|]. unfold is_valid_layer in Ev. destruct (has_flag _ _); [done|].
  simpl in Ev. by destruct (Z.eqb_spec (handle l') 0).
Qed.

(** The memory of the layers, without wrapping around. *)
Definition memory (V : list (hwc_layer_1_t * IMG_native_handle_t)) : Z := foldr (fun v m => mem1d v.2 + m) 0 V.

Lemma mem1d_nonneg h : 0 <= mem1d h.
Proof. unfold mem1d. case_match; [lia|]. unfold uwrap. apply Z.mod_pos_bound. lia. Qed.

Lemma memory_nonneg V : 0 <= memory V.
Proof. induction V as [|v V IH]; simpl; [lia|]. pose proof (mem1d_nonneg v.2). lia. Qed.

Lemma memory_fold V m :
  0 <= m -> m + memory V < 2 ^ 32 -> fold_left (fun m v => u32 (m + mem1d v.2)) V m = m + memory V.
Proof.
  revert m. induction V as [|v V IH]; intros m Hm Hs; simpl in *; [lia|].
  pose proof (mem1d_nonneg v.2). pose proof (memory_nonneg V).
  rewrite uwrap_small by lia. rewrite IH by lia. lia.
Qed.

Lemma memory_slots V k :
  Forall (fun v => mem1d v.2 <= k) V -> memory V <= Z.of_nat (length V) * k.
Proof. induction 1 as [|v V Hv _ IH]; simpl; lia. Qed.

Lemma decided_all V f ds f' :
  decided hmem C V.*1 f ds f' ->
  Forall (fun v => hmem (handle v.1) = Some v.2 /\
    forall d2, ext d2 = ext (f_dev f) -> use_sgx d2 = use_sgx (f_dev f) -> swap_rb d2 = swap_rb (f_dev f) ->
      can_dss_render_layer hmem C d2 v.1 = Some true) V ->
  Z.of_nat (num_ovls (dsscomp_data (f_dev f)) + length V) <= max_hw_overlays (counts (f_dev f)) ->
  force_sgx (f_dev f) = 0 -> f_fb_z f < 0 -> 0 <= f_mem f ->
  f_mem f + memory V <= tiler1d_slot_size (limits C) -> tiler1d_slot_size (limits C) < 2 ^ 32 ->
  chosen ds = V.*1.
Proof.
  revert f ds. induction V as [|[l h] V IH]; intros f ds Hd HV Hn Hf Hb Hm Hs Hw; csimpl; simpl in Hd.
  { by inversion Hd. }
  apply list.Forall_cons in HV as [[Hh Hr] HV]. simpl in Hh, Hr, Hs, Hn.
  pose proof (mem1d_nonneg h). pose proof (memory_nonneg V).
  assert (Ht : takes_overlay hmem C l f = Some true).
  { unfold takes_overlay. rewrite (proj2 (Z.ltb_lt _ _)) by lia. simpl. rewrite Hr by done. simpl. rewrite Hh.
    rewrite Hf. simpl. rewrite uwrap_small by lia. rewrite (proj2 (Z.leb_le _ _)) by lia.
    rewrite (proj2 (Z.leb_gt 0 _)) by lia. by rewrite andb_false_r. }
  inversion Hd as [|l0 ls0 f0 f1 ds1 f2 Ht1 Ha Hd1|l0 ls0 f0 f1 ds1 f2 Ht1]; subst; [|congruence].
  change (chosen ((l, true) :: ds1)) with (l :: chosen ds1). f_equal.
  apply add_overlay_fields in Ha as (h' & dc & b & Hh' & Hdev & Hnum & Hbz & Hmem).
  rewrite Hh in Hh'. injection Hh' as <-.
  rewrite uwrap_small in Hmem by lia.
  apply (IH f1 ds1); rewrite ?Hdev, ?Hbz, ?Hmem; simpl; rewrite ?Hnum; try done; try lia.
Qed.

(** * The frame *)

(** Docking with a transformation: the display subsystem cannot turn RGB layers. *)
Definition turned_dock (d : omap_hwc_device_t) : bool :=
  let cur := e_current (ext d) in t_enabled cur && t_docking cur && transformed cur.

Lemma decide_composition_image d :
  let d1 := decide_composition C d in
  post2_blit_buffers d1 = 0%nat /\ buffers d1 = buffers d /\
  (use_sgx d1 = true -> swap_rb d1 = is_BGR_format (fb_format C)) /\
  (use_sgx d1 = false -> can_dss_render_all C (decide_supported_cloning C d) = true /\
     swap_rb d1 = negb (n_BGR (counts (decide_supported_cloning C d)) =? 0)) /\
  force_sgx d1 = force_sgx (decide_supported_cloning C d).
Proof.
  unfold decide_composition.
  assert (Hb : buffers (decide_supported_cloning C d) = buffers d) by (unfold decide_supported_cloning; by repeat case_match).
  destruct (can_dss_render_all C (decide_supported_cloning C d)) eqn:Ea; split_and!; try done.
Qed.

Lemma cloning_counts d V : counts_as C (counts d) V -> counts_as C (counts (decide_supported_cloning C d)) V.
Proof. unfold decide_supported_cloning. by repeat case_match. Qed.
Lemma cloning_composited d :
  composited_layers (counts (decide_supported_cloning C d)) = composited_layers (counts d).
Proof. unfold decide_supported_cloning. by repeat case_match. Qed.

Lemma fold_nonneg (V : list (hwc_layer_1_t * IMG_native_handle_t)) m :
  0 <= m -> 0 <= fold_left (fun m v => u32 (m + mem1d v.2)) V m.
Proof.
  revert m. induction V as [|v V IH]; intros m Hm; simpl; [done|]. apply IH. unfold uwrap. apply Z.mod_pos_bound. lia.
Qed.

(** Without SGX every layer gets an overlay. *)
Lemma all_on_overlays d0 d1 ls ds f1 :
  dev_ok d0 -> counts_as C (counts d0) (valids ls) -> composited_layers (counts d0) = Z.of_nat (length ls) ->
  d1 = decide_composition C d0 -> use_sgx d1 = false -> turned_dock d1 = false ->
  decided hmem C ls (mkFrame (pipes_from d1) 0 (-1) None false 0) ds f1 -> chosen ds = ls.
Proof.
  intros Hd Hca0 Hcomp0 Ed Hs Htd Hdec.
  destruct (decide_composition_image d0) as (_ & _ & _ & Hsw & Hfs). rewrite <- Ed in Hsw, Hfs.
  destruct (Hsw Hs) as [Hall Hswap]. clear Hsw.
  destruct (decide_composition_spec C d0) as (Hext & Hcnt & _). rewrite <- Ed in Hext, Hcnt.
  pose proof (decide_bounds C lims d0 Hd) as (Hmx & _).
  pose proof (cloning_counts d0 _ Hca0) as Hca. pose proof (cloning_composited d0) as Hcomp. rewrite Hcomp0 in Hcomp.
  pose proof Hall as Hall'. unfold can_dss_render_all in Hall'. rewrite !andb_true_iff in Hall'. destruct_and!.
  pose proof Hca as (Hposs & _ & _ & _ & _ & Hmem).
  set (V := valids ls) in *.
  assert (Hlen : length V = length ls) by lia.
  pose proof (valids_all ls Hlen) as HV. fold V in HV. rewrite <- HV in Hdec |- *.
  assert (Hl4 : (length V <= 4)%nat) by (destruct (ok_primary C lims); lia).
  pose proof (ok_slot C lims) as Hslot.
  assert (Hpos : 0 <= tiler1d_slot_size (limits C)).
  { pose proof (fold_nonneg V 0 ltac:(lia)). lia. }
  assert (HmV : Forall (fun v => mem1d v.2 <= tiler1d_slot_size (limits C)) V).
  { apply list.Forall_forall. intros [l1 h] Hin. simpl. destruct (valids_in ls l1 h Hin) as (Hv & Hh & _).
    destruct (valid_handle hmem C l1 Hv) as (h' & Hh' & _ & Hor). rewrite Hh in Hh'. injection Hh' as <-.
    destruct Hor as [Hnv|]; [|done]. unfold mem1d. by rewrite Hnv. }
  pose proof (memory_slots V _ HmV) as Hms. pose proof (memory_nonneg V).
  rewrite memory_fold in Hmem by nia.
  apply (decided_all V _ ds f1 Hdec); simpl; rewrite ?Hs, ?Hcnt, ?Hfs; try lia.
  apply list.Forall_forall. intros [l1 h] Hin. simpl. destruct (valids_in ls l1 h Hin) as (Hv & Hh & Hn).
  split; [done|]. intros d2 He Hu Hw.
  apply (render_layer hmem C (decide_supported_cloning C d0) d2 V l1 h); try done; try congruence.
  intros He1 Ht1 Hk1 _. unfold turned_dock in Htd. rewrite Hext in Htd. rewrite He1, Ht1, Hk1 in Htd. done.
Qed.

Lemma emits_only ms d : exists evs, fold_left (fun d m => emit_event (E_log m) d) ms d = set_events evs d.
Proof.
  revert d. induction ms as [|m ms IH]; intros d; simpl; [exists (events d); by destruct d|].
  destruct (IH (emit_event (E_log m) d)) as [evs ->]. by exists evs.
Qed.

(** The composition of a frame, and the layers as they are returned. *)
Lemma hwc_prepare_image l d l' d' :
  dev_ok d -> Forall (layer_ok hmem) (layers_of l) -> hwc_prepare hmem bg_layer C E l d = Some (l', d') ->
  on_tv C && (last_mode (ext d') =? 0) = false ->
  let d1 := decided_for hmem C l d in
  let ls := map (set_composition HWC_FRAMEBUFFER) (layers_of l) in
  exists f ds, unblitted (option_map (set_layers ls) l) d1 l' f ds /\
    extends (num_ovls (dsscomp_data (f_dev f))) (dsscomp_data (f_dev f)) (dsscomp_data d') /\
    swap_of (dsscomp_data d') = swap_rb d1 /\ buffers d' = buffers (f_dev f) /\
    use_sgx d' = use_sgx d1 /\ post2_blit_buffers d' = 0%nat /\
    post2_layers d' = num_ovls (dsscomp_data (f_dev f)).
Proof.
  intros Hd Hl. unfold hwc_prepare. rewrite start_frame_spec by done.
  change (decide_composition C (counted_for hmem C l d)) with (decided_for hmem C l d).
  destruct (decide_composition_image (counted_for hmem C l d)) as (Hb0 & Hbuf & _).
  destruct (decide_composition_spec C (counted_for hmem C l d)) as (_ & Hcnt & _ & _ & _ & Hdc & _).
  pose proof (decide_bounds C lims _ (dev_ok_counted hmem C l d Hd)) as (Hm & _).
  change (decide_composition C (counted_for hmem C l d)) with (decided_for hmem C l d) in *.
  rewrite <- Hcnt in Hm.
  assert (Hbl : blank (decided_for hmem C l d)) by (unfold blank; by rewrite Hdc).
  assert (Hlen : length (buffers (decided_for hmem C l d)) = MAX_HWC_LAYERS) by (rewrite Hbuf; apply Hd).
  revert Hb0 Hm Hbl Hlen. clear Hbuf Hcnt Hdc Hd Hl. generalize (decided_for hmem C l d) as d1.
  intros d1 Hb0 Hm Hbl Hlen.
  destruct (setup_overlays _ _ _ _ _ _) as [[l2 f]|] eqn:Es; [|done].
  apply setup_overlays_unblitted in Es as [ds U]; [|done|rewrite Hlen; unfold MAX_HWC_LAYERS; lia|
    unfold MAX_HW_OVERLAYS; destruct (ok_primary C lims); lia].
  destruct (mirror_layers C E f) as [[z d2]|] eqn:Em; [|done].
  apply mirror_layers_extends in Em as [(Hi1 & Hi2 & Hi3 & Hi4 & Hi5) Hx].
  assert (Ha : adjust_primary C d2 = Some d2) by (unfold adjust_primary; by rewrite untransformed).
  rewrite Ha. set (d3 := set_ext _ d2).
  destruct (emits_only (check_overlays z (dsscomp_data d3)) d3) as [evs ->]. set (d4 := set_events evs d3).
  remember (finish_frame C d4) as d5 eqn:Hd4. intros [= <- <-] Htv.
  destruct (ub_image _ _ _ _ _ U) as (Hu1 & Hu2 & Hu3).
  assert (Hf : swap_of (dsscomp_data d5) = swap_rb d4 /\ buffers d5 = buffers d4 /\ use_sgx d5 = use_sgx d4 /\
    post2_blit_buffers d5 = post2_blit_buffers d4 /\ post2_layers d5 = post2_layers d4 /\
    num_ovls (dsscomp_data d5) = num_ovls (dsscomp_data d4) /\ ovls (dsscomp_data d5) = ovls (dsscomp_data d4)).
  { revert Htv. rewrite Hd4. generalize d4 as x. clear. intros x. unfold finish_frame. rewrite andb_comm.
    destruct (t_enabled _ || _); simpl; destruct ((last_mode (ext x) =? 0) && on_tv C) eqn:Et; simpl; rewrite ?Et; done. }
  destruct Hf as (F1 & F2 & F3 & F4 & F5 & F6 & F7).
  exists f, ds. split; [done|]. split.
  { destruct Hx as [X1 X2 X3]. split; rewrite ?F6, ?F7; done. }
  rewrite F1, F2, F3, F4, F5. unfold d4, d3. simpl. rewrite Hi1, Hi2, Hi3, Hi4, Hi5. simpl.
  split_and!; [done|done|done|by rewrite Hu3|done].
Qed.

(** * The post *)

Hypothesis scan_outside : forall lk pos, in_rect (lk_win lk) pos = false -> scan lk pos = clear.
Hypothesis scan_opaque : forall lk pos p,
  lk_color lk <> OMAP_DSS_COLOR_ARGB32 -> in_rect (lk_win lk) pos = true -> over (scan lk pos) p = scan lk pos.

(** The buffers behind the overlays of the plan are enough. *)
Lemma plan_take d0 ds dc bufs : plan hmem C d0 ds dc bufs -> plan hmem C d0 ds dc (take (num_ovls dc) bufs).
Proof.
  intros [Hnum Hlen Hlay Hfb Hfree Hpp]. split; try done.
  - intros k l Hk. pose proof (lookup_lt_Some _ _ _ Hk). destruct (Hlay k l Hk) as (h & o & Hh & Hf & Ho & Hb & Hr).
    exists h, o. rewrite lookup_take_lt by lia. done.
  - intros Hs. destruct (Hfb Hs) as (o & Ho & Ha & Hba & Hb & Hr). exists o.
    rewrite lookup_take_lt by (unfold first_ovl in Hnum; rewrite Hs in Hnum; lia). done.
Qed.

(** [hwc_set] posts the composition with its buffers. *)
Lemma hwc_set_posts E' l d err d' :
  hwc_set C E' l d = Some (err, d') -> match l with Some l => dpy_and_sur l | None => false end = true ->
  (use_sgx d = true -> swap_ok E' = true) -> post2_blit_buffers d = 0%nat ->
  exists items es, events d' = events d ++ es /\
    E_post (take (post2_layers d) (buffers d)) (dsscomp_data d) items ∈ es.
Proof.
  intros Hs Hl Hsw Hb. unfold hwc_set in Hs. rewrite Hl in Hs.
  set (d1 := if first_set d then _ else _) in Hs.
  assert (H1' : use_sgx d1 = use_sgx d /\ post2_blit_buffers d1 = post2_blit_buffers d /\ post2_layers d1 = post2_layers d /\
    buffers d1 = buffers d /\ dsscomp_data d1 = dsscomp_data d /\ exists es, events d1 = events d ++ es).
  { unfold d1. destruct (first_set d); split_and!; try done; [by eexists|]. exists []. by rewrite List.app_nil_r. }
  destruct H1' as (E1 & E2 & E3 & E4 & E5 & es1 & E6). clearbody d1. simpl andb in Hs. rewrite <- E1 in Hsw.
  set (d2 := if use_sgx d1 then _ else _) in Hs.
  assert (H2' : use_sgx d2 = use_sgx d1 /\ post2_blit_buffers d2 = post2_blit_buffers d1 /\ post2_layers d2 = post2_layers d1 /\
    buffers d2 = buffers d1 /\ dsscomp_data d2 = dsscomp_data d1 /\ exists es, events d2 = events d1 ++ es).
  { unfold d2. destruct (use_sgx d1) eqn:Eu; split_and!; try done; [by eexists|]. exists []. by rewrite List.app_nil_r. }
  destruct H2' as (G1 & G2 & G3 & G4 & G5 & es2 & G6). clearbody d2.
  assert (Hns : use_sgx d2 && negb (swap_ok E') = false).
  { rewrite G1. destruct (use_sgx d1); [by rewrite Hsw|done]. }
  rewrite Hns in Hs. unfold post in Hs. rewrite Hl in Hs. simpl negb in Hs. cbv iota in Hs.
  set (d3 := set_blit _ _ _ _ _ _) in Hs.
  assert (H3' : post2_blit_buffers d3 = 0%nat /\ post2_layers d3 = post2_layers d /\ buffers d3 = buffers d /\
    dsscomp_data d3 = dsscomp_data d /\ events d3 = (events d ++ es1 ++ es2) ++ [E_pipe]).
  { assert (Hev : events d2 = events d ++ es1 ++ es2) by (by rewrite G6, E6, app_assoc).
    unfold d3. destruct (force_sgx _ >? 0); simpl; split_and!; congruence. }
  destruct H3' as (K1 & K2 & K3 & K4 & K5). clearbody d3. unfold pack_buffers in Hs. rewrite K1 in Hs. simpl in Hs.
  set (p := E_post _ _ _) in Hs.
  exists (rgz_items d3). assert (Hp : p = E_post (take (post2_layers d) (buffers d)) (dsscomp_data d) (rgz_items d3))
    by (unfold p; by rewrite K2, K3, K4).
  rewrite <- Hp. destruct (_ && (_ || _)).
  - destruct (procs C); [|done]. injection Hs as <- <-. exists (es1 ++ es2 ++ [E_pipe; p; E_invalidate]). simpl.
    split; [rewrite K5; by rewrite <- !app_assoc|]. rewrite !elem_of_app, !elem_of_cons. tauto.
  - injection Hs as <- <-. exists (es1 ++ es2 ++ [E_pipe; p]). simpl.
    split; [rewrite K5; by rewrite <- !app_assoc|]. rewrite !elem_of_app, !elem_of_cons. tauto.
Qed.

(** The pixels of the primary display for the plan of a frame. *)
Lemma plan_paints d0 d1 ls l0 l' f ds dc' bufs pos :
  dev_ok d0 -> counts_as C (counts d0) (valids ls) -> composited_layers (counts d0) = Z.of_nat (length ls) ->
  d1 = decide_composition C d0 -> turned_dock d1 = false ->
  Forall (fun l => compositionType l = HWC_FRAMEBUFFER) ls ->
  Forall (fun l => is_BLENDED l = true -> has_flag (hints l) HWC_HINT_CLEAR_FB = false) ls ->
  layers_of l0 = ls -> unblitted l0 d1 l' f ds ->
  plan hmem C (pipes_from d1) ds (dsscomp_data (f_dev f)) bufs ->
  extends (num_ovls (dsscomp_data (f_dev f))) (dsscomp_data (f_dev f)) dc' -> swap_of dc' = swap_rb d1 ->
  display C scan stray bufs dc' (framebuffer hmem scan soft (layers_of l')) pos = paint hmem scan soft ls pos.
Proof.
  intros Hd Hca Hcomp Ed Htd Hc Hh Hls U Hp Hx Hsw.
  destruct (ub_decided _ _ _ _ _ U) as [f1 Hdec]. rewrite Hls in Hdec.
  pose proof (decided_order _ _ _ _ Hdec) as Hord. change (swap_rb (f_dev _)) with (swap_rb d1) in Hord.
  pose proof (ub_layers _ _ _ _ _ U) as Hds. rewrite Hls in Hds.
  destruct (decide_composition_image d0) as (_ & _ & Hfmt1 & _). rewrite <- Ed in Hfmt1.
  rewrite (display_plan _ _ _ _ _ _ _ _ Hp (ub_room _ _ _ _ _ U) Hord Hfmt1 Hx Hsw).
  unfold level_list. change (use_sgx (pipes_from d1)) with (use_sgx d1). destruct (use_sgx d1) eqn:Es.
  2:{ by rewrite (all_on_overlays d0 d1 ls ds f1). }
  rewrite pile_app, pile_cons.
  assert (Hb : fb_below (pipes_from d1) ds = below_fb ds).
  { unfold fb_below, below_fb, fb_level. change (use_sgx (pipes_from d1)) with (use_sgx d1). by rewrite Es. }
  assert (Hmk : layers_of l' = map mark_sgx ds).
  { rewrite (ub_list _ _ _ _ _ U).
    assert (Hm : map (marked d1) ds = map mark_sgx ds) by (apply map_ext; intros x; unfold marked, mark_sgx; by rewrite Es).
    rewrite Hm. destruct l0; [done|]. simpl in *. subst ls. by destruct ds. }
  rewrite Hb, Hmk, <- Hds, (pile_over (map _ (drop _ _))).
  apply (px_paint hmem scan soft ds pos). apply pixels; [done|done|by rewrite Hds| |].
  - apply list.Forall_forall. intros x Hxc. rewrite list.Forall_forall in Hord.
    destruct (Hord x Hxc) as (Hn & h & Hhm & Hf & _). split; [done|]. split; [by exists h|].
    pose proof (chosen_sub ds) as Hcs. rewrite list.Forall_forall in Hcs. specialize (Hcs x Hxc). rewrite Hds in Hcs.
    rewrite list.Forall_forall in Hh. by apply (Hh x).
  - intros ds1 l1 ds2 -> Hbl. pose proof (ub_opaque _ _ _ _ _ U ds1 l1 ds2 eq_refl Hbl) as Ho.
    unfold fb_level in Ho. change (use_sgx (pipes_from d1)) with (use_sgx d1) in Ho. by rewrite Es in Ho.
Qed.

Definition displayed (l : option hwc_display_contents_1_t) : bool :=
  match l with Some l => dpy_and_sur l | None => false end.

(** C3: With blits disabled, a framebuffer that has an alpha channel and is shown as large as it
    is, and the order of red and blue checked, what the primary display shows after a frame is the
    layers painted from the back to the front, pixel by pixel: the composition that [hwc_set]
    posts, with what SGX renders of the layers left to it, its framebuffer cleared where
    [hwc_prepare] asks for it, gives the same pixels, whichever layers got overlays, on
    whichever z-orders, and whether or not overlays are cloned for the external display (but
    when that one docks with a rotation).  Pixels are any monoid in which those that hide what is
    below absorb it; an overlay is trusted to show its buffer as its configuration says. *)
Theorem composition_paints l d l1 d1 E' l2 err d2 :
  dev_ok d -> Forall (layer_ok hmem) (layers_of l) ->
  Forall (fun l => is_BLENDED l = true -> has_flag (hints l) HWC_HINT_CLEAR_FB = false) (layers_of l) ->
  turned_dock (decided_for hmem C l d) = false ->
  hwc_prepare hmem bg_layer C E l d = Some (l1, d1) -> on_tv C && (last_mode (ext d1) =? 0) = false ->
  hwc_set C E' l2 d1 = Some (err, d2) -> displayed l2 = true -> (use_sgx d1 = true -> swap_ok E' = true) ->
  exists bufs dc items es, events d2 = events d1 ++ es /\ E_post bufs dc items ∈ es /\
    forall pos, display C scan stray bufs dc (framebuffer hmem scan soft (layers_of l1)) pos =
                paint hmem scan soft (layers_of l) pos.
Proof.
  intros Hd Hl Hh Htd Hp Htv Hs Hl2 Hsw.
  destruct (hwc_prepare_image l d l1 d1 Hd Hl Hp Htv) as (f & ds & U & Hx & Hsp & Hb & _ & Hbl & Hp2).
  destruct (hwc_set_posts E' l2 d1 err d2 Hs Hl2 Hsw Hbl) as (items & es & He & Hin).
  eexists _, _, items, es. split; [exact He|]. split; [exact Hin|]. intros pos.
  rewrite Hb, Hp2. set (ls := map (set_composition HWC_FRAMEBUFFER) (layers_of l)).
  rewrite <- (paint_plain hmem scan soft pos (layers_of l) ls) by (unfold ls; by rewrite map_map).
  apply (plan_paints (counted_for hmem C l d) (decided_for hmem C l d) ls (option_map (set_layers ls) l) _ f ds); try done.
  - by apply dev_ok_counted.
  - apply stats_as.
  - unfold ls. rewrite length_map. apply stats_composited.
  - unfold ls. apply List.Forall_map, list.Forall_forall. done.
  - unfold ls. by apply List.Forall_map.
  - unfold ls. by destruct l.
  - apply plan_take, U.
Qed.

(** * A frame ends *)

Lemma setup_overlays_total l d :
  blank d -> (4 <= length (buffers d))%nat -> max_hw_overlays (counts d) <= MAX_HW_OVERLAYS ->
  Forall (layer_ok hmem) (layers_of l) -> is_Some (setup_overlays hmem bg_layer C E l d).
Proof.
  intros Hbl Hbuf Hmax Hl. unfold setup_overlays. rewrite no_blits. simpl. fold (pipes_from d).
  pose proof law_ovls as Hov. set (d0 := pipes_from d).
  assert (L0 : loop hmem C d0 [] (mkFrame d0 0 (-1) None false 0)) by (by apply loop_init).
  assert (B0 : between hmem C d0 [] (mkFrame d0 0 (-1) None false 0)).
  { split; [done|]. split; [simpl; unfold chosen; simpl; lia|]. intros [|] ? ?; done. }
  assert (Hroom : (4 <= DSS_OVLS)%nat /\ (4 <= length (buffers d0))%nat) by done.
  destruct (prepare_layers_total hmem C d0 Hroom Hmax (layers_of l) [] _ B0) as [[ls1 f1] El].
  { eapply list.Forall_impl; [exact Hl|]. intros x Hx f. by apply takes_overlay_total. }
  rewrite El. destruct (prepare_layers_run hmem C d0 Hroom Hmax _ [] _ _ _ B0 El) as (ds & -> & _ & B).
  destruct B as (L & _). simpl in L.
  destruct (use_sgx d) eqn:Eu.
  - destruct (plan_fb hmem C d0 Hroom Hmax ds f1 L) as (Hg & f2 & evs & Hf2 & _); [done|apply fb_valid|simpl; lia|lia|].
    rewrite Hg. replace (mkFrame _ _ _ _ _ _) with f1 by (rewrite <- Hg; destruct f1 as [[] ? ? ? ? ?]; done).
    by rewrite Hf2.
  - destruct (f_scaled_gfx f1); [|done].
    destruct (lookup_lt_is_Some_2 (ovls (dsscomp_data (f_dev f1))) 0) as [o Ho]; [rewrite (lp_ovls _ _ _ _ _ L); lia|].
    by rewrite (upd_ovl_Some _ _ _ _ Ho).
Qed.

Lemma hwc_set_total E' l d :
  post2_blit_buffers d = 0%nat -> ext_ovls_wanted d = 0 -> is_Some (hwc_set C E' l d).
Proof.
  intros Hb Hw. unfold hwc_set.
  set (d1 := if first_set d then _ else _).
  assert (H1' : post2_blit_buffers d1 = 0%nat /\ ext_ovls_wanted d1 = 0) by (unfold d1; by case_match).
  clearbody d1. destruct H1' as [Hb1 Hw1]. rewrite Hw1. simpl.
  set (d2 := if _ && use_sgx d1 then _ else _).
  assert (H2' : post2_blit_buffers d2 = 0%nat) by (unfold d2; by case_match). clearbody d2.
  destruct (_ && negb _); [done|]. unfold post. destruct (negb _); [done|].
  set (d3 := set_blit _ _ _ _ _ _). assert (H3' : post2_blit_buffers d3 = 0%nat) by (unfold d3; by case_match).
  unfold pack_buffers. by rewrite H3'.
Qed.

Lemma finish_frame_keeps d :
  post2_blit_buffers (finish_frame C d) = post2_blit_buffers d /\
  ext_ovls_wanted (finish_frame C d) = ext_ovls_wanted d.
Proof. unfold finish_frame. by repeat case_match. Qed.

Lemma not_cloned d :
  t_enabled (e_dock (ext d)) = false -> t_enabled (e_mirror (ext d)) = false ->
  let d1 := decide_composition C d in
  t_enabled (e_current (ext d1)) = false /\ ext_ovls_wanted d1 = 0.
Proof.
  intros Hd Hm d1.
  assert (Hc : ext d1 = ext (decide_supported_cloning C d) /\
               ext_ovls_wanted d1 = ext_ovls_wanted (decide_supported_cloning C d)).
  { unfold d1, decide_composition. by destruct (can_dss_render_all C (decide_supported_cloning C d)). }
  destruct Hc as [-> ->]. unfold decide_supported_cloning. rewrite Hd, Hm. simpl. by repeat case_match.
Qed.

(** C23: With no external display and blits disabled every frame is composed and posted, for any
    layers whose handles can be read: [hwc_prepare] and [hwc_set] run into no undefined
    behaviour (no access out of bounds, no division by zero) and return. *)
Theorem frame_completes l d E' l2 :
  dev_ok d -> Forall (layer_ok hmem) (layers_of l) ->
  t_enabled (e_dock (ext d)) = false -> t_enabled (e_mirror (ext d)) = false ->
  exists l1 d1 err d2, hwc_prepare hmem bg_layer C E l d = Some (l1, d1) /\ hwc_set C E' l2 d1 = Some (err, d2).
Proof.
  intros Hd Hl Hdk Hmi. set (d0 := counted_for hmem C l d).
  destruct (not_cloned d0 Hdk Hmi) as [Hoff Hw].
  destruct (decide_composition_image d0) as (Hb0 & Hbuf & _).
  destruct (decide_composition_spec C d0) as (_ & Hcnt & _ & _ & _ & Hdc & _).
  pose proof (decide_bounds C lims _ (dev_ok_counted hmem C l d Hd)) as (Hm & _). fold d0 in Hm. rewrite <- Hcnt in Hm.
  set (l0 := option_map (set_layers (map (set_composition HWC_FRAMEBUFFER) (layers_of l))) l).
  assert (Hl0 : Forall (layer_ok hmem) (layers_of l0)).
  { unfold l0. destruct l as [l|]; [|constructor]. cbn [option_map layers_of set_layers hwLayers] in Hl |- *. apply list.Forall_forall. intros x Hx.
    apply list_elem_of_In, List.in_map_iff in Hx as (y & <- & Hy). rewrite list.Forall_forall in Hl.
    apply (Hl y). by apply list_elem_of_In. }
  unfold hwc_prepare. rewrite start_frame_spec by done. fold d0 l0.
  assert (Hbl : blank (decide_composition C d0)) by (unfold blank; by rewrite Hdc).
  assert (Hlen : (4 <= length (buffers (decide_composition C d0)))%nat).
  { rewrite Hbuf. change (buffers d0) with (buffers d). rewrite (ok_buffers _ Hd). unfold MAX_HWC_LAYERS. lia. }
  assert (Hmx : max_hw_overlays (counts (decide_composition C d0)) <= MAX_HW_OVERLAYS)
    by (unfold MAX_HW_OVERLAYS; destruct (ok_primary C lims); lia).
  destruct (setup_overlays_total l0 _ Hbl Hlen Hmx Hl0) as [[l1 f] Es].
  rewrite Es. destruct (setup_overlays_spec hmem bg_layer C E lims fb_valid l0 _ _ _ Hbl Hlen Hmx Es) as [_ _ _ _ _ He Hwf].
  apply setup_overlays_unblitted in Es as [ds U]; [|done..]. destruct (ub_image _ _ _ _ _ U) as (_ & _ & Hb).
  set (d2 := set_post2_layers (num_ovls (dsscomp_data (f_dev f))) (f_dev f)).
  assert (Hmir : mirror_layers C E f = Some (f_z f, d2)).
  { unfold mirror_layers. fold d2. change (ext d2) with (ext (f_dev f)). by rewrite He, Hoff. }
  rewrite Hmir. assert (Ha : adjust_primary C d2 = Some d2) by (unfold adjust_primary; by rewrite untransformed).
  rewrite Ha. set (d3 := set_ext _ d2).
  destruct (emits_only (check_overlays (f_z f) (dsscomp_data d3)) d3) as [evs ->].
  destruct (finish_frame_keeps (set_events evs d3)) as [K1 K2].
  destruct (hwc_set_total E' l2 (finish_frame C (set_events evs d3))) as [[err d5] Hset].
  - rewrite K1. unfold d3, d2. simpl. by rewrite Hb, Hb0.
  - rewrite K2. unfold d3, d2. simpl. by rewrite Hwf, Hw.
  - by exists l1, (finish_frame C (set_events evs d3)), err, d5.
Qed.

End Shown.

(** * Frames that are shown *)

(** A display that shows the buffers, those with an alpha channel translucent. *)
Definition sample_scan (lk : look) (pos : Z * Z) : list Z * bool :=
  if in_rect (lk_win lk) pos then ([lk_buffer lk], negb (lk_color lk =? OMAP_DSS_COLOR_ARGB32)) else clear.
Definition sample_soft (l : hwc_layer_1_t) (pos : Z * Z) : list Z * bool :=
  if in_rect (dss_rect_of (displayFrame l)) pos then ([-1], false) else clear.
Definition sample_stray (lk : look) (pos : Z * Z) : list Z * bool := ([-2], true).

Lemma panel_dev_ok : dev_ok panel.2.
Proof. by split; vm_compute. Qed.

Lemma composition_paints_witness :
  exists bufs dc items es, events panel_set.2 = events panel_prepared.2 ++ es /\ E_post bufs dc items ∈ es /\
    forall pos, display panel.1 sample_scan sample_stray bufs dc
                  (framebuffer sample_buffers sample_scan sample_soft (layers_of panel_prepared.1)) pos =
                paint sample_buffers sample_scan sample_soft [desktop; effect; video] pos.
Proof.
  apply (composition_paints sample_buffers effect panel.1 (sample_hwc_env sample_lcd)) with
    (l := frame_of [desktop; effect; video]) (d := panel.2) (E' := sample_hwc_env sample_lcd)
    (l1 := panel_prepared.1) (d1 := panel_prepared.2) (l2 := frame_of []) (err := 0) (d2 := panel_set.2).
  - split; try done. by left.
  - done.
  - by right.
  - done.
  - done.
  - intros lk pos Hr. unfold sample_scan. by rewrite Hr.
  - intros lk pos p Hc Hr. unfold sample_scan. rewrite Hr. by rewrite (proj2 (Z.eqb_neq _ _) Hc).
  - exact panel_dev_ok.
  - constructor; [by eexists|]. constructor; [by intros []|]. constructor; [by eexists|done].
  - by repeat constructor.
  - by vm_compute.
  - by vm_compute.
  - by vm_compute.
  - by vm_compute.
  - done.
  - done.
Defined.

Lemma frame_completes_witness :
  exists l1 d1 err d2,
    hwc_prepare sample_buffers effect panel.1 (sample_hwc_env sample_lcd) (frame_of [desktop; effect; video]) panel.2 =
      Some (l1, d1) /\
    hwc_set panel.1 (sample_hwc_env sample_lcd) (frame_of []) d1 = Some (err, d2).
Proof.
  apply (frame_completes sample_buffers effect panel.1 (sample_hwc_env sample_lcd)).
  - split; try done. by left.
  - done.
  - by right.
  - done.
  - exact panel_dev_ok.
  - constructor; [by eexists|]. constructor; [by intros []|]. constructor; [by eexists|done].
  - done.
  - done.
Defined.
