(* ===== verification/PolicyManager.v ===== *)
(** The policy manager (src/omx/system/src/openmax_il/omx_policy_manager): a server that grants or
    denies the requests of components to run, by a table of the combinations that may run together.
    A result [None] is an access out of bounds. *)

From Stdlib Require Import ZArith Lia.
From stdpp Require Import base list list_numbers option tactics.
From S2P Require Import Prelude.
Local Open Scope Z_scope.

(** * Data *)

Definition OMX_POLICY_MAX_COMBINATION_LENGTH : nat := 50.
Definition OMX_POLICY_MAX_COMBINATIONS : nat := 111.
Definition RM_MAXCOMPONENTS : nat := 100.

(** A component with its priority in a combination; a combination. *)
Record component_priority := mkPriority { component : Z; priority : Z }.
Record combination := mkCombination {
  numComponentsInCombination : nat; bCombinationIsActive : Z; members : list component_priority }.

(** An instance of a component in a process. *)
Record client := mkClient { componentHandle : Z; nPid : Z }.
#[global] Instance client_eq_dec : EqDecision client.
Proof. solve_decision. Defined.

(** What the manager writes to its pipe, and the commands it reads. *)
Inductive reply := PM_GRANTPOLICY (c : client) | PM_DENYPOLICY (c : client) | PM_PREEMPTED (c : client).
#[global] Instance reply_eq_dec : EqDecision reply.
Proof. solve_decision. Defined.
Inductive command :=
  | PM_RequestPolicy (c : client) (param1 : Z) | PM_WaitForPolicy (c : client)
  | PM_FreePolicy (c : client) (param1 : Z) | PM_CancelWaitForPolicy (c : client)
  | PM_FreeResources (c : client) (param1 : Z) | PM_Other.

Record manager := mkManager {
  registeredComponents : nat; pendingComponents : nat;
  pComponentList : list client; pPendingComponentList : list client;
  activeComponentList : list component_priority;
  policyCombinationTable : list combination; activePolicyCombination : nat; numCombinations : nat;
  sent : list reply }.

Definition zero_priority : component_priority := mkPriority 0 0.
Definition zero_combination : combination :=
  mkCombination 0 0 (replicate OMX_POLICY_MAX_COMBINATION_LENGTH zero_priority).
Definition initial : manager :=
  mkManager 0 0 (replicate RM_MAXCOMPONENTS (mkClient 0 0)) (replicate RM_MAXCOMPONENTS (mkClient 0 0))
    (replicate RM_MAXCOMPONENTS zero_priority) (replicate OMX_POLICY_MAX_COMBINATIONS zero_combination) 0 0 [].

Definition set_active (n : nat) (s : manager) : manager :=
  mkManager (registeredComponents s) (pendingComponents s) (pComponentList s) (pPendingComponentList s)
    (activeComponentList s) (policyCombinationTable s) n (numCombinations s) (sent s).
Definition set_lists (n : nat) (cs : list client) (ps : list component_priority) (s : manager) : manager :=
  mkManager n (pendingComponents s) cs (pPendingComponentList s) ps
    (policyCombinationTable s) (activePolicyCombination s) (numCombinations s) (sent s).
Definition set_pending (n : nat) (cs : list client) (s : manager) : manager :=
  mkManager (registeredComponents s) n (pComponentList s) cs
    (activeComponentList s) (policyCombinationTable s) (activePolicyCombination s) (numCombinations s) (sent s).
Definition set_sent (l : list reply) (s : manager) : manager :=
  mkManager (registeredComponents s) (pendingComponents s) (pComponentList s) (pPendingComponentList s)
    (activeComponentList s) (policyCombinationTable s) (activePolicyCombination s) (numCombinations s) l.
Definition write (r : reply) (s : manager) : manager := set_sent (sent s ++ [r]) s.

(** * The table *)

(** The first of [n] members with the component. *)
Fixpoint find_member (c : Z) (ms : list component_priority) (n : nat) {struct n} : option (option component_priority) :=
  match n, ms with
  | O, _ => Some None
  | S n, m :: ms => if component m =? c then Some (Some m) else find_member c ms n
  | S _, [] => None
  end.
Definition member_of (c : Z) (cb : combination) : option (option component_priority) :=
  find_member c (members cb) (numComponentsInCombination cb).

Definition GetPriority (c : Z) (n : nat) (s : manager) : option Z :=
  let* cb := policyCombinationTable s !! n in
  let* m := member_of c cb in
  Some (match m with Some m => priority m | None => -1 end).

(** The priority if the active combination has the component. *)
Definition CheckActiveCombination (c : Z) (s : manager) : option (option Z) :=
  let* cb := policyCombinationTable s !! activePolicyCombination s in
  let* m := member_of c cb in
  Some (match m with Some m => Some (priority m) | None => None end).

(** The last combination with the component, and the priority there. *)
Definition CheckAllCombinations (c : Z) (s : manager) : option (option (nat * Z)) :=
  for_range 0 (numCombinations s) (fun i r =>
    let* cb := policyCombinationTable s !! i in
    let* m := member_of c cb in
    Some (match m with Some m => Some (i, priority m) | None => r end)) None.

Definition IsComponentSupported (c : Z) (n : nat) (s : manager) : option bool :=
  let* cb := policyCombinationTable s !! n in
  let* m := member_of c cb in
  Some (match m with Some _ => true | None => false end).

(** The combinations with the component, one for each time it occurs. *)
Definition GetSupportingCombinations (c : Z) (s : manager) : option (list nat) :=
  for_range 0 (numCombinations s) (fun i l =>
    let* cb := policyCombinationTable s !! i in
    for_range 0 (numComponentsInCombination cb) (fun j l =>
      let* m := members cb !! j in
      if component m =? c then arr_push OMX_POLICY_MAX_COMBINATIONS l i else Some l) l) [].

(** Whether the combination has the components of the first [n] cells. *)
Fixpoint supports_all (ps : list component_priority) (n comb : nat) (s : manager) {struct n} : option bool :=
  match n, ps with
  | O, _ => Some true
  | S n, p :: ps =>
      let* b := IsComponentSupported (component p) comb s in
      if b : bool then supports_all ps n comb s else Some false
  | S _, [] => None
  end.

(** The first of the combinations that has all registered components; with none registered
    the answer is always no. *)
Fixpoint coexisting (l : list nat) (s : manager) : option (option nat) :=
  match l with
  | [] => Some None
  | i :: l =>
      let* b := supports_all (activeComponentList s) (registeredComponents s) i s in
      if b && negb (registeredComponents s =? 0)%nat then Some (Some i) else coexisting l s
  end.
Definition CanAllComponentsCoexist (c : Z) (s : manager) : option (option nat) :=
  let* l := GetSupportingCombinations c s in coexisting l s.

(** * The lists *)

(** The first of [n] cells with the client, or with the component. *)
Fixpoint find_index {A} (f : A -> bool) (l : list A) (n k : nat) {struct n} : option (option nat) :=
  match n, l with
  | O, _ => Some None
  | S n, x :: l => if f x then Some (Some k) else find_index f l n (S k)
  | S _, [] => None
  end.
Definition find_client (c : client) (s : manager) : option (option nat) :=
  find_index (fun x => (componentHandle x =? componentHandle c) && (nPid x =? nPid c)) (pComponentList s) (registeredComponents s) 0.

Definition PreemptComponent (c : client) (s : manager) : manager := write (PM_PREEMPTED c) s.
Definition DenyPolicy (c : client) (s : manager) : manager := write (PM_DENYPOLICY c) s.

Definition GrantPolicy (c : client) (aComponentIndex aPriority : Z) (s : manager) : option manager :=
  let s := write (PM_GRANTPOLICY c) s in
  let* m := find_client c s in
  match m with
  | Some _ => Some s
  | None =>
      let n := registeredComponents s in
      let* ps := arr_set (activeComponentList s) (Z.of_nat n) (mkPriority (u8 aComponentIndex) (u8 aPriority)) in
      let* cs := arr_set (pComponentList s) (Z.of_nat n) c in
      Some (set_lists (S n) cs ps s)
  end.

(** The cells after [k] of the first [n] move down by one. *)
Definition shift_down {A} (k n : nat) (l : list A) : option (list A) :=
  for_range k (n - 1 - k) (fun i l =>
    let* x := l !! S i in arr_set l (Z.of_nat i) x) l.

Definition RemoveComponentFromList (c : client) (cComponentIndex : Z) (s : manager) : option manager :=
  let n := registeredComponents s in
  let* m := find_index (fun p => component p =? cComponentIndex) (activeComponentList s) n 0 in
  let* ps := match m with Some k => shift_down k n (activeComponentList s) | None => Some (activeComponentList s) end in
  let s := set_lists n (pComponentList s) ps s in
  let* m := find_client c s in
  match m with
  | Some k => let* cs := shift_down k n (pComponentList s) in Some (set_lists (n - 1) cs ps s)
  | None => Some s
  end.

(** * The commands *)

Definition preempt_all (s : manager) : option manager :=
  for_range 0 (registeredComponents s) (fun i s => let* c := pComponentList s !! i in Some (PreemptComponent c s)) s.

(** The request when no combination has all the components: whatever runs gives way to a combination that
    is earlier in the table. *)
Definition request_anew (c : client) (param1 : Z) (s : manager) : option manager :=
  let* r := CheckAllCombinations param1 s in
  match r with
  | Some (comb, _) =>
      if (comb <? activePolicyCombination s)%nat then
        let* s := preempt_all s in
        let* p := GetPriority param1 comb s in
        if negb (p =? -1) then let* s := GrantPolicy c param1 p s in Some (set_active comb s)
        else Some (DenyPolicy c s)
      else Some (DenyPolicy c s)
  | None => Some (DenyPolicy c s)
  end.

(** The request when some components may be registered. *)
Definition request_more (c : client) (param1 : Z) (s : manager) : option manager :=
  let* p := CheckActiveCombination param1 s in
  match p with
  | Some p => GrantPolicy c param1 p s
  | None =>
      let* r := CanAllComponentsCoexist param1 s in
      match r with
      | Some comb =>
          let* p := GetPriority param1 comb s in
          if negb (p =? -1) then let* s := GrantPolicy c param1 p s in Some (set_active comb s)
          else request_anew c param1 s
      | None => request_anew c param1 s
      end
  end.

Definition HandleRequestPolicy (c : client) (param1 : Z) (s : manager) : option manager :=
  if (registeredComponents s =? 0)%nat then
    let* l := GetSupportingCombinations param1 s in
    match l with
    | comb :: _ =>
        let s := set_active comb s in
        let* p := GetPriority param1 comb s in
        if negb (p =? -1) then GrantPolicy c param1 p s else request_more c param1 s
    | [] => Some (DenyPolicy c s)
    end
  else request_more c param1 s.

Definition HandleWaitForPolicy (c : client) (s : manager) : option manager :=
  let* cs := arr_set (pPendingComponentList s) (Z.of_nat (pendingComponents s)) c in
  Some (set_pending (S (pendingComponents s)) cs s).

(** Not called by the server. *)
Definition HandleCancelWaitForPolicy (c : client) (s : manager) : option manager :=
  let n := pendingComponents s in
  let* m := find_index (fun x => (componentHandle x =? componentHandle c) && (nPid x =? nPid c)) (pPendingComponentList s) n 0 in
  match m with
  | Some k => let* cs := shift_down k n (pPendingComponentList s) in Some (set_pending (n - 1) cs s)
  | None => Some s
  end.

Definition HandleFreePolicy (c : client) (param1 : Z) (s : manager) : option manager :=
  RemoveComponentFromList c param1 s.

(** The last cell of the lowest priority among those of the other handles, no higher than the
    priority given. *)
Definition lowest (c : client) (p : Z) (s : manager) : option (Z * option nat) :=
  for_range 0 (registeredComponents s) (fun i r =>
    let* x := pComponentList s !! i in
    if componentHandle x =? componentHandle c then Some r
    else let* q := activeComponentList s !! i in
      if priority q <=? r.1 then Some (priority q, Some i) else Some r) (p, None).

Definition HandleFreeResources (c : client) (param1 : Z) (s : manager) : option manager :=
  let* p := GetPriority param1 (activePolicyCombination s) s in
  let* (_, m) := lowest c p s in
  match m with
  | Some i =>
      let* x := pComponentList s !! i in
      let s := PreemptComponent x s in
      let* p := GetPriority param1 (activePolicyCombination s) s in
      GrantPolicy c param1 p s
  | None => Some (DenyPolicy c s)
  end.

(** A command that is read. *)
Definition handle (cmd : command) (s : manager) : option manager :=
  match cmd with
  | PM_RequestPolicy c param1 => HandleRequestPolicy c param1 s
  | PM_WaitForPolicy c => HandleWaitForPolicy c s
  | PM_FreePolicy c param1 => HandleFreePolicy c param1 s
  | PM_FreeResources c param1 => HandleFreeResources c param1 s
  | PM_CancelWaitForPolicy _ | PM_Other => Some s
  end.

(** One turn of the server: the replies, and the manager after it. *)
Definition serve (cmd : command) (s : manager) : option (list reply * manager) :=
  let* s := handle cmd (set_sent [] s) in Some (sent s, s).
