(* ===== verification/PolicyRun.v ===== *)
(** What the policy manager promises: its decisions as a function of the clients registered and of
    the table, and that the clients that may run always fit one combination together. *)

From Stdlib Require Import ZArith Lia.
From stdpp Require Import base list list_numbers option tactics relations.
From S2P Require Import Prelude PolicyManager.
Local Open Scope Z_scope.

(** * The specification *)

(** The components of a combination, and of the combination [n]. *)
Definition comps (cb : combination) : list Z := map component (take (numComponentsInCombination cb) (members cb)).
Definition comps_at (T : list combination) (n : nat) : list Z :=
  match T !! n with Some cb => comps cb | None => [] end.
Definition supported (T : list combination) (c : Z) (n : nat) : bool := bool_decide (c ∈ comps_at T n).

Inductive decision := Granted (n : nat) | Preempting (n : nat) | Denied.

(** What a request for the component [c] comes to when the components [rs] are registered: it
    is granted in the active combination, else in the first one of the [N] combinations that has the
    registered components too; else in the last one that has it, if that is earlier than the active
    one. *)
Definition decide_request (T : list combination) (N active : nat) (rs : list Z) (c : Z) : decision :=
  match rs with
  | [] => match List.find (supported T c) (seq 0 N) with Some n => Granted n | None => Denied end
  | _ =>
      if supported T c active then Granted active
      else
        match List.find (fun n => supported T c n && forallb (fun r => supported T r n) rs) (seq 0 N) with
        | Some n => Granted n
        | None =>
            match List.find (supported T c) (rev (seq 0 N)) with
            | Some n => if (n <? active)%nat then Preempting n else Denied
            | None => Denied
            end
        end
  end.

Definition add_client (c : client) (cs : list client) : list client :=
  if bool_decide (c ∈ cs) then cs else cs ++ [c].

(** The priority of a component in the combination [n], -1 if it is not there. *)
Definition priority_in (T : list combination) (n : nat) (c : Z) : Z :=
  match T !! n with
  | Some cb =>
      match List.find (fun m => component m =? c) (take (numComponentsInCombination cb) (members cb)) with
      | Some m => priority m
      | None => -1
      end
  | None => -1
  end.

(** Cell [i] is a client [v] that gives way for lack of resources to the client [c] of priority [p]: it has another handle, its
    cell records a priority that is not above [p], no such cell records a lower one, and it is the last one of its priority. *)
Definition gives_way (c : client) (p : Z) (cs : list client) (cells : list component_priority) (i : nat) (v : client) : Prop :=
  cs !! i = Some v /\ componentHandle v <> componentHandle c /\
  exists q, cells !! i = Some q /\ priority q <= p /\
    forall j w r, cs !! j = Some w -> cells !! j = Some r -> componentHandle w <> componentHandle c ->
      priority q <= priority r /\ ((i < j)%nat -> priority q < priority r).

(** The first cell of a component is taken out. *)
Fixpoint remove_cell (c : Z) (cells : list component_priority) : list component_priority :=
  match cells with
  | [] => []
  | q :: cells => if component q =? c then cells else q :: remove_cell c cells
  end.

(** The state is the clients registered and the active combination; beside it there are the [cells] in which the manager records
    a component and a priority for each client. *)
Section Spec.
Context (idx : client -> Z) (T : list combination) (N : nat) (cells : list component_priority).

Definition spec_request (c : client) (st : list client * nat) : list reply * (list client * nat) :=
  let '(cs, active) := st in
  match decide_request T N active (map idx cs) (idx c) with
  | Granted n => ([PM_GRANTPOLICY c], (add_client c cs, n))
  | Preempting n => (map PM_PREEMPTED cs ++ [PM_GRANTPOLICY c], (add_client c cs, n))
  | Denied => ([PM_DENYPOLICY c], st)
  end.

Inductive spec_step : command -> list client * nat -> list reply -> list client * nat -> Prop :=
  | step_request c st : spec_step (PM_RequestPolicy c (idx c)) st (spec_request c st).1 (spec_request c st).2
  | step_free c cs k active : cs !! k = Some c -> spec_step (PM_FreePolicy c (idx c)) (cs, active) [] (delete k cs, active)
  | step_free_none c cs active : c ∉ cs -> spec_step (PM_FreePolicy c (idx c)) (cs, active) [] (cs, active)
  | step_resources c v k cs active :
      supported T (idx c) active = true -> gives_way c (priority_in T active (idx c)) cs cells k v ->
      spec_step (PM_FreeResources c (idx c)) (cs, active) [PM_PREEMPTED v; PM_GRANTPOLICY c] (add_client c cs, active)
  | step_no_resources c cs active :
      (forall k v, ~ gives_way c (priority_in T active (idx c)) cs cells k v) ->
      spec_step (PM_FreeResources c (idx c)) (cs, active) [PM_DENYPOLICY c] (cs, active)
  | step_wait c st : spec_step (PM_WaitForPolicy c) st [] st
  | step_cancel c st : spec_step (PM_CancelWaitForPolicy c) st [] st
  | step_other st : spec_step PM_Other st [] st.

(** The cells after it: a client that is new is recorded with its priority in the combination that is active then; for one that
    is freed the first cell of its component goes. *)
Definition cells_after (cmd : command) (cs : list client) (rs : list reply) (active : nat) : list component_priority :=
  match cmd with
  | PM_RequestPolicy c i | PM_FreeResources c i =>
      if bool_decide (PM_GRANTPOLICY c ∈ rs) && negb (bool_decide (c ∈ cs))
      then cells ++ [mkPriority i (priority_in T active i)] else cells
  | PM_FreePolicy c i => if bool_decide (c ∈ cs) then remove_cell i cells else cells
  | _ => cells
  end.

End Spec.

(** * Lists *)

Lemma find_member_spec c ms n :
  (n <= length ms)%nat ->
  exists r, find_member c ms n = Some r /\
    match r with
    | Some m => m ∈ take n ms /\ component m = c
    | None => c ∉ map component (take n ms)
    end.
Proof.
  revert ms. induction n as [|n IH]; intros ms Hn; simpl.
  { exists None. split; [done|]. apply not_elem_of_nil. }
  destruct ms as [|m ms]; simpl in *; [lia|]. destruct (Z.eqb_spec (component m) c) as [E|E].
  { exists (Some m). split; [done|]. split; [|done]. apply list_elem_of_here. }
  destruct (IH ms) as (r & -> & Hr); [lia|]. exists r. split; [done|]. destruct r as [m'|].
  - destruct Hr. split; [by apply list_elem_of_further|done].
  - rewrite not_elem_of_cons. split; [congruence|done].
Qed.

Lemma find_index_spec {A} (f : A -> bool) l n k :
  (n <= length l)%nat ->
  exists r, find_index f l n k = Some r /\
    match r with
    | Some j => exists i x, j = (k + i)%nat /\ (i < n)%nat /\ l !! i = Some x /\ f x = true
    | None => forall x, x ∈ take n l -> f x = false
    end.
Proof.
  revert l k. induction n as [|n IH]; intros l k Hn; simpl.
  { exists None. split; [done|]. intros x Hx. by apply not_elem_of_nil in Hx. }
  destruct l as [|x l]; simpl in *; [lia|]. destruct (f x) eqn:E.
  { exists (Some k). split; [done|]. exists 0%nat, x. split_and!; [lia|lia|done|done]. }
  destruct (IH l (S k)) as (r & -> & Hr); [lia|]. exists r. split; [done|]. destruct r as [j|].
  - destruct Hr as (i & y & -> & Hi & Hy & Hf). exists (S i), y. split_and!; [lia|lia|done|done].
  - intros y [->|Hy]%elem_of_cons; [done|by apply Hr].
Qed.

(** It is the first one. *)
Lemma find_index_first {A} (f : A -> bool) l n k i :
  find_index f l n k = Some (Some (k + i)%nat) -> forall j x, (j < i)%nat -> l !! j = Some x -> f x = false.
Proof.
  revert l k i. induction n as [|n IH]; intros l k i E j x Hj Hx; simpl in E; [done|]. destruct l as [|y l]; [done|].
  destruct (f y) eqn:Ef; [injection E as E; lia|]. destruct j as [|j]; [by injection Hx as <-|].
  destruct i as [|i]; [lia|]. rewrite <- Nat.add_succ_comm in E. apply (IH l (S k) i E j x); [lia|done].
Qed.

Lemma remove_cell_delete c cells k q :
  cells !! k = Some q -> component q = c -> (forall j r, (j < k)%nat -> cells !! j = Some r -> (component r =? c) = false) ->
  remove_cell c cells = delete k cells.
Proof.
  revert k. induction cells as [|r cells IH]; intros k Hk Hc Hf; [done|]. simpl. destruct k as [|k].
  - injection Hk as ->. by rewrite Hc, Z.eqb_refl.
  - rewrite (Hf 0%nat r) by (done || lia). simpl. f_equal. apply (IH k); [done..|]. intros j x Hj. apply (Hf (S j)). lia.
Qed.

Lemma find_member_find c ms n :
  (n <= length ms)%nat -> find_member c ms n = Some (List.find (fun m => component m =? c) (take n ms)).
Proof.
  revert ms. induction n as [|n IH]; intros ms Hn; [done|]. destruct ms as [|m ms]; simpl in *; [lia|].
  destruct (component m =? c); [done|]. apply IH. lia.
Qed.

Lemma shift_down_spec {A} k n (l : list A) :
  (k < n)%nat -> (n <= length l)%nat ->
  exists l', shift_down k n l = Some l' /\ length l' = length l /\ take (n - 1) l' = delete k (take n l).
Proof.
  intros Hk Hn.
  destruct (for_range_inv (fun i l' => length l' = length l /\
      forall x, l' !! x = if bool_decide (k <= x < i)%nat then l !! S x else l !! x) k (n - 1 - k)
    (fun i l => let* x := l !! S i in arr_set l (Z.of_nat i) x) l) as (l' & Hl' & Hlen & Hx).
  - split; [done|]. intros x. by rewrite bool_decide_eq_false_2 by lia.
  - intros i l' Hi [Hlen Hl]. rewrite (Hl (S i)), bool_decide_eq_false_2 by lia.
    destruct (lookup_lt_is_Some_2 l (S i)) as [x Hx]; [lia|]. rewrite Hx. unfold arr_set.
    rewrite (proj2 (andb_true_iff _ _)) by (split; [apply Z.leb_le|apply Z.ltb_lt]; lia). rewrite Nat2Z.id.
    eexists. split; [reflexivity|]. rewrite length_insert. split; [done|]. intros y.
    destruct (decide (y = i)) as [->|Hne].
    + rewrite list_lookup_insert_eq by lia. by rewrite bool_decide_eq_true_2 by lia.
    + rewrite list_lookup_insert_ne, Hl by done. by rewrite (bool_decide_ext (k <= y < i)%nat (k <= y < S i)%nat) by lia.
  - exists l'. split_and!; [done|done|]. apply list_eq. intros x.
    destruct (decide (x < n - 1)%nat) as [Hlt|Hge].
    + rewrite lookup_take_lt, Hx by done. destruct (decide (x < k)%nat) as [Hxk|Hxk].
      * rewrite bool_decide_eq_false_2, list_lookup_delete_lt, lookup_take_lt by lia. done.
      * rewrite bool_decide_eq_true_2, list_lookup_delete_ge, lookup_take_lt by lia. done.
    + rewrite lookup_take_ge by lia. symmetry. apply lookup_ge_None_2. rewrite length_delete.
      * rewrite length_take. lia.
      * apply lookup_lt_is_Some_2. rewrite length_take. lia.
Qed.

Lemma for_list_seq {S} (f : nat -> S -> S) body l (s : S) :
  (forall i s, i ∈ l -> body i s = Some (f i s)) ->
  for_list l body s = Some (fold_left (fun s i => f i s) l s).
Proof.
  revert s. induction l as [|i l IH]; intros s Hb; simpl; [done|].
  rewrite Hb by apply list_elem_of_here. apply IH. intros j s' Hj. apply Hb. by apply list_elem_of_further.
Qed.

Lemma find_ext {A} (f g : A -> bool) l : (forall x, f x = g x) -> List.find f l = List.find g l.
Proof. intros Hf. induction l as [|x l IH]; simpl; [done|]. by rewrite Hf, IH. Qed.

(** * The table *)

Record table_ok (T : list combination) (N : nat) : Prop := {
  t_length : length T = OMX_POLICY_MAX_COMBINATIONS;
  t_used : (N <= OMX_POLICY_MAX_COMBINATIONS)%nat;
  t_members : forall n cb, T !! n = Some cb ->
    (numComponentsInCombination cb <= length (members cb))%nat /\
    Forall (fun m => 0 <= component m < 256 /\ 0 <= priority m < 256) (members cb);
  (** Each component occurs in no more cells than the list of combinations has. *)
  t_room : forall c, (length (List.filter (Z.eqb c) (concat (map comps (take N T)))) <= OMX_POLICY_MAX_COMBINATIONS)%nat }.

(** The combinations that have the component, each as often as it does. *)
Definition times (c : Z) (cs : list Z) : nat := length (List.filter (Z.eqb c) cs).
Fixpoint supporting (c : Z) (Ts : list combination) (i : nat) : list nat :=
  match Ts with [] => [] | cb :: Ts => replicate (times c (comps cb)) i ++ supporting c Ts (S i) end.

Lemma times_app c cs cs' : times c (cs ++ cs') = (times c cs + times c cs')%nat.
Proof. unfold times. by rewrite List.filter_app, length_app. Qed.

Lemma times_one c x : times c [x] = if x =? c then 1%nat else 0%nat.
Proof. unfold times. simpl. rewrite Z.eqb_sym. by destruct (x =? c). Qed.

Lemma times_supported c cs : (times c cs = 0)%nat <-> c ∉ cs.
Proof.
  unfold times. induction cs as [|x cs IH]; simpl; [split; [intros _; apply not_elem_of_nil|done]|].
  rewrite not_elem_of_cons. destruct (Z.eqb_spec c x); simpl; [split; [done|tauto]|tauto].
Qed.

Lemma supporting_app c Ts Ts' i : supporting c (Ts ++ Ts') i = supporting c Ts i ++ supporting c Ts' (i + length Ts).
Proof.
  revert i. induction Ts as [|cb Ts IH]; intros i; simpl; [by rewrite Nat.add_0_r|].
  by rewrite IH, app_assoc, Nat.add_succ_r.
Qed.

Lemma supporting_length c Ts i : length (supporting c Ts i) = times c (concat (map comps Ts)).
Proof.
  revert i. induction Ts as [|cb Ts IH]; intros i; simpl; [done|]. by rewrite length_app, length_replicate, IH, times_app.
Qed.

Lemma supporting_lt c Ts i n : n ∈ supporting c Ts i -> (n < i + length Ts)%nat.
Proof.
  revert i. induction Ts as [|cb Ts IH]; intros i; simpl; [by intros ?%not_elem_of_nil|].
  rewrite elem_of_app. intros [Hn|Hn].
  - apply elem_of_replicate in Hn as [-> _]. lia.
  - apply IH in Hn. lia.
Qed.

Section Table.
Context (s : manager).
Let T := policyCombinationTable s.
Let N := numCombinations s.
Context (HT : table_ok T N).

Lemma in_table n : (n < OMX_POLICY_MAX_COMBINATIONS)%nat -> exists cb, T !! n = Some cb.
Proof. intros Hn. apply lookup_lt_is_Some_2. rewrite (t_length _ _ HT). done. Qed.

Lemma member_of_spec c n cb :
  T !! n = Some cb ->
  exists r, member_of c cb = Some r /\
    match r with
    | Some m => supported T c n = true /\ 0 <= c < 256 /\ 0 <= priority m < 256
    | None => supported T c n = false
    end.
Proof.
  intros Hn. destruct (t_members _ _ HT n cb Hn) as [Hl Hm]. unfold member_of.
  destruct (find_member_spec c (members cb) (numComponentsInCombination cb) Hl) as (r & -> & Hr). exists r.
  split; [done|]. unfold supported, comps_at. rewrite Hn. destruct r as [m|].
  - destruct Hr as [Hin <-]. rewrite list.Forall_forall in Hm.
    assert (Hin' : m ∈ members cb) by (apply elem_of_take in Hin as (i & ? & _); by eapply list_elem_of_lookup_2).
    split; [apply bool_decide_eq_true_2, list_elem_of_fmap_2, Hin|by apply Hm].
  - by apply bool_decide_eq_false_2.
Qed.

Lemma IsComponentSupported_spec c n :
  (n < OMX_POLICY_MAX_COMBINATIONS)%nat -> IsComponentSupported c n s = Some (supported T c n).
Proof.
  intros Hn. destruct (in_table n Hn) as [cb Hcb]. unfold IsComponentSupported. fold T. rewrite Hcb.
  destruct (member_of_spec c n cb Hcb) as (r & -> & Hr). destruct r; [by destruct Hr as [-> _]|by rewrite Hr].
Qed.

Lemma GetPriority_spec c n :
  (n < OMX_POLICY_MAX_COMBINATIONS)%nat ->
  exists p, GetPriority c n s = Some p /\
    if supported T c n then 0 <= c < 256 /\ 0 <= p < 256 else p = -1.
Proof.
  intros Hn. destruct (in_table n Hn) as [cb Hcb]. unfold GetPriority. fold T. rewrite Hcb.
  destruct (member_of_spec c n cb Hcb) as (r & -> & Hr). destruct r as [m|].
  - destruct Hr as [-> ?]. by exists (priority m).
  - rewrite Hr. by exists (-1).
Qed.

Lemma GetPriority_in c n : (n < OMX_POLICY_MAX_COMBINATIONS)%nat -> GetPriority c n s = Some (priority_in T n c).
Proof.
  intros Hn. destruct (in_table n Hn) as [cb Hcb]. destruct (t_members _ _ HT n cb Hcb) as [Hl _].
  unfold GetPriority, priority_in, member_of. fold T. by rewrite Hcb, find_member_find.
Qed.

Lemma CheckActiveCombination_spec c :
  (activePolicyCombination s < OMX_POLICY_MAX_COMBINATIONS)%nat ->
  exists r, CheckActiveCombination c s = Some r /\
    match r with
    | Some p => supported T c (activePolicyCombination s) = true /\ 0 <= c < 256 /\ 0 <= p < 256 /\
        p = priority_in T (activePolicyCombination s) c
    | None => supported T c (activePolicyCombination s) = false
    end.
Proof.
  intros Hn. destruct (in_table _ Hn) as [cb Hcb]. pose proof (GetPriority_in c _ Hn) as Hp.
  unfold CheckActiveCombination, GetPriority in *. fold T in Hp |- *. rewrite Hcb in *.
  destruct (member_of_spec c _ cb Hcb) as (r & Hm & Hr). rewrite Hm in *. injection Hp as Hp.
  destruct r as [m|]; eexists; (split; [reflexivity|]); tauto.
Qed.

Lemma CheckAllCombinations_spec c :
  exists r, CheckAllCombinations c s = Some r /\
    List.find (supported T c) (rev (seq 0 N)) = option_map fst r.
Proof.
  unfold CheckAllCombinations, for_range. fold N T. assert (HN : (N <= N)%nat) by done. revert HN.
  generalize N at 1 3 4. intros n. induction n as [|n IH]; intros HN; [by exists None|].
  pose proof (t_used _ _ HT). rewrite seq_S, for_list_app, rev_app_distr.
  destruct IH as (r & -> & IH); [lia|]. simpl.
  destruct (in_table n) as [cb Hcb]; [lia|]. rewrite Hcb.
  destruct (member_of_spec c n cb Hcb) as (m & -> & Hm). destruct m as [m|].
  - destruct Hm as [-> _]. by eexists.
  - rewrite Hm, IH. by eexists.
Qed.

Lemma supports_all_spec ps n comb :
  (comb < OMX_POLICY_MAX_COMBINATIONS)%nat -> (n <= length ps)%nat ->
  supports_all ps n comb s = Some (forallb (fun c => supported T c comb) (map component (take n ps))).
Proof.
  intros Hc. revert ps. induction n as [|n IH]; intros ps Hn; [done|]. destruct ps as [|p ps]; simpl in *; [lia|].
  rewrite (IsComponentSupported_spec (component p) comb Hc). destruct (supported T (component p) comb); simpl; [|done].
  apply IH. lia.
Qed.

Lemma coexisting_spec l :
  (forall i, i ∈ l -> (i < OMX_POLICY_MAX_COMBINATIONS)%nat) ->
  (registeredComponents s <= length (activeComponentList s))%nat -> registeredComponents s <> 0%nat ->
  coexisting l s = Some (List.find (fun n => forallb (fun c => supported T c n)
    (map component (take (registeredComponents s) (activeComponentList s)))) l).
Proof.
  intros Hl Hr H0. induction l as [|i l IH]; [done|]. simpl.
  rewrite supports_all_spec by (done || apply Hl, list_elem_of_here). rewrite (proj2 (Nat.eqb_neq _ _)), andb_true_r by done.
  destruct (forallb _ _); [done|]. apply IH. intros j Hj. apply Hl. by apply list_elem_of_further.
Qed.

Lemma find_supporting f c Ts k :
  (forall i cb, Ts !! i = Some cb -> T !! (k + i)%nat = Some cb) ->
  List.find f (supporting c Ts k) = List.find (fun n => supported T c n && f n) (seq k (length Ts)).
Proof.
  revert k. induction Ts as [|cb Ts IH]; intros k Hk; [done|]. cbn [supporting length seq List.find].
  assert (Hs : supported T c k = bool_decide (c ∈ comps cb)).
  { unfold supported, comps_at. rewrite <- (Nat.add_0_r k), (Hk 0%nat cb) by done. done. }
  rewrite <- (IH (S k)) by (intros i cb' Hi; rewrite Nat.add_succ_comm; by apply Hk).
  rewrite Hs. destruct (times c (comps cb)) as [|n] eqn:En.
  - apply times_supported in En. by rewrite bool_decide_eq_false_2.
  - rewrite bool_decide_eq_true_2 by (apply dec_stable; intros Hn; apply times_supported in Hn; lia). clear.
    cbn [andb]. simpl. destruct (f k) eqn:E; [done|]. induction n as [|n IH]; [done|]. simpl. by rewrite E.
Qed.

(** The members of one combination. *)
Lemma supporting_one c cb (i : nat) (l : list nat) :
  (numComponentsInCombination cb <= length (members cb))%nat ->
  (length l + times c (comps cb) <= OMX_POLICY_MAX_COMBINATIONS)%nat ->
  for_range 0 (numComponentsInCombination cb) (fun j l =>
    let* m := members cb !! j in
    if component m =? c then arr_push OMX_POLICY_MAX_COMBINATIONS l i else Some l) l =
  Some (l ++ replicate (times c (comps cb)) i).
Proof.
  intros Hn Hl. unfold comps in *. set (n := numComponentsInCombination cb) in *.
  destruct (for_range_inv (fun j l' => l' = l ++ replicate (times c (map component (take j (members cb)))) i) 0 n
    (fun j l => let* m := members cb !! j in
      if component m =? c then arr_push OMX_POLICY_MAX_COMBINATIONS l i else Some l) l) as (l' & -> & ->); [| |done].
  - by rewrite take_0, app_nil_r.
  - intros j l' Hj ->. destruct (lookup_lt_is_Some_2 (members cb) j) as [m Hm]; [lia|]. rewrite Hm.
    assert (Ht : times c (map component (take n (members cb))) =
      (times c (map component (take (S j) (members cb))) + times c (map component (take (n - S j) (drop (S j) (members cb)))))%nat).
    { rewrite <- times_app, <- map_app, take_take_drop. do 3 f_equal. lia. }
    rewrite (take_S_r _ _ _ Hm), map_app, times_app in *. cbn [map] in *. rewrite times_one in *.
    destruct (component m =? c).
    + unfold arr_push. rewrite (proj2 (Nat.ltb_lt _ _)) by (rewrite length_app, length_replicate; lia).
      eexists. split; [reflexivity|]. by rewrite Nat.add_1_r, replicate_S_end, app_assoc.
    + eexists. split; [reflexivity|]. by rewrite Nat.add_0_r.
Qed.

Lemma GetSupportingCombinations_spec c : GetSupportingCombinations c s = Some (supporting c (take N T) 0).
Proof.
  unfold GetSupportingCombinations. fold N T. pose proof (t_used _ _ HT) as HN. pose proof (t_length _ _ HT) as Hlen.
  match goal with |- for_range _ _ ?f _ = _ =>
    destruct (for_range_inv (fun k l => l = supporting c (take k T) 0) 0 N f []) as (l & -> & ->); [done| |done] end.
  intros k l Hk ->. destruct (in_table k) as [cb Hcb]; [lia|]. rewrite Hcb. eexists.
  rewrite (take_S_r _ _ _ Hcb), supporting_app, length_take, Nat.min_l, Nat.add_0_l by lia. cbn [supporting]. rewrite app_nil_r.
  rewrite supporting_one; [done|by apply (t_members _ _ HT k)|].
  rewrite supporting_length. pose proof (t_room _ _ HT c) as Hr. fold (times c (concat (map comps (take N T)))) in Hr.
  replace (take N T) with (take (S k) T ++ take (N - S k) (drop (S k) T)) in Hr by (rewrite take_take_drop; f_equal; lia).
  rewrite (take_S_r _ _ _ Hcb), !map_app, !concat_app, !times_app in Hr. cbn [map concat] in Hr. rewrite app_nil_r in Hr. lia.
Qed.

Lemma supporting_find c f :
  List.find f (supporting c (take N T) 0) = List.find (fun n => supported T c n && f n) (seq 0 N).
Proof.
  pose proof (t_used _ _ HT). pose proof (t_length _ _ HT). rewrite find_supporting.
  - by rewrite length_take, Nat.min_l by lia.
  - intros i cb Hi. by apply lookup_take_Some in Hi as [? _].
Qed.

End Table.

(** * The manager *)

Section Run.
Context (idx : client -> Z) (T : list combination) (N : nat).

Definition registered (s : manager) : list client := take (registeredComponents s) (pComponentList s).
Definition view (s : manager) : list client * nat := (registered s, activePolicyCombination s).

Record policy_ok (s : manager) : Prop := {
  p_table : policyCombinationTable s = T;
  p_number : numCombinations s = N;
  p_ok : table_ok T N;
  p_clients : length (pComponentList s) = RM_MAXCOMPONENTS;
  p_actives : length (activeComponentList s) = RM_MAXCOMPONENTS;
  p_waiting : length (pPendingComponentList s) = RM_MAXCOMPONENTS;
  p_count : (registeredComponents s <= RM_MAXCOMPONENTS)%nat;
  p_distinct : NoDup (registered s);
  (** The two lists hold the same components, though not always in the same cells. *)
  p_same : map component (take (registeredComponents s) (activeComponentList s)) ≡ₚ map idx (registered s);
  p_priority : Forall (fun p => 0 <= priority p) (take (registeredComponents s) (activeComponentList s));
  p_active : (activePolicyCombination s < OMX_POLICY_MAX_COMBINATIONS)%nat }.

(** The components and priorities recorded; those after the client [c] was granted in the combination [n]. *)
Definition recorded (s : manager) : list component_priority := take (registeredComponents s) (activeComponentList s).
Definition with_new (c : client) (n : nat) (s : manager) : list component_priority :=
  if bool_decide (c ∈ registered s) then recorded s else recorded s ++ [mkPriority (idx c) (priority_in T n (idx c))].
Definition ranks (c : client) (n : nat) (p : Z) : Prop := p = priority_in T n (idx c) /\ 0 <= idx c < 256 /\ 0 <= p < 256.

(** There is a cell for the client. *)
Definition room (c : client) (s : manager) : Prop :=
  c ∈ registered s \/ (registeredComponents s < RM_MAXCOMPONENTS)%nat.

Lemma forallb_perm {A} (f : A -> bool) l l' : l ≡ₚ l' -> forallb f l = forallb f l'.
Proof.
  intros Hp. apply eq_bool_prop_intro. rewrite !Is_true_true, !forallb_forall.
  split; intros Hf x Hx; apply Hf; [by rewrite Hp|by rewrite <- Hp].
Qed.

Lemma same_client (x c : client) : (componentHandle x =? componentHandle c) && (nPid x =? nPid c) = true <-> x = c.
Proof.
  rewrite andb_true_iff, !Z.eqb_eq. destruct x, c. simpl. split; [intros [-> ->]; done|by intros [= -> ->]].
Qed.

Lemma find_client_spec s c :
  policy_ok s ->
  exists r, find_client c s = Some r /\
    match r with
    | Some j => (j < registeredComponents s)%nat /\ registered s !! j = Some c
    | None => c ∉ registered s
    end.
Proof.
  intros Hs. unfold find_client.
  destruct (find_index_spec (fun x => (componentHandle x =? componentHandle c) && (nPid x =? nPid c))
    (pComponentList s) (registeredComponents s) 0) as (r & -> & Hr); [rewrite (p_clients _ Hs); apply Hs|].
  exists r. split; [done|]. destruct r as [j|].
  - destruct Hr as (i & x & -> & Hi & Hx & Hf). apply same_client in Hf as ->. rewrite Nat.add_0_l. split; [done|].
    unfold registered. by rewrite lookup_take_lt.
  - intros Hin. apply Hr in Hin. by rewrite (proj2 (same_client c c)) in Hin.
Qed.

Lemma GrantPolicy_spec s c p n0 :
  policy_ok s -> ranks c n0 p -> room c s ->
  exists s', GrantPolicy c (idx c) p s = Some s' /\ policy_ok s' /\
    sent s' = sent s ++ [PM_GRANTPOLICY c] /\ view s' = (add_client c (registered s), activePolicyCombination s) /\
    recorded s' = with_new c n0 s.
Proof.
  intros Hs (Hpr & Hc & Hp) Hroom. unfold GrantPolicy.
  change (find_client c (write _ s)) with (find_client c s).
  destruct (find_client_spec s c Hs) as (r & -> & Hr). destruct r as [j|].
  - destruct Hr as [_ Hj]. eexists. split; [reflexivity|]. split; [by destruct Hs|]. split; [done|].
    unfold view, add_client, with_new. rewrite bool_decide_eq_true_2 by (by eapply list_elem_of_lookup_2). done.
  - destruct Hroom as [|Hroom]; [done|]. cbn [registeredComponents activeComponentList pComponentList write set_sent].
    pose proof (p_clients _ Hs) as Hlc. pose proof (p_actives _ Hs) as Hla. unfold arr_set.
    rewrite Hlc, Hla, !(proj2 (andb_true_iff _ _)) by (split; [apply Z.leb_le|apply Z.ltb_lt]; lia). rewrite Nat2Z.id.
    eexists. split; [reflexivity|]. set (n := registeredComponents s) in *.
    assert (Hreg : take (S n) (<[n := c]> (pComponentList s)) = registered s ++ [c]).
    { rewrite (take_S_r _ _ c) by (apply list_lookup_insert_eq; lia). by rewrite take_insert_ge. }
    assert (Hact : forall q, take (S n) (<[n := q]> (activeComponentList s)) = take n (activeComponentList s) ++ [q]).
    { intros q. rewrite (take_S_r _ _ q) by (apply list_lookup_insert_eq; lia). by rewrite take_insert_ge. }
    split; [|split; [done|]].
    2:{ unfold view, registered, recorded at 1, with_new, add_client. cbn. fold n. rewrite Hreg, Hact, !bool_decide_eq_false_2 by done.
        by rewrite !uwrap_small, <- Hpr. }
    destruct Hs. split; try done; unfold registered; cbn; fold n.
    + by rewrite length_insert.
    + by rewrite length_insert.
    + rewrite Hreg. apply list.NoDup_app. split; [done|]. split; [|apply NoDup_singleton].
      intros x Hx ->%list_elem_of_singleton. done.
    + rewrite Hreg, Hact, !map_app. apply Permutation_app; [done|]. cbn. by rewrite uwrap_small.
    + rewrite Hact. apply Forall_app. split; [done|]. repeat constructor. cbn. apply uwrap_range. lia.
Qed.

Lemma set_active_ok s n : policy_ok s -> (n < OMX_POLICY_MAX_COMBINATIONS)%nat -> policy_ok (set_active n s).
Proof. by intros [] Hn; split. Qed.

Lemma preempt_all_spec s :
  policy_ok s -> preempt_all s = Some (set_sent (sent s ++ map PM_PREEMPTED (registered s)) s).
Proof.
  intros Hs. unfold preempt_all. pose proof (p_count _ Hs) as Hn. rewrite <- (p_clients _ Hs) in Hn.
  destruct (for_range_inv (fun i s' => s' = set_sent (sent s ++ map PM_PREEMPTED (take i (pComponentList s))) s)
    0 (registeredComponents s) (fun i s => let* c := pComponentList s !! i in Some (PreemptComponent c s)) s)
    as (s' & -> & ->); [| |done].
  - rewrite take_0. simpl. rewrite app_nil_r. by destruct s.
  - intros i s' Hi ->. cbn [pComponentList set_sent]. destruct (lookup_lt_is_Some_2 (pComponentList s) i) as [c Hc]; [lia|].
    rewrite Hc. eexists. split; [reflexivity|]. rewrite (take_S_r _ _ _ Hc), map_app, app_assoc. done.
Qed.

(** ** Requests *)

Definition anew (c : client) (s : manager) : list reply * (list client * nat) :=
  match List.find (supported T (idx c)) (rev (seq 0 N)) with
  | Some n =>
      if (n <? activePolicyCombination s)%nat
      then (map PM_PREEMPTED (registered s) ++ [PM_GRANTPOLICY c], (add_client c (registered s), n))
      else ([PM_DENYPOLICY c], view s)
  | None => ([PM_DENYPOLICY c], view s)
  end.

Lemma in_combinations f n : table_ok T N -> List.find f (seq 0 N) = Some n -> f n = true /\ (n < N)%nat /\ (n < OMX_POLICY_MAX_COMBINATIONS)%nat.
Proof.
  intros HT [Hin Hf]%find_some. apply in_seq in Hin. pose proof (t_used _ _ HT). split; [done|lia].
Qed.

Lemma priority_spec s c n :
  policy_ok s -> (n < OMX_POLICY_MAX_COMBINATIONS)%nat -> supported T (idx c) n = true ->
  exists p, GetPriority (idx c) n s = Some p /\ (p =? -1) = false /\ ranks c n p.
Proof.
  intros Hs Hn Hsup. destruct (GetPriority_spec s) with (c := idx c) (n := n) as (p & Hp & Hr).
  - rewrite (p_table _ Hs), (p_number _ Hs). apply Hs.
  - done.
  - rewrite (p_table _ Hs), Hsup in Hr. exists p. split; [done|]. split; [apply Z.eqb_neq; lia|]. split; [|tauto].
    rewrite (GetPriority_in s) in Hp by (rewrite ?(p_table _ Hs), ?(p_number _ Hs); apply Hs || done). rewrite (p_table _ Hs) in Hp. congruence.
Qed.

Lemma grant_in s c n p :
  policy_ok s -> ranks c n p -> room c s -> (n < OMX_POLICY_MAX_COMBINATIONS)%nat ->
  exists s', (let* s := GrantPolicy c (idx c) p s in Some (set_active n s)) = Some s' /\ policy_ok s' /\
    sent s' = sent s ++ [PM_GRANTPOLICY c] /\ view s' = (add_client c (registered s), n) /\ recorded s' = with_new c n s.
Proof.
  intros Hs Hc Hroom Hn. destruct (GrantPolicy_spec s c p n Hs Hc Hroom) as (s' & -> & Hs' & Hsent & Hv & Hrec).
  eexists. split; [reflexivity|]. split; [by apply set_active_ok|]. split; [done|]. split; [by injection Hv as <- _|done].
Qed.

(** The cells after a request, by what it is answered. *)
Definition cells_of (c : client) (s : manager) (r : list reply * (list client * nat)) : list component_priority :=
  cells_after T (recorded s) (PM_RequestPolicy c (idx c)) (registered s) r.1 r.2.2.
Lemma cells_granted c n s cs l : cells_of c s (l ++ [PM_GRANTPOLICY c], (cs, n)) = with_new c n s.
Proof.
  unfold cells_of, with_new. cbn. rewrite bool_decide_eq_true_2 by (apply elem_of_app; right; by apply list_elem_of_singleton).
  by destruct (bool_decide (c ∈ registered s)).
Qed.
Lemma cells_denied c s st : cells_of c s ([PM_DENYPOLICY c], st) = recorded s.
Proof. unfold cells_of. cbn. rewrite bool_decide_eq_false_2; [done|]. by intros ?%list_elem_of_singleton. Qed.

Lemma set_sent_ok s l : policy_ok s -> policy_ok (set_sent l s).
Proof. by intros []; split. Qed.

Lemma request_anew_spec s c :
  policy_ok s -> room c s ->
  exists s', request_anew c (idx c) s = Some s' /\ policy_ok s' /\
    sent s' = sent s ++ (anew c s).1 /\ view s' = (anew c s).2 /\ recorded s' = cells_of c s (anew c s).
Proof.
  intros Hs Hroom. unfold request_anew, anew. pose proof Hs as HT. apply p_ok in HT.
  destruct (CheckAllCombinations_spec s) with (c := idx c) as (r & -> & Hr); [by rewrite (p_table _ Hs), (p_number _ Hs)|].
  rewrite (p_table _ Hs), (p_number _ Hs) in Hr. rewrite Hr.
  assert (Hdeny : exists s', Some (DenyPolicy c s) = Some s' /\ policy_ok s' /\ sent s' = sent s ++ [PM_DENYPOLICY c] /\ view s' = view s /\
    recorded s' = cells_of c s ([PM_DENYPOLICY c], view s)).
  { rewrite cells_denied. eexists. split; [reflexivity|]. split; [by apply set_sent_ok|]. done. }
  destruct r as [[n q]|]; cbn [option_map fst]; [|done]. destruct (n <? activePolicyCombination s)%nat; [|done].
  apply find_some in Hr as [Hin Hf]. apply in_rev, in_seq in Hin. cbn [option_map fst] in *.
  assert (Hn : (n < OMX_POLICY_MAX_COMBINATIONS)%nat) by (pose proof (t_used _ _ HT); lia).
  rewrite (preempt_all_spec s Hs). set (s1 := set_sent _ s).
  assert (Hs1 : policy_ok s1) by (by apply set_sent_ok).
  destruct (priority_spec s1 c n Hs1 Hn Hf) as (p & -> & -> & Hc). cbn [negb].
  destruct (grant_in s1 c n p Hs1 Hc Hroom Hn) as (s' & -> & Hs' & Hsent & Hv & Hrec). exists s'. split; [done|]. split; [done|].
  split; [|split; [done|by rewrite cells_granted]]. rewrite Hsent. cbn. by rewrite app_assoc.
Qed.

Lemma request_more_spec s c :
  policy_ok s -> room c s -> registered s <> [] ->
  exists s', request_more c (idx c) s = Some s' /\ policy_ok s' /\
    (sent s', view s') = (sent s ++ (spec_request idx T N c (view s)).1, (spec_request idx T N c (view s)).2) /\
    recorded s' = cells_of c s (spec_request idx T N c (view s)).
Proof.
  intros Hs Hroom Hreg. unfold request_more, spec_request, view, decide_request. pose proof Hs as HT. apply p_ok in HT.
  assert (HT' : table_ok (policyCombinationTable s) (numCombinations s)) by (by rewrite (p_table _ Hs), (p_number _ Hs)).
  destruct (map idx (registered s)) as [|r0 rs] eqn:Er; [by destruct (registered s)|]. rewrite <- Er.
  destruct (CheckActiveCombination_spec s HT' (idx c)) as (r & -> & Hr); [apply Hs|]. rewrite (p_table _ Hs) in Hr.
  destruct r as [p|].
  { destruct Hr as (-> & Hc & Hp & Hpr). destruct (GrantPolicy_spec s c p (activePolicyCombination s) Hs) as (s' & -> & Hs' & Hsent & Hv & Hrec);
      [done..|]. exists s'. split; [done|]. split; [done|]. rewrite (cells_granted c (activePolicyCombination s) s _ []), Hsent.
    split; [f_equal; exact Hv|done]. }
  rewrite Hr. unfold CanAllComponentsCoexist. rewrite (GetSupportingCombinations_spec s HT').
  rewrite (coexisting_spec s HT'). 2:{ intros i Hi%supporting_lt. rewrite length_take in Hi. pose proof (t_used _ _ HT'). lia. }
  2:{ rewrite (p_actives _ Hs). apply Hs. }
  2:{ intros H0. unfold registered in Hreg. by rewrite H0 in Hreg. }
  rewrite (supporting_find s HT'), (p_table _ Hs), (p_number _ Hs).
  rewrite (find_ext _ (fun n => supported T (idx c) n && forallb (fun r => supported T r n) (map idx (registered s)))).
  2:{ intros n. f_equal. apply forallb_perm, Hs. }
  assert (Ha : exists s', request_anew c (idx c) s = Some s' /\ policy_ok s' /\
    (sent s', view s') = (sent s ++ (anew c s).1, (anew c s).2) /\ recorded s' = cells_of c s (anew c s)).
  { destruct (request_anew_spec s c Hs Hroom) as (s' & Hs1 & Hs' & Hsent & Hv & Hrec). exists s'. by rewrite Hsent, Hv. }
  destruct (List.find _ (seq 0 N)) as [n|] eqn:Ef.
  - apply (in_combinations _ _ HT) in Ef as ([Hsup _]%andb_true_iff & _ & Hn).
    destruct (priority_spec s c n Hs Hn Hsup) as (p & -> & -> & Hc). cbn [negb].
    destruct (grant_in s c n p Hs Hc Hroom Hn) as (s' & -> & Hs' & Hsent & Hv & Hrec). exists s'. split; [done|]. split; [done|].
    rewrite (cells_granted c n s _ []), Hsent. split; [f_equal; exact Hv|done].
  - unfold anew in Ha. destruct (List.find _ (rev (seq 0 N))) as [n|]; [|exact Ha].
    destruct (n <? activePolicyCombination s)%nat; exact Ha.
Qed.

Lemma request_spec s c :
  policy_ok s -> room c s ->
  exists s', HandleRequestPolicy c (idx c) s = Some s' /\ policy_ok s' /\
    (sent s', view s') = (sent s ++ (spec_request idx T N c (view s)).1, (spec_request idx T N c (view s)).2) /\
    recorded s' = cells_of c s (spec_request idx T N c (view s)).
Proof.
  intros Hs Hroom. unfold HandleRequestPolicy. pose proof Hs as HT. apply p_ok in HT.
  assert (HT' : table_ok (policyCombinationTable s) (numCombinations s)) by (by rewrite (p_table _ Hs), (p_number _ Hs)).
  destruct (Nat.eqb_spec (registeredComponents s) 0) as [E|E].
  2:{ apply request_more_spec; [done..|]. unfold registered. intros H0. apply (f_equal length) in H0.
      rewrite length_take, (p_clients _ Hs) in H0. pose proof (p_count _ Hs). simpl in H0. lia. }
  rewrite (GetSupportingCombinations_spec s HT'), (p_table _ Hs), (p_number _ Hs).
  pose proof (supporting_find s HT' (idx c) (fun _ => true)) as Hf. rewrite (p_table _ Hs), (p_number _ Hs) in Hf.
  rewrite (find_ext (fun n => supported T (idx c) n && true) (supported T (idx c))) in Hf by (intros n; apply andb_true_r).
  assert (Hreg : registered s = []) by (unfold registered; by rewrite E). unfold spec_request, view, decide_request. rewrite Hreg. cbn [map].
  rewrite <- Hf. destruct (supporting _ _ _) as [|n l]; cbn [List.find] in *.
  - rewrite cells_denied. eexists. split; [reflexivity|]. split; [by apply set_sent_ok|]. unfold view. by rewrite <- Hreg.
  - symmetry in Hf. apply (in_combinations _ _ HT) in Hf as (Hsup & _ & Hn).
    pose proof (set_active_ok s n Hs Hn) as Hs1. destruct (priority_spec _ c n Hs1 Hn Hsup) as (p & -> & -> & Hc). cbn [negb].
    destruct (GrantPolicy_spec _ c p n Hs1 Hc Hroom) as (s' & -> & Hs' & Hsent & Hv & Hrec). exists s'. split; [done|]. split; [done|].
    rewrite (cells_granted c n s _ []), Hsent. split; [|done]. f_equal. unfold view in Hv. rewrite Hv. change (registered (set_active n s)) with (registered s). by rewrite Hreg.
Qed.

Lemma perm_map {A} (f : A -> Z) l k x : l !! k = Some x -> map f l ≡ₚ f x :: map f (delete k l).
Proof. intros Hx. exact (Permutation_map f (delete_Permutation l k x Hx)). Qed.

(** ** The end of a client, and lack of resources *)

(** The client is registered, or none of its component is. *)
Definition may_free (c : client) (s : manager) : Prop := c ∈ registered s \/ idx c ∉ map idx (registered s).

Lemma find_active_spec s c :
  policy_ok s ->
  exists r, find_index (fun p => component p =? idx c) (activeComponentList s) (registeredComponents s) 0 = Some r /\
    match r with
    | Some k => (k < registeredComponents s)%nat /\
        exists p, recorded s !! k = Some p /\ component p = idx c /\ remove_cell (idx c) (recorded s) = delete k (recorded s)
    | None => idx c ∉ map idx (registered s)
    end.
Proof.
  intros Hs. destruct (find_index_spec (fun p => component p =? idx c) (activeComponentList s) (registeredComponents s) 0)
    as (r & Ef & Hr); [rewrite (p_actives _ Hs); apply Hs|]. rewrite Ef. exists r. split; [done|]. destruct r as [k|].
  - destruct Hr as (i & p & -> & Hi & Hp & Hf). apply Z.eqb_eq in Hf. split; [done|]. exists p.
    assert (Hrec : recorded s !! i = Some p) by (unfold recorded; by rewrite lookup_take_lt). split; [done|]. split; [done|].
    eapply remove_cell_delete; [done..|]. intros j r Hj (Hr & _)%lookup_take_Some. by eapply (find_index_first _ _ _ _ _ Ef).
  - rewrite <- (p_same _ Hs). intros (p & Hp & Hin)%list_elem_of_fmap. apply Hr in Hin. apply Z.eqb_neq in Hin. congruence.
Qed.

Lemma free_registered s c :
  policy_ok s -> c ∈ registered s ->
  exists s', HandleFreePolicy c (idx c) s = Some s' /\ policy_ok s' /\ sent s' = sent s /\
    (exists k, registered s !! k = Some c /\ registered s' = delete k (registered s)) /\
    activePolicyCombination s' = activePolicyCombination s /\ recorded s' = remove_cell (idx c) (recorded s).
Proof.
  intros Hs Hin. unfold HandleFreePolicy, RemoveComponentFromList. set (n := registeredComponents s) in *.
  assert (Hn : (n <= RM_MAXCOMPONENTS)%nat) by apply Hs.
  destruct (find_active_spec s c Hs) as (r & Hf & Hr). fold n in Hf, Hr. rewrite Hf. destruct r as [k|].
  2:{ destruct Hr. by apply list_elem_of_fmap_2. }
  destruct Hr as (Hk & p & Hp & Hc & Hrm). rewrite Hrm. unfold recorded in Hp, Hrm |- *. fold n in Hp, Hrm |- *.
  destruct (shift_down_spec k n (activeComponentList s)) as (ps & -> & Hlps & Hps); [done|by rewrite (p_actives _ Hs)|].
  change (find_client c (set_lists _ _ _ s)) with (find_client c s).
  destruct (find_client_spec s c Hs) as (r & -> & Hr). destruct r as [j|]; [|done]. destruct Hr as [Hj Hreg]. fold n in Hj.
  cbn [pComponentList set_lists].
  destruct (shift_down_spec j n (pComponentList s)) as (cs & -> & Hlcs & Hcs); [done|by rewrite (p_clients _ Hs)|].
  eexists. split; [reflexivity|]. split; [|split; [done|split; [|split; [done|exact Hps]]]].
  2:{ exists j. unfold registered at 2. cbn. rewrite Hcs. by split. }
  destruct Hs. split; try done; unfold registered; cbn.
  - by rewrite Hlcs.
  - by rewrite Hlps.
  - lia.
  - rewrite Hcs. rewrite (delete_Permutation _ j c Hreg) in p_distinct0. by apply list.NoDup_cons in p_distinct0 as [_ ?].
  - rewrite Hcs, Hps. apply (Permutation_cons_inv (a := idx c)).
    fold n in p_same0. rewrite <- Hc at 1. rewrite (perm_map component _ _ p Hp), (perm_map idx _ _ c Hreg) in p_same0. exact p_same0.
  - rewrite Hps. by apply Forall_delete.
Qed.

Lemma free_unregistered s c :
  policy_ok s -> idx c ∉ map idx (registered s) -> HandleFreePolicy c (idx c) s = Some s.
Proof.
  intros Hs Hin. unfold HandleFreePolicy, RemoveComponentFromList.
  destruct (find_active_spec s c Hs) as (r & -> & Hr). destruct r as [k|].
  { destruct Hr as (_ & p & Hp & Hc & _). destruct Hin. rewrite <- (p_same _ Hs), <- Hc.
    apply list_elem_of_fmap_2. by eapply list_elem_of_lookup_2. }
  change (find_client c (set_lists _ _ _ s)) with (find_client c s).
  destruct (find_client_spec s c Hs) as (r & -> & Hr'). destruct r as [j|].
  - destruct Hr' as [_ Hj]. destruct Hin. apply list_elem_of_fmap_2. by eapply list_elem_of_lookup_2.
  - by destruct s.
Qed.

Lemma lowest_spec s c p :
  policy_ok s ->
  exists q m, lowest c p s = Some (q, m) /\
    match m with
    | Some i => exists v, pComponentList s !! i = Some v /\ gives_way c p (registered s) (recorded s) i v
    | None => forall i v, ~ gives_way c p (registered s) (recorded s) i v
    end.
Proof.
  intros Hs. set (cs := registered s). set (cells := recorded s). pose proof (p_count _ Hs) as Hn.
  assert (Hlc : length cs = registeredComponents s) by (unfold cs, registered; rewrite length_take, (p_clients _ Hs); lia).
  assert (Hlp : length cells = registeredComponents s) by (unfold cells, recorded; rewrite length_take, (p_actives _ Hs); lia).
  unfold lowest. match goal with |- context [for_range _ _ ?f _] =>
    destruct (for_range_inv (fun k r => match r.2 with
      | Some i => exists v q, cs !! i = Some v /\ componentHandle v <> componentHandle c /\ cells !! i = Some q /\
          priority q = r.1 /\ r.1 <= p /\ (i < k)%nat /\
          forall j w r', (j < k)%nat -> cs !! j = Some w -> cells !! j = Some r' -> componentHandle w <> componentHandle c ->
            r.1 <= priority r' /\ ((i < j)%nat -> r.1 < priority r')
      | None => r.1 = p /\ forall j w r', (j < k)%nat -> cs !! j = Some w -> cells !! j = Some r' ->
          componentHandle w <> componentHandle c -> p < priority r'
      end) 0 (registeredComponents s) f (p, None)) as ([q m] & -> & Hm) end.
  - split; [done|lia].
  - intros k [q m] Hk Hm. destruct (lookup_lt_is_Some_2 cs k) as [v Hv]; [lia|]. destruct (lookup_lt_is_Some_2 cells k) as [a Ha]; [lia|].
    pose proof Hv as [Hv' _]%lookup_take_Some. pose proof Ha as [Ha' _]%lookup_take_Some. rewrite Hv', Ha'.
    assert (Hk' : forall j w r', (j < S k)%nat -> cs !! j = Some w -> cells !! j = Some r' -> (j < k)%nat \/ (j = k /\ w = v /\ r' = a)).
    { intros j w r' Hj Hw Hr. destruct (decide (j = k)) as [->|]; [right|left; lia]. split_and!; congruence. }
    cbn [fst snd] in *.
    destruct (Z.eqb_spec (componentHandle v) (componentHandle c)) as [E|E]; [|destruct (Z.leb_spec (priority a) q) as [Hle|Hgt]];
      (eexists; split; [reflexivity|]); cbn [fst snd] in *.
    + destruct m as [i|].
      * destruct Hm as (v0 & q0 & H1 & H2 & H3 & H4 & H5 & H6 & H7). exists v0, q0. split_and!; [done..|lia|].
        intros j w r' Hj Hw Hr Hne. destruct (Hk' j w r' Hj Hw Hr) as [|(-> & -> & ->)]; [by apply (H7 j w)|done].
      * destruct Hm as [-> H7]. split; [done|]. intros j w r' Hj Hw Hr Hne.
        destruct (Hk' j w r' Hj Hw Hr) as [|(-> & -> & ->)]; [by apply (H7 j w)|done].
    + exists v, a. destruct m as [i|].
      * destruct Hm as (v0 & q0 & H1 & H2 & H3 & H4 & H5 & H6 & H7). split_and!; [done..|lia|lia|].
        intros j w r' Hj Hw Hr Hne. destruct (Hk' j w r' Hj Hw Hr) as [Hlt|(-> & -> & ->)]; [|lia].
        destruct (H7 j w r' Hlt Hw Hr Hne). lia.
      * destruct Hm as [-> H7]. split_and!; [done..|lia|]. intros j w r' Hj Hw Hr Hne.
        destruct (Hk' j w r' Hj Hw Hr) as [Hlt|(-> & -> & ->)]; [|lia]. specialize (H7 j w r' Hlt Hw Hr Hne). lia.
    + destruct m as [i|].
      * destruct Hm as (v0 & q0 & H1 & H2 & H3 & H4 & H5 & H6 & H7). exists v0, q0. split_and!; [done..|lia|].
        intros j w r' Hj Hw Hr Hne. destruct (Hk' j w r' Hj Hw Hr) as [|(-> & -> & ->)]; [by apply (H7 j w)|lia].
      * destruct Hm as [-> H7]. split; [done|]. intros j w r' Hj Hw Hr Hne.
        destruct (Hk' j w r' Hj Hw Hr) as [|(-> & -> & ->)]; [by apply (H7 j w)|lia].
  - exists q, m. split; [done|]. destruct m as [i|]; cbn [fst snd] in *.
    + destruct Hm as (v & q0 & H1 & H2 & H3 & H4 & H5 & H6 & H7). exists v. split; [by apply lookup_take_Some in H1 as [? _]|].
      split; [done|]. split; [done|]. exists q0. split; [done|]. split; [lia|]. intros j w r Hw Hr Hne.
      destruct (H7 j w r) as [? ?]; [apply lookup_lt_Some in Hw; lia|done..|]. split; [lia|]. intros Hij. specialize (H7 j w r). lia.
    + destruct Hm as [-> H7]. intros i v (Hv & Hne & r & Hr & Hle & _). specialize (H7 i v r). apply lookup_lt_Some in Hv as Hlt. lia || (assert (p < priority r) by (apply H7; [lia|done..]); lia).
Qed.

Lemma resources_spec s c :
  policy_ok s -> room c s -> sent s = [] ->
  exists s', HandleFreeResources c (idx c) s = Some s' /\ policy_ok s' /\
    spec_step idx T N (recorded s) (PM_FreeResources c (idx c)) (view s) (sent s') (view s') /\
    recorded s' = cells_of c s (sent s', view s').
Proof.
  intros Hs Hroom Hsent. unfold HandleFreeResources. set (n := activePolicyCombination s).
  assert (HT' : table_ok (policyCombinationTable s) (numCombinations s)) by (rewrite (p_table _ Hs), (p_number _ Hs); apply Hs).
  assert (Hp : GetPriority (idx c) n s = Some (priority_in T n (idx c))) by (rewrite (GetPriority_in s HT'), (p_table _ Hs); [done|apply Hs]).
  destruct (GetPriority_spec s HT' (idx c) n) as (p & Hp' & Hr); [apply Hs|]. rewrite Hp in Hp'. injection Hp' as Hpr. rewrite (p_table _ Hs) in Hr.
  rewrite Hp. destruct (lowest_spec s c (priority_in T n (idx c)) Hs) as (q & m & -> & Hm). destruct m as [i|].
  - destruct Hm as (v & -> & Hg). change (GetPriority _ _ (PreemptComponent v s)) with (GetPriority (idx c) n s). rewrite Hp.
    assert (H0 : 0 <= priority_in T n (idx c)).
    { destruct Hg as (_ & _ & r & Hr' & Hle & _). pose proof (p_priority _ Hs) as Hf. rewrite list.Forall_forall in Hf.
      specialize (Hf r (list_elem_of_lookup_2 _ _ _ Hr')). lia. }
    destruct (supported T (idx c) n) eqn:Hsup; [|lia].
    assert (Hs1 : policy_ok (PreemptComponent v s)) by (by apply set_sent_ok).
    destruct (GrantPolicy_spec _ c (priority_in T n (idx c)) n Hs1) as (s' & -> & Hs' & Hse & Hvi & Hrec); [rewrite Hpr; split; [done|tauto]|done|].
    exists s'. split; [done|]. split; [done|]. rewrite Hse, Hvi. cbn [sent PreemptComponent write set_sent]. rewrite Hsent. split.
    + by eapply step_resources.
    + by rewrite (cells_granted c n s _ [PM_PREEMPTED v]).
  - eexists. split; [reflexivity|]. split; [by apply set_sent_ok|]. cbn [sent DenyPolicy write set_sent]. rewrite Hsent, cells_denied.
    split; [|done]. by apply step_no_resources.
Qed.

(** ** Turns of the server *)

(** What the resource manager keeps to: a command names the component of its client; there is a cell
    for a client that is granted or waits; only clients that are registered are freed, or those
    of whose component none is. *)
Definition allowed (cmd : command) (s : manager) : Prop :=
  match cmd with
  | PM_RequestPolicy c i | PM_FreeResources c i => i = idx c /\ room c s
  | PM_FreePolicy c i => i = idx c /\ may_free c s
  | PM_WaitForPolicy _ => (pendingComponents s < RM_MAXCOMPONENTS)%nat
  | PM_CancelWaitForPolicy _ | PM_Other => True
  end.

Lemma serve_spec cmd s :
  policy_ok s -> allowed cmd s ->
  exists rs s', serve cmd s = Some (rs, s') /\ policy_ok s' /\ spec_step idx T N (recorded s) cmd (view s) rs (view s') /\
    recorded s' = cells_after T (recorded s) cmd (registered s) rs (activePolicyCombination s').
Proof.
  intros Hs Ha. unfold serve. assert (Hs0 : policy_ok (set_sent [] s)) by (by apply set_sent_ok). change (view s) with (view (set_sent [] s)).
  destruct cmd as [c i|c|c i|c|c i|]; simpl in Ha; unfold handle.
  - destruct Ha as [-> Hroom]. destruct (request_spec _ c Hs0 Hroom) as (s' & -> & Hs' & Heq & Hrec). exists (sent s'), s'.
    split; [done|]. split; [done|]. pose proof (f_equal fst Heq) as He. pose proof (f_equal snd Heq) as Hv. cbn [fst snd] in He, Hv.
    cbn [sent set_sent app] in He. rewrite He. split; [rewrite Hv; apply step_request|]. rewrite Hrec. unfold cells_of. by rewrite <- Hv.
  - unfold HandleWaitForPolicy, arr_set. cbn [pPendingComponentList pendingComponents set_sent]. rewrite (p_waiting _ Hs).
    rewrite (proj2 (andb_true_iff _ _)) by (split; [apply Z.leb_le|apply Z.ltb_lt]; lia).
    eexists _, _. split; [reflexivity|]. split; [|split; [apply step_wait|done]]. destruct Hs. split; try done. cbn. by rewrite length_insert.
  - destruct Ha as [-> [Hin|Hin]].
    + destruct (free_registered _ c Hs0 Hin) as (s' & -> & Hs' & Hsent & (k & Hk & Hdel) & Hact & Hrec). exists (sent s'), s'. split; [done|]. split; [done|].
      split.
      * rewrite Hsent. unfold view. rewrite Hact, Hdel. by apply step_free.
      * cbn. by rewrite bool_decide_eq_true_2.
    + rewrite (free_unregistered _ c Hs0 Hin). eexists _, _. split; [reflexivity|]. split; [done|].
      assert (Hc : c ∉ registered s) by (intros Hc; apply Hin; by apply list_elem_of_fmap_2). split; [by apply step_free_none|].
      cbn. by rewrite bool_decide_eq_false_2.
  - eexists _, _. split; [reflexivity|]. split; [done|]. split; [apply step_cancel|done].
  - destruct Ha as [-> Hroom]. destruct (resources_spec _ c Hs0 Hroom eq_refl) as (s' & -> & Hs' & Hst). by exists (sent s'), s'.
  - eexists _, _. split; [reflexivity|]. split; [done|]. split; [apply step_other|done].
Qed.

(** The manager once the table is read. *)
Definition with_table : manager :=
  mkManager 0 0 (pComponentList initial) (pPendingComponentList initial) (activeComponentList initial) T 0 N [].

Lemma with_table_ok : table_ok T N -> policy_ok with_table.
Proof.
  intros HT. split; try done; unfold registered; cbn.
  - unfold RM_MAXCOMPONENTS. lia.
  - constructor.
  - unfold OMX_POLICY_MAX_COMBINATIONS. lia.
Qed.

(** The clients that may run: a client runs once it is granted, until it is preempted or ends. *)
Definition hear (r : reply) (cs : list client) : list client :=
  match r with
  | PM_GRANTPOLICY c => c :: cs
  | PM_PREEMPTED c => List.filter (fun x => negb (bool_decide (x = c))) cs
  | PM_DENYPOLICY _ => cs
  end.
Definition running_after (cmd : command) (rs : list reply) (cs : list client) : list client :=
  fold_left (fun cs r => hear r cs) rs
    match cmd with PM_FreePolicy c _ => List.filter (fun x => negb (bool_decide (x = c))) cs | _ => cs end.

Definition turn (st st' : manager * list client) : Prop :=
  exists cmd rs, allowed cmd st.1 /\ serve cmd st.1 = Some (rs, st'.1) /\ st'.2 = running_after cmd rs st.2.

End Run.

(** * What runs together *)

Section Safe.
Context (idx : client -> Z) (T : list combination) (N : nat) (HT : table_ok T N).

Definition safe (st : list client * nat) (running : list client) : Prop :=
  (forall c, c ∈ running -> c ∈ st.1 /\ supported T (idx c) st.2 = true) /\ (st.1 <> [] -> (st.2 < N)%nat).

Lemma without_elem (c x : client) cs : x ∈ List.filter (fun y => negb (bool_decide (y = c))) cs <-> x ∈ cs /\ x <> c.
Proof.
  rewrite !list_elem_of_In, filter_In, negb_true_iff, bool_decide_eq_false. done.
Qed.

Lemma add_client_elem c x cs : x ∈ add_client c cs <-> x = c \/ x ∈ cs.
Proof.
  unfold add_client. destruct (bool_decide_reflect (c ∈ cs)) as [Hin|Hin].
  - split; [tauto|]. by intros [->|?].
  - rewrite elem_of_app, list_elem_of_singleton. tauto.
Qed.

Lemma preempted_elem cs running x : x ∈ fold_left (fun cs r => hear r cs) (map PM_PREEMPTED cs) running <-> x ∈ running /\ x ∉ cs.
Proof.
  revert running. induction cs as [|c cs IH]; intros running; simpl; [split; [intros ?; split; [done|apply not_elem_of_nil]|tauto]|].
  rewrite IH, without_elem, not_elem_of_cons. tauto.
Qed.

(** A grant in a combination that has the new component and those that run. *)
Lemma safe_grant c cs active n running :
  safe (cs, active) running -> supported T (idx c) n = true -> (n < N)%nat ->
  (forall x, x ∈ running -> supported T (idx x) n = true) ->
  safe (add_client c cs, n) (c :: running).
Proof.
  intros [Hr Ha] Hsup Hn Hall. split; simpl; [|done]. intros x [->|Hx]%elem_of_cons; rewrite add_client_elem; [tauto|].
  split; [right; by apply Hr|by apply Hall].
Qed.

Lemma safe_request c cs active running :
  safe (cs, active) running ->
  safe (spec_request idx T N c (cs, active)).2 (running_after PM_Other (spec_request idx T N c (cs, active)).1 running).
Proof.
  intros Hsafe. pose proof Hsafe as [Hr Ha]. unfold spec_request, decide_request.
  assert (Hempty : cs = [] -> running = []).
  { intros ->. destruct running as [|x running]; [done|]. destruct (Hr x) as [Hx _]; [apply list_elem_of_here|]. by apply not_elem_of_nil in Hx. }
  destruct (map idx cs) as [|i l] eqn:Ei.
  - assert (cs = []) as -> by (by destruct cs). rewrite Hempty in * by done.
    destruct (List.find _ (seq 0 N)) as [n|] eqn:Ef; [|done]. apply (in_combinations _ _ _ _ HT) in Ef as (Hsup & Hn & _).
    apply (safe_grant c [] active n []); [done..|]. by intros x ?%not_elem_of_nil.
  - assert (Hne : cs <> []) by (by intros ->). rewrite <- Ei. clear i l Ei Hempty.
    destruct (supported T (idx c) active) eqn:Hsup.
    { apply (safe_grant c cs active active running); [done..|by apply Ha|]. intros x Hx. by apply Hr. }
    destruct (List.find _ (seq 0 N)) as [n|] eqn:Ef.
    { apply (in_combinations _ _ _ _ HT) in Ef as ([Hs1 Hs2]%andb_true_iff & Hn & _).
      apply (safe_grant c cs active n running); [done..|]. intros x Hx. rewrite forallb_forall in Hs2. apply Hs2.
      apply List.in_map, list_elem_of_In. by apply Hr. }
    destruct (List.find _ (rev (seq 0 N))) as [n|] eqn:Eg; [|done]. destruct (n <? active)%nat; [|done].
    apply find_some in Eg as [Hin Hf]. apply in_rev, in_seq in Hin. unfold running_after. cbn [fst snd]. rewrite fold_left_app. cbn [fold_left hear].
    assert (Hnone : forall x, x ∉ fold_left (fun cs r => hear r cs) (map PM_PREEMPTED cs) running).
    { intros x [Hx Hc]%preempted_elem. by apply Hc, Hr. }
    split; simpl; [|intros _; lia]. intros x [->|Hx]%elem_of_cons; [|by destruct (Hnone x)]. rewrite add_client_elem. tauto.
Qed.

Lemma safe_step cells cmd st rs st' running :
  spec_step idx T N cells cmd st rs st' -> safe st running -> safe st' (running_after cmd rs running).
Proof.
  destruct 1 as [c [cs active]|c cs k active Hk|c cs active Hc|c v k cs active Hsup (Hv & _)|c cs active _|c st|c st|st]; intros Hsafe; try exact Hsafe.
  - by apply safe_request.
  - apply delete_Permutation in Hk as Hp. destruct Hsafe as [Hr Ha]. unfold running_after. cbn [fold_left]. split; cbn [fst snd] in *.
    + intros x [Hx Hne]%without_elem. destruct (Hr x Hx) as [Hin Hs]. rewrite Hp, elem_of_cons in Hin. tauto.
    + intros _. apply Ha. by intros ->.
  - destruct Hsafe as [Hr Ha]. split; [|done]. intros x [Hx Hne]%without_elem. by apply Hr.
  - destruct Hsafe as [Hr Ha]. cbn [fst snd] in *. unfold running_after. cbn [fold_left hear].
    assert (Hsafe : safe (cs, active) (List.filter (fun y => negb (bool_decide (y = v))) running)).
    { split; [|done]. intros x [Hx _]%without_elem. by apply Hr. }
    apply (safe_grant c cs active active); [done..| |].
    + apply Ha. by intros ->.
    + intros x [Hx _]%without_elem. by apply Hr.
Qed.

Lemma turns_safe st :
  rtc (turn idx) (with_table T N, []) st -> policy_ok idx T N st.1 /\ safe (view st.1) st.2.
Proof.
  assert (H0 : policy_ok idx T N (with_table T N) /\ safe (view (with_table T N)) []).
  { split; [by apply with_table_ok|]. split; [by intros x ?%not_elem_of_nil|done]. }
  intros Hr. change (with_table T N) with (with_table T N, @nil client).1 in H0 at 1 2. revert H0.
  change (safe (view (with_table T N, @nil client).1) []) with (safe (view (with_table T N, @nil client).1) (with_table T N, @nil client).2).
  induction Hr as [|st1 st2 st3 (cmd & rs & Hal & Hse & Hru) _ IH]; [done|]. intros [Hok Hsafe]. apply IH.
  destruct (serve_spec idx T N cmd st1.1 Hok Hal) as (rs' & s' & Hse' & Hok' & Hst & _). rewrite Hse in Hse'. injection Hse' as -> <-.
  split; [done|]. rewrite Hru. by eapply safe_step.
Qed.

End Safe.


(** C6: As long as only clients are freed that are registered, or of whose component none is, the clients that may run at any
    moment - granted, and neither preempted nor freed since - are of components that one combination of the table has together.
    The turns are those of [allowed]: a command names the component of its client, there is a cell for a client that is new
    or waits, and [may_free].  The last one matters: when a client that was denied frees its policy, the cell of another client of its
    component is lost (PolicyManager.c:431), and components run that no combination has together
    ([policy_lists_out_of_step]). *)
Theorem running_coexist idx T N s running :
  table_ok T N -> rtc (turn idx) (with_table T N, []) (s, running) ->
  running = [] \/ exists n, (n < N)%nat /\ forall c, c ∈ running -> supported T (idx c) n = true.
Proof.
  intros HT Hr. apply (turns_safe idx T N HT) in Hr as [_ [Hr Ha]]. destruct running as [|c running]; [by left|right].
  exists (activePolicyCombination s). split.
  - apply Ha. destruct (Hr c) as [Hin _]; [apply list_elem_of_here|]. cbn in *. intros E. rewrite E in Hin. by apply not_elem_of_nil in Hin.
  - intros x Hx. by apply Hr.
Qed.
