(* ===== verification/PolicyTable.v ===== *)
(** The policy table's file: how the policy manager reads it (PopulatePolicyTable), that it reads
    back whatever table is written in its format, and the table of the repository.  A result
    [None] is undefined behaviour: a null string compared, an access out of bounds, a number that
    does not fit. *)

From Stdlib Require Import ZArith Lia Ascii String.
From stdpp Require Import base list list_numbers option tactics strings.
From S2P Require Import Prelude PolicyManager PolicyRun.
Local Open Scope string_scope.
Local Open Scope list_scope.
Local Open Scope Z_scope.

(** * Strings of C *)

Definition chars := list_ascii_of_string.
Definition newline : ascii := "010".
Definition comma : ascii := ",".
Definition space : ascii := " ".
Definition nul : ascii := "000".
Definition is_one_of (ds : list ascii) (c : ascii) : bool := existsb (Ascii.eqb c) ds.

(** [strtok]: the next token and what is left of the string. *)
Fixpoint span_token (ds : list ascii) (s : list ascii) : list ascii * list ascii :=
  match s with
  | [] => ([], [])
  | c :: s => if is_one_of ds c then ([], s) else let '(t, r) := span_token ds s in (c :: t, r)
  end.
Fixpoint strtok (ds : list ascii) (s : list ascii) : option (list ascii * list ascii) :=
  match s with
  | [] => None
  | c :: s' => if is_one_of ds c then strtok ds s' else Some (span_token ds s)
  end.

(** The tokens that further calls give. *)
Definition emit (t : list ascii) : list (list ascii) := match t with [] => [] | _ => [t] end.
Fixpoint tokens_from (ds t s : list ascii) : list (list ascii) :=
  match s with
  | [] => emit t
  | c :: s => if is_one_of ds c then emit t ++ tokens_from ds [] s else tokens_from ds (t ++ [c]) s
  end.
Definition tokens (ds s : list ascii) : list (list ascii) := tokens_from ds [] s.

(** A string ends at its first null character. *)
Fixpoint until_nul (s : list ascii) : list ascii :=
  match s with [] => [] | c :: s => if Ascii.eqb c nul then [] else c :: until_nul s end.

(** [atoi]: spaces, a sign, digits. *)
Definition digit (c : ascii) : option Z :=
  let n := Z.of_N (N_of_ascii c) in if (48 <=? n) && (n <=? 57) then Some (n - 48) else None.
Fixpoint digits_value (s : list ascii) (n : Z) : Z :=
  match s with
  | [] => n
  | c :: s => match digit c with Some d => digits_value s (10 * n + d) | None => n end
  end.
Definition is_space (c : ascii) : bool := let n := Z.of_N (N_of_ascii c) in (n =? 32) || ((9 <=? n) && (n <=? 13)).
Fixpoint atoi_value (s : list ascii) : Z :=
  match s with
  | [] => 0
  | c :: s =>
      if is_space c then atoi_value s
      else if Ascii.eqb c "-" then - digits_value s 0
      else if Ascii.eqb c "+" then digits_value s 0
      else digits_value (c :: s) 0
  end.
Definition atoi (s : list ascii) : option Z :=
  let n := atoi_value s in guard* (- 2 ^ 31 <=? n) && (n <? 2 ^ 31) in Some n.

(** * The names of the components *)

Definition PM_MAXSTRINGLENGTH : nat := 2000.
Definition PM_NUM_COMPONENTS : nat := 47.
Definition component_names : list string := [
  "OMX_MP3_Decoder_COMPONENT"; "OMX_AAC_Decoder_COMPONENT"; "OMX_AAC_Encoder_COMPONENT";
  "OMX_ARMAAC_Encoder_COMPONENT"; "OMX_ARMAAC_Decoder_COMPONENT"; "OMX_PCM_Decoder_COMPONENT";
  "OMX_PCM_Encoder_COMPONENT"; "OMX_NBAMR_Decoder_COMPONENT"; "OMX_NBAMR_Encoder_COMPONENT";
  "OMX_WBAMR_Decoder_COMPONENT"; "OMX_WBAMR_Encoder_COMPONENT"; "OMX_WMA_Decoder_COMPONENT";
  "OMX_G711_Decoder_COMPONENT"; "OMX_G711_Encoder_COMPONENT"; "OMX_G722_Decoder_COMPONENT";
  "OMX_G722_Encoder_COMPONENT"; "OMX_G723_Decoder_COMPONENT"; "OMX_G723_Encoder_COMPONENT";
  "OMX_G726_Decoder_COMPONENT"; "OMX_G726_Encoder_COMPONENT"; "OMX_G729_Decoder_COMPONENT";
  "OMX_G729_Encoder_COMPONENT"; "OMX_GSMFR_Decoder_COMPONENT"; "OMX_GSMHR_Decoder_COMPONENT";
  "OMX_GSMFR_Encoder_COMPONENT"; "OMX_GSMHR_Encoder_COMPONENT"; "OMX_ILBC_Decoder_COMPONENT";
  "OMX_ILBC_Encoder_COMPONENT"; "OMX_IMAADPCM_Decoder_COMPONENT"; "OMX_IMAADPCM_Encoder_COMPONENT";
  "OMX_RAGECKO_Decoder_COMPONENT"; "OMX_MPEG4_Decode_COMPONENT"; "OMX_MPEG4_Encode_COMPONENT";
  "OMX_H263_Decode_COMPONENT"; "OMX_H263_Encode_COMPONENT"; "OMX_H264_Decode_COMPONENT";
  "OMX_H264_Encode_COMPONENT"; "OMX_WMV_Decode_COMPONENT"; "OMX_MPEG2_Decode_COMPONENT";
  "OMX_720P_Decode_COMPONENT"; "OMX_720P_Encode_COMPONENT"; "OMX_JPEG_Decoder_COMPONENT";
  "OMX_JPEG_Encoder_COMPONENT"; "OMX_VPP_COMPONENT"; "OMX_CAMERA_COMPONENT";
  "OMX_DISPLAY_COMPONENT"].
(** The array has a cell more than there are names: its last one is null. *)
Definition PM_ComponentTable : list (option string) :=
  map Some component_names ++ replicate (PM_NUM_COMPONENTS - length component_names) None.

Fixpoint string_to_index (s : list ascii) (names : list (option string)) (i : Z) : option Z :=
  match names with
  | [] => Some (-1)
  | n :: names =>
      let* n := n in
      if bool_decide (s = chars n) then Some i else string_to_index s names (i + 1)
  end.
Definition PolicyStringToIndex (s : list ascii) : option Z := string_to_index s PM_ComponentTable 0.

(** * Reading the file *)

(** The lines [fgets] gives: up to the end of a line or one character less than the buffer has. *)
Fixpoint lines_from (room : nat) (l s : list ascii) : list (list ascii) :=
  match s with
  | [] => emit l
  | c :: s =>
      if Ascii.eqb c newline || (room <=? 1)%nat
      then (l ++ [c]) :: lines_from (PM_MAXSTRINGLENGTH - 1) [] s
      else lines_from (room - 1) (l ++ [c]) s
  end.
Definition lines (s : list ascii) : list (list ascii) := lines_from (PM_MAXSTRINGLENGTH - 1) [] s.

Definition set_member (k : nat) (f : component_priority -> component_priority) (cb : combination) : option combination :=
  let* m := members cb !! k in
  Some (mkCombination (numComponentsInCombination cb) (bCombinationIsActive cb) (<[k := f m]> (members cb))).
Definition set_component (c : Z) (m : component_priority) : component_priority := mkPriority c (priority m).
Definition set_priority (p : Z) (m : component_priority) : component_priority := mkPriority (component m) (u8 p).
Definition set_number (n : nat) (cb : combination) : combination :=
  mkCombination n (bCombinationIsActive cb) (members cb).

(** How a line ends: the whole call returns, or its combination is complete, with [policyIndex] and
    [index]. *)
Inductive line_result := Stop (ret : Z) (cb : combination) | Complete (policyIndex index : nat) (cb : combination).

(** The tokens after the first two. *)
Fixpoint read_members (ts : list (list ascii)) (policyIndex index : nat) (cb : combination) : option line_result :=
  if (OMX_POLICY_MAX_COMBINATION_LENGTH <=? policyIndex)%nat then Some (Stop (-1) cb)
  else
    match ts with
    | [] => Some (Complete policyIndex index cb)
    | t :: ts =>
        if Nat.even index then
          let* c := PolicyStringToIndex t in
          let* cb := set_member policyIndex (set_component c) cb in
          read_members ts policyIndex (S index) cb
        else
          let* p := atoi t in
          let* cb := set_member policyIndex (set_priority p) cb in
          read_members ts (S policyIndex) (S index) cb
    end.

Definition read_line (line : list ascii) (index : nat) (cb : combination) : option line_result :=
  match strtok [comma] line with
  | None => Some (Stop 0 cb)
  | Some (t, line) =>
      let* c := PolicyStringToIndex t in
      let* cb := set_member 0 (set_component c) cb in
      match strtok [space; comma; newline] line with
      | None => Some (Stop 0 cb)
      | Some (t, line) =>
          let* p := atoi t in
          let* cb := set_member 0 (set_priority p) cb in
          read_members (tokens [space; comma; newline] line) 1 index cb
      end
  end.

(** The lines of the file: whether the call returns at once, with what, and the table. *)
Fixpoint read_lines (ls : list (list ascii)) (combinationIndex index : nat) (T : list combination)
    : option (option Z * nat * list combination) :=
  match ls with
  | [] => Some (None, combinationIndex, T)
  | l :: ls =>
      if (OMX_POLICY_MAX_COMBINATIONS <=? combinationIndex)%nat then Some (Some (-1), combinationIndex, T)
      else
        let* cb := T !! combinationIndex in
        let* r := read_line (until_nul l) index cb in
        match r with
        | Stop ret cb => Some (Some ret, combinationIndex, <[combinationIndex := cb]> T)
        | Complete n index cb =>
            read_lines ls (S combinationIndex) index (<[combinationIndex := set_number n cb]> T)
        end
  end.

Definition set_combinations (T : list combination) (n : nat) (s : manager) : manager :=
  mkManager (registeredComponents s) (pendingComponents s) (pComponentList s) (pPendingComponentList s)
    (activeComponentList s) T (activePolicyCombination s) n (sent s).

(** [file] is the content of the file, when the environment names one that can be opened. *)
Definition PopulatePolicyTable (file : option (list ascii)) (s : manager) : option (Z * manager) :=
  match file with
  | None => Some (-1, s)
  | Some file =>
      let* (r, n, T) := read_lines (lines file) 0 0 (replicate OMX_POLICY_MAX_COMBINATIONS zero_combination) in
      match r with
      | Some ret => Some (ret, set_combinations T (numCombinations s) s)
      | None =>
          if (n =? 0)%nat then Some (-1, set_combinations T (numCombinations s) s)
          else Some (0, set_combinations T n s)
      end
  end.

(** * Writing a table *)

(** A member: the index of its component and its priority. *)
Definition name_of (i : nat) : list ascii := chars (nth i component_names "").
Definition digit_char (d : Z) : ascii := ascii_of_N (Z.to_N (48 + d)).
Definition print_priority (p : Z) : list ascii :=
  (if p <? 100 then [] else [digit_char (p / 100)]) ++
  (if p <? 10 then [] else [digit_char (p / 10 mod 10)]) ++ [digit_char (p mod 10)].
Fixpoint print_rest (es : list (nat * Z)) : list ascii :=
  match es with
  | [] => [newline]
  | (i, p) :: es => comma :: name_of i ++ comma :: print_priority p ++ print_rest es
  end.
Definition print_combination (es : list (nat * Z)) : list ascii :=
  match es with [] => [newline] | (i, p) :: es => name_of i ++ comma :: print_priority p ++ print_rest es end.
Definition print_table (t : list (list (nat * Z))) : list ascii := concat (map print_combination t).

Definition member_fits (e : nat * Z) : Prop := (e.1 < length component_names)%nat /\ 0 <= e.2 < 256.
Definition combination_fits (es : list (nat * Z)) : Prop :=
  (0 < length es < OMX_POLICY_MAX_COMBINATION_LENGTH)%nat /\ Forall member_fits es.

(** * Words *)

(** Characters that are no delimiter, and words of them. *)
Definition separators : list ascii := [space; comma; newline].
Definition plain (c : ascii) : bool := negb (is_one_of (nul :: separators) c).
Definition word (w : list ascii) : Prop := w <> [] /\ forallb plain w = true.

Lemma name_word i : (i < length component_names)%nat ->
  word (name_of i) /\ (length (name_of i) <= 30)%nat /\ PolicyStringToIndex (name_of i) = Some (Z.of_nat i).
Proof.
  intros Hi.
  assert (H : forallb (fun i => negb (bool_decide (name_of i = [])) && forallb plain (name_of i) && (length (name_of i) <=? 30)%nat &&
    bool_decide (PolicyStringToIndex (name_of i) = Some (Z.of_nat i))) (seq 0 (length component_names)) = true) by (by vm_compute).
  rewrite forallb_forall in H. specialize (H i). rewrite in_seq, !andb_true_iff, negb_true_iff, bool_decide_eq_false, bool_decide_eq_true, Nat.leb_le in H.
  destruct H as [[[? ?] ?] ?]; [lia|]. done.
Qed.

Lemma priority_word p : 0 <= p < 256 ->
  word (print_priority p) /\ (length (print_priority p) <= 3)%nat /\ atoi (print_priority p) = Some p.
Proof.
  intros Hp.
  assert (H : forallb (fun p => negb (bool_decide (print_priority p = [])) && forallb plain (print_priority p) && (length (print_priority p) <=? 3)%nat &&
    bool_decide (atoi (print_priority p) = Some p)) (map Z.of_nat (seq 0 256)) = true) by (by vm_compute).
  rewrite forallb_forall in H. specialize (H p). rewrite !andb_true_iff, negb_true_iff, bool_decide_eq_false, bool_decide_eq_true, Nat.leb_le in H.
  destruct H as [[[? ?] ?] ?]; [|done]. apply List.in_map_iff. exists (Z.to_nat p). split; [lia|]. apply in_seq. lia.
Qed.

Lemma plain_in c ds : plain c = true -> (forall d, d ∈ ds -> d ∈ nul :: separators) -> is_one_of ds c = false.
Proof.
  unfold plain. rewrite negb_true_iff. intros Hc Hds. apply not_true_is_false. intros Hin. unfold is_one_of in Hin.
  apply existsb_exists in Hin as (d & Hd & Heq). apply list_elem_of_In, Hds, list_elem_of_In in Hd.
  apply not_true_iff_false in Hc. apply Hc. apply existsb_exists. by exists d.
Qed.

Section Words.
Context (ds : list ascii) (Hds : forall d, d ∈ ds -> d ∈ nul :: separators).

Lemma span_word w d s : forallb plain w = true -> is_one_of ds d = true -> span_token ds (w ++ d :: s) = (w, s).
Proof.
  intros Hw Hd. induction w as [|c w IH]; simpl in *; [by rewrite Hd|].
  apply andb_true_iff in Hw as [Hc Hw]. by rewrite (plain_in c ds Hc Hds), IH.
Qed.

Lemma strtok_word w d s : word w -> is_one_of ds d = true -> strtok ds (w ++ d :: s) = Some (w, s).
Proof.
  intros [Hne Hw] Hd. destruct w as [|c w]; [done|]. pose proof (span_word (c :: w) d s Hw Hd) as Hs.
  simpl in *. apply andb_true_iff in Hw as [Hc _]. rewrite (plain_in c ds Hc Hds) in *. by rewrite Hs.
Qed.

Lemma tokens_from_word t w d s :
  forallb plain w = true -> is_one_of ds d = true -> tokens_from ds t (w ++ d :: s) = emit (t ++ w) ++ tokens ds s.
Proof.
  intros Hw Hd. revert t. induction w as [|c w IH]; intros t; simpl in *; [by rewrite Hd, app_nil_r|].
  apply andb_true_iff in Hw as [Hc Hw]. rewrite (plain_in c ds Hc Hds), IH by done. by rewrite <- app_assoc.
Qed.

Lemma tokens_word w d s : word w -> is_one_of ds d = true -> tokens ds (w ++ d :: s) = w :: tokens ds s.
Proof.
  intros [Hne Hw] Hd. unfold tokens at 1. rewrite tokens_from_word by done. simpl. by destruct w.
Qed.

Lemma tokens_delimiter d s : is_one_of ds d = true -> tokens ds (d :: s) = tokens ds s.
Proof. intros Hd. unfold tokens. simpl. by rewrite Hd. Qed.

End Words.

(** The list of tokens is what one call of [strtok] after the other gives. *)
Lemma tokens_strtok ds s :
  tokens ds s = match strtok ds s with Some (t, r) => t :: tokens ds r | None => [] end.
Proof.
  assert (Hf : forall s t, t <> [] -> tokens_from ds t s = let '(w, r) := span_token ds s in (t ++ w) :: tokens ds r).
  { clear s. intros s. induction s as [|c s IH]; intros t Ht; simpl; [rewrite app_nil_r; by destruct t|].
    destruct (is_one_of ds c); [rewrite app_nil_r; by destruct t|]. rewrite IH by (by destruct t).
    destruct (span_token ds s) as [w r]. by rewrite <- app_assoc. }
  induction s as [|c s IH]; [done|]. simpl. unfold tokens at 1. simpl. destruct (is_one_of ds c) eqn:E; [exact IH|].
  rewrite Hf by done. by destruct (span_token ds s).
Qed.

Lemma separators_sub d : d ∈ separators -> d ∈ nul :: separators.
Proof. apply list_elem_of_further. Qed.
Lemma comma_sub d : d ∈ [comma] -> d ∈ nul :: separators.
Proof. intros ->%list_elem_of_singleton. apply (bool_decide_unpack _). by vm_compute. Qed.

Lemma rest_starts es : exists d s, print_rest es = d :: s /\ is_one_of separators d = true.
Proof. destruct es as [|[i p] es]; simpl; by eexists _, _. Qed.

Lemma tokens_rest es :
  Forall member_fits es ->
  tokens separators (print_rest es) = concat (map (fun e => [name_of e.1; print_priority e.2]) es).
Proof.
  induction 1 as [|[i p] es [Hi Hp] _ IH]; [done|]. cbn [print_rest map concat fst snd] in *.
  destruct (name_word i Hi) as (Hn & _). destruct (priority_word p Hp) as (Hw & _).
  rewrite tokens_delimiter, (tokens_word separators separators_sub) by done.
  destruct (rest_starts es) as (d & s & Hr & Hd). rewrite Hr in *. rewrite (tokens_word separators separators_sub) by done.
  rewrite tokens_delimiter in IH by done. by rewrite IH.
Qed.

(** * Reading back *)

Definition member_of_pair (e : nat * Z) : component_priority := mkPriority (Z.of_nat e.1) e.2.
Definition listed (cb : combination) : list component_priority := take (numComponentsInCombination cb) (members cb).

(** What every combination of the table keeps to. *)
Definition combination_ok (cb : combination) : Prop :=
  length (members cb) = OMX_POLICY_MAX_COMBINATION_LENGTH /\
  (numComponentsInCombination cb <= OMX_POLICY_MAX_COMBINATION_LENGTH)%nat /\
  Forall (fun m => 0 <= component m < 256 /\ 0 <= priority m < 256) (members cb).

Lemma read_member k cb e :
  combination_ok cb -> (k < OMX_POLICY_MAX_COMBINATION_LENGTH)%nat -> member_fits e ->
  exists cb1 cb2, set_member k (set_component (Z.of_nat e.1)) cb = Some cb1 /\ set_member k (set_priority e.2) cb1 = Some cb2 /\
    combination_ok cb2 /\ take (S k) (members cb2) = take k (members cb) ++ [member_of_pair e].
Proof.
  intros (Hl & Hn & Hf) Hk [Hi Hp]. unfold set_member. destruct (lookup_lt_is_Some_2 (members cb) k) as [m Hm]; [lia|]. rewrite Hm.
  eexists _, _. split; [reflexivity|]. cbn [members]. rewrite list_lookup_insert_eq by lia. split; [reflexivity|]. cbn [members].
  unfold set_priority. rewrite uwrap_small by lia. cbn [component set_component]. rewrite list_insert_insert_eq.
  split.
  - split_and!; cbn; [by rewrite length_insert|done|]. apply Forall_insert; [done|]. cbn.
    pose proof (name_word _ Hi) as _. change (length component_names) with 46%nat in Hi. lia.
  - rewrite (take_S_r _ _ (member_of_pair e)) by (apply list_lookup_insert_eq; lia). by rewrite take_insert_ge.
Qed.

Lemma read_members_spec es : forall k index cb,
  Forall member_fits es -> combination_ok cb -> Nat.even index = true ->
  (k + length es < OMX_POLICY_MAX_COMBINATION_LENGTH)%nat ->
  exists index' cb',
    read_members (concat (map (fun e => [name_of e.1; print_priority e.2]) es)) k index cb = Some (Complete (k + length es) index' cb') /\
    Nat.even index' = true /\ combination_ok cb' /\
    take (k + length es) (members cb') = take k (members cb) ++ map member_of_pair es.
Proof.
  induction es as [|e es IH]; intros k index cb Hf Hcb Hi Hk; cbn [length] in *.
  { exists index, cb. cbn [map concat read_members]. rewrite (proj2 (Nat.leb_gt _ _)) by lia.
    rewrite Nat.add_0_r, app_nil_r. done. }
  apply list.Forall_cons in Hf as [He Hf]. destruct (name_word e.1) as (_ & _ & Hn); [apply He|].
  destruct (priority_word e.2) as (_ & _ & Hp); [apply He|].
  destruct (read_member k cb e Hcb) as (cb1 & cb2 & H1 & H2 & Hcb2 & Ht); [lia|done|].
  cbn [map concat app read_members]. rewrite (proj2 (Nat.leb_gt _ _)), Hi, Hn, H1 by lia.
  rewrite Nat.even_succ, <- Nat.negb_even, Hi. cbn [negb]. rewrite Hp, H2.
  destruct (IH (S k) (S (S index)) cb2) as (index' & cb' & -> & Hi' & Hcb' & Ht'); [done..|lia|].
  exists index', cb'. rewrite <- Nat.add_succ_comm. split_and!; [done..|].
  rewrite Ht', Ht. by rewrite <- app_assoc.
Qed.

Lemma read_line_spec es index cb :
  combination_fits es -> combination_ok cb -> Nat.even index = true ->
  exists index' cb',
    read_line (print_combination es) index cb = Some (Complete (length es) index' cb') /\
    Nat.even index' = true /\ combination_ok cb' /\ take (length es) (members cb') = map member_of_pair es.
Proof.
  intros [Hl Hf] Hcb Hi. destruct es as [|e es]; simpl in Hl; [lia|]. apply list.Forall_cons in Hf as [He Hf].
  destruct e as [i p]. unfold read_line. cbn [print_combination].
  destruct (name_word i) as (Hw & _ & Hn); [apply He|]. destruct (priority_word p) as (Hw' & _ & Hp); [apply He|].
  rewrite (strtok_word [comma] comma_sub), Hn by done.
  destruct (read_member 0 cb (i, p) Hcb) as (cb1 & cb2 & H1 & H2 & Hcb2 & Ht); [unfold OMX_POLICY_MAX_COMBINATION_LENGTH; lia|done|].
  cbn [fst snd] in H1, H2. rewrite H1. pose proof (tokens_rest es Hf) as Hr. destruct (rest_starts es) as (d & s & Hs & Hd). rewrite Hs in *.
  change [space; comma; newline] with separators. rewrite (strtok_word separators separators_sub), Hp, H2 by done.
  rewrite tokens_delimiter in Hr by done. rewrite Hr.
  destruct (read_members_spec es 1 index cb2 Hf Hcb2 Hi) as (index' & cb' & -> & Hi' & Hcb' & Ht'); [lia|].
  exists index', cb'. split_and!; [done..|]. cbn [length]. change (S (length es)) with (1 + length es)%nat. rewrite Ht', Ht. done.
Qed.

(** ** Lines *)

Lemma lines_from_line room acc l s :
  forallb (fun c => negb (Ascii.eqb c newline)) l = true -> (length l < room)%nat ->
  lines_from room acc (l ++ newline :: s) = (acc ++ l ++ [newline]) :: lines s.
Proof.
  revert room acc. induction l as [|c l IH]; intros room acc Hl Hr; cbn [lines_from app length] in *.
  { by rewrite Ascii.eqb_refl. }
  cbn [forallb] in Hl. apply andb_true_iff in Hl as [Hc Hl]. apply negb_true_iff in Hc. rewrite Hc.
  rewrite (proj2 (Nat.leb_gt _ _)) by lia. cbn [orb]. rewrite IH by (done || lia). by rewrite <- app_assoc.
Qed.

(** The characters of a line before its end. *)
Definition inner (c : ascii) : bool := negb (Ascii.eqb c nul) && negb (Ascii.eqb c newline).

Lemma plain_inner w : forallb plain w = true -> forallb inner w = true.
Proof.
  rewrite !forallb_forall. intros Hw c Hc. apply Hw in Hc. unfold plain, inner, is_one_of in *. cbn [existsb separators] in Hc.
  rewrite !negb_orb in Hc. rewrite !andb_true_iff in *. tauto.
Qed.

Lemma rest_shape es :
  Forall member_fits es ->
  exists l, print_rest es = l ++ [newline] /\ forallb inner l = true /\ (length l <= 35 * length es)%nat.
Proof.
  induction 1 as [|[i p] es [Hi Hp] _ (l & Hr & Hl & Hlen)]; [by exists []|].
  destruct (name_word i Hi) as ([_ Hn] & Hnl & _). destruct (priority_word p Hp) as ([_ Hq] & Hpl & _).
  exists (comma :: name_of i ++ comma :: print_priority p ++ l). cbn [print_rest]. rewrite Hr. split_and!.
  - by rewrite <- app_comm_cons, <- app_assoc, <- app_comm_cons, <- app_assoc.
  - cbn [forallb]. rewrite forallb_app. cbn [forallb]. rewrite forallb_app, Hl, !plain_inner by done. done.
  - cbn [length]. rewrite length_app. cbn [length]. rewrite length_app. lia.
Qed.

Lemma line_shape es :
  combination_fits es ->
  exists l, print_combination es = l ++ [newline] /\ forallb inner l = true /\ (length l < PM_MAXSTRINGLENGTH - 1)%nat.
Proof.
  intros [Hl Hf]. destruct es as [|[i p] es]; simpl in Hl; [lia|]. apply list.Forall_cons in Hf as [[Hi Hp] Hf].
  destruct (rest_shape es Hf) as (l & Hr & Hin & Hlen). cbn [print_combination]. rewrite Hr.
  destruct (name_word i Hi) as ([_ Hn] & Hnl & _). destruct (priority_word p Hp) as ([_ Hq] & Hpl & _).
  exists (name_of i ++ comma :: print_priority p ++ l). split_and!.
  - by rewrite <- app_assoc, <- app_comm_cons, <- app_assoc.
  - rewrite forallb_app. cbn [forallb]. rewrite forallb_app, Hin, !plain_inner by done. done.
  - rewrite length_app. cbn [length]. rewrite length_app. unfold OMX_POLICY_MAX_COMBINATION_LENGTH, PM_MAXSTRINGLENGTH in *. lia.
Qed.

Lemma until_nul_line l : forallb inner l = true -> until_nul (l ++ [newline]) = l ++ [newline].
Proof.
  induction l as [|c l IH]; [done|]. cbn [forallb until_nul app]. intros [Hc Hl]%andb_true_iff.
  unfold inner in Hc. apply andb_true_iff in Hc as [Hc _]. apply negb_true_iff in Hc. by rewrite Hc, IH.
Qed.

Lemma lines_table t : Forall combination_fits t -> lines (print_table t) = map print_combination t.
Proof.
  unfold print_table. induction 1 as [|es t He _ IH]; [done|]. cbn [map concat].
  destruct (line_shape es He) as (l & Hp & Hin & Hlen). rewrite Hp, <- app_assoc. cbn [app].
  unfold lines at 1. rewrite lines_from_line; [by rewrite IH| |done].
  rewrite forallb_forall in *. intros c Hc. apply Hin in Hc. by apply andb_true_iff in Hc as [_ ?].
Qed.

Lemma read_lines_spec t : forall k index T,
  Forall combination_fits t -> (k + length t <= length T)%nat -> length T = OMX_POLICY_MAX_COMBINATIONS ->
  Forall combination_ok T -> Nat.even index = true ->
  exists T', read_lines (map print_combination t) k index T = Some (None, (k + length t)%nat, T') /\
    length T' = length T /\ Forall combination_ok T' /\
    map listed (take (k + length t) T') = map listed (take k T) ++ map (map member_of_pair) t.
Proof.
  induction t as [|es t IH]; intros k index T Hf Hk Hl HT Hi.
  { exists T. cbn. rewrite Nat.add_0_r, app_nil_r. done. }
  apply list.Forall_cons in Hf as [He Hf]. cbn [length map read_lines] in *. rewrite (proj2 (Nat.leb_gt _ _)) by lia.
  destruct (lookup_lt_is_Some_2 T k) as [cb Hcb]; [lia|]. rewrite Hcb.
  destruct (line_shape es He) as (l & Hp & Hin & _). 
  assert (Hu : until_nul (print_combination es) = print_combination es) by (rewrite Hp; by apply until_nul_line). rewrite Hu.
  assert (Hok : combination_ok cb) by (by eapply Forall_lookup_1).
  destruct (read_line_spec es index cb He Hok Hi) as (index' & cb' & -> & Hi' & Hok' & Ht).
  destruct (IH (S k) index' (<[k := set_number (length es) cb']> T)) as (T' & Hr & Hl' & HT' & Hm); [done|rewrite length_insert; lia|by rewrite length_insert| |done|].
  { apply Forall_insert; [done|]. destruct Hok' as (H1 & H2 & H3). split_and!; [done| |done]. cbn. destruct He. lia. }
  rewrite Hr. exists T'. rewrite <- Nat.add_succ_comm, Hl', length_insert. split_and!; [done..|].
  rewrite Hm, (take_S_r _ _ (set_number (length es) cb')) by (apply list_lookup_insert_eq; lia).
  rewrite take_insert_ge, map_app, <- app_assoc by done. cbn [map app]. unfold listed at 2. cbn. by rewrite Ht.
Qed.

(** C32: The policy manager reads back any table written in the format of its file: up to 111 lines, one
    for each combination, of up to 49 names of components with their priorities; the call
    succeeds, the combinations read are those written, in their order, and the table is one
    the server can run on. *)
Theorem policy_table_reads_back t s :
  (0 < length t <= OMX_POLICY_MAX_COMBINATIONS)%nat -> Forall combination_fits t ->
  exists T, PopulatePolicyTable (Some (print_table t)) s = Some (0, set_combinations T (length t) s) /\
    map listed (take (length t) T) = map (map member_of_pair) t /\
    ((forall c, times c (concat (map (map (fun e => Z.of_nat e.1)) t)) <= OMX_POLICY_MAX_COMBINATIONS)%nat -> table_ok T (length t)).
Proof.
  intros Hl Hf. unfold PopulatePolicyTable. rewrite lines_table by done.
  destruct (read_lines_spec t 0 0 (replicate OMX_POLICY_MAX_COMBINATIONS zero_combination)) as (T & Hr & Hlen & HT & Hm).
  { done. }
  { rewrite length_replicate. lia. }
  { by rewrite length_replicate. }
  { apply Forall_replicate. split; [done|]. split; [cbn; lia|]. apply Forall_replicate. cbn. lia. }
  { done. }
  rewrite Hr. rewrite take_0 in Hm. cbn [Nat.add map app] in *. rewrite (proj2 (Nat.eqb_neq _ _)) by lia. exists T. split; [done|]. split; [exact Hm|].
  intros Hroom. split; [by rewrite Hlen, length_replicate|lia| |].
  - intros n cb Hcb. rewrite Forall_lookup in HT. destruct (HT n cb Hcb) as (H1 & H2 & H3). split; [lia|done].
  - intros c. change (times c (concat (map comps (take (length t) T))) <= OMX_POLICY_MAX_COMBINATIONS)%nat.
    replace (map comps (take (length t) T)) with (map (map (fun e : nat * Z => Z.of_nat e.1)) t); [apply Hroom|].
    transitivity (map (map component) (map listed (take (length t) T))); [|by rewrite List.map_map].
    rewrite Hm, List.map_map. apply List.map_ext. intros es. by rewrite List.map_map.
Qed.
