(* ===== verification/PolicySamples.v ===== *)
(** The policy table of the repository (src/omx/system/src/openmax_il/omx_policy_manager/src/policytable.tbl)
    as the policy manager reads it, and runs of the manager on small tables. *)

From Stdlib Require Import ZArith Lia String.
From stdpp Require Import base list list_numbers option tactics relations.
From S2P Require Import Prelude PolicyManager PolicyRun PolicyTable.
Local Open Scope string_scope.
Local Open Scope list_scope.
Local Open Scope Z_scope.

(** The file. *)
Definition policytable : string :=
"OMX_720P_Decode_COMPONENT,6
OMX_720P_Encode_COMPONENT,6
OMX_720P_Decode_COMPONENT,6,OMX_720P_Encode_COMPONENT,6,OMX_JPEG_Decoder_COMPONENT,6,OMX_JPEG_Encoder_COMPONENT,6
OMX_MPEG4_Encode_COMPONENT,5
OMX_720P_Decode_COMPONENT,6,OMX_DISPLAY_COMPONENT,6
OMX_MP3_Decoder_COMPONENT,5,OMX_AAC_Decoder_COMPONENT,5,OMX_AAC_Encoder_COMPONENT,5,OMX_PCM_Decoder_COMPONENT,5,OMX_PCM_Encoder_COMPONENT,5,OMX_NBAMR_Decoder_COMPONENT,5,OMX_NBAMR_Encoder_COMPONENT,5,OMX_WBAMR_Decoder_COMPONENT,5,OMX_WBAMR_Encoder_COMPONENT,5,OMX_WMA_Decoder_COMPONENT,5,OMX_G711_Decoder_COMPONENT,5,OMX_G711_Encoder_COMPONENT,5,OMX_G722_Decoder_COMPONENT,5,OMX_G722_Encoder_COMPONENT,5,OMX_G723_Decoder_COMPONENT,5,OMX_G723_Encoder_COMPONENT,5,OMX_G726_Decoder_COMPONENT,5,OMX_G726_Encoder_COMPONENT,5,OMX_G729_Decoder_COMPONENT,5,OMX_G729_Encoder_COMPONENT,5,OMX_GSMFR_Decoder_COMPONENT,5,OMX_GSMHR_Decoder_COMPONENT,5,OMX_GSMFR_Encoder_COMPONENT,5,OMX_GSMHR_Encoder_COMPONENT,5,OMX_ILBC_Decoder_COMPONENT,5,OMX_ILBC_Encoder_COMPONENT,5,OMX_MPEG4_Decode_COMPONENT,5,OMX_MPEG4_Encode_COMPONENT,5,OMX_H263_Decode_COMPONENT,5,OMX_H263_Encode_COMPONENT,5,OMX_H264_Decode_COMPONENT,5,OMX_H264_Encode_COMPONENT,5,OMX_WMV_Decode_COMPONENT,5,OMX_MPEG2_Decode_COMPONENT,5,OMX_JPEG_Decoder_COMPONENT,5,OMX_JPEG_Encoder_COMPONENT,5,OMX_VPP_COMPONENT,5,OMX_CAMERA_COMPONENT,5,OMX_DISPLAY_COMPONENT,5,OMX_IMAADPCM_Decoder_COMPONENT,5,OMX_IMAADPCM_Encoder_COMPONENT,5
OMX_CAMERA_COMPONENT,5,OMX_DISPLAY_COMPONENT,5
OMX_CAMERA_COMPONENT,5,OMX_DISPLAY_COMPONENT,5,OMX_JPEG_Encoder_COMPONENT,5
OMX_CAMERA_COMPONENT,5,OMX_DISPLAY_COMPONENT,5,OMX_H264_Encode_COMPONENT,5
OMX_CAMERA_COMPONENT,5,OMX_DISPLAY_COMPONENT,5,OMX_H264_Encode_COMPONENT,5,OMX_VPP_COMPONENT,5
OMX_CAMERA_COMPONENT,5,OMX_DISPLAY_COMPONENT,5,OMX_H264_Encode_COMPONENT,5,OMX_NBAMR_Encoder_COMPONENT,5
OMX_CAMERA_COMPONENT,5,OMX_DISPLAY_COMPONENT,5,OMX_H264_Encode_COMPONENT,5,OMX_WBAMR_Encoder_COMPONENT,5
OMX_CAMERA_COMPONENT,5,OMX_DISPLAY_COMPONENT,5,OMX_H264_Encode_COMPONENT,5,OMX_AAC_Encoder_COMPONENT,5
OMX_CAMERA_COMPONENT,5,OMX_DISPLAY_COMPONENT,5,OMX_H264_Encode_COMPONENT,5,OMX_ARMAAC_Encoder_COMPONENT,5
OMX_CAMERA_COMPONENT,5,OMX_DISPLAY_COMPONENT,5,OMX_H263_Encode_COMPONENT,5
OMX_CAMERA_COMPONENT,5,OMX_DISPLAY_COMPONENT,5,OMX_H263_Encode_COMPONENT,5,OMX_VPP_COMPONENT,5
OMX_CAMERA_COMPONENT,5,OMX_DISPLAY_COMPONENT,5,OMX_H263_Encode_COMPONENT,5,OMX_NBAMR_Encoder_COMPONENT,5
OMX_CAMERA_COMPONENT,5,OMX_DISPLAY_COMPONENT,5,OMX_H263_Encode_COMPONENT,5,OMX_WBAMR_Encoder_COMPONENT,5
OMX_CAMERA_COMPONENT,5,OMX_DISPLAY_COMPONENT,5,OMX_H263_Encode_COMPONENT,5,OMX_AAC_Encoder_COMPONENT,5
OMX_CAMERA_COMPONENT,5,OMX_DISPLAY_COMPONENT,5,OMX_H263_Encode_COMPONENT,5,OMX_ARMAAC_Encoder_COMPONENT,5
OMX_CAMERA_COMPONENT,5,OMX_DISPLAY_COMPONENT,5,OMX_MPEG4_Encode_COMPONENT,5
OMX_CAMERA_COMPONENT,5,OMX_DISPLAY_COMPONENT,5,OMX_MPEG4_Encode_COMPONENT,5,OMX_VPP_COMPONENT,5
OMX_CAMERA_COMPONENT,5,OMX_DISPLAY_COMPONENT,5,OMX_MPEG4_Encode_COMPONENT,5,OMX_NBAMR_Encoder_COMPONENT,5
OMX_CAMERA_COMPONENT,5,OMX_DISPLAY_COMPONENT,5,OMX_MPEG4_Encode_COMPONENT,5,OMX_WBAMR_Encoder_COMPONENT,5
OMX_CAMERA_COMPONENT,5,OMX_DISPLAY_COMPONENT,5,OMX_MPEG4_Encode_COMPONENT,5,OMX_AAC_Encoder_COMPONENT,5
OMX_CAMERA_COMPONENT,5,OMX_DISPLAY_COMPONENT,5,OMX_MPEG4_Encode_COMPONENT,5,OMX_ARMAAC_Encoder_COMPONENT,5
OMX_CAMERA_COMPONENT,5,OMX_DISPLAY_COMPONENT,5,OMX_JPEG_Encoder_COMPONENT,5,OMX_VPP_COMPONENT,5,OMX_DISPLAY_COMPONENT,5
OMX_JPEG_Decoder_COMPONENT,5,OMX_DISPLAY_COMPONENT,5,OMX_JPEG_Encoder_COMPONENT,5,OMX_VPP_COMPONENT,5,OMX_H263_Decode_COMPONENT,5,OMX_H264_Decode_COMPONENT,5,OMX_MPEG2_Decode_COMPONENT,5
OMX_JPEG_Decoder_COMPONENT,5,OMX_DISPLAY_COMPONENT,5,OMX_VPP_COMPONENT,5
OMX_MPEG4_Decode_COMPONENT,5,OMX_DISPLAY_COMPONENT,5
OMX_MPEG4_Decode_COMPONENT,5,OMX_DISPLAY_COMPONENT,5,OMX_VPP_COMPONENT,5
OMX_MPEG4_Decode_COMPONENT,5,OMX_DISPLAY_COMPONENT,5,OMX_AAC_Decoder_COMPONENT,5
OMX_MPEG4_Decode_COMPONENT,5,OMX_DISPLAY_COMPONENT,5,OMX_ARMAAC_Decoder_COMPONENT,5
OMX_MPEG4_Decode_COMPONENT,5,OMX_DISPLAY_COMPONENT,5,OMX_NBAMR_Decoder_COMPONENT,5
OMX_MPEG4_Decode_COMPONENT,5,OMX_DISPLAY_COMPONENT,5,OMX_WBAMR_Decoder_COMPONENT,5
OMX_MPEG4_Decode_COMPONENT,5,OMX_DISPLAY_COMPONENT,5,OMX_AAC_Decoder_COMPONENT,5,OMX_CAMERA_COMPONENT,5,OMX_DISPLAY_COMPONENT,5,OMX_MPEG4_Encode_COMPONENT,5,OMX_AAC_Encoder_COMPONENT,5
OMX_MPEG4_Decode_COMPONENT,5,OMX_DISPLAY_COMPONENT,5,OMX_ARMAAC_Decoder_COMPONENT,5,OMX_CAMERA_COMPONENT,5,OMX_DISPLAY_COMPONENT,5,OMX_MPEG4_Encode_COMPONENT,5,OMX_AAC_Encoder_COMPONENT,5
OMX_MPEG4_Decode_COMPONENT,5,OMX_DISPLAY_COMPONENT,5,OMX_NBAMR_Decoder_COMPONENT,5,OMX_CAMERA_COMPONENT,5,OMX_DISPLAY_COMPONENT,5,OMX_MPEG4_Encode_COMPONENT,5,OMX_NBAMR_Encoder_COMPONENT,5
OMX_MPEG4_Decode_COMPONENT,5,OMX_DISPLAY_COMPONENT,5,OMX_WBAMR_Decoder_COMPONENT,5,OMX_CAMERA_COMPONENT,5,OMX_DISPLAY_COMPONENT,5,OMX_MPEG4_Encode_COMPONENT,5,OMX_WBAMR_Encoder_COMPONENT,5
OMX_H263_Decode_COMPONENT,5,OMX_DISPLAY_COMPONENT,5
OMX_H263_Decode_COMPONENT,5,OMX_DISPLAY_COMPONENT,5,OMX_VPP_COMPONENT,5
OMX_H263_Decode_COMPONENT,5,OMX_DISPLAY_COMPONENT,5,OMX_AAC_Decoder_COMPONENT,5
OMX_H263_Decode_COMPONENT,5,OMX_DISPLAY_COMPONENT,5,OMX_ARMAAC_Decoder_COMPONENT,5
OMX_H263_Decode_COMPONENT,5,OMX_DISPLAY_COMPONENT,5,OMX_NBAMR_Decoder_COMPONENT,5
OMX_H263_Decode_COMPONENT,5,OMX_DISPLAY_COMPONENT,5,OMX_WBAMR_Decoder_COMPONENT,5
OMX_H263_Decode_COMPONENT,5,OMX_DISPLAY_COMPONENT,5,OMX_AAC_Decoder_COMPONENT,5,OMX_CAMERA_COMPONENT,5,OMX_DISPLAY_COMPONENT,5,OMX_MPEG4_Encode_COMPONENT,5,OMX_AAC_Encoder_COMPONENT,5
OMX_H263_Decode_COMPONENT,5,OMX_DISPLAY_COMPONENT,5,OMX_ARMAAC_Decoder_COMPONENT,5,OMX_CAMERA_COMPONENT,5,OMX_DISPLAY_COMPONENT,5,OMX_MPEG4_Encode_COMPONENT,5,OMX_AAC_Encoder_COMPONENT,5
OMX_H263_Decode_COMPONENT,5,OMX_DISPLAY_COMPONENT,5,OMX_NBAMR_Decoder_COMPONENT,5,OMX_CAMERA_COMPONENT,5,OMX_DISPLAY_COMPONENT,5,OMX_MPEG4_Encode_COMPONENT,5,OMX_NBAMR_Encoder_COMPONENT,5
OMX_H263_Decode_COMPONENT,5,OMX_DISPLAY_COMPONENT,5,OMX_WBAMR_Decoder_COMPONENT,5,OMX_CAMERA_COMPONENT,5,OMX_DISPLAY_COMPONENT,5,OMX_MPEG4_Encode_COMPONENT,5,OMX_WBAMR_Encoder_COMPONENT,5
OMX_H264_Decode_COMPONENT,5,OMX_DISPLAY_COMPONENT,5
OMX_H264_Decode_COMPONENT,5,OMX_DISPLAY_COMPONENT,5,OMX_VPP_COMPONENT,5
OMX_H264_Decode_COMPONENT,5,OMX_DISPLAY_COMPONENT,5,OMX_AAC_Decoder_COMPONENT,5
OMX_H264_Decode_COMPONENT,5,OMX_DISPLAY_COMPONENT,5,OMX_ARMAAC_Decoder_COMPONENT,5
OMX_H264_Decode_COMPONENT,5,OMX_DISPLAY_COMPONENT,5,OMX_NBAMR_Decoder_COMPONENT,5
OMX_H264_Decode_COMPONENT,5,OMX_DISPLAY_COMPONENT,5,OMX_WBAMR_Decoder_COMPONENT,5
OMX_H264_Decode_COMPONENT,5,OMX_DISPLAY_COMPONENT,5,OMX_AAC_Decoder_COMPONENT,5,OMX_CAMERA_COMPONENT,5,OMX_DISPLAY_COMPONENT,5,OMX_MPEG4_Encode_COMPONENT,5,OMX_AAC_Encoder_COMPONENT,5
OMX_H264_Decode_COMPONENT,5,OMX_DISPLAY_COMPONENT,5,OMX_ARMAAC_Decoder_COMPONENT,5,OMX_CAMERA_COMPONENT,5,OMX_DISPLAY_COMPONENT,5,OMX_MPEG4_Encode_COMPONENT,5,OMX_AAC_Encoder_COMPONENT,5
OMX_H264_Decode_COMPONENT,5,OMX_DISPLAY_COMPONENT,5,OMX_NBAMR_Decoder_COMPONENT,5,OMX_CAMERA_COMPONENT,5,OMX_DISPLAY_COMPONENT,5,OMX_MPEG4_Encode_COMPONENT,5,OMX_NBAMR_Encoder_COMPONENT,5
OMX_H264_Decode_COMPONENT,5,OMX_DISPLAY_COMPONENT,5,OMX_WBAMR_Decoder_COMPONENT,5,OMX_CAMERA_COMPONENT,5,OMX_DISPLAY_COMPONENT,5,OMX_MPEG4_Encode_COMPONENT,5,OMX_WBAMR_Encoder_COMPONENT,5
OMX_WMV_Decode_COMPONENT,5,OMX_DISPLAY_COMPONENT,5
OMX_WMV_Decode_COMPONENT,5,OMX_DISPLAY_COMPONENT,5,OMX_VPP_COMPONENT,5
OMX_WMV_Decode_COMPONENT,5,OMX_DISPLAY_COMPONENT,5,OMX_WMA_Decoder_COMPONENT,5
OMX_MPEG2_Decode_COMPONENT,5,OMX_DISPLAY_COMPONENT,5
OMX_MPEG2_Decode_COMPONENT,5,OMX_DISPLAY_COMPONENT,5,OMX_VPP_COMPONENT,5
OMX_MPEG2_Decode_COMPONENT,5,OMX_DISPLAY_COMPONENT,5,OMX_AAC_Decoder_COMPONENT,5
OMX_MPEG2_Decode_COMPONENT,5,OMX_DISPLAY_COMPONENT,5,OMX_ARMAAC_Decoder_COMPONENT,5
OMX_MPEG2_Decode_COMPONENT,5,OMX_DISPLAY_COMPONENT,5,OMX_NBAMR_Decoder_COMPONENT,5
OMX_MPEG2_Decode_COMPONENT,5,OMX_DISPLAY_COMPONENT,5,OMX_WBAMR_Decoder_COMPONENT,5
OMX_DISPLAY_COMPONENT,5,OMX_DISPLAY_COMPONENT,5
OMX_MP3_Decoder_COMPONENT,5
OMX_AAC_Decoder_COMPONENT,5
OMX_AAC_Encoder_COMPONENT,5
OMX_ARMAAC_Decoder_COMPONENT,5
OMX_ARMAAC_Encoder_COMPONENT,5
OMX_PCM_Decoder_COMPONENT,5
OMX_PCM_Encoder_COMPONENT,5
OMX_NBAMR_Decoder_COMPONENT,5
OMX_NBAMR_Encoder_COMPONENT,5
OMX_WBAMR_Decoder_COMPONENT,5
OMX_WBAMR_Encoder_COMPONENT,5
OMX_WMA_Decoder_COMPONENT,5
OMX_G711_Decoder_COMPONENT,5
OMX_G711_Encoder_COMPONENT,5
OMX_G722_Decoder_COMPONENT,5
OMX_G722_Encoder_COMPONENT,5
OMX_G723_Decoder_COMPONENT,5
OMX_G723_Encoder_COMPONENT,5
OMX_G726_Decoder_COMPONENT,5
OMX_G726_Encoder_COMPONENT,5
OMX_G729_Decoder_COMPONENT,5
OMX_G729_Encoder_COMPONENT,5
OMX_GSMFR_Decoder_COMPONENT,5
OMX_GSMHR_Decoder_COMPONENT,5
OMX_GSMFR_Encoder_COMPONENT,5
OMX_GSMHR_Encoder_COMPONENT,5
OMX_ILBC_Decoder_COMPONENT,5
OMX_ILBC_Encoder_COMPONENT,5
OMX_MPEG4_Decode_COMPONENT,5
OMX_MPEG4_Encode_COMPONENT,5
OMX_H263_Decode_COMPONENT,5
OMX_H263_Encode_COMPONENT,5
OMX_H264_Decode_COMPONENT,5
OMX_H264_Encode_COMPONENT,5
OMX_WMV_Decode_COMPONENT,5
OMX_MPEG2_Decode_COMPONENT,5
OMX_JPEG_Decoder_COMPONENT,5
OMX_JPEG_Encoder_COMPONENT,5
OMX_VPP_COMPONENT,5
OMX_CAMERA_COMPONENT,5
OMX_DISPLAY_COMPONENT,5
OMX_RAGECKO_Decoder_COMPONENT,5
".

Definition policies : manager :=
  Eval vm_compute in match PopulatePolicyTable (Some (chars policytable)) initial with Some (_, s) => s | None => initial end.

(** A table whose components are known to be among the first [n]. *)
Lemma room_bounded cs n :
  Forall (fun c => 0 <= c < Z.of_nat n) cs ->
  forallb (fun c => (times c cs <=? OMX_POLICY_MAX_COMBINATIONS)%nat) (map Z.of_nat (seq 0 n)) = true ->
  forall c, (times c cs <= OMX_POLICY_MAX_COMBINATIONS)%nat.
Proof.
  intros Hcs Hf c. destruct (decide (c ∈ cs)) as [Hin|Hout].
  - rewrite list.Forall_forall in Hcs. apply Hcs in Hin. rewrite forallb_forall in Hf. apply Nat.leb_le, Hf.
    apply List.in_map_iff. exists (Z.to_nat c). split; [lia|]. apply in_seq. lia.
  - apply times_supported in Hout. rewrite Hout. lia.
Qed.

Lemma table_ok_bounded T N n :
  length T = OMX_POLICY_MAX_COMBINATIONS -> (N <= OMX_POLICY_MAX_COMBINATIONS)%nat -> Forall combination_ok T ->
  Forall (fun c => 0 <= c < Z.of_nat n) (concat (map comps (take N T))) ->
  forallb (fun c => (times c (concat (map comps (take N T))) <=? OMX_POLICY_MAX_COMBINATIONS)%nat) (map Z.of_nat (seq 0 n)) = true ->
  table_ok T N.
Proof.
  intros Hl HN HT Hc Hf. split; [done|done| |by eapply room_bounded]. intros k cb Hcb. rewrite Forall_lookup in HT.
  destruct (HT k cb Hcb) as (H1 & H2 & H3). split; [lia|done].
Qed.

Lemma combinations_ok T :
  forallb (fun cb => (length (members cb) =? OMX_POLICY_MAX_COMBINATION_LENGTH)%nat &&
    (numComponentsInCombination cb <=? OMX_POLICY_MAX_COMBINATION_LENGTH)%nat &&
    forallb (fun m => (0 <=? component m) && (component m <? 256) && (0 <=? priority m) && (priority m <? 256)) (members cb)) T = true ->
  Forall combination_ok T.
Proof.
  rewrite forallb_forall, list.Forall_forall. intros Hf cb Hcb. apply list_elem_of_In, Hf in Hcb.
  rewrite !andb_true_iff, Nat.eqb_eq, Nat.leb_le, forallb_forall in Hcb. destruct Hcb as [[H1 H2] H3]. split_and!; [done|done|].
  apply list.Forall_forall. intros m Hm. apply list_elem_of_In, H3 in Hm. lia.
Qed.

Definition _720P_Decode : Z := 39.
Definition _720P_Encode : Z := 40.

Lemma preempting_inv T N active rs c n :
  decide_request T N active rs c = Preempting n -> List.find (supported T c) (rev (seq 0 N)) = Some n /\ (n < active)%nat.
Proof.
  unfold decide_request. destruct rs as [|r rs]; [by destruct (List.find _ _)|].
  destruct (supported T c active); [done|]. destruct (List.find _ (seq 0 N)); [done|].
  destruct (List.find _ (rev _)) as [m|]; [|done]. destruct (Nat.ltb_spec m active); [|done]. by intros [= ->].
Qed.

Lemma denied_inv T N active rs c :
  rs <> [] -> decide_request T N active rs c = Denied ->
  match List.find (supported T c) (rev (seq 0 N)) with Some n => (active <= n)%nat | None => True end.
Proof.
  unfold decide_request. destruct rs as [|r rs]; [done|]. intros _.
  destruct (supported T c active); [done|]. destruct (List.find _ (seq 0 N)); [done|].
  destruct (List.find _ (rev _)) as [m|]; [|done]. by destruct (Nat.ltb_spec m active).
Qed.

(** The policy table of the repository is read to its last line: 111 combinations, as many as there is
    room for, on which the server can run.  It is sorted as the server wants it for 720p video: while
    one of the five first combinations is active, no component that is not for 720p has others
    preempted; and while a later one is, a 720p decoder that asks is never denied. *)
Lemma policytable_read :
  PopulatePolicyTable (Some (chars policytable)) initial = Some (0, policies) /\
  numCombinations policies = OMX_POLICY_MAX_COMBINATIONS /\
  table_ok (policyCombinationTable policies) (numCombinations policies) /\
  (forall active rs c n, (active <= 4)%nat -> 0 <= c < 46 -> c <> _720P_Decode -> c <> _720P_Encode ->
    decide_request (policyCombinationTable policies) (numCombinations policies) active rs c <> Preempting n) /\
  (forall active rs, (4 < active)%nat -> rs <> [] ->
    decide_request (policyCombinationTable policies) (numCombinations policies) active rs _720P_Decode <> Denied).
Proof.
  split; [by vm_compute|]. split; [by vm_compute|]. split; [|split].
  - apply (table_ok_bounded _ _ 46); [by vm_compute|apply Nat.leb_le; by vm_compute|apply combinations_ok; by vm_compute| |by vm_compute].
    apply (bool_decide_unpack _). by vm_compute.
  - assert (Hf : forallb (fun c => bool_decide (c = _720P_Decode) || bool_decide (c = _720P_Encode) ||
      match List.find (supported (policyCombinationTable policies) c) (rev (seq 0 (numCombinations policies))) with
      | Some n => (4 <=? n)%nat | None => true end) (map Z.of_nat (seq 0 46)) = true) by (by vm_compute).
    rewrite forallb_forall in Hf. intros active rs c n Ha Hc H1 H2 Hd. specialize (Hf c).
    apply preempting_inv in Hd as [Hd Hn]. rewrite Hd, !bool_decide_eq_false_2 in Hf by done. cbn [orb] in Hf.
    apply Nat.leb_le in Hf; [lia|]. apply List.in_map_iff. exists (Z.to_nat c). split; [lia|]. apply in_seq. lia.
  - intros active rs Ha Hrs Hd. apply denied_inv in Hd; [|done].
    assert (Hf : List.find (supported (policyCombinationTable policies) _720P_Decode) (rev (seq 0 (numCombinations policies))) = Some 4%nat)
      by (by vm_compute).
    rewrite Hf in Hd. lia.
Qed.

(** * Small tables *)

Definition combination_of (ms : list (Z * Z)) : combination :=
  mkCombination (length ms) 0
    (map (fun m => mkPriority m.1 m.2) ms ++ replicate (OMX_POLICY_MAX_COMBINATION_LENGTH - length ms) zero_priority).
Definition table_of (cs : list (list (Z * Z))) : list combination :=
  map combination_of cs ++ replicate (OMX_POLICY_MAX_COMBINATIONS - length cs) zero_combination.
Definition manager_of (cs : list (list (Z * Z))) : manager := with_table (table_of cs) (length cs).

(** The replies to commands, one list for each. *)
Fixpoint serve_all (cmds : list command) (s : manager) : option (list (list reply) * manager) :=
  match cmds with
  | [] => Some ([], s)
  | cmd :: cmds =>
      let* (rs, s) := serve cmd s in
      let* (l, s) := serve_all cmds s in Some (rs :: l, s)
  end.
Definition replies (cmds : list command) (s : manager) : option (list (list reply)) :=
  let* (l, _) := serve_all cmds s in Some l.

(** Clients that have their handle as process. *)
Definition client_of (h : Z) : client := mkClient h h.
Definition request (h c : Z) : command := PM_RequestPolicy (client_of h) c.
Definition free (h c : Z) : command := PM_FreePolicy (client_of h) c.
Definition granted (h : Z) : list reply := [PM_GRANTPOLICY (client_of h)].

Definition three : manager := manager_of [[(1, 5); (2, 3); (3, 4)]].
Definition two_pairs : manager := manager_of [[(2, 5); (3, 5)]; [(1, 5); (2, 5)]].

(** The two lists of the manager get out of step.  When the second of two clients of one component
    is freed, the cell of the first is taken from the priorities and that of the second from the
    clients: for lack of resources client 4, of priority 4, then has client 1 preempted, of
    priority 5, and not client 2, of priority 3.  And when a client that was denied frees its
    policy, as the resource manager does for every client, the cell of another client of its component
    is lost: component 3 is then granted while component 1 runs, though no combination has both. *)
Lemma policy_lists_out_of_step :
  replies [request 1 1; request 2 2; request 4 3; PM_FreeResources (client_of 4) 3] three =
    Some [granted 1; granted 2; granted 4; PM_PREEMPTED (client_of 2) :: granted 4] /\
  replies [request 1 1; request 2 2; request 3 1; request 4 3; free 3 1; PM_FreeResources (client_of 4) 3] three =
    Some [granted 1; granted 2; granted 3; granted 4; []; PM_PREEMPTED (client_of 1) :: granted 4] /\
  replies [request 3 3; request 5 1; free 3 3; request 1 1; request 2 2; free 5 1; request 3 3] two_pairs =
    Some [granted 3; [PM_DENYPOLICY (client_of 5)]; []; granted 1; granted 2; []; granted 3] /\
  forall n, (n < 2)%nat ->
    supported (policyCombinationTable two_pairs) 1 n && supported (policyCombinationTable two_pairs) 3 n = false.
Proof.
  split_and!; [by vm_compute..|]. intros [|[|n]] Hn; [by vm_compute..|lia].
Qed.

(** A file that names no priority is accepted with no combination; fifty members, for which there
    are cells, are refused; a line with a name too many makes the next line unreadable. *)
Definition some_line : list (nat * Z) := replicate 50 (0%nat, 5).
Lemma policy_table_corners :
  option_map (fun r => (r.1, numCombinations r.2)) (PopulatePolicyTable (Some (chars "OMX_MP3_Decoder_COMPONENT")) initial) = Some (0, 0%nat) /\
  option_map fst (PopulatePolicyTable (Some (print_table [some_line])) initial) = Some (-1) /\
  PopulatePolicyTable (Some (chars "OMX_VPP_COMPONENT,5,OMX_CAMERA_COMPONENT" ++ [newline] ++
    chars "OMX_VPP_COMPONENT,5,OMX_CAMERA_COMPONENT,5")) initial = None.
Proof. by vm_compute. Qed.

(** * Witnesses *)

Definition component_of (c : client) : Z := componentHandle c.
Lemma two_pairs_ok : table_ok (policyCombinationTable two_pairs) 2.
Proof.
  apply (table_ok_bounded _ _ 4); [by vm_compute|apply Nat.leb_le; by vm_compute|apply combinations_ok; by vm_compute| |by vm_compute].
  apply (bool_decide_unpack _). by vm_compute.
Qed.

Definition after (cmds : list command) : manager :=
  match serve_all cmds two_pairs with Some (_, s) => s | None => two_pairs end.
Definition after_one : manager := Eval vm_compute in after [request 1 1].
Definition after_two : manager := Eval vm_compute in after [request 1 1; request 2 2].

Lemma two_turns : rtc (turn component_of) (two_pairs, []) (after_two, [client_of 2; client_of 1]).
Proof.
  apply (rtc_l _ _ (after_one, [client_of 1])); [|apply (rtc_l _ _ (after_two, [client_of 2; client_of 1])); [|apply rtc_refl]].
  - exists (request 1 1), (granted 1). split; [|split; [by vm_compute|reflexivity]].
    split; [done|]. right. apply Nat.ltb_lt. by vm_compute.
  - exists (request 2 2), (granted 2). split; [|split; [by vm_compute|reflexivity]].
    split; [done|]. right. apply Nat.ltb_lt. by vm_compute.
Qed.


Lemma running_coexist_witness :
  exists n, (n < 2)%nat /\ supported (policyCombinationTable two_pairs) 1 n = true /\ supported (policyCombinationTable two_pairs) 2 n = true.
Proof.
  destruct (running_coexist component_of (policyCombinationTable two_pairs) 2 after_two [client_of 2; client_of 1] two_pairs_ok two_turns)
    as [H|(n & Hn & Hs)]; [discriminate H|].
  exists n. split; [exact Hn|]. split; [apply (Hs (client_of 1))|apply (Hs (client_of 2))]; repeat constructor.
Defined.

Lemma policy_table_reads_back_witness :
  exists T, PopulatePolicyTable (Some (print_table [[(43%nat, 5); (45%nat, 200)]; [(0%nat, 6)]])) initial = Some (0, set_combinations T 2 initial) /\
    map listed (take 2 T) = [[mkPriority 43 5; mkPriority 45 200]; [mkPriority 0 6]].
Proof.
  destruct (policy_table_reads_back [[(43%nat, 5); (45%nat, 200)]; [(0%nat, 6)]] initial) as (T & Hp & Hm & _).
  - split; apply Nat.leb_le; reflexivity.
  - repeat constructor; cbn; lia.
  - exists T. exact (conj Hp Hm).
Defined.
