(* ===== verification/ActivityMonitor.v ===== *)
(** The resource activity monitor (src/omx/system/src/openmax_il/resource_manager/resource_activity_monitor):
    it turns a load in MHz into an operating point of the processor and writes it to the files of
    sysfs.  The kernel behind these files is the class [Sysfs]; what the code relies on are the laws
    [SysfsLaws]. *)

From Stdlib Require Import ZArith Lia String Ascii.
From stdpp Require Import base list strings option tactics.
From S2P Require Import Prelude.
Local Open Scope Z_scope.

(** * The kernel *)

(** [system] runs a shell command; the others read a file, [None] when it cannot be opened.
    [DVFS_ENABLED] is the option the code is built with. *)
Class Sysfs (K : Type) := {
  DVFS_ENABLED : bool;
  system : string -> K -> K;
  max_dsp_frequency : K -> option Z;
  cpuinfo_cur_freq : K -> option Z;
  dsp_opp : K -> option Z;
  scaling_min_freq : K -> option Z }.

(** * Tables *)

Definition OPERATING_POINT_1 : nat := 0.
Definition OPERATING_POINT_2 : nat := 1.
Definition OPERATING_POINT_3 : nat := 2.
Definition OPERATING_POINT_4 : nat := 3.
Definition OPERATING_POINT_5 : nat := 4.
Definition OPERATING_POINT_6 : nat := 5.
Definition C_STATE_2 : Z := 1.
Definition C_STATE_6 : Z := 5.
Definition C_STATE_9 : Z := 8.

Inductive OMAP_CPU := OMAP3420_CPU | OMAP3430_CPU | OMAP3440_CPU | OMAP3630_CPU | OMAP_NOT_SUPPORTED.
#[global] Instance omap_cpu_eq_dec : EqDecision OMAP_CPU.
Proof. solve_decision. Defined.

Inductive BOOST_LEVEL := MAX_BOOST | NOMINAL_BOOST.

Definition vdd1_dsp_mhz_3420 : list Z := [90; 180; 360; 360; 360].
Definition vdd1_mpu_mhz_3420 : list Z := [125; 250; 500; 550; 600].
Definition vdd1_dsp_mhz_3430 : list Z := [90; 180; 360; 430; 430].
Definition vdd1_mpu_mhz_3430 : list Z := [125; 250; 500; 550; 600].
Definition vdd1_dsp_mhz_3440 : list Z := [90; 180; 360; 430; 430; 520].
Definition vdd1_mpu_mhz_3440 : list Z := [125; 250; 500; 550; 600; 720].
(** Declared with five cells and four values. *)
Definition vdd1_dsp_mhz_3630 : list Z := [260; 520; 660; 800; 0].
Definition vdd1_mpu_mhz_3630 : list Z := [300; 600; 800; 1000; 0].

(** The indices are constants inside the tables. *)
Definition cell (t : list Z) (i : nat) : Z := nth i t 0.

(** * Decimal numbers *)

Definition chr (x : Z) : ascii := ascii_of_N (Z.to_N (u8 x)).

Fixpoint itoa_loop (room : nat) (a : Z) (str : string) {struct room} : string :=
  match room with
  | O => str
  | S room =>
      let str := String (chr (48 + Z.rem a 10)) str in
      let a := Z.quot a 10 in
      if a =? 0 then str else itoa_loop room a str
  end.
Definition ram_itoa (a : Z) : string := itoa_loop 49 a EmptyString.

Section Monitor.
Context {K : Type} `{Sysfs K}.

(** * Reading the kernel's files *)

Definition get_dsp_max_freq (k : K) : Z :=
  match max_dsp_frequency k with Some f => Z.quot f 1000000 | None => 0 end.

Definition get_omap_version (k : K) : OMAP_CPU :=
  let dsp_max_freq := get_dsp_max_freq k in
  if dsp_max_freq =? cell vdd1_dsp_mhz_3420 OPERATING_POINT_5 then OMAP3420_CPU
  else if dsp_max_freq =? cell vdd1_dsp_mhz_3430 OPERATING_POINT_5 then OMAP3430_CPU
  else if dsp_max_freq =? cell vdd1_dsp_mhz_3440 OPERATING_POINT_6 then OMAP3440_CPU
  else if dsp_max_freq =? cell vdd1_dsp_mhz_3630 OPERATING_POINT_4 then OMAP3630_CPU
  else OMAP_NOT_SUPPORTED.

Definition rm_get_vdd1_constraint (k : K) : Z :=
  match dsp_opp k with Some opp => opp | None => 0 end.

Definition rm_get_min_scaling_freq (k : K) : Z :=
  match scaling_min_freq k with Some f => f | None => -1 end.

(** The cell of [dsp] at the first of the points where [mpu] has the frequency. *)
Fixpoint same_point (cur_freq : Z) (mpu dsp : list Z) (points : list nat) : Z :=
  match points with
  | [] => 0
  | i :: points => if cur_freq =? cell mpu i then cell dsp i else same_point cur_freq mpu dsp points
  end.

(** Without [DVFS_ENABLED] the variant is the zero it was initialized with; the argument is not read. *)
Definition get_curr_cpu_mhz (omapVersion : OMAP_CPU) (k : K) : Z :=
  if DVFS_ENABLED then
    match cpuinfo_cur_freq k with
    | None => -1
    | Some f =>
        let cur_freq := Z.quot f 1000 in
        match get_omap_version k with
        | OMAP3420_CPU => same_point cur_freq vdd1_mpu_mhz_3420 vdd1_dsp_mhz_3420 [0; 1; 2; 3; 4]%nat
        | OMAP3430_CPU => same_point cur_freq vdd1_mpu_mhz_3430 vdd1_dsp_mhz_3430 [0; 1; 2; 3; 4]%nat
        | OMAP3440_CPU => same_point cur_freq vdd1_mpu_mhz_3440 vdd1_dsp_mhz_3440 [0; 1; 2; 3; 4; 5]%nat
        | OMAP3630_CPU => same_point cur_freq vdd1_mpu_mhz_3630 vdd1_dsp_mhz_3630 [0; 1; 2; 3]%nat
        | OMAP_NOT_SUPPORTED => 0
        end
    end
  else cell vdd1_dsp_mhz_3420 OPERATING_POINT_4.

(** * Operating points *)

Definition dsp_mhz_to_vdd1_opp (MHz : Z) (k : K) : nat :=
  match get_omap_version k with
  | OMAP3420_CPU =>
      if MHz <=? cell vdd1_dsp_mhz_3420 OPERATING_POINT_2 then OPERATING_POINT_2
      else if MHz <=? cell vdd1_dsp_mhz_3420 OPERATING_POINT_3 then OPERATING_POINT_3
      else if MHz <=? cell vdd1_dsp_mhz_3420 OPERATING_POINT_4 then OPERATING_POINT_4
      else OPERATING_POINT_5
  | OMAP3440_CPU =>
      if MHz <=? cell vdd1_dsp_mhz_3440 OPERATING_POINT_2 then OPERATING_POINT_2
      else if MHz <=? cell vdd1_dsp_mhz_3440 OPERATING_POINT_3 then OPERATING_POINT_3
      else if MHz <=? cell vdd1_dsp_mhz_3440 OPERATING_POINT_4 then OPERATING_POINT_4
      else if MHz <=? cell vdd1_dsp_mhz_3440 OPERATING_POINT_5 then OPERATING_POINT_5
      else OPERATING_POINT_6
  | OMAP3430_CPU =>
      if MHz <=? cell vdd1_dsp_mhz_3430 OPERATING_POINT_2 then OPERATING_POINT_2
      else if MHz <=? cell vdd1_dsp_mhz_3430 OPERATING_POINT_3 then OPERATING_POINT_3
      else if MHz <=? cell vdd1_dsp_mhz_3430 OPERATING_POINT_4 then OPERATING_POINT_4
      else OPERATING_POINT_5
  | OMAP3630_CPU =>
      if MHz <=? cell vdd1_dsp_mhz_3630 OPERATING_POINT_1 then OPERATING_POINT_1
      else if MHz <=? cell vdd1_dsp_mhz_3630 OPERATING_POINT_2 then OPERATING_POINT_2
      else if MHz <=? cell vdd1_dsp_mhz_3630 OPERATING_POINT_3 then OPERATING_POINT_3
      else OPERATING_POINT_4
  | OMAP_NOT_SUPPORTED => 4 (* the number of the constant *)
  end.

Definition dsp_mhz_to_min_scaling_freq (MHz : Z) (k : K) : Z :=
  match get_omap_version k with
  | OMAP3420_CPU =>
      if MHz <=? cell vdd1_dsp_mhz_3420 OPERATING_POINT_2 then cell vdd1_dsp_mhz_3420 OPERATING_POINT_2
      else if MHz <=? cell vdd1_dsp_mhz_3420 OPERATING_POINT_3 then cell vdd1_dsp_mhz_3420 OPERATING_POINT_3
      else if MHz <=? cell vdd1_dsp_mhz_3420 OPERATING_POINT_4 then cell vdd1_dsp_mhz_3420 OPERATING_POINT_4
      else cell vdd1_dsp_mhz_3420 OPERATING_POINT_5
  | OMAP3440_CPU =>
      if MHz <=? cell vdd1_dsp_mhz_3440 OPERATING_POINT_2 then cell vdd1_dsp_mhz_3440 OPERATING_POINT_2
      else if MHz <=? cell vdd1_dsp_mhz_3440 OPERATING_POINT_3 then cell vdd1_dsp_mhz_3440 OPERATING_POINT_3
      else if MHz <=? cell vdd1_dsp_mhz_3440 OPERATING_POINT_4 then cell vdd1_dsp_mhz_3440 OPERATING_POINT_4
      else if MHz <=? cell vdd1_dsp_mhz_3440 OPERATING_POINT_5 then cell vdd1_dsp_mhz_3440 OPERATING_POINT_5
      else cell vdd1_dsp_mhz_3440 OPERATING_POINT_6
  | OMAP3430_CPU =>
      if MHz <=? cell vdd1_dsp_mhz_3430 OPERATING_POINT_2 then cell vdd1_dsp_mhz_3430 OPERATING_POINT_2
      else if MHz <=? cell vdd1_dsp_mhz_3430 OPERATING_POINT_3 then cell vdd1_dsp_mhz_3430 OPERATING_POINT_3
      else if MHz <=? cell vdd1_dsp_mhz_3430 OPERATING_POINT_4 then cell vdd1_dsp_mhz_3430 OPERATING_POINT_4
      else cell vdd1_dsp_mhz_3430 OPERATING_POINT_5
  | OMAP3630_CPU =>
      if MHz <=? cell vdd1_dsp_mhz_3630 OPERATING_POINT_1 then cell vdd1_dsp_mhz_3630 OPERATING_POINT_1
      else if MHz <=? cell vdd1_dsp_mhz_3630 OPERATING_POINT_2 then cell vdd1_dsp_mhz_3630 OPERATING_POINT_2
      else if MHz <=? cell vdd1_dsp_mhz_3630 OPERATING_POINT_3 then cell vdd1_dsp_mhz_3630 OPERATING_POINT_3
      else cell vdd1_dsp_mhz_3630 OPERATING_POINT_4
  | OMAP_NOT_SUPPORTED => 0
  end.

(** * Writing the constraints *)

(** The globals of the library, which a process has of its own, and the kernel. *)
Record monitor := mkMonitor { currentMHzConstraint : Z; bBoostOn : bool; kernel : K }.

Definition echo (v : Z) (file : string) (k : K) : K := system ("echo " +:+ ram_itoa v +:+ file) k.
Definition DSP_OPP : string := " > /sys/power/dsp_opp".
Definition MAX_STATE : string := " > /sys/devices/system/cpu/cpu0/cpuidle/max_state".
Definition SCALING_MIN_FREQ : string := " > /sys/devices/system/cpu/cpu0/cpufreq/scaling_min_freq".

(** The deepest idle state allowed: all of them when nothing runs. *)
Definition c_state_of (MHz : Z) (k : K) : Z :=
  if MHz =? 0 then
    match get_omap_version k with OMAP3630_CPU => C_STATE_9 | _ => C_STATE_6 end
  else C_STATE_2.

(** The operating point for a load, counted from one. *)
Definition opp_of (MHz : Z) (k : K) : Z :=
  Z.of_nat (if MHz =? 0 then OPERATING_POINT_1 else dsp_mhz_to_vdd1_opp MHz k) + 1.

Definition rm_set_vdd1_constraint (MHz : Z) (m : monitor) : Z * monitor :=
  if DVFS_ENABLED then
    let k := kernel m in
    let c_state := c_state_of MHz k in
    let vdd1_opp := opp_of MHz k in
    let k :=
      if negb (bBoostOn m) || (bBoostOn m && (rm_get_vdd1_constraint k <? vdd1_opp)) then
        echo c_state MAX_STATE (echo vdd1_opp DSP_OPP k)
      else k in
    (vdd1_opp, mkMonitor MHz (bBoostOn m) k)
  else (Z.of_nat OPERATING_POINT_1, m).

Definition rm_set_min_scaling_freq (MHz : Z) (m : monitor) : Z * monitor :=
  if DVFS_ENABLED then
    let k := kernel m in
    if rm_get_min_scaling_freq k <? 0 then (-1, m)
    else
      let c_state := c_state_of MHz k in
      let freq := dsp_mhz_to_min_scaling_freq MHz k in
      (freq, mkMonitor (currentMHzConstraint m) (bBoostOn m) (echo c_state MAX_STATE (echo freq SCALING_MIN_FREQ k)))
  else (0, m).

(** * Boost *)

(** The last cell of the table, or the one before it. *)
Definition from_end (t : list Z) (n : nat) : Z := cell t (length t - n).

Definition boost_MHz (level : BOOST_LEVEL) (k : K) : Z :=
  match level with
  | MAX_BOOST =>
      match get_omap_version k with
      | OMAP3420_CPU => from_end vdd1_dsp_mhz_3420 1
      | OMAP3440_CPU => from_end vdd1_dsp_mhz_3440 1
      | OMAP3630_CPU => from_end vdd1_dsp_mhz_3630 1
      | OMAP3430_CPU => from_end vdd1_dsp_mhz_3430 1
      | OMAP_NOT_SUPPORTED => 0
      end
  | NOMINAL_BOOST =>
      match get_omap_version k with
      | OMAP3420_CPU => from_end vdd1_dsp_mhz_3420 2
      | OMAP3440_CPU => from_end vdd1_dsp_mhz_3440 2
      | OMAP3630_CPU => from_end vdd1_dsp_mhz_3630 2
      | OMAP3430_CPU => from_end vdd1_dsp_mhz_3430 2
      | OMAP_NOT_SUPPORTED => 0
      end
  end.

Definition set_boost (b : bool) (m : monitor) : monitor := mkMonitor (currentMHzConstraint m) b (kernel m).

Definition rm_request_boost (level : BOOST_LEVEL) (m : monitor) : monitor :=
  set_boost true (rm_set_vdd1_constraint (boost_MHz level (kernel m)) m).2.

Definition rm_release_boost (m : monitor) : monitor :=
  let m := set_boost false m in
  (rm_set_vdd1_constraint (currentMHzConstraint m) m).2.

End Monitor.
Arguments monitor : clear implicits.
Arguments mkMonitor {K}.

(** What the kernel promises: the operating point reads as it was written, and the files do not
    depend on each other. *)
Class SysfsLaws (K : Type) `{Sysfs K} := {
  opp_written : forall n k, 1 <= n <= 6 -> dsp_opp (echo n DSP_OPP k) = Some n;
  opp_kept : forall n k, dsp_opp (echo n MAX_STATE k) = dsp_opp k;
  max_kept : forall c k, max_dsp_frequency (system c k) = max_dsp_frequency k }.

(** * Operating points *)

(** The table of a processor and the first of its points that the manager uses. *)
Definition dsp_table (cpu : OMAP_CPU) : list Z :=
  match cpu with
  | OMAP3420_CPU => vdd1_dsp_mhz_3420
  | OMAP3430_CPU => vdd1_dsp_mhz_3430
  | OMAP3440_CPU => vdd1_dsp_mhz_3440
  | OMAP3630_CPU => removelast vdd1_dsp_mhz_3630
  | OMAP_NOT_SUPPORTED => []
  end.
Definition lowest_point (cpu : OMAP_CPU) : nat :=
  match cpu with OMAP3630_CPU => OPERATING_POINT_1 | _ => OPERATING_POINT_2 end.

(** The first cell that [MHz] fits in; the cells are counted from [o]. *)
Fixpoint first_fit (MHz : Z) (t : list Z) (o : nat) : option nat :=
  match t with [] => None | c :: t => if MHz <=? c then Some o else first_fit MHz t (S o) end.

(** The operating point for a load, counted from one: the first for nothing, else the lowest of those the manager uses at
    which the DSP is fast enough, or the highest. *)
Definition point_for (cpu : OMAP_CPU) (MHz : Z) : Z :=
  let t := dsp_table cpu in
  if MHz =? 0 then 1
  else if bool_decide (cpu = OMAP_NOT_SUPPORTED) then 5
  else match first_fit MHz (drop (lowest_point cpu) t) (lowest_point cpu) with
       | Some o => Z.of_nat o + 1
       | None => Z.of_nat (length t)
       end.

(** The operating points of the boosts. *)
Definition boost_point (cpu : OMAP_CPU) (level : BOOST_LEVEL) : Z :=
  match cpu, level with
  | OMAP3420_CPU, _ => 3
  | OMAP3430_CPU, _ => 4
  | OMAP3440_CPU, MAX_BOOST => 6
  | OMAP3440_CPU, NOMINAL_BOOST => 4
  | OMAP3630_CPU, MAX_BOOST => 1
  | OMAP3630_CPU, NOMINAL_BOOST => 4
  | OMAP_NOT_SUPPORTED, _ => 1
  end.

Section Points.
Context {K : Type} `{Sysfs K}.

(** The operating point for a load is the lowest one the manager may use that the load fits
    in, and the highest one when it fits in none; the frequency written as the minimum for
    scaling is the one of that point. *)
Lemma operating_point_least (MHz : Z) (k : K) :
  let t := dsp_table (get_omap_version k) in
  let lo := lowest_point (get_omap_version k) in
  let o := dsp_mhz_to_vdd1_opp MHz k in
  get_omap_version k <> OMAP_NOT_SUPPORTED ->
  (lo <= o < length t)%nat /\
  (forall o', (lo <= o' < o)%nat -> cell t o' < MHz) /\
  (MHz <= cell t o \/ o = (length t - 1)%nat) /\
  dsp_mhz_to_min_scaling_freq MHz k = cell t o.
Proof.
  intros t lo o Hs. subst t lo o. unfold dsp_mhz_to_vdd1_opp, dsp_mhz_to_min_scaling_freq.
  destruct (get_omap_version k); [| | | |done]; cbn -[Z.leb];
    repeat match goal with |- context [?a <=? ?b] => destruct (Z.leb_spec a b) end;
    (split_and!; [vm_compute; lia|vm_compute; lia| |first [left; assumption|right; reflexivity]|reflexivity]);
    intros o Ho; destruct o as [|[|[|[|[|[|o]]]]]]; vm_compute in Ho; cbn; lia.
Qed.

Lemma opp_of_point MHz k : opp_of MHz k = point_for (get_omap_version k) MHz.
Proof.
  unfold opp_of, point_for, dsp_mhz_to_vdd1_opp. destruct (MHz =? 0); [done|].
  destruct (get_omap_version k); cbn -[Z.leb Z.of_nat]; [..|done];
    repeat match goal with |- context [MHz <=? ?a] => destruct (Z.leb_spec MHz a) end; try reflexivity; lia.
Qed.

Lemma boost_reaches level k : opp_of (boost_MHz level k) k = boost_point (get_omap_version k) level.
Proof. rewrite opp_of_point. unfold boost_MHz. destruct (get_omap_version k) eqn:E, level; vm_compute; reflexivity. Qed.

(** But on the OMAP3630, the highest boost is the lowest point at which the DSP runs at the highest frequency of the kernel. *)
Lemma max_boost_point k :
  let t := dsp_table (get_omap_version k) in
  let o := boost_point (get_omap_version k) MAX_BOOST in
  get_omap_version k <> OMAP3630_CPU -> get_omap_version k <> OMAP_NOT_SUPPORTED ->
  cell t (Z.to_nat (o - 1)) = get_dsp_max_freq k /\ forall o', 1 <= o' < o -> cell t (Z.to_nat (o' - 1)) < get_dsp_max_freq k.
Proof.
  cbv zeta. assert (Hv : get_omap_version k = get_omap_version k) by done. revert Hv. unfold get_omap_version at 2.
  repeat match goal with |- context [?a =? ?b] => destruct (Z.eqb_spec a b) as [->|] end; intros Hv; rewrite Hv; intros H1 H2; try done;
    (split; [reflexivity|]); intros o' Ho; cbn in Ho.
  all: destruct (Z.to_nat (o' - 1)) as [|[|[|[|[|?]]]]] eqn:E; vm_compute; try done; lia.
Qed.

End Points.

(** * Boosts *)

Section Boosts.
Context {K : Type} `{SysfsLaws K}.

Lemma get_omap_version_echo v file k : get_omap_version (echo v file k) = get_omap_version k.
Proof. unfold get_omap_version, get_dsp_max_freq, echo. by rewrite max_kept. Qed.

Lemma opp_of_version MHz k k' : get_omap_version k' = get_omap_version k -> opp_of MHz k' = opp_of MHz k.
Proof. intros E. unfold opp_of, dsp_mhz_to_vdd1_opp. by rewrite E. Qed.

Lemma opp_of_range MHz k : 1 <= opp_of MHz k <= 6.
Proof.
  unfold opp_of, dsp_mhz_to_vdd1_opp. destruct (MHz =? 0); [vm_compute; split; discriminate|].
  destruct (get_omap_version k); repeat case_match; vm_compute; split; discriminate.
Qed.

(** What setting a constraint does: the load is kept, and the operating point for it is written
    unless a boost holds a higher one. *)
Lemma rm_set_vdd1_constraint_spec MHz m :
  DVFS_ENABLED = true ->
  let m' := (rm_set_vdd1_constraint MHz m).2 in
  currentMHzConstraint m' = MHz /\ bBoostOn m' = bBoostOn m /\
  get_omap_version (kernel m') = get_omap_version (kernel m) /\
  rm_get_vdd1_constraint (kernel m') =
    if bBoostOn m then Z.max (rm_get_vdd1_constraint (kernel m)) (opp_of MHz (kernel m))
    else opp_of MHz (kernel m).
Proof.
  intros Hd. unfold rm_set_vdd1_constraint. rewrite Hd. cbn zeta. cbn.
  assert (Hw : rm_get_vdd1_constraint (echo (c_state_of MHz (kernel m)) MAX_STATE (echo (opp_of MHz (kernel m)) DSP_OPP (kernel m)))
    = opp_of MHz (kernel m)).
  { unfold rm_get_vdd1_constraint. by rewrite opp_kept, opp_written by apply opp_of_range. }
  destruct (bBoostOn m); cbn.
  - destruct (Z.ltb_spec (rm_get_vdd1_constraint (kernel m)) (opp_of MHz (kernel m))) as [Hlt|Hge].
    + rewrite !get_omap_version_echo, Hw. split_and!; [done..|lia].
    + split_and!; [done..|lia].
  - by rewrite !get_omap_version_echo, Hw.
Qed.

Definition set_all (loads : list Z) (m : monitor K) : monitor K :=
  fold_left (fun m MHz => (rm_set_vdd1_constraint MHz m).2) loads m.

Lemma set_all_spec loads m :
  DVFS_ENABLED = true -> bBoostOn m = true ->
  let m' := set_all loads m in
  bBoostOn m' = true /\ get_omap_version (kernel m') = get_omap_version (kernel m) /\
  currentMHzConstraint m' = List.last loads (currentMHzConstraint m) /\
  rm_get_vdd1_constraint (kernel m') =
    fold_left (fun o MHz => Z.max o (opp_of MHz (kernel m))) loads (rm_get_vdd1_constraint (kernel m)).
Proof.
  intros Hd. revert m. induction loads as [|x loads IH] using rev_ind; intros m Hb; [done|].
  destruct (IH m Hb) as (Hb' & Hv & Hc & Hr). clear IH. cbn zeta in *. unfold set_all in *.
  rewrite fold_left_app. cbn [fold_left].
  destruct (rm_set_vdd1_constraint_spec x (fold_left (fun m MHz => (rm_set_vdd1_constraint MHz m).2) loads m) Hd)
    as (H1 & H2 & H3 & H4).
  rewrite H1, H2, H3, H4, Hb', Hv, last_last, Hr, fold_left_app. cbn [fold_left].
  by rewrite (opp_of_version x _ _ Hv).
Qed.

Lemma fold_max_ext (f g : Z -> Z) l o : (forall x, f x = g x) -> fold_left (fun o x => Z.max o (f x)) l o = fold_left (fun o x => Z.max o (g x)) l o.
Proof. intros Hf. revert o. induction l as [|x l IH]; intros o; [done|]. cbn [fold_left]. by rewrite IH, Hf. Qed.

Lemma last_of_some {A} (l : list A) x d d' : List.last (x :: l) d = List.last (x :: l) d'.
Proof. revert x. induction l as [|y l IH]; intros x; [done|]. exact (IH y). Qed.


End Boosts.

(** * A kernel *)

(** Its files, and the command that writes the operating point. *)
Record files := mkFiles { f_max : option Z; f_opp : option Z; f_cpu : option Z; f_min : option Z }.
Definition set_opp (n : Z) (k : files) : files := mkFiles (f_max k) (Some n) (f_cpu k) (f_min k).

Definition run_command (c : string) (k : files) : files :=
  match c with
  | String _ (String _ (String _ (String _ (String _ (String d rest))))) =>
      if bool_decide (rest = DSP_OPP) then set_opp (Z.of_N (N_of_ascii d) - 48) k else k
  | _ => k
  end.

#[export] Instance files_sysfs : Sysfs files := {
  DVFS_ENABLED := true; system := run_command; max_dsp_frequency := f_max;
  cpuinfo_cur_freq := f_cpu; dsp_opp := f_opp; scaling_min_freq := f_min }.

Lemma itoa_loop_length room a str : (String.length str + Nat.min 1 room <= String.length (itoa_loop room a str))%nat.
Proof.
  revert a str. induction room as [|room IH]; intros a str; cbn [itoa_loop]; [lia|].
  destruct (Z.quot a 10 =? 0); [cbn; lia|].
  specialize (IH (Z.quot a 10) (String (chr (48 + Z.rem a 10)) str)). cbn [String.length] in IH. lia.
Qed.

Lemma string_length_app (s t : string) : String.length (s +:+ t) = (String.length s + String.length t)%nat.
Proof. induction s as [|c s IH]; [done|]. exact (f_equal S IH). Qed.

Lemma run_max_state (w : string) k : w <> EmptyString -> run_command ("echo " +:+ w +:+ MAX_STATE) k = k.
Proof.
  intros Hw. destruct w as [|d rest]; [done|].
  change ((if bool_decide (rest +:+ MAX_STATE = DSP_OPP) then set_opp (Z.of_N (N_of_ascii d) - 48) k else k) = k).
  case_bool_decide as E; [|done]. apply (f_equal String.length) in E.
  rewrite string_length_app in E.
  assert (Hl : (String.length DSP_OPP < String.length MAX_STATE)%nat) by (vm_compute; lia). lia.
Qed.

#[export] Instance files_laws : SysfsLaws files.
Proof.
  split.
  - intros n k Hn. assert (n = 1 \/ n = 2 \/ n = 3 \/ n = 4 \/ n = 5 \/ n = 6) as E by lia.
    destruct E as [->|[->|[->|[->|[->| ->]]]]]; vm_compute; reflexivity.
  - intros n k. unfold echo. change (f_opp (run_command ("echo " +:+ ram_itoa n +:+ MAX_STATE) k) = f_opp k).
    rewrite run_max_state; [done|]. intros E. pose proof (itoa_loop_length 49 n EmptyString) as Hl.
    unfold ram_itoa in E. rewrite E in Hl. cbn in Hl. lia.
  - intros c k. cbn. unfold run_command. repeat case_match; try done.
Qed.

(** * Samples *)

Section Samples.
Definition omap3430 : files := mkFiles (Some 430000000) (Some 3) (Some 500000) (Some 125000).
Definition omap3630 : files := mkFiles (Some 800000000) (Some 3) (Some 600000) (Some 300000).
Definition idle (k : files) : monitor files := mkMonitor 0 false k.

Lemma files_dvfs : @DVFS_ENABLED files files_sysfs = true.
Proof. reflexivity. Qed.

Lemma operating_point_least_witness :
  get_omap_version omap3430 <> OMAP_NOT_SUPPORTED /\
  dsp_mhz_to_min_scaling_freq 200 omap3430 = cell vdd1_dsp_mhz_3430 OPERATING_POINT_3.
Proof.
  assert (Hs : get_omap_version omap3430 <> OMAP_NOT_SUPPORTED) by (vm_compute; discriminate).
  split; [exact Hs|]. destruct (operating_point_least 200 omap3430 Hs) as (_ & _ & _ & E).
  rewrite E. vm_compute. reflexivity.
Defined.


(** The last cell of the table of the OMAP3630 is zero: the highest boost there is the load of
    nothing, which writes the lowest operating point. *)
Lemma max_boost_3630 (m : monitor files) :
  bBoostOn m = false -> get_omap_version (kernel m) = OMAP3630_CPU ->
  rm_get_vdd1_constraint (kernel (rm_request_boost MAX_BOOST m)) = 1 /\
  rm_get_vdd1_constraint (kernel (rm_request_boost NOMINAL_BOOST m)) = 4.
Proof.
  intros Hb Hv. split.
  - unfold rm_request_boost. cbn [set_boost kernel].
    destruct (rm_set_vdd1_constraint_spec (boost_MHz MAX_BOOST (kernel m)) m files_dvfs) as (_ & _ & _ & ->).
    rewrite Hb. unfold boost_MHz, opp_of, dsp_mhz_to_vdd1_opp. rewrite Hv. reflexivity.
  - unfold rm_request_boost. cbn [set_boost kernel].
    destruct (rm_set_vdd1_constraint_spec (boost_MHz NOMINAL_BOOST (kernel m)) m files_dvfs) as (_ & _ & _ & ->).
    rewrite Hb. unfold boost_MHz, opp_of, dsp_mhz_to_vdd1_opp. rewrite Hv. reflexivity.
Qed.

End Samples.
