(* ===== verification/QosRegistry.v ===== *)
(** The quality-of-service library of the DSP bridge (src/dspbridge/qos): a registry of the
    resources of the DSP - heaps, the processor, streams - and the questions to the DSP that keep
    it up to date.  The bridge library below it is the class [Bridge]. *)

From Stdlib Require Import ZArith Lia.
From stdpp Require Import base list list_numbers option gmultiset tactics.
From S2P Require Import Prelude.
Local Open Scope Z_scope.

(** * The bridge *)

Definition DSP_SUCCEEDED (status : Z) : bool := 0 <=? status.
Definition EPERM : Z := 1.
Definition ENOENT : Z := 2.
Definition EINVAL : Z := 22.
Definition ENOSYS : Z := 38.
Definition EBADR : Z := 53.
Definition DSPTYPE_55 : Z := 6.
Definition DSPTYPE_64 : Z := 153.

Record dsp_msg := mkMsg { dwCmd : Z; dwArg1 : Z; dwArg2 : Z }.
Record mem_stat := mkMemStat {
  ulSize : Z; ulTotalFreeSize : Z; ulNumFreeBlocks : Z; ulLenMaxFreeBlock : Z; ulNumAllocBlocks : Z }.
Record load_stat := mkLoadStat { uCurrLoad : Z; uPredictedLoad : Z; uCurrDspFreq : Z; uPredictedFreq : Z }.

Inductive object_type := DSP_DCDNODETYPE | DSP_DCDLIBRARYTYPE.

(** The state [B] is the driver with the DSP behind it, and the process's allocator.  Every call of the driver
    returns its status; [calloc] returns the address, zero when there is no memory. *)
Class Bridge (B : Type) := {
  DspManager_Open : B -> Z * B;
  DspManager_Close : B -> Z * B;
  uProcessorTypes : B -> list Z;
  DSPProcessor_Attach : nat -> B -> Z * B;
  DSPProcessor_Detach : B -> Z * B;
  DSPNode_Allocate : B -> Z * B;
  DSPNode_Create : B -> Z * B;
  DSPNode_Run : B -> Z * B;
  DSPNode_Terminate : B -> Z * B;
  DSPNode_Delete : B -> Z * B;
  DSPManager_RegisterObject : object_type -> B -> Z * B;
  DSPManager_UnregisterObject : object_type -> B -> Z * B;
  DSPNode_PutMessage : dsp_msg -> B -> Z * B;
  DSPNode_GetMessage : B -> Z * dsp_msg * B;
  heap_info : Z -> B -> Z * mem_stat;
  load_info : B -> Z * load_stat;
  calloc : B -> Z * B;
  free : Z -> B -> B }.

(** * Data *)

Definition QOS_TI_GETCPULOAD : Z := 1.
Definition QOS_TI_GETMEMSTAT : Z := 2.
Definition QOS_TI_GETSHAREDSCRATCH : Z := 3.
Definition NUMHEAPS : Z := 257.
Definition USED_HEAPSIZE : Z := 256.
Definition LARGEST_FREE_BLOCKSIZE : Z := 257.
Definition KAllHeaps : Z := 256.
Definition KAllScratchGroups : Z := 0.
Definition DSP_TONODE : Z := 1.
Definition DSP_FROMNODE : Z := 2.

(** The types of resources; components and libraries have types of their own below. *)
Inductive QOSDATATYPE :=
  | QOSDataType_Memory_DynLoad | QOSDataType_Memory_DynAlloc | QOSDataType_Memory_Scratch
  | QOSDataType_Processor_C55X | QOSDataType_Processor_C6X | QOSDataType_Peripheral_DMA | QOSDataType_Stream
  | QOSDataType_Component | QOSDataType_Registry | QOSDataType_DynDependentLibrary.
#[global] Instance datatype_eq_dec : EqDecision QOSDATATYPE.
Proof. solve_decision. Defined.

Record QOSRESOURCE_MEMORY := mkMemory {
  align : Z; heapId : Z; size : Z; type : Z; allocated : Z; largestfree : Z; group : Z }.
Record QOSRESOURCE_PROCESSOR := mkProcessor {
  Utilization : Z; currentLoad : Z; predLoad : Z; currDspFreq : Z; predictedFreq : Z }.

(** What follows the header in the structure for a type. *)
Inductive payload :=
  | Memory (m : QOSRESOURCE_MEMORY) | Processor (p : QOSRESOURCE_PROCESSOR) | Dma | Stream (direction : Z).
Record resource := mkResource { address : Z; Id : QOSDATATYPE; data : payload }.
Record library := mkLibrary { l_address : Z }.
Record component := mkComponent {
  c_address : Z; InUse : Z; resourceList : list resource; dynDepLibList : list library }.
Record registry := mkRegistry { r_address : Z; ResourceRegistry : list resource; ComponentRegistry : list component }.

(** What can be added to a list. *)
Inductive entry := Resource (r : resource) | Component (c : component) | Library (l : library).

Definition entry_Id (e : entry) : QOSDATATYPE :=
  match e with Resource r => Id r | Component _ => QOSDataType_Component | Library _ => QOSDataType_DynDependentLibrary end.

Definition DSPData_IsResource (t : QOSDATATYPE) : bool :=
  match t with
  | QOSDataType_Component | QOSDataType_DynDependentLibrary | QOSDataType_Registry => false
  | _ => true
  end.

Definition zero_memory : QOSRESOURCE_MEMORY := mkMemory 0 0 0 0 0 0 0.

(** The type, the heap, the type of memory and the group; the other fields are zero. *)
Definition EDynloadDaram : Z := 0.
Definition EDynloadSaram : Z := 1.
Definition EDynloadExternal : Z := 2.
Definition EDynloadSram : Z := 3.
Definition default_memory_resources : list (QOSDATATYPE * QOSRESOURCE_MEMORY) :=
  [(QOSDataType_Memory_DynLoad, mkMemory 0 EDynloadDaram 0 0 0 0 0);
   (QOSDataType_Memory_DynLoad, mkMemory 0 EDynloadSaram 0 0 0 0 0);
   (QOSDataType_Memory_DynLoad, mkMemory 0 EDynloadExternal 0 0 0 0 0);
   (QOSDataType_Memory_DynAlloc, mkMemory 0 KAllHeaps 0 0 0 0 0);
   (QOSDataType_Memory_Scratch, mkMemory 0 0 0 1 0 0 KAllScratchGroups)].

(** The globals of qosti.c: whether the handles are set; and the bridge. *)
Record qos (B : Type) := mkQos { hProcessor : bool; hNode : bool; bridge : B }.
Arguments mkQos {B}.
Arguments hProcessor {B}.
Arguments hNode {B}.
Arguments bridge {B}.

Section Qos.
Context {B : Type} `{Bridge B}.
Notation Q := (qos B).

Definition on_bridge {A} (f : B -> A * B) (q : Q) : A * Q :=
  let '(a, b) := f (bridge q) in (a, mkQos (hProcessor q) (hNode q) b).
(** A call whose status is only logged. *)
Definition do_bridge (f : B -> Z * B) (q : Q) : Q := (on_bridge f q).2.
Definition free_block (p : Z) (q : Q) : Q := mkQos (hProcessor q) (hNode q) (free p (bridge q)).
Definition set_hProcessor (h : bool) (q : Q) : Q := mkQos h (hNode q) (bridge q).
Definition set_hNode (h : bool) (q : Q) : Q := mkQos (hProcessor q) h (bridge q).

(** * The link to the DSP *)

(** The answer is handed out only when it is one to the command sent. *)
Definition QosTI_DspMsg (cmd arg1 arg2 : Z) (q : Q) : Z * option (Z * Z) * Q :=
  let '(status, q) := on_bridge (DSPNode_PutMessage (mkMsg cmd arg1 arg2)) q in
  if DSP_SUCCEEDED status then
    let '((status, msg), q) := on_bridge DSPNode_GetMessage q in
    if DSP_SUCCEEDED status then
      if negb (dwCmd msg =? cmd) then (- EPERM, None, q) else (status, Some (dwArg1 msg, dwArg2 msg), q)
    else (status, None, q)
  else (status, None, q).

(** The mode of loading, which is never assigned. *)
Inductive TLoadMode := EStaticLoad | EDynamicLoad.
#[global] Instance load_mode_eq_dec : EqDecision TLoadMode.
Proof. solve_decision. Defined.
Definition iMode : TLoadMode := EDynamicLoad.

Definition QosTI_Delete (q : Q) : Q :=
  let q := do_bridge DSPNode_Terminate q in
  let q := if hNode q then set_hNode false (do_bridge DSPNode_Delete q) else q in
  let q := if bool_decide (iMode = EDynamicLoad)
           then do_bridge (DSPManager_UnregisterObject DSP_DCDNODETYPE) (do_bridge (DSPManager_UnregisterObject DSP_DCDLIBRARYTYPE) q)
           else q in
  let q := if hProcessor q then set_hProcessor false (do_bridge DSPProcessor_Detach q) else q in
  do_bridge DspManager_Close q.

(** The first processor of one of the types, the first of all when there is none. *)
Fixpoint processor_of (types : list Z) (l : list Z) (index : nat) : nat :=
  match l with
  | [] => 0
  | t :: l => if bool_decide (t ∈ types) then index else processor_of types l (S index)
  end.

Definition QosTI_Create (q : Q) : Z * Q :=
  let '(status, q) := on_bridge DspManager_Open q in
  let '(status, q) :=
    if DSP_SUCCEEDED status then
      let procId := processor_of [DSPTYPE_55] (uProcessorTypes (bridge q)) 0 in
      let '(status, q) := on_bridge (DSPProcessor_Attach procId) q in
      if DSP_SUCCEEDED status then
        let '(status, q) := on_bridge DSPNode_Allocate (set_hProcessor true q) in
        if DSP_SUCCEEDED status then
          let '(status, q) := on_bridge DSPNode_Create (set_hNode true q) in
          if DSP_SUCCEEDED status then on_bridge DSPNode_Run q else (status, q)
        else (status, q)
      else (status, q)
    else (status, q) in
  if DSP_SUCCEEDED status then (status, q) else (status, QosTI_Delete q).

Definition QosTI_GetDynLoaderMemStat (heapDesc : Z) (q : Q) : Z * option mem_stat :=
  if bool_decide (heapDesc ∈ [EDynloadDaram; EDynloadSaram; EDynloadExternal; EDynloadSram]) then
    let '(status, s) := heap_info heapDesc (bridge q) in
    (status, if DSP_SUCCEEDED status then Some s else None)
  else (- EINVAL, None).

Definition QosTI_GetProcLoadStat (q : Q) : Z * option load_stat :=
  let '(status, s) := load_info (bridge q) in
  if DSP_SUCCEEDED status then (status, Some s) else (- EPERM, None).

(** * Resources *)

(** QOS_FN_ResourceUpdateInfo of the types. *)
Definition update_dyn_alloc (m : QOSRESOURCE_MEMORY) (q : Q) : Z * QOSRESOURCE_MEMORY * Q :=
  if heapId m <=? KAllHeaps then
    let '(_, out, q) := QosTI_DspMsg QOS_TI_GETMEMSTAT (heapId m) USED_HEAPSIZE q in
    let m := match out with
             | Some (o1, o2) => mkMemory (align m) (heapId m) o1 (type m) o2 (largestfree m) (group m)
             | None => m
             end in
    let '(status, out, q) := QosTI_DspMsg QOS_TI_GETMEMSTAT (heapId m) LARGEST_FREE_BLOCKSIZE q in
    let m := match out with
             | Some (o1, o2) => mkMemory (align m) (heapId m) (size m) (type m) (allocated m) o1 (group m)
             | None => m
             end in
    (status, m, q)
  else (- EINVAL, m, q).

Definition update_scratch (m : QOSRESOURCE_MEMORY) (q : Q) : Z * QOSRESOURCE_MEMORY * Q :=
  if bool_decide (type m ∈ [0; 1; 2]) then
    let '(status, out, q) := QosTI_DspMsg QOS_TI_GETSHAREDSCRATCH (type m) (group m) q in
    (status, match out with
             | Some (o1, o2) => mkMemory (align m) o2 o1 (type m) (allocated m) (largestfree m) (group m)
             | None => m
             end, q)
  else (- EINVAL, m, q).

Definition update_dyn_load (m : QOSRESOURCE_MEMORY) (q : Q) : Z * QOSRESOURCE_MEMORY * Q :=
  let '(status, s) := QosTI_GetDynLoaderMemStat (heapId m) q in
  (status, match s with
           | Some s => mkMemory (align m) (heapId m) (ulSize s) (type m)
                         (u32 (ulSize s - ulTotalFreeSize s)) (ulLenMaxFreeBlock s) (group m)
           | None => m
           end, q).

Definition update_processor (p : QOSRESOURCE_PROCESSOR) (q : Q) : Z * QOSRESOURCE_PROCESSOR * Q :=
  let '(_, out, q) := QosTI_DspMsg QOS_TI_GETCPULOAD 0 0 q in
  let u := match out with Some (o1, _) => o1 | None => Utilization p end in
  let '(status, s) := QosTI_GetProcLoadStat q in
  (status, match s with
           | Some s => mkProcessor u (uCurrLoad s) (uPredictedLoad s) (uCurrDspFreq s) (uPredictedFreq s)
           | None => mkProcessor u (currentLoad p) (predLoad p) (currDspFreq p) (predictedFreq p)
           end, q).

Definition set_data (d : payload) (r : resource) : resource := mkResource (address r) (Id r) d.

Definition ResourceUpdateInfo (r : resource) (q : Q) : Z * resource * Q :=
  match data r with
  | Memory m =>
      let '(status, m, q) :=
        match Id r with
        | QOSDataType_Memory_DynLoad => update_dyn_load m q
        | QOSDataType_Memory_Scratch => update_scratch m q
        | _ => update_dyn_alloc m q
        end in
      (status, set_data (Memory m) r, q)
  | Processor p => let '(status, p, q) := update_processor p q in (status, set_data (Processor p) r, q)
  | Dma | Stream _ => (0, r, q)
  end.

(** QOS_FN_ResourceIsAvailable: whether a resource of the registry, brought up to date, is enough for the
    request. *)
Definition QOS_Memory_IsAvailable (request : QOSRESOURCE_MEMORY) (rq rs : resource) (q : Q) : bool * resource * Q :=
  if bool_decide (Id rs = Id rq) then
    let '(_, rs, q) := ResourceUpdateInfo rs q in
    (match data rs with
     | Memory m => (heapId m =? heapId request) && (u32 (align request + size request) <? size m)
     | _ => false
     end, rs, q)
  else (false, rs, q).

Definition ResourceIsAvailable (rq rs : resource) (q : Q) : bool * resource * Q :=
  match data rq with
  | Memory request =>
      match Id rq with
      | QOSDataType_Memory_Scratch =>
          if bool_decide (Id rs = Id rq) then
            match data rs with
            | Memory m => if group m =? group request then QOS_Memory_IsAvailable request rq rs q else (false, rs, q)
            | _ => (false, rs, q)
            end
          else (false, rs, q)
      | _ => QOS_Memory_IsAvailable request rq rs q
      end
  | Processor request =>
      if bool_decide (Id rs = Id rq) then
        let '(_, rs, q) := ResourceUpdateInfo rs q in
        (match data rs with Processor p => Utilization p <=? Utilization request | _ => false end, rs, q)
      else (false, rs, q)
  | Dma | Stream _ =>
      if bool_decide (Id rs = Id rq) then let '(_, rs, q) := ResourceUpdateInfo rs q in (true, rs, q)
      else (false, rs, q)
  end.

(** * Creation and deletion *)

(** The zeroed structure of a type. *)
Definition zeroed (t : QOSDATATYPE) : payload :=
  match t with
  | QOSDataType_Memory_DynLoad | QOSDataType_Memory_DynAlloc | QOSDataType_Memory_Scratch => Memory zero_memory
  | QOSDataType_Processor_C55X | QOSDataType_Processor_C6X => Processor (mkProcessor 0 0 0 0 0)
  | QOSDataType_Stream => Stream 0
  | _ => Dma
  end.

Definition DSPData_Create (t : QOSDATATYPE) (q : Q) : option resource * Q :=
  let '(p, q) := on_bridge calloc q in
  (if p =? 0 then None else Some (mkResource p t (zeroed t)), q).

Definition free_all (l : list Z) (q : Q) : Q := fold_left (fun q p => free_block p q) l q.

(** DSPData_Delete on a list of resources, of libraries and of components. *)
Definition delete_resources (l : list resource) (q : Q) : Q := free_all (map address l) q.
Definition delete_component (c : component) (q : Q) : Q :=
  free_block (c_address c) (free_all (map l_address (dynDepLibList c)) (delete_resources (resourceList c) q)).
Definition delete_components (l : list component) (q : Q) : Q := fold_left (fun q c => delete_component c q) l q.

Definition DSPRegistry_Delete (r : option registry) (q : Q) : Q :=
  match r with
  | Some r =>
      let q := delete_resources (ResourceRegistry r) q in
      let q := delete_components (ComponentRegistry r) q in
      let q := QosTI_Delete q in
      free_block (r_address r) q
  | None => q
  end.

(** The lists that take an entry: of the registry and of a component. *)
Definition DSPRegistry_Add (e : entry) (r : registry) : Z * registry :=
  match e with
  | Resource x => (0, mkRegistry (r_address r) (x :: ResourceRegistry r) (ComponentRegistry r))
  | Component c => (0, mkRegistry (r_address r) (ResourceRegistry r) (c :: ComponentRegistry r))
  | Library _ => (- EINVAL, r)
  end.
Definition Component_Add (e : entry) (c : component) : Z * component :=
  match e with
  | Resource x => (0, mkComponent (c_address c) (InUse c) (x :: resourceList c) (dynDepLibList c))
  | Library l => (0, mkComponent (c_address c) (InUse c) (resourceList c) (l :: dynDepLibList c))
  | Component _ => (- EINVAL, c)
  end.

Definition add_resource (x : resource) (r : registry) : registry := (DSPRegistry_Add (Resource x) r).2.

Definition add_default (d : QOSDATATYPE * QOSRESOURCE_MEMORY) (st : registry * Q) : registry * Q :=
  let '(r, q) := st in
  let '(x, q) := DSPData_Create d.1 q in
  match x with Some x => (add_resource (set_data (Memory d.2) x) r, q) | None => (r, q) end.

Definition heap_memory (i : Z) : QOSRESOURCE_MEMORY := mkMemory 0 i 0 0 0 0 0.
Definition add_heap (i : nat) (st : registry * Q) : registry * Q :=
  add_default (QOSDataType_Memory_DynAlloc, heap_memory (Z.of_nat i)) st.

Definition add_processor (st : registry * Q) : registry * Q :=
  let '(r, q) := st in
  let '(x, q) := DSPData_Create QOSDataType_Processor_C6X q in
  match x with Some x => (add_resource x r, q) | None => (r, q) end.
Definition add_stream (direction : Z) (st : registry * Q) : registry * Q :=
  let '(r, q) := st in
  let '(x, q) := DSPData_Create QOSDataType_Stream q in
  match x with Some x => (add_resource (set_data (Stream direction) x) r, q) | None => (r, q) end.

(** Adding to the registry never fails; the answer of the DSP on its heaps can. *)
Definition DSPRegistry_Create (q : Q) : option registry * Q :=
  let '(x, q) := DSPData_Create QOSDataType_Registry q in
  match x with
  | None => (None, DSPRegistry_Delete None q)
  | Some x =>
      let '(status, q) := QosTI_Create q in
      if DSP_SUCCEEDED status then
        let '(r, q) := fold_left (fun st d => add_default d st) default_memory_resources (mkRegistry (address x) [] [], q) in
        let '(status, NumHeaps, q) := QosTI_DspMsg QOS_TI_GETMEMSTAT NUMHEAPS 0 q in
        match NumHeaps with
        | Some (NumHeaps, _) =>
            let st := fold_left (fun st i => add_heap i st) (seq 0 (Z.to_nat NumHeaps)) (r, q) in
            let '(r, q) := add_stream DSP_FROMNODE (add_stream DSP_TONODE (add_processor st)) in
            (Some r, q)
        | None => (None, DSPRegistry_Delete (Some r) q)
        end
      else (None, DSPRegistry_Delete None (free_block (address x) q))
  end.

(** * Looking up, and taking out *)

(** The walk of [DSPRegistry_Find] over the resources: the status, how many match, the addresses
    written to the caller's block of [room] cells, and the list brought up to date. *)
Fixpoint find_resources (t : QOSDATATYPE) (room found : nat) (l : list resource) (q : Q) : Z * nat * list Z * list resource * Q :=
  match l with
  | [] => (0, found, [], [], q)
  | x :: l =>
      if bool_decide (Id x = t) then
        if (found <? room)%nat then
          let '(status, x, q) := ResourceUpdateInfo x q in
          if DSP_SUCCEEDED status then
            let '(status, found, rs, l, q) := find_resources t room (S found) l q in
            (status, found, address x :: rs, x :: l, q)
          else (status, S found, [address x], x :: l, q)
        else
          let '(status, found, rs, l, q) := find_resources t room (S found) l q in
          (status, found, rs, x :: l, q)
      else
        let '(status, found, rs, l, q) := find_resources t room found l q in
        (status, found, rs, x :: l, q)
  end.

(** The status, the count left in the caller's [Size], the addresses written. *)
Definition find_result (status : Z) (found Size : nat) (rs : list Z) : Z * nat * list Z :=
  if (Size <? found)%nat then (- EINVAL, found, rs)
  else if (found =? 0)%nat then (- ENOENT, Size, rs)
  else (status, Size, rs).

Definition DSPRegistry_Find (t : QOSDATATYPE) (Size : nat) (r : registry) (q : Q) : Z * nat * list Z * registry * Q :=
  if DSPData_IsResource t then
    let '(status, found, rs, l, q) := find_resources t Size 0 (ResourceRegistry r) q in
    (find_result status found Size rs, mkRegistry (r_address r) l (ComponentRegistry r), q)
  else
    match t with
    | QOSDataType_Component =>
        let found := length (ComponentRegistry r) in
        (find_result 0 found Size (take Size (map c_address (ComponentRegistry r))), r, q)
    | _ => (find_result (- EINVAL) 0 Size [], r, q)
    end.

(** The walk stops at the entry when it is the first one, or at the one before it. *)
Fixpoint unlink (p : Z) (l : list resource) : option (list resource) :=
  match l with
  | [] => None
  | x :: l1 =>
      if address x =? p then Some l1
      else match l1 with
           | y :: l2 => if address y =? p then Some (x :: l2)
                        else match unlink p l1 with Some l1 => Some (x :: l1) | None => None end
           | [] => None
           end
  end.
Definition DSPRegistry_Remove (x : resource) (r : registry) : Z * registry :=
  match unlink (address x) (ResourceRegistry r) with
  | Some l => (0, mkRegistry (r_address r) l (ComponentRegistry r))
  | None => (- ENOENT, r)
  end.

(** QOS_FN_HasAvailableResource *)
Fixpoint some_available (rq : resource) (l : list resource) (q : Q) : bool * list resource * Q :=
  match l with
  | [] => (false, [], q)
  | x :: l =>
      let '(b, x, q) := ResourceIsAvailable rq x q in
      if b : bool then (true, x :: l, q)
      else let '(b, l, q) := some_available rq l q in (b, x :: l, q)
  end.
Fixpoint all_available (rqs : list resource) (l : list resource) (q : Q) : bool * list resource * Q :=
  match rqs with
  | [] => (true, l, q)
  | rq :: rqs =>
      let '(b, l, q) := some_available rq l q in
      if b : bool then all_available rqs l q else (false, l, q)
  end.
Definition HasAvailableResource (e : entry) (r : registry) (q : Q) : bool * registry * Q :=
  match e with
  | Resource rq => let '(b, l, q) := some_available rq (ResourceRegistry r) q in (b, mkRegistry (r_address r) l (ComponentRegistry r), q)
  | Component c => let '(b, l, q) := all_available (resourceList c) (ResourceRegistry r) q in (b, mkRegistry (r_address r) l (ComponentRegistry r), q)
  | Library _ => (false, r, q)
  end.

(** * Components in use *)

Definition DSPComponent_Register (c : option component) : option component * Z :=
  match c with
  | Some c => (Some (mkComponent (c_address c) (u32 (InUse c + 1)) (resourceList c) (dynDepLibList c)), 0)
  | None => (None, 0)
  end.
Definition DSPComponent_Unregister (c : option component) : option component * Z :=
  match c with
  | Some c =>
      if 0 <? InUse c then (Some (mkComponent (c_address c) (InUse c - 1) (resourceList c) (dynDepLibList c)), 0)
      else (Some c, - EBADR)
  | None => (None, 0)
  end.

End Qos.

(** * Finding *)

Definition of_type (t : QOSDATATYPE) (l : list resource) : list resource := List.filter (fun x => bool_decide (Id x = t)) l.
(** What finding leaves as it is. *)
Definition names (l : list resource) : list (Z * QOSDATATYPE) := map (fun x => (address x, Id x)) l.

Section Find.
Context {B : Type} `{Bridge B}.
Notation Q := (qos B).

Lemma update_name x (q : Q) : let '(_, x', _) := ResourceUpdateInfo x q in address x' = address x /\ Id x' = Id x.
Proof.
  unfold ResourceUpdateInfo. destruct (data x); repeat case_match; simplify_eq; done.
Qed.

Lemma find_none t found l (q : Q) :
  find_resources t 0 found l q = (0, (found + length (of_type t l))%nat, [], l, q).
Proof.
  revert found. induction l as [|x l IH]; intros found; cbn; [f_equal; f_equal; f_equal; f_equal; lia|].
  destruct (bool_decide (Id x = t)) eqn:E.
  - rewrite IH. cbn. by rewrite Nat.add_succ_r.
  - by rewrite IH.
Qed.

Lemma find_all t room found l (q : Q) :
  (found + length (of_type t l) <= room)%nat ->
  let '(status, n, rs, l', _) := find_resources t room found l q in
  names l' = names l /\ rs `prefix_of` map address (of_type t l) /\ n = (found + length rs)%nat /\
  (0 <= status -> rs = map address (of_type t l)) /\ (of_type t l = [] -> status = 0).
Proof.
  revert found q. induction l as [|x l IH]; intros found q Hr.
  { cbn. split_and!; try done; lia. }
  cbn [find_resources of_type List.filter] in *. destruct (bool_decide (Id x = t)) eqn:E.
  - cbn [length] in Hr. assert ((found <? room)%nat = true) as -> by (apply Nat.ltb_lt; lia).
    pose proof (update_name x q) as Hx. destruct (ResourceUpdateInfo x q) as [[status x'] q1]. destruct Hx as [Ha Hi].
    unfold DSP_SUCCEEDED. destruct (Z.leb_spec 0 status) as [Hs|Hs].
    + specialize (IH (S found) q1 ltac:(unfold of_type; lia)).
      destruct (find_resources t room (S found) l q1) as [[[[st n] rs] l'] q2].
      destruct IH as (IH1 & IH2 & IH3 & IH4 & IH5). cbn [names map length]. rewrite Ha, Hi. split_and!.
      * f_equal. exact IH1.
      * by apply prefix_cons.
      * lia.
      * intros Hst. f_equal. by apply IH4.
      * done.
    + cbn [names map length]. rewrite Ha, Hi. split_and!; [done| |lia|lia|done].
      apply prefix_cons, prefix_nil.
  - specialize (IH found q Hr). destruct (find_resources t room found l q) as [[[[st n] rs] l'] q2].
    destruct IH as (IH1 & IH2 & IH3 & IH4 & IH5). cbn [names map]. split_and!; [by f_equal|done..].
Qed.

(** Looking up a type of resource takes two calls: the first, with no room, counts the resources of the
    type and changes nothing; the second, with room for that many, returns in the order of the
    registry the addresses of all of them, brought up to date, unless the DSP does not answer. *)
Lemma registry_find_two_calls (t : QOSDATATYPE) (r : registry) (q : Q) :
  DSPData_IsResource t = true ->
  let n := length (of_type t (ResourceRegistry r)) in
  DSPRegistry_Find t 0 r q = ((if (n =? 0)%nat then - ENOENT else - EINVAL), n, [], r, q) /\
  (n <> 0%nat ->
   let '(status, size, rs, r', _) := DSPRegistry_Find t n r q in
   size = n /\ names (ResourceRegistry r') = names (ResourceRegistry r) /\ ComponentRegistry r' = ComponentRegistry r /\
   rs `prefix_of` map address (of_type t (ResourceRegistry r)) /\
   (0 <= status -> rs = map address (of_type t (ResourceRegistry r)))).
Proof.
  intros Ht n. unfold DSPRegistry_Find. rewrite Ht. split.
  - rewrite find_none. cbn. destruct r as [a l c]. cbn in n |- *. fold n. unfold find_result.
    destruct n; reflexivity.
  - intros Hn. pose proof (find_all t n 0 (ResourceRegistry r) q ltac:(done)) as Hf.
    destruct (find_resources t n 0 (ResourceRegistry r) q) as [[[[st k] rs] l'] q2].
    destruct Hf as (F1 & F2 & F3 & F4 & F5). pose proof (prefix_length _ _ F2) as Hl. rewrite length_map in Hl. fold n in Hl.
    unfold find_result. cbn in F3. subst k. assert ((n <? length rs)%nat = false) as -> by (apply Nat.ltb_ge; lia).
    destruct (Nat.eqb_spec (length rs) 0) as [E|E]; cbn; split_and!; try done; unfold ENOENT; lia.
Qed.

End Find.

(** * What a registry holds *)

(** Open handles of the driver, attachments to a processor and nodes. *)
Record counts := mkCounts { opened : Z; attached : Z; nodes : Z }.
Definition plus (a b : counts) : counts := mkCounts (opened a + opened b) (attached a + attached b) (nodes a + nodes b).
Definition nothing : counts := mkCounts 0 0 0.
Definition when (b : bool) (c : counts) : counts := if b then c else nothing.
Definition one_open : counts := mkCounts 1 0 0.
Definition one_attached : counts := mkCounts 0 1 0.
Definition one_node : counts := mkCounts 0 0 1.

Lemma counts_ext a b : opened a = opened b -> attached a = attached b -> nodes a = nodes b -> a = b.
Proof. destruct a, b. cbn. by intros -> -> ->. Qed.

Ltac counts_eq :=
  apply counts_ext; unfold plus, when, nothing, one_open, one_attached, one_node; repeat case_match; cbn; lia.

Lemma plus_nothing a : plus a nothing = a.
Proof. counts_eq. Qed.
Lemma plus_cancel a b c : plus a c = plus b c -> a = b.
Proof. unfold plus. intros [=]. apply counts_ext; lia. Qed.

(** What the driver and the allocator have given out. *)
Class Footprint (B : Type) := { held : B -> counts; heap_blocks : B -> gmultiset Z }.

Section Laws.
Context {B : Type} `{Footprint B}.
(** A call that takes [c], or gives it back, if it succeeds, and changes nothing if it fails. *)
Definition takes (c : counts) (f : B -> Z * B) : Prop :=
  forall b, held (f b).2 = plus (held b) (when (DSP_SUCCEEDED (f b).1) c) /\ heap_blocks (f b).2 = heap_blocks b.
Definition gives (c : counts) (f : B -> Z * B) : Prop :=
  forall b, held b = plus (held (f b).2) (when (DSP_SUCCEEDED (f b).1) c) /\ heap_blocks (f b).2 = heap_blocks b.
End Laws.

(** The bridge keeps these counts; a block can be freed that is allocated. *)
Class BridgeLaws (B : Type) `{Bridge B} := {
  #[global] bridge_footprint :: Footprint B;
  law_open : takes one_open DspManager_Open;
  law_close : gives one_open DspManager_Close;
  law_attach : forall i, takes one_attached (DSPProcessor_Attach i);
  law_detach : gives one_attached DSPProcessor_Detach;
  law_allocate : takes one_node DSPNode_Allocate;
  law_delete : gives one_node DSPNode_Delete;
  law_create : takes nothing DSPNode_Create;
  law_run : takes nothing DSPNode_Run;
  law_terminate : takes nothing DSPNode_Terminate;
  law_register : forall t, takes nothing (DSPManager_RegisterObject t);
  law_unregister : forall t, takes nothing (DSPManager_UnregisterObject t);
  law_put : forall m, takes nothing (DSPNode_PutMessage m);
  law_get : forall b, held (DSPNode_GetMessage b).2 = held b /\ heap_blocks (DSPNode_GetMessage b).2 = heap_blocks b;
  law_calloc : forall b, held (calloc b).2 = held b /\
    heap_blocks (calloc b).2 = (if (calloc b).1 =? 0 then ∅ else {[+ (calloc b).1 +]}) ⊎ heap_blocks b;
  law_free : forall p b, p ∈ heap_blocks b -> held (free p b) = held b /\ heap_blocks b = {[+ p +]} ⊎ heap_blocks (free p b) }.

Section Balance.
Context {B : Type} `{BridgeLaws B}.
Notation Q := (qos B).

Definition holds (q : Q) : counts := held (bridge q).
Definition mem (q : Q) : gmultiset Z := heap_blocks (bridge q).
(** The handles the globals stand for. *)
Definition links (q : Q) : counts := plus (when (hProcessor q) one_attached) (when (hNode q) one_node).
(** Nothing is taken. *)
Definition quiet (q q' : Q) : Prop :=
  holds q' = holds q /\ mem q' = mem q /\ hProcessor q' = hProcessor q /\ hNode q' = hNode q.

(** The calls that give back do. *)
Definition releases_succeed : Prop :=
  forall b : B, DSP_SUCCEEDED (DSPNode_Delete b).1 = true /\ DSP_SUCCEEDED (DSPProcessor_Detach b).1 = true /\
    DSP_SUCCEEDED (DspManager_Close b).1 = true.

Lemma qos_quiet_refl q : quiet q q.
Proof. done. Qed.
Lemma qos_quiet_trans q1 q2 q3 : quiet q1 q2 -> quiet q2 q3 -> quiet q1 q3.
Proof. intros (A1 & A2 & A3 & A4) (B1 & B2 & B3 & B4). unfold quiet. split_and!; congruence. Qed.

Lemma on_bridge_takes c f (q : Q) :
  takes c f -> let '(st, q') := on_bridge f q in
  holds q' = plus (holds q) (when (DSP_SUCCEEDED st) c) /\ mem q' = mem q /\ hProcessor q' = hProcessor q /\ hNode q' = hNode q.
Proof. intros Hf. unfold on_bridge, holds, mem. specialize (Hf (bridge q)). destruct (f (bridge q)). cbn in *. tauto. Qed.

Lemma on_bridge_quiet f (q : Q) : takes nothing f -> let '(st, q') := on_bridge f q in quiet q q'.
Proof.
  intros Hf. pose proof (on_bridge_takes nothing f q Hf) as Ht. destruct (on_bridge f q) as [st q']. destruct Ht as (H1 & H2).
  split; [|done]. rewrite H1. unfold when. destruct (DSP_SUCCEEDED st); apply plus_nothing.
Qed.

Lemma do_quiet f (q : Q) : takes nothing f -> quiet q (do_bridge f q).
Proof. intros Hf. unfold do_bridge. pose proof (on_bridge_quiet f q Hf) as Hq. by destruct (on_bridge f q). Qed.

Lemma do_gives c f (q : Q) :
  gives c f -> let q' := do_bridge f q in
  mem q' = mem q /\ hProcessor q' = hProcessor q /\ hNode q' = hNode q /\
  (DSP_SUCCEEDED (f (bridge q)).1 = true -> holds q = plus (holds q') c).
Proof.
  intros Hf. unfold do_bridge, on_bridge, holds, mem. specialize (Hf (bridge q)). destruct (f (bridge q)) as [st b]. cbn in *.
  destruct Hf as [Hh Hm]. split_and!; try done. intros Hs. by rewrite Hs in Hh.
Qed.

Lemma msg_quiet cmd a1 a2 (q : Q) : let '(_, _, q') := QosTI_DspMsg cmd a1 a2 q in quiet q q'.
Proof.
  unfold QosTI_DspMsg. pose proof (on_bridge_quiet (DSPNode_PutMessage (mkMsg cmd a1 a2)) q (law_put _)) as Hp.
  destruct (on_bridge _ q) as [st q1]. destruct (DSP_SUCCEEDED st); [|done].
  assert (Hg : quiet q1 (on_bridge DSPNode_GetMessage q1).2).
  { unfold quiet, on_bridge, holds, mem. pose proof (law_get (bridge q1)) as [Hg1 Hg2].
    destruct (DSPNode_GetMessage (bridge q1)). by split_and!. }
  destruct (on_bridge DSPNode_GetMessage q1) as [[st' msg] q2]. cbn [snd] in Hg.
  destruct (DSP_SUCCEEDED st'); [destruct (negb (dwCmd msg =? cmd))|]; by eapply qos_quiet_trans.
Qed.

(** ** Deleting the node *)

Lemma delete_spec (q : Q) :
  let q' := QosTI_Delete q in
  mem q' = mem q /\ hProcessor q' = false /\ hNode q' = false /\
  (releases_succeed -> holds q = plus (plus (holds q') one_open) (links q)).
Proof.
  unfold QosTI_Delete. cbv zeta. destruct (do_quiet DSPNode_Terminate q law_terminate) as (T1 & T2 & T3 & T4).
  set (q1 := do_bridge DSPNode_Terminate q) in *.
  set (q2 := if hNode q1 then set_hNode false (do_bridge DSPNode_Delete q1) else q1).
  assert (H2 : mem q2 = mem q1 /\ hProcessor q2 = hProcessor q1 /\ hNode q2 = false /\
    (releases_succeed -> holds q1 = plus (holds q2) (when (hNode q1) one_node))).
  { unfold q2. destruct (hNode q1) eqn:En; [|split_and!; try done; intros _; by rewrite plus_nothing].
    destruct (do_gives one_node DSPNode_Delete q1 law_delete) as (G1 & G2 & _ & G4). split_and!; try done.
    intros Hr. by apply G4, Hr. }
  destruct H2 as (M2 & P2 & N2 & H2). assert (H3 : quiet q2 (if bool_decide (iMode = EDynamicLoad)
           then do_bridge (DSPManager_UnregisterObject DSP_DCDNODETYPE) (do_bridge (DSPManager_UnregisterObject DSP_DCDLIBRARYTYPE) q2)
           else q2)).
  { destruct (bool_decide _); [|done]. eapply qos_quiet_trans; by eapply do_quiet, law_unregister. }
  set (q3 := if bool_decide (iMode = EDynamicLoad) then _ else q2) in *. destruct H3 as (H3 & M3 & P3 & N3).
  set (q4 := if hProcessor q3 then set_hProcessor false (do_bridge DSPProcessor_Detach q3) else q3).
  assert (H4 : mem q4 = mem q3 /\ hNode q4 = hNode q3 /\ hProcessor q4 = false /\
    (releases_succeed -> holds q3 = plus (holds q4) (when (hProcessor q3) one_attached))).
  { unfold q4. destruct (hProcessor q3) eqn:En; [|split_and!; try done; intros _; by rewrite plus_nothing].
    destruct (do_gives one_attached DSPProcessor_Detach q3 law_detach) as (G1 & _ & G2 & G4). split_and!; try done.
    intros Hr. by apply G4, Hr. }
  destruct H4 as (M4 & N4 & P4 & H4). destruct (do_gives one_open DspManager_Close q4 law_close) as (M5 & P5 & N5 & H5).
  split_and!; [congruence..|]. intros Hr. specialize (H2 Hr). specialize (H4 Hr). specialize (H5 (proj2 (proj2 (Hr (bridge q4))))).
  rewrite <- T1, H2, <- H3, H4, H5. unfold links. rewrite P3, P2, T3, T4. counts_eq.
Qed.

(** A node that runs. *)
Definition linked (base : counts) (q : Q) : Prop := holds q = plus (plus base one_open) (links q).

Lemma delete_linked base (q : Q) : releases_succeed -> linked base q -> holds (QosTI_Delete q) = base.
Proof.
  intros Hr Hl. destruct (delete_spec q) as (_ & _ & _ & Hd). specialize (Hd Hr). unfold linked in Hl. rewrite Hl in Hd.
  by apply plus_cancel, plus_cancel in Hd.
Qed.

Lemma qos_create_spec (q : Q) :
  hProcessor q = false -> hNode q = false ->
  let '(status, q') := QosTI_Create q in
  mem q' = mem q /\
  if DSP_SUCCEEDED status then linked (holds q) q' /\ hProcessor q' = true /\ hNode q' = true
  else hProcessor q' = false /\ hNode q' = false /\
    (DSP_SUCCEEDED (DspManager_Open (bridge q)).1 = true -> releases_succeed -> holds q' = holds q).
Proof.
  intros Hp Hn. unfold QosTI_Create.
  (** A failure at a state that is linked, or of the opening. *)
  assert (Hfail : forall st (q1 : Q), DSP_SUCCEEDED st = false -> mem q1 = mem q ->
    (DSP_SUCCEEDED (DspManager_Open (bridge q)).1 = true -> linked (holds q) q1) ->
    let '(status, q') := if DSP_SUCCEEDED st then (st, q1) else (st, QosTI_Delete q1) in
    mem q' = mem q /\
    if DSP_SUCCEEDED status then linked (holds q) q' /\ hProcessor q' = true /\ hNode q' = true
    else hProcessor q' = false /\ hNode q' = false /\
      (DSP_SUCCEEDED (DspManager_Open (bridge q)).1 = true -> releases_succeed -> holds q' = holds q)).
  { intros st q1 Hst Hm Hl. rewrite Hst. destruct (delete_spec q1) as (D1 & D2 & D3 & _). rewrite Hst. split_and!; [congruence|done|done|].
    intros Ho Hr. by apply delete_linked, Hl. }
  pose proof (on_bridge_takes one_open DspManager_Open q law_open) as Ho.
  assert (Hst : (on_bridge DspManager_Open q).1 = (DspManager_Open (bridge q)).1) by (unfold on_bridge; by destruct (DspManager_Open (bridge q))).
  destruct (on_bridge DspManager_Open q) as [st q1]. cbn [fst] in Hst. destruct Ho as (O1 & O2 & O3 & O4).
  destruct (DSP_SUCCEEDED st) eqn:E; [|apply Hfail; [done|done|rewrite <- Hst, E; done]].
  set (i := processor_of _ _ _). pose proof (on_bridge_takes one_attached (DSPProcessor_Attach i) q1 (law_attach i)) as Ha.
  destruct (on_bridge (DSPProcessor_Attach i) q1) as [st1 q2]. destruct Ha as (A1 & A2 & A3 & A4).
  destruct (DSP_SUCCEEDED st1) eqn:E1.
  2:{ apply Hfail; [done|congruence|]. intros _. unfold linked, links. rewrite A1, O1, A3, A4, O3, O4, Hp, Hn. counts_eq. }
  pose proof (on_bridge_takes one_node DSPNode_Allocate (set_hProcessor true q2) law_allocate) as Hal.
  destruct (on_bridge DSPNode_Allocate _) as [st2 q3]. destruct Hal as (L1 & L2 & L3 & L4).
  change (holds (set_hProcessor true q2)) with (holds q2) in L1. change (mem (set_hProcessor true q2)) with (mem q2) in L2. cbn in L3, L4.
  destruct (DSP_SUCCEEDED st2) eqn:E2.
  2:{ apply Hfail; [done|congruence|]. intros _. unfold linked, links. rewrite L1, A1, O1, L3, L4, A4, O4, Hn. counts_eq. }
  pose proof (on_bridge_quiet DSPNode_Create (set_hNode true q3) law_create) as Hc.
  destruct (on_bridge DSPNode_Create _) as [st3 q4]. destruct Hc as (C1 & C2 & C3 & C4).
  change (holds (set_hNode true q3)) with (holds q3) in C1. change (mem (set_hNode true q3)) with (mem q3) in C2. cbn in C3, C4.
  assert (Hl : linked (holds q) q4) by (unfold linked, links; rewrite C1, L1, A1, O1, C3, C4, L3; counts_eq).
  destruct (DSP_SUCCEEDED st3) eqn:E3; [|apply Hfail; [done|congruence|done]].
  pose proof (on_bridge_quiet DSPNode_Run q4 law_run) as Hr.
  destruct (on_bridge DSPNode_Run q4) as [st4 q5]. destruct Hr as (R1 & R2 & R3 & R4).
  assert (Hl' : linked (holds q) q5) by (unfold linked, links in *; by rewrite R1, R3, R4).
  destruct (DSP_SUCCEEDED st4) eqn:E4; [|apply (Hfail st4 q5) in E4 as Hf; [by rewrite E4 in Hf|congruence|done]].
  rewrite E4. split_and!; [congruence|done|congruence|congruence].
Qed.

(** ** The blocks of a registry *)

Definition component_addresses (c : component) : list Z :=
  map address (resourceList c) ++ map l_address (dynDepLibList c) ++ [c_address c].
Definition registry_addresses (r : registry) : list Z :=
  map address (ResourceRegistry r) ++ flat_map component_addresses (ComponentRegistry r) ++ [r_address r].

(** The process holds a registry on top of what it held before. *)
Definition registry_held (base : counts) (X : gmultiset Z) (r : registry) (q : Q) : Prop :=
  linked base q /\ mem q = list_to_set_disj (registry_addresses r) ⊎ X.

Lemma free_all_app l l' (q : Q) : free_all (l ++ l') q = free_all l' (free_all l q).
Proof. apply fold_left_app. Qed.

(** Every block is freed once. *)
Lemma free_all_spec l (q : Q) (X : gmultiset Z) :
  mem q = list_to_set_disj l ⊎ X ->
  let q' := free_all l q in mem q' = X /\ holds q' = holds q /\ hProcessor q' = hProcessor q /\ hNode q' = hNode q.
Proof.
  revert q. induction l as [|p l IH]; intros q Hm; cbn [free_all fold_left]; cbn [list_to_set_disj] in Hm.
  { split_and!; try done. rewrite Hm. multiset_solver. }
  assert (Hp : p ∈ heap_blocks (bridge q)) by (change (p ∈ mem q); rewrite Hm; multiset_solver).
  destruct (law_free p (bridge q) Hp) as [Fh Fm]. change (mem q = {[+ p +]} ⊎ mem (free_block p q)) in Fm.
  rewrite Fm, <- (assoc_L (⊎)) in Hm. apply (inj (disj_union {[+ p +]})) in Hm.
  destruct (IH (free_block p q) Hm) as (I1 & I2 & I3 & I4). unfold free_all in *. split_and!; try done.
  rewrite I2. exact Fh.
Qed.

Lemma delete_components_all l (q : Q) : delete_components l q = free_all (flat_map component_addresses l) q.
Proof.
  revert q. induction l as [|c l IH]; intros q; [done|]. cbn [flat_map delete_components fold_left].
  unfold delete_components in *. rewrite IH, free_all_app. f_equal. unfold delete_component, component_addresses. by rewrite !free_all_app.
Qed.

Lemma registry_delete_spec base X r (q : Q) :
  registry_held base X r q ->
  let q' := DSPRegistry_Delete (Some r) q in
  mem q' = X /\ hProcessor q' = false /\ hNode q' = false /\ (releases_succeed -> holds q' = base).
Proof.
  intros [Hl Hm]. cbn [DSPRegistry_Delete]. unfold delete_resources. rewrite delete_components_all, <- free_all_app.
  unfold registry_addresses in Hm. rewrite (assoc_L (++)) in Hm. rewrite list_to_set_disj_app, <- (assoc_L (⊎)) in Hm.
  destruct (free_all_spec _ _ _ Hm) as (F1 & F2 & F3 & F4). set (q1 := free_all _ q) in *.
  destruct (delete_spec q1) as (D1 & D2 & D3 & _). set (q2 := QosTI_Delete q1) in *.
  rewrite F1 in D1. destruct (free_all_spec _ _ _ D1) as (G1 & G2 & G3 & G4). cbn [free_all fold_left] in *.
  split_and!; [done|congruence|congruence|]. intros Hr. rewrite G2. apply delete_linked; [done|].
  unfold linked, links in *. by rewrite F2, F3, F4.
Qed.

Lemma quiet_held base X r q q' : registry_held base X r q -> quiet q q' -> registry_held base X r q'.
Proof. intros [Hl Hm] (H1 & H2 & H3 & H4). unfold registry_held, linked, links in *. by rewrite H1, H2, H3, H4. Qed.

(** ** Asking takes nothing *)

Lemma update_quiet x (q : Q) : let '(_, _, q') := ResourceUpdateInfo x q in quiet q q'.
Proof.
  pose proof msg_quiet as Hm. unfold ResourceUpdateInfo. destruct (data x) as [m|p| |d]; [|..]; try apply qos_quiet_refl.
  - assert (Ha : let '(_, _, q') := update_dyn_alloc m q in quiet q q').
    { unfold update_dyn_alloc. destruct (heapId m <=? KAllHeaps); [|apply qos_quiet_refl].
      pose proof (Hm QOS_TI_GETMEMSTAT (heapId m) USED_HEAPSIZE q) as H1.
      destruct (QosTI_DspMsg _ _ _ q) as [[st out] q1]. destruct out as [[o1 o2]|]; cbv zeta; cbn [heapId];
        pose proof (Hm QOS_TI_GETMEMSTAT (heapId m) LARGEST_FREE_BLOCKSIZE q1) as H2;
        destruct (QosTI_DspMsg _ _ _ q1) as [[st' out'] q2]; by eapply qos_quiet_trans. }
    assert (Hs : let '(_, _, q') := update_scratch m q in quiet q q').
    { unfold update_scratch. destruct (bool_decide _); [|apply qos_quiet_refl].
      pose proof (Hm QOS_TI_GETSHAREDSCRATCH (type m) (group m) q) as H1. by destruct (QosTI_DspMsg _ _ _ q) as [[st out] q1]. }
    assert (Hl : let '(_, _, q') := update_dyn_load m q in quiet q q').
    { unfold update_dyn_load. destruct (QosTI_GetDynLoaderMemStat (heapId m) q). apply qos_quiet_refl. }
    destruct (update_dyn_alloc m q) as [[? ?] ?], (update_scratch m q) as [[? ?] ?], (update_dyn_load m q) as [[? ?] ?].
    by destruct (Id x).
  - unfold update_processor. pose proof (Hm QOS_TI_GETCPULOAD 0 0 q) as H1.
    destruct (QosTI_DspMsg _ _ _ q) as [[st out] q1]. by destruct (QosTI_GetProcLoadStat q1).
Qed.

Lemma find_quiet t room found l (q : Q) :
  let '(_, _, _, l', q') := find_resources t room found l q in map address l' = map address l /\ quiet q q'.
Proof.
  revert found q. induction l as [|x l IH]; intros found q; cbn [find_resources]; [by split|].
  destruct (bool_decide (Id x = t)).
  - destruct (found <? room)%nat.
    + pose proof (update_quiet x q) as Hq. pose proof (update_name x q) as Hx. destruct (ResourceUpdateInfo x q) as [[st x'] q1].
      destruct Hx as [Hx _]. destruct (DSP_SUCCEEDED st); [|cbn; by rewrite Hx].
      specialize (IH (S found) q1). destruct (find_resources t room (S found) l q1) as [[[[? ?] ?] l'] q2].
      destruct IH as [Hl Hq2]. split; [cbn; by rewrite Hx, Hl|by eapply qos_quiet_trans].
    + specialize (IH (S found) q). destruct (find_resources t room (S found) l q) as [[[[? ?] ?] l'] q2].
      destruct IH as [Hl Hq2]. split; [cbn; by f_equal|done].
  - specialize (IH found q). destruct (find_resources t room found l q) as [[[[? ?] ?] l'] q2].
    destruct IH as [Hl Hq2]. split; [cbn; by f_equal|done].
Qed.

Lemma registry_find_held base X t n r (q : Q) :
  registry_held base X r q -> let '(_, r', q') := DSPRegistry_Find t n r q in registry_held base X r' q'.
Proof.
  intros Hr. unfold DSPRegistry_Find. destruct (DSPData_IsResource t); [|by destruct t].
  pose proof (find_quiet t n 0 (ResourceRegistry r) q) as Hf.
  destruct (find_resources t n 0 (ResourceRegistry r) q) as [[[[? ?] ?] l'] q2]. destruct Hf as [Hl Hq].
  apply (quiet_held _ _ _ _ q2) in Hr; [|done]. unfold registry_held, registry_addresses in *. cbn. by rewrite Hl.
Qed.

(** ** Adding *)

Lemma calloc_spec t (q : Q) :
  let '(x, q') := DSPData_Create t q in
  mem q' = match x with Some x => {[+ address x +]} | None => ∅ end ⊎ mem q /\ holds q' = holds q /\
  hProcessor q' = hProcessor q /\ hNode q' = hNode q.
Proof.
  unfold DSPData_Create, on_bridge, holds, mem. pose proof (law_calloc (bridge q)) as [Hh Hm].
  destruct (calloc (bridge q)) as [p b]. cbn in *. rewrite Hm, Hh. by destruct (p =? 0).
Qed.

Definition pair_held (base : counts) (X : gmultiset Z) (st : registry * Q) : Prop := registry_held base X st.1 st.2.

Lemma create_into base X t r (q : Q) (f : resource -> resource) :
  (forall x, address (f x) = address x) -> registry_held base X r q ->
  let '(x, q') := DSPData_Create t q in pair_held base X (match x with Some x => (add_resource (f x) r, q') | None => (r, q') end).
Proof.
  intros Hf [Hl Hm]. pose proof (calloc_spec t q) as Hc. destruct (DSPData_Create t q) as [x q']. destruct Hc as (H1 & H2 & H3 & H4).
  assert (Hl' : linked base q') by (unfold linked, links in *; by rewrite H2, H3, H4).
  destruct x as [x|]; (split; [exact Hl'|]); cbn [fst snd]; rewrite H1, Hm.
  - unfold registry_addresses. cbn [add_resource DSPRegistry_Add snd ResourceRegistry ComponentRegistry r_address map app list_to_set_disj].
    rewrite Hf. multiset_solver.
  - multiset_solver.
Qed.

Lemma add_default_held base X d st : pair_held base X st -> pair_held base X (add_default d st).
Proof.
  destruct st as [r q]. intros Hr. unfold add_default.
  pose proof (create_into base X d.1 r q (set_data (Memory d.2)) ltac:(done) Hr) as Hc.
  destruct (DSPData_Create d.1 q) as [[x|] q']; exact Hc.
Qed.

Lemma add_processor_held base X st : pair_held base X st -> pair_held base X (add_processor st).
Proof.
  destruct st as [r q]. intros Hr. unfold add_processor.
  pose proof (create_into base X QOSDataType_Processor_C6X r q id ltac:(done) Hr) as Hc.
  destruct (DSPData_Create _ q) as [[x|] q']; exact Hc.
Qed.

Lemma add_stream_held base X d st : pair_held base X st -> pair_held base X (add_stream d st).
Proof.
  destruct st as [r q]. intros Hr. unfold add_stream.
  pose proof (create_into base X QOSDataType_Stream r q (set_data (Stream d)) ltac:(done) Hr) as Hc.
  destruct (DSPData_Create _ q) as [[x|] q']; exact Hc.
Qed.

Lemma fold_held {A} base X (f : registry * Q -> A -> registry * Q) l st :
  (forall st a, pair_held base X st -> pair_held base X (f st a)) -> pair_held base X st -> pair_held base X (fold_left f l st).
Proof. intros Hf. revert st. induction l as [|a l IH]; intros st Hs; cbn; [done|]. by apply IH, Hf. Qed.

(** Looking up, one after the other. *)
Definition lookups (ts : list (QOSDATATYPE * nat)) (st : registry * Q) : registry * Q :=
  fold_left (fun st t => let '(_, r, q) := DSPRegistry_Find t.1 t.2 st.1 st.2 in (r, q)) ts st.

(** What is left after the end of a registry: the memory as it was, no node and no processor in the globals; and the handles
    of the driver as they were, when it was opened and the calls that release them succeed. *)
Definition all_back (q q' : Q) : Prop :=
  mem q' = mem q /\ hProcessor q' = false /\ hNode q' = false /\
  (DSP_SUCCEEDED (DspManager_Open (calloc (bridge q)).2).1 = true -> releases_succeed -> holds q' = holds q).


End Balance.


(** * A bridge *)

(** A driver that opens or not, and a DSP with two heaps; the last message is the one answered; the releasing calls
    succeed. *)
Record world := mkWorld {
  w_status : Z; w_counts : counts; w_blocks : gmultiset Z; w_last : dsp_msg; w_next : Z; w_load : Z }.
Definition w_set (c : counts) (w : world) : world :=
  mkWorld (w_status w) c (w_blocks w) (w_last w) (w_next w) (w_load w).
Definition w_take (c : counts) (w : world) : Z * world := (0, w_set (plus (w_counts w) c) w).
Definition w_give (c : counts) (w : world) : Z * world :=
  (0, w_set (plus (w_counts w) (mkCounts (- opened c) (- attached c) (- nodes c))) w).

Definition w_answer (m : dsp_msg) : dsp_msg :=
  if dwCmd m =? QOS_TI_GETMEMSTAT then
    if dwArg1 m =? NUMHEAPS then mkMsg (dwCmd m) 2 0
    else if dwArg2 m =? USED_HEAPSIZE then mkMsg (dwCmd m) 1000 400
    else mkMsg (dwCmd m) 300 0
  else mkMsg (dwCmd m) 50 0.

#[export] Instance world_bridge : Bridge world := {
  DspManager_Open w := if DSP_SUCCEEDED (w_status w) then (w_status w, (w_take one_open w).2) else (w_status w, w);
  DspManager_Close := w_give one_open;
  uProcessorTypes _ := [7; DSPTYPE_64];
  DSPProcessor_Attach _ := w_take one_attached;
  DSPProcessor_Detach := w_give one_attached;
  DSPNode_Allocate := w_take one_node;
  DSPNode_Create w := (0, w);
  DSPNode_Run w := (0, w);
  DSPNode_Terminate w := (0, w);
  DSPNode_Delete := w_give one_node;
  DSPManager_RegisterObject _ w := (0, w);
  DSPManager_UnregisterObject _ w := (0, w);
  DSPNode_PutMessage m w := (0, mkWorld (w_status w) (w_counts w) (w_blocks w) m (w_next w) (w_load w));
  DSPNode_GetMessage w := (0, w_answer (w_last w), w);
  heap_info _ _ := (0, mkMemStat 500 200 3 150 4);
  load_info w := (0, mkLoadStat (w_load w) 0 0 0);
  calloc w := (w_next w, mkWorld (w_status w) (w_counts w)
                           ((if w_next w =? 0 then ∅ else {[+ w_next w +]}) ⊎ w_blocks w) (w_last w)
                           (if w_next w =? 0 then 0 else w_next w + 1) (w_load w));
  free p w := mkWorld (w_status w) (w_counts w) (w_blocks w ∖ {[+ p +]}) (w_last w) (w_next w) (w_load w) }.

#[export] Instance world_footprint : Footprint world := { held := w_counts; heap_blocks := w_blocks }.

Lemma w_take_takes c : takes c (w_take c).
Proof. done. Qed.
Lemma w_give_gives c : gives c (w_give c).
Proof. intros w. split; [|done]. cbn. counts_eq. Qed.
Lemma w_skip c f : (forall w : world, held (f w).2 = held w /\ heap_blocks (f w).2 = heap_blocks w) -> c = nothing -> takes c f.
Proof. intros Hf -> w. destruct (Hf w) as [-> ->]. split; [counts_eq|done]. Qed.

#[export] Instance world_laws : BridgeLaws world.
Proof.
  refine {| bridge_footprint := world_footprint |};
    try (intros; first [apply w_take_takes | apply w_give_gives | by apply w_skip]).
  - intros w. cbn. destruct (DSP_SUCCEEDED (w_status w)) eqn:E; cbn; rewrite E; (split; [|done]); counts_eq.
  - done.
  - done.
  - intros p w Hp. split; [done|]. cbn. by apply gmultiset_disj_union_difference'.
Defined.

Definition fresh (status load : Z) : qos world :=
  mkQos false false (mkWorld status (mkCounts 0 0 0) ∅ (mkMsg 0 0 0) 1 load).

(** * Samples *)

(** The resources of a DSP with two heaps. *)
Definition sample_registry : option registry := (DSPRegistry_Create (fresh 0 0)).1.

Lemma created_resources :
  option_map (fun r => map (fun x => (Id x, data x)) (ResourceRegistry r)) sample_registry =
  Some [(QOSDataType_Stream, Stream DSP_FROMNODE); (QOSDataType_Stream, Stream DSP_TONODE);
        (QOSDataType_Processor_C6X, Processor (mkProcessor 0 0 0 0 0));
        (QOSDataType_Memory_DynAlloc, Memory (heap_memory 1)); (QOSDataType_Memory_DynAlloc, Memory (heap_memory 0));
        (QOSDataType_Memory_Scratch, Memory (mkMemory 0 0 0 1 0 0 0));
        (QOSDataType_Memory_DynAlloc, Memory (heap_memory KAllHeaps));
        (QOSDataType_Memory_DynLoad, Memory (heap_memory 2)); (QOSDataType_Memory_DynLoad, Memory (heap_memory 1));
        (QOSDataType_Memory_DynLoad, Memory (heap_memory 0))].
Proof. vm_compute. reflexivity. Qed.

(** A request for 900 bytes fits in the heap of 1000, one for 1000 does not. *)
Lemma available_samples :
  option_map (fun r => map (fun n => (HasAvailableResource (Resource (mkResource 99 QOSDataType_Memory_DynAlloc (Memory (mkMemory 4 0 n 0 0 0 0)))) r (fresh 0 0)).1.1)
    [900; 1000]) sample_registry = Some [true; false].
Proof. vm_compute. reflexivity. Qed.

(** When the driver cannot be opened, the creation closes it nevertheless. *)
Lemma unopened_closed :
  (DSPRegistry_Create (fresh (- EPERM) 0)).1 = None /\ holds (DSPRegistry_Create (fresh (- EPERM) 0)).2 = mkCounts (-1) 0 0.
Proof. vm_compute. split; reflexivity. Qed.

Lemma registry_find_two_calls_witness :
  let r := match sample_registry with Some r => r | None => mkRegistry 0 [] [] end in
  let q := (DSPRegistry_Create (fresh 0 0)).2 in
  DSPData_IsResource QOSDataType_Memory_DynAlloc = true /\
  length (of_type QOSDataType_Memory_DynAlloc (ResourceRegistry r)) = 3%nat /\
  (DSPRegistry_Find QOSDataType_Memory_DynAlloc 0 r q).1.1 = (- EINVAL, 3%nat, []) /\
  (DSPRegistry_Find QOSDataType_Memory_DynAlloc 3 r q).1.1.1.2 = 3%nat.
Proof.
  intros r q. split; [reflexivity|].
  destruct (registry_find_two_calls QOSDataType_Memory_DynAlloc r q eq_refl) as [H1 H2].
  assert (Hn : length (of_type QOSDataType_Memory_DynAlloc (ResourceRegistry r)) = 3%nat) by (vm_compute; reflexivity).
  rewrite Hn in H1, H2. split; [exact Hn|]. split; [by rewrite H1|].
  specialize (H2 ltac:(done)). destruct (DSPRegistry_Find QOSDataType_Memory_DynAlloc 3 r q) as [[[[? ?] ?] ?] ?].
  exact (proj1 H2).
Defined.

