(* ===== verification/ResourceManager.v ===== *)
(** The resource manager (src/omx/system/src/openmax_il/resource_manager/src/ResourceManager.c): the
    server between the components of all processes and the policy manager.  It keeps the list
    of components with their pipes, forwards requests to the policy manager, answers them when the DSP
    has room, and sets the operating point from the load of the components that run.
    A result [None] is an access out of bounds. *)

From Stdlib Require Import ZArith Lia String Ascii.
From stdpp Require Import base list list_numbers strings option tactics.
From S2P Require Import Prelude PolicyManager ActivityMonitor QosRegistry.
Local Open Scope Z_scope.

(** * Messages *)

Inductive RM_COMMANDTYPE :=
  | RM_Init | RM_RequestResource | RM_WaitForResource | RM_FreeResource | RM_FreeAndCloseResource
  | RM_CancelWaitForResource | RM_StateSet | RM_OpenPipe | RM_ReusePipe | RM_Exit | RM_ExitTI.
Inductive RESOURCEMANAGER_ERRORTYPE :=
  | RM_ErrorNone | RM_GRANT | RM_DENY | RM_PREEMPT | RM_RESOURCEACQUIRED | RM_RESOURCEFATALERROR.

(** RESOURCEMANAGER_COMMANDDATATYPE; [sender] is the handle with the process. *)
Record message := mkMessage {
  sender : client; RM_Cmd : RM_COMMANDTYPE;
  param1 : Z; param2 : Z; param3 : Z; param4 : Z; rm_status : RESOURCEMANAGER_ERRORTYPE }.

Definition set_status_field (st : RESOURCEMANAGER_ERRORTYPE) (m : message) : message :=
  mkMessage (sender m) (RM_Cmd m) (param1 m) (param2 m) (param3 m) (param4 m) st.
Definition set_handle (h : Z) (m : message) : message :=
  mkMessage (mkClient h (nPid (sender m))) (RM_Cmd m) (param1 m) (param2 m) (param3 m) (param4 m) (rm_status m).
Definition set_sender (c : client) (m : message) : message :=
  mkMessage c (RM_Cmd m) (param1 m) (param2 m) (param3 m) (param4 m) (rm_status m).

(** What the manager does to its pipes. *)
Inductive output :=
  | To_policy (c : command) | To_client (fd : Z) (m : message) | Close_pipe (fd : Z).

(** * The list of components *)

(** [RM_NoStatus] is the zero of a cell whose status was never set. *)
Inductive RM_COMPONENTSTATUS :=
  | RM_NoStatus | RM_ComponentActive | RM_WaitingForClient | RM_WaitingForResource | RM_WaitingForPolicy.
Inductive RM_DENYREASON := RM_ReasonNone | RM_ReasonResource | RM_ReasonPolicy.
#[global] Instance status_eq_dec : EqDecision RM_COMPONENTSTATUS.
Proof. solve_decision. Defined.

Definition OMX_StateInvalid : Z := 0.
Definition OMX_StateLoaded : Z := 1.
Definition OMX_StateIdle : Z := 2.
Definition OMX_StateExecuting : Z := 3.
Definition OMX_StatePause : Z := 4.
Definition OMX_StateWaitForResources : Z := 5.

Record registered := mkRegistered {
  owner : client; componentState : Z; componentCPU : Z; componentPipe : Z;
  status : RM_COMPONENTSTATUS; reason : RM_DENYREASON }.
Definition zero_registered : registered := mkRegistered (mkClient 0 0) 0 0 0 RM_NoStatus RM_ReasonNone.
Definition with_state (st : Z) (r : registered) : registered :=
  mkRegistered (owner r) st (componentCPU r) (componentPipe r) (status r) (reason r).
Definition with_status (st : RM_COMPONENTSTATUS) (r : registered) : registered :=
  mkRegistered (owner r) (componentState r) (componentCPU r) (componentPipe r) st (reason r).
Definition with_reason (rs : RM_DENYREASON) (r : registered) : registered :=
  mkRegistered (owner r) (componentState r) (componentCPU r) (componentPipe r) (status r) rs.

(** * Loads *)

(** The unsigned totals of the MHz of the components that run, by their kind. *)
Inductive kind := RM_IMAGE | RM_VIDEO | RM_AUDIO | RM_LCD | RM_CAMERA.
#[global] Instance kind_eq_dec : EqDecision kind.
Proof. solve_decision. Defined.

Record totals := mkTotals {
  imageTotalCpu : Z; videoTotalCpu : Z; audioTotalCpu : Z; lcdTotalCpu : Z; cameraTotalCpu : Z; totalCpu : Z }.

(** The numbers of OMX_COMPONENTINDEXTYPE. *)
Definition OMX_MP3_Decoder_COMPONENT : Z := 0.
Definition OMX_AAC_Decoder_COMPONENT : Z := 1.
Definition OMX_AAC_Encoder_COMPONENT : Z := 2.
Definition OMX_ARMAAC_Encoder_COMPONENT : Z := 3.
Definition OMX_ARMAAC_Decoder_COMPONENT : Z := 4.
Definition OMX_PCM_Decoder_COMPONENT : Z := 5.
Definition OMX_PCM_Encoder_COMPONENT : Z := 6.
Definition OMX_NBAMR_Decoder_COMPONENT : Z := 7.
Definition OMX_NBAMR_Encoder_COMPONENT : Z := 8.
Definition OMX_WBAMR_Decoder_COMPONENT : Z := 9.
Definition OMX_WBAMR_Encoder_COMPONENT : Z := 10.
Definition OMX_WMA_Decoder_COMPONENT : Z := 11.
Definition OMX_G711_Decoder_COMPONENT : Z := 12.
Definition OMX_G711_Encoder_COMPONENT : Z := 13.
Definition OMX_G722_Decoder_COMPONENT : Z := 14.
Definition OMX_G722_Encoder_COMPONENT : Z := 15.
Definition OMX_G723_Decoder_COMPONENT : Z := 16.
Definition OMX_G723_Encoder_COMPONENT : Z := 17.
Definition OMX_G726_Decoder_COMPONENT : Z := 18.
Definition OMX_G726_Encoder_COMPONENT : Z := 19.
Definition OMX_G729_Decoder_COMPONENT : Z := 20.
Definition OMX_G729_Encoder_COMPONENT : Z := 21.
Definition OMX_GSMFR_Decoder_COMPONENT : Z := 22.
Definition OMX_GSMHR_Decoder_COMPONENT : Z := 23.
Definition OMX_GSMFR_Encoder_COMPONENT : Z := 24.
Definition OMX_GSMHR_Encoder_COMPONENT : Z := 25.
Definition OMX_ILBC_Decoder_COMPONENT : Z := 26.
Definition OMX_ILBC_Encoder_COMPONENT : Z := 27.
Definition OMX_IMAADPCM_Decoder_COMPONENT : Z := 28.
Definition OMX_IMAADPCM_Encoder_COMPONENT : Z := 29.
Definition OMX_RAGECKO_Decoder_COMPONENT : Z := 30.
Definition OMX_MPEG4_Decode_COMPONENT : Z := 31.
Definition OMX_MPEG4_Encode_COMPONENT : Z := 32.
Definition OMX_H263_Decode_COMPONENT : Z := 33.
Definition OMX_H263_Encode_COMPONENT : Z := 34.
Definition OMX_H264_Decode_COMPONENT : Z := 35.
Definition OMX_H264_Encode_COMPONENT : Z := 36.
Definition OMX_WMV_Decode_COMPONENT : Z := 37.
Definition OMX_MPEG2_Decode_COMPONENT : Z := 38.
Definition OMX_720P_Decode_COMPONENT : Z := 39.
Definition OMX_720P_Encode_COMPONENT : Z := 40.
Definition OMX_JPEG_Decoder_COMPONENT : Z := 41.
Definition OMX_JPEG_Encoder_COMPONENT : Z := 42.
Definition OMX_VPP_COMPONENT : Z := 43.
Definition OMX_CAMERA_COMPONENT : Z := 44.
Definition OMX_DISPLAY_COMPONENT : Z := 45.

Definition audio_components : list Z :=
  [OMX_MP3_Decoder_COMPONENT; OMX_AAC_Decoder_COMPONENT; OMX_AAC_Encoder_COMPONENT;
   OMX_ARMAAC_Encoder_COMPONENT; OMX_ARMAAC_Decoder_COMPONENT; OMX_PCM_Decoder_COMPONENT;
   OMX_PCM_Encoder_COMPONENT; OMX_NBAMR_Decoder_COMPONENT; OMX_NBAMR_Encoder_COMPONENT;
   OMX_WBAMR_Decoder_COMPONENT; OMX_WBAMR_Encoder_COMPONENT; OMX_WMA_Decoder_COMPONENT;
   OMX_G711_Decoder_COMPONENT; OMX_G711_Encoder_COMPONENT; OMX_G722_Decoder_COMPONENT;
   OMX_G722_Encoder_COMPONENT; OMX_G723_Decoder_COMPONENT; OMX_G723_Encoder_COMPONENT;
   OMX_G726_Decoder_COMPONENT; OMX_G726_Encoder_COMPONENT; OMX_G729_Decoder_COMPONENT;
   OMX_G729_Encoder_COMPONENT; OMX_GSMFR_Decoder_COMPONENT; OMX_GSMHR_Decoder_COMPONENT;
   OMX_GSMFR_Encoder_COMPONENT; OMX_GSMHR_Encoder_COMPONENT; OMX_ILBC_Decoder_COMPONENT;
   OMX_ILBC_Encoder_COMPONENT; OMX_RAGECKO_Decoder_COMPONENT].

Definition video_components : list Z :=
  [OMX_MPEG4_Decode_COMPONENT; OMX_MPEG4_Encode_COMPONENT; OMX_H263_Decode_COMPONENT; OMX_H263_Encode_COMPONENT;
   OMX_H264_Decode_COMPONENT; OMX_H264_Encode_COMPONENT; OMX_WMV_Decode_COMPONENT; OMX_MPEG2_Decode_COMPONENT;
   OMX_720P_Decode_COMPONENT; OMX_720P_Encode_COMPONENT].

Definition image_components : list Z :=
  [OMX_JPEG_Decoder_COMPONENT; OMX_JPEG_Encoder_COMPONENT; OMX_VPP_COMPONENT].

Definition camera_components : list Z :=
  [OMX_CAMERA_COMPONENT].

Definition lcd_components : list Z :=
  [OMX_DISPLAY_COMPONENT].

Definition componentType (p : Z) : option kind :=
  if bool_decide (p ∈ audio_components) then Some RM_AUDIO
  else if bool_decide (p ∈ video_components) then Some RM_VIDEO
  else if bool_decide (p ∈ image_components) then Some RM_IMAGE
  else if bool_decide (p ∈ camera_components) then Some RM_CAMERA
  else if bool_decide (p ∈ lcd_components) then Some RM_LCD
  else None.

(** The total of a kind changes by [d]; then the sum of all is taken. *)
Definition add_load (k : option kind) (d : Z) (t : totals) : totals :=
  let on k' x := if bool_decide (k = Some k') then u32 (x + d) else x in
  let image := on RM_IMAGE (imageTotalCpu t) in
  let video := on RM_VIDEO (videoTotalCpu t) in
  let audio := on RM_AUDIO (audioTotalCpu t) in
  let lcd := on RM_LCD (lcdTotalCpu t) in
  let camera := on RM_CAMERA (cameraTotalCpu t) in
  mkTotals image video audio lcd camera (u32 (audio + video + image + camera + lcd)).

Definition RM_CPUAVGDEPTH : nat := 5.
Record RM_CPULoadStruct := mkCpu {
  averageCpuLoad : Z; cyclesInUse : Z; cyclesAvailable : Z; snapshotsCaptured : nat; cpuLoadSnapshots : list Z }.

(** * Names of pipes *)

Definition RM_SERVER_OUT : string := "/dev/rm_server_out".

(** The characters written before the end of the string, the lowest digit first. *)
Fixpoint digits_loop (fuel : nat) (n : Z) {struct fuel} : list ascii :=
  match fuel with
  | O => []
  | S fuel =>
      let c := chr (Z.rem n 10 + 48) in
      let n := Z.quot n 10 in
      if 0 <? n then c :: digits_loop fuel n else [c]
  end.

(** The characters between the two indices change places. *)
Fixpoint reverse_loop (fuel : nat) (i j : nat) (s : list ascii) {struct fuel} : option (list ascii) :=
  match fuel with
  | O => None
  | S fuel =>
      if (i <? j)%nat then
        let* c := s !! i in
        let* d := s !! j in
        reverse_loop fuel (S i) (j - 1) (<[j := c]> (<[i := d]> s))
      else Some s
  end.
(** There is a digit, so that the last index is not below zero. *)
Definition RM_reverse (s : list ascii) : option (list ascii) := reverse_loop (S (length s)) 0 (length s - 1) s.

(** The least integer has no opposite. *)
Definition RM_itoa (n : Z) : option (list ascii) :=
  if n =? - 2 ^ 31 then None
  else RM_reverse (digits_loop 10 (Z.abs n) ++ (if n <? 0 then ["-"%char] else [])).

Definition pipe_name (nPid : Z) : option string :=
  let* s := RM_itoa (s32 nPid) in
  Some (RM_SERVER_OUT +:+ "_" +:+ string_of_list_ascii s).

(** * The state *)

(** The globals of the process: the list of components, the last command read, the request that the policy manager
    was asked about last, and the libraries. *)
Record rm (K B : Type) := mkRm {
  components : list registered; numRegisteredComponents : nat;
  cmd_data : message; globalrequest_cmd_data : message;
  stub_mode : bool; mmuRecoveryInProgress : bool;
  loads : totals; cpuStruct : RM_CPULoadStruct; fdwrite : Z;
  ram : monitor K; qosti : qos B; outbox : list output }.
Arguments mkRm {K B}.
Arguments components {K B}.
Arguments numRegisteredComponents {K B}.
Arguments cmd_data {K B}.
Arguments globalrequest_cmd_data {K B}.
Arguments stub_mode {K B}.
Arguments mmuRecoveryInProgress {K B}.
Arguments loads {K B}.
Arguments cpuStruct {K B}.
Arguments fdwrite {K B}.
Arguments ram {K B}.
Arguments qosti {K B}.
Arguments outbox {K B}.

Section Manager.
Context {K B : Type} `{Sysfs K} `{Bridge B}.
Notation RM := (rm K B).

Definition set_table (n : nat) (cs : list registered) (s : RM) : RM :=
  mkRm cs n (cmd_data s) (globalrequest_cmd_data s) (stub_mode s) (mmuRecoveryInProgress s)
    (loads s) (cpuStruct s) (fdwrite s) (ram s) (qosti s) (outbox s).
Definition set_cmd (m : message) (s : RM) : RM :=
  mkRm (components s) (numRegisteredComponents s) m (globalrequest_cmd_data s) (stub_mode s) (mmuRecoveryInProgress s)
    (loads s) (cpuStruct s) (fdwrite s) (ram s) (qosti s) (outbox s).
Definition set_request (m : message) (s : RM) : RM :=
  mkRm (components s) (numRegisteredComponents s) (cmd_data s) m (stub_mode s) (mmuRecoveryInProgress s)
    (loads s) (cpuStruct s) (fdwrite s) (ram s) (qosti s) (outbox s).
Definition set_mmu (b : bool) (s : RM) : RM :=
  mkRm (components s) (numRegisteredComponents s) (cmd_data s) (globalrequest_cmd_data s) (stub_mode s) b
    (loads s) (cpuStruct s) (fdwrite s) (ram s) (qosti s) (outbox s).
Definition set_loads (t : totals) (m : monitor K) (s : RM) : RM :=
  mkRm (components s) (numRegisteredComponents s) (cmd_data s) (globalrequest_cmd_data s) (stub_mode s) (mmuRecoveryInProgress s)
    t (cpuStruct s) (fdwrite s) m (qosti s) (outbox s).
Definition set_qos (stub : bool) (c : RM_CPULoadStruct) (q : qos B) (s : RM) : RM :=
  mkRm (components s) (numRegisteredComponents s) (cmd_data s) (globalrequest_cmd_data s) stub (mmuRecoveryInProgress s)
    (loads s) c (fdwrite s) (ram s) q (outbox s).
Definition set_out (fd : Z) (o : list output) (s : RM) : RM :=
  mkRm (components s) (numRegisteredComponents s) (cmd_data s) (globalrequest_cmd_data s) (stub_mode s) (mmuRecoveryInProgress s)
    (loads s) (cpuStruct s) fd (ram s) (qosti s) o.

Definition emit (o : output) (s : RM) : RM := set_out (fdwrite s) (outbox s ++ [o]) s.
Definition to_policy (c : command) (s : RM) : RM := emit (To_policy c) s.
(** Writing to no pipe fails. *)
Definition to_client (fd : Z) (m : message) (s : RM) : RM := if fd <? 0 then s else emit (To_client fd m) s.

(** * The list of components *)

Definition owns (c : client) (r : registered) : bool := bool_decide (c = owner r).

Definition RM_GetListIndex (c : client) (s : RM) : option (option nat) :=
  find_index (owns c) (components s) (numRegisteredComponents s) 0.

Definition update_component (i : nat) (f : registered -> registered) (s : RM) : option RM :=
  let* r := components s !! i in Some (set_table (numRegisteredComponents s) (<[i := f r]> (components s)) s).

Definition RM_SetStatus (c : client) (st : RM_COMPONENTSTATUS) (s : RM) : option RM :=
  let* m := RM_GetListIndex c s in
  match m with Some i => update_component i (with_status st) s | None => Some s end.

(** The process is not compared with the caller's but with zero; not called by the server. *)
Definition RM_SetReason (hComponent : Z) (rs : RM_DENYREASON) (s : RM) : option RM :=
  let* m := RM_GetListIndex (mkClient hComponent 0) s in
  match m with Some i => update_component i (with_reason rs) s | None => Some s end.

Definition RM_GetPipe (c : client) (s : RM) : option Z :=
  let* m := RM_GetListIndex c s in
  match m with
  | Some i => let* r := components s !! i in Some (componentPipe r)
  | None => Some (-1)
  end.

(** A new cell keeps the status it had. *)
Definition RM_AddPipe (cmd : message) (aPipe : Z) (s : RM) : option RM :=
  let* m := RM_GetListIndex (sender cmd) s in
  match m with
  | Some _ => Some s
  | None =>
      let n := numRegisteredComponents s in
      let* old := components s !! n in
      let* cs := arr_set (components s) (Z.of_nat n)
                   (mkRegistered (sender cmd) OMX_StateIdle (param2 cmd) aPipe (status old) RM_ReasonNone) in
      Some (set_table (S n) cs s)
  end.

Definition RM_ClosePipe (cmd : message) (s : RM) : option RM :=
  let* m := RM_GetListIndex (sender cmd) s in
  match m with
  | Some i => let* r := components s !! i in Some (emit (Close_pipe (componentPipe r)) (set_out (componentPipe r) (outbox s) s))
  | None => Some s
  end.

(** [fd] is what opening the pipe of the process for writing returns. *)
Definition RM_CreatePipe (cmd : message) (fd : string -> Z) (s : RM) : option RM :=
  let* name := pipe_name (nPid (sender cmd)) in
  let s := set_out (fd name) (outbox s) s in
  if fd name <? 0 then Some s else RM_AddPipe cmd (fd name) s.

Definition RM_RemoveComponentFromList (c : client) (s : RM) : option RM :=
  let* m := RM_GetListIndex c s in
  match m with
  | Some k =>
      let n := numRegisteredComponents s in
      let* cs := shift_down k n (components s) in
      Some (set_table (n - 1) cs s)
  | None => Some s
  end.

(** * The commands *)

Definition HandleRequestResource (cmd : message) (s : RM) : option RM :=
  Some (if negb (stub_mode s) then
          let g := globalrequest_cmd_data s in
          let s := set_request (mkMessage (sender cmd) RM_RequestResource (param1 cmd) (param2 g) (param3 g) (param4 g) (rm_status g)) s in
          to_policy (PM_RequestPolicy (sender cmd) (param1 cmd)) s
        else s).

Definition write_pipe_of (c : client) (m : message) (s : RM) : option RM :=
  let* fd := RM_GetPipe c s in Some (to_client fd m s).

Definition HandleWaitForResource (cmd : message) (s : RM) : option RM :=
  let* m := RM_GetListIndex (sender cmd) s in
  match m with
  | None => Some s
  | Some i =>
      let* r := components s !! i in
      let* s := match reason r with
                | RM_ReasonPolicy => RM_SetStatus (sender cmd) RM_WaitingForPolicy s
                | RM_ReasonResource => RM_SetStatus (sender cmd) RM_WaitingForResource s
                | RM_ReasonNone => Some s
                end in
      write_pipe_of (sender (cmd_data s)) (cmd_data s) s
  end.

(** Every component but the last one that waits is told, in the name of the last command. *)
Definition tell_waiting (i : nat) (s : RM) : option RM :=
  let* r := components s !! i in
  if componentState r =? OMX_StateWaitForResources then
    let s := set_cmd (set_handle (componentHandle (owner r)) (set_status_field RM_RESOURCEACQUIRED (cmd_data s))) s in
    write_pipe_of (owner r) (cmd_data s) s
  else Some s.

Definition HandleFreeResource (cmd : message) (s : RM) : option RM :=
  let s := if negb (stub_mode s) then to_policy (PM_FreePolicy (sender cmd) (param1 cmd)) s else s in
  for_range 0 (numRegisteredComponents s - 1) tell_waiting s.

Definition HandleCancelWaitForResource (cmd : message) (s : RM) : option RM := Some s.

(** A component starts or stops to run: its load is added to the totals or taken from them, and the
    operating point follows. *)
Definition account (k : option kind) (d : Z) (s : RM) : RM :=
  let t := add_load k d (loads s) in
  set_loads t (rm_set_vdd1_constraint (s32 (totalCpu t)) (ram s)).2 s.

Definition starts (previousState newState : Z) : bool :=
  ((previousState =? OMX_StateIdle) || (previousState =? OMX_StatePause)) && (newState =? OMX_StateExecuting).
Definition stops (previousState newState : Z) : bool :=
  (previousState =? OMX_StateExecuting) && ((newState =? OMX_StateIdle) || (newState =? OMX_StatePause)).

Definition HandleStateSet (cmd : message) (s : RM) : option RM :=
  let k := componentType (param1 cmd) in
  let* m := RM_GetListIndex (sender cmd) s in
  match m with
  | None => Some s
  | Some i =>
      let* r := components s !! i in
      let previousState := componentState r in
      let newState := param2 cmd in
      let* s := update_component i (with_state newState) s in
      let s := if starts previousState newState then account k (componentCPU r) s
               else if stops previousState newState then account k (- componentCPU r) s
               else s in
      if newState =? OMX_StateWaitForResources then HandleWaitForResource cmd s else Some s
  end.

(** The commands of main(); [fd] is what opening a pipe returns.  True when the server ends. *)
Definition handle_command (fd : string -> Z) (s : RM) : option (bool * RM) :=
  let cmd := cmd_data s in
  match RM_Cmd cmd with
  | RM_RequestResource => let* s := HandleRequestResource cmd s in Some (false, s)
  | RM_WaitForResource => let* s := HandleWaitForResource cmd s in Some (false, s)
  | RM_FreeResource =>
      let* s := HandleFreeResource cmd s in
      let* s := RM_RemoveComponentFromList (sender (cmd_data s)) s in Some (false, s)
  | RM_FreeAndCloseResource =>
      let* s := HandleFreeResource cmd s in
      let* s := RM_ClosePipe (cmd_data s) s in
      let* s := RM_RemoveComponentFromList (sender (cmd_data s)) s in Some (false, s)
  | RM_CancelWaitForResource => let* s := HandleCancelWaitForResource cmd s in Some (false, s)
  | RM_StateSet => let* s := HandleStateSet cmd s in Some (false, s)
  | RM_OpenPipe => let* s := RM_CreatePipe cmd fd s in Some (false, s)
  | RM_ReusePipe =>
      let* reuse_pipe := RM_GetPipe (mkClient (param4 cmd) (nPid (sender cmd))) s in
      let* s := if negb (reuse_pipe =? -1) then RM_AddPipe cmd reuse_pipe s else RM_CreatePipe cmd fd s in Some (false, s)
  | RM_Exit | RM_Init => Some (false, s)
  | RM_ExitTI => Some (true, s)
  end.

(** * The DSP *)

Definition OMX_ErrorHardware : Z := s32 2147487753. (* 0x80001009 *)

(** [qosdyn] is whether the environment names the library.  The error, whether the manager falls back
    to its stub mode at once, and the registry. *)
Definition InitializeQos (qosdyn : bool) (q : qos B) : Z * bool * option registry * qos B :=
  if negb qosdyn then (OMX_ErrorHardware, true, None, q)
  else
    let '(st, q) := on_bridge DspManager_Open q in
    if negb (DSP_SUCCEEDED st) then (-1, false, None, q)
    else
      let uProcId := processor_of [DSPTYPE_55; DSPTYPE_64] (uProcessorTypes (bridge q)) 0 in
      let '(st, q) := on_bridge (DSPProcessor_Attach uProcId) q in
      if DSP_SUCCEEDED st then
        let '(st, q) := on_bridge (DSPManager_RegisterObject DSP_DCDNODETYPE) q in
        if DSP_SUCCEEDED st then
          let '(st, q) := on_bridge (DSPManager_RegisterObject DSP_DCDLIBRARYTYPE) q in
          if DSP_SUCCEEDED st then
            let '(r, q) := DSPRegistry_Create q in
            match r with
            | Some r => (0, false, Some r, q)
            | None => (OMX_ErrorHardware, false, None, q)
            end
          else (OMX_ErrorHardware, true, None, q)
        else (OMX_ErrorHardware, true, None, q)
      else (OMX_ErrorHardware, false, None, q).

Definition FreeQos (r : registry) (q : qos B) : qos B := QosTI_Delete (DSPRegistry_Delete (Some r) q).

(** The description of all heaps in the registry. *)
Definition all_heaps (r : registry) : option QOSRESOURCE_MEMORY :=
  match List.find (fun x => match Id x, data x with
                            | QOSDataType_Memory_DynAlloc, Memory m => heapId m =? KAllHeaps
                            | _, _ => false
                            end) (ResourceRegistry r) with
  | Some x => match data x with Memory m => Some m | _ => None end
  | None => None
  end.

(** Whether the DSP has the memory asked for; [None] when it does not answer. *)
Definition memory_available (wanted : Z) (m : QOSRESOURCE_MEMORY) (q : qos B) : option bool * qos B :=
  if 0 <? wanted then
    let '(st, used, q) := QosTI_DspMsg QOS_TI_GETMEMSTAT (heapId m) USED_HEAPSIZE q in
    if DSP_SUCCEEDED st then
      let sz := match used with Some (o1, _) => o1 | None => size m end in
      let '(st, _, q) := QosTI_DspMsg QOS_TI_GETMEMSTAT (heapId m) LARGEST_FREE_BLOCKSIZE q in
      if DSP_SUCCEEDED st then (Some (u32 (wanted + 4) <? sz), q) else (None, q)
    else (None, q)
  else (Some true, q).

(** The load in MHz of the first processor of the registry. *)
Definition load_at (p : Z) (r : registry) : option Z :=
  let* x := List.find (fun x => address x =? p) (ResourceRegistry r) in
  match data x with Processor p => Some (s32 (currentLoad p)) | _ => None end.

(** The load of the processor, from the driver or else from the registry; [inl] when there is no memory for
    the answer. *)
Definition current_load (r : registry) (q : qos B) : option (option Z * registry * qos B) :=
  let '(st, s) := QosTI_GetProcLoadStat q in
  match s with
  | Some s => Some (Some (s32 (uCurrLoad s)), r, q)
  | None =>
      let '(_, NumFound, _, r, q) := DSPRegistry_Find QOSDataType_Processor_C6X 0 r q in
      let '(results, q) := on_bridge calloc q in
      if results =? 0 then Some (None, r, q)
      else
        let '(_, _, found, r, q) := DSPRegistry_Find QOSDataType_Processor_C6X NumFound r q in
        let* p := head found in
        let* l := load_at p r in
        Some (Some l, r, q)
  end.

(** The snapshots have just been cleared: all cells but the one written are zero. *)
Definition take_snapshot (load : Z) (c : RM_CPULoadStruct) : RM_CPULoadStruct :=
  let zeros := replicate RM_CPUAVGDEPTH 0 in
  let '(n, snaps) :=
    if (snapshotsCaptured c <? RM_CPUAVGDEPTH)%nat
    then (S (snapshotsCaptured c), <[snapshotsCaptured c := load]> zeros)
    else (snapshotsCaptured c, <[(RM_CPUAVGDEPTH - 1)%nat := load]> (drop 1 zeros ++ drop (RM_CPUAVGDEPTH - 1) zeros)) in
  mkCpu (Z.quot (fold_right Z.add 0 (take n snaps)) (Z.of_nat n)) (cyclesInUse c) (cyclesAvailable c) n snaps.
Definition set_cycles (dsp_max_freq load : Z) (c : RM_CPULoadStruct) : RM_CPULoadStruct :=
  mkCpu (averageCpuLoad c) load (dsp_max_freq - load) (snapshotsCaptured c) (cpuLoadSnapshots c).
Definition clear_snapshots (c : RM_CPULoadStruct) : RM_CPULoadStruct :=
  mkCpu (averageCpuLoad c) (cyclesInUse c) (cyclesAvailable c) (snapshotsCaptured c) (replicate RM_CPUAVGDEPTH 0).

(** The cycles are compared as unsigned numbers. *)
Definition enough_cycles (c : RM_CPULoadStruct) (wanted : Z) : bool := wanted <=? u32 (cyclesAvailable c).

(** Whether the DSP has room for what the last command asks for. *)
Definition RM_GetQos (qosdyn : bool) (s : RM) : option (bool * RM) :=
  let '(stub, registry, q) :=
    if stub_mode s then (true, None, qosti s)
    else let '(eError, stub, registry, q) := InitializeQos qosdyn (qosti s) in
         (stub || negb (eError =? 0), registry, q) in
  let c := cpuStruct s in
  if stub then Some (true, set_qos true c q s)
  else
    let* r := registry in
    match all_heaps r with
    | None => Some (false, set_qos false c (FreeQos r q) s)
    | Some m =>
        let '(memoryAvailable, q) := memory_available (param3 (cmd_data s)) m q in
        match memoryAvailable with
        | None => Some (false, set_qos false c (FreeQos r q) s)
        | Some memoryAvailable =>
            let c := clear_snapshots c in
            let k := kernel (ram s) in
            match get_omap_version k with
            | OMAP_NOT_SUPPORTED => Some (false, set_qos false c (FreeQos r q) s)
            | _ =>
                let* (load, r, q) := current_load r q in
                match load with
                | None => Some (false, set_qos false c q s)
                | Some load =>
                    let c := set_cycles (get_dsp_max_freq k) load (take_snapshot load c) in
                    Some (memoryAvailable && enough_cycles c (param2 (cmd_data s)), set_qos false c (FreeQos r q) s)
                end
            end
        end
    end.

(** * The answers of the policy manager *)

(** The request asked about last is answered. *)
Definition answer_request (st : RESOURCEMANAGER_ERRORTYPE) (cst : RM_COMPONENTSTATUS) (s : RM) : option RM :=
  let s := set_request (set_status_field st (globalrequest_cmd_data s)) s in
  let g := globalrequest_cmd_data s in
  let* s := RM_SetStatus (sender g) cst s in
  write_pipe_of (sender g) g s.

(** The status of a component preempted is set for the process of the last command. *)
Definition handle_reply (qosdyn : bool) (r : reply) (s : RM) : option RM :=
  match r with
  | PM_PREEMPTED c =>
      let s := set_cmd (set_handle (componentHandle c) (set_status_field RM_PREEMPT (cmd_data s))) s in
      let* s := RM_SetStatus (sender (cmd_data s)) RM_WaitingForClient s in
      write_pipe_of c (cmd_data s) s
  | PM_DENYPOLICY _ => answer_request RM_DENY RM_WaitingForClient s
  | PM_GRANTPOLICY _ =>
      if negb (mmuRecoveryInProgress s) then
        let* (ok, s) := RM_GetQos qosdyn s in
        if ok : bool then answer_request RM_GRANT RM_ComponentActive s
        else
          let g := globalrequest_cmd_data s in
          Some (to_policy (PM_FreeResources (sender g) (param1 g)) s)
      else answer_request RM_RESOURCEFATALERROR RM_WaitingForClient s
  end.

(** * The watch for errors of the DSP *)

(** One turn of the loop over the components that tells each of the error; the thread of the watch does not
    exclude the server. *)
Definition tell_fatal (i : nat) (s : RM) : option RM :=
  let* r := components s !! i in
  let s := set_cmd (set_sender (owner r) (set_status_field RM_RESOURCEFATALERROR (cmd_data s))) s in
  let* s := RM_SetStatus (owner r) RM_WaitingForClient s in
  write_pipe_of (owner r) (cmd_data s) s.

Definition fatal_error (s : RM) : option RM :=
  let s := set_mmu true s in
  for_range 0 (numRegisteredComponents s) tell_fatal s.

(** * The server *)

(** What the server does in one turn: a command read, with the answers of opening a pipe; an answer of the
    policy manager, read unless in stub mode; and the acts of the watch. *)
Inductive event :=
  | Read_command (m : message) (fd : string -> Z) | Read_reply (r : reply) | Dsp_error | Dsp_back.

Definition turn (qosdyn : bool) (e : event) (s : RM) : option (bool * RM) :=
  match e with
  | Read_command m fd => handle_command fd (set_cmd m s)
  | Read_reply r => if stub_mode s then Some (false, s) else let* s := handle_reply qosdyn r s in Some (false, s)
  | Dsp_error => let* s := fatal_error s in Some (false, s)
  | Dsp_back => Some (false, set_mmu false s)
  end.

Definition zero_message : message := mkMessage (mkClient 0 0) RM_Init 0 0 0 0 RM_ErrorNone.

(** The state main() starts in; the processor must be one the monitor knows. *)
Definition start (m : monitor K) (q : qos B) : RM :=
  mkRm (replicate RM_MAXCOMPONENTS zero_registered) 0 zero_message zero_message
    (bool_decide (get_omap_version (kernel m) = OMAP_NOT_SUPPORTED)) false
    (mkTotals 0 0 0 0 0 0) (mkCpu 0 0 0 0 (replicate RM_CPUAVGDEPTH 0)) 0 m q [].

End Manager.
