(* ===== verification/RmList.v ===== *)
(** What the resource manager keeps of the components: its list as a map from clients to their
    state, load and pipe, and what each message does to it.  The names of the pipes differ for
    different processes. *)

From Stdlib Require Import ZArith Lia String Ascii.
From stdpp Require Import base list list_numbers strings option tactics.
From S2P Require Import Prelude PolicyManager PolicyRun ActivityMonitor QosRegistry ResourceManager.
Local Open Scope Z_scope.

(** * The list as a map *)

(** What a cell says beside the status and the reason. *)
Definition plain (r : registered) : registered :=
  mkRegistered (owner r) (componentState r) (componentCPU r) (componentPipe r) RM_NoStatus RM_ReasonNone.

Definition alter_at (c : client) (f : registered -> registered) (l : list registered) : list registered :=
  map (fun x => if owns c x then f x else x) l.
Definition removed (c : client) (l : list registered) : list registered := List.filter (fun x => negb (owns c x)) l.
Definition cell_of (c : client) (l : list registered) : option registered := List.find (owns c) l.
Definition pipe_of (c : client) (l : list registered) : Z :=
  match cell_of c l with Some r => componentPipe r | None => -1 end.
Definition added (r : registered) (l : list registered) : list registered :=
  match cell_of (owner r) l with Some _ => l | None => l ++ [r] end.

(** No reason is ever set, and with it no component is ever noted as waiting. *)
Definition noted (r : registered) : Prop :=
  reason r = RM_ReasonNone /\ status r <> RM_WaitingForResource /\ status r <> RM_WaitingForPolicy.

Record cells_ok (n : nat) (cs : list registered) : Prop := {
  k_length : length cs = RM_MAXCOMPONENTS;
  k_count : (n <= RM_MAXCOMPONENTS)%nat;
  k_distinct : NoDup (map owner (take n cs));
  k_noted : Forall noted cs }.

Lemma owns_iff c r : owns c r = true <-> owner r = c.
Proof. unfold owns. rewrite bool_decide_eq_true. split; congruence. Qed.

Lemma cell_none c l : c ∉ map owner l -> cell_of c l = None.
Proof.
  induction l as [|x l IH]; [done|]. cbn. rewrite not_elem_of_cons. intros [Hx Hl].
  destruct (owns c x) eqn:E; [by apply owns_iff in E|]. by apply IH.
Qed.

Lemma cell_some c l j x : NoDup (map owner l) -> l !! j = Some x -> owner x = c -> cell_of c l = Some x.
Proof.
  intros Hnd Hj Hc. revert j Hj. induction l as [|y l IH]; intros j Hj; [done|]. cbn in *.
  apply list.NoDup_cons in Hnd as [Hy Hnd]. destruct j as [|j]; cbn in Hj.
  - injection Hj as ->. by rewrite (proj2 (owns_iff c x)).
  - destruct (owns c y) eqn:E; [|by eapply IH]. apply owns_iff in E. exfalso. apply Hy.
    rewrite E, <- Hc. apply list_elem_of_fmap_2. by eapply list_elem_of_lookup_2.
Qed.

Lemma alter_absent c f l : c ∉ map owner l -> alter_at c f l = l.
Proof.
  induction l as [|x l IH]; [done|]. cbn. rewrite not_elem_of_cons. intros [Hx Hl].
  destruct (owns c x) eqn:E; [by apply owns_iff in E|]. f_equal. by apply IH.
Qed.

Lemma removed_absent c l : c ∉ map owner l -> removed c l = l.
Proof.
  induction l as [|x l IH]; [done|]. cbn. rewrite not_elem_of_cons. intros [Hx Hl].
  destruct (owns c x) eqn:E; [by apply owns_iff in E|]. cbn. f_equal. by apply IH.
Qed.

Lemma alter_insert c f l j x :
  NoDup (map owner l) -> l !! j = Some x -> owner x = c -> <[j := f x]> l = alter_at c f l.
Proof.
  intros Hnd Hj Hc. revert j Hj. induction l as [|y l IH]; intros j Hj; [done|]. cbn in *.
  apply list.NoDup_cons in Hnd as [Hy Hnd]. destruct j as [|j]; cbn in Hj |- *.
  - injection Hj as ->. rewrite (proj2 (owns_iff c x)) by done. f_equal. symmetry. apply alter_absent. by rewrite <- Hc.
  - destruct (owns c y) eqn:E.
    + exfalso. apply owns_iff in E. apply Hy. rewrite E, <- Hc. apply list_elem_of_fmap_2. by eapply list_elem_of_lookup_2.
    + f_equal. by apply IH.
Qed.

Lemma removed_delete c l j x :
  NoDup (map owner l) -> l !! j = Some x -> owner x = c -> delete j l = removed c l.
Proof.
  intros Hnd Hj Hc. revert j Hj. induction l as [|y l IH]; intros j Hj; [done|]. cbn in *.
  apply list.NoDup_cons in Hnd as [Hy Hnd]. destruct j as [|j]; cbn in Hj |- *.
  - injection Hj as ->. rewrite (proj2 (owns_iff c x)) by done. cbn. symmetry. apply removed_absent. by rewrite <- Hc.
  - destruct (owns c y) eqn:E; cbn.
    + exfalso. apply owns_iff in E. apply Hy. rewrite E, <- Hc. apply list_elem_of_fmap_2. by eapply list_elem_of_lookup_2.
    + f_equal. by apply IH.
Qed.

Lemma alter_owner c f l : (forall x, owner (f x) = owner x) -> map owner (alter_at c f l) = map owner l.
Proof. intros Hf. unfold alter_at. rewrite List.map_map. apply map_ext. intros x. destruct (owns c x); [apply Hf|done]. Qed.

Lemma plain_alter c f l :
  (forall x, plain (f x) = plain x) -> map plain (alter_at c f l) = map plain l.
Proof. intros Hf. unfold alter_at. rewrite List.map_map. apply map_ext. intros x. destruct (owns c x); [apply Hf|done]. Qed.

(** * The operations on the list *)

Section List.
Context {K B : Type} `{Sysfs K} `{Bridge B}.
Notation RM := (rm K B).

Definition entries (s : RM) : list registered := take (numRegisteredComponents s) (components s).
Definition rm_ok (s : RM) : Prop := cells_ok (numRegisteredComponents s) (components s).

Lemma index_spec c (s : RM) :
  rm_ok s ->
  exists r, RM_GetListIndex c s = Some r /\
    match r with
    | Some j => exists x, (j < numRegisteredComponents s)%nat /\ components s !! j = Some x /\ entries s !! j = Some x /\ owner x = c
    | None => c ∉ map owner (entries s)
    end.
Proof.
  intros Hs. unfold RM_GetListIndex.
  destruct (find_index_spec (owns c) (components s) (numRegisteredComponents s) 0) as (r & -> & Hr).
  { rewrite (k_length _ _ Hs). apply Hs. }
  exists r. split; [done|]. destruct r as [j|].
  - destruct Hr as (i & x & -> & Hi & Hx & Hf). rewrite Nat.add_0_l. exists x. apply owns_iff in Hf.
    split_and!; [done|done| |done]. unfold entries. by rewrite lookup_take_lt.
  - intros (x & -> & Hx)%list_elem_of_fmap_1. apply Hr in Hx. by rewrite (proj2 (owns_iff _ x) eq_refl) in Hx.
Qed.

Lemma pipe_spec c (s : RM) : rm_ok s -> RM_GetPipe c s = Some (pipe_of c (entries s)).
Proof.
  intros Hs. unfold RM_GetPipe, pipe_of. destruct (index_spec c s Hs) as (r & -> & Hr). destruct r as [j|].
  - destruct Hr as (x & Hj & Hx & He & Ho). rewrite Hx. by rewrite (cell_some c (entries s) j x (k_distinct _ _ Hs)).
  - by rewrite cell_none.
Qed.

Lemma update_spec i x f (s : RM) :
  rm_ok s -> (i < numRegisteredComponents s)%nat -> components s !! i = Some x ->
  (forall y, owner (f y) = owner y) -> noted (f x) ->
  exists s', update_component i f s = Some s' /\ rm_ok s' /\ s' = set_table (numRegisteredComponents s) (components s') s /\
    entries s' = alter_at (owner x) f (entries s).
Proof.
  intros Hs Hi Hx Ho Hn. unfold update_component. rewrite Hx. eexists. split; [reflexivity|].
  assert (He : entries s !! i = Some x) by (unfold entries; by rewrite lookup_take_lt).
  assert (Hr : entries (set_table (numRegisteredComponents s) (<[i := f x]> (components s)) s) = alter_at (owner x) f (entries s)).
  { unfold entries at 1. cbn. rewrite take_insert_lt by done.
    apply (alter_insert (owner x) f (entries s) i x); [apply Hs|done|done]. }
  split_and!; [|done|exact Hr]. destruct Hs as [H1 H2 H3 H4]. split; cbn.
  - by rewrite length_insert.
  - done.
  - change (NoDup (map owner (entries (set_table (numRegisteredComponents s) (<[i := f x]> (components s)) s)))).
    rewrite Hr, alter_owner by done. exact H3.
  - by apply Forall_insert.
Qed.

Lemma set_status_spec c st (s : RM) :
  rm_ok s -> st <> RM_WaitingForResource -> st <> RM_WaitingForPolicy ->
  exists s', RM_SetStatus c st s = Some s' /\ rm_ok s' /\ s' = set_table (numRegisteredComponents s) (components s') s /\
    entries s' = alter_at c (with_status st) (entries s).
Proof.
  intros Hs H1 H2. unfold RM_SetStatus. destruct (index_spec c s Hs) as (r & -> & Hr). destruct r as [j|].
  - destruct Hr as (x & Hj & Hx & He & Ho). subst c. apply update_spec; try done.
    split; [|done]. pose proof (k_noted _ _ Hs) as Hn. rewrite list.Forall_forall in Hn.
    apply (Hn x). by eapply list_elem_of_lookup_2.
  - exists s. split_and!; [done|done|by destruct s|]. symmetry. by apply alter_absent.
Qed.

Lemma add_pipe_spec cmd fd (s : RM) :
  rm_ok s -> (sender cmd ∈ map owner (entries s) \/ (numRegisteredComponents s < RM_MAXCOMPONENTS)%nat) ->
  exists s', RM_AddPipe cmd fd s = Some s' /\ rm_ok s' /\
    s' = set_table (numRegisteredComponents s') (components s') s /\
    map plain (entries s') =
      added (mkRegistered (sender cmd) OMX_StateIdle (param2 cmd) fd RM_NoStatus RM_ReasonNone) (map plain (entries s)).
Proof.
  intros Hs Hroom. unfold RM_AddPipe. destruct (index_spec (sender cmd) s Hs) as (r & -> & Hr).
  assert (Hp : map owner (map plain (entries s)) = map owner (entries s)) by (rewrite List.map_map; by apply map_ext).
  destruct r as [j|].
  - destruct Hr as (x & Hj & Hx & He & Ho). exists s. split_and!; [done|done|by destruct s|].
    unfold added. cbn [owner]. rewrite (cell_some _ _ j (plain x)); [done| | |done].
    + rewrite Hp. apply Hs.
    + change (map plain (entries s)) with (plain <$> entries s). by rewrite list_lookup_fmap, He.
  - destruct Hroom as [|Hroom]; [done|]. set (n := numRegisteredComponents s) in *.
    destruct (lookup_lt_is_Some_2 (components s) n) as [old Hold]; [by rewrite (k_length _ _ Hs)|]. rewrite Hold.
    unfold arr_set. rewrite (k_length _ _ Hs), (proj2 (andb_true_iff _ _)) by (split; [apply Z.leb_le|apply Z.ltb_lt]; lia).
    rewrite Nat2Z.id. set (r := mkRegistered _ _ _ _ _ _). eexists. split; [reflexivity|].
    assert (Ht : take (S n) (<[n := r]> (components s)) = entries s ++ [r]).
    { rewrite (take_S_r _ _ r) by (apply list_lookup_insert_eq; by rewrite (k_length _ _ Hs)). by rewrite take_insert_ge. }
    assert (Ho : noted r).
    { split; [done|]. pose proof (k_noted _ _ Hs) as Hn. rewrite list.Forall_forall in Hn.
      apply (Hn old). by eapply list_elem_of_lookup_2. }
    split_and!; [|done|].
    + destruct Hs as [H1 H2 H3 H4]. split; cbn; fold n.
      * by rewrite length_insert.
      * done.
      * rewrite Ht, map_app. apply list.NoDup_app. split; [exact H3|]. split; [|apply NoDup_singleton].
        intros y Hy ->%list_elem_of_singleton. done.
      * by apply Forall_insert.
    + unfold entries at 1. cbn. rewrite Ht, map_app. unfold added. cbn [owner]. by rewrite cell_none by (by rewrite Hp).
Qed.

Lemma remove_spec c (s : RM) :
  rm_ok s ->
  exists s', RM_RemoveComponentFromList c s = Some s' /\ rm_ok s' /\
    s' = set_table (numRegisteredComponents s') (components s') s /\ entries s' = removed c (entries s).
Proof.
  intros Hs. unfold RM_RemoveComponentFromList. destruct (index_spec c s Hs) as (r & -> & Hr). destruct r as [j|].
  - destruct Hr as (x & Hj & Hx & He & Ho). set (n := numRegisteredComponents s) in *.
    destruct (shift_down_spec j n (components s)) as (cs & Hcs & Hl & Ht); [done|rewrite (k_length _ _ Hs); apply Hs|].
    assert (Hnoted : Forall noted cs).
    { unfold shift_down in Hcs.
      destruct (for_range_inv (fun _ l => Forall noted l /\ length l = RM_MAXCOMPONENTS) j (n - 1 - j)
        (fun i l => let* x := l !! S i in arr_set l (Z.of_nat i) x) (components s)) as (l' & Hl' & Hf & _).
      - split; apply Hs.
      - intros i l Hi [Hf Hll]. pose proof (k_count _ _ Hs) as Hc. fold n in Hc.
        destruct (lookup_lt_is_Some_2 l (S i)) as [y Hy]; [lia|]. rewrite Hy. unfold arr_set.
        rewrite (proj2 (andb_true_iff _ _)) by (split; [apply Z.leb_le|apply Z.ltb_lt]; lia). rewrite Nat2Z.id.
        eexists. split; [reflexivity|]. split; [|by rewrite length_insert]. apply Forall_insert; [done|].
        rewrite list.Forall_forall in Hf. apply Hf. by eapply list_elem_of_lookup_2.
      - rewrite Hcs in Hl'. by injection Hl' as ->. }
    rewrite Hcs. eexists. split; [reflexivity|].
    assert (Hr : take (n - 1) cs = removed c (entries s)).
    { rewrite Ht. apply (removed_delete c (entries s) j x); [apply Hs|done|done]. }
    split_and!; [|done|exact Hr]. split; cbn.
    + rewrite Hl. apply Hs.
    + pose proof (k_count _ _ Hs). fold n in H1. lia.
    + rewrite Hr. unfold removed. pose proof (k_distinct _ _ Hs) as Hd. fold (entries s) in Hd.
      clear -Hd. induction (entries s) as [|y l IH]; [done|]. cbn in *. apply list.NoDup_cons in Hd as [Hy Hd].
      destruct (owns c y); cbn; [by apply IH|]. apply list.NoDup_cons. split; [|by apply IH].
      intros (z & Hz & Hin)%list_elem_of_fmap_1. apply Hy. rewrite Hz. apply list_elem_of_fmap_2.
      apply list_elem_of_In in Hin. apply filter_In in Hin as [Hin _]. by apply list_elem_of_In.
    + exact Hnoted.
  - exists s. split_and!; [done|done|by destruct s|]. symmetry. by apply removed_absent.
Qed.

End List.

(** * What a message does *)

Definition is_waiting (r : registered) : bool := componentState r =? OMX_StateWaitForResources.
(** The components that are told of a resource freed: the last one of the list never is. *)
Definition told (l : list registered) : list registered := List.filter is_waiting (removelast l).

(** The component that is taken from the list: the telling has put the handle of the last component told in the
    command. *)
Definition freed (c : client) (l : list registered) : client :=
  match List.rev (told l) with
  | w :: _ => mkClient (componentHandle (owner w)) (nPid c)
  | [] => c
  end.

Definition acquired (w : registered) (m : message) : message :=
  set_handle (componentHandle (owner w)) (set_status_field RM_RESOURCEACQUIRED m).
Definition told_outputs (m : message) (ws : list registered) : list output :=
  flat_map (fun w => if componentPipe w <? 0 then [] else [To_client (componentPipe w) (acquired w m)]) ws.

Definition new_cell (m : message) (fd : Z) : registered :=
  mkRegistered (sender m) OMX_StateIdle (param2 m) fd RM_NoStatus RM_ReasonNone.
Definition opened (m : message) (fd : string -> Z) (l : list registered) : list registered :=
  match pipe_name (nPid (sender m)) with
  | Some name => if fd name <? 0 then l else added (new_cell m (fd name)) l
  | None => l
  end.

Definition spec_command (m : message) (fd : string -> Z) (l : list registered) : list registered :=
  match RM_Cmd m with
  | RM_FreeResource | RM_FreeAndCloseResource => removed (freed (sender m) l) l
  | RM_StateSet => alter_at (sender m) (with_state (param2 m)) l
  | RM_OpenPipe => opened m fd l
  | RM_ReusePipe =>
      let p := pipe_of (mkClient (param4 m) (nPid (sender m))) l in
      if p =? -1 then opened m fd l else added (new_cell m p) l
  | _ => l
  end.

Section Commands.
Context {K B : Type} `{Sysfs K} `{Bridge B}.
Notation RM := (rm K B).

Definition view (s : RM) : list registered := map plain (entries s).
(** What the commands on the list leave alone. *)
Definition rest (s : RM) := (stub_mode s, mmuRecoveryInProgress s, cpuStruct s, qosti s).

Lemma view_owners (s : RM) : map owner (view s) = map owner (entries s).
Proof. unfold view. rewrite List.map_map. by apply map_ext. Qed.

Lemma told_view (s : RM) : told (view s) = map plain (told (entries s)).
Proof.
  unfold told, view. assert (Hr : removelast (map plain (entries s)) = map plain (removelast (entries s))).
  { induction (entries s) as [|x l IH]; [done|]. destruct l as [|y l]; [done|].
    change (removelast (x :: y :: l)) with (x :: removelast (y :: l)). cbn [map]. cbn [map] in IH. by rewrite <- IH. }
  rewrite Hr. clear. induction (removelast (entries s)) as [|x l IH]; [done|]. cbn.
  change (is_waiting (plain x)) with (is_waiting x). destruct (is_waiting x); cbn; by rewrite IH.
Qed.

Lemma freed_view c (s : RM) : freed c (view s) = freed c (entries s).
Proof.
  unfold freed. rewrite told_view, <- map_rev. by destruct (List.rev (told (entries s))).
Qed.

Lemma removed_view c (s s' : RM) : entries s' = removed c (entries s) -> view s' = removed c (view s).
Proof.
  intros E. unfold view. rewrite E. clear E. unfold removed. induction (entries s) as [|x l IH]; [done|]. cbn.
  change (owns c (plain x)) with (owns c x). destruct (owns c x); cbn; by rewrite IH.
Qed.

Lemma pipe_view c (s : RM) : pipe_of c (view s) = pipe_of c (entries s).
Proof.
  unfold pipe_of, cell_of, view. induction (entries s) as [|x l IH]; [done|]. cbn.
  change (owns c (plain x)) with (owns c x). by destruct (owns c x).
Qed.

Lemma to_client_fields fd m (s : RM) :
  components (to_client fd m s) = components s /\ numRegisteredComponents (to_client fd m s) = numRegisteredComponents s /\
  rest (to_client fd m s) = rest s /\ loads (to_client fd m s) = loads s /\ ram (to_client fd m s) = ram s /\
  cmd_data (to_client fd m s) = cmd_data s /\ globalrequest_cmd_data (to_client fd m s) = globalrequest_cmd_data s /\
  outbox (to_client fd m s) = outbox s ++ (if fd <? 0 then [] else [To_client fd m]).
Proof. unfold to_client. destruct (fd <? 0); cbn; [by rewrite app_nil_r; split_and!|by split_and!]. Qed.

(** The loop that tells the components waiting. *)
Lemma tell_loop (m : message) (s : RM) k :
  rm_ok s -> (k <= numRegisteredComponents s)%nat -> cmd_data s = m ->
  exists s', for_range 0 k tell_waiting s = Some s' /\
    components s' = components s /\ numRegisteredComponents s' = numRegisteredComponents s /\
    rest s' = rest s /\ loads s' = loads s /\ ram s' = ram s /\
    globalrequest_cmd_data s' = globalrequest_cmd_data s /\
    let ws := List.filter is_waiting (take k (entries s)) in
    cmd_data s' = match List.rev ws with w :: _ => acquired w m | [] => m end /\
    outbox s' = outbox s ++ told_outputs m ws.
Proof.
  intros Hs Hk Hm.
  destruct (for_range_inv (fun i s' =>
    components s' = components s /\ numRegisteredComponents s' = numRegisteredComponents s /\
    rest s' = rest s /\ loads s' = loads s /\ ram s' = ram s /\ globalrequest_cmd_data s' = globalrequest_cmd_data s /\
    let ws := List.filter is_waiting (take i (entries s)) in
    cmd_data s' = match List.rev ws with w :: _ => acquired w m | [] => m end /\
    outbox s' = outbox s ++ told_outputs m ws) 0 k tell_waiting s) as (s' & Hl & Hp).
  - split_and!; try done. cbn. by rewrite app_nil_r.
  - intros i s1 [_ Hi] (I1 & I2 & I3 & I4 & I5 & I6 & I7 & I8). rewrite Nat.add_0_l in Hi. unfold tell_waiting.
    destruct (lookup_lt_is_Some_2 (entries s) i) as [r Hr].
    { unfold entries. rewrite length_take, (k_length _ _ Hs). pose proof (k_count _ _ Hs). lia. }
    assert (Hr' : components s !! i = Some r) by (unfold entries in Hr; by apply lookup_take_Some in Hr as [? _]).
    rewrite I1, Hr'. rewrite (take_S_r _ _ r Hr), List.filter_app. cbn [List.filter].
    change (componentState r =? OMX_StateWaitForResources) with (is_waiting r). destruct (is_waiting r) eqn:E.
    + assert (Hacq : set_handle (componentHandle (owner r)) (set_status_field RM_RESOURCEACQUIRED (cmd_data s1)) = acquired r m).
      { rewrite I7. by destruct (List.rev _). }
      rewrite Hacq. set (s2 := set_cmd (acquired r m) s1). unfold write_pipe_of.
      assert (Hok : rm_ok s2) by (unfold rm_ok, s2; cbn; by rewrite I1, I2).
      assert (He : entries s2 = entries s) by (unfold entries, s2; cbn; by rewrite I1, I2).
      rewrite (pipe_spec _ s2 Hok), He. eexists. split; [reflexivity|].
      assert (Hpipe : pipe_of (owner r) (entries s) = componentPipe r).
      { unfold pipe_of. by rewrite (cell_some _ (entries s) i r (k_distinct _ _ Hs) Hr). }
      rewrite Hpipe. destruct (to_client_fields (componentPipe r) (cmd_data s2) s2) as (F1 & F2 & F3 & F4 & F5 & F6 & F7 & F8).
      rewrite F1, F2, F3, F4, F5, F6, F7, F8, rev_unit. split_and!; try done.
      unfold s2. cbn [outbox cmd_data set_cmd]. rewrite I8. unfold told_outputs. rewrite flat_map_app. cbn [flat_map].
      by rewrite app_nil_r, app_assoc.
    + eexists. split; [reflexivity|]. rewrite app_nil_r. by split_and!.
  - rewrite Nat.add_0_l in Hp. by exists s'.
Qed.

Lemma free_spec cmd (s : RM) :
  rm_ok s -> cmd_data s = cmd ->
  exists s', HandleFreeResource cmd s = Some s' /\
    components s' = components s /\ numRegisteredComponents s' = numRegisteredComponents s /\
    rest s' = rest s /\ loads s' = loads s /\ ram s' = ram s /\
    sender (cmd_data s') = freed (sender cmd) (entries s) /\
    outbox s' = outbox s ++ (if stub_mode s then [] else [To_policy (PM_FreePolicy (sender cmd) (param1 cmd))]) ++
                told_outputs cmd (told (entries s)).
Proof.
  intros Hs Hc. unfold HandleFreeResource. cbn zeta.
  set (s1 := if negb (stub_mode s) then to_policy (PM_FreePolicy (sender cmd) (param1 cmd)) s else s).
  assert (F : components s1 = components s /\ numRegisteredComponents s1 = numRegisteredComponents s /\ rest s1 = rest s /\
    loads s1 = loads s /\ ram s1 = ram s /\ cmd_data s1 = cmd /\
    outbox s1 = outbox s ++ (if stub_mode s then [] else [To_policy (PM_FreePolicy (sender cmd) (param1 cmd))])).
  { unfold s1. destruct (stub_mode s); cbn; [rewrite app_nil_r|]; by split_and!. }
  destruct F as (F1 & F2 & F3 & F4 & F5 & F6 & F7).
  assert (Hok : rm_ok s1) by (unfold rm_ok; by rewrite F1, F2).
  assert (He : entries s1 = entries s) by (unfold entries; by rewrite F1, F2).
  destruct (tell_loop cmd s1 (numRegisteredComponents s1 - 1) Hok ltac:(lia) F6)
    as (s' & -> & I1 & I2 & I3 & I4 & I5 & _ & I7 & I8). cbn zeta in I7, I8.
  assert (Ht : List.filter is_waiting (take (numRegisteredComponents s1 - 1) (entries s1)) = told (entries s)).
  { unfold told. rewrite He. f_equal. rewrite F2. unfold entries at 2.
    rewrite removelast_firstn_len, length_take, (k_length _ _ Hs). pose proof (k_count _ _ Hs).
    rewrite Nat.min_l by done. rewrite Nat.sub_1_r. unfold entries. by rewrite !take_take. }
  rewrite Ht in *. exists s'. split_and!; try congruence.
  - rewrite I7. unfold freed. by destruct (List.rev (told (entries s))).
  - by rewrite I8, F7, app_assoc.
Qed.

(** A component that cannot wait for a reason is answered at once. *)
Lemma wait_spec cmd (s : RM) :
  rm_ok s ->
  exists s', HandleWaitForResource cmd s = Some s' /\
    components s' = components s /\ numRegisteredComponents s' = numRegisteredComponents s /\
    rest s' = rest s /\ loads s' = loads s /\ ram s' = ram s.
Proof.
  intros Hs. unfold HandleWaitForResource. destruct (index_spec (sender cmd) s Hs) as (r & -> & Hr).
  destruct r as [j|]; [|exists s; by split_and!]. destruct Hr as (x & Hj & Hx & He & Ho). rewrite Hx.
  pose proof (k_noted _ _ Hs) as Hn. rewrite list.Forall_forall in Hn.
  destruct (Hn x) as [-> _]; [by eapply list_elem_of_lookup_2|]. unfold write_pipe_of.
  rewrite (pipe_spec _ s Hs). eexists. split; [reflexivity|].
  destruct (to_client_fields (pipe_of (sender (cmd_data s)) (entries s)) (cmd_data s) s) as (F1 & F2 & F3 & F4 & F5 & _).
  by split_and!.
Qed.

(** The state set is noted, and a component that starts or stops is accounted for. *)
Definition accounted (cmd : message) (r : registered) (s : RM) : RM :=
  if starts (componentState r) (param2 cmd) then account (componentType (param1 cmd)) (componentCPU r) s
  else if stops (componentState r) (param2 cmd) then account (componentType (param1 cmd)) (- componentCPU r) s
  else s.

Lemma state_set_spec cmd (s : RM) :
  rm_ok s ->
  exists s', HandleStateSet cmd s = Some s' /\ rm_ok s' /\ rest s' = rest s /\
    entries s' = alter_at (sender cmd) (with_state (param2 cmd)) (entries s) /\
    match cell_of (sender cmd) (entries s) with
    | Some r => loads s' = loads (accounted cmd r s) /\ ram s' = ram (accounted cmd r s)
    | None => loads s' = loads s /\ ram s' = ram s
    end.
Proof.
  intros Hs. unfold HandleStateSet. destruct (index_spec (sender cmd) s Hs) as (m & -> & Hm). destruct m as [j|].
  2:{ exists s. rewrite cell_none by done. split_and!; try done. symmetry. by apply alter_absent. }
  destruct Hm as (x & Hj & Hx & He & Ho). rewrite Hx.
  rewrite (cell_some _ (entries s) j x (k_distinct _ _ Hs) He Ho).
  destruct (update_spec j x (with_state (param2 cmd)) s Hs Hj Hx) as (s1 & -> & Hok1 & Hs1 & He1); [done| |].
  { pose proof (k_noted _ _ Hs) as Hn. rewrite list.Forall_forall in Hn. apply (Hn x). by eapply list_elem_of_lookup_2. }
  cbn zeta.
  set (s2 := if starts (componentState x) (param2 cmd) then account (componentType (param1 cmd)) (componentCPU x) s1
             else if stops (componentState x) (param2 cmd) then account (componentType (param1 cmd)) (- componentCPU x) s1 else s1).
  assert (F : components s2 = components s1 /\ numRegisteredComponents s2 = numRegisteredComponents s1 /\ rest s2 = rest s /\
    loads s2 = loads (accounted cmd x s) /\ ram s2 = ram (accounted cmd x s)).
  { unfold s2, accounted. rewrite Hs1. destruct (starts _ _); [by split_and!|]. destruct (stops _ _); by split_and!. }
  clearbody s2. destruct F as (F1 & F2 & F3 & F4 & F5).
  assert (Hok2 : rm_ok s2) by (unfold rm_ok; by rewrite F1, F2).
  assert (He2 : entries s2 = alter_at (sender cmd) (with_state (param2 cmd)) (entries s)) by (unfold entries at 1; rewrite F1, F2, <- Ho; exact He1).
  destruct (param2 cmd =? OMX_StateWaitForResources).
  - destruct (wait_spec cmd s2 Hok2) as (s3 & -> & G1 & G2 & G3 & G4 & G5). exists s3.
    split_and!; try congruence; [unfold rm_ok; by rewrite G1, G2|unfold entries at 1; rewrite G1, G2; exact He2].
  - exists s2. by split_and!.
Qed.

End Commands.

(** * The list refines the map *)

Section Refines.
Context {K B : Type} `{Sysfs K} `{Bridge B}.
Notation RM := (rm K B).

(** The process has a name of a pipe, and there is a cell for a component that is added. *)
Definition has_room (m : message) (s : RM) : Prop :=
  match RM_Cmd m with
  | RM_OpenPipe | RM_ReusePipe =>
      s32 (nPid (sender m)) <> - 2 ^ 31 /\
      (sender m ∈ map owner (entries s) \/ (numRegisteredComponents s < RM_MAXCOMPONENTS)%nat)
  | _ => True
  end.

Lemma reverse_loop_total fuel i j s :
  (j - i < fuel)%nat -> (j < length s)%nat -> exists s', reverse_loop fuel i j s = Some s'.
Proof.
  revert i j s. induction fuel as [|fuel IH]; intros i j s Hf Hj; [lia|]. cbn [reverse_loop].
  destruct (Nat.ltb_spec i j); [|by eexists].
  destruct (lookup_lt_is_Some_2 s i) as [c ->]; [lia|]. destruct (lookup_lt_is_Some_2 s j) as [d ->]; [lia|].
  apply IH; [lia|]. rewrite !length_insert. lia.
Qed.

Lemma digits_length fuel n : (0 < fuel)%nat -> (0 < length (digits_loop fuel n))%nat.
Proof. destruct fuel as [|fuel]; [lia|]. cbn. destruct (0 <? Z.quot n 10); cbn; lia. Qed.

Lemma pipe_name_total p : s32 p <> - 2 ^ 31 -> exists name, pipe_name p = Some name.
Proof.
  intros Hp. unfold pipe_name, RM_itoa. rewrite (proj2 (Z.eqb_neq _ _) Hp). unfold RM_reverse.
  match goal with |- context [reverse_loop _ 0 _ ?l] => destruct (reverse_loop_total (S (length l)) 0 (length l - 1) l) as [s' ->] end.
  - lia.
  - rewrite length_app. pose proof (digits_length 10 (Z.abs (s32 p))). lia.
  - by eexists.
Qed.

Lemma create_spec m fd (s : RM) :
  rm_ok s -> s32 (nPid (sender m)) <> - 2 ^ 31 ->
  (sender m ∈ map owner (entries s) \/ (numRegisteredComponents s < RM_MAXCOMPONENTS)%nat) ->
  exists s', RM_CreatePipe m fd s = Some s' /\ rm_ok s' /\ rest s' = rest s /\ loads s' = loads s /\ ram s' = ram s /\
    view s' = opened m fd (view s).
Proof.
  intros Hs Hn Hr. unfold RM_CreatePipe, opened. destruct (pipe_name_total _ Hn) as [name ->]. cbn zeta.
  destruct (fd name <? 0); [by eexists|].
  destruct (add_pipe_spec m (fd name) (set_out (fd name) (outbox s) s) Hs Hr) as (s' & -> & Hok & -> & Hv).
  eexists. split; [reflexivity|]. by split_and!.
Qed.

(** Freeing, with the pipe closed or not. *)
Lemma free_and_remove m close (s : RM) :
  rm_ok s ->
  exists s' : RM,
    (let* s1 := HandleFreeResource m (set_cmd m s) in
     let* s1 := (if close : bool then RM_ClosePipe (cmd_data s1) s1 else Some s1) in
     let* s1 := RM_RemoveComponentFromList (sender (cmd_data s1)) s1 in Some (false, s1)) = Some (false, s') /\
    rm_ok s' /\ view s' = removed (freed (sender m) (view s)) (view s) /\ loads s' = loads s /\ ram s' = ram s /\
    entries s' = removed (freed (sender m) (entries s)) (entries s).
Proof.
  intros Hs. destruct (free_spec m (set_cmd m s) Hs eq_refl) as (s1 & -> & F1 & F2 & _ & F4 & F5 & F6 & _).
  assert (Hok1 : rm_ok s1) by (unfold rm_ok; by rewrite F1, F2).
  assert (Hclose : exists s2, (if close then RM_ClosePipe (cmd_data s1) s1 else Some s1) = Some s2 /\
    components s2 = components s1 /\ numRegisteredComponents s2 = numRegisteredComponents s1 /\ cmd_data s2 = cmd_data s1 /\
    loads s2 = loads s1 /\ ram s2 = ram s1).
  { destruct close; [|by eexists]. unfold RM_ClosePipe. destruct (index_spec (sender (cmd_data s1)) s1 Hok1) as ([j|] & -> & Hj).
    - destruct Hj as (x & _ & -> & _). by eexists.
    - by eexists. }
  destruct Hclose as (s2 & -> & G1 & G2 & G3 & G4 & G5).
  assert (Hok2 : rm_ok s2) by (unfold rm_ok; by rewrite G1, G2).
  destruct (remove_spec (sender (cmd_data s2)) s2 Hok2) as (s3 & -> & Hok3 & Hs3 & He3).
  assert (Hev : entries s2 = entries s) by (unfold entries; by rewrite G1, G2, F1, F2).
  exists s3. split_and!; [done|done| | | |].
  - rewrite (removed_view _ s2 s3 He3), G3, F6, freed_view. unfold view. by rewrite Hev.
  - rewrite Hs3. cbn. by rewrite G4, F4.
  - rewrite Hs3. cbn. by rewrite G5, F5.
  - by rewrite He3, G3, F6, Hev.
Qed.

(** C15: The list of components is a map from clients to state, load and pipe, and every message changes it as it
    says: opening or sharing a pipe adds the client when it is not there, a change of state is noted, and
    freeing takes out the client - or the one of the last waiting component that was told of it.  No
    message makes the server go out of bounds while there are cells, and none is noted as waiting. *)
Theorem command_refines (m : message) (fd : string -> Z) (s : RM) :
  rm_ok s -> has_room m s ->
  exists stop s', handle_command fd (set_cmd m s) = Some (stop, s') /\ rm_ok s' /\
    view s' = spec_command m fd (view s) /\
    (stop = true <-> RM_Cmd m = RM_ExitTI) /\
    (forall c, RM_GetPipe c s' = Some (pipe_of c (view s'))).
Proof.
  intros Hs Hroom.
  assert (Hok : rm_ok (set_cmd m s)) by exact Hs.
  assert (Hsame : forall s' : RM, components s' = components s -> numRegisteredComponents s' = numRegisteredComponents s ->
    rm_ok s' /\ view s' = view s) by (intros s' E1 E2; unfold rm_ok, view, entries; by rewrite E1, E2).
  assert (Hgoal : exists stop (s' : RM), handle_command fd (set_cmd m s) = Some (stop, s') /\ rm_ok s' /\
    view s' = spec_command m fd (view s) /\ (stop = true <-> RM_Cmd m = RM_ExitTI)).
  { unfold handle_command, spec_command, has_room in *. cbn [cmd_data set_cmd].
    destruct (RM_Cmd m) eqn:E; try (eexists _, _; split; [reflexivity|]; split_and!; done || apply Hs).
    - eexists _, _. split; [reflexivity|]. cbn [stub_mode set_cmd]. destruct (stub_mode s); by split_and!.
    - destruct (wait_spec m _ Hok) as (s' & -> & F1 & F2 & _). destruct (Hsame s' F1 F2) as [Ha Hb].
      eexists _, _. split; [reflexivity|]. by split_and!.
    - destruct (free_and_remove m false s Hs) as (s' & Hf & Ha & Hb & _). eexists _, _. split; [exact Hf|]. by split_and!.
    - destruct (free_and_remove m true s Hs) as (s' & Hf & Ha & Hb & _). eexists _, _. split; [exact Hf|]. by split_and!.
    - destruct (state_set_spec m _ Hok) as (s' & -> & Ha & _ & He & _). eexists _, _. split; [reflexivity|]. split_and!; try done.
      unfold view. rewrite He. unfold alter_at. rewrite !List.map_map. apply map_ext. intros x.
      change (owns (sender m) (plain x)) with (owns (sender m) x). by destruct (owns (sender m) x).
    - destruct Hroom as [Hn Hr]. destruct (create_spec m fd _ Hok Hn Hr) as (s' & -> & Ha & _ & _ & _ & Hv).
      eexists _, _. split; [reflexivity|]. by split_and!.
    - destruct Hroom as [Hn Hr]. rewrite (pipe_spec _ _ Hok), <- (pipe_view _ (set_cmd m s)).
      change (view (set_cmd m s)) with (view s).
      destruct (Z.eqb_spec (pipe_of (mkClient (param4 m) (nPid (sender m))) (view s)) (-1)) as [Ep|Ep]; cbn [negb].
      + destruct (create_spec m fd _ Hok Hn Hr) as (s' & -> & Ha & _ & _ & _ & Hv). eexists _, _. split; [reflexivity|]. by split_and!.
      + destruct (add_pipe_spec m (pipe_of (mkClient (param4 m) (nPid (sender m))) (view s)) _ Hok Hr) as (s' & -> & Ha & _ & Hv).
        eexists _, _. split; [reflexivity|]. by split_and!. }
  destruct Hgoal as (stop & s' & H1' & H2' & H3' & H4'). exists stop, s'. split_and!; try done.
  intros c. by rewrite (pipe_spec c s' H2'), pipe_view.
Qed.

End Refines.

(** * Names *)

Lemma reverse_mid fuel a m b :
  (length m < fuel)%nat ->
  reverse_loop fuel (length a) (length a + length m - 1) (a ++ m ++ b) = Some (a ++ List.rev m ++ b).
Proof.
  revert a m b. induction fuel as [|fuel IH]; intros a m b Hf; [lia|]. cbn [reverse_loop].
  destruct (Nat.ltb_spec (length a) (length a + length m - 1)) as [Hlt|Hge].
  2:{ destruct m as [|c [|d m]]; [done|done|cbn [length] in Hge; lia]. }
  destruct m as [|c m]; [cbn [length] in Hlt; lia|]. destruct m as [|d m _] using rev_ind; [cbn [length] in Hlt; lia|].
  cbn [length] in *. rewrite length_app in *. cbn [length] in *.
  set (i := length a). assert (Hj : (i + S (length m + 1) - 1 = i + S (length m))%nat) by lia. rewrite Hj.
  assert (Hs : a ++ (c :: m ++ [d]) ++ b = a ++ c :: m ++ d :: b) by (cbn; by rewrite <- app_assoc).
  rewrite Hs, (list_lookup_middle a (m ++ d :: b) c i) by done.
  assert (Hd : (a ++ c :: m ++ d :: b) !! (i + S (length m))%nat = Some d).
  { rewrite lookup_app_r by (unfold i; lia). replace (i + S (length m) - length a)%nat with (S (length m)) by (unfold i; lia). cbn.
    by apply list_lookup_middle. }
  rewrite Hd.
  assert (Hu : <[(i + S (length m))%nat := c]> (<[i := d]> (a ++ c :: m ++ d :: b)) = (a ++ [d]) ++ m ++ (c :: b)).
  { assert (H1 : <[i := d]> (a ++ c :: m ++ d :: b) = a ++ d :: m ++ d :: b).
    { rewrite <- (Nat.add_0_r i). unfold i. by rewrite insert_app_r. }
    assert (H2 : <[length m := c]> (m ++ d :: b) = m ++ c :: b).
    { rewrite <- (Nat.add_0_r (length m)). by rewrite insert_app_r. }
    rewrite H1. unfold i. rewrite insert_app_r.
    change (<[S (length m) := c]> (d :: m ++ d :: b)) with (d :: <[length m := c]> (m ++ d :: b)).
    rewrite H2. by rewrite <- app_assoc. }
  rewrite Hu. replace (S i) with (length (a ++ [d])) by (rewrite length_app; cbn; unfold i; lia).
  replace (i + S (length m) - 1)%nat with (length (a ++ [d]) + length m - 1)%nat by (rewrite length_app; cbn; unfold i; lia).
  rewrite IH by lia. f_equal. cbn [List.rev]. rewrite rev_app_distr. cbn. by rewrite <- !app_assoc.
Qed.

Lemma RM_reverse_spec s : RM_reverse s = Some (List.rev s).
Proof.
  unfold RM_reverse. pose proof (reverse_mid (S (length s)) [] s [] ltac:(lia)) as Hr. cbn [length app] in Hr.
  rewrite !app_nil_r in Hr. exact Hr.
Qed.

(** The number that digits stand for, the lowest first. *)
Definition digit (c : ascii) : Z := Z.of_N (N_of_ascii c) - 48.
Definition number (l : list ascii) : Z := fold_right (fun c v => digit c + 10 * v) 0 l.

Lemma digit_chr d : 0 <= d < 10 -> digit (chr (d + 48)) = d.
Proof.
  intros Hd. unfold digit, chr. rewrite uwrap_small by lia. rewrite N_ascii_embedding by lia. lia.
Qed.

Lemma number_digits fuel n :
  (0 < fuel)%nat -> 0 <= n < 10 ^ Z.of_nat fuel ->
  number (digits_loop fuel n) = n /\ Forall (fun c => 0 <= digit c < 10) (digits_loop fuel n) /\
  (length (digits_loop fuel n) <= fuel)%nat.
Proof.
  revert n. induction fuel as [|fuel IH]; intros n Hf Hn; [lia|]. cbn [digits_loop].
  assert (Hd : 0 <= Z.rem n 10 < 10) by (rewrite Z.rem_mod_nonneg by lia; apply Z.mod_pos_bound; lia).
  assert (Hq : Z.quot n 10 = n / 10) by (apply Z.quot_div_nonneg; lia).
  pose proof (Z.div_mod n 10 ltac:(lia)). rewrite Z.rem_mod_nonneg in * by lia.
  destruct (Z.ltb_spec 0 (Z.quot n 10)) as [Hlt|Hge].
  - destruct (IH (Z.quot n 10)) as (I1 & I2 & I3).
    + destruct fuel; [|lia]. cbn in Hn. lia.
    + rewrite Nat2Z.inj_succ, Z.pow_succ_r in Hn by lia. rewrite Hq in *. split; [lia|]. apply Z.div_lt_upper_bound; lia.
    + cbn [number fold_right length]. rewrite digit_chr by lia. split_and!.
      * fold (number (digits_loop fuel (Z.quot n 10))). rewrite I1. lia.
      * constructor; [by rewrite digit_chr|done].
      * lia.
  - cbn [number fold_right length]. rewrite digit_chr by lia. split_and!; [lia| |lia].
    constructor; [by rewrite digit_chr|constructor].
Qed.

Lemma s32_cases x : 0 <= x < 2 ^ 32 -> (x < 2 ^ 31 /\ s32 x = x) \/ (2 ^ 31 <= x /\ s32 x = x - 2 ^ 32).
Proof.
  intros Hx. unfold swrap. change (2 ^ (32 - 1)) with 2147483648. change (2 ^ 32) with 4294967296 in *. change (2 ^ 31) with 2147483648 in *.
  destruct (Z.ltb_spec x 2147483648); [left|right]; (split; [lia|]); Z.to_euclidean_division_equations; lia.
Qed.

Lemma itoa_spec n :
  - 2 ^ 31 < n < 2 ^ 31 ->
  RM_itoa n = Some (List.rev (digits_loop 10 (Z.abs n) ++ (if n <? 0 then ["-"%char] else []))).
Proof. intros Hn. unfold RM_itoa. rewrite (proj2 (Z.eqb_neq _ _)) by lia. apply RM_reverse_spec. Qed.

Lemma itoa_inj n n' :
  - 2 ^ 31 < n < 2 ^ 31 -> - 2 ^ 31 < n' < 2 ^ 31 -> RM_itoa n = RM_itoa n' -> n = n'.
Proof.
  intros Hn Hn'. rewrite !itoa_spec by done. intros E%(inj Some). apply (f_equal (@List.rev ascii)) in E. rewrite !rev_involutive in E.
  assert (D : forall n, - 2 ^ 31 < n < 2 ^ 31 -> number (digits_loop 10 (Z.abs n)) = Z.abs n /\
    Forall (fun c => 0 <= digit c < 10) (digits_loop 10 (Z.abs n))).
  { intros m Hm. destruct (number_digits 10 (Z.abs m)) as (H1 & H2 & _); [lia|lia|done]. }
  destruct (D n Hn) as [H1 H2], (D n' Hn') as [H1' H2']. clear D.
  assert (Hsign : forall l l', Forall (fun c => 0 <= digit c < 10) l' -> l ++ ["-"%char] <> l' ++ []).
  { intros l l' Hl' El. rewrite app_nil_r in El. subst l'. apply Forall_app in Hl' as [_ Hc].
    inversion Hc as [|? ? Hc' _]; subst. vm_compute in Hc'. destruct Hc' as [Hc' _]. by apply Hc'. }
  destruct (Z.ltb_spec n 0), (Z.ltb_spec n' 0).
  - apply (f_equal (fun l => number (removelast l))) in E. rewrite !removelast_last, H1, H1' in E. lia.
  - exfalso. exact (Hsign _ _ H2' E).
  - exfalso. exact (Hsign _ _ H2 (eq_sym E)).
  - rewrite !app_nil_r in E. apply (f_equal number) in E. rewrite H1, H1' in E. lia.
Qed.

Lemma itoa_length n s : - 2 ^ 31 < n < 2 ^ 31 -> RM_itoa n = Some s -> (length s <= 11)%nat.
Proof.
  intros Hn. rewrite itoa_spec by done. intros E%(inj Some). rewrite <- E, length_rev, length_app.
  destruct (number_digits 10 (Z.abs n)) as (_ & _ & Hl); [lia|lia|]. destruct (n <? 0); cbn [length]; lia.
Qed.

Lemma string_of_list_inj l l' : string_of_list_ascii l = string_of_list_ascii l' -> l = l'.
Proof. intros E. rewrite <- (list_ascii_of_string_of_list_ascii l), E. apply list_ascii_of_string_of_list_ascii. Qed.

Lemma string_of_list_length l : String.length (string_of_list_ascii l) = length l.
Proof. induction l as [|c l IH]; [done|]. exact (f_equal S IH). Qed.

(** C39: Processes have pipes of their own: for any two numbers a process can have, the names are defined, fit the
    buffers they are built in, and are the same only for the same process. *)
Theorem pipe_names_distinct (p p' : Z) :
  0 <= p < 2 ^ 32 -> p <> 2 ^ 31 -> 0 <= p' < 2 ^ 32 -> p' <> 2 ^ 31 ->
  exists a a', pipe_name p = Some a /\ pipe_name p' = Some a' /\ (a = a' <-> p = p') /\ (String.length a < 120)%nat.
Proof.
  intros Hp Hn Hp' Hn'.
  assert (R : forall p, 0 <= p < 2 ^ 32 -> p <> 2 ^ 31 -> - 2 ^ 31 < s32 p < 2 ^ 31).
  { intros x Hx Hxn. destruct (s32_cases x Hx); lia. }
  pose proof (R p Hp Hn) as Hr. pose proof (R p' Hp' Hn') as Hr'. clear R.
  unfold pipe_name. pose proof (itoa_spec _ Hr) as E. pose proof (itoa_spec _ Hr') as E'.
  destruct (RM_itoa (s32 p)) as [s|] eqn:Es; [|discriminate E]. destruct (RM_itoa (s32 p')) as [s'|] eqn:Es'; [|discriminate E'].
  clear E E'. eexists _, _. split; [reflexivity|]. split; [reflexivity|]. split.
  - split; [|intros ->; congruence]. intros E. apply (inj (String.append RM_SERVER_OUT)), (inj (String.append "_")), string_of_list_inj in E.
    subst s'. rewrite <- Es' in Es. apply itoa_inj in Es; [|done|done].
    destruct (s32_cases p Hp), (s32_cases p' Hp'); lia.
  - rewrite !string_length_app, string_of_list_length. pose proof (itoa_length _ _ Hr Es) as Hl.
    change (String.length RM_SERVER_OUT) with 18%nat. change (String.length "_") with 1%nat. lia.
Qed.
