(* ===== verification/RmLoads.v ===== *)
(** The loads the resource manager adds up: while the components keep to the states of OpenMAX, its totals
    are the sums over the components that run, and the operating point of the processor is the one for
    the sum of all. *)

From Stdlib Require Import ZArith Lia String.
From stdpp Require Import base list list_numbers strings option tactics.
From S2P Require Import Prelude PolicyManager ActivityMonitor QosRegistry ResourceManager RmList.
Local Open Scope Z_scope.

(** * Sums *)

(** The kind of a component by its number: OMX_COMPONENTINDEXTYPE (ResourceManagerProxyAPI.h) numbers the audio codecs first, then
    those for video, then those for images, the camera and the display. *)
Definition nature (c : Z) : option kind :=
  if c <? 0 then None
  else if c <=? OMX_RAGECKO_Decoder_COMPONENT then Some RM_AUDIO
  else if c <=? OMX_720P_Encode_COMPONENT then Some RM_VIDEO
  else if c <=? OMX_VPP_COMPONENT then Some RM_IMAGE
  else if c =? OMX_CAMERA_COMPONENT then Some RM_CAMERA
  else if c =? OMX_DISPLAY_COMPONENT then Some RM_LCD
  else None.

(** The codecs that [HandleStateSet] has no case for. *)
Definition uncounted : list Z := [OMX_IMAADPCM_Decoder_COMPONENT; OMX_IMAADPCM_Encoder_COMPONENT].

(** The cases of [HandleStateSet] are right for all other components. *)
Lemma componentType_nature c : c ∉ uncounted -> componentType c = nature c.
Proof.
  intros Hc. destruct (decide (0 <= c < 46)) as [Hr|Hr].
  - assert (Hf : forallb (fun n => let c := Z.of_nat n in bool_decide (c ∈ uncounted) || bool_decide (componentType c = nature c)) (seq 0 46) = true)
      by (by vm_compute).
    rewrite forallb_forall in Hf. specialize (Hf (Z.to_nat c)). cbv zeta in Hf. rewrite Z2Nat.id in Hf by lia.
    rewrite (bool_decide_eq_false_2 (c ∈ uncounted)) in Hf by done. apply (bool_decide_eq_true _), Hf, in_seq. lia.
  - assert (Hn : forall l, Forall (fun x => 0 <= x < 46) l -> c ∉ l).
    { intros l Hl Hin. rewrite list.Forall_forall in Hl. by apply Hr, Hl. }
    assert (Hb : forall l, forallb (fun x => (0 <=? x) && (x <? 46)) l = true -> bool_decide (c ∈ l) = false).
    { intros l Hl. apply bool_decide_eq_false_2, Hn, list.Forall_forall. intros x Hx. rewrite forallb_forall in Hl.
      apply list_elem_of_In, Hl in Hx. lia. }
    unfold componentType. rewrite !Hb by (by vm_compute). unfold nature.
    unfold OMX_RAGECKO_Decoder_COMPONENT, OMX_720P_Encode_COMPONENT, OMX_VPP_COMPONENT, OMX_CAMERA_COMPONENT, OMX_DISPLAY_COMPONENT.
    destruct (Z.ltb_spec c 0); [done|]. rewrite !(proj2 (Z.leb_gt _ _)) by lia. by rewrite !(proj2 (Z.eqb_neq _ _)) by lia.
Qed.

(** [P] is the number of the component that a client is an instance of. *)
Definition part (P : client -> Z) (k : kind) (r : registered) : Z :=
  if (componentState r =? OMX_StateExecuting) && bool_decide (nature (P (owner r)) = Some k)
  then componentCPU r else 0.
Fixpoint load_of (P : client -> Z) (k : kind) (l : list registered) : Z :=
  match l with [] => 0 | r :: l => part P k r + load_of P k l end.
Definition all_loads (P : client -> Z) (l : list registered) : Z :=
  load_of P RM_AUDIO l + load_of P RM_VIDEO l + load_of P RM_IMAGE l + load_of P RM_CAMERA l + load_of P RM_LCD l.

Record totals_ok (P : client -> Z) (l : list registered) (t : totals) : Prop := {
  t_image : imageTotalCpu t = u32 (load_of P RM_IMAGE l);
  t_video : videoTotalCpu t = u32 (load_of P RM_VIDEO l);
  t_audio : audioTotalCpu t = u32 (load_of P RM_AUDIO l);
  t_lcd : lcdTotalCpu t = u32 (load_of P RM_LCD l);
  t_camera : cameraTotalCpu t = u32 (load_of P RM_CAMERA l);
  t_total : totalCpu t = u32 (all_loads P l) }.

Lemma load_plain P k l : load_of P k (map plain l) = load_of P k l.
Proof. induction l as [|r l IH]; [done|]. cbn. by rewrite IH. Qed.

Lemma load_app P k l l' : load_of P k (l ++ l') = load_of P k l + load_of P k l'.
Proof. induction l as [|r l IH]; [done|]. cbn. rewrite IH. lia. Qed.

Lemma load_removed P k c l r :
  NoDup (map owner l) -> cell_of c l = Some r -> load_of P k (removed c l) = load_of P k l - part P k r.
Proof.
  induction l as [|x l IH]; [done|]. cbn. intros [Hx Hnd]%list.NoDup_cons Hc. destruct (owns c x) eqn:E; cbn.
  - injection Hc as ->. apply owns_iff in E as <-. fold (removed (owner r) l). rewrite removed_absent by done. lia.
  - fold (removed c l). rewrite IH by done. lia.
Qed.

Lemma load_altered P k c f l r :
  NoDup (map owner l) -> cell_of c l = Some r -> load_of P k (alter_at c f l) = load_of P k l - part P k r + part P k (f r).
Proof.
  induction l as [|x l IH]; [done|]. cbn. intros [Hx Hnd]%list.NoDup_cons Hc. destruct (owns c x) eqn:E; cbn.
  - injection Hc as ->. apply owns_iff in E as <-. fold (alter_at (owner r) f l). rewrite alter_absent by done. lia.
  - fold (alter_at c f l). rewrite IH by done. lia.
Qed.

Lemma cell_absent c l : cell_of c l = None -> c ∉ map owner l.
Proof.
  induction l as [|x l IH]; [intros _; apply not_elem_of_nil|]. cbn. destruct (owns c x) eqn:E; [done|].
  intros Hc. rewrite not_elem_of_cons. split; [|by apply IH]. intros ->. by rewrite (proj2 (owns_iff _ x) eq_refl) in E.
Qed.

Lemma cell_owner c l r : cell_of c l = Some r -> owner r = c.
Proof. intros Hc. apply find_some in Hc as [_ Hc]. by apply owns_iff. Qed.

Lemma u32_add a b : u32 (u32 a + b) = u32 (a + b).
Proof. unfold uwrap. by rewrite Zplus_mod_idemp_l. Qed.

Lemma u32_sum a b c d e : u32 (u32 a + u32 b + u32 c + u32 d + u32 e) = u32 (a + b + c + d + e).
Proof.
  assert (Hr : forall x y, u32 (x + u32 y) = u32 (x + y)) by (intros; unfold uwrap; apply Zplus_mod_idemp_r).
  assert (Hl : forall x x' y, u32 x = u32 x' -> u32 (x + y) = u32 (x' + y)) by (intros x x' y E; by rewrite <- u32_add, E, u32_add).
  rewrite Hr. apply Hl. rewrite Hr. apply Hl. rewrite Hr. apply Hl. rewrite Hr. apply u32_add.
Qed.

(** A component of kind [k] whose part in the sums changes by [d]. *)
Lemma totals_add P l l' t k d :
  totals_ok P l t ->
  (forall k', load_of P k' l' = load_of P k' l + (if bool_decide (k = Some k') then d else 0)) ->
  totals_ok P l' (add_load k d t).
Proof.
  intros [H1 H2 H3 H4 H5 H6] Hd.
  assert (Hon : forall k' x, x = u32 (load_of P k' l) ->
    (if bool_decide (k = Some k') then u32 (x + d) else x) = u32 (load_of P k' l')).
  { intros k' x ->. rewrite (Hd k'). destruct (bool_decide (k = Some k')); [apply u32_add|by rewrite Z.add_0_r]. }
  unfold add_load. split; cbn; try by apply Hon.
  rewrite !(Hon _ _ H1), !(Hon _ _ H2), !(Hon _ _ H3), !(Hon _ _ H4), !(Hon _ _ H5). apply u32_sum.
Qed.

Lemma totals_same P l l' t : totals_ok P l t -> (forall k, load_of P k l' = load_of P k l) -> totals_ok P l' t.
Proof. intros [H1 H2 H3 H4 H5 H6] Hl. unfold all_loads in *. split; unfold all_loads; by rewrite ?Hl. Qed.

(** * The protocol *)

Section Protocol.
Context {K B : Type} `{SysfsLaws K} `{Bridge B}.
Notation RM := (rm K B).
Context (P : client -> Z) (Hcounted : forall c, P c ∉ uncounted).

(** A component starts to run from Idle or Pause and stops to one of them; and it does not run when it
    is taken from the list. *)
Definition orderly_change (previous new : Z) : Prop :=
  (previous = OMX_StateExecuting -> new ∈ [OMX_StateIdle; OMX_StatePause; OMX_StateExecuting]) /\
  (new = OMX_StateExecuting -> previous ∈ [OMX_StateIdle; OMX_StatePause; OMX_StateExecuting]).
Definition orderly (m : message) (l : list registered) : Prop :=
  match RM_Cmd m with
  | RM_StateSet =>
      param1 m = P (sender m) /\ forall r, cell_of (sender m) l = Some r -> orderly_change (componentState r) (param2 m)
  | RM_FreeResource | RM_FreeAndCloseResource =>
      forall r, cell_of (freed (sender m) l) l = Some r -> componentState r <> OMX_StateExecuting
  | _ => True
  end.

(** The totals, and the operating point for them. *)
Record loads_ok (s : RM) : Prop := {
  lo_cells : rm_ok s;
  lo_totals : totals_ok P (view s) (loads s);
  lo_boost : bBoostOn (ram s) = false;
  lo_point : DVFS_ENABLED = true ->
    rm_get_vdd1_constraint (kernel (ram s)) = opp_of (s32 (totalCpu (loads s))) (kernel (ram s)) }.

Lemma loads_kept (s s' : RM) :
  loads_ok s -> rm_ok s' -> loads s' = loads s -> ram s' = ram s ->
  (forall k, load_of P k (view s') = load_of P k (view s)) -> loads_ok s'.
Proof.
  intros [L1 L2 L3 L4] Hs El Er Hk. split; rewrite ?El, ?Er; try done. by eapply totals_same.
Qed.

Lemma account_ok k d (s s' : RM) :
  loads_ok s -> rm_ok s' -> loads s' = loads (account k d s) -> ram s' = ram (account k d s) ->
  (forall k', load_of P k' (view s') = load_of P k' (view s) + (if bool_decide (k = Some k') then d else 0)) -> loads_ok s'.
Proof.
  intros [H1' H2' H3' H4'] Hs El Er Hk. unfold account in El, Er. cbn [loads ram set_loads] in El, Er.
  destruct (DVFS_ENABLED) eqn:Ed.
  - destruct (rm_set_vdd1_constraint_spec (s32 (totalCpu (add_load k d (loads s)))) (ram s) Ed) as (_ & F2 & F3 & F4).
    split; rewrite ?El, ?Er; [done|by eapply totals_add|by rewrite F2|]. intros _.
    rewrite F4, H3'. symmetry. by apply opp_of_version.
  - split; rewrite ?El, ?Er; [done|by eapply totals_add| |congruence]. unfold rm_set_vdd1_constraint. by rewrite Ed.
Qed.

(** The part of a component that changes its state. *)
Lemma part_changes c r st k' :
  owner r = c -> orderly_change (componentState r) st ->
  part P k' (with_state st r) - part P k' r =
    if starts (componentState r) st then (if bool_decide (nature (P c) = Some k') then componentCPU r else 0)
    else if stops (componentState r) st then (if bool_decide (nature (P c) = Some k') then - componentCPU r else 0)
    else 0.
Proof.
  intros <- Ho. unfold part, with_state. cbn [componentState owner componentCPU].
  unfold orderly_change, starts, stops in *. rewrite !elem_of_cons, !elem_of_nil in Ho. destruct (bool_decide _); rewrite ?andb_true_r, ?andb_false_r; [|by repeat case_match].
  unfold OMX_StateIdle, OMX_StatePause, OMX_StateExecuting in *.
  destruct (Z.eqb_spec (componentState r) 2), (Z.eqb_spec (componentState r) 4), (Z.eqb_spec (componentState r) 3),
    (Z.eqb_spec st 3), (Z.eqb_spec st 2), (Z.eqb_spec st 4); cbn in *; lia.
Qed.

Lemma view_distinct (s : RM) : rm_ok s -> NoDup (map owner (view s)).
Proof. intros Hs. rewrite view_owners. apply Hs. Qed.

Lemma cell_view c (s : RM) : cell_of c (view s) = option_map plain (cell_of c (entries s)).
Proof.
  unfold cell_of, view. induction (entries s) as [|x l IH]; [done|]. cbn. change (owns c (plain x)) with (owns c x). by destruct (owns c x).
Qed.

Lemma state_set_loads m (s s' : RM) :
  loads_ok s -> RM_Cmd m = RM_StateSet -> orderly m (view s) -> HandleStateSet m (set_cmd m s) = Some s' -> loads_ok s'.
Proof.
  intros Hs Hm Ho. unfold orderly in Ho. rewrite Hm in Ho. destruct Ho as [Hp Ho].
  destruct (state_set_spec m (set_cmd m s) (lo_cells _ Hs)) as (s1 & -> & Hok & _ & He & Hl). intros [= <-].
  change (entries (set_cmd m s)) with (entries s) in *.
  assert (Hv : view s1 = alter_at (sender m) (with_state (param2 m)) (view s)).
  { unfold view. rewrite He. unfold alter_at. rewrite !List.map_map. apply map_ext. intros x.
    change (owns (sender m) (plain x)) with (owns (sender m) x). by destruct (owns (sender m) x). }
  pose proof (cell_view (sender m) s) as Hcv. destruct (cell_of (sender m) (entries s)) as [r|] eqn:Hc; cbn in Hcv.
  2:{ destruct Hl as [Hl1 Hl2]. eapply loads_kept; [exact Hs|done|done|done|]. intros k. rewrite Hv, alter_absent; [done|by apply cell_absent]. }
  specialize (Ho _ Hcv). change (componentState (plain r)) with (componentState r) in Ho.
  assert (Hd : forall k', load_of P k' (view s1) = load_of P k' (view s) + (part P k' (with_state (param2 m) r) - part P k' r)).
  { intros k'. rewrite Hv, (load_altered _ _ _ _ _ (plain r)) by (done || apply view_distinct, Hs).
    change (part P k' (plain r)) with (part P k' r). change (part P k' (with_state (param2 m) (plain r))) with (part P k' (with_state (param2 m) r)). lia. }
  pose proof (fun k' => part_changes (sender m) r (param2 m) k' (cell_owner _ _ _ Hc) Ho) as Hpart.
  destruct Hl as [Hl1 Hl2]. unfold accounted in Hl1, Hl2. rewrite Hp, !(componentType_nature _ (Hcounted _)) in Hl1, Hl2.
  destruct (starts (componentState r) (param2 m)).
  { eapply (account_ok (nature (P (sender m))) (componentCPU r) s); [done..|]. intros k'. by rewrite Hd, Hpart. }
  destruct (stops (componentState r) (param2 m)).
  { eapply (account_ok (nature (P (sender m))) (- componentCPU r) s); [done..|]. intros k'. by rewrite Hd, Hpart. }
  eapply (loads_kept s); [done..|]. intros k'. by rewrite Hd, Hpart, Z.add_0_r.
Qed.

Lemma added_load k m fd l : load_of P k (added (new_cell m fd) l) = load_of P k l.
Proof. unfold added. destruct (cell_of _ l); [done|]. rewrite load_app. cbn. unfold part. cbn. lia. Qed.

Lemma command_loads m fd (s s' : RM) stop :
  loads_ok s -> has_room m s -> orderly m (view s) -> handle_command fd (set_cmd m s) = Some (stop, s') -> loads_ok s'.
Proof.
  intros Hs Hroom Ho. pose proof (lo_cells _ Hs) as Hok. pose proof Ho as Ho'. unfold handle_command, has_room, orderly in *. cbn [cmd_data set_cmd].
  assert (Hfree : forall close s1, (forall r, cell_of (freed (sender m) (view s)) (view s) = Some r -> componentState r <> OMX_StateExecuting) ->
    (let* s1 := HandleFreeResource m (set_cmd m s) in
     let* s1 := (if close : bool then RM_ClosePipe (cmd_data s1) s1 else Some s1) in
     let* s1 := RM_RemoveComponentFromList (sender (cmd_data s1)) s1 in Some (false, s1)) = Some (stop, s1) -> loads_ok s1).
  { intros close s1 Hx. destruct (free_and_remove m close s Hok) as (s2 & -> & R2 & R3 & R4 & R5 & _). intros [= _ <-].
    eapply loads_kept; [exact Hs|done|done|done|]. intros k. rewrite R3.
    destruct (cell_of (freed (sender m) (view s)) (view s)) as [r|] eqn:Hc.
    - rewrite (load_removed _ _ _ _ r) by (done || by apply view_distinct). unfold part.
      rewrite (proj2 (Z.eqb_neq _ _) (Hx r eq_refl)). cbn. lia.
    - by rewrite removed_absent by (by apply cell_absent). }
  destruct (RM_Cmd m) eqn:Em; try (intros [= _ <-]; by eapply loads_kept).
  - intros [= _ <-]. eapply loads_kept; [exact Hs|..]; cbn; by destruct (stub_mode s).
  - destruct (wait_spec m (set_cmd m s) Hok) as (s1 & -> & F1 & F2 & _ & F4 & F5). intros [= _ <-].
    eapply loads_kept; [exact Hs| |done|done|]; unfold rm_ok, view, entries; by rewrite F1, F2.
  - by apply (Hfree false).
  - by apply (Hfree true).
  - destruct (HandleStateSet m (set_cmd m s)) as [s1|] eqn:E; [|done]. intros [= _ <-]. eapply state_set_loads; [exact Hs|done| |exact E].
    unfold orderly. by rewrite Em.
  - destruct Hroom as [Hn Hr]. destruct (create_spec m fd (set_cmd m s) Hok Hn Hr) as (s1 & -> & Ha & _ & Hb & Hc & Hv). intros [= _ <-].
    eapply loads_kept; [exact Hs|done..|]. intros k. rewrite Hv. unfold opened. repeat case_match; try done; apply added_load.
  - destruct Hroom as [Hn Hr]. rewrite (pipe_spec _ (set_cmd m s) Hok). destruct (negb _).
    + destruct (add_pipe_spec m (pipe_of (mkClient (param4 m) (nPid (sender m))) (entries (set_cmd m s))) (set_cmd m s) Hok Hr)
        as (s1 & -> & Ha & Hb & Hv). intros [= _ <-]. rewrite Hb. rewrite Hb in Ha, Hv. eapply loads_kept; [exact Hs|done..|].
      intros k. unfold view at 1. rewrite Hv. apply added_load.
    + destruct (create_spec m fd (set_cmd m s) Hok Hn Hr) as (s1 & -> & Ha & _ & Hb & Hc & Hv). intros [= _ <-].
      eapply loads_kept; [exact Hs|done..|]. intros k. rewrite Hv. unfold opened. repeat case_match; try done; apply added_load.
Qed.

End Protocol.

(** * Runs *)

Section Runs.
Context {K B : Type} `{SysfsLaws K} `{Bridge B}.
Notation RM := (rm K B).
Context (P : client -> Z) (Hcounted : forall c, P c ∉ uncounted) (qosdyn : bool).

(** What the answers of the policy manager and the watch leave alone. *)
Definition kept (s s' : RM) : Prop := rm_ok s' /\ view s' = view s /\ loads s' = loads s /\ ram s' = ram s.

Lemma kept_fields (s s' : RM) :
  rm_ok s -> components s' = components s -> numRegisteredComponents s' = numRegisteredComponents s ->
  loads s' = loads s -> ram s' = ram s -> kept s s'.
Proof. intros Hs E1 E2 E3 E4. unfold kept, rm_ok, view, entries in *. by rewrite E1, E2. Qed.

Lemma kept_trans s1 s2 s3 : kept s1 s2 -> kept s2 s3 -> kept s1 s3.
Proof. intros (A1 & A2 & A3 & A4) (B1 & B2 & B3 & B4). split_and!; congruence. Qed.

Lemma set_status_kept c st (s s' : RM) :
  rm_ok s -> st <> RM_WaitingForResource -> st <> RM_WaitingForPolicy -> RM_SetStatus c st s = Some s' -> kept s s'.
Proof.
  intros Hs S1 S2. destruct (set_status_spec c st s Hs S1 S2) as (s1 & -> & Hok & Hs1 & He). intros [= <-]. split_and!.
  - done.
  - unfold view. rewrite He. by apply plain_alter.
  - by rewrite Hs1.
  - by rewrite Hs1.
Qed.

Lemma write_kept c m (s s' : RM) : rm_ok s -> write_pipe_of c m s = Some s' -> kept s s'.
Proof.
  intros Hs. unfold write_pipe_of. rewrite (pipe_spec c s Hs). intros [= <-].
  destruct (to_client_fields (pipe_of c (entries s)) m s) as (F1 & F2 & _ & F4 & F5 & _). by apply kept_fields.
Qed.

Lemma answer_kept st cst (s s' : RM) :
  rm_ok s -> cst <> RM_WaitingForResource -> cst <> RM_WaitingForPolicy -> answer_request st cst s = Some s' -> kept s s'.
Proof.
  intros Hs S1 S2. unfold answer_request. cbn zeta.
  set (s0 := set_request _ s). assert (Hk0 : kept s s0) by by apply kept_fields.
  destruct (RM_SetStatus (sender (globalrequest_cmd_data s0)) cst s0) as [s1|] eqn:E1; [|done]. intros E2.
  pose proof (set_status_kept _ _ _ _ (proj1 Hk0) S1 S2 E1) as Hk1. pose proof (write_kept _ _ _ _ (proj1 Hk1) E2) as Hk2.
  exact (kept_trans _ _ _ Hk0 (kept_trans _ _ _ Hk1 Hk2)).
Qed.

Lemma get_qos_fields (s s' : RM) ok :
  RM_GetQos qosdyn s = Some (ok, s') ->
  components s' = components s /\ numRegisteredComponents s' = numRegisteredComponents s /\ loads s' = loads s /\ ram s' = ram s /\
  cmd_data s' = cmd_data s /\ globalrequest_cmd_data s' = globalrequest_cmd_data s /\ outbox s' = outbox s /\
  mmuRecoveryInProgress s' = mmuRecoveryInProgress s.
Proof.
  unfold RM_GetQos. intros Hq. repeat case_match; simplify_eq; by split_and!.
Qed.

Lemma reply_kept r (s s' : RM) : rm_ok s -> handle_reply qosdyn r s = Some s' -> kept s s'.
Proof.
  intros Hs. unfold handle_reply. destruct r as [c|c|c].
  - destruct (negb (mmuRecoveryInProgress s)); [|by apply answer_kept].
    destruct (RM_GetQos qosdyn s) as [[ok s1]|] eqn:E; [|done].
    destruct (get_qos_fields _ _ _ E) as (F1 & F2 & F3 & F4 & _).
    assert (Hk : kept s s1) by by apply kept_fields. destruct ok.
    + intros Ha. eapply kept_trans; [exact Hk|]. by eapply answer_kept; [apply Hk| | |exact Ha].
    + intros [= <-]. exact Hk.
  - by apply answer_kept.
  - cbn zeta. set (s0 := set_cmd _ s). assert (Hk0 : kept s s0) by by apply kept_fields.
    destruct (RM_SetStatus (sender (cmd_data s0)) RM_WaitingForClient s0) as [s1|] eqn:E1; [|done]. intros E2.
    pose proof (set_status_kept _ RM_WaitingForClient _ _ (proj1 Hk0) ltac:(done) ltac:(done) E1) as Hk1.
    pose proof (write_kept _ _ _ _ (proj1 Hk1) E2) as Hk2. exact (kept_trans _ _ _ Hk0 (kept_trans _ _ _ Hk1 Hk2)).
Qed.

Lemma tell_fatal_kept i (s s' : RM) : rm_ok s -> tell_fatal i s = Some s' -> kept s s'.
Proof.
  intros Hs. unfold tell_fatal. destruct (components s !! i) as [r|]; [|done]. cbn zeta.
  set (s0 := set_cmd _ s). assert (Hk0 : kept s s0) by by apply kept_fields.
  destruct (RM_SetStatus (owner r) RM_WaitingForClient s0) as [s1|] eqn:E1; [|done]. intros E2.
  pose proof (set_status_kept _ RM_WaitingForClient _ _ (proj1 Hk0) ltac:(done) ltac:(done) E1) as Hk1.
  pose proof (write_kept _ _ _ _ (proj1 Hk1) E2) as Hk2. exact (kept_trans _ _ _ Hk0 (kept_trans _ _ _ Hk1 Hk2)).
Qed.

Lemma for_list_kept (l : list nat) (s s' : RM) : rm_ok s -> for_list l tell_fatal s = Some s' -> kept s s'.
Proof.
  revert s. induction l as [|i l IH]; intros s Hs; cbn; [intros [= <-]; by apply kept_fields|].
  destruct (tell_fatal i s) as [s1|] eqn:E; [|done]. intros E'. pose proof (tell_fatal_kept i s s1 Hs E) as Hk.
  eapply kept_trans; [exact Hk|]. by apply IH; [apply Hk|].
Qed.

Lemma start_ok (m : monitor K) (q : qos B) : rm_ok (start m q).
Proof.
  unfold rm_ok, start. cbn [components numRegisteredComponents].
  split; [done|lia|constructor|apply Forall_replicate; by split].
Qed.

(** The events of a run: the messages keep the protocol, and there is room for what they add. *)
Definition well_behaved (e : event) (s : RM) : Prop :=
  match e with Read_command m _ => has_room m s /\ orderly P m (view s) | _ => True end.

Inductive reaches : RM -> RM -> Prop :=
  | reach_refl s : reaches s s
  | reach_turn s s1 s2 e stop : reaches s s1 -> well_behaved e s1 -> turn qosdyn e s1 = Some (stop, s2) -> reaches s s2.

Lemma turn_loads e (s s' : RM) stop :
  loads_ok P s -> well_behaved e s -> turn qosdyn e s = Some (stop, s') -> loads_ok P s'.
Proof.
  intros Hs. pose proof (lo_cells _ _ Hs) as Hok. assert (Hk : forall s1, kept s s1 -> loads_ok P s1).
  { intros s1 (A1 & A2 & A3 & A4). eapply loads_kept; [exact Hs|done..|]. by rewrite A2. }
  destruct e as [m fd|r| |]; cbn.
  - intros [Hr Ho]. by eapply command_loads.
  - intros _. destruct (stub_mode s); [by intros [= _ <-]|]. destruct (handle_reply qosdyn r s) as [s1|] eqn:E; [|done].
    intros [= _ <-]. by eapply Hk, reply_kept.
  - intros _. unfold fatal_error, for_range. destruct (for_list _ tell_fatal (set_mmu true s)) as [s1|] eqn:E; [|done].
    intros [= _ <-]. apply Hk. eapply kept_trans; [|eapply for_list_kept, E]; [by apply kept_fields|exact Hok].
  - intros _ [= _ <-]. by apply Hk, kept_fields.
Qed.

Lemma reaches_loads (m : monitor K) (q : qos B) (s : RM) :
  bBoostOn m = false ->
  (DVFS_ENABLED = true -> rm_get_vdd1_constraint (kernel m) = opp_of 0 (kernel m)) ->
  reaches (start m q) s -> loads_ok P s.
Proof.
  intros Hb Hp Hr. remember (start m q) as s0 eqn:E0. induction Hr as [s|s s1 s2 e stop _ IH Hw Ht].
  - subst s. split; [apply start_ok|by split|done|exact Hp].
  - by eapply turn_loads; [apply IH|..].
Qed.

(** C13: As long as the components keep to the protocol ([orderly]: they name their component, start from Idle or Pause, stop to
    one of them and do not run when they are freed) and none is an IMAADPCM codec, for which HandleStateSet has no case (ResourceManager.c:625,
    [adpcm_not_counted]), there is room in the list for those that open ([has_room]), no boost is on, and whatever the policy manager and the watch of the DSP do in
    between, the totals are the sums of the loads of the components that run, kind by kind - by the
    order of OMX_COMPONENTINDEXTYPE - and altogether, modulo 2^32, and the operating point the kernel has is the one for the sum. *)
Theorem loads_exact (m : monitor K) (q : qos B) (s : RM) :
  bBoostOn m = false ->
  (DVFS_ENABLED = true -> rm_get_vdd1_constraint (kernel m) = opp_of 0 (kernel m)) ->
  reaches (start m q) s ->
  totals_ok P (view s) (loads s) /\
  (DVFS_ENABLED = true ->
   rm_get_vdd1_constraint (kernel (ram s)) = opp_of (s32 (u32 (all_loads P (view s)))) (kernel (ram s))).
Proof.
  intros Hb Hp Hr. pose proof (reaches_loads m q s Hb Hp Hr) as Hl. split; [apply Hl|].
  intros Hd. rewrite (lo_point _ _ Hl Hd). by rewrite (t_total _ _ _ (lo_totals _ _ Hl)).
Qed.

End Runs.
