(* ===== verification/RmPolicy.v ===== *)
(** The resource manager and the policy manager together: what the component that asks for resources, and the
    components that have to give way, read from their pipes. *)

From Stdlib Require Import ZArith Lia String.
From stdpp Require Import base list list_numbers strings option tactics relations.
From S2P Require Import Prelude PolicyManager PolicyRun ActivityMonitor QosRegistry ResourceManager RmList RmLoads.
Local Open Scope Z_scope.

Section Exchange.
Context {K B : Type} `{SysfsLaws K} `{Bridge B}.
Notation RM := (rm K B).
Context (qosdyn : bool).

(** The replies are read in the order in which they were written. *)
Fixpoint hear_replies (rs : list reply) (s : RM) : option RM :=
  match rs with
  | [] => Some s
  | r :: rs => let* s := handle_reply qosdyn r s in hear_replies rs s
  end.

(** The policy manager answers a question, and the resource manager reads the answers. *)
Definition policy_round (c : command) (s : RM) (p : manager) : option (RM * manager) :=
  let* (rs, p) := serve c p in
  let* s := hear_replies rs s in Some (s, p).

(** A request: the resource manager reads it and asks. *)
Definition exchange (m : message) (s : RM) (p : manager) : option (RM * manager) :=
  let* (_, s) := handle_command (fun _ => -1) (set_cmd m s) in
  match List.last (outbox s) (Close_pipe 0) with
  | To_policy c => policy_round c s p
  | _ => Some (s, p)
  end.

(** Whether the DSP has room for the request: what the question depends on. *)
Definition verdict (s : RM) : option bool := option_map fst (RM_GetQos qosdyn s).

(** What the DSP tells of itself when it is asked for the last command: the bytes of its heaps, if memory is asked for, and its load in
    MHz. *)
Definition dsp_tells (s : RM) (mem load : Z) : Prop :=
  get_omap_version (kernel (ram s)) <> OMAP_NOT_SUPPORTED /\
  exists r q h q1 r2 q2,
    InitializeQos qosdyn (qosti s) = (0, false, Some r, q) /\ all_heaps r = Some h /\
    (if 0 <? param3 (cmd_data s)
     then exists st st' o rest q0, QosTI_DspMsg QOS_TI_GETMEMSTAT (heapId h) USED_HEAPSIZE q = (st, Some (mem, o), q0) /\
       DSP_SUCCEEDED st = true /\ QosTI_DspMsg QOS_TI_GETMEMSTAT (heapId h) LARGEST_FREE_BLOCKSIZE q0 = (st', rest, q1) /\
       DSP_SUCCEEDED st' = true
     else q1 = q) /\
    current_load r q1 = Some (Some load, r2, q2).

(** A request fits when the cycles asked for are left and there are more bytes of memory than asked for, with the alignment. *)
Definition fits (s : RM) (mem load : Z) : bool :=
  ((param3 (cmd_data s) <=? 0) || (param3 (cmd_data s) + 4 <? mem)) &&
  (load + param2 (cmd_data s) <=? get_dsp_max_freq (kernel (ram s))).

(** Neither sum wraps around, and the DSP is not loaded above its maximum. *)
Definition in_range (s : RM) (load : Z) : Prop :=
  0 <= load <= get_dsp_max_freq (kernel (ram s)) /\ get_dsp_max_freq (kernel (ram s)) < 2 ^ 32 /\
  0 <= param3 (cmd_data s) < 2 ^ 32 - 4.

Lemma verdict_told s mem load b :
  verdict s = Some b -> stub_mode s = false -> dsp_tells s mem load -> in_range s load -> b = fits s mem load.
Proof.
  intros Hb Hst (Hv & r & q & h & q1 & r2 & q2 & Hi & Hh & Hm & Hl) (Hload & Hmax & Hp3).
  assert (Hma : memory_available (param3 (cmd_data s)) h q = (Some ((param3 (cmd_data s) <=? 0) || (param3 (cmd_data s) + 4 <? mem)), q1)).
  { unfold memory_available. destruct (Z.ltb_spec 0 (param3 (cmd_data s))) as [Hlt|Hle].
    - destruct Hm as (st & st' & o & rest & q0 & -> & -> & -> & ->). rewrite (uwrap_small 32) by lia.
      by rewrite (proj2 (Z.leb_gt _ _) Hlt).
    - subst q1. by rewrite (proj2 (Z.leb_le _ _) Hle). }
  unfold verdict, RM_GetQos in Hb. rewrite Hst, Hi, Hh, Hma, Hl in Hb. cbn [orb negb Z.eqb] in Hb.
  assert (He : enough_cycles (set_cycles (get_dsp_max_freq (kernel (ram s))) load (take_snapshot load (clear_snapshots (cpuStruct s)))) (param2 (cmd_data s)) =
    (load + param2 (cmd_data s) <=? get_dsp_max_freq (kernel (ram s)))).
  { unfold enough_cycles, set_cycles. cbn [cyclesAvailable]. rewrite (uwrap_small 32) by lia. apply eq_bool_prop_intro.
    rewrite !Is_true_true, !Z.leb_le. lia. }
  unfold fits. rewrite <- He. destruct (get_omap_version _); [..|done]; by injection Hb as <-.
Qed.

Definition same_question (s s' : RM) : Prop :=
  stub_mode s' = stub_mode s /\ qosti s' = qosti s /\ ram s' = ram s /\ cpuStruct s' = cpuStruct s /\
  param2 (cmd_data s') = param2 (cmd_data s) /\ param3 (cmd_data s') = param3 (cmd_data s).

Lemma verdict_same s s' : same_question s s' -> verdict s' = verdict s.
Proof.
  intros (E1 & E2 & E3 & E4 & E5 & E6). unfold verdict, RM_GetQos. rewrite E1, E2, E3, E4, E5, E6.
  repeat case_match; simplify_eq; done.
Qed.

(** What goes to the pipe of a client. *)
Definition sent_to (c : client) (m : message) (l : list registered) : list output :=
  if pipe_of c l <? 0 then [] else [To_client (pipe_of c l) m].

(** The message that answers a request, and the one that tells a component to give way, made of the request
    [m] that is being handled and of the last request [g]. *)
Definition answer (m g : message) (st : RESOURCEMANAGER_ERRORTYPE) : message :=
  mkMessage (sender m) RM_RequestResource (param1 m) (param2 g) (param3 g) (param4 g) st.
Definition give_way (m : message) (v : client) : message := set_handle (componentHandle v) (set_status_field RM_PREEMPT m).

(** Between the question and the answer: the list is as it was, the request is noted, and what was written is [out]. *)
Record pending (m g : message) (s0 s : RM) (out : list output) : Prop := {
  pe_ok : rm_ok s;
  pe_view : RmList.view s = RmList.view s0;
  pe_question : same_question (set_cmd m s0) s;
  pe_cmd : param1 (cmd_data s) = param1 m /\ param4 (cmd_data s) = param4 m /\ RM_Cmd (cmd_data s) = RM_Cmd m /\
    nPid (sender (cmd_data s)) = nPid (sender m);
  pe_mmu : mmuRecoveryInProgress s = false;
  pe_request : exists st, globalrequest_cmd_data s = answer m g st;
  pe_out : outbox s = outbox s0 ++ out }.

Lemma pipe_of_view c (s s' : RM) : RmList.view s' = RmList.view s -> pipe_of c (entries s') = pipe_of c (entries s).
Proof. intros Hv. by rewrite <- !pipe_view, Hv. Qed.

Lemma set_status_full c st (s : RM) :
  rm_ok s -> st <> RM_WaitingForResource -> st <> RM_WaitingForPolicy ->
  exists s', RM_SetStatus c st s = Some s' /\ rm_ok s' /\ RmList.view s' = RmList.view s /\
    s' = set_table (numRegisteredComponents s) (components s') s.
Proof.
  intros Hs S1 S2. destruct (set_status_spec c st s Hs S1 S2) as (s' & Hss & Hok & Hs' & He). exists s'. split_and!; try done.
  unfold RmList.view. rewrite He. by apply plain_alter.
Qed.

Lemma write_full c m (s : RM) :
  rm_ok s -> exists s', write_pipe_of c m s = Some s' /\ s' = set_out (fdwrite s') (outbox s') s /\
    outbox s' = outbox s ++ sent_to c m (RmList.view s).
Proof.
  intros Hs. unfold write_pipe_of, sent_to. rewrite (pipe_spec c s Hs), pipe_view. eexists. split; [reflexivity|].
  unfold to_client. destruct (_ <? 0); split; [by destruct s|cbn; by rewrite app_nil_r|done|done].
Qed.

(** A component is told to give way. *)
Lemma preempt_pending m g s0 s out v :
  pending m g s0 s out ->
  exists s', handle_reply qosdyn (PM_PREEMPTED v) s = Some s' /\
    pending m g s0 s' (out ++ sent_to v (give_way m v) (RmList.view s0)).
Proof.
  intros [P1 P2 P3 P4 P5 P6 P7]. unfold handle_reply. cbn zeta.
  set (s1 := set_cmd (set_handle (componentHandle v) (set_status_field RM_PREEMPT (cmd_data s))) s).
  destruct (set_status_full (sender (cmd_data s1)) RM_WaitingForClient s1 P1 ltac:(done) ltac:(done)) as (s2 & -> & Hok2 & Hv2 & Hs2).
  destruct (write_full v (cmd_data s2) s2 Hok2) as (s3 & -> & Hs3 & Ho3). exists s3. split; [done|].
  destruct P3 as (Q1 & Q2 & Q3 & Q4 & Q5 & Q6). destruct P4 as (C1 & C2 & C3 & C4).
  assert (Hc2 : cmd_data s2 = set_handle (componentHandle v) (set_status_field RM_PREEMPT (cmd_data s))) by by rewrite Hs2.
  assert (Hm : cmd_data s2 = give_way m v).
  { rewrite Hc2. unfold give_way, set_handle, set_status_field. cbn [sender RM_Cmd param1 param2 param3 param4 rm_status nPid].
    cbn [cmd_data set_cmd] in Q5, Q6. congruence. }
  assert (Hos : outbox s2 = outbox s) by by rewrite Hs2.
  rewrite Hm, Hv2, Hos in Ho3. change (RmList.view s1) with (RmList.view s) in Ho3. rewrite P2, P7, <- app_assoc in Ho3.
  rewrite Hs3. split; cbn.
  - exact Hok2.
  - exact (eq_trans Hv2 P2).
  - rewrite Hs2. by split_and!.
  - rewrite Hs2. by split_and!.
  - rewrite Hs2. exact P5.
  - rewrite Hs2. exact P6.
  - exact Ho3.
Qed.

Lemma preempts_pending m g s0 vs s out :
  pending m g s0 s out ->
  exists s', hear_replies (map PM_PREEMPTED vs) s = Some s' /\
    pending m g s0 s' (out ++ flat_map (fun v => sent_to v (give_way m v) (RmList.view s0)) vs).
Proof.
  revert s out. induction vs as [|v vs IH]; intros s out Hp; cbn [map hear_replies flat_map]; [exists s; by rewrite app_nil_r|].
  destruct (preempt_pending m g s0 s out v Hp) as (s1 & -> & Hp1). destruct (IH s1 _ Hp1) as (s2 & -> & Hp2).
  exists s2. by rewrite <- app_assoc in Hp2.
Qed.

(** The request is answered. *)
Lemma answer_pending m g s0 s out st cst :
  pending m g s0 s out -> cst <> RM_WaitingForResource -> cst <> RM_WaitingForPolicy ->
  exists s', answer_request st cst s = Some s' /\ rm_ok s' /\ RmList.view s' = RmList.view s0 /\
    outbox s' = outbox s0 ++ out ++ sent_to (sender m) (answer m g st) (RmList.view s0).
Proof.
  intros [P1 P2 P3 P4 P5 P6 P7] S1 S2. unfold answer_request. cbn zeta. destruct P6 as [st' Hg].
  set (s1 := set_request (set_status_field st (globalrequest_cmd_data s)) s).
  assert (Hg1 : globalrequest_cmd_data s1 = answer m g st) by (unfold s1; cbn; by rewrite Hg).
  rewrite Hg1. destruct (set_status_full (sender (answer m g st)) cst s1 P1 S1 S2) as (s2 & -> & Hok2 & Hv2 & Hs2).
  destruct (write_full (sender (answer m g st)) (answer m g st) s2 Hok2) as (s3 & -> & Hs3 & Ho3). exists s3.
  rewrite Hv2 in Ho3. change (RmList.view s1) with (RmList.view s) in *. rewrite P2 in *.
  split; [done|]. rewrite Hs3. cbn. split_and!; [exact Hok2| |].
  - exact Hv2.
  - rewrite Ho3, Hs2. cbn. by rewrite P7, app_assoc.
Qed.

Lemma denied_no_stub (s s' : RM) : RM_GetQos qosdyn s = Some (false, s') -> stub_mode s' = false.
Proof. unfold RM_GetQos. intros Hq. repeat case_match; simplify_eq; done. Qed.

(** The request is noted, and the policy manager has been asked about it. *)
Definition asking (m g : message) (s : RM) : Prop := pending m g s s [] /\ stub_mode s = false.

(** A grant is passed on when the DSP has room; else the policy manager is asked to make some. *)
Definition granted_output (m g : message) (b : bool) (l : list registered) : list output :=
  if b then sent_to (sender m) (answer m g RM_GRANT) l else [To_policy (PM_FreeResources (sender m) (param1 m))].

Lemma grant_pending m g s0 s out c b :
  pending m g s0 s out -> stub_mode s0 = false -> verdict (set_cmd m s0) = Some b ->
  exists s', handle_reply qosdyn (PM_GRANTPOLICY c) s = Some s' /\ rm_ok s' /\ RmList.view s' = RmList.view s0 /\
    outbox s' = outbox s0 ++ out ++ granted_output m g b (RmList.view s0) /\ (b = false -> asking m g s').
Proof.
  intros Hp Hstub Hb. unfold handle_reply. rewrite (pe_mmu _ _ _ _ _ Hp). cbn [negb].
  rewrite <- (verdict_same _ s (pe_question _ _ _ _ _ Hp)) in Hb. unfold verdict in Hb.
  destruct (RM_GetQos qosdyn s) as [[ok s1]|] eqn:E; [|done]. cbn in Hb. injection Hb as ->.
  destruct (get_qos_fields _ _ _ _ E) as (F1 & F2 & F3 & F4 & F5 & F6 & F7 & F8). destruct Hp as [P1 P2 P3 P4 P5 P6 P7].
  destruct b.
  - unfold answer_request. destruct P6 as [st' Hg]. cbn zeta.
    set (s2 := set_request (set_status_field RM_GRANT (globalrequest_cmd_data s1)) s1).
    assert (Hg1 : globalrequest_cmd_data s2 = answer m g RM_GRANT) by (unfold s2; cbn; by rewrite F6, Hg).
    assert (Hok1 : rm_ok s2) by (unfold rm_ok, s2; cbn; by rewrite F1, F2).
    assert (Hv1 : RmList.view s2 = RmList.view s0) by (rewrite <- P2; unfold RmList.view, entries, s2; cbn; by rewrite F1, F2).
    rewrite Hg1. destruct (set_status_full (sender (answer m g RM_GRANT)) RM_ComponentActive s2 Hok1 ltac:(done) ltac:(done)) as (s3 & -> & Hok3 & Hv3 & Hs3).
    destruct (write_full (sender (answer m g RM_GRANT)) (answer m g RM_GRANT) s3 Hok3) as (s4 & -> & Hs4 & Ho4). exists s4.
    rewrite Hv3, Hv1 in Ho4. split; [done|]. rewrite Hs4. cbn. split_and!; [exact Hok3|exact (eq_trans Hv3 Hv1)| |done].
    rewrite Ho4, Hs3. cbn. by rewrite F7, P7, app_assoc.
  - destruct P6 as [st' Hg]. eexists. split; [reflexivity|]. cbn. rewrite F6, Hg, F7, P7. cbn. split_and!.
    + unfold rm_ok. cbn. by rewrite F1, F2.
    + rewrite <- P2. unfold RmList.view, entries. cbn. by rewrite F1, F2.
    + by rewrite app_assoc.
    + intros _. destruct P3 as (_ & _ & _ & _ & Q5 & Q6). split; [|cbn; by eapply denied_no_stub]. split; cbn; try done.
      * unfold rm_ok. cbn. by rewrite F1, F2.
      * unfold same_question. cbn. rewrite F5. by split_and!.
      * by rewrite F5.
      * by rewrite F8.
      * rewrite F6. by eexists.
      * by rewrite app_nil_r.
Qed.

Lemma hear_app rs rs' s : hear_replies (rs ++ rs') s = let* s := hear_replies rs s in hear_replies rs' s.
Proof.
  revert s. induction rs as [|r rs IH]; intros s; cbn; [done|]. destruct (handle_reply qosdyn r s); [apply IH|done].
Qed.

(** What is written when a client asks for resources, by the decision of the policy manager and the room on the DSP. *)
Definition outcome (idx : client -> Z) (T : list combination) (N : nat) (m g : message) (b : bool)
    (running : list client * nat) (l : list registered) : list output :=
  match decide_request T N running.2 (map idx running.1) (idx (sender m)) with
  | Denied => sent_to (sender m) (answer m g RM_DENY) l
  | Granted _ => granted_output m g b l
  | Preempting _ => flat_map (fun v => sent_to v (give_way m v) l) running.1 ++ granted_output m g b l
  end.

(** The client [v], in the cell [i] of the policy manager, is the one to give way to the sender of [m]. *)
Definition victim (idx : client -> Z) (T : list combination) (m : message) (p : manager) (i : nat) (v : client) : Prop :=
  gives_way (sender m) (priority_in T (activePolicyCombination p) (idx (sender m))) (PolicyRun.registered p) (PolicyRun.recorded p) i v.

(** The policy manager is asked to make room: one client is told to give way, and the room is looked at again; or there is none, and
    the request is denied. *)
Lemma room_asked (idx : client -> Z) (T : list combination) (N : nat) (m g : message) (s : RM) (p : manager) (b : bool) :
  asking m g s -> policy_ok idx T N p -> room (sender m) p -> verdict (set_cmd m s) = Some b ->
  exists s' p', policy_round (PM_FreeResources (sender m) (idx (sender m))) s p = Some (s', p') /\
    rm_ok s' /\ RmList.view s' = RmList.view s /\ policy_ok idx T N p' /\
    ((exists i v, victim idx T m p i v /\ (b = false -> asking m g s') /\
        outbox s' = outbox s ++ sent_to v (give_way m v) (RmList.view s) ++ granted_output m g b (RmList.view s)) \/
     ((forall i v, ~ victim idx T m p i v) /\ outbox s' = outbox s ++ sent_to (sender m) (answer m g RM_DENY) (RmList.view s))).
Proof.
  intros [Hpend Hst] Hp Hroom Hb. unfold policy_round.
  destruct (serve_spec idx T N (PM_FreeResources (sender m) (idx (sender m))) p Hp (conj eq_refl Hroom)) as (rs & p' & -> & Hp' & Hstep & _).
  inversion Hstep as [| | |c v k cs active Hsup Hg Ec Ecs Ers Eview|c cs active Hno Ec Ecs Ers Eview| | |]; subst; cbn [hear_replies].
  - destruct (preempt_pending m g s s [] v Hpend) as (s1 & -> & Hpend1). cbn [app] in Hpend1.
    destruct (grant_pending m g s s1 _ (sender m) b Hpend1 Hst Hb) as (s2 & -> & Hok & Hv & Ho & Ha).
    exists s2, p'. split_and!; try done. left. exists k, v. split_and!; try done.
  - cbn [handle_reply]. destruct (answer_pending m g s s [] RM_DENY RM_WaitingForClient Hpend ltac:(done) ltac:(done)) as (s1 & -> & Hok & Hv & Ho).
    exists s1, p'. split_and!; try done. right. by split.
Qed.

Lemma granted_registered (idx : client -> Z) (T : list combination) (N : nat) c (p : manager) :
  decide_request T N (activePolicyCombination p) (map idx (PolicyRun.registered p)) (idx c) <> Denied ->
  c ∈ (spec_request idx T N c (PolicyRun.view p)).2.1.
Proof.
  unfold spec_request, PolicyRun.view. destruct (decide_request _ _ _ _ _); intros Hd; [..|done]; cbn; apply (proj2 (add_client_elem idx c c _)); by left.
Qed.

(** The answers of the policy manager to a request are read. *)
Lemma granted_next (idx : client -> Z) (T : list combination) (N : nat) (m g : message) (s : RM) (p : manager) (b : bool) p' s1 :
  pending m g s s1 [To_policy (PM_RequestPolicy (sender m) (param1 m))] -> stub_mode s = false -> param1 m = idx (sender m) ->
  verdict (set_cmd m s) = Some b -> policy_ok idx T N p' ->
  PolicyRun.view p' = (spec_request idx T N (sender m) (PolicyRun.view p)).2 ->
  exists s', hear_replies (spec_request idx T N (sender m) (PolicyRun.view p)).1 s1 = Some s' /\ rm_ok s' /\ RmList.view s' = RmList.view s /\
    outbox s' = outbox s ++ To_policy (PM_RequestPolicy (sender m) (param1 m)) :: outcome idx T N m g b (PolicyRun.view p) (RmList.view s) /\
    (b = false -> decide_request T N (activePolicyCombination p) (map idx (PolicyRun.registered p)) (idx (sender m)) <> Denied -> asking m g s').
Proof.
  intros Hpend Hst Hp1 Hb Hp' Hview. unfold outcome, spec_request, PolicyRun.view in *. cbn [fst snd] in *.
  destruct (decide_request T N _ _ (idx (sender m))) as [n|n|]; cbn [fst snd] in *.
  - cbn [hear_replies]. destruct (grant_pending m _ s s1 _ (sender m) b Hpend Hst Hb) as (s2 & -> & Hok & Hv & Ho & Ha).
    exists s2. split_and!; try done. by intros ? _; apply Ha.
  - rewrite hear_app. destruct (preempts_pending m _ s (PolicyRun.registered p) s1 _ Hpend) as (s2 & -> & Hpend2). cbn [hear_replies].
    destruct (grant_pending m _ s s2 _ (sender m) b Hpend2 Hst Hb) as (s3 & -> & Hok & Hv & Ho & Ha).
    exists s3. split_and!; try done. by intros ? _; apply Ha.
  - cbn [hear_replies handle_reply].
    destruct (answer_pending m _ s s1 _ RM_DENY RM_WaitingForClient Hpend ltac:(done) ltac:(done)) as (s2 & -> & Hok & Hv & Ho).
    exists s2. split_and!; try done.
Qed.


End Exchange.
