(* ===== verification/RmSamples.v ===== *)
(** Runs of the resource manager on small inputs: the theorems at work, and the inputs on which the
    code does not do what it means to. *)

From Stdlib Require Import ZArith Lia String.
From stdpp Require Import base list list_numbers strings option tactics relations.
From S2P Require Import Prelude PolicyManager PolicyRun PolicySamples ActivityMonitor QosRegistry ResourceManager RmList RmLoads RmPolicy.
Local Open Scope Z_scope.

(** * A manager *)

Definition machine (load : Z) : rm files world :=
  start (mkMonitor 0 false (mkFiles (Some 430000000) (Some 1) (Some 500000) (Some 125000))) (fresh 0 load).

Definition command_of (c : client) (cmd : RM_COMMANDTYPE) (p1 p2 p3 : Z) : message := mkMessage c cmd p1 p2 p3 0 RM_ErrorNone.
(** Each process has a pipe of its own. *)
Definition fifo (name : string) : Z :=
  if bool_decide (name = "/dev/rm_server_out_100"%string) then 5
  else if bool_decide (name = "/dev/rm_server_out_200"%string) then 6 else 7.
Definition read (m : message) : @event := Read_command m fifo.

Fixpoint run_events (es : list event) (s : rm files world) : option (rm files world) :=
  match es with
  | [] => Some s
  | e :: es => let* (_, s) := turn true e s in run_events es s
  end.

(** A decoder of music in process 100, one of films in process 200 and another one there. *)
Definition music : client := mkClient 16 100.
Definition film : client := mkClient 32 200.
Definition film2 : client := mkClient 48 200.
Definition number_of (c : client) : Z := if componentHandle c =? 16 then OMX_MP3_Decoder_COMPONENT else OMX_MPEG4_Decode_COMPONENT.

Lemma number_counted c : number_of c ∉ uncounted.
Proof. intros Hin. apply (bool_decide_pack _) in Hin. unfold number_of in Hin. by destruct (componentHandle c =? 16). Qed.

Definition open (c : client) (cpu : Z) : event := read (command_of c RM_OpenPipe (number_of c) cpu 0).
Definition set_to (c : client) (st : Z) : event := read (command_of c RM_StateSet (number_of c) st 0).
Definition ask_for (c : client) (cpu memory : Z) : event := read (command_of c RM_RequestResource (number_of c) cpu memory).
Definition release (c : client) : event := read (command_of c RM_FreeResource (number_of c) 0 0).

Definition after_events (load : Z) (es : list event) : rm files world :=
  match run_events es (machine load) with Some s => s | None => machine load end.
Definition summary (s : rm files world) : list (client * Z) * Z * Z :=
  (map (fun r => (owner r, componentState r)) (entries s), totalCpu (loads s), rm_get_vdd1_constraint (kernel (ram s))).

(** Both play: 60 and 150 MHz, which take the operating point for 360; then one stops. *)
Lemma two_play :
  summary (after_events 0 [open music 60; open film 150; set_to music 3; set_to film 3]) = ([(music, 3); (film, 3)], 210, 3) /\
  summary (after_events 0 [open music 60; open film 150; set_to music 3; set_to film 3; set_to film 2]) = ([(music, 3); (film, 2)], 60, 2).
Proof. vm_compute. split; reflexivity. Qed.

(** * Where the code goes wrong *)

(** The music waits when a film is freed: the music is taken from the list, and the film stays. *)
Lemma waiting_freed :
  summary (after_events 0 [open film2 10; open film 10; open music 10; set_to film2 OMX_StateWaitForResources; release film]) =
  ([(film, 2); (music, 2)], 0, 1).
Proof. vm_compute. reflexivity. Qed.

(** A component freed while it runs stays in the totals. *)
Lemma executing_freed_leaks :
  summary (after_events 0 [open music 60; set_to music 3; release music]) = ([], 60, 2).
Proof. vm_compute. reflexivity. Qed.

(** The adaptive PCM codecs have no kind: their load is not counted. *)
Lemma adpcm_not_counted :
  componentType OMX_IMAADPCM_Decoder_COMPONENT = None /\ componentType OMX_IMAADPCM_Encoder_COMPONENT = None.
Proof. vm_compute. split; reflexivity. Qed.

(** What is written to the pipes, as the pipe, the component and the answer. *)
Definition answers (s : rm files world) : list (Z * Z * RESOURCEMANAGER_ERRORTYPE) :=
  flat_map (fun o => match o with To_client fd m => [(fd, componentHandle (sender m), rm_status m)] | _ => [] end) (outbox s).

(** Two requests before the answers: the second component gets both, the first one none. *)
Lemma request_overwritten :
  answers (after_events 100 [open music 60; open film 150; ask_for music 60 0; ask_for film 150 0;
    Read_reply (PM_GRANTPOLICY music); Read_reply (PM_DENYPOLICY film)]) = [(6, 32, RM_GRANT); (6, 32, RM_DENY)].
Proof. vm_compute. reflexivity. Qed.

(** With 340 of 430 MHz in use 90 are granted and 91 are not; with 431 in use everything is. *)
Lemma overload_grants :
  map (fun lw => fst <$> RM_GetQos true (set_cmd (command_of music RM_RequestResource 0 lw.2 0) (machine lw.1)))
    [(340, 90); (340, 91); (431, 90); (431, 100000)] = [Some true; Some false; Some true; Some true].
Proof. vm_compute. reflexivity. Qed.

(** The DSP has a heap of 1000 bytes: 995 are granted and 996 are not; but a request for nearly all
    addresses is, for the sum with the alignment wraps. *)
Lemma memory_wraps :
  map (fun w => fst <$> RM_GetQos true (set_cmd (command_of music RM_RequestResource 0 0 w) (machine 0)))
    [995; 996; 4294967292] = [Some true; Some false; Some true].
Proof. vm_compute. reflexivity. Qed.

(** The snapshots are cleared before each is taken: the average of two loads of 100 is 50. *)
Lemma average_forgets :
  averageCpuLoad (take_snapshot 100 (clear_snapshots (take_snapshot 100 (mkCpu 0 0 0 0 [])))) = 50.
Proof. vm_compute. reflexivity. Qed.

(** When the driver cannot be opened once, everything is granted, and no request is answered any more. *)
Lemma stub_mode_forever :
  let s := set_qos false (mkCpu 0 0 0 0 (replicate 5 0)) (fresh (- EPERM) 0) (after_events 0 [open music 60; open film 150; ask_for music 60 0]) in
  match run_events [Read_reply (PM_GRANTPOLICY music); ask_for film 150 0; Read_reply (PM_GRANTPOLICY film)] s with
  | Some s' => stub_mode s' = true /\ answers s' = [(5, 16, RM_GRANT)] /\ length (outbox s') = 2%nat
  | None => False
  end.
Proof. vm_compute. by split_and!. Qed.

(** A component that gives way to one of another process keeps its status: the process of the request is
    looked for instead. *)
Lemma preempted_not_noted :
  map status (entries (after_events 100 [open music 60; open film 150; ask_for music 60 0; Read_reply (PM_GRANTPOLICY music);
    ask_for film 150 0; Read_reply (PM_PREEMPTED music); Read_reply (PM_GRANTPOLICY film)])) = [RM_ComponentActive; RM_ComponentActive].
Proof. vm_compute. reflexivity. Qed.

(** As long as the DSP has no room and the component preempted does not go, the two managers repeat the same
    round: the component is told again and again. *)
Definition round (sp : rm files world * manager) : option (rm files world * manager) :=
  match List.last (outbox sp.1) (Close_pipe 0) with
  | To_policy c => let* (rs, p) := serve c sp.2 in let* s := hear_replies true rs sp.1 in Some (s, p)
  | _ => Some sp
  end.
Fixpoint rounds (n : nat) (sp : rm files world * manager) : option (rm files world * manager) :=
  match n with O => Some sp | S n => let* sp := round sp in rounds n sp end.
Definition one_combination : manager := manager_of [[(OMX_MP3_Decoder_COMPONENT, 5); (OMX_MPEG4_Decode_COMPONENT, 5)]].

Lemma preempted_again :
  let s := after_events 400 [open music 60; open film 150; ask_for music 10 0] in
  match rounds 5 (s, one_combination) with
  | Some (s, p) =>
      match exchange true (command_of film RM_RequestResource OMX_MPEG4_Decode_COMPONENT 150 0) s p with
      | Some sp => option_map (fun sp => answers sp.1) (rounds 3 sp) =
          Some [(5, 16, RM_GRANT); (5, 16, RM_PREEMPT); (5, 16, RM_PREEMPT); (5, 16, RM_PREEMPT)]
      | None => False
      end
  | None => False
  end.
Proof. vm_compute. reflexivity. Qed.

(** * Witnesses *)

Definition opening : list event := [open music 60; open film 150].
Definition playing : list event := opening ++ [set_to music OMX_StateExecuting; set_to film OMX_StateExecuting].

(** The events of a list are well behaved one after the other. *)
Fixpoint behave (es : list event) (s : rm files world) : Prop :=
  match es with
  | [] => True
  | e :: es => well_behaved number_of e s /\ match turn true e s with Some (_, s) => behave es s | None => False end
  end.

Lemma reaches_run es s0 s :
  reaches number_of true s0 s -> behave es s -> match run_events es s with Some s' => reaches number_of true s0 s' | None => False end.
Proof.
  revert s. induction es as [|e es IH]; intros s Hr; cbn [behave run_events]; [done|]. intros [Hw Hb].
  destruct (turn true e s) as [[stop s1]|] eqn:E; [|done]. apply IH; [|exact Hb]. by eapply reach_turn.
Qed.

Lemma cells_left : (0 < RM_MAXCOMPONENTS)%nat /\ (1 < RM_MAXCOMPONENTS)%nat.
Proof. split; apply Nat.ltb_lt; vm_compute; reflexivity. Qed.

Lemma orderly_sample : orderly_change OMX_StateIdle OMX_StateExecuting.
Proof. split; [by intros [=]|intros _; by apply elem_of_cons; left]. Qed.

Lemma playing_behaves : behave playing (machine 100).
Proof.
  split; [split; [split; [vm_compute; discriminate|right; apply cells_left]|exact I]|].
  split; [split; [split; [vm_compute; discriminate|right; apply cells_left]|exact I]|].
  split; [split; [exact I|split; [reflexivity|intros r; vm_compute; intros [= <-]; apply orderly_sample]]|].
  split; [split; [exact I|split; [reflexivity|intros r; vm_compute; intros [= <-]; apply orderly_sample]]|]. exact I.
Qed.

Lemma no_load_yet : rm_get_vdd1_constraint (kernel (ram (machine 100))) = opp_of 0 (kernel (ram (machine 100))).
Proof. vm_compute. reflexivity. Qed.

Lemma playing_reached : reaches number_of true (machine 100) (after_events 100 playing).
Proof.
  pose proof (reaches_run playing (machine 100) (machine 100) (reach_refl _ _ _) playing_behaves) as Hr.
  unfold after_events. destruct (run_events playing (machine 100)); [exact Hr|destruct Hr].
Qed.

Lemma playing_ok : rm_ok (after_events 100 playing).
Proof.
  refine (lo_cells _ _ (reaches_loads number_of number_counted true _ _ _ _ _ playing_reached)); [done|intros _; exact no_load_yet].
Qed.

Lemma loads_exact_witness :
  reaches number_of true (machine 100) (after_events 100 playing) /\
  audioTotalCpu (loads (after_events 100 playing)) = 60 /\ videoTotalCpu (loads (after_events 100 playing)) = 150.
Proof.
  split; [exact playing_reached|].
  destruct (loads_exact number_of number_counted true (ram (machine 100)) (qosti (machine 100)) (after_events 100 playing) eq_refl
    (fun _ => no_load_yet) playing_reached) as [[_ Hv Ha _ _ _] _].
  split; [rewrite Ha; vm_compute; reflexivity|rewrite Hv; vm_compute; reflexivity].
Defined.

Lemma command_refines_witness :
  let m := command_of film2 RM_OpenPipe OMX_MPEG4_Decode_COMPONENT 70 0 in
  rm_ok (after_events 100 playing) /\
  exists s', handle_command fifo (set_cmd m (after_events 100 playing)) = Some (false, s') /\
    map owner (view s') = [music; film; film2].
Proof.
  intros m. split; [exact playing_ok|].
  assert (Hroom : has_room m (after_events 100 playing)).
  { split; [vm_compute; discriminate|right; apply Nat.ltb_lt; vm_compute; reflexivity]. }
  destruct (command_refines m fifo _ playing_ok Hroom) as (stop & s' & Hc & _ & Hv & Hst & _).
  exists s'. destruct stop; [discriminate (proj1 Hst eq_refl)|]. split; [exact Hc|]. rewrite Hv. vm_compute. reflexivity.
Defined.

Lemma pipe_names_distinct_witness :
  exists a a', pipe_name 100 = Some a /\ pipe_name 4000000000 = Some a' /\ a <> a'.
Proof.
  destruct (pipe_names_distinct 100 4000000000) as (a & a' & Ha & Ha' & Hi & _); [lia..|].
  exists a, a'. split; [exact Ha|]. split; [exact Ha'|]. intros E. discriminate (proj1 Hi E).
Defined.

(** The music asks for more while both play: the policy lets it, and 330 MHz are left for the 300 it wants.  When it wants 400
    the policy manager is asked to make room; it knows of no client that could give way, and the request is denied. *)
Definition asks (cycles : Z) : message := command_of music RM_RequestResource OMX_MP3_Decoder_COMPONENT cycles 0.
