(* ===== verification/OmxCore.v ===== *)
(** The OpenMAX core (src/omx/system/src/openmax_il/omx_core): the table of components with
    their roles, the handles of the instances that are loaded, and the calls of the application.
    A result [None] is undefined behaviour: a null string compared, an access out of bounds, a
    block freed that is not allocated, a component called that is gone. *)

From Stdlib Require Import ZArith Lia String.
From stdpp Require Import base list list_numbers option tactics relations.
From S2P Require Import Prelude.
Local Open Scope string_scope.
Local Open Scope Z_scope.

(** * Constants and data *)

Definition MAXCOMP : nat := 50.
Definition MAXNAMESIZE : nat := 130.
Definition MAX_ROLES : nat := 20.
Definition MAX_TABLE_SIZE : nat := 30.
Definition MAX_CONCURRENT_INSTANCES : nat := 4.
Definition MAX_720P_CONCURRENT_INSTANCES : nat := 1.

Definition OMX_ErrorNone : Z := 0.
Definition OMX_ErrorInsufficientResources : Z := s32 0x80001000.
Definition OMX_ErrorUndefined : Z := s32 0x80001001.
Definition OMX_ErrorInvalidComponentName : Z := s32 0x80001002.
Definition OMX_ErrorComponentNotFound : Z := s32 0x80001003.
Definition OMX_ErrorInvalidComponent : Z := s32 0x80001004.
Definition OMX_ErrorBadParameter : Z := s32 0x80001005.
Definition OMX_ErrorNotImplemented : Z := s32 0x80001006.
Definition OMX_ErrorNoMore : Z := s32 0x8000100E.

(** An entry of the table; a name or a role [None] is a null pointer, a handle 0 too. *)
Record ComponentTable := mkComponent {
  name : option string; nRoles : nat; pRoleArray : list (option string); pHandle : list Z;
  refCount : Z; maxinstances : Z }.

Definition zero_component : ComponentTable :=
  mkComponent None 0 (replicate MAX_ROLES None) (replicate MAX_CONCURRENT_INSTANCES 0) 0 0.

(** The core: the modules and the handles loaded, the count of [TIOMX_Init], the table, the
    blocks it has allocated and the modules it has open. *)
Record core := mkCore {
  pModules : list Z; pComponents : list Z; count : Z; tableCount : nat;
  componentTable : list ComponentTable; heap : list Z; opened : list Z }.

Definition start : core :=
  mkCore (replicate MAXCOMP 0) (replicate MAXCOMP 0) 0 0 (replicate MAX_TABLE_SIZE zero_component) [] [].

Definition set_slots (ms cs : list Z) (s : core) : core :=
  mkCore ms cs (count s) (tableCount s) (componentTable s) (heap s) (opened s).
Definition set_count (n : Z) (s : core) : core :=
  mkCore (pModules s) (pComponents s) n (tableCount s) (componentTable s) (heap s) (opened s).
Definition set_table (n : nat) (t : list ComponentTable) (s : core) : core :=
  mkCore (pModules s) (pComponents s) (count s) n t (heap s) (opened s).
Definition set_outside (hs ms : list Z) (s : core) : core :=
  mkCore (pModules s) (pComponents s) (count s) (tableCount s) (componentTable s) hs ms.

(** The components known, each with a role and the number of instances. *)
Definition several : nat := MAX_CONCURRENT_INSTANCES.
Definition tComponentName : list (string * option string * nat) := [
  ("OMX.TI.JPEG.decoder", Some "image_decoder.jpeg", several);
  ("OMX.TI.JPEG.encoder", Some "image_encoder.jpeg", several);
  ("OMX.TI.Video.Decoder", Some "video_decoder.h263", several);
  ("OMX.TI.Video.Decoder", Some "video_decoder.avc", several);
  ("OMX.TI.Video.Decoder", Some "video_decoder.mpeg2", several);
  ("OMX.TI.Video.Decoder", Some "video_decoder.mpeg4", several);
  ("OMX.TI.720P.Decoder", Some "video_decoder.mpeg4", MAX_720P_CONCURRENT_INSTANCES);
  ("OMX.TI.720P.Decoder", Some "video_decoder.avc", MAX_720P_CONCURRENT_INSTANCES);
  ("OMX.TI.Video.Decoder", Some "video_decoder.wmv", several);
  ("OMX.TI.Video.encoder", Some "video_encoder.mpeg4", several);
  ("OMX.TI.720P.Encoder", Some "video_encoder.mpeg4", MAX_720P_CONCURRENT_INSTANCES);
  ("OMX.TI.Video.encoder", Some "video_encoder.h263", several);
  ("OMX.TI.Video.encoder", Some "video_encoder.avc", several);
  ("OMX.TI.720P.Encoder", Some "video_encoder.avc", MAX_720P_CONCURRENT_INSTANCES);
  ("OMX.TI.VPP", Some "iv_renderer.yuv.overlay", several);
  ("OMX.TI.Camera", Some "camera.yuv", several);
  (* Speech components *)
  ("OMX.TI.G729.encode", None, several); ("OMX.TI.G729.decode", None, several);
  ("OMX.TI.G722.encode", None, several); ("OMX.TI.G722.decode", None, several);
  ("OMX.TI.G711.encode", None, several); ("OMX.TI.G711.decode", None, several);
  ("OMX.TI.G726.encode", None, several); ("OMX.TI.G726.decode", None, several);
  ("OMX.TI.ILBC.decode", None, several); ("OMX.TI.ILBC.encode", None, several);
  ("OMX.TI.AMR.encode", Some "audio_encoder.amrnb", several);
  ("OMX.TI.AMR.decode", Some "audio_decoder.amrnb", several);
  ("OMX.TI.WBAMR.encode", Some "audio_encoder.amrwb", several);
  ("OMX.TI.WBAMR.decode", Some "audio_decoder.amrwb", several);
  (* Audio components *)
  ("OMX.TI.MP3.decode", Some "audio_decoder.mp3", several);
  ("OMX.ITTIAM.MP3.decode", Some "audio_decoder.mp3", several);
  ("OMX.TI.AAC.encode", Some "audio_encoder.aac", several);
  ("OMX.TI.AAC.decode", Some "audio_decoder.aac", several);
  ("OMX.ITTIAM.AAC.decode", Some "audio_decoder.aac", several);
  ("OMX.ITTIAM.AAC.encode", Some "audio_encoder.aac", several);
  ("OMX.TI.WMA.decode", Some "audio_decoder.wma", several);
  ("OMX.ITTIAM.WMA.decode", Some "audio_decoder.wma", several);
  ("OMX.ITTIAM.WMAPRO.decode", Some "audio_decoder.wma", several)].

(** * The table *)

(** [strcmp] of the name of an entry; a null name is undefined. *)
Definition named (cname : string) (e : ComponentTable) : option bool :=
  let* n := name e in Some (String.eqb n cname).

(** The first of the entries [j, n) with the name. *)
Fixpoint find_entry (cname : string) (es : list ComponentTable) (j : nat) : option (option nat) :=
  match es with
  | [] => Some None
  | e :: es =>
      let* found := named cname e in
      if found : bool then Some (Some j) else find_entry cname es (S j)
  end.

(** A null pointer stored in the array of handles: the cell behind the array is the count
    of references. *)
Definition clear_handle (k : nat) (e : ComponentTable) : option ComponentTable :=
  if (k <? MAX_CONCURRENT_INSTANCES)%nat
  then Some (mkComponent (name e) (nRoles e) (pRoleArray e) (<[k := 0]> (pHandle e)) (refCount e) (maxinstances e))
  else if (k =? MAX_CONCURRENT_INSTANCES)%nat
  then Some (mkComponent (name e) (nRoles e) (pRoleArray e) (pHandle e) 0 (maxinstances e))
  else None.

Definition add_role (role : string) (e : ComponentTable) : option ComponentTable :=
  let k := nRoles e in
  guard* (k <? MAX_ROLES)%nat in
  let e := mkComponent (name e) k (<[k := Some role]> (pRoleArray e)) (pHandle e) (refCount e) (maxinstances e) in
  let* e := clear_handle k e in
  Some (mkComponent (name e) (S k) (pRoleArray e) (pHandle e) (refCount e) (maxinstances e)).

Definition new_component (cname : string) (role : option string) (max : nat) (e : ComponentTable) : ComponentTable :=
  let '(roles, n) :=
    match role with
    | Some _ => (<[0%nat := role]> (pRoleArray e), 1%nat)
    | None => (pRoleArray e, nRoles e)
    end in
  mkComponent (Some cname) n roles (pHandle e) 0 (Z.of_nat max).

(** One line of the list of components. *)
Definition build_entry (c : string * option string * nat) (st : nat * list ComponentTable)
    : option (nat * list ComponentTable) :=
  let '(cname, role, max) := c in
  let '(numFiles, t) := st in
  if (numFiles <? MAX_TABLE_SIZE)%nat then
    let* found := find_entry cname (take numFiles t) 0 in
    match found with
    | Some j =>
        match role with
        | Some r => let* e := t !! j in let* e := add_role r e in Some (numFiles, <[j := e]> t)
        | None => Some (numFiles, t)
        end
    | None =>
        let* e := t !! numFiles in
        Some (S numFiles, <[numFiles := new_component cname role max e]> t)
    end
  else Some (numFiles, t).

Definition TIOMX_BuildComponentTable (s : core) : option (Z * core) :=
  let* (n, t) := for_list tComponentName build_entry (0%nat, componentTable s) in
  Some (OMX_ErrorNone, set_table n t s).

(** Whether the mutex can be locked, and unlocked. *)
Record mutex := mkMutex { lock_ok : bool; unlock_ok : bool }.

Definition TIOMX_Init (m : mutex) (s : core) : option (Z * core) :=
  if negb (lock_ok m) then Some (OMX_ErrorUndefined, s)
  else
    let s := set_count (count s + 1) s in
    let* (err, s) := (if count s =? 1 then TIOMX_BuildComponentTable s else Some (OMX_ErrorNone, s)) in
    Some (if unlock_ok m then err else OMX_ErrorUndefined, s).

Definition TIOMX_Deinit (m : mutex) (s : core) : Z * core :=
  if negb (lock_ok m) then (OMX_ErrorUndefined, s)
  else (if unlock_ok m then OMX_ErrorNone else OMX_ErrorUndefined,
        if negb (count s =? 0) then set_count (count s - 1) s else s).

(** * Loading an instance *)

(** What the calls of an attempt to load answer: the module of [dlopen] or 0, whether it has
    [OMX_ComponentInit], the block of [malloc] or 0, and what [OMX_ComponentInit] and [SetCallbacks]
    return.  The number is that of the entry of the table. *)
Record loader := mkLoader {
  dlopen : nat -> Z; dlsym : nat -> bool; malloc : nat -> Z;
  component_init : nat -> Z; set_callbacks : nat -> Z }.

Definition free (a : Z) (s : core) : option core :=
  if a =? 0 then Some s
  else guard* bool_decide (a ∈ heap s) in Some (set_outside (list_difference (heap s) [a]) (opened s) s).

(** One module less; a handle that is not open changes nothing. *)
Fixpoint remove_one (a : Z) (l : list Z) : list Z :=
  match l with [] => [] | b :: l => if a =? b then l else b :: remove_one a l end.
Definition dlclose (m : Z) (s : core) : core := set_outside (heap s) (remove_one m (opened s)) s.

(** Freeing what an attempt on the slot [i] has left, with the application's variable. *)
Definition clean_up (i : nat) (ph : Z) (s : core) : option (Z * core) :=
  let* s := free ph s in
  let* m := pModules s !! i in
  let s := set_slots (pModules s) (<[i := 0]> (pComponents s)) s in
  let s := dlclose m s in
  Some (0, set_slots (<[i := 0]> (pModules s)) (pComponents s) s).

(** The first slot without a module. *)
Fixpoint first_zero (l : list Z) : nat :=
  match l with [] => 0 | m :: l => if m =? 0 then 0 else S (first_zero l) end.

Definition add_instance (h : Z) (e : ComponentTable) : option ComponentTable :=
  let* hs := arr_set (pHandle e) (refCount e) h in
  Some (mkComponent (name e) (nRoles e) (pRoleArray e) hs (refCount e + 1) (maxinstances e)).

(** How an attempt goes on: the call ends, what it has taken is given back, or the next entry
    is compared. *)
Inductive outcome := Unlock (err : Z) | CleanUp (err : Z) | Next.

(** The attempt on the entry [j], whose name is the one asked for: the application's variable, and
    the core. *)
Definition load_entry (L : loader) (i j : nat) (ph : Z) (s : core) : option (outcome * Z * core) :=
  let* e := componentTable s !! j in
  if maxinstances e <=? u32 (refCount e) then Some (Unlock OMX_ErrorInsufficientResources, ph, s)
  else
    let m := dlopen L j in
    let s := set_slots (<[i := m]> (pModules s)) (pComponents s) s in
    if m =? 0 then Some (Unlock OMX_ErrorComponentNotFound, ph, s)
    else
      let s := set_outside (heap s) (m :: opened s) s in
      if negb (dlsym L j) then Some (CleanUp OMX_ErrorInvalidComponent, ph, s)
      else
        let ph := malloc L j in
        if ph =? 0 then Some (CleanUp OMX_ErrorInsufficientResources, ph, s)
        else
          let s := set_outside (ph :: heap s) (opened s) s in
          let s := set_slots (pModules s) (<[i := ph]> (pComponents s)) s in
          let err := component_init L j in
          if err =? OMX_ErrorNone then
            let err := set_callbacks L j in
            if negb (err =? OMX_ErrorNone) then Some (CleanUp err, ph, s)
            else
              let* e := add_instance ph e in
              Some (Unlock err, ph, set_table (tableCount s) (<[j := e]> (componentTable s)) s)
          else if err =? OMX_ErrorInsufficientResources then Some (CleanUp err, ph, s)
          else Some (Next, ph, s).

(** The entries from [j] on. *)
Fixpoint load_from (L : loader) (cname : string) (i : nat) (n j : nat) (ph : Z) (s : core)
    : option (Z * Z * core) :=
  match n with
  | O => let* (ph, s) := clean_up i ph s in Some (OMX_ErrorComponentNotFound, ph, s)
  | S n =>
      let* e := componentTable s !! j in
      let* found := named cname e in
      if negb found then load_from L cname i n (S j) ph s
      else
        let* (o, ph, s) := load_entry L i j ph s in
        match o with
        | Unlock err => Some (err, ph, s)
        | CleanUp err => let* (ph, s) := clean_up i ph s in Some (err, ph, s)
        | Next => load_from L cname i n (S j) ph s
        end
  end.

(** [TIOMX_GetHandle]; [ph] is the application's variable as it calls, if it gives one.  The result
    has the variable as the call leaves it. *)
Definition TIOMX_GetHandle (m : mutex) (L : loader) (ph : option Z) (cname : option string) (callbacks : bool)
    (s : core) : option (Z * option Z * core) :=
  if negb (lock_ok m) then Some (OMX_ErrorUndefined, ph, s)
  else
    let* (err, ph, s) :=
      match cname, ph with
      | Some cname, Some h =>
          if negb callbacks then Some (OMX_ErrorBadParameter, ph, s)
          else if (MAXNAMESIZE <=? String.length cname)%nat then Some (OMX_ErrorInvalidComponentName, ph, s)
          else
            let i := first_zero (pModules s) in
            if (i =? MAXCOMP)%nat then Some (OMX_ErrorInsufficientResources, ph, s)
            else
              let* (err, h, s) := load_from L cname i MAX_TABLE_SIZE 0 h s in Some (err, Some h, s)
      | _, _ => Some (OMX_ErrorBadParameter, ph, s)
      end in
    Some (if unlock_ok m then err else OMX_ErrorUndefined, ph, s).

(** * Unloading an instance *)

(** The index of a handle among the first [n] from [k] on. *)
Fixpoint find_handle (h : Z) (hs : list Z) (n k : nat) : option (option nat) :=
  match n with
  | O => Some None
  | S n => let* x := hs !! k in if x =? h then Some (Some k) else find_handle h hs n (S k)
  end.

(** The entry without its handle [k]: the later ones are shifted. *)
Definition shift_handles (k n : nat) (hs : list Z) : option (list Z) :=
  for_range k n (fun i hs =>
    let* h := hs !! i in
    if h =? 0 then Some hs else let* h' := hs !! S i in Some (<[S i := 0]> (<[i := h']> hs))) hs.

Definition release_handle (k : nat) (e : ComponentTable) : option ComponentTable :=
  let n := refCount e in
  let* hs :=
    (if (1 <? n) && (Z.of_nat k <? n - 1) then shift_handles k (Z.to_nat n - k) (pHandle e)
     else Some (<[k := 0]> (pHandle e))) in
  Some (mkComponent (name e) (nRoles e) (pRoleArray e) hs (n - 1) (maxinstances e)).

(** The entry that has the handle, with its index there, among those from [j] on. *)
Fixpoint find_owner (h : Z) (es : list ComponentTable) (j : nat) : option (option (nat * nat)) :=
  match es with
  | [] => Some None
  | e :: es =>
      let* k := find_handle h (pHandle e) (Z.to_nat (refCount e)) 0 in
      match k with Some k => Some (Some (j, k)) | None => find_owner h es (S j) end
  end.

(** The first slot with the handle. *)
Fixpoint slot_of (h : Z) (cs : list Z) : nat :=
  match cs with [] => 0 | c :: cs => if c =? h then 0 else S (slot_of h cs) end.

(** [TIOMX_FreeHandle]; [deinit] is what [ComponentDeInit] returns. *)
Definition TIOMX_FreeHandle (m : mutex) (deinit : Z) (h : Z) (s : core) : option (Z * core) :=
  if negb (lock_ok m) then Some (OMX_ErrorUndefined, s)
  else
    let i := slot_of h (pComponents s) in
    let* (err, s) :=
      (if (i =? MAXCOMP)%nat then Some (OMX_ErrorBadParameter, s)
       else
         guard* bool_decide (h ∈ heap s) in
         if negb (deinit =? OMX_ErrorNone) then Some (deinit, s)
         else
           let* owner := find_owner h (componentTable s) 0 in
           match owner with
           | None => Some (OMX_ErrorComponentNotFound, s)
           | Some (j, k) =>
               let* e := componentTable s !! j in
               let* e := release_handle k e in
               let s := set_table (tableCount s) (<[j := e]> (componentTable s)) s in
               let* md := pModules s !! i in
               let s := dlclose md s in
               let* c := pComponents s !! i in
               let s := set_slots (<[i := 0]> (pModules s)) (pComponents s) s in
               let* s := free c s in
               Some (OMX_ErrorNone, set_slots (pModules s) (<[i := 0]> (pComponents s)) s)
           end) in
    Some (if unlock_ok m then err else OMX_ErrorUndefined, s).

(** * Queries *)

(** [TIOMX_ComponentNameEnum]: the name that is copied. *)
Definition TIOMX_ComponentNameEnum (nIndex : Z) (s : core) : option (Z * option string) :=
  if Z.of_nat (tableCount s) <=? nIndex then Some (OMX_ErrorNoMore, None)
  else
    let* e := arr_get (componentTable s) nIndex in
    let* n := name e in Some (OMX_ErrorNone, Some n).

(** The first [n] roles of an entry, as strings. *)
Definition role_names (e : ComponentTable) : option (list string) := mapM id (take (nRoles e) (pRoleArray e)).

(** [TIOMX_GetRolesOfComponent]: the number of roles, and the roles when there is an array for
    [room] of them. *)
Definition TIOMX_GetRolesOfComponent (cname : option string) (room : option nat) (copy : bool) (s : core)
    : option (Z * option nat * list string) :=
  match cname, room with
  | Some cname, Some n =>
      let* found := find_entry cname (take (tableCount s) (componentTable s)) 0 in
      match found with
      | None => Some (OMX_ErrorComponentNotFound, room, [])
      | Some i =>
          let* e := componentTable s !! i in
          if negb copy then Some (OMX_ErrorNone, Some (nRoles e), [])
          else if (nRoles e <=? n)%nat
          then let* rs := role_names e in Some (OMX_ErrorNone, Some (nRoles e), rs)
          else Some (OMX_ErrorBadParameter, room, [])
      end
  | _, _ => Some (OMX_ErrorBadParameter, room, [])
  end.

(** The names of the entries, one for each of their roles that is the one asked for. *)
Definition matches_of (role : string) (e : ComponentTable) : option (list string) :=
  let* rs := role_names e in
  let* n := name e in Some (map (fun _ => n) (List.filter (String.eqb role) rs)).

(** [TIOMX_GetComponentsOfRole]: the number of components, and their names when there is an array
    for [room] of them. *)
Definition TIOMX_GetComponentsOfRole (role : option string) (room : option nat) (copy : bool) (s : core)
    : option (Z * option nat * list string) :=
  match role, room with
  | Some role, Some n =>
      if (tableCount s =? 0)%nat then Some (OMX_ErrorUndefined, room, [])
      else
        let* ms := mapM (matches_of role) (take (tableCount s) (componentTable s)) in
        let found := concat ms in
        let err := if (length found =? 0)%nat then OMX_ErrorComponentNotFound else OMX_ErrorNone in
        if negb copy then Some (err, Some (length found), [])
        else if (n <? length found)%nat then Some (OMX_ErrorBadParameter, room, [])
        else if (length found =? 0)%nat then Some (err, room, [])
        else Some (err, Some (length found), found)
  | _, _ => Some (OMX_ErrorBadParameter, room, [])
  end.

(** * Tunnels *)

(** [TIOMX_SetupTunnel]: the requests sent to the two components, each with what it returns; 0 is
    no component. *)
Inductive tunnel_request := Request (hComp nPort hOther nOther : Z) | Cancel (hComp nPort : Z).
Definition TIOMX_SetupTunnel (answer : tunnel_request -> Z) (hOutput nPortOutput hInput nPortInput : Z)
    : Z * list tunnel_request :=
  if (hOutput =? 0) && (hInput =? 0) then (OMX_ErrorBadParameter, [])
  else
    let out := Request hOutput nPortOutput hInput nPortInput in
    let '(err, log) := if negb (hOutput =? 0) then (answer out, [out]) else (OMX_ErrorNotImplemented, []) in
    if (err =? OMX_ErrorNone) && negb (hInput =? 0) then
      let inp := Request hInput nPortInput hOutput nPortOutput in
      let err := answer inp in
      let log := (log ++ [inp])%list in
      if negb (err =? OMX_ErrorNone) && negb (hOutput =? 0) then (err, (log ++ [Cancel hOutput nPortOutput])%list)
      else (err, log)
    else (err, log).

(** * The table as it is built *)

Definition built : core := Eval vm_compute in match TIOMX_BuildComponentTable start with Some (_, s) => s | None => start end.

Lemma build_start : TIOMX_BuildComponentTable start = Some (OMX_ErrorNone, built).
Proof. by vm_compute. Qed.
