(* ===== verification/OmxSamples.v ===== *)
(** Runs of the OpenMAX core on small inputs: a loader whose components all load, the three
    instances of a component, and two behaviours that lose an instance or a component. *)

From Stdlib Require Import ZArith Lia String.
From stdpp Require Import base list list_numbers option tactics strings.
From S2P Require Import Prelude OmxCore.
Local Open Scope string_scope.
Local Open Scope list_scope.
Local Open Scope Z_scope.

(** A component that loads as the block [h]; one whose library is not there. *)
Definition loads (h : Z) : loader := mkLoader (fun _ => 1000 + h) (fun _ => true) (fun _ => h) (fun _ => 0) (fun _ => 0).
Definition no_library : loader := mkLoader (fun _ => 0) (fun _ => true) (fun _ => 7) (fun _ => 0) (fun _ => 0).
Definition both_ok : mutex := mkMutex true true.
Definition mp3 : string := "OMX.TI.MP3.decode".

Definition get (h : Z) (cname : string) (s : core) : option core :=
  let* (err, ph, s) := TIOMX_GetHandle both_ok (loads h) (Some 0) (Some cname) true s in
  guard* (err =? OMX_ErrorNone) && bool_decide (ph = Some h) in Some s.

Definition initialized : core := set_count 1 built.
Definition one_instance : core := Eval vm_compute in default initialized (get 1 mp3 initialized).
Definition three_instances : core :=
  Eval vm_compute in default initialized (let* s := get 2 mp3 one_instance in get 3 mp3 s).
Definition oldest_freed : core :=
  Eval vm_compute in default (initialized) (let* (err, s) := TIOMX_FreeHandle both_ok 0 1 three_instances in Some s).

(** The handles of an entry by its name. *)
Definition handles_of (cname : string) (s : core) : list (list Z * Z) :=
  map (fun e => (pHandle e, refCount e)) (List.filter (fun e => bool_decide (name e = Some cname)) (componentTable s)).

(** Of three instances of a component the oldest can be freed only at the price of the newest:
    the loop that closes the gap moves one handle and clears the one behind, so that of
    the handles [1; 2; 3] only [2] is left while the count of instances is two.  The instance [3] is
    still loaded, but the application cannot free it any more: the call says that there is no
    such component, and leaves its module open and its block allocated. *)
Lemma oldest_instance_lost :
  handles_of mp3 three_instances = [([1; 2; 3; 0], 3)] /\
  TIOMX_FreeHandle both_ok OMX_ErrorNone 1 three_instances = Some (OMX_ErrorNone, oldest_freed) /\
  handles_of mp3 oldest_freed = [([2; 0; 0; 0], 2)] /\
  TIOMX_FreeHandle both_ok OMX_ErrorNone 3 oldest_freed = Some (OMX_ErrorComponentNotFound, oldest_freed) /\
  3 ∈ heap oldest_freed /\ 1003 ∈ opened oldest_freed.
Proof. split_and!; [by vm_compute..| |]; apply (bool_decide_unpack _); by vm_compute. Qed.

(** The last component of the list is never found: it is the thirty-first name and the table
    has thirty entries.  A call for it, or for any name that is not known, with a variable that holds a
    live handle frees that handle's block; the handle stays in the table, and freeing it later is
    undefined. *)
Lemma unknown_component_frees :
  (exists role, last tComponentName = Some ("OMX.ITTIAM.WMAPRO.decode", role, several)) /\
  tableCount initialized = MAX_TABLE_SIZE /\
  (forall h, get h "OMX.ITTIAM.WMAPRO.decode" one_instance = None) /\
  exists s, TIOMX_GetHandle both_ok (loads 2) (Some 1) (Some "OMX.ITTIAM.WMAPRO.decode") true one_instance =
      Some (OMX_ErrorComponentNotFound, Some 0, s) /\
    handles_of mp3 s = [([1; 0; 0; 0], 1)] /\ heap s = [] /\ TIOMX_FreeHandle both_ok OMX_ErrorNone 1 s = None.
Proof.
  split; [by eexists|]. split; [by vm_compute|]. split; [by intros h; vm_compute|].
  eexists (set_outside [] (opened one_instance) one_instance). split_and!; by vm_compute.
Qed.
