(* ===== verification/OmxInstances.v ===== *)
(** What the OpenMAX core (src/omx/system/src/openmax_il/omx_core) promises: the instances of each
    component, as lists of handles, and that the calls of the application implement the
    operations on them. *)

From Stdlib Require Import ZArith Lia String.
From stdpp Require Import base list list_numbers option tactics relations strings.
From S2P Require Import Prelude OmxCore OmxSamples.
Local Open Scope string_scope.
Local Open Scope list_scope.
Local Open Scope Z_scope.

(** * The specification *)

(** A component: its name, the most instances it has, and their handles, the oldest first. *)
Record component := mkInstances { c_name : string; c_max : Z; c_handles : list Z }.
Definition live (I : list component) : list Z := concat (map c_handles I).

Definition add_to (cname : string) (h : Z) (c : component) : component :=
  if String.eqb (c_name c) cname then mkInstances (c_name c) (c_max c) (c_handles c ++ [h]) else c.
Definition remove_from (h : Z) (c : component) : component :=
  mkInstances (c_name c) (c_max c) (list_difference (c_handles c) [h]).

(** What loading the entry [j] comes to: an error, or the handle. *)
Definition load_result (L : loader) (j : nat) : Z + Z :=
  if dlopen L j =? 0 then inl OMX_ErrorComponentNotFound
  else if negb (dlsym L j) then inl OMX_ErrorInvalidComponent
  else if malloc L j =? 0 then inl OMX_ErrorInsufficientResources
  else if component_init L j =? OMX_ErrorInsufficientResources then inl OMX_ErrorInsufficientResources
  else if negb (component_init L j =? OMX_ErrorNone) then inl OMX_ErrorComponentNotFound
  else if negb (set_callbacks L j =? OMX_ErrorNone) then inl (set_callbacks L j)
  else inr (malloc L j).

(** The first component with the name. *)
Fixpoint index_of (cname : string) (cs : list component) (j : nat) : option (nat * component) :=
  match cs with
  | [] => None
  | c :: cs => if String.eqb (c_name c) cname then Some (j, c) else index_of cname cs (S j)
  end.

Definition spec_get (L : loader) (cname : string) (I : list component) : Z * Z * list component :=
  if (MAXNAMESIZE <=? String.length cname)%nat then (OMX_ErrorInvalidComponentName, 0, I)
  else if (MAXCOMP <=? length (live I))%nat then (OMX_ErrorInsufficientResources, 0, I)
  else
    match index_of cname I 0 with
    | None => (OMX_ErrorComponentNotFound, 0, I)
    | Some (j, c) =>
        if c_max c <=? Z.of_nat (length (c_handles c)) then (OMX_ErrorInsufficientResources, 0, I)
        else
          match load_result L j with
          | inl err => (err, 0, I)
          | inr h => (OMX_ErrorNone, h, map (add_to cname h) I)
          end
    end.

Definition spec_free (deinit h : Z) (I : list component) : Z * list component :=
  if bool_decide (h ∈ live I)
  then if deinit =? OMX_ErrorNone then (OMX_ErrorNone, map (remove_from h) I) else (deinit, I)
  else (OMX_ErrorBadParameter, I).

(** * The invariant *)

Definition handles (e : ComponentTable) : list Z := take (Z.to_nat (refCount e)) (pHandle e).
Definition instances_of (e : ComponentTable) : component :=
  mkInstances (default "" (name e)) (maxinstances e) (handles e).
Definition instances (s : core) : list component := map instances_of (componentTable s).

(** The specification's view: the count of [TIOMX_Init] and the instances. *)
Definition abstract (s : core) : Z * list component := (count s, instances s).

(** What [TIOMX_BuildComponentTable] sets for good. *)
Definition fixed (e : ComponentTable) := (name e, nRoles e, pRoleArray e, maxinstances e).

Record entry_ok (e : ComponentTable) : Prop := {
  en_count : 0 <= refCount e <= maxinstances e;
  en_handles : pHandle e = handles e ++ replicate (MAX_CONCURRENT_INSTANCES - length (handles e)) 0;
  en_length : Z.of_nat (length (handles e)) = refCount e;
  en_nonnull : 0 ∉ handles e }.

Definition nonzero (l : list Z) : list Z := List.filter (fun x => negb (x =? 0)) l.

Record core_ok (s : core) : Prop := {
  ok_modules : length (pModules s) = MAXCOMP;
  ok_components : length (pComponents s) = MAXCOMP;
  ok_slots : forall i, pModules s !! i = Some 0 <-> pComponents s !! i = Some 0;
  ok_fixed : map fixed (componentTable s) = map fixed (componentTable built);
  ok_tables : tableCount s = tableCount built;
  ok_entries : Forall entry_ok (componentTable s);
  ok_handles : live (instances s) ≡ₚ nonzero (pComponents s);
  ok_distinct : NoDup (nonzero (pComponents s));
  ok_heap : heap s ≡ₚ nonzero (pComponents s);
  ok_opened : opened s ≡ₚ nonzero (pModules s);
  ok_count : 0 <= count s }.

(** * Lists *)

Lemma first_zero_spec l :
  (first_zero l < length l)%nat /\ l !! first_zero l = Some 0 \/ first_zero l = length l /\ nonzero l = l.
Proof.
  induction l as [|m l IH]; simpl; [by right|]. destruct (m =? 0) eqn:E; simpl.
  - left. split; [lia|]. f_equal. by apply Z.eqb_eq.
  - destruct IH as [[Hl H0]|[Hl Hn]]; [left; split; [lia|done]|right; split; congruence].
Qed.

Lemma slot_of_spec h l :
  (slot_of h l < length l)%nat /\ l !! slot_of h l = Some h \/ slot_of h l = length l /\ h ∉ l.
Proof.
  induction l as [|m l IH]; simpl; [right; split; [done|apply not_elem_of_nil]|].
  destruct (Z.eqb_spec m h) as [->|Hne]; [left; split; [lia|done]|].
  destruct IH as [[Hl H0]|[Hl Hn]]; [left; split; [lia|done]|right; split; [lia|]].
  rewrite not_elem_of_cons. done.
Qed.

Lemma nonzero_elem x l : x ∈ nonzero l <-> x <> 0 /\ x ∈ l.
Proof. unfold nonzero. rewrite !list_elem_of_In, filter_In, negb_true_iff, Z.eqb_neq. tauto. Qed.

Lemma nonzero_insert l i h :
  l !! i = Some 0 -> h <> 0 -> nonzero (<[i := h]> l) ≡ₚ h :: nonzero l.
Proof.
  revert i. induction l as [|x l IH]; intros [|i] Hi Hh; try done; simpl in *.
  - injection Hi as ->. simpl. rewrite (proj2 (Z.eqb_neq _ _) Hh). done.
  - destruct (x =? 0); simpl; [by apply IH|]. rewrite IH by done. apply perm_swap.
Qed.

Lemma nonzero_delete l i h :
  l !! i = Some h -> h <> 0 -> nonzero l ≡ₚ h :: nonzero (<[i := 0]> l).
Proof.
  revert i. induction l as [|x l IH]; intros [|i] Hi Hh; try done; simpl in *.
  - injection Hi as ->. simpl. rewrite (proj2 (Z.eqb_neq _ _) Hh). done.
  - destruct (x =? 0); simpl; [by apply IH|]. rewrite (IH i) by done. apply perm_swap.
Qed.

Lemma remove_one_perm m l l' : l ≡ₚ m :: l' -> remove_one m l ≡ₚ l'.
Proof.
  revert l'. induction l as [|x l IH]; intros l' Hp; [by apply Permutation_nil in Hp|].
  simpl. destruct (Z.eqb_spec m x) as [->|Hne]; [by apply Permutation_cons_inv in Hp|].
  assert (Hin : x ∈ l') by (assert (x ∈ m :: l') by (rewrite <- Hp; left); by rewrite elem_of_cons in *; naive_solver).
  apply list_elem_of_split in Hin as (l1 & l2 & ->).
  rewrite <- Permutation_middle. f_equiv. apply IH.
  apply (Permutation_cons_inv (a := x)). rewrite Hp. rewrite <- Permutation_middle. apply perm_swap.
Qed.

Lemma remove_one_cons m l : remove_one m (m :: l) = l.
Proof. simpl. by rewrite Z.eqb_refl. Qed.

Lemma difference_fresh (h : Z) l : h ∉ l -> list_difference l [h] = l.
Proof.
  induction l as [|x l IH]; [done|]. rewrite not_elem_of_cons. intros [Hx Hl]. simpl.
  destruct (decide_rel _ x [h]) as [Hi|_]; [apply list_elem_of_singleton in Hi; congruence|]. by rewrite IH.
Qed.

Lemma difference_cons (h : Z) l : h ∉ l -> list_difference (h :: l) [h] = l.
Proof.
  intros Hl. simpl. destruct (decide_rel _ h [h]) as [_|Hi]; [by apply difference_fresh|].
  destruct Hi. by apply list_elem_of_singleton.
Qed.

Lemma difference_perm (h : Z) l l' : NoDup l -> l ≡ₚ h :: l' -> list_difference l [h] ≡ₚ l'.
Proof.
  intros Hn Hp. assert (Hn' : NoDup (h :: l')) by (by rewrite <- Hp). apply list.NoDup_cons in Hn' as [Hh Hn'].
  apply NoDup_Permutation; [by apply NoDup_list_difference|done|]. intros x.
  rewrite list_elem_of_difference, Hp, elem_of_cons, list_elem_of_singleton.
  split; [tauto|]. intros Hx. split; [by right|]. intros ->. done.
Qed.

Lemma live_insert I j c c' x :
  I !! j = Some c -> c_handles c' ≡ₚ x :: c_handles c -> live (<[j := c']> I) ≡ₚ x :: live I.
Proof.
  revert j. unfold live. induction I as [|y I IH]; intros [|j] Hj Hp; try done; simpl in *.
  - injection Hj as ->. by rewrite Hp.
  - rewrite IH by done. by rewrite Permutation_middle.
Qed.

Lemma live_delete I j c c' x :
  I !! j = Some c -> c_handles c ≡ₚ x :: c_handles c' -> live I ≡ₚ x :: live (<[j := c']> I).
Proof.
  revert j. unfold live. induction I as [|y I IH]; intros [|j] Hj Hp; try done; simpl in *.
  - injection Hj as ->. by rewrite Hp.
  - rewrite (IH j) by done. by rewrite Permutation_middle.
Qed.

(** * Names *)

Definition built_names : list string := Eval vm_compute in omap name (componentTable built).

Lemma built_named : map name (componentTable built) = map Some built_names.
Proof. by vm_compute. Qed.
Lemma built_names_distinct : NoDup built_names.
Proof. apply (bool_decide_unpack _). by vm_compute. Qed.

Lemma names_fixed s : core_ok s -> map name (componentTable s) = map Some built_names.
Proof.
  intros Hs. rewrite <- built_named. pose proof (f_equal (map (fun x => x.1.1.1)) (ok_fixed _ Hs)) as Hf.
  by rewrite !map_map in Hf.
Qed.

Lemma table_length s : core_ok s -> length (componentTable s) = MAX_TABLE_SIZE.
Proof. intros Hs. pose proof (f_equal length (names_fixed s Hs)) as Hl. by rewrite !length_map in Hl. Qed.

Lemma instances_names s : core_ok s -> map c_name (instances s) = built_names.
Proof.
  intros Hs. unfold instances. rewrite map_map. pose proof (f_equal (map (default "")) (names_fixed s Hs)) as Hf.
  rewrite !map_map in Hf. etransitivity; [exact Hf|]. exact (map_id built_names).
Qed.

(** Every entry has a name, its instances' name. *)
Lemma entry_named s j e : core_ok s -> componentTable s !! j = Some e -> name e = Some (c_name (instances_of e)).
Proof.
  intros Hs He. assert (Hn : map name (componentTable s) !! j = Some (name e)) by (by rewrite list_lookup_fmap, He).
  rewrite (names_fixed s Hs), list_lookup_fmap in Hn. destruct (built_names !! j); [|done].
  simpl in Hn. injection Hn as Hn. unfold instances_of. simpl. by rewrite <- Hn.
Qed.

Lemma entry_max s j e : core_ok s -> componentTable s !! j = Some e -> maxinstances e <= 4.
Proof.
  intros Hs He. assert (Hb : Forall (fun f => f.2 <= 4) (map fixed (componentTable built)))
    by (apply (bool_decide_unpack _); by vm_compute).
  rewrite <- (ok_fixed _ Hs), list.Forall_forall in Hb. apply (Hb (fixed e)), list_elem_of_fmap.
  exists e. split; [done|]. by apply list_elem_of_lookup_2 in He.
Qed.

Lemma index_of_spec cname cs j0 :
  match index_of cname cs j0 with
  | Some (j, c) =>
      exists k, j = (j0 + k)%nat /\ cs !! k = Some c /\ c_name c = cname /\
        forall k' c', (k' < k)%nat -> cs !! k' = Some c' -> c_name c' <> cname
  | None => forall k c, cs !! k = Some c -> c_name c <> cname
  end.
Proof.
  revert j0. induction cs as [|c cs IH]; intros j0; simpl; [done|].
  destruct (String.eqb_spec (c_name c) cname) as [Hc|Hc].
  - exists 0%nat. split_and!; [lia|done|done|]. intros; lia.
  - specialize (IH (S j0)). destruct (index_of cname cs (S j0)) as [[j c1]|].
    + destruct IH as (k & -> & Hk & Hn & Hb). exists (S k). split_and!; [lia|done|done|].
      intros [|k'] c' Hl Hc'; simpl in Hc'; [by injection Hc' as <-|apply (Hb k' c'); [lia|done]].
    + intros [|k] c' Hk; simpl in Hk; [by injection Hk as <-|by apply (IH k)].
Qed.

(** Names being distinct, the component of a name is one. *)
Lemma distinct_names cs j k c c' :
  NoDup (map c_name cs) -> cs !! j = Some c -> cs !! k = Some c' -> c_name c = c_name c' -> j = k.
Proof.
  intros Hn Hj Hk Hc. apply (NoDup_lookup (map c_name cs) j k (c_name c)); [done| |].
  - by rewrite list_lookup_fmap, Hj.
  - by rewrite list_lookup_fmap, Hk, Hc.
Qed.

Lemma add_to_insert cs j c h :
  NoDup (map c_name cs) -> cs !! j = Some c ->
  map (add_to (c_name c) h) cs = <[j := mkInstances (c_name c) (c_max c) (c_handles c ++ [h])]> cs.
Proof.
  intros Hn Hj. apply list_eq. intros k. rewrite list_lookup_fmap.
  destruct (decide (k = j)) as [->|Hne].
  - rewrite Hj, list_lookup_insert_eq by (by eapply lookup_lt_Some). simpl. unfold add_to. by rewrite String.eqb_refl.
  - rewrite list_lookup_insert_ne by done. destruct (cs !! k) as [c'|] eqn:Ek; [|done]. simpl. unfold add_to.
    destruct (String.eqb_spec (c_name c') (c_name c)) as [He|]; [|done]. destruct Hne. by eapply distinct_names.
Qed.

(** * Loading *)

Section Load.
Context (L : loader) (s : core) (Hs : core_ok s).
Context (i : nat) (Hi : pModules s !! i = Some 0).
Context (fresh : forall j, malloc L j ∉ heap s).

Let Hc : pComponents s !! i = Some 0.
Proof. by apply (ok_slots _ Hs). Qed.

(** The core with a module in the slot, and with an instance. *)
Definition with_module (m : Z) : core :=
  mkCore (<[i := m]> (pModules s)) (pComponents s) (count s) (tableCount s) (componentTable s) (heap s) (m :: opened s).
Definition with_instance (m h : Z) : core :=
  mkCore (<[i := m]> (pModules s)) (<[i := h]> (pComponents s)) (count s) (tableCount s) (componentTable s)
    (h :: heap s) (m :: opened s).

Lemma slot_lt : (i < length (pModules s))%nat.
Proof. by eapply lookup_lt_Some. Qed.

Lemma insert_back (l : list Z) m : l !! i = Some 0 -> <[i := 0]> (<[i := m]> l) = l.
Proof. intros Hl. by rewrite list_insert_insert_eq, list_insert_id. Qed.

Lemma clean_up_nothing : clean_up i 0 s = Some (0, s).
Proof.
  unfold clean_up, free. simpl. rewrite Hi. unfold dlclose, set_slots, set_outside. simpl.
  rewrite !list_insert_id by done.
  assert (Ho : remove_one 0 (opened s) = opened s).
  { assert (Hz : 0 ∉ opened s) by (rewrite (ok_opened _ Hs), nonzero_elem; tauto). revert Hz.
    generalize (opened s) as l. induction l as [|x l IH]; [done|]. rewrite not_elem_of_cons. intros [Hx Hl].
    cbn [remove_one]. rewrite (proj2 (Z.eqb_neq _ _)) by congruence. by rewrite IH. }
  rewrite Ho. by destruct s.
Qed.

Lemma clean_up_module m : clean_up i 0 (with_module m) = Some (0, s).
Proof.
  unfold clean_up, free, with_module. simpl. rewrite list_lookup_insert_eq by apply slot_lt.
  unfold dlclose, set_slots, set_outside. cbn [pModules pComponents heap opened count tableCount componentTable].
  rewrite remove_one_cons, insert_back, list_insert_id by done. by destruct s.
Qed.

Lemma clean_up_instance m j : malloc L j <> 0 -> clean_up i (malloc L j) (with_instance m (malloc L j)) = Some (0, s).
Proof.
  intros Hh. unfold clean_up, free, with_instance. rewrite (proj2 (Z.eqb_neq _ _) Hh).
  cbn [pModules pComponents heap opened count tableCount componentTable].
  rewrite bool_decide_eq_true_2 by left. unfold set_outside.
  cbn [pModules pComponents heap opened count tableCount componentTable].
  rewrite list_lookup_insert_eq by apply slot_lt. unfold dlclose, set_slots, set_outside.
  cbn [pModules pComponents heap opened count tableCount componentTable].
  rewrite remove_one_cons, !insert_back, difference_cons by done. by destruct s.
Qed.

(** An attempt: it loads the instance, or it leaves the core as it was, at once or when cleaned up. *)
Definition loaded (j : nat) (e : ComponentTable) : core :=
  set_table (tableCount s)
    (<[j := mkComponent (name e) (nRoles e) (pRoleArray e) (<[Z.to_nat (refCount e) := malloc L j]> (pHandle e))
              (refCount e + 1) (maxinstances e)]> (componentTable s))
    (with_instance (dlopen L j) (malloc L j)).

Lemma load_entry_spec j e :
  componentTable s !! j = Some e -> refCount e < maxinstances e ->
  match load_result L j with
  | inr h => h = malloc L j /\ dlopen L j <> 0 /\ h <> 0 /\ load_entry L i j 0 s = Some (Unlock OMX_ErrorNone, h, loaded j e)
  | inl err =>
      load_entry L i j 0 s = Some (Unlock err, 0, s) \/
      exists ph s1, clean_up i ph s1 = Some (0, s) /\ componentTable s1 = componentTable s /\
        (load_entry L i j 0 s = Some (CleanUp err, ph, s1) \/
         err = OMX_ErrorComponentNotFound /\ load_entry L i j 0 s = Some (Next, ph, s1))
  end.
Proof.
  intros He Hlt.
  assert (Hok : entry_ok e) by (pose proof (ok_entries _ Hs) as Hf; by eapply Forall_lookup_1).
  pose proof (en_count _ Hok) as [H0 H1]. pose proof (entry_max _ _ _ Hs He) as H4.
  assert (Hlen : length (pHandle e) = MAX_CONCURRENT_INSTANCES).
  { rewrite (en_handles _ Hok), length_app, length_replicate. pose proof (en_length _ Hok).
    unfold MAX_CONCURRENT_INSTANCES in *. lia. }
  assert (Hadd : arr_set (pHandle e) (refCount e) (malloc L j) = Some (<[Z.to_nat (refCount e) := malloc L j]> (pHandle e))).
  { unfold arr_set. rewrite (proj2 (Z.leb_le _ _)), (proj2 (Z.ltb_lt _ _)); [done| |done].
    rewrite Hlen. unfold MAX_CONCURRENT_INSTANCES. lia. }
  unfold load_result, load_entry. rewrite He. rewrite uwrap_small by lia. rewrite (proj2 (Z.leb_gt _ _)) by lia.
  destruct (Z.eqb_spec (dlopen L j) 0) as [->|Hm].
  { left. unfold set_slots. rewrite list_insert_id by done. by destruct s. }
  destruct (negb (dlsym L j)).
  { right. exists 0, (with_module (dlopen L j)). split; [apply clean_up_module|]. split; [done|by left]. }
  destruct (Z.eqb_spec (malloc L j) 0) as [->|Hh].
  { right. exists 0, (with_module (dlopen L j)). split; [apply clean_up_module|]. split; [done|by left]. }
  unfold set_outside, set_slots.
  cbn [pModules pComponents heap opened count tableCount componentTable].
  fold (with_instance (dlopen L j) (malloc L j)).
  destruct (Z.eqb_spec (component_init L j) OMX_ErrorNone) as [->|Hn].
  - change (OMX_ErrorNone =? OMX_ErrorInsufficientResources) with false. cbv iota.
    destruct (Z.eqb_spec (set_callbacks L j) OMX_ErrorNone) as [->|Hcb]; cbn [negb].
    + unfold add_instance. rewrite Hadd. done.
    + right. eexists _, _. split; [by apply (clean_up_instance (dlopen L j) j)|]. split; [done|by left].
  - destruct (Z.eqb_spec (component_init L j) OMX_ErrorInsufficientResources) as [->|]; cbn [negb];
      (right; eexists _, _; split; [by apply (clean_up_instance (dlopen L j) j)|]; split; [done|]); [by left|by right].
Qed.

(** The entries without the name are passed over. *)
Lemma load_from_other cname n j ph s1 :
  componentTable s1 = componentTable s -> (j + n <= MAX_TABLE_SIZE)%nat ->
  (forall k c, (j <= k < j + n)%nat -> instances s !! k = Some c -> c_name c <> cname) ->
  load_from L cname i n j ph s1 = let* (ph, s) := clean_up i ph s1 in Some (OMX_ErrorComponentNotFound, ph, s).
Proof.
  intros Ht. revert j. induction n as [|n IH]; intros j Hj Hne; [done|]. cbn [load_from]. rewrite Ht.
  destruct (lookup_lt_is_Some_2 (componentTable s) j) as [e He]; [rewrite table_length by done; lia|].
  rewrite He. unfold named. rewrite (entry_named s j e) by done.
  assert (Hn : c_name (instances_of e) <> cname).
  { apply (Hne j); [lia|]. unfold instances. by rewrite list_lookup_fmap, He. }
  rewrite (proj2 (String.eqb_neq _ _) Hn). simpl negb. cbv iota.
  apply IH; [lia|]. intros k c Hk. apply Hne. lia.
Qed.

Lemma load_from_named cname n j k e :
  componentTable s !! (j + k)%nat = Some e -> c_name (instances_of e) = cname -> (k < n)%nat ->
  (forall k' c, (k' < k)%nat -> instances s !! (j + k')%nat = Some c -> c_name c <> cname) ->
  load_from L cname i n j 0 s =
  let* (o, ph, s1) := load_entry L i (j + k) 0 s in
  match o with
  | Unlock err => Some (err, ph, s1)
  | CleanUp err => let* (ph, s1) := clean_up i ph s1 in Some (err, ph, s1)
  | Next => load_from L cname i (n - k - 1) (S (j + k)) ph s1
  end.
Proof.
  intros He Hc'. revert j n He. induction k as [|k IH]; intros j n He Hk Hne.
  - destruct n as [|n]; [lia|]. cbn [load_from]. rewrite Nat.add_0_r in *. rewrite He. unfold named.
    rewrite (entry_named s j e), Hc', String.eqb_refl by done. simpl negb. cbv iota.
    replace (S n - 0 - 1)%nat with n by lia. done.
  - destruct n as [|n]; [lia|]. cbn [load_from].
    destruct (lookup_lt_is_Some_2 (componentTable s) j) as [e' He']; [apply lookup_lt_Some in He; lia|].
    rewrite He'. unfold named. rewrite (entry_named s j e') by done.
    assert (Hn : c_name (instances_of e') <> cname).
    { apply (Hne 0%nat); [lia|]. rewrite Nat.add_0_r. unfold instances. by rewrite list_lookup_fmap, He'. }
    rewrite (proj2 (String.eqb_neq _ _) Hn). simpl negb. cbv iota.
    rewrite (IH (S j) n); [|by rewrite Nat.add_succ_comm|lia|].
    + replace (S j + k)%nat with (j + S k)%nat by lia. by replace (n - k - 1)%nat with (S n - S k - 1)%nat by lia.
    + intros k' c Hk' Hl. apply (Hne (S k')); [lia|]. by rewrite <- Nat.add_succ_comm.
Qed.

(** A loaded instance is the last of its component. *)
Lemma handles_added e h :
  entry_ok e -> refCount e < maxinstances e -> maxinstances e <= 4 ->
  let e' := mkComponent (name e) (nRoles e) (pRoleArray e) (<[Z.to_nat (refCount e) := h]> (pHandle e))
              (refCount e + 1) (maxinstances e) in
  handles e' = handles e ++ [h] /\ (h <> 0 -> entry_ok e').
Proof.
  intros [Hcnt Hh Hlen Hnn] Hlt Hmax e'. set (hs := handles e) in *. unfold MAX_CONCURRENT_INSTANCES in *.
  assert (Hn : Z.to_nat (refCount e) = length hs) by lia.
  assert (Hp : pHandle e' = (hs ++ [h]) ++ replicate (4 - length (hs ++ [h])) 0).
  { unfold e'. cbn [pHandle]. rewrite Hn, Hh, insert_app_r_alt, Nat.sub_diag by lia.
    destruct (4 - length hs)%nat as [|m] eqn:Em; [lia|]. cbn [replicate]. simpl. rewrite <- app_assoc. simpl.
    rewrite length_app. simpl. by replace (4 - (length hs + 1))%nat with m by lia. }
  assert (Hl : length (hs ++ [h]) = Z.to_nat (refCount e + 1)) by (rewrite length_app; simpl; lia).
  assert (Hhs : handles e' = hs ++ [h]).
  { unfold handles. rewrite Hp. unfold e'. cbn [refCount]. rewrite <- Hl. by rewrite take_app_length. }
  split; [done|]. intros H0. split.
  - unfold e'. simpl. lia.
  - by rewrite Hhs.
  - rewrite Hhs, Hl. unfold e'. simpl. lia.
  - rewrite Hhs, elem_of_app, list_elem_of_singleton. intros [?|?]; [done|congruence].
Qed.

Lemma loaded_ok j e :
  componentTable s !! j = Some e -> refCount e < maxinstances e -> dlopen L j <> 0 -> malloc L j <> 0 ->
  core_ok (loaded j e) /\ instances (loaded j e) = map (add_to (c_name (instances_of e)) (malloc L j)) (instances s).
Proof.
  intros He Hlt Hm Hh.
  assert (Hok : entry_ok e) by (pose proof (ok_entries _ Hs) as Hf; by eapply Forall_lookup_1).
  destruct (handles_added e (malloc L j) Hok Hlt (entry_max _ _ _ Hs He)) as [Ha Ho].
  set (e' := mkComponent _ _ _ _ _ _) in Ha, Ho.
  assert (Hinst : instances (loaded j e) = <[j := instances_of e']> (instances s)).
  { unfold instances, loaded. cbn [componentTable set_table]. fold e'. apply list_fmap_insert. }
  assert (Hej : instances s !! j = Some (instances_of e)) by (unfold instances; by rewrite list_lookup_fmap, He).
  assert (Hnd : malloc L j ∉ nonzero (pComponents s)) by (rewrite <- (ok_heap _ Hs); done).
  split.
  - destruct Hs. split; unfold loaded; cbn [pModules pComponents count tableCount heap opened componentTable with_instance set_table]; fold e'.
    + by rewrite length_insert.
    + by rewrite length_insert.
    + intros k. destruct (decide (k = i)) as [->|Hne]; [|by rewrite !list_lookup_insert_ne by done].
      rewrite !list_lookup_insert_eq by (by eapply lookup_lt_Some). split; intros [= ?]; done.
    + rewrite <- ok_fixed0. apply list_eq. intros k. rewrite !list_lookup_fmap.
      destruct (decide (k = j)) as [->|Hne]; [|by rewrite list_lookup_insert_ne by done].
      rewrite list_lookup_insert_eq by (by eapply lookup_lt_Some). by rewrite He.
    + done.
    + apply Forall_insert; [done|by apply Ho].
    + change (live (instances (loaded j e)) ≡ₚ nonzero (<[i := malloc L j]> (pComponents s))). rewrite Hinst, (live_insert _ j _ _ (malloc L j) Hej), ok_handles0.
      * by rewrite nonzero_insert.
      * simpl. rewrite Ha. by rewrite Permutation_app_comm.
    + rewrite (nonzero_insert _ _ _ Hc Hh). by constructor.
    + by rewrite (nonzero_insert _ _ _ Hc Hh), ok_heap0.
    + by rewrite (nonzero_insert _ _ _ Hi Hm), ok_opened0.
    + done.
  - rewrite Hinst. rewrite (add_to_insert _ j (instances_of e)); [|rewrite instances_names by done; apply built_names_distinct|done].
    unfold instances_of at 1. fold (handles e'). by rewrite Ha.
Qed.

End Load.

Lemma nonzero_lengths (l l' : list Z) :
  length l = length l' -> (forall i, l !! i = Some 0 <-> l' !! i = Some 0) -> length (nonzero l) = length (nonzero l').
Proof.
  revert l'. induction l as [|x l IH]; intros [|y l'] Hl Hz; try done. simpl in *.
  assert (Hr : length (nonzero l) = length (nonzero l')) by (apply IH; [lia|intros i; apply (Hz (S i))]).
  specialize (Hz 0%nat). simpl in Hz.
  assert (Hxy : x = 0 <-> y = 0) by (split; intros ->; [assert (Some y = Some 0) by tauto|assert (Some x = Some 0) by tauto]; congruence).
  destruct (Z.eqb_spec x 0), (Z.eqb_spec y 0); simpl; (congruence || tauto).
Qed.

Lemma nonzero_length l : (length (nonzero l) <= length l)%nat.
Proof. apply filter_length_le. Qed.

Lemma nonzero_short l i : l !! i = Some 0 -> (length (nonzero l) < length l)%nat.
Proof.
  revert i. induction l as [|x l IH]; intros [|i] Hi; try done; simpl in *.
  - injection Hi as ->. simpl. pose proof (nonzero_length l). lia.
  - specialize (IH i Hi). destruct (negb _); simpl; lia.
Qed.

(** The slots are used up when as many instances live. *)
Lemma slots_used s :
  core_ok s -> (first_zero (pModules s) =? MAXCOMP)%nat = (MAXCOMP <=? length (live (instances s)))%nat.
Proof.
  intros Hs. rewrite (Permutation_length (ok_handles _ Hs)).
  rewrite <- (nonzero_lengths (pModules s)); [|by rewrite (ok_modules _ Hs), (ok_components _ Hs)|apply (ok_slots _ Hs)].
  pose proof (ok_modules _ Hs) as Hm. destruct (first_zero_spec (pModules s)) as [[Hl Hz]|[Hl Hn]].
  - pose proof (nonzero_short _ _ Hz). rewrite (proj2 (Nat.eqb_neq _ _)) by lia. symmetry. apply Nat.leb_gt. lia.
  - rewrite Hn, Hl, Hm. by rewrite Nat.eqb_refl, Nat.leb_refl.
Qed.

Lemma load_result_err L j err : load_result L j = inl err -> err <> OMX_ErrorNone.
Proof.
  unfold load_result. repeat case_match; intros [= <-]; try done.
  intros He. rewrite He in *. done.
Qed.

Lemma get_handle_spec m L s cname :
  core_ok s -> lock_ok m = true -> unlock_ok m = true -> (forall j, malloc L j ∉ heap s) ->
  let '(err, h, I') := spec_get L cname (instances s) in
  exists s', TIOMX_GetHandle m L (Some 0) (Some cname) true s = Some (err, Some h, s') /\
    core_ok s' /\ abstract s' = (count s, I') /\ (err <> OMX_ErrorNone -> s' = s /\ h = 0).
Proof.
  intros Hs Hlk Hul Hfr. unfold TIOMX_GetHandle, spec_get. rewrite Hlk, Hul. simpl negb. cbv iota.
  destruct (MAXNAMESIZE <=? String.length cname)%nat; [by eexists|]. rewrite slots_used by done.
  destruct (MAXCOMP <=? length (live (instances s)))%nat eqn:Efull; [by eexists|].
  assert (Hi : pModules s !! first_zero (pModules s) = Some 0).
  { destruct (first_zero_spec (pModules s)) as [[_ Hz]|[Hl _]]; [done|].
    rewrite <- (slots_used s Hs), Hl, (ok_modules _ Hs) in Efull. by rewrite Nat.eqb_refl in Efull. }
  set (i := first_zero (pModules s)) in *.
  pose proof (index_of_spec cname (instances s) 0) as Hx.
  destruct (index_of cname (instances s) 0) as [[j c]|].
  2:{ rewrite (load_from_other L s Hs) by (try done; intros k c _; apply Hx).
      rewrite (clean_up_nothing L) by done. by eexists. }
  destruct Hx as (k & -> & Hk & Hn & Hb). rewrite Nat.add_0_l in *.
  assert (He : exists e, componentTable s !! k = Some e /\ c = instances_of e).
  { unfold instances in Hk. rewrite list_lookup_fmap in Hk. destruct (componentTable s !! k) as [e|]; [|done].
    injection Hk as <-. by exists e. }
  destruct He as (e & He & ->).
  rewrite (load_from_named L s Hs i cname MAX_TABLE_SIZE 0 k e);
    [|done|done|apply lookup_lt_Some in He; by rewrite table_length in He|done].
  rewrite Nat.add_0_l. change (c_max (instances_of e)) with (maxinstances e).
  change (c_handles (instances_of e)) with (handles e).
  assert (Hok : entry_ok e) by (pose proof (ok_entries _ Hs) as Hf; by eapply Forall_lookup_1).
  rewrite (en_length _ Hok). pose proof (en_count _ Hok) as Hcnt. pose proof (entry_max _ _ _ Hs He) as H4.
  destruct (Z.leb_spec (maxinstances e) (refCount e)) as [Hle|Hlt].
  { unfold load_entry. rewrite He, uwrap_small by lia. rewrite (proj2 (Z.leb_le _ _)) by lia. by eexists. }
  pose proof (load_entry_spec L s Hs i Hi Hfr k e He Hlt) as Hl.
  destruct (load_result L k) as [err|h] eqn:Er.
  - pose proof (load_result_err _ _ _ Er) as Herr.
    destruct Hl as [->|(ph & s1 & Hcl & Ht & [->|[-> ->]])]; [by eexists|rewrite Hcl; by eexists|].
    assert (Hlk' : (k < MAX_TABLE_SIZE)%nat) by (apply lookup_lt_Some in He; by rewrite table_length in He).
    rewrite (load_from_other L s Hs); [|done|lia|].
    2:{ intros k' c' Hk' Hl' Hc'. assert (k = k'); [|lia]. apply (distinct_names (instances s) k k' (instances_of e) c'); [|done..|congruence].
        rewrite instances_names by done. apply built_names_distinct. }
    rewrite Hcl. by eexists.
  - destruct Hl as (-> & Hm & Hh & ->). rewrite <- Hn.
    destruct (loaded_ok L s Hs i Hi Hfr k e He Hlt Hm Hh) as [Hok' Hin].
    eexists. split; [reflexivity|]. split; [done|]. split; [|done]. unfold abstract. by rewrite Hin.
Qed.

(** * Unloading *)

Lemma find_handle_spec h hs n k :
  (k + n <= length hs)%nat ->
  exists r, find_handle h hs n k = Some r /\
    match r with
    | Some j => (k <= j < k + n)%nat /\ hs !! j = Some h
    | None => forall j, (k <= j < k + n)%nat -> hs !! j <> Some h
    end.
Proof.
  revert k. induction n as [|n IH]; intros k Hk; simpl; [exists None; split; [done|]; intros; lia|].
  destruct (lookup_lt_is_Some_2 hs k) as [x Hx]; [lia|]. rewrite Hx.
  destruct (Z.eqb_spec x h) as [->|Hne]; [exists (Some k); split_and!; [done|lia|lia|done]|].
  destruct (IH (S k)) as (r & -> & Hr); [lia|]. exists r. split; [done|]. destruct r as [j|].
  - destruct Hr as [Hj Hh]. split; [lia|done].
  - intros j Hj. destruct (decide (j = k)) as [->|]; [congruence|]. apply Hr. lia.
Qed.

Lemma handles_lookup e k h : entry_ok e -> handles e !! k = Some h <-> (k < Z.to_nat (refCount e))%nat /\ pHandle e !! k = Some h.
Proof. intros _. unfold handles. rewrite lookup_take_Some. tauto. Qed.

Lemma find_owner_spec h es j :
  Forall entry_ok es ->
  exists r, find_owner h es j = Some r /\
    match r with
    | Some (j', k) => exists i e, j' = (j + i)%nat /\ es !! i = Some e /\ handles e !! k = Some h
    | None => forall e, e ∈ es -> h ∉ handles e
    end.
Proof.
  revert j. induction es as [|e es IH]; intros j Hok; simpl.
  { exists None. split; [done|]. intros e He. by apply not_elem_of_nil in He. }
  apply list.Forall_cons in Hok as [He Hok].
  assert (Hlen : (0 + Z.to_nat (refCount e) <= length (pHandle e))%nat).
  { rewrite (en_handles _ He), length_app. pose proof (en_length _ He). lia. }
  destruct (find_handle_spec h _ _ _ Hlen) as (r & -> & Hr). destruct r as [k|].
  - exists (Some (j, k)). split; [done|]. exists 0%nat, e. split; [lia|]. split; [done|]. apply handles_lookup; [done|]. split; [lia|apply Hr].
  - destruct (IH (S j) Hok) as (r & -> & Hr'). exists r. split; [done|]. destruct r as [[j' k]|].
    + destruct Hr' as (i & e' & -> & Hi & Hk). exists (S i), e'. split; [lia|done].
    + intros e' He' Hin. apply elem_of_cons in He' as [->|He']; [|by apply (Hr' e')].
      apply list_elem_of_lookup in Hin as [k Hk]. apply handles_lookup in Hk as [Hk1 Hk2]; [|done]. apply (Hr k); [lia|done].
Qed.

(** The handle taken out, when it is one of the two newest. *)
Lemma release_handle_spec e k h :
  entry_ok e -> maxinstances e <= 4 -> handles e !! k = Some h -> (length (handles e) <= k + 2)%nat ->
  exists e', release_handle k e = Some e' /\ entry_ok e' /\ fixed e' = fixed e /\ handles e' = delete k (handles e).
Proof.
  intros [Hcnt Hh Hlen Hnn] Hmax Hk H2. unfold release_handle, fixed.
  assert (Hhs : length (handles e) = Z.to_nat (refCount e)) by lia.
  destruct e as [nm nr ro ph rc mx]. unfold handles in *. cbn [refCount pHandle name nRoles pRoleArray maxinstances] in *.
  unfold MAX_CONCURRENT_INSTANCES in *. set (hs := take (Z.to_nat rc) ph) in *. clearbody hs. subst ph.
  assert (Hn : (length hs <= 4)%nat) by lia. apply lookup_lt_Some in Hk as Hlt.
  assert (Hrc : rc = Z.of_nat (length hs)) by lia. subst rc. clear Hhs Hmax. rewrite Nat2Z.id.
  repeat rewrite not_elem_of_cons in Hnn.
  destruct hs as [|a [|b [|c [|d [|x hs]]]]]; try (exfalso; simpl in *; lia).
  all: repeat rewrite not_elem_of_cons in Hnn; destruct_and?; simpl in Hlt, H2.
  all: destruct k as [|[|[|[|k]]]]; try lia.
  all: unfold shift_handles, for_range; simpl; repeat (rewrite (proj2 (Z.eqb_neq _ _)) by (by apply not_eq_sym); simpl).
  all: eexists; (split; [reflexivity|]); (split; [|done]).
  all: split; unfold handles; simpl in *; [lia|done|done|].
  all: repeat rewrite not_elem_of_cons; repeat split; first [done|apply not_elem_of_nil].
Qed.

Lemma difference_delete (h : Z) hs k :
  NoDup hs -> hs !! k = Some h -> list_difference hs [h] = delete k hs.
Proof.
  revert k. induction hs as [|x hs IH]; intros k Hn Hk; [done|]. apply list.NoDup_cons in Hn as [Hx Hn].
  destruct k as [|k]; simpl in Hk.
  - injection Hk as ->. by apply difference_cons.
  - simpl. destruct (decide_rel _ x [h]) as [Hi|_]; [|by rewrite (IH k)].
    apply list_elem_of_singleton in Hi as ->. destruct Hx. by apply list_elem_of_lookup_2 in Hk.
Qed.

(** A handle alive is one of exactly one component. *)
Lemma live_owner cs j c k x :
  NoDup (live cs) -> cs !! j = Some c -> c_handles c !! k = Some x ->
  map (remove_from x) cs = <[j := mkInstances (c_name c) (c_max c) (delete k (c_handles c))]> cs.
Proof.
  revert j. unfold live. induction cs as [|c0 cs IH]; intros j Hn Hj Hk; [done|]. simpl in Hn.
  apply list.NoDup_app in Hn as (Hn0 & Hd & Hn). destruct j as [|j]; simpl in Hj.
  - injection Hj as ->. cbn [map]. simpl. f_equal.
    + unfold remove_from. by rewrite (difference_delete x _ k).
    + assert (Hx : x ∉ concat (map c_handles cs)) by (apply Hd; by apply list_elem_of_lookup_2 in Hk).
      clear -Hx. induction cs as [|c0 cs IH]; [done|]. simpl in Hx. rewrite not_elem_of_app in Hx. destruct Hx as [H1 H2].
      cbn [map]. rewrite IH by done. f_equal. unfold remove_from. rewrite difference_fresh by done. by destruct c0.
  - cbn [map]. simpl. f_equal; [|by apply IH]. unfold remove_from. rewrite difference_fresh; [by destruct c0|].
    intros Hx. apply (Hd x Hx). apply list_elem_of_In, in_concat. exists (c_handles c).
    apply list_elem_of_lookup_2 in Hj, Hk. split; [by apply List.in_map, list_elem_of_In|by apply list_elem_of_In].
Qed.

(** The handle is not followed by two newer instances of its component. *)
Definition recent (h : Z) (cs : list component) : Prop :=
  forall c k, c ∈ cs -> c_handles c !! k = Some h -> (length (c_handles c) <= k + 2)%nat.

Lemma live_elem h s : h ∈ live (instances s) <-> exists e, e ∈ componentTable s /\ h ∈ handles e.
Proof.
  unfold live, instances. rewrite list_elem_of_In, in_concat. setoid_rewrite <- list_elem_of_In. split.
  - intros (hs & Hhs & Hh). apply list_elem_of_fmap in Hhs as (c & -> & Hc). apply list_elem_of_fmap in Hc as (e & -> & He). by exists e.
  - intros (e & He & Hh). exists (handles e). split; [|done]. rewrite map_map. by apply (list_elem_of_fmap_2 (fun e => c_handles (instances_of e))).
Qed.

Lemma free_handle_spec m deinit h s :
  core_ok s -> lock_ok m = true -> unlock_ok m = true -> h <> 0 -> recent h (instances s) ->
  let '(err, I') := spec_free deinit h (instances s) in
  exists s', TIOMX_FreeHandle m deinit h s = Some (err, s') /\ core_ok s' /\ abstract s' = (count s, I').
Proof.
  intros Hs Hlk Hul Hh Hrec. unfold TIOMX_FreeHandle, spec_free. rewrite Hlk, Hul. simpl negb. cbv iota.
  assert (Hlive : h ∈ live (instances s) <-> h ∈ pComponents s) by (rewrite (ok_handles _ Hs), nonzero_elem; tauto).
  pose proof (ok_components _ Hs) as Hlen.
  destruct (slot_of_spec h (pComponents s)) as [[Hlt Hi]|[Hlt Hi]]; rewrite ?Hlt, ?Hlen in *.
  2:{ rewrite bool_decide_eq_false_2 by tauto. rewrite Nat.eqb_refl. by eexists. }
  set (i := slot_of h (pComponents s)) in *. clearbody i.
  assert (Hin : h ∈ live (instances s)) by (apply Hlive; by apply list_elem_of_lookup_2 in Hi).
  rewrite bool_decide_eq_true_2 by done. rewrite (proj2 (Nat.eqb_neq _ _)) by lia.
  assert (Hheap : h ∈ heap s) by (by rewrite (ok_heap _ Hs), <- (ok_handles _ Hs)).
  rewrite bool_decide_eq_true_2 by done. destruct (deinit =? OMX_ErrorNone); cbn [negb]; [|by eexists].
  destruct (find_owner_spec h _ 0 (ok_entries _ Hs)) as (r & -> & Hr). destruct r as [[j k]|].
  2:{ apply live_elem in Hin as (e & He & Hx). by destruct (Hr e He). }
  destruct Hr as (i' & e & -> & He & Hk). rewrite Nat.add_0_l, He.
  assert (Hok : entry_ok e) by (pose proof (ok_entries _ Hs) as Hf; by eapply Forall_lookup_1).
  assert (Hej : instances s !! i' = Some (instances_of e)) by (unfold instances; by rewrite list_lookup_fmap, He).
  destruct (release_handle_spec e k h Hok (entry_max _ _ _ Hs He) Hk) as (e' & -> & Hok' & Hfx & Hh').
  { apply (Hrec (instances_of e) k); [by apply list_elem_of_lookup_2 in Hej|done]. }
  cbn [pModules pComponents set_table dlclose set_outside set_slots heap opened count tableCount componentTable].
  destruct (lookup_lt_is_Some_2 (pModules s) i) as [md Hmd]; [rewrite (ok_modules _ Hs); lia|]. rewrite Hmd.
  cbn [pModules pComponents set_table dlclose set_outside set_slots heap opened count tableCount componentTable].
  rewrite Hi. unfold free. rewrite (proj2 (Z.eqb_neq _ _) Hh).
  cbn [pModules pComponents set_table dlclose set_outside set_slots heap opened count tableCount componentTable].
  rewrite bool_decide_eq_true_2 by done. eexists. split; [reflexivity|].
  assert (Hmd0 : md <> 0) by (intros ->; apply (ok_slots _ Hs) in Hmd; congruence).
  assert (Hnd : NoDup (live (instances s))) by (rewrite (ok_handles _ Hs); apply Hs).
  match goal with |- core_ok ?t /\ _ => set (s' := t) end.
  assert (Hinst : instances s' = <[i' := instances_of e']> (instances s)) by (unfold instances, s'; apply list_fmap_insert).
  assert (He' : instances_of e' = mkInstances (c_name (instances_of e)) (maxinstances e) (delete k (handles e))).
  { unfold instances_of, fixed in *. injection Hfx as -> _ _ ->. by rewrite Hh'. }
  pose proof (nonzero_delete _ _ _ Hi Hh) as Hpc. pose proof (nonzero_delete _ _ _ Hmd Hmd0) as Hpm.
  split.
  2:{ unfold abstract. rewrite Hinst, He'. f_equal. symmetry. by apply (live_owner _ i' (instances_of e) k). }
  assert (Hlv : live (instances s) ≡ₚ h :: live (instances s')).
  { rewrite Hinst. apply (live_delete _ i' (instances_of e)); [done|]. rewrite He'. simpl. by apply delete_Permutation. }
  assert (Hhp : list_difference (heap s) [h] ≡ₚ nonzero (<[i := 0]> (pComponents s))).
  { apply difference_perm; [rewrite (ok_heap _ Hs); apply Hs|]. by rewrite (ok_heap _ Hs). }
  destruct Hs. split; unfold s'; cbn [pModules pComponents count tableCount heap opened componentTable set_slots set_outside set_table dlclose].
  - by rewrite length_insert.
  - by rewrite length_insert.
  - intros x. destruct (decide (x = i)) as [->|Hne].
    + rewrite !list_lookup_insert_eq by (rewrite ?Hlen, ?ok_modules0; lia). done.
    + rewrite !list_lookup_insert_ne by congruence. done.
  - rewrite <- ok_fixed0. apply list_eq. intros x. rewrite !list_lookup_fmap.
    destruct (decide (x = i')) as [->|Hne]; [|by rewrite list_lookup_insert_ne by done].
    rewrite list_lookup_insert_eq by (by eapply lookup_lt_Some). rewrite He. simpl. by rewrite Hfx.
  - done.
  - by apply Forall_insert.
  - change (live (instances s') ≡ₚ nonzero (<[i := 0]> (pComponents s))).
    apply (Permutation_cons_inv (a := h)). by rewrite <- Hlv, ok_handles0, Hpc.
  - rewrite Hpc in ok_distinct0. by apply list.NoDup_cons in ok_distinct0 as [_ ?].
  - done.
  - apply remove_one_perm. by rewrite ok_opened0.
  - done.
Qed.

(** * Initializing *)

Lemma table_unused s : core_ok s -> live (instances s) = [] -> componentTable s = componentTable built.
Proof.
  intros Hs Hl. apply list_eq. intros j. pose proof (f_equal (lookup j) (ok_fixed _ Hs)) as Hf. rewrite !list_lookup_fmap in Hf.
  destruct (componentTable s !! j) as [e|] eqn:He, (componentTable built !! j) as [b|] eqn:Hb; try done.
  cbn [fmap option_fmap option_map] in Hf. f_equal. pose proof (f_equal (default (fixed b)) Hf) as Hf'. simpl in Hf'. clear Hf.
  assert (Hu : forall x : ComponentTable, x ∈ componentTable built -> refCount x = 0 /\ pHandle x = replicate MAX_CONCURRENT_INSTANCES 0).
  { apply list.Forall_forall. by repeat constructor. }
  apply list_elem_of_lookup_2 in Hb. destruct (Hu b Hb) as [Hr Hp].
  assert (Hok : entry_ok e) by (pose proof (ok_entries _ Hs) as Hx; by eapply Forall_lookup_1).
  assert (Hh : handles e = []).
  { destruct (handles e) as [|h hs] eqn:Eh; [done|]. assert (Hin : h ∈ live (instances s)).
    { apply live_elem. exists e. split; [by apply list_elem_of_lookup_2 in He|rewrite Eh; left]. }
    rewrite Hl in Hin. by apply not_elem_of_nil in Hin. }
  pose proof (en_length _ Hok) as Hc. pose proof (en_handles _ Hok) as Hph. rewrite Hh in Hc, Hph.
  destruct e, b. unfold fixed, MAX_CONCURRENT_INSTANCES in *. simpl in *. injection Hf' as -> -> -> ->. by subst.
Qed.

Lemma build_unused s : core_ok s -> live (instances s) = [] -> TIOMX_BuildComponentTable s = Some (OMX_ErrorNone, s).
Proof.
  intros Hs Hl. unfold TIOMX_BuildComponentTable. rewrite (table_unused s Hs Hl).
  assert (Hb : for_list tComponentName build_entry (0%nat, componentTable built) = Some (tableCount built, componentTable built))
    by (by vm_compute).
  rewrite Hb, <- (ok_tables _ Hs), <- (table_unused s Hs Hl). by destruct s.
Qed.

Lemma built_ok n : 0 <= n -> core_ok (set_count n built).
Proof.
  intros Hn. split; [done..| | |constructor|done|done|done].
  - apply (list.Forall_impl (fun e => refCount e = 0 /\ 0 <= maxinstances e /\ pHandle e = replicate 4 0)).
    + by repeat constructor.
    + intros [nm nr ro ph rc mx] (Hr & Hm & Hp). simpl in *. subst rc ph.
      split; unfold handles; simpl; [lia|done|done|apply not_elem_of_nil].
  - by vm_compute.
Qed.

(** * Runs *)

(** A call of the application; before it gets a handle, its variable is null. *)
Inductive omx_call := C_Get (L : loader) (cname : string) | C_Free (deinit h : Z) | C_Init | C_Deinit.

Definition exec (m : mutex) (c : omx_call) (s : core) : option (Z * Z * core) :=
  match c with
  | C_Get L cname =>
      let* (err, ph, s) := TIOMX_GetHandle m L (Some 0) (Some cname) true s in Some (err, default 0 ph, s)
  | C_Free deinit h => let* (err, s) := TIOMX_FreeHandle m deinit h s in Some (err, 0, s)
  | C_Init => let* (err, s) := TIOMX_Init m s in Some (err, 0, s)
  | C_Deinit => let '(err, s) := TIOMX_Deinit m s in Some (err, 0, s)
  end.

(** The specification: a count and the instances of each component. *)
Definition spec (c : omx_call) (st : Z * list component) : Z * Z * (Z * list component) :=
  let '(n, cs) := st in
  match c with
  | C_Get L cname => let '(err, h, cs) := spec_get L cname cs in (err, h, (n, cs))
  | C_Free deinit h => let '(err, cs) := spec_free deinit h cs in (err, 0, (n, cs))
  | C_Init => (OMX_ErrorNone, 0, (n + 1, cs))
  | C_Deinit => (OMX_ErrorNone, 0, (if n =? 0 then 0 else n - 1, cs))
  end.

(** The calls that work: [malloc] gives blocks that are free, one of the two newest instances of a
    component is freed, and the core is initialized again when nothing is loaded. *)
Definition allowed (c : omx_call) (s : core) : Prop :=
  match c with
  | C_Get L _ => forall j, malloc L j ∉ heap s
  | C_Free _ h => h <> 0 /\ recent h (instances s)
  | C_Init => 1 <= count s \/ live (instances s) = []
  | C_Deinit => True
  end.

Definition works : mutex := mkMutex true true.
Definition omx_step (s s' : core) : Prop :=
  exists c r, allowed c s /\ exec works c s = Some (r, s').

Lemma exec_ok c s :
  core_ok s -> allowed c s ->
  exists r s', exec works c s = Some (r, s') /\ core_ok s' /\ spec c (abstract s) = (r, abstract s').
Proof.
  intros Hs. destruct c as [L cname|deinit h| |]; simpl.
  - intros Hfr. pose proof (get_handle_spec works L s cname Hs eq_refl eq_refl Hfr) as Hg.
    destruct (spec_get L cname (instances s)) as [[err h] I']. destruct Hg as (s' & -> & Hs' & Hi & _).
    exists (err, h), s'. split_and!; [done..|by rewrite Hi].
  - intros [Hh Hr]. pose proof (free_handle_spec works deinit h s Hs eq_refl eq_refl Hh Hr) as Hg.
    destruct (spec_free deinit h (instances s)) as [err I']. destruct Hg as (s' & -> & Hs' & Hi).
    exists (err, 0), s'. split_and!; [done..|by rewrite Hi].
  - intros Hc. set (s1 := set_count (count s + 1) s).
    assert (Hs1 : core_ok s1) by (destruct Hs; split; try done; simpl; lia).
    assert (He : TIOMX_Init works s = Some (OMX_ErrorNone, s1)).
    { unfold TIOMX_Init. cbn [lock_ok unlock_ok works negb]. fold s1. destruct (Z.eqb_spec (count s1) 1) as [E|E]; [|done].
      rewrite build_unused; [done|done|]. simpl in E. destruct Hc as [Hc|Hc]; [lia|exact Hc]. }
    rewrite He. by exists (OMX_ErrorNone, 0), s1.
  - intros _. unfold TIOMX_Deinit. cbn [lock_ok unlock_ok works negb]. pose proof (ok_count _ Hs) as Hc.
    destruct (Z.eqb_spec (count s) 0) as [E|E]; cbn [negb]; eexists _, _; (split; [reflexivity|]); split.
    + done.
    + unfold abstract. by rewrite E.
    + destruct Hs; split; try done; simpl; lia.
    + done.
Qed.

Lemma run_ok s s' : rtc omx_step s s' -> core_ok s -> core_ok s'.
Proof.
  induction 1 as [|s s1 s' (c & r & Ha & He) _ IH]; [done|]. intros Hs. apply IH.
  destruct (exec_ok c s Hs Ha) as (r' & s2 & He' & Hs2 & _). congruence.
Qed.

(** C7: Once initialized, and after any calls of the application that are [allowed], an allowed call of the core runs into no
    undefined behaviour and does what the specification says: it returns the error and the handle of the specification and
    leaves its instances of the components.  Allowed are: getting a handle with a variable that is null (otherwise a call
    that fails may free what it holds, OMX_Core.c:341, [unknown_component_frees]) where [malloc] gives a fresh block; freeing a
    handle that is not null and, if it is live, is one of the two newest of its component (of three, freeing the oldest loses the newest,
    OMX_Core.c:420, [oldest_instance_lost]); initializing the core while it is initialized or when nothing is loaded; and
    the end of it.  The mutex works. *)
Theorem omx_core_refines s s' c :
  TIOMX_Init works start = Some (OMX_ErrorNone, s) -> rtc omx_step s s' -> allowed c s' ->
  exists r s2, exec works c s' = Some (r, s2) /\ spec c (abstract s') = (r, abstract s2).
Proof.
  intros Hi Hr Ha. assert (Hs : core_ok s).
  { assert (E : TIOMX_Init works start = Some (OMX_ErrorNone, set_count 1 built)) by (by vm_compute).
    rewrite E in Hi. injection Hi as <-. by apply built_ok. }
  destruct (exec_ok c s' (run_ok _ _ Hr Hs) Ha) as (r & s2 & He & _ & Hsp). exists r, s2. exact (conj He Hsp).
Qed.

(** C24: A call that gets no handle - because of the name, the number of instances, or any failure
    on the way: of the library, of its entry point, of memory, of the component's initialization or
    of its callbacks - leaves the core exactly as it was and the application's variable null:
    the module is closed, the block freed and the slot empty again.  The variable is null before the call: the errors found
    early leave it as it is, and the later ones free what it holds (OMX_Core.c:341, [unknown_component_frees]).  The mutex
    works, and [malloc] gives a fresh block. *)
Theorem get_handle_fails_clean L cname s err ph s' :
  core_ok s -> (forall j, malloc L j ∉ heap s) ->
  TIOMX_GetHandle works L (Some 0) (Some cname) true s = Some (err, ph, s') -> err <> OMX_ErrorNone ->
  s' = s /\ ph = Some 0.
Proof.
  intros Hs Hfr Hg Herr. pose proof (get_handle_spec works L s cname Hs eq_refl eq_refl Hfr) as Hp.
  destruct (spec_get L cname (instances s)) as [[err' h] I']. destruct Hp as (s2 & Hg' & _ & _ & Hf).
  rewrite Hg in Hg'. injection Hg' as -> -> ->. by destruct (Hf Herr) as [-> ->].
Qed.

(** * Roles *)

Lemma find_entry_spec s cname j0 :
  core_ok s -> forall es, es = drop j0 (componentTable s) ->
  match index_of cname (map instances_of es) j0 with
  | Some (j, c) => find_entry cname es j0 = Some (Some j)
  | None => find_entry cname es j0 = Some None
  end.
Proof.
  intros Hs es. revert j0. induction es as [|e es IH]; intros j0 Hes; [done|].
  assert (He : componentTable s !! j0 = Some e) by (by rewrite <- (Nat.add_0_r j0), <- lookup_drop, <- Hes).
  cbn [map index_of find_entry]. unfold named. rewrite (entry_named s j0 e) by done.
  destruct (String.eqb (c_name (instances_of e)) cname); [done|].
  assert (Hd : es = drop (S j0) (componentTable s)) by (by rewrite (drop_S _ e j0 He) in Hes; injection Hes).
  specialize (IH (S j0) Hd). by destruct (index_of cname (map instances_of es) (S j0)) as [[j c]|].
Qed.

(** The roles of every entry are there. *)
Definition roles (e : ComponentTable) : list string := default [] (role_names e).

Lemma roles_there s e : core_ok s -> e ∈ componentTable s -> role_names e = Some (roles e).
Proof.
  intros Hs He. assert (Hb : Forall (fun f => is_Some (mapM id (take f.1.1.2 f.1.2))) (map fixed (componentTable built)))
    by (apply (bool_decide_unpack _); by vm_compute).
  rewrite <- (ok_fixed _ Hs), list.Forall_forall in Hb.
  destruct (Hb (fixed e)) as [rs Hrs]; [by apply list_elem_of_fmap_2|]. unfold roles, role_names. simpl in Hrs. by rewrite Hrs.
Qed.

(** The components of a role. *)
Definition with_role (role : string) (es : list ComponentTable) : list string :=
  concat (map (fun e => map (fun _ => c_name (instances_of e)) (List.filter (String.eqb role) (roles e))) es).

Lemma matches_there s role es :
  core_ok s -> (forall e, e ∈ es -> e ∈ componentTable s) ->
  mapM (matches_of role) es =
  Some (map (fun e => map (fun _ => c_name (instances_of e)) (List.filter (String.eqb role) (roles e))) es).
Proof.
  intros Hs Hin. apply mapM_Some, Forall2_fmap_r, Forall_Forall2_diag, list.Forall_forall. intros e Hx. apply Hin in Hx as He.
  pose proof He as Hj. apply list_elem_of_lookup in Hj as [j Hj]. unfold matches_of. by rewrite (roles_there s e), (entry_named s j e).
Qed.

Lemma with_role_elem s role cname :
  core_ok s ->
  cname ∈ with_role role (componentTable s) <->
  exists e, e ∈ componentTable s /\ c_name (instances_of e) = cname /\ role ∈ roles e.
Proof.
  intros Hs. unfold with_role. rewrite list_elem_of_In, in_concat. split.
  - intros (ns & Hns & Hc). apply List.in_map_iff in Hns as (e & <- & He). apply List.in_map_iff in Hc as (r & <- & Hr).
    apply filter_In in Hr as [Hr Heq]. apply String.eqb_eq in Heq as ->. exists e. by rewrite !list_elem_of_In.
  - intros (e & He & <- & Hr). eexists. split; [apply List.in_map_iff; exists e; split; [reflexivity|by apply list_elem_of_In]|].
    apply List.in_map_iff. exists role. split; [done|]. apply filter_In. by rewrite String.eqb_refl, <- list_elem_of_In.
Qed.

Lemma get_roles s cname n room :
  core_ok s ->
  TIOMX_GetRolesOfComponent (Some cname) (Some room) false s = Some (OMX_ErrorNone, Some n, []) ->
  exists j e, componentTable s !! j = Some e /\ c_name (instances_of e) = cname /\ n = nRoles e.
Proof.
  intros Hs. unfold TIOMX_GetRolesOfComponent.
  assert (Ht : take (tableCount s) (componentTable s) = componentTable s).
  { apply take_ge. rewrite (ok_tables _ Hs), table_length by done. done. }
  rewrite Ht. pose proof (find_entry_spec s cname 0 Hs (componentTable s) eq_refl) as Hf.
  pose proof (index_of_spec cname (map instances_of (componentTable s)) 0) as Hx.
  destruct (index_of _ _ 0) as [[j c]|]; rewrite Hf; [|by intros [= ? _]].
  destruct Hx as (k & -> & Hk & Hn & _). rewrite Nat.add_0_l, list_lookup_fmap in *.
  destruct (componentTable s !! k) as [e|] eqn:He; [|done]. injection Hk as <-. simpl. intros [= <-]. by exists k, e.
Qed.

(** The two queries on roles agree, asked as the interface asks them, first for the number and
    then with an array for as many: the components of a role are exactly those whose roles
    include it, and with no such component the error says so. *)
Lemma components_of_role s role room :
  core_ok s ->
  exists ns,
    TIOMX_GetComponentsOfRole (Some role) (Some room) false s =
      Some (if decide (ns = []) then OMX_ErrorComponentNotFound else OMX_ErrorNone, Some (length ns), []) /\
    (ns <> [] -> TIOMX_GetComponentsOfRole (Some role) (Some (length ns)) true s = Some (OMX_ErrorNone, Some (length ns), ns)) /\
    forall cname, cname ∈ ns <->
      exists n rs, TIOMX_GetRolesOfComponent (Some cname) (Some room) false s = Some (OMX_ErrorNone, Some n, []) /\
        TIOMX_GetRolesOfComponent (Some cname) (Some n) true s = Some (OMX_ErrorNone, Some n, rs) /\ role ∈ rs.
Proof.
  intros Hs. exists (with_role role (componentTable s)).
  assert (Ht : take (tableCount s) (componentTable s) = componentTable s).
  { apply take_ge. rewrite (ok_tables _ Hs), table_length by done. done. }
  assert (Htc : tableCount s <> 0%nat) by (by rewrite (ok_tables _ Hs)).
  unfold TIOMX_GetComponentsOfRole. rewrite (proj2 (Nat.eqb_neq _ _) Htc), Ht, (matches_there s) by done.
  fold (with_role role (componentTable s)). set (ns := with_role role (componentTable s)).
  assert (Hroles : forall j e, componentTable s !! j = Some e ->
    forall room copy, TIOMX_GetRolesOfComponent (Some (c_name (instances_of e))) (Some room) copy s =
      if negb copy then Some (OMX_ErrorNone, Some (nRoles e), [])
      else if (nRoles e <=? room)%nat then Some (OMX_ErrorNone, Some (nRoles e), roles e)
      else Some (OMX_ErrorBadParameter, Some room, [])).
  { intros j e He room' copy. unfold TIOMX_GetRolesOfComponent. rewrite Ht.
    pose proof (find_entry_spec s (c_name (instances_of e)) 0 Hs (componentTable s) eq_refl) as Hf.
    pose proof (index_of_spec (c_name (instances_of e)) (instances s) 0) as Hx. unfold instances in Hx at 1.
    assert (Hj : instances s !! j = Some (instances_of e)) by (unfold instances; by rewrite list_lookup_fmap, He).
    destruct (index_of _ _ 0) as [[k c]|]; [|by destruct (Hx j _ Hj)]. rewrite Hf.
    destruct Hx as (k' & -> & Hk & Hn & _). rewrite Nat.add_0_l in *.
    assert (k' = j) as -> by (eapply (distinct_names (instances s)); [rewrite instances_names by done; apply built_names_distinct|exact Hk|exact Hj|done]).
    rewrite He, (roles_there s) by (done || by apply list_elem_of_lookup_2 in He). by destruct copy. }
  split; [|split].
  - destruct (decide (ns = [])) as [->|Hne]; [done|]. by destruct ns.
  - intros Hne. rewrite Nat.ltb_irrefl. by destruct ns.
  - intros cname. unfold ns. rewrite (with_role_elem s) by done. split.
    + intros (e & He & <- & Hr). apply list_elem_of_lookup in He as [j He].
      exists (nRoles e), (roles e). rewrite !(Hroles j e He), Nat.leb_refl. done.
    + intros (n & rs & H1 & H2 & Hr). destruct (get_roles s cname n room Hs H1) as (j & e & He & <- & ->).
      rewrite (Hroles j e He), Nat.leb_refl in H2. injection H2 as <-. exists e. split_and!; [by apply list_elem_of_lookup_2 in He|done..].
Qed.

(** * Witnesses *)

Lemma initialized_ok : core_ok initialized.
Proof. by apply built_ok. Qed.

Lemma omx_core_refines_witness :
  exists r s2, exec works (C_Free OMX_ErrorNone 1) one_instance = Some (r, s2) /\
    spec (C_Free OMX_ErrorNone 1) (abstract one_instance) = (r, abstract s2).
Proof.
  apply (omx_core_refines initialized).
  - by vm_compute.
  - eapply rtc_l; [|apply rtc_refl]. exists (C_Get (loads 1) mp3), (OMX_ErrorNone, 1). split; [|by vm_compute].
    intros j. apply (bool_decide_unpack _). by vm_compute.
  - split; [done|]. intros c k Hc _. enough (length (c_handles c) <= 1)%nat by lia. revert c Hc.
    apply list.Forall_forall, (bool_decide_unpack _). by vm_compute.
Defined.

Lemma get_handle_fails_clean_witness :
  exists s', TIOMX_GetHandle works no_library (Some 0) (Some mp3) true initialized = Some (OMX_ErrorComponentNotFound, Some 0, s') /\
    s' = initialized.
Proof.
  assert (E : TIOMX_GetHandle works no_library (Some 0) (Some mp3) true initialized =
    Some (OMX_ErrorComponentNotFound, Some 0, initialized)) by (by vm_compute).
  exists initialized. split; [exact E|].
  apply (get_handle_fails_clean no_library mp3 initialized OMX_ErrorComponentNotFound (Some 0) initialized initialized_ok).
  - intros j. apply (bool_decide_unpack _). by vm_compute.
  - exact E.
  - by vm_compute.
Defined.

Lemma components_of_role_witness :
  exists ns, TIOMX_GetComponentsOfRole (Some "video_decoder.avc"%string) (Some 0%nat) false initialized =
      Some (if decide (ns = []) then OMX_ErrorComponentNotFound else OMX_ErrorNone, Some (length ns), []) /\
    "OMX.TI.720P.Decoder"%string ∈ ns.
Proof.
  destruct (components_of_role initialized "video_decoder.avc" 0 initialized_ok) as (ns & H1 & _ & H2).
  exists ns. split; [exact H1|]. apply H2. eexists _, _.
  split; [vm_compute; reflexivity|]. split; [vm_compute; reflexivity|].
  apply (bool_decide_unpack _). by vm_compute.
Defined.
