(* ===== verification/TfErrors.v ===== *)
(** The results of the secure world's daemon (src/security/tf_sdk/include/s_error.h). *)

From Stdlib Require Import ZArith.
From S2P Require Import Prelude.
Local Open Scope Z_scope.

Definition S_SUCCESS : Z := 0x00000000.
Definition S_ERROR_BAD_FORMAT : Z := 0xFFFF0005.
Definition S_ERROR_BAD_PARAMETERS : Z := 0xFFFF0006.
Definition S_ERROR_BAD_STATE : Z := 0xFFFF0007.
Definition S_ERROR_ITEM_NOT_FOUND : Z := 0xFFFF0008.
Definition S_ERROR_OUT_OF_MEMORY : Z := 0xFFFF000C.
Definition S_ERROR_NO_MORE_HANDLES : Z := 0xFFFF0013.
Definition S_ERROR_UNDERLYING_OS : Z := 0xFFFF3002.
Definition S_ERROR_ITEM_EXISTS : Z := 0xFFFF3012.
Definition S_ERROR_STORAGE_NO_SPACE : Z := 0xFFFF3041.
Definition S_ERROR_STORAGE_UNREACHABLE : Z := 0xFFFF3046.
Definition S_ERROR_WRONG_SIGNATURE : Z := 0xFFFF3061.
