(* ===== verification/TfStorage.v ===== *)
(** The storage daemon of the secure world (src/security/tf_daemon/delegation_client.c): the partitions
    of the secure world are files of the normal world, and the daemon executes on them the
    instructions the secure world leaves in a shared buffer.

    A result [None] is undefined behaviour: an access outside of the workspace, or a partition without
    a name.  The C library's files are modelled as the code uses them; which of its calls fail, and how
    far a failing one got, is an input ([faults]). *)

From Stdlib Require Import ZArith Lia String.
From stdpp Require Import base gmap list list_numbers strings option tactics.
From S2P Require Import Prelude TfErrors.
Local Open Scope Z_scope.

(** * Errors of the system *)

(** The numbers of errors of the system that the code tells apart. *)
Inductive errno := EINVAL | EMFILE | ENOENT | EEXIST | ENOSPC | ENOMEM | EBADF | EACCES | EOTHER.

Definition errno2serror (e : errno) : Z :=
  match e with
  | EINVAL => S_ERROR_BAD_PARAMETERS
  | EMFILE => S_ERROR_NO_MORE_HANDLES
  | ENOENT => S_ERROR_ITEM_NOT_FOUND
  | EEXIST => S_ERROR_ITEM_EXISTS
  | ENOSPC => S_ERROR_STORAGE_NO_SPACE
  | ENOMEM => S_ERROR_OUT_OF_MEMORY
  | EBADF | EACCES | EOTHER => S_ERROR_STORAGE_UNREACHABLE
  end.

(** * Files of the C library *)

(** A call that fails: its error, and for reading and writing the bytes it transferred before. *)
Record fault := mkFault { code : errno; transferred : nat }.

(** The file system: the bytes of the files by name, and the outcomes of the next calls - once the list is
    empty, all succeed.  The names of the partitions are distinct, so that a name stands for a file even
    while it is open. *)
Record disk := mkDisk { files : gmap string (list Z); faults : list (option fault) }.
Record stream := mkStream { path : string; pos : Z }.

Definition next_fault (k : disk) : option fault * disk :=
  match faults k with
  | [] => (None, k)
  | f :: fs => (f, mkDisk (files k) fs)
  end.
Definition set_file (n : string) (c : list Z) (k : disk) : disk := mkDisk (<[n := c]> (files k)) (faults k).
Definition content (n : string) (k : disk) : list Z := default [] (files k !! n).

(** Bytes written at a position; a gap before it reads as zeros. *)
Definition write_at (p : nat) (bs : list Z) (c : list Z) : list Z :=
  take p (c ++ replicate (p - length c) 0) ++ bs ++ drop (p + length bs) c.

Definition fopen_new (n : string) (k : disk) : (errno + stream) * disk :=
  let '(f, k) := next_fault k in
  match f with
  | Some f => (inl (code f), k)
  | None => (inr (mkStream n 0), set_file n [] k)
  end.
Definition fopen_old (n : string) (k : disk) : (errno + stream) * disk :=
  let '(f, k) := next_fault k in
  match f with
  | Some f => (inl (code f), k)
  | None => match files k !! n with Some _ => (inr (mkStream n 0), k) | None => (inl ENOENT, k) end
  end.
Definition unlink (n : string) (k : disk) : option errno * disk :=
  let '(f, k) := next_fault k in
  match f with
  | Some f => (Some (code f), k)
  | None => match files k !! n with
            | Some _ => (None, mkDisk (delete n (files k)) (faults k))
            | None => (Some ENOENT, k)
            end
  end.
(** The offset is a [long] of 32 bits. *)
Definition fseek_set (off : Z) (s : stream) (k : disk) : option errno * stream * disk :=
  let '(f, k) := next_fault k in
  match f with
  | Some f => (Some (code f), s, k)
  | None => if s32 off <? 0 then (Some EINVAL, s, k) else (None, mkStream (path s) (s32 off), k)
  end.
Definition fseek_end (s : stream) (k : disk) : option errno * stream * disk :=
  let '(f, k) := next_fault k in
  match f with
  | Some f => (Some (code f), s, k)
  | None => (None, mkStream (path s) (Z.of_nat (length (content (path s) k))), k)
  end.
Definition ftell (s : stream) : Z := if pos s <? 2 ^ 31 then pos s else -1.
(** The bytes delivered, at most [n]; fewer without an error are the end of the file. *)
Definition fread (n : nat) (s : stream) (k : disk) : list Z * option errno * stream * disk :=
  let '(f, k) := next_fault k in
  let bs := take n (drop (Z.to_nat (pos s)) (content (path s) k)) in
  let bs := match f with Some f => take (transferred f) bs | None => bs end in
  (bs, option_map code f, mkStream (path s) (pos s + Z.of_nat (length bs)), k).
Definition fwrite (bs : list Z) (s : stream) (k : disk) : option errno * stream * disk :=
  let '(f, k) := next_fault k in
  let bs := match f with Some f => take (transferred f) bs | None => bs end in
  (option_map code f, mkStream (path s) (pos s + Z.of_nat (length bs)),
   set_file (path s) (write_at (Z.to_nat (pos s)) bs (content (path s) k)) k).
Definition fputc (b : Z) (s : stream) (k : disk) : option errno * stream * disk :=
  let '(f, k) := next_fault k in
  match f with
  | Some f => (Some (code f), s, k)
  | None => (None, mkStream (path s) (pos s + 1), set_file (path s) (write_at (Z.to_nat (pos s)) [b] (content (path s) k)) k)
  end.
Definition ftruncate (len : Z) (s : stream) (k : disk) : option errno * disk :=
  let '(f, k) := next_fault k in
  match f with
  | Some f => (Some (code f), k)
  | None =>
      if s32 len <? 0 then (Some EINVAL, k)
      else let c := content (path s) k in
           (None, set_file (path s) (take (Z.to_nat (s32 len)) c ++ replicate (Z.to_nat (s32 len) - length c) 0) k)
  end.
(** fflush() and fdatasync(). *)
Definition flush (k : disk) : option errno * disk :=
  let '(f, k) := next_fault k in (option_map code f, k).

(** * The daemon *)

(** [workspace] and the three arrays of the administrative data are the shared buffer; [notified] is the
    messages logged. *)
Record daemon := mkDaemon {
  g_nSectorSize : Z; workspace : list Z;
  g_pPartitionNames : list (option string); g_pPartitionFiles : list (option stream);
  nSyncExecuted : Z; nPartitionErrorStates : list Z; nPartitionOpenSizes : list Z;
  storage : disk; notified : list (Z * list Z) }.

Definition set_storage (k : disk) (d : daemon) : daemon :=
  mkDaemon (g_nSectorSize d) (workspace d) (g_pPartitionNames d) (g_pPartitionFiles d)
    (nSyncExecuted d) (nPartitionErrorStates d) (nPartitionOpenSizes d) k (notified d).
Definition set_stream (p : nat) (s : option stream) (d : daemon) : daemon :=
  mkDaemon (g_nSectorSize d) (workspace d) (g_pPartitionNames d) (<[p := s]> (g_pPartitionFiles d))
    (nSyncExecuted d) (nPartitionErrorStates d) (nPartitionOpenSizes d) (storage d) (notified d).
Definition set_workspace (ws : list Z) (d : daemon) : daemon :=
  mkDaemon (g_nSectorSize d) ws (g_pPartitionNames d) (g_pPartitionFiles d)
    (nSyncExecuted d) (nPartitionErrorStates d) (nPartitionOpenSizes d) (storage d) (notified d).
Definition set_admin (sync : Z) (errs sizes : list Z) (d : daemon) : daemon :=
  mkDaemon (g_nSectorSize d) (workspace d) (g_pPartitionNames d) (g_pPartitionFiles d)
    sync errs sizes (storage d) (notified d).
Definition set_notified (l : list (Z * list Z)) (d : daemon) : daemon :=
  mkDaemon (g_nSectorSize d) (workspace d) (g_pPartitionNames d) (g_pPartitionFiles d)
    (nSyncExecuted d) (nPartitionErrorStates d) (nPartitionOpenSizes d) (storage d) l.

(** The result of a call that returns nothing but its error. *)
Definition result_of (e : option errno) : Z := match e with Some e => errno2serror e | None => S_SUCCESS end.

(** * The instructions *)

Definition partitionDestroy (p : nat) (d : daemon) : option (Z * daemon) :=
  let* f := g_pPartitionFiles d !! p in
  match f with
  | Some _ => Some (S_ERROR_BAD_STATE, d)
  | None =>
      let* n := mjoin (g_pPartitionNames d !! p) in
      let '(e, k) := unlink n (storage d) in
      Some (result_of e, set_storage k d)
  end.

Definition partitionCreate (p : nat) (d : daemon) : option (Z * daemon) :=
  let* f := g_pPartitionFiles d !! p in
  match f with
  | Some _ => Some (S_ERROR_BAD_STATE, d)
  | None =>
      let* n := mjoin (g_pPartitionNames d !! p) in
      let '(r, k) := fopen_new n (storage d) in
      let d := set_storage k d in
      match r with
      | inl e => Some (errno2serror e, d)
      | inr s => Some (S_SUCCESS, set_stream p (Some s) d)
      end
  end.

(** The number of sectors before the position. *)
Definition sectors_at (s : stream) (d : daemon) : Z := u32 (ftell s) / g_nSectorSize d.

Definition partitionOpen (p : nat) (d : daemon) : option (Z * Z * daemon) :=
  let* f := g_pPartitionFiles d !! p in
  match f with
  | Some _ => Some (S_ERROR_BAD_STATE, 0, d)
  | None =>
      let* n := mjoin (g_pPartitionNames d !! p) in
      let '(r, k) := fopen_old n (storage d) in
      match r with
      | inl ENOENT => Some (S_ERROR_ITEM_NOT_FOUND, 0, set_storage k d)
      | inl e => Some (errno2serror e, 0, set_storage k d)
      | inr s =>
          let '(_, s, k) := fseek_end s k in
          Some (S_SUCCESS, sectors_at s d, set_stream p (Some s) (set_storage k d))
      end
  end.

Definition partitionClose (p : nat) (d : daemon) : option (Z * daemon) :=
  let* f := g_pPartitionFiles d !! p in
  match f with
  | None => Some (S_ERROR_BAD_STATE, d)
  | Some _ => Some (S_SUCCESS, set_stream p None d)
  end.

(** The sector at an offset of the workspace. *)
Definition in_workspace (off : Z) (d : daemon) : bool :=
  off + g_nSectorSize d <=? Z.of_nat (length (workspace d)).

Definition partitionRead (p : nat) (nSectorIndex nWorkspaceOffset : Z) (d : daemon) : option (Z * daemon) :=
  let* f := g_pPartitionFiles d !! p in
  match f with
  | None => Some (S_ERROR_BAD_STATE, d)
  | Some s =>
      let '(e, s, k) := fseek_set (u32 (nSectorIndex * g_nSectorSize d)) s (storage d) in
      let d := set_stream p (Some s) (set_storage k d) in
      match e with
      | Some e => Some (errno2serror e, d)
      | None =>
          guard* in_workspace nWorkspaceOffset d in
          let '(bs, e, s, k) := fread (Z.to_nat (g_nSectorSize d)) s k in
          let d := set_workspace (write_at (Z.to_nat nWorkspaceOffset) bs (workspace d)) (set_stream p (Some s) (set_storage k d)) in
          match e with
          | Some e => Some (errno2serror e, d)
          | None => Some (if Z.of_nat (length bs) =? g_nSectorSize d then S_SUCCESS else S_ERROR_ITEM_NOT_FOUND, d)
          end
      end
  end.

Definition partitionWrite (p : nat) (nSectorIndex nWorkspaceOffset : Z) (d : daemon) : option (Z * daemon) :=
  let* f := g_pPartitionFiles d !! p in
  match f with
  | None => Some (S_ERROR_BAD_STATE, d)
  | Some s =>
      let '(e, s, k) := fseek_set (u32 (nSectorIndex * g_nSectorSize d)) s (storage d) in
      let d := set_stream p (Some s) (set_storage k d) in
      match e with
      | Some e => Some (errno2serror e, d)
      | None =>
          guard* in_workspace nWorkspaceOffset d in
          let bs := take (Z.to_nat (g_nSectorSize d)) (drop (Z.to_nat nWorkspaceOffset) (workspace d)) in
          let '(e, s, k) := fwrite bs s k in
          Some (result_of e, set_stream p (Some s) (set_storage k d))
      end
  end.

(** The loop that fills the new sectors, until a call fails. *)
Fixpoint fill_loop (nAddedBytesCount : nat) (s : stream) (k : disk) {struct nAddedBytesCount} : option errno * stream * disk :=
  match nAddedBytesCount with
  | O => (None, s, k)
  | S n =>
      let '(e, s, k) := fputc 0xA5 s k in
      match e with
      | Some e => (Some e, s, k)
      | None => fill_loop n s k
      end
  end.

Definition partitionSetSize (p : nat) (nNewSectorCount : Z) (d : daemon) : option (Z * daemon) :=
  let* f := g_pPartitionFiles d !! p in
  match f with
  | None => Some (S_ERROR_BAD_STATE, d)
  | Some s =>
      let '(e, s, k) := fseek_end s (storage d) in
      let d := set_stream p (Some s) (set_storage k d) in
      match e with
      | Some e => Some (errno2serror e, d)
      | None =>
          let nCurrentSectorCount := sectors_at s d in
          if nCurrentSectorCount <? nNewSectorCount then
            let nAddedBytesCount := u32 ((nNewSectorCount - nCurrentSectorCount) * g_nSectorSize d) in
            let '(e, s, k) := fill_loop (Z.to_nat nAddedBytesCount) s k in
            Some (result_of e, set_stream p (Some s) (set_storage k d))
          else if nNewSectorCount <? nCurrentSectorCount then
            let '(e, k) := ftruncate (u32 (nNewSectorCount * g_nSectorSize d)) s k in
            Some (result_of e, set_storage k d)
          else Some (S_SUCCESS, d)
      end
  end.

Definition partitionSync (p : nat) (d : daemon) : option (Z * daemon) :=
  let* f := g_pPartitionFiles d !! p in
  match f with
  | None => Some (S_ERROR_BAD_STATE, d)
  | Some s =>
      let '(e, k) := flush (storage d) in
      match e with
      | Some e => Some (errno2serror e, set_storage k d)
      | None => let '(e, k) := flush k in Some (result_of e, set_storage k d)
      end
  end.

Definition notify (nMessageType : Z) (pMessage : list Z) (d : daemon) : daemon :=
  set_notified (notified d ++ [(nMessageType, pMessage)]) d.

(** * The interpreter *)

Definition DELEGATION_INSTRUCTION_SHUTDOWN : Z := 0xF0.
Definition DELEGATION_INSTRUCTION_NOTIFY : Z := 0xE0.
Definition DELEGATION_INSTRUCTION_PARTITION_CREATE : Z := 0x01.
Definition DELEGATION_INSTRUCTION_PARTITION_OPEN : Z := 0x02.
Definition DELEGATION_INSTRUCTION_PARTITION_READ : Z := 0x03.
Definition DELEGATION_INSTRUCTION_PARTITION_WRITE : Z := 0x04.
Definition DELEGATION_INSTRUCTION_PARTITION_SET_SIZE : Z := 0x05.
Definition DELEGATION_INSTRUCTION_PARTITION_SYNC : Z := 0x06.
Definition DELEGATION_INSTRUCTION_PARTITION_CLOSE : Z := 0x07.
Definition DELEGATION_INSTRUCTION_PARTITION_DESTROY : Z := 0x08.
Definition ECHANGE_BUFFER_INSTRUCTIONS_NB : nat := 1000.

(** What one instruction leads to: the next one at an index with the last error, the end of the batch, or
    the end of the process. *)
Inductive step := Continue (nInstructionsIndex nError : Z) (d : daemon) | Batch_end (d : daemon) | Exit (d : daemon).

Definition le_bytes (w : Z) : list Z := [w mod 256; (w / 256) mod 256; (w / 65536) mod 256; (w / 16777216) mod 256].
Definition word_at (i : Z) (words : list Z) : option Z := words !! Z.to_nat (i / 4).

(** A partition-independent instruction; [i] is the index behind its number. *)
Definition general_instruction (words : list Z) (size i nInstructionID nError : Z) (d : daemon) : option step :=
  if nInstructionID =? DELEGATION_INSTRUCTION_SHUTDOWN then Some (Exit d)
  else if nInstructionID =? DELEGATION_INSTRUCTION_NOTIFY then
    if i + 8 <=? size then
      let* nMessageType := word_at i words in
      let* nMessageSize := word_at (i + 4) words in
      let i := i + 8 in
      if 99 * 4 <? nMessageSize then Some (Batch_end d)
      else if i + nMessageSize <=? size then
        let pMessage := take (Z.to_nat nMessageSize) (flat_map le_bytes (drop (Z.to_nat (i / 4)) words)) in
        let i := (i + nMessageSize + 3) / 4 * 4 in
        Some (Continue i nError (notify nMessageType pMessage d))
      else Some (Batch_end d)
    else Some (Batch_end d)
  else Some (Continue i S_ERROR_BAD_PARAMETERS d).

(** An instruction on a partition without an error so far: its result, and the index behind its parameters;
    [None] inside when they are not there. *)
Definition partition_instruction (words : list Z) (size i op : Z) (p : nat) (nError : Z) (d : daemon)
    : option (option (Z * Z * daemon)) :=
  if op =? DELEGATION_INSTRUCTION_PARTITION_CREATE then
    let* (e, d) := partitionCreate p d in Some (Some (i, e, d))
  else if op =? DELEGATION_INSTRUCTION_PARTITION_OPEN then
    let* (e, nPartitionSize, d) := partitionOpen p d in
    let d := if e =? S_SUCCESS
             then set_admin (nSyncExecuted d) (nPartitionErrorStates d) (<[p := nPartitionSize]> (nPartitionOpenSizes d)) d
             else d in
    Some (Some (i, e, d))
  else if op =? DELEGATION_INSTRUCTION_PARTITION_READ then
    if i + 8 <=? size then
      let* nSectorID := word_at i words in
      let* nWorkspaceOffset := word_at (i + 4) words in
      let* (e, d) := partitionRead p nSectorID nWorkspaceOffset d in Some (Some (i + 8, e, d))
    else Some None
  else if op =? DELEGATION_INSTRUCTION_PARTITION_WRITE then
    if i + 8 <=? size then
      let* nSectorID := word_at i words in
      let* nWorkspaceOffset := word_at (i + 4) words in
      let* (e, d) := partitionWrite p nSectorID nWorkspaceOffset d in Some (Some (i + 8, e, d))
    else Some None
  else if op =? DELEGATION_INSTRUCTION_PARTITION_SYNC then
    let* (e, d) := partitionSync p d in
    let d := if e =? S_SUCCESS
             then set_admin (u32 (nSyncExecuted d + 1)) (nPartitionErrorStates d) (nPartitionOpenSizes d) d else d in
    Some (Some (i, e, d))
  else if op =? DELEGATION_INSTRUCTION_PARTITION_SET_SIZE then
    if i + 4 <=? size then
      let* nNewSize := word_at i words in
      let* (e, d) := partitionSetSize p nNewSize d in Some (Some (i + 4, e, d))
    else Some None
  else if op =? DELEGATION_INSTRUCTION_PARTITION_CLOSE then
    let* (e, d) := partitionClose p d in Some (Some (i, e, d))
  else if op =? DELEGATION_INSTRUCTION_PARTITION_DESTROY then
    let* (e, d) := partitionDestroy p d in Some (Some (i, e, d))
  else Some (Some (i, nError, d)).

(** One turn of the loop over the instructions. *)
Definition execute (words : list Z) (size i nError : Z) (d : daemon) : option step :=
  if i + 4 <=? size then
    let* nInstructionID := word_at i words in
    let i := i + 4 in
    let op := Z.land nInstructionID 0x0F in
    if op =? 0 then general_instruction words size i nInstructionID nError d
    else
      let p := Z.to_nat (Z.shiftr (Z.land nInstructionID 0xF0) 4) in
      let* err := nPartitionErrorStates d !! p in
      if err =? S_SUCCESS then
        let* r := partition_instruction words size i op p nError d in
        match r with
        | None => Some (Batch_end d)
        | Some (i, e, d) =>
            Some (Continue i e (set_admin (nSyncExecuted d) (<[p := e]> (nPartitionErrorStates d)) (nPartitionOpenSizes d) d))
        end
      else Some (Continue i nError d)
  else Some (Batch_end d).

(** The loop; the last component is false when the fuel ran out. *)
Inductive outcome := Finished (d : daemon) | Exited (d : daemon) | Undefined | Out_of_fuel.

Fixpoint instructions_loop (fuel : nat) (words : list Z) (size i nError : Z) (d : daemon) {struct fuel} : outcome :=
  match fuel with
  | O => Out_of_fuel
  | S fuel =>
      match execute words size i nError d with
      | None => Undefined
      | Some (Exit d) => Exited d
      | Some (Batch_end d) => Finished d
      | Some (Continue i nError d) => instructions_loop fuel words size i nError d
      end
  end.

(** A batch that the service sends: the buffer of instructions and the size it reports for them, and the
    workspace. *)
Record batch := mkBatch { sInstructions : list Z; reported : Z; sWorkspace : list Z }.

Definition start_batch (b : batch) (d : daemon) : daemon :=
  set_admin 0 (replicate 16 0) (replicate 16 0) (set_workspace (sWorkspace b) d).

(** One turn of runSession(). *)
Definition run_batch (b : batch) (d : daemon) : outcome :=
  let size := if 4 * Z.of_nat ECHANGE_BUFFER_INSTRUCTIONS_NB <? reported b then 0 else reported b in
  instructions_loop (S ECHANGE_BUFFER_INSTRUCTIONS_NB) (sInstructions b) size 0 S_SUCCESS (start_batch b d).

(** The session: the sector size comes from the service; [None] when the daemon gives up. *)
Definition createSession (nSectorSize nWorkspaceSize : Z) (names : list (option string)) (k : disk) : option daemon :=
  if bool_decide (nSectorSize ∈ [512; 1024; 2048; 4096]) then
    let nWorkspaceSize := if nWorkspaceSize <? 8 * nSectorSize then 8 * nSectorSize else nWorkspaceSize in
    Some (mkDaemon nSectorSize (replicate (Z.to_nat nWorkspaceSize) 0) names (replicate 16 None)
            0 (replicate 16 0) (replicate 16 0) k [])
  else None.
