(* ===== verification/TfSectors.v ===== *)
(** The partitions of the secure world as lists of sectors: a specification of the instructions of
    TfStorage.v, and the proof that the daemon implements it. *)

From Stdlib Require Import ZArith Lia String.
From stdpp Require Import base gmap list list_numbers strings option tactics.
From S2P Require Import Prelude TfErrors TfStorage.
Local Open Scope Z_scope.

(** * Specification *)

(** A partition exists or not, and is open or not. *)
Record part := mkPart { sectors : option (list (list Z)); opened : bool }.
Record store := mkStore {
  parts : list part; ws : list Z; synced : Z; errors : list Z; open_sizes : list Z; messages : list (Z * list Z) }.

Inductive op := OCreate | OOpen | ORead (sid off : Z) | OWrite (sid off : Z) | OSetSize (n : Z) | OSync | OClose | ODestroy.
Inductive instr := Notify (nMessageType : Z) (pMessage : list Z) | On (p : nat) (o : op).

Definition op_code (o : op) : Z :=
  match o with
  | OCreate => DELEGATION_INSTRUCTION_PARTITION_CREATE
  | OOpen => DELEGATION_INSTRUCTION_PARTITION_OPEN
  | ORead _ _ => DELEGATION_INSTRUCTION_PARTITION_READ
  | OWrite _ _ => DELEGATION_INSTRUCTION_PARTITION_WRITE
  | OSetSize _ => DELEGATION_INSTRUCTION_PARTITION_SET_SIZE
  | OSync => DELEGATION_INSTRUCTION_PARTITION_SYNC
  | OClose => DELEGATION_INSTRUCTION_PARTITION_CLOSE
  | ODestroy => DELEGATION_INSTRUCTION_PARTITION_DESTROY
  end.
Definition op_params (o : op) : list Z :=
  match o with ORead sid off | OWrite sid off => [sid; off] | OSetSize n => [n] | _ => [] end.
Definition encode (i : instr) : list Z :=
  match i with
  | Notify ty msg => [DELEGATION_INSTRUCTION_NOTIFY; ty; 4 * Z.of_nat (length msg)] ++ msg
  | On p o => (op_code o + 16 * Z.of_nat p) :: op_params o
  end.
Definition encode_all (prog : list instr) : list Z := flat_map encode prog.

(** A sector put at an index; the sectors before it that did not exist are zero. *)
Definition put_sector (z : nat) (i : nat) (s : list Z) (l : list (list Z)) : list (list Z) :=
  take i (l ++ replicate (i - length l) (replicate z 0)) ++ [s] ++ drop (S i) l.

(** The result of an instruction on a partition, the partition and the workspace after it. *)
Definition spec_op (z : nat) (o : op) (x : part) (w : list Z) : Z * part * list Z :=
  match o, sectors x, opened x with
  | OCreate, _, false => (S_SUCCESS, mkPart (Some []) true, w)
  | OOpen, Some l, false => (S_SUCCESS, mkPart (Some l) true, w)
  | (OOpen | ODestroy), None, false => (S_ERROR_ITEM_NOT_FOUND, x, w)
  | ODestroy, Some _, false => (S_SUCCESS, mkPart None false, w)
  | ORead sid off, Some l, true =>
      match l !! Z.to_nat sid with
      | Some s => (S_SUCCESS, x, write_at (Z.to_nat off) s w)
      | None => (S_ERROR_ITEM_NOT_FOUND, x, w)
      end
  | OWrite sid off, Some l, true =>
      (S_SUCCESS, mkPart (Some (put_sector z (Z.to_nat sid) (take z (drop (Z.to_nat off) w)) l)) true, w)
  | OSetSize n, Some l, true =>
      (S_SUCCESS, mkPart (Some (take (Z.to_nat n) l ++ replicate (Z.to_nat n - length l) (replicate z 0xA5))) true, w)
  | OSync, _, true => (S_SUCCESS, x, w)
  | OClose, l, true => (S_SUCCESS, mkPart l false, w)
  | _, _, _ => (S_ERROR_BAD_STATE, x, w)
  end.

(** One instruction: on a partition with an error it does nothing. *)
Definition spec_instr (z : nat) (i : instr) (st : store) : store :=
  match i with
  | Notify ty msg =>
      mkStore (parts st) (ws st) (synced st) (errors st) (open_sizes st) (messages st ++ [(ty, flat_map le_bytes msg)])
  | On p o =>
      match parts st !! p, errors st !! p with
      | Some x, Some err =>
          if err =? S_SUCCESS then
            let '(e, x', w) := spec_op z o x (ws st) in
            mkStore (<[p := x']> (parts st)) w
              (match o with OSync => if e =? S_SUCCESS then u32 (synced st + 1) else synced st | _ => synced st end)
              (<[p := e]> (errors st))
              (match o, e =? S_SUCCESS, sectors x with
               | OOpen, true, Some l => <[p := Z.of_nat (length l)]> (open_sizes st)
               | _, _, _ => open_sizes st
               end)
              (messages st)
          else st
      | _, _ => st
      end
  end.
Definition spec_run (z : nat) (prog : list instr) (st : store) : store := fold_left (fun st i => spec_instr z i st) prog st.
Definition spec_start (w : list Z) (st : store) : store :=
  mkStore (parts st) w 0 (replicate 16 0) (replicate 16 0) (messages st).

(** What the service has to keep to: sectors and sizes that files of two gigabytes have, offsets inside of the
    workspace, partitions with a name. *)
Definition valid_op (z wlen : Z) (o : op) : Prop :=
  match o with
  | ORead sid off => 0 <= sid /\ (sid + 1) * z < 2 ^ 31 /\ 0 <= off /\ off + z <= wlen
  | OWrite sid off => 0 <= sid /\ (sid + 1) * z < 2 ^ 31 /\ 0 <= off /\ off + z <= wlen
  | OSetSize n => 0 <= n /\ n * z < 2 ^ 31
  | _ => True
  end.
Definition valid (z wlen : Z) (names : list (option string)) (i : instr) : Prop :=
  match i with
  | Notify _ msg => (length msg <= 99)%nat
  | On p o => (p < 16)%nat /\ is_Some (mjoin (names !! p)) /\ valid_op z wlen o
  end.
(** ... and no instruction with parameters on a partition after one that failed. *)
Fixpoint careful (z : nat) (prog : list instr) (st : store) : Prop :=
  match prog with
  | [] => True
  | i :: prog =>
      match i with
      | On p o => op_params o = [] \/ errors st !! p = Some S_SUCCESS
      | Notify _ _ => True
      end /\ careful z prog (spec_instr z i st)
  end.

(** * Bytes and sectors *)

Section Sectors.
Context (z : nat).
Notation sized := (Forall (fun s : list Z => length s = z)).

Lemma concat_length l : sized l -> length (concat l) = (length l * z)%nat.
Proof. induction 1 as [|s l Hs _ IH]; [done|]. cbn. rewrite length_app, IH, Hs. lia. Qed.

Lemma concat_take i l : sized l -> take (i * z) (concat l) = concat (take i l).
Proof.
  intros Hl. revert i. induction Hl as [|s l Hs _ IH]; intros i; [cbn; by rewrite !take_nil|].
  destruct i as [|i]; [done|]. cbn [take concat Nat.mul]. rewrite take_app_ge by lia.
  rewrite Hs. replace (z + i * z - z)%nat with (i * z)%nat by lia. by rewrite IH.
Qed.

Lemma concat_drop i l : sized l -> drop (i * z) (concat l) = concat (drop i l).
Proof.
  intros Hl. revert i. induction Hl as [|s l Hs _ IH]; intros i; [cbn; by rewrite !drop_nil|].
  destruct i as [|i]; [done|]. cbn [drop concat Nat.mul]. rewrite drop_app_ge by lia.
  rewrite Hs. replace (z + i * z - z)%nat with (i * z)%nat by lia. by rewrite IH.
Qed.

Lemma concat_fill n (b : Z) : concat (replicate n (replicate z b)) = replicate (n * z) b.
Proof. induction n as [|n IH]; [done|]. cbn [replicate concat Nat.mul]. by rewrite IH, <- replicate_add. Qed.

Lemma sized_fill n (b : Z) : sized (replicate n (replicate z b)).
Proof. apply Forall_replicate, length_replicate. Qed.

Lemma write_at_sector i s l :
  sized l -> length s = z -> write_at (i * z) s (concat l) = concat (put_sector z i s l).
Proof.
  intros Hl Hs. unfold write_at, put_sector. rewrite concat_length, Hs by done.
  replace (i * z - length l * z)%nat with ((i - length l) * z)%nat by nia.
  rewrite <- concat_fill, <- concat_app, concat_take by (apply Forall_app; split; [exact Hl|apply sized_fill]).
  rewrite !concat_app. f_equal. cbn [concat]. rewrite app_nil_r. f_equal.
  replace (i * z + z)%nat with (S i * z)%nat by lia. by apply concat_drop.
Qed.

Lemma put_sector_sized i s l : sized l -> length s = z -> sized (put_sector z i s l).
Proof.
  intros Hl Hs. apply Forall_app. split; [apply Forall_take, Forall_app; split; [done|apply sized_fill]|].
  apply Forall_app. split; [by constructor|by apply Forall_drop].
Qed.

Lemma put_sector_length i s l : length (put_sector z i s l) = Nat.max (length l) (S i).
Proof.
  unfold put_sector. rewrite !length_app, length_take, length_app, length_replicate, length_drop. cbn. lia.
Qed.

Lemma sector_bytes i l s :
  sized l -> l !! i = Some s -> take z (drop (i * z) (concat l)) = s.
Proof.
  intros Hl Hi. rewrite concat_drop by done. rewrite (drop_S _ _ _ Hi). cbn.
  rewrite take_app_le; [|by rewrite (Forall_lookup_1 _ _ _ _ Hl Hi)].
  apply take_ge. by rewrite (Forall_lookup_1 _ _ _ _ Hl Hi).
Qed.

Lemma no_sector_bytes i l : sized l -> l !! i = None -> take z (drop (i * z) (concat l)) = [].
Proof.
  intros Hl Hi%lookup_ge_None. rewrite concat_drop, drop_ge by done. apply take_nil.
Qed.

End Sectors.

Lemma write_at_nil p c : (p <= length c)%nat -> write_at p [] c = c.
Proof.
  intros Hp. unfold write_at. replace (p - length c)%nat with 0%nat by lia. cbn. rewrite app_nil_r, Nat.add_0_r. apply take_drop.
Qed.

Lemma write_at_length p bs c : (p + length bs <= length c)%nat -> length (write_at p bs c) = length c.
Proof.
  intros Hp. unfold write_at. rewrite !length_app, length_take, length_app, length_replicate, length_drop. lia.
Qed.

Lemma write_at_end bs c : write_at (length c) bs c = c ++ bs.
Proof.
  unfold write_at. rewrite Nat.sub_diag, app_nil_r, firstn_all, drop_ge by lia. by rewrite app_nil_r.
Qed.

(** * The calls when none fails *)

Lemma calm k : faults k = [] -> next_fault k = (None, k).
Proof. unfold next_fault. by intros ->. Qed.

Lemma seek_calm off s k :
  faults k = [] -> 0 <= off < 2 ^ 31 -> fseek_set off s k = (None, mkStream (path s) off, k).
Proof.
  intros Hk Ho. unfold fseek_set. rewrite calm, swrap_small by (done || lia || (change (32 - 1) with 31; lia)).
  by destruct (Z.ltb_spec off 0); [lia|].
Qed.

Lemma content_at n c k : files k !! n = Some c -> content n k = c.
Proof. unfold content. by intros ->. Qed.

Lemma set_file_faults n c k : faults (set_file n c k) = faults k.
Proof. done. Qed.
Lemma set_file_at n c k : files (set_file n c k) !! n = Some c.
Proof. apply lookup_insert_eq. Qed.
Lemma set_file_other n n' c k : n' <> n -> files (set_file n c k) !! n' = files k !! n'.
Proof. intros Hn. by apply lookup_insert_ne. Qed.

(** Filling appends at the end of the file. *)
Lemma file_fill_calm m s k c :
  faults k = [] -> files k !! path s = Some c -> pos s = Z.of_nat (length c) ->
  exists s' k', fill_loop m s k = (None, s', k') /\ path s' = path s /\ faults k' = [] /\
    files k' !! path s = Some (c ++ replicate m 0xA5) /\ (forall n, n <> path s -> files k' !! n = files k !! n).
Proof.
  revert s k c. induction m as [|m IH]; intros s k c Hk Hc Hp; cbn [fill_loop].
  { eexists _, _. split; [reflexivity|]. by rewrite app_nil_r. }
  unfold fputc. rewrite (calm k Hk). cbn zeta iota beta.
  rewrite (content_at _ c) by done. rewrite Hp, Nat2Z.id, write_at_end.
  destruct (IH (mkStream (path s) (Z.of_nat (length c) + 1)) (set_file (path s) (c ++ [0xA5]) k) (c ++ [0xA5]))
    as (s' & k' & Hf & Hs' & Hk' & Hc' & Hn); [done|apply set_file_at|cbn; rewrite length_app; cbn; lia|].
  rewrite Hf. eexists _, _. split; [reflexivity|]. cbn [path] in *. split_and!; [done|done| |].
  - by rewrite Hc', <- app_assoc.
  - intros n Hne. rewrite Hn by done. by apply set_file_other.
Qed.

(** * Refinement *)

Section Refinement.
Context (z : nat) (z_pos : (0 < z)%nat) (z_size : Z.of_nat z <= 4096) (names : list (option string)) (base : gmap string (list Z)).
Context (distinct : forall p q n, names !! p = Some (Some n) -> names !! q = Some (Some n) -> p = q).
Notation sized := (Forall (fun s : list Z => length s = z)).

Definition fits (x : part) : Prop :=
  (opened x = true -> is_Some (sectors x)) /\
  forall l, sectors x = Some l -> sized l /\ Z.of_nat (length l) * Z.of_nat z < 2 ^ 31.
Definition slot_ok (n : string) (f : option stream) (x : part) : Prop :=
  opened x = bool_decide (is_Some f) /\ forall s, f = Some s -> path s = n.
(** The file of a partition holds its sectors, and its slot is filled when it is open. *)
Definition part_at (d : daemon) (p : nat) (x : part) : Prop :=
  exists f, g_pPartitionFiles d !! p = Some f /\ fits x /\
    match mjoin (names !! p) with
    | Some n => slot_ok n f x /\ files (storage d) !! n = option_map (@concat Z) (sectors x)
    | None => f = None
    end.

Record represents (d : daemon) (st : store) : Prop := {
  r_size : g_nSectorSize d = Z.of_nat z;
  r_ws : workspace d = ws st;
  r_names : g_pPartitionNames d = names;
  r_sync : nSyncExecuted d = synced st;
  r_errors : nPartitionErrorStates d = errors st;
  r_sizes : nPartitionOpenSizes d = open_sizes st;
  r_log : notified d = messages st;
  r_calm : faults (storage d) = [];
  r_errs16 : length (errors st) = 16%nat;
  r_parts16 : length (parts st) = 16%nat;
  r_parts : forall p x, parts st !! p = Some x -> part_at d p x;
  r_base : forall n, (forall p, names !! p <> Some (Some n)) -> files (storage d) !! n = base !! n }.

(** The daemon after a change of one partition and of the workspace. *)
Definition change (p : nat) (f : option stream) (k : disk) (w : list Z) (d : daemon) : daemon :=
  set_workspace w (set_stream p f (set_storage k d)).

Lemma change_represents d st p n x x' f k w :
  represents d st -> names !! p = Some (Some n) -> parts st !! p = Some x -> fits x' -> slot_ok n f x' ->
  faults k = [] -> files k !! n = option_map (@concat Z) (sectors x') -> (forall n', n' <> n -> files k !! n' = files (storage d) !! n') ->
  represents (change p f k w d) (mkStore (<[p := x']> (parts st)) w (synced st) (errors st) (open_sizes st) (messages st)).
Proof.
  intros [] Hn Hx Hf Hs Hk Hc Ho. split; cbn; try done.
  - by rewrite length_insert.
  - intros q y Hy. destruct (decide (q = p)) as [->|Hq].
    + rewrite list_lookup_insert_eq in Hy by (by eapply lookup_lt_Some). injection Hy as <-.
      destruct (r_parts0 p x Hx) as (f0 & Hf0 & _). exists f. cbn. rewrite Hn. cbn. split_and!; try done.
      apply list_lookup_insert_eq. by eapply lookup_lt_Some.
    + rewrite list_lookup_insert_ne in Hy by done. destruct (r_parts0 q y Hy) as (f0 & Hf0 & Hfit & Hat).
      exists f0. cbn. rewrite list_lookup_insert_ne by done. split_and!; [done|done|].
      destruct (names !! q) as [[n'|]|] eqn:En; cbn in *; [|done|done].
      destruct Hat as [Hat1 Hat2]. split; [done|]. rewrite Ho; [done|]. intros ->. by destruct Hq; eapply distinct.
  - intros n' Hn'. rewrite Ho; [by apply r_base0|]. intros ->. by eapply Hn'.
Qed.
Lemma change_same p f d :
  g_pPartitionFiles d !! p = Some f -> change p f (storage d) (workspace d) d = d.
Proof. intros Hf. unfold change, set_workspace, set_stream, set_storage. cbn. rewrite list_insert_id by done. by destruct d. Qed.

Lemma change_stream p f g k w d : change p f k w (set_stream p g d) = change p f k w d.
Proof. unfold change, set_workspace, set_stream, set_storage. cbn. by rewrite list_insert_insert_eq. Qed.

(** What an instruction has done to the partition [p] with the file [n]. *)
Definition done_to (p : nat) (n : string) (x' : part) (w : list Z) (d d' : daemon) : Prop :=
  exists f k, d' = change p f k w d /\ fits x' /\ slot_ok n f x' /\ faults k = [] /\
    files k !! n = option_map (@concat Z) (sectors x') /\ (forall n', n' <> n -> files k !! n' = files (storage d) !! n').

Section Operations.
Context (d : daemon) (st : store) (p : nat) (n : string) (x : part).
Context (Hd : represents d st) (Hn : names !! p = Some (Some n)) (Hx : parts st !! p = Some x).

Lemma nothing_done : done_to p n x (workspace d) d d.
Proof using All.
  destruct (r_parts d st Hd p x Hx) as (f & Hf & Hfit & Hat). rewrite Hn in Hat. destruct Hat as [Hs Hc].
  exists f, (storage d). split_and!; try done; [by rewrite change_same|by apply Hd].
Qed.

Lemma slot_of : exists f, g_pPartitionFiles d !! p = Some f /\ slot_ok n f x /\
  files (storage d) !! n = option_map (@concat Z) (sectors x) /\ fits x.
Proof using All.
  destruct (r_parts d st Hd p x Hx) as (f & Hf & Hfit & Hat). rewrite Hn in Hat. destruct Hat. exists f. by split_and!.
Qed.

Lemma slot_closed : opened x = false -> g_pPartitionFiles d !! p = Some None.
Proof using All. destruct slot_of as (f & -> & [-> _] & _). by destruct f. Qed.

Lemma slot_open l : opened x = true -> sectors x = Some l -> exists s,
  g_pPartitionFiles d !! p = Some (Some s) /\ path s = n /\ files (storage d) !! n = Some (concat l) /\
  sized l /\ Z.of_nat (length l) * Z.of_nat z < 2 ^ 31.
Proof using All.
  intros Ho Hl. destruct slot_of as (f & -> & [Hs Hp] & -> & _ & Hfit). rewrite Ho in Hs. destruct f as [s|]; [|done].
  exists s. rewrite Hl. destruct (Hfit l Hl). by split_and!; [|apply Hp|..].
Qed.

Lemma name_of : mjoin (g_pPartitionNames d !! p) = Some n.
Proof using All. by rewrite (r_names d st Hd), Hn. Qed.

Lemma create_done :
  opened x = false -> exists d', partitionCreate p d = Some (S_SUCCESS, d') /\ done_to p n (mkPart (Some []) true) (workspace d) d d'.
Proof using All.
  intros Ho. unfold partitionCreate. rewrite (slot_closed Ho), name_of. unfold fopen_new. rewrite calm by apply Hd.
  eexists. split; [reflexivity|]. exists (Some (mkStream n 0)), (set_file n [] (storage d)). split_and!; [done| | |apply Hd| |].
  - split; [by eexists|]. intros l [= <-]. split; [constructor|cbn; lia].
  - split; [done|]. by intros s [= <-].
  - apply set_file_at.
  - intros n' Hne. by apply set_file_other.
Qed.

Lemma destroy_done l :
  opened x = false -> sectors x = Some l ->
  exists d', partitionDestroy p d = Some (S_SUCCESS, d') /\ done_to p n (mkPart None false) (workspace d) d d'.
Proof using All.
  intros Ho Hl. unfold partitionDestroy. rewrite (slot_closed Ho), name_of. unfold unlink. rewrite calm by apply Hd.
  destruct slot_of as (_ & _ & _ & Hc & _). rewrite Hc, Hl. cbn [option_map].
  eexists. split; [reflexivity|]. exists None, (mkDisk (delete n (files (storage d))) (faults (storage d))).
  split_and!; [| |done|apply Hd| |].
  - unfold change, set_workspace, set_stream, set_storage. cbn. by rewrite list_insert_id by by apply slot_closed.
  - by split.
  - apply lookup_delete_eq.
  - intros n' Hne. by apply lookup_delete_ne.
Qed.

Lemma destroy_absent :
  opened x = false -> sectors x = None -> partitionDestroy p d = Some (S_ERROR_ITEM_NOT_FOUND, d).
Proof using All.
  intros Ho Hl. unfold partitionDestroy. rewrite (slot_closed Ho), name_of. unfold unlink. rewrite calm by apply Hd.
  destruct slot_of as (_ & _ & _ & Hc & _). rewrite Hc, Hl. cbn. by destruct d.
Qed.

Lemma open_done l :
  opened x = false -> sectors x = Some l -> exists d',
    partitionOpen p d = Some (S_SUCCESS, Z.of_nat (length l), d') /\ done_to p n (mkPart (Some l) true) (workspace d) d d'.
Proof using All.
  intros Ho Hl. unfold partitionOpen. rewrite (slot_closed Ho), name_of. unfold fopen_old. rewrite calm by apply Hd.
  destruct slot_of as (_ & _ & _ & Hc & Hfit1 & Hfit2). rewrite Hc, Hl. cbn [option_map]. unfold fseek_end. rewrite calm by apply Hd.
  cbn [path]. rewrite (content_at _ (concat l)) by by rewrite Hc, Hl.
  destruct (Hfit2 l Hl) as [Hsz Hlen].
  assert (E : sectors_at (mkStream n (Z.of_nat (length (concat l)))) d = Z.of_nat (length l)).
  { unfold sectors_at, ftell. cbn [pos]. rewrite (concat_length z), (r_size d st Hd), Nat2Z.inj_mul by done.
    destruct (Z.ltb_spec (Z.of_nat (length l) * Z.of_nat z) (2 ^ 31)); [|lia].
    rewrite uwrap_small by lia. apply Z.div_mul. lia. }
  eexists. split; [by rewrite E|]. eexists (Some (mkStream n _)), (storage d). split_and!; [done| | |apply Hd|by rewrite Hc, Hl|done].
  - split; [by eexists|exact (fun l' (E' : Some l = Some l') => Hfit2 l' (eq_trans Hl E'))].
  - split; [done|]. by intros s [= <-].
Qed.

Lemma open_absent :
  opened x = false -> sectors x = None -> partitionOpen p d = Some (S_ERROR_ITEM_NOT_FOUND, 0, d).
Proof using All.
  intros Ho Hl. unfold partitionOpen. rewrite (slot_closed Ho), name_of. unfold fopen_old. rewrite calm by apply Hd.
  destruct slot_of as (_ & _ & _ & Hc & _). rewrite Hc, Hl. cbn. by destruct d.
Qed.

Lemma close_done l :
  opened x = true -> sectors x = Some l ->
  exists d', partitionClose p d = Some (S_SUCCESS, d') /\ done_to p n (mkPart (Some l) false) (workspace d) d d'.
Proof using All.
  intros Ho Hl. destruct (slot_open l Ho Hl) as (s & Hs & _ & Hc & Hsz & Hlen). unfold partitionClose. rewrite Hs.
  eexists. split; [reflexivity|]. exists None, (storage d). split_and!; [done| |done|apply Hd|done|done].
  split; [done|]. by intros l' [= <-].
Qed.

Lemma sync_done : opened x = true -> partitionSync p d = Some (S_SUCCESS, d).
Proof using All.
  intros Ho. destruct slot_of as (f & Hf & [Hs _] & _). rewrite Ho in Hs. destruct f as [s|]; [|done].
  unfold partitionSync. rewrite Hf. unfold flush. rewrite calm by apply Hd. cbn. rewrite calm by apply Hd. by destruct d.
Qed.

Lemma seek_sector sid s :
  0 <= sid -> (sid + 1) * Z.of_nat z < 2 ^ 31 ->
  fseek_set (u32 (sid * g_nSectorSize d)) s (storage d) = (None, mkStream (path s) (sid * Z.of_nat z), storage d).
Proof using All.
  intros H0 H1. rewrite (r_size d st Hd). rewrite uwrap_small by nia. apply seek_calm; [apply Hd|nia].
Qed.

Lemma sector_in_workspace off :
  off + Z.of_nat z <= Z.of_nat (length (workspace d)) -> in_workspace off d = true.
Proof using All. intros Hoff. unfold in_workspace. rewrite (r_size d st Hd). by apply Z.leb_le. Qed.

Lemma read_done l sid off :
  opened x = true -> sectors x = Some l -> valid_op (Z.of_nat z) (Z.of_nat (length (workspace d))) (ORead sid off) ->
  exists d', partitionRead p sid off d =
    Some (match l !! Z.to_nat sid with Some _ => S_SUCCESS | None => S_ERROR_ITEM_NOT_FOUND end, d') /\
    done_to p n x (match l !! Z.to_nat sid with Some s => write_at (Z.to_nat off) s (workspace d) | None => workspace d end) d d'.
Proof using All.
  intros Ho Hl (V1 & V2 & V3 & V4). destruct (slot_open l Ho Hl) as (s & Hs & Hp & Hc & Hsz & Hlen).
  unfold partitionRead. rewrite Hs, seek_sector by done. cbv zeta iota beta.
  change (in_workspace off (set_stream _ _ _)) with (in_workspace off d). rewrite sector_in_workspace by done.
  unfold fread. rewrite calm by apply Hd. cbn [pos path option_map]. rewrite Hp, (content_at _ (concat l)) by done.
  cbv zeta iota beta. cbn [g_nSectorSize set_workspace set_stream set_storage workspace storage].
  rewrite (r_size d st Hd), Nat2Z.id. replace (Z.to_nat (sid * Z.of_nat z)) with (Z.to_nat sid * z)%nat by lia.
  assert (D : forall w q d', d' = change p (Some (mkStream n q)) (storage d) w d -> done_to p n x w d d').
  { intros w q d' ->. destruct slot_of as (_ & _ & _ & Hcx & Hfit). exists (Some (mkStream n q)), (storage d).
    split_and!; [done|done| |apply Hd|done|done]. split; [by rewrite Ho|]. by intros ? [= <-]. }
  destruct (l !! Z.to_nat sid) as [sec|] eqn:El.
  - erewrite sector_bytes by done. pose proof (Forall_lookup_1 _ _ _ _ Hsz El) as Hz. cbn in Hz.
    rewrite Hz, Z.eqb_refl. eexists. split; [reflexivity|]. eapply D. unfold change, set_workspace, set_stream, set_storage. cbn.
    by rewrite list_insert_insert_eq.
  - rewrite no_sector_bytes by done. cbn [length]. destruct (Z.eqb_spec (Z.of_nat 0) (Z.of_nat z)) as [E|_]; [lia|].
    rewrite write_at_nil by lia. eexists. split; [reflexivity|]. eapply D. unfold change, set_workspace, set_stream, set_storage. cbn.
    by rewrite list_insert_insert_eq.
Qed.

Lemma write_done l sid off :
  opened x = true -> sectors x = Some l -> valid_op (Z.of_nat z) (Z.of_nat (length (workspace d))) (OWrite sid off) ->
  exists d', partitionWrite p sid off d = Some (S_SUCCESS, d') /\
    done_to p n (mkPart (Some (put_sector z (Z.to_nat sid) (take z (drop (Z.to_nat off) (workspace d))) l)) true) (workspace d) d d'.
Proof using All.
  intros Ho Hl (V1 & V2 & V3 & V4). destruct (slot_open l Ho Hl) as (s & Hs & Hp & Hc & Hsz & Hlen).
  unfold partitionWrite. rewrite Hs, seek_sector by done. cbv zeta iota beta.
  change (in_workspace off (set_stream _ _ _)) with (in_workspace off d). rewrite sector_in_workspace by done.
  unfold fwrite. rewrite calm by apply Hd. cbn [pos path option_map]. rewrite Hp, (content_at _ (concat l)) by done.
  cbn [g_nSectorSize set_workspace set_stream set_storage workspace storage].
  rewrite (r_size d st Hd), Nat2Z.id. replace (Z.to_nat (sid * Z.of_nat z)) with (Z.to_nat sid * z)%nat by lia.
  set (sec := take z (drop (Z.to_nat off) (workspace d))).
  assert (Hz : length sec = z) by (unfold sec; rewrite length_take, length_drop; lia).
  rewrite (write_at_sector z) by done.
  eexists. split; [reflexivity|]. eexists (Some (mkStream n _)), (set_file n (concat (put_sector z (Z.to_nat sid) sec l)) (storage d)).
  split_and!.
  - unfold change, set_workspace, set_stream, set_storage. cbn. by rewrite list_insert_insert_eq.
  - split; [by eexists|]. intros l' [= <-]. split; [by apply put_sector_sized|]. rewrite put_sector_length. nia.
  - split; [done|]. by intros ? [= <-].
  - apply Hd.
  - apply set_file_at.
  - intros n' Hne. by apply set_file_other.
Qed.

Lemma sectors_of_file s l :
  sized l -> Z.of_nat (length l) * Z.of_nat z < 2 ^ 31 ->
  sectors_at (mkStream s (Z.of_nat (length (concat l)))) d = Z.of_nat (length l).
Proof using All.
  intros Hsz Hlen. unfold sectors_at, ftell. cbn [pos]. rewrite (concat_length z), (r_size d st Hd), Nat2Z.inj_mul by done.
  destruct (Z.ltb_spec (Z.of_nat (length l) * Z.of_nat z) (2 ^ 31)); [|lia].
  rewrite uwrap_small by lia. apply Z.div_mul. lia.
Qed.

Lemma set_size_done l m :
  opened x = true -> sectors x = Some l -> valid_op (Z.of_nat z) (Z.of_nat (length (workspace d))) (OSetSize m) ->
  exists d', partitionSetSize p m d = Some (S_SUCCESS, d') /\
    done_to p n (mkPart (Some (take (Z.to_nat m) l ++ replicate (Z.to_nat m - length l) (replicate z 0xA5))) true) (workspace d) d d'.
Proof using All.
  intros Ho Hl (V1 & V2). destruct (slot_open l Ho Hl) as (s & Hs & Hp & Hc & Hsz & Hlen).
  unfold partitionSetSize. rewrite Hs. unfold fseek_end. rewrite calm by apply Hd. cbv zeta iota beta.
  rewrite Hp, (content_at _ (concat l)) by done. change (sectors_at ?s (set_stream _ _ _)) with (sectors_at s d).
  rewrite sectors_of_file by done. cbn [g_nSectorSize set_stream set_storage]. rewrite (r_size d st Hd).
  assert (Hfits : forall l' k, sized l' -> Z.of_nat (length l') = m -> faults k = [] -> files k !! n = Some (concat l') ->
    (forall n', n' <> n -> files k !! n' = files (storage d) !! n') -> forall q,
    done_to p n (mkPart (Some l') true) (workspace d) d (change p (Some (mkStream n q)) k (workspace d) d)).
  { intros l' k H1 H2 H3 H4 H5 q. exists (Some (mkStream n q)), k. split_and!; try done.
    - split; [by eexists|]. intros ? [= <-]. split; [done|lia].
    - split; [done|]. by intros ? [= <-]. }
  destruct (Z.ltb_spec (Z.of_nat (length l)) m) as [Hgt|Hle]; [|destruct (Z.ltb_spec m (Z.of_nat (length l))) as [Hlt|Hge]].
  - rewrite uwrap_small by nia. replace (Z.to_nat _) with ((Z.to_nat m - length l) * z)%nat by nia.
    destruct (file_fill_calm ((Z.to_nat m - length l) * z) (mkStream n (Z.of_nat (length (concat l)))) (storage d) (concat l))
      as (s' & k' & -> & Hs' & Hk' & Hc' & Hn'); [apply Hd|done|done|].
    eexists. split; [reflexivity|]. rewrite take_ge by lia. destruct s' as [sp sq]. cbn in Hs'. subst sp.
    change (set_stream _ _ _) with (change p (Some (mkStream n sq)) k' (workspace d) (set_stream p (Some (mkStream n (Z.of_nat (length (concat l))))) (set_storage (storage d) d))).
    replace (change p _ k' _ _) with (change p (Some (mkStream n sq)) k' (workspace d) d)
      by by (unfold change, set_workspace, set_stream, set_storage; cbn; rewrite list_insert_insert_eq).
    apply Hfits; [|rewrite length_app, length_replicate; lia|done| |done].
    + apply Forall_app. split; [done|apply sized_fill].
    + cbn [path] in Hc'. rewrite Hc', concat_app, concat_fill. done.
  - unfold ftruncate. rewrite calm by apply Hd. rewrite uwrap_small by nia. rewrite swrap_small by (done || (change (32 - 1) with 31; nia)).
    cbn [path]. rewrite (content_at _ (concat l)) by done.
    destruct (Z.ltb_spec (m * Z.of_nat z) 0); [nia|]. eexists. split; [reflexivity|].
    replace (Z.to_nat m - length l)%nat with 0%nat by lia. rewrite app_nil_r.
    change (set_storage _ _) with (change p (Some (mkStream n (Z.of_nat (length (concat l)))))
      (set_file n (take (Z.to_nat (m * Z.of_nat z)) (concat l) ++ replicate (Z.to_nat (m * Z.of_nat z) - length (concat l)) 0) (storage d))
      (workspace d) d).
    apply Hfits; [by apply Forall_take|rewrite length_take; lia|apply Hd| |intros n' Hne; by apply set_file_other].
    rewrite set_file_at. f_equal. replace (Z.to_nat (m * Z.of_nat z)) with (Z.to_nat m * z)%nat by nia.
    rewrite (concat_length z), (concat_take z) by done. replace (_ - _)%nat with 0%nat by nia. by rewrite app_nil_r.
  - eexists. split; [reflexivity|]. assert (m = Z.of_nat (length l)) as -> by lia. rewrite Nat2Z.id, firstn_all, Nat.sub_diag, app_nil_r.
    apply Hfits; [done|done|apply Hd|done|done].
Qed.

End Operations.

Lemma done_represents d st p n x x' w d' :
  represents d st -> names !! p = Some (Some n) -> parts st !! p = Some x -> done_to p n x' w d d' ->
  represents d' (mkStore (<[p := x']> (parts st)) w (synced st) (errors st) (open_sizes st) (messages st)).
Proof using z_pos z_size distinct. intros Hd Hn Hx (f & k & -> & H1 & H2 & H3 & H4 & H5). by eapply change_represents. Qed.

Lemma admin_represents d st sy er sz :
  represents d st -> length er = 16%nat ->
  represents (set_admin sy er sz d) (mkStore (parts st) (ws st) sy er sz (messages st)).
Proof. intros [] Her. by split. Qed.

Lemma bad_state d st p n x o :
  represents d st -> names !! p = Some (Some n) -> parts st !! p = Some x ->
  opened x = match o with OCreate | OOpen | ODestroy => true | _ => false end ->
  match o with
  | OCreate => partitionCreate p d = Some (S_ERROR_BAD_STATE, d)
  | OOpen => partitionOpen p d = Some (S_ERROR_BAD_STATE, 0, d)
  | ORead sid off => partitionRead p sid off d = Some (S_ERROR_BAD_STATE, d)
  | OWrite sid off => partitionWrite p sid off d = Some (S_ERROR_BAD_STATE, d)
  | OSetSize m => partitionSetSize p m d = Some (S_ERROR_BAD_STATE, d)
  | OSync => partitionSync p d = Some (S_ERROR_BAD_STATE, d)
  | OClose => partitionClose p d = Some (S_ERROR_BAD_STATE, d)
  | ODestroy => partitionDestroy p d = Some (S_ERROR_BAD_STATE, d)
  end.
Proof using z_pos z_size distinct.
  intros Hd Hn Hx Ho. destruct (slot_of d st p n x Hd Hn Hx) as (f & Hf & [Hs _] & _). rewrite Ho in Hs.
  destruct o, f as [s|]; try discriminate Hs; clear Hs;
    unfold partitionCreate, partitionOpen, partitionRead, partitionWrite, partitionSetSize, partitionSync, partitionClose, partitionDestroy;
    by rewrite Hf.
Qed.

(** Where the parameters of an instruction are. *)
Definition params_at (words : list Z) (k : nat) (o : op) : Prop :=
  forall j w, op_params o !! j = Some w -> words !! (k + j)%nat = Some w.

Lemma word_at_index words k : word_at (4 * Z.of_nat k) words = words !! k.
Proof. unfold word_at. by rewrite Z.mul_comm, Z.div_mul, Nat2Z.id by done. Qed.

(** An instruction does to the partition what the specification says. *)
Lemma operation_correct words size k nError d st p n x o e x' w :
  represents d st -> names !! p = Some (Some n) -> parts st !! p = Some x ->
  valid_op (Z.of_nat z) (Z.of_nat (length (ws st))) o ->
  params_at words k o -> 4 * Z.of_nat (k + length (op_params o)) <= size ->
  spec_op z o x (ws st) = (e, x', w) ->
  exists d1, done_to p n x' w d d1 /\
    partition_instruction words size (4 * Z.of_nat k) (op_code o) p nError d =
      Some (Some (4 * Z.of_nat (k + length (op_params o)), e,
        match o, e =? S_SUCCESS, sectors x with
        | OOpen, true, Some l => set_admin (nSyncExecuted d1) (nPartitionErrorStates d1) (<[p := Z.of_nat (length l)]> (nPartitionOpenSizes d1)) d1
        | OSync, true, _ => set_admin (u32 (nSyncExecuted d1 + 1)) (nPartitionErrorStates d1) (nPartitionOpenSizes d1) d1
        | _, _, _ => d1
        end)).
Proof using z_pos z_size distinct.
  intros Hd Hn Hx Hv Hpar Hsize Hspec. pose proof (r_ws d st Hd) as Hws. rewrite <- Hws in Hspec, Hv.
  pose proof (nothing_done d st p n x Hd Hn Hx) as Hnone.
  pose proof (bad_state d st p n x o Hd Hn Hx) as Hbad.
  destruct (slot_of d st p n x Hd Hn Hx) as (_ & _ & _ & _ & [Hso _]).
  assert (P1 : forall a, op_params o !! 0%nat = Some a -> word_at (4 * Z.of_nat k) words = Some a).
  { intros a Ha%Hpar. by rewrite word_at_index, <- Ha, Nat.add_0_r. }
  assert (P2 : forall a, op_params o !! 1%nat = Some a -> word_at (4 * Z.of_nat k + 4) words = Some a).
  { intros a Ha%Hpar. replace (4 * Z.of_nat k + 4) with (4 * Z.of_nat (k + 1)) by lia. by rewrite word_at_index. }
  unfold partition_instruction.
  destruct x as [[l|] [|]]; [| |by destruct (Hso eq_refl)|]; destruct o as [| |sid off|sid off|m| | |];
    cbn [spec_op sectors opened op_code op_params length] in *;
    repeat match goal with |- context [?a =? ?b] => first [change (a =? b) with true | change (a =? b) with false] end; cbv iota;
    rewrite ?Nat.add_0_r in *;
    try (rewrite (proj2 (Z.leb_le (4 * Z.of_nat k + 8) size)) by lia);
    try (rewrite (proj2 (Z.leb_le (4 * Z.of_nat k + 4) size)) by lia);
    try (rewrite (P1 _ eq_refl); cbv iota); try (rewrite (P2 _ eq_refl); cbv iota);
    try (injection Hspec as <- <- <-; rewrite Hbad by done; eexists; split; [exact Hnone|]; cbn; f_equal; f_equal; f_equal; f_equal; lia).
  - pose proof (read_done d st p n _ Hd Hn Hx l sid off eq_refl eq_refl Hv) as (d' & -> & Hdone).
    destruct (l !! Z.to_nat sid); injection Hspec as <- <- <-; (eexists; split; [exact Hdone|]; f_equal; f_equal; f_equal; f_equal; lia).
  - pose proof (write_done d st p n _ Hd Hn Hx l sid off eq_refl eq_refl Hv) as (d' & -> & Hdone).
    injection Hspec as <- <- <-. eexists. split; [exact Hdone|]. f_equal; f_equal; f_equal; f_equal; lia.
  - pose proof (set_size_done d st p n _ Hd Hn Hx l m eq_refl eq_refl Hv) as (d' & -> & Hdone).
    injection Hspec as <- <- <-. eexists. split; [exact Hdone|]. f_equal; f_equal; f_equal; f_equal; lia.
  - injection Hspec as <- <- <-. rewrite (sync_done d st p n _ Hd Hn Hx eq_refl). eexists. split; [exact Hnone|]. done.
  - pose proof (close_done d st p n _ Hd Hn Hx l eq_refl eq_refl) as (d' & -> & Hdone).
    injection Hspec as <- <- <-. eexists. split; [exact Hdone|]. done.
  - pose proof (create_done d st p n _ Hd Hn Hx eq_refl) as (d' & -> & Hdone).
    injection Hspec as <- <- <-. eexists. split; [exact Hdone|]. done.
  - pose proof (open_done d st p n _ Hd Hn Hx l eq_refl eq_refl) as (d' & -> & Hdone).
    injection Hspec as <- <- <-. eexists. split; [exact Hdone|]. done.
  - pose proof (destroy_done d st p n _ Hd Hn Hx l eq_refl eq_refl) as (d' & -> & Hdone).
    injection Hspec as <- <- <-. eexists. split; [exact Hdone|]. done.
  - pose proof (create_done d st p n _ Hd Hn Hx eq_refl) as (d' & -> & Hdone).
    injection Hspec as <- <- <-. eexists. split; [exact Hdone|]. done.
  - injection Hspec as <- <- <-. rewrite (open_absent d st p n _ Hd Hn Hx eq_refl eq_refl). eexists. split; [exact Hnone|]. done.
  - injection Hspec as <- <- <-. rewrite (destroy_absent d st p n _ Hd Hn Hx eq_refl eq_refl). eexists. split; [exact Hnone|]. done.
Qed.

(** * The batch *)

Lemma code_decoded o p : (p < 16)%nat ->
  Z.land (op_code o + 16 * Z.of_nat p) 0x0F = op_code o /\ op_code o <> 0 /\
  Z.to_nat (Z.shiftr (Z.land (op_code o + 16 * Z.of_nat p) 0xF0) 4) = p.
Proof.
  intros Hp. do 16 (destruct p as [|p]; [destruct o; split_and!; by vm_compute|]). lia.
Qed.

Lemma spec_ws_length i st : valid (Z.of_nat z) (Z.of_nat (length (ws st))) names i ->
  (forall p x l, parts st !! p = Some x -> sectors x = Some l -> sized l) ->
  length (ws (spec_instr z i st)) = length (ws st).
Proof.
  intros Hv Hs. destruct i as [ty msg|p o]; [done|]. cbn. destruct Hv as (_ & _ & Hv).
  destruct (parts st !! p) as [x|] eqn:Ep; [|done]. destruct (errors st !! p) as [e|]; [|done]. destruct (e =? S_SUCCESS); [|done].
  destruct x as [[l|] [|]], o; cbn in *; try done. destruct (l !! Z.to_nat sid) as [sec|] eqn:E; cbn; [|done].
  destruct Hv as (V1 & V2 & V3 & V4). pose proof (Forall_lookup_1 _ _ _ _ (Hs p _ l Ep eq_refl) E) as Hz. cbn in Hz.
  apply write_at_length. lia.
Qed.

(** The words of an instruction are in the buffer at an index. *)
Definition words_at (words : list Z) (k : nat) (l : list Z) : Prop := forall j w, l !! j = Some w -> words !! (k + j)%nat = Some w.

Lemma words_at_app words k l l' : words_at words k (l ++ l') <-> words_at words k l /\ words_at words (k + length l) l'.
Proof.
  unfold words_at. split.
  - intros Hw. split; intros j w Hj; [by apply Hw, lookup_app_l_Some|].
    rewrite <- Nat.add_assoc. apply Hw. rewrite lookup_app_r by lia. by replace (length l + j - length l)%nat with j by lia.
  - intros [H1 H2] j w [Hj|[Hge Hj]]%lookup_app_Some; [by apply H1|]. apply H2 in Hj.
    by replace (k + j)%nat with (k + length l + (j - length l))%nat by lia.
Qed.

Lemma words_prefix words k l : words_at words k l -> take (length l) (drop k words) = l.
Proof.
  intros Hw. apply list_eq. intros j. destruct (decide (j < length l)%nat) as [Hj|Hj].
  - rewrite lookup_take_lt, lookup_drop by done. destruct (lookup_lt_is_Some_2 l j Hj) as [w E]. rewrite E. by apply Hw.
  - rewrite lookup_take_ge by lia. symmetry. apply lookup_ge_None. lia.
Qed.

Lemma message_bytes words k msg :
  words_at words k msg -> take (4 * length msg) (flat_map le_bytes (drop k words)) = flat_map le_bytes msg.
Proof.
  intros Hw. assert (E : forall l : list Z, length (flat_map le_bytes l) = (4 * length l)%nat).
  { induction l as [|a l IH]; [done|]. cbn in *. lia. }
  rewrite <- (take_drop (length msg) (drop k words)), words_prefix, flat_map_app by done.
  rewrite take_app_le by (rewrite E; lia). apply take_ge. rewrite E. lia.
Qed.

(** One turn of the loop executes one instruction. *)
Lemma execute_correct words size k nError d st i :
  represents d st -> valid (Z.of_nat z) (Z.of_nat (length (ws st))) names i ->
  (match i with On p o => op_params o = [] \/ errors st !! p = Some S_SUCCESS | Notify _ _ => True end) ->
  words_at words k (encode i) -> 4 * Z.of_nat (k + length (encode i)) <= size ->
  exists e d', execute words size (4 * Z.of_nat k) nError d = Some (Continue (4 * Z.of_nat (k + length (encode i))) e d') /\
    represents d' (spec_instr z i st).
Proof using z_pos z_size distinct.
  intros Hd Hv Hcare Hw Hsize. unfold execute.
  assert (Hid : forall w, encode i !! 0%nat = Some w -> word_at (4 * Z.of_nat k) words = Some w).
  { intros w E%Hw. by rewrite word_at_index, <- E, Nat.add_0_r. }
  destruct i as [ty msg|p o].
  - cbn [encode length app] in *. rewrite (proj2 (Z.leb_le _ _)) by lia. rewrite (Hid _ eq_refl).
    change (Z.land DELEGATION_INSTRUCTION_NOTIFY 15 =? 0) with true. cbv zeta iota. unfold general_instruction.
    change (DELEGATION_INSTRUCTION_NOTIFY =? DELEGATION_INSTRUCTION_SHUTDOWN) with false.
    change (DELEGATION_INSTRUCTION_NOTIFY =? DELEGATION_INSTRUCTION_NOTIFY) with true. cbv iota.
    rewrite (proj2 (Z.leb_le _ _)) by lia.
    replace (4 * Z.of_nat k + 4) with (4 * Z.of_nat (k + 1)) by lia. rewrite word_at_index, (Hw 1%nat ty eq_refl).
    replace (4 * Z.of_nat (k + 1) + 4) with (4 * Z.of_nat (k + 2)) by lia. rewrite word_at_index, (Hw 2%nat _ eq_refl). cbv zeta.
    cbn in Hv. rewrite (proj2 (Z.ltb_ge _ _)) by lia. rewrite (proj2 (Z.leb_le _ _)) by lia.
    replace (4 * Z.of_nat (k + 1) + 8) with (4 * Z.of_nat (k + 3)) by lia.
    replace (Z.to_nat (4 * Z.of_nat (length msg))) with (4 * length msg)%nat by lia.
    replace (Z.to_nat (4 * Z.of_nat (k + 3) / 4)) with (k + 3)%nat by (rewrite Z.mul_comm, Z.div_mul by done; lia).
    rewrite message_bytes by (apply (words_at_app _ _ [_; _; _] msg) in Hw; apply Hw).
    replace ((4 * Z.of_nat (k + 3) + 4 * Z.of_nat (length msg) + 3) / 4 * 4) with (4 * Z.of_nat (k + S (S (S (length msg)))))
      by (rewrite <- (Z.div_unique (4 * Z.of_nat (k + 3) + 4 * Z.of_nat (length msg) + 3) 4 (Z.of_nat (k + S (S (S (length msg))))) 3); lia).
    eexists _, _. split; [reflexivity|]. destruct Hd. split; cbn; try done. congruence.
  - destruct Hv as (Hp & [n Hn] & Hv). pose proof (code_decoded o p Hp) as (D1 & D2 & D3).
    assert (En : names !! p = Some (Some n)) by by destruct (names !! p) as [[?|]|]; cbn in Hn; simplify_eq.
    cbn [encode length] in *. rewrite (proj2 (Z.leb_le _ _)) by lia. rewrite (Hid _ eq_refl).
    rewrite D1, (proj2 (Z.eqb_neq _ _) D2), D3. cbv zeta. rewrite (r_errors d st Hd).
    destruct (lookup_lt_is_Some_2 (errors st) p) as [err Herr]; [by rewrite (r_errs16 d st Hd)|]. rewrite Herr.
    destruct (lookup_lt_is_Some_2 (parts st) p) as [x Hx]; [by rewrite (r_parts16 d st Hd)|].
    replace (4 * Z.of_nat k + 4) with (4 * Z.of_nat (S k)) by lia.
    cbn [spec_instr]. rewrite Hx, Herr. destruct (Z.eqb_spec err S_SUCCESS) as [->|Hne].
    + destruct (spec_op z o x (ws st)) as [[e x'] w] eqn:Es.
      destruct (operation_correct words size (S k) nError d st p n x o e x' w) as (d1 & Hdone & ->); try done.
      { intros j a Hj. replace (S k + j)%nat with (k + S j)%nat by lia. by apply Hw. }
      { lia. }
      eexists _, _. split; [do 3 f_equal; lia|].
      pose proof (done_represents d st p n x x' w d1 Hd En Hx Hdone) as Hr.
      pose proof (r_sync _ _ Hr) as R1. pose proof (r_errors _ _ Hr) as R2. pose proof (r_sizes _ _ Hr) as R3. cbn in R1, R2, R3.
      rewrite <- R1, <- R2, <- R3.
      assert (H16 : length (<[p := e]> (nPartitionErrorStates d1)) = 16%nat) by by rewrite length_insert, R2, (r_errs16 d st Hd).
      destruct o, (e =? S_SUCCESS), (sectors x); exact (admin_represents _ _ _ _ _ Hr H16).
    + destruct Hcare as [Hc|Hc]; [|congruence]. rewrite Hc. cbn [length]. eexists _, _. split; [do 2 f_equal; lia|done].
Qed.

(** The loop executes the instructions one after the other. *)
Lemma loop_correct words size prog fuel k nError d st :
  represents d st -> Forall (valid (Z.of_nat z) (Z.of_nat (length (ws st))) names) prog -> careful z prog st ->
  words_at words k (encode_all prog) -> size = 4 * Z.of_nat (k + length (encode_all prog)) -> (length prog < fuel)%nat ->
  exists d', instructions_loop fuel words size (4 * Z.of_nat k) nError d = Finished d' /\ represents d' (spec_run z prog st).
Proof using z_pos z_size distinct.
  revert fuel k nError d st. induction prog as [|i prog IH]; intros fuel k nError d st Hd Hv Hc Hw Hsize Hfuel;
    (destruct fuel as [|fuel]; [cbn in Hfuel; lia|]); cbn [instructions_loop].
  - unfold execute. cbn in Hsize. rewrite (proj2 (Z.leb_gt _ _)) by lia. by exists d.
  - apply Forall_cons_iff in Hv as [Hi Hv]. destruct Hc as [Hci Hc]. unfold encode_all in Hw, Hsize. cbn [flat_map] in Hw, Hsize.
    rewrite length_app in Hsize. apply words_at_app in Hw as [Hwi Hw].
    destruct (execute_correct words size k nError d st i) as (e & d1 & -> & Hd1); try done; [lia|].
    apply IH; [exact Hd1| |exact Hc|exact Hw|unfold encode_all; lia|cbn in Hfuel; lia].
    rewrite spec_ws_length; [exact Hv|exact Hi|]. intros p x l Hx Hl. destruct (r_parts d st Hd p x Hx) as (_ & _ & [_ Hf] & _). by apply Hf.
Qed.

Lemma encode_all_length prog : (length prog <= length (encode_all prog))%nat.
Proof. induction prog as [|i prog IH]; [done|]. unfold encode_all in *. cbn. rewrite length_app. destruct i; cbn in *; lia. Qed.

Lemma start_represents d st b :
  represents d st -> represents (start_batch b d) (spec_start (sWorkspace b) st).
Proof. intros []. by split. Qed.

(** A batch executes its instructions. *)
Lemma batch_correct (prog : list instr) (rest w : list Z) (d : daemon) (st : store) :
  represents d st ->
  Forall (valid (Z.of_nat z) (Z.of_nat (length w)) names) prog -> careful z prog (spec_start w st) ->
  (length (encode_all prog) <= ECHANGE_BUFFER_INSTRUCTIONS_NB)%nat ->
  exists d', run_batch (mkBatch (encode_all prog ++ rest) (4 * Z.of_nat (length (encode_all prog))) w) d = Finished d' /\
    represents d' (spec_run z prog (spec_start w st)).
Proof using z_pos z_size distinct.
  intros Hd Hv Hc Hlen. unfold run_batch. cbn [reported sInstructions].
  destruct (Z.ltb_spec (4 * Z.of_nat ECHANGE_BUFFER_INSTRUCTIONS_NB) (4 * Z.of_nat (length (encode_all prog)))); [lia|].
  apply (loop_correct _ _ prog _ 0 S_SUCCESS); [by apply (start_represents d st (mkBatch _ _ w))|done|done| |done|].
  - intros j x Hj. by apply lookup_app_l_Some.
  - pose proof (encode_all_length prog). lia.
Qed.

(** C9: A batch of instructions, as the service encodes them, does to the partitions what it says: the files stay
    the lists of sectors that were written, other files are not touched, and the result of each partition
    and the number of synchronisations are reported - when no call of the system fails, the service keeps
    to the workspace and to sizes that files of two gigabytes have, and sends nothing with parameters to
    a partition after one that failed. *)
Theorem storage_refines (prog : list instr) (rest w : list Z) (d : daemon) (st : store) :
  represents d st ->
  Forall (valid (Z.of_nat z) (Z.of_nat (length w)) names) prog -> careful z prog (spec_start w st) ->
  (length (encode_all prog) <= ECHANGE_BUFFER_INSTRUCTIONS_NB)%nat ->
  exists d', run_batch (mkBatch (encode_all prog ++ rest) (4 * Z.of_nat (length (encode_all prog))) w) d = Finished d' /\
    represents d' (spec_run z prog (spec_start w st)).
Proof using z_pos z_size distinct. apply batch_correct. Qed.

End Refinement.
