(* ===== verification/TfStorageRuns.v ===== *)
(** The storage daemon as a whole: its interpreter always ends its batch, an instruction touches the files of
    its own partition only, whatever fails, and sectors written are read back in a later session; and
    where the interpreter goes wrong. *)

From Stdlib Require Import ZArith Lia String.
From stdpp Require Import base gmap list list_numbers strings option tactics.
From S2P Require Import Prelude TfErrors TfStorage TfSectors.
Local Open Scope Z_scope.

(** * Termination *)

Lemma execute_advances words size i nError d j e d' :
  Forall (fun w => 0 <= w) words -> execute words size i nError d = Some (Continue j e d') -> i + 4 <= size /\ i + 4 <= j.
Proof.
  intros Hw He. unfold execute in He. destruct (Z.leb_spec (i + 4) size) as [Hs|]; [|discriminate]. split; [done|].
  destruct (word_at i words) as [id|] eqn:Ei; [|discriminate]. cbv zeta in He. destruct (Z.land id 15 =? 0).
  - unfold general_instruction in He. destruct (id =? _); [discriminate|]. destruct (id =? _); [|injection He as <- <- <-; lia].
    destruct (i + 4 + 8 <=? size); [|discriminate]. destruct (word_at (i + 4) words) as [ty|]; [|discriminate].
    destruct (word_at (i + 4 + 4) words) as [sz|] eqn:Esz; [|discriminate]. cbv zeta in He.
    destruct (99 * 4 <? sz); [discriminate|]. destruct (i + 4 + 8 + sz <=? size); [|discriminate]. injection He as <- <- <-.
    pose proof (Forall_lookup_1 _ _ _ _ Hw Esz) as H0. cbn in H0.
    Z.to_euclidean_division_equations. lia.
  - destruct (nPartitionErrorStates d !! _) as [err|]; [|discriminate].
    destruct (err =? S_SUCCESS); [|injection He as <- <- <-; lia].
    destruct (partition_instruction _ _ _ _ _ _ _) as [[[[j' e'] d1]|]|] eqn:Ep; [|discriminate|discriminate].
    injection He as <- <- <-. unfold partition_instruction in Ep.
    repeat match type of Ep with
           | (if ?b then _ else _) = _ => destruct b
           | match ?x with Some _ => _ | None => _ end = _ => destruct x as [?|]; [|discriminate]
           | (let '(_, _) := ?x in _) = _ => destruct x
           | context [let* _ := ?x in _] => destruct x as [?|]; [|discriminate]
           end; try discriminate; repeat case_match; simplify_eq; lia.
Qed.

Lemma loop_ends words size fuel i nError d :
  Forall (fun w => 0 <= w) words -> size - i < 4 * Z.of_nat fuel -> (fuel <> 0)%nat ->
  instructions_loop fuel words size i nError d <> Out_of_fuel.
Proof.
  intros Hw. revert i nError d. induction fuel as [|fuel IH]; intros i nError d Hf H0; [done|]. cbn [instructions_loop].
  destruct (execute words size i nError d) as [[j e d'|d'|d']|] eqn:E; [|done..].
  apply execute_advances in E as [E1 E2]; [|done]. apply IH; lia.
Qed.

(** C40: The daemon comes to the end of every batch, or of itself: whatever the buffer holds and whichever calls fail,
    the loop over the instructions ends. *)
Theorem batch_terminates (b : batch) (d : daemon) :
  Forall (fun w => 0 <= w < 2 ^ 32) (sInstructions b) -> run_batch b d <> Out_of_fuel.
Proof.
  intros Hw. unfold run_batch. apply loop_ends; [eapply List.Forall_impl; [|exact Hw]; by intros w [? _]| |done].
  destruct (Z.ltb_spec (4 * Z.of_nat ECHANGE_BUFFER_INSTRUCTIONS_NB) (reported b)); lia.
Qed.

(** * Isolation *)

(** Open files are those of the partitions. *)
Definition slots_named (d : daemon) : Prop :=
  forall p s, g_pPartitionFiles d !! p = Some (Some s) -> g_pPartitionNames d !! p = Some (Some (path s)).

(** What an instruction on [p] leaves as it was: everything of the other partitions. *)
Record keeps (p : nat) (d d' : daemon) : Prop := {
  k_size : g_nSectorSize d' = g_nSectorSize d;
  k_names : g_pPartitionNames d' = g_pPartitionNames d;
  k_errors : nPartitionErrorStates d' = nPartitionErrorStates d;
  k_sizes : forall q, q <> p -> nPartitionOpenSizes d' !! q = nPartitionOpenSizes d !! q;
  k_slots : forall q, q <> p -> g_pPartitionFiles d' !! q = g_pPartitionFiles d !! q;
  k_files : forall n, g_pPartitionNames d !! p <> Some (Some n) -> files (storage d') !! n = files (storage d) !! n;
  k_slot : forall s, g_pPartitionFiles d' !! p = Some (Some s) -> g_pPartitionNames d !! p = Some (Some (path s)) }.

(** A call that changes no file but [n]. *)
Definition only (n : string) (k k' : disk) : Prop := forall n', n' <> n -> files k' !! n' = files k !! n'.

Lemma next_files k : files (next_fault k).2 = files k.
Proof. unfold next_fault. by destruct (faults k). Qed.

Ltac next_call k := let f := fresh "f" in let k' := fresh "k" in let E := fresh "E" in
  pose proof (next_files k) as E; destruct (next_fault k) as [f k'] eqn:?; cbn [snd] in E.

Lemma only_refl n k k' : files k' = files k -> only n k k'.
Proof. by intros E n' _; rewrite E. Qed.
Lemma only_set n c k k' : files k' = files k -> only n k (set_file n c k').
Proof. intros E n' Hn. rewrite set_file_other by done. by rewrite E. Qed.
Lemma only_trans n k1 k2 k3 : only n k1 k2 -> only n k2 k3 -> only n k1 k3.
Proof. intros H1 H2 n' Hn. by rewrite H2, H1. Qed.

Lemma fopen_new_only n k : let '(r, k') := fopen_new n k in only n k k' /\ forall s, r = inr s -> path s = n.
Proof. unfold fopen_new. next_call k. destruct f; split; try (by apply only_refl) || (by apply only_set); by intros s [= <-]. Qed.
Lemma fopen_old_only n k : let '(r, k') := fopen_old n k in only n k k' /\ forall s, r = inr s -> path s = n.
Proof. unfold fopen_old. next_call k. destruct f; [|destruct (files k0 !! n)]; (split; [by apply only_refl|]); by intros s [= <-]. Qed.
Lemma unlink_only n k : let '(_, k') := unlink n k in only n k k'.
Proof.
  unfold unlink. next_call k. destruct f; [by apply only_refl|]. destruct (files k0 !! n); [|by apply only_refl].
  intros n' Hn. cbn. rewrite lookup_delete_ne by done. by rewrite E.
Qed.
Lemma seek_set_only off s k : let '(_, s', k') := fseek_set off s k in path s' = path s /\ only (path s) k k'.
Proof. unfold fseek_set. next_call k. destruct f; [|destruct (s32 off <? 0)]; (split; [done|by apply only_refl]). Qed.
Lemma seek_end_only s k : let '(_, s', k') := fseek_end s k in path s' = path s /\ only (path s) k k'.
Proof. unfold fseek_end. next_call k. destruct f; (split; [done|by apply only_refl]). Qed.
Lemma read_only m s k : let '(_, _, s', k') := fread m s k in path s' = path s /\ only (path s) k k'.
Proof. unfold fread. next_call k. destruct f; (split; [done|by apply only_refl]). Qed.
Lemma write_only bs s k : let '(_, s', k') := fwrite bs s k in path s' = path s /\ only (path s) k k'.
Proof. unfold fwrite. next_call k. destruct f; (split; [done|by apply only_set]). Qed.
Lemma putc_only b s k : let '(_, s', k') := fputc b s k in path s' = path s /\ only (path s) k k'.
Proof. unfold fputc. next_call k. destruct f; (split; [done|(by apply only_refl) || by apply only_set]). Qed.
Lemma truncate_only len s k : let '(_, k') := ftruncate len s k in only (path s) k k'.
Proof. unfold ftruncate. next_call k. destruct f; [by apply only_refl|]. destruct (s32 len <? 0); [by apply only_refl|by apply only_set]. Qed.
Lemma flush_only n k : let '(_, k') := flush k in only n k k'.
Proof. unfold flush. next_call k. by apply only_refl. Qed.

Lemma fill_only m s k : let '(_, s', k') := fill_loop m s k in path s' = path s /\ only (path s) k k'.
Proof.
  revert s k. induction m as [|m IH]; intros s k; cbn [fill_loop]; [split; [done|by apply only_refl]|].
  pose proof (putc_only 0xA5 s k) as Hp. destruct (fputc 0xA5 s k) as [[[e|] s1] k1]; [done|]. destruct Hp as [Hp Ho].
  specialize (IH s1 k1). destruct (fill_loop m s1 k1) as [[e s2] k2]. destruct IH as [I1 I2].
  split; [congruence|]. eapply only_trans; [exact Ho|]. by rewrite <- Hp.
Qed.

Lemma keeps_refl p d : slots_named d -> keeps p d d.
Proof. intros Hn. split; try done. by apply Hn. Qed.

(** The form in which the operations change the daemon. *)
Lemma keeps_change p n f k w d d' :
  g_pPartitionNames d !! p = Some (Some n) -> only n (storage d) k -> (forall s, f = Some s -> path s = n) ->
  d' = change p f k w d -> keeps p d d'.
Proof.
  intros Hn Ho Hf ->. split; cbn; try done.
  - intros q Hq. by rewrite list_lookup_insert_ne.
  - intros n' Hn'. apply Ho. intros ->. by destruct Hn'.
  - intros s Hs. apply list_lookup_insert_Some in Hs as [(_ & -> & _)|(Hne & _)]; [|done]. by rewrite (Hf s eq_refl).
Qed.

Lemma keeps_storage p n k w d :
  slots_named d -> g_pPartitionNames d !! p = Some (Some n) -> only n (storage d) k -> keeps p d (set_workspace w (set_storage k d)).
Proof.
  intros Hs Hn Ho. split; cbn; try done; [|by apply Hs].
  intros n' Hn'. apply Ho. intros ->. by destruct Hn'.
Qed.

Lemma named d p n : mjoin (g_pPartitionNames d !! p) = Some n -> g_pPartitionNames d !! p = Some (Some n).
Proof. destruct (g_pPartitionNames d !! p) as [[?|]|]; cbn; by intros [= ->]. Qed.

Ltac no_change := by apply keeps_refl.

Lemma destroy_keeps p d e d' : slots_named d -> partitionDestroy p d = Some (e, d') -> keeps p d d'.
Proof.
  intros Hs. unfold partitionDestroy. destruct (g_pPartitionFiles d !! p) as [[s|]|]; [by intros [= <- <-]; no_change| |done].
  destruct (mjoin (g_pPartitionNames d !! p)) as [n|] eqn:En; [|done]. apply named in En.
  pose proof (unlink_only n (storage d)) as Ho. destruct (unlink n (storage d)) as [r k]. intros [= <- <-].
  by apply (keeps_storage p n k (workspace d) d Hs En).
Qed.

Lemma create_keeps p d e d' : slots_named d -> partitionCreate p d = Some (e, d') -> keeps p d d'.
Proof.
  intros Hs. unfold partitionCreate. destruct (g_pPartitionFiles d !! p) as [[s|]|]; [by intros [= <- <-]; no_change| |done].
  destruct (mjoin (g_pPartitionNames d !! p)) as [n|] eqn:En; [|done]. apply named in En.
  pose proof (fopen_new_only n (storage d)) as Ho. destruct (fopen_new n (storage d)) as [[r|s] k]; destruct Ho as [Ho Hp];
    intros [= <- <-]; [by apply (keeps_storage p n k (workspace d) d Hs En)|].
  eapply (keeps_change p n (Some s) k (workspace d)); [done|done| |done]. intros ? [= <-]. by apply Hp.
Qed.

Lemma open_keeps p d e m d' : slots_named d -> partitionOpen p d = Some (e, m, d') -> keeps p d d'.
Proof.
  intros Hs. unfold partitionOpen. destruct (g_pPartitionFiles d !! p) as [[s|]|]; [by intros [= <- <- <-]; no_change| |done].
  destruct (mjoin (g_pPartitionNames d !! p)) as [n|] eqn:En; [|done]. apply named in En.
  pose proof (fopen_old_only n (storage d)) as Ho. destruct (fopen_old n (storage d)) as [[r|s] k]; destruct Ho as [Ho Hp].
  - destruct r; intros [= <- <- <-]; by apply (keeps_storage p n k (workspace d) d Hs En).
  - pose proof (seek_end_only s k) as Hk. destruct (fseek_end s k) as [[r s'] k']. destruct Hk as [Hk1 Hk2]. intros [= <- <- <-].
    specialize (Hp s eq_refl). eapply (keeps_change p n (Some s') k' (workspace d)); [done| | |done].
    + eapply only_trans; [exact Ho|]. by rewrite <- Hp.
    + intros ? [= <-]. congruence.
Qed.

Lemma close_keeps p d e d' : slots_named d -> partitionClose p d = Some (e, d') -> keeps p d d'.
Proof.
  intros Hs. unfold partitionClose. destruct (g_pPartitionFiles d !! p) as [[s|]|] eqn:Ef; [|by intros [= <- <-]; no_change|done].
  intros [= <- <-]. eapply (keeps_change p (path s) None (storage d) (workspace d)); [by apply Hs|by apply only_refl|done|done].
Qed.

Lemma sync_keeps p d e d' : slots_named d -> partitionSync p d = Some (e, d') -> keeps p d d'.
Proof.
  intros Hs. unfold partitionSync. destruct (g_pPartitionFiles d !! p) as [[s|]|] eqn:Ef; [|by intros [= <- <-]; no_change|done].
  apply Hs in Ef. pose proof (flush_only (path s) (storage d)) as Ho. destruct (flush (storage d)) as [[r|] k].
  - intros [= <- <-]. by apply (keeps_storage p (path s) k (workspace d) d Hs Ef).
  - pose proof (flush_only (path s) k) as Ho'. destruct (flush k) as [r k']. intros [= <- <-].
    apply (keeps_storage p (path s) k' (workspace d) d Hs Ef). by eapply only_trans.
Qed.

(** After a seek the slot has the stream at its new position. *)
Lemma seek_keeps p d s s' k w :
  g_pPartitionNames d !! p = Some (Some (path s)) -> path s' = path s -> only (path s) (storage d) k ->
  keeps p d (set_workspace w (set_stream p (Some s') (set_storage k d))).
Proof.
  intros Hn Hp Ho. eapply (keeps_change p (path s) (Some s') k w); [done|done| |done]. by intros ? [= <-].
Qed.

Lemma keeps_trans_slot p d1 d2 d3 : keeps p d1 d2 -> keeps p d2 d3 -> keeps p d1 d3.
Proof.
  intros [A1 A2 A3 A4 A5 A6 A7] [B1 B2 B3 B4 B5 B6 B7]. split; [congruence..| | | |].
  - intros q Hq. by rewrite B4, A4.
  - intros q Hq. by rewrite B5, A5.
  - intros n Hn. rewrite B6, A6; congruence.
  - intros s Hs. rewrite <- A2. by apply B7.
Qed.

Lemma read_keeps p sid off d e d' : slots_named d -> partitionRead p sid off d = Some (e, d') -> keeps p d d'.
Proof.
  intros Hs. unfold partitionRead. destruct (g_pPartitionFiles d !! p) as [[s|]|] eqn:Ef; [|by intros [= <- <-]; no_change|done].
  apply Hs in Ef. pose proof (seek_set_only (u32 (sid * g_nSectorSize d)) s (storage d)) as Ho.
  destruct (fseek_set _ s (storage d)) as [[r s1] k]. destruct Ho as [Hp Ho]. cbv zeta.
  pose proof (seek_keeps p d s s1 k (workspace d) Ef Hp Ho) as K1. destruct r as [r|]; [intros [= <- <-]; exact K1|].
  destruct (in_workspace off _); [|done]. cbn [g_nSectorSize set_stream set_storage].
  pose proof (read_only (Z.to_nat (g_nSectorSize d)) s1 k) as Hr. destruct (fread _ s1 k) as [[[bs r] s2] k2]. destruct Hr as [Hp2 Ho2].
  assert (E1 : g_pPartitionNames (set_stream p (Some s1) (set_storage k d)) !! p = Some (Some (path s1))) by (cbn; congruence).
  destruct r as [r|]; intros [= <- <-]; (eapply keeps_trans_slot; [exact K1|]); exact (seek_keeps p _ s1 s2 k2 _ E1 Hp2 Ho2).
Qed.

Lemma write_keeps p sid off d e d' : slots_named d -> partitionWrite p sid off d = Some (e, d') -> keeps p d d'.
Proof.
  intros Hs. unfold partitionWrite. destruct (g_pPartitionFiles d !! p) as [[s|]|] eqn:Ef; [|by intros [= <- <-]; no_change|done].
  apply Hs in Ef. pose proof (seek_set_only (u32 (sid * g_nSectorSize d)) s (storage d)) as Ho.
  destruct (fseek_set _ s (storage d)) as [[r s1] k]. destruct Ho as [Hp Ho]. cbv zeta.
  pose proof (seek_keeps p d s s1 k (workspace d) Ef Hp Ho) as K1. destruct r as [r|]; [intros [= <- <-]; exact K1|].
  destruct (in_workspace off _); [|done]. set (bs := take _ _).
  pose proof (write_only bs s1 k) as Hr. destruct (fwrite bs s1 k) as [[r s2] k2]. destruct Hr as [Hp2 Ho2].
  intros [= <- <-]. eapply keeps_trans_slot; [exact K1|].
  assert (E1 : g_pPartitionNames (set_stream p (Some s1) (set_storage k d)) !! p = Some (Some (path s1))) by (cbn; congruence).
  exact (seek_keeps p _ s1 s2 k2 (workspace d) E1 Hp2 Ho2).
Qed.

Lemma set_size_keeps p m d e d' : slots_named d -> partitionSetSize p m d = Some (e, d') -> keeps p d d'.
Proof.
  intros Hs. unfold partitionSetSize. destruct (g_pPartitionFiles d !! p) as [[s|]|] eqn:Ef; [|by intros [= <- <-]; no_change|done].
  apply Hs in Ef. pose proof (seek_end_only s (storage d)) as Ho.
  destruct (fseek_end s (storage d)) as [[r s1] k]. destruct Ho as [Hp Ho]. cbv zeta.
  pose proof (seek_keeps p d s s1 k (workspace d) Ef Hp Ho) as K1. destruct r as [r|]; [intros [= <- <-]; exact K1|].
  set (d1 := set_stream p (Some s1) (set_storage k d)) in *.
  assert (E1 : g_pPartitionNames d1 !! p = Some (Some (path s1))) by (cbn; congruence).
  assert (Hs1 : slots_named d1).
  { intros q t Hq. change (g_pPartitionNames d1) with (g_pPartitionNames d). destruct (decide (q = p)) as [->|Hne].
    - by apply (k_slot _ _ _ K1).
    - apply Hs. rewrite <- (k_slots _ _ _ K1) by done. exact Hq. }
  destruct (sectors_at s1 d1 <? m).
  - pose proof (fill_only (Z.to_nat (u32 ((m - sectors_at s1 d1) * g_nSectorSize d1))) s1 k) as Hr.
    destruct (fill_loop _ s1 k) as [[r s2] k2]. destruct Hr as [Hp2 Ho2]. intros [= <- <-].
    eapply keeps_trans_slot; [exact K1|]. exact (seek_keeps p d1 s1 s2 k2 (workspace d) E1 Hp2 Ho2).
  - destruct (m <? sectors_at s1 d1); [|intros [= <- <-]; exact K1].
    pose proof (truncate_only (u32 (m * g_nSectorSize d1)) s1 k) as Hr. destruct (ftruncate _ s1 k) as [r k2]. intros [= <- <-].
    eapply keeps_trans_slot; [exact K1|]. exact (keeps_storage p (path s1) k2 (workspace d) d1 Hs1 E1 Hr).
Qed.

(** An operation of a partition, before its result is written. *)
Lemma partition_instruction_keeps (words : list Z) (size i op nError : Z) (p : nat) (d : daemon) (j e : Z) (d' : daemon) :
  slots_named d -> partition_instruction words size i op p nError d = Some (Some (j, e, d')) ->
  keeps p d d' /\ slots_named d'.
Proof.
  intros Hs Hi. assert (K : keeps p d d'); [|split; [exact K|]].
  2:{ intros q t Hq. rewrite (k_names _ _ _ K). destruct (decide (q = p)) as [->|Hne]; [by apply (k_slot _ _ _ K)|].
      apply Hs. by rewrite <- (k_slots _ _ _ K). }
  assert (Kadmin : forall d1 sy sz, keeps p d d1 -> (forall q, q <> p -> sz !! q = nPartitionOpenSizes d1 !! q) ->
    keeps p d (set_admin sy (nPartitionErrorStates d1) sz d1)).
  { intros d1 sy sz [A1 A2 A3 A3' A4 A5 A6] Hsz. split; try done. intros q Hq. cbn. by rewrite Hsz, A3'. }
  unfold partition_instruction in Hi.
  repeat match type of Hi with (if ?b then _ else _) = _ => destruct b end;
    repeat match type of Hi with context [word_at ?a words] => destruct (word_at a words) as [?|]; [|discriminate Hi] end;
    try discriminate Hi; try (injection Hi as <- <- <-; no_change).
  all: match type of Hi with context [match ?x with Some _ => _ | None => _ end] => destruct x as [[? d1]|] eqn:Eo; [|discriminate Hi] end.
  all: try (injection Hi as <- <- <-).
  all: eauto using create_keeps, read_keeps, write_keeps, set_size_keeps, close_keeps, destroy_keeps.
  - destruct p0 as [e0 m]. injection Hi as <- <- <-. apply open_keeps in Eo; [|done]. destruct (e0 =? S_SUCCESS); [|done].
    apply Kadmin; [done|]. intros q Hq. by rewrite list_lookup_insert_ne.
  - apply sync_keeps in Eo; [|done]. destruct (_ =? S_SUCCESS); [by apply Kadmin|done].
Qed.

(** The partition of an instruction, and whether its code is one of the operations there are. *)
Definition partition_of (w : Z) : nat := Z.to_nat (Z.shiftr (Z.land w 0xF0) 4).
Definition known (w : Z) : Prop := 1 <= Z.land w 0x0F <= 8.
Definition daemon_of (r : step) : daemon := match r with Continue _ _ d | Batch_end d | Exit d => d end.

(** The last error of the batch only matters to codes that are not known. *)
Lemma error_unused (words : list Z) (size i op nError nError2 : Z) (p : nat) (d : daemon) :
  1 <= op <= 8 -> partition_instruction words size i op p nError d = partition_instruction words size i op p nError2 d.
Proof.
  intros Hop. unfold partition_instruction.
  unfold DELEGATION_INSTRUCTION_PARTITION_CREATE, DELEGATION_INSTRUCTION_PARTITION_OPEN, DELEGATION_INSTRUCTION_PARTITION_READ,
    DELEGATION_INSTRUCTION_PARTITION_WRITE, DELEGATION_INSTRUCTION_PARTITION_SET_SIZE, DELEGATION_INSTRUCTION_PARTITION_SYNC,
    DELEGATION_INSTRUCTION_PARTITION_CLOSE, DELEGATION_INSTRUCTION_PARTITION_DESTROY.
  repeat match goal with |- context [op =? ?k] => destruct (Z.eqb_spec op k); [reflexivity|] end. lia.
Qed.

(** C28: A turn of the interpreter on an instruction of a partition touches nothing of the other partitions, whatever the
    parameters and whichever calls of the system fail: their results, the sizes reported for them, their open files and
    their files stay, and so does every file that is no partition's; and the file it leaves open is the one of its own
    partition.  A partition that has failed before is not touched at all.  What is left does not depend on the results of
    earlier instructions when the code of the instruction is known (an unknown one stores the last error of the batch, of
    whatever partition, as the result of its own, [stale_result]). *)
Theorem partition_isolated (words : list Z) (size i nError w : Z) (d : daemon) (r : step) :
  slots_named d -> i + 4 <= size -> word_at i words = Some w -> Z.land w 0x0F <> 0 -> execute words size i nError d = Some r ->
  let p := partition_of w in let d' := daemon_of r in
  (forall q, q <> p ->
     nPartitionErrorStates d' !! q = nPartitionErrorStates d !! q /\ nPartitionOpenSizes d' !! q = nPartitionOpenSizes d !! q /\
     g_pPartitionFiles d' !! q = g_pPartitionFiles d !! q) /\
  (forall n, g_pPartitionNames d !! p <> Some (Some n) -> files (storage d') !! n = files (storage d) !! n) /\
  g_pPartitionNames d' = g_pPartitionNames d /\ slots_named d' /\
  (nPartitionErrorStates d !! p <> Some S_SUCCESS -> d' = d) /\
  (known w -> forall nError2 r2, execute words size i nError2 d = Some r2 -> daemon_of r2 = d').
Proof.
  intros Hs Hsz Hw Hop. unfold execute. rewrite (proj2 (Z.leb_le _ _) Hsz), Hw. cbv zeta. rewrite (proj2 (Z.eqb_neq _ _) Hop).
  fold (partition_of w). set (p := partition_of w). destruct (nPartitionErrorStates d !! p) as [err|] eqn:Ee; [|done].
  destruct (Z.eqb_spec err S_SUCCESS) as [->|Hne].
  2:{ intros [= <-]. cbn [daemon_of]. split_and!; try done. by intros _ ? ? [= <-]. }
  intros Hr. assert (Hkn : known w -> forall nError2, partition_instruction words size (i + 4) (Z.land w 0x0F) p nError2 d =
    partition_instruction words size (i + 4) (Z.land w 0x0F) p nError d) by (intros Hk nError2; by apply error_unused).
  destruct (partition_instruction words size (i + 4) (Z.land w 0x0F) p nError d) as [[[[j e] d1]|]|] eqn:Ei; [| |done].
  - injection Hr as <-. destruct (partition_instruction_keeps _ _ _ _ _ _ _ _ _ _ Hs Ei) as [[K1 K2 K3 K4 K5 K6 K7] Hs1].
    cbn [daemon_of]. split_and!.
    + intros q Hq. cbn. rewrite list_lookup_insert_ne, K3 by done. split; [done|]. split; [by apply K4|by apply K5].
    + exact K6.
    + exact K2.
    + exact Hs1.
    + by intros [].
    + intros Hk nError2 r2. rewrite (Hkn Hk). by intros [= <-].
  - injection Hr as <-. cbn [daemon_of]. split_and!; try done. intros Hk nError2 r2. rewrite (Hkn Hk). by intros [= <-].
Qed.

(** * Sessions *)

Section Sessions.
Context (z : nat) (z_pos : (0 < z)%nat) (z_size : Z.of_nat z <= 4096) (names : list (option string)) (base : gmap string (list Z)).
Context (distinct : forall p q n, names !! p = Some (Some n) -> names !! q = Some (Some n) -> p = q).

Definition closed (x : part) : part := mkPart (sectors x) false.

(** A new session finds the partitions as the last one left them, all closed. *)
Lemma session_represents d st nWorkspaceSize d2 :
  represents z names base d st -> createSession (Z.of_nat z) nWorkspaceSize names (storage d) = Some d2 ->
  represents z names base d2 (mkStore (map closed (parts st)) (workspace d2) 0 (replicate 16 0) (replicate 16 0) []).
Proof using All.
  intros Hd. unfold createSession. case_bool_decide; [|done]. intros [= <-]. destruct Hd as [D1 D2 D3 D4 D5 D6 D7 D8 D9 D10 D11 D12].
  split; cbn [g_nSectorSize workspace g_pPartitionNames g_pPartitionFiles nSyncExecuted nPartitionErrorStates nPartitionOpenSizes storage notified
    parts ws synced errors open_sizes messages]; try done.
  - by rewrite length_map.
  - intros p x Hx. change (map closed (parts st)) with (closed <$> parts st) in Hx.
    apply list_lookup_fmap_Some in Hx as (y & -> & Hy). pose proof (lookup_lt_Some _ _ _ Hy) as Hp. rewrite D10 in Hp.
    destruct (D11 p y Hy) as (f & Hf & [Hfit1 Hfit2] & Hat).
    exists None. split; [exact (lookup_replicate_2 16 None p Hp)|]. split; [by split|]. destruct (mjoin (names !! p)); [|done].
    destruct Hat as [_ Hat]. by split.
Qed.

(** An instruction that succeeds on a partition without an error. *)
Lemma spec_success p o x x' w st :
  parts st !! p = Some x -> errors st !! p = Some S_SUCCESS -> spec_op z o x (ws st) = (S_SUCCESS, x', w) ->
  let st' := spec_instr z (On p o) st in
  parts st' !! p = Some x' /\ errors st' !! p = Some S_SUCCESS /\ ws st' = w.
Proof.
  intros Hx He Hs. cbn [spec_instr]. rewrite Hx, He. change (S_SUCCESS =? S_SUCCESS) with true. rewrite Hs. cbn.
  split_and!; [apply list_lookup_insert_eq; by eapply lookup_lt_Some|apply list_lookup_insert_eq; by eapply lookup_lt_Some|done].
Qed.

(** What is written is read back: a sector that was written to an open partition, which was synchronised and
    closed, is what a later session that opens the partition reads from it. *)
Lemma written_reads_back (d : daemon) (st : store) (p : nat) (x : part) (sid off off' nWorkspaceSize : Z) (w w' : list Z) (d1 d2 : daemon) :
  represents z names base d st -> is_Some (mjoin (names !! p)) -> parts st !! p = Some x -> opened x = true ->
  valid_op (Z.of_nat z) (Z.of_nat (length w)) (OWrite sid off) -> valid_op (Z.of_nat z) (Z.of_nat (length w')) (ORead sid off') ->
  let writing := encode_all [On p (OWrite sid off); On p OSync; On p OClose] in
  let reading := encode_all [On p OOpen; On p (ORead sid off')] in
  run_batch (mkBatch writing (4 * Z.of_nat (length writing)) w) d = Finished d1 ->
  createSession (Z.of_nat z) nWorkspaceSize names (storage d1) = Some d2 ->
  exists d3, run_batch (mkBatch reading (4 * Z.of_nat (length reading)) w') d2 = Finished d3 /\
    take z (drop (Z.to_nat off') (workspace d3)) = take z (drop (Z.to_nat off) w) /\
    nPartitionErrorStates d3 !! p = Some S_SUCCESS.
Proof using All.
  intros Hd Hn Hx Ho V V' writing reading Hw Hs.
  pose proof (lookup_lt_Some _ _ _ Hx) as Hp. rewrite (r_parts16 _ _ _ _ _ Hd) in Hp.
  destruct (r_parts _ _ _ _ _ Hd p x Hx) as (_ & _ & [Hfit Hsized] & _). destruct (Hfit Ho) as [l Hl]. destruct (Hsized l Hl) as [Hsz _].
  destruct x as [sx ox]. cbn in Ho, Hl. subst sx ox.
  assert (Hst0 : errors (spec_start w st) !! p = Some S_SUCCESS) by by apply lookup_replicate_2.
  pose proof (batch_correct z z_pos z_size names base distinct [On p (OWrite sid off); On p OSync; On p OClose] [] w d st Hd) as H1.
  fold writing in H1. rewrite app_nil_r in H1. destruct H1 as (d1' & E1 & R1).
  { repeat apply Forall_cons_2; [split_and!; done..|by apply Forall_nil]. }
  { split; [right; exact Hst0|]. split; [left; reflexivity|]. split; [left; reflexivity|exact I]. }
  { cbn. unfold ECHANGE_BUFFER_INSTRUCTIONS_NB. lia. }
  rewrite Hw in E1. injection E1 as <-.
  pose proof (session_represents _ _ _ _ R1 Hs) as R2.
  set (st2 := mkStore _ _ _ _ _ _) in R2.
  set (sec := take z (drop (Z.to_nat off) w)).
  assert (Hz : length sec = z) by (destruct V as (? & ? & ? & ?); unfold sec; rewrite length_take, length_drop; lia).
  assert (Hx2 : parts st2 !! p = Some (mkPart (Some (put_sector z (Z.to_nat sid) sec l)) false)).
  { destruct (spec_success p (OWrite sid off) _ (mkPart (Some (put_sector z (Z.to_nat sid) sec l)) true) w (spec_start w st) Hx Hst0 eq_refl)
      as (A1 & A2 & A3).
    destruct (spec_success p OSync _ _ w _ A1 A2 ltac:(by rewrite A3)) as (B1 & B2 & B3).
    destruct (spec_success p OClose _ _ w _ B1 B2 ltac:(by rewrite B3)) as (C1 & _).
    unfold st2. cbn [parts]. change (map closed ?m) with (closed <$> m). rewrite list_lookup_fmap. unfold spec_run. cbn [fold_left].
    by rewrite C1. }
  assert (Hst2 : errors (spec_start w' st2) !! p = Some S_SUCCESS) by by apply lookup_replicate_2.
  destruct (spec_success p OOpen _ (mkPart (Some (put_sector z (Z.to_nat sid) sec l)) true) w' (spec_start w' st2) Hx2 Hst2 eq_refl)
    as (A1 & A2 & A3).
  assert (Hput : put_sector z (Z.to_nat sid) sec l !! Z.to_nat sid = Some sec).
  { unfold put_sector. rewrite lookup_app_r; rewrite length_take, length_app, length_replicate; [|lia].
    by replace (_ - _)%nat with 0%nat by lia. }
  destruct (spec_success p (ORead sid off') _ (mkPart (Some (put_sector z (Z.to_nat sid) sec l)) true) (write_at (Z.to_nat off') sec w') _ A1 A2
    ltac:(rewrite A3; cbn [spec_op sectors opened]; by rewrite Hput)) as (_ & B2 & B3).
  pose proof (batch_correct z z_pos z_size names base distinct [On p OOpen; On p (ORead sid off')] [] w' d2 st2 R2) as H2.
  fold reading in H2. rewrite app_nil_r in H2.
  destruct H2 as (d3 & E3 & R3).
  { repeat apply Forall_cons_2; [split_and!; done..|by apply Forall_nil]. }
  { split; [left; reflexivity|]. split; [right; exact A2|exact I]. }
  { cbn. unfold ECHANGE_BUFFER_INSTRUCTIONS_NB. lia. }
  exists d3. split; [exact E3|]. unfold spec_run in R3. cbn [fold_left] in R3.
  rewrite (r_ws _ _ _ _ _ R3), (r_errors _ _ _ _ _ R3), B3. split; [|exact B2].
  destruct V' as (V1 & V2 & V3 & V4). unfold write_at. replace (Z.to_nat off' - length w')%nat with 0%nat by lia.
  cbn [replicate]. rewrite app_nil_r, drop_app_length' by (rewrite length_take; lia). rewrite take_app_length' by done. reflexivity.
Qed.

End Sessions.
