(* ===== verification/TfStorageSamples.v ===== *)
(** Batches of the storage daemon, and those on which it goes wrong. *)

From Stdlib Require Import ZArith Lia String.
From stdpp Require Import base gmap list list_numbers strings option tactics.
From S2P Require Import Prelude TfErrors TfStorage TfSectors TfStorageRuns.
Local Open Scope Z_scope.

(** The four partitions of the device, and an empty file system. *)
Definition names : list (option string) :=
  [Some "/data/fs"; Some "/data/keystore"; Some "/data/user"]%string ++ replicate 12 None ++ [Some "/data/super"%string].
Definition empty_disk : disk := mkDisk ∅ [].
Definition daemon_on (k : disk) : daemon := default (mkDaemon 0 [] [] [] 0 [] [] k []) (createSession 512 0 names k).
Definition empty_store : store :=
  mkStore (replicate 16 (mkPart None false)) (replicate 4096 0) 0 (replicate 16 0) (replicate 16 0) [].

Lemma names_distinct p q n : names !! p = Some (Some n) -> names !! q = Some (Some n) -> p = q.
Proof.
  intros Hp Hq. pose proof (lookup_lt_Some _ _ _ Hp). pose proof (lookup_lt_Some _ _ _ Hq). change (length names) with 16%nat in *.
  assert (E : forall p, (p < 16)%nat -> names !! p = Some (Some n) -> p = 0%nat /\ n = "/data/fs"%string \/ p = 1%nat /\ n = "/data/keystore"%string \/
    p = 2%nat /\ n = "/data/user"%string \/ p = 15%nat /\ n = "/data/super"%string).
  { clear. intros p Hp. do 16 (destruct p as [|p]; [cbn; intros [= <-]; tauto|]). lia. }
  destruct (E p) as [[-> ->]|[[-> ->]|[[-> ->]|[-> ->]]]]; try done; destruct (E q) as [[-> ?]|[[-> ?]|[[-> ?]|[-> ?]]]]; done.
Qed.

Lemma empty_represents : represents 512 names ∅ (daemon_on empty_disk) empty_store.
Proof.
  split; try reflexivity. intros p x Hx. apply lookup_replicate in Hx as [-> Hp]. exists None. split; [by apply lookup_replicate_2|].
  split; [by split|]. destruct (mjoin (names !! p)); [|done]. split; [by split|]. reflexivity.
Qed.

(** A partition is made, filled, written and left open. *)
Definition greeting : instr := Notify 0xE3 [72; 105].
Definition filling : list instr := [On 0 OCreate; On 0 (OSetSize 2); greeting; On 0 (OWrite 1 512); On 0 OSync; On 1 OOpen].
Definition ramp : list Z := map (fun i => Z.of_nat i mod 256) (seq 0 4096).
Definition filled_store : store := spec_run 512 filling (spec_start ramp empty_store).

Lemma filling_valid : Forall (valid (Z.of_nat 512) (Z.of_nat (length ramp)) names) filling.
Proof.
  repeat apply Forall_cons_2; try apply Forall_nil; cbn [valid]; try (split; [lia|]; split; [by eexists|]); cbn [valid_op]; try done;
    vm_compute; repeat split; congruence || lia.
Qed.

Lemma filling_careful : careful 512 filling (spec_start ramp empty_store).
Proof. repeat split; try (left; reflexivity); right; vm_compute; reflexivity. Qed.

(** A partition that is missing is reported, and the other one filled and synchronised. *)
Lemma filling_result :
  errors filled_store !! 0%nat = Some S_SUCCESS /\ errors filled_store !! 1%nat = Some S_ERROR_ITEM_NOT_FOUND /\
  synced filled_store = 1 /\ messages filled_store = [(0xE3, [72; 0; 0; 0; 105; 0; 0; 0])] /\
  parts filled_store !! 0%nat = Some (mkPart (Some [replicate 512 0xA5; take 512 (drop 512 ramp)]) true).
Proof. vm_compute. split_and!; reflexivity. Qed.

Lemma filling_length : (length (encode_all filling) <= ECHANGE_BUFFER_INSTRUCTIONS_NB)%nat.
Proof. apply Nat.leb_le. vm_compute. reflexivity. Qed.

Lemma storage_refines_witness :
  exists d', run_batch (mkBatch (encode_all filling ++ [0x18]) (4 * Z.of_nat (length (encode_all filling))) ramp) (daemon_on empty_disk) = Finished d' /\
    represents 512 names ∅ d' filled_store.
Proof.
  exact (storage_refines 512 ltac:(lia) ltac:(lia) names ∅ names_distinct filling [0x18] ramp (daemon_on empty_disk) empty_store
    empty_represents filling_valid filling_careful filling_length).
Defined.

Definition some_batch : batch := mkBatch [0xE0; 0xE1; 8; 1; 2; 0x02; 0x33; 7] 32 ramp.

Lemma batch_terminates_witness : run_batch some_batch (daemon_on empty_disk) <> Out_of_fuel.
Proof. apply (batch_terminates some_batch). repeat apply Forall_cons_2; try apply Forall_nil; lia. Defined.

Lemma sessions_named k : slots_named (daemon_on k).
Proof. intros p s. cbn. intros [[=] _]%lookup_replicate. Qed.

(** Opening fails when the system is out of files. *)
Definition failing_disk : disk := mkDisk {["/data/fs"%string := ramp]} [Some (mkFault EMFILE 0)].

Lemma partition_isolated_witness :
  exists d', execute [0x02] 4 0 S_SUCCESS (daemon_on failing_disk) = Some (Continue 4 S_ERROR_NO_MORE_HANDLES d') /\
    nPartitionErrorStates d' !! 0%nat = Some S_ERROR_NO_MORE_HANDLES /\
    nPartitionErrorStates d' !! 1%nat = nPartitionErrorStates (daemon_on failing_disk) !! 1%nat /\ slots_named d'.
Proof.
  eexists. split; [vm_compute; reflexivity|]. split; [reflexivity|].
  destruct (partition_isolated [0x02] 4 0 S_SUCCESS 0x02 (daemon_on failing_disk)
    (Continue 4 S_ERROR_NO_MORE_HANDLES (set_admin 0 (<[0%nat := S_ERROR_NO_MORE_HANDLES]> (replicate 16 0)) (replicate 16 0)
       (set_storage (mkDisk (files failing_disk) []) (daemon_on failing_disk)))))
    as (Hq & _ & _ & Hn & _); [apply sessions_named|lia|reflexivity|discriminate|vm_compute; reflexivity|].
  split; [exact (proj1 (Hq 1%nat ltac:(discriminate)))|exact Hn].
Defined.

(** The daemon after the first batch, with partition 0 open. *)
Definition after (b : batch) (d : daemon) : daemon :=
  match run_batch b d with Finished d' => d' | _ => d end.
Definition filled_daemon : daemon :=
  after (mkBatch (encode_all filling) (4 * Z.of_nat (length (encode_all filling))) ramp) (daemon_on empty_disk).

Lemma filled_represents : represents 512 names ∅ filled_daemon filled_store.
Proof.
  destruct (batch_correct 512 ltac:(lia) ltac:(lia) names ∅ names_distinct filling [] ramp (daemon_on empty_disk) empty_store
    empty_represents filling_valid filling_careful filling_length) as (d' & E & R).
  rewrite app_nil_r in E. unfold filled_daemon, after. rewrite E. exact R.
Qed.

Definition writing : list Z := encode_all [On 0 (OWrite 0 1024); On 0 OSync; On 0 OClose].
Definition written_daemon : daemon := after (mkBatch writing (4 * Z.of_nat (length writing)) ramp) filled_daemon.

Lemma writing_finishes : run_batch (mkBatch writing (4 * Z.of_nat (length writing)) ramp) filled_daemon = Finished written_daemon.
Proof. vm_compute. reflexivity. Qed.

Lemma written_reads_back_witness :
  let reading := encode_all [On 0 OOpen; On 0 (ORead 0 0)] in
  exists d3, run_batch (mkBatch reading (4 * Z.of_nat (length reading)) (replicate 4096 0)) (daemon_on (storage written_daemon)) = Finished d3 /\
    take 512 (drop 0 (workspace d3)) = take 512 (drop 1024 ramp) /\ nPartitionErrorStates d3 !! 0%nat = Some S_SUCCESS.
Proof.
  refine (written_reads_back 512 ltac:(lia) ltac:(lia) names ∅ names_distinct filled_daemon filled_store 0
    (mkPart (Some [replicate 512 0xA5; take 512 (drop 512 ramp)]) true) 0 1024 0 0 ramp (replicate 4096 0) written_daemon
    (daemon_on (storage written_daemon)) filled_represents _ _ _ _ _ writing_finishes _).
  - by eexists.
  - apply filling_result.
  - reflexivity.
  - vm_compute. repeat split; congruence.
  - vm_compute. repeat split; congruence.
  - reflexivity.
Defined.

(** * Where the interpreter goes wrong *)

(** A partition with an error is skipped without its parameters, which are then executed: reading the missing sector 5
    of partition 0 and then its sector 24 destroys partition 1 (24 is the number of that instruction). *)
Definition two_files : disk := mkDisk (<["/data/fs"%string := replicate 512 1]> {["/data/keystore"%string := ramp]}) [].
Definition two_reads : batch := mkBatch (encode_all [On 0 OOpen; On 0 (ORead 5 0); On 0 (ORead 0x18 0)]) 28 ramp.

Lemma parameters_executed :
  exists d', run_batch two_reads (daemon_on two_files) = Finished d' /\
    files (storage d') !! "/data/keystore"%string = None /\
    is_Some (files (storage (daemon_on two_files)) !! "/data/keystore"%string).
Proof. eexists. split; [vm_compute; reflexivity|]. split; [reflexivity|by eexists]. Qed.

(** The offset of a sector is computed with 32 bits: the sector 2^23 of 512 bytes is the sector 0. *)
Lemma sector_wraps :
  let d := after (mkBatch [0x02] 4 ramp) (daemon_on two_files) in
  exists d', partitionWrite 0 (2 ^ 23) 512 d = Some (S_SUCCESS, d') /\
    files (storage d) !! "/data/fs"%string = Some (replicate 512 1) /\
    files (storage d') !! "/data/fs"%string = Some (take 512 (drop 512 ramp)).
Proof. eexists. split; [vm_compute; reflexivity|]. split; vm_compute; reflexivity. Qed.

(** An instruction that does not exist gives its partition the result of the last one, of another partition. *)
Lemma stale_result :
  exists d', run_batch (mkBatch [0x27; 0x1A] 8 ramp) (daemon_on two_files) = Finished d' /\
    nPartitionErrorStates d' !! 2%nat = Some S_ERROR_BAD_STATE /\ nPartitionErrorStates d' !! 1%nat = Some S_ERROR_BAD_STATE.
Proof. eexists. split; [vm_compute; reflexivity|]. split; reflexivity. Qed.

(** The size of a partition is reported as zero, and as a success, when its file cannot be searched. *)
Lemma open_size_unchecked :
  exists d', partitionOpen 1 (daemon_on (mkDisk (files two_files) [None; Some (mkFault EOTHER 0)])) = Some (S_SUCCESS, 0, d') /\
    length (content "/data/keystore" (storage d')) = 4096%nat.
Proof. eexists. split; vm_compute; reflexivity. Qed.

(** The offset in the workspace is not compared with its size. *)
Lemma workspace_overrun : partitionRead 0 0 4000 (after (mkBatch [0x02] 4 ramp) (daemon_on two_files)) = None.
Proof. vm_compute. reflexivity. Qed.
