(* ===== verification/TfManifest.v ===== *)
(** The property files of the secure world's daemon (src/security/tf_daemon/lib_manifest2.c): a parser
    that hands out one section header or property at a time.

    The manifest is a list of bytes; a pointer into it is the rest of the list from there on, and [[]] is
    its end, so that no access goes beyond it unnoticed.  A pointer and a length, as names and values are
    returned, are the bytes themselves.  The line number, which only the messages of the tool use, is left
    out. *)

From Stdlib Require Import ZArith Lia.
From stdpp Require Import base list list_numbers option tactics.
From S2P Require Import Prelude TfErrors.
Local Open Scope Z_scope.

(** A value, an error, or a loop that does not end. *)
Inductive parsed (A : Type) := Parsed (a : A) | Failed (e : Z) | Hang.
Arguments Parsed {A}.
Arguments Failed {A}.
Arguments Hang {A}.
Notation "'let!' x ':=' c 'in' k" :=
  (match c with Parsed x => k | Failed e => Failed e | Hang => Hang end)
  (at level 10, x pattern, c at level 100, k at level 200) : c_scope.

(** * Characters *)

Definition CHAR_CR : Z := 0x0D.
Definition CHAR_LF : Z := 0x0A.
Definition CHAR_TAB : Z := 0x09.
Definition SPACE : Z := 0x20.
Definition is_blank (x : Z) : bool := (x =? SPACE) || (x =? CHAR_TAB).
Definition is_eol (x : Z) : bool := (x =? CHAR_LF) || (x =? CHAR_CR).

Inductive character := CHARACTER_NAME_FIRST | CHARACTER_NAME_SUBSEQUENT | CHARACTER_SECTION_NAME.

Definition static_checkCharacter (x : Z) (nType : character) : bool :=
  if (97 <=? x) && (x <=? 122) then true
  else if (65 <=? x) && (x <=? 90) then true
  else if (48 <=? x) && (x <=? 57) then true
  else match nType with
       | CHARACTER_NAME_FIRST => false
       | _ => if (x =? 95) || (x =? 46) || (x =? 45) then true
              else match nType with CHARACTER_NAME_SUBSEQUENT => false | _ => x =? SPACE end
       end.

Fixpoint equal_without_case (n1 n2 : list Z) : bool :=
  match n1, n2 with
  | x1 :: n1, x2 :: n2 => if negb (Z.land x1 (Z.lnot 0x20) =? Z.land x2 (Z.lnot 0x20)) then false else equal_without_case n1 n2
  | _, _ => true
  end.
Definition static_sectionNameEqualCaseInsensitive (n1 n2 : list Z) : bool :=
  if negb (length n1 =? length n2)%nat then false else equal_without_case n1 n2.

(** * One item *)

Inductive manifest_type :=
  | LIB_MANIFEST2_TYPE_COMPILED | LIB_MANIFEST2_TYPE_SOURCE | LIB_MANIFEST2_TYPE_SOURCE_WITH_SECTIONS.
#[global] Instance manifest_type_eq_dec : EqDecision manifest_type.
Proof. solve_decision. Defined.
Definition compiled (ty : manifest_type) : bool := bool_decide (ty = LIB_MANIFEST2_TYPE_COMPILED).
Definition with_sections (ty : manifest_type) : bool := bool_decide (ty = LIB_MANIFEST2_TYPE_SOURCE_WITH_SECTIONS).

(** A section has no value. *)
Record item := mkItem { name : list Z; value : option (list Z) }.

(** The bytes from one pointer to a later one. *)
Definition between (start stop : list Z) : list Z := take (length start - length stop) start.

(** Comments, up to the end of the line, and lines of blanks. *)
Fixpoint skip_comment (cur : list Z) : parsed (list Z) :=
  match cur with
  | [] => Parsed []
  | x :: rest => if is_eol x then Parsed cur else if x =? 0 then Failed S_ERROR_BAD_FORMAT else skip_comment rest
  end.
Fixpoint skip_blank_line (cur : list Z) : parsed (list Z) :=
  match cur with
  | [] => Parsed []
  | x :: rest => if is_eol x then Parsed cur else if negb (is_blank x) then Failed S_ERROR_BAD_FORMAT else skip_blank_line rest
  end.
Definition skip_lf (cur : list Z) : list Z := match cur with x :: rest => if x =? CHAR_LF then rest else cur | [] => [] end.

Fixpoint skip_lines (fuel : nat) (cur : list Z) {struct fuel} : parsed (list Z) :=
  match fuel with
  | O => Hang
  | S fuel =>
      match cur with
      | [] => Parsed []
      | x :: rest =>
          if x =? 35 then let! cur := skip_comment rest in skip_lines fuel cur
          else if x =? CHAR_CR then skip_lines fuel (skip_lf rest)
          else if x =? CHAR_LF then skip_lines fuel rest
          else if is_blank x then let! cur := skip_blank_line rest in skip_lines fuel cur
          else Parsed cur
      end
  end.
Definition skip_bom (content : list Z) : list Z :=
  match content with
  | a :: b :: c :: rest => if (a =? 0xEF) && (b =? 0xBB) && (c =? 0xBF) then rest else content
  | _ => content
  end.

(** The name of a section, up to the bracket; and the blanks behind it. *)
Fixpoint section_name (start cur : list Z) {struct cur} : parsed (list Z * list Z) :=
  match cur with
  | [] => Failed S_ERROR_BAD_FORMAT
  | x :: rest =>
      if x =? 93 then Parsed (between start cur, rest)
      else if negb (static_checkCharacter x CHARACTER_SECTION_NAME) then Failed S_ERROR_BAD_FORMAT
      else section_name start rest
  end.
(** Another character than a blank is logged, and the loop goes on with the same character. *)
Fixpoint after_section (fuel : nat) (cur : list Z) {struct fuel} : parsed (list Z) :=
  match fuel with
  | O => Hang
  | S fuel =>
      match cur with
      | [] => Parsed []
      | x :: rest => if is_blank x then after_section fuel rest else if is_eol x then Parsed cur else after_section fuel cur
      end
  end.

(** The name of a property, up to the colon; [last] is behind the last character that is no blank. *)
Fixpoint property_name (ty : manifest_type) (cur last : list Z) {struct cur} : parsed (list Z * list Z) :=
  match cur with
  | [] => Failed S_ERROR_BAD_FORMAT
  | x :: rest =>
      if x =? 58 then Parsed (cur, last)
      else if negb (compiled ty) && is_blank x then property_name ty rest last
      else if negb (static_checkCharacter x CHARACTER_NAME_SUBSEQUENT) then Failed S_ERROR_BAD_FORMAT
      else if negb (compiled ty) && negb (length cur =? length last)%nat then Failed S_ERROR_BAD_FORMAT
      else property_name ty rest rest
  end.
Fixpoint skip_blanks (cur : list Z) : list Z :=
  match cur with x :: rest => if is_blank x then skip_blanks rest else cur | [] => [] end.

(** One byte of UTF-8: the number of bytes that have to follow and the bits of the character so far. *)
Definition utf8_byte (x nCurrentSequenceCount nCurrentChar : Z) : option (Z * Z) :=
  if Z.land x 0x80 =? 0 then
    if negb (nCurrentSequenceCount =? 0) then None
    else if x =? 0 then None
    else Some (nCurrentSequenceCount, x)
  else if Z.land x 0xC0 =? 0xC0 then
    if negb (nCurrentSequenceCount =? 0) then None
    else if Z.land x 0xE0 =? 0xC0 then
      if Z.land x 0x1E =? 0 then None else Some (1, Z.land x 0x1F)
    else if Z.land x 0xF0 =? 0xE0 then Some (2, Z.land x 0x0F)
    else if Z.land x 0xF8 =? 0xF0 then Some (3, Z.land x 0x07)
    else None
  else if Z.land x 0xC0 =? 0x80 then
    if nCurrentSequenceCount =? 0 then None
    else if (nCurrentSequenceCount =? 2) && (nCurrentChar =? 0) && (Z.land x 0x20 =? 0) then None
    else if (nCurrentSequenceCount =? 3) && (nCurrentChar =? 0) && (Z.land x 0x30 =? 0) then None
    else Some (nCurrentSequenceCount - 1, Z.lor (u32 (Z.shiftl nCurrentChar 6)) (Z.land x 0x3F))
  else None.
Definition illegal_character (c : Z) : bool := ((0xD800 <=? c) && (c <? 0xE000)) || (0x110000 <=? c).

(** The value of a property, up to the end of the line. *)
Fixpoint value_loop (ty : manifest_type) (nCurrentSequenceCount nCurrentChar : Z) (cur last : list Z) {struct cur} : parsed (list Z * list Z) :=
  match cur with
  | [] => if negb (nCurrentSequenceCount =? 0) then Failed S_ERROR_BAD_FORMAT else Parsed ([], last)
  | x :: rest =>
      match utf8_byte x nCurrentSequenceCount nCurrentChar with
      | None => Failed S_ERROR_BAD_FORMAT
      | Some (count, char) =>
          if (count =? 0) && illegal_character char then Failed S_ERROR_BAD_FORMAT
          else if (count =? 0) && (x =? CHAR_CR) then Parsed (if compiled ty then skip_lf rest else cur, last)
          else if (count =? 0) && (x =? CHAR_LF) then Parsed (if compiled ty then rest else cur, last)
          else value_loop ty count char rest (if negb (is_blank x) then rest else last)
      end
  end.

Definition property_item (ty : manifest_type) (start : list Z) : parsed (item * list Z) :=
  match start with
  | [] => Failed S_ERROR_BAD_FORMAT
  | x :: rest =>
      if negb (static_checkCharacter x CHARACTER_NAME_FIRST) then Failed S_ERROR_BAD_FORMAT
      else
        let! (colon, last) := property_name ty rest rest in
        let v := skip_blanks (tail colon) in
        let! (cur, vlast) := value_loop ty 0 0 v v in
        Parsed (mkItem (between start last) (Some (between v vlast)), cur)
  end.

Definition section_item (start : list Z) : parsed (item * list Z) :=
  let! (n, cur) := section_name start start in
  let! cur := after_section (S (length cur)) cur in
  Parsed (mkItem n None, cur).

(** The item at an offset, the offset behind it and the start of its section. *)
Definition static_libManifest2GetNextItemInternal (ty : manifest_type) (content : list Z) (nOffset nSectionStartOffset : nat)
    : parsed (item * nat * nat) :=
  let cur := drop nOffset content in
  let! cur :=
    if compiled ty then Parsed cur
    else let cur := if (nOffset =? 0)%nat then skip_bom content else cur in skip_lines (S (length cur)) cur in
  match cur with
  | [] => Failed S_ERROR_ITEM_NOT_FOUND
  | x :: rest =>
      if with_sections ty && (x =? 91) then
        let! (i, cur) := section_item rest in
        let o := (length content - length cur)%nat in Parsed (i, o, o)
      else if with_sections ty && (nSectionStartOffset =? 0)%nat then Failed S_ERROR_BAD_FORMAT
      else
        let! (i, cur) := property_item ty cur in
        Parsed (i, (length content - length cur)%nat, nSectionStartOffset)
  end.

(** * Duplicates *)

Record context := mkContext { nType : manifest_type; pManifestContent : list Z; nOffset : nat; nSectionStartOffset : nat }.

Definition libManifest2InitContext (ty : manifest_type) (content : list Z) : context := mkContext ty content 0 0.

Definition duplicate (ty : manifest_type) (i dup : item) : bool :=
  match with_sections ty, value i with
  | true, None => match value dup with None => static_sectionNameEqualCaseInsensitive (name i) (name dup) | Some _ => false end
  | _, _ => bool_decide (name dup = name i)
  end.

(** Whether an item before [original] is a duplicate.  The result of the parser is not looked at. *)
Fixpoint duplicate_loop (fuel : nat) (ty : manifest_type) (content : list Z) (i : item) (offset section original : nat) {struct fuel}
    : parsed bool :=
  if (offset <? original)%nat then
    match fuel with
    | O => Hang
    | S fuel =>
        match static_libManifest2GetNextItemInternal ty content offset section with
        | Hang => Hang
        | Parsed (dup, offset, section) =>
            if duplicate ty i dup then Parsed true else duplicate_loop fuel ty content i offset section original
        | Failed _ =>
            if duplicate ty i (mkItem [] None) then Parsed true else duplicate_loop fuel ty content i offset section original
        end
    end
  else Parsed false.

Definition libManifest2GetNextItem (c : context) : parsed (item * context) :=
  let ty := nType c in let content := pManifestContent c in
  let! (i, o, s) := static_libManifest2GetNextItemInternal ty content (nOffset c) (nSectionStartOffset c) in
  if compiled ty then Parsed (i, mkContext ty content o s)
  else
    match (if negb (with_sections ty) then Some 0%nat
           else match value i with
                | None => Some 0%nat
                | Some _ => if (s =? 0)%nat then None else Some s
                end) with
    | None => Failed S_ERROR_BAD_FORMAT
    | Some start =>
        let! dup := duplicate_loop (S (length content)) ty content i start s (nOffset c) in
        if dup : bool then Failed S_ERROR_BAD_FORMAT else Parsed (i, mkContext ty content o s)
    end.

(** The number of items. *)
Fixpoint check_loop (fuel : nat) (c : context) (nPropertyCount : Z) {struct fuel} : parsed Z :=
  match fuel with
  | O => Hang
  | S fuel =>
      match libManifest2GetNextItem c with
      | Hang => Hang
      | Failed e => if e =? S_ERROR_ITEM_NOT_FOUND then Parsed nPropertyCount else Failed e
      | Parsed (_, c) => check_loop fuel c (u32 (nPropertyCount + 1))
      end
  end.
Definition libManifest2CheckFormat (ty : manifest_type) (content : list Z) : parsed Z :=
  check_loop (S (length content)) (libManifest2InitContext ty content) 0.
