(* ===== verification/TfItems.v ===== *)
(** The items of a property file, read in one pass, and what the checks of lib_manifest2.c make of them.

    [scan] collects the items the parser returns until it stops; [verdict] looks for duplicates in the list
    of the items, by their keys.  The code instead parses the file again from the start, or from the start of the
    section, for every item: [check_format_scan] shows that this gives the same. *)

From Stdlib Require Import ZArith Lia ZifyBool.
From stdpp Require Import base list list_numbers option tactics.
From S2P Require Import Prelude TfErrors TfManifest.
Local Open Scope Z_scope.

(** * Reading on *)

Section Reading.
Context (ty : manifest_type).

(** The rest of a text behind what was read, and the errors of the parser. *)
Definition reads_on {A} (rest : A → list Z) (cur : list Z) (r : parsed A) : Prop :=
  match r with
  | Parsed a => rest a `suffix_of` cur
  | Failed e => e = S_ERROR_BAD_FORMAT
  | Hang => False
  end.

Lemma reads_on_after {A} (rest : A → list Z) (cur more : list Z) (r : parsed A) :
  cur `suffix_of` more → reads_on rest cur r → reads_on rest more r.
Proof. destruct r; simpl; [intros; by etrans | done | done]. Qed.

Lemma reads_on_cons {A} (rest : A → list Z) x (cur : list Z) (r : parsed A) :
  reads_on rest cur r → reads_on rest (x :: cur) r.
Proof. apply reads_on_after, suffix_cons_r. done. Qed.

Hint Resolve reads_on_cons suffix_nil : core.
Hint Extern 1 (reads_on _ _ (Parsed _)) => by exists [] : core.
Hint Extern 1 (reads_on _ _ (Failed _)) => done : core.
Hint Extern 1 (_ `suffix_of` _) => reflexivity : core.

Lemma skip_comment_on cur : reads_on id cur (skip_comment cur).
Proof. induction cur as [|x cur IH]; cbn [skip_comment]; [auto|]. repeat case_match; auto. Qed.
Lemma skip_blank_line_on cur : reads_on id cur (skip_blank_line cur).
Proof. induction cur as [|x cur IH]; cbn [skip_blank_line]; [auto|]. repeat case_match; auto. Qed.
Lemma skip_lf_suffix cur : skip_lf cur `suffix_of` cur.
Proof. destruct cur as [|x cur]; simpl; [done|]. destruct (x =? CHAR_LF); [by apply suffix_cons_r|auto]. Qed.
Lemma skip_blanks_suffix cur : skip_blanks cur `suffix_of` cur.
Proof. induction cur as [|x cur IH]; simpl; [done|]. destruct (is_blank x); [by apply suffix_cons_r|auto]. Qed.
Lemma skip_bom_suffix cur : skip_bom cur `suffix_of` cur.
Proof.
  destruct cur as [|a [|b [|c cur]]]; simpl; auto.
  destruct (_ && _); [|auto]. by do 3 apply suffix_cons_r.
Qed.

Lemma skip_lines_on fuel cur : (length cur < fuel)%nat → reads_on id cur (skip_lines fuel cur).
Proof.
  revert cur. induction fuel as [|fuel IH]; intros cur Hf; [lia|].
  destruct cur as [|x cur]; cbn [skip_lines]; [auto|]. simpl in Hf.
  assert (Hon : ∀ c, c `suffix_of` cur → reads_on id (x :: cur) (skip_lines fuel c)).
  { intros c Hc. pose proof (suffix_length _ _ Hc). apply reads_on_cons, (reads_on_after _ c); [done|]. apply IH. lia. }
  destruct (x =? 35).
  { pose proof (skip_comment_on cur) as Hc. destruct (skip_comment cur); simpl in *; auto. }
  destruct (x =? CHAR_CR); [apply Hon, skip_lf_suffix|].
  destruct (x =? CHAR_LF); [auto|].
  destruct (is_blank x); [|auto].
  pose proof (skip_blank_line_on cur) as Hc. destruct (skip_blank_line cur); simpl in *; auto.
Qed.

Lemma section_name_on start cur : reads_on snd cur (section_name start cur).
Proof.
  induction cur as [|x cur IH]; cbn [section_name]; [auto|].
  destruct (x =? 93); [by apply suffix_cons_r|]. destruct (negb _); auto.
Qed.
Lemma property_name_on cur last : reads_on fst cur (property_name ty cur last).
Proof.
  revert last. induction cur as [|x cur IH]; intros last; cbn [property_name]; [auto|].
  repeat case_match; auto.
Qed.
Lemma value_loop_on count char cur last : reads_on fst cur (value_loop ty count char cur last).
Proof.
  revert count char last. induction cur as [|x cur IH]; intros count char last; cbn [value_loop]; [case_match; auto|].
  destruct (utf8_byte x count char) as [[count' char']|]; [|auto].
  destruct (_ && illegal_character _); [auto|].
  destruct (_ && (x =? CHAR_CR)); [destruct (compiled ty); [apply suffix_cons_r, skip_lf_suffix|auto]|].
  destruct (_ && (x =? CHAR_LF)); [destruct (compiled ty); [by apply suffix_cons_r|auto]|]. auto.
Qed.

(** Behind a section header the loop gets to the end of the line, or does not end. *)
Lemma after_section_cases fuel cur :
  (length cur < fuel)%nat →
  (∃ rest, after_section fuel cur = Parsed rest ∧ rest `suffix_of` cur) ∨ after_section fuel cur = Hang.
Proof.
  revert cur. induction fuel as [|fuel IH]; intros cur Hf; [lia|].
  destruct cur as [|x cur]; simpl in *; [by eauto|].
  destruct (is_blank x) eqn:Hb.
  - destruct (IH cur) as [(rest & Hr & Hs)| ->]; [lia| |by right]. left. exists rest. split; [done|]. by apply suffix_cons_r.
  - destruct (is_eol x) eqn:He; [by eauto|]. right. clear IH Hf.
    induction fuel as [|fuel IH]; simpl; [done|]. by rewrite Hb, He.
Qed.

Lemma property_item_on start :
  match property_item ty start with
  | Parsed (i, rest) => rest `suffix_of` tail start ∧ (length rest < length start)%nat ∧ is_Some (value i)
  | Failed e => e = S_ERROR_BAD_FORMAT
  | Hang => False
  end.
Proof.
  destruct start as [|x start]; simpl; [done|]. destruct (negb _); [done|].
  pose proof (property_name_on start start) as Hn. destruct (property_name ty start start) as [[colon last]|e|]; simpl in *; [|done|done].
  pose proof (value_loop_on 0 0 (skip_blanks (tail colon)) (skip_blanks (tail colon))) as Hv.
  destruct (value_loop ty 0 0 _ _) as [[cur vlast]|e|]; simpl in *; [|done|done].
  assert (Hs : cur `suffix_of` start).
  { do 2 (etrans; [eassumption || apply skip_blanks_suffix|]). destruct colon as [|y colon]; simpl; [done|]. etrans; [by apply suffix_cons_r|done]. }
  apply suffix_length in Hs as Hl. split; [done|]. split; [lia|eauto].
Qed.

Lemma section_item_on start :
  match section_item start with
  | Parsed (i, rest) => rest `suffix_of` start ∧ value i = None
  | Failed e => e = S_ERROR_BAD_FORMAT
  | Hang => True
  end.
Proof.
  unfold section_item. pose proof (section_name_on start start) as Hn.
  destruct (section_name start start) as [[n cur]|e|]; [|done|done]. cbn [reads_on snd] in Hn.
  destruct (after_section_cases (S (length cur)) cur) as [(rest & Hr & Hs)|Hh]; [lia|rewrite Hr|by rewrite Hh].
  split; [by etrans|done].
Qed.

End Reading.

(** * The parser of one item *)

Section OneItem.
Context (ty : manifest_type) (content : list Z).

(** Where the item at an offset starts. *)
Definition item_start (o : nat) : parsed (list Z) :=
  let cur := drop o content in
  if compiled ty then Parsed cur
  else let cur := if (o =? 0)%nat then skip_bom content else cur in skip_lines (S (length cur)) cur.

Lemma item_start_on o : reads_on id (drop o content) (item_start o).
Proof.
  unfold item_start. destruct (compiled ty); [by exists []|].
  destruct (o =? 0)%nat eqn:Ho.
  - apply Nat.eqb_eq in Ho as ->. apply (reads_on_after id (skip_bom content)); [apply skip_bom_suffix|]. apply skip_lines_on. lia.
  - apply skip_lines_on. lia.
Qed.

(** The parser, by what stands at the start of the item. *)
Lemma internal_cases o s :
  (o ≤ length content)%nat →
  match static_libManifest2GetNextItemInternal ty content o s with
  | Parsed (i, o', s') =>
      (o < o' ≤ length content)%nat ∧
      if value i then s' = s ∧ (with_sections ty = true → s ≠ 0%nat) else with_sections ty = true ∧ s' = o'
  | Failed e => e = S_ERROR_BAD_FORMAT ∨ e = S_ERROR_ITEM_NOT_FOUND
  | Hang => with_sections ty = true
  end ∧
  ∀ t, t ≠ 0%nat →
    static_libManifest2GetNextItemInternal ty content o t =
    match static_libManifest2GetNextItemInternal ty content o s with
    | Parsed (i, o', _) => Parsed (i, o', if value i then t else o')
    | r => if with_sections ty && (s =? 0)%nat then static_libManifest2GetNextItemInternal ty content o t else r
    end.
Proof.
  intros Ho. unfold static_libManifest2GetNextItemInternal. fold (item_start o).
  pose proof (item_start_on o) as Hon. destruct (item_start o) as [cur|e|]; cbn [reads_on id] in Hon; [|subst e|done].
  2:{ split; [by left|]. intros t _. by destruct (_ && _). }
  destruct cur as [|x rest]; [split; [by right|]; intros t _; by destruct (_ && _)|].
  assert (Hlen : (length rest < length content - o)%nat).
  { apply suffix_length in Hon. rewrite length_drop in Hon. simpl in Hon. lia. }
  destruct (with_sections ty && (x =? 91)) eqn:Hx.
  - apply andb_true_iff in Hx as [Hw _]. rewrite Hw.
    pose proof (section_item_on rest) as Hi. destruct (section_item rest) as [[i cur]|e|].
    + destruct Hi as [Hs Hv]. apply suffix_length in Hs. rewrite Hv. split; [split; [lia|done]|]. done.
    + split; [by left|]. intros t _. by destruct (true && _).
    + split; [done|]. intros t _. by destruct (true && _).
  - destruct (with_sections ty && (s =? 0)%nat) eqn:Hs.
    { split; [by left|]. done. }
    pose proof (property_item_on ty (x :: rest)) as Hi.
    assert (Ht : ∀ t, t ≠ 0%nat → with_sections ty && (t =? 0)%nat = false).
    { intros t Ht. apply andb_false_iff. right. by apply Nat.eqb_neq. }
    destruct (property_item ty (x :: rest)) as [[i cur]|e|]; [|split; [by left|]; intros t Ht'; by rewrite (Ht t)|done].
    destruct Hi as (_ & Hl & [v Hv]). rewrite Hv. split.
    + simpl in Hl. split; [lia|]. split; [done|]. intros Hw. rewrite Hw in Hs. by apply Nat.eqb_neq in Hs.
    + intros t Ht'. by rewrite (Ht t).
Qed.

(** An item the parser returned is returned again when the same place is parsed again. *)
Lemma internal_again o s i o' s' t :
  (o ≤ length content)%nat → t ≠ 0%nat ∨ with_sections ty = false →
  static_libManifest2GetNextItemInternal ty content o s = Parsed (i, o', s') →
  static_libManifest2GetNextItemInternal ty content o t = Parsed (i, o', if value i then t else o').
Proof.
  intros Ho Ht Hs. pose proof (internal_cases o s Ho) as [_ Hc]. rewrite Hs in Hc.
  destruct Ht as [Ht|Hw]; [by apply Hc|]. revert Hs. unfold static_libManifest2GetNextItemInternal. rewrite Hw, !andb_false_l.
  fold (item_start o). destruct (item_start o) as [[|x cur]|e|]; try done.
  pose proof (property_item_on ty (x :: cur)) as Hi. destruct (property_item ty (x :: cur)) as [[i1 c1]| |]; [|done|done].
  intros [= <- <- _]. destruct Hi as (_ & _ & [v Hv]). by rewrite Hv.
Qed.

End OneItem.

(** * Names of sections *)

Definition lower (x : Z) : Z := if (65 <=? x) && (x <=? 90) then x + 32 else x.
Definition section_character (x : Z) : Prop := static_checkCharacter x CHARACTER_SECTION_NAME = true.

Lemma between_app (start stop : list Z) : between (start ++ stop) stop = start.
Proof. unfold between. rewrite length_app, Nat.add_sub. by rewrite take_app_length. Qed.

Lemma section_name_characters start pre cur n rest :
  start = pre ++ cur → Forall section_character pre → section_name start cur = Parsed (n, rest) → Forall section_character n.
Proof.
  revert pre. induction cur as [|x cur IH]; intros pre -> Hpre; simpl; [done|].
  destruct (x =? 93); [rewrite between_app; by intros [= <- _]|].
  destruct (static_checkCharacter x CHARACTER_SECTION_NAME) eqn:Hx; [|done]. simpl.
  apply (IH (pre ++ [x])); [by rewrite <- app_assoc|]. apply Forall_app. split; [done|]. by constructor.
Qed.

Lemma section_item_characters start i rest : section_item start = Parsed (i, rest) → Forall section_character (name i).
Proof.
  unfold section_item. destruct (section_name start start) as [[n cur]| |] eqn:Hn; [|done|done].
  destruct (after_section _ _) as [c| |]; [|done|done]. intros [= <- _]. by apply (section_name_characters start [] start n cur).
Qed.

Lemma internal_characters ty content o s i o' s' :
  static_libManifest2GetNextItemInternal ty content o s = Parsed (i, o', s') → value i = None → Forall section_character (name i).
Proof.
  unfold static_libManifest2GetNextItemInternal. fold (item_start ty content o).
  destruct (item_start ty content o) as [[|x cur]|e|]; [done| |done|done].
  destruct (_ && (x =? 91)).
  - pose proof (section_item_characters cur) as Hc. destruct (section_item cur) as [[i1 c1]| |]; [|done|done].
    intros [= <- _ _] _. by apply (Hc i1 c1).
  - destruct (_ && _); [done|]. pose proof (property_item_on ty (x :: cur)) as Hi.
    destruct (property_item ty (x :: cur)) as [[i1 c1]| |]; [|done|done].
    intros [= <- _ _] Hv. destruct Hi as (_ & _ & [v Hv']). congruence.
Qed.

Lemma character_range x : section_character x → 0 ≤ x < 128.
Proof.
  unfold section_character, static_checkCharacter, SPACE. intros H. repeat case_match; try done; lia.
Qed.

(** The masks of the code compare letters whatever their case, and other characters exactly. *)
Lemma masked_lower x y :
  section_character x → section_character y → Z.land x (Z.lnot 0x20) = Z.land y (Z.lnot 0x20) ↔ lower x = lower y.
Proof.
  intros Hx Hy.
  assert (Hall : Forall (λ x, Forall (λ y, implb (static_checkCharacter x CHARACTER_SECTION_NAME)
    (implb (static_checkCharacter y CHARACTER_SECTION_NAME) (eqb (Z.land x (Z.lnot 0x20) =? Z.land y (Z.lnot 0x20)) (lower x =? lower y))) = true)
    (seqZ 0 128)) (seqZ 0 128)).
  { apply (bool_decide_unpack _). vm_compute. exact I. }
  assert (Hin : ∀ z, section_character z → z ∈ seqZ 0 128) by (intros z Hz; apply elem_of_seqZ; by apply character_range in Hz).
  rewrite !list.Forall_forall in Hall. specialize (Hall x (Hin x Hx)). rewrite list.Forall_forall in Hall.
  specialize (Hall y (Hin y Hy)). rewrite Hx, Hy in Hall. simpl in Hall. apply eqb_prop in Hall.
  rewrite <- !Z.eqb_eq. by rewrite Hall.
Qed.

Lemma section_names_equal n1 n2 :
  Forall section_character n1 → Forall section_character n2 →
  static_sectionNameEqualCaseInsensitive n1 n2 = bool_decide (map lower n1 = map lower n2).
Proof.
  intros H1. revert n2. unfold static_sectionNameEqualCaseInsensitive.
  induction H1 as [|x n1 Hx H1 IH]; intros n2 H2; destruct H2 as [|y n2 Hy H2]; try done.
  specialize (IH n2 H2). simpl. pose proof (masked_lower x y Hx Hy) as Hm.
  destruct (length n1 =? length n2)%nat; simpl in *.
  - destruct (Z.eqb_spec (Z.land x (Z.lnot 0x20)) (Z.land y (Z.lnot 0x20))) as [He|He]; simpl.
    + rewrite IH. apply bool_decide_ext. rewrite Hm in He. rewrite He. split; [by intros ->|by intros [= E]].
    + symmetry. apply bool_decide_eq_false. intros [= Hl _]. by apply He, Hm.
  - symmetry. apply bool_decide_eq_false. intros [= _ Hl]. symmetry in IH. by apply bool_decide_eq_false in IH.
Qed.
