(* ===== verification/TfCheck.v ===== *)
(** The items of a property file as a caller gets them (libManifest2GetNextItem, libManifest2CheckFormat), against one pass over
    the file.

    The code looks for duplicates by parsing the file again, from the start or from the start of the section,
    for every item.  Here the items are read once, every item has a key, and a file is accepted when it parses to
    its end and no two keys are equal. *)

From Stdlib Require Import ZArith Lia.
From stdpp Require Import base list list_numbers option tactics.
From S2P Require Import Prelude TfErrors TfManifest TfItems.
Local Open Scope Z_scope.

(** * The items and their keys *)

Inductive ending := AtEnd | Malformed | Endless.

(** The items up to the first error, and what comes behind them. *)
Fixpoint scan (fuel : nat) (ty : manifest_type) (content : list Z) (o s : nat) {struct fuel} : list item * ending :=
  match fuel with
  | O => ([], Endless)
  | S fuel =>
      match static_libManifest2GetNextItemInternal ty content o s with
      | Parsed (i, o, s) => let '(l, e) := scan fuel ty content o s in (i :: l, e)
      | Failed e => ([], if e =? S_ERROR_ITEM_NOT_FOUND then AtEnd else Malformed)
      | Hang => ([], Endless)
      end
  end.

(** A section is known by its name whatever its case, a property by the number of its section and its name. *)
Definition key (n : nat) (i : item) : list Z + nat * list Z :=
  if value i then inr (n, name i) else inl (map lower (name i)).
Definition section_after (n : nat) (i : item) : nat := if value i then n else S n.
Fixpoint keys (n : nat) (l : list item) : list (list Z + nat * list Z) :=
  match l with [] => [] | i :: l => key n i :: keys (section_after n i) l end.

Definition verdict (ty : manifest_type) (r : list item * ending) : parsed (list item) :=
  if negb (compiled ty) && negb (bool_decide (NoDup (keys 0 (fst r)))) then Failed S_ERROR_BAD_FORMAT
  else match snd r with
       | AtEnd => Parsed (fst r)
       | Malformed => Failed S_ERROR_BAD_FORMAT
       | Endless => Hang
       end.

(** The items a caller gets that asks for one after the other, as the check does. *)
Fixpoint get_items (fuel : nat) (c : context) {struct fuel} : parsed (list item) :=
  match fuel with
  | O => Hang
  | S fuel =>
      match libManifest2GetNextItem c with
      | Hang => Hang
      | Failed e => if e =? S_ERROR_ITEM_NOT_FOUND then Parsed [] else Failed e
      | Parsed (i, c) => let! l := get_items fuel c in Parsed (i :: l)
      end
  end.

Lemma check_loop_items fuel c n :
  check_loop fuel c (u32 n) = let! l := get_items fuel c in Parsed (u32 (n + Z.of_nat (length l))).
Proof.
  revert c n. induction fuel as [|fuel IH]; intros c n; simpl; [done|].
  destruct (libManifest2GetNextItem c) as [[i c']|e|]; [|by destruct (e =? _); [rewrite Z.add_0_r|]|done].
  assert (u32 (u32 n + 1) = u32 (n + 1)) as -> by (unfold uwrap; by rewrite Zplus_mod_idemp_l).
  rewrite IH. destruct (get_items fuel c') as [l| |]; [|done|done]. f_equal. f_equal. simpl. lia.
Qed.

(** * Keys *)

Definition last_section (n : nat) (l : list item) : nat := foldl section_after n l.

Lemma keys_app n l1 l2 : keys n (l1 ++ l2) = keys n l1 ++ keys (last_section n l1) l2.
Proof. revert n. induction l1 as [|i l1 IH]; intros n; simpl; [done|]. by rewrite IH. Qed.

Lemma last_section_le n l : (n ≤ last_section n l)%nat.
Proof. revert n. induction l as [|i l IH]; intros n; simpl; [done|]. etrans; [|apply IH]. unfold section_after. destruct (value i); lia. Qed.

Lemma last_section_properties n l : Forall (λ i, is_Some (value i)) l → last_section n l = n.
Proof. induction 1 as [|i l [v Hv] Hl IH]; simpl; [done|]. unfold section_after. by rewrite Hv. Qed.

Lemma section_key n k l : inl k ∈ keys n l ↔ ∃ i, i ∈ l ∧ value i = None ∧ map lower (name i) = k.
Proof.
  revert n. induction l as [|i l IH]; intros n; simpl.
  - split; [by intros ?%not_elem_of_nil|by intros (? & ?%not_elem_of_nil & _)].
  - rewrite elem_of_cons, IH. unfold key. setoid_rewrite elem_of_cons. destruct (value i) eqn:Hv; naive_solver.
Qed.

Lemma property_key_section n m x l : inr (m, x) ∈ keys n l → (n ≤ m ≤ last_section n l)%nat.
Proof.
  revert n. induction l as [|i l IH]; intros n; simpl; [by intros ?%not_elem_of_nil|].
  rewrite elem_of_cons. intros [He|Hl].
  - unfold key in He. destruct (value i) eqn:Hv; simplify_eq. split; [done|].
    replace (section_after n i) with n by (unfold section_after; by rewrite Hv). apply last_section_le.
  - apply IH in Hl. unfold section_after in *. destruct (value i); lia.
Qed.

Lemma property_key n x l :
  Forall (λ i, is_Some (value i)) l → inr (n, x) ∈ keys n l ↔ ∃ i, i ∈ l ∧ name i = x.
Proof.
  induction 1 as [|i l [v Hv] Hl IH]; simpl.
  - split; [by intros ?%not_elem_of_nil|by intros (? & ?%not_elem_of_nil & _)].
  - rewrite elem_of_cons. unfold key, section_after. rewrite Hv, IH. setoid_rewrite elem_of_cons. naive_solver.
Qed.

(** Only the properties behind the last section header share its number. *)
Lemma property_key_last n l1 hdr l2 x :
  value hdr = None → Forall (λ i, is_Some (value i)) l2 →
  inr (last_section n (l1 ++ hdr :: l2), x) ∈ keys n (l1 ++ hdr :: l2) ↔ ∃ i, i ∈ l2 ∧ name i = x.
Proof.
  intros Hh Hl2. unfold last_section. rewrite foldl_app. cbn [foldl]. fold (last_section n l1).
  replace (section_after (last_section n l1) hdr) with (S (last_section n l1)) by (unfold section_after; by rewrite Hh).
  fold (last_section (S (last_section n l1)) l2). rewrite (last_section_properties _ l2 Hl2).
  rewrite keys_app, elem_of_app. cbn [keys]. rewrite elem_of_cons. unfold key at 1. unfold section_after at 1. rewrite Hh.
  rewrite (property_key _ x l2 Hl2). split; [|by eauto].
  intros [Hk|[Hk|Hk]]; [|done|done]. apply property_key_section in Hk. lia.
Qed.

Section Check.
Context (ty : manifest_type) (content : list Z).
Notation next := (static_libManifest2GetNextItemInternal ty content).

(** * Parsing again *)

(** The offsets the parser goes through when it parses items again. *)
Inductive path : nat → list item → nat → Prop :=
  | path_nil o : path o [] o
  | path_cons o i o1 l o2 :
      (∀ t, t ≠ 0%nat ∨ with_sections ty = false → next o t = Parsed (i, o1, if value i then t else o1)) →
      (o < o1)%nat → path o1 l o2 → path o (i :: l) o2.

Lemma path_snoc o l o1 i o2 :
  path o l o1 → (∀ t, t ≠ 0%nat ∨ with_sections ty = false → next o1 t = Parsed (i, o2, if value i then t else o2)) →
  (o1 < o2)%nat → path o (l ++ [i]) o2.
Proof. induction 1; intros; simpl; econstructor; eauto using path. Qed.

Lemma path_length o l o1 : path o l o1 → (o + length l ≤ o1)%nat.
Proof. induction 1; simpl; lia. Qed.

Lemma duplicate_loop_path fuel i o l original t :
  path o l original → t ≠ 0%nat ∨ with_sections ty = false → (length l ≤ fuel)%nat →
  duplicate_loop fuel ty content i o t original = Parsed (existsb (duplicate ty i) l).
Proof.
  intros Hp. revert fuel t. induction Hp as [o|o j o1 l o2 Hn Ho Hp IH]; intros fuel t Ht Hf.
  - destruct fuel; simpl; by rewrite (proj2 (Nat.ltb_ge o o)).
  - simpl in Hf. destruct fuel as [|fuel]; [lia|]. apply path_length in Hp as Hl.
    cbn [duplicate_loop existsb]. rewrite (proj2 (Nat.ltb_lt o o2)) by lia. rewrite (Hn t Ht).
    destruct (duplicate ty i j); [done|]. apply IH; [|lia]. destruct (value j); [done|]. left; lia.
Qed.

(** * The state of the parser *)

Definition section_ok (s o : nat) (before : list item) : Prop :=
  if with_sections ty then
    s = 0%nat ∧ before = [] ∨
    s ≠ 0%nat ∧ ∃ l1 hdr l2, before = l1 ++ hdr :: l2 ∧ value hdr = None ∧ Forall (λ i, is_Some (value i)) l2 ∧ path s l2 o
  else s = 0%nat ∧ Forall (λ i, is_Some (value i)) before.

Record reached (o s : nat) (before : list item) : Prop := {
  reached_path : path 0 before o;
  reached_bound : (o ≤ length content)%nat;
  reached_section : section_ok s o before;
  reached_names : Forall (λ i, value i = None → Forall section_character (name i)) before;
}.

Lemma reached_start : reached 0 0 [].
Proof.
  split; [constructor|lia| |constructor]. unfold section_ok. destruct (with_sections ty); [by left|done].
Qed.

Lemma reached_length o s before : reached o s before → (length before ≤ o)%nat.
Proof. intros [Hp _ _ _]. by apply path_length in Hp. Qed.

Lemma reached_next o s before i o' s' :
  reached o s before → next o s = Parsed (i, o', s') → reached o' s' (before ++ [i]) ∧ (o < o')%nat.
Proof.
  intros [Hp Hb Hs Hc] Hn. pose proof (internal_cases ty content o s Hb) as [Hi _]. rewrite Hn in Hi.
  destruct Hi as [Ho Hv].
  assert (Hag : ∀ t, t ≠ 0%nat ∨ with_sections ty = false → next o t = Parsed (i, o', if value i then t else o')).
  { intros t Ht. by eapply internal_again. }
  split; [split|lia]; [by eapply path_snoc; [|done|lia]|lia| |].
  - unfold section_ok in *. destruct (with_sections ty) eqn:Hw.
    + right. destruct (value i) as [v|] eqn:Hvi.
      * destruct Hv as [-> Hv]. destruct Hs as [[-> _]|(Hs & l1 & hdr & l2 & -> & Hh & Hl & Hp2)]; [by destruct Hv|].
        split; [done|]. exists l1, hdr, (l2 ++ [i]). rewrite <- app_assoc. split; [done|]. split; [done|].
        split; [apply Forall_app; split; [done|]; constructor; [by eexists|done]|].
        eapply path_snoc; [done| |lia]. intros t Ht. rewrite Hw in Ht. rewrite Hvi. by apply Hag.
      * destruct Hv as [_ ->]. split; [lia|]. exists before, i, []. split; [done|]. split; [done|]. split; [constructor|constructor].
    + destruct Hs as [-> Hs]. destruct (value i) eqn:Hvi; [|by destruct Hv].
      destruct Hv as [-> _]. split; [done|]. apply Forall_app. split; [done|]. constructor; [by eexists|done].
  - apply Forall_app. split; [done|]. constructor; [|done]. by eapply internal_characters.
Qed.

(** * Duplicates *)

Lemma existsb_bool_decide {A} (f : A → bool) l (P : Prop) `{!Decision P} :
  (P ↔ ∃ i, i ∈ l ∧ f i = true) → existsb f l = bool_decide P.
Proof.
  intros HP. apply eq_bool_prop_intro. rewrite bool_decide_spec, HP, Is_true_true, existsb_exists.
  by setoid_rewrite list_elem_of_In.
Qed.

Lemma duplicate_property i dup : with_sections ty = false ∨ is_Some (value i) → duplicate ty i dup = bool_decide (name dup = name i).
Proof. unfold duplicate. intros [->|[v ->]]; [done|]. by destruct (with_sections ty). Qed.

Lemma duplicate_section i dup :
  with_sections ty = true → value i = None → Forall section_character (name i) →
  (value dup = None → Forall section_character (name dup)) →
  duplicate ty i dup = true ↔ value dup = None ∧ map lower (name dup) = map lower (name i).
Proof.
  unfold duplicate. intros -> -> Hi Hd. destruct (value dup); [naive_solver|].
  rewrite section_names_equal by auto. rewrite bool_decide_eq_true. naive_solver.
Qed.

(** Where the search for duplicates of an item starts; it finds one when the key is there. *)
Definition search_start (s : nat) (i : item) : nat :=
  if negb (with_sections ty) then 0 else if value i then s else 0.

Lemma search_duplicates o s before i o' s' fuel :
  reached o s before → next o s = Parsed (i, o', s') → (length content ≤ fuel)%nat →
  duplicate_loop fuel ty content i (search_start s' i) s' o =
  Parsed (bool_decide (key (last_section 0 before) i ∈ keys 0 before)).
Proof.
  intros Hr Hn Hf. pose proof (reached_length _ _ _ Hr) as Hlen. destruct Hr as [Hp Hb Hs Hc].
  pose proof (internal_cases ty content o s Hb) as [Hi _]. rewrite Hn in Hi. destruct Hi as [Ho Hv].
  unfold search_start. unfold section_ok in Hs. destruct (with_sections ty) eqn:Hw; simpl.
  - destruct (value i) as [v|] eqn:Hvi.
    + destruct Hv as [-> Hv]. destruct Hs as [[-> _]|(Hs & l1 & hdr & l2 & -> & Hh & Hl & Hp2)]; [by destruct Hv|].
      rewrite length_app in Hlen. simpl in Hlen.
      rewrite (duplicate_loop_path _ _ _ _ _ _ Hp2); [|by left|lia]. f_equal. apply existsb_bool_decide.
      unfold key. rewrite Hvi, property_key_last by done. apply exist_proper. intros j.
      rewrite duplicate_property, bool_decide_eq_true by eauto. done.
    + destruct Hv as [_ ->]. rewrite (duplicate_loop_path _ _ _ _ _ _ Hp); [|left; lia|lia]. f_equal.
      apply existsb_bool_decide. unfold key. rewrite Hvi, section_key. apply exist_proper. intros j.
      pose proof (internal_characters _ _ _ _ _ _ _ Hn Hvi) as Hchars.
      rewrite list.Forall_forall in Hc.
      split; [intros (Hj & Hvj)|intros [Hj Hvj]]; (split; [done|]); by apply (duplicate_section i j Hw Hvi Hchars (Hc j Hj)).
  - destruct Hs as [-> Hs]. destruct (value i) as [v|] eqn:Hvi; [|by destruct Hv].
    rewrite (duplicate_loop_path _ _ _ _ _ _ Hp); [|by right|lia]. f_equal. apply existsb_bool_decide.
    unfold key. rewrite Hvi, last_section_properties, property_key by done. apply exist_proper. intros j.
    rewrite duplicate_property, bool_decide_eq_true by auto. done.
Qed.

Lemma get_next o s before :
  reached o s before →
  libManifest2GetNextItem (mkContext ty content o s) =
  match next o s with
  | Parsed (i, o', s') =>
      if negb (compiled ty) && bool_decide (key (last_section 0 before) i ∈ keys 0 before) then Failed S_ERROR_BAD_FORMAT
      else Parsed (i, mkContext ty content o' s')
  | Failed e => Failed e
  | Hang => Hang
  end.
Proof.
  intros Hr. unfold libManifest2GetNextItem. cbn [nType pManifestContent nOffset nSectionStartOffset].
  destruct (next o s) as [[[i o'] s']|e|] eqn:Hn; [|done|done]. destruct (compiled ty); [done|].
  pose proof (search_duplicates o s before i o' s' (S (length content)) Hr Hn ltac:(lia)) as Hd.
  destruct Hr as [Hp Hb Hs Hc]. pose proof (internal_cases ty content o s Hb) as [Hi _]. rewrite Hn in Hi.
  destruct Hi as [Ho Hv]. unfold search_start in Hd. destruct (with_sections ty) eqn:Hw; simpl in *.
  - destruct (value i).
    + destruct Hv as [-> Hs0]. rewrite (proj2 (Nat.eqb_neq s 0)) by auto. by rewrite Hd.
    + by rewrite Hd.
  - by rewrite Hd.
Qed.

Lemma keys_snoc before i : keys 0 (before ++ [i]) = keys 0 before ++ [key (last_section 0 before) i].
Proof. by rewrite keys_app. Qed.

Lemma keys_cons_dup before i l : key (last_section 0 before) i ∈ keys 0 before → ¬ NoDup (keys 0 (before ++ i :: l)).
Proof. rewrite keys_app, list.NoDup_app. intros Hk (_ & Hd & _). apply (Hd _ Hk). by left. Qed.

Lemma get_items_scan fuel o s before :
  reached o s before → NoDup (keys 0 before) ∨ compiled ty = true → (length content - o < fuel)%nat →
  (let! l := get_items fuel (mkContext ty content o s) in Parsed (before ++ l)) =
  verdict ty (before ++ fst (scan fuel ty content o s), snd (scan fuel ty content o s)).
Proof.
  revert o s before. induction fuel as [|fuel IH]; intros o s before Hr Hd Hf; [lia|].
  assert (Hstop : negb (compiled ty) && negb (bool_decide (NoDup (keys 0 (before ++ [])))) = false).
  { rewrite app_nil_r. destruct Hd as [Hd| ->]; [|done]. rewrite bool_decide_true by done. by destruct (compiled ty). }
  cbn [get_items scan]. pose proof (internal_cases ty content o s (reached_bound _ _ _ Hr)) as [Hi _].
  rewrite (get_next _ _ _ Hr). destruct (next o s) as [[[i o'] s']|e|] eqn:Hn.
  - destruct (reached_next _ _ _ _ _ _ Hr Hn) as [Hr' Ho]. pose proof (reached_bound _ _ _ Hr') as Hb.
    destruct (negb (compiled ty) && bool_decide (key (last_section 0 before) i ∈ keys 0 before)) eqn:Hk.
    + destruct (scan fuel ty content o' s') as [l e]. unfold verdict. cbn [fst snd].
      apply andb_true_iff in Hk as [-> Hk%bool_decide_eq_true].
      rewrite bool_decide_false; [done|]. intros Hnd. by apply (keys_cons_dup _ _ _ Hk) in Hnd.
    + assert (Hd' : NoDup (keys 0 (before ++ [i])) ∨ compiled ty = true).
      { destruct (compiled ty); [by right|]. left. apply bool_decide_eq_false in Hk. destruct Hd as [Hd|]; [|done].
        rewrite keys_snoc. apply list.NoDup_app. split; [done|]. split; [|apply NoDup_singleton].
        by intros k Hk2 ->%list_elem_of_singleton. }
      specialize (IH _ _ _ Hr' Hd' ltac:(lia)). destruct (scan fuel ty content o' s') as [l e]. cbn [fst snd] in *.
      rewrite <- app_assoc in IH. cbn [app] in IH. rewrite <- IH.
      destruct (get_items fuel _) as [l'| |]; [|done|done]. by rewrite <- app_assoc.
  - unfold verdict. cbn [fst snd]. rewrite Hstop, app_nil_r. destruct Hi as [-> | ->]; [done|]. cbn. by rewrite app_nil_r.
  - unfold verdict. cbn [fst snd]. by rewrite Hstop.
Qed.

Lemma scan_length fuel o s :
  (o ≤ length content)%nat → (o + length (fst (scan fuel ty content o s)) ≤ length content)%nat.
Proof.
  revert o s. induction fuel as [|fuel IH]; intros o s Ho; simpl; [lia|].
  pose proof (internal_cases ty content o s Ho) as [Hi _]. destruct (next o s) as [[[i o'] s']|e|]; [|simpl; lia|simpl; lia].
  destruct Hi as [Ho' _]. specialize (IH o' s' ltac:(lia)). destruct (scan fuel ty content o' s') as [l e]. simpl in *. lia.
Qed.

Lemma items_scanned : get_items (S (length content)) (libManifest2InitContext ty content) = verdict ty (scan (S (length content)) ty content 0 0).
Proof.
  pose proof (get_items_scan (S (length content)) 0 0 [] reached_start ltac:(by left; constructor) ltac:(lia)) as Hg.
  unfold libManifest2InitContext. destruct (get_items _ _), (scan _ _ _ _ _); exact Hg.
Qed.

Lemma check_format_scan :
  Z.of_nat (length content) < 2 ^ 32 →
  libManifest2CheckFormat ty content =
  let! l := verdict ty (scan (S (length content)) ty content 0 0) in Parsed (Z.of_nat (length l)).
Proof.
  intros Hc. unfold libManifest2CheckFormat. etrans; [apply (check_loop_items _ _ 0)|]. rewrite items_scanned.
  pose proof (scan_length (S (length content)) 0 0 ltac:(lia)) as Hl.
  destruct (scan _ _ _ _ _) as [l e]. unfold verdict. cbn [fst snd] in *. destruct (_ && negb _); [done|].
  destruct e; [|done|done]. rewrite uwrap_small; [done|]. lia.
Qed.

(** C21: reading a property file item by item is equivalent to one pass over it.  Although the code parses the file again for every
    item, and compares names of sections with a mask over their bytes, a caller gets all the items exactly when all of the file
    parses, no two sections have the same name up to the case of letters and no two properties of one section have the same
    name (in a compiled file nothing is compared); otherwise it gets an error.  The check of the format gives the number of these
    items, or the same error. *)
Theorem items_one_pass :
  Z.of_nat (length content) < 2 ^ 32 →
  let r := verdict ty (scan (S (length content)) ty content 0 0) in
  get_items (S (length content)) (libManifest2InitContext ty content) = r ∧
  libManifest2CheckFormat ty content = let! l := r in Parsed (Z.of_nat (length l)).
Proof. intros Hc. split; [apply items_scanned|by apply check_format_scan]. Qed.

End Check.

(** * Termination *)

(** Every closing bracket is followed by the end of its line, blanks aside. *)
Fixpoint closed_headers (content : list Z) : bool :=
  match content with
  | [] => true
  | x :: rest => (if x =? 93 then match skip_blanks rest with [] => true | y :: _ => is_eol y end else true) && closed_headers rest
  end.

Lemma closed_suffix l content : l `suffix_of` content → closed_headers content = true → closed_headers l = true.
Proof. intros [k ->]. induction k as [|x k IH]; simpl; [done|]. rewrite andb_true_iff. tauto. Qed.

Lemma after_section_closed fuel cur :
  (length cur < fuel)%nat → match skip_blanks cur with [] => true | y :: _ => is_eol y end = true → after_section fuel cur ≠ Hang.
Proof.
  revert cur. induction fuel as [|fuel IH]; intros cur Hf; [lia|]. destruct cur as [|x cur]; simpl in *; [done|].
  destruct (is_blank x); [apply IH; lia|]. by destruct (is_eol x).
Qed.

Lemma section_name_closed start cur n rest :
  closed_headers cur = true → section_name start cur = Parsed (n, rest) →
  match skip_blanks rest with [] => true | y :: _ => is_eol y end = true.
Proof.
  induction cur as [|x cur IH]; simpl; [done|]. rewrite andb_true_iff. intros [Hx Hc].
  destruct (x =? 93); [by intros [= _ <-]|]. destruct (negb _); [done|]. by apply IH.
Qed.

Lemma section_item_closed start : closed_headers start = true → section_item start ≠ Hang.
Proof.
  intros Hc. unfold section_item. pose proof (section_name_on start start) as Hn.
  destruct (section_name start start) as [[n cur]|e|] eqn:Hs; [|done|done].
  pose proof (after_section_closed (S (length cur)) cur ltac:(lia) (section_name_closed _ _ _ _ Hc Hs)) as Ha.
  by destruct (after_section (S (length cur)) cur).
Qed.

Lemma internal_closed ty content o s :
  with_sections ty = false ∨ closed_headers content = true → static_libManifest2GetNextItemInternal ty content o s ≠ Hang.
Proof.
  intros Hc. unfold static_libManifest2GetNextItemInternal. fold (item_start ty content o).
  pose proof (item_start_on ty content o) as Hon. destruct (item_start ty content o) as [[|x cur]|e|]; [done| |done|done].
  destruct (with_sections ty && (x =? 91)) eqn:Hx.
  - destruct Hc as [Hc|Hc]; [by rewrite Hc in Hx|].
    pose proof (section_item_closed cur) as Hi. destruct (section_item cur) as [[i c]|e|]; [done|done|]. intros _. apply Hi; [|done].
    eapply closed_suffix; [|done]. etrans; [apply suffix_cons_r; reflexivity|]. etrans; [exact Hon|]. apply suffix_drop.
  - destruct (_ && (s =? 0)%nat); [done|]. pose proof (property_item_on ty (x :: cur)) as Hi.
    by destruct (property_item ty (x :: cur)) as [[i c]|e|].
Qed.

Lemma scan_closed fuel ty content o s :
  with_sections ty = false ∨ closed_headers content = true → (o ≤ length content)%nat → (length content - o < fuel)%nat →
  snd (scan fuel ty content o s) ≠ Endless.
Proof.
  intros Hc. revert o s. induction fuel as [|fuel IH]; intros o s Ho Hf; [lia|]. cbn [scan].
  pose proof (internal_closed ty content o s Hc) as Hn. pose proof (internal_cases ty content o s Ho) as [Hi _].
  destruct (static_libManifest2GetNextItemInternal ty content o s) as [[[i o'] s']|e|]; [|by destruct (e =? _)|done].
  destruct Hi as [Ho' _]. specialize (IH o' s' ltac:(lia) ltac:(lia)). by destruct (scan fuel ty content o' s').
Qed.

(** the check of a property file ends, whatever bytes it is given: a file without sections always, a file with sections
    when every closing bracket is followed by the end of its line.  One step of each loop per byte is enough, the
    search for duplicates included, which goes through the file once more for every item. *)
Lemma check_format_ends ty content :
  Z.of_nat (length content) < 2 ^ 32 →
  with_sections ty = false ∨ closed_headers content = true → libManifest2CheckFormat ty content ≠ Hang.
Proof.
  intros Hlen Hc. rewrite check_format_scan by done. unfold verdict.
  pose proof (scan_closed (S (length content)) ty content 0 0 Hc ltac:(lia) ltac:(lia)) as He.
  destruct (scan _ _ _ _ _) as [l e]. cbn [fst snd] in *. destruct (_ && negb _); [done|]. by destruct e.
Qed.
