(* ===== verification/TfUtf8.v ===== *)
(** The values of a property file are UTF-8 text.

    The parser checks a value byte by byte (value_loop, utf8_byte).  Here is the encoding of the Unicode standard,
    by ranges and divisions instead of masks and shifts, and the proof that the parser accepts exactly the texts
    it gives. *)

From Stdlib Require Import ZArith Lia ZifyBool.
From stdpp Require Import base list list_numbers option tactics.
From S2P Require Import Prelude TfErrors TfManifest TfItems.
Local Open Scope Z_scope.

(** * The encoding *)

Definition scalar (c : Z) : Prop := 0 < c < 0x110000 ∧ ¬ 0xD800 ≤ c < 0xE000.
#[global] Instance scalar_dec c : Decision (scalar c).
Proof. unfold scalar. apply _. Defined.

Definition utf8 (c : Z) : list Z :=
  if c <? 0x80 then [c]
  else if c <? 0x800 then [0xC0 + c / 64; 0x80 + c mod 64]
  else if c <? 0x10000 then [0xE0 + c / 4096; 0x80 + c / 64 mod 64; 0x80 + c mod 64]
  else [0xF0 + c / 262144; 0x80 + c / 4096 mod 64; 0x80 + c / 64 mod 64; 0x80 + c mod 64].
Definition text (cs : list Z) : list Z := flat_map utf8 cs.

Definition byte (x : Z) : Prop := 0 ≤ x < 256.

(** * One byte *)

(** The masks of the parser, as ranges. *)
Definition lead (x : Z) : option (Z * Z) :=
  if x =? 0 then None
  else if x <? 0x80 then Some (0, x)
  else if x <? 0xC2 then None
  else if x <? 0xE0 then Some (1, x - 0xC0)
  else if x <? 0xF0 then Some (2, x - 0xE0)
  else if x <? 0xF8 then Some (3, x - 0xF0)
  else None.

Lemma every_byte (f : Z → bool) x : forallb f (seqZ 0 256) = true → byte x → f x = true.
Proof. rewrite forallb_forall. intros Hf Hx. apply Hf, list_elem_of_In, elem_of_seqZ. unfold byte in Hx. lia. Qed.

Ltac by_bytes f := apply (every_byte f); [vm_compute; reflexivity|done].

Lemma lead_byte x char : byte x → utf8_byte x 0 char = lead x.
Proof.
  intros Hx. transitivity (utf8_byte x 0 0); [unfold utf8_byte; by repeat case_match|].
  apply (bool_decide_unpack _), Is_true_true.
  by_bytes (λ x, bool_decide (utf8_byte x 0 0 = lead x)).
Qed.

Definition continuation (x : Z) : Prop := 0x80 ≤ x < 0xC0.

Lemma low_bits c y : 0 ≤ y < 64 → Z.lor (c * 64) y = c * 64 + y.
Proof.
  intros Hy. assert (Hl : Z.land (c * 2 ^ 6) y = 0).
  { apply Z.bits_inj'. intros n Hn. rewrite Z.land_spec, Z.bits_0. destruct (Z.lt_ge_cases n 6).
    - by rewrite Z.mul_pow2_bits_low.
    - rewrite <- (Z.mod_small y (2 ^ 6)) by lia. rewrite Z.mod_pow2_bits_high by lia. apply andb_false_r. }
  change 64 with (2 ^ 6). rewrite <- Z.lxor_lor by done. by rewrite Z.add_nocarry_lxor.
Qed.

Lemma follow_byte x n char :
  byte x → 0 < n ≤ 3 → 0 ≤ char < 2 ^ 20 →
  utf8_byte x n char =
  if (0x80 <=? x) && (x <? 0xC0) && negb ((n =? 2) && (char =? 0) && (x <? 0xA0)) && negb ((n =? 3) && (char =? 0) && (x <? 0x90))
  then Some (n - 1, char * 64 + (x - 0x80)) else None.
Proof.
  intros Hx Hn Hchar. unfold utf8_byte. rewrite (proj2 (Z.eqb_neq n 0)) by lia. cbn [negb].
  assert (Hm : (Z.land x 0x80 =? 0) = (x <? 0x80) ∧ (Z.land x 0xC0 =? 0xC0) = (0xC0 <=? x) ∧
    (Z.land x 0xC0 =? 0x80) = ((0x80 <=? x) && (x <? 0xC0)) ∧ (0x80 <= x < 0xC0 → (Z.land x 0x20 =? 0) = (x <? 0xA0)) ∧
    (0x80 <= x < 0xC0 → (Z.land x 0x30 =? 0) = (x <? 0x90)) ∧ (0x80 <= x < 0xC0 → Z.land x 0x3F = x - 0x80)).
  { apply (bool_decide_unpack _), Is_true_true.
    by_bytes (λ x, bool_decide ((Z.land x 0x80 =? 0) = (x <? 0x80) ∧ (Z.land x 0xC0 =? 0xC0) = (0xC0 <=? x) ∧
    (Z.land x 0xC0 =? 0x80) = ((0x80 <=? x) && (x <? 0xC0)) ∧ (0x80 <= x < 0xC0 → (Z.land x 0x20 =? 0) = (x <? 0xA0)) ∧
    (0x80 <= x < 0xC0 → (Z.land x 0x30 =? 0) = (x <? 0x90)) ∧ (0x80 <= x < 0xC0 → Z.land x 0x3F = x - 0x80))). }
  destruct Hm as (-> & -> & -> & H20 & H30 & H3f).
  destruct (Z.ltb_spec x 0x80); [by rewrite (proj2 (Z.leb_gt 128 x))|].
  destruct (Z.leb_spec 0xC0 x); [rewrite (proj2 (Z.ltb_ge x 192)) by done; by rewrite andb_false_r|].
  rewrite (proj2 (Z.leb_le 128 x)), (proj2 (Z.ltb_lt x 192)) by done. cbn [andb].
  rewrite H20, H30, H3f by lia.
  destruct ((n =? 2) && (char =? 0) && (x <? 160)); [done|].
  destruct ((n =? 3) && (char =? 0) && (x <? 144)); [done|]. cbn [negb andb]. f_equal. f_equal.
  rewrite Z.shiftl_mul_pow2 by lia. change (2 ^ 6) with 64. rewrite uwrap_small by lia.
  apply low_bits. lia.
Qed.

(** * The value of a property *)

Section Value.
Context (ty : manifest_type).

(** Where a value ends. *)
Definition line_end (tail : list Z) : Prop := match tail with [] => True | x :: _ => is_eol x = true end.
Definition value_end (tail : list Z) : list Z :=
  if compiled ty then
    match tail with x :: rest => if x =? CHAR_CR then skip_lf rest else rest | [] => [] end
  else tail.
Definition in_line (c : Z) : Prop := is_eol c = false.

Lemma value_loop_start char cur last : Forall byte cur → value_loop ty 0 char cur last = value_loop ty 0 0 cur last.
Proof.
  destruct cur as [|x cur]; [done|]. intros Hb. apply Forall_cons_iff in Hb as [Hx _]. cbn [value_loop].
  by rewrite !lead_byte.
Qed.

Lemma value_at_end char tail last : line_end tail → value_loop ty 0 char tail last = Parsed (value_end tail, last).
Proof.
  destruct tail as [|x tail]; [unfold value_end; by destruct (compiled ty)|]. simpl. unfold is_eol, CHAR_LF, CHAR_CR. intros He.
  unfold value_end. destruct (x =? 10) eqn:H10; [apply Z.eqb_eq in H10 as ->; by destruct (compiled ty)|].
  apply Z.eqb_eq in He as ->. by destruct (compiled ty).
Qed.

Lemma text_app cs1 cs2 : text (cs1 ++ cs2) = text cs1 ++ text cs2.
Proof. apply flat_map_app. Qed.

(** A character that starts a line of its own never does so inside another. *)
Lemma utf8_cases c :
  scalar c →
  (c < 0x80 ∧ utf8 c = [c]) ∨
  (∃ x y, utf8 c = [x; y] ∧ c = (x - 0xC0) * 64 + (y - 0x80) ∧ 0xC2 ≤ x < 0xE0 ∧ continuation y) ∨
  (∃ x y z, utf8 c = [x; y; z] ∧ c = ((x - 0xE0) * 64 + (y - 0x80)) * 64 + (z - 0x80) ∧
     0xE0 ≤ x < 0xF0 ∧ continuation y ∧ continuation z ∧ (x = 0xE0 → 0xA0 ≤ y)) ∨
  (∃ x y z t, utf8 c = [x; y; z; t] ∧ c = (((x - 0xF0) * 64 + (y - 0x80)) * 64 + (z - 0x80)) * 64 + (t - 0x80) ∧
     0xF0 ≤ x < 0xF8 ∧ continuation y ∧ continuation z ∧ continuation t ∧ (x = 0xF0 → 0x90 ≤ y)).
Proof.
  intros [Hc _]. unfold utf8, continuation.
  destruct (Z.ltb_spec c 0x80); [by left|]. right.
  destruct (Z.ltb_spec c 0x800); [left; do 2 eexists; split; [done|]; Z.to_euclidean_division_equations; lia|]. right.
  destruct (Z.ltb_spec c 0x10000); [left; do 3 eexists; split; [done|]|right; do 4 eexists; split; [done|]].
  - assert (c / 4096 = c / 64 / 64) as -> by (rewrite Z.div_div by lia; done).
    Z.to_euclidean_division_equations. lia.
  - assert (c / 262144 = c / 64 / 64 / 64) as -> by (rewrite !Z.div_div by lia; done).
    assert (c / 4096 = c / 64 / 64) as -> by (rewrite !Z.div_div by lia; done).
    Z.to_euclidean_division_equations. lia.
Qed.

Lemma utf8_unique c x y : 
  c = (x - 0xC0) * 64 + (y - 0x80) → 0xC2 ≤ x < 0xE0 → continuation y → utf8 c = [x; y].
Proof.
  unfold utf8, continuation. intros Hc Hx Hy.
  rewrite (proj2 (Z.ltb_ge c 0x80)), (proj2 (Z.ltb_lt c 0x800)) by lia.
  f_equal; [|f_equal]; Z.to_euclidean_division_equations; lia.
Qed.
Lemma utf8_unique_3 c x y z :
  c = ((x - 0xE0) * 64 + (y - 0x80)) * 64 + (z - 0x80) → 0xE0 ≤ x < 0xF0 → continuation y → continuation z →
  (x = 0xE0 → 0xA0 ≤ y) → utf8 c = [x; y; z].
Proof.
  unfold utf8, continuation. intros Hc Hx Hy Hz Hl.
  rewrite (proj2 (Z.ltb_ge c 0x80)), (proj2 (Z.ltb_ge c 0x800)), (proj2 (Z.ltb_lt c 0x10000)) by lia.
  f_equal; [|f_equal; [|f_equal]]; Z.to_euclidean_division_equations; lia.
Qed.
Lemma utf8_unique_4 c x y z t :
  c = (((x - 0xF0) * 64 + (y - 0x80)) * 64 + (z - 0x80)) * 64 + (t - 0x80) → 0xF0 ≤ x < 0xF8 →
  continuation y → continuation z → continuation t → (x = 0xF0 → 0x90 ≤ y) → utf8 c = [x; y; z; t].
Proof.
  unfold utf8, continuation. intros Hc Hx Hy Hz Ht Hl.
  rewrite (proj2 (Z.ltb_ge c 0x80)), (proj2 (Z.ltb_ge c 0x800)), (proj2 (Z.ltb_ge c 0x10000)) by lia.
  f_equal; [|f_equal; [|f_equal; [|f_equal]]]; Z.to_euclidean_division_equations; lia.
Qed.

(** One byte behind the first one of a character. *)
Lemma value_follows n char y rest last :
  continuation y → 0 < n ≤ 3 → 0 ≤ char < 2 ^ 20 →
  ¬ (n = 2 ∧ char = 0 ∧ y < 0xA0) → ¬ (n = 3 ∧ char = 0 ∧ y < 0x90) →
  (n = 1 → illegal_character (char * 64 + (y - 0x80)) = false) →
  value_loop ty n char (y :: rest) last = value_loop ty (n - 1) (char * 64 + (y - 0x80)) rest rest.
Proof.
  intros Hy Hn Hchar H2 H3 Hi. cbn [value_loop]. unfold continuation in Hy.
  rewrite follow_byte by (unfold byte; lia).
  replace ((128 <=? y) && (y <? 192)) with true by lia.
  replace ((n =? 2) && (char =? 0) && (y <? 160)) with false by lia.
  replace ((n =? 3) && (char =? 0) && (y <? 144)) with false by lia. cbn [negb andb].
  replace ((n - 1 =? 0) && illegal_character (char * 64 + (y - 128))) with false.
  2:{ destruct (Z.eqb_spec (n - 1) 0); [|done]. rewrite Hi by lia. done. }
  unfold is_blank, CHAR_CR, CHAR_LF, SPACE, CHAR_TAB.
  replace (y =? 13) with false by lia. replace (y =? 10) with false by lia. rewrite !andb_false_r.
  replace ((y =? 32) || (y =? 9)) with false by lia. done.
Qed.

Lemma value_follows_inv n char cur last r :
  Forall byte cur → 0 < n ≤ 3 → 0 ≤ char < 2 ^ 20 → value_loop ty n char cur last = Parsed r →
  ∃ y rest, cur = y :: rest ∧ continuation y ∧
    ¬ (n = 2 ∧ char = 0 ∧ y < 0xA0) ∧ ¬ (n = 3 ∧ char = 0 ∧ y < 0x90) ∧
    (n = 1 → illegal_character (char * 64 + (y - 0x80)) = false) ∧
    value_loop ty (n - 1) (char * 64 + (y - 0x80)) rest rest = Parsed r.
Proof.
  intros Hb Hn Hchar. destruct cur as [|y rest]; cbn [value_loop]; [by replace (n =? 0) with false by lia|].
  apply Forall_cons_iff in Hb as [Hy Hb]. rewrite follow_byte by done.
  destruct (_ && negb _) eqn:Hok; [|done]. intros Hp. exists y, rest. split; [done|].
  assert (Hcont : continuation y) by (unfold continuation; lia). split; [done|].
  split; [lia|]. split; [lia|].
  destruct ((n - 1 =? 0) && illegal_character (char * 64 + (y - 128))) eqn:Hi; [done|].
  assert (Hi' : n = 1 → illegal_character (char * 64 + (y - 128)) = false) by (intros ->; exact Hi).
  split; [done|]. rewrite <- (value_follows n char y rest last) by (done || lia). cbn [value_loop].
  rewrite follow_byte by done. by rewrite Hok, Hi.
Qed.

Lemma illegal_scalar c : scalar c → illegal_character c = false.
Proof. unfold scalar, illegal_character. lia. Qed.
Lemma legal_scalar c : 0 < c → illegal_character c = false → scalar c.
Proof. unfold scalar, illegal_character. lia. Qed.

Lemma blank_ascii c : 0x80 ≤ c → is_blank c = false.
Proof. unfold is_blank, SPACE, CHAR_TAB. lia. Qed.

Lemma value_ascii char c rest last :
  0 < c < 0x80 → in_line c →
  value_loop ty 0 char (c :: rest) last = value_loop ty 0 c rest (if is_blank c then last else rest).
Proof.
  intros Hc Hl. cbn [value_loop]. rewrite lead_byte by (unfold byte; lia). unfold lead.
  replace (c =? 0) with false by lia. replace (c <? 128) with true by lia. change (0 =? 0) with true. cbn [andb].
  replace (illegal_character c) with false by (unfold illegal_character; lia).
  unfold in_line, is_eol in Hl. apply orb_false_iff in Hl as [-> ->]. by destruct (is_blank c).
Qed.

Lemma value_lead char x n y rest last :
  byte x → 0 < n → lead x = Some (n, y) → value_loop ty 0 char (x :: rest) last = value_loop ty n y rest rest.
Proof.
  intros Hx Hn Hl. cbn [value_loop]. rewrite lead_byte by done. rewrite Hl.
  replace (n =? 0) with false by lia. cbn [andb].
  assert (0x80 ≤ x) by (unfold lead in Hl; repeat case_match; simplify_eq; lia). by rewrite blank_ascii.
Qed.

(** The parser reads the encoding of a character. *)
Lemma value_character char c rest last :
  scalar c → in_line c →
  ∃ char', value_loop ty 0 char (utf8 c ++ rest) last = value_loop ty 0 char' rest (if is_blank c then last else rest).
Proof.
  intros Hc Hl. pose proof (illegal_scalar c Hc) as Hi. unfold lead.
  destruct (utf8_cases c Hc) as [[H ->]|[(x & y & -> & E & Hx & Hy)|[(x & y & z & -> & E & Hx & Hy & Hz & Ho)|
    (x & y & z & t & -> & E & Hx & Hy & Hz & Ht & Ho)]]].
  - exists c. apply value_ascii; [destruct Hc; lia|done].
  - unfold continuation in *. rewrite blank_ascii by lia. eexists. cbn [app].
    rewrite (value_lead _ x 1 (x - 0xC0)); [|unfold byte; lia|lia|].
    2:{ unfold lead. repeat (case_match; try lia); done. }
    rewrite value_follows; [done|done|lia|lia|lia|lia|]. intros _. by rewrite <- E.
  - unfold continuation in *. rewrite blank_ascii by lia. eexists. cbn [app].
    rewrite (value_lead _ x 2 (x - 0xE0)); [|unfold byte; lia|lia|].
    2:{ unfold lead. repeat (case_match; try lia); done. }
    rewrite value_follows; [|done|lia|lia|lia|lia|lia].
    rewrite value_follows; [done|done|lia|lia|lia|lia|]. intros _. by rewrite <- E.
  - unfold continuation in *. rewrite blank_ascii by lia. eexists. cbn [app].
    rewrite (value_lead _ x 3 (x - 0xF0)); [|unfold byte; lia|lia|].
    2:{ unfold lead. repeat (case_match; try lia); done. }
    rewrite value_follows; [|done|lia|lia|lia|lia|lia].
    rewrite value_follows; [|done|lia|lia|lia|lia|lia].
    rewrite value_follows; [done|done|lia|lia|lia|lia|]. intros _. by rewrite <- E.
Qed.

(** The place behind the last character that is no blank. *)
Fixpoint behind (cs tail last : list Z) : list Z :=
  match cs with
  | [] => last
  | c :: cs => behind cs tail (if is_blank c then last else text cs ++ tail)
  end.

Lemma value_text char cs tail last :
  Forall scalar cs → Forall in_line cs → line_end tail →
  value_loop ty 0 char (text cs ++ tail) last = Parsed (value_end tail, behind cs tail last).
Proof.
  intros Hs Hl Ht. revert char last. induction cs as [|c cs IH]; intros char last; [by apply value_at_end|].
  apply Forall_cons_iff in Hs as [Hc Hs]. apply Forall_cons_iff in Hl as [Hcl Hl].
  change (text (c :: cs)) with (utf8 c ++ text cs). rewrite <- app_assoc.
  destruct (value_character char c (text cs ++ tail) last Hc Hcl) as [char' ->]. rewrite IH by done. done.
Qed.

Lemma behind_blanks cs blanks tail last :
  Forall (λ c, is_blank c = true) blanks → behind (cs ++ blanks) tail last = behind cs (text blanks ++ tail) last.
Proof.
  intros Hb. revert last. induction cs as [|c cs IH]; intros last; simpl.
  - induction Hb as [|c blanks Hc Hb IH]; simpl; [done|]. by rewrite Hc.
  - by rewrite IH, text_app, <- app_assoc.
Qed.

Lemma behind_last cs c tail last : is_blank c = false → behind (cs ++ [c]) tail last = tail.
Proof. intros Hc. revert last. induction cs as [|c' cs IH]; intros last; simpl; [by rewrite Hc|]. apply IH. Qed.

(** Whatever the parser accepts is the encoding of a text. *)
Lemma accepted_follow n char v tail last r :
  Forall byte v → Forall in_line v → Forall byte tail → line_end tail →
  0 < n ≤ 3 → 0 ≤ char < 2 ^ 20 → value_loop ty n char (v ++ tail) last = Parsed r →
  ∃ y w, v = y :: w ∧ continuation y ∧ ¬ (n = 2 ∧ char = 0 ∧ y < 0xA0) ∧ ¬ (n = 3 ∧ char = 0 ∧ y < 0x90) ∧
    (n = 1 → illegal_character (char * 64 + (y - 0x80)) = false) ∧ Forall byte w ∧ Forall in_line w ∧
    value_loop ty (n - 1) (char * 64 + (y - 0x80)) (w ++ tail) (w ++ tail) = Parsed r.
Proof.
  intros Hb Hl Htb Ht Hn Hchar Hv.
  destruct (value_follows_inv n char (v ++ tail) last r) as (y & rest & E & Hy & Hrest); [by apply Forall_app|done..|].
  destruct v as [|y' v].
  - simpl in E. subst tail. simpl in Ht. unfold continuation in Hy. unfold is_eol, CHAR_LF, CHAR_CR in Ht. lia.
  - simplify_eq/=. apply Forall_cons_iff in Hb as [_ Hb]. apply Forall_cons_iff in Hl as [_ Hl]. exists y, v. naive_solver.
Qed.

Lemma lead_cases x m char :
  byte x → lead x = Some (m, char) →
  m = 0 ∧ char = x ∧ 0 < x < 0x80 ∨ m = 1 ∧ char = x - 0xC0 ∧ 0xC2 ≤ x < 0xE0 ∨
  m = 2 ∧ char = x - 0xE0 ∧ 0xE0 ≤ x < 0xF0 ∨ m = 3 ∧ char = x - 0xF0 ∧ 0xF0 ≤ x < 0xF8.
Proof. unfold lead, byte. intros Hx Hl. repeat case_match; simplify_eq; lia. Qed.

Lemma accepted_character char x v tail last r :
  Forall byte (x :: v) → Forall in_line (x :: v) → Forall byte tail → line_end tail →
  value_loop ty 0 char (x :: v ++ tail) last = Parsed r →
  ∃ c w char' last', scalar c ∧ x :: v = utf8 c ++ w ∧ Forall byte w ∧ Forall in_line w ∧ (length w ≤ length v)%nat ∧
    value_loop ty 0 char' (w ++ tail) last' = Parsed r.
Proof.
  intros Hb Hl Htb Ht Hp. apply Forall_cons_iff in Hb as [Hx Hb]. apply Forall_cons_iff in Hl as [Hxl Hl].
  assert (Hfirst := Hp). cbn [app value_loop] in Hfirst. rewrite lead_byte in Hfirst by done.
  destruct (lead x) as [[m ch]|] eqn:Hlead; [|done]. clear Hfirst.
  destruct (lead_cases x m ch Hx Hlead) as [(-> & -> & Hr)|[(-> & -> & Hr)|[(-> & -> & Hr)|(-> & -> & Hr)]]].
  - rewrite value_ascii in Hp by done. exists x, v. do 2 eexists. split; [unfold scalar; lia|].
    split; [unfold utf8; by rewrite (proj2 (Z.ltb_lt x 128)) by lia|]. done.
  - rewrite (value_lead _ x 1 _ _ _ Hx ltac:(lia) Hlead) in Hp.
    apply accepted_follow in Hp as (y & w & -> & Hy & _ & _ & Hi & Hbw & Hlw & Hp); [|done..|lia|lia]. unfold continuation in Hy.
    eexists _, w, _, _. split; [apply legal_scalar, Hi; lia|].
    split; [by rewrite (utf8_unique _ x y eq_refl) by (done || unfold continuation; lia)|].
    split; [done|]. split; [done|]. split; [simpl; lia|exact Hp].
  - rewrite (value_lead _ x 2 _ _ _ Hx ltac:(lia) Hlead) in Hp.
    apply accepted_follow in Hp as (y & w & -> & Hy & H2 & _ & _ & Hbw & Hlw & Hp); [|done..|lia|lia]. unfold continuation in Hy.
    apply accepted_follow in Hp as (z & w' & -> & Hz & _ & _ & Hi & Hbw' & Hlw' & Hp); [|done..|lia|lia]. unfold continuation in Hz.
    eexists _, w', _, _. split; [apply legal_scalar, Hi; lia|].
    split; [by rewrite (utf8_unique_3 _ x y z eq_refl) by (done || unfold continuation; lia)|].
    split; [done|]. split; [done|]. split; [simpl; lia|exact Hp].
  - rewrite (value_lead _ x 3 _ _ _ Hx ltac:(lia) Hlead) in Hp.
    apply accepted_follow in Hp as (y & w & -> & Hy & _ & H3 & _ & Hbw & Hlw & Hp); [|done..|lia|lia]. unfold continuation in Hy.
    apply accepted_follow in Hp as (z & w' & -> & Hz & _ & _ & _ & Hbw' & Hlw' & Hp); [|done..|lia|lia]. unfold continuation in Hz.
    apply accepted_follow in Hp as (t & u & -> & Ht' & _ & _ & Hi & Hbu & Hlu & Hp); [|done..|lia|lia]. unfold continuation in Ht'.
    eexists _, u, _, _. split; [apply legal_scalar, Hi; lia|].
    split; [by rewrite (utf8_unique_4 _ x y z t eq_refl) by (done || unfold continuation; lia)|].
    split; [done|]. split; [done|]. split; [simpl; lia|exact Hp].
Qed.

Lemma accepted_text n char v tail last r :
  (length v ≤ n)%nat → Forall byte v → Forall in_line v → Forall byte tail → line_end tail →
  value_loop ty 0 char (v ++ tail) last = Parsed r → ∃ cs, Forall scalar cs ∧ v = text cs.
Proof.
  revert char v last. induction n as [|n IH]; intros char v last Hn Hb Hl Htb Ht Hp.
  { destruct v; [|simpl in Hn; lia]. by exists []. }
  destruct v as [|x v]; [by exists []|]. simpl in Hn.
  destruct (accepted_character char x v tail last r) as (c & w & char' & last' & Hc & E & Hbw & Hlw & Hlen & Hw); [done..|].
  rewrite E. destruct (IH char' w last') as (cs & Hcs & ->); [lia|done..|]. exists (c :: cs). by split; [constructor|].
Qed.

Lemma text_in_line cs : Forall scalar cs → Forall in_line (text cs) → Forall in_line cs.
Proof.
  induction 1 as [|c cs Hc Hcs IH]; [by intros|]. cbn [text flat_map]. intros [Hl Hls]%Forall_app.
  constructor; [|by apply IH]. destruct (Z.lt_ge_cases c 0x80) as [H|H].
  - unfold utf8 in Hl. rewrite (proj2 (Z.ltb_lt c 128)) in Hl by done. by apply Forall_cons_iff in Hl as [Hl _].
  - unfold in_line, is_eol, CHAR_LF, CHAR_CR. lia.
Qed.

End Value.

(** C26: the value of a property is UTF-8 text, exactly.  On any line of bytes (up to an end of line or the end of the file)
    the byte-wise checks of the parser, with its masks, its counter of bytes to come and its tests for overlong forms, succeed if and
    only if the line is the encoding of a sequence of Unicode scalar values: no NUL, no surrogate, nothing beyond
    0x10FFFF, every character in its shortest form. *)
Theorem values_are_utf8 ty v tail :
  Forall byte v → Forall in_line v → Forall byte tail → line_end tail →
  (∃ r, value_loop ty 0 0 (v ++ tail) (v ++ tail) = Parsed r) ↔ ∃ cs, Forall scalar cs ∧ v = text cs.
Proof.
  intros Hb Hl Htb Ht. split; [intros [r Hr]; by eapply accepted_text|].
  intros (cs & Hcs & ->). eexists. apply value_text; [done| |done]. by apply text_in_line.
Qed.
