(* ===== verification/TfDocuments.v ===== *)
(** Property files as they are written: lines of section headers, properties, comments and blanks, and what the
    parser gives back of them. *)

From Stdlib Require Import ZArith Lia ZifyBool.
From stdpp Require Import base list list_numbers option tactics.
From S2P Require Import Prelude TfErrors TfManifest TfItems TfUtf8 TfCheck.
Local Open Scope Z_scope.

(** * Documents *)

Inductive newline := LF | CR | CRLF.
Definition print_newline (n : newline) : list Z := match n with LF => [0x0A] | CR => [0x0D] | CRLF => [0x0D; 0x0A] end.

(** The blanks of a line are kept where the grammar allows them. *)
Inductive line :=
  | Section_header (n blanks : list Z)
  | Property (n before after cs trailing : list Z)
  | Comment (t : list Z)
  | Blanks (blanks : list Z).

Definition print_line (l : line) : list Z :=
  match l with
  | Section_header n blanks => 91 :: n ++ 93 :: blanks
  | Property n before after cs trailing => n ++ before ++ 58 :: after ++ text (cs ++ trailing)
  | Comment t => 35 :: t
  | Blanks blanks => blanks
  end.
Definition print (d : list (line * newline)) : list Z := flat_map (λ '(l, n), print_line l ++ print_newline n) d.

Definition item_of (l : line) : option item :=
  match l with
  | Section_header n _ => Some (mkItem n None)
  | Property n _ _ cs _ => Some (mkItem n (Some (text cs)))
  | Comment _ | Blanks _ => None
  end.
Definition items (d : list (line * newline)) : list item := omap (λ '(l, _), item_of l) d.

(** * Well-formed documents *)

Section Documents.
Context (ty : manifest_type).

Definition blank (x : Z) : Prop := is_blank x = true.
(** A text without blanks at its ends. *)
Definition trimmed (cs : list Z) : Prop :=
  (∀ c l, cs = c :: l → is_blank c = false) ∧ (∀ c l, cs = l ++ [c] → is_blank c = false).
Definition name_ok (n : list Z) : Prop :=
  match n with
  | [] => False
  | x :: n => static_checkCharacter x CHARACTER_NAME_FIRST = true ∧ Forall (λ x, static_checkCharacter x CHARACTER_NAME_SUBSEQUENT = true) n
  end.

Definition line_ok (l : line) : Prop :=
  match l with
  | Section_header n blanks => with_sections ty = true ∧ Forall section_character n ∧ Forall blank blanks
  | Property n before after cs trailing =>
      name_ok n ∧ Forall blank before ∧ (compiled ty = true → before = []) ∧ Forall blank after ∧
      Forall scalar cs ∧ Forall in_line cs ∧ trimmed cs ∧ Forall blank trailing ∧ (cs = [] → trailing = [])
  | Comment t => compiled ty = false ∧ Forall (λ x, in_line x ∧ x ≠ 0) t
  | Blanks blanks => compiled ty = false ∧ Forall blank blanks
  end.
Definition document (d : list (line * newline)) : Prop := Forall (λ '(l, _), line_ok l) d.

(** A file with sections begins with one. *)
Definition opened (l : list item) : Prop :=
  with_sections ty = true → match l with i :: _ => value i = None | [] => True end.

(** * Lines without an item *)

Definition skipped (cur : list Z) : parsed (list Z) := skip_lines (S (length cur)) cur.

Lemma skip_lines_more fuel cur : (length cur < fuel)%nat → skip_lines fuel cur = skipped cur.
Proof.
  unfold skipped. assert (Hgen : ∀ f1 f2 c, (length c < f1)%nat → (length c < f2)%nat → skip_lines f1 c = skip_lines f2 c).
  2:{ intros Hf. apply Hgen; lia. }
  clear. induction f1 as [|f1 IH]; intros f2 c H1 H2; [lia|]. destruct f2 as [|f2]; [lia|].
  destruct c as [|x c]; cbn [skip_lines]; [done|]. cbn [length] in H1, H2.
  assert (Hon : ∀ c', c' `suffix_of` c → skip_lines f1 c' = skip_lines f2 c').
  { intros c' Hc. apply suffix_length in Hc. apply IH; lia. }
  destruct (x =? 35).
  { pose proof (skip_comment_on c) as Hc. destruct (skip_comment c); [by apply Hon|done..]. }
  destruct (x =? CHAR_CR); [apply Hon, skip_lf_suffix|].
  destruct (x =? CHAR_LF); [by apply Hon|].
  destruct (is_blank x); [|done].
  pose proof (skip_blank_line_on c) as Hc. destruct (skip_blank_line c); [by apply Hon|done..].
Qed.

Lemma skipped_newline n cur : skipped (print_newline n ++ cur) = skipped cur.
Proof.
  assert (HLF : ∀ c, skipped (0x0A :: c) = skipped c) by (intros c; apply (skip_lines_more (S (length c)) c); lia).
  assert (HCR : ∀ c, skipped (0x0D :: c) = skipped c).
  { intros c. transitivity (skip_lines (S (length c)) (skip_lf c)); [done|].
    pose proof (suffix_length _ _ (skip_lf_suffix c)) as Hl. rewrite skip_lines_more by lia.
    destruct c as [|x c]; simpl; [done|]. destruct (Z.eqb_spec x CHAR_LF) as [->|]; [|done]. symmetry. apply HLF. }
  destruct n; simpl; [apply HLF|apply HCR|by rewrite HCR, HLF].
Qed.

Lemma skipped_comment t n cur :
  Forall (λ x, in_line x ∧ x ≠ 0) t → skipped (35 :: t ++ print_newline n ++ cur) = skipped cur.
Proof.
  intros Ht. transitivity (let! c := skip_comment (t ++ print_newline n ++ cur) in skip_lines (S (length (t ++ print_newline n ++ cur))) c); [done|].
  assert (skip_comment (t ++ print_newline n ++ cur) = Parsed (print_newline n ++ cur)) as ->.
  { induction Ht as [|x t [Hx Hx0] Ht IH]; [by destruct n|]. cbn [app skip_comment]. rewrite Hx. by rewrite (proj2 (Z.eqb_neq x 0)). }
  rewrite skip_lines_more by (rewrite !length_app; lia). apply skipped_newline.
Qed.

Lemma skipped_blanks b n cur : Forall blank b → skipped (b ++ print_newline n ++ cur) = skipped cur.
Proof.
  intros Hb. destruct Hb as [|x b Hx Hb]; [apply skipped_newline|].
  transitivity (let! c := skip_blank_line (b ++ print_newline n ++ cur) in skip_lines (S (length (b ++ print_newline n ++ cur))) c).
  { unfold blank, is_blank, SPACE, CHAR_TAB in Hx. apply orb_true_iff in Hx as [->%Z.eqb_eq| ->%Z.eqb_eq]; done. }
  assert (skip_blank_line (b ++ print_newline n ++ cur) = Parsed (print_newline n ++ cur)) as ->.
  { induction Hb as [|y b Hy Hb IH]; [by destruct n|]. cbn [app skip_blank_line]. rewrite Hy.
    assert (is_eol y = false) as ->; [|done].
    unfold blank, is_blank, SPACE, CHAR_TAB in Hy. apply orb_true_iff in Hy as [->%Z.eqb_eq| ->%Z.eqb_eq]; done. }
  rewrite skip_lines_more by (rewrite !length_app; lia). apply skipped_newline.
Qed.

(** * One item *)

Lemma name_first x : static_checkCharacter x CHARACTER_NAME_FIRST = true → 48 ≤ x ≤ 122 ∧ x ≠ 58 ∧ x ≠ 91.
Proof. unfold static_checkCharacter. intros H. repeat case_match; try done; lia. Qed.
Lemma name_subsequent x :
  static_checkCharacter x CHARACTER_NAME_SUBSEQUENT = true → x ≠ 58 ∧ is_blank x = false.
Proof. unfold static_checkCharacter, is_blank, SPACE, CHAR_TAB. intros H. repeat case_match; try done; lia. Qed.
Lemma blank_cases x : blank x → x = 0x20 ∨ x = 0x09.
Proof. unfold blank, is_blank, SPACE, CHAR_TAB. lia. Qed.

Lemma skip_blanks_over b cur : Forall blank b → skip_blanks (b ++ cur) = skip_blanks cur.
Proof. induction 1 as [|x b Hx Hb IH]; simpl; [done|]. by rewrite Hx. Qed.

Lemma section_name_over start pre n rest :
  start = pre ++ n ++ 93 :: rest → Forall section_character n → section_name start (n ++ 93 :: rest) = Parsed (pre ++ n, rest).
Proof.
  revert pre. induction n as [|x n IH]; intros pre E Hn; cbn [app section_name].
  - change (93 =? 93) with true. cbn [app] in E. rewrite E, between_app. by rewrite app_nil_r.
  - apply Forall_cons_iff in Hn as [Hx Hn]. assert (x =? 93 = false) as ->.
    { unfold section_character, static_checkCharacter, SPACE in Hx. repeat case_match; try done; lia. }
    rewrite Hx. cbn [negb]. rewrite (IH (pre ++ [x])); [|by rewrite <- app_assoc|done]. by rewrite <- app_assoc.
Qed.

Lemma after_section_over fuel b n cur :
  Forall blank b → (length b < fuel)%nat → after_section fuel (b ++ print_newline n ++ cur) = Parsed (print_newline n ++ cur).
Proof.
  intros Hb. revert fuel. induction Hb as [|x b Hx Hb IH]; intros fuel Hf; (destruct fuel as [|fuel]; [simpl in Hf; lia|]).
  - by destruct n.
  - cbn [app after_section]. rewrite Hx. apply IH. simpl in Hf. lia.
Qed.

Lemma section_item_line n b nl cur :
  Forall section_character n → Forall blank b →
  section_item (n ++ 93 :: b ++ print_newline nl ++ cur) = Parsed (mkItem n None, print_newline nl ++ cur).
Proof.
  intros Hn Hb. unfold section_item. rewrite (section_name_over _ []) by done. cbn [app].
  rewrite after_section_over; [done|done|]. rewrite length_app. lia.
Qed.

Lemma property_name_over n before cur :
  Forall (λ x, static_checkCharacter x CHARACTER_NAME_SUBSEQUENT = true) n → Forall blank before → (compiled ty = true → before = []) →
  property_name ty (n ++ before ++ 58 :: cur) (n ++ before ++ 58 :: cur) = Parsed (58 :: cur, before ++ 58 :: cur).
Proof.
  intros Hn Hb Hc. induction Hn as [|x n Hx Hn IH].
  - cbn [app]. generalize (before ++ 58 :: cur) at 2 3 as last. intros last.
    destruct (compiled ty) eqn:Hty; [by rewrite (Hc eq_refl)|]. clear Hc.
    induction Hb as [|x b Hx Hb IH]; [done|]. cbn [app property_name]. rewrite Hty.
    destruct (blank_cases x Hx) as [-> | ->]; exact IH.
  - cbn [app property_name]. destruct (name_subsequent x Hx) as [H58 Hbl]. rewrite (proj2 (Z.eqb_neq x 58)) by done.
    rewrite Hbl, andb_false_r, Hx, Nat.eqb_refl, andb_false_r. exact IH.
Qed.

Lemma text_starts cs cur :
  Forall scalar cs → trimmed cs → cs ≠ [] → skip_blanks (text cs ++ cur) = text cs ++ cur.
Proof.
  destruct cs as [|c cs]; [done|]. intros [Hc _]%Forall_cons_iff [Hf _] _. specialize (Hf c cs eq_refl).
  change (text (c :: cs)) with (utf8 c ++ text cs). rewrite <- app_assoc.
  destruct (utf8_cases c Hc) as [[H ->]|[(x & y & -> & E & Hx & _)|[(x & y & z & -> & E & Hx & _)|
    (x & y & z & t & -> & E & Hx & _)]]]; cbn [app skip_blanks]; [by rewrite Hf|by rewrite blank_ascii by lia..].
Qed.

Lemma blank_text b : Forall blank b → text b = b ∧ Forall scalar b ∧ Forall in_line b.
Proof.
  induction 1 as [|x b Hx Hb (E & IHs & IHl)]; [done|]. cbn [text flat_map]. fold (text b). rewrite E.
  destruct (blank_cases x Hx) as [-> | ->]; (split; [done|]); (split; (constructor; [first [done|unfold scalar; lia]|done])).
Qed.

Lemma newline_ends n cur : line_end (print_newline n ++ cur).
Proof. by destruct n. Qed.

Lemma value_behind cs trailing tail :
  trimmed cs → Forall blank trailing → (cs = [] → trailing = []) →
  between (text (cs ++ trailing) ++ tail) (behind (cs ++ trailing) tail (text (cs ++ trailing) ++ tail)) = text cs.
Proof.
  intros [_ Hlast] Ht Hempty. rewrite behind_blanks by done. rewrite text_app, <- app_assoc.
  destruct cs as [|c cs _] using rev_ind.
  - rewrite (Hempty eq_refl). simpl. apply (between_app []).
  - rewrite behind_last by (by eapply Hlast). apply between_app.
Qed.

Lemma property_item_line n before after cs trailing nl cur :
  line_ok (Property n before after cs trailing) →
  property_item ty (print_line (Property n before after cs trailing) ++ print_newline nl ++ cur) =
  Parsed (mkItem n (Some (text cs)), value_end ty (print_newline nl ++ cur)).
Proof.
  intros (Hn & Hb & Hc & Ha & Hs & Hl & Htr & Ht & He). destruct n as [|x n]; [done|]. destruct Hn as [Hx Hn].
  destruct (blank_text trailing Ht) as (_ & Hts & Htl). cbn [print_line app].
  unfold property_item. rewrite Hx. cbn [negb].
  replace ((n ++ before ++ 58 :: after ++ text (cs ++ trailing)) ++ print_newline nl ++ cur)
    with (n ++ before ++ 58 :: after ++ text (cs ++ trailing) ++ print_newline nl ++ cur) by (by rewrite <- !app_assoc; cbn [app]; rewrite <- !app_assoc).
  rewrite property_name_over by done. cbn [tail].
  assert (skip_blanks (after ++ text (cs ++ trailing) ++ print_newline nl ++ cur) = text (cs ++ trailing) ++ print_newline nl ++ cur) as ->.
  { rewrite skip_blanks_over by done. destruct cs as [|c cs]; [rewrite (He eq_refl); by destruct nl|].
    rewrite text_app, <- app_assoc. by apply text_starts. }
  rewrite value_text; [|by apply Forall_app|by apply Forall_app|apply newline_ends].
  rewrite value_behind by done. f_equal. f_equal. f_equal.
  change (x :: n ++ before ++ 58 :: after ++ text (cs ++ trailing) ++ print_newline nl ++ cur)
    with ((x :: n) ++ before ++ 58 :: after ++ text (cs ++ trailing) ++ print_newline nl ++ cur).
  apply between_app.
Qed.

(** * A whole document *)

(** What the parser leaves of the end of a line. *)
Definition gap (n : newline) : list Z := if compiled ty then [] else print_newline n.

Lemma compiled_sections : compiled ty = true → with_sections ty = false.
Proof. by destruct ty. Qed.

Lemma print_first d x cur : document d → print d = x :: cur → x = 9 ∨ x = 10 ∨ x = 13 ∨ 32 ≤ x ≤ 122.
Proof.
  destruct d as [|[l n] d]; [done|]. intros [Hl _]%Forall_cons_iff. cbn [print flat_map].
  destruct l as [m b|m b a cs t|t|b]; cbn [print_line].
  - cbn [app]. intros [= <- _]. lia.
  - destruct Hl as [Hm _]. destruct m as [|y m]; [done|]. destruct Hm as [Hy _]. cbn [app]. intros [= <- _].
    apply name_first in Hy. lia.
  - cbn [app]. intros [= <- _]. lia.
  - destruct Hl as [_ Hb]. destruct Hb as [|y b Hy Hb]; cbn [app]; [destruct n; cbn [app print_newline]; intros [= <- _]; lia|].
    intros [= <- _]. apply blank_cases in Hy. lia.
Qed.

Lemma print_no_bom d : document d → skip_bom (print d) = print d.
Proof.
  intros Hd. destruct (print d) as [|a [|b [|c r]]] eqn:E; try done. cbn [skip_bom].
  apply print_first in E as Ha; [|done]. by rewrite (proj2 (Z.eqb_neq a 239)) by lia.
Qed.

Lemma print_no_lf d : compiled ty = true → document d → skip_lf (print d) = print d.
Proof.
  intros Hc Hd. destruct d as [|[l n] d]; [done|]. apply Forall_cons_iff in Hd as [Hl _]. cbn [print flat_map].
  destruct l as [m b|m b a cs t|t|b]; cbn [print_line] in *.
  - destruct Hl as [Hw _]. by rewrite (compiled_sections Hc) in Hw.
  - destruct Hl as [Hm _]. destruct m as [|y m]; [done|]. destruct Hm as [Hy _]. cbn [app skip_lf].
    apply name_first in Hy. by rewrite (proj2 (Z.eqb_neq y CHAR_LF)) by (unfold CHAR_LF; lia).
  - destruct Hl as [Hf _]. congruence.
  - destruct Hl as [Hf _]. congruence.
Qed.

Lemma value_end_gap n d : document d → value_end ty (print_newline n ++ print d) = gap n ++ print d.
Proof.
  intros Hd. unfold value_end, gap. destruct (compiled ty) eqn:Hc; [|done].
  destruct n; cbn [print_newline app]; [done| |done]. by apply (print_no_lf d Hc).
Qed.

(** A document goes on with a line that has an item, or is over. *)
Lemma next_line d :
  document d →
  (items d = [] ∧ (if compiled ty then Parsed (print d) else skipped (print d)) = Parsed []) ∨
  ∃ l n d' i, line_ok l ∧ document d' ∧ item_of l = Some i ∧ items d = i :: items d' ∧ (length d' < length d)%nat ∧
    (if compiled ty then Parsed (print d) else skipped (print d)) = Parsed (print_line l ++ print_newline n ++ print d').
Proof.
  intros Hd. induction Hd as [|[l n] d Hl Hd IH]; [left; by destruct (compiled ty)|].
  cbn [print flat_map]. fold (print d). rewrite <- app_assoc. destruct (item_of l) as [i|] eqn:Hi.
  - right. exists l, n, d, i. split; [done|]. split; [done|]. split; [done|]. cbn [items omap list_omap]. rewrite Hi.
    split; [done|]. split; [simpl; lia|]. destruct (compiled ty); [done|].
    destruct l as [m b|m b a cs t|t|b]; [done| |done|done].
    destruct Hl as [Hm _]. destruct m as [|x m]; [done|]. destruct Hm as [Hx _]. apply name_first in Hx.
    cbn [print_line app]. unfold skipped. cbn [skip_lines]. unfold CHAR_CR, CHAR_LF, is_blank, SPACE, CHAR_TAB.
    rewrite !(proj2 (Z.eqb_neq x _)) by lia. done.
  - assert (E : compiled ty = false ∧ skipped (print_line l ++ print_newline n ++ print d) = skipped (print d)).
    { destruct l as [m b|m b a cs t|t|b]; [done|done| |]; destruct Hl as [Hc Ht]; (split; [done|]).
      - by apply skipped_comment.
      - by apply skipped_blanks. }
    destruct E as [Hc E]. rewrite Hc in *. rewrite E. cbn [items omap list_omap]. rewrite Hi.
    destruct IH as [IH|(l' & n' & d' & i' & H1 & H2 & H3 & H4 & H5 & H6)]; [by left|right].
    exists l', n', d', i'. simpl. by auto 10.
Qed.

Lemma drop_suffix (rest content : list Z) : rest `suffix_of` content → drop (length content - length rest) content = rest.
Proof. intros [k ->]. rewrite length_app. replace (length k + length rest - length rest)%nat with (length k) by lia. by rewrite drop_app_length. Qed.

Lemma internal_line content o s l n d i :
  item_start ty content o = Parsed (print_line l ++ print_newline n ++ print d) →
  line_ok l → document d → item_of l = Some i → (with_sections ty = true → value i ≠ None → s ≠ 0%nat) →
  let o' := (length content - length (gap n ++ print d))%nat in
  static_libManifest2GetNextItemInternal ty content o s = Parsed (i, o', if value i then s else o').
Proof.
  intros Hst Hl Hd Hi Hs. unfold static_libManifest2GetNextItemInternal. fold (item_start ty content o). rewrite Hst.
  destruct l as [m b|m b a cs t|t|b]; cbn [item_of] in Hi; simplify_eq; cbn [value] in *.
  - destruct Hl as (Hw & Hm & Hb). cbn [print_line app]. rewrite Hw. cbn [andb]. change (91 =? 91) with true.
    rewrite <- app_assoc. cbn [app]. rewrite section_item_line by done. cbn [value]. unfold gap.
    destruct (compiled ty) eqn:Hc; [by rewrite (compiled_sections Hc) in Hw|]. done.
  - pose proof (property_item_line m b a cs t n (print d) Hl) as Hp. destruct Hl as [Hm _]. destruct m as [|x m]; [done|].
    destruct Hm as [Hx _]. apply name_first in Hx. cbn [print_line app] in *.
    rewrite (proj2 (Z.eqb_neq x 91)) by lia. rewrite andb_false_r.
    assert (with_sections ty && (s =? 0)%nat = false) as ->.
    { destruct (with_sections ty); [|done]. cbn [andb]. apply Nat.eqb_neq. by apply Hs. }
    rewrite Hp, value_end_gap by done. done.
Qed.

Lemma scan_document fuel content g d o s :
  document d → drop o content = g ++ print d → (o = 0%nat → g = []) → (g = [] ∨ compiled ty = false ∧ ∃ n, g = print_newline n) →
  (with_sections ty = true → s ≠ 0%nat ∨ match items d with i :: _ => value i = None | [] => True end) →
  (o ≤ length content)%nat → (length (items d) < fuel)%nat → scan fuel ty content o s = (items d, AtEnd).
Proof.
  revert g d o s. induction fuel as [|fuel IH]; intros g d o s Hd E Ho Hg Hs Hlen Hf; [lia|]. cbn [scan].
  assert (Hst : item_start ty content o = if compiled ty then Parsed (print d) else skipped (print d)).
  { unfold item_start. rewrite E. destruct (compiled ty) eqn:Hc; [by destruct Hg as [->|[? _]]|].
    destruct (Nat.eqb_spec o 0) as [->|].
    - change (drop 0 content) with content in E. rewrite E, (Ho eq_refl). cbn [app]. rewrite print_no_bom by done. done.
    - destruct Hg as [->|(_ & nl & ->)]; [done|]. apply skipped_newline. }
  destruct (next_line d Hd) as [[Hi Hp]|(l & n & d' & i & Hl & Hd' & Hi & Hit & Hlt & Hp)]; rewrite Hp in Hst.
  - unfold static_libManifest2GetNextItemInternal. fold (item_start ty content o). by rewrite Hst, Hi.
  - rewrite Hit in Hs, Hf |- *. rewrite (internal_line content o s l n d' i Hst Hl Hd' Hi).
    2:{ intros Hw Hv. by destruct (Hs Hw). }
    assert (Hsuf : gap n ++ print d' `suffix_of` content).
    { pose proof (item_start_on ty content o) as Hon. rewrite Hst in Hon. cbn [reads_on id] in Hon.
      etrans; [|etrans; [exact Hon|apply suffix_drop]]. apply suffix_app_r. unfold gap. destruct (compiled ty); [by apply suffix_app_r|reflexivity]. }
    assert (Hpos : (0 < length content - length (gap n ++ print d'))%nat).
    { pose proof (internal_cases ty content o s Hlen) as [Hc _].
      rewrite (internal_line content o s l n d' i Hst Hl Hd' Hi) in Hc; [destruct Hc; lia|]. intros Hw Hv. by destruct (Hs Hw). }
    rewrite (IH (gap n) d'); [done|done|by apply drop_suffix|lia| | |lia|simpl in Hf; lia].
    + unfold gap. destruct (compiled ty); [by left|right]. split; [done|]. by exists n.
    + intros Hw. left. destruct (value i) eqn:Hv; [|lia]. destruct (Hs Hw); [done|congruence].
Qed.

Lemma items_length d : document d → (length (items d) ≤ length (print d))%nat.
Proof.
  induction 1 as [|[l n] d Hl Hd IH]; [done|]. cbn [print flat_map items omap list_omap]. rewrite !length_app.
  assert (1 ≤ length (print_newline n))%nat by (destruct n; simpl; lia).
  destruct (item_of l); simpl; unfold items in IH; unfold print in IH; lia.
Qed.

End Documents.

(** C19: a property file that was written is read back.  For every document of section headers, properties, comments and blank lines,
    with any of the three line ends, blanks where the grammar allows them and values of any Unicode text, a caller of the parser gets the
    sections and the properties in their order with the names and the bytes of the values as they were written, without the blanks
    around them; a document in which a section, or a property of a section, comes twice is refused. *)
Theorem document_read_back ty d :
  document ty d → opened ty (items d) →
  get_items (S (length (print d))) (libManifest2InitContext ty (print d)) =
  if negb (compiled ty) && negb (bool_decide (NoDup (keys 0 (items d)))) then Failed S_ERROR_BAD_FORMAT else Parsed (items d).
Proof.
  intros Hd Ho. rewrite items_scanned. pose proof (items_length ty d Hd) as Hl.
  rewrite (scan_document ty (S (length (print d))) (print d) [] d 0 0); [done|done|done|done|by left| |lia|lia].
  intros Hw. right. by apply Ho.
Qed.
