(* ===== verification/TfManifestSamples.v ===== *)
(** The property files on concrete texts: instances of the theorems, and the header that is never left. *)

From Stdlib Require Import ZArith Lia.
From stdpp Require Import base list list_numbers option tactics.
From S2P Require Import Prelude TfErrors TfManifest TfItems TfUtf8 TfCheck TfDocuments.
Local Open Scope Z_scope.

(** # one
    [Ab]
    x : é €
    [c]
    x:
    *)
Definition two_sections : list (line * newline) :=
  [(Comment [0x20; 0x6F; 0x6E; 0x65], LF);
   (Section_header [0x41; 0x62] [0x20], CRLF);
   (Property [0x78] [0x20] [0x20] [0xE9; 0x20; 0x20AC] [0x09], LF);
   (Blanks [], CR);
   (Section_header [0x63] [], LF);
   (Property [0x78] [] [] [] [], LF)].

Lemma two_sections_document : document LIB_MANIFEST2_TYPE_SOURCE_WITH_SECTIONS two_sections.
Proof.
  repeat (apply Forall_cons_2; [|]); [..|constructor]; cbn [line_ok].
  - split; [done|]. apply (bool_decide_unpack _). vm_compute. exact I.
  - split; [done|]. split; apply (bool_decide_unpack _); vm_compute; exact I.
  - split; [split; [done|constructor]|]. split; [by repeat constructor|]. split; [done|]. split; [by repeat constructor|].
    split; [apply (bool_decide_unpack _); vm_compute; exact I|]. split; [by repeat constructor|].
    split; [|split; [by repeat constructor|done]]. split; [by intros c l [= <- _]|].
    intros c l E. destruct l as [|? [|? [|? [|? ?]]]]; simplify_eq/=. done.
  - split; [done|constructor].
  - split; [done|]. split; [by repeat constructor|constructor].
  - split; [split; [done|constructor]|]. do 3 (split; [done|]). split; [constructor|]. split; [constructor|].
    split; [|split; [constructor|done]]. split; [done|]. intros c l E. by destruct l.
Qed.

Lemma document_read_back_witness :
  get_items (S (length (print two_sections))) (libManifest2InitContext LIB_MANIFEST2_TYPE_SOURCE_WITH_SECTIONS (print two_sections)) =
  Parsed [mkItem [0x41; 0x62] None; mkItem [0x78] (Some [0xC3; 0xA9; 0x20; 0xE2; 0x82; 0xAC]); mkItem [0x63] None; mkItem [0x78] (Some [])].
Proof.
  rewrite (document_read_back LIB_MANIFEST2_TYPE_SOURCE_WITH_SECTIONS two_sections two_sections_document); [|by intros _].
  vm_compute. reflexivity.
Defined.

Lemma items_one_pass_witness :
  let content := print (two_sections ++ [(Section_header [0x61; 0x42] [], LF)]) in
  get_items (S (length content)) (libManifest2InitContext LIB_MANIFEST2_TYPE_SOURCE_WITH_SECTIONS content) = Failed S_ERROR_BAD_FORMAT ∧
  libManifest2CheckFormat LIB_MANIFEST2_TYPE_SOURCE_WITH_SECTIONS content = Failed S_ERROR_BAD_FORMAT.
Proof.
  pose (content := print (two_sections ++ [(Section_header [0x61; 0x42] [], LF)])).
  destruct (items_one_pass LIB_MANIFEST2_TYPE_SOURCE_WITH_SECTIONS content ltac:(vm_compute; reflexivity)) as [H1 H2].
  split; [etrans; [exact H1|]|etrans; [exact H2|]]; vm_compute; reflexivity.
Defined.

Lemma check_format_ends_witness :
  libManifest2CheckFormat LIB_MANIFEST2_TYPE_SOURCE [0x5B; 0x61; 0x5D; 0x78] ≠ Hang ∧
  libManifest2CheckFormat LIB_MANIFEST2_TYPE_SOURCE_WITH_SECTIONS (print two_sections) ≠ Hang.
Proof.
  split; apply check_format_ends; [vm_compute; reflexivity|by left|vm_compute; reflexivity|by right].
Defined.

Lemma values_are_utf8_witness :
  (∃ r, value_loop LIB_MANIFEST2_TYPE_SOURCE 0 0 ([0xE2; 0x82; 0xAC] ++ [0x0A]) ([0xE2; 0x82; 0xAC] ++ [0x0A]) = Parsed r) ∧
  value_loop LIB_MANIFEST2_TYPE_SOURCE 0 0 [0xE0; 0x82; 0xAC] [0xE0; 0x82; 0xAC] = Failed S_ERROR_BAD_FORMAT.
Proof.
  split; [|vm_compute; reflexivity].
  apply (values_are_utf8 LIB_MANIFEST2_TYPE_SOURCE [0xE2; 0x82; 0xAC] [0x0A]);
    [apply (bool_decide_unpack _); vm_compute; exact I|by repeat constructor|apply (bool_decide_unpack _); vm_compute; exact I|done|].
  exists [0x20AC]. split; [apply (bool_decide_unpack _); vm_compute; exact I|vm_compute; reflexivity].
Defined.

(** A character behind a section header other than a blank is never passed: whatever the number of steps, the loop
    does not end. *)
Lemma endless_header x rest fuel : is_blank x = false → is_eol x = false → after_section fuel (x :: rest) = Hang.
Proof. intros Hb He. induction fuel as [|fuel IH]; simpl; [done|]. by rewrite Hb, He. Qed.
Lemma endless_file : libManifest2CheckFormat LIB_MANIFEST2_TYPE_SOURCE_WITH_SECTIONS [0x5B; 0x61; 0x5D; 0x78] = Hang.
Proof. vm_compute. reflexivity. Qed.
