(* ===== verification/TfObjects.v ===== *)
(** The tables of objects of the PKCS#11 library (src/security/tf_crypto_sst/lib_object.c and lib_object.h): circular doubly
    linked lists through nodes that the objects contain, searched by handle, storage name or file name.

    Memory is a map from addresses to nodes, and NULL is [None].  A result [None] is undefined behaviour: an access through
    an address without a node, or a comparison beyond a file name; or a loop around the list that does not come back to its root,
    which goes on for more steps than there are nodes. *)

From Stdlib Require Import ZArith Lia.
From stdpp Require Import base gmap list option tactics.
From S2P Require Import Prelude.
Local Open Scope Z_scope.

(** * Nodes *)

(** The union [key] of a node: a table has nodes of one kind. *)
Inductive node_key :=
  | nHandle (n : Z)
  | sStorageName (name : list Z)
  | sFilename (name : list Z) (nFilenameLength : Z)
  | no_key.
Record node := mkNode { pPrevious : nat; pNext : nat; key : node_key }.

Inductive node_type := HANDLE16 | STORAGE_NAME | FILENAME | UNINDEXED.
Definition LIB_OBJECT_HANDLE16_MAX : Z := 0xFFFF.

Abbreviation memory := (gmap nat node).
Definition set_pPrevious (p q : nat) (m : memory) : option memory :=
  let* n := m !! p in Some (<[p := mkNode q (pNext n) (key n)]> m).
Definition set_pNext (p q : nat) (m : memory) : option memory :=
  let* n := m !! p in Some (<[p := mkNode (pPrevious n) q (key n)]> m).
Definition set_handle (p : nat) (h : Z) (m : memory) : option memory :=
  let* n := m !! p in Some (<[p := mkNode (pPrevious n) (pNext n) (nHandle h)]> m).
Definition handle_of (n : node) : option Z := match key n with nHandle h => Some h | _ => None end.

(** * Search *)

(** What is searched: a handle, or the bytes behind [pKey2]. *)
Inductive sought := Handle (n : Z) | Storage_name (name : list Z) | Filename (name : list Z) (length : Z).

Definition libObjectKeyEqualNode (n : node) (s : sought) : option bool :=
  match s, key n with
  | Handle h, nHandle h' => Some (h =? h')
  | Storage_name s, sStorageName s' => Some (bool_decide (s = s'))
  | Filename s l, sFilename s' l' =>
      if l =? l' then
        guard* (l <=? Z.of_nat (length s)) && (l <=? Z.of_nat (length s')) in
        Some (bool_decide (take (Z.to_nat l) s = take (Z.to_nat l) s'))
      else Some false
  | _, _ => None
  end.

Fixpoint search_loop (fuel : nat) (s : sought) (root p : nat) (m : memory) {struct fuel} : option (option nat) :=
  match fuel with
  | O => None
  | S fuel =>
      let* n := m !! p in
      let* e := libObjectKeyEqualNode n s in
      if e then Some (Some p)
      else if (pNext n =? root)%nat then Some None else search_loop fuel s root (pNext n) m
  end.
Definition libObjectSearch (s : sought) (pRoot : option nat) (m : memory) : option (option nat) :=
  match pRoot with None => Some None | Some root => search_loop (S (size m)) s root root m end.

Definition libObjectHandle16Search (pTable : option nat) (nHandle : Z) := libObjectSearch (Handle nHandle) pTable.
Definition libObjectStorageNameSearch (pTable : option nat) (pStorageName : list Z) := libObjectSearch (Storage_name pStorageName) pTable.
Definition libObjectFilenameSearch (pTable : option nat) (pFilename : list Z) (nFilenameLength : Z) :=
  libObjectSearch (Filename pFilename nFilenameLength) pTable.

(** * Add *)

(** The first free handle, before the node whose handle is greater; [None] inside when all are taken. *)
Fixpoint scan_loop (fuel : nat) (root p : nat) (nFreeHandle : Z) (m : memory) {struct fuel} : option (option (nat * Z)) :=
  match fuel with
  | O => None
  | S fuel =>
      let* n := m !! p in
      let* h := handle_of n in
      if nFreeHandle <? h then Some (Some (p, nFreeHandle))
      else if (pNext n =? root)%nat then Some None
      else scan_loop fuel root (pNext n) (u32 (nFreeHandle + 1)) m
  end.
Definition scan_list (root new : nat) (m : memory) : option (bool * option nat * memory) :=
  let* found := scan_loop (S (size m)) root root 1 m in
  match found with
  | None => Some (false, Some root, m)
  | Some (p, h) =>
      let* m := set_handle new (u16 h) m in
      let* m := set_pNext new p m in
      let* n := m !! p in
      let* m := set_pPrevious new (pPrevious n) m in
      let* n := m !! p in
      let* m := set_pNext (pPrevious n) new m in
      let* m := set_pPrevious p new m in
      Some (true, Some (if (p =? root)%nat then new else root), m)
  end.

(** At the end of the list; a handle is the last one and one more, or the first that is free. *)
Definition libObjectAdd (ty : node_type) (pRoot : option nat) (new : nat) (m : memory) : option (bool * option nat * memory) :=
  match pRoot with
  | None =>
      let* m := set_pNext new new m in
      let* m := set_pPrevious new new m in
      let* m := match ty with HANDLE16 => set_handle new 1 m | _ => Some m end in
      Some (true, Some new, m)
  | Some root =>
      let* r := m !! root in
      let last := pPrevious r in
      let link m :=
        let* m := set_pNext last new m in
        let* m := set_pPrevious new last m in
        let* m := set_pNext new root m in
        let* m := set_pPrevious root new m in
        Some (true, Some root, m) in
      match ty with
      | HANDLE16 =>
          let* n := m !! last in
          let* h := handle_of n in
          if h =? LIB_OBJECT_HANDLE16_MAX then scan_list root new m
          else let* m := set_handle new (u16 (h + 1)) m in link m
      | _ => link m
      end
  end.

Definition libObjectHandle16Add := libObjectAdd HANDLE16.
(** The other tables' functions drop the boolean. *)
Definition add_unnumbered (ty : node_type) (pTable : option nat) (pObject : nat) (m : memory) : option (option nat * memory) :=
  let* (_, root, m) := libObjectAdd ty pTable pObject m in Some (root, m).
Definition libObjectStorageNameAdd := add_unnumbered STORAGE_NAME.
Definition libObjectFilenameAdd := add_unnumbered FILENAME.
Definition libObjectUnindexedAdd := add_unnumbered UNINDEXED.

(** * Remove *)

Definition libObjectRemove (pRoot : option nat) (p : nat) (m : memory) : option (option nat * memory) :=
  let* n := m !! p in
  let* m := set_pNext (pPrevious n) (pNext n) m in
  let* m := set_pPrevious (pNext n) (pPrevious n) m in
  Some (if (pPrevious n =? p)%nat then None else if bool_decide (pRoot = Some p) then Some (pNext n) else pRoot, m).

Definition libObjectRemoveOne (pRoot : option nat) (m : memory) : option (option nat * option nat * memory) :=
  match pRoot with
  | None => Some (None, None, m)
  | Some p => let* (root, m) := libObjectRemove pRoot p m in Some (Some p, root, m)
  end.

Definition libObjectHandle16Remove (pRoot : option nat) (p : nat) (m : memory) : option (option nat * memory) :=
  let* (root, m) := libObjectRemove pRoot p m in
  let* m := set_handle p 0 m in
  Some (root, m).
Definition libObjectHandle16RemoveOne (pRoot : option nat) (m : memory) : option (option nat * option nat * memory) :=
  let* (o, root, m) := libObjectRemoveOne pRoot m in
  match o with
  | None => Some (None, root, m)
  | Some p => let* m := set_handle p 0 m in Some (Some p, root, m)
  end.

(** The tables of the other kinds cast and call. *)
Definition libObjectStorageNameRemove := libObjectRemove.
Definition libObjectStorageNameRemoveOne := libObjectRemoveOne.
Definition libObjectFilenameRemove := libObjectRemove.
Definition libObjectFilenameRemoveOne := libObjectRemoveOne.
Definition libObjectUnindexedRemove := libObjectRemove.
Definition libObjectUnindexedRemoveOne := libObjectRemoveOne.

(** * Next *)

Definition libObjectNext (pRoot o : option nat) (m : memory) : option (option nat) :=
  match o with
  | None => Some pRoot
  | Some p =>
      let* root := pRoot in
      let* r := m !! root in
      if (p =? pPrevious r)%nat then Some None else let* n := m !! p in Some (Some (pNext n))
  end.
Definition libObjectHandle16Next := libObjectNext.
Definition libObjectStorageNameNext := libObjectNext.
Definition libObjectFilenameNext := libObjectNext.
Definition libObjectUnindexedNext := libObjectNext.
