(* ===== verification/TfRings.v ===== *)
(** Circular doubly linked lists: the nodes of a list, what a new link in the ring changes, and what is left of a ring when
    a node is taken out. *)

From Stdlib Require Import ZArith Lia.
From stdpp Require Import base gmap list option tactics.
From S2P Require Import Prelude TfObjects.
Local Open Scope Z_scope.
#[global] Arguments set_pNext : simpl never.
#[global] Arguments set_pPrevious : simpl never.
#[global] Arguments set_handle : simpl never.

Definition nxt (m : memory) (p : nat) : option nat := pNext <$> m !! p.
Definition prv (m : memory) (p : nat) : option nat := pPrevious <$> m !! p.
Definition linked (m : memory) (a b : nat) : Prop := nxt m a = Some b /\ prv m b = Some a.

(** From [a] over the nodes of [l] to [b]. *)
Fixpoint chain (m : memory) (a : nat) (l : list nat) (b : nat) : Prop :=
  match l with [] => linked m a b | x :: l => linked m a x /\ chain m x l b end.
(** From the first node over the others back to it. *)
Definition ring (m : memory) (l : list nat) : Prop := match l with [] => True | r :: l => chain m r l r end.

Lemma chain_app m a l1 x l2 b : chain m a (l1 ++ x :: l2) b <-> chain m a l1 x /\ chain m x l2 b.
Proof. revert a. induction l1 as [|y l1 IH]; intros a; cbn; [done|]. rewrite IH. tauto. Qed.

Lemma chain_ext m m' a l b :
  (forall x, x ∈ a :: l -> nxt m' x = nxt m x) -> (forall x, x ∈ l ++ [b] -> prv m' x = prv m x) -> chain m a l b -> chain m' a l b.
Proof.
  revert a. induction l as [|x l IH]; intros a N P; cbn in *.
  - intros [? ?]. split; [rewrite N|rewrite P]; try done; by left.
  - intros [[? ?] ?]. split; [split; [rewrite N|rewrite P]; try done; by left|].
    apply IH; [|intros y ?; apply P; by right|done]. intros y ?. apply N. by right.
Qed.

(** A ring may be read from any of its nodes. *)
Lemma ring_rotate m l1 l2 : ring m (l1 ++ l2) -> ring m (l2 ++ l1).
Proof.
  destruct l1 as [|a l1], l2 as [|b l2]; rewrite ?app_nil_r; try done.
  cbn. rewrite !chain_app. tauto.
Qed.

Lemma ring_last m a l : ring m (a :: l) -> exists z, prv m a = Some z /\ z ∈ a :: l.
Proof.
  destruct l as [|z l _] using rev_ind; cbn; [intros [? ?]; exists a; split; [done|by left]|].
  rewrite chain_app. intros [_ [_ ?]]. exists z. split; [done|]. right. apply elem_of_app. right. by left.
Qed.
Lemma ring_node m l p : ring m l -> p ∈ l -> is_Some (m !! p).
Proof.
  intros R (l1 & l2 & ->)%list_elem_of_split. apply ring_rotate in R. cbn in R.
  assert (is_Some (nxt m p)) as [? N]; [|unfold nxt in N; destruct (m !! p); [done|discriminate N]].
  destruct (l2 ++ l1); destruct R as [? ?] || destruct R; unfold linked in *; naive_solver.
Qed.

(** ** A new node *)

(** The links of [x] between [a] and [b], the other links as before. *)
Definition spliced (m m' : memory) (a x b : nat) : Prop :=
  (forall y, nxt m' y = if decide (y = x) then Some b else if decide (y = a) then Some x else nxt m y) /\
  (forall y, prv m' y = if decide (y = b) then Some x else if decide (y = x) then Some a else prv m y).

Lemma ring_insert m m' a x b t : NoDup (b :: t) -> x ∉ b :: t -> ring m (b :: t) -> prv m b = Some a -> spliced m m' a x b ->
  ring m' (b :: t ++ [x]).
Proof.
  intros D X R A [N P]. cbn in R |- *. rewrite chain_app. apply list.NoDup_cons in D as [B D]. apply not_elem_of_cons in X as [Xb X].
  split; [|split; [rewrite N|rewrite P]; by case_decide].
  destruct t as [|z t _] using rev_ind.
  - destruct R as [R1 R2]. rewrite A in R2. simplify_eq. cbn. split; [rewrite N, decide_False by done|rewrite P, decide_False by done]; by case_decide.
  - apply chain_app in R as [R1 [R2 R3]]. rewrite A in R3. simplify_eq. rewrite chain_app.
    rewrite not_elem_of_app, list_elem_of_singleton in X, B. apply list.NoDup_app in D as (D1 & D2 & _). split.
    + eapply chain_ext; [| |exact R1]; intros y Hy.
      * rewrite N, !decide_False; [done|intros ->|intros ->]; apply elem_of_cons in Hy as [->|Hy]; try tauto.
        apply (D2 _ Hy). by left.
      * rewrite P, !decide_False; [done|intros ->|intros ->]; apply elem_of_app in Hy as [Hy|Hy%list_elem_of_singleton]; try tauto; subst; tauto.
    + cbn. split; [rewrite N, decide_False, decide_True by intuition congruence|rewrite P, decide_False, decide_True by intuition congruence]; done.
Qed.

(** ** A node less *)

Definition cut_out (m m' : memory) (a b : nat) : Prop :=
  (forall y, nxt m' y = if decide (y = a) then Some b else nxt m y) /\
  (forall y, prv m' y = if decide (y = b) then Some a else prv m y).

Lemma ring_remove m m' a p b l : NoDup (p :: l) -> l <> [] -> ring m (p :: l) -> prv m p = Some a -> nxt m p = Some b ->
  cut_out m m' a b -> head l = Some b /\ ring m' l.
Proof.
  intros D L R A B [N P]. destruct l as [|z l]; [done|]. destruct R as [[R1 R2] R]. rewrite B in R1. simplify_eq.
  split; [done|]. apply list.NoDup_cons in D as [Dp D]. apply list.NoDup_cons in D as [Dz D].
  destruct l as [|y l _] using rev_ind.
  - destruct R as [_ R]. rewrite A in R. simplify_eq. cbn. split; [rewrite N|rewrite P]; by case_decide.
  - apply chain_app in R as [R [_ R3]]. rewrite A in R3. simplify_eq. cbn. rewrite chain_app.
    rewrite not_elem_of_app, list_elem_of_singleton in Dz. apply list.NoDup_app in D as (D1 & D2 & _). split.
    + eapply chain_ext; [| |exact R]; intros x Hx.
      * rewrite N, decide_False; [done|intros ->]. apply elem_of_cons in Hx as [->|Hx]; [tauto|]. apply (D2 _ Hx). by left.
      * rewrite P, decide_False; [done|intros ->]. apply elem_of_app in Hx as [Hx|Hx%list_elem_of_singleton]; tauto.
    + split; [rewrite N|rewrite P]; by case_decide.
Qed.

(** * Writing a field *)

Definition key_of (m : memory) (p : nat) : option node_key := key <$> m !! p.
Definition there (m : memory) (p : nat) : Prop := is_Some (m !! p).

Lemma node_eq m m' p : nxt m p = nxt m' p -> prv m p = prv m' p -> key_of m p = key_of m' p -> m !! p = m' !! p.
Proof. unfold nxt, prv, key_of. destruct (m !! p) as [[]|], (m' !! p) as [[]|]; cbn; intros; by simplify_eq. Qed.

(** What a field's write leaves. *)
Record same_but_next (m m' : memory) (p q : nat) : Prop := {
  bn_next : forall y, nxt m' y = if decide (y = p) then Some q else nxt m y;
  bn_prev : forall y, prv m' y = prv m y;
  bn_key : forall y, key_of m' y = key_of m y;
  bn_there : forall y, there m' y <-> there m y }.
Record same_but_prev (m m' : memory) (p q : nat) : Prop := {
  bp_next : forall y, nxt m' y = nxt m y;
  bp_prev : forall y, prv m' y = if decide (y = p) then Some q else prv m y;
  bp_key : forall y, key_of m' y = key_of m y;
  bp_there : forall y, there m' y <-> there m y }.
Record same_but_key (m m' : memory) (p : nat) (h : Z) : Prop := {
  bk_next : forall y, nxt m' y = nxt m y;
  bk_prev : forall y, prv m' y = prv m y;
  bk_key : forall y, key_of m' y = if decide (y = p) then Some (nHandle h) else key_of m y;
  bk_there : forall y, there m' y <-> there m y }.

Ltac field_write p :=
  let n := fresh "n" in let E := fresh "E" in let y := fresh "y" in
  intros [n E]; rewrite E; eexists; split; [reflexivity|];
  split; intros y; unfold nxt, prv, key_of, there;
  (destruct (decide (y = p)) as [->|]; [rewrite lookup_insert_eq, ?E|rewrite lookup_insert_ne by done]); cbn; intuition eauto.

Lemma set_pNext_spec m p q : there m p -> exists m', set_pNext p q m = Some m' /\ same_but_next m m' p q.
Proof. unfold set_pNext. field_write p. Qed.
Lemma set_pPrevious_spec m p q : there m p -> exists m', set_pPrevious p q m = Some m' /\ same_but_prev m m' p q.
Proof. unfold set_pPrevious. field_write p. Qed.
Lemma set_handle_spec m p h : there m p -> exists m', set_handle p h m = Some m' /\ same_but_key m m' p h.
Proof. unfold set_handle. field_write p. Qed.

(** The four writes that put a node between two others. *)
Lemma link_spec m a x b : there m a -> there m x -> there m b -> x <> a -> x <> b ->
  exists m', (let* m := set_pNext a x m in let* m := set_pPrevious x a m in let* m := set_pNext x b m in set_pPrevious b x m) = Some m' /\
    spliced m m' a x b /\ (forall y, key_of m' y = key_of m y) /\ (forall y, there m' y <-> there m y).
Proof.
  intros A X B Xa Xb. destruct (set_pNext_spec m a x A) as (m1 & -> & [N1 P1 K1 T1]).
  destruct (set_pPrevious_spec m1 x a) as (m2 & E2 & [N2 P2 K2 T2]); [by apply T1|]. cbn. rewrite E2. cbn.
  destruct (set_pNext_spec m2 x b) as (m3 & E3 & [N3 P3 K3 T3]); [by apply T2, T1|]. rewrite E3. cbn.
  destruct (set_pPrevious_spec m3 b x) as (m4 & E4 & [N4 P4 K4 T4]); [by apply T3, T2, T1|]. exists m4. split; [done|].
  split; [split; intros y|split; intros y].
  - rewrite N4, N3, N2, N1. done.
  - rewrite P4, P3, P2, P1. done.
  - rewrite K4, K3, K2, K1. done.
  - rewrite T4, T3, T2, T1. done.
Qed.
(** The writes before a node, whose predecessor is read twice. *)
Lemma link_before_spec m x b a : there m a -> there m x -> there m b -> prv m b = Some a -> x <> a -> x <> b ->
  exists m', (let* m := set_pNext x b m in
    let* n := m !! b in let* m := set_pPrevious x (pPrevious n) m in
    let* n := m !! b in let* m := set_pNext (pPrevious n) x m in set_pPrevious b x m) = Some m' /\
    spliced m m' a x b /\ (forall y, key_of m' y = key_of m y) /\ (forall y, there m' y <-> there m y).
Proof.
  intros A X B P Xa Xb. destruct (set_pNext_spec m x b X) as (m1 & -> & [N1 P1 K1 T1]). cbn.
  pose proof (P1 b) as Pb. rewrite P in Pb. unfold prv in Pb. destruct (m1 !! b) as [n1|] eqn:E1; [|done]. cbn in Pb |- *.
  injection Pb as ->. destruct (set_pPrevious_spec m1 x a) as (m2 & E2 & [N2 P2 K2 T2]); [by apply T1|]. rewrite E2. cbn.
  pose proof (P2 b) as Pb. rewrite decide_False in Pb by done. rewrite P1, P in Pb.
  unfold prv in Pb. destruct (m2 !! b) as [n2|] eqn:E2'; [|done]. cbn in Pb |- *. injection Pb as Pb. rewrite Pb.
  destruct (set_pNext_spec m2 a x) as (m3 & E3 & [N3 P3 K3 T3]); [by apply T2, T1|]. rewrite E3. cbn.
  destruct (set_pPrevious_spec m3 b x) as (m4 & E4 & [N4 P4 K4 T4]); [by apply T3, T2, T1|]. exists m4. split; [done|].
  split; [split; intros y|split; intros y].
  - rewrite N4, N3, N2, N1. repeat case_decide; congruence.
  - rewrite P4, P3, P2, P1. done.
  - rewrite K4, K3, K2, K1. done.
  - rewrite T4, T3, T2, T1. done.
Qed.
Lemma cut_spec m a b : there m a -> there m b ->
  exists m', (let* m := set_pNext a b m in set_pPrevious b a m) = Some m' /\
    cut_out m m' a b /\ (forall y, key_of m' y = key_of m y) /\ (forall y, there m' y <-> there m y).
Proof.
  intros A B. destruct (set_pNext_spec m a b A) as (m1 & -> & [N1 P1 K1 T1]).
  destruct (set_pPrevious_spec m1 b a) as (m2 & E2 & [N2 P2 K2 T2]); [by apply T1|]. cbn. exists m2. split; [done|].
  split; [split; intros y|split; intros y].
  - rewrite N2, N1. done.
  - rewrite P2, P1. done.
  - rewrite K2, K1. done.
  - rewrite T2, T1. done.
Qed.
