(* ===== verification/TfTables.v ===== *)
(** What the tables of TfObjects.v promise: a table of handles is a finite map from handles to objects, whose objects are
    those of a ring in the order of their handles. *)

From Stdlib Require Import ZArith Lia Sorting.Sorted.
From stdpp Require Import base gmap list option tactics sorting.
From S2P Require Import Prelude TfObjects TfRings.
Local Open Scope Z_scope.

(** * A table of any kind *)

Record ring_at (m : memory) (root : option nat) (l : list nat) : Prop := {
  at_root : root = head l;
  at_distinct : NoDup l;
  at_ring : ring m l }.

(** What an operation on the nodes of [l] does not touch. *)
Definition untouched (l : list nat) (m m' : memory) : Prop := forall y, y ∉ l -> m' !! y = m !! y.

Lemma ring_prev m p l z : ring m (p :: l ++ [z]) -> prv m p = Some z.
Proof. cbn. rewrite chain_app. intros [_ [_ ?]]. done. Qed.

Lemma ring_swap m l1 l2 : ring m (l1 ++ l2) <-> ring m (l2 ++ l1).
Proof. split; apply ring_rotate. Qed.

Lemma ring_next m p l : ring m (p :: l) -> nxt m p = Some (List.hd p l).
Proof. destruct l; cbn; unfold linked; tauto. Qed.

(** An object is added before [b], at the place between [l1] and [b :: l2]. *)
Lemma splice_ring m m' a x b l1 l2 : NoDup (l1 ++ b :: l2) -> x ∉ l1 ++ b :: l2 -> ring m (l1 ++ b :: l2) -> prv m b = Some a ->
  spliced m m' a x b -> ring m' (l1 ++ x :: b :: l2).
Proof.
  intros D X R A S. change (x :: b :: l2) with ([x] ++ b :: l2). rewrite app_assoc. apply ring_rotate. cbn [app]. rewrite app_assoc.
  eapply ring_insert; [| |apply (ring_rotate _ l1 (b :: l2) R)|exact A|exact S].
  - rewrite (Permutation_app_comm (b :: l2) l1). exact D.
  - rewrite (Permutation_app_comm (b :: l2) l1). exact X.
Qed.

Lemma splice_untouched m m' a x b l : a ∈ l -> b ∈ l -> x ∈ l -> spliced m m' a x b -> (forall y, key_of m' y = key_of m y) ->
  untouched l m m'.
Proof.
  intros A B X [N P] K y Y. apply node_eq; [rewrite N|rewrite P|apply K]; rewrite !decide_False; try done; by intros ->.
Qed.

(** At the end of the ring. *)
Lemma link_last m root l x a : ring_at m (Some root) l -> prv m root = Some a -> there m x -> x ∉ l ->
  exists m', (let* m := set_pNext a x m in let* m := set_pPrevious x a m in let* m := set_pNext x root m in set_pPrevious root x m) = Some m' /\
    ring_at m' (Some root) (l ++ [x]) /\ (forall y, key_of m' y = key_of m y) /\ (forall y, there m' y <-> there m y) /\
    untouched (x :: l) m m'.
Proof.
  intros [Rt D R] A T X. destruct l as [|r t]; [done|]. injection Rt as ->.
  assert (a ∈ r :: t) as Al. { destruct (ring_last _ _ _ R) as (z & ? & ?). by simplify_eq. }
  destruct (link_spec m a x r) as (m' & -> & S & K & T'); [by eapply ring_node|done|eapply ring_node; [done|by left]|by intros ->|intros ->; apply X; by left|].
  exists m'. split; [done|]. split_and!; [split; [done| |]|done|done|].
  - apply list.NoDup_app. split_and!; [done|intros y Hy ->%list_elem_of_singleton; done|apply NoDup_singleton].
  - by eapply ring_insert.
  - eapply splice_untouched; [..|done|done]; rewrite !elem_of_cons in *; tauto.
Qed.

Lemma nodup_rotate {A} (l1 l2 : list A) : NoDup (l1 ++ l2) -> NoDup (l2 ++ l1).
Proof. by rewrite Permutation_app_comm. Qed.

Lemma object_remove_spec m root l1 p l2 : ring_at m root (l1 ++ p :: l2) ->
  exists root' m', libObjectRemove root p m = Some (root', m') /\ ring_at m' root' (l1 ++ l2) /\
    (forall y, key_of m' y = key_of m y) /\ (forall y, there m' y <-> there m y) /\ untouched (l1 ++ p :: l2) m m'.
Proof.
  intros [Rt D R]. assert (forall y, y ∈ l1 ++ p :: l2 -> there m y) as Th by (intros; by eapply ring_node).
  pose proof (ring_rotate _ _ _ R) as R'. pose proof (nodup_rotate _ _ D) as D'. cbn [app] in R', D'.
  destruct (Th p) as [n E]; [rewrite elem_of_app; right; by left|]. unfold libObjectRemove. rewrite E. cbn [pPrevious pNext].
  assert (prv m p = Some (pPrevious n)) as A by (unfold prv; by rewrite E).
  assert (nxt m p = Some (pNext n)) as B by (unfold nxt; by rewrite E).
  destruct (ring_last _ _ _ R') as (a & A' & Ain). rewrite A in A'. injection A' as <-.
  assert (pNext n ∈ p :: l2 ++ l1) as Bin.
  { rewrite (ring_next _ _ _ R') in B. injection B as <-. destruct (l2 ++ l1); [by left|right; by left]. }
  assert (forall y, y ∈ p :: l2 ++ l1 -> y ∈ l1 ++ p :: l2) as In by (intros y; rewrite (Permutation_app_comm l1); done).
  destruct (cut_spec m (pPrevious n) (pNext n)) as (m' & C & S & K & T); [by apply Th, In|by apply Th, In|].
  destruct (set_pNext _ _ m) as [m1|]; [|discriminate C]. cbn in C |- *. rewrite C. eexists _, m'. split; [reflexivity|].
  split; [|split_and!; [done|done|]].
  2: { intros y Y. destruct S as [N P]. apply node_eq; [rewrite N, decide_False|rewrite P, decide_False|apply K]; try done; intros ->; by apply Y, In. }
  destruct (decide (l2 ++ l1 = [])) as [[-> ->]%app_nil|L].
  - cbn in Rt, Ain |- *. apply list_elem_of_singleton in Ain. rewrite Ain, Nat.eqb_refl. split; [done|constructor|done].
  - assert (pPrevious n <> p) as Np.
    { destruct (exists_last L) as (l & z & El). rewrite El in *. rewrite (ring_prev m p l z R') in A. injection A as <-. intros ->.
      apply list.NoDup_cons in D' as [D' _]. apply D', elem_of_app. right. by left. }
    destruct (ring_remove _ _ _ _ _ _ D' L R' A B S) as [H R2]. apply list.NoDup_cons in D' as [_ D'].
    apply Nat.eqb_neq in Np. rewrite Np. split; [|by apply nodup_rotate|by apply ring_rotate].
    rewrite Rt. destruct l1 as [|z l1]; cbn.
    + rewrite app_nil_r in H. by rewrite bool_decide_true, H.
    + rewrite bool_decide_false; [done|]. intros [= ->]. cbn in D. apply list.NoDup_cons in D as [D _]. apply D, elem_of_app. right. by left.
Qed.

(** ** Next *)

Lemma ring_prev_last m r t : ring m (r :: t) -> prv m r = (r :: t) !! length t.
Proof.
  destruct t as [|z t _] using rev_ind; intros R.
  - by destruct R.
  - rewrite (ring_prev _ _ _ _ R). symmetry. apply (list_lookup_middle (r :: t) [] z). rewrite length_app. cbn. lia.
Qed.
Lemma ring_next_lookup m l i o z : ring m l -> l !! i = Some o -> l !! S i = Some z -> nxt m o = Some z.
Proof.
  intros R I J. rewrite <- (take_drop_middle _ _ _ I) in R. apply ring_rotate in R. cbn in R.
  rewrite (drop_S _ _ _ J) in R. by destruct R as [[? _] _].
Qed.

(** From no object to the first one, from each object to the next, and from the last to none. *)
Lemma object_next_spec m root l i o : ring_at m root l -> l !! i = Some o -> libObjectNext root (Some o) m = Some (l !! S i).
Proof.
  intros [-> D R] I. destruct l as [|r t]; [done|]. cbn [head libObjectNext].
  destruct (ring_node _ _ r R) as [n E]; [by left|]. destruct (ring_node _ _ o R) as [n' E']; [by eapply list_elem_of_lookup_2|].
  rewrite E, E'. pose proof (ring_prev_last _ _ _ R) as A. unfold prv in A. rewrite E in A. cbn in A.
  destruct (decide (i = length t)) as [->|L].
  - assert ((r :: t) !! S (length t) = None) as -> by (by apply lookup_ge_None).
    cbn in I. rewrite I in A. injection A as ->. by rewrite Nat.eqb_refl.
  - pose proof (lookup_lt_Some _ _ _ I) as Li. cbn in Li. destruct (lookup_lt_is_Some_2 (r :: t) (S i)) as [z J]; [cbn; lia|].
    rewrite J. assert (o <> pPrevious n) as Np%Nat.eqb_neq.
    { intros ->. apply L. eapply NoDup_lookup; [exact D|exact I|by rewrite <- A]. }
    rewrite Np. pose proof (ring_next_lookup _ _ _ _ _ R I J) as N. unfold nxt in N. rewrite E' in N. cbn in N. by injection N as ->.
Qed.

(** * A table of handles *)

(** The objects in the order of the ring, each with its handle. *)
Record table (m : memory) (root : option nat) (l : list (Z * nat)) : Prop := {
  t_ring : ring_at m root l.*2;
  t_keys : forall h p, (h, p) ∈ l -> key_of m p = Some (nHandle h);
  t_sorted : StronglySorted Z.lt l.*1;
  t_range : forall h, h ∈ l.*1 -> 0 < h <= LIB_OBJECT_HANDLE16_MAX }.

Lemma sorted_distinct l : StronglySorted Z.lt l -> NoDup l.
Proof.
  induction 1 as [|x l _ IH F]; constructor; [|done]. intros X. rewrite list.Forall_forall in F. apply F in X. lia.
Qed.

Lemma ring_at_size m root l : ring_at m root l -> (length l <= size m)%nat.
Proof.
  intros [_ D R]. rewrite <- (size_list_to_set (C := gset nat) l D), <- size_dom. apply subseteq_size. intros x Hx.
  apply elem_of_dom. eapply ring_node; [exact R|]. by apply elem_of_list_to_set in Hx.
Qed.

(** ** Search *)

Lemma handle_equal n h h' : key n = nHandle h' -> libObjectKeyEqualNode n (Handle h) = Some (h =? h').
Proof. unfold libObjectKeyEqualNode. by intros ->. Qed.

Lemma key_of_node m p h : key_of m p = Some (nHandle h) -> exists n, m !! p = Some n /\ key n = nHandle h.
Proof. unfold key_of. destruct (m !! p) as [n|]; [|done]. intros [= ?]. by exists n. Qed.

Lemma search_loop_spec m root h h0 p l fuel :
  chain m p l.*2 root -> root ∉ l.*2 -> (forall h p', (h, p') ∈ (h0, p) :: l -> key_of m p' = Some (nHandle h)) -> (length l < fuel)%nat ->
  search_loop fuel (Handle h) root p m = Some (list_to_map (M := gmap Z nat) ((h0, p) :: l) !! h).
Proof.
  revert h0 p fuel. induction l as [|[h1 q] l IH]; intros h0 p [|fuel] C R K F; [inversion F| |inversion F|]; cbn [search_loop].
  - destruct (key_of_node m p h0) as (n & E & Kn); [apply K; by left|]. rewrite E, (handle_equal _ _ _ Kn).
    cbn. destruct (Z.eqb_spec h h0) as [->|]; [by rewrite lookup_insert_eq|]. rewrite lookup_insert_ne, lookup_empty by done.
    destruct C as [C _]. unfold nxt in C. rewrite E in C. injection C as ->. by rewrite Nat.eqb_refl.
  - destruct (key_of_node m p h0) as (n & E & Kn); [apply K; by left|]. rewrite E, (handle_equal _ _ _ Kn).
    cbn in C, R, F. destruct C as [[C _] C']. unfold nxt in C. rewrite E in C. injection C as ->. apply not_elem_of_cons in R as [Rq R].
    change (list_to_map ((h0, p) :: (h1, q) :: l)) with (<[h0:=p]> (list_to_map (M := gmap Z nat) ((h1, q) :: l))).
    destruct (Z.eqb_spec h h0) as [->|]; [by rewrite lookup_insert_eq|]. rewrite lookup_insert_ne by done.
    destruct (Nat.eqb_spec q root); [congruence|]. apply IH; [done..| |lia]. intros; apply K. by right.
Qed.

Lemma search_spec m root l h : table m root l -> libObjectHandle16Search root h m = Some (list_to_map (M := gmap Z nat) l !! h).
Proof.
  intros [R K _ _]. unfold libObjectHandle16Search, libObjectSearch. pose proof (ring_at_size _ _ _ R) as L. destruct R as [-> D R].
  destruct l as [|[h0 r] l]; [done|]. cbn [fmap list_fmap head snd] in *.
  apply list.NoDup_cons in D as [D _]. apply search_loop_spec; try done. cbn in L. rewrite length_fmap in L. lia.
Qed.

(** ** The first free handle *)

Lemma scan_loop_spec m root h0 p l f fuel :
  chain m p l.*2 root -> root ∉ l.*2 -> (forall h p', (h, p') ∈ (h0, p) :: l -> key_of m p' = Some (nHandle h)) ->
  StronglySorted Z.lt (h0 :: l.*1) -> (forall h, h ∈ h0 :: l.*1 -> h <= LIB_OBJECT_HANDLE16_MAX) -> 0 <= f <= h0 -> (length l < fuel)%nat ->
  (scan_loop fuel root p f m = Some None /\ h0 :: l.*1 = seqZ f (Z.of_nat (S (length l)))) \/
  (exists l1 h q l2, (h0, p) :: l = l1 ++ (h, q) :: l2 /\ l1.*1 = seqZ f (Z.of_nat (length l1)) /\ f + Z.of_nat (length l1) < h /\
    scan_loop fuel root p f m = Some (Some (q, f + Z.of_nat (length l1)))).
Proof.
  revert h0 p f fuel. induction l as [|[h1 q] l IH]; intros h0 p f [|fuel] C R K S B F L; [inversion L| |inversion L|]; cbn [scan_loop];
    (destruct (key_of_node m p h0) as (n & E & Kn); [apply K; by left|]); rewrite E; unfold handle_of; rewrite Kn;
    (destruct (Z.ltb_spec f h0); [right; exists [], h0, p; eexists; split_and!; [done|done|cbn; lia|cbn; by rewrite Z.add_0_r]|]);
    assert (f = h0) as -> by lia.
  - destruct C as [C _]. unfold nxt in C. rewrite E in C. injection C as ->. rewrite Nat.eqb_refl. by left.
  - cbn in C, R, L. destruct C as [[C _] C']. unfold nxt in C. rewrite E in C. injection C as ->. apply not_elem_of_cons in R as [Rq R].
    destruct (Nat.eqb_spec q root); [congruence|]. inversion S as [|? ? S' O]; subst. cbn [fmap list_fmap fst] in S', O.
    apply Forall_cons_iff in O as [O _]. assert (h1 <= LIB_OBJECT_HANDLE16_MAX) as B1 by (apply B; right; by left).
    unfold LIB_OBJECT_HANDLE16_MAX in *. rewrite (uwrap_small 32) by lia.
    destruct (IH h1 q (h0 + 1) fuel) as [[-> Q]|(l1 & h & q' & l2 & Q & I & O' & ->)]; try done; try lia.
    + intros; apply K; by right.
    + intros; apply B; by right.
    + left. split; [done|]. cbn [fmap list_fmap fst length]. rewrite (seqZ_cons h0) by lia. f_equal. change (Z.succ h0) with (h0 + 1).
      rewrite Q. f_equal. lia.
    + right. exists ((h0, p) :: l1), h, q', l2. split_and!; [by rewrite Q| | |].
      * cbn [fmap list_fmap fst length]. rewrite (seqZ_cons h0) by lia. f_equal. change (Z.succ h0) with (h0 + 1). rewrite I. f_equal. lia.
      * cbn [length]. lia.
      * cbn [length]. do 2 f_equal. f_equal. lia.
Qed.

(** ** Add *)

Lemma ring_at_same m m' root l : (forall y, nxt m' y = nxt m y) -> (forall y, prv m' y = prv m y) -> ring_at m root l -> ring_at m' root l.
Proof. intros N P [Rt D R]. split; [done|done|]. destruct l; [done|]. cbn in *. eapply chain_ext; [| |exact R]; intros; [apply N|apply P]. Qed.

Ltac thread C := repeat match type of C with
  | match ?e with Some _ => _ | None => None end = Some _ => destruct e; [|discriminate C]
  end.

Lemma add_first m new : there m new ->
  exists m', libObjectHandle16Add None new m = Some (true, Some new, m') /\ table m' (Some new) [(1, new)] /\ untouched [new] m m'.
Proof.
  intros T. unfold libObjectHandle16Add, libObjectAdd.
  destruct (set_pNext_spec m new new T) as (m1 & -> & [N1 P1 K1 T1]).
  destruct (set_pPrevious_spec m1 new new) as (m2 & -> & [N2 P2 K2 T2]); [by apply T1|].
  destruct (set_handle_spec m2 new 1) as (m3 & -> & [N3 P3 K3 T3]); [by apply T2, T1|]. exists m3. split; [done|]. split; [split|].
  - split; [done|apply NoDup_singleton|]. cbn. split; [rewrite N3, N2, N1|rewrite P3, P2]; by case_decide.
  - intros h p [= -> ->]%list_elem_of_singleton. rewrite K3. by case_decide.
  - repeat constructor.
  - intros h ->%list_elem_of_singleton. unfold LIB_OBJECT_HANDLE16_MAX. cbn. lia.
  - intros y Y. rewrite list_elem_of_singleton in Y. apply node_eq; [rewrite N3, N2, N1|rewrite P3, P2, P1|rewrite K3, K2, K1]; rewrite ?decide_False; done.
Qed.

Lemma last_handle m r l h a : table m (Some r) (l ++ [(h, a)]) ->
  exists nr n, m !! r = Some nr /\ pPrevious nr = a /\ m !! a = Some n /\ handle_of n = Some h.
Proof.
  intros [[Rt _ R] K _ _]. assert (prv m r = Some a) as A.
  { rewrite fmap_app in *. destruct l as [|[h' r'] l]; cbn in Rt, R; injection Rt as ->; [by destruct R|by eapply ring_prev]. }
  destruct (key_of_node m a h) as (n & E & Kn); [apply K, elem_of_app; right; by left|].
  unfold prv in A. destruct (m !! r) as [nr|] eqn:Er; [|done]. injection A as A. exists nr, n. unfold handle_of. by rewrite Kn.
Qed.

Lemma add_last m r l h a new : table m (Some r) (l ++ [(h, a)]) -> h <> LIB_OBJECT_HANDLE16_MAX -> there m new -> new ∉ (l ++ [(h, a)]).*2 ->
  exists m', libObjectHandle16Add (Some r) new m = Some (true, Some r, m') /\ table m' (Some r) (l ++ [(h, a); (h + 1, new)]) /\
    untouched (new :: (l ++ [(h, a)]).*2) m m'.
Proof.
  intros Tb H T X. destruct (last_handle _ _ _ _ _ Tb) as (nr & n & Er & A & E & Kn). destruct Tb as [R K S B].
  unfold libObjectHandle16Add, libObjectAdd. rewrite Er, A, E, Kn.
  apply Z.eqb_neq in H as H'. rewrite H'.
  assert (0 < h <= LIB_OBJECT_HANDLE16_MAX) as Bh. { apply B. rewrite fmap_app. apply elem_of_app. right. by left. }
  unfold LIB_OBJECT_HANDLE16_MAX in *. rewrite (uwrap_small 16) by lia.
  destruct (set_handle_spec m new (h + 1) T) as (m1 & -> & [N1 P1 K1 T1]).
  destruct (link_last m1 r (l ++ [(h, a)]).*2 new a) as (m' & C & R' & K' & T' & U); [by eapply ring_at_same| |by apply T1|done|].
  { rewrite P1. unfold prv. rewrite Er. cbn. by rewrite A. }
  thread C. rewrite C. exists m'. split; [done|].
  replace (l ++ [(h, a); (h + 1, new)]) with ((l ++ [(h, a)]) ++ [(h + 1, new)]) by by rewrite <- app_assoc. split; [split|].
  - by rewrite (fmap_app snd _ [(h + 1, new)]).
  - intros h' p [Hp|[= -> ->]%list_elem_of_singleton]%elem_of_app; rewrite K', K1; case_decide; try done; [|by apply K].
    subst. destruct X. apply list_elem_of_fmap. by exists (h', new).
  - rewrite fmap_app. apply StronglySorted_app_2; [|done|repeat constructor]. intros x y Hx ->%list_elem_of_singleton.
    rewrite fmap_app in *. apply elem_of_app in Hx as [Hx| ->%list_elem_of_singleton]; [|cbn [fst]; lia].
    assert (x < h); [|cbn [fst]; lia]. eapply StronglySorted_app_1_elem_of; [exact S|done|by left].
  - intros h'. rewrite fmap_app. intros [Hx| ->%list_elem_of_singleton]%elem_of_app; [by apply B|]. unfold LIB_OBJECT_HANDLE16_MAX. cbn [fst]. lia.
  - intros y Y. rewrite (U y Y). apply node_eq; [done..|]. rewrite K1, decide_False; [done|]. intros ->. apply Y. by left.
Qed.

(** A handle that is free between two objects: before the object whose handle is greater. *)
Lemma add_before m r l1 h q l2 h' new : table m (Some r) (l1 ++ (h, q) :: l2) -> l1.*1 = seqZ 1 (h' - 1) -> 0 < h' < h ->
  scan_loop (S (size m)) r r 1 m = Some (Some (q, h')) -> there m new -> new ∉ (l1 ++ (h, q) :: l2).*2 ->
  exists m' root', scan_list r new m = Some (true, root', m') /\ table m' root' (l1 ++ (h', new) :: (h, q) :: l2) /\
    untouched (new :: (l1 ++ (h, q) :: l2).*2) m m'.
Proof.
  intros [R K S B] I H Sc T X. unfold scan_list. rewrite Sc. clear Sc.
  assert (h <= 65535) as Hh. { apply B. rewrite fmap_app. apply elem_of_app. right. by left. }
  rewrite (uwrap_small 16) by lia. clear Hh.
  destruct (set_handle_spec m new h' T) as (m1 & -> & [N1 P1 K1 T1]).
  pose proof (ring_at_same m m1 _ _ N1 P1 R) as [Rt D R1]. clear R. rewrite fmap_app in *. cbn [fmap list_fmap snd fst] in *.
  assert (q ∈ l1.*2 ++ q :: l2.*2) as Qin by (apply elem_of_app; right; by left).
  destruct (ring_last m1 q (l2.*2 ++ l1.*2)) as (a & A & Ain); [by apply (ring_rotate _ l1.*2 (q :: l2.*2))|].
  assert (a ∈ l1.*2 ++ q :: l2.*2) as Ain' by (by rewrite (Permutation_app_comm l1.*2)).
  destruct (link_before_spec m1 new q a) as (m' & C & Sp & K' & T'); try done; [by eapply ring_node|by apply T1|by eapply ring_node|by intros ->|by intros ->|].
  thread C. rewrite C. eexists m', _. split; [reflexivity|]. split; [split|].
  - rewrite fmap_app. cbn [fmap list_fmap snd]. split.
    + destruct l1 as [|[h0 r0] l1]; cbn in Rt |- *; injection Rt as ->; [by rewrite Nat.eqb_refl|].
      cbn in D. apply list.NoDup_cons in D as [D _]. destruct (Nat.eqb_spec q r0) as [->|]; [|done]. destruct D. apply elem_of_app. right. by left.
    + apply (nodup_rotate (new :: q :: l2.*2) l1.*2). cbn. constructor; [|by apply (nodup_rotate l1.*2 (q :: l2.*2))].
      revert X. rewrite !elem_of_cons, !elem_of_app, elem_of_cons. tauto.
    + by eapply splice_ring.
  - intros k p Hp. rewrite K', K1. rewrite elem_of_app, !elem_of_cons in Hp.
    assert ((k, p) = (h', new) \/ (k, p) ∈ l1 ++ (h, q) :: l2) as [[= -> ->]|Hp'] by (rewrite elem_of_app, elem_of_cons; tauto); [by case_decide|].
    rewrite decide_False; [by apply K|]. intros ->. apply X. change (new ∈ l1.*2 ++ ((h, q) :: l2).*2). rewrite <- fmap_app.
    apply list_elem_of_fmap. by exists (k, new).
  - rewrite fmap_app in *. cbn [fmap list_fmap fst] in *. pose proof S as (S1 & S2 & S3)%StronglySorted_app.
    apply StronglySorted_app_2; [|done|constructor; [done|]].
    + intros x y Hx [->|Hy]%elem_of_cons; [|by apply S1]. rewrite I in Hx. apply elem_of_seqZ in Hx. lia.
    + inversion S3 as [|? ? _ F]; subst. constructor; [lia|]. rewrite list.Forall_forall in F |- *. intros x Hx. specialize (F x Hx). lia.
  - intros k. rewrite fmap_app. cbn [fmap list_fmap fst]. intros Hg.
    assert (h ∈ (l1 ++ (h, q) :: l2).*1) as Hh%B. { rewrite fmap_app. apply elem_of_app. right. by left. }
    rewrite elem_of_app, elem_of_cons in Hg. destruct Hg as [Hg|[->|Hg]]; [|lia|]; apply B; rewrite fmap_app; apply elem_of_app; [by left|by right].
  - intros y Y. rewrite (splice_untouched m1 m' a new q (new :: l1.*2 ++ q :: l2.*2) ltac:(by right) ltac:(by right) ltac:(by left) Sp K' y Y).
    apply node_eq; [done..|]. rewrite K1, decide_False; [done|]. intros ->. apply Y. by left.
Qed.

(** The object gets a handle that is free, unless all are taken. *)
Lemma add_spec m root l new : table m root l -> there m new -> new ∉ l.*2 ->
  (exists l1 l2 h root' m', libObjectHandle16Add root new m = Some (true, root', m') /\ l = l1 ++ l2 /\
     table m' root' (l1 ++ (h, new) :: l2) /\ untouched (new :: l.*2) m m') \/
  (libObjectHandle16Add root new m = Some (false, root, m) /\ forall h, 0 < h <= LIB_OBJECT_HANDLE16_MAX -> h ∈ l.*1).
Proof.
  intros Tb T X. destruct l as [|[h a] l _] using rev_ind.
  { left. destruct Tb as [[-> _ _] _ _ _]. destruct (add_first m new T) as (m' & E & Tb' & U). exists [], [], 1, (Some new), m'. by split_and!. }
  pose proof (at_root _ _ _ (t_ring _ _ _ Tb)) as Rt. destruct root as [r|]; [|by destruct l].
  destruct (decide (h = LIB_OBJECT_HANDLE16_MAX)) as [->|H].
  2: { left. destruct (add_last _ _ _ _ _ _ Tb H T X) as (m' & E & Tb' & U). exists (l ++ [(h, a)]), [], (h + 1), (Some r), m'.
       split_and!; [done|by rewrite app_nil_r|by rewrite <- app_assoc|done]. }
  destruct (last_handle _ _ _ _ _ Tb) as (nr & n & Er & A & E & Kn).
  assert (libObjectHandle16Add (Some r) new m = scan_list r new m) as ->.
  { unfold libObjectHandle16Add, libObjectAdd. rewrite Er, A, E, Kn. done. }
  destruct (l ++ [(LIB_OBJECT_HANDLE16_MAX, a)]) as [|[h0 r0] t] eqn:El; [by destruct l|]. injection Rt as <-.
  pose proof (ring_at_size _ _ _ (t_ring _ _ _ Tb)) as Sz. pose proof Tb as [[_ D R] K S B]. rewrite length_fmap in Sz. cbn [length] in Sz.
  cbn [fmap list_fmap fst snd] in D. apply list.NoDup_cons in D as [D _].
  destruct (scan_loop_spec m r h0 r t 1 (Datatypes.S (size m)) R D K S) as [[Sc I]|(l1 & h & q & l2 & I & I1 & O & Sc)]; [| |lia| |].
  - intros h Hh. by apply B.
  - assert (0 < h0 <= LIB_OBJECT_HANDLE16_MAX) by (apply B; by left). lia.
  - right. unfold scan_list. rewrite Sc. split; [done|]. intros h Hh. cbn [fmap list_fmap fst]. rewrite I. apply elem_of_seqZ.
    assert (LIB_OBJECT_HANDLE16_MAX ∈ h0 :: t.*1) as M.
    { change (h0 :: t.*1) with ((h0, r) :: t).*1. rewrite <- El, fmap_app. apply elem_of_app. right. by left. }
    rewrite I in M. apply elem_of_seqZ in M. lia.
  - left. rewrite I in *. replace (1 + Z.of_nat (length l1)) with (Z.of_nat (length l1) + 1) in Sc, O by lia.
    destruct (add_before m r l1 h q l2 (Z.of_nat (length l1) + 1) new) as (m' & root' & -> & Tb' & U); try done; [by rewrite Z.add_simpl_r|lia|].
    exists l1, ((h, q) :: l2), (Z.of_nat (length l1) + 1), root', m'. by split_and!.
Qed.

(** * The table as a map *)

Inductive call := Add (o : nat) | Find (h : Z) | Remove (o : nat) | RemoveOne.
(** The handle that the object has after the call. *)
Inductive reply := Added (h : option Z) | Found (o : option nat) | Removed (h : Z) | Took (o : option nat).

Definition read_handle (o : nat) (m : memory) : option Z := let* n := m !! o in handle_of n.
Definition exec (c : call) (root : option nat) (m : memory) : option (reply * option nat * memory) :=
  match c with
  | Add o =>
      let* (ok, root, m) := libObjectHandle16Add root o m in
      if ok : bool then let* h := read_handle o m in Some (Added (Some h), root, m) else Some (Added None, root, m)
  | Find h => let* o := libObjectHandle16Search root h m in Some (Found o, root, m)
  | Remove o =>
      let* (root, m) := libObjectHandle16Remove root o m in
      let* h := read_handle o m in Some (Removed h, root, m)
  | RemoveOne => let* (o, root, m) := libObjectHandle16RemoveOne root m in Some (Took o, root, m)
  end.

(** What is promised of a call on the map [t] from handles to objects. *)
Inductive promised (t : gmap Z nat) : call -> reply -> gmap Z nat -> Prop :=
  | promised_add o h : 0 < h <= LIB_OBJECT_HANDLE16_MAX -> t !! h = None -> promised t (Add o) (Added (Some h)) (<[h := o]> t)
  | promised_full o : (forall h, 0 < h <= LIB_OBJECT_HANDLE16_MAX -> is_Some (t !! h)) -> promised t (Add o) (Added None) t
  | promised_search h : promised t (Find h) (Found (t !! h)) t
  | promised_remove o h : t !! h = Some o -> promised t (Remove o) (Removed 0) (delete h t)
  | promised_none : t = ∅ -> promised t RemoveOne (Took None) t
  | promised_one o h : t !! h = Some o -> promised t RemoveOne (Took (Some o)) (delete h t).

Definition in_table (t : gmap Z nat) (o : nat) : Prop := exists h, t !! h = Some o.
(** An object is added that is in memory and not in the table; one is removed that is in it. *)
Definition allowed (m : memory) (t : gmap Z nat) (c : call) : Prop :=
  match c with Add o => there m o /\ ~ in_table t o | Remove o => in_table t o | _ => True end.
Definition holds (m : memory) (root : option nat) (t : gmap Z nat) : Prop := exists l, table m root l /\ t = list_to_map l.

(** ** The map of a list *)

Lemma map_middle (l1 l2 : list (Z * nat)) h p : NoDup (l1 ++ (h, p) :: l2).*1 ->
  (list_to_map (l1 ++ (h, p) :: l2) : gmap Z nat) = <[h := p]> (list_to_map (l1 ++ l2)).
Proof.
  intros D. change (<[h := p]> (list_to_map (l1 ++ l2) : gmap Z nat)) with (list_to_map ((h, p) :: l1 ++ l2) : gmap Z nat).
  apply list_to_map_proper; [done|]. by rewrite <- Permutation_middle.
Qed.
Lemma map_middle_fresh (l1 l2 : list (Z * nat)) h p : NoDup (l1 ++ (h, p) :: l2).*1 -> (list_to_map (l1 ++ l2) : gmap Z nat) !! h = None.
Proof.
  intros D. apply not_elem_of_list_to_map_1. rewrite fmap_app in *. cbn in D. apply nodup_rotate in D. cbn in D.
  apply list.NoDup_cons in D as [D _]. by rewrite (Permutation_app_comm l1.*1).
Qed.
Lemma in_table_list m root l o : table m root l -> in_table (list_to_map l) o <-> o ∈ l.*2.
Proof.
  intros [_ _ S _]. apply sorted_distinct in S. split.
  - intros [h E%elem_of_list_to_map_2]. apply list_elem_of_fmap. by exists (h, o).
  - intros ([h p] & -> & E)%list_elem_of_fmap. exists h. by apply elem_of_list_to_map_1.
Qed.

(** An object of the table, taken out of it; its handle is cleared. *)
Lemma handle_remove_spec m root l1 h p l2 : table m root (l1 ++ (h, p) :: l2) ->
  exists root' m', libObjectHandle16Remove root p m = Some (root', m') /\ table m' root' (l1 ++ l2) /\ read_handle p m' = Some 0 /\
    untouched (l1 ++ (h, p) :: l2).*2 m m'.
Proof.
  intros [R K S B]. rewrite fmap_app in R. cbn [fmap list_fmap snd] in R.
  destruct (object_remove_spec _ _ _ _ _ R) as (root' & m1 & E & R1 & K1 & T1 & U). unfold libObjectHandle16Remove. rewrite E.
  assert (there m p) as T. { destruct R as [_ _ R]. eapply ring_node; [exact R|]. apply elem_of_app. right. by left. }
  destruct (set_handle_spec m1 p 0) as (m' & -> & [N2 P2 K2 T2]); [by apply T1|]. exists root', m'. split; [done|].
  assert (p ∉ l1.*2 ++ l2.*2) as Np.
  { destruct R as [_ D _]. apply nodup_rotate in D. cbn in D. apply list.NoDup_cons in D as [D _]. by rewrite (Permutation_app_comm l1.*2). }
  split; [split|split].
  - rewrite fmap_app. by eapply ring_at_same.
  - intros k q Hq. assert (q ∈ (l1 ++ l2).*2) as Hq' by (apply list_elem_of_fmap; by exists (k, q)). rewrite fmap_app in Hq'.
    rewrite K2, decide_False, K1 by (by intros ->). apply K. rewrite elem_of_app in Hq |- *. rewrite elem_of_cons. tauto.
  - rewrite fmap_app in *. cbn [fmap list_fmap fst] in S. apply StronglySorted_app in S as (S1 & S2 & S3). inversion S3; subst.
    apply StronglySorted_app_2; [|done|done]. intros; apply S1; [done|by right].
  - intros k Hk. apply B. rewrite fmap_app, elem_of_app in *. cbn. rewrite elem_of_cons. tauto.
  - pose proof (K2 p) as Kp. rewrite decide_True in Kp by done. destruct (key_of_node _ _ _ Kp) as (n & En & Kn). unfold read_handle. rewrite En.
    unfold handle_of. by rewrite Kn.
  - rewrite fmap_app. intros y Y. rewrite <- (U y Y). apply node_eq; [done..|]. rewrite K2, decide_False; [done|]. intros ->.
    apply Y, elem_of_app. right. by left.
Qed.

(** The same of the map. *)
Lemma take_out_spec m root l1 h p l2 : table m root (l1 ++ (h, p) :: l2) ->
  let t := list_to_map (l1 ++ (h, p) :: l2) in
  exists root' m', libObjectHandle16Remove root p m = Some (root', m') /\ read_handle p m' = Some 0 /\
    t !! h = Some p /\ holds m' root' (delete h t) /\ forall y, ~ in_table t y -> m' !! y = m !! y.
Proof.
  intros Tb t. destruct (handle_remove_spec _ _ _ _ _ _ Tb) as (root' & m' & E & Tb' & Rh & U). exists root', m'.
  pose proof (sorted_distinct _ (t_sorted _ _ _ Tb)) as D. split_and!; [done|done| | |].
  - unfold t. rewrite map_middle by done. apply lookup_insert_eq.
  - exists (l1 ++ l2). split; [done|]. unfold t. rewrite map_middle by done. apply delete_insert_id. by eapply map_middle_fresh.
  - intros y Y. apply U. unfold t in Y. by rewrite in_table_list in Y.
Qed.
Lemma remove_first p m : libObjectHandle16RemoveOne (Some p) m =
  let* (root, m) := libObjectHandle16Remove (Some p) p m in Some (Some p, root, m).
Proof.
  unfold libObjectHandle16RemoveOne, libObjectRemoveOne, libObjectHandle16Remove. destruct (libObjectRemove _ _ _) as [[root m1]|]; [|done].
  by destruct (set_handle p 0 m1).
Qed.

(** C30: The table of handles of the library implements a finite map from handles to objects.  On memory that holds the ring of
    a map, every call goes through (no access through a bad pointer, and every walk around the ring ends): adding an object
    gives it a handle from 1 to 65535 that no other has, and fails only when all are taken; a search finds the object of the handle,
    or none; removing an object takes out its handle alone and clears it in the object; taking one gives some object
    until the map is empty.  The memory then holds the ring of the new map, and nodes that are neither the table's nor the
    call's are as before. *)
Theorem handle_table_refines m root t c : holds m root t -> allowed m t c ->
  exists r root' m' t', exec c root m = Some (r, root', m') /\ promised t c r t' /\ holds m' root' t' /\
    forall y, ~ in_table t y -> c <> Add y -> m' !! y = m !! y.
Proof.
  intros (l & Tb & ->) A. pose proof (in_table_list m root l) as In. pose proof (sorted_distinct _ (t_sorted _ _ _ Tb)) as D.
  destruct c as [o|h|o|]; cbn in A |- *.
  - destruct A as [T No]. rewrite In in No by done. destruct (add_spec m root l o Tb T No) as [(l1 & l2 & h & root' & m' & -> & -> & Tb' & U)|[-> F]].
    + assert (read_handle o m' = Some h) as ->.
      { destruct (key_of_node m' o h) as (n & E & Kn); [eapply t_keys; [exact Tb'|]; apply elem_of_app; right; by left|].
        unfold read_handle, handle_of. by rewrite E, Kn. }
      pose proof (sorted_distinct _ (t_sorted _ _ _ Tb')) as D'. eexists _, _, m', _. split; [reflexivity|]. split_and!.
      * apply (promised_add _ o h); [|by eapply map_middle_fresh]. eapply t_range; [exact Tb'|]. rewrite fmap_app. apply elem_of_app. right. by left.
      * eexists. split; [exact Tb'|]. by rewrite map_middle.
      * intros y Y Ny. apply U. rewrite In in Y by done. intros [->|]%elem_of_cons; done.
    + eexists _, root, m, _. split; [reflexivity|]. split_and!; [|by exists l|done]. apply promised_full. intros h Hh%F.
      apply list_elem_of_fmap in Hh as ([? p] & -> & Hp). exists p. by apply elem_of_list_to_map_1.
  - rewrite (search_spec _ _ _ _ Tb). eexists _, root, m, _. split; [reflexivity|]. split_and!; [constructor|by exists l|done].
  - destruct A as [h E]. apply elem_of_list_to_map_2, list_elem_of_split in E as (l1 & l2 & ->).
    destruct (take_out_spec _ _ _ _ _ _ Tb) as (root' & m' & -> & -> & Hh & H & U). eexists _, root', m', _. split; [reflexivity|].
    split_and!; [by apply promised_remove|done|by intros; apply U].
  - destruct l as [|[h p] l].
    + destruct Tb as [[-> _ _] _ _ _]. eexists _, None, m, _. split; [reflexivity|]. split_and!; [by apply promised_none| |done].
      exists []. split; [split; [split; [done|by apply NoDup_nil|done]|inversion 1|by constructor|inversion 1]|done].
    + pose proof (at_root _ _ _ (t_ring _ _ _ Tb)) as Rt. cbn in Rt. subst root. rewrite remove_first.
      destruct (take_out_spec m (Some p) [] h p l Tb) as (root' & m' & -> & _ & Hh & H & U). eexists _, root', m', _. split; [reflexivity|].
      split_and!; [by apply promised_one|done|by intros; apply U].
Qed.

(** Two objects with the handles 2 and 65535, and a third that is not in the table. *)
Definition two_objects : memory :=
  <[10%nat := mkNode 0 0 no_key]> (<[11%nat := mkNode 12 12 (nHandle 2)]> (<[12%nat := mkNode 11 11 (nHandle 65535)]> ∅)).
Lemma two_objects_hold : holds two_objects (Some 11%nat) (<[2 := 11%nat]> {[65535 := 12%nat]}).
Proof.
  exists [(2, 11%nat); (65535, 12%nat)]. split; [split; [split|..]|done].
  - done.
  - apply (bool_decide_unpack _). vm_compute. done.
  - repeat split.
  - intros h p Hp. rewrite !elem_of_cons in Hp. destruct Hp as [[= -> ->]|[[= -> ->]|Hp]]; [done|done|inversion Hp].
  - repeat constructor.
  - intros h Hh. cbn in Hh. rewrite !elem_of_cons in Hh. destruct Hh as [->|[->|Hh]]; [done|done|inversion Hh].
Qed.
(** The third gets the handle 1, and becomes the root. *)
Example add_wraps : (let* (r, root, _) := exec (Add 10) (Some 11%nat) two_objects in Some (r, root)) = Some (Added (Some 1), Some 10%nat).
Proof. vm_compute. reflexivity. Qed.
Lemma handle_table_refines_witness : exists r root' m' t', exec (Add 10) (Some 11%nat) two_objects = Some (r, root', m') /\
  promised (<[2 := 11%nat]> {[65535 := 12%nat]}) (Add 10) r t' /\ holds m' root' t' /\
  forall y, ~ in_table (<[2 := 11%nat]> {[65535 := 12%nat]}) y -> Add 10 <> Add y -> m' !! y = two_objects !! y.
Proof.
  apply (handle_table_refines two_objects (Some 11%nat) _ (Add 10)).
  - exact two_objects_hold.
  - split; [by eexists|]. intros [h [[_ E]|[_ [_ E]%lookup_singleton_Some]]%lookup_insert_Some]; discriminate E.
Defined.
