(* ===== verification/G711Component.v ===== *)
(** The G.711 decoder, an OpenMAX component
    (src/omx/audio/src/openmax_il/g711_dec/src: OMX_G711Decoder.c, OMX_G711Dec_Utils.c and
    OMX_G711Dec_ComponentThread.c), as the build configures it: without the resource manager.

    The client calls the component; commands and buffers go through pipes to the component's thread, which
    drives the codec on the DSP by the LCML library; the library calls back when the codec answers.  Here
    every call of the client, every turn of the thread and every callback is one step on the state; where a
    thread waits for a condition, the step that signals it and the one that begins to wait are separate.

    A result [None] is undefined behaviour: a null pointer, an access outside of an array, a division by
    zero; or a loop of G711DECGetCorresponding_LCMLHeader that waits for an initialisation nobody makes.
    The LCML library and the DSP bridge are inputs: [replies] are the results of the next calls, and the
    callbacks are steps.  Allocations and writes to pipes succeed; counters that nothing reads and the marks'
    and the codec's parameters that only the DSP reads are left out. *)

From Stdlib Require Import ZArith Lia.
From stdpp Require Import base gmap list list_numbers option tactics.
From S2P Require Import Prelude OmxCore.
Local Open Scope Z_scope.

(** * Data *)

Inductive OMX_STATETYPE :=
  | OMX_StateInvalid | OMX_StateLoaded | OMX_StateIdle | OMX_StateExecuting | OMX_StatePause | OMX_StateWaitForResources.
#[global] Instance OMX_STATETYPE_eq_dec : EqDecision OMX_STATETYPE.
Proof. solve_decision. Defined.
Definition state_number (s : OMX_STATETYPE) : Z :=
  match s with
  | OMX_StateInvalid => 0 | OMX_StateLoaded => 1 | OMX_StateIdle => 2
  | OMX_StateExecuting => 3 | OMX_StatePause => 4 | OMX_StateWaitForResources => 5
  end.
Definition state_of_number (n : Z) : option OMX_STATETYPE :=
  List.find (fun s => state_number s =? n)
    [OMX_StateInvalid; OMX_StateLoaded; OMX_StateIdle; OMX_StateExecuting; OMX_StatePause; OMX_StateWaitForResources].

Definition OMX_ErrorHardware : Z := s32 0x80001009.
Definition OMX_ErrorInvalidState : Z := s32 0x8000100A.
Definition OMX_ErrorVersionMismatch : Z := s32 0x8000100F.
Definition OMX_ErrorSameState : Z := s32 0x80001012.
Definition OMX_ErrorIncorrectStateTransition : Z := s32 0x80001017.
Definition OMX_ErrorIncorrectStateOperation : Z := s32 0x80001018.
Definition OMX_ErrorBadPortIndex : Z := s32 0x8000101B.
Definition OMX_ErrorPortUnpopulated : Z := s32 0x8000101C.

Definition OMX_CommandStateSet : Z := 0.
Definition OMX_CommandFlush : Z := 1.
Definition OMX_CommandPortDisable : Z := 2.
Definition OMX_CommandPortEnable : Z := 3.
(** A command with its data; a mark is its data and its target. *)
Inductive command := StateSet (n : Z) | Flush (n : Z) | PortDisable (n : Z) | PortEnable (n : Z) | MarkBuffer (n : Z) (m : Z * Z) | Unknown (n : Z).

(** Both ports at once. *)
Definition OMX_ALL : Z := 2 ^ 32 - 1.
Definition MAX_NUM_OF_BUFS : nat := 10.
Definition NUM_G711DEC_INPUT_BUFFERS : Z := 1.
Definition NUM_G711DEC_OUTPUT_BUFFERS : Z := 1.
Definition INPUT_G711DEC_BUFFER_SIZE : Z := 80.
Definition OUTPUT_G711DEC_BUFFER_SIZE : Z := 160.
Definition RTP_Framesize : Z := 80.
Definition STD_G711DEC_BUF_SIZE : Z := 80.
Definition NOT_USED : Z := 10.
Definition NORMAL_BUFFER : Z := 0.
Definition OMX_BUFFERFLAG_EOS : Z := 1.
Definition EXIT_COMPONENT_THRD : Z := 10.
Definition G711DEC_VERSION : Z := 0xF2F1.

Inductive dir := In | Out.
#[global] Instance dir_eq_dec : EqDecision dir.
Proof. solve_decision. Defined.
Definition port_number (d : dir) : Z := match d with In => 0 | Out => 1 end.

Record port := mkPort { bEnabled : bool; bPopulated : bool; nBufferSize : Z; nBufferCountActual : Z }.
Definition set_bEnabled (w : bool) (p : port) : port := mkPort w (bPopulated p) (nBufferSize p) (nBufferCountActual p).
Definition set_bPopulated (w : bool) (p : port) : port := mkPort (bEnabled p) w (nBufferSize p) (nBufferCountActual p).

(** A buffer header; [mark] is pMarkData and hMarkTargetComponent, [nPortIndex] nInputPortIndex and
    nOutputPortIndex, [sized] whether nSize is the size of the structure. *)
Record header := mkHeader { bytes : list Z; nAllocLen : Z; nFilledLen : Z; nFlags : Z; nTickCount : Z; nTimeStamp : Z; mark : Z * Z; nPortIndex : Z * Z; sized : bool; nVersion : Z }.
Definition set_bytes (w : list Z) (b : header) : header := mkHeader w (nAllocLen b) (nFilledLen b) (nFlags b) (nTickCount b) (nTimeStamp b) (mark b) (nPortIndex b) (sized b) (nVersion b).
Definition set_nFilledLen (w : Z) (b : header) : header := mkHeader (bytes b) (nAllocLen b) w (nFlags b) (nTickCount b) (nTimeStamp b) (mark b) (nPortIndex b) (sized b) (nVersion b).
Definition set_nFlags (w : Z) (b : header) : header := mkHeader (bytes b) (nAllocLen b) (nFilledLen b) w (nTickCount b) (nTimeStamp b) (mark b) (nPortIndex b) (sized b) (nVersion b).
Definition set_mark (w : Z * Z) (b : header) : header := mkHeader (bytes b) (nAllocLen b) (nFilledLen b) (nFlags b) (nTickCount b) (nTimeStamp b) w (nPortIndex b) (sized b) (nVersion b).

Record buffer_list := mkList { pBufHdr : list (option nat); bufferOwner : list bool; bBufferPending : list bool; numBuffers : Z }.
Definition set_bBufferPending (w : list bool) (l : buffer_list) : buffer_list := mkList (pBufHdr l) (bufferOwner l) w (numBuffers l).

(** What goes with a buffer to the DSP; [usNbFrames] is the number in pBufferParam, if there is one, and
    [pFrameParam] whether there is a description of the frames. *)
Record lcml_header := mkLcml { buffer : nat; usNbFrames : option Z; pFrameParam : bool }.
Definition set_usNbFrames (w : option Z) (q : lcml_header) : lcml_header := mkLcml (buffer q) w (pFrameParam q).
Definition set_pFrameParam (w : bool) (q : lcml_header) : lcml_header := mkLcml (buffer q) (usNbFrames q) w.

(** One port with its buffers; the buffers that wait for the end of a pause. *)
Record side := mkSide { pPortDef : port; pBufferList : buffer_list; pLcmlBufHeader : option (list lcml_header); pBufHdrPending : list (option nat); nNumBufPending : Z }.
Definition set_pPortDef (w : port) (x : side) : side := mkSide w (pBufferList x) (pLcmlBufHeader x) (pBufHdrPending x) (nNumBufPending x).
Definition set_pBufferList (w : buffer_list) (x : side) : side := mkSide (pPortDef x) w (pLcmlBufHeader x) (pBufHdrPending x) (nNumBufPending x).
Definition set_pLcmlBufHeader (w : option (list lcml_header)) (x : side) : side := mkSide (pPortDef x) (pBufferList x) w (pBufHdrPending x) (nNumBufPending x).

Record stamps := mkStamps { arrBufIndex : list Z; arrBufIndexTick : list Z; IpBufindex : Z; OpBufindex : Z }.

Record switches := mkSwitches { bStopSent : bool; bBypassDSP : bool; bNoIdleOnStop : bool; bIsStopping : bool; bIsEOFSent : bool; bInitParamsInitialized : bool; bLoadedCommandPending : bool }.
Definition set_bStopSent (b : bool) (w : switches) : switches := mkSwitches b (bBypassDSP w) (bNoIdleOnStop w) (bIsStopping w) (bIsEOFSent w) (bInitParamsInitialized w) (bLoadedCommandPending w).
Definition set_bBypassDSP (b : bool) (w : switches) : switches := mkSwitches (bStopSent w) b (bNoIdleOnStop w) (bIsStopping w) (bIsEOFSent w) (bInitParamsInitialized w) (bLoadedCommandPending w).
Definition set_bNoIdleOnStop (b : bool) (w : switches) : switches := mkSwitches (bStopSent w) (bBypassDSP w) b (bIsStopping w) (bIsEOFSent w) (bInitParamsInitialized w) (bLoadedCommandPending w).
Definition set_bIsStopping (b : bool) (w : switches) : switches := mkSwitches (bStopSent w) (bBypassDSP w) (bNoIdleOnStop w) b (bIsEOFSent w) (bInitParamsInitialized w) (bLoadedCommandPending w).
Definition set_bIsEOFSent (b : bool) (w : switches) : switches := mkSwitches (bStopSent w) (bBypassDSP w) (bNoIdleOnStop w) (bIsStopping w) b (bInitParamsInitialized w) (bLoadedCommandPending w).
Definition set_bInitParamsInitialized (b : bool) (w : switches) : switches := mkSwitches (bStopSent w) (bBypassDSP w) (bNoIdleOnStop w) (bIsStopping w) (bIsEOFSent w) b (bLoadedCommandPending w).
Definition set_bLoadedCommandPending (b : bool) (w : switches) : switches := mkSwitches (bStopSent w) (bBypassDSP w) (bNoIdleOnStop w) (bIsStopping w) (bIsEOFSent w) (bInitParamsInitialized w) b.

(** A wait for a condition: the thread is about to wait, waits, or was woken up. *)
Inductive wait := About | Blocked | Woken.
Inductive thread := Running | InLoaded (w : wait) | InIdle (w : wait) | Exited.
Inductive caller := Free | Allocating (w : wait) (port size : Z).
Record waits := mkWaits { InLoaded_readytoidle : bool; InIdle_goingtoloaded : bool; AlloBuf_waitingsignal : bool; comp_thread : thread; client : caller }.
Definition set_InLoaded_readytoidle (w : bool) (v : waits) : waits := mkWaits w (InIdle_goingtoloaded v) (AlloBuf_waitingsignal v) (comp_thread v) (client v).
Definition set_InIdle_goingtoloaded (w : bool) (v : waits) : waits := mkWaits (InLoaded_readytoidle v) w (AlloBuf_waitingsignal v) (comp_thread v) (client v).
Definition set_AlloBuf_waitingsignal (w : bool) (v : waits) : waits := mkWaits (InLoaded_readytoidle v) (InIdle_goingtoloaded v) w (comp_thread v) (client v).
Definition set_comp_thread (w : thread) (v : waits) : waits := mkWaits (InLoaded_readytoidle v) (InIdle_goingtoloaded v) (AlloBuf_waitingsignal v) w (client v).
Definition set_client (w : caller) (v : waits) : waits := mkWaits (InLoaded_readytoidle v) (InIdle_goingtoloaded v) (AlloBuf_waitingsignal v) (comp_thread v) w.

(** Commands to a port that wait for its buffers. *)
Record postponed := mkPostponed { bDisableCommandPending : bool; bDisableCommandParam : Z; bEnableCommandPending : bool; bEnableCommandParam : Z }.

Record modes := mkModes { dasfmode : Z; streamID : Z; ftype : Z; nRuntimeInputBuffers : Z; version : Z; next_header : nat }.

(** What the component does: callbacks of the client and calls of the LCML library. *)
Inductive codec_control := EMMCodecControlStart | EMMCodecControlPause | MMCodecControlStop | EMMCodecControlDestroy | EMMCodecControlStrmCtrl.
Inductive action :=
  | CmdComplete (cmd data : Z) | Error (err data : Z) | BufferFlag (port flags : Z) | Marked (data : Z)
  | EmptyBufferDone (h : nat) | FillBufferDone (h : nat)
  | Init | Control (c : codec_control) | Queue (d : dir) (h : nat) (len : Z).

Record component := mkComponent { curState : OMX_STATETYPE; pLcmlHandle : bool; inp : side; outp : side; headers : gmap nat header; nHoldLength : Z; pHoldBuffer : option (list Z); times : stamps; pMarkBuf : option (Z * Z); pMark : Z * Z; flags : switches; waiting : waits; later : postponed; cfg : modes; cmdPipe : list command; dataPipe : list nat; replies : list Z; log : list action }.
Definition set_curState (w : OMX_STATETYPE) (k : component) : component := mkComponent w (pLcmlHandle k) (inp k) (outp k) (headers k) (nHoldLength k) (pHoldBuffer k) (times k) (pMarkBuf k) (pMark k) (flags k) (waiting k) (later k) (cfg k) (cmdPipe k) (dataPipe k) (replies k) (log k).
Definition set_pLcmlHandle (w : bool) (k : component) : component := mkComponent (curState k) w (inp k) (outp k) (headers k) (nHoldLength k) (pHoldBuffer k) (times k) (pMarkBuf k) (pMark k) (flags k) (waiting k) (later k) (cfg k) (cmdPipe k) (dataPipe k) (replies k) (log k).
Definition set_inp (w : side) (k : component) : component := mkComponent (curState k) (pLcmlHandle k) w (outp k) (headers k) (nHoldLength k) (pHoldBuffer k) (times k) (pMarkBuf k) (pMark k) (flags k) (waiting k) (later k) (cfg k) (cmdPipe k) (dataPipe k) (replies k) (log k).
Definition set_outp (w : side) (k : component) : component := mkComponent (curState k) (pLcmlHandle k) (inp k) w (headers k) (nHoldLength k) (pHoldBuffer k) (times k) (pMarkBuf k) (pMark k) (flags k) (waiting k) (later k) (cfg k) (cmdPipe k) (dataPipe k) (replies k) (log k).
Definition set_headers (w : gmap nat header) (k : component) : component := mkComponent (curState k) (pLcmlHandle k) (inp k) (outp k) w (nHoldLength k) (pHoldBuffer k) (times k) (pMarkBuf k) (pMark k) (flags k) (waiting k) (later k) (cfg k) (cmdPipe k) (dataPipe k) (replies k) (log k).
Definition set_nHoldLength (w : Z) (k : component) : component := mkComponent (curState k) (pLcmlHandle k) (inp k) (outp k) (headers k) w (pHoldBuffer k) (times k) (pMarkBuf k) (pMark k) (flags k) (waiting k) (later k) (cfg k) (cmdPipe k) (dataPipe k) (replies k) (log k).
Definition set_pHoldBuffer (w : option (list Z)) (k : component) : component := mkComponent (curState k) (pLcmlHandle k) (inp k) (outp k) (headers k) (nHoldLength k) w (times k) (pMarkBuf k) (pMark k) (flags k) (waiting k) (later k) (cfg k) (cmdPipe k) (dataPipe k) (replies k) (log k).
Definition set_times (w : stamps) (k : component) : component := mkComponent (curState k) (pLcmlHandle k) (inp k) (outp k) (headers k) (nHoldLength k) (pHoldBuffer k) w (pMarkBuf k) (pMark k) (flags k) (waiting k) (later k) (cfg k) (cmdPipe k) (dataPipe k) (replies k) (log k).
Definition set_pMarkBuf (w : option (Z * Z)) (k : component) : component := mkComponent (curState k) (pLcmlHandle k) (inp k) (outp k) (headers k) (nHoldLength k) (pHoldBuffer k) (times k) w (pMark k) (flags k) (waiting k) (later k) (cfg k) (cmdPipe k) (dataPipe k) (replies k) (log k).
Definition set_pMark (w : Z * Z) (k : component) : component := mkComponent (curState k) (pLcmlHandle k) (inp k) (outp k) (headers k) (nHoldLength k) (pHoldBuffer k) (times k) (pMarkBuf k) w (flags k) (waiting k) (later k) (cfg k) (cmdPipe k) (dataPipe k) (replies k) (log k).
Definition set_flags (w : switches) (k : component) : component := mkComponent (curState k) (pLcmlHandle k) (inp k) (outp k) (headers k) (nHoldLength k) (pHoldBuffer k) (times k) (pMarkBuf k) (pMark k) w (waiting k) (later k) (cfg k) (cmdPipe k) (dataPipe k) (replies k) (log k).
Definition set_waiting (w : waits) (k : component) : component := mkComponent (curState k) (pLcmlHandle k) (inp k) (outp k) (headers k) (nHoldLength k) (pHoldBuffer k) (times k) (pMarkBuf k) (pMark k) (flags k) w (later k) (cfg k) (cmdPipe k) (dataPipe k) (replies k) (log k).
Definition set_later (w : postponed) (k : component) : component := mkComponent (curState k) (pLcmlHandle k) (inp k) (outp k) (headers k) (nHoldLength k) (pHoldBuffer k) (times k) (pMarkBuf k) (pMark k) (flags k) (waiting k) w (cfg k) (cmdPipe k) (dataPipe k) (replies k) (log k).
Definition set_cfg (w : modes) (k : component) : component := mkComponent (curState k) (pLcmlHandle k) (inp k) (outp k) (headers k) (nHoldLength k) (pHoldBuffer k) (times k) (pMarkBuf k) (pMark k) (flags k) (waiting k) (later k) w (cmdPipe k) (dataPipe k) (replies k) (log k).
Definition set_cmdPipe (w : list command) (k : component) : component := mkComponent (curState k) (pLcmlHandle k) (inp k) (outp k) (headers k) (nHoldLength k) (pHoldBuffer k) (times k) (pMarkBuf k) (pMark k) (flags k) (waiting k) (later k) (cfg k) w (dataPipe k) (replies k) (log k).
Definition set_dataPipe (w : list nat) (k : component) : component := mkComponent (curState k) (pLcmlHandle k) (inp k) (outp k) (headers k) (nHoldLength k) (pHoldBuffer k) (times k) (pMarkBuf k) (pMark k) (flags k) (waiting k) (later k) (cfg k) (cmdPipe k) w (replies k) (log k).
Definition set_replies (w : list Z) (k : component) : component := mkComponent (curState k) (pLcmlHandle k) (inp k) (outp k) (headers k) (nHoldLength k) (pHoldBuffer k) (times k) (pMarkBuf k) (pMark k) (flags k) (waiting k) (later k) (cfg k) (cmdPipe k) (dataPipe k) w (log k).
Definition set_log (w : list action) (k : component) : component := mkComponent (curState k) (pLcmlHandle k) (inp k) (outp k) (headers k) (nHoldLength k) (pHoldBuffer k) (times k) (pMarkBuf k) (pMark k) (flags k) (waiting k) (later k) (cfg k) (cmdPipe k) (dataPipe k) (replies k) w.

Definition side_of (d : dir) (k : component) : side := match d with In => inp k | Out => outp k end.
Definition set_side (d : dir) (x : side) (k : component) : component := match d with In => set_inp x k | Out => set_outp x k end.
Definition port_of (d : dir) (k : component) : port := pPortDef (side_of d k).
Definition list_of (d : dir) (k : component) : buffer_list := pBufferList (side_of d k).
Definition set_port (d : dir) (p : port) (k : component) : component := set_side d (set_pPortDef p (side_of d k)) k.
Definition set_list (d : dir) (l : buffer_list) (k : component) : component := set_side d (set_pBufferList l (side_of d k)) k.
Definition enable (d : dir) (b : bool) (k : component) : component := set_port d (set_bEnabled b (port_of d k)) k.
Definition populate (d : dir) (b : bool) (k : component) : component := set_port d (set_bPopulated b (port_of d k)) k.
Definition switch (f : switches -> switches) (k : component) : component := set_flags (f (flags k)) k.
Definition set_waiter (f : waits -> waits) (k : component) : component := set_waiting (f (waiting k)) k.
Definition set_header (h : nat) (b : header) (k : component) : component := set_headers (<[h := b]> (headers k)) k.
Definition emit (a : action) (k : component) : component := set_log (log k ++ [a]) k.
Definition goto (s : OMX_STATETYPE) (k : component) : component := set_curState s k.
(** A change of the state, and its report. *)
Definition enter (s : OMX_STATETYPE) (k : component) : component := emit (CmdComplete OMX_CommandStateSet (state_number s)) (goto s k).
Definition set_runtime (n v : Z) (k : component) : component :=
  let m := cfg k in set_cfg (mkModes (dasfmode m) (streamID m) (ftype m) n v (next_header m)) k.

Definition reply (k : component) : Z * component :=
  match replies k with [] => (OMX_ErrorNone, k) | r :: rs => (r, set_replies rs k) end.
Definition LCML_ControlCodec (c : codec_control) (k : component) : option (Z * component) :=
  guard* pLcmlHandle k in Some (reply (emit (Control c) k)).
Definition LCML_QueueBuffer (d : dir) (h : nat) (len : Z) (k : component) : option (Z * component) :=
  guard* pLcmlHandle k in Some (reply (emit (Queue d h len) k)).

Definition is_state (s : OMX_STATETYPE) (k : component) : bool := bool_decide (curState k = s).

(** * Lists of buffers *)

(** The buffers in the list, up to their number. *)
Definition listed (d : dir) (k : component) : list (option nat) := take (Z.to_nat (numBuffers (list_of d k))) (pBufHdr (list_of d k)).
Definition is_buffer (h : nat) (o : option nat) : bool := bool_decide (o = Some h).

Definition mark_pending (b : bool) (d : dir) (h : nat) (k : component) : component :=
  let l := list_of d k in
  let n := Z.to_nat (numBuffers l) in
  set_list d (set_bBufferPending
    (zip_with (fun o old => if is_buffer h o then b else old) (take n (pBufHdr l)) (bBufferPending l) ++ drop n (bBufferPending l)) l) k.
Definition G711DEC_SetPending (h : nat) (d : dir) (k : component) : component := mark_pending true d h k.
Definition G711DEC_ClearPending (h : nat) (d : dir) (k : component) : component := mark_pending false d h k.
(** A buffer that is not in the list counts as pending. *)
Definition G711DEC_IsPending (h : nat) (d : dir) (k : component) : bool :=
  match list_find (fun o => o = Some h) (listed d k) with
  | Some (i, _) => default true (bBufferPending (list_of d k) !! i)
  | None => true
  end.

Definition G711DECGetBufferDirection (h : nat) (k : component) : option dir :=
  if bool_decide (Some h ∈ listed In k) then Some In
  else if bool_decide (Some h ∈ listed Out k) then Some Out
  else None.

(** The first header for a buffer, by the address of its data, which is its own. *)
Fixpoint find_lcml (h n : nat) (l : list lcml_header) (i : nat) (k : component) {struct n} : option (option nat) :=
  match n with
  | O => Some None
  | S n =>
      match l with
      | [] => None
      | q :: l =>
          let* _ := headers k !! buffer q in
          if (buffer q =? h)%nat then Some (Some i) else find_lcml h n l (S i) k
      end
  end.
(** The position of the header, if there is one. *)
Definition G711DECGetCorresponding_LCMLHeader (h : nat) (d : dir) (k : component) : option (option nat) :=
  guard* bInitParamsInitialized (flags k) in
  find_lcml h (Z.to_nat (numBuffers (list_of d k))) (default [] (pLcmlBufHeader (side_of d k))) 0 k.
Definition lcml_at (d : dir) (i : nat) (k : component) : option lcml_header :=
  let* l := pLcmlBufHeader (side_of d k) in l !! i.
Definition set_lcml (d : dir) (i : nat) (q : lcml_header) (k : component) : component :=
  set_side d (set_pLcmlBufHeader ((fun l => <[i := q]> l) <$> pLcmlBufHeader (side_of d k)) (side_of d k)) k.

(** A buffer is kept until the end of a pause. *)
Definition postpone (d : dir) (h : nat) (k : component) : option component :=
  let x := side_of d k in
  guard* nNumBufPending x <? Z.of_nat MAX_NUM_OF_BUFS in
  Some (set_side d (mkSide (pPortDef x) (pBufferList x) (pLcmlBufHeader x)
    (<[Z.to_nat (nNumBufPending x) := Some h]> (pBufHdrPending x)) (nNumBufPending x + 1)) k).
Definition forget_postponed (d : dir) (slots : list (option nat)) (n : Z) (k : component) : component :=
  let x := side_of d k in set_side d (mkSide (pPortDef x) (pBufferList x) (pLcmlBufHeader x) slots n) k.

(** * Commands to the component *)

Definition SendCommand (c : command) (k : component) : Z * component :=
  let write := (OMX_ErrorNone, set_cmdPipe (cmdPipe k ++ [c]) k) in
  if is_state OMX_StateInvalid k then (OMX_ErrorInvalidState, emit (Error OMX_ErrorInvalidState 0) k)
  else match c with
  | StateSet n =>
      let k := if n =? 1 then switch (set_bLoadedCommandPending true) k else k in
      if is_state OMX_StateLoaded k && ((n =? 3) || (n =? 4)) then (OMX_ErrorNone, emit (Error OMX_ErrorIncorrectStateTransition 0) k)
      else if is_state OMX_StateLoaded k && (n =? 0) then (OMX_ErrorNone, emit (Error OMX_ErrorInvalidState 0) (goto OMX_StateInvalid k))
      else (OMX_ErrorNone, set_cmdPipe (cmdPipe k ++ [c]) k)
  | Flush n => if (1 <? n) && negb (n =? OMX_ALL) then (OMX_ErrorBadPortIndex, k) else write
  | PortDisable _ | PortEnable _ => write
  | MarkBuffer n _ => if 0 <? n then (OMX_ErrorBadPortIndex, k) else write
  | Unknown _ => (OMX_ErrorNone, set_cmdPipe (cmdPipe k ++ [c]) (emit (Error OMX_ErrorUndefined 0) k))
  end.

(** * Initialisation of the codec *)

Definition set_version (v : Z) : Z := Z.lor (Z.land v 0xFFFF0000) G711DEC_VERSION.
(** The header of a buffer is filled anew. *)
Definition init_header (size : Z) (b : header) : header :=
  mkHeader (bytes b) size size NORMAL_BUFFER NOT_USED (nTimeStamp b) (mark b) (nPortIndex b) true (set_version (nVersion b)).
(** The first [n] buffers of a list; a slot without one is a null pointer. *)
Fixpoint init_headers (size : Z) (slots : list (option nat)) (k : component) : option component :=
  match slots with
  | [] => Some k
  | o :: slots =>
      let* h := o in
      let* b := headers k !! h in
      init_headers size slots (set_header h (init_header size b) k)
  end.
Definition lcml_headers (param : option Z) (slots : list (option nat)) : list lcml_header :=
  omap (fun o => (fun h => mkLcml h param false) <$> o) slots.
Definition set_lcml_list (d : dir) (l : option (list lcml_header)) (k : component) : component :=
  set_side d (set_pLcmlBufHeader l (side_of d k)) k.
Definition last_version (slots : list (option nat)) (k : component) : Z :=
  match reverse slots with
  | Some h :: _ => match headers k !! h with Some b => nVersion b | None => version (cfg k) end
  | _ => version (cfg k)
  end.

(** With [param], the headers for the input buffers get their parameters; the number of input buffers is noted. *)
Definition fill_params (param : option Z) (runtime : Z) (k : component) : option component :=
  let* k := init_headers (nBufferSize (port_of In k)) (listed In k) k in
  let k := set_lcml_list In (Some (lcml_headers param (listed In k))) k in
  let* k := init_headers (nBufferSize (port_of Out k)) (listed Out k) k in
  let k := set_lcml_list Out (Some (lcml_headers None (listed Out k))) k in
  let k := set_runtime runtime (last_version (listed Out k) k) k in
  Some (switch (set_bInitParamsInitialized true) k).
Definition G711DECFill_LCMLInitParams (k : component) : option component := fill_params (Some 0) (numBuffers (list_of In k)) k.
Definition G711DECFill_LCMLInitParamsEx (k : component) : option component := fill_params None (nRuntimeInputBuffers (cfg k)) k.

Definition G711DEC_CleanupInitParams (k : component) : option component :=
  let n := nRuntimeInputBuffers (cfg k) in
  guard* (n =? 0) || match pLcmlBufHeader (inp k) with Some _ => true | None => false end in
  Some (set_lcml_list Out None (set_lcml_list In None k)).

Definition G711DEC_FatalErrorRecover (k : component) : option component :=
  G711DEC_CleanupInitParams (emit (Error OMX_ErrorInvalidState 1) (goto OMX_StateInvalid k)).

(** * Changes of the state *)

(** A port is settled when it has its buffers, or is disabled and has none. *)
Definition settled (p : port) : bool := (bPopulated p && bEnabled p) || (negb (bPopulated p) && negb (bEnabled p)).

(** From Loaded to Idle, once the buffers are there. *)
Definition idle_from_loaded (k : component) : option (Z * component) :=
  let '(r, k) := reply k in
  if negb (r =? OMX_ErrorNone) then Some (OMX_ErrorNone, k)
  else
    let* k := G711DECFill_LCMLInitParams k in
    let '(r, k) := reply (emit Init (set_pLcmlHandle true k)) in
    if negb (r =? OMX_ErrorNone) then Some (r, k)
    else
      let k := enter OMX_StateIdle k in
      if dasfmode (cfg k) =? 1 then LCML_ControlCodec EMMCodecControlStrmCtrl k else Some (OMX_ErrorNone, k).

(** From Idle to Loaded, once the buffers are gone. *)
Definition loaded_from_idle (k : component) : option (Z * component) :=
  let finish k := Some (EXIT_COMPONENT_THRD, switch (fun f => set_bLoadedCommandPending false (set_bInitParamsInitialized false f)) k) in
  if pLcmlHandle k then
    let* (r, k) := LCML_ControlCodec EMMCodecControlDestroy k in
    if negb (r =? OMX_ErrorNone) then Some (r, k) else finish (set_pLcmlHandle false k)
  else finish k.

Definition wait_in (t : thread) (k : component) : component := set_waiter (set_comp_thread t) k.

Definition to_idle (k : component) : option (Z * component) :=
  match curState k with
  | OMX_StateIdle => Some (OMX_ErrorNone, emit (Error OMX_ErrorSameState 0) k)
  | OMX_StateLoaded | OMX_StateWaitForResources =>
      let dasf := dasfmode (cfg k) =? 1 in
      let k := if dasf then populate Out false (enable Out false k) else k in
      if dasf && (streamID (cfg k) =? 0) then
        Some (OMX_ErrorInsufficientResources, emit (Error OMX_ErrorInvalidState 0) (goto OMX_StateInvalid k))
      else if settled (port_of In k) && settled (port_of Out k) then idle_from_loaded k
      else Some (OMX_ErrorNone, wait_in (InLoaded About) (set_waiter (set_InLoaded_readytoidle true) k))
  | OMX_StateExecuting =>
      let* (r, k) := LCML_ControlCodec MMCodecControlStop k in
      if negb (r =? OMX_ErrorNone) then Some (r, k)
      else Some (OMX_ErrorNone, set_nHoldLength 0 (set_pHoldBuffer None (switch (set_bStopSent true) k)))
  | OMX_StatePause => Some (OMX_ErrorNone, enter OMX_StateIdle k)
  | OMX_StateInvalid => Some (OMX_ErrorNone, emit (Error OMX_ErrorIncorrectStateTransition 0) k)
  end.

(** The postponed buffers are queued; the length is that of the data.  The header for the DSP of an input buffer that
    has none is the one found before. *)
Fixpoint queue_postponed (d : dir) (slots : list (option nat)) (pLcmlHdr : option nat) (r : Z) (k : component) : option (Z * component) :=
  match slots with
  | [] => Some (r, k)
  | None :: slots => queue_postponed d slots pLcmlHdr r k
  | Some h :: slots =>
      let* b := headers k !! h in
      let* found := G711DECGetCorresponding_LCMLHeader h d k in
      let pLcmlHdr := match found with Some i => Some i | None => pLcmlHdr end in
      guard* match d, pLcmlHdr with In, None => false | _, _ => true end in
      let* (r, k) := LCML_QueueBuffer d h (nFilledLen b) (G711DEC_SetPending h d k) in
      queue_postponed d slots pLcmlHdr r k
  end.
Definition queue_pending (d : dir) (r : Z) (k : component) : option (Z * component) :=
  let x := side_of d k in
  let* (r, k) := queue_postponed d (take (Z.to_nat (nNumBufPending x)) (pBufHdrPending x)) None r k in
  Some (r, forget_postponed d (pBufHdrPending (side_of d k)) 0 k).

Definition to_executing (k : component) : option (Z * component) :=
  match curState k with
  | OMX_StateExecuting => Some (OMX_ErrorNone, emit (Error OMX_ErrorSameState 0) k)
  | OMX_StateIdle =>
      let* (r, k) := LCML_ControlCodec EMMCodecControlStart (switch (set_bStopSent false) k) in
      if negb (r =? OMX_ErrorNone) then Some (r, k) else Some (r, enter OMX_StateExecuting k)
  | OMX_StatePause =>
      let* (r, k) := LCML_ControlCodec EMMCodecControlStart k in
      if negb (r =? OMX_ErrorNone) then Some (r, k)
      else
        let* (r, k) := queue_pending In r k in
        let* (r, k) := queue_pending Out r k in
        Some (r, enter OMX_StateExecuting k)
  | _ => Some (OMX_ErrorNone, emit (Error OMX_ErrorIncorrectStateTransition 0) k)
  end.

Definition to_loaded (k : component) : option (Z * component) :=
  match curState k with
  | OMX_StateLoaded => Some (OMX_ErrorNone, emit (Error OMX_ErrorSameState 0) k)
  | OMX_StateWaitForResources => Some (OMX_ErrorNone, enter OMX_StateLoaded k)
  | OMX_StateIdle =>
      if negb (numBuffers (list_of In k) =? 0) && negb (numBuffers (list_of Out k) =? 0)
      then Some (OMX_ErrorNone, wait_in (InIdle About) (set_waiter (set_InIdle_goingtoloaded true) k))
      else loaded_from_idle k
  | _ => Some (OMX_ErrorNone, emit (Error OMX_ErrorIncorrectStateTransition 0) k)
  end.

Definition to_pause (k : component) : option (Z * component) :=
  match curState k with
  | OMX_StatePause => Some (OMX_ErrorNone, emit (Error OMX_ErrorSameState 0) k)
  | OMX_StateExecuting | OMX_StateIdle => LCML_ControlCodec EMMCodecControlPause k
  | _ => Some (OMX_ErrorNone, emit (Error OMX_ErrorIncorrectStateTransition 0) k)
  end.

Definition to_wait (k : component) : option (Z * component) :=
  match curState k with
  | OMX_StateWaitForResources => Some (OMX_ErrorNone, emit (Error OMX_ErrorSameState 0) k)
  | OMX_StateLoaded => Some (OMX_ErrorNone, enter OMX_StateWaitForResources k)
  | _ => Some (OMX_ErrorNone, emit (Error OMX_ErrorIncorrectStateTransition 0) k)
  end.

Definition to_invalid (k : component) : option (Z * component) :=
  match curState k with
  | OMX_StateInvalid => Some (OMX_ErrorNone, emit (Error OMX_ErrorSameState 0) k)
  | s =>
      let alive := negb (bool_decide (s = OMX_StateWaitForResources)) && negb (bool_decide (s = OMX_StateLoaded)) && pLcmlHandle k in
      let* (r, k) := (if alive then let* (r, k) := LCML_ControlCodec EMMCodecControlDestroy k in Some (r, set_pLcmlHandle false k)
                      else Some (OMX_ErrorNone, k)) in
      let* k := G711DEC_CleanupInitParams (emit (Error OMX_ErrorInvalidState 0) (goto OMX_StateInvalid k)) in
      Some (r, k)
  end.

Definition state_set (n : Z) (k : component) : option (Z * component) :=
  match state_of_number n with
  | Some OMX_StateIdle => to_idle k
  | Some OMX_StateExecuting => to_executing k
  | Some OMX_StateLoaded => to_loaded k
  | Some OMX_StatePause => to_pause k
  | Some OMX_StateWaitForResources => to_wait k
  | Some OMX_StateInvalid => to_invalid k
  | None => Some (OMX_ErrorNone, k)
  end.

(** * Ports *)

Definition names (d : dir) (n : Z) : bool := (n =? port_number d) || (n =? OMX_ALL).
Definition set_disable (b : bool) (n : Z) (k : component) : component :=
  let v := later k in set_later (mkPostponed b n (bEnableCommandPending v) (bEnableCommandParam v)) k.
Definition set_enable (b : bool) (n : Z) (k : component) : component :=
  let v := later k in set_later (mkPostponed (bDisableCommandPending v) (bDisableCommandParam v) b n) k.
Definition populated (d : dir) (k : component) : bool := bPopulated (port_of d k).

Definition port_disable (n : Z) (k : component) : option (Z * component) :=
  let* (r, k) :=
    if bDisableCommandPending (later k) then Some (OMX_ErrorNone, k)
    else
      let k := if names In n then enable In false k else k in
      if names Out n then
        let k := enable Out false k in
        if is_state OMX_StateExecuting k then LCML_ControlCodec MMCodecControlStop (switch (set_bNoIdleOnStop true) k)
        else Some (OMX_ErrorNone, k)
      else Some (OMX_ErrorNone, k) in
  let param := bDisableCommandParam (later k) in
  let done d k := emit (CmdComplete OMX_CommandPortDisable (port_number d)) k in
  let k := if n =? 0 then if negb (populated In k) then set_disable false param (done In k) else set_disable true n k else k in
  let k := if n =? 1 then if negb (populated Out k) then set_disable false param (done Out k) else set_disable true n k else k in
  let k := if n =? OMX_ALL
           then if negb (populated In k) && negb (populated Out k) then set_disable false param (done Out (done In k)) else set_disable true n k
           else k in
  Some (r, k).

(** A condition is signalled: a thread that waits wakes up; one that is only about to wait does not notice. *)
Definition wake (w : wait) : wait := match w with Blocked => Woken | w => w end.
Definition signal_loaded (k : component) : component :=
  match comp_thread (waiting k) with InLoaded w => wait_in (InLoaded (wake w)) k | _ => k end.
Definition signal_idle (k : component) : component :=
  match comp_thread (waiting k) with InIdle w => wait_in (InIdle (wake w)) k | _ => k end.
Definition signal_allocation (k : component) : component :=
  match client (waiting k) with Allocating w p s => set_waiter (set_client (Allocating (wake w) p s)) k | Free => k end.

Definition port_enable (n : Z) (k : component) : option (Z * component) :=
  let* (r, k) :=
    if bEnableCommandPending (later k) then Some (OMX_ErrorNone, k)
    else
      let k := if names In n then enable In true (set_waiter (set_AlloBuf_waitingsignal false) k) else k in
      if names Out n then
        let k := if AlloBuf_waitingsignal (waiting k) then signal_allocation (set_waiter (set_AlloBuf_waitingsignal false) k) else k in
        let* (r, k) := if is_state OMX_StateExecuting k then LCML_ControlCodec EMMCodecControlStart k else Some (OMX_ErrorNone, k) in
        Some (r, enable Out true k)
      else Some (OMX_ErrorNone, k) in
  let param := bEnableCommandParam (later k) in
  let loaded := is_state OMX_StateLoaded k in
  let done d k := emit (CmdComplete OMX_CommandPortEnable (port_number d)) k in
  let* k :=
    if n =? 0 then Some (if loaded || populated In k then set_enable false param (done In k) else set_enable true n k)
    else if n =? 1 then Some (if loaded || populated Out k then set_enable false param (done Out k) else set_enable true n k)
    else if n =? OMX_ALL then
      if loaded || (populated In k && populated Out k)
      then G711DECFill_LCMLInitParamsEx (set_enable false param (done Out (done In k)))
      else Some (set_enable true n k)
    else Some k in
  Some (r, signal_allocation k).

(** All buffers of a port are handed back. *)
Definition buffer_done (d : dir) (h : nat) : action := match d with In => EmptyBufferDone h | Out => FillBufferDone h end.
Fixpoint hand_back (d : dir) (slots : list (option nat)) (k : component) : option component :=
  match slots with
  | [] => Some k
  | o :: slots => let* h := o in hand_back d slots (emit (buffer_done d h) k)
  end.
Definition flush_port (d : dir) (k : component) : option component :=
  let n := if numBuffers (list_of d k) =? 0 then nNumBufPending (side_of d k) else 0 in
  let k := forget_postponed d (replicate MAX_NUM_OF_BUFS None) n k in
  let* k := hand_back d (listed d k) k in
  Some (emit (CmdComplete OMX_CommandFlush (port_number d)) k).
Definition flush (n : Z) (k : component) : option (Z * component) :=
  let* k := if names In n then flush_port In k else Some k in
  let* k := if names Out n then flush_port Out k else Some k in
  Some (OMX_ErrorNone, k).

Definition G711DECHandleCommand (c : command) (k : component) : option (Z * component) :=
  match c with
  | StateSet n => state_set n k
  | MarkBuffer _ m => Some (OMX_ErrorNone, match pMarkBuf k with None => set_pMarkBuf (Some m) k | Some _ => k end)
  | PortDisable n => port_disable n k
  | PortEnable n => port_enable n k
  | Flush n => flush n k
  | Unknown _ => Some (OMX_ErrorNone, k)
  end.

(** * Buffers from the client *)

Definition pHandle : Z := 1.
Definition holdBufferSize (k : component) : Z := u32 (nBufferSize (port_of In k) * (numBuffers (list_of In k) + 1)).
(** The bytes held are set; an access beyond a buffer is undefined. *)
Definition hold (n : Z) (bs : list Z) (k : component) : component := set_nHoldLength n (set_pHoldBuffer (Some bs) k).
Definition overwrite (p : Z) (bs l : list Z) : option (list Z) :=
  guard* p + Z.of_nat (length bs) <=? Z.of_nat (length l) in
  Some (take (Z.to_nat p) l ++ bs ++ drop (Z.to_nat p + length bs) l).
Definition slice (p n : Z) (l : list Z) : option (list Z) :=
  guard* (0 <=? n) && (p + n <=? Z.of_nat (length l)) in Some (take (Z.to_nat n) (drop (Z.to_nat p) l)).
Definition hold_memory (k : component) : list Z :=
  match pHoldBuffer k with Some m => m | None => replicate (Z.to_nat (holdBufferSize k)) 0 end.

(** A buffer that is not sent goes back to the client, or waits for the end of the pause. *)
Definition give_back (h : nat) (k : component) : option component :=
  if is_state OMX_StatePause k then postpone In h k else Some (emit (EmptyBufferDone h) k).

(** The data of a buffer with what is held from before; true when the buffer is to be sent. *)
Definition collect (h : nat) (b : header) (k : component) : option (bool * component) :=
  let frameLength := nBufferSize (port_of In k) in
  if nHoldLength k =? 0 then
    if frameLength <=? nFilledLen b then
      let n := nFilledLen b - frameLength in
      if 0 <? n then
        let* extra := slice frameLength n (bytes b) in
        let* m := overwrite 0 extra (hold_memory k) in
        Some (true, hold n m k)
      else Some (true, set_nHoldLength n k)
    else
      let* extra := slice 0 (nFilledLen b) (bytes b) in
      let* m := overwrite 0 extra (hold_memory k) in
      let* k := give_back h (hold (nFilledLen b) m k) in
      Some (false, k)
  else
    let* m := pHoldBuffer k in
    let* extra := slice 0 (nFilledLen b) (bytes b) in
    let* m := overwrite (nHoldLength k) extra m in
    let n := u32 (nHoldLength k + nFilledLen b) in
    if frameLength <=? n then
      let* frame := slice 0 frameLength m in
      let* bs := overwrite 0 frame (bytes b) in
      let* rest := slice frameLength (n - frameLength) m in
      let* m := overwrite 0 rest m in
      guard* n - frameLength <=? holdBufferSize k in
      let* m := overwrite (n - frameLength) (replicate (Z.to_nat (holdBufferSize k - (n - frameLength))) 0) m in
      Some (true, set_header h (set_bytes bs b) (hold (n - frameLength) m k))
    else
      let* k := give_back h (hold n m k) in
      Some (is_state OMX_StatePause k, k).

Definition note_times (b : header) (k : component) : option component :=
  let t := times k in
  guard* IpBufindex t <? Z.of_nat MAX_NUM_OF_BUFS in
  let n := nBufferCountActual (port_of In k) in
  guard* negb (n =? 0) in
  Some (set_times (mkStamps (<[Z.to_nat (IpBufindex t) := u32 (nTimeStamp b)]> (arrBufIndex t))
    (<[Z.to_nat (IpBufindex t) := nTickCount b]> (arrBufIndexTick t)) (u8 (IpBufindex t + 1) mod n) (OpBufindex t)) k).

(** The description of the frames of a buffer: mapped anew when it is too short; its error. *)
Definition frame_params (i : nat) (nFrames : Z) (k : component) : option (Z * component) :=
  let* q := lcml_at In i k in
  let* n := usNbFrames q in
  if pFrameParam q && negb (n <? nFrames) then Some (OMX_ErrorNone, k)
  else let '(r, k) := reply (set_lcml In i (set_pFrameParam true q) k) in Some (r, k).

(** A buffer goes to the codec in Executing, and is kept in Pause. *)
Definition send (d : dir) (h : nat) (len : Z) (k : component) : option (Z * component) :=
  if is_state OMX_StateExecuting k then
    if G711DEC_IsPending h d k then Some (OMX_ErrorNone, k)
    else
      let* (r, k) := LCML_QueueBuffer d h len (G711DEC_SetPending h d k) in
      Some (if r =? OMX_ErrorNone then OMX_ErrorNone else OMX_ErrorHardware, k)
  else if is_state OMX_StatePause k then let* k := postpone d h k in Some (OMX_ErrorNone, k)
  else Some (OMX_ErrorNone, k).

Definition send_input (h : nat) (k : component) : option (Z * component) :=
  let* i := mjoin (G711DECGetCorresponding_LCMLHeader h In k) in
  guard* pLcmlHandle k in
  let* b := headers k !! h in
  let f := u32 (RTP_Framesize * (ftype (cfg k) + 1)) in
  guard* negb (f =? 0) in
  let nFrames := u8 (nFilledLen b / f) in
  let* (r, k) := frame_params i nFrames k in
  if negb (r =? OMX_ErrorNone) then Some (r, k)
  else
    let eos := nFlags b =? OMX_BUFFERFLAG_EOS in
    guard* negb (eos && (nFrames =? 0)) in
    let k := if eos then set_header h (set_nFlags 0 b) k else k in
    let* q := lcml_at In i k in
    let* k := note_times b (set_lcml In i (set_usNbFrames (Some nFrames) q) k) in
    send In h (u32 (STD_G711DEC_BUF_SIZE * nFrames * (ftype (cfg k) + 1))) k.

Definition first_of (d : dir) (k : component) : option nat := mjoin (pBufHdr (list_of d k) !! 0%nat).

(** The end of the stream in a buffer without data. *)
Definition end_of_stream (h : nat) (k : component) : option component :=
  let* b := headers k !! h in
  if negb (nFlags b =? OMX_BUFFERFLAG_EOS) then Some k
  else
    let k := switch (set_bIsEOFSent false) k in
    let* k :=
      if dasfmode (cfg k) =? 0 then
        let* o := first_of Out k in
        let* ob := headers k !! o in
        let flags := Z.lor (nFlags ob) OMX_BUFFERFLAG_EOS in
        let* i := first_of In k in
        Some (emit (EmptyBufferDone i) (emit (FillBufferDone o) (emit (BufferFlag (snd (nPortIndex ob)) flags) (set_header o (set_nFlags flags ob) k))))
      else Some k in
    let* b := headers k !! h in
    Some (set_header h (set_nFlags 0 b) k).

(** A mark is handed on with the first output buffer. *)
Definition pass_mark (h : nat) (k : component) : option component :=
  let* b := headers k !! h in
  if fst (mark b) =? 0 then Some k
  else
    let* o := first_of Out k in
    let* ob := headers k !! o in
    let k := set_header o (set_mark (mark b) ob) k in
    Some (if snd (mark b) =? pHandle then emit (Marked (fst (mark b))) k else k).

Definition input_from_app (h : nat) (k : component) : option (Z * component) :=
  let* b := headers k !! h in
  let* (goes_on, r, k) :=
    if 0 <? nFilledLen b then
      let* (sent, k) := collect h b (switch (set_bBypassDSP false) k) in
      if negb sent then Some (false, OMX_ErrorNone, k)
      else let* (r, k) := send_input h k in Some (r =? OMX_ErrorNone, r, k)
    else
      let k := switch (set_bBypassDSP true) k in
      let* k :=
        if (dasfmode (cfg k) =? 0) && negb (nFlags b =? OMX_BUFFERFLAG_EOS)
        then let* i := first_of In k in Some (emit (EmptyBufferDone i) k) else Some k in
      Some (true, OMX_ErrorNone, k) in
  if negb goes_on then Some (r, k)
  else
    let* k := end_of_stream h k in
    let* k := pass_mark h k in
    Some (OMX_ErrorNone, k).

Definition output_from_app (h : nat) (k : component) : option (Z * component) :=
  if negb (bIsStopping (flags k)) && bBypassDSP (flags k) then
    let* o := first_of Out k in Some (OMX_ErrorNone, emit (FillBufferDone o) k)
  else
    guard* negb (is_state OMX_StateExecuting k) || G711DEC_IsPending h Out k || pLcmlHandle k in
    send Out h (nBufferSize (port_of Out k)) k.

Definition G711DECHandleDataBuf_FromApp (h : nat) (k : component) : option (Z * component) :=
  let* _ := headers k !! h in
  let* (r, k) :=
    match G711DECGetBufferDirection h k with
    | Some In => input_from_app h k
    | Some Out => output_from_app h k
    | None => Some (OMX_ErrorUndefined, k)
    end in
  if r =? OMX_ErrorNone then Some (r, k)
  else let* k := G711DEC_FatalErrorRecover (set_pHoldBuffer None k) in Some (r, k).

(** * Answers of the codec *)

(** An input buffer that was processed takes what is held, when there is enough of it. *)
Definition refill (h : nat) (k : component) : option (Z * component) :=
  let frameLength := nBufferSize (port_of In k) in
  let n := numBuffers (list_of In k) in
  let checkBeforeFilling := if n =? 1 then frameLength else u32 (frameLength * u32 (n - 1)) in
  if nHoldLength k <? checkBeforeFilling then Some (OMX_ErrorNone, emit (EmptyBufferDone h) k)
  else if negb (0 <? nHoldLength k) then Some (OMX_ErrorNone, k)
  else if frameLength <=? nHoldLength k then
    match pHoldBuffer k with
    | None => Some (OMX_ErrorBadParameter, k)
    | Some m =>
        let* b := headers k !! h in
        let* frame := slice 0 frameLength m in
        let* bs := overwrite 0 frame (bytes b) in
        let n := nHoldLength k - frameLength in
        guard* n <=? frameLength in
        let* rest := slice frameLength n m in
        let* m := overwrite 0 rest m in
        let k := set_header h (set_bytes bs b) (hold n m k) in
        let* _ := mjoin (G711DECGetCorresponding_LCMLHeader h In k) in
        LCML_QueueBuffer In h frameLength (G711DEC_SetPending h In k)
    end
  else let* k := give_back h k in Some (OMX_ErrorNone, k).

Definition stamped (tick time : Z) (b : header) : header :=
  mkHeader (bytes b) (nAllocLen b) (nFilledLen b) (nFlags b) tick time (mark b) (nPortIndex b) (sized b) (nVersion b).
(** An output buffer goes back with the oldest stamps, and the end of the stream. *)
Definition fill_done (h : nat) (k : component) : option component :=
  let* b := headers k !! h in
  let b := if bIsEOFSent (flags k) then set_nFlags (Z.lor (nFlags b) OMX_BUFFERFLAG_EOS) b else b in
  let k := switch (set_bIsEOFSent false) k in
  if bIsStopping (flags k) then Some (emit (FillBufferDone h) (set_header h b k))
  else
    let t := times k in
    let* tick := arrBufIndexTick t !! Z.to_nat (OpBufindex t) in
    let* time := arrBufIndex t !! Z.to_nat (OpBufindex t) in
    let n := nBufferCountActual (port_of In k) in
    guard* negb (n =? 0) in
    let k := set_times (mkStamps (arrBufIndex t) (arrBufIndexTick t) (IpBufindex t) (u8 (OpBufindex t + 1) mod n)) k in
    Some (emit (FillBufferDone h) (set_header h (stamped tick time b) k)).

Definition G711DECHandleDataBuf_FromLCML (d : dir) (h : nat) (k : component) : option (Z * component) :=
  match d with
  | In => if bIsStopping (flags k) then Some (OMX_ErrorNone, emit (EmptyBufferDone h) k) else refill h k
  | Out => let* k := fill_done h k in Some (OMX_ErrorNone, k)
  end.

(** A buffer comes back from the codec with [len] bytes. *)
Definition buffer_processed (d : dir) (h : nat) (len : Z) (k : component) : option (Z * component) :=
  let* i := mjoin (G711DECGetCorresponding_LCMLHeader h d k) in
  let* q := lcml_at d i k in
  let h := buffer q in
  let* b := headers k !! h in
  let k := match d with
    | In => k
    | Out => set_header h (set_nFilledLen (if bStopSent (flags k) then 0 else len) b) k
    end in
  let* (r, k) := G711DECHandleDataBuf_FromLCML d h (G711DEC_ClearPending h d k) in
  Some (if u16 r =? 0 then OMX_ErrorNone else OMX_ErrorHardware, k).

(** What the LCML library reports; other events do nothing. *)
Inductive codec_event := BufferProcessed (d : dir) (h : nat) (len : Z) | ProcessingStoped | ProcessingPaused | PlayCompleted | MmuFault.

Definition G711DECLCML_Callback (e : codec_event) (k : component) : option (Z * component) :=
  match e with
  | BufferProcessed d h len => buffer_processed d h len k
  | ProcessingStoped =>
      Some (OMX_ErrorNone, if bNoIdleOnStop (flags k) then switch (set_bNoIdleOnStop false) k else enter OMX_StateIdle k)
  | ProcessingPaused => Some (OMX_ErrorNone, enter OMX_StatePause k)
  | PlayCompleted =>
      let k := emit (BufferFlag 1 OMX_BUFFERFLAG_EOS) k in
      Some (OMX_ErrorNone, if dasfmode (cfg k) =? 0 then k else emit (BufferFlag 0 OMX_BUFFERFLAG_EOS) k)
  | MmuFault => let* k := G711DEC_FatalErrorRecover k in Some (OMX_ErrorNone, k)
  end.

(** * The thread *)

(** What follows a command: leaving Idle for Loaded ends with the release of the resources. *)
Definition after_command (r : Z) (k : component) : option component :=
  if r =? EXIT_COMPONENT_THRD then let* k := G711DEC_CleanupInitParams k in Some (enter OMX_StateLoaded k) else Some k.

(** One turn: data go before commands; a wait goes on when it was signalled; a second without either is a timeout. *)
Definition ComponentThread (k : component) : option component :=
  match comp_thread (waiting k) with
  | Exited => Some k
  | InLoaded About => Some (wait_in (InLoaded Blocked) k)
  | InIdle About => Some (wait_in (InIdle Blocked) k)
  | InLoaded Blocked | InIdle Blocked => Some k
  | InLoaded Woken => let* (r, k) := idle_from_loaded (wait_in Running k) in after_command r k
  | InIdle Woken => let* (r, k) := loaded_from_idle (wait_in Running k) in after_command r k
  | Running =>
      match dataPipe k, cmdPipe k with
      | h :: hs, _ =>
          let* (r, k) := G711DECHandleDataBuf_FromApp h (set_dataPipe hs k) in
          Some (if r =? OMX_ErrorNone then k else wait_in Exited k)
      | [], c :: cs => let* (r, k) := G711DECHandleCommand c (set_cmdPipe cs k) in after_command r k
      | [], [] =>
          if bIsStopping (flags k) then
            let k := switch (fun f => set_bIsEOFSent false (set_bIsStopping false f)) k in
            Some (if is_state OMX_StateIdle k then k else wait_in Exited k)
          else Some k
      end
  end.

(** * Calls of the client *)

(** A buffer comes from the client, after the checks. *)
Definition accept (d : dir) (h : nat) (f : header -> component -> option component) (k : component) : option (Z * component) :=
  if negb (bEnabled (port_of d k)) then Some (OMX_ErrorIncorrectStateOperation, k)
  else
    let* b := headers k !! h in
    if negb (sized b) then Some (OMX_ErrorBadParameter, k)
    else if negb (nVersion b =? version (cfg k)) then Some (OMX_ErrorVersionMismatch, k)
    else if negb ((match d with In => fst | Out => snd end) (nPortIndex b) =? port_number d) then Some (OMX_ErrorBadPortIndex, k)
    else if negb (is_state OMX_StateExecuting k) && negb (is_state OMX_StatePause k) then Some (OMX_ErrorIncorrectStateOperation, k)
    else let* k := f b k in Some (OMX_ErrorNone, set_dataPipe (dataPipe k ++ [h]) k).

Definition EmptyThisBuffer (h : nat) (k : component) : option (Z * component) :=
  accept In h (fun b k => Some (set_pMark (mark b) k)) k.

(** A mark is the one of a command, or the one of the last input buffer. *)
Definition FillThisBuffer (h : nat) (k : component) : option (Z * component) :=
  accept Out h (fun b k =>
    let* bs := overwrite 0 (replicate (Z.to_nat OUTPUT_G711DEC_BUFFER_SIZE) 0) (bytes b) in
    let b := set_bytes bs (set_nFilledLen 0 b) in
    let '(b, k) := match pMarkBuf k with Some m => (set_mark m b, set_pMarkBuf None k) | None => (b, k) end in
    let '(b, k) := if fst (pMark k) =? 0 then (b, k) else (set_mark (pMark k) b, set_pMark (0, snd (pMark k)) k) in
    Some (set_header h b k)) k.

(** A new header at the end of the list; beyond the array is undefined. *)
Definition no_port : Z := 2 ^ 32 - 1.
Definition new_header (d : dir) (size : Z) (bs : list Z) : header :=
  mkHeader bs size 0 0 0 0 (0, 0) (match d with In => (0, no_port) | Out => (no_port, 1) end) true (set_version 0).
Definition add_buffer (d : dir) (owned : bool) (size : Z) (bs : list Z) (k : component) : option component :=
  let h := next_header (cfg k) in
  let l := list_of d k in
  let n := Z.to_nat (numBuffers l) in
  guard* (n <? MAX_NUM_OF_BUFS)%nat in
  let m := cfg k in
  let k := set_cfg (mkModes (dasfmode m) (streamID m) (ftype m) (nRuntimeInputBuffers m) (set_version 0) (S h)) k in
  let k := set_list d (mkList (<[n := Some h]> (pBufHdr l)) (<[n := owned]> (bufferOwner l)) (<[n := false]> (bBufferPending l)) (numBuffers l + 1)) k in
  let k := if numBuffers l + 1 =? nBufferCountActual (port_of d k) then populate d true k else k in
  Some (set_header h (new_header d size bs) k).

(** The thread waits no longer for the buffers, and a command to enable the port is repeated. *)
Definition agrees (p : port) : bool := eqb (bPopulated p) (bEnabled p).
Definition announce_buffers (d : dir) (k : component) : component :=
  let k := if agrees (port_of Out k) && agrees (port_of In k) && InLoaded_readytoidle (waiting k)
           then signal_loaded (set_waiter (set_InLoaded_readytoidle false) k) else k in
  if bEnableCommandPending (later k) && populated d k then snd (SendCommand (PortEnable (bEnableCommandParam (later k))) k) else k.

(** The port of a number; others are beyond the array of ports. *)
Definition port_named (n : Z) : option dir := if n =? 0 then Some In else if n =? 1 then Some Out else None.

Definition UseBuffer (port size : Z) (bs : list Z) (k : component) : option (Z * component) :=
  let* d := port_named port in
  if negb (bEnabled (port_of d k)) then Some (OMX_ErrorIncorrectStateOperation, k)
  else if negb (size =? nBufferSize (port_of d k)) || populated d k then Some (OMX_ErrorBadParameter, k)
  else let* k := add_buffer d false size bs k in Some (OMX_ErrorNone, announce_buffers d k).

Definition OMX_GET_SIZE_DSPALIGN (size : Z) : Z := Z.land (u32 (size + 127)) (u32 (Z.lnot 127)).
Definition allocate (d : dir) (size : Z) (k : component) : option (Z * component) :=
  let* k := add_buffer d true size (replicate (Z.to_nat (OMX_GET_SIZE_DSPALIGN size)) 0) k in
  Some (OMX_ErrorNone, announce_buffers d k).
(** The call waits while the port is disabled. *)
Definition AllocateBuffer (port size : Z) (k : component) : option (Z * component) :=
  let* d := port_named port in
  if bEnabled (port_of d k) then allocate d size k
  else Some (OMX_ErrorNone, set_waiter (fun v => set_client (Allocating About port size) (set_AlloBuf_waitingsignal true v)) k).
Definition allocation_goes_on (k : component) : option (Z * component) :=
  match client (waiting k) with
  | Allocating About port size => Some (OMX_ErrorNone, set_waiter (set_client (Allocating Blocked port size)) k)
  | Allocating Woken port size => let* d := port_named port in allocate d size (set_waiter (set_client Free) k)
  | _ => Some (OMX_ErrorNone, k)
  end.

Definition running (k : component) : bool := is_state OMX_StateIdle k || is_state OMX_StateExecuting k || is_state OMX_StatePause k.
Definition free_slot (d : dir) (i : nat) (port : Z) (h : nat) (k : component) : component :=
  let l := list_of d k in
  let n := u32 (numBuffers l - 1) in
  let k := set_headers (delete h (headers k)) (set_list d (mkList (<[i := None]> (pBufHdr l)) (bufferOwner l) (bBufferPending l) n) k) in
  let k := if n <? nBufferCountActual (port_of d k) then populate d false k else k in
  if bEnabled (port_of d k) && negb (bLoadedCommandPending (flags k)) && running k
  then emit (Error OMX_ErrorPortUnpopulated port) k else k.

Definition FreeBuffer (port : Z) (h : nat) (k : component) : option (Z * component) :=
  let '(r, k) :=
    match list_find (fun o => o = Some h) (pBufHdr (list_of In k)), list_find (fun o => o = Some h) (pBufHdr (list_of Out k)) with
    | Some (i, _), _ => (OMX_ErrorNone, free_slot In i port h k)
    | None, Some (i, _) => (OMX_ErrorNone, free_slot Out i port h k)
    | None, None => (OMX_ErrorBadParameter, k)
    end in
  let k := if (numBuffers (list_of In k) =? 0) && (numBuffers (list_of Out k) =? 0) && InIdle_goingtoloaded (waiting k)
           then signal_idle (set_waiter (set_InIdle_goingtoloaded false) k) else k in
  let k := if bDisableCommandPending (later k) && (u32 (numBuffers (list_of In k) + numBuffers (list_of Out k)) =? 0)
           then snd (SendCommand (PortDisable (bDisableCommandParam (later k))) k) else k in
  Some (r, k).

(** The definition of a port is copied as the client gives it. *)
Definition SetParameter (d : dir) (p : port) (k : component) : component := set_port d p k.

(** The settings of the codec: the mode of the output with its stream, and the frames. *)
Inductive config := HeaderInfo (dasf stream : Z) | ModeDasf (dasf : Z) | FrameParams (frames : Z).
Definition set_dasfmode (dasf stream : Z) (k : component) : component :=
  let m := cfg k in
  let k := set_cfg (mkModes dasf stream (ftype m) (nRuntimeInputBuffers m) (version m) (next_header m)) k in
  if dasf =? 0 then k else enable Out false k.
Definition SetConfig (c : config) (k : component) : component :=
  match c with
  | HeaderInfo dasf stream => set_dasfmode dasf stream k
  | ModeDasf dasf => set_dasfmode dasf (streamID (cfg k)) k
  | FrameParams frames =>
      let m := cfg k in set_cfg (mkModes (dasfmode m) (streamID m) frames (nRuntimeInputBuffers m) (version m) (next_header m)) k
  end.

(** The end of the component: the thread is told, and is waited for. *)
Definition ComponentDeInit (k : component) : component := switch (set_bIsStopping true) k.

Definition OMX_ComponentInit (answers : list Z) : component :=
  let side size count := mkSide (mkPort true false size count)
    (mkList (replicate MAX_NUM_OF_BUFS None) (replicate MAX_NUM_OF_BUFS false) (replicate MAX_NUM_OF_BUFS false) 0)
    None (replicate MAX_NUM_OF_BUFS None) 0 in
  mkComponent OMX_StateLoaded false
    (side INPUT_G711DEC_BUFFER_SIZE NUM_G711DEC_INPUT_BUFFERS) (side OUTPUT_G711DEC_BUFFER_SIZE NUM_G711DEC_OUTPUT_BUFFERS)
    ∅ 0 None (mkStamps (replicate MAX_NUM_OF_BUFS 0) (replicate MAX_NUM_OF_BUFS 0) 0 0) None (0, 0)
    (mkSwitches false false false false false false false) (mkWaits false false false Running Free)
    (mkPostponed false 0 false 0) (mkModes 0 0 0 0 0 0) [] [] answers [].

(** * Runs *)

Inductive event :=
  | Command (c : command) | Turn | Callback (e : codec_event)
  | Empty (h : nat) | Fill (h : nat) | Use (port size : Z) (bs : list Z) | Allocate (port size : Z) | GoOn | FreeIt (port : Z) (h : nat)
  | Define (d : dir) (p : port) | Config (c : config) | DeInit.

Definition step (e : event) (k : component) : option (Z * component) :=
  match e with
  | Command c => Some (SendCommand c k)
  | Turn => let* k := ComponentThread k in Some (OMX_ErrorNone, k)
  | Callback e => G711DECLCML_Callback e k
  | Empty h => EmptyThisBuffer h k
  | Fill h => FillThisBuffer h k
  | Use port size bs => UseBuffer port size bs k
  | Allocate port size => AllocateBuffer port size k
  | GoOn => allocation_goes_on k
  | FreeIt port h => FreeBuffer port h k
  | Define d p => Some (OMX_ErrorNone, SetParameter d p k)
  | Config c => Some (OMX_ErrorNone, SetConfig c k)
  | DeInit => Some (OMX_ErrorNone, ComponentDeInit k)
  end.

Fixpoint run (es : list event) (k : component) : option component :=
  match es with
  | [] => Some k
  | e :: es => let* (_, k) := step e k in run es k
  end.
