(* ===== verification/G711States.v ===== *)
(** The states of the G.711 decoder: every change of the state follows the table of OpenMAX and is reported
    to the client, and a request that the table forbids is refused. *)

From Stdlib Require Import ZArith Lia.
From stdpp Require Import base gmap list list_numbers option tactics.
From S2P Require Import Prelude OmxCore G711Component.
Local Open Scope Z_scope.

(** * The table *)

Inductive legal : OMX_STATETYPE -> OMX_STATETYPE -> Prop :=
  | loaded_idle : legal OMX_StateLoaded OMX_StateIdle
  | loaded_wait : legal OMX_StateLoaded OMX_StateWaitForResources
  | wait_loaded : legal OMX_StateWaitForResources OMX_StateLoaded
  | wait_idle : legal OMX_StateWaitForResources OMX_StateIdle
  | idle_loaded : legal OMX_StateIdle OMX_StateLoaded
  | idle_executing : legal OMX_StateIdle OMX_StateExecuting
  | idle_pause : legal OMX_StateIdle OMX_StatePause
  | executing_idle : legal OMX_StateExecuting OMX_StateIdle
  | executing_pause : legal OMX_StateExecuting OMX_StatePause
  | pause_idle : legal OMX_StatePause OMX_StateIdle
  | pause_executing : legal OMX_StatePause OMX_StateExecuting
  | to_invalid_ s : s <> OMX_StateInvalid -> legal s OMX_StateInvalid.

(** How a state that was entered is reported. *)
Definition reports (s : OMX_STATETYPE) (a : action) : Prop :=
  match s with
  | OMX_StateInvalid => exists d, a = Error OMX_ErrorInvalidState d
  | _ => a = CmdComplete OMX_CommandStateSet (state_number s)
  end.

(** Other actions tell nothing about the state. *)
Definition silent (a : action) : bool :=
  match a with
  | CmdComplete cmd _ => negb (cmd =? OMX_CommandStateSet)
  | Error err _ => negb (err =? OMX_ErrorInvalidState)
  | _ => true
  end.
(** The events lead along the table from one state to another. *)
Inductive path : OMX_STATETYPE -> list action -> OMX_STATETYPE -> Prop :=
  | path_nil s : path s [] s
  | path_silent s a acts t : silent a = true -> path s acts t -> path s (a :: acts) t
  | path_move s t a acts u : legal s t \/ s = t -> reports t a -> path t acts u -> path s (a :: acts) u.

Lemma path_app s acts t acts' u : path s acts t -> path t acts' u -> path s (acts ++ acts') u.
Proof. intros P Q. induction P; cbn; [done|apply path_silent; auto|eapply path_move; eauto]. Qed.
Lemma path_quiet s acts : Forall (fun a => silent a = true) acts -> path s acts s.
Proof. induction 1; by econstructor. Qed.
Lemma path_last s t a : legal s t \/ s = t -> reports t a -> path s [a] t.
Proof. intros ? ?. eapply path_move; [done..|constructor]. Qed.

Lemma report_not_silent s a : reports s a -> silent a = true -> False.
Proof. destruct s; cbn; intros R; try (subst a; discriminate). destruct R as [d ->]. discriminate. Qed.
Lemma reports_one s t a : reports s a -> reports t a -> s = t.
Proof. destruct s, t; cbn; intros H1 H2; try done; repeat match goal with H : exists _, _ |- _ => destruct H end; by subst. Qed.
(** The client that follows the events knows the state. *)
Lemma path_functional s acts t u : path s acts t -> path s acts u -> t = u.
Proof.
  intros P. revert u. induction P as [s|s a acts t Q P IH|s t a acts v L R P IH]; intros u P'; inversion P'; subst; auto.
  - by edestruct report_not_silent.
  - by edestruct report_not_silent.
  - match goal with R' : reports ?x a |- _ => assert (t = x) as -> by (by eapply reports_one) end. auto.
Qed.

(** Where the thread is, whatever became of its wait. *)
Inductive place := AtWork | AtLoaded | AtIdle | AtEnd.
Definition place_of (k : component) : place :=
  match comp_thread (waiting k) with Running => AtWork | InLoaded _ => AtLoaded | InIdle _ => AtIdle | Exited => AtEnd end.

(** The LCML library answers with errors of OpenMAX; none is the number that ends a command. *)
Definition answers_ok (k : component) : Prop := Forall (fun r => r <> EXIT_COMPONENT_THRD) (replies k).

(** A step that does not touch the state, nor move the thread, and only adds to the log. *)
Record calm (k k' : component) : Prop := mkCalm {
  calm_state : curState k' = curState k;
  calm_place : place_of k' = place_of k;
  calm_log : exists acts, log k' = log k ++ acts /\ Forall (fun a => silent a = true) acts;
  calm_answers : answers_ok k -> answers_ok k';
  calm_eof : bIsEOFSent (flags k') = true -> bIsEOFSent (flags k) = true
}.

#[global] Instance calm_preorder : PreOrder calm.
Proof.
  split; [split; try done; exists []; by rewrite app_nil_r|].
  intros k1 k2 k3 [S1 T1 (l1 & L1 & Q1) A1 F1] [S2 T2 (l2 & L2 & Q2) A2 F2].
  split; [congruence..| |auto|auto]. exists (l1 ++ l2). rewrite L2, L1, app_assoc. split; [done|by apply Forall_app].
Qed.

Create HintDb calm.

(** Walks through a computation that returned: each step is calm, so is the whole. *)
Ltac returned := repeat (first
  [ progress simplify_eq
  | progress cbn beta match in *
  | match goal with
    | H : mbind _ ?o = Some _ |- _ => let E := fresh "E" in destruct o as [?|] eqn:E; cbn [mbind option_bind] in H; [|discriminate H]
    | H : (if ?b then _ else _) = Some _ |- _ => let E := fresh "E" in destruct b eqn:E
    | H : (let '(_, _) := ?p in _) = Some _ |- _ => let E := fresh "E" in destruct p as [??] eqn:E
    | H : match ?o with _ => _ end = Some _ |- _ => let E := fresh "E" in destruct o eqn:E
    end ]).

(** What leaves the observed fields alone is calm. *)
Lemma same_calm k k' : curState k' = curState k -> place_of k' = place_of k -> log k' = log k -> replies k' = replies k ->
  (bIsEOFSent (flags k') = true -> bIsEOFSent (flags k) = true) -> calm k k'.
Proof. intros S P L A F. split; [done|done| |unfold answers_ok; by rewrite A|done]. exists []. by rewrite L, app_nil_r. Qed.
Ltac same := apply same_calm; done.

Lemma emitted a k : silent a = true -> calm k (emit a k).
Proof. intros Q. split; try done. exists [a]. split; [done|by constructor]. Qed.
#[export] Hint Extern 1 (silent _ = true) => reflexivity : calm.
Lemma emitted_done d h k : calm k (emit (buffer_done d h) k).
Proof. by apply emitted; destruct d. Qed.
#[export] Hint Resolve emitted emitted_done : calm.

(** The component is the last argument of what works on it. *)
Ltac plain := match goal with
  | |- calm ?m (?f ?x) =>
      unify m x; solve [same | repeat match goal with d : dir |- _ => destruct d end; same]
  end.
Ltac calmly := first
  [ assumption | reflexivity
  | match goal with
    | |- calm _ (if ?b then _ else _) => destruct b; calmly
    | |- calm _ (match ?o with _ => _ end) => destruct o; calmly
    end
  | etransitivity; [|solve [plain | eauto 2 with calm]]; calmly ].
Ltac walk := returned; calmly.

Lemma replied k r k' : reply k = (r, k') -> calm k k'.
Proof.
  unfold reply. intros H. repeat case_match; simplify_eq; [done|]. split; [done|done|exists []; by rewrite app_nil_r| |done].
  unfold answers_ok. cbn. match goal with E : replies k = _ |- _ => rewrite E end. by intros [_ ?]%Forall_cons_iff.
Qed.
Lemma replied_ok k r k' : answers_ok k -> reply k = (r, k') -> r <> EXIT_COMPONENT_THRD.
Proof.
  unfold answers_ok, reply. intros A H. repeat case_match; simplify_eq; [done|]. by apply Forall_cons_iff in A as [? _].
Qed.
#[export] Hint Resolve replied : calm.

Lemma controlled c k r k' : LCML_ControlCodec c k = Some (r, k') -> calm k k'.
Proof. unfold LCML_ControlCodec. intros H. returned. etransitivity; [|by eapply replied]. by apply emitted. Qed.
Lemma queued d h n k r k' : LCML_QueueBuffer d h n k = Some (r, k') -> calm k k'.
Proof. unfold LCML_QueueBuffer. intros H. returned. etransitivity; [|by eapply replied]. by apply emitted. Qed.
#[export] Hint Resolve controlled queued : calm.
Lemma controlled_ok k0 c k r k' : answers_ok k0 -> calm k0 k -> LCML_ControlCodec c k = Some (r, k') -> r <> EXIT_COMPONENT_THRD.
Proof. unfold LCML_ControlCodec. intros A C ?. returned. eapply (replied_ok (emit (Control c) k)); [by apply (calm_answers _ _ C)|done]. Qed.
Lemma queued_ok k0 d h n k r k' : answers_ok k0 -> calm k0 k -> LCML_QueueBuffer d h n k = Some (r, k') -> r <> EXIT_COMPONENT_THRD.
Proof. unfold LCML_QueueBuffer. intros A C ?. returned. eapply (replied_ok (emit (Queue d h n) k)); [by apply (calm_answers _ _ C)|done]. Qed.

Lemma postponed_calm d h k k' : postpone d h k = Some k' -> calm k k'.
Proof. unfold postpone. intros H. walk. Qed.
#[export] Hint Resolve postponed_calm : calm.

Lemma init_headers_calm size slots k k' : init_headers size slots k = Some k' -> calm k k'.
Proof.
  revert k. induction slots as [|o slots IH]; cbn [init_headers]; intros k H; [by simplify_eq|].
  returned. apply IH in H. etransitivity; [|exact H]. calmly.
Qed.
#[export] Hint Resolve init_headers_calm : calm.
Lemma fill_params_calm p n k k' : fill_params p n k = Some k' -> calm k k'.
Proof. unfold fill_params. intros H. walk. Qed.
#[export] Hint Resolve fill_params_calm : calm.
Lemma fill_calm k k' : G711DECFill_LCMLInitParams k = Some k' -> calm k k'.
Proof. apply fill_params_calm. Qed.
Lemma fill_ex_calm k k' : G711DECFill_LCMLInitParamsEx k = Some k' -> calm k k'.
Proof. apply fill_params_calm. Qed.
Lemma cleanup_calm k k' : G711DEC_CleanupInitParams k = Some k' -> calm k k'.
Proof. unfold G711DEC_CleanupInitParams. intros H. walk. Qed.
#[export] Hint Resolve fill_calm fill_ex_calm cleanup_calm : calm.

Lemma hand_back_calm d slots k k' : hand_back d slots k = Some k' -> calm k k'.
Proof.
  revert k. induction slots as [|o slots IH]; cbn [hand_back]; intros k H; [by simplify_eq|].
  returned. apply IH in H. etransitivity; [|exact H]. calmly.
Qed.
#[export] Hint Resolve hand_back_calm : calm.
Lemma flush_port_calm d k k' : flush_port d k = Some k' -> calm k k'.
Proof. unfold flush_port. intros H. walk. Qed.
#[export] Hint Resolve flush_port_calm : calm.
Lemma flush_calm n k r k' : flush n k = Some (r, k') -> calm k k' /\ r = OMX_ErrorNone.
Proof. unfold flush. intros H. split; [walk|]. by returned. Qed.

Lemma queue_postponed_calm d slots o r k r' k' :
  answers_ok k -> r <> EXIT_COMPONENT_THRD -> queue_postponed d slots o r k = Some (r', k') -> calm k k' /\ r' <> EXIT_COMPONENT_THRD.
Proof.
  revert o r k. induction slots as [|[h|] slots IH]; cbn [queue_postponed]; intros o r k A R H; [by simplify_eq| |by eapply IH].
  returned.
  match goal with E : LCML_QueueBuffer _ _ _ _ = Some (_, ?k2) |- _ =>
    assert (calm k k2) as C by calmly; apply (queued_ok k) in E; [|done|calmly] end.
  apply IH in H as [? ?]; [|by apply C|done]. split; [by etransitivity|done].
Qed.
Lemma queue_pending_calm d r k r' k' :
  answers_ok k -> r <> EXIT_COMPONENT_THRD -> queue_pending d r k = Some (r', k') -> calm k k' /\ r' <> EXIT_COMPONENT_THRD.
Proof.
  unfold queue_pending. intros A R H. returned. apply queue_postponed_calm in E as [C ?]; [|done..]. split; [|done]. calmly.
Qed.

(** * A step *)

(** The thread waits for buffers only before Idle, and for the end of buffers only in Idle. *)
Definition place_ok (k : component) : Prop :=
  match place_of k with
  | AtLoaded => curState k = OMX_StateLoaded \/ curState k = OMX_StateWaitForResources
  | AtIdle => curState k = OMX_StateIdle
  | _ => True
  end.

(** At most one change of the state, along the table and reported. *)
Record moved (k k' : component) : Prop := mkMoved {
  moved_state : exists acts, log k' = log k ++ acts /\ path (curState k) acts (curState k');
  moved_place : place_ok k';
  moved_answers : answers_ok k -> answers_ok k';
  moved_eof : bIsEOFSent (flags k') = true -> bIsEOFSent (flags k) = true
}.

Lemma place_ok_calm k k' : calm k k' -> place_ok k -> place_ok k'.
Proof. intros [S P _ _ _]. unfold place_ok. by rewrite P, S. Qed.
Lemma place_ok_work k : place_of k = AtWork -> place_ok k.
Proof. unfold place_ok. by intros ->. Qed.
#[export] Hint Resolve place_ok_work : calm.

Lemma calm_path k k' : calm k k' -> exists acts, log k' = log k ++ acts /\ path (curState k) acts (curState k').
Proof. intros [S _ (acts & L & Q) _ _]. exists acts. rewrite S. split; [done|by apply path_quiet]. Qed.
Lemma calm_moved k k' : calm k k' -> place_ok k -> moved k k'.
Proof. intros C P. split; [by apply calm_path|by eapply place_ok_calm|apply C..]. Qed.
Lemma paths_compose k k1 k2 :
  (exists acts, log k1 = log k ++ acts /\ path (curState k) acts (curState k1)) ->
  (exists acts, log k2 = log k1 ++ acts /\ path (curState k1) acts (curState k2)) ->
  exists acts, log k2 = log k ++ acts /\ path (curState k) acts (curState k2).
Proof. intros (l1 & L1 & P1) (l2 & L2 & P2). exists (l1 ++ l2). rewrite L2, L1, app_assoc. split; [done|by eapply path_app]. Qed.
Lemma moved_calm k k1 k2 : moved k k1 -> calm k1 k2 -> moved k k2.
Proof.
  intros [M P A F] C. split; [|by eapply place_ok_calm|by intros ?%A%(calm_answers _ _ C)|by intros ?%(calm_eof _ _ C)%F].
  by eapply paths_compose, calm_path.
Qed.
Lemma calm_then_moved k k1 k2 : calm k k1 -> moved k1 k2 -> moved k k2.
Proof.
  intros C [M P A F]. split; [|done|by intros ?%(calm_answers _ _ C)%A|by intros ?%F%(calm_eof _ _ C)]. eapply paths_compose; [by apply calm_path|done].
Qed.

Lemma moved_enter s k : s <> OMX_StateInvalid -> place_ok (goto s k) -> legal (curState k) s \/ curState k = s -> moved k (enter s k).
Proof.
  intros I P L. split; [|done..]. eexists. split; [done|]. apply path_last; [done|]. by destruct s.
Qed.
Lemma moved_invalid d k : place_ok (goto OMX_StateInvalid k) -> moved k (emit (Error OMX_ErrorInvalidState d) (goto OMX_StateInvalid k)).
Proof.
  intros P. split; [|done..]. eexists. split; [done|]. apply path_last; [|by eexists].
  destruct (decide (curState k = OMX_StateInvalid)); [by right|left; by constructor].
Qed.
Lemma fatal_moved k k' : place_ok (goto OMX_StateInvalid k) -> G711DEC_FatalErrorRecover k = Some k' -> moved k k'.
Proof. unfold G711DEC_FatalErrorRecover. intros P H. eapply moved_calm; [by apply moved_invalid|]. by apply cleanup_calm in H. Qed.
Lemma at_work_invalid k : place_of k = AtWork -> place_ok (goto OMX_StateInvalid k).
Proof. apply (place_ok_work (goto OMX_StateInvalid k)). Qed.

Lemma enter_after s k k' : s <> OMX_StateInvalid -> calm k k' -> place_of k = AtWork -> legal (curState k) s -> moved k (enter s k').
Proof.
  intros I C P L. eapply calm_then_moved; [exact C|]. apply moved_enter; [done| |left; by rewrite (calm_state _ _ C)].
  apply (place_ok_work (goto s k')). change (place_of k' = AtWork). by rewrite (calm_place _ _ C).
Qed.

(** What a command may do: leave Idle, with the thread to finish, or one move. *)
Definition handled (k : component) (r : Z) (k' : component) : Prop :=
  (r = EXIT_COMPONENT_THRD /\ calm k k' /\ curState k = OMX_StateIdle) \/ (r <> EXIT_COMPONENT_THRD /\ moved k k').
Lemma handled_calm k r k' : place_of k = AtWork -> r <> EXIT_COMPONENT_THRD -> calm k k' -> handled k r k'.
Proof. right. split; [done|]. apply calm_moved; [done|by apply place_ok_work]. Qed.

(** * Commands *)

Lemma refused_handled e k : silent (Error e 0) = true -> place_of k = AtWork -> handled k OMX_ErrorNone (emit (Error e 0) k).
Proof. intros Q P. apply handled_calm; [done|done|by apply emitted]. Qed.

(** A result of the library after calm steps. *)
Ltac answer := first
  [ done
  | match goal with
    | A : answers_ok ?k, E : reply ?k1 = (?r, _) |- ?r <> _ => apply (replied_ok k1 r) in E; [exact E|by apply (calm_answers k); [calmly|]]
    | A : answers_ok ?k, E : LCML_ControlCodec _ _ = Some (?r, _) |- ?r <> _ => eapply (controlled_ok k) in E; [exact E|done|calmly]
    end ].

Lemma init_then_idle k k1 r k' : answers_ok k -> place_of k = AtWork -> legal (curState k) OMX_StateIdle -> calm k k1 ->
  idle_from_loaded k1 = Some (r, k') -> handled k r k'.
Proof.
  unfold idle_from_loaded. intros A P L C ?. returned.
  - by apply handled_calm; [| |calmly].
  - apply handled_calm; [done|answer|calmly].
  - right. assert (moved k (enter OMX_StateIdle c1)) as M by (apply enter_after; [done|calmly|done|done]).
    split; [|eapply moved_calm; [exact M|calmly]]. eapply (controlled_ok (enter OMX_StateIdle c1)); [by apply M|reflexivity|done].
  - right. split; [done|]. apply enter_after; [done|calmly|done|done].
Qed.

Lemma waits_handled k k1 t : place_of k = AtWork -> calm k k1 -> place_ok (wait_in t k1) -> handled k OMX_ErrorNone (wait_in t k1).
Proof.
  intros P C T. right. split; [done|]. split; [exact (calm_path _ _ C)|done|exact (calm_answers _ _ C)|exact (calm_eof _ _ C)].
Qed.

Lemma goto_idle_handled k k1 r k' : answers_ok k -> place_of k = AtWork ->
  curState k = OMX_StateLoaded \/ curState k = OMX_StateWaitForResources -> calm k k1 ->
  (if (dasfmode (cfg k) =? 1) && (streamID (cfg k1) =? 0)
   then Some (OMX_ErrorInsufficientResources, emit (Error OMX_ErrorInvalidState 0) (goto OMX_StateInvalid k1))
   else if settled (port_of In k1) && settled (port_of Out k1) then idle_from_loaded k1
   else Some (OMX_ErrorNone, wait_in (InLoaded About) (set_waiter (set_InLoaded_readytoidle true) k1))) = Some (r, k') ->
  handled k r k'.
Proof.
  intros A P S C ?. pose proof (calm_place _ _ C) as P'. rewrite P in P'. returned.
  - right. split; [done|]. eapply calm_then_moved; [done|]. by apply moved_invalid, at_work_invalid.
  - eapply init_then_idle; [done..| |exact C|done]. destruct S as [->| ->]; constructor.
  - apply waits_handled; [done|calmly|]. unfold place_ok. cbn. by rewrite (calm_state _ _ C).
Qed.

Lemma to_idle_handled k r k' : answers_ok k -> place_of k = AtWork -> to_idle k = Some (r, k') -> handled k r k'.
Proof.
  unfold to_idle. intros A P ?. destruct (curState k) eqn:S.
  1,3: returned; by apply refused_handled.
  1,4: eapply goto_idle_handled; [done|done|auto| |done]; calmly.
  - returned; (apply handled_calm; [done|answer|calmly]).
  - returned. right. split; [done|]. apply enter_after; [done|calmly|done|rewrite S; constructor].
Qed.

Lemma to_executing_handled k r k' : answers_ok k -> place_of k = AtWork -> to_executing k = Some (r, k') -> handled k r k'.
Proof.
  unfold to_executing. intros A P ?. destruct (curState k) eqn:S.
  1,2,4,6: returned; by apply refused_handled.
  - returned; [apply handled_calm; [done|answer|calmly]|].
    right. split; [answer|]. apply enter_after; [done|calmly|done|rewrite S; constructor].
  - returned; [apply handled_calm; [done|answer|calmly]|].
    match goal with
    | E1 : LCML_ControlCodec _ k = Some (?z, ?c1), E2 : queue_pending In ?z ?c1 = Some (?z2, ?c2), E3 : queue_pending Out ?z2 ?c2 = _ |- _ =>
        assert (z <> EXIT_COMPONENT_THRD) by (by eapply controlled_ok); assert (calm k c1) as C1 by calmly;
        apply queue_pending_calm in E2 as [C2 ?]; [|by apply C1|done];
        apply queue_pending_calm in E3 as [C3 ?]; [|by apply C2, C1|done]
    end.
    right. split; [done|]. apply enter_after; [done| |done|rewrite S; constructor]. etransitivity; [|done]. by etransitivity.
Qed.

Lemma leave_idle_handled k k1 r k' : answers_ok k -> place_of k = AtWork -> curState k = OMX_StateIdle -> calm k k1 ->
  loaded_from_idle k1 = Some (r, k') -> handled k r k'.
Proof.
  unfold loaded_from_idle. intros A P S C ?. returned.
  - apply handled_calm; [done| |calmly]. eapply (controlled_ok k1); [by apply C|done|done].
  - left. split_and!; [done|calmly|done].
  - left. split_and!; [done|calmly|done].
Qed.

Lemma to_loaded_handled k r k' : answers_ok k -> place_of k = AtWork -> to_loaded k = Some (r, k') -> handled k r k'.
Proof.
  unfold to_loaded. intros A P ?. destruct (curState k) eqn:S.
  1,2,4,5: returned; by apply refused_handled.
  - returned; [by apply waits_handled; [|calmly|]|by eapply leave_idle_handled].
  - returned. right. split; [done|]. apply enter_after; [done|done|done|rewrite S; constructor].
Qed.

Lemma to_pause_handled k r k' : answers_ok k -> place_of k = AtWork -> to_pause k = Some (r, k') -> handled k r k'.
Proof.
  unfold to_pause. intros A P ?. destruct (curState k) eqn:S; returned; try (by apply refused_handled);
    (apply handled_calm; [done|answer|calmly]).
Qed.

Lemma to_wait_handled k r k' : answers_ok k -> place_of k = AtWork -> to_wait k = Some (r, k') -> handled k r k'.
Proof.
  unfold to_wait. intros A P ?. destruct (curState k) eqn:S; returned; try (by apply refused_handled).
  right. split; [done|]. apply enter_after; [done|done|done|rewrite S; constructor].
Qed.

Lemma to_invalid_handled k r k' : answers_ok k -> place_of k = AtWork -> to_invalid k = Some (r, k') -> handled k r k'.
Proof.
  unfold to_invalid. intros A P ?. destruct (curState k) eqn:S; [by returned; apply refused_handled|..].
  all: right; returned; (split; [answer|]).
  all: match goal with E : G711DEC_CleanupInitParams (emit _ (goto _ ?c)) = Some _ |- _ =>
    assert (calm k c) as C by calmly; apply cleanup_calm in E;
    eapply moved_calm; [|exact E]; eapply calm_then_moved; [exact C|]; apply moved_invalid, at_work_invalid;
    pose proof (calm_place _ _ C); congruence end.
Qed.

Lemma signal_loaded_calm k : calm k (signal_loaded k).
Proof. unfold signal_loaded. case_match eqn:T; try done. apply same_calm; try done. unfold place_of. by rewrite T. Qed.
Lemma signal_idle_calm k : calm k (signal_idle k).
Proof. unfold signal_idle. case_match eqn:T; try done. apply same_calm; try done. unfold place_of. by rewrite T. Qed.
Lemma signal_allocation_calm k : calm k (signal_allocation k).
Proof. unfold signal_allocation. case_match; [done|same]. Qed.
#[export] Hint Resolve signal_loaded_calm signal_idle_calm signal_allocation_calm : calm.

Lemma state_set_handled n k r k' : answers_ok k -> place_of k = AtWork -> state_set n k = Some (r, k') -> handled k r k'.
Proof.
  unfold state_set. intros A P. destruct (state_of_number n) as [[]|].
  - by apply to_invalid_handled.
  - by apply to_loaded_handled.
  - by apply to_idle_handled.
  - by apply to_executing_handled.
  - by apply to_pause_handled.
  - by apply to_wait_handled.
  - intros ?. returned. by apply handled_calm.
Qed.

Lemma port_disable_handled n k r k' : answers_ok k -> place_of k = AtWork -> port_disable n k = Some (r, k') -> handled k r k'.
Proof. unfold port_disable. intros A P ?. returned; (apply handled_calm; [done|answer|calmly]). Qed.
Lemma port_enable_handled n k r k' : answers_ok k -> place_of k = AtWork -> port_enable n k = Some (r, k') -> handled k r k'.
Proof. unfold port_enable. intros A P ?. returned; (apply handled_calm; [done|answer|calmly]). Qed.

Lemma command_handled c k r k' : answers_ok k -> place_of k = AtWork -> G711DECHandleCommand c k = Some (r, k') -> handled k r k'.
Proof.
  intros A P. destruct c; cbn [G711DECHandleCommand]; intros H.
  - by eapply state_set_handled.
  - apply flush_calm in H as [? ->]. by apply handled_calm.
  - by eapply port_disable_handled.
  - by eapply port_enable_handled.
  - returned. apply handled_calm; [done|done|calmly].
  - returned. by apply handled_calm.
Qed.

(** * Buffers from the client *)

Lemma give_back_calm h k k' : give_back h k = Some k' -> calm k k'.
Proof. unfold give_back. intros ?. walk. Qed.
#[export] Hint Resolve give_back_calm : calm.
Lemma collect_calm h b k s k' : collect h b k = Some (s, k') -> calm k k'.
Proof. unfold collect. intros ?. walk. Qed.
Lemma note_times_calm b k k' : note_times b k = Some k' -> calm k k'.
Proof. unfold note_times. intros ?. walk. Qed.
Lemma frame_params_calm i n k r k' : frame_params i n k = Some (r, k') -> calm k k'.
Proof. unfold frame_params. intros ?. walk. Qed.
Lemma send_calm d h n k r k' : send d h n k = Some (r, k') -> calm k k'.
Proof. unfold send. intros ?. walk. Qed.
#[export] Hint Resolve collect_calm note_times_calm frame_params_calm send_calm : calm.
Lemma send_input_calm h k r k' : send_input h k = Some (r, k') -> calm k k'.
Proof. unfold send_input. intros ?. walk. Qed.
Lemma end_of_stream_calm h k k' : end_of_stream h k = Some k' -> calm k k'.
Proof. unfold end_of_stream. intros ?. walk. Qed.
Lemma pass_mark_calm h k k' : pass_mark h k = Some k' -> calm k k'.
Proof. unfold pass_mark. intros ?. walk. Qed.
#[export] Hint Resolve send_input_calm end_of_stream_calm pass_mark_calm : calm.
Lemma input_calm h k r k' : input_from_app h k = Some (r, k') -> calm k k'.
Proof. unfold input_from_app. intros ?. walk. Qed.
Lemma output_calm h k r k' : output_from_app h k = Some (r, k') -> calm k k'.
Proof. unfold output_from_app. intros ?. walk. Qed.
#[export] Hint Resolve input_calm output_calm : calm.

Lemma data_moved h k r k' : place_of k = AtWork -> G711DECHandleDataBuf_FromApp h k = Some (r, k') -> moved k k'.
Proof.
  unfold G711DECHandleDataBuf_FromApp. intros P H.
  destruct (headers k !! h) as [b|]; [|done]. cbn [mbind option_bind] in H.
  match type of H with match ?o with _ => _ end = _ => destruct o as [[r1 k1]|] eqn:E; [|done] end.
  assert (calm k k1) as C by (destruct (G711DECGetBufferDirection h k) as [[]|]; returned; calmly). clear E.
  returned; [by apply calm_moved, place_ok_work|].
  eapply calm_then_moved; [exact C|]. eapply (calm_then_moved _ (set_pHoldBuffer None k1)); [calmly|].
  eapply fatal_moved; [|done]. apply at_work_invalid. pose proof (calm_place _ _ C) as P'. by rewrite P in P'.
Qed.

(** * Answers of the codec *)

Lemma refill_calm h k r k' : refill h k = Some (r, k') -> calm k k'.
Proof. unfold refill. intros ?. walk. Qed.
Lemma fill_done_calm h k k' : fill_done h k = Some k' -> calm k k'.
Proof. unfold fill_done. intros ?. walk. Qed.
#[export] Hint Resolve refill_calm fill_done_calm : calm.
Lemma from_lcml_calm d h k r k' : G711DECHandleDataBuf_FromLCML d h k = Some (r, k') -> calm k k'.
Proof. unfold G711DECHandleDataBuf_FromLCML. intros ?. destruct d; walk. Qed.
#[export] Hint Resolve from_lcml_calm : calm.
Lemma processed_calm d h n k r k' : buffer_processed d h n k = Some (r, k') -> calm k k'.
Proof. unfold buffer_processed. intros ?. destruct d; walk. Qed.
#[export] Hint Resolve processed_calm : calm.

(** What the library and the client keep to: the codec stops and pauses only when it was started, a fault of the memory does not
    come while the thread waits, and Invalid is not requested then. *)
Definition orderly (e : event) (k : component) : Prop :=
  match e with
  | Callback ProcessingStoped => running k = true
  | Callback ProcessingPaused => running k = true /\ place_of k <> AtIdle
  | Callback MmuFault => place_of k <> AtIdle /\ place_of k <> AtLoaded
  | Command (StateSet 0) => place_of k <> AtLoaded
  | _ => True
  end.

Lemma running_cases k : running k = true -> curState k = OMX_StateIdle \/ curState k = OMX_StateExecuting \/ curState k = OMX_StatePause.
Proof. unfold running, is_state. rewrite !orb_true_iff, !bool_decide_eq_true. tauto. Qed.
Lemma not_waiting k s : place_of k <> AtIdle -> place_of k <> AtLoaded -> place_ok (goto s k).
Proof. unfold place_ok. change (place_of (goto s k)) with (place_of k). by destruct (place_of k). Qed.

Lemma callback_moved e k r k' : place_ok k -> orderly (Callback e) k -> G711DECLCML_Callback e k = Some (r, k') -> moved k k'.
Proof.
  intros P O. destruct e; cbn [G711DECLCML_Callback orderly] in *; intros H.
  - apply calm_moved; [calmly|done].
  - apply running_cases in O. returned. destruct (bNoIdleOnStop (flags k)).
    + apply calm_moved; [calmly|done].
    + apply moved_enter; [done| |destruct O as [->|[->| ->]]; [by right|left; constructor..]].
      unfold place_ok in *. change (place_of (goto _ k)) with (place_of k). cbn.
      destruct (place_of k); [done| |done..]. by destruct O as [O|[O|O]], P as [P|P]; rewrite O in P.
  - destruct O as [O W]. apply running_cases in O. returned.
    apply moved_enter; [done| |destruct O as [->|[->| ->]]; [left; constructor..|by right]].
    unfold place_ok in *. change (place_of (goto _ k)) with (place_of k). cbn.
    destruct (place_of k); [done| |done..]. by destruct O as [O|[O|O]], P as [P|P]; rewrite O in P.
  - returned. apply calm_moved; [calmly|done].
  - destruct O as [O1 O2]. returned. eapply fatal_moved; [by apply not_waiting|done].
Qed.

(** * The thread *)

Lemma after_handled k r k1 k' : place_of k = AtWork -> handled k r k1 -> after_command r k1 = Some k' -> moved k k'.
Proof.
  unfold after_command. intros P [(-> & C & S)|[N M]] ?; returned.
  - apply enter_after; [done|calmly|done|rewrite S; constructor].
  - by apply Z.eqb_eq in E.
  - done.
Qed.

Lemma place_changed t k k1 : moved k k1 -> place_ok (wait_in t k1) -> moved k (wait_in t k1).
Proof. by intros [M _ A F] P. Qed.
Lemma resumed k k' : moved (wait_in Running k) k' -> moved k k'.
Proof. by intros []. Qed.

Lemma thread_moved k k' : answers_ok k -> place_ok k -> ComponentThread k = Some k' -> moved k k'.
Proof.
  intros A P H. unfold ComponentThread in H. pose proof P as P'. unfold place_ok, place_of in P'.
  destruct (comp_thread (waiting k)) as [|[]|[]|] eqn:T.
  2,5: injection H as <-; by apply place_changed; [apply calm_moved|].
  2,4: injection H as <-; by apply calm_moved.
  4: injection H as <-; by apply calm_moved.
  - assert (place_of k = AtWork) as W by (unfold place_of; by rewrite T).
    destruct (dataPipe k) as [|h hs]; [destruct (cmdPipe k) as [|c cs]|].
    + returned; [|by apply calm_moved].
      match goal with |- moved _ (if _ then ?k1 else _) => assert (moved k k1) as M by (by apply calm_moved; [same|]); set (k2 := k1) in * end.
      destruct (is_state _ _); [done|by apply place_changed].
    + returned. eapply (calm_then_moved _ (set_cmdPipe cs k)); [same|].
      eapply after_handled; [|eapply command_handled|]; done.
    + returned.
      assert (moved k c) as M by (eapply (calm_then_moved _ (set_dataPipe hs k)); [same|by eapply data_moved]).
      destruct (z =? OMX_ErrorNone); [done|by apply place_changed].
  - returned. apply resumed. eapply after_handled; [done| |done]. eapply init_then_idle; [done|done| |reflexivity|done].
    change (curState (wait_in Running k)) with (curState k). destruct P' as [-> | ->]; constructor.
  - returned. apply resumed. eapply after_handled; [done| |done]. by eapply leave_idle_handled.
Qed.

(** * Calls of the client *)

Lemma send_command_moved c k r k' : place_ok k -> orderly (Command c) k -> SendCommand c k = (r, k') -> moved k k'.
Proof.
  intros P O H. unfold SendCommand in H. destruct (is_state OMX_StateInvalid k) eqn:I.
  { simplify_eq. apply bool_decide_eq_true in I. split; [|done..]. exists [Error OMX_ErrorInvalidState 0]. split; [done|].
    change (path (curState k) [Error OMX_ErrorInvalidState 0] (curState k)). rewrite I. apply path_last; [by right|by eexists]. }
  destruct c; try (repeat case_match; simplify_eq; (apply calm_moved; [calmly|done])).
  set (k1 := if n =? 1 then switch (set_bLoadedCommandPending true) k else k) in *.
  assert (calm k k1) as C by (subst k1; destruct (n =? 1); calmly). clearbody k1.
  eapply calm_then_moved; [exact C|]. apply place_ok_calm with (2 := P) in C as P1.
  destruct (is_state OMX_StateLoaded k1 && _); [simplify_eq; apply calm_moved; [calmly|done]|].
  destruct (is_state OMX_StateLoaded k1 && _) eqn:L; [|simplify_eq; apply calm_moved; [calmly|done]].
  apply andb_prop in L as [L N]. apply Z.eqb_eq in N as ->. apply bool_decide_eq_true in L. simplify_eq.
  apply moved_invalid, not_waiting; [|by rewrite (calm_place _ _ C)].
  intros W. unfold place_ok in P1. rewrite W, L in P1. done.
Qed.
Lemma moved_trans k1 k2 k3 : moved k1 k2 -> moved k2 k3 -> moved k1 k3.
Proof. intros [M1 P1 A1 F1] [M2 P2 A2 F2]. split; [by eapply paths_compose|done|auto|auto]. Qed.
Lemma sent_again c k k1 : moved k k1 -> (match c with StateSet _ => False | _ => True end) -> moved k (snd (SendCommand c k1)).
Proof.
  intros M N. eapply moved_trans; [done|]. destruct (SendCommand c k1) as [r k2] eqn:E. eapply send_command_moved; [apply M| |done].
  by destruct c.
Qed.

Lemma accept_moved d h f k r k' : (forall b k k', f b k = Some k' -> calm k k') -> place_ok k -> accept d h f k = Some (r, k') -> moved k k'.
Proof.
  intros F P H. unfold accept in H. apply calm_moved; [|done]. returned; try reflexivity.
  apply F in E5. etransitivity; [exact E5|same].
Qed.

Lemma add_buffer_calm d o n bs k k' : add_buffer d o n bs k = Some k' -> calm k k'.
Proof. unfold add_buffer. intros H. walk. Qed.
Lemma announced_moved d k k1 : calm k k1 -> place_ok k -> moved k (announce_buffers d k1).
Proof.
  intros C P. unfold announce_buffers. set (k2 := if _ && _ && _ then _ else k1).
  assert (calm k k2) as C2 by (subst k2; calmly). clearbody k2.
  destruct (_ && _); [apply sent_again; [|done]|]; by apply calm_moved.
Qed.
Lemma use_moved p n bs k r k' : place_ok k -> UseBuffer p n bs k = Some (r, k') -> moved k k'.
Proof.
  intros P H. unfold UseBuffer in H. returned; try (by apply calm_moved).
  apply announced_moved; [by eapply add_buffer_calm|done].
Qed.
Lemma allocate_moved d n k r k' : place_ok k -> allocate d n k = Some (r, k') -> moved k k'.
Proof. intros P H. unfold allocate in H. returned. apply announced_moved; [by eapply add_buffer_calm|done]. Qed.
Lemma allocate_buffer_moved p n k r k' : place_ok k -> AllocateBuffer p n k = Some (r, k') -> moved k k'.
Proof. intros P H. unfold AllocateBuffer in H. returned; [by eapply allocate_moved|]. apply calm_moved; [same|done]. Qed.
Lemma goes_on_moved k r k' : place_ok k -> allocation_goes_on k = Some (r, k') -> moved k k'.
Proof.
  intros P H. unfold allocation_goes_on in H. returned; try (by apply calm_moved); try (by apply calm_moved; [same|]).
  eapply (calm_then_moved _ (set_waiter (set_client Free) k)); [same|by eapply allocate_moved].
Qed.

Lemma free_slot_calm d i p h k : calm k (free_slot d i p h k).
Proof.
  unfold free_slot. set (k1 := set_headers _ _). assert (calm k k1) as C by (destruct d; same). clearbody k1.
  set (k2 := if _ <? _ then _ else k1). assert (calm k k2) as C2 by (subst k2; calmly). clearbody k2. calmly.
Qed.
#[export] Hint Resolve free_slot_calm : calm.
Lemma free_moved p h k r k' : place_ok k -> FreeBuffer p h k = Some (r, k') -> moved k k'.
Proof.
  intros P H. unfold FreeBuffer in H.
  match type of H with (let '(_, _) := ?o in _) = _ => destruct o as [r1 k1] eqn:E end.
  assert (calm k k1) as C by (repeat case_match; simplify_eq; calmly). clear E.
  set (k2 := if _ && _ && InIdle_goingtoloaded _ then _ else k1) in *.
  assert (calm k k2) as C2 by (subst k2; calmly). clearbody k2. simplify_eq.
  destruct (_ && _); [apply sent_again; [|done]|]; by apply calm_moved.
Qed.

Lemma step_moved e k r k' : answers_ok k -> place_ok k -> orderly e k -> step e k = Some (r, k') -> moved k k'.
Proof.
  intros A P O. destruct e; cbn [step]; intros H.
  - injection H as H. by eapply send_command_moved.
  - returned. by eapply thread_moved.
  - by eapply callback_moved.
  - eapply accept_moved in H; [done| |done]. intros b k1 k2 E. simplify_eq. same.
  - eapply accept_moved in H; [done| |done]. intros b k1 k2 E. returned. repeat case_match; cbn zeta in *; simplify_eq; same.
  - by eapply use_moved.
  - by eapply allocate_buffer_moved.
  - by eapply goes_on_moved.
  - by eapply free_moved.
  - returned. apply calm_moved; [destruct d; same|done].
  - returned. apply calm_moved; [|done]. destruct c; unfold SetConfig, set_dasfmode; calmly.
  - returned. apply calm_moved; [same|done].
Qed.

(** * Runs *)

Fixpoint orderly_run (es : list event) (k : component) : Prop :=
  match es with
  | [] => True
  | e :: es => orderly e k /\ match step e k with Some (_, k1) => orderly_run es k1 | None => True end
  end.

Lemma run_moved es k k' : answers_ok k -> place_ok k -> orderly_run es k -> run es k = Some k' -> moved k k'.
Proof.
  revert k. induction es as [|e es IH]; cbn [run orderly_run]; intros k A P O H; [simplify_eq; by apply calm_moved|].
  destruct O as [O1 O2]. destruct (step e k) as [[r k1]|] eqn:E; [|done].
  apply step_moved in E as M; [|done..]. cbn in H. eapply moved_trans; [exact M|]. by apply IH; [apply M|apply M| |].
Qed.

(** C14: Whatever the client, the thread and the codec do, as long as the codec reports a stop or a pause only while it runs, no
    fault of the memory comes while the thread waits, and Invalid is not requested then: the events that the client received
    lead from Loaded, along the transitions that OpenMAX allows, to the present state, so that the client that follows them knows it. *)
Theorem states_reported answers es k' :
  Forall (fun r => r <> EXIT_COMPONENT_THRD) answers ->
  orderly_run es (OMX_ComponentInit answers) -> run es (OMX_ComponentInit answers) = Some k' ->
  path OMX_StateLoaded (log k') (curState k') /\ forall s, path OMX_StateLoaded (log k') s -> s = curState k'.
Proof.
  intros A O H. apply run_moved in H as [(acts & L & Q) _ _ _]; [|done..].
  cbn in L. subst acts. split; [done|]. intros s Q'. by eapply path_functional.
Qed.

(** The end of the stream is never noted for the output: no buffer that comes from the codec is flagged. *)
Lemma end_never_noted answers es k' :
  Forall (fun r => r <> EXIT_COMPONENT_THRD) answers ->
  orderly_run es (OMX_ComponentInit answers) -> run es (OMX_ComponentInit answers) = Some k' -> bIsEOFSent (flags k') = false.
Proof.
  intros A O H. apply run_moved in H as [_ _ _ F]; [|done..]. destruct (bIsEOFSent (flags k')); [by discriminate F|done].
Qed.

Definition legalb (s t : OMX_STATETYPE) : bool :=
  match s, t with
  | OMX_StateLoaded, (OMX_StateIdle | OMX_StateWaitForResources) | OMX_StateWaitForResources, (OMX_StateLoaded | OMX_StateIdle)
  | OMX_StateIdle, (OMX_StateLoaded | OMX_StateExecuting | OMX_StatePause) | OMX_StateExecuting, (OMX_StateIdle | OMX_StatePause)
  | OMX_StatePause, (OMX_StateIdle | OMX_StateExecuting) => true
  | OMX_StateInvalid, _ => false
  | _, OMX_StateInvalid => true
  | _, _ => false
  end.
Lemma legalb_spec s t : legal s t <-> legalb s t = true.
Proof. split; [by destruct 1 as [| | | | | | | | | | |[]]|]. destruct s, t; intros ?; first [discriminate|by constructor]. Qed.

(** A request for a state is taken, or refused with the error OpenMAX names for it, and then nothing but the error happens:
    the present state once more is the same state, a state that cannot follow the present one an incorrect transition. *)
Lemma requests_refused n s k : state_of_number n = Some s -> curState k = s \/ (curState k <> s /\ ~ legal (curState k) s) ->
  state_set n k = Some (OMX_ErrorNone, emit (Error (if decide (curState k = s) then OMX_ErrorSameState else OMX_ErrorIncorrectStateTransition) 0) k).
Proof.
  rewrite legalb_spec. intros N H. unfold state_set. rewrite N.
  unfold to_idle, to_executing, to_loaded, to_pause, to_wait, to_invalid.
  destruct (curState k) eqn:S, s; cbn in H; try reflexivity; exfalso; destruct H as [?|[? H]]; first [discriminate|by apply H].
Qed.
