(* ===== verification/G711Data.v ===== *)
(** The data of the G.711 decoder: how the stream of the client is cut into frames, what the codec is told of them, and the stamps
    of the input, which come out with the output in their order. *)

From Stdlib Require Import ZArith Lia.
From stdpp Require Import base gmap list list_numbers option tactics.
From S2P Require Import Prelude OmxCore G711Component.
Local Open Scope Z_scope.

(** * Frames *)

(** The data that wait for the rest of their frame. *)
Definition held (k : component) : list Z :=
  match pHoldBuffer k with Some m => take (Z.to_nat (nHoldLength k)) m | None => [] end.
(** The memory for them is there when there are any, and has its size. *)
Record hold_ok (k : component) : Prop := mkHold {
  hold_size : match pHoldBuffer k with Some m => Z.of_nat (length m) = holdBufferSize k | None => nHoldLength k = 0 end;
  hold_length : 0 <= nHoldLength k <= holdBufferSize k
}.

Lemma slice_spec p n (l : list Z) : 0 <= p -> 0 <= n -> p + n <= Z.of_nat (length l) ->
  slice p n l = Some (take (Z.to_nat n) (drop (Z.to_nat p) l)).
Proof. intros. unfold slice. rewrite (proj2 (Z.leb_le 0 n)), (proj2 (Z.leb_le _ _)); done. Qed.
Lemma overwrite_spec p (bs l : list Z) : 0 <= p -> p + Z.of_nat (length bs) <= Z.of_nat (length l) ->
  overwrite p bs l = Some (take (Z.to_nat p) l ++ bs ++ drop (Z.to_nat p + length bs) l).
Proof. intros. unfold overwrite. by rewrite (proj2 (Z.leb_le _ _)). Qed.
Lemma overwritten_length p (bs l : list Z) : 0 <= p -> p + Z.of_nat (length bs) <= Z.of_nat (length l) ->
  length (take (Z.to_nat p) l ++ bs ++ drop (Z.to_nat p + length bs) l) = length l.
Proof. intros. rewrite !length_app, length_take, length_drop. lia. Qed.

Lemma hold_size_range k : 0 <= holdBufferSize k < 2 ^ 32.
Proof. unfold holdBufferSize. apply (uwrap_range 32). lia. Qed.

(** What the hold buffer takes. *)
Lemma held_hold n m k : held (hold n m k) = take (Z.to_nat n) m.
Proof. done. Qed.
Lemma hold_ok_hold n m k : Z.of_nat (length m) = holdBufferSize k -> 0 <= n <= holdBufferSize k -> hold_ok (hold n m k).
Proof. by split. Qed.
Lemma hold_ok_like k k1 : pHoldBuffer k1 = pHoldBuffer k -> nHoldLength k1 = nHoldLength k -> holdBufferSize k1 = holdBufferSize k ->
  hold_ok k -> hold_ok k1.
Proof. intros E1 E2 E3 [H1 H2]. split; by rewrite ?E1, ?E2, ?E3. Qed.
Lemma hold_memory_length k : hold_ok k -> Z.of_nat (length (hold_memory k)) = holdBufferSize k.
Proof.
  intros [H _]. unfold hold_memory. destruct (pHoldBuffer k); [done|]. rewrite length_replicate.
  pose proof (hold_size_range k). lia.
Qed.

Definition data (b : header) : list Z := take (Z.to_nat (nFilledLen b)) (bytes b).

(** A step of the framing: [sent] frames go to the codec in the buffer, the rest is held. *)
Definition framed (h : nat) (b : header) (k : component) (sent : bool) (k' : component) : Prop :=
  let frame := nBufferSize (port_of In k) in
  hold_ok k' /\ sent = (frame <=? nHoldLength k + nFilledLen b) /\
  if sent then exists b', headers k' !! h = Some b' /\ log k' = log k /\
                          held k ++ data b = take (Z.to_nat frame) (bytes b') ++ held k'
  else held k' = held k ++ data b /\ log k' = log k ++ [EmptyBufferDone h].

Section Framing.
Context (h : nat) (b : header) (k : component).
Let frame := nBufferSize (port_of In k).
Hypothesis (Hok : hold_ok k) (Hb : headers k !! h = Some b) (Hpause : is_state OMX_StatePause k = false).
Hypothesis (Hfilled : 0 < nFilledLen b <= Z.of_nat (length (bytes b))) (Hframe : 0 < frame <= Z.of_nat (length (bytes b))).
Hypothesis (Hfits : nHoldLength k + nFilledLen b <= holdBufferSize k).

Lemma held_nothing : nHoldLength k = 0 -> held k = [].
Proof. intros E. unfold held. rewrite E. by case_match. Qed.

(** Nothing is held: what exceeds the frame is kept. *)
Lemma framed_first : nHoldLength k = 0 -> exists sent k', collect h b k = Some (sent, k') /\ framed h b k sent k'.
Proof.
  intros E. pose proof (hold_memory_length k Hok) as Hm. pose proof (hold_size_range k) as R.
  unfold framed, collect. rewrite E, (held_nothing E), Z.add_0_l. fold frame. cbn [Z.eqb].
  destruct (frame <=? nFilledLen b) eqn:C.
  - destruct (0 <? nFilledLen b - frame) eqn:C2.
    + rewrite slice_spec by lia. cbn [mbind option_bind].
      rewrite overwrite_spec by (rewrite ?length_take, ?length_drop; lia). cbn [mbind option_bind].
      eexists _, _. split; [done|]. split; [|split; [done|]].
      * apply hold_ok_hold; [|lia]. rewrite overwritten_length; [done|lia|]. rewrite length_take, length_drop. lia.
      * exists b. split_and!; [done|done|]. rewrite held_hold, take_0. cbn [app].
        rewrite take_app_le by (rewrite length_take, length_drop; lia).
        rewrite take_take, Nat.min_id. unfold data.
        replace (Z.to_nat (nFilledLen b)) with (Z.to_nat frame + Z.to_nat (nFilledLen b - frame))%nat by lia.
        by rewrite <- (take_take_drop _ (Z.to_nat frame)).
    + eexists _, _. split; [done|]. split; [|split; [done|]].
      * destruct Hok as [Hs _]. split; [cbn; destruct (pHoldBuffer k); [done|lia]|].
        change (0 <= nFilledLen b - frame <= holdBufferSize k). lia.
      * exists b. split_and!; [done|done|]. unfold held. cbn. replace (nFilledLen b - frame) with 0 by lia.
        unfold data. replace (nFilledLen b) with frame by lia. destruct (pHoldBuffer k); by rewrite app_nil_r.
  - rewrite slice_spec by lia. cbn [mbind option_bind].
    rewrite overwrite_spec by (rewrite ?length_take, ?length_drop; lia). cbn [mbind option_bind].
    unfold give_back. change (is_state OMX_StatePause (hold _ _ k)) with (is_state OMX_StatePause k). rewrite Hpause.
    eexists _, _. split; [done|]. split; [|split; [done|split; [|done]]].
    + split; [cbn; change (Z.of_nat (length (hold_memory k)) = holdBufferSize k) in Hm|change (0 <= nFilledLen b <= holdBufferSize k); lia].
      rewrite !length_app, !length_take, !length_drop. change (holdBufferSize _) with (holdBufferSize k). lia.
    + unfold held. cbn [nHoldLength pHoldBuffer hold emit set_log set_nHoldLength set_pHoldBuffer app].
      rewrite take_0. cbn [app]. rewrite take_app_le by (rewrite length_take, length_drop; lia).
      by rewrite take_take, Nat.min_id.
Qed.
Lemma data_length : length (data b) = Z.to_nat (nFilledLen b).
Proof. unfold data. rewrite length_take. lia. Qed.
Lemma slice_data : slice 0 (nFilledLen b) (bytes b) = Some (data b).
Proof. by rewrite slice_spec by lia. Qed.
Lemma slice_front n l : 0 <= n <= Z.of_nat (length l) -> slice 0 n l = Some (take (Z.to_nat n) l).
Proof. intros. by rewrite slice_spec by lia. Qed.
Lemma overwrite_front (bs l : list Z) : (length bs <= length l)%nat -> overwrite 0 bs l = Some (bs ++ drop (length bs) l).
Proof. intros. by rewrite overwrite_spec by lia. Qed.

(** The memory with the new data behind the old. *)
Lemma append_held m : pHoldBuffer k = Some m -> exists m1, overwrite (nHoldLength k) (data b) m = Some m1 /\
  Z.of_nat (length m1) = holdBufferSize k /\ take (Z.to_nat (nHoldLength k + nFilledLen b)) m1 = held k ++ data b.
Proof.
  intros Hm. destruct Hok as [Hs Hl]. rewrite Hm in Hs. pose proof data_length as D. eexists. split; [apply overwrite_spec; lia|].
  split; [rewrite overwritten_length; lia|]. unfold held. rewrite Hm, app_assoc. apply take_app_length'.
  rewrite length_app, length_take, D. lia.
Qed.

(** A frame is complete: it goes into the buffer, and the rest moves to the front. *)
Lemma framed_complete m1 : Z.of_nat (length m1) = holdBufferSize k ->
  let n := nHoldLength k + nFilledLen b in frame <= n -> take (Z.to_nat n) m1 = held k ++ data b ->
  exists fr bs rest m2 m3,
    slice 0 frame m1 = Some fr /\ overwrite 0 fr (bytes b) = Some bs /\ slice frame (n - frame) m1 = Some rest /\
    overwrite 0 rest m1 = Some m2 /\
    overwrite (n - frame) (replicate (Z.to_nat (holdBufferSize k - (n - frame))) 0) m2 = Some m3 /\
    Z.of_nat (length m3) = holdBufferSize k /\ held k ++ data b = take (Z.to_nat frame) bs ++ take (Z.to_nat (n - frame)) m3.
Proof.
  intros L n C T. pose proof (hold_length _ Hok). set (fr := take (Z.to_nat frame) m1).
  assert (length fr = Z.to_nat frame) as Lf by (subst fr; rewrite length_take; lia).
  set (rest := take (Z.to_nat (n - frame)) (drop (Z.to_nat frame) m1)).
  assert (length rest = Z.to_nat (n - frame)) as Lr by (subst rest; rewrite length_take, length_drop; lia).
  assert (length (rest ++ drop (length rest) m1) = length m1) as Lm by (rewrite length_app, length_drop; lia).
  eexists fr, _, rest, _, _. split_and!.
  - apply slice_front. lia.
  - apply overwrite_front. lia.
  - apply slice_spec; lia.
  - apply overwrite_front. lia.
  - apply overwrite_spec; rewrite ?length_replicate; lia.
  - rewrite overwritten_length; [lia..|rewrite length_replicate; lia].
  - rewrite take_app_length' by done. rewrite take_app_le by (rewrite length_take; lia). rewrite take_take, Nat.min_id.
    rewrite take_app_length' by done. rewrite <- T. subst fr rest.
    replace (Z.to_nat n) with (Z.to_nat frame + Z.to_nat (n - frame))%nat by lia. by rewrite <- take_take_drop.
Qed.

Lemma framed_more : nHoldLength k <> 0 -> exists sent k', collect h b k = Some (sent, k') /\ framed h b k sent k'.
Proof.
  intros N. pose proof (hold_size_range k) as R. pose proof (hold_length _ Hok) as Hl.
  destruct (pHoldBuffer k) as [m|] eqn:Hm; [|destruct Hok as [Hs _]; by rewrite Hm in Hs].
  destruct (append_held m Hm) as (m1 & E1 & L1 & T1).
  unfold framed, collect. rewrite (proj2 (Z.eqb_neq _ _)), Hm, slice_data by done. fold frame. cbn [mbind option_bind].
  rewrite E1. cbn [mbind option_bind]. rewrite (uwrap_small 32) by lia.
  destruct (frame <=? nHoldLength k + nFilledLen b) eqn:C.
  - destruct (framed_complete m1 L1) as (fr & bs & rest & m2 & m3 & -> & -> & -> & F4 & F5 & L3 & T3); [lia|done|].
    cbn [mbind option_bind]. rewrite F4. cbn [mbind option_bind]. rewrite (proj2 (Z.leb_le _ _)) by lia. rewrite F5. cbn [mbind option_bind].
    eexists _, _. split; [done|]. split; [apply (hold_ok_like (hold (nHoldLength k + nFilledLen b - frame) m3 k)); [done..|apply hold_ok_hold; [done|lia]]|split; [done|]].
    exists (set_bytes bs b). split_and!; [apply lookup_insert_eq|done|exact T3].
  - unfold give_back. change (is_state OMX_StatePause (hold _ _ k)) with (is_state OMX_StatePause k). rewrite Hpause. cbn [mbind option_bind].
    eexists _, _. split; [by change (is_state OMX_StatePause (emit _ _)) with (is_state OMX_StatePause k); rewrite Hpause|].
    split; [apply (hold_ok_like (hold (nHoldLength k + nFilledLen b) m1 k)); [done..|apply hold_ok_hold; [done|lia]]|]. split; [done|]. split; [exact T1|done].
Qed.

Lemma collected : exists sent k', collect h b k = Some (sent, k') /\ framed h b k sent k'.
Proof. destruct (decide (nHoldLength k = 0)); [by apply framed_first|by apply framed_more]. Qed.
End Framing.

(** * To the codec *)

(** What the collection of the data leaves as it is. *)
Record same_rest (k k' : component) : Prop := mkSame {
  same_state : curState k' = curState k; same_handle : pLcmlHandle k' = pLcmlHandle k; same_side : inp k' = inp k;
  same_times : times k' = times k; same_flags : bInitParamsInitialized (flags k') = bInitParamsInitialized (flags k); same_cfg : cfg k' = cfg k; same_replies : replies k' = replies k }.

Lemma collect_sent h b k k' : headers k !! h = Some b -> is_state OMX_StatePause k = false -> collect h b k = Some (true, k') ->
  same_rest k k' /\ exists bs, headers k' = <[h := set_bytes bs b]> (headers k).
Proof.
  intros Hb Hp Hc.
  assert (Hid : exists bs, headers k = <[h := set_bytes bs b]> (headers k)).
  { exists (bytes b). destruct b. cbn. by rewrite insert_id. }
  unfold collect in Hc. destruct (nHoldLength k =? 0).
  - destruct (_ <=? nFilledLen b).
    + destruct (0 <? _); [|by simplify_eq].
      destruct (slice _ _ _); [cbn in Hc|done]. destruct (overwrite _ _ _); [cbn in Hc|done]. by simplify_eq.
    + destruct (slice _ _ _); [cbn in Hc|done]. destruct (overwrite _ _ _); [cbn in Hc|done].
      by destruct (give_back _ _).
  - destruct (pHoldBuffer k); [cbn [mbind option_bind] in Hc|done]. destruct (slice 0 (nFilledLen b) _); [cbn [mbind option_bind] in Hc|done].
    destruct (overwrite (nHoldLength k) _ _); [cbn [mbind option_bind] in Hc|done]. destruct (_ <=? _).
    + repeat (match type of Hc with context [slice ?x ?y ?z] => destruct (slice x y z); [cbn [mbind option_bind] in Hc|done]
              | context [overwrite ?x ?y ?z] => destruct (overwrite x y z); [cbn [mbind option_bind] in Hc|done]
              | context [_ <=? _] => destruct (_ <=? _); [cbn [mbind option_bind] in Hc|done] end).
      simplify_eq. split; [done|]. by eexists.
    + unfold give_back in Hc. change (is_state OMX_StatePause (hold _ _ k)) with (is_state OMX_StatePause k) in Hc.
      rewrite Hp in Hc. cbn [mbind option_bind] in Hc. injection Hc as Hs _. exfalso. revert Hs.
      change (is_state OMX_StatePause (emit _ _)) with (is_state OMX_StatePause k). by rewrite Hp.
Qed.

(** The codec can take the buffer: it was started, the buffer has its header and is not with the codec, and no call of the
    library fails. *)
Record ready (h : nat) (k : component) : Prop := mkReady {
  ready_state : curState k = OMX_StateExecuting;
  ready_handle : pLcmlHandle k = true;
  ready_header : exists i q n, G711DECGetCorresponding_LCMLHeader h In k = Some (Some i) /\ lcml_at In i k = Some q /\ usNbFrames q = Some n;
  ready_free : G711DEC_IsPending h In k = false;
  ready_times : IpBufindex (times k) < Z.of_nat MAX_NUM_OF_BUFS /\ nBufferCountActual (port_of In k) <> 0;
  ready_replies : Forall (fun r => r = OMX_ErrorNone) (replies k) }.

Lemma find_lcml_like h n l i k k' o : (forall x, is_Some (headers k !! x) -> is_Some (headers k' !! x)) ->
  find_lcml h n l i k = Some o -> find_lcml h n l i k' = Some o.
Proof.
  intros Hh. revert l i. induction n as [|n IH]; intros l i; [done|]. cbn [find_lcml]. destruct l as [|q l]; [done|].
  destruct (headers k !! buffer q) eqn:E; [|done]. cbn [mbind option_bind]. destruct (Hh (buffer q)) as [y ->]; [by rewrite E|].
  cbn [mbind option_bind]. destruct (buffer q =? h)%nat; [done|]. apply IH.
Qed.

Lemma ready_like h k k' : same_rest k k' -> (forall x, is_Some (headers k !! x) -> is_Some (headers k' !! x)) -> ready h k -> ready h k'.
Proof.
  intros [S1 S2 S3 S4 S5 S6 S7] Hh [R1 R2 (i & q & n & R3 & R3' & R3'') R4 R5 R6].
  split; [congruence|congruence| | | |congruence].
  - exists i, q, n. split_and!; [|unfold lcml_at in *; cbn [side_of] in *; by rewrite S3|done].
    revert R3. unfold G711DECGetCorresponding_LCMLHeader, list_of. cbn [side_of]. rewrite S5, S3.
    destruct (bInitParamsInitialized (flags k)); [|discriminate]. by apply find_lcml_like.
  - revert R4. unfold G711DEC_IsPending, listed, list_of. cbn [side_of]. by rewrite S3.
  - unfold port_of in *. cbn [side_of] in *. by rewrite S3, S4.
Qed.

Lemma reply_none k : Forall (fun r => r = OMX_ErrorNone) (replies k) ->
  exists rs, reply k = (OMX_ErrorNone, set_replies rs k) /\ Forall (fun r => r = OMX_ErrorNone) rs.
Proof.
  intros Hf. unfold reply. destruct (replies k) as [|r rs] eqn:E.
  - exists []. split; [|done]. destruct k. cbn in *. by subst.
  - apply Forall_cons_iff in Hf as [-> Hf]. by exists rs.
Qed.

(** The bytes in a unit of the codec, and those that it is told of, from the length of the client's buffer. *)
Definition unit_of (k : component) : Z := RTP_Framesize * (ftype (cfg k) + 1).
Definition told (b : header) (k : component) : Z := unit_of k * (nFilledLen b / unit_of k).

(** What the data of the component depend on. *)
Definition same_data (k k' : component) : Prop :=
  headers k' = headers k /\ held k' = held k /\ (hold_ok k -> hold_ok k').

Lemma params_ready h i q nf k : ready h k -> G711DECGetCorresponding_LCMLHeader h In k = Some (Some i) ->
  lcml_at In i k = Some q -> is_Some (usNbFrames q) ->
  exists k' q', frame_params i nf k = Some (OMX_ErrorNone, k') /\ lcml_at In i k' = Some q' /\
    curState k' = curState k /\ pLcmlHandle k' = pLcmlHandle k /\ list_of In k' = list_of In k /\ port_of In k' = port_of In k /\
    times k' = times k /\ cfg k' = cfg k /\ log k' = log k /\ headers k' = headers k /\ pHoldBuffer k' = pHoldBuffer k /\
    nHoldLength k' = nHoldLength k /\ Forall (fun r => r = OMX_ErrorNone) (replies k').
Proof.
  intros [R1 R2 _ R4 R5 R6] Hi Hq [n Hn]. unfold frame_params. rewrite Hq. cbn [mbind option_bind]. rewrite Hn. cbn [mbind option_bind].
  destruct (pFrameParam q && _); [by exists k, q|].
  destruct (reply_none (set_lcml In i (set_pFrameParam true q) k)) as (rs & -> & Hrs); [exact R6|].
  eexists _, (set_pFrameParam true q). split; [done|]. split; [|done].
  unfold lcml_at in *. cbn in *. destruct (pLcmlBufHeader (inp k)) as [l|]; [|done]. cbn in *.
  apply list_lookup_insert_eq. by eapply lookup_lt_Some.
Qed.

Lemma send_ready h len k : curState k = OMX_StateExecuting -> pLcmlHandle k = true -> G711DEC_IsPending h In k = false ->
  Forall (fun r => r = OMX_ErrorNone) (replies k) ->
  exists k', send In h len k = Some (OMX_ErrorNone, k') /\ log k' = log k ++ [Queue In h len] /\ headers k' = headers k /\
    pHoldBuffer k' = pHoldBuffer k /\ nHoldLength k' = nHoldLength k /\ holdBufferSize k' = holdBufferSize k.
Proof.
  intros Hs Hh Hp Hr. unfold send, is_state. rewrite Hs, Hp, bool_decide_eq_true_2 by done. unfold LCML_QueueBuffer.
  change (pLcmlHandle (G711DEC_SetPending h In k)) with (pLcmlHandle k). rewrite Hh.
  destruct (reply_none (emit (Queue In h len) (G711DEC_SetPending h In k))) as (rs & -> & Hrs); [exact Hr|].
  cbn [mbind option_bind]. by eexists.
Qed.

(** A buffer goes to the codec with the length that its own data have. *)
Lemma send_input_ready h b k : ready h k -> headers k !! h = Some b -> nFlags b <> OMX_BUFFERFLAG_EOS -> 0 <= nFilledLen b ->
  0 < unit_of k -> 256 * unit_of k < 2 ^ 32 -> nFilledLen b / unit_of k < 256 ->
  exists k', send_input h k = Some (OMX_ErrorNone, k') /\ log k' = log k ++ [Queue In h (told b k)] /\ same_data k k'.
Proof.
  intros Hr Hb He Hf Hu Hu2 Hq. pose proof Hr as [R1 R2 (i & q & n & R3 & R3' & R3'') R4 R5 R6].
  pose proof (Z.div_pos (nFilledLen b) (unit_of k) ltac:(lia) ltac:(lia)) as Hd.
  unfold send_input. rewrite R3. cbn [mbind option_bind mjoin option_join id]. rewrite R2, Hb. cbn [mbind option_bind].
  change (RTP_Framesize * (ftype (cfg k) + 1)) with (unit_of k). rewrite (uwrap_small 32 (unit_of k)) by lia.
  rewrite (proj2 (Z.eqb_neq _ _)) by lia. cbn [negb]. rewrite (uwrap_small 8) by lia.
  destruct (params_ready h i q (nFilledLen b / unit_of k) k Hr R3 R3' ltac:(by eexists))
    as (k1 & q1 & -> & F2 & F3 & F4 & F5 & F6 & F7 & F8 & F9 & F10 & F11 & F12 & F13).
  cbn [mbind option_bind]. rewrite Z.eqb_refl. cbn [negb]. rewrite (proj2 (Z.eqb_neq _ _)) by done. cbn [andb negb].
  rewrite F2. cbn [mbind option_bind]. unfold note_times.
  change (times (set_lcml In i _ k1)) with (times k1). rewrite F7, (proj2 (Z.ltb_lt _ _)) by apply R5.
  change (port_of In (set_lcml In i _ k1)) with (port_of In k1). rewrite F6, (proj2 (Z.eqb_neq _ _)) by apply R5. cbn [negb mbind option_bind].
  match goal with |- context [send In h _ ?x] => set (k2 := x) end.
  match goal with |- context [send In h ?l k2] => set (len := l) end.
  destruct (send_ready h len k2) as (k3 & S1 & S2 & S3 & S4 & S5 & S6).
  - change (curState k2) with (curState k1). congruence.
  - change (pLcmlHandle k2) with (pLcmlHandle k1). congruence.
  - rewrite <- R4. unfold G711DEC_IsPending, listed. change (list_of In k2) with (list_of In k1). by rewrite F5.
  - exact F13.
  - exists k3. split; [exact S1|]. split; [|split_and!].
    + rewrite S2. change (log k2) with (log k1). rewrite F9. do 3 f_equal. unfold len, told, unit_of in *.
      change (cfg k2) with (cfg k1). rewrite F8. unfold STD_G711DEC_BUF_SIZE, RTP_Framesize in *. rewrite (uwrap_small 32) by nia. lia.
    + rewrite S3. exact F10.
    + unfold held. rewrite S4, S5. change (pHoldBuffer k2) with (pHoldBuffer k1). change (nHoldLength k2) with (nHoldLength k1). by rewrite F11, F12.
    + apply hold_ok_like; [by rewrite S4, <- F11|by rewrite S5, <- F12|]. rewrite S6. unfold holdBufferSize.
      change (port_of In k2) with (port_of In k1). change (list_of In k2) with (list_of In k1). by rewrite F5, F6.
Qed.

Lemma told_frame b k frame : 0 < unit_of k -> frame mod unit_of k = 0 ->
  told b k = frame <-> frame <= nFilledLen b < frame + unit_of k.
Proof.
  intros Hu Hz. unfold told. pose proof (Z.div_mod (nFilledLen b) (unit_of k) ltac:(lia)) as E.
  pose proof (Z.mod_pos_bound (nFilledLen b) (unit_of k) Hu) as B. apply Z.mod_divide in Hz as [m ->]; [|lia].
  set (d := nFilledLen b / unit_of k) in *. set (u := unit_of k) in *. split; [intros; nia|].
  intros. assert (d = m) as -> by nia. lia.
Qed.

Lemma free_listed h k : G711DEC_IsPending h In k = false -> Some h ∈ listed In k.
Proof.
  unfold G711DEC_IsPending. destruct (list_find _ _) as [[i o]|] eqn:E; [|done]. intros _.
  apply list_find_Some in E as (Hl & -> & _). by eapply list_elem_of_lookup_2.
Qed.


(** * Stamps *)

(** A buffer goes to the codec, or one comes back from it. *)
Inductive stamping := Note (b : header) | Done (h : nat).

(** The stamps on their way, the oldest first; what the buffers that come back carry.  At most [n] are on their way. *)
Fixpoint queue_run (n : nat) (ops : list stamping) (q : list (Z * Z)) : option (list (Z * Z) * list (Z * Z)) :=
  match ops with
  | [] => Some (q, [])
  | Note b :: ops => guard* (length q <? n)%nat in queue_run n ops (q ++ [(u32 (nTimeStamp b), nTickCount b)])
  | Done _ :: ops =>
      match q with
      | [] => None
      | x :: q => let* (q, out) := queue_run n ops q in Some (q, x :: out)
      end
  end.

(** The same with the arrays of the component. *)
Definition stamps_of (h : nat) (k : component) : option (Z * Z) := (fun b => (nTimeStamp b, nTickCount b)) <$> headers k !! h.
Fixpoint stamp_run (ops : list stamping) (k : component) : option (component * list (Z * Z)) :=
  match ops with
  | [] => Some (k, [])
  | Note b :: ops => let* k := note_times b k in stamp_run ops k
  | Done h :: ops =>
      let* k := fill_done h k in
      let* x := stamps_of h k in
      let* (k, out) := stamp_run ops k in
      Some (k, x :: out)
  end.

Definition entry (t : stamps) (i : nat) : option (Z * Z) :=
  let* x := arrBufIndex t !! i in let* y := arrBufIndexTick t !! i in Some (x, y).

(** The queue in the arrays, which are used around up to the number of input buffers. *)
Record in_arrays (n : nat) (q : list (Z * Z)) (k : component) : Prop := mkArrays {
  array_count : nBufferCountActual (port_of In k) = Z.of_nat n;
  array_range : (0 < n <= MAX_NUM_OF_BUFS)%nat;
  array_times : length (arrBufIndex (times k)) = MAX_NUM_OF_BUFS;
  array_ticks : length (arrBufIndexTick (times k)) = MAX_NUM_OF_BUFS;
  array_op : exists o, (o < n)%nat /\ OpBufindex (times k) = Z.of_nat o /\
             IpBufindex (times k) = Z.of_nat ((o + length q) `mod` n)%nat /\
             forall i x, q !! i = Some x -> entry (times k) ((o + i) `mod` n)%nat = Some x;
  array_length : (length q <= n)%nat
}.

Lemma around (i n : nat) : (i < n)%nat -> (n <= MAX_NUM_OF_BUFS)%nat -> u8 (Z.of_nat i + 1) mod Z.of_nat n = Z.of_nat (S i `mod` n)%nat.
Proof.
  unfold MAX_NUM_OF_BUFS. intros. rewrite (uwrap_small 8) by lia. by rewrite Nat2Z.inj_mod, Nat2Z.inj_succ.
Qed.

Lemma mod_distinct (o i j n : nat) : (i < j)%nat -> (j < n)%nat -> ((o + i) `mod` n <> (o + j) `mod` n)%nat.
Proof.
  intros ? ? E. pose proof (Nat.div_mod_eq (o + i) n) as Hi. pose proof (Nat.div_mod_eq (o + j) n) as Hj. rewrite E in Hi.
  set (a := ((o + i) / n)%nat) in *. set (c := ((o + j) / n)%nat) in *.
  destruct (decide (c <= a)%nat); [assert (n * c <= n * a)%nat by (by apply Nat.mul_le_mono_l); lia|].
  assert (n * S a <= n * c)%nat by (apply Nat.mul_le_mono_l; lia). lia.
Qed.
Lemma mod_next (o l n : nat) : (0 < n)%nat -> ((S ((o + l) `mod` n)) `mod` n = (o + S l) `mod` n)%nat.
Proof.
  intros. replace (o + S l)%nat with (S (o + l)) by lia. rewrite <- (Nat.add_1_l ((o + l) `mod` n)%nat), <- (Nat.add_1_l (o + l)).
  by rewrite Nat.Div0.add_mod_idemp_r.
Qed.

Lemma note_queues n q b k : in_arrays n q k -> (length q < n)%nat ->
  exists k', note_times b k = Some k' /\ in_arrays n (q ++ [(u32 (nTimeStamp b), nTickCount b)]) k' /\ headers k' = headers k /\ flags k' = flags k.
Proof.
  intros [C [N1 N2] L1 L2 (o & O1 & O2 & I & Q) Lq] F. set (p := ((o + length q) `mod` n)%nat) in *.
  assert (p < n)%nat as P by (apply Nat.mod_upper_bound; lia).
  unfold note_times. rewrite I, C. rewrite (proj2 (Z.ltb_lt _ _)), (proj2 (Z.eqb_neq _ _)) by lia. cbn [negb].
  rewrite (around p n), Nat2Z.id by lia. eexists. split; [done|]. split; [|done]. split; cbn; [done|lia|by rewrite length_insert..| |].
  - exists o. split_and!; [done|done| |].
    + rewrite length_app. cbn. rewrite Nat.add_1_r. subst p. by rewrite mod_next by lia.
    + intros i x H. unfold entry. cbn. apply lookup_app_Some in H as [H|[G H]].
      * pose proof (lookup_lt_Some _ _ _ H). rewrite !list_lookup_insert_ne by (apply not_eq_sym, mod_distinct; lia). by apply Q.
      * destruct (i - length q)%nat eqn:E; [|done]. cbn in H. simplify_eq.
        replace i with (length q) by lia. fold p. by rewrite !list_lookup_insert_eq by lia.
  - rewrite length_app. cbn. lia.
Qed.

Lemma done_dequeues n x q h b k : in_arrays n (x :: q) k -> headers k !! h = Some b -> bIsStopping (flags k) = false ->
  exists k', fill_done h k = Some k' /\ in_arrays n q k' /\ stamps_of h k' = Some x /\
             (forall h', is_Some (headers k' !! h') <-> is_Some (headers k !! h')) /\ bIsStopping (flags k') = false.
Proof.
  intros [C [N1 N2] L1 L2 (o & O1 & O2 & I & Q) Lq] B St. destruct x as [t y].
  assert (entry (times k) o = Some (t, y)) as E.
  { specialize (Q 0%nat _ eq_refl). by rewrite Nat.add_0_r, Nat.mod_small in Q by done. }
  unfold entry in E. destruct (arrBufIndex (times k) !! o) as [t'|] eqn:T; [|done].
  destruct (arrBufIndexTick (times k) !! o) as [y'|] eqn:Y; [|done]. cbn in E. simplify_eq.
  unfold fill_done. rewrite B. cbn [mbind option_bind].
  set (b' := if bIsEOFSent (flags k) then _ else b).
  change (bIsStopping (flags (switch (set_bIsEOFSent false) k))) with (bIsStopping (flags k)). rewrite St.
  change (times (switch (set_bIsEOFSent false) k)) with (times k).
  change (nBufferCountActual (port_of In (switch (set_bIsEOFSent false) k))) with (nBufferCountActual (port_of In k)).
  rewrite O2, Nat2Z.id, T, Y, C. cbn [mbind option_bind]. rewrite (proj2 (Z.eqb_neq _ _)) by lia. cbn [negb].
  rewrite around by lia. eexists. split; [done|]. split; [split; cbn; try done|split_and!].
  - exists (S o `mod` n)%nat. split_and!; [apply Nat.mod_upper_bound; lia|done| |].
    + rewrite I. f_equal. cbn [length]. rewrite Nat.Div0.add_mod_idemp_l. f_equal. lia.
    + intros i x H. specialize (Q (S i) x H). rewrite Nat.Div0.add_mod_idemp_l. by replace (S o + i)%nat with (o + S i)%nat by lia.
  - cbn in Lq. lia.
  - unfold stamps_of. cbn. by rewrite lookup_insert_eq.
  - intros h'. cbn. destruct (decide (h = h')) as [->|]; [rewrite lookup_insert_eq, B; done|by rewrite lookup_insert_ne].
  - done.
Qed.

(** C37: As long as no more stamps are on their way than there are input buffers, the two arrays and their indices are a queue:
    the buffers that come back from the codec carry the stamps of the input in their order, the time in 32 bits. *)
Theorem stamps_in_order n ops q k q' out : in_arrays n q k -> bIsStopping (flags k) = false ->
  (forall h, Done h ∈ ops -> is_Some (headers k !! h)) -> queue_run n ops q = Some (q', out) ->
  exists k', stamp_run ops k = Some (k', out) /\ in_arrays n q' k'.
Proof.
  revert q k out. induction ops as [|[b|h] ops IH]; cbn [queue_run stamp_run]; intros q k out A S H R; [simplify_eq; by eexists| |].
  - destruct (length q <? n)%nat eqn:F; [|done]. apply Nat.ltb_lt in F.
    destruct (note_queues n q b k A F) as (k1 & -> & A1 & H1 & F1). cbn [mbind option_bind].
    apply (IH _ _ _ A1); [by rewrite F1| |done]. intros h Hh. rewrite H1. apply H. by right.
  - destruct q as [|x q]; [done|]. destruct (queue_run n ops q) as [[q1 out1]|] eqn:R1; [|done]. cbn in R. simplify_eq.
    destruct (H h) as [b B]; [by left|]. destruct (done_dequeues n x q h b k A B S) as (k1 & -> & A1 & St & D & S1).
    cbn [mbind option_bind]. rewrite St. cbn [mbind option_bind].
    edestruct IH as (k2 & -> & A2); [exact A1|done| |exact R1|by eexists]. intros h' Hh. apply D, H. by right.
Qed.
