(* ===== verification/G711Idle.v ===== *)
(** From Loaded to Idle: the G.711 decoder that waits for its buffers gets there once the client gave them. *)

From Stdlib Require Import ZArith Lia.
From stdpp Require Import base gmap list list_numbers option tactics.
From S2P Require Import Prelude OmxCore G711Component.
Local Open Scope Z_scope.

(** A slot with a buffer that is there. *)
Definition present (k : component) (o : option nat) : Prop := exists h, o = Some h /\ is_Some (headers k !! h).

Lemma init_headers_total size slots k : Forall (present k) slots ->
  exists hs, init_headers size slots k = Some (set_headers hs k) /\ forall h, is_Some (headers k !! h) -> is_Some (hs !! h).
Proof.
  revert k. induction slots as [|o slots IH]; intros k F; cbn [init_headers].
  - exists (headers k). by destruct k.
  - apply Forall_cons_iff in F as [(h & -> & b & B) F]. cbn [mbind option_bind]. rewrite B. cbn [mbind option_bind].
    assert (forall h', is_Some (headers k !! h') -> is_Some (<[h := init_header size b]> (headers k) !! h')) as D.
    { intros h' ?. destruct (decide (h = h')) as [->|]; [by rewrite lookup_insert_eq|by rewrite lookup_insert_ne]. }
    destruct (IH (set_header h (init_header size b) k)) as (hs & -> & P).
    { eapply Forall_impl; [|exact F]. intros o (h' & -> & ?). exists h'. split; [done|]. by apply D. }
    exists hs. split; [done|]. intros h' ?. apply P. by apply D.
Qed.

Lemma present_insert k k1 h b slots : headers k1 = <[h := b]> (headers k) -> Forall (present k) slots -> Forall (present k1) slots.
Proof.
  intros E F. eapply Forall_impl; [|exact F]. intros o (h' & -> & ?). exists h'. split; [done|]. rewrite E.
  destruct (decide (h = h')) as [->|]; [by rewrite lookup_insert_eq|by rewrite lookup_insert_ne].
Qed.
Lemma take_insert_end {A} (n : nat) (x : A) l : (n < length l)%nat -> take (S n) (<[n := x]> l) = take n l ++ [x].
Proof. intros. rewrite (take_S_r _ _ x) by (by apply list_lookup_insert_eq). by rewrite take_insert_ge by lia. Qed.

Section Supply.
Context (size count : dir -> Z).
Hypothesis (Hcount : forall d, 0 < count d <= Z.of_nat MAX_NUM_OF_BUFS).

(** All buffers of both ports were given. *)
Definition complete (n : dir -> Z) : bool := (n In =? count In) && (n Out =? count Out).

(** The client gave [n] of the buffers; the thread waits for the rest. *)
Record supplying (n : dir -> Z) (k : component) : Prop := mkSupplying {
  sup_state : curState k = OMX_StateLoaded;
  sup_thread : comp_thread (waiting k) = InLoaded (if complete n then Woken else Blocked);
  sup_ready : InLoaded_readytoidle (waiting k) = negb (complete n);
  sup_cfg : dasfmode (cfg k) = 0;
  sup_later : bEnableCommandPending (later k) = false;
  sup_log : log k = [];
  sup_replies : Forall (fun r => r = OMX_ErrorNone) (replies k);
  sup_port d : port_of d k = mkPort true (n d =? count d) (size d) (count d);
  sup_number d : numBuffers (list_of d k) = n d /\ 0 <= n d <= count d;
  sup_slots d : length (pBufHdr (list_of d k)) = MAX_NUM_OF_BUFS /\ Forall (present k) (listed d k)
}.

Definition given (d : dir) (n : dir -> Z) : dir -> Z := fun d' => if decide (d' = d) then n d' + 1 else n d'.

(** One more buffer, before it is announced. *)
Lemma add_buffer_more n k d bs : supplying n k -> n d < count d -> exists k1, add_buffer d false (size d) bs k = Some k1 /\
  curState k1 = curState k /\ waiting k1 = waiting k /\ dasfmode (cfg k1) = dasfmode (cfg k) /\ later k1 = later k /\
  log k1 = log k /\ replies k1 = replies k /\
  forall d', port_of d' k1 = mkPort true (given d n d' =? count d') (size d') (count d') /\
    numBuffers (list_of d' k1) = given d n d' /\ length (pBufHdr (list_of d' k1)) = MAX_NUM_OF_BUFS /\ Forall (present k1) (listed d' k1).
Proof.
  intros H L. destruct (sup_number _ _ H d) as [N R]. specialize (Hcount d) as Hc.
  unfold add_buffer. rewrite N. rewrite (proj2 (Nat.ltb_lt _ _)) by (unfold MAX_NUM_OF_BUFS in *; lia).
  eexists. split; [done|].
  set (h := next_header (cfg k)). set (k1 := set_cfg _ k). set (k2 := set_list d _ k1).
  set (k3 := if _ =? _ then _ else k2).
  assert (port_of d k2 = mkPort true (n d =? count d) (size d) (count d)) as P by (rewrite <- (sup_port _ _ H); by destruct d).
  assert (forall d', d' <> d -> side_of d' k3 = side_of d' k) as O by (intros d' ?; subst k3; case_match; by destruct d, d').
  assert (list_of d k3 = list_of d k2) as E by (subst k3; case_match; by destruct d).
  assert (headers k3 = headers k) as Hh by (subst k3; case_match; by destruct d).
  assert (port_of d k3 = mkPort true (n d + 1 =? count d) (size d) (count d)) as P3.
  { subst k3. rewrite P. cbn. destruct (n d + 1 =? count d); [|rewrite P; f_equal; lia].
    change (port_of d (populate d true k2)) with (port_of d (set_port d (set_bPopulated true (port_of d k2)) k2)).
    rewrite P. by destruct d. }
  split_and!; try (subst k3; case_match; by destruct d).
  set (k4 := set_header h _ k3). assert (headers k4 = <[h := new_header d (size d) bs]> (headers k)) as H4 by (cbn; by rewrite Hh).
  destruct (sup_slots _ _ H d) as [Ls Fs]. unfold listed in Fs. rewrite N in Fs.
  intros d'. unfold given. destruct (decide (d' = d)) as [->|D].
  - assert (port_of d k4 = port_of d k3) as -> by (by destruct d). assert (list_of d k4 = list_of d k3) as El by (by destruct d).
    unfold listed. rewrite El, E, P3. unfold k2.
    assert (forall l, list_of d (set_list d l k1) = l) as -> by (by destruct d). cbn [numBuffers pBufHdr].
    split_and!; [done|lia|by rewrite length_insert|]. replace (Z.to_nat (n d + 1)) with (S (Z.to_nat (n d))) by lia.
    rewrite take_insert_end by (unfold MAX_NUM_OF_BUFS in *; lia). apply Forall_app. split; [by eapply present_insert|].
    apply Forall_singleton. exists h. split; [done|]. by rewrite H4, lookup_insert_eq.
  - assert (side_of d' k4 = side_of d' k) as Es by (rewrite <- (O d' D); by destruct d').
    unfold port_of, listed, list_of. rewrite Es. destruct (sup_slots _ _ H d') as [Ls' Fs'], (sup_number _ _ H d') as [N' _].
    split_and!; [apply (sup_port _ _ H)|done|done|by eapply present_insert].
Qed.

Lemma complete_lt n d : n d < count d -> complete n = false.
Proof. unfold complete. destruct d; intros; lia. Qed.

(** One more buffer: the last one wakes the thread. *)
Lemma use_more n k d bs : supplying n k -> n d < count d -> exists k1, UseBuffer (port_number d) (size d) bs k = Some (OMX_ErrorNone, k1) /\
  supplying (given d n) k1.
Proof.
  intros H L. destruct (add_buffer_more n k d bs H L) as (k1 & A & S1 & W1 & C1 & L1 & G1 & R1 & Q).
  unfold UseBuffer. replace (port_named (port_number d)) with (Some d) by (by destruct d). cbn [mbind option_bind].
  unfold populated. rewrite (sup_port _ _ H d). cbn [bEnabled negb nBufferSize bPopulated].
  rewrite Z.eqb_refl, (proj2 (Z.eqb_neq _ _)) by lia. cbn [negb orb]. rewrite A. cbn [mbind option_bind].
  eexists. split; [done|]. unfold announce_buffers. set (k2 := if _ && _ then _ else k1).
  assert (k2 = if complete (given d n) then wait_in (InLoaded Woken) (set_waiter (set_InLoaded_readytoidle false) k1) else k1) as E2.
  { destruct (Q In) as (PI & _), (Q Out) as (PO & _). subst k2. unfold agrees, complete.
    rewrite PI, PO, W1, (sup_ready _ _ H), (complete_lt n d L). cbn [bPopulated bEnabled negb].
    destruct (given d n In =? count In), (given d n Out =? count Out); try reflexivity. cbn [Bool.eqb andb].
    unfold signal_loaded. cbn. by rewrite W1, (sup_thread _ _ H), (complete_lt n d L). }
  assert (later k2 = later k) as El by (rewrite E2; by destruct (complete _)). rewrite El, (sup_later _ _ H). cbn [andb].
  assert (forall d', side_of d' k2 = side_of d' k1) as Es by (intros []; rewrite E2; by destruct (complete _)).
  split; try (rewrite E2; destruct (complete (given d n)); cbn; rewrite ?S1, ?C1, ?G1, ?R1; apply H).
  - rewrite E2. destruct (complete (given d n)); cbn; [done|]. by rewrite W1, (sup_thread _ _ H), (complete_lt n d L).
  - rewrite E2. destruct (complete (given d n)); cbn; [done|]. by rewrite W1, (sup_ready _ _ H), (complete_lt n d L).
  - by rewrite El, (sup_later _ _ H).
  - unfold port_of. intros d'. rewrite Es. apply Q.
  - unfold list_of. intros d'. rewrite Es. split; [apply Q|].
    destruct (sup_number _ _ H d') as [_ ?]. unfold given. destruct (decide (d' = d)) as [->|]; lia.
  - unfold listed, list_of. intros d'. rewrite Es. destruct (Q d') as (_ & _ & ? & F). split; [done|].
    eapply Forall_impl; [|exact F]. intros o (h & -> & ?). exists h. split; [done|]. rewrite E2. by destruct (complete _).
Qed.

Definition supply (l : list (dir * list Z)) : list event := (fun '(d, bs) => Use (port_number d) (size d) bs) <$> l.
Definition times_of (d : dir) (l : list (dir * list Z)) : Z := Z.of_nat (length (filter (fun x => x.1 = d) l)).

Lemma times_of_cons d x l : times_of d (x :: l) = (if decide (x.1 = d) then 1 else 0) + times_of d l.
Proof. unfold times_of. rewrite filter_cons. destruct (decide (x.1 = d)); cbn [length]; lia. Qed.

(** All buffers, in any order of the ports. *)
Lemma supply_all l n k : supplying n k -> (forall d, n d + times_of d l <= count d) ->
  exists k1 n1, run (supply l) k = Some k1 /\ supplying n1 k1 /\ forall d, n1 d = n d + times_of d l.
Proof.
  revert n k. induction l as [|[d bs] l IH]; intros n k H C.
  - exists k, n. split_and!; [done|done|]. intros d. unfold times_of. cbn [filter list_filter length]. lia.
  - assert (n d < count d) as L.
    { specialize (C d). rewrite times_of_cons in C. cbn [fst] in C. rewrite decide_True in C by done. unfold times_of in C. lia. }
    destruct (use_more n k d bs H L) as (k1 & E & H1).
    destruct (IH (given d n) k1 H1) as (k2 & n2 & R & H2 & N).
    { intros d'. specialize (C d'). rewrite times_of_cons in C. unfold given. cbn [fst] in C. destruct (decide (d' = d)), (decide (d = d')); try done; lia. }
    exists k2, n2. split_and!; [|done|].
    + change (supply ((d, bs) :: l)) with (Use (port_number d) (size d) bs :: supply l). cbn [run step]. rewrite E. exact R.
    + intros d'. rewrite N, times_of_cons. unfold given. cbn [fst]. destruct (decide (d' = d)), (decide (d = d')); try done; lia.
Qed.

(** The client asks for Idle, and the thread begins to wait. *)
Definition asks_idle : list event :=
  [Define In (mkPort true false (size In) (count In)); Define Out (mkPort true false (size Out) (count Out));
   Command (StateSet (state_number OMX_StateIdle)); Turn; Turn].
Lemma asked answers : Forall (fun r => r = OMX_ErrorNone) answers ->
  exists k, run asks_idle (OMX_ComponentInit answers) = Some k /\ supplying (fun _ => 0) k.
Proof.
  intros A. eexists. split; [reflexivity|].
  assert (complete (fun _ => 0) = false) as C by (apply (complete_lt (fun _ => 0) In), Hcount).
  split; try (cbn; rewrite ?C; done).
  - intros d. transitivity (mkPort true false (size d) (count d)); [by destruct d|]. specialize (Hcount d). f_equal. lia.
  - intros d. split; [by destruct d|specialize (Hcount d); lia].
  - intros d. by destruct d.
Qed.

(** The thread goes on when it was woken. *)
Lemma listed_present_mono k hs d : (forall h, is_Some (headers k !! h) -> is_Some (hs !! h)) ->
  Forall (present k) (listed d k) -> Forall (present (set_headers hs k)) (listed d (set_headers hs k)).
Proof.
  intros D F. replace (listed d (set_headers hs k)) with (listed d k) by (by destruct d).
  eapply Forall_impl; [|exact F]. intros o (h & -> & ?). exists h. split; [done|by apply D].
Qed.
Lemma replied_none k : Forall (fun r => r = OMX_ErrorNone) (replies k) ->
  exists rs, reply k = (OMX_ErrorNone, set_replies rs k) /\ Forall (fun r => r = OMX_ErrorNone) rs.
Proof.
  unfold reply. intros F. destruct (replies k) as [|r rs] eqn:E; [exists []; split; [destruct k; cbn in E; by subst|constructor]|].
  apply Forall_cons_iff in F as [-> ?]. by exists rs.
Qed.
Lemma filled_params p n k : Forall (present k) (listed In k) -> Forall (present k) (listed Out k) ->
  exists k1, fill_params p n k = Some k1 /\ log k1 = log k /\ replies k1 = replies k /\ waiting k1 = waiting k /\
             dasfmode (cfg k1) = dasfmode (cfg k) /\ forall d, list_of d k1 = list_of d k.
Proof.
  intros FI FO. unfold fill_params. destruct (init_headers_total (nBufferSize (port_of In k)) (listed In k) k FI) as (hs & -> & D).
  cbn [mbind option_bind]. set (k1 := set_lcml_list In _ (set_headers hs k)).
  assert (Forall (present k1) (listed Out k1)) as FO1 by (apply (listed_present_mono k hs Out D FO)).
  destruct (init_headers_total (nBufferSize (port_of Out k1)) (listed Out k1) k1 FO1) as (hs1 & -> & _).
  cbn [mbind option_bind]. eexists. split; [done|]. split_and!; try done. by intros [].
Qed.

Lemma woken n k : supplying n k -> (forall d, n d = count d) ->
  exists k', run [Turn] k = Some k' /\ curState k' = OMX_StateIdle /\ comp_thread (waiting k') = Running /\
    pLcmlHandle k' = true /\ log k' = [Init; CmdComplete OMX_CommandStateSet (state_number OMX_StateIdle)] /\
    forall d, numBuffers (list_of d k') = count d.
Proof.
  intros H N. assert (complete n = true) as C by (unfold complete; rewrite !N; lia).
  cbn [run step]. unfold ComponentThread. rewrite (sup_thread _ _ H), C. unfold idle_from_loaded.
  destruct (replied_none (wait_in Running k) (sup_replies _ _ H)) as (rs & -> & F).
  cbn [negb Z.eqb OMX_ErrorNone]. set (k1 := set_replies rs (wait_in Running k)).
  destruct (filled_params (Some 0) (numBuffers (list_of In k1)) k1) as (k2 & E & L & R & W & Da & Ls).
  { apply (sup_slots _ _ H In). }
  { apply (sup_slots _ _ H Out). }
  unfold G711DECFill_LCMLInitParams. rewrite E. cbn [mbind option_bind].
  destruct (replied_none (emit Init (set_pLcmlHandle true k2))) as (rs' & -> & F'); [cbn; by rewrite R|].
  cbn [negb Z.eqb OMX_ErrorNone]. cbn [dasfmode cfg enter emit goto set_log set_curState set_replies set_pLcmlHandle].
  rewrite Da. cbn [k1 set_replies wait_in set_waiter cfg set_waiting]. rewrite (sup_cfg _ _ H). cbn.
  assert (log k2 = []) as L2 by (rewrite L; apply (sup_log _ _ H)).
  eexists. split; [done|]. cbn. rewrite W, L2. split_and!; try done.
  intros d. transitivity (numBuffers (list_of d k2)); [by destruct d|]. rewrite Ls, <- N.
  rewrite <- (proj1 (sup_number _ _ H d)). by destruct d.
Qed.

Lemma run_app es1 es2 k : run (es1 ++ es2) k = let* k := run es1 k in run es2 k.
Proof.
  revert k. induction es1 as [|e es1 IH]; intros k; [done|]. cbn [app run]. destruct (step e k) as [[r k1]|]; [|done].
  cbn [mbind option_bind]. apply IH.
Qed.

(** C22: When the thread waits for the buffers of both ports, the client that gives them all, in any order of the ports, brings the
    component to Idle: the codec is initialised, and the client is told once; the thread is ready for the next command. *)
Theorem idle_reached answers l : Forall (fun r => r = OMX_ErrorNone) answers -> (forall d, times_of d l = count d) ->
  exists k', run (asks_idle ++ supply l ++ [Turn]) (OMX_ComponentInit answers) = Some k' /\
    curState k' = OMX_StateIdle /\ comp_thread (waiting k') = Running /\ pLcmlHandle k' = true /\
    log k' = [Init; CmdComplete OMX_CommandStateSet (state_number OMX_StateIdle)] /\
    forall d, numBuffers (list_of d k') = count d.
Proof.
  intros A T. destruct (asked answers A) as (k & R & H).
  destruct (supply_all l (fun _ => 0) k H) as (k1 & n & R1 & H1 & N); [intros d; rewrite T; lia|].
  rewrite run_app, R. cbn [mbind option_bind]. rewrite run_app, R1. cbn [mbind option_bind].
  apply (woken n); [done|]. intros d. by rewrite N, T.
Qed.
End Supply.
