(* ===== verification/G711Samples.v ===== *)
(** Runs of the G.711 decoder: witnesses of its theorems, and behaviour that looks unintended. *)

From Stdlib Require Import ZArith Lia.
From stdpp Require Import base gmap list list_numbers option tactics.
From S2P Require Import Prelude OmxCore G711Component G711States G711Data G711Idle.
Local Open Scope Z_scope.

(** One buffer for each port, the mode of the file system, and the codec is started. *)
Definition zeros (n : nat) : list Z := replicate n 0.
Definition to_state (s : OMX_STATETYPE) : event := Command (StateSet (state_number s)).
Definition two_buffers : list event := [Use 0 80 (zeros 80); Use 1 160 (zeros 160)].
Definition starting : list event := [to_state OMX_StateIdle; Turn; Turn] ++ two_buffers ++ [Turn; to_state OMX_StateExecuting; Turn].
Definition after (es : list event) : option component := run es (OMX_ComponentInit []).

(** * Witnesses *)

Definition session : list event :=
  starting ++ [Fill 1; Turn; to_state OMX_StatePause; Turn; Callback ProcessingPaused; to_state OMX_StateLoaded; Turn;
               to_state OMX_StateExecuting; Turn; to_state OMX_StateIdle; Turn; Callback ProcessingStoped;
               to_state OMX_StateLoaded; Turn; Turn; FreeIt 0 0; FreeIt 1 1; Turn].
Definition ended (o : option component) : component := match o with Some k => k | None => OMX_ComponentInit [] end.

Example session_states : curState <$> after session = Some OMX_StateLoaded.
Proof. reflexivity. Qed.

Lemma states_reported_witness : exists k', after session = Some k' /\ path OMX_StateLoaded (log k') (curState k').
Proof.
  exists (ended (after session)). split; [vm_compute; reflexivity|].
  apply (proj1 (states_reported [] session (ended (after session)) ltac:(constructor)
    ltac:(vm_compute; repeat split; discriminate) ltac:(vm_compute; reflexivity))).
Defined.

Lemma requests_refused_witness :
  state_set 4 (OMX_ComponentInit []) = Some (OMX_ErrorNone, emit (Error OMX_ErrorIncorrectStateTransition 0) (OMX_ComponentInit [])).
Proof.
  apply (requests_refused 4 OMX_StatePause (OMX_ComponentInit []) eq_refl). right. split; [discriminate|]. rewrite legalb_spec. discriminate.
Defined.

(** The component in Executing, with 100 bytes of the client in its input buffer. *)
Definition executing : component := ended (after starting).
Definition bytes_100 : list Z := seqZ 0 100.
Definition big_buffer : header := set_nFilledLen 100 (set_bytes bytes_100 (new_header In 100 (zeros 100))).
Definition with_data : component := set_header 0 big_buffer executing.


(** Two input buffers, and stamps for them. *)
Definition two_inputs : component := ended (after [Define In (mkPort true false 80 2); Use 0 80 (zeros 80); Use 1 160 (zeros 160)]).
Definition at_time (t : Z) : header := stamped 0 t (new_header In 80 (zeros 80)).
Definition stampings : list stamping := [Note (at_time 5); Note (at_time (2 ^ 32 + 7)); Done 1; Note (at_time 9); Done 1].

Lemma no_stamps : in_arrays 2 [] two_inputs.
Proof.
  split; [reflexivity|unfold MAX_NUM_OF_BUFS; lia|reflexivity|reflexivity| |cbn; lia].
  exists 0%nat. split_and!; [lia|reflexivity|reflexivity|done].
Qed.
Lemma stamps_in_order_witness : exists k', stamp_run stampings two_inputs = Some (k', [(5, 0); (7, 0)]) /\ in_arrays 2 [(9, 0)] k'.
Proof.
  apply (stamps_in_order 2 stampings [] two_inputs [(9, 0)] [(5, 0); (7, 0)] no_stamps eq_refl); [|vm_compute; reflexivity].
  intros h Hh. assert (h = 1%nat) as ->; [|eexists; vm_compute; reflexivity].
  rewrite list_elem_of_In in Hh. cbn in Hh. destruct_or!; by simplify_eq.
Defined.

Definition sizes (d : dir) : Z := match d with In => 80 | Out => 160 end.
Definition counts (d : dir) : Z := match d with In => 2 | Out => 1 end.
Definition three_buffers : list (dir * list Z) := [(In, zeros 80); (Out, zeros 160); (In, zeros 80)].
Lemma idle_reached_witness : exists k', run (asks_idle sizes counts ++ supply sizes three_buffers ++ [Turn]) (OMX_ComponentInit []) = Some k' /\
  curState k' = OMX_StateIdle /\ comp_thread (waiting k') = Running /\ pLcmlHandle k' = true /\
  log k' = [Init; CmdComplete OMX_CommandStateSet (state_number OMX_StateIdle)] /\ forall d, numBuffers (list_of d k') = counts d.
Proof.
  apply (idle_reached sizes counts); [intros []; vm_compute; split; congruence|constructor|by intros []].
Defined.

(** * Behaviour that looks unintended *)

Lemma stays es k n : after es = Some k -> run [Turn] k = Some k -> after (es ++ replicate n Turn) = Some k.
Proof.
  intros E T. unfold after in *. rewrite run_app, E. cbn [mbind option_bind]. induction n as [|n IH]; [done|].
  cbn [replicate run] in *. destruct (step Turn k) as [[r k1]|]; [|done]. cbn in T. simplify_eq. exact IH.
Qed.

(** The thread notes that it will wait before it takes the lock: a client that gives the last buffer in between signals to nobody, and
    no later turn goes on. *)
Definition late_supply : list event := [to_state OMX_StateIdle; Turn] ++ two_buffers ++ [Turn].
Lemma lost_wakeup n : exists k, after (late_supply ++ replicate n Turn) = Some k /\
  curState k = OMX_StateLoaded /\ comp_thread (waiting k) = InLoaded Blocked /\ InLoaded_readytoidle (waiting k) = false.
Proof.
  exists (ended (after late_supply)). split; [apply stays; vm_compute; reflexivity|]. vm_compute. auto.
Qed.

(** A stop of the codec that is reported after a fault of its memory undoes Invalid. *)
Example fault_undone : (fun k => (curState k, log k)) <$> run [Callback MmuFault; Callback ProcessingStoped] (set_log [] executing)
  = Some (OMX_StateIdle, [Error OMX_ErrorInvalidState 1; CmdComplete OMX_CommandStateSet (state_number OMX_StateIdle)]).
Proof. reflexivity. Qed.

(** A frame from two halves is queued without length: the number of frames is taken from the second half. *)
Definition fill_input (n : nat) (k : component) : component :=
  set_header 0 (set_nFilledLen (Z.of_nat n) (default big_buffer (headers k !! 0%nat))) k.
Example frame_of_halves :
  (let* k := run [Empty 0; Turn] (fill_input 40 (set_log [] executing)) in log <$> run [Empty 0; Turn] (fill_input 40 k))
  = Some [EmptyBufferDone 0; Queue In 0 0].
Proof. vm_compute. reflexivity. Qed.

(** One port alone is not disabled while the other keeps its buffers. *)
Example disable_waits : (fun k => (bDisableCommandPending (later k), cmdPipe k, log k))
  <$> run [Command (PortDisable 0); Turn; FreeIt 0 0; Turn] (set_log [] executing) = Some (true, [], []).
Proof. reflexivity. Qed.

(** The end of the component in Idle: the thread clears the request, and goes on. *)
Definition end_in_idle : list event := [to_state OMX_StateIdle; Turn; Turn] ++ two_buffers ++ [Turn; DeInit; Turn].
Lemma deinit_in_idle n : exists k, after (end_in_idle ++ replicate n Turn) = Some k /\
  comp_thread (waiting k) = Running /\ bIsStopping (flags k) = false.
Proof.
  exists (ended (after end_in_idle)). split; [apply stays; vm_compute; reflexivity|]. vm_compute. auto.
Qed.

(** A flush hands back buffers that the client has, and leaves those with the codec pending. *)
Example flush_of_all : log <$> run [Command (Flush OMX_ALL); Turn] (set_log [] executing)
  = Some [EmptyBufferDone 0; CmdComplete OMX_CommandFlush 0; FillBufferDone 1; CmdComplete OMX_CommandFlush 1].
Proof. reflexivity. Qed.

(** A buffer that the thread meets in Idle is kept by nobody. *)
Example buffer_lost : (fun k => (dataPipe k, pBufHdrPending (outp k) !! 0%nat, log k))
  <$> run [to_state OMX_StateIdle; Turn; Fill 1; Callback ProcessingStoped; Turn] (set_log [] executing)
  = Some ([], Some None, [Control MMCodecControlStop; CmdComplete OMX_CommandStateSet (state_number OMX_StateIdle)]).
Proof. reflexivity. Qed.

(** The first of two buffers freed: the list has a hole, which a flush reads. *)
Example hole_in_list :
  (let* k := after ([Define In (mkPort true false 80 2); Use 0 80 (zeros 80)] ++ two_buffers ++ [to_state OMX_StateIdle; Turn; FreeIt 0 0]) in
   run [Command (Flush 0); Turn] k) = None.
Proof. reflexivity. Qed.

(** After both ports were enabled anew, the next input reads a parameter that is not there. *)
Example enabled_without_params :
  (let* k := run [Command (PortEnable OMX_ALL); Turn] executing in run [Empty 0; Turn] (fill_input 80 k)) = None.
Proof. vm_compute. reflexivity. Qed.

(** The codec does not start: the client is not told. *)
Example start_fails : (fun k => (curState k, log k))
  <$> run [to_state OMX_StateIdle; Turn; Turn; Use 0 80 (zeros 80); Use 1 160 (zeros 160); Turn; to_state OMX_StateExecuting; Turn]
        (OMX_ComponentInit [OMX_ErrorNone; OMX_ErrorNone; OMX_ErrorHardware])
  = Some (OMX_StateIdle, [Init; CmdComplete OMX_CommandStateSet (state_number OMX_StateIdle); Control EMMCodecControlStart]).
Proof. reflexivity. Qed.

(** The last data, less than a frame, with what was held a full one: the flag of the end is written before the first frame. *)
Example end_before_frame :
  (let* k := run [Empty 0; Turn] (fill_input 40 executing) in
   let k := fill_input 40 k in
   run [Empty 0; Turn] (set_header 0 (set_nFlags OMX_BUFFERFLAG_EOS (default big_buffer (headers k !! 0%nat))) k)) = None.
Proof. vm_compute. reflexivity. Qed.

(** The eleventh buffer is written beyond the array. *)
Example eleven_buffers : after (Define In (mkPort true false 80 12) :: replicate 11 (Use 0 80 (zeros 80))) = None.
Proof. vm_compute. reflexivity. Qed.

(** A pause in the middle of a frame keeps the buffer twice. *)
Example kept_twice : (fun k => take 3 (pBufHdrPending (inp k)))
  <$> (let* k := run [Empty 0; Turn; to_state OMX_StatePause; Turn; Callback ProcessingPaused] (fill_input 20 executing) in
       run [Empty 0; Turn] (fill_input 20 k)) = Some [Some 0%nat; Some 0%nat; None].
Proof. vm_compute. reflexivity. Qed.
